(* ===== verification/_CoqProject ===== *)
-Q . S2P
Prelude.v
ListHead.v
Zone.v
Buddy.v
BuddyInv.v
BuddyProofs.v
BuddyInit.v
BuddySpec.v
Allocator.v
Manager.v
Mm.v
MmProofs.v
MmInit.v
MmBoot.v
Slab.v
SlabProofs.v
SlabInv.v
SlabGrow.v
SlabFree.v
SlabCreate.v
Ports.v
Str.v
Task.v
Serial.v
Exceptions.v
Console.v
Interrupts.v
Descriptors.v
Disk.v
BufferCache.v
BufferProofs.v
SlabHeap.v
Blocks.v
Layout.v
Ufs.v
UfsProofs.v
InodeProofs.v
Boot.v
BootProofs.v
Ext2Layout.v
Mkfs.v
MkfsProofs.v
Ext2Balloc.v
BallocProofs.v
Ext2Fs.v
Ext2FsProofs.v
Ext2Path.v
Vfs.v
Dcache.v
DcacheProofs.v
FileTable.v
Super.v
Namei.v
NameiProofs.v
VfsInode.v
Ext2Vfs.v
VfsInv.v
Ext2VfsProofs.v
