(* ===== verification/Prelude.v ===== *)
(** * Yega kernel: verification library (root file)

    Yega is a small i686 kernel in C.  Its memory managers, drivers, buffer
    cache and file systems are modelled here as executable functions, one per C
    function, and proved correct - or, where the code does something else than
    it means to, proved to do what it does.

    ** The program, bottom up, and where it is modelled (sources under src/)

    - Prelude: [outcome] (a C function returns, faults, or keeps looping), the
      error monad, machine integers [u8] to [s32], flag macros, bit lemmas.
    - ListHead: data_structures/list.c and include/list.h, intrusive rings over
      a store of nodes; [is_list] is the abstract list of a ring.
    - Zone, Buddy, BuddyInv, BuddyProofs, BuddyInit, BuddySpec: page descriptors
      (include/zone.h, page.h, mm.h) and memory-management/buddy.c.  [buddy_inv]
      ties the free lists of the zone to abstract lists of free blocks; BuddySpec
      has the contract: initialisation, allocation, release, and a client that
      allocates and frees in any order and never shares a page.
    - Allocator: the boot heap (memory-management/allocator.c).
    - Manager: memory detection (memory-management/manager.c, multiboot.h).
    - Mm, MmProofs, MmInit, MmBoot: page frames, page tables, mem_map and the
      zone (memory-management/mm.c); the theorems follow an address through the
      page tables and a frame through allocation and release, and the whole of
      init_mem from the memory map to the buddy system.
    - Slab, SlabProofs: memory-management/slab.c; [cache_inv] is the invariant of
      one object cache, kept by kmem_cache_alloc and kmem_cache_free.
    - SlabInv, SlabGrow, SlabFree, SlabCreate, SlabHeap: the slab allocator as a
      whole.  [slab_inv] is the invariant of all caches over one zone - who owns
      which page, slab, object and descriptor -; growth with descriptors on and
      off the slab, creation of caches and kmem_cache_init keep it; SlabFree has
      the release of an object, with slab_destroy; SlabHeap makes the
      allocator the instance of the interface its clients are proved against.
    - Ports: port instructions, cli/sti and console text as the class [PortIO]
      (kernel/system.c, include/io_access.h) all drivers are written against.
    - Disk: drivers/disk.c; the class [AtaDevice] says what a drive promises,
      [ata_instance] is a drive that keeps it.
    - Serial: drivers/serial.c with printk, over the class of a 16550 UART;
      [describes] gives the texts a format and its arguments stand for by the
      value of their numerals.
    - Exceptions: the report of kernel/idt/isr/exceptions.c on the serial port.
    - Console: kernel/display/vga_display.c and drivers/keyboard.c.
    - Interrupts: kernel/idt/pic/pic.c, drivers/pit/pit.c, drivers/timer.c,
      kernel/idt/irq/irq.c, over the class of a pair of 8259 controllers.
    - Descriptors: kernel/gdt/gdt.c, kernel/idt/idt.c with the crash report.
    - Task: kernel/task.c.  Str: kernel/string.c and memcpy over byte memory.
    - BufferCache, BufferProofs: fs/buffer.c, and the block transfers of
      fs/ext2/fs.c.  [cache_ok] is the invariant of the cache; Blocks gives its
      clients the view [quiet]: every cached block with its bytes, held or free.
    - Layout: C structs as bytes; the structs of include/ufs.h; [dinode_view] is
      what C sees of an inode, member by member at its offset.
    - Ufs, UfsProofs, InodeProofs: fs/ufs/ufs.c, the file system the kernel is
      built with; [icache_ok] is the invariant of its inode cache.
    - Boot, BootProofs: kernel/kernel.c.  [kernel_main] composes the models in the
      order of the code; [boot_done] is the state of its idle loop.
    - Ext2Layout: the structs of include/fs.h, as instances of the class
      [CStruct] of packed structs, whose laws give one codec for all of them.
    - Mkfs, MkfsProofs: fs/ext2/mkfs.c; [block_image] is what a formatted disk
      holds in every block, and mkfs_layout that mkfs refines it.
    - Ext2Balloc, BallocProofs: fs/ext2/ext2_balloc.c; [bm_bit] reads a bitmap,
      [mounted] is the state read_fs is meant to establish.
    - Ext2Fs, Ext2FsProofs: mounting, inode table, indirect blocks, directories
      and superblock of fs/ext2/fs.c, write_inode_table of ext2_inode.c.
    - Ext2Path: split_path, ls, mkdir and rmdir of fs/ext2/fs.c on the strings of
      Str; [walk_from_root] is the walk over the components, and
      split_path_correct says that split_path is this walk; mkdir_correct puts
      mkdir together from it.
    - Vfs: the objects of include/vfs.h - dentries, inodes, open files,
      superblocks, their list nodes - and the classes [InodeOps], [FileOps] and
      [SuperOps] of the tables of function pointers.
    - Dcache, DcacheProofs: fs/ext2/dcache.c; [dcache_ok] is the invariant of the
      hash queues.  FileTable: fs/ext2/file.c.  Super: fs/ext2/super.c.
    - Namei, NameiProofs: fs/ext2/namei.c; [resolve] follows the components of a
      path abstractly, [path_components] cuts the path.
    - VfsInode: fs/ext2/vfs.c, the inode cache and the operation wrappers.
    - Ext2Vfs: ext2_inode.c, ext2_dir.c, ext2_file.c and the mount callbacks of
      fs.c, which fill the tables.  VfsInv: the invariant [bare] of all runs of
      the VFS, kept by each entry point; Ext2VfsProofs: the theorems on runs,
      mounting, reading, seeking, unmounting and open.

    ** How the components meet

    The page allocator serves the slab allocator (Slab calls the operations of
    Buddy on the same zone) and the task state (Task).  The buffer cache takes
    its memory through the class [KAlloc] and its laws [KAllocSpec]: fresh
    objects of at most [KA_MAX] bytes as long as there is room.  The slab
    allocator is an instance ([slab_kalloc], with the laws proved in SlabHeap for
    the whole path of a request; room for n requests is 2 n free pages), and
    kernel_main runs on it; BufferProofs has a bump allocator for the witnesses.
    The laws of [KFree] and [KCacheFree], which the VFS uses besides, are
    discharged by that simple allocator only.  The file systems
    call the buffer cache and, for whole blocks, the disk driver, whose
    behaviour is the class [AtaDevice]; a theorem proved against a class holds
    for every instance, and the witnesses run on concrete ones.  The VFS is
    parametric in the rest of the kernel: it allocates through [KAlloc],
    [KFree] and [KCacheFree], and calls a file system through the operation
    classes.  Ext2Vfs instantiates both sides: the rest of the kernel is the
    ext2 state with its buffer cache, and the operation classes have the ext2
    functions as instances, so that path lookup, open, read and iput run
    through ext2 down to the disk.

    ** What the theorems show

    - Invariants and functional behaviour: an operation returns, its result is
      the specified one on every branch, and the invariant of its component
      holds again (buddy, slab, boot heap, buffer cache, inode cache).
    - Round trips: allocate and free, write and read, encode and decode, printed
      numbers parsed back, iget and iput.
    - Refinement: mkfs implements the image of a formatted disk; printk sends
      a text its format describes; path lookup gives what the abstract
      resolution of the path gives; split_path walks through its components.
      Equivalence: where the byte-wise bitmap search agrees with a search bit
      by bit, and what it returns where it does not.
    - Whole runs: a client of the page allocator, and any sequence of calls of
      the VFS, as steps with an invariant; kernel_main from the multiboot
      information to the idle loop, on a machine with the memory it needs
      ([machine_ok] of MmBoot; the boot heap sets a limit at about 113 MB) on
      which no hardware interrupt is taken.
    - Error behaviour: what the code does where it departs from its purpose,
      stated as theorems about the same definitions (see the findings).

    ** Faults, fuel and bounds

    A read or write through NULL or outside an object, an uninitialised
    variable that is used, an object that was freed, and a division by zero are
    [Fault].  A loop over a
    finite structure recurses on its length, or on a number that bounds it
    (size of the node store for list walks, 11 orders for the buddy system,
    length of a buffer for the drivers, characters of a path, bytes asked for
    of a file), so it never runs out; file_loops_terminate proves it for the
    loops whose progress is not structural, with the outcome of running out as
    a parameter.  A busy wait
    recurses on fuel and gives [Spin] when the fuel ends; theorems about
    devices assume that the fuel is at least the bound the device class
    promises ([patience_bound]) and conclude [Ret], and theorems about waits
    that never end hold for every fuel.  Integers are [Z] with the wrap-around
    of their C type written where the code can overflow.

    ** Not modelled, and why

    - Boot code, context switch, interrupt stubs, loading of CR0/CR3, GDT, IDT
      and the task register: assembly.
    - Aliasing of memory through two addresses: the boot heap, the frames and
      the image are separate stores, and the identity map and the map at
      PAGE_OFFSET are two ways to the same frame only in the theorems on page
      tables.
    - kmem_cache_create leaves colour_next of a descriptor as it is in memory; the
      theorems on the whole slab allocator assume that it is 0 there.
    - Progress messages of printk, and functions that only display; the text of
      printk itself, of the console and of display_sb is modelled.
    - Slots of operation tables that nothing calls (llseek, open, fsync, link).
    - The taking of interrupts: functions are sequential.  Interrupts touch the
      tick counter, the screen and the ports only, and irq_handler is modelled as
      a function; but disk.c enables interrupts while trap_init has installed no
      gate for the vectors 32 to 47 (Descriptors), so a hardware interrupt taken
      during or after the boot raises a general protection instead - outputs/out.txt
      has the reports.  No theorem on the boot covers such a run.
    - Unmapped memory: the stores of the slab allocator and of its clients do
      not fault, although count_pgdir_entries leaves the last frames of the zone
      (total mod 1024) out of the page tables (last_frames_unmapped of MmProofs)
      and the buddy system hands them out.
    - Errors of the drive: by the class [AtaDevice] it has every sector and
      completes every command; the error branches of disk.c only print. *)

From Stdlib Require Export ZArith Lia.
From stdpp Require Export base tactics decidable option numbers gmap list.

#[global] Open Scope Z_scope.

(** Symbolic arithmetic stays folded under [simpl]. *)
#[global] Arguments Z.testbit : simpl never.
#[global] Arguments Z.pow : simpl never.
#[global] Arguments Z.land : simpl never.
#[global] Arguments Z.lor : simpl never.
#[global] Arguments Z.lxor : simpl never.
#[global] Arguments Z.shiftl : simpl never.
#[global] Arguments Z.shiftr : simpl never.
#[global] Arguments Z.modulo : simpl never.
#[global] Arguments Z.div : simpl never.
#[global] Arguments Z.mul : simpl never.
#[global] Arguments Z.add : simpl never.
#[global] Arguments Z.sub : simpl never.
#[global] Arguments Z.of_nat : simpl never.
#[global] Arguments Z.to_nat : simpl never.

(** ** Outcomes of C code

    A C function of the kernel either returns, faults (NULL dereference,
    access outside the object, division by zero) or keeps looping: a busy
    wait is run with fuel, and [Spin] says that the fuel ran out before the
    loop did. *)

Inductive outcome (A : Type) : Type :=
| Ret (a : A)
| Fault
| Spin.
Arguments Ret {A} a.
Arguments Fault {A}.
Arguments Spin {A}.

#[global] Instance outcome_ret : MRet outcome := fun A a => Ret a.
#[global] Instance outcome_bind : MBind outcome := fun A B f m =>
  match m with
  | Ret a => f a
  | Fault => Fault
  | Spin => Spin
  end.

#[global] Instance outcome_eq_dec `{EqDecision A} : EqDecision (outcome A).
Proof. solve_decision. Defined.

(** A missing cell of a store is a fault. *)
Definition deref {A} (o : option A) : outcome A :=
  match o with Some a => Ret a | None => Fault end.

Lemma bind_Ret_inv {A B} (m : outcome A) (f : A -> outcome B) b :
  m ≫= f = Ret b -> exists a, m = Ret a /\ f a = Ret b.
Proof. destruct m; simpl; intros; try discriminate. eauto. Qed.

(** Steps over a returned value without unfolding what follows it. *)
Lemma bind_Ret {A B} (a : A) (f : A -> outcome B) : Ret a ≫= f = f a.
Proof. done. Qed.

Lemma bind_mret {A B} (a : A) (f : A -> outcome B) : (mret a : outcome A) ≫= f = f a.
Proof. done. Qed.

(** Steps over all returned values at the head of the goal. *)
Ltac bind_rets := repeat first [rewrite bind_Ret | rewrite bind_mret].

Lemma mapM_Ret {A B} (g : A -> outcome B) l :
  (forall x, x ∈ l -> exists y, g x = Ret y) -> exists r, mapM g l = Ret r.
Proof.
  induction l as [|x l IH]; intros Hall; [by exists []|].
  destruct (Hall x) as (y & Hy); [left|]. destruct IH as (r & Hr); [intros; apply Hall; by right|].
  exists (y :: r). simpl. by rewrite Hy, bind_Ret, Hr.
Qed.

Lemma deref_Ret {A} (o : option A) a : deref o = Ret a <-> o = Some a.
Proof. destruct o; simpl; split; congruence. Qed.

(** Decomposes a hypothesis [m1 ≫= f = Ret b] into its steps. *)
Ltac inv_outcome :=
  repeat match goal with
  | H : Ret _ = Ret _ |- _ => injection H as H; try subst
  | H : Fault = Ret _ |- _ => discriminate H
  | H : Spin = Ret _ |- _ => discriminate H
  | H : mret _ = Ret _ |- _ => injection H as H; try subst
  | H : deref _ = Ret _ |- _ => apply deref_Ret in H
  | H : _ ≫= _ = Ret _ |- _ =>
      let a := fresh "r" in let H1 := fresh "Hstep" in
      apply bind_Ret_inv in H as (a & H1 & H)
  end.

(** ** Machine integers (i686: [int], [long] and pointers are 32 bits) *)

Definition u8 (x : Z) : Z := x mod 2 ^ 8.
Definition u16 (x : Z) : Z := x mod 2 ^ 16.
Definition u32 (x : Z) : Z := x mod 2 ^ 32.
Definition s32 (x : Z) : Z := (x + 2 ^ 31) mod 2 ^ 32 - 2 ^ 31.

Lemma u8_range x : 0 <= u8 x < 2 ^ 8.
Proof. apply Z.mod_pos_bound. lia. Qed.
Lemma u16_range x : 0 <= u16 x < 2 ^ 16.
Proof. apply Z.mod_pos_bound. lia. Qed.
Lemma u32_range x : 0 <= u32 x < 2 ^ 32.
Proof. apply Z.mod_pos_bound. lia. Qed.
Lemma u8_small x : 0 <= x < 2 ^ 8 -> u8 x = x.
Proof. apply Z.mod_small. Qed.
Lemma u16_small x : 0 <= x < 2 ^ 16 -> u16 x = x.
Proof. apply Z.mod_small. Qed.
Lemma u32_small x : 0 <= x < 2 ^ 32 -> u32 x = x.
Proof. apply Z.mod_small. Qed.
Lemma s32_small x : - 2 ^ 31 <= x < 2 ^ 31 -> s32 x = x.
Proof. intros. unfold s32. rewrite Z.mod_small; lia. Qed.
Lemma u32_add_l a b : u32 (u32 a + b) = u32 (a + b).
Proof. apply Zplus_mod_idemp_l. Qed.
Lemma u32_sub_add a b : u32 (u32 (a + b) - b) = u32 a.
Proof. unfold u32. rewrite Zminus_mod_idemp_l. f_equal. lia. Qed.

Lemma s32_range w : - 2 ^ 31 <= s32 w < 2 ^ 31.
Proof. unfold s32. pose proof (Z.mod_pos_bound (w + 2 ^ 31) (2 ^ 32)). lia. Qed.
Lemma s32_u32 w : s32 (u32 w) = s32 w.
Proof. unfold s32, u32. by rewrite Zplus_mod_idemp_l. Qed.

Create HintDb yega.
Create Rewrite HintDb yega.
#[export] Hint Resolve u8_range u16_range u32_range : yega.
#[export] Hint Rewrite u8_small u16_small u32_small s32_small using lia : yega.

(** ** Flag macros of mm.h *)

Definition CLEAR_FLAG (var flag : Z) : Z := Z.land var (u32 (Z.lnot flag)).
Definition SET_FLAG (var flag : Z) : Z := Z.lor var flag.
Definition IS_FLAG (var flag : Z) : bool := Z.land var flag =? flag.

(** ** Bits: the facts on [&], [|], [^] with a power of two *)

Lemma testbit_pow2 k n : 0 <= k -> Z.testbit (2 ^ k) n = (k =? n).
Proof. intros. apply Z.pow2_bits_eqb; lia. Qed.

(** Case analysis on a bit index, on both sides of an equation of Z. *)
Ltac bits_eq n Hn :=
  apply Z.bits_inj'; intros n Hn;
  rewrite ?Z.land_spec, ?Z.lor_spec, ?Z.lxor_spec, ?Z.ldiff_spec,
    ?testbit_pow2 by lia.

Lemma is_flag_pow2 w k : 0 <= k -> IS_FLAG w (2 ^ k) = Z.testbit w k.
Proof.
  intros Hk. unfold IS_FLAG. apply eq_true_iff_eq. rewrite Z.eqb_eq. split; intros E.
  - apply (f_equal (fun x => Z.testbit x k)) in E.
    rewrite Z.land_spec, testbit_pow2, Z.eqb_refl in E by lia. by destruct (Z.testbit w k).
  - bits_eq n Hn. destruct (Z.eqb_spec k n) as [<-|]; [by rewrite E|by rewrite andb_false_r].
Qed.

Lemma setbit_add i k : 0 <= k -> Z.testbit i k = false -> Z.lor i (2 ^ k) = i + 2 ^ k.
Proof.
  intros Hk Hb. symmetry. apply Z.add_nocarry_lor. bits_eq n Hn. rewrite Z.bits_0.
  destruct (Z.eqb_spec k n); subst; rewrite ?Hb, ?andb_false_r; done.
Qed.

Lemma lxor_pow2_clear i k :
  0 <= k -> Z.testbit i k = false -> Z.lxor i (2 ^ k) = i + 2 ^ k.
Proof.
  intros Hk Hb. rewrite <- setbit_add by done. bits_eq n Hn.
  destruct (Z.eqb_spec k n); subst; rewrite ?Hb; [done|by rewrite xorb_false_r, orb_false_r].
Qed.

Lemma lxor_pow2_set i k :
  0 <= k -> Z.testbit i k = true -> Z.lxor i (2 ^ k) = i - 2 ^ k.
Proof.
  intros Hk Hb.
  assert (Hc : Z.testbit (Z.lxor i (2 ^ k)) k = false).
  { rewrite Z.lxor_spec, testbit_pow2, Hb, Z.eqb_refl by lia. done. }
  pose proof (lxor_pow2_clear _ k Hk Hc) as Heq.
  rewrite Z.lxor_assoc, Z.lxor_nilpotent, Z.lxor_0_r in Heq. lia.
Qed.

Lemma land_lxor_pow2_clear i k :
  0 <= k -> Z.testbit i k = false -> Z.land i (Z.lxor i (2 ^ k)) = i.
Proof.
  intros Hk Hb. bits_eq n Hn.
  destruct (Z.eqb_spec k n); subst; rewrite ?Hb; [done|].
  rewrite xorb_false_r. by destruct (Z.testbit i n).
Qed.

Lemma land_lxor_pow2_set i k :
  0 <= k -> Z.testbit i k = true -> Z.land i (Z.lxor i (2 ^ k)) = i - 2 ^ k.
Proof.
  intros Hk Hb. rewrite <- lxor_pow2_set by done. bits_eq n Hn.
  destruct (Z.eqb_spec k n); subst; rewrite ?Hb; [done|].
  rewrite xorb_false_r. by destruct (Z.testbit i n).
Qed.

(** Whether bit [k] of a multiple of [2^k] is set is the parity of the quotient. *)
Lemma testbit_mul_pow2 q k : 0 <= k -> Z.testbit (q * 2 ^ k) k = Z.odd q.
Proof. intros. rewrite Z.mul_pow2_bits by lia. rewrite Z.sub_diag. apply Z.bit0_odd. Qed.

(** [x & ~(2^k - 1)] on 32 bits rounds down to a multiple of [2^k]. *)
Lemma land_mask32 x k :
  0 <= x < 2 ^ 32 -> 0 <= k <= 32 ->
  Z.land x (Z.ldiff (Z.ones 32) (Z.ones k)) = x - x mod 2 ^ k.
Proof.
  intros Hx Hk.
  assert (E : Z.land x (Z.ldiff (Z.ones 32) (Z.ones k)) = Z.ldiff x (Z.ones k)).
  { apply Z.bits_inj'. intros n Hn. rewrite Z.land_spec, !Z.ldiff_spec.
    destruct (decide (n < 32)).
    - rewrite (Z.ones_spec_low 32) by lia. by destruct (Z.testbit x n).
    - replace x with (x mod 2 ^ 32) by (apply Z.mod_small; lia).
      rewrite (Z.mod_pow2_bits_high x) by lia. done. }
  rewrite E, Z.ldiff_ones_r, Z.shiftl_mul_pow2, Z.shiftr_div_pow2 by lia.
  assert (2 ^ k <> 0) by (apply Z.pow_nonzero; lia). pose proof (Z.div_mod x (2 ^ k)). lia.
Qed.

(** A small number fills the low bits of a multiple of [2^k]. *)
Lemma lor_low q r k : 0 <= k -> 0 <= r < 2 ^ k -> Z.lor (q * 2 ^ k) r = q * 2 ^ k + r.
Proof.
  intros Hk Hr. symmetry. apply Z.add_nocarry_lor. apply Z.bits_inj'. intros n Hn.
  rewrite Z.land_spec, Z.bits_0. destruct (decide (n < k)).
  - by rewrite Z.mul_pow2_bits_low by lia.
  - replace r with (r mod 2 ^ k) by (apply Z.mod_small; lia).
    by rewrite (Z.mod_pow2_bits_high r), andb_false_r by lia.
Qed.

Lemma filter_agree {A} (P Q : A -> Prop) `{!forall x, Decision (P x), !forall x, Decision (Q x)} (l : list A) :
  (forall x, x ∈ l -> P x <-> Q x) -> filter P l = filter Q l.
Proof.
  induction l as [|x l IH]; intros Hl; [done|]. rewrite !filter_cons.
  pose proof (Hl x ltac:(left)). rewrite IH by (intros; apply Hl; by right).
  repeat case_decide; naive_solver.
Qed.

(** A property of the first [n] integers, by evaluation. *)
Lemma forall_seqZ (P : Z -> Prop) `{!forall i, Decision (P i)} n :
  bool_decide (Forall P (seqZ 0 n)) = true -> forall i, 0 <= i < n -> P i.
Proof.
  intros Hall%bool_decide_eq_true i Hi. rewrite Forall_forall in Hall. apply Hall, elem_of_seqZ. lia.
Qed.
