(* ===== verification/ListHead.v ===== *)
(** * Intrusive doubly linked lists (data_structures/list.c, include/list.h)

    [struct list_head] nodes live in a store [gmap K (list_head K)]; [K] is the
    type of node addresses of the client (the address of an embedded
    [list_head] determines the object that contains it, which is what
    [list_entry] computes).  A pointer is an [option K], [None] being NULL;
    every read or write through NULL or outside the store is a [Fault].

    [is_list h hd xs] says that the ring through the dummy node [hd] holds
    the nodes [xs], in order, in both directions.  The theorems give the
    effect of every operation of list.c on that abstract list and the nodes
    it leaves untouched. *)

From S2P Require Import Prelude.

Record list_head (K : Type) := mk_list_head { next : option K; prev : option K }.
Arguments mk_list_head {K} _ _.
Arguments next {K} _.
Arguments prev {K} _.

Section list_ops.
Context {K : Type} `{Countable K}.
Implicit Types (h : gmap K (list_head K)) (p q : option K) (a b k : K).

(** ** Field accesses through a pointer *)

Definition get_next p h : outcome (option K) :=
  a ← deref p; n ← deref (h !! a); mret (next n).
Definition get_prev p h : outcome (option K) :=
  a ← deref p; n ← deref (h !! a); mret (prev n).
Definition set_next p v h : outcome (gmap K (list_head K)) :=
  a ← deref p; n ← deref (h !! a); mret (<[a := mk_list_head v (prev n)]> h).
Definition set_prev p v h : outcome (gmap K (list_head K)) :=
  a ← deref p; n ← deref (h !! a); mret (<[a := mk_list_head (next n) v]> h).

(** ** The operations of list.c *)

Definition INIT_LIST_HEAD p h : outcome (gmap K (list_head K)) :=
  h ← set_next p p h; set_prev p p h.

Definition INIT_LIST_NULL p h : outcome (gmap K (list_head K)) :=
  h ← set_next p None h; set_prev p None h.

Definition generic_add beg mid end_ h : outcome (gmap K (list_head K)) :=
  h ← set_next mid end_ h;
  h ← set_prev mid beg h;
  h ← set_next beg mid h;
  set_prev end_ mid h.

Definition generic_del mid h : outcome (gmap K (list_head K)) :=
  nx ← get_next mid h;
  pv ← get_prev mid h;
  h ← set_prev nx pv h;
  pv ← get_prev mid h;
  nx ← get_next mid h;
  set_next pv nx h.

Definition list_add head new h : outcome (gmap K (list_head K)) :=
  nx ← get_next head h; generic_add head new nx h.

Definition list_add_tail head new h : outcome (gmap K (list_head K)) :=
  pv ← get_prev head h; generic_add pv new head h.

Definition list_del entry h : outcome (gmap K (list_head K)) :=
  h ← generic_del entry h; INIT_LIST_NULL entry h.

Definition list_del_init entry h : outcome (gmap K (list_head K)) :=
  h ← generic_del entry h; INIT_LIST_HEAD entry h.

Definition list_is_empty head h : outcome bool :=
  nx ← get_next head h;
  pv ← get_prev head h;
  mret (bool_decide (nx = head) && bool_decide (pv = head)).

(** [list_for_each]: the nodes visited by the loop, with fuel. *)
Fixpoint list_for_each_from (fuel : nat) pos head h : outcome (list K) :=
  if bool_decide (pos = head) then mret []
  else match fuel with
       | O => Spin
       | S fuel =>
           a ← deref pos;
           nx ← get_next pos h;
           l ← list_for_each_from fuel nx head h;
           mret (a :: l)
       end.
Definition list_for_each (fuel : nat) head h : outcome (list K) :=
  nx ← get_next head h; list_for_each_from fuel nx head h.

(** [list_for_each_del] with [list_del] as its body (free_buddy_system). *)
Fixpoint list_del_all_from (fuel : nat) temp save head h : outcome (gmap K (list_head K)) :=
  if bool_decide (temp = head) then mret h
  else match fuel with
       | O => Spin
       | S fuel =>
           h ← list_del temp h;
           nx ← get_next save h;
           list_del_all_from fuel save nx head h
       end.
Definition list_del_all (fuel : nat) head h : outcome (gmap K (list_head K)) :=
  temp ← get_next head h;
  save ← get_next temp h;
  list_del_all_from fuel temp save head h.

(** ** The abstract list *)

Definition hnext h k : option K := h !! k ≫= next.
Definition hprev h k : option K := h !! k ≫= prev.

Fixpoint path h (l : list K) : Prop :=
  match l with
  | a :: ((b :: _) as l') => hnext h a = Some b /\ hprev h b = Some a /\ path h l'
  | _ => True
  end.

Definition is_list h (hd : K) (xs : list K) : Prop :=
  NoDup (hd :: xs) /\ path h (hd :: xs ++ [hd]).

(** *** Lookups after a field update *)

Lemma set_next_spec a v h :
  is_Some (h !! a) ->
  exists h', set_next (Some a) v h = Ret h' /\ dom h' = dom h /\
    (forall k, hnext h' k = if decide (k = a) then v else hnext h k) /\
    (forall k, hprev h' k = hprev h k) /\
    (forall k, k <> a -> h' !! k = h !! k).
Proof.
  intros [n Hn]. eexists. split; [unfold set_next; simpl; rewrite Hn; done|].
  split; [by rewrite dom_insert_lookup_L|].
  split_and!; intros k; unfold hnext, hprev.
  - rewrite lookup_insert. repeat case_decide; simplify_eq; done.
  - rewrite lookup_insert. case_decide; simplify_eq; rewrite ?Hn; done.
  - intros. by rewrite lookup_insert_ne.
Qed.

Lemma set_prev_spec a v h :
  is_Some (h !! a) ->
  exists h', set_prev (Some a) v h = Ret h' /\ dom h' = dom h /\
    (forall k, hprev h' k = if decide (k = a) then v else hprev h k) /\
    (forall k, hnext h' k = hnext h k) /\
    (forall k, k <> a -> h' !! k = h !! k).
Proof.
  intros [n Hn]. eexists. split; [unfold set_prev; simpl; rewrite Hn; done|].
  split; [by rewrite dom_insert_lookup_L|].
  split_and!; intros k; unfold hnext, hprev.
  - rewrite lookup_insert. repeat case_decide; simplify_eq; done.
  - rewrite lookup_insert. case_decide; simplify_eq; rewrite ?Hn; done.
  - intros. by rewrite lookup_insert_ne.
Qed.

Lemma hnext_in_dom h k b : hnext h k = Some b -> is_Some (h !! k).
Proof. unfold hnext. destruct (h !! k); naive_solver. Qed.
Lemma hprev_in_dom h k b : hprev h k = Some b -> is_Some (h !! k).
Proof. unfold hprev. destruct (h !! k); naive_solver. Qed.
Lemma in_dom_eq h h' k : dom h' = dom h -> is_Some (h !! k) -> is_Some (h' !! k).
Proof. rewrite <- !elem_of_dom. by intros ->. Qed.

Lemma get_next_hnext h a b : hnext h a = Some b -> get_next (Some a) h = Ret (Some b).
Proof. unfold hnext, get_next. simpl. destruct (h !! a); simpl; [by intros ->|done]. Qed.
Lemma get_prev_hprev h a b : hprev h a = Some b -> get_prev (Some a) h = Ret (Some b).
Proof. unfold hprev, get_prev. simpl. destruct (h !! a); simpl; [by intros ->|done]. Qed.

(** *** Paths *)

Lemma path_cons h a b l :
  path h (a :: b :: l) <-> hnext h a = Some b /\ hprev h b = Some a /\ path h (b :: l).
Proof. done. Qed.

Lemma path_app h l1 a l2 : path h (l1 ++ a :: l2) <-> path h (l1 ++ [a]) /\ path h (a :: l2).
Proof.
  induction l1 as [|x l1 IH]; [simpl; naive_solver|].
  destruct l1 as [|y l1]; [simpl; naive_solver|].
  change ((x :: y :: l1) ++ ?l) with (x :: y :: (l1 ++ l)) in *.
  change ((y :: l1) ++ ?l) with (y :: (l1 ++ l)) in IH.
  cbn [path]. rewrite IH. cbn [path]. naive_solver.
Qed.

Lemma path_frame h h' l :
  (forall k, k ∈ removelast l -> hnext h' k = hnext h k) ->
  (forall k, k ∈ tail l -> hprev h' k = hprev h k) ->
  path h l -> path h' l.
Proof.
  induction l as [|a l IH]; [done|]. destruct l as [|b l]; [done|].
  intros Hn Hp (H1 & H2 & H3). cbn [path]. split_and!.
  - rewrite Hn; [done|]. simpl. left.
  - rewrite Hp; [done|]. simpl. left.
  - apply IH; [| |done].
    + intros k Hk. apply Hn. change (k ∈ a :: removelast (b :: l)). by right.
    + intros k Hk. apply Hp. simpl in *. by right.
Qed.

(** The last node of [hd :: l1] and the first of [l2 ++ [hd]]: the two
    neighbours between which [generic_add] links a new node. *)
Lemma ring_split hd l1 l2 :
  exists L1 a b L2, hd :: l1 = L1 ++ [a] /\ l2 ++ [hd] = b :: L2.
Proof.
  destruct (exists_last (l := hd :: l1)) as (L1 & a & ->); [done|].
  destruct l2 as [|b l2]; simpl; eauto 10.
Qed.

Lemma tail_in (l : list K) k : k ∈ tail l -> k ∈ l.
Proof. destruct l; simpl; [done|by right]. Qed.

(** *** Insertion between two neighbours of a ring *)

Definition dom_frame (h h' : gmap K (list_head K)) (ks : list K) : Prop :=
  dom h' = dom h /\ forall k, k ∉ ks -> h' !! k = h !! k.

(** What the neighbours [a], [b] of the insertion point are and are not. *)
Lemma ring_neighbours hd (l1 l2 L1 L2 : list K) a b :
  NoDup (hd :: l1 ++ l2) -> hd :: l1 = L1 ++ [a] -> l2 ++ [hd] = b :: L2 ->
  a ∈ hd :: l1 /\ (a ∉ L1) /\ (a ∉ l2) /\ b ∈ hd :: l2 /\ (b ∉ l1) /\ (b ∉ L2).
Proof.
  intros Hnd E1 E2. change (NoDup ((hd :: l1) ++ l2)) in Hnd.
  pose proof Hnd as Hnd'. rewrite E1 in Hnd'.
  apply NoDup_app in Hnd' as (Ha & Hal2 & _). apply NoDup_app in Ha as (_ & Ha & _).
  apply NoDup_app in Hnd as (Hhd & Hd & Hl2). apply NoDup_cons in Hhd as [Hhd _].
  split_and!.
  - rewrite E1. apply elem_of_app. right. left.
  - intros Hin. apply (Ha _ Hin). left.
  - apply Hal2. apply elem_of_app. right. left.
  - destruct l2; simplify_eq/=; [left|right; left].
  - destruct l2 as [|b' l2]; simplify_eq/=; [done|].
    intros Hin. apply (Hd b); [by right|left].
  - destruct l2 as [|b' l2]; simplify_eq/=; [apply not_elem_of_nil|].
    apply NoDup_cons in Hl2 as [Hb _]. rewrite elem_of_app, list_elem_of_singleton.
    intros [?| ->]; [done|]. apply (Hd hd); left.
Qed.

(** The four writes of [generic_add], as one update of both directions. *)
Lemma generic_add_writes h a n b :
  is_Some (h !! a) -> is_Some (h !! n) -> is_Some (h !! b) -> n <> a -> n <> b ->
  exists h', generic_add (Some a) (Some n) (Some b) h = Ret h' /\ dom h' = dom h /\
    (forall k, hnext h' k = if decide (k = a) then Some n
                            else if decide (k = n) then Some b else hnext h k) /\
    (forall k, hprev h' k = if decide (k = b) then Some n
                            else if decide (k = n) then Some a else hprev h k) /\
    (forall k, k <> a -> k <> n -> k <> b -> h' !! k = h !! k).
Proof.
  intros Hda Hdn Hdb Hna Hnb.
  destruct (set_next_spec n (Some b) h Hdn) as (h1 & R1 & D1 & N1 & P1 & F1).
  destruct (set_prev_spec n (Some a) h1) as (h2 & R2 & D2 & P2 & N2 & F2);
    [eauto using in_dom_eq|].
  destruct (set_next_spec a (Some n) h2) as (h3 & R3 & D3 & N3 & P3 & F3);
    [eauto using in_dom_eq|].
  destruct (set_prev_spec b (Some n) h3) as (h4 & R4 & D4 & P4 & N4 & F4);
    [eauto 10 using in_dom_eq|].
  exists h4. split_and!.
  - unfold generic_add. rewrite R1. simpl. rewrite R2. simpl. rewrite R3. simpl. done.
  - congruence.
  - intros k. rewrite N4, N3. case_decide; [done|]. by rewrite N2, N1.
  - intros k. rewrite P4. case_decide; [done|]. by rewrite P3, P2, P1.
  - intros k ???. rewrite F4, F3, F2, F1; done.
Qed.

Lemma generic_add_spec h hd l1 l2 L1 a b L2 n :
  is_list h hd (l1 ++ l2) -> n ∉ (hd :: l1 ++ l2) -> is_Some (h !! n) ->
  hd :: l1 = L1 ++ [a] -> l2 ++ [hd] = b :: L2 ->
  exists h', generic_add (Some a) (Some n) (Some b) h = Ret h' /\
    is_list h' hd (l1 ++ n :: l2) /\ dom_frame h h' (n :: hd :: l1 ++ l2).
Proof.
  intros [Hnd Hpath] Hn Hdom E1 E2.
  assert (Hring : hd :: (l1 ++ l2) ++ [hd] = L1 ++ a :: b :: L2).
  { rewrite <- app_assoc, E2, app_comm_cons, E1, <- app_assoc. done. }
  rewrite Hring in Hpath. apply path_app in Hpath as [Hp1 Hp2].
  apply path_cons in Hp2 as (Hab & Hba & Hp2).
  destruct (ring_neighbours hd l1 l2 L1 L2 a b Hnd E1 E2)
    as (Ha & HaL1 & Hal2 & Hb & Hbl1 & HbL2).
  assert (Hsub : forall k, k ∈ (hd :: l1) \/ k ∈ (hd :: l2) -> k ∈ (hd :: l1 ++ l2)).
  { intros k. rewrite !elem_of_cons, elem_of_app. tauto. }
  assert (Hneq : forall k, k ∈ (hd :: l1) \/ k ∈ (hd :: l2) -> n <> k) by (intros ?? ->; eauto).
  destruct (generic_add_writes h a n b) as (h' & R & D & Nx & Pv & F);
    [eauto using hnext_in_dom|done|eauto using hprev_in_dom|eauto|eauto|].
  exists h'. split; [done|]. split; [split|split; [done|]].
  - rewrite app_comm_cons, <- Permutation_middle. by constructor.
  - rewrite <- app_assoc, app_comm_cons, E1, <- app_assoc. simpl. rewrite E2.
    apply path_app. split; [|rewrite !path_cons, !Nx, !Pv; split_and!];
      rewrite ?decide_True by done; try done;
      rewrite ?decide_False, ?decide_True by eauto; try done.
    + rewrite <- E1 in *. eapply path_frame; [| |exact Hp1].
      * intros k Hk. rewrite E1, removelast_last in Hk. rewrite Nx, !decide_False; [done| |].
        -- intros ->. eapply (Hneq n); [|done]. left. rewrite E1. apply elem_of_app. by left.
        -- by intros ->.
      * intros k Hk. simpl in Hk. rewrite Pv, !decide_False; [done| |by intros ->].
        intros ->. eapply (Hneq n); [|done]. left. by right.
    + eapply path_frame; [| |exact Hp2].
      * intros k Hk. rewrite <- E2, removelast_last in Hk.
        rewrite Nx, !decide_False; [done| |by intros ->].
        intros ->. eapply (Hneq n); [|done]. right. by right.
      * intros k Hk. simpl in Hk. rewrite Pv, !decide_False; [done| |by intros ->].
        intros ->. eapply (Hneq n); [|done]. right.
        assert (Hin : n ∈ l2 ++ [hd]) by (rewrite E2; by right).
        apply elem_of_app in Hin as [?|?]; [by right|]. rewrite list_elem_of_singleton in *. subst. left.
  - intros k Hk. apply F; intros ->; apply Hk; [right; eauto|left|right; eauto].
Qed.

Lemma list_add_spec h hd xs n :
  is_list h hd xs -> n ∉ hd :: xs -> is_Some (h !! n) ->
  exists h', list_add (Some hd) (Some n) h = Ret h' /\
    is_list h' hd (n :: xs) /\ dom_frame h h' (n :: hd :: xs).
Proof.
  intros Hl Hn Hd. destruct (ring_split hd [] xs) as (L1 & a & b & L2 & E1 & E2).
  destruct (generic_add_spec h hd [] xs L1 a b L2 n) as (h' & R & Hl' & Hf); [done..|].
  assert (a = hd) as -> by (destruct L1 as [|? []]; naive_solver).
  exists h'. split; [|done]. unfold list_add.
  destruct Hl as [_ Hp]. rewrite E2 in Hp. apply path_cons in Hp as [Hnx _].
  by rewrite (get_next_hnext _ _ _ Hnx).
Qed.

Lemma list_add_tail_spec h hd xs n :
  is_list h hd xs -> n ∉ hd :: xs -> is_Some (h !! n) ->
  exists h', list_add_tail (Some hd) (Some n) h = Ret h' /\
    is_list h' hd (xs ++ [n]) /\ dom_frame h h' (n :: hd :: xs).
Proof.
  intros Hl Hn Hd. destruct (ring_split hd xs []) as (L1 & a & b & L2 & E1 & E2).
  destruct (generic_add_spec h hd xs [] L1 a b L2 n) as (h' & R & Hl' & Hf);
    rewrite ?app_nil_r in *; [done..|].
  injection E2 as <- <-. exists h'. split; [|done]. unfold list_add_tail.
  destruct Hl as [_ Hp]. rewrite app_comm_cons, E1, <- app_assoc in Hp.
  apply path_app in Hp as [_ Hp]. apply path_cons in Hp as (_ & Hpv & _).
  by rewrite (get_prev_hprev _ _ _ Hpv).
Qed.

(** *** Removal *)

Lemma generic_del_spec h hd l1 n l2 :
  is_list h hd (l1 ++ n :: l2) ->
  exists h', generic_del (Some n) h = Ret h' /\ h' !! n = h !! n /\
    is_list h' hd (l1 ++ l2) /\ dom_frame h h' (hd :: l1 ++ l2).
Proof.
  intros [Hnd Hp]. destruct (ring_split hd l1 l2) as (L1 & a & b & L2 & E1 & E2).
  rewrite app_comm_cons, <- Permutation_middle in Hnd. apply NoDup_cons in Hnd as [Hn Hnd].
  destruct (ring_neighbours hd l1 l2 L1 L2 a b Hnd E1 E2)
    as (Ha & HaL1 & Hal2 & Hb & Hbl1 & HbL2).
  rewrite <- app_assoc, <- app_comm_cons, E2, app_comm_cons, E1, <- app_assoc in Hp.
  apply path_app in Hp as [Hp1 Hp2].
  apply path_cons in Hp2 as (Han & Hna & Hp2). apply path_cons in Hp2 as (Hnb & Hbn & Hp2).
  assert (Hsub : forall k, k ∈ hd :: l1 \/ k ∈ hd :: l2 -> k ∈ hd :: l1 ++ l2).
  { intros k. rewrite !elem_of_cons, elem_of_app. tauto. }
  assert (Hneq : forall k, k ∈ hd :: l1 \/ k ∈ hd :: l2 -> k <> n) by (intros ?? ->; eauto).
  destruct (set_prev_spec b (Some a) h) as (h1 & R1 & D1 & P1 & N1 & F1);
    [eauto using hprev_in_dom|].
  destruct (set_next_spec a (Some b) h1) as (h2 & R2 & D2 & N2 & P2 & F2);
    [eauto using hnext_in_dom, in_dom_eq|].
  assert (Hn1 : hnext h1 n = Some b) by by rewrite N1.
  assert (Hp1' : hprev h1 n = Some a).
  { rewrite P1, decide_False; [done|]. intros E. symmetry in E. revert E. apply Hneq. by right. }
  exists h2. split; [|split; [|split; [split; [done|]|split]]].
  - unfold generic_del. rewrite (get_next_hnext _ _ _ Hnb). simpl.
    rewrite (get_prev_hprev _ _ _ Hna). simpl. rewrite R1. simpl.
    rewrite (get_prev_hprev _ _ _ Hp1'). simpl. by rewrite (get_next_hnext _ _ _ Hn1).
  - rewrite F2, F1; [done| |]; intros E; symmetry in E; revert E; apply Hneq; eauto.
  - rewrite <- app_assoc, E2, app_comm_cons, E1, <- app_assoc. simpl.
    apply path_app. split; [|rewrite path_cons, N2, P2, P1, !decide_True by done; split_and!; try done].
    + rewrite <- E1 in *. eapply path_frame; [| |exact Hp1].
      * intros k Hk. rewrite E1, removelast_last in Hk. rewrite N2, decide_False, N1; [done|].
        by intros ->.
      * intros k Hk. simpl in Hk. rewrite P2, P1, decide_False; [done|by intros ->].
    + eapply path_frame; [| |exact Hp2].
      * intros k Hk. rewrite <- E2, removelast_last in Hk. rewrite N2, decide_False, N1; [done|].
        by intros ->.
      * intros k Hk. simpl in Hk. rewrite P2, P1, decide_False; [done|by intros ->].
  - congruence.
  - intros k Hk. rewrite F2, F1; [done| |]; intros ->; apply Hk; eauto.
Qed.

Lemma INIT_LIST_NULL_spec h n :
  is_Some (h !! n) ->
  INIT_LIST_NULL (Some n) h = Ret (<[n := mk_list_head None None]> h).
Proof.
  intros [v Hv]. unfold INIT_LIST_NULL, set_next, set_prev. simpl. rewrite Hv. simpl.
  rewrite lookup_insert_eq. simpl. unfold mret, outcome_ret. by rewrite insert_insert_eq.
Qed.

Lemma INIT_LIST_HEAD_spec h n :
  is_Some (h !! n) ->
  INIT_LIST_HEAD (Some n) h = Ret (<[n := mk_list_head (Some n) (Some n)]> h).
Proof.
  intros [v Hv]. unfold INIT_LIST_HEAD, set_next, set_prev. simpl. rewrite Hv. simpl.
  rewrite lookup_insert_eq. simpl. unfold mret, outcome_ret. by rewrite insert_insert_eq.
Qed.

Lemma is_list_agree h h' hd xs :
  (forall k, k ∈ hd :: xs -> h' !! k = h !! k) -> is_list h hd xs -> is_list h' hd xs.
Proof.
  intros Hag [Hnd Hp]. split; [done|]. rewrite app_comm_cons in *.
  eapply path_frame; [| |exact Hp]; intros k Hk; unfold hnext, hprev; rewrite Hag; try done.
  - by rewrite removelast_last in Hk.
  - simpl in Hk. apply elem_of_app in Hk as [Hk|Hk]; [by right|].
    apply list_elem_of_singleton in Hk as ->. left.
Qed.

Lemma is_list_in_dom h hd xs k : is_list h hd xs -> k ∈ hd :: xs -> is_Some (h !! k).
Proof.
  intros [_ Hp] Hk. rewrite app_comm_cons in Hp. revert Hp Hk.
  generalize (hd :: xs) as l. clear. induction l as [|a l IH]; simpl; [by inversion 2|].
  intros Hp Hk. destruct (l ++ [hd]) as [|b l'] eqn:E; [by destruct l|].
  destruct Hp as (Hn & _ & Hp). apply elem_of_cons in Hk as [->|Hk]; eauto using hnext_in_dom.
Qed.

(** A list whose nodes are outside the frame of an operation is unchanged. *)
Lemma is_list_frame h h' hd xs ks :
  dom_frame h h' ks -> (forall k, k ∈ hd :: xs -> k ∉ ks) -> is_list h hd xs -> is_list h' hd xs.
Proof. intros [_ Hf] Hdisj. apply is_list_agree. eauto. Qed.

Lemma list_del_spec h hd l1 n l2 :
  is_list h hd (l1 ++ n :: l2) ->
  exists h', list_del (Some n) h = Ret h' /\ h' !! n = Some (mk_list_head None None) /\
    is_list h' hd (l1 ++ l2) /\ dom_frame h h' (n :: hd :: l1 ++ l2).
Proof.
  intros Hl. destruct (generic_del_spec _ _ _ _ _ Hl) as (h1 & R & E & Hl1 & [D F]).
  assert (Hn : is_Some (h !! n)).
  { eapply is_list_in_dom; [done|]. right. apply elem_of_app. right. left. }
  eexists. unfold list_del. rewrite R. simpl. rewrite INIT_LIST_NULL_spec by by rewrite E.
  split_and!; [done|by rewrite lookup_insert_eq| |split].
  - eapply is_list_agree; [|exact Hl1]. intros k Hk. rewrite lookup_insert_ne; [done|].
    intros <-. destruct Hl as [Hnd _]. rewrite app_comm_cons, <- Permutation_middle in Hnd.
    apply NoDup_cons in Hnd as [? _]. done.
  - rewrite dom_insert_lookup_L; [done|by rewrite E].
  - intros k Hk. rewrite not_elem_of_cons in Hk. rewrite lookup_insert_ne by naive_solver.
    apply F. naive_solver.
Qed.

Lemma list_del_init_spec h hd l1 n l2 :
  is_list h hd (l1 ++ n :: l2) ->
  exists h', list_del_init (Some n) h = Ret h' /\ is_list h' n [] /\
    is_list h' hd (l1 ++ l2) /\ dom_frame h h' (n :: hd :: l1 ++ l2).
Proof.
  intros Hl. destruct (generic_del_spec _ _ _ _ _ Hl) as (h1 & R & E & Hl1 & [D F]).
  assert (Hn : is_Some (h !! n)).
  { eapply is_list_in_dom; [done|]. right. apply elem_of_app. right. left. }
  eexists. unfold list_del_init. rewrite R. simpl. rewrite INIT_LIST_HEAD_spec by by rewrite E.
  split_and!; [done| | |split].
  - split; [apply NoDup_singleton|]. simpl. unfold hnext, hprev. by rewrite lookup_insert_eq.
  - eapply is_list_agree; [|exact Hl1]. intros k Hk. rewrite lookup_insert_ne; [done|].
    intros <-. destruct Hl as [Hnd _]. rewrite app_comm_cons, <- Permutation_middle in Hnd.
    apply NoDup_cons in Hnd as [? _]. done.
  - rewrite dom_insert_lookup_L; [done|by rewrite E].
  - intros k Hk. rewrite not_elem_of_cons in Hk. rewrite lookup_insert_ne by naive_solver.
    apply F. naive_solver.
Qed.

(** *** Reading a list *)

Lemma is_list_init h hd : is_Some (h !! hd) ->
  exists h', INIT_LIST_HEAD (Some hd) h = Ret h' /\ is_list h' hd [] /\ dom_frame h h' [hd].
Proof.
  intros Hd. eexists. rewrite INIT_LIST_HEAD_spec by done. split; [done|]. split; [split|split].
  - apply NoDup_singleton.
  - simpl. unfold hnext, hprev. by rewrite lookup_insert_eq.
  - by rewrite dom_insert_lookup_L.
  - intros k Hk. rewrite lookup_insert_ne; [done|]. intros <-. apply Hk. left.
Qed.

Lemma is_list_first h hd xs :
  is_list h hd xs -> get_next (Some hd) h = Ret (Some (default hd (head xs))).
Proof.
  intros [_ Hp]. apply get_next_hnext. destruct xs as [|x xs]; simpl in *; naive_solver.
Qed.

Lemma is_list_prev h hd xs : is_list h hd xs -> exists b, hprev h hd = Some b.
Proof.
  intros [_ Hp]. destruct (exists_last (l := hd :: xs)) as (l & z & E); [done|].
  rewrite app_comm_cons, E, <- app_assoc in Hp. apply path_app in Hp as [_ Hp].
  apply path_cons in Hp as (_ & Hp & _). eauto.
Qed.

Lemma list_is_empty_spec h hd xs :
  is_list h hd xs -> list_is_empty (Some hd) h = Ret (bool_decide (xs = [])).
Proof.
  intros Hl. unfold list_is_empty. rewrite (is_list_first _ _ _ Hl). simpl.
  destruct (is_list_prev _ _ _ Hl) as [b Hb]. destruct Hl as [Hnd Hp].
  rewrite (get_prev_hprev _ _ _ Hb). simpl. destruct xs as [|x xs]; simpl in *.
  - destruct Hp as (_ & Hp & _). simplify_eq. by rewrite !bool_decide_eq_true_2.
  - rewrite (bool_decide_eq_false_2 (Some x = Some hd)); [done|].
    intros [= ->]. apply NoDup_cons in Hnd as [Hnd _]. apply Hnd. left.
Qed.

(** [list_for_each] terminates with fuel the length of the list, and visits
    its nodes in order. *)
Lemma list_for_each_spec h hd xs fuel :
  is_list h hd xs -> (length xs <= fuel)%nat -> list_for_each fuel (Some hd) h = Ret xs.
Proof.
  intros Hl Hfuel. unfold list_for_each. rewrite (is_list_first _ _ _ Hl). simpl.
  destruct Hl as [Hnd Hp]. apply NoDup_cons in Hnd as [Hhd _].
  assert (Hp' : path h (xs ++ [hd])) by (destruct xs; [done|by destruct Hp as (_ & _ & ?)]).
  clear Hp. revert fuel Hfuel. induction xs as [|x xs IH]; intros fuel Hfuel; simpl.
  - destruct fuel; simpl; by rewrite bool_decide_eq_true_2.
  - destruct fuel as [|fuel]; simpl in *; [lia|].
    rewrite not_elem_of_cons in Hhd. destruct Hhd as [Hne Hhd].
    rewrite bool_decide_eq_false_2 by naive_solver.
    assert (hnext h x = Some (default hd (head xs)) /\ path h (xs ++ [hd])) as [Hx Hp].
    { destruct xs; simpl in *; naive_solver. }
    rewrite (get_next_hnext _ _ _ Hx). simpl. rewrite IH; [done|done|done|lia].
Qed.

(** A ring has at most as many nodes as the store. *)
Lemma is_list_size h hd xs : is_list h hd xs -> (length xs < size h)%nat.
Proof.
  intros Hl. assert (Hs : (list_to_set (hd :: xs) : gset K) ⊆ dom h).
  { intros k Hk%elem_of_list_to_set. apply elem_of_dom. by eapply is_list_in_dom. }
  apply subseteq_size in Hs. rewrite size_dom in Hs. destruct Hl as [Hnd _].
  rewrite size_list_to_set in Hs by done. simpl in Hs. lia.
Qed.

(** The second node of a non-empty ring. *)
Lemma is_list_second h hd x xs :
  is_list h hd (x :: xs) -> get_next (Some x) h = Ret (Some (default hd (head xs))).
Proof.
  intros [_ Hp]. apply get_next_hnext. rewrite <- app_comm_cons in Hp.
  apply path_cons in Hp as (_ & _ & Hp). destruct xs as [|y xs]; simpl in *; naive_solver.
Qed.

Lemma list_del_all_from_spec xs : forall fuel h hd x,
  is_list h hd (x :: xs) -> (S (length xs) <= fuel)%nat ->
  exists h', list_del_all_from fuel (Some x) (Some (default hd (head xs))) (Some hd) h = Ret h' /\
    is_list h' hd [] /\ dom_frame h h' (hd :: x :: xs).
Proof.
  induction xs as [|y xs IH]; intros fuel h hd x Hl Hfuel;
    (destruct fuel as [|fuel]; [simpl in *; lia|]); cbn [list_del_all_from];
    (rewrite bool_decide_eq_false_2; [|intros [= ->]; destruct Hl as [Hnd _];
       apply NoDup_cons in Hnd as [Hnd _]; apply Hnd; left]);
    destruct (list_del_spec h hd [] x _ Hl) as (h1 & R & _ & Hl1 & Hf1); rewrite R; simpl in *.
  - pose proof (is_list_first _ _ _ Hl1) as Hfirst. simpl in Hfirst. rewrite Hfirst. simpl.
    exists h1. destruct fuel; simpl; rewrite bool_decide_eq_true_2 by done.
    all: split_and!; try done.
    all: destruct Hf1 as [D F]; split; [done|]; intros k Hk; apply F;
      rewrite !elem_of_cons in *; tauto.
  - rewrite (is_list_second _ _ _ _ Hl1). simpl.
    destruct (IH fuel h1 hd y Hl1) as (h2 & R2 & Hl2 & Hf2); [simpl in *; lia|].
    exists h2. split_and!; try done. destruct Hf1 as [D1 F1], Hf2 as [D2 F2].
    split; [congruence|]. intros k Hk. rewrite !elem_of_cons in Hk.
    rewrite F2, F1; [done| |]; rewrite !elem_of_cons; tauto.
Qed.

(** [list_for_each_del] with [list_del] empties the ring. *)
Lemma list_del_all_spec fuel h hd xs :
  is_list h hd xs -> (length xs <= fuel)%nat ->
  exists h', list_del_all fuel (Some hd) h = Ret h' /\ is_list h' hd [] /\ dom_frame h h' (hd :: xs).
Proof.
  intros Hl Hfuel. unfold list_del_all. pose proof (is_list_first _ _ _ Hl) as Hfirst.
  destruct xs as [|x xs]; simpl in *; rewrite Hfirst; simpl.
  - rewrite Hfirst. simpl. exists h. destruct fuel; simpl; rewrite bool_decide_eq_true_2 by done;
      split_and!; done.
  - rewrite (is_list_second _ _ _ _ Hl). simpl. by apply list_del_all_from_spec.
Qed.

(** *** Walking on a ring that the loop did not start on *)

Lemma path_next h l z k : path h (l ++ [z]) -> k ∈ l -> exists k', hnext h k = Some k' /\ k' ∈ l ++ [z].
Proof.
  revert k. induction l as [|a l IH]; intros k Hp Hk; [by inversion Hk|].
  destruct (l ++ [z]) as [|b l'] eqn:E; [by destruct l|].
  cbn [app] in Hp |- *. rewrite E in Hp |- *. apply path_cons in Hp as (Hn & _ & Hp).
  apply elem_of_cons in Hk as [->|Hk]; [exists b; split; [done|right; left]|].
  destruct (IH k Hp Hk) as (k' & Hk' & Hin). exists k'. split; [done|by right].
Qed.

Lemma ring_next h hd xs k : is_list h hd xs -> k ∈ hd :: xs ->
  exists k', get_next (Some k) h = Ret (Some k') /\ k' ∈ hd :: xs.
Proof.
  intros [_ Hp] Hk. rewrite app_comm_cons in Hp. destruct (path_next h _ _ k Hp Hk) as (k' & Hn & Hin).
  exists k'. split; [by apply get_next_hnext|].
  apply elem_of_app in Hin as [Hin|Hin]; [done|]. apply list_elem_of_singleton in Hin as ->. left.
Qed.

(** A walk from a node of one ring to the head of another never ends. *)
Lemma list_for_each_other_ring fuel h hd xs t : is_list h hd xs -> t ∉ hd :: xs ->
  forall k, k ∈ hd :: xs -> list_for_each_from fuel (Some k) (Some t) h = Spin.
Proof.
  intros Hl Ht. induction fuel as [|fuel IH]; intros k Hk; cbn [list_for_each_from];
    (rewrite bool_decide_eq_false_2; [|intros [= ->]; done]); [done|].
  destruct (ring_next h hd xs k Hl Hk) as (k' & Hn & Hk'). cbn [deref]. rewrite bind_Ret, Hn, bind_Ret.
  by rewrite IH.
Qed.

(** The nodes of a ring are determined by its head. *)
Lemma path_fun h hd l1 : forall a l2, hd ∉ l1 -> hd ∉ l2 ->
  path h (a :: l1 ++ [hd]) -> path h (a :: l2 ++ [hd]) -> l1 = l2.
Proof.
  induction l1 as [|x l1 IH]; intros a [|y l2] H1 H2 P1 P2; cbn [app] in P1, P2; try done;
    apply path_cons in P1 as (E1 & _ & P1); apply path_cons in P2 as (E2 & _ & P2);
    try rewrite not_elem_of_cons in H1; try rewrite not_elem_of_cons in H2.
  - exfalso. apply (proj1 H2). congruence.
  - exfalso. apply (proj1 H1). congruence.
  - assert (y = x) as -> by congruence. f_equal. apply (IH x); tauto.
Qed.
Lemma is_list_fun h hd l1 l2 : is_list h hd l1 -> is_list h hd l2 -> l1 = l2.
Proof.
  intros [N1 P1] [N2 P2]. apply NoDup_cons in N1 as [N1 _], N2 as [N2 _]. by apply (path_fun h hd l1 hd).
Qed.

End list_ops.
