(* ===== verification/Zone.v ===== *)
(** * Page descriptors and the memory zone (include/zone.h, page.h, mm.h, flags of buddy.c)

    [mem_map] is an array of page descriptors, here a map from the page frame
    number to the descriptor; the [list_head] fields embedded in page
    descriptors and in the zone live in one store, keyed by [ptr]. *)

From S2P Require Import Prelude ListHead.

(** Addresses of list nodes of the memory manager: the [free_list] of a free
    area, the [lru] field of a page descriptor, and an address inside slab
    memory (cache and slab descriptors, which [page_set_cache] and
    [page_set_slab] store in the [lru] field of a page). *)
Inductive ptr := FreeList (order : Z) | Lru (pfn : Z) | Mem (addr : Z).

#[global] Instance ptr_eq_dec : EqDecision ptr.
Proof. solve_decision. Defined.
#[global] Instance ptr_countable : Countable ptr.
Proof.
  refine (inj_countable'
    (fun p => match p with FreeList k => inl k | Lru i => inr (inl i) | Mem a => inr (inr a) end)
    (fun s => match s with inl k => FreeList k | inr (inl i) => Lru i | inr (inr a) => Mem a end) _).
  by intros [].
Defined.

(** ** Constants *)

Definition BUDDY_GROUPS : Z := 11.
Definition PAGE_SIZE : Z := 4096.
Definition PAGE_SHIFT : Z := 12.
Definition PAGE_OFFSET : Z := 0xC0000000.
Definition PG_DIR_ENTRIES : Z := 1024.
Definition PG_TABLE_ENTRIES : Z := 1024.
Definition ZONE_WATERMARK : Z := 10.

Definition PG_FLAG_private : Z := 2 ^ 4.
Definition PG_FLAG_TAKEN : Z := 2 ^ 6.
Definition PG_FLAG_RESERVED : Z := 2 ^ 7.
Definition PG_FLAG_slab : Z := 2 ^ 8.

(** ** Descriptors *)

Record page := mk_page {
  pg_zone : bool;              (* the back pointer to the zone is set *)
  page_no : Z;
  flags : Z;
  ref_cnt : Z;
  map_count : Z;
  private : Z;
  first_page : option Z;       (* frame number of the head page *)
}.

Record zone_t := mk_zone {
  free_pages : Z;
  present_pages : Z;
  pages_min : Z;
  pages_low : Z;
  zone_start_pfn : Z;
  zone_mem_map : gmap Z page;
  nr_free : gmap Z Z;                       (* free_area[k].nr_free *)
  nodes : gmap ptr (list_head ptr);         (* free_area[k].free_list and page->lru *)
}.

#[global] Instance page_eq_dec : EqDecision page.
Proof. solve_decision. Defined.

Definition with_flags (f : Z) (p : page) : page :=
  mk_page (pg_zone p) (page_no p) f (ref_cnt p) (map_count p) (private p) (first_page p).
Definition with_private (v : Z) (p : page) : page :=
  mk_page (pg_zone p) (page_no p) (flags p) (ref_cnt p) (map_count p) v (first_page p).
Definition with_first_page (v : option Z) (p : page) : page :=
  mk_page (pg_zone p) (page_no p) (flags p) (ref_cnt p) (map_count p) (private p) v.

Definition with_free_pages (v : Z) (z : zone_t) : zone_t :=
  mk_zone v (present_pages z) (pages_min z) (pages_low z) (zone_start_pfn z)
    (zone_mem_map z) (nr_free z) (nodes z).
Definition with_mem_map (m : gmap Z page) (z : zone_t) : zone_t :=
  mk_zone (free_pages z) (present_pages z) (pages_min z) (pages_low z) (zone_start_pfn z)
    m (nr_free z) (nodes z).
Definition with_nr_free (m : gmap Z Z) (z : zone_t) : zone_t :=
  mk_zone (free_pages z) (present_pages z) (pages_min z) (pages_low z) (zone_start_pfn z)
    (zone_mem_map z) m (nodes z).
Definition with_nodes (s : gmap ptr (list_head ptr)) (z : zone_t) : zone_t :=
  mk_zone (free_pages z) (present_pages z) (pages_min z) (pages_low z) (zone_start_pfn z)
    (zone_mem_map z) (nr_free z) s.

(** Accesses to one descriptor, one counter, one list of the zone. *)
Definition upd_page (i : Z) (f : page -> page) (z : zone_t) : outcome zone_t :=
  p ← deref (zone_mem_map z !! i); mret (with_mem_map (<[i := f p]> (zone_mem_map z)) z).
Definition upd_nr_free (k : Z) (f : Z -> Z) (z : zone_t) : outcome zone_t :=
  n ← deref (nr_free z !! k); mret (with_nr_free (<[k := u32 (f n)]> (nr_free z)) z).
Definition on_nodes (f : gmap ptr (list_head ptr) -> outcome (gmap ptr (list_head ptr)))
    (z : zone_t) : outcome zone_t :=
  s ← f (nodes z); mret (with_nodes s z).

(** ** Page flags (buddy.c)

    The flag macros are not parenthesised: [~PG_FLAG_private] is
    [~1<<4], that is [(~1)<<4], and not [~(1<<4)]. *)

Definition not_flag (shift : Z) : Z := u32 (Z.shiftl (Z.lnot 1) shift).

Definition ClearPagePrivate (p : page) : page :=
  with_flags (Z.land (flags p) (not_flag 4)) p.
Definition ClearPageSlab (p : page) : page :=
  with_flags (Z.land (flags p) (not_flag 8)) p.
Definition SetPagePrivate (p : page) : page :=
  with_flags (Z.lor (flags p) PG_FLAG_private) p.
Definition SetPageSlab (p : page) : page :=
  with_flags (Z.lor (flags p) PG_FLAG_slab) p.
Definition PagePrivate (p : page) : bool :=
  Z.land (flags p) PG_FLAG_private =? PG_FLAG_private.

(** A page that init_zone leaves out of the buddy system. *)
Definition page_unusable (p : page) : bool :=
  IS_FLAG (flags p) PG_FLAG_TAKEN || IS_FLAG (flags p) PG_FLAG_RESERVED.

(** ** Address conversions (page.h, mm.h, mm.c) *)

Definition pa_ (x : Z) : Z := if PAGE_OFFSET <=? x then u32 (x - PAGE_OFFSET) else x.
Definition va_ (x : Z) : Z := u32 (x + PAGE_OFFSET).
Definition pfn_to_page (z : zone_t) (pfn : Z) : Z := pfn - zone_start_pfn z.
Definition virt_to_page (z : zone_t) (kaddr : Z) : Z :=
  pfn_to_page z (Z.shiftr (pa_ kaddr) PAGE_SHIFT).
Definition phys_to_page (z : zone_t) (p : Z) : Z := pfn_to_page z (Z.shiftr p PAGE_SHIFT).
Definition page_to_pfn (page : Z) : Z := page.
Definition page_address (page : Z) : Z := va_ (u32 (Z.shiftl (page_to_pfn page) PAGE_SHIFT)).
Definition page_to_phys (page : Z) : Z := u32 (page * PAGE_SIZE).
Definition compound_head (z : zone_t) (page : Z) : outcome Z :=
  p ← deref (zone_mem_map z !! page); deref (first_page p).
Definition virt_to_head_page (z : zone_t) (x : Z) : outcome Z :=
  compound_head z (virt_to_page z x).

(** ** Facts on flags *)

Lemma land_pow2_eq x k : 0 <= k -> (Z.land x (2 ^ k) =? 2 ^ k) = Z.testbit x k.
Proof.
  intros Hk. destruct (Z.testbit x k) eqn:E.
  - apply Z.eqb_eq. bits_eq n Hn. destruct (Z.eqb_spec k n); subst; rewrite ?E; [done|].
    by rewrite andb_false_r.
  - apply Z.eqb_neq. intros Heq. apply (f_equal (fun y => Z.testbit y k)) in Heq.
    rewrite Z.land_spec, testbit_pow2, E, Z.eqb_refl in Heq by lia. done.
Qed.

Lemma PagePrivate_testbit p : PagePrivate p = Z.testbit (flags p) 4.
Proof. apply (land_pow2_eq _ 4). lia. Qed.

Lemma page_unusable_testbit p :
  page_unusable p = Z.testbit (flags p) 6 || Z.testbit (flags p) 7.
Proof.
  unfold page_unusable, IS_FLAG, PG_FLAG_TAKEN, PG_FLAG_RESERVED.
  by rewrite !land_pow2_eq by lia.
Qed.

(** Bit [n] of [(~1) << s] on 32 bits: the mask clears every bit up to [s]. *)
Lemma not_flag_testbit s n :
  0 <= s -> 0 <= n < 32 -> Z.testbit (not_flag s) n = (s <? n).
Proof.
  intros Hs Hn. unfold not_flag, u32. rewrite Z.mod_pow2_bits_low by lia.
  rewrite Z.shiftl_spec by lia. destruct (Z.ltb_spec s n).
  - rewrite Z.lnot_spec by lia. change 1 with (2 ^ 0). rewrite testbit_pow2 by lia.
    destruct (Z.eqb_spec 0 (n - s)); [lia|done].
  - destruct (decide (n = s)) as [->|]; [by rewrite Z.sub_diag|].
    by rewrite Z.testbit_neg_r by lia.
Qed.

Lemma ClearPagePrivate_private p : PagePrivate (ClearPagePrivate p) = false.
Proof.
  rewrite PagePrivate_testbit. simpl. rewrite Z.land_spec, not_flag_testbit by lia.
  by rewrite andb_false_r.
Qed.
Lemma SetPagePrivate_private p : PagePrivate (SetPagePrivate p) = true.
Proof.
  rewrite PagePrivate_testbit. simpl. unfold PG_FLAG_private.
  rewrite Z.lor_spec, testbit_pow2 by lia. by rewrite orb_true_r.
Qed.
Lemma ClearPagePrivate_unusable p : page_unusable (ClearPagePrivate p) = page_unusable p.
Proof.
  rewrite !page_unusable_testbit. simpl. rewrite !Z.land_spec, !not_flag_testbit by lia.
  by rewrite !andb_true_r.
Qed.
Lemma SetPagePrivate_unusable p : page_unusable (SetPagePrivate p) = page_unusable p.
Proof.
  rewrite !page_unusable_testbit. simpl. unfold PG_FLAG_private.
  rewrite !Z.lor_spec, !testbit_pow2 by lia. by rewrite !orb_false_r.
Qed.
