(* ===== verification/Buddy.v ===== *)
(** * The buddy page allocator (memory-management/buddy.c)

    Operations of buddy.c over the zone of Zone.v.  The texts of
    [printk] are left out; [show_buddy] gives the page numbers it prints.  A
    page pointer is the index of its descriptor in [zone_mem_map], NULL is
    [None]. *)

From S2P Require Import Prelude ListHead Zone.

(** ** Operations *)

(** free_buddy_system: empties every free list. *)
Fixpoint free_buddy_loop (n : nat) (fuel : nat) (iCnt : Z) (z : zone_t) : outcome zone_t :=
  match n with
  | O => mret z
  | S n =>
      z ← on_nodes (list_del_all fuel (Some (FreeList iCnt))) z;
      z ← on_nodes (INIT_LIST_HEAD (Some (FreeList iCnt))) z;
      free_buddy_loop n fuel (iCnt + 1) z
  end.
Definition free_buddy_system (fuel : nat) (z : zone_t) : outcome zone_t :=
  free_buddy_loop (Z.to_nat BUDDY_GROUPS) fuel 0 z.

(** The search loop of allocate_block: the first non-empty order from
    [current_order] on; [n] is the number of orders left. *)
Fixpoint find_order (n : nat) (current_order : Z) (z : zone_t) : outcome (option Z) :=
  match n with
  | O => mret None
  | S n =>
      empty ← list_is_empty (Some (FreeList current_order)) (nodes z);
      if empty : bool then find_order n (current_order + 1) z else mret (Some current_order)
  end.

(** The splitting loop of allocate_block: [n] orders to go down. *)
Fixpoint split_block (n : nat) (current_order size page : Z) (z : zone_t) : outcome zone_t :=
  match n with
  | O => mret z
  | S n =>
      let current_order := current_order - 1 in
      let size := Z.shiftr size 1 in
      let buddy := page + size in
      z ← on_nodes (list_add (Some (FreeList current_order)) (Some (Lru buddy))) z;
      z ← upd_nr_free current_order (fun n => n + 1) z;
      z ← upd_page buddy (with_private current_order) z;
      z ← upd_page buddy SetPagePrivate z;
      split_block n current_order size page z
  end.

(** [list_entry(area->free_list.next, struct page, lru)]. *)
Definition lru_entry (p : option ptr) : outcome Z :=
  match p with Some (Lru i) => mret i | _ => Fault end.

Definition allocate_block (z : zone_t) (order : Z) : outcome (zone_t * option Z) :=
  found ← find_order (Z.to_nat (BUDDY_GROUPS - order)) order z;
  match found with
  | None => mret (z, None)
  | Some current_order =>
      nx ← get_next (Some (FreeList current_order)) (nodes z);
      page ← lru_entry nx;
      z ← on_nodes (list_del (Some (Lru page))) z;
      z ← upd_page page ClearPagePrivate z;
      z ← upd_page page (with_private 0) z;
      z ← upd_nr_free current_order (fun n => n - 1) z;
      let z := with_free_pages (u32 (free_pages z - Z.shiftl 1 order)) z in
      z ← split_block (Z.to_nat (current_order - order)) current_order
            (Z.shiftl 1 current_order) page z;
      mret (z, Some page)
  end.

Definition alloc_pages (z : zone_t) (gfp order : Z) : outcome (zone_t * option Z) :=
  allocate_block z order.

Definition page_is_buddy (buddy : page) (order : Z) : bool :=
  PagePrivate buddy && (private buddy =? order).

(** The coalescing loop of free_block; returns the final [page_idx] and [order]. *)
Fixpoint coalesce (n : nat) (page_idx order : Z) (z : zone_t) : outcome (Z * Z * zone_t) :=
  match n with
  | O => mret (page_idx, order, z)
  | S n =>
      let buddy_idx := Z.lxor page_idx (Z.shiftl 1 order) in
      if present_pages z <=? buddy_idx then mret (page_idx, order, z)
      else
        buddy ← deref (zone_mem_map z !! buddy_idx);
        if negb (page_is_buddy buddy order) then mret (page_idx, order, z)
        else
          z ← on_nodes (list_del (Some (Lru buddy_idx))) z;
          z ← upd_nr_free order (fun n => n - 1) z;
          z ← upd_page buddy_idx ClearPagePrivate z;
          z ← upd_page buddy_idx (with_private 0) z;
          coalesce n (Z.land page_idx buddy_idx) (order + 1) z
  end.

Definition free_block (page : option Z) (z : zone_t) (order : Z) : outcome zone_t :=
  page_idx ← deref page;
  let order_size := Z.shiftl 1 order in
  let z := with_free_pages (u32 (free_pages z + order_size)) z in
  '(page_idx, order, z) ← coalesce (Z.to_nat (BUDDY_GROUPS - 1 - order)) page_idx order z;
  z ← upd_page page_idx (with_private order) z;
  z ← upd_page page_idx SetPagePrivate z;
  z ← on_nodes (list_add (Some (FreeList order)) (Some (Lru page_idx))) z;
  upd_nr_free order (fun n => n + 1) z.

(** free_pages(page, order) goes through the back pointer of the page. *)
Definition free_pages_ (page : option Z) (z : zone_t) (order : Z) : outcome zone_t :=
  i ← deref page;
  p ← deref (zone_mem_map z !! i);
  if pg_zone p then free_block page z order else Fault.

(** order(num): the loop [while (num > 1) { num >>= 1; iOrder++; }]. *)
Fixpoint order_loop (fuel : nat) (num iOrder : Z) : outcome Z :=
  if 1 <? num then
    match fuel with
    | O => Spin
    | S fuel => order_loop fuel (Z.shiftr num 1) (iOrder + 1)
    end
  else mret iOrder.
Definition order (num : Z) : outcome Z :=
  if num =? 0 then mret (-1) else order_loop 31 num 0.

(** __builtin_ctz of a positive [int]. *)
Fixpoint pos_ctz (p : positive) : Z :=
  match p with xO p => 1 + pos_ctz p | _ => 0 end.
Definition builtin_ctz (x : Z) : outcome Z :=
  match x with Zpos p => mret (pos_ctz p) | _ => Fault end.

Fixpoint add_region_loop (fuel : nat) (current last : Z) (z : zone_t) : outcome zone_t :=
  if last <? current then mret z
  else match fuel with
  | O => Spin
  | S fuel =>
      let remaining := last - current + 1 in
      alignment ← (if current =? 0 then mret BUDDY_GROUPS else builtin_ctz current);
      size_order ← order_loop 31 remaining 0;
      let max_order := if alignment <? size_order then alignment else size_order in
      let max_order := if BUDDY_GROUPS <=? max_order then BUDDY_GROUPS - 1 else max_order in
      let block_size := Z.shiftl 1 max_order in
      z ← free_block (Some current) z max_order;
      add_region_loop fuel (current + block_size) last z
  end.
Definition add_free_region_to_buddy (z : zone_t) (start last : Z) : outcome zone_t :=
  add_region_loop (Z.to_nat (last - start + 1)) start last z.

(** First loop of init_zone: page numbers, zone pointers, [lru] heads. *)
Fixpoint init_pages (n : nat) (iCnt : Z) (z : zone_t) : outcome zone_t :=
  match n with
  | O => mret z
  | S n =>
      z ← upd_page iCnt (fun p => mk_page true iCnt (flags p) (ref_cnt p) (map_count p)
                                     (private p) (first_page p)) z;
      z ← on_nodes (INIT_LIST_HEAD (Some (Lru iCnt))) z;
      init_pages n (iCnt + 1) z
  end.

(** [while (iCnt < present_pages && taken-or-reserved) iCnt++]. *)
Fixpoint skip_unusable (fuel : nat) (iCnt : Z) (z : zone_t) : outcome Z :=
  if iCnt <? present_pages z then
    p ← deref (zone_mem_map z !! iCnt);
    if page_unusable p then
      match fuel with O => Spin | S fuel => skip_unusable fuel (iCnt + 1) z end
    else mret iCnt
  else mret iCnt.

(** The scan of init_zone; returns the final [iPrev]. *)
Fixpoint scan_regions (fuel : nat) (iCnt iPrev : Z) (z : zone_t) : outcome (Z * zone_t) :=
  if iCnt <? present_pages z then
    match fuel with
    | O => Spin
    | S fuel =>
        p ← deref (zone_mem_map z !! iCnt);
        if page_unusable p then
          z ← (if iPrev <? iCnt then add_free_region_to_buddy z iPrev (iCnt - 1) else mret z);
          iCnt ← skip_unusable (Z.to_nat (present_pages z)) iCnt z;
          scan_regions fuel iCnt iCnt z
        else scan_regions fuel (iCnt + 1) iPrev z
    end
  else mret (iPrev, z).

(** show_buddy: the page numbers it prints for each order. *)
Definition show_area (k : Z) (z : zone_t) : outcome (list Z) :=
  empty ← list_is_empty (Some (FreeList k)) (nodes z);
  if empty : bool then mret []
  else
    l ← list_for_each (size (nodes z)) (Some (FreeList k)) (nodes z);
    mapM (fun n => i ← lru_entry (Some n); p ← deref (zone_mem_map z !! i); mret (page_no p)) l.
Definition show_buddy (z : zone_t) : outcome (list (list Z)) := mapM (fun k => show_area k z) (seqZ 0 BUDDY_GROUPS).

Definition test_buddy (z : zone_t) : outcome zone_t :=
  _ ← show_buddy z;
  '(z, page1) ← allocate_block z 9;
  _ ← show_buddy z;
  '(z, page2) ← allocate_block z 4;
  _ ← show_buddy z;
  z ← free_block page2 z 4;
  _ ← show_buddy z;
  z ← free_block page1 z 9;
  _ ← show_buddy z;
  mret z.

(** init_zone up to its call of test_buddy. *)
Definition init_zone_buddy (z : zone_t) : outcome zone_t :=
  let n := Z.to_nat (present_pages z) in
  z ← init_pages n 0 z;
  iCnt ← skip_unusable n 0 z;
  '(iPrev, z) ← scan_regions n iCnt iCnt z;
  if iPrev <? present_pages z
  then add_free_region_to_buddy z iPrev (present_pages z - 1)
  else mret z.

Definition init_zone (z : zone_t) : outcome zone_t :=
  z ← init_zone_buddy z; test_buddy z.
