(* ===== verification/BuddyInv.v ===== *)
(** * The buddy system: abstract free lists and the invariant of the zone

    [fl k] is the list of the first pages of the free blocks of order [k].
    [buddy_inv z fl] ties the zone to it: the rings of the free areas hold
    exactly these pages, their descriptors and only theirs carry
    [PG_FLAG_private] with their order, blocks are aligned, inside the zone and
    pairwise disjoint, and no two buddies are free side by side. *)

From S2P Require Import Prelude ListHead Zone Buddy.

Definition in_order (k : Z) : Prop := 0 <= k < BUDDY_GROUPS.
Definition covers (i k j : Z) : Prop := i <= j < i + 2 ^ k.
Definition blk_disj (i k j l : Z) : Prop := i + 2 ^ k <= j \/ j + 2 ^ l <= i.

(** The pages that belong to a free block. *)
Definition free_page (fl : Z -> list Z) (j : Z) : Prop :=
  exists k i, in_order k /\ i ∈ fl k /\ covers i k j.

(** Number of free pages. *)
Definition free_total (fl : Z -> list Z) : Z :=
  foldr (fun k acc => Z.of_nat (length (fl k)) * 2 ^ k + acc) 0 (seqZ 0 BUDDY_GROUPS).

Definition upd_fl (fl : Z -> list Z) (k : Z) (l : list Z) : Z -> list Z :=
  fun k' => if decide (k' = k) then l else fl k'.

(** A block that no free list holds: an allocated one, or one being moved. *)
Record loose (present : Z) (fl : Z -> list Z) (i k : Z) : Prop := {
  loose_aligned : (2 ^ k | i);
  loose_range : 0 <= i /\ i + 2 ^ k <= present;
  loose_disj : forall l j, in_order l -> j ∈ fl l -> blk_disj i k j l;
}.

Record buddy_inv (z : zone_t) (fl : Z -> list Z) : Prop := {
  bi_present : 0 <= present_pages z < 2 ^ 32;
  bi_mem : forall i, 0 <= i < present_pages z -> is_Some (zone_mem_map z !! i);
  bi_lru : forall i, 0 <= i < present_pages z -> is_Some (nodes z !! Lru i);
  bi_lists : forall k, in_order k -> is_list (nodes z) (FreeList k) (Lru <$> fl k);
  bi_nr : forall k, in_order k -> nr_free z !! k = Some (u32 (Z.of_nat (length (fl k))));
  bi_aligned : forall k i, in_order k -> i ∈ fl k -> (2 ^ k | i);
  bi_range : forall k i, in_order k -> i ∈ fl k -> 0 <= i /\ i + 2 ^ k <= present_pages z;
  bi_private : forall k i p, in_order k -> i ∈ fl k -> zone_mem_map z !! i = Some p ->
    PagePrivate p = true /\ private p = k;
  bi_only : forall i p, zone_mem_map z !! i = Some p -> PagePrivate p = true ->
    in_order (private p) /\ i ∈ fl (private p);
  bi_disj : forall k i l j, in_order k -> in_order l -> i ∈ fl k -> j ∈ fl l ->
    (i, k) <> (j, l) -> blk_disj i k j l;
  bi_coalesced : forall k i, in_order k -> k < BUDDY_GROUPS - 1 -> i ∈ fl k ->
    Z.lxor i (2 ^ k) ∉ fl k;
}.

(** ** Arithmetic of blocks *)

Lemma pow2_pos k : 0 <= k -> 0 < 2 ^ k.
Proof. intros. apply Z.pow_pos_nonneg; lia. Qed.
Lemma pow2_succ k : 0 <= k -> 2 ^ (k + 1) = 2 * 2 ^ k.
Proof. intros. rewrite Z.pow_add_r by lia. lia. Qed.

Ltac pow2 k := let H := fresh "Hpow" in pose proof (pow2_pos k ltac:(unfold in_order, BUDDY_GROUPS in *; lia)) as H.

(** The buddy of an aligned block is the other half of the enclosing block. *)
Lemma buddy_cases i k :
  0 <= k -> (2 ^ k | i) ->
  (Z.lxor i (2 ^ k) = i + 2 ^ k /\ Z.land i (Z.lxor i (2 ^ k)) = i /\ (2 ^ (k + 1) | i)) \/
  (Z.lxor i (2 ^ k) = i - 2 ^ k /\ Z.land i (Z.lxor i (2 ^ k)) = i - 2 ^ k /\
     (2 ^ (k + 1) | i - 2 ^ k)).
Proof.
  intros Hk [q ->]. rewrite pow2_succ by done. pose proof (testbit_mul_pow2 q k Hk) as Hb.
  destruct (Z.odd q) eqn:Eq.
  - right. rewrite land_lxor_pow2_set, lxor_pow2_set by done. split_and!; [done..|].
    apply Zodd_bool_iff, Zodd_ex in Eq as [m ->]. exists m. lia.
  - left. rewrite land_lxor_pow2_clear, lxor_pow2_clear by done. split_and!; [done..|].
    rewrite <- Z.negb_even in Eq. apply negb_false_iff, Zeven_bool_iff, Zeven_ex in Eq as [m ->].
    exists m. lia.
Qed.

Lemma pow2_divide k l i : 0 <= k <= l -> (2 ^ l | i) -> (2 ^ k | i).
Proof.
  intros Hkl Hd. etransitivity; [|exact Hd]. exists (2 ^ (l - k)).
  rewrite <- Z.pow_add_r by lia. f_equal. lia.
Qed.

(** Two aligned blocks are disjoint or nested. *)
Lemma aligned_nested i k j l :
  0 <= k <= l -> (2 ^ k | i) -> (2 ^ l | j) ->
  blk_disj i k j l \/ (j <= i /\ i + 2 ^ k <= j + 2 ^ l).
Proof.
  intros Hkl Hi Hj. apply (pow2_divide k) in Hj as Hjk; [|done].
  assert (Hl : (2 ^ k | 2 ^ l)) by (apply (pow2_divide k l); [done|apply Z.divide_refl]).
  pose proof (pow2_pos k ltac:(lia)) as Hp. pose proof (pow2_pos l ltac:(lia)) as Hpl.
  unfold blk_disj. set (b := 2 ^ l) in *. set (a := 2 ^ k) in *. clearbody a b.
  destruct Hi as [x ->], Hjk as [y ->], Hl as [w ->].
  assert (0 < w) by nia.
  destruct (decide (x < y)); [left; left; nia|].
  destruct (decide (y + w <= x)); [left; right; nia|].
  right. split; nia.
Qed.

(** ** The abstract free lists *)

Lemma elem_of_upd_fl fl k l k' i :
  i ∈ upd_fl fl k l k' <-> (k' = k /\ i ∈ l) \/ (k' <> k /\ i ∈ fl k').
Proof. unfold upd_fl. case_decide; naive_solver. Qed.

Lemma upd_fl_eq fl k l : upd_fl fl k l k = l.
Proof. unfold upd_fl. by rewrite decide_True. Qed.
Lemma upd_fl_ne fl k l k' : k' <> k -> upd_fl fl k l k' = fl k'.
Proof. intros. unfold upd_fl. by rewrite decide_False. Qed.

Lemma free_total_upd fl k l :
  in_order k ->
  free_total (upd_fl fl k l) =
    free_total fl + (Z.of_nat (length l) - Z.of_nat (length (fl k))) * 2 ^ k.
Proof.
  intros Hk. unfold free_total.
  assert (Hin : k ∈ seqZ 0 BUDDY_GROUPS) by (apply elem_of_seqZ; unfold in_order in Hk; lia).
  pose proof (NoDup_seqZ 0 BUDDY_GROUPS) as Hnd. revert Hin Hnd.
  generalize (seqZ 0 BUDDY_GROUPS) as ks.
  assert (Hout : forall ks, k ∉ ks ->
    foldr (fun k' acc => Z.of_nat (length (upd_fl fl k l k')) * 2 ^ k' + acc) 0 ks =
    foldr (fun k' acc => Z.of_nat (length (fl k')) * 2 ^ k' + acc) 0 ks).
  { induction ks as [|k' ks IH]; simpl; [done|]. rewrite not_elem_of_cons. intros [? ?].
    rewrite upd_fl_ne, IH by congruence. done. }
  induction ks as [|k' ks IH]; simpl; [by inversion 1|].
  rewrite elem_of_cons, NoDup_cons. intros Hin [Hni Hnd].
  destruct (decide (k' = k)) as [->|].
  - rewrite upd_fl_eq, Hout by done. lia.
  - rewrite upd_fl_ne, IH by naive_solver. lia.
Qed.

Section inv_facts.
Context (z : zone_t) (fl : Z -> list Z) (Hinv : buddy_inv z fl).

Lemma inv_NoDup k : in_order k -> NoDup (fl k).
Proof.
  intros Hk. destruct (bi_lists _ _ Hinv k Hk) as [Hnd _].
  apply NoDup_cons in Hnd as [_ Hnd]. by eapply NoDup_fmap_1.
Qed.

Lemma block_unique k l i : in_order k -> in_order l -> i ∈ fl k -> i ∈ fl l -> k = l.
Proof.
  intros Hk Hl Hi Hj. destruct (decide (k = l)) as [|Hne]; [done|].
  pow2 k. pow2 l. destruct (bi_disj _ _ Hinv k i l i Hk Hl Hi Hj); [congruence|lia|lia].
Qed.

(** The test of the coalescing loop decides membership in a free list. *)
Lemma page_is_buddy_spec b p k :
  in_order k -> zone_mem_map z !! b = Some p -> page_is_buddy p k = true <-> b ∈ fl k.
Proof.
  intros Hk Hp. unfold page_is_buddy. rewrite andb_true_iff, Z.eqb_eq. split.
  - intros [Hpriv <-]. eapply bi_only; eauto.
  - intros Hin. eapply bi_private; eauto.
Qed.

(** Nodes of the list of another order are not touched by an operation on order [k]. *)
Lemma other_list_disjoint k k' n :
  in_order k -> in_order k' -> k' <> k ->
  n ∈ FreeList k' :: (Lru <$> fl k') -> n ∉ FreeList k :: (Lru <$> fl k).
Proof.
  intros Hk Hk' Hne. rewrite !elem_of_cons, !list_elem_of_fmap.
  intros [->|(j & -> & Hj)] [?|(j' & ? & Hj')]; simplify_eq.
  apply Hne. eauto using block_unique.
Qed.

(** *** Taking a block out of its free list *)
Section remove.
Context (k i : Z) (l1 l2 : list Z) (Hk : in_order k) (Hfl : fl k = l1 ++ i :: l2).

Local Lemma in_fl : i ∈ fl k.
Proof. rewrite Hfl. apply elem_of_app. right. left. Qed.

Local Lemma not_in_rest : i ∉ l1 ++ l2.
Proof.
  pose proof (inv_NoDup k Hk) as Hnd. rewrite Hfl, <- Permutation_middle in Hnd.
  by apply NoDup_cons in Hnd as [? _].
Qed.

Lemma elem_of_removed k' j :
  j ∈ upd_fl fl k (l1 ++ l2) k' <-> j ∈ fl k' /\ (j, k') <> (i, k).
Proof.
  rewrite elem_of_upd_fl. pose proof not_in_rest as Hni. split.
  - intros [[-> Hj]|[? Hj]]; [|split; [done|congruence]]. split; [|intros [= ->]; done].
    rewrite Hfl. rewrite elem_of_app in *. rewrite elem_of_cons. tauto.
  - intros [Hj Hne]. destruct (decide (k' = k)) as [->|]; [left|by right].
    split; [done|]. rewrite Hfl in Hj. rewrite elem_of_app, elem_of_cons in *.
    destruct Hj as [?|[->|?]]; [tauto| |tauto]. by destruct Hne.
Qed.

Lemma free_page_removed j :
  free_page (upd_fl fl k (l1 ++ l2)) j <-> free_page fl j /\ ~ covers i k j.
Proof.
  unfold free_page. setoid_rewrite elem_of_removed. split.
  - intros (k' & i' & Hk' & [Hi' Hne] & Hc). split; [eauto|]. intros Hc'.
    destruct (bi_disj _ _ Hinv k' i' k i Hk' Hk Hi' in_fl Hne); unfold covers in *; lia.
  - intros [(k' & i' & Hk' & Hi' & Hc) Hn]. exists k', i'. split_and!; try done.
    congruence.
Qed.

Lemma free_total_removed : free_total (upd_fl fl k (l1 ++ l2)) = free_total fl - 2 ^ k.
Proof. rewrite free_total_upd, Hfl, !length_app by done. simpl. lia. Qed.

Lemma loose_removed : loose (present_pages z) (upd_fl fl k (l1 ++ l2)) i k.
Proof.
  pose proof in_fl as Hi. split; [by eapply bi_aligned|by eapply bi_range|].
  intros l j Hl Hj. apply elem_of_removed in Hj as [Hj Hne].
  eapply bi_disj; eauto.
Qed.

Lemma remove_inv s' p' z' :
  list_del (Some (Lru i)) (nodes z) = Ret s' -> PagePrivate p' = false ->
  present_pages z' = present_pages z -> nodes z' = s' ->
  zone_mem_map z' = <[i := p']> (zone_mem_map z) ->
  nr_free z' = <[k := u32 (u32 (Z.of_nat (length (fl k))) - 1)]> (nr_free z) ->
  buddy_inv z' (upd_fl fl k (l1 ++ l2)).
Proof.
  intros Hdel Hp' Epr Enodes Emem Enr.
  pose proof (bi_lists _ _ Hinv k Hk) as Hlist. rewrite Hfl, fmap_app in Hlist. simpl in Hlist.
  destruct (list_del_spec _ _ _ _ _ Hlist) as (s & R & _ & Hl & Hf).
  rewrite R in Hdel. injection Hdel as ->. rewrite <- Enodes in Hl, Hf.
  assert (Hsome : forall j, is_Some (zone_mem_map z !! j) -> is_Some (zone_mem_map z' !! j)).
  { intros j Hj. rewrite Emem, lookup_insert. case_decide; [done|exact Hj]. }
  split; rewrite ?Epr.
  - eapply bi_present; eauto.
  - intros j Hj. by apply Hsome, (bi_mem _ _ Hinv).
  - intros j Hj. eapply in_dom_eq; [apply Hf|by apply (bi_lru _ _ Hinv)].
  - intros k' Hk'. destruct (decide (k' = k)) as [->|Hne].
    + rewrite upd_fl_eq, fmap_app. done.
    + rewrite upd_fl_ne by done. eapply is_list_frame; [exact Hf| |by apply (bi_lists _ _ Hinv)].
      intros n Hn Hin. eapply other_list_disjoint; [exact Hk|exact Hk'|done|exact Hn|].
      rewrite Hfl, fmap_app. simpl. rewrite !elem_of_cons, !elem_of_app, !elem_of_cons in *. tauto.
  - intros k' Hk'. rewrite Enr. destruct (decide (k' = k)) as [->|Hne].
    + rewrite lookup_insert_eq, upd_fl_eq, Hfl, !length_app. simpl. f_equal.
      unfold u32. rewrite Zminus_mod_idemp_l. f_equal. lia.
    + rewrite lookup_insert_ne, upd_fl_ne by congruence. by apply (bi_nr _ _ Hinv).
  - intros k' j Hk' Hj. apply elem_of_removed in Hj as [Hj _]. by eapply bi_aligned.
  - intros k' j Hk' Hj. apply elem_of_removed in Hj as [Hj _]. by eapply bi_range.
  - intros k' j p Hk' Hj. apply elem_of_removed in Hj as [Hj Hne]. rewrite Emem.
    rewrite lookup_insert_ne; [by eapply bi_private|]. intros <-. apply Hne. f_equal.
    eauto using block_unique, in_fl.
  - intros j p. rewrite Emem, lookup_insert. case_decide as Hji; [naive_solver congruence|].
    intros Hp Hpriv. destruct (bi_only _ _ Hinv _ _ Hp Hpriv). split; [done|].
    apply elem_of_removed. split; [done|congruence].
  - intros k' j l j' Hk' Hl' Hj Hj' Hne. apply elem_of_removed in Hj as [Hj _], Hj' as [Hj' _].
    eapply bi_disj; eauto.
  - intros k' j Hk' Hlt Hj Hb. apply elem_of_removed in Hj as [Hj _], Hb as [Hb _].
    by apply (bi_coalesced _ _ Hinv k' j).
Qed.

End remove.

(** *** Putting a loose block on a free list *)
Section insert.
Context (k i : Z) (Hk : in_order k) (Hloose : loose (present_pages z) fl i k).

Lemma loose_not_in k' : in_order k' -> i ∉ fl k'.
Proof.
  intros Hk' Hi. pow2 k. pow2 k'.
  destruct (loose_disj _ _ _ _ Hloose k' i Hk' Hi); lia.
Qed.

Lemma elem_of_inserted k' j :
  j ∈ upd_fl fl k (i :: fl k) k' <-> j ∈ fl k' \/ (j, k') = (i, k).
Proof.
  rewrite elem_of_upd_fl, elem_of_cons. split.
  - intros [[-> [->|?]]|[? ?]]; auto.
  - destruct (decide (k' = k)) as [->|]; [|naive_solver]. intros [?|[= ->]]; auto.
Qed.

Lemma free_page_inserted j :
  free_page (upd_fl fl k (i :: fl k)) j <-> free_page fl j \/ covers i k j.
Proof.
  unfold free_page. setoid_rewrite elem_of_inserted. split.
  - intros (k' & i' & Hk' & [Hi'|[= -> ->]] & Hc); eauto 10.
  - intros [(k' & i' & Hk' & Hi' & Hc)|Hc]; eauto 10.
Qed.

Lemma free_total_inserted : free_total (upd_fl fl k (i :: fl k)) = free_total fl + 2 ^ k.
Proof. rewrite free_total_upd by done. simpl. lia. Qed.

Lemma insert_inv s' p' z' :
  (k < BUDDY_GROUPS - 1 -> Z.lxor i (2 ^ k) ∉ fl k) ->
  list_add (Some (FreeList k)) (Some (Lru i)) (nodes z) = Ret s' ->
  PagePrivate p' = true -> private p' = k ->
  present_pages z' = present_pages z -> nodes z' = s' ->
  zone_mem_map z' = <[i := p']> (zone_mem_map z) ->
  nr_free z' = <[k := u32 (u32 (Z.of_nat (length (fl k))) + 1)]> (nr_free z) ->
  buddy_inv z' (upd_fl fl k (i :: fl k)).
Proof.
  intros Hbud Hadd Hp' Hpk Epr Enodes Emem Enr.
  destruct (loose_range _ _ _ _ Hloose) as [Hi0 Hi1]. pow2 k.
  assert (Hlru : is_Some (nodes z !! Lru i)) by (apply (bi_lru _ _ Hinv); lia).
  assert (Hni : Lru i ∉ FreeList k :: (Lru <$> fl k)).
  { rewrite elem_of_cons, list_elem_of_fmap. intros [?|(j & [= <-] & Hj)]; [done|].
    by apply loose_not_in in Hj. }
  destruct (list_add_spec _ _ _ _ (bi_lists _ _ Hinv k Hk) Hni Hlru) as (s & R & Hl & Hf).
  rewrite R in Hadd. injection Hadd as ->. rewrite <- Enodes in Hl, Hf.
  split; rewrite ?Epr.
  - eapply bi_present; eauto.
  - intros j Hj. rewrite Emem, lookup_insert. case_decide; [done|by apply (bi_mem _ _ Hinv)].
  - intros j Hj. eapply in_dom_eq; [apply Hf|by apply (bi_lru _ _ Hinv)].
  - intros k' Hk'. destruct (decide (k' = k)) as [->|Hne]; [by rewrite upd_fl_eq|].
    rewrite upd_fl_ne by done. eapply is_list_frame; [exact Hf| |by apply (bi_lists _ _ Hinv)].
    intros n Hn Hin. apply elem_of_cons in Hin as [->|Hin].
    + apply elem_of_cons in Hn as [?|Hn]; [done|].
      apply list_elem_of_fmap in Hn as (j & [= <-] & Hj). by apply loose_not_in in Hj.
    + by eapply (other_list_disjoint k k').
  - intros k' Hk'. rewrite Enr. destruct (decide (k' = k)) as [->|Hne].
    + rewrite lookup_insert_eq, upd_fl_eq. simpl. rewrite u32_add_l. do 2 f_equal. lia.
    + rewrite lookup_insert_ne, upd_fl_ne by congruence. by apply (bi_nr _ _ Hinv).
  - intros k' j Hk' Hj. apply elem_of_inserted in Hj as [Hj|[= -> ->]];
      [by eapply bi_aligned|by eapply loose_aligned].
  - intros k' j Hk' Hj. apply elem_of_inserted in Hj as [Hj|[= -> ->]]; [by eapply bi_range|done].
  - intros k' j p Hk' Hj. rewrite Emem, lookup_insert. apply elem_of_inserted in Hj as [Hj|[= -> ->]].
    + rewrite decide_False; [by eapply bi_private|]. intros <-. by apply loose_not_in in Hj.
    + rewrite decide_True by done. by intros [= <-].
  - intros j p. rewrite Emem, lookup_insert. case_decide as Hji.
    + intros [= <-] _. rewrite Hpk. split; [done|]. apply elem_of_inserted. right. congruence.
    + intros Hp Hpriv. destruct (bi_only _ _ Hinv _ _ Hp Hpriv). split; [done|].
      apply elem_of_inserted. by left.
  - intros k' j l j' Hk' Hl' Hj Hj' Hne. apply elem_of_inserted in Hj, Hj'.
    destruct Hj as [Hj|[= -> ->]], Hj' as [Hj'|[= -> ->]]; [by eapply bi_disj| | |done].
    + destruct (loose_disj _ _ _ _ Hloose k' j Hk' Hj); [by right|by left].
    + by apply (loose_disj _ _ _ _ Hloose).
  - intros k' j Hk' Hlt Hj Hb. apply elem_of_inserted in Hj, Hb. pow2 k'.
    destruct Hj as [Hj|[= -> ->]], Hb as [Hb|[= Hb]].
    + by apply (bi_coalesced _ _ Hinv k' j).
    + subst k'. apply (Hbud Hlt).
      rewrite <- Hb, Z.lxor_assoc, Z.lxor_nilpotent, Z.lxor_0_r. done.
    + by apply Hbud.
    + destruct (buddy_cases i k ltac:(unfold in_order in *; lia) (loose_aligned _ _ _ _ Hloose))
        as [(E & _)|(E & _)]; lia.
Qed.

End insert.
End inv_facts.
