(* ===== verification/BuddyProofs.v ===== *)
(** * Correctness of the buddy allocator

    [allocate_block], [free_block] and [init_zone] preserve [buddy_inv]; the
    set of free pages changes by exactly the block given or returned; an
    allocation fails only when no aligned run of that size is free; a block
    freed again restores the free lists. *)

From S2P Require Import Prelude ListHead Zone Buddy BuddyInv.

(** ** What an operation leaves untouched *)

Record buddy_step (z z' : zone_t) (touched : Z -> Prop) : Prop := {
  bs_present : present_pages z' = present_pages z;
  bs_start : zone_start_pfn z' = zone_start_pfn z;
  bs_usable : forall j, page_unusable <$> (zone_mem_map z' !! j) = page_unusable <$> (zone_mem_map z !! j);
  bs_pages : forall j, ~ touched j -> zone_mem_map z' !! j = zone_mem_map z !! j;
  bs_lru : forall j, ~ touched j -> nodes z' !! Lru j = nodes z !! Lru j;
  bs_mem : forall a, nodes z' !! Mem a = nodes z !! Mem a;
}.

Lemma buddy_step_refl z P : buddy_step z z P.
Proof. by split. Qed.

Lemma buddy_step_trans z1 z2 z3 (P Q R : Z -> Prop) :
  buddy_step z1 z2 P -> buddy_step z2 z3 Q ->
  (forall j, P j -> R j) -> (forall j, Q j -> R j) -> buddy_step z1 z3 R.
Proof.
  intros [] [] HP HQ. split; try congruence; intros.
  - rewrite bs_pages1, bs_pages0 by naive_solver. done.
  - rewrite bs_lru1, bs_lru0 by naive_solver. done.
Qed.

Lemma buddy_step_free_pages z z' P v :
  buddy_step z z' P -> buddy_step z (with_free_pages v z') P.
Proof. by intros []. Qed.

Lemma inv_free_pages z fl v : buddy_inv z fl -> buddy_inv (with_free_pages v z) fl.
Proof. by intros []. Qed.

(** ** Running the primitive steps *)

Section runs.
Context {B : Type} (K : zone_t -> outcome B) (z : zone_t) (i k n : Z) (s : gmap ptr (list_head ptr)) (p : page).

(** State after a block is taken from its list. *)
Definition taken : zone_t :=
  mk_zone (free_pages z) (present_pages z) (pages_min z) (pages_low z) (zone_start_pfn z)
    (<[i := with_private 0 (ClearPagePrivate p)]> (zone_mem_map z))
    (<[k := u32 (n - 1)]> (nr_free z)) s.

(** State after a block is put on a list. *)
Definition placed : zone_t :=
  mk_zone (free_pages z) (present_pages z) (pages_min z) (pages_low z) (zone_start_pfn z)
    (<[i := SetPagePrivate (with_private k p)]> (zone_mem_map z))
    (<[k := u32 (n + 1)]> (nr_free z)) s.

Context (Hp : zone_mem_map z !! i = Some p) (Hn : nr_free z !! k = Some n).

Ltac run_steps :=
  unfold on_nodes, upd_page, upd_nr_free, with_nodes, with_mem_map, with_nr_free; simpl;
  repeat first
    [ rewrite Hp; simpl | rewrite Hn; simpl | rewrite lookup_insert_eq; simpl
    | rewrite insert_insert_eq; simpl ].

Lemma run_take_alloc :
  list_del (Some (Lru i)) (nodes z) = Ret s ->
  (z ← on_nodes (list_del (Some (Lru i))) z; z ← upd_page i ClearPagePrivate z;
   z ← upd_page i (with_private 0) z; z ← upd_nr_free k (fun n => n - 1) z; K z) = K taken.
Proof. intros R. unfold on_nodes at 1. rewrite R. simpl. run_steps. done. Qed.

Lemma run_take_free :
  list_del (Some (Lru i)) (nodes z) = Ret s ->
  (z ← on_nodes (list_del (Some (Lru i))) z; z ← upd_nr_free k (fun n => n - 1) z;
   z ← upd_page i ClearPagePrivate z; z ← upd_page i (with_private 0) z; K z) = K taken.
Proof. intros R. unfold on_nodes at 1. rewrite R. simpl. run_steps. done. Qed.

Lemma run_place_split :
  list_add (Some (FreeList k)) (Some (Lru i)) (nodes z) = Ret s ->
  (z ← on_nodes (list_add (Some (FreeList k)) (Some (Lru i))) z;
   z ← upd_nr_free k (fun n => n + 1) z; z ← upd_page i (with_private k) z;
   z ← upd_page i SetPagePrivate z; K z) = K placed.
Proof. intros R. unfold on_nodes at 1. rewrite R. simpl. run_steps. done. Qed.

End runs.

Lemma run_place_free z i k n s p :
  zone_mem_map z !! i = Some p -> nr_free z !! k = Some n ->
  list_add (Some (FreeList k)) (Some (Lru i)) (nodes z) = Ret s ->
  (z ← upd_page i (with_private k) z; z ← upd_page i SetPagePrivate z;
   z ← on_nodes (list_add (Some (FreeList k)) (Some (Lru i))) z;
   upd_nr_free k (fun n => n + 1) z) = Ret (placed z i k n s p).
Proof.
  intros Hp Hn R. unfold upd_page, on_nodes, upd_nr_free. rewrite Hp. simpl.
  rewrite lookup_insert_eq. simpl. rewrite R. simpl. rewrite Hn. simpl.
  unfold placed, with_nr_free, with_nodes, with_mem_map. simpl. by rewrite insert_insert_eq.
Qed.

Lemma free_page_self fl k i : in_order k -> i ∈ fl k -> free_page fl i.
Proof. intros Hk Hi. exists k, i. pow2 k. unfold covers. split_and!; try done; lia. Qed.

(** Taking the block [i] of order [k] off its list, as one step on the invariant. *)
Lemma take_step z fl k i :
  buddy_inv z fl -> in_order k -> i ∈ fl k ->
  exists l1 l2 s p n,
    fl k = l1 ++ i :: l2 /\ zone_mem_map z !! i = Some p /\ nr_free z !! k = Some n /\
    list_del (Some (Lru i)) (nodes z) = Ret s /\
    buddy_inv (taken z i k n s p) (upd_fl fl k (l1 ++ l2)) /\
    buddy_step z (taken z i k n s p) (free_page fl).
Proof.
  intros Hinv Hk Hi. apply list_elem_of_split in Hi as Hs. destruct Hs as (l1 & l2 & Hfl).
  destruct (bi_range _ _ Hinv k i Hk Hi) as [Hr1 Hr2]. pow2 k.
  destruct (bi_mem _ _ Hinv i) as [p Hp]; [lia|]. pose proof (bi_nr _ _ Hinv k Hk) as Hn.
  pose proof (bi_lists _ _ Hinv k Hk) as Hlist. rewrite Hfl, fmap_app in Hlist. simpl in Hlist.
  destruct (list_del_spec _ _ _ _ _ Hlist) as (s & R & _ & _ & [_ Hf]).
  exists l1, l2, s, p, (u32 (Z.of_nat (length (fl k)))). split_and!; try done.
  - eapply remove_inv; try done. apply ClearPagePrivate_private.
  - assert (Hin : forall j, j = i \/ j ∈ l1 ++ l2 -> free_page fl j).
    { intros j Hj. apply (free_page_self fl k); [done|]. rewrite Hfl.
      rewrite elem_of_app, elem_of_cons in *. tauto. }
    split; try done; simpl; intros j.
    + rewrite lookup_insert. case_decide as E; [subst; rewrite Hp|done]. simpl. f_equal.
      apply ClearPagePrivate_unusable.
    + intros Hj. rewrite lookup_insert_ne; [done|]. intros <-. apply Hj, Hin. by left.
    + intros Hj. apply Hf. rewrite !elem_of_cons, <- fmap_app, list_elem_of_fmap.
      intros [[= <-]|[?|(? & [= <-] & ?)]]; [|done|]; apply Hj, Hin; auto.
    + apply Hf. rewrite !elem_of_cons, <- fmap_app, list_elem_of_fmap. naive_solver.
Qed.

(** Putting the loose block [i] of order [k] on its list, as one step. *)
Lemma place_step z fl k i :
  buddy_inv z fl -> in_order k -> loose (present_pages z) fl i k ->
  (k < BUDDY_GROUPS - 1 -> Z.lxor i (2 ^ k) ∉ fl k) ->
  exists s p n,
    zone_mem_map z !! i = Some p /\ nr_free z !! k = Some n /\
    list_add (Some (FreeList k)) (Some (Lru i)) (nodes z) = Ret s /\
    buddy_inv (placed z i k n s p) (upd_fl fl k (i :: fl k)) /\
    buddy_step z (placed z i k n s p) (free_page (upd_fl fl k (i :: fl k))).
Proof.
  intros Hinv Hk Hloose Hbud. destruct (loose_range _ _ _ _ Hloose) as [Hr1 Hr2]. pow2 k.
  destruct (bi_mem _ _ Hinv i) as [p Hp]; [lia|]. pose proof (bi_nr _ _ Hinv k Hk) as Hn.
  assert (Hni : Lru i ∉ FreeList k :: (Lru <$> fl k)).
  { rewrite elem_of_cons, list_elem_of_fmap. intros [?|(j & [= <-] & Hj)]; [done|].
    revert Hj. by eapply loose_not_in. }
  destruct (list_add_spec _ _ _ _ (bi_lists _ _ Hinv k Hk) Hni) as (s & R & _ & [_ Hf]).
  { apply (bi_lru _ _ Hinv). lia. }
  exists s, p, (u32 (Z.of_nat (length (fl k)))). split_and!; try done.
  - apply (insert_inv z fl Hinv k i Hk Hloose s (SetPagePrivate (with_private k p))); try done.
    apply SetPagePrivate_private.
  - assert (Hin : forall j, j = i \/ j ∈ fl k -> free_page (upd_fl fl k (i :: fl k)) j).
    { intros j Hj. apply (free_page_self _ k); [done|]. rewrite upd_fl_eq, elem_of_cons. tauto. }
    split; try done; simpl; intros j.
    + rewrite lookup_insert. case_decide as E; [subst; rewrite Hp|done]. simpl. f_equal.
      apply (SetPagePrivate_unusable (with_private k p)).
    + intros Hj. rewrite lookup_insert_ne; [done|]. intros <-. apply Hj, Hin. by left.
    + intros Hj. apply Hf. rewrite !elem_of_cons, list_elem_of_fmap.
      intros [[= <-]|[?|(? & [= <-] & ?)]]; [|done|]; apply Hj, Hin; auto.
    + apply Hf. rewrite !elem_of_cons, list_elem_of_fmap. naive_solver.
Qed.

(** ** allocate_block *)

Lemma find_order_spec z fl n co :
  buddy_inv z fl -> 0 <= co -> co + Z.of_nat n = BUDDY_GROUPS ->
  (exists k, find_order n co z = Ret (Some k) /\ co <= k < BUDDY_GROUPS /\ fl k <> []) \/
  (find_order n co z = Ret None /\ forall k, co <= k < BUDDY_GROUPS -> fl k = []).
Proof.
  intros Hinv. revert co. induction n as [|n IH]; intros co Hco Hn; simpl.
  - right. split; [done|]. intros. lia.
  - assert (Hk : in_order co) by (unfold in_order; lia).
    rewrite (list_is_empty_spec _ _ _ (bi_lists _ _ Hinv co Hk)). simpl.
    destruct (decide (fl co = [])) as [E|E].
    + rewrite bool_decide_eq_true_2 by by rewrite E.
      destruct (IH (co + 1)) as [(k & R & ? & ?)|[R Hnone]]; [lia|lia| |].
      * left. exists k. split_and!; [done|lia|lia|done].
      * right. split; [done|]. intros k Hk'. destruct (decide (k = co)) as [->|]; [done|].
        apply Hnone. lia.
    + rewrite bool_decide_eq_false_2; [left; exists co; split_and!; [done|lia|lia|done]|].
      intros Hf. apply fmap_nil_inv in Hf. done.
Qed.

(** The upper half of a loose block is loose and its buddy is the lower half. *)
Lemma loose_halves present fl i k :
  0 <= k -> loose present fl i (k + 1) ->
  loose present fl (i + 2 ^ k) k /\ loose present fl i k /\ Z.lxor (i + 2 ^ k) (2 ^ k) = i.
Proof.
  intros Hk [Hal [Hr1 Hr2] Hd]. pose proof (pow2_succ k Hk) as E. pose proof (pow2_pos k Hk).
  assert (Hal' : (2 ^ k | i)) by (apply (pow2_divide k (k + 1)); [lia|done]).
  split_and!.
  - split; [by apply Z.divide_add_r; [|apply Z.divide_refl]|lia|].
    intros l j Hl Hj. destruct (Hd l j Hl Hj); unfold blk_disj; lia.
  - split; [done|lia|]. intros l j Hl Hj. destruct (Hd l j Hl Hj); unfold blk_disj; lia.
  - destruct (buddy_cases (i + 2 ^ k) k Hk) as [(Ex & _ & Hdiv)|(Ex & _)]; [| |lia].
    + by apply Z.divide_add_r; [|apply Z.divide_refl].
    + exfalso. rewrite E in *. destruct Hal as [q ->], Hdiv as [q' Hq].
      assert (2 * q + 1 = 2 * q') by (apply (Z.mul_reg_r _ _ (2 ^ k)); lia). lia.
Qed.

Lemma loose_upd_disjoint present fl i k j l :
  loose present fl i k -> blk_disj i k j l -> loose present (upd_fl fl l (j :: fl l)) i k.
Proof.
  intros [] Hd. split; [done..|]. intros l' j' Hl' Hj'.
  apply elem_of_upd_fl in Hj' as [[-> Hj']|[_ Hj']]; [|by eauto].
  apply elem_of_cons in Hj' as [->|Hj']; eauto.
Qed.

Lemma split_block_spec n : forall co page z fl,
  buddy_inv z fl -> in_order co -> Z.of_nat n <= co -> loose (present_pages z) fl page co ->
  exists z' fl', split_block n co (2 ^ co) page z = Ret z' /\ buddy_inv z' fl' /\
    loose (present_pages z') fl' page (co - Z.of_nat n) /\ free_pages z' = free_pages z /\
    (forall j, free_page fl' j <->
       free_page fl j \/ (covers page co j /\ ~ covers page (co - Z.of_nat n) j)) /\
    free_total fl' = free_total fl + 2 ^ co - 2 ^ (co - Z.of_nat n) /\
    buddy_step z z' (free_page fl').
Proof.
  induction n as [|n IH]; intros co page z fl Hinv Hco Hn Hl.
  - exists z, fl. change (Z.of_nat 0) with 0. rewrite Z.sub_0_r.
    split_and!; try done; [intros j; tauto|lia].
  - assert (Hk : in_order (co - 1)) by (unfold in_order in *; lia).
    assert (Hk0 : 0 <= co - 1) by lia. pose proof (pow2_succ _ Hk0) as E.
    replace (co - 1 + 1) with co in E by lia. pose proof (pow2_pos _ Hk0).
    destruct (loose_halves (present_pages z) fl page (co - 1)) as (Hup & Hlow & Hx);
      [done|by replace (co - 1 + 1) with co by lia|].
    destruct (place_step z fl (co - 1) (page + 2 ^ (co - 1)) Hinv Hk Hup)
      as (s & p & m & Hp & Hm & R & Hinv' & Hst).
    { rewrite Hx. intros _. by eapply loose_not_in. }
    pose proof (free_page_inserted fl (co - 1) (page + 2 ^ (co - 1)) Hk) as Hfp.
    pose proof (free_total_inserted fl (co - 1) (page + 2 ^ (co - 1)) Hk) as Hft.
    set (fl1 := upd_fl _ _ _) in *. set (z1 := placed _ _ _ _ _ _) in *.
    destruct (IH (co - 1) page z1 fl1) as (z' & fl' & Run & Hinv2 & Hl2 & Efp & Hfree & Etot & Hst2);
      [done|done|lia| |].
    { apply loose_upd_disjoint; [done|]. unfold blk_disj. lia. }
    replace (co - 1 - Z.of_nat n) with (co - Z.of_nat (S n)) in * by lia.
    exists z', fl'. split_and!; try done.
    + cbn [split_block]. replace (Z.shiftr (2 ^ co) 1) with (2 ^ (co - 1)).
      2:{ rewrite Z.shiftr_div_pow2, E, Z.pow_1_r by lia. rewrite Z.mul_comm, Z.div_mul; lia. }
      rewrite (run_place_split _ z _ _ m s p); done.
    + intros j. rewrite Hfree, Hfp. unfold covers.
      pose proof (pow2_pos (co - Z.of_nat (S n)) ltac:(lia)).
      assert (2 ^ (co - Z.of_nat (S n)) <= 2 ^ (co - 1)) by (apply Z.pow_le_mono_r; lia).
      rewrite E. split; [|destruct (decide (j < page + 2 ^ (co - 1)))]; intuition lia.
    + rewrite Etot, Hft. lia.
    + eapply buddy_step_trans; [exact Hst|exact Hst2| |done].
      intros j Hj. apply Hfree. by left.
Qed.

(** The result of a successful allocation of order [k]: block [i]. *)
Record alloc_ok (z : zone_t) (fl : Z -> list Z) (k : Z) (z' : zone_t) (fl' : Z -> list Z) (i : Z)
  : Prop := {
  ao_inv : buddy_inv z' fl';
  ao_loose : loose (present_pages z') fl' i k;
  ao_was_free : forall j, covers i k j -> free_page fl j;
  ao_free : forall j, free_page fl' j <-> free_page fl j /\ ~ covers i k j;
  ao_total : free_total fl' = free_total fl - 2 ^ k;
  ao_free_pages : free_pages z' = u32 (free_pages z - 2 ^ k);
  ao_step : buddy_step z z' (free_page fl);
}.

Lemma allocate_block_cases z fl k :
  buddy_inv z fl -> in_order k ->
  (exists z' fl' i, allocate_block z k = Ret (z', Some i) /\ alloc_ok z fl k z' fl' i) \/
  (allocate_block z k = Ret (z, None) /\ forall l, k <= l < BUDDY_GROUPS -> fl l = []).
Proof.
  intros Hinv Hk. unfold allocate_block.
  destruct (find_order_spec z fl (Z.to_nat (BUDDY_GROUPS - k)) k Hinv)
    as [(co & Rf & Hco & Hne)|[Rf Hnone]]; [unfold in_order in *; lia..| |].
  2:{ right. rewrite Rf. done. }
  left. rewrite Rf. simpl. assert (Hoc : in_order co) by (unfold in_order in *; lia).
  destruct (fl co) as [|i rest] eqn:Efl; [done|].
  rewrite (is_list_first _ _ _ (bi_lists _ _ Hinv co Hoc)), Efl. simpl.
  destruct (take_step z fl co i Hinv Hoc) as (l1 & l2 & s & p & n & Hfl & Hp & Hn & R & Hinv1 & Hst);
    [rewrite Efl; left|].
  rewrite (run_take_alloc _ z i co n s p Hp Hn R). simpl.
  pose proof (free_page_removed z fl Hinv co i l1 l2 Hoc Hfl) as Hfp.
  pose proof (free_total_removed fl co i l1 l2 Hoc Hfl) as Hft.
  pose proof (loose_removed z fl Hinv co i l1 l2 Hoc Hfl) as Hlo.
  set (z1 := taken _ _ _ _ _ _) in *. set (fl1 := upd_fl _ _ _) in *.
  set (z2 := with_free_pages _ z1). rewrite Z.shiftl_1_l.
  destruct (split_block_spec (Z.to_nat (co - k)) co i z2 fl1)
    as (z' & fl' & Rs & Hinv' & Hl' & Efp & Hfree & Etot & Hst');
    [by apply inv_free_pages|done|unfold in_order in *; lia|done|].
  rewrite Z2Nat.id in * by lia. replace (co - (co - k)) with k in * by lia.
  exists z', fl', i. rewrite Rs. simpl. split; [done|]. pow2 k.
  assert (Hle : 2 ^ k <= 2 ^ co) by (apply Z.pow_le_mono_r; unfold in_order in *; lia).
  assert (Hwas : forall j, covers i co j -> free_page fl j).
  { intros j Hj. exists co, i. split_and!; [done| |done]. rewrite Efl. left. }
  split; try done.
  - intros j Hj. apply Hwas. unfold covers in *. lia.
  - intros j. rewrite Hfree, Hfp. split.
    + intros [[? Hc]|[Hc ?]]; split; try done; [|by apply Hwas]. unfold covers in *. lia.
    + intros [Hj Hc]. destruct (decide (i <= j < i + 2 ^ co)); [by right|]. left. done.
  - lia.
  - rewrite Efp. unfold z2. simpl. by rewrite Z.shiftl_1_l.
  - eapply (buddy_step_trans z z2); [apply buddy_step_free_pages; exact Hst|exact Hst'|done|].
    intros j. rewrite Hfree, Hfp. intros [[? _]|[? _]]; auto.
Qed.

(** ** free_block *)

(** Two free halves make a loose block of the next order. *)
Lemma loose_merge present fl i k b :
  in_order k -> loose present fl i k -> loose present fl b k -> b = Z.lxor i (2 ^ k) ->
  loose present fl (Z.land i b) (k + 1) /\
  forall j, covers (Z.land i b) (k + 1) j <-> covers i k j \/ covers b k j.
Proof.
  intros Hk [Hal [Hr1 Hr2] Hd] [_ [Hr3 Hr4] Hd'] ->.
  assert (Hk0 : 0 <= k) by (unfold in_order in *; lia). pow2 k.
  pose proof (pow2_succ k Hk0) as E. unfold covers. rewrite E.
  destruct (buddy_cases i k Hk0 Hal) as [(Ex & Ea & Hdiv)|(Ex & Ea & Hdiv)];
    rewrite Ea; rewrite Ex in *; (split; [|lia]).
  all: split; [done|rewrite E; lia|].
  all: intros l j Hl Hj; specialize (Hd l j Hl Hj); specialize (Hd' l j Hl Hj); pow2 l;
    unfold blk_disj in *; rewrite E; lia.
Qed.

Record coalesce_ok (z : zone_t) (fl : Z -> list Z) (i k : Z)
    (z' : zone_t) (fl' : Z -> list Z) (i' k' : Z) : Prop := {
  co_inv : buddy_inv z' fl';
  co_order : in_order k';
  co_loose : loose (present_pages z') fl' i' k';
  co_done : k' < BUDDY_GROUPS - 1 -> Z.lxor i' (2 ^ k') ∉ fl' k';
  co_free : forall j, free_page fl' j \/ covers i' k' j <-> free_page fl j \/ covers i k j;
  co_total : free_total fl' + 2 ^ k' = free_total fl + 2 ^ k;
  co_free_pages : free_pages z' = free_pages z;
  co_step : buddy_step z z' (free_page fl);
}.

Lemma coalesce_stop z fl i k :
  buddy_inv z fl -> in_order k -> loose (present_pages z) fl i k ->
  (k < BUDDY_GROUPS - 1 -> Z.lxor i (2 ^ k) ∉ fl k) -> coalesce_ok z fl i k z fl i k.
Proof. intros. split; try done. Qed.

Lemma coalesce_spec n : forall i k z fl,
  buddy_inv z fl -> in_order k -> Z.of_nat n = BUDDY_GROUPS - 1 - k ->
  loose (present_pages z) fl i k ->
  exists z' fl' i' k', coalesce n i k z = Ret (i', k', z') /\ coalesce_ok z fl i k z' fl' i' k'.
Proof.
  induction n as [|n IH]; intros i k z fl Hinv Hk Hn Hl.
  - exists z, fl, i, k. split; [done|]. apply coalesce_stop; try done. intros. lia.
  - cbn [coalesce]. rewrite Z.shiftl_1_l. set (b := Z.lxor i (2 ^ k)).
    destruct (Z.leb_spec (present_pages z) b) as [Hb|Hb].
    { exists z, fl, i, k. split; [done|]. apply coalesce_stop; try done. fold b. intros _ Hin.
      destruct (bi_range _ _ Hinv k b Hk Hin). pow2 k. lia. }
    assert (Hk0 : 0 <= k) by (unfold in_order in *; lia). pow2 k.
    destruct (loose_range _ _ _ _ Hl) as [Hr1 Hr2].
    assert (Hb0 : 0 <= b) by (apply Z.lxor_nonneg; lia).
    destruct (bi_mem _ _ Hinv b) as [pb Hpb]; [lia|]. rewrite Hpb. simpl.
    destruct (page_is_buddy pb k) eqn:Ebud; simpl.
    2:{ exists z, fl, i, k. split; [done|]. apply coalesce_stop; try done. fold b. intros _ Hin.
        apply (page_is_buddy_spec _ _ Hinv b pb k Hk Hpb) in Hin. congruence. }
    apply (page_is_buddy_spec _ _ Hinv b pb k Hk Hpb) in Ebud.
    destruct (take_step z fl k b Hinv Hk Ebud)
      as (l1 & l2 & s & p & m & Hfl & Hp & Hm & R & Hinv1 & Hst).
    rewrite (run_take_free _ z b k m s p Hp Hm R).
    pose proof (free_page_removed z fl Hinv k b l1 l2 Hk Hfl) as Hfp.
    pose proof (free_total_removed fl k b l1 l2 Hk Hfl) as Hft.
    pose proof (loose_removed z fl Hinv k b l1 l2 Hk Hfl) as Hlo.
    pose proof (elem_of_removed z fl Hinv k b l1 l2 Hk Hfl) as Hel.
    set (z1 := taken _ _ _ _ _ _) in *. set (fl1 := upd_fl _ _ _) in *.
    assert (Hl1 : loose (present_pages z) fl1 i k).
    { split; [apply Hl|done|]. intros l j Hj Hj'. apply Hel in Hj' as [Hj' _]. by apply Hl. }
    destruct (loose_merge _ fl1 i k b Hk Hl1 Hlo eq_refl) as [Hm1 Hcov].
    destruct (IH (Z.land i b) (k + 1) z1 fl1) as (z' & fl' & i' & k' & Run & Hok);
      [done|unfold in_order in *; lia|lia|done|].
    exists z', fl', i', k'. split; [done|]. destruct Hok as [? ? ? ? Hf Ht Hfpg Hstp].
    split; try done.
    + intros j. rewrite Hf, Hcov, Hfp. split.
      * intros [[? ?]|[?|?]]; [by left|by right|]. left. exists k, b. done.
      * intros [Hj|?]; [|by auto]. destruct (decide (b <= j < b + 2 ^ k)); [by auto|].
        left. split; [done|]. unfold covers. lia.
    + rewrite Ht, Hft, pow2_succ by lia. lia.
    + eapply buddy_step_trans; [exact Hst|exact Hstp|done|]. intros j. rewrite Hfp. tauto.
Qed.

Record free_ok (z : zone_t) (fl : Z -> list Z) (i k : Z) (z' : zone_t) (fl' : Z -> list Z)
  : Prop := {
  fo_inv : buddy_inv z' fl';
  fo_free : forall j, free_page fl' j <-> free_page fl j \/ covers i k j;
  fo_total : free_total fl' = free_total fl + 2 ^ k;
  fo_free_pages : free_pages z' = u32 (free_pages z + 2 ^ k);
  fo_step : buddy_step z z' (free_page fl');
}.

Lemma free_block_ok z fl i k :
  buddy_inv z fl -> in_order k -> loose (present_pages z) fl i k ->
  exists z' fl', free_block (Some i) z k = Ret z' /\ free_ok z fl i k z' fl'.
Proof.
  intros Hinv Hk Hl. unfold free_block. simpl. rewrite Z.shiftl_1_l.
  set (z0 := with_free_pages _ z).
  destruct (coalesce_spec (Z.to_nat (BUDDY_GROUPS - 1 - k)) i k z0 fl)
    as (z1 & fl1 & i' & k' & Run & [Hinv1 Hk' Hl1 Hdone Hf Ht Hfp Hst]);
    [by apply inv_free_pages|done|unfold in_order in *; lia|done|].
  rewrite Run. simpl.
  destruct (place_step z1 fl1 k' i' Hinv1 Hk' Hl1 Hdone)
    as (s & p & m & Hp & Hm & R & Hinv2 & Hst2).
  pose proof (free_page_inserted fl1 k' i' Hk') as Hins.
  pose proof (free_total_inserted fl1 k' i' Hk') as Htot.
  eexists _, _. split; [by apply (run_place_free z1 i' k' m s p)|].
  split; [exact Hinv2| | | |].
  - intros j. rewrite Hins. apply Hf.
  - lia.
  - simpl. rewrite Hfp. done.
  - eapply (buddy_step_trans z z1); [|exact Hst2| |done].
    + eapply (buddy_step_trans z z0); [|exact Hst| |]; [|by intros ? H; exact H|done].
      apply buddy_step_free_pages, buddy_step_refl.
    + intros j Hj. apply Hins, Hf. by left.
Qed.
