(* ===== verification/BuddyInit.v ===== *)
(** * Completeness of the buddy allocator, and init_zone

    The free lists are the canonical ones for the set of free pages: an
    aligned run of free pages always lies in one free block, so an allocation
    fails only when no such run exists, and freeing what was allocated
    restores the lists.  [add_free_region_to_buddy] adds exactly its region and
    [init_zone] frees exactly the pages that are neither taken nor reserved. *)

From S2P Require Import Prelude ListHead Zone Buddy BuddyInv BuddyProofs.

(** ** Maximality of the free blocks *)

Lemma free_run_in_block z fl m b :
  buddy_inv z fl -> in_order m -> (2 ^ m | b) -> (forall j, covers b m j -> free_page fl j) ->
  exists k i, in_order k /\ m <= k /\ i ∈ fl k /\ i <= b /\ b + 2 ^ m <= i + 2 ^ k.
Proof.
  intros Hinv Hm. assert (Hm0 : 0 <= m) by (unfold in_order in *; lia).
  revert Hm b. pattern m. apply natlike_ind; [| |done]; clear m Hm0.
  - intros _ b _ Hfree. destruct (Hfree b) as (k & i & Hk & Hi & Hc);
      [unfold covers; lia|]. exists k, i. unfold covers, in_order in *. split_and!; try done; lia.
  - intros m Hm0 IH Hm b Hb Hfree. unfold Z.succ in *.
    assert (Hm' : in_order m) by (unfold in_order in *; lia).
    pose proof (pow2_succ m Hm0) as E. pose proof (pow2_pos m Hm0).
    assert (Hbm : (2 ^ m | b)) by (apply (pow2_divide m (m + 1)); [lia|done]).
    assert (Hbm' : (2 ^ m | b + 2 ^ m)) by (apply Z.divide_add_r; [done|apply Z.divide_refl]).
    unfold covers in *.
    destruct (IH Hm' b Hbm) as (k & i & Hk & Hmk & Hi & Hi1 & Hi2);
      [intros; apply Hfree; lia|].
    destruct (IH Hm' (b + 2 ^ m) Hbm') as (k' & i' & Hk' & Hmk' & Hi' & Hi1' & Hi2');
      [intros; apply Hfree; lia|].
    assert (Hbig : forall l j, in_order l -> j ∈ fl l -> m + 1 <= l ->
      ~ blk_disj b (m + 1) j l -> exists k i, in_order k /\ m + 1 <= k /\ i ∈ fl k /\ i <= b /\
        b + 2 ^ (m + 1) <= i + 2 ^ k).
    { intros l j Hl Hj Hml Hnd. destruct (aligned_nested b (m + 1) j l) as [|[? ?]];
        [lia|done|by apply (bi_aligned _ _ Hinv)|done|]. eauto 10. }
    destruct (decide (m + 1 <= k)) as [|Hkm].
    { apply (Hbig k i); try done. unfold blk_disj. lia. }
    destruct (decide (m + 1 <= k')) as [|Hkm'].
    { apply (Hbig k' i'); try done. unfold blk_disj. lia. }
    assert (k = m) as -> by lia. assert (k' = m) as -> by lia.
    assert (i = b) as -> by lia. assert (i' = b + 2 ^ m) as -> by lia.
    exfalso. apply (bi_coalesced _ _ Hinv m b Hm'); [unfold in_order in *; lia|done|].
    destruct (buddy_cases b m Hm0 Hbm) as [(-> & _)|(_ & _ & Hdiv)]; [done|].
    exfalso. rewrite E in *. destruct Hb as [q ->], Hdiv as [q' Hq].
    assert (2 * q - 1 = 2 * q') by (apply (Z.mul_reg_r _ _ (2 ^ m)); lia). lia.
Qed.

Lemma overlap_eq z fl k i l j x :
  buddy_inv z fl -> in_order k -> in_order l -> i ∈ fl k -> j ∈ fl l ->
  covers i k x -> covers j l x -> (i, k) = (j, l).
Proof.
  intros Hinv Hk Hl Hi Hj Hx Hx'. destruct (decide ((i, k) = (j, l))) as [|Hne]; [done|].
  destruct (bi_disj _ _ Hinv k i l j Hk Hl Hi Hj Hne); unfold covers in *; lia.
Qed.

(** The set of free pages determines the free blocks. *)
Lemma free_blocks_canonical z fl z' fl' k i :
  buddy_inv z fl -> buddy_inv z' fl' -> (forall j, free_page fl j <-> free_page fl' j) ->
  in_order k -> i ∈ fl k -> i ∈ fl' k.
Proof.
  intros Hinv Hinv' Heq Hk Hi. pow2 k.
  destruct (free_run_in_block z' fl' k i Hinv' Hk) as (k' & i' & Hk' & Hkk & Hi' & H1 & H2).
  { by apply (bi_aligned _ _ Hinv). }
  { intros j Hj. apply Heq. by exists k, i. }
  destruct (free_run_in_block z fl k' i' Hinv Hk') as (k2 & i2 & Hk2 & Hkk2 & Hi2 & H3 & H4).
  { by apply (bi_aligned _ _ Hinv'). }
  { intros j Hj. apply Heq. by exists k', i'. }
  assert (E : (i, k) = (i2, k2)).
  { apply (overlap_eq z fl k i k2 i2 i); unfold covers; try done; lia. }
  injection E as <- <-. assert (k' = k) as -> by lia. assert (i' = i) as -> by lia. done.
Qed.

Lemma canonical_perm z fl z' fl' k :
  buddy_inv z fl -> buddy_inv z' fl' -> (forall j, free_page fl j <-> free_page fl' j) ->
  in_order k -> fl k ≡ₚ fl' k.
Proof.
  intros Hinv Hinv' Heq Hk. apply NoDup_Permutation;
    [by apply (inv_NoDup z)|by apply (inv_NoDup z')|].
  intros i. split; [|symmetry in Heq]; by eapply free_blocks_canonical.
Qed.

(** ** add_free_region_to_buddy *)

Lemma builtin_ctz_spec x : 0 < x -> exists a, builtin_ctz x = Ret a /\ 0 <= a /\ (2 ^ a | x).
Proof.
  destruct x as [|p|]; [lia| |lia]. intros _. exists (pos_ctz p). split; [done|].
  induction p as [p IH|p IH|]; cbn [pos_ctz].
  - split; [lia|]. apply Z.divide_1_l.
  - destruct IH as [? [q Hq]]. split; [lia|]. exists q. rewrite Z.add_comm, pow2_succ by done.
    rewrite (Pos2Z.inj_xO p), Hq. lia.
  - split; [lia|]. apply Z.divide_1_l.
Qed.

Lemma order_loop_spec fuel : forall num o,
  1 <= num < 2 ^ (Z.of_nat fuel + 1) -> order_loop fuel num o = Ret (o + Z.log2 num).
Proof.
  induction fuel as [|fuel IH]; intros num o Hn; simpl.
  - change (Z.of_nat 0 + 1) with 1 in Hn. rewrite Z.pow_1_r in Hn.
    assert (num = 1) as -> by lia. simpl. f_equal. change (Z.log2 1) with 0. lia.
  - destruct (Z.ltb_spec 1 num).
    + rewrite IH.
      * f_equal. rewrite Z.log2_shiftr by lia. pose proof (Z.log2_pos num). lia.
      * rewrite Z.shiftr_div_pow2, Z.pow_1_r by lia.
        replace (Z.of_nat (S fuel) + 1) with (Z.of_nat fuel + 1 + 1) in Hn by lia.
        rewrite pow2_succ in Hn by lia. split.
        -- apply Z.div_le_lower_bound; lia.
        -- apply Z.div_lt_upper_bound; lia.
    + assert (num = 1) as -> by lia. f_equal. change (Z.log2 1) with 0. lia.
Qed.

(** A block none of whose pages is free overlaps no free block. *)
Lemma loose_of_not_free pr fl i k :
  in_order k -> (2 ^ k | i) -> 0 <= i -> i + 2 ^ k <= pr ->
  (forall j, covers i k j -> ~ free_page fl j) -> loose pr fl i k.
Proof.
  intros Hk Hal H0 H1 Hnf. split; [done|done|]. intros l j Hl Hj. unfold blk_disj.
  pow2 k. pow2 l. destruct (decide (i + 2 ^ k <= j)); [by left|].
  destruct (decide (j + 2 ^ l <= i)); [by right|]. exfalso.
  apply (Hnf (Z.max i j)); [unfold covers; lia|]. exists l, j. unfold covers. split_and!; try done; lia.
Qed.

Lemma loose_not_free pr fl i k x : loose pr fl i k -> covers i k x -> ~ free_page fl x.
Proof.
  intros Hl Hx (l & j & Hlo & Hj & Hc).
  destruct (loose_disj _ _ _ _ Hl l j Hlo Hj); unfold covers in *; lia.
Qed.

Lemma loose_mono pr fl fl' i k :
  in_order k -> (forall x, covers i k x -> free_page fl' x -> free_page fl x) ->
  loose pr fl i k -> loose pr fl' i k.
Proof.
  intros Hk Hsub Hl. destruct (loose_range _ _ _ _ Hl).
  apply loose_of_not_free; [done|apply Hl|done|done|].
  intros x Hx Hf. apply (loose_not_free _ _ _ _ x Hl Hx). by apply Hsub.
Qed.

Lemma loose_disjoint pr fl i k j l :
  in_order k -> in_order l -> loose pr fl i k -> (forall x, covers j l x -> free_page fl x) ->
  blk_disj j l i k.
Proof.
  intros Hk Hlo Hl Hf. pow2 k. pow2 l. unfold blk_disj.
  destruct (decide (j + 2 ^ l <= i)); [by left|]. destruct (decide (i + 2 ^ k <= j)); [by right|].
  exfalso. apply (loose_not_free _ _ _ _ (Z.max i j) Hl); [|apply Hf]; unfold covers; lia.
Qed.

(** What adding the region [a..b] does. *)
Record region_ok (z : zone_t) (fl : Z -> list Z) (a b : Z) (z' : zone_t) (fl' : Z -> list Z)
  : Prop := {
  ro_inv : buddy_inv z' fl';
  ro_free : forall j, free_page fl' j <-> free_page fl j \/ a <= j <= b;
  ro_total : free_total fl' = free_total fl + Z.max 0 (b - a + 1);
  ro_free_pages : free_pages z' = u32 (free_pages z + Z.max 0 (b - a + 1));
  ro_step : buddy_step z z' (free_page fl');
}.

(** The block the loop picks at [current]. *)
Lemma region_block current last :
  0 <= current <= last -> last < 2 ^ 31 - 1 ->
  exists al so, (if current =? 0 then mret BUDDY_GROUPS else builtin_ctz current) = Ret al /\
    order_loop 31 (last - current + 1) 0 = Ret so /\
    let m := if al <? so then al else so in
    let m := if BUDDY_GROUPS <=? m then BUDDY_GROUPS - 1 else m in
    in_order m /\ (2 ^ m | current) /\ current + 2 ^ m <= last + 1.
Proof.
  intros Hc Hlast.
  assert (exists al, (if current =? 0 then mret BUDDY_GROUPS else builtin_ctz current) = Ret al /\
    0 <= al /\ (2 ^ al | current)) as (al & Eal & Hal0 & Hal).
  { destruct (Z.eqb_spec current 0) as [->|].
    - exists BUDDY_GROUPS. split_and!; [done|done|apply Z.divide_0_r].
    - apply builtin_ctz_spec. lia. }
  exists al, (Z.log2 (last - current + 1)).
  split; [exact Eal|]. split.
  { rewrite order_loop_spec; [done|]. change (Z.of_nat 31 + 1) with 32. lia. }
  pose proof (Z.log2_spec (last - current + 1) ltac:(lia)) as [Hlog _].
  pose proof (Z.log2_nonneg (last - current + 1)).
  set (so := Z.log2 _) in *. cbv zeta.
  set (m := if BUDDY_GROUPS <=? _ then _ else _).
  assert (Hm : 0 <= m <= al /\ m <= so /\ m < BUDDY_GROUPS).
  { unfold m, BUDDY_GROUPS. destruct (Z.ltb_spec al so);
      match goal with |- context [?a <=? ?b] => destruct (Z.leb_spec a b) end; lia. }
  split; [unfold in_order; lia|]. split; [apply (pow2_divide m al); [lia|done]|].
  assert (2 ^ m <= 2 ^ so) by (apply Z.pow_le_mono_r; lia). lia.
Qed.

Lemma region_ok_nil z fl a b : buddy_inv z fl -> b < a -> 0 <= free_pages z < 2 ^ 32 ->
  region_ok z fl a b z fl.
Proof.
  intros Hinv Hab Hfp. split; [done| | | |apply buddy_step_refl].
  - intros j. split; [by left|]. intros [?|?]; [done|lia].
  - lia.
  - replace (free_pages z + Z.max 0 (b - a + 1)) with (free_pages z) by lia. by rewrite u32_small.
Qed.

Lemma add_region_loop_spec fuel : forall current last z fl,
  buddy_inv z fl -> present_pages z < 2 ^ 31 - 1 -> 0 <= free_pages z < 2 ^ 32 ->
  0 <= current -> last < present_pages z -> last - current + 1 <= Z.of_nat fuel ->
  (forall j, current <= j <= last -> ~ free_page fl j) ->
  exists z' fl', add_region_loop fuel current last z = Ret z' /\
    region_ok z fl current last z' fl'.
Proof.
  induction fuel as [|fuel IH]; intros current last z fl Hinv Hpr Hfp Hc Hl Hfu Hnf;
    cbn [add_region_loop]; destruct (Z.ltb_spec last current).
  - exists z, fl. split; [done|]. by apply region_ok_nil.
  - lia.
  - exists z, fl. split; [done|]. by apply region_ok_nil.
  - destruct (region_block current last) as (al & so & -> & -> & Hm); [lia|lia|].
    cbn [mbind outcome_bind]. cbv zeta in *.
    set (m := if BUDDY_GROUPS <=? _ then _ else _) in *. destruct Hm as (Hm & Hdiv & Hle).
    rewrite Z.shiftl_1_l. pow2 m.
    destruct (free_block_ok z fl current m) as (z1 & fl1 & Run & [Hinv1 Hf1 Ht1 Hp1 Hs1]);
      [done|done| |].
    { apply loose_of_not_free; [done..|lia|]. intros j Hj. apply Hnf. unfold covers in Hj. lia. }
    rewrite Run. simpl. pose proof (bs_present _ _ _ Hs1) as Epr.
    destruct (IH (current + 2 ^ m) last z1 fl1) as (z2 & fl2 & Run2 & [Hinv2 Hf2 Ht2 Hp2 Hs2]);
      try done; try lia.
    { rewrite Hp1. apply u32_range. }
    { intros j Hj. rewrite Hf1. unfold covers. intros [?|?]; [|lia]. apply (Hnf j); [lia|done]. }
    exists z2, fl2. split; [done|]. split; [done| | | |].
    + intros j. rewrite Hf2, Hf1. unfold covers.
      split; [|destruct (decide (j < current + 2 ^ m))]; intuition lia.
    + lia.
    + rewrite Hp2, Hp1, u32_add_l. f_equal. lia.
    + eapply buddy_step_trans; [exact Hs1|exact Hs2| |done]. intros j Hj. apply Hf2. by left.
Qed.

Lemma add_region_ok z fl a b :
  buddy_inv z fl -> present_pages z < 2 ^ 31 - 1 -> 0 <= free_pages z < 2 ^ 32 ->
  0 <= a -> b < present_pages z -> (forall j, a <= j <= b -> ~ free_page fl j) ->
  exists z' fl', add_free_region_to_buddy z a b = Ret z' /\ region_ok z fl a b z' fl'.
Proof. intros. apply add_region_loop_spec; try done. lia. Qed.

(** ** init_zone *)

(** The zone as create_zone and create_mem_map leave it: empty free lists, no
    page marked as the head of a free block. *)
Record fresh_zone (z : zone_t) : Prop := {
  fz_present : 0 <= present_pages z < 2 ^ 31 - 1;
  fz_free_pages : 0 <= free_pages z < 2 ^ 32;
  fz_mem : forall i, 0 <= i < present_pages z -> is_Some (zone_mem_map z !! i);
  fz_lru : forall i, 0 <= i < present_pages z -> is_Some (nodes z !! Lru i);
  fz_lists : forall k, in_order k -> is_list (nodes z) (FreeList k) [];
  fz_nr : forall k, in_order k -> nr_free z !! k = Some 0;
  fz_private : forall i p, zone_mem_map z !! i = Some p -> PagePrivate p = false;
}.

(** The page exists and is neither taken nor reserved. *)
Definition usable (z : zone_t) (j : Z) : Prop :=
  0 <= j < present_pages z /\ page_unusable <$> (zone_mem_map z !! j) = Some false.

Lemma fresh_inv z : fresh_zone z -> buddy_inv z (fun _ => []).
Proof.
  intros []. split; try done; try lia; try (by intros; set_solver).
  intros i p Hp Hpriv. rewrite (fz_private0 _ _ Hp) in Hpriv. done.
Qed.

Lemma init_pages_spec n : forall iCnt z,
  fresh_zone z -> 0 <= iCnt -> iCnt + Z.of_nat n = present_pages z ->
  exists z', init_pages n iCnt z = Ret z' /\ fresh_zone z' /\
    present_pages z' = present_pages z /\ free_pages z' = free_pages z /\ zone_start_pfn z' = zone_start_pfn z /\
    (forall j, page_unusable <$> (zone_mem_map z' !! j) = page_unusable <$> (zone_mem_map z !! j)).
Proof.
  induction n as [|n IH]; intros iCnt z Hf Hi Hn; [by exists z|]. cbn [init_pages].
  destruct (fz_mem _ Hf iCnt) as [p Hp]; [lia|]. unfold upd_page. rewrite Hp. simpl.
  unfold on_nodes. simpl. rewrite INIT_LIST_HEAD_spec by (apply (fz_lru _ Hf); lia). simpl.
  set (z1 := with_nodes _ _).
  destruct (IH (iCnt + 1) z1) as (z' & R & Hf' & Epr & Efp & Esp & Hus); [|lia|simpl; lia|].
  - destruct Hf. split; simpl; try done.
    + intros i Hi'. rewrite lookup_insert. case_decide; [done|by apply fz_mem0].
    + intros i Hi'. rewrite lookup_insert. case_decide; [done|by apply fz_lru0].
    + intros k Hk. eapply is_list_agree; [|by apply fz_lists0]. intros q Hq.
      apply list_elem_of_singleton in Hq as ->. by rewrite lookup_insert_ne.
    + intros i q. rewrite lookup_insert. case_decide; [|by apply fz_private0].
      intros [= <-]. apply (fz_private0 _ _ Hp).
  - exists z'. split_and!; try done. intros j. rewrite Hus. simpl. rewrite lookup_insert.
    case_decide as E; [|done]. subst. by rewrite Hp.
Qed.

Lemma skip_unusable_spec fuel : forall iCnt z,
  (forall i, 0 <= i < present_pages z -> is_Some (zone_mem_map z !! i)) ->
  0 <= iCnt <= present_pages z -> present_pages z - iCnt <= Z.of_nat fuel ->
  exists i', skip_unusable fuel iCnt z = Ret i' /\ iCnt <= i' <= present_pages z /\
    (forall j, iCnt <= j < i' -> ~ usable z j) /\ (i' < present_pages z -> usable z i').
Proof.
  induction fuel as [|fuel IH]; intros iCnt z Hmem Hi Hfu; cbn [skip_unusable];
    (destruct (Z.ltb_spec iCnt (present_pages z));
     [|exists iCnt; split_and!; [done|lia|lia|intros; lia|intros; lia]]); [lia|].
  destruct (Hmem iCnt) as [p Hp]; [lia|]. rewrite Hp. simpl.
  destruct (page_unusable p) eqn:Eu.
  - destruct (IH (iCnt + 1) z Hmem) as (i' & R & Hr & Hno & Hyes); [lia|lia|].
    exists i'. split_and!; try done; try lia. intros j Hj.
    destruct (decide (j = iCnt)) as [->|]; [|apply Hno; lia].
    intros [_ Hu]. rewrite Hp in Hu. simpl in Hu. congruence.
  - exists iCnt. split_and!; try done; try lia. intros _. split; [lia|]. rewrite Hp. simpl. congruence.
Qed.

(** Progress of the scan: the usable pages below [iPrev] are free. *)
Record scanned (z : zone_t) (fl : Z -> list Z) (iPrev : Z) : Prop := {
  sc_inv : buddy_inv z fl;
  sc_free : forall j, free_page fl j <-> usable z j /\ j < iPrev;
}.

Lemma usable_step z z' P j : buddy_step z z' P -> usable z' j <-> usable z j.
Proof. intros []. unfold usable. by rewrite bs_present, bs_usable. Qed.

Lemma scanned_region z fl a b :
  scanned z fl a -> present_pages z < 2 ^ 31 - 1 -> 0 <= free_pages z < 2 ^ 32 ->
  0 <= a <= b -> b <= present_pages z -> (forall j, a <= j < b -> usable z j) ->
  exists z' fl', add_free_region_to_buddy z a (b - 1) = Ret z' /\ scanned z' fl' b /\
    buddy_step z z' (fun _ => True) /\ free_total fl' = free_total fl + (b - a) /\
    free_pages z' = u32 (free_pages z + (b - a)).
Proof.
  intros [Hinv Hfree] Hpr Hfp Hab Hb Hus.
  destruct (add_region_ok z fl a (b - 1)) as (z' & fl' & R & [Hinv' Hf Ht Hfp' Hst]);
    try done; try lia.
  { intros j Hj. rewrite Hfree. lia. }
  exists z', fl'. replace (Z.max 0 (b - 1 - a + 1)) with (b - a) in * by lia.
  split_and!; try done.
  - split; [done|]. intros j. rewrite Hf, Hfree, (usable_step _ _ _ _ Hst). split.
    + intros [[? ?]|Hj]; [split; [done|lia]|]. split; [apply Hus|]; lia.
    + intros [? ?]. destruct (decide (a <= j)); [right|left]; [lia|split; [done|lia]].
  - eapply buddy_step_trans; [exact Hst|apply (buddy_step_refl _ (fun _ => True))|done|done].
Qed.

(** The counter [free_pages] grows by the number of pages made free. *)
Definition counted (z : zone_t) (fl : Z -> list Z) (z' : zone_t) (fl' : Z -> list Z) : Prop :=
  free_pages z' = u32 (free_pages z + (free_total fl' - free_total fl)).

Lemma counted_refl z fl : 0 <= free_pages z < 2 ^ 32 -> counted z fl z fl.
Proof. intros. unfold counted. rewrite Z.sub_diag, Z.add_0_r, u32_small; done. Qed.

Lemma counted_trans z fl z1 fl1 z2 fl2 :
  counted z fl z1 fl1 -> counted z1 fl1 z2 fl2 -> counted z fl z2 fl2.
Proof. unfold counted. intros -> ->. rewrite u32_add_l. f_equal. lia. Qed.

Lemma counted_range z fl z' fl' : counted z fl z' fl' -> 0 <= free_pages z' < 2 ^ 32.
Proof. intros ->. apply u32_range. Qed.

Lemma scan_regions_spec fuel : forall iCnt iPrev z fl,
  scanned z fl iPrev -> present_pages z < 2 ^ 31 - 1 -> 0 <= free_pages z < 2 ^ 32 ->
  0 <= iPrev <= iCnt -> iCnt <= present_pages z -> present_pages z - iCnt <= Z.of_nat fuel ->
  (forall j, iPrev <= j < iCnt -> usable z j) ->
  exists iPrev' z' fl', scan_regions fuel iCnt iPrev z = Ret (iPrev', z') /\
    scanned z' fl' iPrev' /\ 0 <= iPrev' <= present_pages z' /\
    (forall j, iPrev' <= j < present_pages z' -> usable z' j) /\
    buddy_step z z' (fun _ => True) /\ counted z fl z' fl'.
Proof.
  induction fuel as [|fuel IH]; intros iCnt iPrev z fl Hsc Hpr Hfp Hi Hi' Hfu Hus;
    cbn [scan_regions]; (destruct (Z.ltb_spec iCnt (present_pages z));
    [|exists iPrev, z, fl; split_and!; try done; try lia;
       [intros j Hj; apply Hus; lia|by apply counted_refl]]); [lia|].
  pose proof (sc_inv _ _ _ Hsc) as Hinv.
  destruct (bi_mem _ _ Hinv iCnt) as [p Hp]; [lia|]. rewrite Hp. simpl.
  destruct (page_unusable p) eqn:Eu.
  2:{ apply IH; try done; try lia. intros j Hj. destruct (decide (j = iCnt)) as [->|];
        [|apply Hus; lia]. split; [lia|]. rewrite Hp. simpl. by rewrite Eu. }
  assert (Hreg : exists z1 fl1,
    (if iPrev <? iCnt then add_free_region_to_buddy z iPrev (iCnt - 1) else mret z) = Ret z1 /\
    scanned z1 fl1 iCnt /\ buddy_step z z1 (fun _ => True) /\ counted z fl z1 fl1).
  { destruct (Z.ltb_spec iPrev iCnt) as [Hlt|Hge].
    - destruct (scanned_region z fl iPrev iCnt) as (z1 & fl1 & R & Hs1 & Hst & Ht & Hp1);
        try done; try lia.
      exists z1, fl1. split_and!; try done. unfold counted. rewrite Hp1, Ht. f_equal. lia.
    - exists z, fl. assert (iPrev = iCnt) as -> by lia. split_and!; try done.
      by apply counted_refl. }
  destruct Hreg as (z1 & fl1 & -> & Hs1 & Hst1 & Hc1). simpl.
  pose proof (bs_present _ _ _ Hst1) as Epr. pose proof (sc_inv _ _ _ Hs1) as Hinv1.
  destruct (skip_unusable_spec (Z.to_nat (present_pages z1)) iCnt z1) as (i' & -> & Hr & Hno & Hyes);
    [by apply (bi_mem _ _ Hinv1)|lia|lia|]. simpl.
  assert (Hstrict : iCnt < i').
  { destruct (decide (i' = iCnt)) as [->|]; [|lia]. destruct Hyes as [_ Hy]; [lia|].
    rewrite (bs_usable _ _ _ Hst1), Hp in Hy. simpl in Hy. congruence. }
  destruct (IH i' i' z1 fl1) as (ip & z2 & fl2 & R2 & Hs2 & Hr2 & Hu2 & Hst2 & Hc2); try lia.
  { split; [done|]. intros j. rewrite (sc_free _ _ _ Hs1). split; [intros [? ?]; split; [done|lia]|].
    intros [Hu ?]. split; [done|]. destruct (decide (j < iCnt)); [done|]. exfalso.
    apply (Hno j); [lia|done]. }
  { by eapply counted_range. }
  exists ip, z2, fl2. split_and!; try done; try lia.
  - by eapply buddy_step_trans.
  - by eapply counted_trans.
Qed.

Lemma init_zone_buddy_spec z :
  fresh_zone z ->
  exists z' fl, init_zone_buddy z = Ret z' /\ buddy_inv z' fl /\
    (forall j, free_page fl j <-> usable z j) /\
    present_pages z' = present_pages z /\ free_pages z' = u32 (free_pages z + free_total fl) /\
    zone_start_pfn z' = zone_start_pfn z.
Proof.
  intros Hf. pose proof (fz_present _ Hf). unfold init_zone_buddy.
  destruct (init_pages_spec (Z.to_nat (present_pages z)) 0 z Hf)
    as (z1 & -> & Hf1 & Epr1 & Efp1 & Esp1 & Hus1); [lia|lia|]. cbn [mbind outcome_bind].
  assert (Hu1 : forall j, usable z1 j <-> usable z j).
  { intros j. unfold usable. by rewrite Hus1, Epr1. }
  pose proof (fresh_inv _ Hf1) as Hinv1.
  destruct (skip_unusable_spec (Z.to_nat (present_pages z)) 0 z1)
    as (i0 & -> & Hr0 & Hno0 & _); [by apply (bi_mem _ _ Hinv1)|lia|lia|]. cbn [mbind outcome_bind].
  destruct (scan_regions_spec (Z.to_nat (present_pages z)) i0 i0 z1 (fun _ => []))
    as (ip & z2 & fl2 & -> & Hs2 & Hr2 & Hu2 & Hst2 & Hc2); try lia.
  { split; [done|]. intros j. split.
    - intros (k & i & _ & Hi & _). by inversion Hi.
    - intros [Hu Hj]. exfalso. apply (Hno0 j); [destruct Hu; lia|done]. }
  { apply fz_free_pages. done. }
  cbn [mbind outcome_bind].
  pose proof (bs_present _ _ _ Hst2) as Epr2.
  assert (Hu : forall j, usable z2 j <-> usable z j) by (intros; by rewrite (usable_step _ _ _ _ Hst2)).
  destruct (Z.ltb_spec ip (present_pages z2)).
  - destruct (scanned_region z2 fl2 ip (present_pages z2)) as (z3 & fl3 & -> & Hs3 & Hst3 & Ht3 & Hp3);
      try done; try lia.
    { by eapply counted_range. }
    exists z3, fl3. pose proof (bs_present _ _ _ Hst3) as Epr3. split_and!; [done|apply Hs3| | | |by rewrite (bs_start _ _ _ Hst3), (bs_start _ _ _ Hst2)].
    + intros j. rewrite (sc_free _ _ _ Hs3), (usable_step _ _ _ _ Hst3), Hu. split; [tauto|].
      intros Hj. split; [done|]. destruct Hj. lia.
    + lia.
    + rewrite Hp3, Hc2, u32_add_l, Efp1. f_equal. change (free_total (fun _ => [])) with 0. lia.
  - exists z2, fl2. split_and!; [done|apply Hs2| | | |by rewrite (bs_start _ _ _ Hst2)].
    + intros j. rewrite (sc_free _ _ _ Hs2), Hu. split; [tauto|].
      intros Hj. split; [done|]. destruct Hj. lia.
    + lia.
    + rewrite Hc2, Efp1. f_equal. change (free_total (fun _ => [])) with 0. lia.
Qed.

Lemma init_zone_buddy_ok z :
  fresh_zone z ->
  exists z' fl, init_zone_buddy z = Ret z' /\ buddy_inv z' fl /\
    (forall j, free_page fl j <-> usable z j) /\
    present_pages z' = present_pages z /\ free_pages z' = u32 (free_pages z + free_total fl).
Proof. intros Hf. destruct (init_zone_buddy_spec z Hf) as (z' & fl & H1 & H2 & H3 & H4 & H5 & _). by exists z', fl. Qed.
