(* ===== verification/BuddySpec.v ===== *)
(** * The contract of the page allocator

    The theorems on buddy.c: initialisation, allocation, release, their round
    trip, and the machine of a client that allocates and frees blocks in any
    order.  [zone16] is a concrete zone on which the witnesses run. *)

From S2P Require Import Prelude ListHead Zone Buddy BuddyInv BuddyProofs BuddyInit.

(** ** A concrete zone of 16 pages, of which pages 5 and 12 are taken *)

Definition page0 (taken : bool) : page :=
  mk_page false 0 (if taken then PG_FLAG_TAKEN else 0) 0 0 0 None.
Definition empty_ring (p : ptr) : ptr * list_head ptr := (p, mk_list_head (Some p) (Some p)).
Definition zone16 : zone_t :=
  mk_zone 0 16 10 10 0
    (list_to_map ((fun i => (i, page0 (bool_decide (i = 5 \/ i = 12)))) <$> seqZ 0 16))
    (list_to_map ((fun k => (k, 0)) <$> seqZ 0 11))
    (list_to_map ((empty_ring ∘ FreeList <$> seqZ 0 11) ++ (empty_ring ∘ Lru <$> seqZ 0 16))).
Definition zone16_ready : zone_t :=
  match init_zone_buddy zone16 with Ret z => z | _ => zone16 end.

Lemma ring_self (h : gmap ptr (list_head ptr)) p :
  h !! p = Some (mk_list_head (Some p) (Some p)) -> is_list h p [].
Proof.
  intros E. split; [apply NoDup_singleton|]. simpl. unfold hnext, hprev. by rewrite E.
Qed.

#[global] Instance list_head_eq_dec : EqDecision (list_head ptr).
Proof. solve_decision. Defined.

(** A decidable form of [fresh_zone], for concrete zones. *)
Definition fresh_zoneb (z : zone_t) : bool :=
  bool_decide (0 <= present_pages z < 2 ^ 31 - 1 /\ 0 <= free_pages z < 2 ^ 32) &&
  forallb (fun i => bool_decide (is_Some (zone_mem_map z !! i))) (seqZ 0 (present_pages z)) &&
  forallb (fun i => bool_decide (is_Some (nodes z !! Lru i))) (seqZ 0 (present_pages z)) &&
  forallb (fun k => bool_decide (nodes z !! FreeList k = Some (mk_list_head (Some (FreeList k)) (Some (FreeList k)))))
    (seqZ 0 BUDDY_GROUPS) &&
  forallb (fun k => bool_decide (nr_free z !! k = Some 0)) (seqZ 0 BUDDY_GROUPS) &&
  bool_decide (map_Forall (fun _ p => PagePrivate p = false) (zone_mem_map z)).

Lemma forallb_seqZ (P : Z -> Prop) `{!forall i, Decision (P i)} n :
  forallb (fun i => bool_decide (P i)) (seqZ 0 n) = true -> forall i, 0 <= i < n -> P i.
Proof.
  rewrite forallb_forall. intros Hall i Hi. apply (bool_decide_eq_true (P i)), Hall. apply list_elem_of_In, elem_of_seqZ. lia.
Qed.

Lemma fresh_zoneb_ok z : fresh_zoneb z = true -> fresh_zone z.
Proof.
  unfold fresh_zoneb. rewrite !andb_true_iff, bool_decide_eq_true. intros [ [ [ [ [ [H1 H1'] H2] H3] H4] H5] H6].
  split; [done|done| | | | |].
  - by apply (forallb_seqZ (fun i => is_Some (zone_mem_map z !! i))).
  - by apply (forallb_seqZ (fun i => is_Some (nodes z !! Lru i))).
  - intros k Hk. apply ring_self. by apply (forallb_seqZ (fun k => nodes z !! FreeList k = Some (mk_list_head (Some (FreeList k)) (Some (FreeList k)))) _ H4).
  - by apply (forallb_seqZ (fun k => nr_free z !! k = Some 0)).
  - by apply bool_decide_eq_true in H6.
Qed.

Lemma zone16_fresh : fresh_zone zone16.
Proof. apply fresh_zoneb_ok. by vm_compute. Qed.

#[global] Opaque zone16.

Lemma zone16_inv :
  exists fl, buddy_inv zone16_ready fl /\ forall j, free_page fl j <-> usable zone16 j.
Proof.
  destruct (init_zone_buddy_ok zone16 zone16_fresh) as (z & fl & R & Hinv & Hfree & _).
  exists fl. unfold zone16_ready. rewrite R. split; [exact Hinv|exact Hfree].
Qed.

#[global] Opaque zone16_ready.

Lemma zone16_usable j : bool_decide (0 <= j < 16 /\ j <> 5 /\ j <> 12) = true -> usable zone16 j.
Proof.
  intros (Hj & H5 & H12)%bool_decide_eq_true. split; [by vm_compute in Hj |- *|]. revert j Hj H5 H12.
  assert (H : forall j, 0 <= j < 16 ->
    j = 5 \/ j = 12 \/ page_unusable <$> (zone_mem_map zone16 !! j) = Some false).
  { apply (forall_seqZ (fun j => j = 5 \/ j = 12 \/
      page_unusable <$> (zone_mem_map zone16 !! j) = Some false)). by vm_compute. }
  intros j Hj H5 H12. destruct (H j Hj) as [|[|]]; done.
Qed.

(** ** Allocation *)

(** An aligned run of [2^k] pages, all free. *)
Definition free_run (fl : Z -> list Z) (k b : Z) : Prop :=
  (2 ^ k | b) /\ forall j, covers b k j -> free_page fl j.

(** C4. allocate_block on a zone in its invariant never faults.  It returns
    a block of the requested order that was free and is aligned, removes
    exactly its pages from the free ones and keeps the invariant, or returns
    NULL and changes nothing; it returns NULL exactly when no aligned run of
    that size is free (external fragmentation apart, memory is never refused). *)
Theorem allocate_block_correct z fl k :
  buddy_inv z fl -> in_order k ->
  (exists z' fl' i, allocate_block z k = Ret (z', Some i) /\ alloc_ok z fl k z' fl' i /\
     free_run fl k i) \/
  (allocate_block z k = Ret (z, None) /\ forall b, ~ free_run fl k b).
Proof.
  intros Hinv Hk. destruct (allocate_block_cases z fl k Hinv Hk)
    as [(z' & fl' & i & R & Hok)|[R Hnone]].
  - left. exists z', fl', i. split_and!; [done|done|]. destruct Hok. split; [apply ao_loose|done].
  - right. split; [done|]. intros b [Hb Hfree].
    destruct (free_run_in_block z fl k b Hinv Hk Hb Hfree) as (l & i & Hl & Hkl & Hi & _).
    rewrite Hnone in Hi; [by inversion Hi|]. unfold in_order in *. lia.
Qed.

Lemma allocate_block_correct_witness :
  exists fl, buddy_inv zone16_ready fl /\ in_order 2 /\
  ((exists z' fl' i, allocate_block zone16_ready 2 = Ret (z', Some i) /\
      alloc_ok zone16_ready fl 2 z' fl' i /\ free_run fl 2 i) \/
   (allocate_block zone16_ready 2 = Ret (zone16_ready, None) /\ forall b, ~ free_run fl 2 b)).
Proof.
  destruct zone16_inv as (fl & Hinv & _). exists fl.
  assert (Hk : in_order 2) by (unfold in_order, BUDDY_GROUPS; lia).
  split_and!; [done|done|]. by apply (allocate_block_correct zone16_ready fl 2).
Defined.

(** On the concrete zone: order 2 is served from block 8, order 3 is not available. *)
Example zone16_alloc :
  (fun r => match r with Ret (_, p) => p | _ => None end) (allocate_block zone16_ready 2) = Some 8 /\
  (fun r => match r with Ret (_, p) => p | _ => None end) (allocate_block zone16_ready 3) = None.
Proof. by vm_compute. Qed.

(** ** Release *)

(** C5. free_block of an allocated block (aligned, inside the zone, disjoint
    from every free block) never faults, coalesces until no two buddies are
    free side by side, keeps the invariant and adds exactly the pages of the
    block to the free ones. *)
Theorem free_block_correct z fl i k :
  buddy_inv z fl -> in_order k -> loose (present_pages z) fl i k ->
  exists z' fl', free_block (Some i) z k = Ret z' /\ free_ok z fl i k z' fl'.
Proof. apply free_block_ok. Qed.

(** ** Round trip *)

(** C6. Allocating a block and freeing it again restores every free list up
    to the order of its nodes, and the counter [free_pages]. *)
Theorem alloc_free_roundtrip z fl k z' i :
  buddy_inv z fl -> 0 <= free_pages z < 2 ^ 32 -> in_order k ->
  allocate_block z k = Ret (z', Some i) ->
  exists z'' fl'', free_block (Some i) z' k = Ret z'' /\ buddy_inv z'' fl'' /\
    (forall l, in_order l -> fl'' l ≡ₚ fl l) /\ free_pages z'' = free_pages z.
Proof.
  intros Hinv Hfp Hk R. destruct (allocate_block_cases z fl k Hinv Hk)
    as [(z1 & fl1 & i1 & R1 & Hok)|[R1 _]]; rewrite R1 in R; simplify_eq.
  destruct (free_block_ok z' fl1 i k (ao_inv _ _ _ _ _ _ Hok) Hk (ao_loose _ _ _ _ _ _ Hok))
    as (z'' & fl'' & R2 & Hf).
  exists z'', fl''. split_and!; [done|apply Hf| |].
  - intros l Hl. apply (canonical_perm z'' fl'' z fl); [apply Hf|done| |done].
    intros j. rewrite (fo_free _ _ _ _ _ _ Hf), (ao_free _ _ _ _ _ _ Hok). split.
    + intros [[? _]|?]; [done|]. by apply (ao_was_free _ _ _ _ _ _ Hok).
    + intros ?. destruct (decide (i <= j < i + 2 ^ k)); [by right|left]. done.
  - rewrite (fo_free_pages _ _ _ _ _ _ Hf), (ao_free_pages _ _ _ _ _ _ Hok), u32_add_l.
    replace (free_pages z - 2 ^ k + 2 ^ k) with (free_pages z) by lia. by apply u32_small.
Qed.

Definition zone16_alloc2 : zone_t :=
  match allocate_block zone16_ready 2 with Ret (z, _) => z | _ => zone16_ready end.

Lemma zone16_alloc2_inv : exists fl, buddy_inv zone16_alloc2 fl /\ loose 16 fl 8 2.
Proof.
  destruct zone16_inv as (fl & Hinv & _).
  assert (Hk : in_order 2) by (unfold in_order, BUDDY_GROUPS; lia).
  destruct (allocate_block_cases zone16_ready fl 2 Hinv Hk) as [(z1 & fl1 & i1 & R1 & Hok)|[R1 _]].
  2:{ exfalso. assert (E : (fun r => match r with Ret (_, p) => p | _ => None end)
        (allocate_block zone16_ready 2) = Some 8) by by vm_compute. rewrite R1 in E. done. }
  assert (i1 = 8) as ->.
  { assert (E : (fun r => match r with Ret (_, p) => p | _ => None end)
      (allocate_block zone16_ready 2) = Some 8) by by vm_compute. rewrite R1 in E. congruence. }
  assert (zone16_alloc2 = z1) as -> by (unfold zone16_alloc2; by rewrite R1).
  assert (Hpr : present_pages z1 = 16).
  { rewrite (bs_present _ _ _ (ao_step _ _ _ _ _ _ Hok)). by vm_compute. }
  exists fl1. rewrite <- Hpr. split; [apply Hok|by apply (ao_loose _ _ _ _ _ _ Hok)].
Qed.

Lemma free_block_correct_witness :
  exists fl, buddy_inv zone16_alloc2 fl /\ in_order 2 /\ loose 16 fl 8 2 /\
  exists z' fl', free_block (Some 8) zone16_alloc2 2 = Ret z' /\ free_ok zone16_alloc2 fl 8 2 z' fl'.
Proof.
  destruct zone16_alloc2_inv as (fl & Hinv & Hl).
  assert (Hk : in_order 2) by (unfold in_order, BUDDY_GROUPS; lia).
  exists fl. split_and!; [done|done|done|]. by apply (free_block_correct zone16_alloc2 fl 8 2).
Defined.

Lemma alloc_free_roundtrip_witness :
  exists fl z'', buddy_inv zone16_ready fl /\
    free_block (Some 8) zone16_alloc2 2 = Ret z'' /\ free_pages z'' = free_pages zone16_ready.
Proof.
  destruct zone16_inv as (fl & Hinv & _).
  assert (Hk : in_order 2) by (unfold in_order, BUDDY_GROUPS; lia).
  destruct (alloc_free_roundtrip zone16_ready fl 2 zone16_alloc2 8) as (z'' & fl'' & R & _ & _ & E);
    [exact Hinv|by vm_compute|done|by vm_compute|].
  exists fl, z''. split; [exact Hinv|]. split; [exact R|exact E].
Defined.

(** ** Clients of the allocator

    A client allocates blocks of any order and frees blocks it holds, in any
    order; [held] lists the blocks it holds. *)

Inductive client_step : zone_t * list (Z * Z) -> zone_t * list (Z * Z) -> Prop :=
| client_alloc z held k z' i :
    in_order k -> allocate_block z k = Ret (z', Some i) ->
    client_step (z, held) (z', (i, k) :: held)
| client_refused z held k z' :
    in_order k -> allocate_block z k = Ret (z', None) ->
    client_step (z, held) (z', held)
| client_free z h1 i k h2 z' :
    free_block (Some i) z k = Ret z' ->
    client_step (z, h1 ++ (i, k) :: h2) (z', h1 ++ h2).

Definition held_disjoint (held : list (Z * Z)) : Prop :=
  forall n m i k j l, held !! n = Some (i, k) -> held !! m = Some (j, l) -> n <> m ->
    blk_disj i k j l.

Definition held_pages (held : list (Z * Z)) : Z := foldr (fun b acc => 2 ^ b.2 + acc) 0 held.

Definition held_page (held : list (Z * Z)) (j : Z) : Prop :=
  exists i k, (i, k) ∈ held /\ covers i k j.

(** The invariant of the allocator together with its client. *)
Record client_inv (z : zone_t) (fl : Z -> list Z) (held : list (Z * Z)) (pages : Z -> Prop)
    (total : Z) : Prop := {
  ci_inv : buddy_inv z fl;
  ci_order : forall i k, (i, k) ∈ held -> in_order k;
  ci_loose : forall i k, (i, k) ∈ held -> loose (present_pages z) fl i k;
  ci_disj : held_disjoint held;
  ci_pages : forall j, free_page fl j \/ held_page held j <-> pages j;
  ci_total : free_total fl + held_pages held = total;
}.

Lemma blk_disj_sym i k j l : blk_disj i k j l -> blk_disj j l i k.
Proof. unfold blk_disj. tauto. Qed.

Lemma held_disjoint_cons i k held :
  held_disjoint held -> (forall j l, (j, l) ∈ held -> blk_disj i k j l) ->
  held_disjoint ((i, k) :: held).
Proof.
  intros Hd Hnew [|n] [|m] i1 k1 i2 k2 H1 H2 Hne; simplify_eq/=.
  - apply Hnew. by eapply list_elem_of_lookup_2.
  - apply blk_disj_sym, Hnew. by eapply list_elem_of_lookup_2.
  - apply (Hd n m); congruence.
Qed.

Lemma held_disjoint_middle h1 b h2 :
  held_disjoint (h1 ++ b :: h2) <-> held_disjoint (b :: h1 ++ h2).
Proof.
  pose proof (Permutation_middle h1 h2 b) as Hp. symmetry in Hp.
  enough (Hgen : forall l l', l ≡ₚ l' -> held_disjoint l -> held_disjoint l')
    by (split; apply Hgen; [done|by symmetry]).
  clear. intros l l' Hp Hd n m i k j l0 H1 H2 Hne.
  symmetry in Hp. apply Permutation_inj in Hp as (_ & f & Hf & Hl). rewrite Hl in H1, H2.
  apply (Hd (f n) (f m)); [done..|]. intros E. apply Hne. by apply Hf.
Qed.

Lemma client_inv_alloc z fl held pages total k z' fl' i :
  client_inv z fl held pages total -> in_order k -> alloc_ok z fl k z' fl' i ->
  client_inv z' fl' ((i, k) :: held) pages total.
Proof.
  intros [Hinv Ho Hl Hd Hp Ht] Hk [Hinv' Hlo Hwas Hfr Htot _ Hst].
  pose proof (bs_present _ _ _ Hst) as Epr. split; [done| | | | |].
  - intros j l [[= -> ->]|?]%elem_of_cons; eauto.
  - intros j l [[= -> ->]|Hj]%elem_of_cons; [done|]. rewrite Epr.
    apply (loose_mono _ fl); [by eapply Ho| |by apply Hl]. intros x _. rewrite Hfr. tauto.
  - apply held_disjoint_cons; [done|]. intros j l Hj.
    apply (loose_disjoint (present_pages z) fl); eauto.
  - intros j. rewrite <- Hp, Hfr. unfold held_page. setoid_rewrite elem_of_cons. split.
    + intros [[? _]|(i1 & k1 & [[= -> ->]|?] & ?)]; eauto 10.
    + intros [Hj|(i1 & k1 & ? & ?)]; [|eauto 10].
      destruct (decide (i <= j < i + 2 ^ k)); [right; eauto 10|by left].
  - simpl. lia.
Qed.

Lemma held_pages_middle h1 b h2 : held_pages (h1 ++ b :: h2) = 2 ^ b.2 + held_pages (h1 ++ h2).
Proof. induction h1 as [|a h1 IH]; simpl; [done|]. unfold held_pages in *. simpl. lia. Qed.

Lemma client_inv_free z fl h1 i k h2 pages total :
  client_inv z fl (h1 ++ (i, k) :: h2) pages total ->
  exists z' fl', free_block (Some i) z k = Ret z' /\ client_inv z' fl' (h1 ++ h2) pages total.
Proof.
  intros [Hinv Ho Hl Hd Hp Ht].
  assert (Hin : (i, k) ∈ h1 ++ (i, k) :: h2) by (apply elem_of_app; right; left).
  assert (Hsub : forall b, b ∈ h1 ++ h2 -> b ∈ h1 ++ (i, k) :: h2).
  { intros b. rewrite !elem_of_app, elem_of_cons. tauto. }
  destruct (free_block_ok z fl i k Hinv (Ho _ _ Hin) (Hl _ _ Hin))
    as (z' & fl' & R & [Hinv' Hfr Htot _ Hst]).
  exists z', fl'. split; [done|]. pose proof (bs_present _ _ _ Hst) as Epr.
  apply held_disjoint_middle in Hd. split; [done|by eauto| | | |].
  - intros j l Hj. rewrite Epr. apply (loose_mono _ fl); [by eauto| |by eauto].
    intros x Hx. rewrite Hfr. intros [?|Hx']; [done|]. exfalso.
    apply list_elem_of_lookup in Hj as [n Hn].
    destruct (Hd O (S n) i k j l); [done|done|done| |]; unfold covers in *; lia.
  - intros n m ? ? ? ? Hn Hm Hne. apply (Hd (S n) (S m)); [done|done|congruence].
  - intros j. rewrite <- Hp, Hfr. unfold held_page. setoid_rewrite elem_of_app.
    setoid_rewrite elem_of_cons. naive_solver.
  - rewrite held_pages_middle in Ht. simpl in Ht. lia.
Qed.

Lemma client_step_inv s s' fl pages total :
  client_step s s' -> client_inv s.1 fl s.2 pages total ->
  exists fl', client_inv s'.1 fl' s'.2 pages total.
Proof.
  intros Hs Hc. destruct Hs as [z held k z' i Hk R|z held k z' Hk R|z h1 i k h2 z' R]; simpl in *.
  - destruct (allocate_block_cases z fl k (ci_inv _ _ _ _ _ Hc) Hk)
      as [(z1 & fl1 & i1 & R1 & Hok)|[R1 _]]; rewrite R1 in R; simplify_eq.
    exists fl1. by eapply client_inv_alloc.
  - destruct (allocate_block_cases z fl k (ci_inv _ _ _ _ _ Hc) Hk)
      as [(z1 & fl1 & i1 & R1 & Hok)|[R1 _]]; rewrite R1 in R; simplify_eq. eauto.
  - destruct (client_inv_free _ _ _ _ _ _ _ _ Hc) as (z1 & fl1 & R1 & Hc1).
    rewrite R1 in R. simplify_eq. eauto.
Qed.

Lemma client_run_inv s s' fl pages total :
  rtc client_step s s' -> client_inv s.1 fl s.2 pages total ->
  exists fl', client_inv s'.1 fl' s'.2 pages total.
Proof.
  intros Hr. revert fl. induction Hr as [s|s1 s2 s3 Hs _ IH]; intros fl Hc; [eauto|].
  destruct (client_step_inv _ _ _ _ _ Hs Hc) as [fl' Hc']. by eapply IH.
Qed.

Lemma client_inv_start z fl : buddy_inv z fl -> client_inv z fl [] (free_page fl) (free_total fl).
Proof.
  intros Hinv. split; [done|..]; try (by intros ? ? ?%elem_of_nil).
  - intros n m i k j l Hn. by rewrite lookup_nil in Hn.
  - intros j. split; [|by left]. intros [?|(i & k & Hi & _)]; [done|]. by apply elem_of_nil in Hi.
  - simpl. lia.
Qed.

(** C3. After init_zone and any sequence of allocations and releases: the
    blocks held are inside the zone, pairwise disjoint and disjoint from the
    free blocks, they consist of usable pages, and free pages plus held pages
    always add up to the usable pages; every block held can be given back
    (free_block does not fault) and every request is answered. *)
Theorem client_never_shares z z1 z' held :
  fresh_zone z -> init_zone_buddy z = Ret z1 -> rtc client_step (z1, []) (z', held) ->
  exists fl0 fl, buddy_inv z1 fl0 /\ client_inv z' fl held (usable z) (free_total fl0) /\
    (forall n i k, held !! n = Some (i, k) -> exists z'', free_block (Some i) z' k = Ret z'') /\
    (forall k, in_order k -> exists z'' r, allocate_block z' k = Ret (z'', r)).
Proof.
  intros Hf R Hr. destruct (init_zone_buddy_ok z Hf) as (z0 & fl0 & R0 & Hinv & Hfree & _).
  rewrite R0 in R. simplify_eq. pose proof (client_inv_start _ _ Hinv) as Hc.
  destruct (client_run_inv _ _ _ _ _ Hr Hc) as [fl Hc']. exists fl0, fl. split_and!; [done| | |].
  - destruct Hc'. split; try done. intros j. by rewrite ci_pages0.
  - intros n i k (h1 & h2 & E & _)%list_elem_of_split_length. subst held.
    destruct (client_inv_free _ _ _ _ _ _ _ _ Hc') as (z'' & _ & R' & _). eauto.
  - intros k Hk. destruct (allocate_block_cases z' fl k (ci_inv _ _ _ _ _ Hc') Hk)
      as [(? & ? & ? & ? & _)|[? _]]; eauto.
Qed.

Lemma client_never_shares_witness :
  rtc client_step (zone16_ready, []) (zone16_alloc2, [(8, 2)]) /\
  exists fl0 fl, buddy_inv zone16_ready fl0 /\
    client_inv zone16_alloc2 fl [(8, 2)] (usable zone16) (free_total fl0).
Proof.
  assert (Hk : in_order 2) by (unfold in_order, BUDDY_GROUPS; lia).
  assert (Hr : rtc client_step (zone16_ready, []) (zone16_alloc2, [(8, 2)])).
  { apply rtc_once, (client_alloc _ _ 2); [exact Hk|by vm_compute]. }
  split; [exact Hr|].
  destruct (client_never_shares zone16 zone16_ready zone16_alloc2 [(8, 2)])
    as (fl0 & fl & Hinv0 & Hc & _ & _); [apply zone16_fresh|by vm_compute|exact Hr|].
  exists fl0, fl. split; [exact Hinv0|exact Hc].
Defined.

(** ** The display and the self test *)

(** The number show_buddy prints for the block at page [i]. *)
Definition shown_no (z : zone_t) (i : Z) : Z := default 0 (page_no <$> zone_mem_map z !! i).

Lemma mapM_all {A B} (g : A -> outcome B) (h : A -> B) l : (forall x, x ∈ l -> g x = Ret (h x)) -> mapM g l = Ret (h <$> l).
Proof.
  induction l as [|x l IH]; intros Hall; [done|]. cbn [mapM]. rewrite (Hall x) by left. bind_rets.
  rewrite IH by (intros y Hy; apply Hall; by right). by bind_rets.
Qed.

Lemma show_buddy_spec z fl : buddy_inv z fl -> show_buddy z = Ret ((fun k => shown_no z <$> fl k) <$> seqZ 0 BUDDY_GROUPS).
Proof.
  intros Hinv. unfold show_buddy. apply mapM_all. intros k Hk%elem_of_seqZ. assert (Ho : in_order k) by (unfold in_order; lia).
  pose proof (bi_lists _ _ Hinv k Ho) as Hl. unfold show_area. rewrite (list_is_empty_spec _ _ _ Hl). bind_rets.
  case_bool_decide as He; [by apply fmap_nil_inv in He as ->|].
  rewrite (list_for_each_spec _ _ _ _ Hl) by (pose proof (is_list_size _ _ _ Hl); lia). bind_rets.
  rewrite (mapM_all _ (fun n => match n with Lru i => shown_no z i | _ => 0 end)); [by rewrite <-list_fmap_compose|].
  intros n (i & -> & Hi)%list_elem_of_fmap. destruct (bi_range _ _ Hinv k i Ho Hi) as [H1 H2]. pow2 k.
  destruct (bi_mem _ _ Hinv i) as [p Hp]; [lia|]. cbn [lru_entry]. bind_rets. unfold shown_no. rewrite Hp. cbn. done.
Qed.

Lemma shown z fl {B} (m : outcome B) : buddy_inv z fl -> (_ ← show_buddy z; m) = m.
Proof. intros Hinv. by rewrite (show_buddy_spec z fl Hinv), bind_Ret. Qed.

(** show_buddy prints, for every order, the page numbers of the free blocks in
    the order of their list, and changes nothing. *)
Theorem show_buddy_correct z fl : buddy_inv z fl -> show_buddy z = Ret ((fun k => shown_no z <$> fl k) <$> seqZ 0 BUDDY_GROUPS).
Proof. apply show_buddy_spec. Qed.

Lemma show_buddy_correct_witness : exists fl, buddy_inv zone16_ready fl /\ show_buddy zone16_ready = Ret ((fun k => shown_no zone16_ready <$> fl k) <$> seqZ 0 BUDDY_GROUPS).
Proof. destruct zone16_inv as (fl & Hinv & _). exists fl. split; [exact Hinv|exact (show_buddy_correct zone16_ready fl Hinv)]. Defined.

(** Freeing two blocks that were just allocated restores the free pages. *)
Lemma test_buddy_ok z fl z1 fl1 i z2 fl2 j :
  buddy_inv z fl -> alloc_ok z fl 9 z1 fl1 i -> alloc_ok z1 fl1 4 z2 fl2 j ->
  exists z3 fl3 z4 fl4, free_block (Some j) z2 4 = Ret z3 /\ free_block (Some i) z3 9 = Ret z4 /\
    buddy_inv z3 fl3 /\ buddy_inv z4 fl4 /\ forall l, in_order l -> fl4 l ≡ₚ fl l.
Proof.
  intros Hinv Ha Hb.
  assert (H9 : in_order 9) by (unfold in_order, BUDDY_GROUPS; lia).
  assert (H4 : in_order 4) by (unfold in_order, BUDDY_GROUPS; lia).
  pose proof (client_inv_alloc _ _ _ _ _ _ _ _ _ (client_inv_start _ _ Hinv) H9 Ha) as C1.
  pose proof (client_inv_alloc _ _ _ _ _ _ _ _ _ C1 H4 Hb) as C2.
  destruct (client_inv_free _ _ [] j 4 _ _ _ C2) as (z3 & fl3 & R3 & C3).
  destruct (client_inv_free _ _ [] i 9 _ _ _ C3) as (z4 & fl4 & R4 & C4).
  exists z3, fl3, z4, fl4. split_and!; [done|done|apply C3|apply C4|]. intros l Hl.
  apply (canonical_perm z4 fl4 z fl); [apply C4|done| |done]. intros x.
  rewrite <- (ci_pages _ _ _ _ _ C4). split; [by left|]. intros [?|(? & ? & Hn & _)]; [done|].
  by apply elem_of_nil in Hn.
Qed.

(** The self test that init_zone runs on a zone in its invariant either
    returns with every free list restored, or dereferences NULL: it does the
    latter exactly when one of its two allocations (order 9, then order 4) is
    refused, because it frees both results without testing them. *)
Lemma test_buddy_cases z fl :
  buddy_inv z fl ->
  (exists z' fl', test_buddy z = Ret z' /\ buddy_inv z' fl' /\
     forall l, in_order l -> fl' l ≡ₚ fl l) \/
  (test_buddy z = Fault /\ exists z1 r1 z2 r2, allocate_block z 9 = Ret (z1, r1) /\
     allocate_block z1 4 = Ret (z2, r2) /\ (r1 = None \/ r2 = None)).
Proof.
  intros Hinv. unfold test_buddy. rewrite (shown z fl) by done.
  assert (H9 : in_order 9) by (unfold in_order, BUDDY_GROUPS; lia).
  assert (H4 : in_order 4) by (unfold in_order, BUDDY_GROUPS; lia).
  destruct (allocate_block_cases z fl 9 Hinv H9) as [(z1 & fl1 & i & R1 & Ha)|[R1 _] ]; rewrite R1; bind_rets.
  - rewrite (shown z1 fl1) by apply Ha.
    destruct (allocate_block_cases z1 fl1 4 (ao_inv _ _ _ _ _ _ Ha) H4) as [(z2 & fl2 & j & R2 & Hb)|[R2 _] ]; rewrite R2; bind_rets.
    + left. rewrite (shown z2 fl2) by apply Hb.
      destruct (test_buddy_ok _ _ _ _ _ _ _ _ Hinv Ha Hb) as (z3 & fl3 & z4 & fl4 & R3 & R4 & I3 & I4 & Hp).
      exists z4, fl4. rewrite R3. bind_rets. rewrite (shown z3 fl3) by done. rewrite R4. bind_rets. by rewrite (shown z4 fl4).
    + right. rewrite (shown z1 fl1) by apply Ha. split; [done|]. eauto 10.
  - right. rewrite (shown z fl) by done. destruct (allocate_block_cases z fl 4 Hinv H4) as [(z2 & fl2 & j & R2 & Hb)|[R2 _] ]; rewrite R2; bind_rets.
    + split; [|eauto 10]. rewrite (shown z2 fl2) by apply Hb.
      destruct (free_block_ok z2 fl2 j 4 (ao_inv _ _ _ _ _ _ Hb) H4 (ao_loose _ _ _ _ _ _ Hb)) as (z3 & fl3 & R3 & [I3 _ _ _ _]).
      rewrite R3. bind_rets. by rewrite (shown z3 fl3).
    + rewrite (shown z fl) by done. split; [done|eauto 10].
Qed.

Theorem test_buddy_behaviour z fl :
  buddy_inv z fl ->
  (exists z' fl', test_buddy z = Ret z' /\ buddy_inv z' fl' /\
     forall l, in_order l -> fl' l ≡ₚ fl l) \/
  (test_buddy z = Fault /\ exists z1 r1 z2 r2, allocate_block z 9 = Ret (z1, r1) /\
     allocate_block z1 4 = Ret (z2, r2) /\ (r1 = None \/ r2 = None)).
Proof. apply test_buddy_cases. Qed.

(** The 16-page zone has no block of 512 pages: its self test faults. *)
Lemma test_buddy_behaviour_witness :
  exists fl, buddy_inv zone16_ready fl /\ test_buddy zone16_ready = Fault /\
  ((exists z' fl', test_buddy zone16_ready = Ret z' /\ buddy_inv z' fl' /\
     forall l, in_order l -> fl' l ≡ₚ fl l) \/
   (test_buddy zone16_ready = Fault /\ exists z1 r1 z2 r2,
     allocate_block zone16_ready 9 = Ret (z1, r1) /\
     allocate_block z1 4 = Ret (z2, r2) /\ (r1 = None \/ r2 = None))).
Proof.
  destruct zone16_inv as (fl & Hinv & _). exists fl. split; [exact Hinv|].
  split; [by vm_compute|]. exact (test_buddy_behaviour zone16_ready fl Hinv).
Defined.

(** An aligned run of free pages can be allocated. *)
Lemma alloc_run z fl k b : buddy_inv z fl -> in_order k -> (2 ^ k | b) -> (forall j, covers b k j -> free_page fl j) ->
  exists z' fl' i, allocate_block z k = Ret (z', Some i) /\ alloc_ok z fl k z' fl' i.
Proof.
  intros Hinv Hk Hb Hfree. destruct (allocate_block_cases z fl k Hinv Hk) as [H|[_ Hno] ]; [done|].
  destruct (free_run_in_block z fl k b Hinv Hk Hb Hfree) as (l & i & Hl & Hkl & Hi & _). rewrite Hno in Hi by (unfold in_order in Hl; lia). by apply not_elem_of_nil in Hi.
Qed.

Lemma client_free_fixed z fl h1 i k h2 P total z' : client_inv z fl (h1 ++ (i, k) :: h2) P total -> free_block (Some i) z k = Ret z' ->
  zone_start_pfn z' = zone_start_pfn z /\ present_pages z' = present_pages z.
Proof.
  intros [Hinv Ho Hl _ _ _] R. assert (Hin : (i, k) ∈ h1 ++ (i, k) :: h2) by (apply elem_of_app; right; left).
  destruct (free_block_ok z fl i k Hinv (Ho _ _ Hin) (Hl _ _ Hin)) as (z1 & fl1 & R1 & [_ _ _ _ Hst]). rewrite R1 in R. injection R as <-. split; apply Hst.
Qed.

(** The self test of the buddy system passes when two blocks of 512 pages are free. *)
Lemma test_buddy_runs z fl b1 b2 : buddy_inv z fl -> (2 ^ 9 | b1) -> (2 ^ 9 | b2) -> b1 + 512 <= b2 ->
  (forall j, covers b1 9 j \/ covers b2 9 j -> free_page fl j) ->
  exists z' fl', test_buddy z = Ret z' /\ buddy_inv z' fl' /\ (forall j, free_page fl' j <-> free_page fl j) /\
    zone_start_pfn z' = zone_start_pfn z /\ present_pages z' = present_pages z.
Proof.
  intros Hinv Hb1 Hb2 Hlt Hfree. assert (H9 : in_order 9) by (unfold in_order, BUDDY_GROUPS; lia). assert (H4 : in_order 4) by (unfold in_order, BUDDY_GROUPS; lia).
  destruct (alloc_run z fl 9 b1 Hinv H9 Hb1) as (z1 & fl1 & i & R1 & Ha); [auto|].
  assert (exists b, (2 ^ 4 | b) /\ forall j, covers b 4 j -> free_page fl1 j) as (b & Hb & Hfree1).
  { assert (Hi : (2 ^ 9 | i)) by apply (ao_loose _ _ _ _ _ _ Ha).
    assert (exists b, (b = b1 \/ b = b2) /\ blk_disj b 9 i 9) as (b & Hb & Hd).
    { destruct (aligned_nested b1 9 i 9) as [Hd|Hd]; [lia|done|done|by exists b1; auto|]. exists b2. split; [auto|]. unfold blk_disj. change (2 ^ 9) with 512 in *. lia. }
    exists b. split; [destruct Hb as [-> | ->]; apply (pow2_divide 4 9); lia || done|]. intros j Hj. apply (ao_free _ _ _ _ _ _ Ha).
    unfold covers, blk_disj in *. change (2 ^ 9) with 512 in *. change (2 ^ 4) with 16 in *. split; [apply Hfree; destruct Hb as [-> | ->]; [left|right]; lia|lia]. }
  destruct (alloc_run z1 fl1 4 b (ao_inv _ _ _ _ _ _ Ha) H4 Hb Hfree1) as (z2 & fl2 & j & R2 & Hb').
  pose proof (client_inv_alloc _ _ _ _ _ _ _ _ _ (client_inv_start _ _ Hinv) H9 Ha) as C1.
  pose proof (client_inv_alloc _ _ _ _ _ _ _ _ _ C1 H4 Hb') as C2.
  destruct (client_inv_free _ _ [] j 4 _ _ _ C2) as (z3 & fl3 & R3 & C3). destruct (client_free_fixed _ _ [] _ _ _ _ _ _ C2 R3) as [S3 P3].
  destruct (client_inv_free _ _ [] i 9 _ _ _ C3) as (z4 & fl4 & R4 & C4). destruct (client_free_fixed _ _ [] _ _ _ _ _ _ C3 R4) as [S4 P4].
  exists z4, fl4. unfold test_buddy. rewrite (shown z fl) by done. rewrite R1, bind_Ret, (shown z1 fl1), R2, bind_Ret, (shown z2 fl2), R3, bind_Ret, (shown z3 fl3), R4, bind_Ret, (shown z4 fl4) by first [apply Ha|apply Hb'|apply C3|apply C4].
  split; [done|]. split; [apply C4|].
  pose proof (ao_step _ _ _ _ _ _ Ha) as St1. pose proof (ao_step _ _ _ _ _ _ Hb') as St2. split_and!.
  - intros x. rewrite <-(ci_pages _ _ _ _ _ C4). split; [by left|]. intros [?|(? & ? & Hn & _)]; [done|]. by apply elem_of_nil in Hn.
  - rewrite S4, S3, (bs_start _ _ _ St2), (bs_start _ _ _ St1). done.
  - rewrite P4, P3, (bs_present _ _ _ St2), (bs_present _ _ _ St1). done.
Qed.

(** ** Initialisation *)

(** A zone of two blocks of 512 pages, none of them taken, without a descriptor
    missing. *)
Definition zone1024 : zone_t :=
  mk_zone 0 1024 10 10 0
    (list_to_map ((fun i => (i, page0 false)) <$> seqZ 0 1024))
    (list_to_map ((fun k => (k, 0)) <$> seqZ 0 11))
    (list_to_map ((empty_ring ∘ FreeList <$> seqZ 0 11) ++ (empty_ring ∘ Lru <$> seqZ 0 1024))).

Lemma zone1024_fresh : fresh_zone zone1024.
Proof. apply fresh_zoneb_ok. by vm_compute. Qed.

Lemma zone1024_usable j : 0 <= j < 1024 -> usable zone1024 j.
Proof.
  intros Hj. split; [done|]. revert j Hj. apply (forall_seqZ (fun j => page_unusable <$> (zone_mem_map zone1024 !! j) = Some false)).
  by vm_compute.
Qed.

#[global] Opaque zone1024.



(** ** free_buddy_system *)

Lemma free_buddy_loop_spec fuel fl n : forall iCnt z,
  (forall k, in_order k -> (length (fl k) <= fuel)%nat) ->
  (forall k, in_order k -> is_list (nodes z) (FreeList k) (if k <? iCnt then [] else Lru <$> fl k)) ->
  (forall k l i, in_order k -> in_order l -> i ∈ fl k -> i ∈ fl l -> k = l) ->
  0 <= iCnt -> iCnt + Z.of_nat n = BUDDY_GROUPS ->
  exists z', free_buddy_loop n fuel iCnt z = Ret z' /\
    forall k, in_order k -> is_list (nodes z') (FreeList k) [].
Proof.
  induction n as [|n IH]; intros iCnt z Hfu Hl Hu Hi Hn.
  - exists z. split; [done|]. intros k Hk. specialize (Hl k Hk). unfold in_order in Hk.
    by rewrite (proj2 (Z.ltb_lt _ _)) in Hl by lia.
  - cbn [free_buddy_loop]. assert (Hk : in_order iCnt) by (unfold in_order; lia).
    pose proof (Hl _ Hk) as Hli. rewrite Z.ltb_irrefl in Hli.
    destruct (list_del_all_spec fuel _ _ _ Hli) as (h1 & R1 & Hl1 & Hf1);
      [rewrite length_fmap; by apply Hfu|].
    unfold on_nodes at 2. rewrite R1. simpl. unfold on_nodes at 1. simpl.
    destruct (is_list_init h1 (FreeList iCnt)) as (h2 & R2 & Hl2 & Hf2);
      [eapply is_list_in_dom; [exact Hl1|left]|]. rewrite R2. simpl.
    apply IH; try done; try lia. simpl. intros k Hk'.
    destruct (decide (k = iCnt)) as [->|Hne].
    { by rewrite (proj2 (Z.ltb_lt _ _)) by lia. }
    replace (k <? iCnt + 1) with (k <? iCnt).
    2:{ destruct (Z.ltb_spec k iCnt), (Z.ltb_spec k (iCnt + 1)); lia. }
    eapply is_list_frame; [exact Hf2| |eapply is_list_frame; [exact Hf1| |by apply Hl]].
    all: intros q Hq Hin; apply elem_of_cons in Hq as [->|Hq].
    + apply list_elem_of_singleton in Hin. congruence.
    + apply list_elem_of_singleton in Hin as ->. destruct (k <? iCnt); [by inversion Hq|].
      by apply list_elem_of_fmap in Hq as (? & ? & _).
    + apply elem_of_cons in Hin as [|(? & ? & _)%list_elem_of_fmap]; congruence.
    + destruct (k <? iCnt); [by inversion Hq|]. apply list_elem_of_fmap in Hq as (i & -> & Hi').
      apply elem_of_cons in Hin as [|(j & [= <-] & Hj)%list_elem_of_fmap]; [done|].
      apply Hne. eauto.
Qed.

Lemma free_list_length z fl k :
  buddy_inv z fl -> in_order k -> (length (fl k) <= Z.to_nat (present_pages z))%nat.
Proof.
  intros Hinv Hk. rewrite <- (length_seqZ 0 (present_pages z)).
  apply submseteq_length, NoDup_submseteq; [by apply (inv_NoDup z)|].
  intros i Hi. destruct (bi_range _ _ Hinv k i Hk Hi). pow2 k. apply elem_of_seqZ. lia.
Qed.

(** free_buddy_system terminates (each of its loops visits at most one
    node per page) and leaves every free list empty. *)
Theorem free_buddy_system_empties z fl :
  buddy_inv z fl ->
  exists z', free_buddy_system (Z.to_nat (present_pages z)) z = Ret z' /\
    forall k, in_order k -> is_list (nodes z') (FreeList k) [].
Proof.
  intros Hinv. apply (free_buddy_loop_spec _ fl); try done.
  - intros k. by apply free_list_length.
  - intros k Hk. rewrite (proj2 (Z.ltb_ge _ _)) by (unfold in_order in Hk; lia).
    by apply (bi_lists _ _ Hinv).
  - intros k l i. apply (block_unique z fl Hinv).
Qed.

Lemma free_buddy_system_empties_witness :
  exists fl, buddy_inv zone16_ready fl /\
  exists z', free_buddy_system (Z.to_nat (present_pages zone16_ready)) zone16_ready = Ret z' /\
    forall k, in_order k -> is_list (nodes z') (FreeList k) [].
Proof.
  destruct zone16_inv as (fl & Hinv & _). exists fl. split; [exact Hinv|].
  exact (free_buddy_system_empties zone16_ready fl Hinv).
Defined.
