(* ===== verification/Allocator.v ===== *)
(** * The boot heap (memory-management/allocator.c, include/utils.h)

    kalloc is a first-fit search of the list of block headers followed by a
    bump of [kalloc_ptr]; kbfree marks a header free and gives the last block
    back to the bump pointer.  Headers live in a store keyed by their
    address; the words of the payloads are kept in [words]. *)

From S2P Require Import Prelude.

Definition ALIGN : Z := 8.
Definition sizeof_heap_block : Z := 12.   (* size_t, bool padded to 4, pointer *)

(** [((offset) + ((align) + 1) & ~((align)-1))]: [+] binds tighter than [&]. *)
Definition ALIGNUP (offset align : Z) : Z :=
  Z.land (u32 (offset + (align + 1))) (u32 (Z.lnot (align - 1))).

Record heap_block := mk_block { size : Z; is_freed : bool; blk_next : option Z }.

Record heap := mk_heap {
  heap_end : Z;
  kalloc_ptr : Z;
  head : option Z;
  blocks : gmap Z heap_block;
  words : gmap Z Z;
}.

#[global] Instance heap_block_eq_dec : EqDecision heap_block.
Proof. solve_decision. Defined.

Definition with_kalloc_ptr (v : Z) (h : heap) : heap :=
  mk_heap (heap_end h) v (head h) (blocks h) (words h).
Definition with_head (v : option Z) (h : heap) : heap :=
  mk_heap (heap_end h) (kalloc_ptr h) v (blocks h) (words h).
Definition with_blocks (b : gmap Z heap_block) (h : heap) : heap :=
  mk_heap (heap_end h) (kalloc_ptr h) (head h) b (words h).
Definition with_words (w : gmap Z Z) (h : heap) : heap :=
  mk_heap (heap_end h) (kalloc_ptr h) (head h) (blocks h) w.
Definition set_freed (v : bool) (b : heap_block) : heap_block := mk_block (size b) v (blk_next b).
Definition set_blk_next (v : option Z) (b : heap_block) : heap_block := mk_block (size b) (is_freed b) v.

Definition upd_block (a : Z) (f : heap_block -> heap_block) (h : heap) : outcome heap :=
  b ← deref (blocks h !! a); mret (with_blocks (<[a := f b]> (blocks h)) h).

(** The loop of kalloc: a free block that is large enough ([inl]), or the
    last header visited ([inr]). *)
Fixpoint kalloc_search (fuel : nat) (curr prev : option Z) (req : Z) (h : heap)
  : outcome (Z + option Z) :=
  match curr with
  | None => mret (inr prev)
  | Some a =>
      match fuel with
      | O => Spin
      | S fuel =>
          b ← deref (blocks h !! a);
          if is_freed b && (req <=? size b) then mret (inl a)
          else kalloc_search fuel (blk_next b) (Some a) req h
      end
  end.

Definition kalloc (fuel : nat) (req : Z) (h : heap) : outcome (heap * option Z) :=
  let req := ALIGNUP req ALIGN in
  let total_req := u32 (req + sizeof_heap_block) in
  if heap_end h <? u32 (kalloc_ptr h + total_req) then mret (h, None)
  else
    found ← kalloc_search fuel (head h) None req h;
    match found with
    | inl a =>
        h ← upd_block a (set_freed false) h;
        mret (h, Some (u32 (a + sizeof_heap_block)))
    | inr prev =>
        let curr := kalloc_ptr h in
        let h := with_blocks (<[curr := mk_block req false None]> (blocks h)) h in
        h ← (match head h with
             | None => mret (with_head (Some curr) h)
             | Some _ => p ← deref prev; upd_block p (set_blk_next (Some curr)) h
             end);
        let h := with_kalloc_ptr (u32 (kalloc_ptr h + total_req)) h in
        mret (h, Some (u32 (curr + sizeof_heap_block)))
    end.

Definition kbfree (ptr : option Z) (h : heap) : outcome heap :=
  match ptr with
  | None => mret h
  | Some p =>
      let node := u32 (p - sizeof_heap_block) in
      h ← upd_block node (set_freed true) h;
      b ← deref (blocks h !! node);
      match blk_next b with
      | None => mret (with_kalloc_ptr (u32 (kalloc_ptr h - u32 (size b + sizeof_heap_block))) h)
      | Some _ => mret h
      end
  end.

(** ** The abstract heap: the blocks in address order

    [heap_inv start bs h]: the headers form a list, the blocks [(address,
    size, free?)] follow each other without gap from [start] to [kalloc_ptr]. *)

Definition blk : Type := Z * Z * bool.
Definition blk_addr (b : blk) : Z := b.1.1.
Definition blk_size (b : blk) : Z := b.1.2.
Definition blk_free (b : blk) : bool := b.2.

Fixpoint chain (h : gmap Z heap_block) (a : option Z) (bs : list blk) (e : option Z) : Prop :=
  match bs with
  | [] => a = e
  | b :: bs => a = Some (blk_addr b) /\
      exists n, h !! blk_addr b = Some (mk_block (blk_size b) (blk_free b) n) /\ chain h n bs e
  end.

Fixpoint contiguous (a : Z) (bs : list blk) (e : Z) : Prop :=
  match bs with
  | [] => a = e
  | b :: bs => blk_addr b = a /\ 0 <= blk_size b /\ contiguous (a + sizeof_heap_block + blk_size b) bs e
  end.

Record heap_inv (start : Z) (bs : list blk) (h : heap) : Prop := {
  hi_start : 0 <= start;
  hi_end : kalloc_ptr h <= heap_end h < 2 ^ 32;
  hi_chain : chain (blocks h) (head h) bs None;
  hi_contig : contiguous start bs (kalloc_ptr h);
}.

(** The payload of a block. *)
Definition payload (b : blk) : Z := blk_addr b + sizeof_heap_block.

(** ** Arithmetic *)

Lemma land_align8 x : 0 <= x < 2 ^ 32 -> Z.land x (u32 (Z.lnot (ALIGN - 1))) = x - x mod 8.
Proof.
  intros Hx. change (u32 (Z.lnot (ALIGN - 1))) with (Z.ldiff (Z.ones 32) (Z.ones 3)).
  by apply (land_mask32 x 3).
Qed.

(** ALIGNUP overshoots: at least two bytes more than asked, at most nine. *)
Lemma ALIGNUP_bounds req :
  0 <= req < 2 ^ 32 - 9 ->
  req + 2 <= ALIGNUP req ALIGN <= req + 9 /\ ALIGNUP req ALIGN mod 8 = 0.
Proof.
  intros Hr. unfold ALIGNUP. rewrite (u32_small (req + _)) by (unfold ALIGN; lia).
  rewrite land_align8 by (unfold ALIGN; lia). unfold ALIGN.
  pose proof (Z.mod_pos_bound (req + (8 + 1)) 8 ltac:(lia)). split; [lia|].
  rewrite Zminus_mod, Z.mod_mod, Z.sub_diag by lia. done.
Qed.

Lemma contiguous_app a bs1 bs2 e :
  contiguous a (bs1 ++ bs2) e <-> exists m, contiguous a bs1 m /\ contiguous m bs2 e.
Proof.
  revert a. induction bs1 as [|b bs1 IH]; intros a; simpl; [naive_solver|].
  rewrite IH. naive_solver.
Qed.

Lemma contiguous_le a bs e : contiguous a bs e -> a <= e.
Proof.
  revert a. induction bs as [|b bs IH]; intros a; simpl; [lia|]. intros (_ & ? & H).
  apply IH in H. unfold sizeof_heap_block in H. lia.
Qed.

(** Every block lies between the start and the end. *)
Lemma contiguous_range a bs e b :
  contiguous a bs e -> b ∈ bs ->
  a <= blk_addr b /\ 0 <= blk_size b /\ payload b + blk_size b <= e.
Proof.
  intros Hc (bs1 & bs2 & ->)%list_elem_of_split. apply contiguous_app in Hc as (m & H1 & H2).
  simpl in H2. destruct H2 as (E & Hs & H2). apply contiguous_le in H1, H2.
  unfold payload, sizeof_heap_block in *. lia.
Qed.

(** Two different blocks have disjoint payloads, and none contains a header. *)
Lemma contiguous_disjoint a bs1 b1 bs2 b2 bs3 e :
  contiguous a (bs1 ++ b1 :: bs2 ++ b2 :: bs3) e ->
  payload b1 + blk_size b1 <= blk_addr b2.
Proof.
  intros Hc. apply contiguous_app in Hc as (m & _ & Hc). simpl in Hc.
  destruct Hc as (E & _ & Hc).
  destruct (contiguous_range _ _ _ b2 Hc) as (H & _); [apply elem_of_app; right; left|].
  unfold payload in *. lia.
Qed.

(** ** The search *)

(** First free block of at least [req] bytes. *)
Definition first_fit (req : Z) (bs : list blk) : option (nat * blk) :=
  list_find (fun b => blk_free b = true /\ req <= blk_size b) bs.

Lemma kalloc_search_spec req bs : forall fuel h a prev,
  chain (blocks h) a bs None -> (length bs <= fuel)%nat ->
  kalloc_search fuel a prev req h = Ret
    (match first_fit req bs with
     | Some (_, b) => inl (blk_addr b)
     | None => inr (match last bs with Some b => Some (blk_addr b) | None => prev end)
     end).
Proof.
  induction bs as [|b bs IH]; intros fuel h a prev Hc Hf; simpl in Hc.
  - subst. by destruct fuel.
  - destruct Hc as (-> & n & Hb & Hc). destruct fuel as [|fuel]; simpl in *; [lia|].
    rewrite Hb. simpl. unfold first_fit. simpl. case_decide as Hfit.
    + destruct Hfit as [-> Hle]. rewrite (proj2 (Z.leb_le _ _)) by done. done.
    + replace (blk_free b && (req <=? blk_size b)) with false.
      2:{ symmetry. apply andb_false_iff. destruct (blk_free b); [right|by left].
          apply Z.leb_gt. destruct (decide (req <= blk_size b)); [|lia]. by destruct Hfit. }
      rewrite (IH fuel h n (Some (blk_addr b)) Hc) by lia. fold (first_fit req bs).
      destruct (first_fit req bs) as [[? ?]|]; simpl; [done|]. destruct bs as [|? ?]; [done|].
      destruct (last (_ :: _)) eqn:E; [done|]. by apply last_None in E.
Qed.

(** ** Updating the list of headers *)

Lemma chain_app h a bs1 bs2 e :
  chain h a (bs1 ++ bs2) e <-> exists m, chain h a bs1 m /\ chain h m bs2 e.
Proof.
  revert a. induction bs1 as [|b bs1 IH]; intros a; simpl; [naive_solver|].
  setoid_rewrite IH. naive_solver.
Qed.

Lemma chain_frame h x v a bs e :
  Forall (fun b => blk_addr b <> x) bs -> chain h a bs e -> chain (<[x := v]> h) a bs e.
Proof.
  intros Hf. revert a. induction Hf as [|b bs Hb Hf IH]; intros a; simpl; [done|].
  intros (-> & n & Hn & Hc). split; [done|]. exists n. rewrite lookup_insert_ne by done. eauto.
Qed.

(** Rewriting the header of the block [b] of a list without repeated addresses. *)
Lemma chain_update h a bs1 b bs2 e f :
  NoDup (blk_addr <$> (bs1 ++ b :: bs2)) -> chain h a (bs1 ++ b :: bs2) e ->
  exists n, h !! blk_addr b = Some (mk_block (blk_size b) (blk_free b) n) /\
    chain (<[blk_addr b := mk_block (blk_size b) f n]> h) a
      (bs1 ++ (blk_addr b, blk_size b, f) :: bs2) e.
Proof.
  intros Hnd Hc. rewrite fmap_app, fmap_cons, <- Permutation_middle in Hnd.
  apply NoDup_cons in Hnd as [Hni _]. rewrite <- fmap_app in Hni.
  assert (Hne : Forall (fun c => blk_addr c <> blk_addr b) (bs1 ++ bs2)).
  { apply Forall_forall. intros c Hin E. apply Hni. rewrite <- E. by apply list_elem_of_fmap_2. }
  apply Forall_app in Hne as [Hne1 Hne2].
  apply chain_app in Hc as (m & H1 & -> & n & Hn & H2). exists n. split; [done|].
  apply chain_app. eexists. split; [by apply chain_frame|]. split; [done|]. exists n.
  rewrite lookup_insert_eq. split; [done|]. by apply chain_frame.
Qed.

Lemma contiguous_addr_lt a bs e b : contiguous a bs e -> b ∈ bs -> a <= blk_addr b < e.
Proof.
  intros Hc Hb. destruct (contiguous_range _ _ _ _ Hc Hb) as (? & ? & ?).
  unfold payload, sizeof_heap_block in *. lia.
Qed.

Lemma contiguous_NoDup a bs e : contiguous a bs e -> NoDup (blk_addr <$> bs).
Proof.
  revert a. induction bs as [|b bs IH]; intros a; simpl; [intros; apply NoDup_nil_2|].
  intros (E & Hs & Hc). apply NoDup_cons. split; [|by eapply IH].
  intros (c & Ec & Hin)%list_elem_of_fmap.
  destruct (contiguous_addr_lt _ _ _ _ Hc Hin). unfold sizeof_heap_block in *. lia.
Qed.

Lemma contiguous_update a bs1 b bs2 e f :
  contiguous a (bs1 ++ b :: bs2) e ->
  contiguous a (bs1 ++ (blk_addr b, blk_size b, f) :: bs2) e.
Proof. rewrite !contiguous_app. simpl. naive_solver. Qed.

(** Appending a block at the bump pointer. *)
Lemma chain_snoc h a bs x v :
  chain h a bs None -> Forall (fun b => blk_addr b <> x) bs -> NoDup (blk_addr <$> bs) ->
  blk_next v = None ->
  let nb := (x, size v, is_freed v) in
  match last bs with
  | None => chain (<[x := v]> h) (Some x) (bs ++ [nb]) None
  | Some b => exists l n, h !! blk_addr b = Some l /\ n = set_blk_next (Some x) l /\
      chain (<[blk_addr b := n]> (<[x := v]> h)) a (bs ++ [nb]) None
  end.
Proof.
  intros Hc Hne Hnd Hv nb.
  assert (Hnew : forall h', h' !! x = Some v -> chain h' (Some x) [nb] None).
  { intros h' Hx. split; [done|]. exists None. destruct v; simpl in *; subst. done. }
  destruct bs as [|b bs _] using rev_ind; simpl.
  { apply Hnew. apply lookup_insert_eq. }
  rewrite last_snoc. apply chain_app in Hc as (m & H1 & -> & n & Hn & ->).
  apply Forall_app in Hne as [Hne1 Hne2]. inversion_clear Hne2 as [|? ? Hbx _].
  rewrite fmap_app, NoDup_app in Hnd. destruct Hnd as (_ & Hnd & _).
  eexists _, _. split; [done|]. split; [done|]. rewrite <- app_assoc.
  apply chain_app. eexists. split.
  - apply chain_frame; [|by apply chain_frame]. apply Forall_forall. intros c Hin E.
    apply (Hnd (blk_addr c)); [by apply list_elem_of_fmap_2|]. rewrite E. left.
  - split; [done|]. exists (Some x). rewrite lookup_insert_eq. split; [done|].
    apply Hnew. by rewrite lookup_insert_ne, lookup_insert_eq.
Qed.

(** ** kalloc and kbfree on the abstract heap *)

(** A request whose size does not wrap around 32 bits. *)
Definition req_ok (h : heap) (req : Z) : Prop :=
  0 <= req < 2 ^ 32 - 9 /\ kalloc_ptr h + req + 21 < 2 ^ 32.

Definition used (b : blk) : blk := (blk_addr b, blk_size b, false).

(** What kalloc does to the abstract heap. *)
Definition kalloc_abs (bs : list blk) (ptr end_ req : Z) : option (list blk * Z) :=
  let r := ALIGNUP req ALIGN in
  if end_ <? ptr + (r + sizeof_heap_block) then None
  else match first_fit r bs with
       | Some (n, b) => Some (<[n := used b]> bs, payload b)
       | None => Some (bs ++ [(ptr, r, false)], ptr + sizeof_heap_block)
       end.

Lemma first_fit_split req bs n b :
  first_fit req bs = Some (n, b) ->
  exists bs1 bs2, bs = bs1 ++ b :: bs2 /\ n = length bs1 /\ blk_free b = true /\ req <= blk_size b /\
    <[n := used b]> bs = bs1 ++ used b :: bs2.
Proof.
  intros (Hn & [Hf Hs] & _)%list_find_Some.
  apply list_elem_of_split_length in Hn as (bs1 & bs2 & -> & ->).
  exists bs1, bs2. split_and!; try done. by rewrite insert_app_r_alt, Nat.sub_diag by lia.
Qed.

Lemma kalloc_spec start bs h req fuel :
  heap_inv start bs h -> req_ok h req -> (length bs <= fuel)%nat ->
  match kalloc_abs bs (kalloc_ptr h) (heap_end h) req with
  | None => kalloc fuel req h = Ret (h, None)
  | Some (bs', p) => exists h', kalloc fuel req h = Ret (h', Some p) /\
      heap_inv start bs' h' /\ words h' = words h /\ heap_end h' = heap_end h
  end.
Proof.
  intros [Hs He Hc Hcg] [Hr Hw] Hfu. unfold kalloc_abs, kalloc.
  pose proof (ALIGNUP_bounds req Hr) as [Hb _]. set (r := ALIGNUP req ALIGN) in *.
  pose proof (contiguous_le _ _ _ Hcg) as Hle. unfold sizeof_heap_block in *.
  rewrite (u32_small (r + 12)) by lia. rewrite (u32_small (kalloc_ptr h + (r + 12))) by lia.
  destruct (Z.ltb_spec (heap_end h) (kalloc_ptr h + (r + 12))) as [|Hfits]; [done|].
  rewrite (kalloc_search_spec r bs) by done. simpl.
  pose proof (contiguous_NoDup _ _ _ Hcg) as Hnd.
  destruct (first_fit r bs) as [[n b]|] eqn:Eff.
  - destruct (first_fit_split _ _ _ _ Eff) as (bs1 & bs2 & -> & _ & Hf & _ & ->).
    destruct (chain_update _ _ _ _ _ _ false Hnd Hc) as (nx & Hnx & Hc').
    destruct (contiguous_addr_lt _ _ _ b Hcg) as [? ?]; [apply elem_of_app; right; left|].
    unfold upd_block. rewrite Hnx. simpl. unfold sizeof_heap_block. rewrite u32_small by lia.
    eexists. split; [done|]. split; [|done]. split; simpl; try done.
    by apply contiguous_update.
  - assert (Hne : Forall (fun b => blk_addr b <> kalloc_ptr h) bs).
    { apply Forall_forall. intros b Hin. pose proof (contiguous_addr_lt _ _ _ _ Hcg Hin). lia. }
    pose proof (chain_snoc _ _ _ _ (mk_block r false None) Hc Hne Hnd eq_refl) as Hsn.
    assert (Hcg' : contiguous start (bs ++ [(kalloc_ptr h, r, false)]) (kalloc_ptr h + (r + 12))).
    { apply contiguous_app. eexists. split; [exact Hcg|]. simpl. unfold blk_size, sizeof_heap_block.
      simpl. split_and!; [done|lia|lia]. }
    unfold sizeof_heap_block. rewrite (u32_small (kalloc_ptr h + 12)) by lia.
    destruct (last bs) as [b|] eqn:El; simpl in Hsn.
    + destruct Hsn as (l & nn & Hl & -> & Hc').
      assert (Hhd : exists a, head h = Some a).
      { destruct bs as [|b0 bs]; [done|]. destruct Hc as [-> _]. eauto. }
      destruct Hhd as [a Ha]. rewrite Ha. simpl. unfold upd_block. simpl.
      rewrite lookup_insert_ne, Hl.
      2:{ apply last_Some_elem_of in El. rewrite Forall_forall in Hne. symmetry. by apply Hne. }
      simpl. eexists. split; [by rewrite (u32_small (_ + (r + 12))) by lia|].
      split; [|done]. split; simpl; [done|lia|exact Hc'|done].
    + apply last_None in El as ->. simpl in Hc. rewrite Hc. simpl.
      eexists. split; [by rewrite (u32_small (_ + (r + 12))) by lia|].
      split; [|done]. split; simpl; try done. lia.
Qed.

(** kbfree of a block that is not the last one. *)
Lemma kbfree_inner_spec start bs1 b bs2 h :
  heap_inv start (bs1 ++ b :: bs2) h -> bs2 <> [] ->
  exists h', kbfree (Some (payload b)) h = Ret h' /\ words h' = words h /\
    heap_end h' = heap_end h /\ kalloc_ptr h' = kalloc_ptr h /\
    heap_inv start (bs1 ++ (blk_addr b, blk_size b, true) :: bs2) h'.
Proof.
  intros [Hs He Hc Hcg] Hne. pose proof (contiguous_NoDup _ _ _ Hcg) as Hnd.
  destruct (chain_update _ _ _ _ _ _ true Hnd Hc) as (nx & Hnx & Hc').
  destruct (contiguous_addr_lt _ _ _ b Hcg) as [? ?]; [apply elem_of_app; right; left|].
  unfold kbfree, payload. replace (blk_addr b + _ - _) with (blk_addr b) by lia.
  rewrite u32_small by lia. unfold upd_block. rewrite Hnx. simpl.
  rewrite lookup_insert_eq. simpl.
  assert (exists a, nx = Some a) as [a ->].
  { apply chain_app in Hc as (m & _ & _ & n & Hn & Hc2). rewrite Hnx in Hn. injection Hn as <-.
    destruct bs2 as [|c bs2]; [done|]. destruct Hc2 as [-> _]. eauto. }
  eexists. split_and!; [done..|]. split; simpl; try done. by apply contiguous_update.
Qed.

(** kbfree of the last block moves the bump pointer below a header that stays
    in the list. *)
Lemma kbfree_last_spec start bs b h :
  heap_inv start (bs ++ [b]) h ->
  exists h', kbfree (Some (payload b)) h = Ret h' /\ kalloc_ptr h' = blk_addr b /\
    words h' = words h /\ heap_end h' = heap_end h /\
    chain (blocks h') (head h') (bs ++ [(blk_addr b, blk_size b, true)]) None.
Proof.
  intros [Hs He Hc Hcg]. pose proof (contiguous_NoDup _ _ _ Hcg) as Hnd.
  destruct (chain_update _ _ _ _ _ _ true Hnd Hc) as (nx & Hnx & Hc').
  destruct (contiguous_range _ _ _ b Hcg) as (? & ? & Hup); [apply elem_of_app; right; left|].
  assert (nx = None) as ->.
  { apply chain_app in Hc as (m & _ & _ & n & Hn & Hc2). simpl in Hc2. congruence. }
  assert (Hend : payload b + blk_size b = kalloc_ptr h).
  { apply contiguous_app in Hcg as (m & _ & Eb & _ & E). simpl in E. unfold payload. lia. }
  unfold payload, sizeof_heap_block in *. unfold kbfree, sizeof_heap_block.
  replace (blk_addr b + 12 - 12) with (blk_addr b) by lia.
  rewrite (u32_small (blk_addr b)) by lia. unfold upd_block. rewrite Hnx. simpl.
  rewrite lookup_insert_eq. simpl. rewrite (u32_small (blk_size b + 12)), u32_small by lia.
  eexists. split_and!; [done| |done|done|done]. simpl. lia.
Qed.

(** ** The self test of manager.c *)

(** [for (int i = 0; i < n; i++) arr[i] = f(i);] on an array of 4-byte ints. *)
Definition write_ints (n arr : Z) (f : Z -> Z) (h : heap) : heap :=
  with_words (foldl (fun w i => <[arr + 4 * i := f i]> w) (words h) (seqZ 0 n)) h.
Definition check_ints (n arr : Z) (f : Z -> Z) (h : heap) : bool :=
  forallb (fun i => bool_decide (words h !! (arr + 4 * i) = Some (f i))) (seqZ 0 n).

Definition test_allocator (fuel : nat) (h : heap) : outcome (heap * Z) :=
  '(h, arr1) ← kalloc fuel (10 * 4) h;
  match arr1 with
  | None => mret (h, -1)
  | Some arr1 =>
      let h := write_ints 10 arr1 (fun i => i * 2) h in
      if negb (check_ints 10 arr1 (fun i => i * 2) h) then mret (h, -1)
      else
        '(h, arr2) ← kalloc fuel (5 * 4) h;
        match arr2 with
        | None => mret (h, -1)
        | Some arr2 =>
            let h := write_ints 5 arr2 (fun i => i + 100) h in
            h ← kbfree (Some arr1) h;
            '(h, arr3) ← kalloc fuel (8 * 4) h;
            match arr3 with
            | None => mret (h, -1)
            | Some arr3 =>
                let h := write_ints 8 arr3 (fun i => i + 200) h in
                if negb (check_ints 5 arr2 (fun i => i + 100) h) then mret (h, -1)
                else mret (h, 0)
            end
        end
  end.

Lemma foldl_write_lookup (w : gmap Z Z) arr f l x :
  (forall i, i ∈ l -> arr + 4 * i <> x) ->
  foldl (fun w i => <[arr + 4 * i := f i]> w) w l !! x = w !! x.
Proof.
  revert w. induction l as [|i l IH]; intros w Hx; simpl; [done|].
  rewrite IH by (intros; apply Hx; by right). apply lookup_insert_ne, Hx. left.
Qed.

Lemma write_ints_same n arr f h i :
  0 <= i < n -> words (write_ints n arr f h) !! (arr + 4 * i) = Some (f i).
Proof.
  intros Hi. assert (Hin : i ∈ seqZ 0 n) by (apply elem_of_seqZ; lia). simpl.
  apply list_elem_of_split in Hin as (l1 & l2 & E). pose proof (NoDup_seqZ 0 n) as Hnd.
  rewrite E in *. rewrite foldl_app. simpl. apply NoDup_app in Hnd as (_ & _ & Hnd).
  apply NoDup_cons in Hnd as [Hni _].
  rewrite foldl_write_lookup; [by rewrite lookup_insert_eq|]. intros j Hj Ej.
  assert (j = i) as -> by lia. done.
Qed.

Lemma write_ints_other n arr f h x :
  x < arr \/ arr + 4 * n <= x -> words (write_ints n arr f h) !! x = words h !! x.
Proof. intros Hx. simpl. apply foldl_write_lookup. intros i Hi%elem_of_seqZ. lia. Qed.

Lemma check_ints_true n arr f h :
  (forall i, 0 <= i < n -> words h !! (arr + 4 * i) = Some (f i)) -> check_ints n arr f h = true.
Proof.
  intros Hw. apply forallb_forall. intros i Hi. apply list_elem_of_In, elem_of_seqZ in Hi.
  apply bool_decide_eq_true. apply Hw. lia.
Qed.

Lemma heap_inv_words start bs h w : heap_inv start bs h -> heap_inv start bs (with_words w h).
Proof. by intros []. Qed.

Lemma heap_inv_ptr start bs h : heap_inv start bs h -> contiguous start bs (kalloc_ptr h).
Proof. by intros []. Qed.

Lemma test_allocator_ok start h fuel :
  heap_inv start [] h -> start + 148 <= heap_end h < 2 ^ 32 - 200 -> (2 <= fuel)%nat ->
  exists h' bs, test_allocator fuel h = Ret (h', 0) /\ heap_inv start bs h'.
Proof.
  intros Hi Hroom Hfu. pose proof (hi_start _ _ _ Hi). unfold test_allocator.
  pose proof (heap_inv_ptr _ _ _ Hi) as P0. simpl in P0.
  pose proof (kalloc_spec start [] h (10 * 4) fuel Hi) as K1. unfold kalloc_abs, req_ok in K1.
  change (ALIGNUP (10 * 4) ALIGN) with 48 in K1. unfold sizeof_heap_block in K1.
  rewrite (proj2 (Z.ltb_ge _ _)) in K1 by lia. simpl in K1.
  destruct K1 as (h1 & -> & Hi1 & Hw1 & He1); [lia|lia|]. cbn [mbind outcome_bind]. cbv zeta.
  rewrite (check_ints_true 10 _ (fun i => i * 2))
    by (intros; by apply (write_ints_same 10 _ (fun i => i * 2))). cbn [negb].
  set (a1 := kalloc_ptr h + 12) in *. set (h1' := write_ints 10 _ _ h1).
  assert (Hi1' : heap_inv start [(start, 48, false)] h1') by (apply heap_inv_words; by rewrite <- P0 in Hi1).
  pose proof (heap_inv_ptr _ _ _ Hi1') as (_ & _ & P1). unfold blk_size, sizeof_heap_block in P1. simpl in P1.
  pose proof (kalloc_spec start _ h1' (5 * 4) fuel Hi1') as K2. unfold kalloc_abs, req_ok in K2.
  change (ALIGNUP (5 * 4) ALIGN) with 24 in K2. unfold sizeof_heap_block in K2.
  change (heap_end h1') with (heap_end h1) in K2. change (kalloc_ptr h1') with (kalloc_ptr h1) in K2.
  rewrite (proj2 (Z.ltb_ge _ _)) in K2 by lia. cbn -[write_ints] in K2.
  destruct K2 as (h2 & -> & Hi2 & Hw2 & He2); [lia|lia|]. cbn [mbind outcome_bind]. cbv zeta.
  set (a2 := kalloc_ptr h1 + 12) in *. set (h2' := write_ints 5 _ _ h2).
  assert (Hi2' : heap_inv start ([] ++ (start, 48, false) :: [(kalloc_ptr h1, 24, false)]) h2')
    by (by apply heap_inv_words).
  pose proof (heap_inv_ptr _ _ _ Hi2') as (_ & _ & _ & _ & P2).
  unfold blk_size, sizeof_heap_block in P2. simpl in P2.
  destruct (kbfree_inner_spec _ _ _ _ _ Hi2') as (h3 & R3 & Hw3 & He3 & Hk3 & Hi3); [done|].
  replace (payload (start, 48, false)) with a1 in R3
    by (unfold payload, a1, blk_addr, sizeof_heap_block; simpl; lia).
  rewrite R3. cbn [mbind outcome_bind].
  pose proof (kalloc_spec start _ h3 (8 * 4) fuel Hi3) as K3. unfold kalloc_abs, req_ok in K3.
  change (ALIGNUP (8 * 4) ALIGN) with 40 in K3. unfold sizeof_heap_block in K3.
  change (kalloc_ptr h2') with (kalloc_ptr h2) in *. change (heap_end h2') with (heap_end h2) in *.
  rewrite (proj2 (Z.ltb_ge _ _)) in K3 by lia. cbn -[write_ints] in K3.
  destruct K3 as (h4 & -> & Hi4 & Hw4 & He4); [lia|lia|]. cbn [mbind outcome_bind]. cbv zeta.
  eexists _, _. rewrite (check_ints_true 5 _ (fun i => i + 100)); [split; [done|]; apply heap_inv_words; exact Hi4|].
  intros i Hir. rewrite write_ints_other, Hw4, Hw3.
  - by apply (write_ints_same 5 _ (fun i => i + 100)).
  - right. unfold payload, blk_addr, a2, sizeof_heap_block. simpl. lia.
Qed.

(** ** Theorems *)


(** Giving back the last block and then asking twice for memory hands out
    the same address twice: kbfree moves the bump pointer back to the block
    but leaves it in the list as free, so the first request reuses it without
    moving the pointer and the second one starts a new block on top of it. *)
Theorem kbfree_last_reissued start bs b h req fuel :
  heap_inv start (bs ++ [b]) h -> blk_free b = false ->
  0 <= req < 2 ^ 32 - 9 -> ALIGNUP req ALIGN <= blk_size b ->
  first_fit (ALIGNUP req ALIGN) bs = None -> (S (length bs) <= fuel)%nat ->
  exists h1 h2 h3, kbfree (Some (payload b)) h = Ret h1 /\
    kalloc fuel req h1 = Ret (h2, Some (payload b)) /\
    kalloc fuel req h2 = Ret (h3, Some (payload b)).
Proof.
  intros Hi Hbf Hr Hsz Hff Hfu. destruct (kbfree_last_spec _ _ _ _ Hi) as (h1 & R1 & Hk1 & _ & He1 & Hc1).
  destruct Hi as [Hs He _ Hcg]. pose proof (ALIGNUP_bounds req Hr) as [Hb _].
  destruct (contiguous_range _ _ _ b Hcg) as (? & ? & Hup); [apply elem_of_app; right; left|].
  pose proof (contiguous_NoDup _ _ _ Hcg) as Hnd. unfold payload, sizeof_heap_block in Hup.
  set (r := ALIGNUP req ALIGN) in *. set (fb := (blk_addr b, blk_size b, true)) in *.
  assert (Hlen : forall c : blk, (length (bs ++ [c]) <= fuel)%nat) by (intros; rewrite length_app; simpl; lia).
  assert (Hff1 : first_fit r (bs ++ [fb]) = Some (length bs, fb)).
  { unfold first_fit in *. rewrite list_find_app_r by done. simpl. rewrite decide_True by done. simpl.
    by rewrite ?Nat.add_0_r. }
  assert (Hnd1 : NoDup (blk_addr <$> (bs ++ [fb]))) by (rewrite fmap_app in *; exact Hnd).
  destruct (chain_update _ _ bs fb [] None false Hnd1 Hc1) as (nx & Hnx & Hc2).
  change (blk_addr fb) with (blk_addr b) in *. change (blk_size fb) with (blk_size b) in *.
  set (h2 := with_blocks (<[blk_addr b := mk_block (blk_size b) false nx]> (blocks h1)) h1).
  set (ub := (blk_addr b, blk_size b, false)) in *.
  assert (Hff2 : first_fit r (bs ++ [ub]) = None).
  { unfold first_fit in *. rewrite list_find_app_r by done. cbn [list_find].
    rewrite decide_False by naive_solver.
    done. }
  exists h1, h2. eexists. split; [done|]. split.
  - unfold kalloc. fold r. unfold sizeof_heap_block. rewrite (u32_small (r + 12)) by lia.
    rewrite Hk1, He1, (u32_small (blk_addr b + (r + 12))) by lia.
    rewrite (proj2 (Z.ltb_ge _ _)) by lia.
    rewrite (kalloc_search_spec r _ _ _ _ None Hc1 (Hlen _)), Hff1. cbn [mbind outcome_bind].
    change (blk_addr fb) with (blk_addr b). unfold upd_block. rewrite Hnx. simpl.
    by rewrite u32_small by lia.
  - unfold kalloc. fold r. unfold sizeof_heap_block. rewrite (u32_small (r + 12)) by lia.
    change (kalloc_ptr h2) with (kalloc_ptr h1). change (heap_end h2) with (heap_end h1).
    rewrite Hk1, He1, (u32_small (blk_addr b + (r + 12))) by lia.
    rewrite (proj2 (Z.ltb_ge _ _)) by lia.
    change (head h2) with (head h1).
    rewrite (kalloc_search_spec r (bs ++ [ub]) _ h2 _ None Hc2 (Hlen _)), Hff2, last_snoc.
    cbn [mbind outcome_bind]. change (blk_addr ub) with (blk_addr b).
    assert (Hhd : exists a, head h1 = Some a).
    { destruct bs as [|b0 bs0]; destruct Hc1 as [-> _]; eauto. }
    destruct Hhd as [a Ha]. cbn [head with_blocks]. fold h2. change (head h2) with (head h1). rewrite Ha.
    cbn [deref mbind outcome_bind]. unfold upd_block. simpl. rewrite lookup_insert_eq. simpl.
    by rewrite (u32_small (blk_addr b + 12)) by lia.
Qed.

(** The self test of the memory manager passes on an empty heap of at
    least 148 bytes: the three arrays do not overlap, the second is intact
    after the third reuses the space of the first. *)
Theorem test_allocator_passes start h fuel :
  heap_inv start [] h -> start + 148 <= heap_end h < 2 ^ 32 - 200 -> (2 <= fuel)%nat ->
  exists h' bs, test_allocator fuel h = Ret (h', 0) /\ heap_inv start bs h'.
Proof. apply test_allocator_ok. Qed.

(** ** Witnesses: a heap of 3840 bytes at 0x100 *)

Definition heap0 : heap := mk_heap 0x1000 0x100 None ∅ ∅.
Definition heap1 : heap := match kalloc 4 40 heap0 with Ret (h, _) => h | _ => heap0 end.

Lemma heap0_inv : heap_inv 0x100 [] heap0.
Proof. split; simpl; try done; lia. Qed.

Lemma heap1_inv : heap_inv 0x100 [(0x100, 48, false)] heap1.
Proof.
  split.
  - lia.
  - by vm_compute.
  - split; [done|]. exists None. split; [by vm_compute|done].
  - split; [done|]. split; [unfold blk_size; simpl; lia|]. by vm_compute.
Qed.


Lemma kbfree_last_reissued_witness :
  exists h1 h2 h3, kbfree (Some 0x10c) heap1 = Ret h1 /\
    kalloc 4 40 h1 = Ret (h2, Some 0x10c) /\ kalloc 4 40 h2 = Ret (h3, Some 0x10c).
Proof.
  apply (kbfree_last_reissued 0x100 [] (0x100, 48, false) heap1 40 4 heap1_inv);
    [done|lia|by vm_compute|done|simpl; lia].
Defined.

Lemma test_allocator_passes_witness :
  exists h' bs, test_allocator 2 heap0 = Ret (h', 0) /\ heap_inv 0x100 bs h'.
Proof. apply (test_allocator_passes 0x100 heap0 2 heap0_inv); simpl; lia. Defined.
