(* ===== verification/Manager.v ===== *)
(** * Memory detection and the boot heap (memory-management/manager.c, multiboot.h)

    The memory map GRUB leaves in memory is an input: [entry_at a] is the
    entry found at address [a].  Printing is left out. *)

From S2P Require Import Prelude Allocator.

Definition MAX_MEMORY_BLOCKS : Z := 10.
Definition MPAGE_SIZE : Z := 4096.
Definition HEAP_SIZE : Z := 256 * 4096.

Record multiboot_info := mk_mbi {
  mb_flags : Z; mem_lower : Z; mem_upper : Z; mmap_length : Z; mmap_addr : Z }.
Record mmap_entry := mk_entry { e_size : Z; e_addr : Z; e_len : Z; e_type : Z }.
Record memory_block := mk_mblock { mb_start : Z; mb_end : Z }.

Definition CHECK_FLAG (flags bit : Z) : bool := negb (Z.land flags (Z.shiftl 1 bit) =? 0).

Record phy_layout := mk_layout {
  highest_usable_pfn : Z; totalram_pages : Z; max_pfn : Z; max_low_pfn : Z;
  totalhigh_pages : Z; highstart_pfn : Z; highend_pfn : Z }.

(** machine_specific_memory_setup (mm.c). *)
Definition machine_specific_memory_setup (mbi : multiboot_info) : phy_layout :=
  let total_ram_bytes := u32 (u32 (mem_upper mbi * 1024) + 1024 * 1024) in
  let total_ram_pfn := total_ram_bytes / MPAGE_SIZE in
  let lowmem_limit_pfn := u32 (mem_lower mbi * 1024) / MPAGE_SIZE in
  let highest := u32 (mem_upper mbi * 1024) / MPAGE_SIZE in
  let max_low := if total_ram_pfn <? lowmem_limit_pfn then total_ram_pfn else lowmem_limit_pfn in
  mk_layout highest total_ram_pfn highest max_low (u32 (highest - max_low)) max_low highest.

Section detection.
Context (KERNEL_END : Z) (entry_at : Z -> mmap_entry).

(** The block recorded for a usable entry. *)
Definition clip (e : mmap_entry) : memory_block :=
  let entry_start := u32 (e_addr e) in
  let entry_end := u32 (entry_start + e_len e) in
  if (entry_start <=? KERNEL_END) && (KERNEL_END <? entry_end) then mk_mblock KERNEL_END entry_end
  else mk_mblock entry_start entry_end.

(** The scanning loop of find_available_memory; [blocks] is the prefix of
    free_memory_blocks filled so far, so [num_blocks] is its length. *)
Fixpoint scan_mmap (fuel : nat) (mmap mmap_end : Z) (blocks : list memory_block)
  : outcome (list memory_block) :=
  if mmap <? mmap_end then
    match fuel with
    | O => Spin
    | S fuel =>
        let entry := entry_at mmap in
        let blocks :=
          if (e_type entry =? 1) && (Z.of_nat (length blocks) <? MAX_MEMORY_BLOCKS)
          then blocks ++ [clip entry] else blocks in
        scan_mmap fuel (u32 (mmap + u32 (e_size entry + 4))) mmap_end blocks
    end
  else mret blocks.

Definition find_available_memory (fuel : nat) (mbi : multiboot_info)
  : outcome (list memory_block * option phy_layout) :=
  if negb (CHECK_FLAG (mb_flags mbi) 6) then mret ([], None)
  else
    let mmap := mmap_addr mbi in
    let mmap_end := u32 (mmap + mmap_length mbi) in
    blocks ← scan_mmap fuel mmap mmap_end [];
    mret (blocks, Some (machine_specific_memory_setup mbi)).

(** initialize_memeory_manager: the result is the status, the blocks, the
    layout and the heap. *)
Definition initialize_memeory_manager (fuel : nat) (mbi : multiboot_info)
  : outcome (Z * list memory_block * option phy_layout * option heap) :=
  '(blocks, layout) ← find_available_memory fuel mbi;
  match blocks with
  | [] => mret (-1, [], layout, None)
  | b :: _ =>
      let heap_start := ALIGNUP (u32 (mb_start b)) MPAGE_SIZE in
      let h := mk_heap (u32 (heap_start + HEAP_SIZE)) heap_start None ∅ ∅ in
      '(h, st) ← test_allocator fuel h;
      mret (st, blocks, layout, Some h)
  end.

(** ** The memory map as a list of entries *)

(** [mmap_list a e es]: walking from address [a] to [e] meets the entries [es]. *)
Inductive mmap_list : Z -> Z -> list mmap_entry -> Prop :=
| mmap_nil a e : e <= a -> mmap_list a e []
| mmap_cons a e es :
    a < e -> 0 <= e_size (entry_at a) -> a + e_size (entry_at a) + 4 < 2 ^ 32 ->
    mmap_list (a + e_size (entry_at a) + 4) e es ->
    mmap_list a e (entry_at a :: es).

Definition usable_blocks (es : list mmap_entry) : list memory_block :=
  clip <$> filter (fun e => e_type e = 1) es.

Lemma scan_mmap_spec fuel a e es : forall blocks,
  mmap_list a e es -> 0 <= a -> (length es <= fuel)%nat -> (length blocks <= 10)%nat ->
  scan_mmap fuel a e blocks = Ret (take 10 (blocks ++ usable_blocks es)).
Proof.
  revert fuel a. induction es as [|x es IH]; intros fuel a blocks Hl Ha Hf Hb.
  - inversion Hl; subst. unfold usable_blocks. simpl. rewrite app_nil_r.
    destruct fuel; simpl; rewrite (proj2 (Z.ltb_ge _ _)) by done; by rewrite take_ge by lia.
  - inversion Hl as [|? ? ? Hlt Hs Hw Hrest]; subst. destruct fuel as [|fuel]; simpl in *; [lia|].
    rewrite (proj2 (Z.ltb_lt _ _)) by done.
    rewrite (u32_small (e_size _ + 4)), u32_small by lia.
    replace (a + (e_size (entry_at a) + 4)) with (a + e_size (entry_at a) + 4) by lia.
    unfold usable_blocks. rewrite filter_cons. destruct (Z.eqb_spec (e_type (entry_at a)) 1) as [Et|Et].
    + rewrite decide_True by done. simpl. unfold MAX_MEMORY_BLOCKS.
      destruct (Z.ltb_spec (Z.of_nat (length blocks)) 10).
      * rewrite IH; [|done|lia|lia|rewrite length_app; simpl; lia]. f_equal.
        by rewrite <- app_assoc.
      * rewrite IH; [|done|lia|lia|lia]. f_equal.
        rewrite !take_app_le by lia. done.
    + rewrite decide_False by done. simpl. rewrite IH; [done|done|lia|lia|lia].
Qed.

(** find_available_memory terminates on a well formed memory map and
    records, in order, the first ten usable regions, each cut at the end of
    the kernel image when it contains it. *)
Theorem find_available_memory_correct fuel mbi es :
  CHECK_FLAG (mb_flags mbi) 6 = true -> 0 <= mmap_addr mbi -> 0 <= mmap_length mbi ->
  mmap_addr mbi + mmap_length mbi < 2 ^ 32 ->
  mmap_list (mmap_addr mbi) (mmap_addr mbi + mmap_length mbi) es -> (length es <= fuel)%nat ->
  find_available_memory fuel mbi =
    Ret (take 10 (usable_blocks es), Some (machine_specific_memory_setup mbi)).
Proof.
  intros Hfl Ha Hlen Hw Hl Hf. unfold find_available_memory. rewrite Hfl. simpl.
  rewrite (u32_small (_ + _)) by lia.
  rewrite (scan_mmap_spec fuel _ _ es []); [done|done|done|done|simpl; lia].
Qed.

(** A block never reaches into the kernel image when it contains its end. *)
Lemma clip_above e :
  KERNEL_END < mb_end (clip e) -> KERNEL_END <= mb_start (clip e).
Proof.
  unfold clip. destruct (Z.leb_spec (u32 (e_addr e)) KERNEL_END), (Z.ltb_spec KERNEL_END
    (u32 (u32 (e_addr e) + e_len e))); simpl; lia.
Qed.

Lemma land_page_mask x : 0 <= x < 2 ^ 32 ->
  Z.land x (u32 (Z.lnot (MPAGE_SIZE - 1))) = x - x mod 4096.
Proof.
  intros Hx. change (u32 (Z.lnot (MPAGE_SIZE - 1))) with (Z.ldiff (Z.ones 32) (Z.ones 12)).
  by apply (land_mask32 x 12).
Qed.

(** When the first recorded block starts low enough for a 1 MB heap below
    4 GB, the memory manager reports success; the heap starts on a page
    boundary above the start of the block, is 1 MB long and keeps the
    invariant of the boot heap. *)
Theorem memory_manager_ready fuel mbi b bs layout :
  find_available_memory fuel mbi = Ret (b :: bs, layout) ->
  0 <= mb_start b < 2 ^ 32 - HEAP_SIZE - 8192 -> (2 <= fuel)%nat ->
  exists h start hbs, initialize_memeory_manager fuel mbi = Ret (0, b :: bs, layout, Some h) /\
    heap_inv start hbs h /\ mb_start b < start /\ start mod 4096 = 0 /\
    start <= mb_start b + 4097.
Proof.
  intros R Hb Hf. unfold initialize_memeory_manager. rewrite R. cbn [mbind outcome_bind].
  unfold HEAP_SIZE in *. rewrite (u32_small (mb_start b)) by lia.
  assert (HA : ALIGNUP (mb_start b) MPAGE_SIZE =
    (mb_start b + 4097) - (mb_start b + 4097) mod 4096).
  { unfold ALIGNUP. rewrite u32_small by (unfold MPAGE_SIZE; lia).
    rewrite land_page_mask by (unfold MPAGE_SIZE; lia). done. }
  rewrite HA. set (st := mb_start b + 4097 - _).
  pose proof (Z.mod_pos_bound (mb_start b + 4097) 4096 ltac:(lia)).
  assert (Hst : mb_start b < st <= mb_start b + 4097) by (unfold st; lia).
  rewrite (u32_small (st + _)) by lia.
  destruct (test_allocator_ok st (mk_heap (st + 256 * 4096) st None ∅ ∅) fuel)
    as (h & hbs & -> & Hi); [split; simpl; try done; lia|simpl; lia|done|].
  exists h, st, hbs. split_and!; [done|done|lia| |lia].
  unfold st. rewrite Zminus_mod, Z.mod_mod, Z.sub_diag by lia. done.
Qed.

End detection.

(** ** Witness: the map of a 32 MB machine, kernel image up to 0x180000 *)

Definition entry_qemu (a : Z) : mmap_entry :=
  if a =? 0x1000 then mk_entry 20 0 0x9fc00 1
  else if a =? 0x1018 then mk_entry 20 0x9fc00 0x400 2
  else mk_entry 20 0x100000 0x1ee0000 1.
Definition mbi_qemu : multiboot_info := mk_mbi 0x40 639 0x7b80 72 0x1000.

Lemma find_available_memory_correct_witness :
  find_available_memory 0x180000 entry_qemu 3 mbi_qemu =
    Ret ([mk_mblock 0 0x9fc00; mk_mblock 0x180000 0x1fe0000],
         Some (machine_specific_memory_setup mbi_qemu)).
Proof.
  rewrite (find_available_memory_correct 0x180000 entry_qemu 3 mbi_qemu
    [entry_qemu 0x1000; entry_qemu 0x1018; entry_qemu 0x1030]);
    [by vm_compute|done|simpl; lia|simpl; lia|simpl; lia| |simpl; lia].
  simpl. do 3 (apply mmap_cons; [lia|by vm_compute|by vm_compute|]). apply mmap_nil. by vm_compute.
Defined.

Lemma memory_manager_ready_witness :
  exists h start hbs, initialize_memeory_manager 0x180000 entry_qemu 3 mbi_qemu =
      Ret (0, [mk_mblock 0 0x9fc00; mk_mblock 0x180000 0x1fe0000],
           Some (machine_specific_memory_setup mbi_qemu), Some h) /\
    heap_inv start hbs h /\ 0 < start /\ start mod 4096 = 0 /\ start <= 0 + 4097.
Proof.
  apply (memory_manager_ready 0x180000 entry_qemu 3 mbi_qemu (mk_mblock 0 0x9fc00));
    [by vm_compute|unfold HEAP_SIZE; simpl; lia|lia].
Defined.

(** The heap is not cut at the end of the block it starts in: on this machine
    it runs over the video memory into the kernel image at 1 MB. *)
Example heap_overruns_first_block :
  (fun r => match r with Ret (_, b :: _, _, Some h) => Some (mb_end b, heap_end h) | _ => None end)
    (initialize_memeory_manager 0x180000 entry_qemu 3 mbi_qemu) = Some (0x9fc00, 0x101000).
Proof. by vm_compute. Qed.
