(* ===== verification/Mm.v ===== *)
(** * Page frames and paging (memory-management/mm.c)

    [mm] is the state of mm.c.  The contents of the [mem_map] array are kept
    in [zone_mem_map (zone s)]: once create_zone has run, [mem_map] and
    [zone.zone_mem_map] point to the same array.  [phys] holds the words of
    physical memory that the code writes through physical addresses (the page
    tables). *)

From S2P Require Import Prelude ListHead Zone Buddy Allocator Manager.

Definition sizeof_page : Z := 36.
Definition PG_PRESENT : Z := 1.
Definition PG_RW : Z := 2.

Record mm := mk_mm {
  layout : phy_layout;
  mem_map_ptr : option Z;
  zone : zone_t;
  boot_heap : heap;
  swapper_pg_dir : gmap Z Z;
  phys : gmap Z Z;
}.

Definition with_zone (z : zone_t) (s : mm) : mm :=
  mk_mm (layout s) (mem_map_ptr s) z (boot_heap s) (swapper_pg_dir s) (phys s).
Definition with_map (m : gmap Z page) (s : mm) : mm := with_zone (with_mem_map m (zone s)) s.
Definition with_ptr (p : option Z) (s : mm) : mm :=
  mk_mm (layout s) p (zone s) (boot_heap s) (swapper_pg_dir s) (phys s).
Definition with_heap (h : heap) (s : mm) : mm :=
  mk_mm (layout s) (mem_map_ptr s) (zone s) h (swapper_pg_dir s) (phys s).
Definition with_pgdir (d : gmap Z Z) (s : mm) : mm :=
  mk_mm (layout s) (mem_map_ptr s) (zone s) (boot_heap s) d (phys s).
Definition with_phys (w : gmap Z Z) (s : mm) : mm :=
  mk_mm (layout s) (mem_map_ptr s) (zone s) (boot_heap s) (swapper_pg_dir s) w.
Definition mem_map (s : mm) : gmap Z page := zone_mem_map (zone s).
Definition total (s : mm) : Z := totalram_pages (layout s).

Definition upd_flags (i : Z) (f : Z -> Z) (m : gmap Z page) : outcome (gmap Z page) :=
  p ← deref (m !! i); mret (<[i := with_flags (f (flags p)) p]> m).

(** ** Page frames: get_free_page, release_page *)

Definition page_taken (p : page) : bool := negb (Z.land (flags p) PG_FLAG_TAKEN =? 0).

(** The loop of get_free_page, [n] frames left: the frame found, if any. *)
Fixpoint get_free_loop (n : nat) (iCnt : Z) (m : gmap Z page) : outcome (option Z * gmap Z page) :=
  match n with
  | O => mret (None, m)
  | S n =>
      p ← deref (m !! iCnt);
      if page_taken p then get_free_loop n (iCnt + 1) m
      else m ← upd_flags iCnt (fun f => SET_FLAG f PG_FLAG_TAKEN) m; mret (Some iCnt, m)
  end.

Definition get_free_page (s : mm) : outcome (mm * Z) :=
  '(r, m) ← get_free_loop (Z.to_nat (total s)) 0 (mem_map s);
  mret (with_map m s, match r with Some i => u32 (i * PAGE_SIZE) | None => 0 end).

Definition release_page (phy_addr : Z) (s : mm) : outcome mm :=
  m ← upd_flags (phy_addr / PAGE_SIZE) (fun f => CLEAR_FLAG f PG_FLAG_TAKEN) (mem_map s);
  mret (with_map m s).

(** ** create_mem_map *)

Definition ALIGN_PAGE (a : Z) : Z := a - a mod PAGE_SIZE.
Definition IS_PAGE_ALIGNED (a : Z) : bool := a mod PAGE_SIZE =? 0.

(** init_page, and [memset(mem_map, 0, ...)]. *)
Definition init_page : page := mk_page false 0 0 0 0 0 None.
Definition zero_map (n : Z) : gmap Z page := list_to_map ((fun i => (i, init_page)) <$> seqZ 0 n).
Definition zero_lru (n : Z) : gmap ptr (list_head ptr) :=
  list_to_map ((fun i => (Lru i, mk_list_head None None)) <$> seqZ 0 n).

(** First loop of create_mem_map: every page is taken and reserved. *)
Fixpoint reserve_all (n : nat) (iCnt : Z) (m : gmap Z page) : outcome (gmap Z page) :=
  match n with
  | O => mret m
  | S n =>
      m ← upd_flags iCnt (fun f => Z.lor f (Z.lor PG_FLAG_TAKEN PG_FLAG_RESERVED)) m;
      p ← deref (m !! iCnt);
      let p := mk_page (pg_zone p) iCnt (flags p) (ref_cnt p) (map_count p) (private p) (first_page p) in
      reserve_all n (iCnt + 1) (<[iCnt := p]> m)
  end.

(** [for (iCnt = page_start; iCnt <= page_end; iCnt++)], which clears both
    flags (with the masks [~1<<6] and [~1<<7]); the loop variable is returned. *)
Fixpoint unreserve (n : nat) (iCnt page_end : Z) (m : gmap Z page) : outcome (Z * gmap Z page) :=
  if iCnt <=? page_end then
    match n with
    | O => Spin
    | S n =>
        m ← upd_flags iCnt (fun f => Z.land f (not_flag 6)) m;
        m ← upd_flags iCnt (fun f => Z.land f (not_flag 7)) m;
        unreserve n (iCnt + 1) page_end m
    end
  else mret (iCnt, m).

Definition block_page_start (b : memory_block) : Z :=
  let phy_start := u32 (mb_start b) in
  let phy_start := if negb (IS_PAGE_ALIGNED phy_start) then u32 (ALIGN_PAGE phy_start + PAGE_SIZE)
                   else phy_start in
  phy_start / PAGE_SIZE.
Definition block_page_end (b : memory_block) : Z :=
  let phy_end := u32 (mb_end b) in
  let phy_end := if negb (IS_PAGE_ALIGNED phy_end) then u32 (ALIGN_PAGE phy_end + PAGE_SIZE - 1)
                 else phy_end in
  u32 (phy_end - 1) / PAGE_SIZE.

(** The loop over free_memory_blocks; its counter [iCnt] is also the counter
    of the inner loop.  [blocks] is the filled prefix, the rest of the array
    is zero. *)
Fixpoint mark_blocks (fuel : nat) (iCnt : Z) (blocks : list memory_block) (m : gmap Z page)
  : outcome (gmap Z page) :=
  if iCnt <? MAX_MEMORY_BLOCKS then
    match fuel with
    | O => Spin
    | S fuel =>
        let b := default (mk_mblock 0 0) (blocks !! Z.to_nat iCnt) in
        if (mb_start b =? 0) || (mb_end b =? 0) then mark_blocks fuel (iCnt + 1) blocks m
        else
          let first := block_page_start b in
          let last := block_page_end b in
          '(iCnt, m) ← unreserve (Z.to_nat (last - first + 1)) first last m;
          mark_blocks fuel (iCnt + 1) blocks m
    end
  else mret m.

Definition create_mem_map (fuel : nat) (blocks : list memory_block) (s : mm) : outcome (mm * Z) :=
  '(h, p) ← kalloc fuel (u32 (total s * sizeof_page)) (boot_heap s);
  let s := with_ptr p (with_heap h s) in
  match p with
  | None => mret (s, 0)
  | Some _ =>
      m ← reserve_all (Z.to_nat (total s)) 0 (zero_map (total s));
      m ← mark_blocks fuel 0 blocks m;
      let z := with_nodes (zero_lru (total s) ∪ nodes (zone s)) (with_mem_map m (zone s)) in
      mret (with_zone z s, 1)
  end.

(** ** copy_mem_map

    The copy of the array to its new place leaves its contents as they are. *)

Fixpoint take_frames (n : nat) (s : mm) : outcome (mm * list Z) :=
  match n with
  | O => mret (s, [])
  | S n => '(s, a) ← get_free_page s; '(s, l) ← take_frames n s; mret (s, a :: l)
  end.

Fixpoint free_low (n : nat) (iCnt : Z) (m : gmap Z page) : outcome (gmap Z page) :=
  match n with
  | O => mret m
  | S n =>
      m ← upd_flags iCnt (fun f => CLEAR_FLAG f PG_FLAG_TAKEN) m;
      m ← upd_flags iCnt (fun f => CLEAR_FLAG f PG_FLAG_RESERVED) m;
      free_low n (iCnt + 1) m
  end.

Definition copy_mem_map (s : mm) : outcome mm :=
  let page_req := u32 (sizeof_page * total s) / PAGE_SIZE + 1 in
  '(s, addrs) ← take_frames (Z.to_nat page_req) s;
  let phy_start := default 0 (addrs !! O) in
  h ← kbfree (mem_map_ptr s) (boot_heap s);
  let s := with_ptr (Some phy_start) (with_heap h s) in
  m ← free_low (Z.to_nat (max_low_pfn (layout s))) 0 (mem_map s);
  mret (with_map m s).

(** ** create_zone *)

Fixpoint init_free_area (n : nat) (iCnt : Z) (z : zone_t) : outcome zone_t :=
  match n with
  | O => mret z
  | S n => z ← on_nodes (INIT_LIST_HEAD (Some (FreeList iCnt))) z; init_free_area n (iCnt + 1) z
  end.

Definition create_zone (s : mm) : outcome mm :=
  let z := zone s in
  let z := mk_zone (u32 (free_pages z + total s)) (total s) ZONE_WATERMARK ZONE_WATERMARK 0
             (zone_mem_map z) (nr_free z) (nodes z) in
  z ← init_free_area (Z.to_nat BUDDY_GROUPS) 0 z;
  mret (with_zone z s).

(** ** Page tables *)

Definition pgd_index (a : Z) : Z := a / (PG_DIR_ENTRIES * PAGE_SIZE).

Definition count_pgdir_entries (z : zone_t) : Z :=
  u32 (present_pages z * PAGE_SIZE) / (PAGE_SIZE * PG_TABLE_ENTRIES).

Definition pte (a : Z) : Z := Z.lor (Z.lor (Z.land a 0xFFFFF000) PG_PRESENT) PG_RW.

(** The inner loop: fills one page table; returns the next physical address. *)
Fixpoint fill_table (n : nat) (jCnt phy_addr total_ram pg_ptr : Z) (w : gmap Z Z) : Z * gmap Z Z :=
  match n with
  | O => (phy_addr, w)
  | S n =>
      if phy_addr <? total_ram then
        fill_table n (jCnt + 1) (u32 (phy_addr + PAGE_SIZE)) total_ram pg_ptr
          (<[u32 (pg_ptr + 4 * jCnt) := pte phy_addr]> w)
      else (phy_addr, w)
  end.

Definition set_pgdir (i v : Z) (s : mm) : outcome mm :=
  if (0 <=? i) && (i <? PG_DIR_ENTRIES) then mret (with_pgdir (<[i := v]> (swapper_pg_dir s)) s)
  else Fault.

Fixpoint setup_tables (n : nat) (iCnt phy_addr : Z) (s : mm) : outcome mm :=
  match n with
  | O => mret s
  | S n =>
      '(s, temp_addr) ← get_free_page s;
      s ← set_pgdir (pgd_index PAGE_OFFSET + iCnt) (pte temp_addr) s;
      s ← set_pgdir iCnt (pte temp_addr) s;
      let '(phy_addr, w) :=
        fill_table (Z.to_nat PG_TABLE_ENTRIES) 0 phy_addr (u32 (total s * PAGE_SIZE)) temp_addr (phys s) in
      setup_tables n (iCnt + 1) phy_addr (with_phys w s)
  end.

(** test_mmu: takes a frame, writes to it, releases it; 1 when it works. *)
Definition test_mmu (s : mm) : outcome (mm * Z) :=
  '(s, phy_addr) ← get_free_page s;
  let s := with_phys (<[phy_addr := 0x5555]> (phys s)) s in
  p ← deref (mem_map s !! (phy_addr / PAGE_SIZE));
  let iRet := if page_taken p then 1 else 0 in
  s ← release_page phy_addr s;
  p ← deref (mem_map s !! (phy_addr / PAGE_SIZE));
  mret (s, if page_taken p then iRet else 1).

(** setup_paging; loading CR3 and CR0 (assembly) leaves this state unchanged. *)
Definition setup_paging (pgdir_entries : Z) (s : mm) : outcome (mm * Z) :=
  s ← setup_tables (Z.to_nat pgdir_entries) 0 0 s;
  test_mmu s.

(** init_mem up to init_slab. *)
Definition init_mem (fuel : nat) (blocks : list memory_block) (s : mm) : outcome mm :=
  '(s, iRet) ← create_mem_map fuel blocks s;
  if iRet =? 0 then mret s
  else
    s ← copy_mem_map s;
    s ← create_zone s;
    '(s, _) ← setup_paging (count_pgdir_entries (zone s)) s;
    z ← init_zone (zone s);
    mret (with_zone z s).
