(* ===== verification/MmProofs.v ===== *)
(** * Correctness of page frames and paging

    get_free_page hands out the lowest free frame and release_page undoes it;
    setup_paging maps the first [4 MB * entries] of physical memory at 0 and at
    PAGE_OFFSET. *)

From S2P Require Import Prelude ListHead Zone Buddy Allocator Manager Mm.

(** ** Page frames *)

Lemma page_taken_testbit p : page_taken p = Z.testbit (flags p) 6.
Proof.
  unfold page_taken, PG_FLAG_TAKEN. destruct (Z.testbit (flags p) 6) eqn:E.
  - apply negb_true_iff, Z.eqb_neq. intros H.
    apply (f_equal (fun x => Z.testbit x 6)) in H.
    rewrite Z.land_spec, testbit_pow2, E, Z.bits_0 in H by lia. done.
  - apply negb_false_iff, Z.eqb_eq. bits_eq n Hn. rewrite Z.bits_0.
    destruct (Z.eqb_spec 6 n); subst; rewrite ?E, ?andb_false_r; done.
Qed.

Definition frame_free (m : gmap Z page) (i : Z) : Prop := page_taken <$> m !! i = Some false.
#[global] Instance frame_free_dec m i : Decision (frame_free m i).
Proof. unfold frame_free. apply _. Defined.

(** The free frames of [m], lowest first. *)
Definition free_frames (m : gmap Z page) (n : Z) : list Z := filter (frame_free m) (seqZ 0 n).

Definition map_ok (m : gmap Z page) (n : Z) : Prop := forall i, 0 <= i < n -> is_Some (m !! i).

Definition mark_taken (p : page) : page := with_flags (SET_FLAG (flags p) PG_FLAG_TAKEN) p.

Lemma mark_taken_taken p : page_taken (mark_taken p) = true.
Proof.
  rewrite page_taken_testbit. simpl. unfold SET_FLAG, PG_FLAG_TAKEN.
  by rewrite Z.lor_spec, testbit_pow2, orb_true_r by lia.
Qed.

Lemma get_free_loop_spec n : forall i m,
  (forall j, i <= j < i + Z.of_nat n -> is_Some (m !! j)) ->
  match filter (frame_free m) (seqZ i (Z.of_nat n)) with
  | [] => get_free_loop n i m = Ret (None, m)
  | f :: _ => exists p, m !! f = Some p /\ page_taken p = false /\ i <= f < i + Z.of_nat n /\
      get_free_loop n i m = Ret (Some f, <[f := mark_taken p]> m)
  end.
Proof.
  induction n as [|n IH]; intros i m Hm; [done|].
  rewrite seqZ_cons by lia. replace (Z.pred (Z.of_nat (S n))) with (Z.of_nat n) by lia.
  rewrite <- Z.add_1_r. cbn [get_free_loop]. destruct (Hm i) as [p Hp]; [lia|].
  specialize (IH (i + 1) m ltac:(intros; apply Hm; lia)).
  rewrite filter_cons, Hp. cbn [mbind outcome_bind deref].
  destruct (page_taken p) eqn:Et.
  - rewrite decide_False by (unfold frame_free; rewrite Hp; simpl; congruence).
    destruct (filter _ _) as [|f l]; [done|]. destruct IH as (q & ? & ? & ? & ?).
    exists q. split_and!; try done; lia.
  - rewrite decide_True by (unfold frame_free; rewrite Hp; simpl; congruence).
    exists p. split_and!; try done; try lia. unfold upd_flags. by rewrite Hp.
Qed.

(** Taking the first free frame leaves the others. *)
Lemma free_frames_take m n f l p :
  free_frames m n = f :: l -> m !! f = Some p -> free_frames (<[f := mark_taken p]> m) n = l.
Proof.
  unfold free_frames. generalize (NoDup_seqZ 0 n). generalize (seqZ 0 n) as xs.
  induction xs as [|x xs IH]; [done|]. intros Hnd E Hp. apply NoDup_cons in Hnd as [Hx Hnd].
  rewrite filter_cons in E. rewrite filter_cons. destruct (decide (f = x)) as [->|Hne].
  - rewrite (decide_False (P := frame_free (<[x := mark_taken p]> m) x)).
    2:{ unfold frame_free. rewrite lookup_insert_eq. simpl. by rewrite mark_taken_taken. }
    case_decide as Hd.
    + injection E as <-. apply filter_agree. intros y Hy. unfold frame_free.
      rewrite lookup_insert_ne; [done|]. by intros ->.
    + exfalso. apply Hx. assert (Hin : x ∈ filter (frame_free m) xs) by (rewrite E; left).
      apply list_elem_of_filter in Hin. tauto.
  - assert (Hd : ~ frame_free m x) by (intros Hd; rewrite decide_True in E by done; congruence).
    rewrite decide_False in E by done. rewrite decide_False; [by apply IH|].
    unfold frame_free. by rewrite lookup_insert_ne.
Qed.

Section frames.
Context (s : mm) (Hmap : map_ok (mem_map s) (total s)) (Htot : 0 <= total s <= 2 ^ 20).

Lemma get_free_page_some f l :
  free_frames (mem_map s) (total s) = f :: l ->
  exists p, mem_map s !! f = Some p /\ page_taken p = false /\ 0 <= f < total s /\
    get_free_page s = Ret (with_map (<[f := mark_taken p]> (mem_map s)) s, f * 4096).
Proof.
  intros E. unfold get_free_page.
  pose proof (get_free_loop_spec (Z.to_nat (total s)) 0 (mem_map s)) as H.
  rewrite Z2Nat.id in H by lia. fold (free_frames (mem_map s) (total s)) in H. rewrite E in H.
  destruct H as (p & Hp & Ht & Hr & ->); [intros; apply Hmap; lia|].
  exists p. split_and!; try done; try lia. simpl. unfold PAGE_SIZE. by rewrite u32_small by lia.
Qed.

Lemma get_free_page_none :
  free_frames (mem_map s) (total s) = [] -> get_free_page s = Ret (s, 0).
Proof.
  intros E. unfold get_free_page.
  pose proof (get_free_loop_spec (Z.to_nat (total s)) 0 (mem_map s)) as H.
  rewrite Z2Nat.id in H by lia. fold (free_frames (mem_map s) (total s)) in H. rewrite E in H.
  rewrite H by (intros; apply Hmap; lia). simpl. by destruct s as [? ? [] ? ? ?].
Qed.
End frames.

(** ** release_page undoes get_free_page *)

Lemma clear_set_taken f :
  0 <= f < 2 ^ 32 -> Z.testbit f 6 = false ->
  CLEAR_FLAG (SET_FLAG f PG_FLAG_TAKEN) PG_FLAG_TAKEN = f.
Proof.
  intros Hf Hb. unfold CLEAR_FLAG, SET_FLAG, PG_FLAG_TAKEN, u32. apply Z.bits_inj'. intros n Hn.
  rewrite Z.land_spec, Z.lor_spec, testbit_pow2 by lia. destruct (decide (n < 32)).
  - rewrite Z.mod_pow2_bits_low, Z.lnot_spec, testbit_pow2 by lia.
    destruct (Z.eqb_spec 6 n); subst; rewrite ?Hb; [done|]. by rewrite orb_false_r, andb_true_r.
  - rewrite Z.mod_pow2_bits_high, andb_false_r by lia. symmetry.
    replace f with (f mod 2 ^ 32) by (apply Z.mod_small; lia). apply Z.mod_pow2_bits_high. lia.
Qed.

Definition flags_ok (m : gmap Z page) : Prop :=
  forall i p, m !! i = Some p -> 0 <= flags p < 2 ^ 32.

(** release_page on a frame that was free before it was marked. *)
Lemma release_page_spec s f p m :
  mem_map s = <[f := mark_taken p]> m -> m !! f = Some p -> page_taken p = false ->
  0 <= flags p < 2 ^ 32 -> release_page (f * 4096) s = Ret (with_map m s).
Proof.
  intros Em Hp Ht Hfl. unfold release_page, upd_flags, PAGE_SIZE. rewrite Z.div_mul, Em by lia.
  rewrite lookup_insert_eq. simpl. rewrite insert_insert_eq, insert_id; [done|].
  rewrite Hp. f_equal. rewrite clear_set_taken; [by destruct p|done|by rewrite <- page_taken_testbit].
Qed.

(** get_free_page returns the lowest frame that is not taken and marks it
    and only it; release_page of that address restores mem_map exactly.  When
    no frame is left it returns 0 and changes nothing. *)
Theorem frame_roundtrip s :
  map_ok (mem_map s) (total s) -> 0 <= total s <= 2 ^ 20 -> flags_ok (mem_map s) ->
  match free_frames (mem_map s) (total s) with
  | [] => get_free_page s = Ret (s, 0)
  | f :: rest => exists s', get_free_page s = Ret (s', f * 4096) /\ 0 <= f < total s /\
      (forall j, 0 <= j < f -> ~ frame_free (mem_map s) j) /\
      free_frames (mem_map s') (total s') = rest /\
      (forall j, j <> f -> mem_map s' !! j = mem_map s !! j) /\
      release_page (f * 4096) s' = Ret s
  end.
Proof.
  intros Hm Ht Hfl. destruct (free_frames (mem_map s) (total s)) as [|f rest] eqn:E.
  - by apply get_free_page_none.
  - destruct (get_free_page_some s Hm Ht f rest E) as (p & Hp & Htk & Hr & R).
    eexists. split; [exact R|]. split_and!; try lia.
    + intros j Hj Hfree. assert (Hs : seqZ 0 (total s) = seqZ 0 f ++ seqZ f (total s - f)).
      { rewrite <- (Z.add_0_l f) at 2. rewrite <- seqZ_app by lia. f_equal. lia. }
      unfold free_frames in E. rewrite Hs, filter_app in E.
      assert (Hin : j ∈ filter (frame_free (mem_map s)) (seqZ 0 f)).
      { apply list_elem_of_filter. split; [done|]. apply elem_of_seqZ. lia. }
      destruct (filter _ (seqZ 0 f)) as [|x xs] eqn:Ex; [by inversion Hin|].
      injection E as -> _. assert (Hin2 : f ∈ filter (frame_free (mem_map s)) (seqZ 0 f)) by (rewrite Ex; left).
      apply list_elem_of_filter in Hin2 as [_ Hin2]. apply elem_of_seqZ in Hin2. lia.
    + by apply free_frames_take.
    + intros j Hj. unfold mem_map. simpl. by rewrite lookup_insert_ne.
    + rewrite (release_page_spec _ f p (mem_map s)); [|done|done|done|by eapply Hfl].
      by destruct s as [? ? [] ? ? ?].
Qed.

(** ** Page tables *)

(** Two-level translation by the MMU (4 KB pages, no PSE). *)
Definition translate (d w : gmap Z Z) (va : Z) : option Z :=
  pde ← d !! (va / 2 ^ 22);
  if Z.odd pde then
    e ← w !! (Z.land pde 0xFFFFF000 + 4 * ((va / 2 ^ 12) mod 2 ^ 10));
    if Z.odd e then Some (Z.land e 0xFFFFF000 + va mod 2 ^ 12) else None
  else None.

Lemma page_mask q r :
  0 <= q < 2 ^ 20 -> 0 <= r < 4096 -> Z.land (q * 4096 + r) 0xFFFFF000 = q * 4096.
Proof.
  intros Hq Hr. change 0xFFFFF000 with (Z.ldiff (Z.ones 32) (Z.ones 12)).
  rewrite land_mask32 by lia. change (2 ^ 12) with 4096.
  rewrite Z.add_comm, Z_mod_plus_full, Z.mod_small by lia. lia.
Qed.

Lemma pte_page q : 0 <= q < 2 ^ 20 -> pte (q * 4096) = q * 4096 + 3.
Proof.
  intros Hq. unfold pte. replace (q * 4096) with (q * 4096 + 0) at 1 by lia.
  rewrite page_mask by lia. rewrite <- Z.lor_assoc. apply (lor_low q 3 12); lia.
Qed.

Lemma pte_odd q : 0 <= q < 2 ^ 20 -> Z.odd (pte (q * 4096)) = true.
Proof.
  intros. rewrite pte_page by done. replace (q * 4096 + 3) with (1 + 2 * (q * 2048 + 1)) by lia.
  rewrite Z.odd_add_mul_2. done.
Qed.

Lemma pte_mask q : 0 <= q < 2 ^ 20 -> Z.land (pte (q * 4096)) 0xFFFFF000 = q * 4096.
Proof. intros. rewrite pte_page by done. apply page_mask; lia. Qed.

Lemma fill_table_spec n : forall j v w f T,
  0 <= v <= T -> T < 2 ^ 20 -> 0 <= f < 2 ^ 20 -> 0 <= j -> j + Z.of_nat n <= 1024 ->
  exists w', fill_table n j (v * 4096) (T * 4096) (f * 4096) w =
      (Z.min (v + Z.of_nat n) T * 4096, w') /\
    (forall k, 0 <= k < Z.of_nat n -> v + k < T ->
       w' !! (f * 4096 + 4 * (j + k)) = Some (pte ((v + k) * 4096))) /\
    (forall a, a < f * 4096 + 4 * j \/ f * 4096 + 4096 <= a -> w' !! a = w !! a).
Proof.
  induction n as [|n IH]; intros j v w f T Hv HT Hf Hj Hn; cbn [fill_table].
  - exists w. split_and!; [|lia|done]. do 2 f_equal. lia.
  - destruct (Z.ltb_spec (v * 4096) (T * 4096)) as [Hlt|Hge].
    + unfold PAGE_SIZE. rewrite !u32_small by lia.
      replace (v * 4096 + 4096) with ((v + 1) * 4096) by lia.
      destruct (IH (j + 1) (v + 1) (<[f * 4096 + 4 * j := pte (v * 4096)]> w) f T)
        as (w' & -> & Hin & Hout); try lia.
      exists w'. split_and!.
      * do 2 f_equal. lia.
      * intros k Hk Hvk. destruct (decide (k = 0)) as [->|].
        -- rewrite !Z.add_0_r, Hout by lia. by rewrite lookup_insert_eq.
        -- specialize (Hin (k - 1)). replace (j + 1 + (k - 1)) with (j + k) in Hin by lia.
           replace (v + 1 + (k - 1)) with (v + k) in Hin by lia. apply Hin; lia.
      * intros a Ha. rewrite Hout by lia. apply lookup_insert_ne. lia.
    + exists w. split_and!; [|lia|done]. do 2 f_equal. lia.
Qed.

(** The tables built so far: entry [i] of the directory, twice. *)
Definition table_at (s : mm) (i f : Z) : Prop :=
  swapper_pg_dir s !! i = Some (pte (f * 4096)) /\
  swapper_pg_dir s !! (768 + i) = Some (pte (f * 4096)) /\
  forall k, 0 <= k < 1024 -> 1024 * i + k < total s ->
    phys s !! (f * 4096 + 4 * k) = Some (pte ((1024 * i + k) * 4096)).

Lemma setup_tables_spec fs : forall i s rest,
  map_ok (mem_map s) (total s) -> 0 <= total s < 2 ^ 20 -> 0 <= i ->
  i + Z.of_nat (length fs) <= 256 -> free_frames (mem_map s) (total s) = fs ++ rest ->
  exists s', setup_tables (length fs) i (Z.min (1024 * i) (total s) * 4096) s = Ret s' /\
    total s' = total s /\ map_ok (mem_map s') (total s') /\
    free_frames (mem_map s') (total s') = rest /\
    (forall n f, fs !! n = Some f -> table_at s' (i + Z.of_nat n) f) /\
    (forall j, ~ (i <= j < i + Z.of_nat (length fs)) ->
       ~ (768 + i <= j < 768 + i + Z.of_nat (length fs)) ->
       swapper_pg_dir s' !! j = swapper_pg_dir s !! j) /\
    (forall a, a / 4096 ∉ fs -> phys s' !! a = phys s !! a).
Proof.
  induction fs as [|f fs IH]; intros i s rest Hm Ht Hi Hn E.
  - exists s. split_and!; try done.
  - cbn [length setup_tables]. simpl in E, Hn.
    destruct (get_free_page_some s Hm ltac:(lia) f _ E) as (p & Hp & _ & Hr & ->).
    cbn [mbind outcome_bind]. change (pgd_index PAGE_OFFSET) with 768.
    set (s1 := with_map _ s). unfold set_pgdir, PG_DIR_ENTRIES.
    rewrite (proj2 (Z.leb_le 0 (768 + i))), (proj2 (Z.ltb_lt (768 + i) 1024)) by lia.
    rewrite (proj2 (Z.leb_le 0 i)), (proj2 (Z.ltb_lt i 1024)) by lia. cbn [andb mbind outcome_bind mret outcome_ret].
    set (s2 := with_pgdir _ (with_pgdir _ _)).
    change (total s2) with (total s). change (phys s2) with (phys s).
    unfold PAGE_SIZE. rewrite (u32_small (total s * 4096)) by lia.
    destruct (fill_table_spec (Z.to_nat PG_TABLE_ENTRIES) 0 (Z.min (1024 * i) (total s)) (phys s) f (total s))
      as (w & -> & Hin & Hout); try lia; [unfold PG_TABLE_ENTRIES; lia|].
    set (s3 := with_phys w s2).
    change (Z.of_nat (Z.to_nat PG_TABLE_ENTRIES)) with 1024 in *.
    replace (Z.min (Z.min (1024 * i) (total s) + 1024) (total s)) with (Z.min (1024 * (i + 1)) (total s)) by lia.
    assert (Hff : free_frames (mem_map s3) (total s3) = fs ++ rest).
    { by apply free_frames_take. }
    assert (Hm3 : map_ok (mem_map s3) (total s3)).
    { intros j Hj. unfold mem_map. simpl. rewrite lookup_insert. case_decide; [done|by apply Hm]. }
    destruct (IH (i + 1) s3 rest Hm3 Ht) as (s' & Run & Ht' & Hm' & Hff' & Htab & Hdir & Hph);
      [lia|lia|exact Hff|].
    change (total s3) with (total s) in *.
    assert (Hnd : NoDup (f :: fs)).
    { pose proof (NoDup_filter (frame_free (mem_map s)) _ (NoDup_seqZ 0 (total s))) as Hnd.
      fold (free_frames (mem_map s) (total s)) in Hnd. rewrite E in Hnd.
      change (NoDup ((f :: fs) ++ rest)) in Hnd. by apply NoDup_app in Hnd as [? _]. }
    apply NoDup_cons in Hnd as [Hfni _].
    exists s'. split_and!; try done.
    + intros [|n] g Hg; simpl in Hg.
      * injection Hg as <-. rewrite Z.add_0_r. unfold table_at. rewrite Ht'. split_and!.
        -- rewrite Hdir by lia. simpl. by rewrite lookup_insert_eq.
        -- rewrite Hdir by lia. simpl. by rewrite lookup_insert_ne, lookup_insert_eq by lia.
        -- intros k Hk Hik. rewrite Hph.
           2:{ replace (f * 4096 + 4 * k) with (4 * k + f * 4096) by lia.
               rewrite Z.div_add, Z.div_small by lia. done. }
           simpl. specialize (Hin k Hk). rewrite Z.add_0_l in Hin. rewrite Hin by lia. do 3 f_equal. lia.
      * replace (i + Z.of_nat (S n)) with (i + 1 + Z.of_nat n) by lia. by apply Htab.
    + intros j Hj1 Hj2. rewrite Hdir by lia. simpl. rewrite !lookup_insert_ne by lia. done.
    + intros a Ha. apply not_elem_of_cons in Ha as [Ha1 Ha2]. rewrite Hph by done. simpl.
      apply Hout. pose proof (Z.div_mod a 4096 ltac:(lia)).
      pose proof (Z.mod_pos_bound a 4096 ltac:(lia)). lia.
Qed.

Lemma translate_table s i f va :
  table_at s i f -> 0 <= f < 2 ^ 20 -> total s < 2 ^ 20 -> 0 <= i ->
  0 <= va < total s * 4096 -> va / 2 ^ 22 = i ->
  translate (swapper_pg_dir s) (phys s) va = Some va /\
  (i < 256 -> translate (swapper_pg_dir s) (phys s) (PAGE_OFFSET + va) = Some va).
Proof.
  intros (Hlo & Hhi & Htab) Hf Ht Hi Hva Ediv.
  pose proof (Z.div_mod va (2 ^ 22) ltac:(lia)) as D1. pose proof (Z.mod_pos_bound va (2 ^ 22) ltac:(lia)).
  pose proof (Z.div_mod va 4096 ltac:(lia)) as D2. pose proof (Z.mod_pos_bound va 4096 ltac:(lia)).
  set (v := va / 4096) in *. assert (Hv : 0 <= v < total s) by lia.
  assert (Hvk : v = 1024 * i + v mod 1024 /\ 0 <= v mod 1024 < 1024).
  { pose proof (Z.mod_pos_bound v 1024 ltac:(lia)). split; [|done].
    pose proof (Z.div_mod v 1024 ltac:(lia)). replace i with (v / 1024); [lia|].
    subst i. unfold v. rewrite Z.div_div by lia. done. }
  destruct Hvk as [Ev Hk]. specialize (Htab (v mod 1024) Hk ltac:(lia)). rewrite <- Ev in Htab.
  assert (Hstep : (x ← phys s !! (Z.land (pte (f * 4096)) 0xFFFFF000 + 4 * (v mod 2 ^ 10));
     if Z.odd x then Some (Z.land x 0xFFFFF000 + va mod 4096) else None) = Some va).
  { rewrite pte_mask by done. change (2 ^ 10) with 1024. rewrite Htab. simpl.
    rewrite pte_odd, pte_mask by lia. f_equal. lia. }
  split; [|intros Hi'].
  - unfold translate. rewrite Ediv, Hlo. simpl. rewrite pte_odd by done.
    change (2 ^ 12) with 4096. fold v. exact Hstep.
  - unfold translate, PAGE_OFFSET.
    replace ((3221225472 + va) / 2 ^ 22) with (768 + i).
    2:{ replace 3221225472 with (768 * 2 ^ 22) by lia. rewrite Z.div_add_l by lia. lia. }
    rewrite Hhi. simpl. rewrite pte_odd by done. change (2 ^ 12) with 4096.
    replace ((3221225472 + va) / 4096) with (786432 + v).
    2:{ replace 3221225472 with (786432 * 4096) by lia. rewrite Z.div_add_l by lia. done. }
    replace ((3221225472 + va) mod 4096) with (va mod 4096).
    2:{ replace 3221225472 with (786432 * 4096) by lia. rewrite Z.add_comm, Z_mod_plus_full. done. }
    replace ((786432 + v) mod 2 ^ 10) with (v mod 2 ^ 10).
    2:{ replace 786432 with (768 * 2 ^ 10) by lia. rewrite Z.add_comm, Z_mod_plus_full. done. }
    exact Hstep.
Qed.

(** test_mmu with a free frame left. *)
Lemma test_mmu_spec s f rest :
  map_ok (mem_map s) (total s) -> 0 <= total s < 2 ^ 20 -> flags_ok (mem_map s) ->
  free_frames (mem_map s) (total s) = f :: rest ->
  exists s', test_mmu s = Ret (s', 1) /\ total s' = total s /\ mem_map s' = mem_map s /\
    swapper_pg_dir s' = swapper_pg_dir s /\ phys s' = <[f * 4096 := 0x5555]> (phys s).
Proof.
  intros Hm Ht Hfl E. unfold test_mmu.
  destruct (get_free_page_some s Hm ltac:(lia) f rest E) as (p & Hp & Htk & Hr & ->).
  cbn [mbind outcome_bind]. unfold PAGE_SIZE. rewrite Z.div_mul by lia.
  set (s1 := with_phys _ _). assert (E1 : mem_map s1 = <[f := mark_taken p]> (mem_map s)) by done.
  rewrite E1, lookup_insert_eq. simpl. rewrite mark_taken_taken.
  rewrite (release_page_spec s1 f p (mem_map s)); [|done|done|done|by eapply Hfl]. simpl.
  change (mem_map (with_map (mem_map s) s1)) with (mem_map s). rewrite Hp. simpl. rewrite Htk.
  eexists. done.
Qed.

Lemma setup_tables_flags n : forall i a s s',
  flags_ok (mem_map s) -> setup_tables n i a s = Ret s' -> flags_ok (mem_map s').
Proof.
  induction n as [|n IH]; intros i a s s' Hfl R; cbn [setup_tables] in R; [by inv_outcome|].
  apply bind_Ret_inv in R as ((s1 & t) & R1 & R). apply bind_Ret_inv in R as (s2 & R2 & R).
  apply bind_Ret_inv in R as (s3 & R3 & R). destruct (fill_table _ _ _ _ _ _) as [a' w].
  apply IH in R; [done|]. unfold set_pgdir in R2, R3.
  assert (Hs : mem_map s3 = mem_map s1).
  { destruct (andb _ _) in R2; [|done]. destruct (andb _ _) in R3; [|done].
    inv_outcome. done. }
  change (mem_map (with_phys w s3)) with (mem_map s3). rewrite Hs. clear R R2 R3 Hs IH.
  unfold get_free_page in R1. apply bind_Ret_inv in R1 as ((r & m) & R1 & R). inv_outcome.
  simplify_eq. unfold mem_map. simpl. revert R1. generalize 0 as j.
  fold (mem_map s). generalize (mem_map s) Hfl. induction (Z.to_nat (total s)) as [|k IH];
    intros m0 Hm0 j R; simpl in R; [by inv_outcome; simplify_eq|].
  apply bind_Ret_inv in R as (p & Hp & R). apply deref_Ret in Hp. destruct (page_taken p); [by eapply IH|].
  unfold upd_flags in R. rewrite Hp in R. simpl in R. injection R as <- <-.
  intros x q. rewrite lookup_insert. case_decide; [|by apply Hm0]. intros [= <-]. simpl.
  pose proof (Hm0 _ _ Hp). unfold SET_FLAG, PG_FLAG_TAKEN. split; [apply Z.lor_nonneg; lia|].
  destruct (decide (Z.lor (flags p) (2 ^ 6) = 0)) as [->|]; [lia|].
  apply Z.log2_lt_pow2; [pose proof (proj2 (Z.lor_nonneg (flags p) (2 ^ 6))); lia|].
  rewrite Z.log2_lor by lia. apply Z.max_lub_lt; [|done].
  destruct (decide (flags p = 0)) as [->|]; [done|]. apply Z.log2_lt_pow2; lia.
Qed.

(** C14. setup_paging with [n] directory entries (at most 256) and enough free
    frames maps every byte of the first [n * 4 MB] of memory that exists both
    at its physical address and at PAGE_OFFSET plus it, and reports that the
    MMU works.  Memory above stays unmapped: [n] is rounded down by
    count_pgdir_entries, see [last_frames_unmapped]. *)
Theorem setup_paging_maps s fs g rest :
  map_ok (mem_map s) (total s) -> flags_ok (mem_map s) -> 0 <= total s < 2 ^ 20 ->
  Z.of_nat (length fs) <= 256 -> free_frames (mem_map s) (total s) = fs ++ g :: rest ->
  exists s', setup_paging (Z.of_nat (length fs)) s = Ret (s', 1) /\
    forall va, 0 <= va < total s * 4096 -> va < Z.of_nat (length fs) * 2 ^ 22 ->
      translate (swapper_pg_dir s') (phys s') va = Some va /\
      translate (swapper_pg_dir s') (phys s') (PAGE_OFFSET + va) = Some va.
Proof.
  intros Hm Hfl Ht Hn E. unfold setup_paging. rewrite Nat2Z.id.
  destruct (setup_tables_spec fs 0 s (g :: rest)) as (s1 & Run & Ht1 & Hm1 & Hff & Htab & _ & _);
    [done|done|lia|lia|done|].
  rewrite Z.mul_0_r, Z.min_l, Z.mul_0_l in Run by lia. rewrite Run. cbn [mbind outcome_bind].
  pose proof (setup_tables_flags _ _ _ _ _ Hfl Run) as Hfl1.
  destruct (test_mmu_spec s1 g rest) as (s2 & -> & Ht2 & _ & Hd2 & Hp2); [done|lia|done|done|].
  exists s2. split; [done|]. intros va Hva Hlim.
  assert (Hq : 0 <= va / 2 ^ 22 < Z.of_nat (length fs)).
  { split; [apply Z.div_pos; lia|apply Z.div_lt_upper_bound; lia]. }
  destruct (lookup_lt_is_Some_2 fs (Z.to_nat (va / 2 ^ 22))) as [f Hf]; [lia|].
  assert (Hfin : forall x, x ∈ fs ++ g :: rest -> 0 <= x < total s).
  { intros x Hx. rewrite <- E in Hx. apply list_elem_of_filter in Hx as [_ Hx].
    apply elem_of_seqZ in Hx. lia. }
  assert (Hfr : 0 <= f < total s).
  { apply Hfin, elem_of_app. left. by eapply list_elem_of_lookup_2. }
  assert (Hgf : g <> f).
  { pose proof (NoDup_filter (frame_free (mem_map s)) _ (NoDup_seqZ 0 (total s))) as Hnd.
    fold (free_frames (mem_map s) (total s)) in Hnd. rewrite E in Hnd.
    apply NoDup_app in Hnd as (_ & Hnd & _). intros ->.
    apply (Hnd f); [by eapply list_elem_of_lookup_2|left]. }
  pose proof (Htab _ _ Hf) as Hta. rewrite Z2Nat.id in Hta by lia. rewrite Z.add_0_l in Hta.
  assert (Hta2 : table_at s2 (va / 2 ^ 22) f).
  { destruct Hta as (H1 & H2 & H3). unfold table_at. rewrite Hd2, Ht2, Hp2. split_and!; try done.
    intros k Hk Hk'. rewrite lookup_insert_ne; [by apply H3|]. lia. }
  destruct (translate_table s2 _ f va Hta2) as [T1 T2]; try lia; try done.
  split; [done|]. apply T2. lia.
Qed.

(** The number of directory entries is rounded down: the last
    [total mod 1024] frames of the zone have no translation although the buddy
    allocator hands them out. *)
Theorem last_frames_unmapped s fs rest va :
  map_ok (mem_map s) (total s) -> 0 <= total s < 2 ^ 18 -> present_pages (zone s) = total s ->
  (forall j, 0 <= j < 1024 -> swapper_pg_dir s !! j = Some 0) ->
  free_frames (mem_map s) (total s) = fs ++ rest ->
  Z.of_nat (length fs) = count_pgdir_entries (zone s) ->
  4096 * (1024 * (total s / 1024)) <= va < 4096 * total s ->
  exists s', setup_tables (length fs) 0 0 s = Ret s' /\
    translate (swapper_pg_dir s') (phys s') va = None /\
    translate (swapper_pg_dir s') (phys s') (PAGE_OFFSET + va) = None.
Proof.
  intros Hm Ht Hpr Hz E Hn Hva.
  assert (Hcnt : count_pgdir_entries (zone s) = total s / 1024).
  { unfold count_pgdir_entries, PAGE_SIZE, PG_TABLE_ENTRIES. rewrite Hpr, u32_small by lia.
    rewrite (Z.mul_comm 4096 1024), Z.div_mul_cancel_r by lia. done. }
  pose proof (Z.div_mod (total s) 1024 ltac:(lia)). pose proof (Z.mod_pos_bound (total s) 1024 ltac:(lia)).
  destruct (setup_tables_spec fs 0 s rest) as (s' & Run & _ & _ & _ & _ & Hd & _);
    [done|lia|lia|lia|done|].
  rewrite Z.mul_0_r, Z.min_l, Z.mul_0_l in Run by lia. exists s'. split; [done|].
  assert (Hq : va / 2 ^ 22 = total s / 1024).
  { symmetry. apply (Z.div_unique _ _ _ (va - total s / 1024 * 2 ^ 22)); lia. }
  unfold translate. split.
  - rewrite Hq, Hd by lia. rewrite Hz by lia. done.
  - replace ((PAGE_OFFSET + va) / 2 ^ 22) with (768 + total s / 1024).
    2:{ unfold PAGE_OFFSET. replace 3221225472 with (768 * 2 ^ 22) by lia. rewrite Z.div_add_l by lia. lia. }
    rewrite Hd by lia. rewrite Hz by lia. done.
Qed.
