(* ===== verification/MmInit.v ===== *)
(** * Building mem_map and the zone (create_mem_map, create_zone of mm.c) *)

From S2P Require Import Prelude ListHead Zone Buddy BuddyInv BuddyInit Allocator Manager Mm MmProofs.

(** ** create_mem_map *)

Definition reserved_flags : Z := 192.     (* PG_FLAG_TAKEN | PG_FLAG_RESERVED *)

Lemma reserve_all_spec n : forall i m,
  (forall j, i <= j < i + Z.of_nat n -> m !! j = Some init_page) ->
  exists m', reserve_all n i m = Ret m' /\
    (forall j, i <= j < i + Z.of_nat n ->
       m' !! j = Some (mk_page false j reserved_flags 0 0 0 None)) /\
    (forall j, ~ (i <= j < i + Z.of_nat n) -> m' !! j = m !! j).
Proof.
  induction n as [|n IH]; intros i m Hm.
  - exists m. split_and!; [done|lia|done].
  - cbn [reserve_all]. unfold upd_flags. rewrite (Hm i) by lia. simpl.
    rewrite lookup_insert_eq. simpl. rewrite insert_insert_eq.
    set (m1 := <[i := _]> m).
    destruct (IH (i + 1) m1) as (m' & R & Hin & Hout).
    { intros j Hj. unfold m1. rewrite lookup_insert_ne by lia. apply Hm. lia. }
    exists m'. split; [exact R|]. split.
    + intros j Hj. destruct (decide (j = i)) as [->|]; [|apply Hin; lia].
      rewrite Hout by lia. unfold m1. by rewrite lookup_insert_eq.
    + intros j Hj. rewrite Hout by lia. unfold m1. by rewrite lookup_insert_ne by lia.
Qed.

(** Both masks together clear the bits 0 to 7. *)
Definition unreserved (p : page) : page :=
  with_flags (Z.land (Z.land (flags p) (not_flag 6)) (not_flag 7)) p.

Lemma unreserve_spec n : forall i last m,
  last - i + 1 <= Z.of_nat n -> (forall j, i <= j <= last -> is_Some (m !! j)) ->
  exists m', unreserve n i last m = Ret (Z.max i (last + 1), m') /\
    (forall j, i <= j <= last -> m' !! j = unreserved <$> m !! j) /\
    (forall j, ~ (i <= j <= last) -> m' !! j = m !! j).
Proof.
  induction n as [|n IH]; intros i last m Hn Hm; cbn [unreserve];
    (destruct (Z.leb_spec i last); [|exists m; split_and!; [do 2 f_equal; lia|lia|done]]); [lia|].
  destruct (Hm i) as [p Hp]; [lia|]. unfold upd_flags at 2. rewrite Hp. simpl.
  unfold upd_flags. rewrite lookup_insert_eq. simpl. rewrite insert_insert_eq.
  set (m1 := <[i := _]> m).
  destruct (IH (i + 1) last m1) as (m' & R & Hin & Hout); [lia| |].
  { intros j Hj. unfold m1. rewrite lookup_insert_ne by lia. apply Hm. lia. }
  exists m'. split_and!.
  - rewrite R. do 2 f_equal. lia.
  - intros j Hj. destruct (decide (j = i)) as [->|].
    + rewrite Hout by lia. unfold m1. by rewrite lookup_insert_eq, Hp.
    + rewrite Hin by lia. unfold m1. by rewrite lookup_insert_ne by lia.
  - intros j Hj. rewrite Hout by lia. unfold m1. by rewrite lookup_insert_ne by lia.
Qed.

(** A block that the loop passes over. *)
Definition skipped (blocks : list memory_block) (i : Z) : Prop :=
  let b := default (mk_mblock 0 0) (blocks !! Z.to_nat i) in mb_start b = 0 \/ mb_end b = 0.

(** The first block that is not passed over ends the outer loop as soon as it
    reaches page 8, because the inner loop leaves its own value in [iCnt]. *)
Lemma mark_blocks_spec fuel : forall i k blocks m b,
  0 <= i <= k -> k < 10 -> k - i < Z.of_nat fuel ->
  (forall j, i <= j < k -> skipped blocks j) ->
  blocks !! Z.to_nat k = Some b -> mb_start b <> 0 -> mb_end b <> 0 ->
  block_page_start b <= block_page_end b + 1 -> 8 <= block_page_end b ->
  (forall j, block_page_start b <= j <= block_page_end b -> is_Some (m !! j)) ->
  exists m', mark_blocks fuel i blocks m = Ret m' /\
    (forall j, block_page_start b <= j <= block_page_end b -> m' !! j = unreserved <$> m !! j) /\
    (forall j, ~ (block_page_start b <= j <= block_page_end b) -> m' !! j = m !! j).
Proof.
  induction fuel as [|fuel IH]; intros i k blocks m b Hi Hk Hfu Hskip Hb Hs He Hfl Hl Hm; [lia|].
  cbn [mark_blocks]. unfold MAX_MEMORY_BLOCKS. rewrite (proj2 (Z.ltb_lt i 10)) by lia.
  destruct (decide (i = k)) as [->|].
  - rewrite Hb. simpl. rewrite (proj2 (Z.eqb_neq _ _) Hs), (proj2 (Z.eqb_neq _ _) He). simpl.
    destruct (unreserve_spec (Z.to_nat (block_page_end b - block_page_start b + 1))
      (block_page_start b) (block_page_end b) m) as (m' & -> & Hin & Hout); [lia|done|].
    exists m'. split_and!; try done. simpl.
    destruct fuel; simpl; unfold MAX_MEMORY_BLOCKS; by rewrite (proj2 (Z.ltb_ge _ _)) by lia.
  - assert (Hsk : skipped blocks i) by (apply Hskip; lia). unfold skipped in Hsk.
    set (bi := default _ _) in *. replace ((mb_start bi =? 0) || (mb_end bi =? 0)) with true.
    2:{ symmetry. apply orb_true_iff. rewrite !Z.eqb_eq. done. }
    apply (IH (i + 1) k); try done; try lia. intros j Hj. apply Hskip. lia.
Qed.

Lemma zero_map_lookup n j : 0 <= j < n -> zero_map n !! j = Some init_page.
Proof.
  intros Hj. apply elem_of_list_to_map_1'.
  - intros y (i & [= _ ->] & _)%list_elem_of_fmap. done.
  - apply list_elem_of_fmap. exists j. split; [done|]. apply elem_of_seqZ. lia.
Qed.

(** create_mem_map: when the boot heap has room for the array, every page
    descriptor is initialised with its number, and exactly the pages of the
    first recorded block that is neither empty nor at address 0 become
    available; all other pages, including those of every later block, stay
    taken and reserved (the inner loop reuses the counter of the outer one). *)
Theorem create_mem_map_first_block fuel blocks s k b h p :
  0 <= total s -> kalloc fuel (u32 (total s * sizeof_page)) (boot_heap s) = Ret (h, Some p) ->
  0 <= k < 10 -> k < Z.of_nat fuel -> (forall j, 0 <= j < k -> skipped blocks j) ->
  blocks !! Z.to_nat k = Some b -> mb_start b <> 0 -> mb_end b <> 0 ->
  0 <= block_page_start b <= block_page_end b + 1 -> 8 <= block_page_end b < total s ->
  exists s', create_mem_map fuel blocks s = Ret (s', 1) /\ mem_map_ptr s' = Some p /\
    total s' = total s /\
    forall j, 0 <= j < total s -> mem_map s' !! j = Some (mk_page false j
      (if bool_decide (block_page_start b <= j <= block_page_end b) then 0 else reserved_flags)
      0 0 0 None).
Proof.
  intros Ht Hka Hk Hfu Hsk Hb Hs He Hf Hl. unfold create_mem_map. rewrite Hka. cbn [mbind outcome_bind].
  destruct (reserve_all_spec (Z.to_nat (total s)) 0 (zero_map (total s))) as (m1 & R1 & Hin1 & _).
  { intros j Hj. apply zero_map_lookup. lia. }
  change (total (with_ptr _ _)) with (total s). rewrite R1. cbn [mbind outcome_bind].
  destruct (mark_blocks_spec fuel 0 k blocks m1 b) as (m2 & R2 & Hin2 & Hout2); try done; try lia.
  { intros j Hj. rewrite Hin1 by lia. done. }
  rewrite R2. cbn [mbind outcome_bind]. eexists. split; [done|]. split_and!; try done.
  intros j Hj. unfold mem_map. simpl. case_bool_decide.
  - rewrite Hin2, Hin1 by lia. done.
  - rewrite Hout2, Hin1 by lia. done.
Qed.

(** The comment in create_mem_map wants the page that is only partly
    inside a block to be left out; the code includes it. *)
Theorem partial_last_page_included b :
  0 <= mb_end b < 2 ^ 32 - 4096 -> mb_end b mod 4096 <> 0 ->
  block_page_end b = mb_end b / 4096 /\ mb_end b < (block_page_end b + 1) * 4096.
Proof.
  intros He Hu. unfold block_page_end, IS_PAGE_ALIGNED, ALIGN_PAGE, PAGE_SIZE.
  rewrite (u32_small (mb_end b)) by lia. rewrite (proj2 (Z.eqb_neq _ _) Hu). cbn [negb].
  pose proof (Z.div_mod (mb_end b) 4096 ltac:(lia)). pose proof (Z.mod_pos_bound (mb_end b) 4096 ltac:(lia)).
  rewrite !u32_small by (rewrite ?u32_small; lia).
  assert (E : (mb_end b - mb_end b mod 4096 + 4096 - 1 - 1) / 4096 = mb_end b / 4096).
  { symmetry. apply (Z.div_unique _ _ _ 4094); lia. }
  rewrite E. split; [done|]. lia.
Qed.

(** ** create_zone *)

Lemma init_free_area_spec n : forall i z,
  (forall k, i <= k < i + Z.of_nat n -> is_Some (nodes z !! FreeList k)) ->
  exists z', init_free_area n i z = Ret z' /\ present_pages z' = present_pages z /\
    free_pages z' = free_pages z /\ zone_mem_map z' = zone_mem_map z /\ nr_free z' = nr_free z /\
    (forall q, (forall k, i <= k < i + Z.of_nat n -> q <> FreeList k) -> nodes z' !! q = nodes z !! q) /\
    (forall k, i <= k < i + Z.of_nat n ->
       nodes z' !! FreeList k = Some (mk_list_head (Some (FreeList k)) (Some (FreeList k)))).
Proof.
  induction n as [|n IH]; intros i z Hz.
  - exists z. split_and!; try done. lia.
  - cbn [init_free_area]. unfold on_nodes at 1.
    rewrite INIT_LIST_HEAD_spec by (apply Hz; lia). cbn [mbind outcome_bind mret outcome_ret].
    set (z1 := with_nodes _ z). destruct (IH (i + 1) z1) as (z' & R & H1 & H2 & H3 & H4 & Hout & Hin).
    { intros k Hk. simpl. rewrite lookup_insert. case_decide; [done|]. apply Hz. lia. }
    exists z'. split_and!; try done.
    + intros q Hq. rewrite Hout by (intros; apply Hq; lia). simpl. apply lookup_insert_ne.
      intros <-. apply (Hq i); [lia|done].
    + intros k Hk. destruct (decide (k = i)) as [->|]; [|apply Hin; lia].
      rewrite Hout by (intros k' Hk' [= ->]; lia). simpl. by rewrite lookup_insert_eq.
Qed.

(** create_zone turns a mem_map without private pages into a zone that
    init_zone accepts, but sets the counter of free pages to the number of
    all pages, before any page has been given to the buddy system. *)
Theorem create_zone_fresh s :
  0 <= total s < 2 ^ 31 - 1 -> free_pages (zone s) = 0 -> map_ok (mem_map s) (total s) ->
  (forall i, 0 <= i < total s -> is_Some (nodes (zone s) !! Lru i)) ->
  (forall k, in_order k -> is_Some (nodes (zone s) !! FreeList k)) ->
  (forall k, in_order k -> nr_free (zone s) !! k = Some 0) ->
  (forall i p, mem_map s !! i = Some p -> PagePrivate p = false) ->
  exists s', create_zone s = Ret s' /\ fresh_zone (zone s') /\ mem_map s' = mem_map s /\
    free_pages (zone s') = total s.
Proof.
  intros Ht Hfp Hm Hlru Hfl Hnr Hpriv. unfold create_zone. set (z := mk_zone _ _ _ _ _ _ _ _).
  destruct (init_free_area_spec (Z.to_nat BUDDY_GROUPS) 0 z) as (z' & R & Ep & Ef & Em & En & Hout & Hin).
  { intros k Hk. apply Hfl. unfold in_order. change (Z.of_nat (Z.to_nat BUDDY_GROUPS)) with BUDDY_GROUPS in Hk. lia. }
  change (Z.of_nat (Z.to_nat BUDDY_GROUPS)) with BUDDY_GROUPS in *.
  rewrite R. cbn [mbind outcome_bind]. eexists. split; [done|].
  assert (Efp : free_pages z' = total s) by (rewrite Ef; simpl; rewrite Hfp, Z.add_0_l, u32_small; lia).
  split_and!; [|done|done]. split; cbn [zone with_zone].
  - rewrite Ep. simpl. lia.
  - lia.
  - rewrite Ep, Em. exact Hm.
  - rewrite Ep. intros i Hi. rewrite Hout; [by apply Hlru|done].
  - intros k Hk. specialize (Hin k ltac:(unfold in_order in Hk; lia)).
    split; [apply NoDup_singleton|]. simpl. unfold hnext, hprev. by rewrite Hin.
  - rewrite En. exact Hnr.
  - rewrite Em. exact Hpriv.
Qed.

(** ** Witnesses: a machine of 16 pages, and one of 1030 pages *)

Definition mm_machine (n : Z) : mm :=
  mk_mm (mk_layout n n n 2 (n - 2) 2 n) None
    (mk_zone 0 0 0 0 0 ∅ (list_to_map ((fun k => (k, 0)) <$> seqZ 0 11))
       (list_to_map ((fun k => (FreeList k, mk_list_head None None)) <$> seqZ 0 11)))
    heap0 (list_to_map ((fun k => (k, 0)) <$> seqZ 0 1024)) ∅.
Definition blocks16 : list memory_block := [mk_mblock 0 0x1800; mk_mblock 0x3000 0xC800].
Definition mm16 : mm := match create_mem_map 10 blocks16 (mm_machine 16) with Ret (s, _) => s | _ => mm_machine 16 end.

Lemma create_mem_map_first_block_witness :
  exists s', create_mem_map 10 blocks16 (mm_machine 16) = Ret (s', 1) /\
    mem_map s' !! 2 = Some (mk_page false 2 reserved_flags 0 0 0 None) /\
    mem_map s' !! 3 = Some (mk_page false 3 0 0 0 0 None) /\
    mem_map s' !! 12 = Some (mk_page false 12 0 0 0 0 None) /\
    mem_map s' !! 13 = Some (mk_page false 13 reserved_flags 0 0 0 None).
Proof.
  destruct (kalloc 10 (u32 (16 * sizeof_page)) heap0) as [[h [p|]]| |] eqn:E;
    [|by vm_compute in E..].
  destruct (create_mem_map_first_block 10 blocks16 (mm_machine 16) 1 (mk_mblock 0x3000 0xC800) h p)
    as (s' & R & _ & _ & Hm); [by vm_compute|exact E|lia|lia| |done|done|done|by vm_compute|by vm_compute|].
  { intros j Hj. assert (j = 0) as -> by lia. left. done. }
  exists s'. change (total (mm_machine 16)) with 16 in Hm. change (block_page_start _) with 3 in Hm.
  change (block_page_end _) with 12 in Hm. split; [exact R|].
  split; [exact (Hm 2 ltac:(lia))|]. split; [exact (Hm 3 ltac:(lia))|].
  split; [exact (Hm 12 ltac:(lia))|exact (Hm 13 ltac:(lia))].
Defined.

Lemma partial_last_page_included_witness :
  block_page_end (mk_mblock 0 4120) = 4120 / 4096 /\ 4120 < (block_page_end (mk_mblock 0 4120) + 1) * 4096.
Proof. apply (partial_last_page_included (mk_mblock 0 4120)); simpl; [lia|by vm_compute]. Defined.

Lemma mm16_map_ok : map_ok (mem_map mm16) (total mm16).
Proof. unfold map_ok. apply (forall_seqZ (fun i => is_Some (mem_map mm16 !! i))). by vm_compute. Qed.
Lemma mm16_flags_ok : flags_ok (mem_map mm16).
Proof.
  assert (Hall : map_Forall (fun _ p => 0 <= flags p < 2 ^ 32) (mem_map mm16)).
  { apply (bool_decide_eq_true (map_Forall _ _)). by vm_compute. }
  exact Hall.
Qed.

Lemma create_zone_fresh_witness :
  exists s', create_zone mm16 = Ret s' /\ fresh_zone (zone s') /\ mem_map s' = mem_map mm16 /\
    free_pages (zone s') = 16.
Proof.
  apply (create_zone_fresh mm16); [by vm_compute|by vm_compute|apply mm16_map_ok| | | |].
  - apply (forall_seqZ (fun i => is_Some (nodes (zone mm16) !! Lru i)) 16). by vm_compute.
  - apply (forall_seqZ (fun i => is_Some (nodes (zone mm16) !! FreeList i)) 11). by vm_compute.
  - apply (forall_seqZ (fun i => nr_free (zone mm16) !! i = Some 0) 11). by vm_compute.
  - assert (Hall : map_Forall (fun _ p => PagePrivate p = false) (mem_map mm16)).
    { apply (bool_decide_eq_true (map_Forall _ _)). by vm_compute. }
    exact Hall.
Defined.

Lemma frame_roundtrip_witness :
  exists s', get_free_page mm16 = Ret (s', 3 * 4096) /\ release_page (3 * 4096) s' = Ret mm16.
Proof.
  pose proof (frame_roundtrip mm16 mm16_map_ok ltac:(by vm_compute) mm16_flags_ok) as H.
  replace (free_frames (mem_map mm16) (total mm16)) with (seqZ 3 10) in H by by vm_compute.
  change (seqZ 3 10) with (3 :: seqZ 4 9) in H. cbv beta iota in H.
  destruct H as (s' & R & _ & _ & _ & _ & R'). exists s'. split; [exact R|exact R'].
Defined.

Lemma setup_paging_maps_witness :
  exists s', setup_paging 1 mm16 = Ret (s', 1) /\
    translate (swapper_pg_dir s') (phys s') 0xCFFF = Some 0xCFFF /\
    translate (swapper_pg_dir s') (phys s') (PAGE_OFFSET + 0xCFFF) = Some 0xCFFF.
Proof.
  destruct (setup_paging_maps mm16 [3] 4 (seqZ 5 8) mm16_map_ok mm16_flags_ok) as (s' & R & Ht);
    [by vm_compute|simpl; lia|by vm_compute|].
  exists s'. change (total mm16) with 16 in Ht. change (Z.of_nat (length [3])) with 1 in *.
  split; [exact R|]. exact (Ht 0xCFFF ltac:(lia) ltac:(lia)).
Defined.

(** 1030 pages, all of them free: one directory entry, pages 1024 to 1029 are not mapped. *)
Definition mm1030 : mm :=
  with_zone (mk_zone 0 1030 0 0 0 (zero_map 1030) ∅ ∅) (mm_machine 1030).

Lemma last_frames_unmapped_witness :
  exists s', setup_tables 1 0 0 mm1030 = Ret s' /\
    translate (swapper_pg_dir s') (phys s') 0x405000 = None /\
    translate (swapper_pg_dir s') (phys s') (PAGE_OFFSET + 0x405000) = None.
Proof.
  apply (last_frames_unmapped mm1030 [0] (seqZ 1 1029) 0x405000);
    [|by vm_compute|by vm_compute| |by vm_compute|by vm_compute|by vm_compute].
  - unfold map_ok. apply (forall_seqZ (fun i => is_Some (mem_map mm1030 !! i))). by vm_compute.
  - apply (forall_seqZ (fun i => swapper_pg_dir mm1030 !! i = Some 0)). by vm_compute.
Defined.
