(* ===== verification/MmBoot.v ===== *)
(** * Page frames at boot (init_mem of mm.c)

    One run of init_mem from the memory map to the buddy system: mem_map is
    built on the boot heap, copied into page frames, conventional memory is
    freed, page tables take the first frames, and init_zone gives the buddy
    system exactly the frames that are left. *)

From S2P Require Import Prelude ListHead Zone Buddy BuddyInv BuddyProofs BuddyInit BuddySpec Allocator Manager Mm MmProofs MmInit.

(** ** mem_map as a function of its flags *)

Definition frame (j v : Z) : page := mk_page false j v 0 0 0 None.
Definition pages (T : Z) (g : Z -> Z) : gmap Z page := list_to_map ((fun j => (j, frame j (g j))) <$> seqZ 0 T).
Definition put (g : Z -> Z) (i v : Z) : Z -> Z := fun j => if decide (j = i) then v else g j.

Lemma lookup_pages T g j : pages T g !! j = if decide (0 <= j < T) then Some (frame j (g j)) else None.
Proof.
  unfold pages. case_decide as Hj.
  - apply elem_of_list_to_map_1'.
    + intros y (i & [= -> ->] & _)%list_elem_of_fmap. done.
    + apply list_elem_of_fmap. exists j. split; [done|]. apply elem_of_seqZ. lia.
  - apply not_elem_of_list_to_map_1. rewrite <-list_fmap_compose. intros (i & -> & Hi)%list_elem_of_fmap. apply elem_of_seqZ in Hi. cbn in Hj. lia.
Qed.

Lemma pages_eq T g m : (forall j, m !! j = if decide (0 <= j < T) then Some (frame j (g j)) else None) -> m = pages T g.
Proof. intros H. apply map_eq. intros j. by rewrite H, lookup_pages. Qed.

Lemma pages_ext T g g' : (forall j, 0 <= j < T -> g j = g' j) -> pages T g = pages T g'.
Proof. intros H. apply pages_eq. intros j. rewrite lookup_pages. case_decide; [|done]. by rewrite H. Qed.

Lemma upd_flags_pages T g i f : 0 <= i < T -> upd_flags i f (pages T g) = Ret (pages T (put g i (f (g i)))).
Proof.
  intros Hi. unfold upd_flags. rewrite lookup_pages, decide_True by done. cbn. f_equal. apply pages_eq. intros j. rewrite lookup_insert. unfold put.
  case_decide as E; [subst; by rewrite !decide_True by done|]. rewrite lookup_pages. case_decide; [|done]. by rewrite decide_False by done.
Qed.

Lemma filter_none {A} (P : A -> Prop) `{!forall x, Decision (P x)} (l : list A) : (forall x, x ∈ l -> ~ P x) -> filter P l = [].
Proof.
  induction l as [|x l IH]; intros Hl; [done|]. rewrite filter_cons, decide_False by (apply Hl; left). apply IH. intros y Hy. apply Hl. by right.
Qed.

Definition taken (v : Z) : Prop := Z.testbit v 6 = true.

Lemma get_free_pages s T g f : mem_map s = pages T g -> total s = T -> T <= 2 ^ 20 -> 0 <= f < T ->
  (forall j, 0 <= j < f -> taken (g j)) -> ~ taken (g f) ->
  get_free_page s = Ret (with_map (pages T (put g f (SET_FLAG (g f) PG_FLAG_TAKEN))) s, f * 4096).
Proof.
  intros Em Et HT Hf Hlow Hfree.
  assert (Hff : forall j, 0 <= j < T -> frame_free (pages T g) j <-> ~ taken (g j)).
  { intros j Hj. unfold frame_free. rewrite lookup_pages, decide_True by done. cbn. rewrite page_taken_testbit. cbn. unfold taken.
    destruct (Z.testbit (g j) 6); naive_solver. }
  assert (exists l, free_frames (mem_map s) (total s) = f :: l) as [l E].
  { rewrite Em, Et. unfold free_frames. assert (Es : seqZ 0 T = seqZ 0 f ++ f :: seqZ (f + 1) (T - f - 1)).
    { replace T with (f + (T - f)) at 1 by lia. rewrite seqZ_app by lia. f_equal. rewrite Z.add_0_l, seqZ_cons by lia. f_equal; f_equal; lia. }
    rewrite Es, filter_app, filter_none, filter_cons, decide_True; [eauto|by apply Hff|].
    intros j Hj%elem_of_seqZ. rewrite Hff by lia. intros Hn. apply Hn, Hlow. lia. }
  destruct (get_free_page_some s) with (f := f) (l := l) as (p & Hp & _ & _ & ->); [|lia|done|].
  { intros i Hi. rewrite Em, lookup_pages, decide_True by lia. eauto. }
  rewrite Em, lookup_pages, decide_True in Hp by done. injection Hp as <-. do 2 f_equal. f_equal. rewrite Em. apply pages_eq. intros j. rewrite lookup_insert. unfold put.
  case_decide as E'; [subst; by rewrite !decide_True by lia|]. rewrite lookup_pages. case_decide; [|done]. by rewrite decide_False by done.
Qed.

(** ** The steps of init_mem *)

Definition set_range (g : Z -> Z) (a b v : Z) : Z -> Z := fun j => if decide (a <= j < b) then v else g j.

(** Only the flags of page frames, page tables and memory words change. *)
Record frame_step (s s' : mm) (T : Z) (g : Z -> Z) : Prop := {
  fs_layout : layout s' = layout s;
  fs_ptr : mem_map_ptr s' = mem_map_ptr s;
  fs_zone : zone s' = with_mem_map (pages T g) (zone s);
  fs_heap : boot_heap s' = boot_heap s;
}.

Lemma frame_step_refl s T g : mem_map s = pages T g -> frame_step s s T g.
Proof. intros E. split; try done. destruct s as [l q z h d w], z. cbn in E. by rewrite <-E. Qed.

Lemma frame_step_trans s1 s2 s3 T g g' : frame_step s1 s2 T g -> frame_step s2 s3 T g' -> frame_step s1 s3 T g'.
Proof. intros [A1 A2 A3 A4] [B1 B2 B3 B4]. split; [congruence|congruence| |congruence]. by rewrite B3, A3. Qed.

Lemma create_mem_map_pages fuel blocks s k b h p :
  0 <= total s -> kalloc fuel (u32 (total s * sizeof_page)) (boot_heap s) = Ret (h, Some p) ->
  0 <= k < 10 -> k < Z.of_nat fuel -> (forall j, 0 <= j < k -> skipped blocks j) ->
  blocks !! Z.to_nat k = Some b -> mb_start b <> 0 -> mb_end b <> 0 ->
  0 <= block_page_start b <= block_page_end b + 1 -> 8 <= block_page_end b < total s ->
  create_mem_map fuel blocks s = Ret (mk_mm (layout s) (Some p)
    (with_nodes (zero_lru (total s) ∪ nodes (zone s))
       (with_mem_map (pages (total s) (set_range (fun _ => 192) (block_page_start b) (block_page_end b + 1) 0)) (zone s)))
    h (swapper_pg_dir s) (phys s), 1).
Proof.
  intros Ht Hka Hk Hfu Hsk Hb Hs He Hf Hl. unfold create_mem_map. rewrite Hka. cbn [mbind outcome_bind].
  destruct (reserve_all_spec (Z.to_nat (total s)) 0 (zero_map (total s))) as (m1 & R1 & Hin1 & Hout1).
  { intros j Hj. apply zero_map_lookup. lia. }
  change (total (with_ptr _ _)) with (total s). rewrite R1. cbn [mbind outcome_bind].
  destruct (mark_blocks_spec fuel 0 k blocks m1 b) as (m2 & R2 & Hin2 & Hout2); try done; try lia.
  { intros j Hj. rewrite Hin1 by lia. done. }
  rewrite R2. cbn [mbind outcome_bind].
  assert (E : m2 = pages (total s) (set_range (fun _ => 192) (block_page_start b) (block_page_end b + 1) 0)); [|by rewrite E].
  apply pages_eq. intros j. unfold set_range. case_decide as Hj.
  - case_decide; [rewrite Hin2, Hin1 by lia; done|rewrite Hout2, Hin1 by lia; done].
  - rewrite Hout2, Hout1 by lia. apply not_elem_of_list_to_map_1. rewrite <-list_fmap_compose.
    intros (i & -> & Hi)%list_elem_of_fmap. apply elem_of_seqZ in Hi. cbn in Hj. lia.
Qed.

Lemma get_free_step s T g f : mem_map s = pages T g -> total s = T -> T <= 2 ^ 20 -> 0 <= f < T ->
  (forall j, 0 <= j < f -> taken (g j)) -> g f = 0 ->
  exists s', get_free_page s = Ret (s', f * 4096) /\ frame_step s s' T (put g f 64) /\ swapper_pg_dir s' = swapper_pg_dir s /\ phys s' = phys s.
Proof.
  intros Em Et HT Hf Hlow H0. assert (Hn : ~ taken (g f)) by (rewrite H0; done). rewrite (get_free_pages s T g f Em Et HT Hf Hlow Hn).
  eexists. split; [reflexivity|]. rewrite H0. split; [|done]. by split.
Qed.

Lemma frame_step_map s s' T g : frame_step s s' T g -> mem_map s' = pages T g /\ total s' = total s.
Proof. intros [A1 _ A3 _]. unfold mem_map, total. by rewrite A1, A3. Qed.

Lemma put_range g i n : i < n -> forall j, set_range (put g i 64) (i + 1) n 64 j = set_range g i n 64 j.
Proof. intros Hi j. unfold set_range, put. repeat case_decide; try done; lia. Qed.

Lemma take_frames_pages T n : forall s g c, mem_map s = pages T g -> total s = T -> T <= 2 ^ 20 -> 0 <= c -> c + Z.of_nat n <= T ->
  (forall j, 0 <= j < c -> taken (g j)) -> (forall j, c <= j < c + Z.of_nat n -> g j = 0) ->
  exists s' l, take_frames n s = Ret (s', l) /\ frame_step s s' T (set_range g c (c + Z.of_nat n) 64).
Proof.
  induction n as [|n IH]; intros s g c Em Et HT Hc Hn Hlow H0; cbn [take_frames].
  - exists s, []. split; [done|]. apply frame_step_refl. rewrite Em. apply pages_ext. intros j _. unfold set_range. by rewrite decide_False by lia.
  - destruct (get_free_step s T g c Em Et HT) as (s1 & -> & Hs1 & _); [lia|done|apply H0; lia|]. bind_rets.
    destruct (frame_step_map _ _ _ _ Hs1) as [Em1 Et1].
    destruct (IH s1 (put g c 64) (c + 1) Em1) as (s2 & l & -> & Hs2); [congruence|done|lia|lia| | |].
    + intros j Hj. unfold put. case_decide; [done|]. apply Hlow. lia.
    + intros j Hj. unfold put. rewrite decide_False by lia. apply H0. lia.
    + bind_rets. eexists _, _. split; [reflexivity|]. eapply frame_step_trans; [exact Hs1|]. destruct Hs2 as [A1 A2 A3 A4]. split; try done. rewrite A3. f_equal.
      apply pages_ext. intros j _. rewrite <-(put_range g c) by lia. f_equal; lia.
Qed.

Lemma free_low_pages T n : forall i g, 0 <= i -> i + Z.of_nat n <= T -> (forall j, i <= j < i + Z.of_nat n -> g j = 192) ->
  free_low n i (pages T g) = Ret (pages T (set_range g i (i + Z.of_nat n) 0)).
Proof.
  induction n as [|n IH]; intros i g Hi Hn Hg; cbn [free_low].
  - cbn. f_equal. apply pages_ext. intros j _. unfold set_range. by rewrite decide_False by lia.
  - rewrite upd_flags_pages by lia. bind_rets. rewrite upd_flags_pages by lia. bind_rets. rewrite IH; [|lia|lia|].
    + f_equal. apply pages_ext. intros j Hj. unfold set_range, put. repeat case_decide; try done; try lia. subst. by rewrite Hg by lia.
    + intros j Hj. unfold put. rewrite !decide_False by lia. apply Hg. lia.
Qed.

Lemma setup_tables_pages T n : forall s g i a, mem_map s = pages T g -> total s = T -> T <= 2 ^ 20 -> 0 <= i -> i + Z.of_nat n <= T ->
  i + Z.of_nat n <= 256 -> (forall j, 0 <= j < i -> taken (g j)) -> (forall j, i <= j < i + Z.of_nat n -> g j = 0) ->
  exists s', setup_tables n i a s = Ret s' /\ frame_step s s' T (set_range g i (i + Z.of_nat n) 64).
Proof.
  induction n as [|n IH]; intros s g i a Em Et HT Hi Hn Hdir Hlow H0; cbn [setup_tables].
  - exists s. split; [done|]. apply frame_step_refl. rewrite Em. apply pages_ext. intros j _. unfold set_range. by rewrite decide_False by lia.
  - destruct (get_free_step s T g i Em Et HT) as (s1 & -> & Hs1 & _ & _); [lia|done|apply H0; lia|]. bind_rets.
    change (pgd_index PAGE_OFFSET) with 768. unfold set_pgdir, PG_DIR_ENTRIES.
    rewrite (proj2 (Z.leb_le 0 (768 + i))), (proj2 (Z.ltb_lt (768 + i) 1024)) by lia.
    rewrite (proj2 (Z.leb_le 0 i)), (proj2 (Z.ltb_lt i 1024)) by lia. cbn [andb]. bind_rets.
    set (s2 := with_pgdir _ (with_pgdir _ _)). destruct (fill_table _ _ _ _ _ _) as [a' w].
    assert (Hs2 : frame_step s (with_phys w s2) T (put g i 64)) by (destruct Hs1; by split).
    destruct (frame_step_map _ _ _ _ Hs2) as [Em2 Et2].
    destruct (IH (with_phys w s2) (put g i 64) (i + 1) a' Em2) as (s3 & -> & Hs3); [congruence|done|lia|lia|lia| | |].
    + intros j Hj. unfold put. case_decide; [done|]. apply Hlow. lia.
    + intros j Hj. unfold put. rewrite decide_False by lia. apply H0. lia.
    + eexists. split; [reflexivity|]. eapply frame_step_trans; [exact Hs2|]. destruct Hs3 as [A1 A2 A3 A4]. split; try done. rewrite A3. f_equal.
      apply pages_ext. intros j _. rewrite <-(put_range g i) by lia. f_equal; lia.
Qed.

Lemma test_mmu_pages T s g f : mem_map s = pages T g -> total s = T -> T <= 2 ^ 20 -> 0 <= f < T ->
  (forall j, 0 <= j < f -> taken (g j)) -> g f = 0 -> exists s', test_mmu s = Ret (s', 1) /\ frame_step s s' T g.
Proof.
  intros Em Et HT Hf Hlow H0. unfold test_mmu. destruct (get_free_step s T g f Em Et HT Hf Hlow H0) as (s1 & -> & Hs1 & _ & _). bind_rets.
  destruct (frame_step_map _ _ _ _ Hs1) as [Em1 Et1]. change (mem_map (with_phys ?w s1)) with (mem_map s1).
  unfold PAGE_SIZE. rewrite Z.div_mul by lia. rewrite Em1, lookup_pages, decide_True by done. cbn [deref]. bind_rets.
  unfold release_page, PAGE_SIZE. rewrite Z.div_mul by lia. change (mem_map (with_phys ?w s1)) with (mem_map s1). rewrite Em1, upd_flags_pages by done. bind_rets.
  unfold mem_map at 1. cbn [zone with_map with_zone with_mem_map zone_mem_map]. rewrite lookup_pages, decide_True by done. cbn [deref]. bind_rets.
  assert (Ep : forall h v, put h f v f = v) by (intros; unfold put; by rewrite decide_True). rewrite !Ep. eexists. split; [reflexivity|]. destruct Hs1 as [A1 A2 A3 A4]. split; try done. cbn. rewrite A3. cbn.
  unfold with_mem_map. cbn. f_equal. apply pages_ext. intros j _. unfold put. repeat case_decide; subst; done.
Qed.

(** ** The buddy system on the frames that are left *)

(** Free pages are counted by [free_total]. *)
Lemma free_total_count fl l : NoDup l -> (forall j, j ∈ l -> free_page fl j) -> Z.of_nat (length l) <= free_total fl.
Proof.
  intros Hnd Hl. set (block := fun k i => seqZ i (2 ^ k)). set (enum := fun ks => List.flat_map (fun k => List.flat_map (block k) (fl k)) ks).
  assert (Hlen : forall k (bs : list Z), 0 <= k -> Z.of_nat (length (List.flat_map (block k) bs)) = Z.of_nat (length bs) * 2 ^ k).
  { intros k bs Hk. pow2 k. induction bs as [|i bs IH]; [done|]. cbn [List.flat_map]. rewrite length_app, Nat2Z.inj_add, IH. unfold block. rewrite length_seqZ. cbn [length]. lia. }
  assert (Htot : Z.of_nat (length (enum (seqZ 0 BUDDY_GROUPS))) = free_total fl).
  { unfold free_total. assert (Hpos : forall k, k ∈ seqZ 0 BUDDY_GROUPS -> 0 <= k) by (intros k Hk%elem_of_seqZ; lia).
    induction (seqZ 0 BUDDY_GROUPS) as [|k ks IH]; [done|]. unfold enum in *. cbn [List.flat_map foldr].
    rewrite length_app, Nat2Z.inj_add, IH, Hlen; [done|apply Hpos; left|intros; apply Hpos; by right]. }
  rewrite <-Htot. apply inj_le. apply List.NoDup_incl_length; [by apply NoDup_ListNoDup|]. intros j Hj%list_elem_of_In.
  destruct (Hl j Hj) as (k & i & Hk & Hi & Hc). unfold enum. apply List.in_flat_map. exists k. split; [apply list_elem_of_In, elem_of_seqZ; unfold in_order in Hk; lia|].
  apply List.in_flat_map. exists i. split; [by apply list_elem_of_In|]. apply list_elem_of_In, elem_of_seqZ. exact Hc.
Qed.

(** ** init_mem *)

(** Frames the copy of mem_map takes, and frames the page tables take. *)
Definition copy_frames (T : Z) : Z := u32 (sizeof_page * T) / PAGE_SIZE + 1.
Definition table_frames (T : Z) : Z := T / 1024.

(** A machine init_mem can set up: the boot heap has room for mem_map, block [k]
    is the first that does not start at address 0, conventional memory ends
    below it and has room for the page tables, and block [k] has room for the
    copy of mem_map and for 1535 pages more (so that two aligned blocks of 512
    pages are free). *)
Record machine_ok (fuel : nat) (blocks : list memory_block) (lay : phy_layout) (h : heap) (k : Z) (b : memory_block) : Prop := {
  mo_heap : exists h1 p h2, kalloc fuel (u32 (totalram_pages lay * sizeof_page)) h = Ret (h1, Some p) /\ kbfree (Some p) h1 = Ret h2;
  mo_first : 0 <= k < 10 /\ k < Z.of_nat fuel /\ (forall j, 0 <= j < k -> skipped blocks j);
  mo_block : blocks !! Z.to_nat k = Some b /\ mb_start b <> 0 /\ mb_end b <> 0;
  mo_low : table_frames (totalram_pages lay) < max_low_pfn lay <= block_page_start b;
  mo_span : block_page_start b + copy_frames (totalram_pages lay) + 1535 <= block_page_end b + 1;
  mo_total : block_page_end b < totalram_pages lay <= 0x40000;
}.

(** Flags of the frames after copy_mem_map, and after setup_paging. *)
Definition copied (a c e L : Z) : Z -> Z := set_range (set_range (set_range (fun _ => 192) a (e + 1) 0) a c 64) 0 L 0.

Lemma copy_mem_map_pages s h' a c e : let T := total s in let L := max_low_pfn (layout s) in
  mem_map s = pages T (set_range (fun _ => 192) a (e + 1) 0) -> 0 <= T <= 2 ^ 20 -> 0 <= a -> c = a + copy_frames T -> c <= e + 1 <= T -> 0 <= L <= a ->
  kbfree (mem_map_ptr s) (boot_heap s) = Ret h' ->
  exists s' q, copy_mem_map s = Ret s' /\ layout s' = layout s /\ mem_map_ptr s' = Some q /\ zone s' = with_mem_map (pages T (copied a c e L)) (zone s).
Proof.
  intros T L Em HT Ha -> Hc HL Hk. unfold copy_mem_map. fold T. change (u32 (sizeof_page * T) / PAGE_SIZE + 1) with (copy_frames T).
  assert (Hn : 1 <= copy_frames T).
  { unfold copy_frames, PAGE_SIZE. assert (0 <= u32 (sizeof_page * T) / 4096) by (apply Z.div_pos; [apply u32_range|lia]). lia. }
  set (n := Z.to_nat (copy_frames T)). assert (En : Z.of_nat n = copy_frames T) by (unfold n; lia).
  destruct (take_frames_pages T n s _ a Em eq_refl ltac:(lia) Ha) as (s1 & l & -> & [A1 A2 A3 A4]); [lia| | |].
  { intros j Hj. unfold set_range. by rewrite decide_False by lia. }
  { intros j Hj. unfold set_range. by rewrite decide_True by lia. }
  rewrite En in A3. bind_rets. rewrite A2, A4, Hk. bind_rets. cbn [layout with_ptr with_heap]. rewrite A1.
  change (max_low_pfn (layout s)) with L. change (mem_map (with_ptr _ _)) with (mem_map s1). unfold mem_map at 1. rewrite A3. cbn [zone_mem_map with_mem_map].
  rewrite (free_low_pages T (Z.to_nat L) 0); [|lia|lia|].
  2:{ intros j Hj. unfold set_range. by rewrite !decide_False by lia. }
  bind_rets. eexists _, _. split; [reflexivity|]. split; [exact A1|]. split; [reflexivity|]. cbn. rewrite A3. cbn. unfold with_mem_map. cbn. f_equal.
  apply pages_ext. intros j _. unfold copied. rewrite Z2Nat.id by lia. done.
Qed.

Lemma init_free_area_fixed n : forall i z z', init_free_area n i z = Ret z' -> zone_start_pfn z' = zone_start_pfn z /\ present_pages z' = present_pages z.
Proof.
  induction n as [|n IH]; intros i z z'; cbn [init_free_area]; [by intros [= <-]|]. intros (z1 & (h & _ & [= <-])%bind_Ret_inv & R)%bind_Ret_inv.
  by apply IH in R.
Qed.

(** Every flag word that occurs keeps the page out of the buddy lists. *)
Definition plain (v : Z) : Prop := v = 0 \/ v = 64 \/ v = 192.
Lemma plain_range g a b v : (forall j, plain (g j)) -> plain v -> forall j, plain (set_range g a b v j).
Proof. intros Hg Hv j. unfold set_range. by case_decide. Qed.

Lemma fresh_with_pages z T g : fresh_zone z -> present_pages z = T -> (forall j, plain (g j)) -> fresh_zone (with_mem_map (pages T g) z).
Proof.
  intros [F1 F2 F3 F4 F5 F6 F7] ET Hg. split; cbn; try done.
  - intros i Hi. rewrite lookup_pages, decide_True by lia. eauto.
  - intros i p. rewrite lookup_pages. case_decide; [|done]. intros [= <-]. by destruct (Hg i) as [E|[E|E] ]; unfold PagePrivate; cbn; rewrite E.
Qed.

Lemma usable_pages z T g j : present_pages z = T -> (forall j, plain (g j)) -> usable (with_mem_map (pages T g) z) j <-> 0 <= j < T /\ g j = 0.
Proof.
  intros ET Hg. unfold usable. cbn. rewrite ET. split; intros [Hj Hu]; (split; [done|]); rewrite lookup_pages, decide_True in * by done.
  - cbn in Hu. by destruct (Hg j) as [E|[E|E] ]; rewrite E in Hu.
  - cbn. by rewrite Hu.
Qed.

(** An interval of 1535 pages holds two aligned blocks of 512. *)
Lemma two_blocks c : exists b1, (2 ^ 9 | b1) /\ (2 ^ 9 | b1 + 512) /\ c <= b1 /\ b1 + 1024 <= c + 1535.
Proof.
  exists ((c + 511) / 512 * 512). pose proof (Z.div_mod (c + 511) 512 ltac:(lia)). pose proof (Z.mod_pos_bound (c + 511) 512 ltac:(lia)).
  change (2 ^ 9) with 512. split_and!; [by apply Z.divide_factor_r|exists ((c + 511) / 512 + 1); lia|lia|lia].
Qed.

(** The zone after create_zone, before the page tables. *)
Lemma create_zone_pages s T g : mem_map s = pages T g -> total s = T -> 0 <= T < 2 ^ 31 - 1 -> (forall j, plain (g j)) -> free_pages (zone s) = 0 ->
  (forall i, 0 <= i < T -> is_Some (nodes (zone s) !! Lru i)) -> (forall k, in_order k -> is_Some (nodes (zone s) !! FreeList k)) ->
  (forall k, in_order k -> nr_free (zone s) !! k = Some 0) ->
  exists s', create_zone s = Ret s' /\ layout s' = layout s /\ mem_map_ptr s' = mem_map_ptr s /\ mem_map s' = pages T g /\
    fresh_zone (zone s') /\ zone_start_pfn (zone s') = 0 /\ present_pages (zone s') = T.
Proof.
  intros Em Et HT Hg Hfp Hlru Hfl Hnr. destruct (create_zone_fresh s) as (s' & R & Hf & Em' & _).
  { by rewrite Et. } { done. } { intros i Hi. rewrite Em, lookup_pages, decide_True by (rewrite <-Et; done). eauto. } { by rewrite Et. } { done. } { done. }
  { intros i p. rewrite Em, lookup_pages. case_decide; [|done]. intros [= <-]. by destruct (Hg i) as [E|[E|E] ]; unfold PagePrivate; cbn; rewrite E. }
  exists s'. split; [done|]. unfold create_zone in R. apply bind_Ret_inv in R as (z' & Hz & [= <-]). apply init_free_area_fixed in Hz as [S1 P1].
  cbn in S1, P1 |- *. split; [done|]. split; [done|]. split; [by rewrite <-Em, <-Em'|]. split; [exact Hf|]. split; [exact S1|by rewrite P1, Et].
Qed.

Lemma count_entries z T : present_pages z = T -> 0 <= T <= 0x40000 -> count_pgdir_entries z = table_frames T.
Proof.
  intros <- HT. unfold count_pgdir_entries, table_frames, PAGE_SIZE, PG_TABLE_ENTRIES. rewrite u32_small by lia.
  change (4096 * 1024) with (1024 * 4096). apply Z.div_mul_cancel_r; lia.
Qed.

(** setup_paging takes the first frames of conventional memory. *)
Lemma setup_paging_pages s T g E : mem_map s = pages T g -> total s = T -> 0 <= E < T -> T <= 2 ^ 20 -> E <= 256 -> (forall j, 0 <= j <= E -> g j = 0) ->
  exists s', setup_paging E s = Ret (s', 1) /\ frame_step s s' T (set_range g 0 E 64).
Proof.
  intros Em Et HE HT H256 H0. unfold setup_paging. destruct (setup_tables_pages T (Z.to_nat E) s g 0 0 Em Et HT) as (s1 & -> & Hs1); [lia|lia|lia|lia|intros j Hj; apply H0; lia|].
  rewrite Z2Nat.id, Z.add_0_l in Hs1 by lia. bind_rets. destruct (frame_step_map _ _ _ _ Hs1) as [Em1 Et1].
  destruct (test_mmu_pages T s1 (set_range g 0 E 64) E Em1) as (s2 & -> & Hs2); [congruence|done|lia| | |].
  - intros j Hj. unfold set_range. by rewrite decide_True by lia.
  - unfold set_range. rewrite decide_False by lia. apply H0. lia.
  - exists s2. split; [done|]. by eapply frame_step_trans.
Qed.

Lemma block_page_start_nonneg b : 0 <= block_page_start b.
Proof.
  unfold block_page_start, PAGE_SIZE. apply Z.div_pos; [|lia]. destruct (negb _); apply u32_range.
Qed.

Lemma init_mem_spec fuel blocks s k b : let T := total s in let L := max_low_pfn (layout s) in
  let c := block_page_start b + copy_frames T in let e := block_page_end b in
  machine_ok fuel blocks (layout s) (boot_heap s) k b -> free_pages (zone s) = 0 ->
  (forall k, in_order k -> is_Some (nodes (zone s) !! FreeList k)) -> (forall k, in_order k -> nr_free (zone s) !! k = Some 0) ->
  exists s' fl, Mm.init_mem fuel blocks s = Ret s' /\ is_Some (mem_map_ptr s') /\ buddy_inv (zone s') fl /\
    zone_start_pfn (zone s') = 0 /\ present_pages (zone s') = T /\
    (forall j, free_page fl j <-> table_frames T <= j < L \/ c <= j <= e) /\ e + 1 - c <= free_total fl.
Proof.
  intros T L c e [(h1 & p & h2 & Hka & Hkb) (Hk & Hkf & Hsk) (Hb & Hs & He) Hlow Hspan Htot] Hfp Hfl Hnr.
  fold (total s) in *. fold T in Hka, Hlow, Hspan, Htot. fold L in Hlow. fold e in Hspan, Htot. set (a := block_page_start b) in *.
  assert (Hcf : 0 < copy_frames T).
  { unfold copy_frames, PAGE_SIZE. assert (0 <= u32 (sizeof_page * T) / 4096) by (apply Z.div_pos; [apply u32_range|lia]). lia. }
  pose proof (block_page_start_nonneg b : 0 <= a) as Ha. assert (HT : 0 <= T) by lia.
  assert (HE : 0 <= table_frames T <= 256).
  { unfold table_frames. split; [apply Z.div_pos; lia|]. apply (Z.div_le_upper_bound _ 1024); lia. }
  unfold Mm.init_mem. rewrite (create_mem_map_pages fuel blocks s k b h1 p) by first [assumption|lia|fold T a e; lia]. bind_rets. cbn [Z.eqb].
  fold T a e. set (s1 := mk_mm _ _ _ _ _ _).
  destruct (copy_mem_map_pages s1 h2 a c e) as (s2 & q & -> & L2 & Q2 & Z2); try done; try (change (total s1) with T; change (max_low_pfn (layout s1)) with L; unfold c; lia).
  change (total s1) with T in Z2. change (max_low_pfn (layout s1)) with L in Z2. bind_rets. set (g2 := copied a c e L) in *.
  assert (Hg2 : forall j, plain (g2 j)) by (unfold g2, copied; repeat (apply plain_range; [|unfold plain; lia]); intros; unfold plain; lia).
  assert (HT2 : total s2 = T) by (unfold total; by rewrite L2).
  destruct (create_zone_pages s2 T g2) as (s3 & -> & L3 & Q3 & M3 & F3 & S3 & P3); try done; try lia.
  { unfold mem_map. by rewrite Z2. } { by rewrite Z2. }
  { rewrite Z2. cbn. intros i Hi. apply lookup_union_is_Some. left. exists (mk_list_head None None). unfold zero_lru. apply elem_of_list_to_map_1'.
    - by intros y (x & [= _ ->] & _)%list_elem_of_fmap.
    - apply list_elem_of_fmap. exists i. split; [done|]. apply elem_of_seqZ. lia. }
  { rewrite Z2. cbn. intros i Hi. apply lookup_union_is_Some. right. by apply Hfl. }
  { rewrite Z2. cbn. exact Hnr. }
  bind_rets. rewrite (count_entries _ T P3) by lia.
  destruct (setup_paging_pages s3 T g2 (table_frames T) M3) as (s4 & -> & [L4 Q4 Z4 _]); [unfold total; by rewrite L3, L2|lia|lia|lia| |].
  { intros j Hj. unfold g2, copied, set_range. by rewrite (decide_True (P := 0 <= j < L)) by lia. }
  bind_rets. set (g4 := set_range g2 0 (table_frames T) 64) in *.
  assert (Hg4 : forall j, plain (g4 j)) by (apply plain_range; [done|unfold plain; lia]).
  assert (Hfree4 : forall j, usable (zone s4) j <-> table_frames T <= j < L \/ c <= j <= e).
  { intros j. rewrite Z4, (usable_pages _ T g4 j P3 Hg4). unfold g4, g2, copied, set_range. repeat case_decide; lia. }
  destruct (init_zone_buddy_spec (zone s4)) as (z5 & fl5 & R5 & I5 & Fr5 & P5 & _ & S5); [rewrite Z4; by apply fresh_with_pages|].
  destruct (two_blocks c) as (b1 & D1 & D2 & B1 & B2).
  destruct (test_buddy_runs z5 fl5 b1 (b1 + 512) I5 D1 D2) as (z6 & fl6 & R6 & I6 & Fr6 & S6 & P6); [lia| |].
  { intros j Hj. rewrite Fr5, Hfree4. right. unfold covers in Hj. change (2 ^ 9) with 512 in Hj. unfold c in *. lia. }
  unfold init_zone. rewrite R5, bind_Ret, R6, bind_Ret. exists (with_zone z6 s4), fl6. split; [done|]. cbn [mem_map_ptr with_zone zone].
  assert (Hf6 : forall j, free_page fl6 j <-> table_frames T <= j < L \/ c <= j <= e) by (intros j; by rewrite Fr6, Fr5, Hfree4).
  split; [rewrite Q4, Q3, Q2; eauto|]. split; [done|]. split; [rewrite S6, S5, Z4; exact S3|]. split; [rewrite P6, P5, Z4; exact P3|]. split; [done|].
  etrans; [|apply (free_total_count fl6 (seqZ c (e + 1 - c)))]; [rewrite length_seqZ; lia|apply NoDup_seqZ|].
  intros j Hj%elem_of_seqZ. apply Hf6. lia.
Qed.

(** C8. init_mem on a machine with the memory it needs ([machine_ok]): the boot heap
    holds mem_map, which it does up to about 113 MB, and the first block that
    does not start at address 0 has room for the copy and 1535 pages more.  It returns, mem_map has
    moved into page frames, and the buddy system holds exactly the conventional
    memory above the page tables and what the copy of mem_map leaves of the first
    block that does not start at address 0. *)
Theorem init_mem_correct fuel blocks s k b :
  machine_ok fuel blocks (layout s) (boot_heap s) k b -> free_pages (zone s) = 0 ->
  (forall k, in_order k -> is_Some (nodes (zone s) !! FreeList k)) -> (forall k, in_order k -> nr_free (zone s) !! k = Some 0) ->
  exists s' fl, Mm.init_mem fuel blocks s = Ret s' /\ is_Some (mem_map_ptr s') /\ buddy_inv (zone s') fl /\
    zone_start_pfn (zone s') = 0 /\ present_pages (zone s') = total s /\
    (forall j, free_page fl j <-> table_frames (total s) <= j < max_low_pfn (layout s) \/
       block_page_start b + copy_frames (total s) <= j <= block_page_end b) /\
    block_page_end b + 1 - (block_page_start b + copy_frames (total s)) <= free_total fl.
Proof. exact (init_mem_spec fuel blocks s k b). Qed.

(** A machine of 32 MB with the image at 2 MB. *)
Definition mm32 : mm :=
  mk_mm (mk_layout 7904 8160 7904 159 7745 159 7904) None (zone (mm_machine 16)) (mk_heap 0x101000 0x1000 None ∅ ∅) (swapper_pg_dir (mm_machine 16)) ∅.

Lemma heap32_runs : exists h1 p h2,
  kalloc 10 (u32 (totalram_pages (layout mm32) * sizeof_page)) (boot_heap mm32) = Ret (h1, Some p) /\ kbfree (Some p) h1 = Ret h2.
Proof.
  assert (B : match kalloc 10 (u32 (totalram_pages (layout mm32) * sizeof_page)) (boot_heap mm32) with
    | Ret (h1, Some p) => match kbfree (Some p) h1 with Ret _ => true | _ => false end
    | _ => false end = true) by (vm_compute; reflexivity).
  destruct (kalloc _ _ _) as [ [h1 [p|] ]| |]; try discriminate B. destruct (kbfree (Some p) h1) as [h2| |] eqn:Eb; try discriminate B.
  exists h1, p, h2. split; [reflexivity|exact Eb].
Qed.

Lemma init_mem_correct_witness :
  exists s' fl, Mm.init_mem 10 [mk_mblock 0 0x9fc00; mk_mblock 0x280000 0x1fe0000] mm32 = Ret s' /\ buddy_inv (zone s') fl /\
    (forall j, free_page fl j <-> 7 <= j < 159 \/ 712 <= j <= 8159).
Proof.
  destruct (init_mem_correct 10 [mk_mblock 0 0x9fc00; mk_mblock 0x280000 0x1fe0000] mm32 1 (mk_mblock 0x280000 0x1fe0000)) as (s' & fl & R & _ & Hinv & _ & _ & Hf & _).
  - split; [|split; [lia|split; [simpl; lia|]]|done|by vm_compute..].
    + exact heap32_runs.
    + intros j Hj. assert (j = 0) as -> by lia. by left.
  - done.
  - apply (forall_seqZ (fun k => is_Some (nodes (zone mm32) !! FreeList k)) 11). by vm_compute.
  - apply (forall_seqZ (fun k => nr_free (zone mm32) !! k = Some 0) 11). by vm_compute.
  - exists s', fl. split; [exact R|]. split; [exact Hinv|exact Hf].
Defined.
