(* ===== verification/Slab.v ===== *)
(** * The slab allocator (memory-management/slab.c, include/slab.h, kernel.h)

    Caches, slab descriptors and objects are kept in typed stores keyed by
    their address; the stores describe memory faithfully as long as the
    regions handed out do not overlap, which is what the page allocator
    guarantees.  [links] holds the first word of each free object (the link
    of the free list of its slab).  The list nodes embedded in cache and slab
    descriptors are keyed by [snode].  A field that the code never
    initialises has the value memory had before ([junk]); constructors and
    destructors are called through [call].  Accesses to objects and descriptors
    do not fault: the frames that setup_paging leaves unmapped (the last total
    mod 1024 of the zone, see MmProofs) are taken to be reachable. *)

From S2P Require Import Prelude ListHead Zone Buddy.

(** ** Constants and data *)

Definition CFLGS_OFF_SLAB : Z := 0x80000000.
Definition SLAB_HWCACHE_ALIGN : Z := 0x2000.
Definition KMALLOC_FLAGS : Z := SLAB_HWCACHE_ALIGN.
Definition KMALLOC_MINALIGN : Z := 8.
Definition KMALLOC_MAX_ORDER : Z := 10.
Definition BYTES_PER_WORD : Z := 4.
Definition cache_line_size : Z := 32.
Definition sizeof_slab : Z := 28.
Definition sizeof_kmem_cache : Z := 104.

(** ALIGN(x, a) of kernel.h. *)
Definition KALIGN (x a : Z) : Z := Z.land (u32 (x + (a - 1))) (u32 (Z.lnot (a - 1))).

Definition malloc_sizes : list Z :=
  [32; 64; 96; 128; 192; 256; 512; 1024; 2048; 4096; 8192; 16384; 32768; 65536; 131072].

(** Nodes: the three lists and the chain link of a cache, the head of the
    chain of caches, the link of a slab descriptor. *)
Inductive snode := SPartial (c : Z) | SFull (c : Z) | SFree (c : Z) | CNext (c : Z) | CacheChain
  | SList (slab : Z).
#[global] Instance snode_eq_dec : EqDecision snode.
Proof. solve_decision. Defined.
#[global] Instance snode_countable : Countable snode.
Proof.
  refine (inj_countable'
    (fun n => match n with SPartial c => (0, c) | SFull c => (1, c) | SFree c => (2, c)
                      | CNext c => (3, c) | CacheChain => (4, 0) | SList a => (5, a) end)
    (fun p => match p.1 with 0 => SPartial p.2 | 1 => SFull p.2 | 2 => SFree p.2
                        | 3 => CNext p.2 | 4 => CacheChain | _ => SList p.2 end) _).
  by intros [].
Defined.

Record kmem_cache := mk_cache {
  objsize : Z; cflags : Z; num : Z; free_limit : Z; free_objects : Z;
  gfporder : Z; gfpflags : Z; colour : Z; colour_off : Z; colour_next : Z;
  slabp_cache : option Z; slab_size : Z; ctor : option Z; dtor : option Z }.

Record slab_s := mk_slab {
  colouroff : Z; s_mem : Z; inuse : Z; sfree : Z; free_list : option Z }.

Record slab_st := mk_sst {
  szone : zone_t;
  cache_cache : Z;                        (* address of the static cache descriptor *)
  caches : gmap Z kmem_cache;
  slabs : gmap Z slab_s;
  snodes : gmap snode (list_head snode);
  links : gmap Z (option Z);
  cs_cachep : gmap Z (option Z);          (* malloc_sizes[i].cs_cachep, by size *)
}.

#[global] Instance kmem_cache_eq_dec : EqDecision kmem_cache.
Proof. solve_decision. Defined.
#[global] Instance slab_s_eq_dec : EqDecision slab_s.
Proof. solve_decision. Defined.

Definition set_szone z s := mk_sst z (cache_cache s) (caches s) (slabs s) (snodes s) (links s) (cs_cachep s).
Definition set_caches c s := mk_sst (szone s) (cache_cache s) c (slabs s) (snodes s) (links s) (cs_cachep s).
Definition set_slabs b s := mk_sst (szone s) (cache_cache s) (caches s) b (snodes s) (links s) (cs_cachep s).
Definition set_snodes n s := mk_sst (szone s) (cache_cache s) (caches s) (slabs s) n (links s) (cs_cachep s).
Definition set_links w s := mk_sst (szone s) (cache_cache s) (caches s) (slabs s) (snodes s) w (cs_cachep s).
Definition set_sizes m s := mk_sst (szone s) (cache_cache s) (caches s) (slabs s) (snodes s) (links s) m.

Definition upd_cache (c : Z) (f : kmem_cache -> kmem_cache) (s : slab_st) : outcome slab_st :=
  k ← deref (caches s !! c); mret (set_caches (<[c := f k]> (caches s)) s).
Definition upd_slab (a : Z) (f : slab_s -> slab_s) (s : slab_st) : outcome slab_st :=
  b ← deref (slabs s !! a); mret (set_slabs (<[a := f b]> (slabs s)) s).
Definition on_snodes (f : gmap snode (list_head snode) -> outcome (gmap snode (list_head snode)))
    (s : slab_st) : outcome slab_st :=
  n ← f (snodes s); mret (set_snodes n s).
Definition on_zone (f : zone_t -> outcome zone_t) (s : slab_st) : outcome slab_st :=
  z ← f (szone s); mret (set_szone z s).
Definition write_link (a : Z) (v : option Z) (s : slab_st) : slab_st :=
  set_links (<[a := v]> (links s)) s.

Definition set_colour_next v k := mk_cache (objsize k) (cflags k) (num k) (free_limit k) (free_objects k)
  (gfporder k) (gfpflags k) (colour k) (colour_off k) v (slabp_cache k) (slab_size k) (ctor k) (dtor k).
Definition set_free_objects v k := mk_cache (objsize k) (cflags k) (num k) (free_limit k) v
  (gfporder k) (gfpflags k) (colour k) (colour_off k) (colour_next k) (slabp_cache k) (slab_size k)
  (ctor k) (dtor k).
Definition set_inuse v b := mk_slab (colouroff b) (s_mem b) v (sfree b) (free_list b).
Definition set_free_list v b := mk_slab (colouroff b) (s_mem b) (inuse b) (sfree b) v.

Definition OFF_SLAB (k : kmem_cache) : bool := negb (Z.land (cflags k) CFLGS_OFF_SLAB =? 0).

(** ** Sizes *)

Definition slab_mgmt_size (align : Z) : Z := KALIGN sizeof_slab align.

(** cache_estimate: returns [(num, left_over)]; a zero object size divides by zero. *)
Definition cache_estimate (gfporder objsize align flags : Z) : outcome (Z * Z) :=
  let slab_size := u32 (Z.shiftl PAGE_SIZE gfporder) in
  if objsize =? 0 then Fault
  else if negb (Z.land flags CFLGS_OFF_SLAB =? 0) then
    let nr_objs := slab_size / objsize in
    mret (nr_objs, u32 (slab_size - nr_objs * objsize - 0))
  else
    let nr_objs := u32 (slab_size - sizeof_slab) / objsize in
    let nr_objs := if slab_size <? u32 (slab_mgmt_size align + nr_objs * objsize)
                   then nr_objs - 1 else nr_objs in
    mret (u32 nr_objs, u32 (slab_size - nr_objs * objsize - slab_mgmt_size align)).

(** The loop of calculate_slab_order, [n] orders left: [(num, gfporder,
    remainder)].  Both of its exits with objects break out of the loop. *)
Fixpoint slab_order_loop (n : nat) (gfporder size align flags num rem : Z) : outcome (Z * Z * Z) :=
  match n with
  | O => mret (num, gfporder, rem)
  | S n =>
      '(num, rem) ← cache_estimate gfporder size align flags;
      if num =? 0 then slab_order_loop n (gfporder + 1) size align flags num rem
      else mret (num, gfporder, rem)
  end.
Definition calculate_slab_order (size align flags : Z) : outcome (Z * Z * Z) :=
  slab_order_loop (Z.to_nat (KMALLOC_MAX_ORDER + 1)) 0 size align flags 0 0.

(** ** Pages *)

Fixpoint for_pages (n : nat) (i : Z) (f : page -> page) (z : zone_t) : outcome zone_t :=
  match n with
  | O => mret z
  | S n => z ← upd_page i f z; for_pages n (i + 1) f z
  end.

Definition kmem_getpages (c flags : Z) (s : slab_st) : outcome (slab_st * option Z) :=
  k ← deref (caches s !! c);
  '(z, page) ← alloc_pages (szone s) (Z.lor flags (gfpflags k)) (gfporder k);
  match page with
  | None => mret (set_szone z s, None)
  | Some i =>
      z ← for_pages (Z.to_nat (Z.shiftl 1 (gfporder k))) i SetPageSlab z;
      mret (set_szone z s, Some (page_address i))
  end.

Definition kmem_freepages (c addr : Z) (s : slab_st) : outcome slab_st :=
  k ← deref (caches s !! c);
  let page := virt_to_page (szone s) addr in
  z ← for_pages (Z.to_nat (Z.shiftl 1 (gfporder k))) page ClearPageSlab (szone s);
  z ← free_pages_ (Some page) z (gfporder k);
  mret (set_szone z s).

Definition page_set_cache (page c : Z) : zone_t -> outcome zone_t :=
  on_nodes (set_next (Some (Lru page)) (Some (Mem c))).
Definition page_set_slab (page a : Z) : zone_t -> outcome zone_t :=
  on_nodes (set_prev (Some (Lru page)) (Some (Mem a))).
Definition mem_addr (p : option ptr) : outcome Z :=
  match p with Some (Mem a) => mret a | _ => Fault end.
Definition page_get_cache (page : Z) (z : zone_t) : outcome Z :=
  page ← compound_head z page; p ← get_next (Some (Lru page)) (nodes z); mem_addr p.
Definition page_get_slab (page : Z) (z : zone_t) : outcome Z :=
  p ← get_prev (Some (Lru page)) (nodes z); mem_addr p.
Definition virt_to_cache (obj : Z) (z : zone_t) : outcome Z :=
  page ← virt_to_head_page z obj; page_get_cache page z.
Definition virt_to_slab (obj : Z) (z : zone_t) : outcome Z :=
  page ← virt_to_head_page z obj; page_get_slab page z.

(** slab_map_pages: the do-while loop, [n] pages left. *)
Fixpoint map_pages (n : nat) (page first c slabp : Z) (z : zone_t) : outcome zone_t :=
  match n with
  | O => mret z
  | S n =>
      z ← upd_page page (with_first_page (Some first)) z;
      z ← page_set_cache page c z;
      z ← page_set_slab page slabp z;
      map_pages n (page + 1) first c slabp z
  end.
Definition slab_map_pages (c slabp objp : Z) (s : slab_st) : outcome slab_st :=
  k ← deref (caches s !! c);
  let page := virt_to_page (szone s) objp in
  on_zone (map_pages (Z.to_nat (Z.shiftl 1 (gfporder k))) page page c slabp) s.

(** ** Lists of a cache *)

Definition kmem_list3_init (c : Z) (s : slab_st) : outcome slab_st :=
  s ← on_snodes (INIT_LIST_HEAD (Some (SFull c))) s;
  s ← on_snodes (INIT_LIST_HEAD (Some (SPartial c))) s;
  s ← on_snodes (INIT_LIST_HEAD (Some (SFree c))) s;
  upd_cache c (set_free_objects 0) s.

(** list_entry(entry, struct slab_s, list). *)
Definition slab_entry (p : option snode) : outcome Z :=
  match p with Some (SList a) => mret a | _ => Fault end.

(** Memory that becomes a list node. *)
Definition new_node (n : snode) (s : slab_st) : slab_st :=
  set_snodes (<[n := mk_list_head None None]> (snodes s)) s.

(** ** Objects of a slab *)

Section code.
Context (junk : Z -> kmem_cache) (call : Z -> Z -> slab_st -> outcome slab_st).

Definition call_opt (fn : option Z) (obj : Z) (s : slab_st) : outcome slab_st :=
  match fn with None => mret s | Some f => call f obj s end.

(** The loop of cache_init_objs, from object [n - 1] down to 0. *)
Fixpoint init_objs (n : nat) (ptr slabp : Z) (k : kmem_cache) (s : slab_st) : outcome slab_st :=
  match n with
  | O => mret s
  | S n =>
      let objp := u32 (ptr + Z.of_nat n * objsize k) in
      b ← deref (slabs s !! slabp);
      let s := write_link objp (free_list b) s in
      s ← upd_slab slabp (set_free_list (Some objp)) s;
      s ← call_opt (ctor k) objp s;
      init_objs n ptr slabp k s
  end.
Definition cache_init_objs (c slabp : Z) (s : slab_st) : outcome slab_st :=
  s ← upd_slab slabp (set_free_list None) s;
  b ← deref (slabs s !! slabp);
  k ← deref (caches s !! c);
  init_objs (Z.to_nat (num k)) (s_mem b) slabp k s.

Definition slab_get_obj (c slabp : Z) (s : slab_st) : outcome (slab_st * Z) :=
  b ← deref (slabs s !! slabp);
  objp ← deref (free_list b);
  nx ← deref (links s !! objp);
  s ← upd_slab slabp (set_free_list nx) s;
  s ← upd_slab slabp (fun b => set_inuse (u32 (inuse b + 1)) b) s;
  s ← upd_cache c (fun k => set_free_objects (u32 (free_objects k - 1)) k) s;
  mret (s, objp).

Definition slab_put_obj (slabp objp : Z) (s : slab_st) : outcome slab_st :=
  b ← deref (slabs s !! slabp);
  let s := write_link objp (free_list b) s in
  s ← upd_slab slabp (set_free_list (Some objp)) s;
  upd_slab slabp (fun b => set_inuse (u32 (inuse b - 1)) b) s.

(** ** Growing a cache, allocating, freeing

    kmem_cache_alloc and cache_grow call each other when slab descriptors are
    off slab, kmem_cache_free and slab_destroy likewise: [alloc] and [free]
    are the recursive calls, tied below with the depth of the recursion. *)

Section open_alloc.
Context (alloc : Z -> Z -> slab_st -> outcome (slab_st * option Z)).

Definition alloc_slabmgmt (c objp colour_off flags : Z) (s : slab_st)
  : outcome (slab_st * option Z) :=
  k ← deref (caches s !! c);
  '(s, slabp, colour_off) ←
    (if OFF_SLAB k then
       sc ← deref (slabp_cache k);
       '(s, r) ← alloc sc flags s; mret (s, r, colour_off)
     else mret (s, Some (u32 (objp + colour_off)), u32 (colour_off + slab_size k)));
  match slabp with
  | None => mret (s, None)
  | Some a =>
      s ← on_snodes (INIT_LIST_HEAD (Some (SList a))) (new_node (SList a) s);
      let s := set_slabs (<[a := mk_slab colour_off (u32 (objp + colour_off)) 0 0 None]> (slabs s)) s in
      mret (s, Some a)
  end.

Definition cache_grow (c flags : Z) (s : slab_st) : outcome (slab_st * Z) :=
  k ← deref (caches s !! c);
  let offset := colour_next k in
  s ← upd_cache c (fun k => set_colour_next (u32 (colour_next k + 1)) k) s;
  s ← upd_cache c (fun k => if colour k <=? colour_next k then set_colour_next 0 k else k) s;
  let offset := u32 (offset * colour_off k) in
  '(s, objp) ← kmem_getpages c flags s;
  match objp with
  | None => mret (s, 0)
  | Some objp =>
      '(s, slabp) ← alloc_slabmgmt c objp offset flags s;
      match slabp with
      | None => s ← kmem_freepages c objp s; mret (s, 0)
      | Some a =>
          s ← slab_map_pages c a objp s;
          s ← cache_init_objs c a s;
          s ← on_snodes (list_add_tail (Some (SFree c)) (Some (SList a))) s;
          s ← upd_cache c (fun k => set_free_objects (u32 (free_objects k + num k)) k) s;
          mret (s, 1)
      end
  end.

(** The end of cache_alloc_refill: an object of the slab at [entry]. *)
Definition take_from (c slabp : Z) (s : slab_st) : outcome (slab_st * option Z) :=
  '(s, objp) ← slab_get_obj c slabp s;
  b ← deref (slabs s !! slabp);
  match free_list b with
  | None =>
      s ← on_snodes (list_del (Some (SList slabp))) s;
      s ← on_snodes (list_add (Some (SFull c)) (Some (SList slabp))) s;
      mret (s, Some objp)
  | Some _ => mret (s, Some objp)
  end.

Definition cache_alloc_refill (c flags : Z) (s : slab_st) : outcome (slab_st * option Z) :=
  entry ← get_next (Some (SPartial c)) (snodes s);
  if bool_decide (entry = Some (SPartial c)) then
    entry ← get_next (Some (SFree c)) (snodes s);
    '(s, x) ← (if bool_decide (entry = Some (SFree c)) then cache_grow c flags s else mret (s, 1));
    if x =? 0 then mret (s, None)
    else
      entry ← get_next (Some (SFree c)) (snodes s);
      slabp ← slab_entry entry;
      s ← on_snodes (list_del (Some (SList slabp))) s;
      s ← on_snodes (list_add (Some (SPartial c)) (Some (SList slabp))) s;
      take_from c slabp s
  else
    slabp ← slab_entry entry;
    take_from c slabp s.
End open_alloc.

Fixpoint kmem_cache_alloc (depth : nat) (c flags : Z) (s : slab_st) : outcome (slab_st * option Z) :=
  match depth with
  | O => Spin
  | S d => cache_alloc_refill (kmem_cache_alloc d) c flags s
  end.

Definition kmem_cache_zalloc (depth : nat) (c flags : Z) (s : slab_st) : outcome (slab_st * option Z) :=
  '(s, objp) ← kmem_cache_alloc depth c flags s;
  match objp with
  | None => mret (s, None)
  | Some a => mret (write_link a None s, Some a)
  end.

Section open_free.
Context (free : Z -> Z -> slab_st -> outcome slab_st).

Fixpoint call_dtors (n : nat) (i mem : Z) (k : kmem_cache) (s : slab_st) : outcome slab_st :=
  match n with
  | O => mret s
  | S n => s ← call_opt (dtor k) (u32 (mem + objsize k * i)) s; call_dtors n (i + 1) mem k s
  end.

Definition slab_destroy (c slabp : Z) (s : slab_st) : outcome slab_st :=
  k ← deref (caches s !! c);
  b ← deref (slabs s !! slabp);
  s ← call_dtors (Z.to_nat (num k)) 0 (s_mem b) k s;
  if OFF_SLAB k then
    s ← kmem_freepages c (s_mem b) s;
    sc ← deref (slabp_cache k);
    free sc slabp s
  else kmem_freepages c (u32 (s_mem b - colouroff b)) s.

Definition cache_free_body (c objp : Z) (s : slab_st) : outcome slab_st :=
  slabp ← virt_to_slab objp (szone s);
  b ← deref (slabs s !! slabp);
  k ← deref (caches s !! c);
  let was_full := inuse b =? num k in
  s ← slab_put_obj slabp objp s;
  s ← upd_cache c (fun k => set_free_objects (u32 (free_objects k + 1)) k) s;
  b ← deref (slabs s !! slabp);
  k ← deref (caches s !! c);
  if inuse b =? 0 then
    s ← on_snodes (list_del (Some (SList slabp))) s;
    if free_limit k <? free_objects k then
      s ← upd_cache c (fun k => set_free_objects (u32 (free_objects k - num k)) k) s;
      slab_destroy c slabp s
    else on_snodes (list_add (Some (SFree c)) (Some (SList slabp))) s
  else if was_full then
    s ← on_snodes (list_del (Some (SList slabp))) s;
    on_snodes (list_add_tail (Some (SPartial c)) (Some (SList slabp))) s
  else mret s.
End open_free.

Fixpoint kmem_cache_free (depth : nat) (c objp : Z) (s : slab_st) : outcome slab_st :=
  match depth with
  | O => Spin
  | S d => cache_free_body (kmem_cache_free d) c objp s
  end.

(** ** Creating caches *)

(** [while (size <= ralign / 2) ralign /= 2;] *)
Fixpoint halve_ralign (fuel : nat) (size ralign : Z) : outcome Z :=
  if size <=? ralign / 2 then
    match fuel with O => Spin | S fuel => halve_ralign fuel size (ralign / 2) end
  else mret ralign.

Definition kmem_cache_create (size align flags : Z) (fn : option Z) (s : slab_st)
  : outcome (slab_st * option Z) :=
  let size := if negb (Z.land size (BYTES_PER_WORD - 1) =? 0) then KALIGN size BYTES_PER_WORD else size in
  _ ← (if negb (Z.land flags SLAB_HWCACHE_ALIGN =? 0) then halve_ralign 32 size cache_line_size
       else mret BYTES_PER_WORD);
  '(s, r) ← kmem_cache_alloc 2 (cache_cache s) 0 s;
  match r with
  | None => mret (s, None)
  | Some c =>
      let old := default (junk c) (caches s !! c) in
      let s := set_caches (<[c := old]> (caches s)) s in
      s ← kmem_list3_init c (new_node (SFull c) (new_node (SPartial c) (new_node (SFree c) s)));
      let size := KALIGN size align in
      '(n, order, left_over) ← calculate_slab_order size align flags;
      if n =? 0 then
        s ← kmem_cache_free 2 (cache_cache s) c s; mret (s, None)
      else
        let slab_size := if negb (Z.land flags CFLGS_OFF_SLAB =? 0) then sizeof_slab
                         else KALIGN sizeof_slab align in
        let coff := if cache_line_size <? align then align else cache_line_size in
        cc ← deref (caches s !! cache_cache s);
        let k := mk_cache size flags n n 0 order (gfpflags old) (left_over / coff) coff (colour_next old)
                   (slabp_cache cc) slab_size fn (dtor old) in
        let s := set_caches (<[c := k]> (caches s)) s in
        s ← on_snodes (INIT_LIST_HEAD (Some (CNext c))) (new_node (CNext c) s);
        s ← on_snodes (list_add (Some CacheChain) (Some (CNext c))) s;
        mret (s, Some c)
  end.

(** The loop of kmem_cache_init over malloc_sizes. *)
Fixpoint create_sizes (sizes : list Z) (s : slab_st) : outcome slab_st :=
  match sizes with
  | [] => mret s
  | z :: sizes =>
      '(s, r) ← kmem_cache_create z KMALLOC_MINALIGN (Z.lor CFLGS_OFF_SLAB KMALLOC_FLAGS) None s;
      let s := set_sizes (<[z := r]> (cs_cachep s)) s in
      match r with None => mret s | Some _ => create_sizes sizes s end
  end.

(** The order loop of kmem_cache_init. *)
Fixpoint init_order_loop (n : nat) (order objsize num left : Z) : outcome (Z * Z * Z) :=
  match n with
  | O => mret (num, order, left)
  | S n =>
      '(num, left) ← cache_estimate order objsize cache_line_size 0;
      if num =? 0 then init_order_loop n (order + 1) objsize num left else mret (num, order, left)
  end.

Definition kmem_cache_init (s : slab_st) : outcome slab_st :=
  let c := cache_cache s in
  s ← on_snodes (INIT_LIST_HEAD (Some CacheChain)) (new_node CacheChain s);
  s ← on_snodes (INIT_LIST_HEAD (Some (CNext c))) (new_node (CNext c) s);
  s ← on_snodes (list_add (Some CacheChain) (Some (CNext c))) s;
  let osize := KALIGN sizeof_kmem_cache cache_line_size in
  s ← kmem_list3_init c (new_node (SFull c) (new_node (SPartial c) (new_node (SFree c) s)));
  '(n, order, left_over) ← init_order_loop 11 0 osize 0 0;
  k ← deref (caches s !! c);
  let k := mk_cache osize (cflags k) n n 0 order (gfpflags k) (left_over / cache_line_size)
             cache_line_size 0 (slabp_cache k) (KALIGN sizeof_slab cache_line_size) None None in
  let s := set_caches (<[c := k]> (caches s)) s in
  '(s, sc) ← kmem_cache_create sizeof_slab KMALLOC_MINALIGN SLAB_HWCACHE_ALIGN None s;
  s ← upd_cache c (fun k => mk_cache (objsize k) (cflags k) (num k) (free_limit k) (free_objects k)
        (gfporder k) (gfpflags k) (colour k) (colour_off k) (colour_next k) sc (slab_size k)
        (ctor k) (dtor k)) s;
  create_sizes malloc_sizes s.

Definition init_slab (s : slab_st) : outcome slab_st := kmem_cache_init s.

(** ** kmalloc, kfree *)

Fixpoint kmalloc_size (sizes : list Z) (size : Z) : option Z :=
  match sizes with
  | [] => None
  | z :: sizes => if z <? size then kmalloc_size sizes size else Some z
  end.

Definition kmalloc (size flags : Z) (s : slab_st) : outcome (slab_st * option Z) :=
  match kmalloc_size malloc_sizes size with
  | None => mret (s, None)
  | Some z =>
      p ← deref (cs_cachep s !! z);
      c ← deref p;
      kmem_cache_alloc 2 c flags s
  end.

Definition kfree (objp : option Z) (s : slab_st) : outcome slab_st :=
  match objp with
  | None => mret s
  | Some a =>
      p ← get_next (Some (Lru (virt_to_page (szone s) a))) (nodes (szone s));
      c ← mem_addr p;
      kmem_cache_free 2 c a s
  end.

End code.
