(* ===== verification/SlabProofs.v ===== *)
(** * Correctness of the slab allocator

    For one cache: [L] gives the slabs on its partial, full and free lists,
    [fr a] the free objects of slab [a], first one first.  [cache_inv] ties
    them to the state; allocation removes exactly one free object, release
    puts exactly one back, and slabs are always on the list that their number
    of free objects calls for. *)

From Stdlib Require Import Sorted.
From S2P Require Import Prelude ListHead Zone Buddy Slab.

(** ** Sizes *)

Lemma KALIGN_pow2 x k :
  0 <= k < 32 -> 0 <= x < 2 ^ 32 - 2 ^ k ->
  x <= KALIGN x (2 ^ k) < x + 2 ^ k /\ KALIGN x (2 ^ k) mod 2 ^ k = 0.
Proof.
  intros Hk Hx. assert (0 < 2 ^ k) by (apply Z.pow_pos_nonneg; lia).
  assert (2 ^ k <= 2 ^ 31) by (apply Z.pow_le_mono_r; lia). unfold KALIGN.
  rewrite (u32_small (x + _)) by lia.
  replace (u32 (Z.lnot (2 ^ k - 1))) with (Z.ldiff (Z.ones 32) (Z.ones k)).
  2:{ replace (2 ^ k - 1) with (Z.ones k) by (rewrite Z.ones_equiv; lia).
      unfold u32. apply Z.bits_inj'. intros n Hn. rewrite Z.ldiff_spec. destruct (decide (n < 32)).
      - rewrite Z.mod_pow2_bits_low, Z.lnot_spec, Z.ones_spec_low by lia. done.
      - by rewrite Z.mod_pow2_bits_high, Z.ones_spec_high by lia. }
  rewrite land_mask32 by lia.
  pose proof (Z.mod_pos_bound (x + (2 ^ k - 1)) (2 ^ k) ltac:(lia)). split; [lia|].
  rewrite Zminus_mod, Z.mod_mod, Z.sub_diag by lia. by rewrite Z.mod_0_l by lia.
Qed.

Definition off_slab (flags : Z) : bool := negb (Z.land flags CFLGS_OFF_SLAB =? 0).
Definition mgmt_bytes (align flags : Z) : Z := if off_slab flags then 0 else slab_mgmt_size align.

(** Objects, descriptor and left-over space make up the slab exactly, and no
    further object would fit.  The code lowers its first estimate by one object
    only, so the padding of the descriptor must not exceed one object. *)
Lemma cache_estimate_spec order size a flags :
  0 <= order <= 10 -> 1 <= size < 2 ^ 31 -> 0 <= a <= 11 ->
  slab_mgmt_size (2 ^ a) - sizeof_slab <= size ->
  exists n left, cache_estimate order size (2 ^ a) flags = Ret (n, left) /\ 0 <= n /\ 0 <= left /\
    n * size + mgmt_bytes (2 ^ a) flags + left = 4096 * 2 ^ order /\
    4096 * 2 ^ order < (n + 1) * size + mgmt_bytes (2 ^ a) flags.
Proof.
  intros Ho Hs Ha Hpad. unfold cache_estimate, mgmt_bytes, off_slab. rewrite Z.shiftl_mul_pow2 by lia.
  unfold PAGE_SIZE. assert (1 <= 2 ^ order <= 2 ^ 10).
  { split; [|apply Z.pow_le_mono_r; lia]. pose proof (Z.pow_pos_nonneg 2 order). lia. }
  set (S := 4096 * 2 ^ order). assert (HS : 4096 <= S <= 2 ^ 22) by lia. clearbody S.
  rewrite (u32_small S) by lia. rewrite (proj2 (Z.eqb_neq size 0)) by lia.
  assert (Hdiv : forall x, 0 <= x -> x / size * size <= x < (x / size + 1) * size /\ 0 <= x / size).
  { intros x Hx. pose proof (Z.div_mod x size ltac:(lia)). pose proof (Z.mod_pos_bound x size ltac:(lia)).
    split; [nia|]. apply Z.div_pos; lia. }
  destruct (negb _).
  - destruct (Hdiv S ltac:(lia)) as [? ?]. eexists _, _. split; [done|].
    rewrite u32_small by lia. split_and!; lia.
  - unfold slab_mgmt_size, sizeof_slab in *.
    assert (2 ^ a <= 2 ^ 11) by (apply Z.pow_le_mono_r; lia). change (2 ^ 11) with 2048 in *.
    destruct (KALIGN_pow2 28 a ltac:(lia) ltac:(lia)) as [Hm _]. set (m := KALIGN 28 (2 ^ a)) in *.
    rewrite (u32_small (S - 28)) by lia. destruct (Hdiv (S - 28) ltac:(lia)) as [Hq Hq0].
    set (q := (S - 28) / size) in *. clearbody q m.
    rewrite (u32_small (m + q * size)) by lia.
    assert (Hsz : (q - 1) * size = q * size - size) by lia.
    assert (Hsz' : (q + 1) * size = q * size + size) by lia.
    destruct (Z.ltb_spec S (m + q * size)) as [Hlt|Hge].
    + destruct (decide (q = 0)) as [->|]; [lia|].
      assert (Hq1 : 0 <= q - 1 <= q * size) by nia.
      eexists _, _. split; [done|]. rewrite !u32_small by lia.
      replace (q - 1 + 1) with q by lia. split_and!; lia.
    + assert (Hq1 : q <= q * size) by nia.
      eexists _, _. split; [done|]. rewrite !u32_small by lia. split_and!; lia.
Qed.

Lemma slab_order_loop_spec n : forall o size a flags m r,
  0 <= o -> o + Z.of_nat n = 11 -> 1 <= size < 2 ^ 31 -> 0 <= a <= 11 ->
  slab_mgmt_size (2 ^ a) - sizeof_slab <= size -> 0 <= mgmt_bytes (2 ^ a) flags ->
  size + mgmt_bytes (2 ^ a) flags <= 4096 * 2 ^ 10 ->
  (forall o', 0 <= o' < o -> 4096 * 2 ^ o' < size + mgmt_bytes (2 ^ a) flags) ->
  exists k ord left, slab_order_loop n o size (2 ^ a) flags m r = Ret (k, ord, left) /\
    1 <= k /\ 0 <= ord <= 10 /\ 0 <= left /\
    k * size + mgmt_bytes (2 ^ a) flags + left = 4096 * 2 ^ ord /\
    (forall o', 0 <= o' < ord -> 4096 * 2 ^ o' < size + mgmt_bytes (2 ^ a) flags).
Proof.
  induction n as [|n IH]; intros o size a flags m r Ho Hn Hs Ha Hpad Hm0 Hfit Hlow.
  - exfalso. specialize (Hlow 10 ltac:(lia)). lia.
  - cbn [slab_order_loop].
    destruct (cache_estimate_spec o size a flags) as (k & left & -> & Hk & Hl & Heq & Hmax); try lia.
    cbn [mbind outcome_bind]. destruct (Z.eqb_spec k 0) as [->|Hne].
    + apply IH; try lia; try done. intros o' Ho'. destruct (decide (o' = o)) as [->|]; [lia|].
      apply Hlow. lia.
    + eexists _, _, _. split; [done|]. split_and!; try lia. done.
Qed.

(** C40. calculate_slab_order picks the smallest page order in which at least one
    object fits, and splits the slab exactly into objects, on-slab descriptor
    and left-over space. *)
Theorem calculate_slab_order_correct size a flags :
  1 <= size -> 0 <= a <= 11 -> slab_mgmt_size (2 ^ a) - sizeof_slab <= size ->
  size + mgmt_bytes (2 ^ a) flags <= 4096 * 2 ^ KMALLOC_MAX_ORDER ->
  exists k ord left, calculate_slab_order size (2 ^ a) flags = Ret (k, ord, left) /\
    1 <= k /\ 0 <= ord <= KMALLOC_MAX_ORDER /\ 0 <= left /\
    k * size + mgmt_bytes (2 ^ a) flags + left = PAGE_SIZE * 2 ^ ord /\
    (forall o', 0 <= o' < ord -> PAGE_SIZE * 2 ^ o' < size + mgmt_bytes (2 ^ a) flags).
Proof.
  intros Hs Ha Hpad Hfit. unfold KMALLOC_MAX_ORDER in *.
  assert (Hm : 0 <= mgmt_bytes (2 ^ a) flags).
  { unfold mgmt_bytes. destruct (off_slab flags); [lia|]. unfold slab_mgmt_size, sizeof_slab.
    assert (2 ^ a <= 2 ^ 11) by (apply Z.pow_le_mono_r; lia). pose proof (KALIGN_pow2 28 a). lia. }
  apply slab_order_loop_spec; try done; lia.
Qed.

Lemma calculate_slab_order_correct_witness :
  exists k ord left, calculate_slab_order 8192 (2 ^ 3) CFLGS_OFF_SLAB = Ret (k, ord, left) /\
    1 <= k /\ k * 8192 + 0 + left = PAGE_SIZE * 2 ^ ord.
Proof.
  destruct (calculate_slab_order_correct 8192 3 CFLGS_OFF_SLAB) as (k & ord & left & R & Hk & _ & _ & E & _);
    [lia|lia|by vm_compute|by vm_compute|].
  exists k, ord, left. split; [exact R|]. split; [exact Hk|exact E].
Defined.

(** kmalloc serves a request of up to 128 KB from the general cache with the
    smallest object size that is large enough, and refuses larger ones. *)
Theorem kmalloc_size_best_fit size :
  match kmalloc_size malloc_sizes size with
  | Some z => z ∈ malloc_sizes /\ size <= z /\ (forall y, y ∈ malloc_sizes -> size <= y -> z <= y)
  | None => 131072 < size
  end.
Proof.
  assert (Hgen : forall l, StronglySorted Z.lt l ->
    match kmalloc_size l size with
    | Some z => z ∈ l /\ size <= z /\ (forall y, y ∈ l -> size <= y -> z <= y)
    | None => forall y, y ∈ l -> y < size
    end).
  { induction 1 as [|x l Hsort IH Hall]; simpl; [by intros ? ?%elem_of_nil|].
    destruct (Z.ltb_spec x size) as [Hlt|Hge].
    - destruct (kmalloc_size l size) as [z|].
      + destruct IH as (Hin & Hle & Hmin). split_and!; [by right|done|].
        intros y [->|Hy]%elem_of_cons Hsy; [lia|by apply Hmin].
      + intros y [->|Hy]%elem_of_cons; [done|by apply IH].
    - split_and!; [left|done|]. intros y [->|Hy]%elem_of_cons Hsy; [lia|].
      rewrite Forall_forall in Hall. specialize (Hall y Hy). lia. }
  assert (Hsorted : StronglySorted Z.lt malloc_sizes) by (unfold malloc_sizes; repeat constructor).
  specialize (Hgen malloc_sizes Hsorted). destruct (kmalloc_size malloc_sizes size); [done|].
  apply Hgen. unfold malloc_sizes. repeat (first [left|right]).
Qed.

(** ** Lists of slabs *)

Inductive kind := KPartial | KFull | KFree.
#[global] Instance kind_eq_dec : EqDecision kind.
Proof. solve_decision. Defined.

Definition khead (c : Z) (kd : kind) : snode :=
  match kd with KPartial => SPartial c | KFull => SFull c | KFree => SFree c end.

Definition upd_L (L : kind -> list Z) (kd : kind) (l : list Z) : kind -> list Z :=
  fun kd' => if decide (kd' = kd) then l else L kd'.

Lemma upd_L_eq L kd l : upd_L L kd l kd = l.
Proof. unfold upd_L. by rewrite decide_True. Qed.
Lemma upd_L_ne L kd l kd' : kd' <> kd -> upd_L L kd l kd' = L kd'.
Proof. intros. unfold upd_L. by rewrite decide_False. Qed.

Record lists_ok (h : gmap snode (list_head snode)) (c : Z) (L : kind -> list Z) : Prop := {
  lo_list : forall kd, is_list h (khead c kd) (SList <$> L kd);
  lo_disj : forall kd kd' a, a ∈ L kd -> a ∈ L kd' -> kd = kd';
}.

Lemma khead_inj c kd kd' : khead c kd = khead c kd' -> kd = kd'.
Proof. by destruct kd, kd'. Qed.
Lemma khead_not_slab c kd a : khead c kd <> SList a.
Proof. by destruct kd. Qed.

Lemma lists_NoDup h c L kd : lists_ok h c L -> NoDup (L kd).
Proof.
  intros Hl. destruct (lo_list _ _ _ Hl kd) as [Hnd _]. apply NoDup_cons in Hnd as [_ Hnd].
  by eapply NoDup_fmap_1.
Qed.

(** Nodes of one list do not occur in another. *)
Lemma lists_frame h c L kd kd' n :
  lists_ok h c L -> kd' <> kd ->
  n ∈ khead c kd' :: (SList <$> L kd') -> n ∉ khead c kd :: (SList <$> L kd).
Proof.
  intros Hl Hne. rewrite !elem_of_cons, !list_elem_of_fmap.
  intros [->|(a & -> & Ha)] [E|(b & E & Hb)].
  - by apply khead_inj in E.
  - by apply khead_not_slab in E.
  - symmetry in E. by apply khead_not_slab in E.
  - injection E as <-. apply Hne. by eapply lo_disj.
Qed.

Lemma lists_del h c L kd l1 a l2 :
  lists_ok h c L -> L kd = l1 ++ a :: l2 ->
  exists h', list_del (Some (SList a)) h = Ret h' /\ lists_ok h' c (upd_L L kd (l1 ++ l2)) /\
    is_Some (h' !! SList a) /\
    (forall n, (forall kd, n ∉ khead c kd :: (SList <$> L kd)) -> h' !! n = h !! n).
Proof.
  intros Hl E. pose proof (lo_list _ _ _ Hl kd) as Hlist. rewrite E, fmap_app in Hlist. simpl in Hlist.
  destruct (list_del_spec _ _ _ _ _ Hlist) as (h' & R & Hn & Hl' & Hf). exists h'.
  split; [done|]. split_and!; [split| |].
  - intros kd'. unfold upd_L. case_decide as Hd; [subst; by rewrite fmap_app|].
    eapply is_list_frame; [exact Hf| |by apply (lo_list _ _ _ Hl)]. intros n Hin Hin'.
    eapply (lists_frame h c L kd kd'); [done|done|exact Hin|]. rewrite E, fmap_app. simpl.
    rewrite !elem_of_cons, !elem_of_app, !elem_of_cons in *. tauto.
  - assert (Hsub : forall kd0 b, b ∈ upd_L L kd (l1 ++ l2) kd0 -> b ∈ L kd0).
    { intros kd0 b. unfold upd_L. case_decide; subst; [|done]. rewrite E, !elem_of_app, elem_of_cons. tauto. }
    intros kd1 kd2 b H1 H2. apply (lo_disj _ _ _ Hl _ _ b); by apply Hsub.
  - by rewrite Hn.
  - intros n Hn'. destruct Hf as [_ Hf]. apply Hf. specialize (Hn' kd). rewrite E, fmap_app in Hn'.
    simpl in Hn'. rewrite !elem_of_cons, !elem_of_app, !elem_of_cons in *. tauto.
Qed.

Lemma lists_ok_insert h h' c L kd l a ks :
  lists_ok h c L -> (forall kd', a ∉ L kd') -> (forall x, x ∈ l <-> x = a \/ x ∈ L kd) ->
  is_list h' (khead c kd) (SList <$> l) -> dom_frame h h' ks ->
  (forall n, n ∈ ks -> n ∈ SList a :: khead c kd :: (SList <$> L kd)) ->
  lists_ok h' c (upd_L L kd l).
Proof.
  intros Hl Ha Hel Hli Hf Hks. split.
  - intros kd'. unfold upd_L. case_decide as Hd; [by subst|].
    eapply is_list_frame; [exact Hf| |by apply (lo_list _ _ _ Hl)]. intros n Hin Hin'.
    apply Hks in Hin'. apply elem_of_cons in Hin' as [->|Hin'].
    + apply elem_of_cons in Hin as [E|(b & [= <-] & Hb)%list_elem_of_fmap]; [|by apply (Ha kd')].
      symmetry in E. by apply khead_not_slab in E.
    + by eapply (lists_frame h c L kd kd').
  - intros kd1 kd2 b. unfold upd_L. intros H1 H2.
    destruct (decide (kd1 = kd)) as [->|], (decide (kd2 = kd)) as [->|]; try done.
    + apply Hel in H1 as [->|H1]; [by apply Ha in H2|]. by eapply lo_disj.
    + apply Hel in H2 as [->|H2]; [by apply Ha in H1|]. by eapply lo_disj.
    + by eapply lo_disj.
Qed.

Lemma not_in_khead h c L kd a : (forall kd', a ∉ L kd') -> lists_ok h c L ->
  SList a ∉ khead c kd :: (SList <$> L kd).
Proof.
  intros Ha _. rewrite elem_of_cons, list_elem_of_fmap. intros [E|(b & [= <-] & Hb)].
  - symmetry in E. by apply khead_not_slab in E.
  - by apply (Ha kd).
Qed.

Lemma lists_add h c L kd a :
  lists_ok h c L -> (forall kd', a ∉ L kd') -> is_Some (h !! SList a) ->
  exists h', list_add (Some (khead c kd)) (Some (SList a)) h = Ret h' /\
    lists_ok h' c (upd_L L kd (a :: L kd)) /\ dom_frame h h' (SList a :: khead c kd :: (SList <$> L kd)).
Proof.
  intros Hl Ha Hs.
  destruct (list_add_spec _ _ _ _ (lo_list _ _ _ Hl kd) (not_in_khead _ _ _ _ _ Ha Hl) Hs)
    as (h' & R & Hl' & Hf).
  exists h'. split; [done|]. split; [|exact Hf]. eapply lists_ok_insert; [done|done| |exact Hl'|exact Hf|done].
  intros x. by rewrite elem_of_cons.
Qed.

Lemma lists_add_tail h c L kd a :
  lists_ok h c L -> (forall kd', a ∉ L kd') -> is_Some (h !! SList a) ->
  exists h', list_add_tail (Some (khead c kd)) (Some (SList a)) h = Ret h' /\
    lists_ok h' c (upd_L L kd (L kd ++ [a])) /\ dom_frame h h' (SList a :: khead c kd :: (SList <$> L kd)).
Proof.
  intros Hl Ha Hs.
  destruct (list_add_tail_spec _ _ _ _ (lo_list _ _ _ Hl kd) (not_in_khead _ _ _ _ _ Ha Hl) Hs)
    as (h' & R & Hl' & Hf).
  exists h'. split; [done|]. split; [|exact Hf]. eapply lists_ok_insert; [done|done| |rewrite fmap_app; exact Hl'|exact Hf|done].
  intros x. rewrite elem_of_app, list_elem_of_singleton. tauto.
Qed.

Lemma removed_not_in h c L kd l1 a l2 :
  lists_ok h c L -> L kd = l1 ++ a :: l2 -> forall kd', a ∉ upd_L L kd (l1 ++ l2) kd'.
Proof.
  intros Hl E kd'. unfold upd_L. case_decide as Hd.
  - pose proof (lists_NoDup _ _ _ kd Hl) as Hnd. rewrite E, <- Permutation_middle in Hnd.
    by apply NoDup_cons in Hnd as [? _].
  - intros Hin. apply Hd. apply (lo_disj _ _ _ Hl _ _ a); [done|]. rewrite E.
    apply elem_of_app. right. left.
Qed.

(** ** The invariant of a cache *)

Definition objs (k : kmem_cache) (b : slab_s) : list Z :=
  (fun i => s_mem b + i * objsize k) <$> seqZ 0 (num k).

(** The free list threaded through the free objects. *)
Fixpoint lchain (w : gmap Z (option Z)) (p : option Z) (l : list Z) : Prop :=
  match l with
  | [] => p = None
  | x :: l => p = Some x /\ exists n, w !! x = Some n /\ lchain w n l
  end.

Lemma lchain_frame w x v p l : x ∉ l -> lchain w p l -> lchain (<[x := v]> w) p l.
Proof.
  revert p. induction l as [|y l IH]; intros p Hx; simpl; [done|].
  apply not_elem_of_cons in Hx as [Hne Hx]. intros (-> & n & Hn & Hc). split; [done|].
  exists n. rewrite lookup_insert_ne by done. auto.
Qed.

Record slab_ok (s : slab_st) (k : kmem_cache) (a : Z) (b : slab_s) (fr : list Z) : Prop := {
  so_desc : slabs s !! a = Some b;
  so_chain : lchain (links s) (free_list b) fr;
  so_inuse : inuse b = num k - Z.of_nat (length fr);
  so_nodup : NoDup fr;
  so_objs : forall x, x ∈ fr -> x ∈ objs k b;
}.

(** Number of free objects on the three lists. *)
Definition total_free (L : kind -> list Z) (fr : Z -> list Z) : Z :=
  foldr (fun a n => Z.of_nat (length (fr a)) + n) 0 (L KPartial ++ L KFull ++ L KFree).

Record cache_inv (s : slab_st) (c : Z) (k : kmem_cache) (L : kind -> list Z) (fr : Z -> list Z)
  : Prop := {
  ci_cache : caches s !! c = Some k;
  ci_num : 0 < num k < 2 ^ 31;
  ci_lists : lists_ok (snodes s) c L;
  ci_slab : forall kd a, a ∈ L kd -> exists b, slab_ok s k a b (fr a);
  ci_disj : forall kd a kd' a' b b' x, a ∈ L kd -> a' ∈ L kd' -> a <> a' ->
    slabs s !! a = Some b -> slabs s !! a' = Some b' -> x ∈ objs k b -> x ∉ objs k b';
  ci_count : free_objects k = u32 (total_free L fr);
}.

(** Every slab is on the list that fits its number of free objects. *)
Definition kinds_ok (k : kmem_cache) (L : kind -> list Z) (fr : Z -> list Z) : Prop :=
  forall kd a, a ∈ L kd ->
    match kd with
    | KPartial => 0 < Z.of_nat (length (fr a)) < num k
    | KFull => fr a = []
    | KFree => Z.of_nat (length (fr a)) = num k
    end.

Definition upd_fr (fr : Z -> list Z) (a : Z) (l : list Z) : Z -> list Z :=
  fun a' => if decide (a' = a) then l else fr a'.

Lemma upd_fr_eq fr a l : upd_fr fr a l a = l.
Proof. unfold upd_fr. by rewrite decide_True. Qed.
Lemma upd_fr_ne fr a l a' : a' <> a -> upd_fr fr a l a' = fr a'.
Proof. intros. unfold upd_fr. by rewrite decide_False. Qed.

(** *** Counting *)

Definition sum_free (fr : Z -> list Z) (l : list Z) : Z :=
  foldr (fun a n => Z.of_nat (length (fr a)) + n) 0 l.

Lemma sum_free_perm fr l l' : l ≡ₚ l' -> sum_free fr l = sum_free fr l'.
Proof. unfold sum_free. induction 1; simpl; lia. Qed.

Lemma sum_free_upd fr a l xs :
  NoDup xs -> a ∈ xs ->
  sum_free (upd_fr fr a l) xs = sum_free fr xs + Z.of_nat (length l) - Z.of_nat (length (fr a)).
Proof.
  intros Hnd Hin. apply list_elem_of_split in Hin as (l1 & l2 & ->).
  rewrite !(sum_free_perm _ _ _ (symmetry (Permutation_middle l1 l2 a))).
  rewrite <- Permutation_middle in Hnd. apply NoDup_cons in Hnd as [Hni _]. simpl.
  rewrite upd_fr_eq.
  enough (E : sum_free (upd_fr fr a l) (l1 ++ l2) = sum_free fr (l1 ++ l2)) by (unfold sum_free in *; lia).
  revert Hni. generalize (l1 ++ l2) as ys. induction ys as [|y ys IH]; [done|].
  rewrite not_elem_of_cons. intros [Hne Hni]. simpl. rewrite upd_fr_ne by congruence.
  unfold sum_free in *. simpl. rewrite IH by done. done.
Qed.

Definition all_slabs (L : kind -> list Z) : list Z := L KPartial ++ L KFull ++ L KFree.

Lemma elem_of_all_slabs L a : a ∈ all_slabs L <-> exists kd, a ∈ L kd.
Proof.
  unfold all_slabs. rewrite !elem_of_app. split; [naive_solver|]. intros [[] ?]; auto.
Qed.

Lemma all_slabs_NoDup h c L : lists_ok h c L -> NoDup (all_slabs L).
Proof.
  intros Hl. unfold all_slabs. rewrite !NoDup_app.
  split_and!; try (by eapply lists_NoDup); intros a Ha; rewrite ?elem_of_app.
  - intros [Hb|Hb]; by apply (lo_disj _ _ _ Hl _ _ a Ha) in Hb.
  - intros Hb. by apply (lo_disj _ _ _ Hl _ _ a Ha) in Hb.
Qed.

(** Moving a slab between lists permutes the slabs. *)
Lemma all_slabs_move L kd l1 a l2 kd' l :
  L kd = l1 ++ a :: l2 -> l ≡ₚ a :: upd_L L kd (l1 ++ l2) kd' ->
  all_slabs (upd_L (upd_L L kd (l1 ++ l2)) kd' l) ≡ₚ all_slabs L.
Proof.
  intros E Hl. unfold all_slabs, upd_L in *.
  destruct kd, kd'; simpl in *; rewrite Hl, E; solve_Permutation.
Qed.

(** *** One slab changes *)

Lemma free_length s k a b fr : slab_ok s k a b fr -> 0 < num k -> Z.of_nat (length fr) <= num k.
Proof.
  intros Hb Hn. assert (Hle : (length fr <= length (objs k b))%nat).
  { apply submseteq_length, NoDup_submseteq; [apply Hb|]. intros x. apply Hb. }
  unfold objs in Hle. rewrite length_fmap, length_seqZ in Hle. lia.
Qed.

(** What an operation on the cache [c] with the slabs [own] leaves alone. *)
Record cache_frame (s s' : slab_st) (c : Z) (own : Z -> Prop) : Prop := {
  cf_caches : forall c', c' <> c -> caches s' !! c' = caches s !! c';
  cf_slabs : forall a, ~ own a -> slabs s' !! a = slabs s !! a;
  cf_mem : forall a b, slabs s !! a = Some b -> exists b', slabs s' !! a = Some b' /\ s_mem b' = s_mem b;
  cf_nodes : forall n, (forall kd, n <> khead c kd) -> (forall a, own a -> n <> SList a) -> snodes s' !! n = snodes s !! n;
  cf_cache_cache : cache_cache s' = cache_cache s;
  cf_sizes : cs_cachep s' = cs_cachep s;
}.

Lemma cache_frame_trans s1 s2 s3 c own own' : cache_frame s1 s2 c own -> cache_frame s2 s3 c own' ->
  (forall a, own' a -> own a) -> cache_frame s1 s3 c own.
Proof.
  intros [C1 S1 M1 N1 Z1 K1] [C2 S2 M2 N2 Z2 K2] Ho. split; [..|congruence|congruence].
  - intros c' Hc. by rewrite C2, C1.
  - intros a Ha. rewrite S2, S1; [done|done|]. intros Ha'. by apply Ha, Ho.
  - intros a b Hb. destruct (M1 a b Hb) as (b1 & H1 & E1). destruct (M2 a b1 H1) as (b2 & H2 & E2). exists b2. split; [done|congruence].
  - intros n Hh Hn. rewrite N2, N1; [done|done|done|done|]. intros a Ha. by apply Hn, Ho.
Qed.

Lemma cache_frame_nodes s c (own : Z -> Prop) h ks : dom_frame (snodes s) h ks ->
  (forall n, n ∈ ks -> (exists kd, n = khead c kd) \/ (exists a, own a /\ n = SList a)) -> cache_frame s (set_snodes h s) c own.
Proof.
  intros [_ Hf] Hks. split; try done; [by intros a b ?; exists b|]. intros n Hh Ho. apply Hf. intros Hin.
  destruct (Hks n Hin) as [ [kd ->]|(a & Ha & ->)]; [by apply (Hh kd)|by apply (Ho a Ha)].
Qed.

(** The invariant after a step that rewrites one slab descriptor, one link and
    the counter of the cache. *)
Lemma cache_inv_upd s c k L fr s' kd a b b' l n :
  cache_inv s c k L fr -> a ∈ L kd -> slabs s !! a = Some b ->
  caches s' = <[c := set_free_objects (u32 n) k]> (caches s) ->
  slabs s' = <[a := b']> (slabs s) -> snodes s' = snodes s -> s_mem b' = s_mem b ->
  lchain (links s') (free_list b') l -> inuse b' = num k - Z.of_nat (length l) ->
  NoDup l -> (forall x, x ∈ l -> x ∈ objs k b) ->
  (forall a' kd' b0, a' ∈ L kd' -> a' <> a -> slabs s !! a' = Some b0 ->
     lchain (links s) (free_list b0) (fr a') -> lchain (links s') (free_list b0) (fr a')) ->
  n = total_free L fr + Z.of_nat (length l) - Z.of_nat (length (fr a)) ->
  cache_inv s' c (set_free_objects (u32 n) k) L (upd_fr fr a l).
Proof.
  intros Hc Ha Hd Ec Es En Em Hch Hin Hnd Hob Hfr Hn. destruct Hc as [Hck Hnum Hli Hsl Hdj Hct].
  assert (Hobj : objs (set_free_objects (u32 n) k) b' = objs k b)
    by (unfold objs; simpl; by rewrite Em).
  split.
  - by rewrite Ec, lookup_insert_eq.
  - done.
  - by rewrite En.
  - intros kd' a' Ha'. destruct (decide (a' = a)) as [->|Hne].
    + exists b'. rewrite upd_fr_eq. split; try done; [by rewrite Es, lookup_insert_eq|].
      intros x Hx. rewrite Hobj. by apply Hob.
    + destruct (Hsl kd' a' Ha') as [b0 [H1 H2 H3 H4 H5]]. exists b0. rewrite upd_fr_ne by done.
      split; try done; [by rewrite Es, lookup_insert_ne|]. by eapply Hfr.
  - assert (Hres : forall a0 b0, slabs s' !! a0 = Some b0 ->
      exists b00, slabs s !! a0 = Some b00 /\ objs (set_free_objects (u32 n) k) b0 = objs k b00).
    { intros a0 b0. rewrite Es, lookup_insert. case_decide as Hd0; [|intros H0; by exists b0].
      intros [= <-]. subst a0. by exists b. }
    intros kd1 a1 kd2 a2 b1 b2 x Ha1 Ha2 Hne H1 H2.
    apply Hres in H1 as (b1' & H1 & ->), H2 as (b2' & H2 & ->).
    apply (Hdj kd1 a1 kd2 a2); done.
  - simpl. rewrite Hn. f_equal. symmetry. apply (sum_free_upd fr a l (all_slabs L)).
    + by eapply all_slabs_NoDup.
    + apply elem_of_all_slabs. eauto.
Qed.

(** *** Taking an object of a slab *)

Lemma slab_get_obj_spec s c k L fr kd a x rest :
  cache_inv s c k L fr -> a ∈ L kd -> fr a = x :: rest ->
  exists s' n b', slab_get_obj c a s = Ret (s', x) /\
    cache_inv s' c (set_free_objects n k) L (upd_fr fr a rest) /\ slabs s' !! a = Some b' /\
    lchain (links s') (free_list b') rest /\ szone s' = szone s /\ x ∈ objs k b' /\ (x ∉ rest) /\
    cache_frame s s' c (fun a => a ∈ all_slabs L) /\ links s' = links s.
Proof.
  intros Hc Ha Hfr. destruct (ci_slab _ _ _ _ _ Hc kd a Ha) as [b Hb].
  pose proof (free_length _ _ _ _ _ Hb ltac:(apply Hc)) as Hlen. pose proof (ci_num _ _ _ _ _ Hc) as Hnum.
  destruct Hb as [Hd Hch Hin Hnd Hob]. rewrite Hfr in *. simpl in Hlen.
  destruct Hch as (Efl & nx & Hnx & Hch). apply NoDup_cons in Hnd as [Hxr Hnd].
  unfold slab_get_obj. rewrite Hd. simpl. rewrite Efl. simpl. rewrite Hnx. simpl.
  unfold upd_slab. rewrite Hd. simpl. rewrite lookup_insert_eq. simpl. rewrite insert_insert_eq.
  unfold upd_cache. simpl. rewrite (ci_cache _ _ _ _ _ Hc). simpl.
  assert (En : u32 (free_objects k - 1) = u32 (total_free L fr - 1)).
  { rewrite (ci_count _ _ _ _ _ Hc). unfold u32. apply Zminus_mod_idemp_l. }
  eexists _, (u32 (total_free L fr - 1)), _. split; [done|]. split_and!; try done.
  - eapply (cache_inv_upd s c k L fr _ kd a b); [done|done|done|simpl; by rewrite En|done|done|done|..].
    + exact Hch.
    + simpl in *. rewrite u32_small by lia. lia.
    + done.
    + intros y Hy. apply Hob. by right.
    + intros a' kd' b0 _ _ _ H. exact H.
    + rewrite Hfr. simpl. lia.
  - simpl. by rewrite lookup_insert_eq.
  - exact Hch.
  - apply (Hob x). left.
  - assert (Hall : a ∈ all_slabs L) by (apply elem_of_all_slabs; eauto). split; try done; simpl.
    + intros c' Hne. by rewrite lookup_insert_ne.
    + intros a' Ha'. rewrite lookup_insert_ne; [done|]. by intros ->.
    + intros a' b0 Hb0. rewrite lookup_insert. case_decide as Ea; [|eauto]. eexists. split; [done|]. simplify_eq. done.
Qed.

(** *** Moving a slab between lists *)

Lemma cache_inv_lists s c k L fr L' h :
  cache_inv s c k L fr -> lists_ok h c L' -> all_slabs L' ≡ₚ all_slabs L ->
  cache_inv (set_snodes h s) c k L' fr.
Proof.
  intros [Hck Hnum Hli Hsl Hdj Hct] Hl' Hp.
  assert (Hin : forall kd a, a ∈ L' kd -> exists kd', a ∈ L kd').
  { intros kd a Ha. apply elem_of_all_slabs. rewrite <- Hp. apply elem_of_all_slabs. eauto. }
  split; try done.
  - intros kd a Ha. destruct (Hin _ _ Ha) as [kd' Ha']. destruct (Hsl _ _ Ha') as [b []]. by exists b.
  - intros kd1 a1 kd2 a2 b1 b2 x Ha1 Ha2. destruct (Hin _ _ Ha1) as [? ?], (Hin _ _ Ha2) as [? ?].
    by eapply Hdj.
  - rewrite Hct. f_equal. apply (sum_free_perm fr). by symmetry.
Qed.

Lemma moved_frame s c L kd l1 a l2 kd' h1 h2 : L kd = l1 ++ a :: l2 ->
  (forall n, (forall kd, n ∉ khead c kd :: (SList <$> L kd)) -> h1 !! n = snodes s !! n) ->
  dom_frame h1 h2 (SList a :: khead c kd' :: (SList <$> upd_L L kd (l1 ++ l2) kd')) ->
  cache_frame s (set_snodes h2 s) c (fun a => a ∈ all_slabs L).
Proof.
  intros E H1 [_ H2]. split; try done; [by intros x b ?; exists b|]. intros n Hh Ho. cbn [snodes set_snodes].
  assert (Hin : forall kd0 x, x ∈ upd_L L kd (l1 ++ l2) kd0 -> x ∈ all_slabs L).
  { intros kd0 x Hx. apply elem_of_all_slabs. exists kd0. unfold upd_L in Hx. case_decide; [subst|done].
    rewrite E, elem_of_app, elem_of_cons. rewrite elem_of_app in Hx. tauto. }
  rewrite H2, H1; [done| |].
  - intros kd0. rewrite elem_of_cons, list_elem_of_fmap. intros [->|(x & -> & Hx)]; [by apply (Hh kd0)|].
    apply (Ho x); [|done]. apply elem_of_all_slabs. eauto.
  - rewrite !elem_of_cons, list_elem_of_fmap. intros [->|[->|(x & -> & Hx)] ]; [|by apply (Hh kd')|by apply (Ho x); [eapply Hin|] ].
    apply (Ho a); [|done]. apply elem_of_all_slabs. exists kd. rewrite E, elem_of_app, elem_of_cons. tauto.
Qed.

Lemma move_front s c k L fr kd l1 a l2 kd' :
  cache_inv s c k L fr -> L kd = l1 ++ a :: l2 ->
  exists s' L', (s1 ← on_snodes (list_del (Some (SList a))) s;
       on_snodes (list_add (Some (khead c kd')) (Some (SList a))) s1) = Ret s' /\
    L' = (let L1 := upd_L L kd (l1 ++ l2) in upd_L L1 kd' (a :: L1 kd')) /\
    cache_inv s' c k L' fr /\ szone s' = szone s /\ slabs s' = slabs s /\ links s' = links s /\
    cache_frame s s' c (fun a => a ∈ all_slabs L).
Proof.
  intros Hc E. pose proof (ci_lists _ _ _ _ _ Hc) as Hl.
  destruct (lists_del _ _ _ _ _ _ _ Hl E) as (h1 & R1 & Hl1 & Hs1 & Hf1).
  destruct (lists_add h1 c _ kd' a Hl1 (removed_not_in _ _ _ _ _ _ _ Hl E) Hs1) as (h2 & R2 & Hl2 & Hf2).
  eexists (set_snodes h2 s), _. unfold on_snodes. rewrite R1. simpl. rewrite R2. simpl.
  split; [done|]. split; [done|]. split; [|split_and!; [done..|by eapply moved_frame] ].
  eapply cache_inv_lists; [exact Hc|exact Hl2|].
  by apply (all_slabs_move L kd l1 a l2 kd').
Qed.

Lemma move_back s c k L fr kd l1 a l2 kd' :
  cache_inv s c k L fr -> L kd = l1 ++ a :: l2 ->
  exists s' L', (s1 ← on_snodes (list_del (Some (SList a))) s;
       on_snodes (list_add_tail (Some (khead c kd')) (Some (SList a))) s1) = Ret s' /\
    L' = (let L1 := upd_L L kd (l1 ++ l2) in upd_L L1 kd' (L1 kd' ++ [a])) /\
    cache_inv s' c k L' fr /\ szone s' = szone s /\ slabs s' = slabs s /\ links s' = links s /\
    cache_frame s s' c (fun a => a ∈ all_slabs L).
Proof.
  intros Hc E. pose proof (ci_lists _ _ _ _ _ Hc) as Hl.
  destruct (lists_del _ _ _ _ _ _ _ Hl E) as (h1 & R1 & Hl1 & Hs1 & Hf1).
  destruct (lists_add_tail h1 c _ kd' a Hl1 (removed_not_in _ _ _ _ _ _ _ Hl E) Hs1) as (h2 & R2 & Hl2 & Hf2).
  eexists (set_snodes h2 s), _. unfold on_snodes. rewrite R1. simpl. rewrite R2. simpl.
  split; [done|]. split; [done|]. split; [|split_and!; [done..|by eapply moved_frame] ].
  eapply cache_inv_lists; [exact Hc|exact Hl2|].
  apply (all_slabs_move L kd l1 a l2 kd'); [done|].
  symmetry. apply Permutation_cons_append.
Qed.

(** ** Allocation *)

(** The list a slab belongs on, for all slabs but [a]. *)
Definition kinds_except (k : kmem_cache) (a : Z) (L : kind -> list Z) (fr : Z -> list Z) : Prop :=
  forall kd a', a' <> a -> a' ∈ L kd ->
    match kd with
    | KPartial => 0 < Z.of_nat (length (fr a')) < num k
    | KFull => fr a' = []
    | KFree => Z.of_nat (length (fr a')) = num k
    end.

Lemma kinds_ok_except k a L fr : kinds_ok k L fr -> kinds_except k a L fr.
Proof. intros H kd a' _. apply H. Qed.

Lemma kinds_except_move k a L fr kd l1 l2 kd' l :
  L kd = l1 ++ a :: l2 -> (forall x, x ∈ l -> x = a \/ x ∈ upd_L L kd (l1 ++ l2) kd') ->
  kinds_except k a L fr -> kinds_except k a (upd_L (upd_L L kd (l1 ++ l2)) kd' l) fr.
Proof.
  intros E Hl Hk kd0 a' Hne Hin.
  assert (Hsub : forall kd1, a' ∈ upd_L L kd (l1 ++ l2) kd1 -> a' ∈ L kd1).
  { intros kd1. unfold upd_L. case_decide; [subst|done]. rewrite E, !elem_of_app, elem_of_cons. tauto. }
  apply (Hk kd0 a' Hne). apply Hsub. unfold upd_L at 1 in Hin. case_decide as Hd; [|done]. subst.
  destruct (Hl _ Hin); [done|]. done.
Qed.

Lemma kinds_except_fr k a L fr l : kinds_except k a L fr -> kinds_except k a L (upd_fr fr a l).
Proof. intros Hk kd a' Hne Hin. rewrite upd_fr_ne by done. by apply Hk. Qed.

Lemma kinds_except_ok k a L fr kd :
  kinds_except k a L fr -> a ∈ L kd -> (forall kd', a ∈ L kd' -> kd' = kd) ->
  match kd with
  | KPartial => 0 < Z.of_nat (length (fr a)) < num k
  | KFull => fr a = []
  | KFree => Z.of_nat (length (fr a)) = num k
  end -> kinds_ok k L fr.
Proof.
  intros Hk Ha Hu Hkd kd0 a' Hin. destruct (decide (a' = a)) as [->|]; [|by apply Hk].
  by rewrite (Hu _ Hin).
Qed.

(** The bookkeeping of an allocation: [x] leaves the free list of slab [a]. *)
Record alloc_result (s : slab_st) (c : Z) (k : kmem_cache) (L : kind -> list Z) (fr : Z -> list Z)
    (s' : slab_st) (x a : Z) (n : Z) (L' : kind -> list Z) (rest : list Z) : Prop := {
  ar_inv : cache_inv s' c (set_free_objects n k) L' (upd_fr fr a rest);
  ar_kinds : kinds_ok k L' (upd_fr fr a rest);
  ar_slab : a ∈ all_slabs L;
  ar_obj : fr a = x :: rest;
  ar_slabs : all_slabs L' ≡ₚ all_slabs L;
  ar_zone : szone s' = szone s;
  ar_use : exists b, slabs s' !! a = Some b /\ x ∈ objs k b /\ x ∉ rest;
  ar_frame : cache_frame s s' c (fun a => a ∈ all_slabs L);
  ar_links : links s' = links s;
}.

Lemma take_from_spec s c k L fr l1 a l2 x rest :
  cache_inv s c k L fr -> kinds_except k a L fr -> L KPartial = l1 ++ a :: l2 -> fr a = x :: rest ->
  exists s' n L', take_from c a s = Ret (s', Some x) /\ alloc_result s c k L fr s' x a n L' rest.
Proof.
  intros Hc Hk E Hfr. assert (Ha : a ∈ L KPartial) by (rewrite E; apply elem_of_app; right; left).
  destruct (ci_slab _ _ _ _ _ Hc _ _ Ha) as [b0 Hb0].
  pose proof (free_length _ _ _ _ _ Hb0 ltac:(apply Hc)) as Hlen. rewrite Hfr in Hlen. simpl in Hlen.
  destruct (slab_get_obj_spec s c k L fr KPartial a x rest Hc Ha Hfr)
    as (s1 & n & b & R & Hc1 & Hb & Hch & Hz & Hxo & Hxr & Hfr1 & Hln1).
  unfold take_from. rewrite R. cbn [mbind outcome_bind]. rewrite Hb. cbn [mbind outcome_bind deref].
  assert (Hall : a ∈ all_slabs L) by (apply elem_of_all_slabs; eauto).
  destruct rest as [|y rest]; simpl in Hch.
  - rewrite Hch.
    destruct (move_front s1 c _ L _ KPartial l1 a l2 KFull Hc1 E) as (s2 & L' & R2 & -> & Hc2 & Hz2 & Es2 & Hln2 & Hfr2).
    simpl in R2. apply bind_Ret_inv in R2 as (t & Rt & R2). rewrite Rt. cbn [mbind outcome_bind].
    rewrite R2. cbn [mbind outcome_bind]. eexists _, n, _. split; [done|].
    pose proof (ci_lists _ _ _ _ _ Hc2) as Hl2. split; [exact Hc2| |done|done| |congruence|exists b; by rewrite Es2|by eapply cache_frame_trans|congruence].
    + apply (kinds_except_ok k a _ _ KFull).
      * apply kinds_except_fr. apply (kinds_except_move _ _ L); [done| |done].
        intros z. rewrite elem_of_cons. tauto.
      * cbv zeta. rewrite upd_L_eq. left.
      * intros kd' Hin. eapply (lo_disj _ _ _ Hl2); [exact Hin|]. cbv zeta. rewrite upd_L_eq. left.
      * by rewrite upd_fr_eq.
    + by apply (all_slabs_move L KPartial l1 a l2 KFull).
  - destruct Hch as [-> _]. eexists _, n, L. split; [done|]. split; [done| |done|done|done|done|by exists b|done|done].
    apply (kinds_except_ok k a _ _ KPartial).
    + by apply kinds_except_fr.
    + done.
    + intros kd' Hin. by eapply (lo_disj _ _ _ (ci_lists _ _ _ _ _ Hc)).
    + rewrite upd_fr_eq. simpl in *. lia.
Qed.

Section with_call.
Context (call : Z -> Z -> slab_st -> outcome slab_st).

Lemma cache_alloc_spec d s c k L fr fl :
  cache_inv s c k L fr -> kinds_ok k L fr -> L KPartial <> [] \/ L KFree <> [] ->
  exists s' x a n L' rest, kmem_cache_alloc call (S d) c fl s = Ret (s', Some x) /\
    alloc_result s c k L fr s' x a n L' rest.
Proof.
  intros Hc Hk Hav. pose proof (ci_lists _ _ _ _ _ Hc) as Hl. cbn [kmem_cache_alloc].
  unfold cache_alloc_refill. pose proof (is_list_first _ _ _ (lo_list _ _ _ Hl KPartial)) as HP.
  simpl in HP. rewrite HP. cbn [mbind outcome_bind].
  destruct (L KPartial) as [|a l] eqn:EP.
  - simpl. rewrite bool_decide_eq_true_2 by done.
    pose proof (is_list_first _ _ _ (lo_list _ _ _ Hl KFree)) as HF. simpl in HF. rewrite HF.
    cbn [mbind outcome_bind]. destruct (L KFree) as [|a l] eqn:EF; [by destruct Hav|]. simpl.
    assert (Ha : a ∈ L KFree) by (rewrite EF; left).
    destruct (move_front s c k L fr KFree [] a l KPartial Hc EF) as (s1 & L1 & R1 & -> & Hc1 & Hz1 & _ & Hln1 & Hfr1).
    simpl in R1. apply bind_Ret_inv in R1 as (t & Rt & R1).
    rewrite HF. simpl. rewrite Rt. cbn [mbind outcome_bind]. rewrite R1. cbn [mbind outcome_bind].
    set (L1 := upd_L _ _ _) in *.
    assert (Hlen : Z.of_nat (length (fr a)) = num k) by (apply (Hk KFree a Ha)).
    pose proof (ci_num _ _ _ _ _ Hc). destruct (fr a) as [|x rest] eqn:Efr; [simpl in Hlen; lia|].
    destruct (take_from_spec s1 c k L1 fr [] a (L KPartial) x rest) as (s2 & n & L2 & R2 & []).
    + done.
    + apply (kinds_except_move _ _ L); [done| |by apply kinds_ok_except].
      intros z. rewrite elem_of_cons. unfold upd_L. simpl. rewrite EP. tauto.
    + unfold L1, upd_L. simpl. done.
    + done.
    + eexists _, _, a, n, L2, rest. split; [exact R2|].
      assert (Hp : all_slabs L1 ≡ₚ all_slabs L) by (by apply (all_slabs_move L KFree [] a l KPartial)).
      split; [done|done|by rewrite <- Hp|done|by rewrite ar_slabs0|congruence|done| |congruence].
      eapply cache_frame_trans; [exact Hfr1|exact ar_frame0|]. intros z Hz. cbv beta in *. by rewrite <- Hp.
  - simpl.
    assert (Ha : a ∈ L KPartial) by (rewrite EP; left).
    pose proof (Hk KPartial a Ha) as Hlen. destruct (fr a) as [|x rest] eqn:Efr; [simpl in Hlen; lia|].
    destruct (take_from_spec s c k L fr [] a l x rest) as (s2 & n & L2 & R2 & Hres);
      [done|by apply kinds_ok_except|done|done|].
    eexists _, _, a, n, L2, rest. split; [exact R2|done].
Qed.

(** ** Release *)

Record free_result (s : slab_st) (c : Z) (k : kmem_cache) (L : kind -> list Z) (fr : Z -> list Z)
    (s' : slab_st) (x a : Z) (n : Z) (L' : kind -> list Z) : Prop := {
  fr_inv : cache_inv s' c (set_free_objects n k) L' (upd_fr fr a (x :: fr a));
  fr_kinds : kinds_ok k L' (upd_fr fr a (x :: fr a));
  fr_slabs : all_slabs L' ≡ₚ all_slabs L;
  fr_zone : szone s' = szone s;
  fr_frame : cache_frame s s' c (fun z => z ∈ all_slabs L);
  fr_links : forall y, y <> x -> links s' !! y = links s !! y;
}.

(** An object in use: one of the slab, not on its free list. *)
Definition in_use (s : slab_st) (k : kmem_cache) (fr : Z -> list Z) (a x : Z) : Prop :=
  exists b, slabs s !! a = Some b /\ x ∈ objs k b /\ (x ∉ fr a).

Lemma in_use_length s c k L fr kd a x :
  cache_inv s c k L fr -> a ∈ L kd -> in_use s k fr a x -> Z.of_nat (length (fr a)) + 1 <= num k.
Proof.
  intros Hc Ha (b & Hb & Hx & Hni). destruct (ci_slab _ _ _ _ _ Hc kd a Ha) as [b' Hb'].
  pose proof (so_desc _ _ _ _ _ Hb') as E. rewrite Hb in E. injection E as <-.
  assert (Hle : (length (x :: fr a) <= length (objs k b))%nat).
  { apply submseteq_length, NoDup_submseteq; [apply NoDup_cons; split; [done|apply Hb']|].
    intros y [->|Hy]%elem_of_cons; [done|by apply Hb']. }
  unfold objs in Hle. rewrite length_fmap, length_seqZ in Hle. simpl in Hle.
  pose proof (ci_num _ _ _ _ _ Hc). lia.
Qed.

(** The object is pushed on the free list of its slab and counted. *)
Lemma put_and_count s c k L fr kd a x :
  cache_inv s c k L fr -> a ∈ L kd -> in_use s k fr a x ->
  exists s1 s2 b', slab_put_obj a x s = Ret s1 /\
    upd_cache c (fun k => set_free_objects (u32 (free_objects k + 1)) k) s1 = Ret s2 /\
    cache_inv s2 c (set_free_objects (u32 (total_free L fr + 1)) k) L (upd_fr fr a (x :: fr a)) /\
    slabs s2 !! a = Some b' /\ inuse b' = num k - Z.of_nat (length (fr a)) - 1 /\ szone s2 = szone s /\
    cache_frame s s2 c (fun z => z ∈ all_slabs L) /\ (forall y, y <> x -> links s2 !! y = links s !! y) /\
    (forall b, slabs s !! a = Some b -> s_mem b' = s_mem b /\ colouroff b' = colouroff b).
Proof.
  intros Hc Ha Hu. pose proof (in_use_length _ _ _ _ _ _ _ _ Hc Ha Hu) as Hlen.
  destruct Hu as (b & Hb & Hx & Hni). destruct (ci_slab _ _ _ _ _ Hc kd a Ha) as [b0 Hb0].
  pose proof (so_desc _ _ _ _ _ Hb0) as E. rewrite Hb in E. injection E as <-.
  pose proof (ci_num _ _ _ _ _ Hc) as Hnum. destruct Hb0 as [_ Hch Hin Hnd Hob].
  unfold slab_put_obj. rewrite Hb. simpl. unfold upd_slab. simpl. rewrite Hb. simpl.
  rewrite lookup_insert_eq. simpl. rewrite insert_insert_eq.
  eexists _, _, _. split; [done|]. unfold upd_cache. simpl. rewrite (ci_cache _ _ _ _ _ Hc). simpl.
  split; [done|].
  assert (En : u32 (free_objects k + 1) = u32 (total_free L fr + 1)).
  { rewrite (ci_count _ _ _ _ _ Hc). apply u32_add_l. }
  split_and!; [|simpl; by rewrite lookup_insert_eq| |done| | |].
  - eapply (cache_inv_upd s c k L fr _ kd a b); [done|done|done|simpl; by rewrite En|done|done|done|..].
    + simpl. split; [done|]. exists (free_list b). rewrite lookup_insert_eq. split; [done|].
      by apply lchain_frame.
    + simpl. rewrite u32_small by lia. lia.
    + apply NoDup_cons. done.
    + intros y [->|Hy]%elem_of_cons; [done|by apply Hob].
    + intros a' kd' b' Ha' Hne Hb' Hch'. simpl. apply lchain_frame; [|done].
      destruct (ci_slab _ _ _ _ _ Hc kd' a' Ha') as [b'' [Hd'' _ _ _ Hob'']].
      rewrite Hb' in Hd''. injection Hd'' as <-. intros Hin'.
      apply (ci_disj _ _ _ _ _ Hc kd a kd' a' b b' x); try done. by apply Hob''.
    + simpl. lia.
  - simpl. rewrite u32_small by lia. lia.
  - assert (Hall : a ∈ all_slabs L) by (apply elem_of_all_slabs; eauto). split; try done; simpl.
    + intros c' Hne. by rewrite lookup_insert_ne.
    + intros a' Ha'. rewrite lookup_insert_ne; [done|]. by intros ->.
    + intros a' b0 Hb0. rewrite lookup_insert. case_decide; [|eauto]. eexists. split; [done|]. simplify_eq. done.
  - intros y Hy. simpl. by rewrite lookup_insert_ne.
  - by intros b0 [= <-].
Qed.

Lemma cache_free_spec d s c k L fr kd a x :
  cache_inv s c k L fr -> kinds_ok k L fr -> a ∈ L kd -> in_use s k fr a x ->
  virt_to_slab x (szone s) = Ret a ->
  Z.of_nat (length (fr a)) + 1 < num k \/ u32 (total_free L fr + 1) <= free_limit k ->
  exists s' n L', kmem_cache_free call (S d) c x s = Ret s' /\ free_result s c k L fr s' x a n L'.
Proof.
  intros Hc Hk Ha Hu Hv Hkeep. pose proof (in_use_length _ _ _ _ _ _ _ _ Hc Ha Hu) as Hlen.
  destruct (put_and_count _ _ _ _ _ _ _ _ Hc Ha Hu) as (s1 & s2 & b' & R1 & R2 & Hc2 & Hb' & Hin' & Hz2 & Hfm2 & Hln2 & _).
  destruct (ci_slab _ _ _ _ _ Hc kd a Ha) as [b Hb].
  cbn [kmem_cache_free]. unfold cache_free_body. rewrite Hv. cbn [mbind outcome_bind].
  rewrite (so_desc _ _ _ _ _ Hb). cbn [mbind outcome_bind deref].
  rewrite (ci_cache _ _ _ _ _ Hc). cbn [mbind outcome_bind deref].
  rewrite R1. cbn [mbind outcome_bind]. rewrite R2. cbn [mbind outcome_bind].
  rewrite Hb'. cbn [mbind outcome_bind deref]. rewrite (ci_cache _ _ _ _ _ Hc2). cbn [mbind outcome_bind deref].
  rewrite (so_inuse _ _ _ _ _ Hb), Hin'.
  set (n := u32 (total_free L fr + 1)) in *.
  apply list_elem_of_split in Ha as Hs. destruct Hs as (l1 & l2 & E).
  assert (Huniq : forall kd', a ∈ L kd' -> kd' = kd).
  { intros kd' Hin. by eapply (lo_disj _ _ _ (ci_lists _ _ _ _ _ Hc)). }
  destruct (Z.eqb_spec (num k - Z.of_nat (length (fr a)) - 1) 0) as [Hz|Hnz].
  - cbn [free_limit set_free_objects free_objects].
    rewrite (proj2 (Z.ltb_ge (free_limit k) n)) by (unfold n; lia).
    destruct (move_front s2 c _ L _ kd l1 a l2 KFree Hc2 E) as (s3 & L' & R3 & -> & Hc3 & Hz3 & _ & Hln3 & Hfm3).
    simpl in R3. rewrite R3. eexists _, n, _. split; [done|].
    pose proof (ci_lists _ _ _ _ _ Hc3) as Hl3. split; [exact Hc3| | |congruence|by eapply cache_frame_trans|by rewrite Hln3].
    + apply (kinds_except_ok k a _ _ KFree).
      * apply kinds_except_fr. apply (kinds_except_move _ _ L); [done| |by apply kinds_ok_except].
        intros z. rewrite elem_of_cons. tauto.
      * cbv zeta. rewrite upd_L_eq. left.
      * intros kd' Hin. eapply (lo_disj _ _ _ Hl3); [exact Hin|]. cbv zeta. rewrite upd_L_eq. left.
      * rewrite upd_fr_eq. simpl. lia.
    + by apply (all_slabs_move L kd l1 a l2 KFree).
  - destruct (Z.eqb_spec (num k - Z.of_nat (length (fr a))) (num k)) as [Hfull|Hnf].
    + destruct (move_back s2 c _ L _ kd l1 a l2 KPartial Hc2 E) as (s3 & L' & R3 & -> & Hc3 & Hz3 & _ & Hln3 & Hfm3).
      simpl in R3. rewrite R3. eexists _, n, _. split; [done|].
      pose proof (ci_lists _ _ _ _ _ Hc3) as Hl3.
      assert (Hain : a ∈ upd_L (upd_L L kd (l1 ++ l2)) KPartial (upd_L L kd (l1 ++ l2) KPartial ++ [a]) KPartial).
      { rewrite upd_L_eq. apply elem_of_app. right. left. }
      split; [exact Hc3| | |congruence|by eapply cache_frame_trans|by rewrite Hln3].
      * apply (kinds_except_ok k a _ _ KPartial).
        -- apply kinds_except_fr. apply (kinds_except_move _ _ L); [done| |by apply kinds_ok_except].
           intros z. rewrite elem_of_app, list_elem_of_singleton. tauto.
        -- exact Hain.
        -- intros kd' Hin. eapply (lo_disj _ _ _ Hl3); [exact Hin|exact Hain].
        -- rewrite upd_fr_eq. simpl. lia.
      * apply (all_slabs_move L kd l1 a l2 KPartial); [done|]. symmetry. apply Permutation_cons_append.
    + eexists _, n, L. split; [done|]. split; [exact Hc2| |done|done|done|done].
      pose proof (Hk kd a Ha) as Hkd. apply (kinds_except_ok k a _ _ kd).
      * apply kinds_except_fr. by apply kinds_ok_except.
      * done.
      * done.
      * rewrite upd_fr_eq. destruct kd; simpl; [lia| |lia]. rewrite Hkd in *. simpl in *. lia.
Qed.

End with_call.

(** ** New slabs *)

Lemma elem_of_objs k b x :
  x ∈ objs k b <-> exists i, 0 <= i < num k /\ x = s_mem b + i * objsize k.
Proof.
  unfold objs. rewrite list_elem_of_fmap. setoid_rewrite elem_of_seqZ.
  split; intros (i & H1 & H2); exists i; split; lia.
Qed.

Lemma init_objs_spec call n : forall ptr a k s b l,
  ctor k = None -> 4 <= objsize k -> 0 <= ptr -> ptr + Z.of_nat n * objsize k <= 2 ^ 32 ->
  slabs s !! a = Some b -> lchain (links s) (free_list b) l ->
  (forall i, 0 <= i < Z.of_nat n -> ptr + i * objsize k ∉ l) ->
  exists s' b', init_objs call n ptr a k s = Ret s' /\
    slabs s' = <[a := b']> (slabs s) /\ caches s' = caches s /\ snodes s' = snodes s /\
    szone s' = szone s /\ cache_cache s' = cache_cache s /\ cs_cachep s' = cs_cachep s /\
    s_mem b' = s_mem b /\ inuse b' = inuse b /\ colouroff b' = colouroff b /\
    lchain (links s') (free_list b') (((fun i => ptr + i * objsize k) <$> seqZ 0 (Z.of_nat n)) ++ l) /\
    (forall x, (forall i, 0 <= i < Z.of_nat n -> x <> ptr + i * objsize k) -> links s' !! x = links s !! x).
Proof.
  induction n as [|n IH]; intros ptr a k s b l Hct Hsz Hp Hw Hb Hch Hni.
  - exists s, b. rewrite insert_id by done. split_and!; try done.
  - cbn [init_objs]. rewrite Hb. simpl. unfold upd_slab. simpl. rewrite Hb. simpl. rewrite Hct. simpl.
    rewrite (u32_small (ptr + Z.of_nat n * objsize k)) by nia.
    set (x := ptr + Z.of_nat n * objsize k) in *.
    set (s1 := set_slabs _ _).
    assert (Hx : x ∉ l) by (apply Hni; lia).
    destruct (IH ptr a k s1 (set_free_list (Some x) b) (x :: l)) as (s' & b' & R & Es & Ec & En & Ez & Ecc & Esz & Hm & Hi & Hco & Hch' & Hfr).
    + done.
    + done.
    + done.
    + lia.
    + simpl. by rewrite lookup_insert_eq.
    + simpl. split; [done|]. exists (free_list b). rewrite lookup_insert_eq. split; [done|].
      by apply lchain_frame.
    + intros i Hi. apply not_elem_of_cons. split; [unfold x; nia|]. apply Hni. lia.
    + exists s', b'. split_and!; try done.
      * rewrite Es. simpl. by rewrite insert_insert_eq.
      * replace (Z.of_nat (S n)) with (Z.of_nat n + 1) by lia. rewrite (seqZ_app 0 (Z.of_nat n) 1) by lia.
        rewrite fmap_app, <- app_assoc. exact Hch'.
      * intros y Hy. rewrite Hfr by (intros; apply Hy; lia). simpl. apply lookup_insert_ne.
        intros <-. apply (Hy (Z.of_nat n)); [lia|done].
Qed.

(** cache_init_objs threads the free list of a new slab through all of its
    objects, in address order, and touches no other link. *)
Theorem cache_init_objs_correct call c a s k b :
  caches s !! c = Some k -> slabs s !! a = Some b -> ctor k = None -> 4 <= objsize k -> 0 < num k ->
  0 <= s_mem b -> s_mem b + num k * objsize k <= 2 ^ 32 -> inuse b = 0 ->
  exists s' b', cache_init_objs call c a s = Ret s' /\ slab_ok s' k a b' (objs k b) /\
    Z.of_nat (length (objs k b)) = num k /\ s_mem b' = s_mem b /\
    szone s' = szone s /\ snodes s' = snodes s /\ caches s' = caches s /\
    cache_cache s' = cache_cache s /\ cs_cachep s' = cs_cachep s /\
    (forall a', a' <> a -> slabs s' !! a' = slabs s !! a') /\
    (forall x, x ∉ objs k b -> links s' !! x = links s !! x).
Proof.
  intros Hk Hb Hct Hsz Hn Hm Hw Hin. unfold cache_init_objs, upd_slab. rewrite Hb. simpl.
  rewrite lookup_insert_eq. simpl. rewrite Hk. simpl. set (s1 := set_slabs _ s).
  destruct (init_objs_spec call (Z.to_nat (num k)) (s_mem b) a k s1 (set_free_list None b) [])
    as (s' & b' & R & Es & Ec & En & Ez & Ecc & Esz & Hm' & Hi' & _ & Hch & Hfr); try done.
  - lia.
  - simpl. by rewrite lookup_insert_eq.
  - intros. by apply not_elem_of_nil.
  - rewrite Z2Nat.id in * by lia. rewrite app_nil_r in Hch. fold (objs k b) in Hch.
    assert (Hob : objs k b' = objs k b) by (unfold objs; by rewrite Hm').
    assert (Hlen : Z.of_nat (length (objs k b)) = num k).
    { unfold objs. rewrite length_fmap, length_seqZ. lia. }
    exists s', b'. split; [exact R|]. split_and!; try done.
    + split.
      * rewrite Es. by rewrite lookup_insert_eq.
      * exact Hch.
      * rewrite Hi', Hlen. simpl. lia.
      * unfold objs. apply NoDup_fmap_2_strong; [|apply NoDup_seqZ]. intros i j _ _ E. nia.
      * intros x. by rewrite Hob.
    + intros a' Ha'. rewrite Es. simpl. by rewrite !lookup_insert_ne.
    + intros x Hx. rewrite Hfr; [done|]. intros i Hi0 ->. apply Hx, elem_of_objs. eauto.
Qed.

(** *** Pages know their slab *)

Lemma map_pages_spec n : forall page first c a z,
  (forall j, page <= j < page + Z.of_nat n -> is_Some (zone_mem_map z !! j) /\ is_Some (nodes z !! Lru j)) ->
  exists z', map_pages n page first c a z = Ret z' /\ zone_start_pfn z' = zone_start_pfn z /\
    present_pages z' = present_pages z /\ nr_free z' = nr_free z /\
    (forall k, nodes z' !! FreeList k = nodes z !! FreeList k) /\
    (forall j, (fun p => (PagePrivate p, private p)) <$> (zone_mem_map z' !! j) =
               (fun p => (PagePrivate p, private p)) <$> (zone_mem_map z !! j)) /\
    (forall j, page <= j < page + Z.of_nat n ->
       (exists p, zone_mem_map z' !! j = Some p /\ first_page p = Some first) /\
       nodes z' !! Lru j = Some (mk_list_head (Some (Mem c)) (Some (Mem a)))) /\
    (forall j, ~ (page <= j < page + Z.of_nat n) ->
       zone_mem_map z' !! j = zone_mem_map z !! j /\ nodes z' !! Lru j = nodes z !! Lru j).
Proof.
  induction n as [|n IH]; intros page first c a z Hz.
  - exists z. split_and!; try done. lia.
  - cbn [map_pages]. destruct (Hz page) as [[p Hp] [v Hv]]; [lia|].
    unfold upd_page. rewrite Hp. simpl. unfold page_set_cache, page_set_slab, on_nodes, set_next, set_prev.
    simpl. rewrite Hv. simpl. rewrite lookup_insert_eq. simpl. rewrite insert_insert_eq.
    set (z1 := with_nodes _ _).
    destruct (IH (page + 1) first c a z1) as (z' & R & Est & Epr & Enr & Hfl & Hpp & Hin & Hout).
    { intros j Hj. simpl. rewrite !lookup_insert_ne; [apply Hz; lia|intros Heq; simplify_eq; lia..]. }
    exists z'. split; [exact R|]. split_and!; try done.
    + intros k. rewrite Hfl. cbn. by rewrite lookup_insert_ne.
    + intros j. rewrite Hpp. cbn. rewrite lookup_insert. case_decide as E; [subst; by rewrite Hp|done].
    + intros j Hj. destruct (decide (j = page)) as [->|]; [|apply Hin; lia].
      destruct (Hout page) as [-> ->]; [lia|]. simpl. rewrite !lookup_insert_eq. split; [|done].
      eexists. split; [done|]. done.
    + intros j Hj. destruct (Hout j) as [-> ->]; [lia|]. simpl.
      rewrite !lookup_insert_ne; [done|intros Heq; simplify_eq; lia..].
Qed.

Lemma virt_to_page_addr z i off :
  zone_start_pfn z = 0 -> 0 <= i < 0x40000 -> 0 <= off < 4096 ->
  virt_to_page z (PAGE_OFFSET + i * 4096 + off) = i.
Proof.
  intros Hz Hi Ho. unfold virt_to_page, pfn_to_page, pa_, PAGE_OFFSET, PAGE_SHIFT.
  rewrite (proj2 (Z.leb_le _ _)) by lia. rewrite u32_small, Hz by lia.
  rewrite Z.shiftr_div_pow2 by lia. change (2 ^ 12) with 4096.
  replace (3221225472 + i * 4096 + off - 3221225472) with (off + i * 4096) by lia.
  rewrite Z.div_add, Z.div_small by lia. lia.
Qed.

(** After slab_map_pages every address inside the pages of a slab leads
    back to the slab and to its cache, so that kmem_cache_free and kfree find
    the descriptor of any object. *)
Theorem slab_map_pages_lookup s c a k first :
  caches s !! c = Some k -> 0 <= gfporder k -> zone_start_pfn (szone s) = 0 -> 0 <= first ->
  first + 2 ^ gfporder k <= 0x40000 ->
  (forall j, first <= j < first + 2 ^ gfporder k ->
     is_Some (zone_mem_map (szone s) !! j) /\ is_Some (nodes (szone s) !! Lru j)) ->
  exists s', slab_map_pages c a (PAGE_OFFSET + first * 4096) s = Ret s' /\
    forall j off, first <= j < first + 2 ^ gfporder k -> 0 <= off < 4096 ->
      virt_to_slab (PAGE_OFFSET + j * 4096 + off) (szone s') = Ret a /\
      virt_to_cache (PAGE_OFFSET + j * 4096 + off) (szone s') = Ret c.
Proof.
  intros Hk Ho Hz Hf Hr Hp. unfold slab_map_pages. rewrite Hk. simpl. unfold on_zone.
  assert (0 < 2 ^ gfporder k) by (apply Z.pow_pos_nonneg; lia). rewrite Z.shiftl_1_l.
  replace (virt_to_page (szone s) (PAGE_OFFSET + first * 4096)) with first.
  2:{ symmetry. replace (PAGE_OFFSET + first * 4096) with (PAGE_OFFSET + first * 4096 + 0) by lia.
      apply virt_to_page_addr; lia. }
  destruct (map_pages_spec (Z.to_nat (2 ^ gfporder k)) first first c a (szone s))
    as (z' & -> & Est & _ & _ & _ & _ & Hin & _); [intros j Hj; apply Hp; lia|].
  rewrite Z2Nat.id in Hin by lia. simpl. eexists. split; [done|]. intros j off Hj Hoff. simpl.
  destruct (Hin first) as [(pf & Hpf & Hff) Hnf]; [lia|]. destruct (Hin j Hj) as [(pj & Hpj & Hfj) _].
  unfold virt_to_slab, virt_to_cache, virt_to_head_page, compound_head.
  rewrite virt_to_page_addr by (rewrite ?Est; lia). rewrite Hpj. simpl. rewrite Hfj. simpl.
  unfold page_get_slab, page_get_cache, compound_head, get_prev, get_next. simpl.
  rewrite Hnf, Hpf. simpl. rewrite Hff. simpl. rewrite Hnf. done.
Qed.

(** page_address and virt_to_page are inverse to each other for frames
    below 1 GB; from there on the kernel address wraps around and the
    translation no longer finds the page. *)
Theorem page_address_roundtrip z i :
  zone_start_pfn z = 0 -> 0 <= i < 0x40000 -> virt_to_page z (page_address i) = i.
Proof.
  intros Hz Hi. replace (page_address i) with (PAGE_OFFSET + i * 4096 + 0).
  - by apply virt_to_page_addr.
  - unfold page_address, va_, page_to_pfn, PAGE_SHIFT, PAGE_OFFSET. rewrite Z.shiftl_mul_pow2 by lia.
    change (2 ^ 12) with 4096. rewrite !u32_small by (rewrite ?u32_small; lia). lia.
Qed.

Example page_address_wraps z : zone_start_pfn z = 0 -> virt_to_page z (page_address 0x40000) = 0.
Proof. intros Hz. unfold virt_to_page, pfn_to_page. rewrite Hz. by vm_compute. Qed.

(** ** Theorems on allocation and release *)

(** kmem_cache_alloc from a cache with a partial or free slab returns a free
    object of one of its slabs and removes exactly it from the free objects;
    the invariant of the cache is kept and every slab is on the list that its
    number of free objects calls for. *)
Theorem kmem_cache_alloc_correct call d s c k L fr fl :
  cache_inv s c k L fr -> kinds_ok k L fr -> L KPartial <> [] \/ L KFree <> [] ->
  exists s' x a n L' rest, kmem_cache_alloc call (S d) c fl s = Ret (s', Some x) /\
    alloc_result s c k L fr s' x a n L' rest.
Proof. apply cache_alloc_spec. Qed.

Lemma alloc_total s c k L fr s' x a n L' rest :
  cache_inv s c k L fr -> alloc_result s c k L fr s' x a n L' rest ->
  total_free L' (upd_fr fr a rest) = total_free L fr - 1.
Proof.
  intros Hc Hr. change (sum_free (upd_fr fr a rest) (all_slabs L') = sum_free fr (all_slabs L) - 1).
  rewrite (sum_free_perm _ _ _ (ar_slabs _ _ _ _ _ _ _ _ _ _ _ Hr)).
  rewrite sum_free_upd, (ar_obj _ _ _ _ _ _ _ _ _ _ _ Hr); [simpl; lia| |apply Hr].
  eapply all_slabs_NoDup. apply Hc.
Qed.

(** C13. An object that is allocated from a partial or free slab and freed again
    leaves every slab with the same free objects in the same order, as long as
    the free objects of the cache are within its [free_limit], so that no slab
    is destroyed. *)
Theorem kmem_alloc_free_roundtrip call d s c k L fr fl s' x :
  cache_inv s c k L fr -> kinds_ok k L fr -> L KPartial <> [] \/ L KFree <> [] ->
  0 <= total_free L fr <= free_limit k -> free_limit k < 2 ^ 32 ->
  (forall kd a y, a ∈ L kd -> y ∈ fr a -> virt_to_slab y (szone s) = Ret a) ->
  kmem_cache_alloc call (S d) c fl s = Ret (s', Some x) ->
  exists s'' n L'' fr'', kmem_cache_free call (S d) c x s' = Ret s'' /\
    cache_inv s'' c (set_free_objects n k) L'' fr'' /\ kinds_ok k L'' fr'' /\
    all_slabs L'' ≡ₚ all_slabs L /\ (forall a, fr'' a = fr a).
Proof.
  intros Hc Hk Hav Ht Hlim Hv R.
  destruct (cache_alloc_spec call d s c k L fr fl Hc Hk Hav) as (s1 & y & a & n & L1 & rest & R1 & Hr).
  rewrite R1 in R. injection R as -> ->. pose proof (alloc_total _ _ _ _ _ _ _ _ _ _ _ Hc Hr) as Htot.
  destruct Hr as [Hi1 Hk1 Ha Hfa Hp Hz Hu].
  assert (Hin1 : exists kd, a ∈ L1 kd) by (apply elem_of_all_slabs; by rewrite Hp).
  destruct Hin1 as [kd1 Ha1]. apply elem_of_all_slabs in Ha as [kd0 Ha0].
  destruct (cache_free_spec call d s' c (set_free_objects n k) L1 (upd_fr fr a rest) kd1 a x)
    as (s2 & n2 & L2 & R2 & [Hi2 Hk2 Hp2 Hz2 _ _]); try done.
  - destruct Hu as (b & ? & ? & ?). exists b. by rewrite upd_fr_eq.
  - rewrite Hz. apply (Hv kd0); [done|]. rewrite Hfa. left.
  - right. rewrite Htot. simpl. rewrite u32_small; lia.
  - exists s2, n2, L2, (upd_fr (upd_fr fr a rest) a (x :: upd_fr fr a rest a)).
    split_and!; try done; [by rewrite Hp2|]. intros a'. rewrite upd_fr_eq.
    destruct (decide (a' = a)) as [->|]; [by rewrite upd_fr_eq|by rewrite !upd_fr_ne].
Qed.

(** ** Witnesses: a cache of 64-byte objects with one slab of three objects on page 1 *)

Definition demo_cache : kmem_cache := mk_cache 64 0 3 3 3 0 0 0 32 0 None 32 None None.
Definition demo_slab : slab_s := mk_slab 32 0xC0001020 0 0 (Some 0xC0001020).
Definition demo_zone : zone_t :=
  mk_zone 0 2 10 10 0 {[ 1 := mk_page true 1 256 0 0 0 (Some 1) ]} ∅
    {[ Lru 1 := mk_list_head (Some (Mem 0x1000)) (Some (Mem 0xC0001000)) ]}.
Definition demo : slab_st :=
  mk_sst demo_zone 0x500 {[ 0x1000 := demo_cache ]} {[ 0xC0001000 := demo_slab ]}
    (list_to_map
      [(SPartial 0x1000, mk_list_head (Some (SPartial 0x1000)) (Some (SPartial 0x1000)));
       (SFull 0x1000, mk_list_head (Some (SFull 0x1000)) (Some (SFull 0x1000)));
       (SFree 0x1000, mk_list_head (Some (SList 0xC0001000)) (Some (SList 0xC0001000)));
       (SList 0xC0001000, mk_list_head (Some (SFree 0x1000)) (Some (SFree 0x1000)))])
    {[ 0xC0001020 := Some 0xC0001060; 0xC0001060 := Some 0xC00010A0; 0xC00010A0 := None ]} ∅.
Definition demo_L (kd : kind) : list Z := match kd with KFree => [0xC0001000] | _ => [] end.
Definition demo_fr (a : Z) : list Z := [0xC0001020; 0xC0001060; 0xC00010A0].
Definition no_call (f o : Z) (s : slab_st) : outcome slab_st := Fault.

Lemma demo_inv : cache_inv demo 0x1000 demo_cache demo_L demo_fr.
Proof.
  assert (Hone : forall kd a, a ∈ demo_L kd -> kd = KFree /\ a = 0xC0001000).
  { intros [] a; simpl; [by intros ?%elem_of_nil..|]. by intros ?%list_elem_of_singleton. }
  split.
  - by vm_compute.
  - simpl. lia.
  - split.
    + intros []; (split; [apply (bool_decide_unpack _); by vm_compute|by vm_compute]).
    + intros kd kd' a H1 H2. apply Hone in H1 as [-> _], H2 as [-> _]. done.
  - intros kd a Ha. apply Hone in Ha as [-> ->]. exists demo_slab. split.
    + by vm_compute.
    + simpl. split; [done|]. eexists. split; [by vm_compute|]. split; [done|].
      eexists. split; [by vm_compute|]. split; [done|]. eexists. split; [by vm_compute|done].
    + done.
    + apply (bool_decide_unpack _). by vm_compute.
    + apply Forall_forall. apply (bool_decide_unpack _). by vm_compute.
  - intros kd a kd' a' b b' x H1 H2 Hne. apply Hone in H1 as [_ ->], H2 as [_ ->]. done.
  - by vm_compute.
Qed.

Lemma demo_kinds : kinds_ok demo_cache demo_L demo_fr.
Proof. intros [] a; simpl; [by intros ?%elem_of_nil..|done]. Qed.

Lemma kmem_cache_alloc_correct_witness :
  exists s' x a n L' rest, kmem_cache_alloc no_call 1 0x1000 0 demo = Ret (s', Some x) /\
    alloc_result demo 0x1000 demo_cache demo_L demo_fr s' x a n L' rest.
Proof.
  apply (kmem_cache_alloc_correct no_call 0 demo 0x1000 demo_cache demo_L demo_fr 0 demo_inv demo_kinds).
  right. done.
Defined.

Lemma kmem_alloc_free_roundtrip_witness :
  exists s' s'' n L'' fr'', kmem_cache_alloc no_call 1 0x1000 0 demo = Ret (s', Some 0xC0001020) /\
    kmem_cache_free no_call 1 0x1000 0xC0001020 s' = Ret s'' /\
    cache_inv s'' 0x1000 (set_free_objects n demo_cache) L'' fr'' /\ forall a, fr'' a = demo_fr a.
Proof.
  destruct (kmem_cache_alloc no_call 1 0x1000 0 demo) as [[s' [x|]]| |] eqn:E; [|by vm_compute in E..].
  assert (x = 0xC0001020) as ->.
  { assert (H : (fun r => match r with Ret (_, Some x) => Some x | _ => None end)
      (kmem_cache_alloc no_call 1 0x1000 0 demo) = Some 0xC0001020) by by vm_compute.
    rewrite E in H. congruence. }
  destruct (kmem_alloc_free_roundtrip no_call 0 demo 0x1000 demo_cache demo_L demo_fr 0 s' 0xC0001020)
    as (s'' & n & L'' & fr'' & R & Hi & _ & _ & Hf).
  - exact demo_inv.
  - exact demo_kinds.
  - right. done.
  - by vm_compute.
  - by vm_compute.
  - intros [] a y; simpl; [by intros ?%elem_of_nil..|]. intros ->%list_elem_of_singleton Hy.
    revert y Hy. apply Forall_forall. apply (bool_decide_unpack _). by vm_compute.
  - exact E.
  - exists s', s'', n, L'', fr''. split; [done|]. split; [exact R|]. split; [exact Hi|exact Hf].
Defined.

Lemma cache_init_objs_correct_witness :
  exists s' b', cache_init_objs no_call 0x1000 0xC0001000 demo = Ret s' /\
    slab_ok s' demo_cache 0xC0001000 b' [0xC0001020; 0xC0001060; 0xC00010A0].
Proof.
  destruct (cache_init_objs_correct no_call 0x1000 0xC0001000 demo demo_cache demo_slab)
    as (s' & b' & R & Hs & _); try (by vm_compute).
  exists s', b'. split; [exact R|exact Hs].
Defined.

Lemma slab_map_pages_lookup_witness :
  exists s', slab_map_pages 0x1000 0x77 (PAGE_OFFSET + 1 * 4096) demo = Ret s' /\
    virt_to_slab (PAGE_OFFSET + 1 * 4096 + 0x123) (szone s') = Ret 0x77.
Proof.
  destruct (slab_map_pages_lookup demo 0x1000 0x77 demo_cache 1) as (s' & R & H).
  - by vm_compute.
  - simpl. lia.
  - done.
  - lia.
  - simpl. lia.
  - simpl. change (2 ^ 0) with 1. intros j Hj. assert (j = 1) as -> by lia.
    split; apply (bool_decide_unpack _); by vm_compute.
  - exists s'. split; [exact R|]. apply (H 1 0x123); simpl; change (2 ^ 0) with 1; lia.
Defined.

Lemma page_address_roundtrip_witness : virt_to_page demo_zone (page_address 0x3ffff) = 0x3ffff.
Proof. apply (page_address_roundtrip demo_zone 0x3ffff); [done|lia]. Defined.
