(* ===== verification/SlabInv.v ===== *)
(** * The invariant of the whole slab allocator

    SlabProofs has the invariant of one cache.  Here all caches share one store
    of slab descriptors, list nodes and links, and their pages come from the
    buddy system: [slab_inv] says that every cache is in its invariant, that the
    slabs of all caches are in disjoint blocks of pages none of which is free,
    that descriptors kept off their slab are objects of the descriptor cache,
    and that cache descriptors are objects of the cache of caches.  So objects
    handed out by any two caches are disjoint, also after caches have grown. *)

From S2P Require Import Prelude ListHead Zone Buddy BuddyInv BuddyProofs BuddySpec Slab SlabProofs.

(** ** Zones that agree for the buddy system *)

(** Page flags and links of pages that head no free block can change. *)
Lemma buddy_inv_frame z z' fl :
  buddy_inv z fl -> present_pages z' = present_pages z -> nr_free z' = nr_free z ->
  (forall j, (fun p => (PagePrivate p, private p)) <$> (zone_mem_map z' !! j) =
             (fun p => (PagePrivate p, private p)) <$> (zone_mem_map z !! j)) ->
  (forall k, in_order k -> nodes z' !! FreeList k = nodes z !! FreeList k) ->
  (forall j, (exists k, in_order k /\ j ∈ fl k) -> nodes z' !! Lru j = nodes z !! Lru j) ->
  (forall j, is_Some (nodes z !! Lru j) -> is_Some (nodes z' !! Lru j)) ->
  buddy_inv z' fl.
Proof.
  intros [] Hp Hn Hm Hf Hl Hd.
  assert (Hpage : forall j p', zone_mem_map z' !! j = Some p' ->
    exists p, zone_mem_map z !! j = Some p /\ PagePrivate p' = PagePrivate p /\ private p' = private p).
  { intros j p' E. specialize (Hm j). rewrite E in Hm. destruct (zone_mem_map z !! j) as [p|]; [|done].
    cbn in Hm. injection Hm as H1 H2. eauto. }
  split; rewrite ?Hp, ?Hn; try done.
  - intros i Hi. destruct (bi_mem i Hi) as [p Hi']. specialize (Hm i). rewrite Hi' in Hm.
    destruct (zone_mem_map z' !! i); [eauto|done].
  - intros i Hi. by apply Hd, bi_lru.
  - intros k Hk. eapply is_list_agree; [|by apply bi_lists]. intros n. rewrite elem_of_cons, list_elem_of_fmap.
    intros [->|(i & -> & Hi)]; [by apply Hf|]. apply Hl. eauto.
  - intros k i p' Hk Hi E. destruct (Hpage i p' E) as (p & Hp1 & -> & ->). by apply bi_private with i.
  - intros i p' E Hpr. destruct (Hpage i p' E) as (p & Hp1 & E1 & ->). rewrite E1 in Hpr. by apply bi_only.
Qed.

Lemma PagePrivate_SetPageSlab p : PagePrivate (SetPageSlab p) = PagePrivate p.
Proof.
  unfold PagePrivate, SetPageSlab, PG_FLAG_private, PG_FLAG_slab. cbn [flags with_flags].
  rewrite !land_pow2_eq by lia. rewrite Z.lor_spec. change (Z.testbit (2 ^ 8) 4) with false. by rewrite orb_false_r.
Qed.

(** ** The state of one cache under changes elsewhere *)

Lemma lchain_agree w w' p l : (forall x, x ∈ l -> w' !! x = w !! x) -> lchain w p l -> lchain w' p l.
Proof.
  revert p. induction l as [|x l IH]; intros p Hag; simpl; [done|]. intros (-> & n & Hn & Hc). split; [done|].
  exists n. rewrite Hag by left. split; [done|]. apply IH; [|done]. intros y Hy. apply Hag. by right.
Qed.

(** The cache [c] after an operation that leaves its parts alone; its descriptor
    may change in fields the invariant does not read. *)
Lemma cache_inv_frame s s' c k k' L fr :
  cache_inv s c k L fr -> caches s' !! c = Some k' ->
  num k' = num k -> objsize k' = objsize k -> free_objects k' = free_objects k ->
  (forall kd, snodes s' !! khead c kd = snodes s !! khead c kd) ->
  (forall a, a ∈ all_slabs L -> snodes s' !! SList a = snodes s !! SList a /\ slabs s' !! a = slabs s !! a) ->
  (forall a x, a ∈ all_slabs L -> x ∈ fr a -> links s' !! x = links s !! x) ->
  cache_inv s' c k' L fr.
Proof.
  intros [Hk Hnum [Hl Hd] Hsl Hdj Hct] Ek En Eo Ef Hheads Hslabs Hlinks.
  assert (Hobj : forall b, objs k' b = objs k b) by (intros b; unfold objs; by rewrite En, Eo).
  assert (Hall : forall kd a, a ∈ L kd -> a ∈ all_slabs L) by (intros; apply elem_of_all_slabs; eauto).
  split; [done|by rewrite En|split; [|done]| | |by rewrite Ef].
  - intros kd. eapply is_list_agree; [|exact (Hl kd)]. intros n. rewrite elem_of_cons, list_elem_of_fmap.
    intros [->|(a & -> & Ha)]; [apply Hheads|]. by apply Hslabs; eauto.
  - intros kd a Ha. destruct (Hsl kd a Ha) as (b & [H1 H2 H3 H4 H5]). exists b. destruct (Hslabs a) as [_ Es]; [eauto|].
    split; rewrite ?En, ?Es; try done.
    + eapply lchain_agree; [|exact H2]. intros x Hx. by apply Hlinks with a; eauto.
    + intros x Hx. rewrite Hobj. by apply H5.
  - intros kd a kd' a' b b' x Ha Ha' Hne. destruct (Hslabs a) as [_ ->]; [eauto|]. destruct (Hslabs a') as [_ ->]; [eauto|].
    rewrite !Hobj. by eapply Hdj.
Qed.

Lemma total_free_ext L fr fr' : (forall a, a ∈ all_slabs L -> fr' a = fr a) -> total_free L fr' = total_free L fr.
Proof.
  change (total_free L fr') with (sum_free fr' (all_slabs L)). change (total_free L fr) with (sum_free fr (all_slabs L)).
  unfold sum_free. induction (all_slabs L) as [|a l IH]; intros He; [done|]. simpl. rewrite He by left.
  f_equal. apply IH. intros. apply He. by right.
Qed.

(** Free lists of slabs of other caches do not matter. *)
Lemma cache_inv_ext s c k L fr fr' : (forall a, a ∈ all_slabs L -> fr' a = fr a) -> cache_inv s c k L fr -> cache_inv s c k L fr'.
Proof.
  intros He [Hk Hnum Hl Hsl Hdj Hct]. split; try done.
  - intros kd a Ha. rewrite He by (apply elem_of_all_slabs; eauto). by apply (Hsl kd).
  - by rewrite (total_free_ext L fr).
Qed.

Lemma kinds_ok_ext k L fr fr' : (forall a, a ∈ all_slabs L -> fr' a = fr a) -> kinds_ok k L fr -> kinds_ok k L fr'.
Proof. intros He Hk kd a Ha. rewrite He by (apply elem_of_all_slabs; eauto). by apply Hk. Qed.

(** The lists and free objects of a cache are determined by the state. *)
Lemma is_list_det {K} `{Countable K} (h : gmap K (list_head K)) hd xs ys : is_list h hd xs -> is_list h hd ys -> xs = ys.
Proof.
  intros [Hx Px] [Hy Py]. apply NoDup_cons in Hx as [Hx _], Hy as [Hy _]. simpl in Px, Py.
  assert (Hgen : forall l m a, (hd ∉ l) -> (hd ∉ m) -> path h (a :: l ++ [hd]) -> path h (a :: m ++ [hd]) -> l = m).
  { induction l as [|x l IH]; intros [|y m] a Hl Hm Pl Pm; [done|..].
    - destruct Pl as (E1 & _), Pm as (E2 & _). rewrite E1 in E2. injection E2 as ->. apply not_elem_of_cons in Hm. tauto.
    - destruct Pl as (E1 & _), Pm as (E2 & _). rewrite E1 in E2. injection E2 as ->. apply not_elem_of_cons in Hl. tauto.
    - destruct Pl as (E1 & _ & Pl), Pm as (E2 & _ & Pm). rewrite E1 in E2. injection E2 as ->.
      apply not_elem_of_cons in Hl as [_ Hl], Hm as [_ Hm]. f_equal. by apply (IH m y). }
  by apply (Hgen xs ys hd).
Qed.

Lemma lchain_det w p l m : lchain w p l -> lchain w p m -> l = m.
Proof.
  revert p m. induction l as [|x l IH]; intros p [|y m]; simpl; try done.
  - by intros -> [? _].
  - by intros [-> _] ?.
  - intros (-> & n & Hn & Hl) (E & n' & Hn' & Hm). injection E as ->. rewrite Hn in Hn'. injection Hn' as <-. f_equal. by eapply IH.
Qed.

Lemma cache_inv_det s c k L fr k' L' fr' : cache_inv s c k L fr -> cache_inv s c k' L' fr' ->
  k' = k /\ (forall kd, L' kd = L kd) /\ (forall a, a ∈ all_slabs L -> fr' a = fr a).
Proof.
  intros [H1 _ H3 H4 _ _] [H1' _ H3' H4' _ _]. rewrite H1 in H1'. injection H1' as <-.
  assert (HL : forall kd, L' kd = L kd).
  { intros kd. pose proof (is_list_det _ _ _ _ (lo_list _ _ _ H3 kd) (lo_list _ _ _ H3' kd)) as E.
    symmetry. apply list_fmap_eq_inj in E; [done|]. by intros ?? [= ->]. }
  split; [done|]. split; [done|]. intros a (kd & Ha)%elem_of_all_slabs. destruct (H4 kd a Ha) as (b & [D1 C1 _ _ _]).
  destruct (H4' kd a) as (b' & [D2 C2 _ _ _]); [by rewrite HL|]. rewrite D1 in D2. injection D2 as <-. by eapply lchain_det.
Qed.

(** ** All caches together *)

(** The slabs on the lists of each cache, the free objects of each slab, the
    first page of each slab and the free blocks of the buddy system. *)
Record world := mk_world {
  w_lists : Z -> kind -> list Z;
  w_free : Z -> list Z;
  w_page : Z -> Z;
  w_blocks : Z -> list Z;
}.

Definition owns (w : world) (c a : Z) : Prop := a ∈ all_slabs (w_lists w c).

(** Kernel address of a page, page of a kernel address. *)
Definition base (i : Z) : Z := PAGE_OFFSET + i * 4096.
Definition pgno (x : Z) : Z := (x - PAGE_OFFSET) / 4096.

Definition desc_size (k : kmem_cache) : Z := if OFF_SLAB k then 0 else slab_size k.

(** Descriptor, objects and all colours fit into the pages of a slab. *)
Record geometry (k : kmem_cache) : Prop := {
  ge_order : in_order (gfporder k);
  ge_obj : 4 <= objsize k;
  ge_ctor : ctor k = None;
  ge_next : colour_next k = 0 \/ 0 <= colour_next k < colour k;
  ge_colour : 0 <= colour k < 2 ^ 31 /\ 0 <= colour_off k;
  ge_desc : OFF_SLAB k = false -> sizeof_slab <= slab_size k;
  ge_fit : desc_size k + num k * objsize k + colour k * colour_off k <= 4096 * 2 ^ gfporder k;
}.

(** Where a slab is: its pages are not free and lead to it, its objects are
    inside, and so is a descriptor kept on the slab, in front of the objects. *)
Record slab_place (z : zone_t) (w : world) (c : Z) (k : kmem_cache) (a : Z) (b : slab_s) : Prop := {
  sp_range : 0 <= w_page w a /\ w_page w a + 2 ^ gfporder k <= present_pages z;
  sp_held : forall j, covers (w_page w a) (gfporder k) j -> ~ free_page (w_blocks w) j;
  sp_map : forall j, covers (w_page w a) (gfporder k) j ->
    (exists p, zone_mem_map z !! j = Some p /\ first_page p = Some (w_page w a)) /\
    nodes z !! Lru j = Some (mk_list_head (Some (Mem c)) (Some (Mem a)));
  sp_objs : base (w_page w a) <= s_mem b /\ s_mem b + num k * objsize k <= base (w_page w a) + 4096 * 2 ^ gfporder k;
  sp_desc : OFF_SLAB k = false -> base (w_page w a) <= a /\ a + sizeof_slab <= s_mem b;
}.

(** An object of the cache [c] in use. *)
Definition used (s : slab_st) (w : world) (c x : Z) : Prop :=
  exists k a b, caches s !! c = Some k /\ owns w c a /\ slabs s !! a = Some b /\ x ∈ objs k b /\ x ∉ w_free w a.

(** A page that is neither free nor part of a slab. *)
Definition spare (s : slab_st) (w : world) (j : Z) : Prop :=
  ~ free_page (w_blocks w) j /\
  forall c k a, caches s !! c = Some k -> owns w c a -> ~ covers (w_page w a) (gfporder k) j.

(** A cache whose slabs are single pages that hold their own descriptors. *)
Record small_cache (k : kmem_cache) (size : Z) : Prop := {
  sc_on : OFF_SLAB k = false;
  sc_order : gfporder k = 0;
  sc_size : size <= objsize k;
}.

Record slab_inv (s : slab_st) (w : world) : Prop := {
  si_buddy : buddy_inv (szone s) (w_blocks w);
  si_start : zone_start_pfn (szone s) = 0;
  si_present : present_pages (szone s) <= 0x40000;
  si_cache : forall c k, caches s !! c = Some k ->
    cache_inv s c k (w_lists w c) (w_free w) /\ kinds_ok k (w_lists w c) (w_free w) /\ geometry k;
  si_place : forall c k a b, caches s !! c = Some k -> owns w c a -> slabs s !! a = Some b ->
    slab_place (szone s) w c k a b;
  si_owner : forall c k c' k' a, caches s !! c = Some k -> caches s !! c' = Some k' -> owns w c a -> owns w c' a -> c = c';
  si_disj : forall c k a c' k' a', caches s !! c = Some k -> caches s !! c' = Some k' -> owns w c a -> owns w c' a' ->
    a <> a' -> blk_disj (w_page w a) (gfporder k) (w_page w a') (gfporder k');
  si_off : forall c k, caches s !! c = Some k -> OFF_SLAB k = true ->
    exists sc ksc, slabp_cache k = Some sc /\ caches s !! sc = Some ksc /\ small_cache ksc sizeof_slab /\
      forall a, owns w c a -> used s w sc a;
  si_cc : exists k, caches s !! cache_cache s = Some k /\ small_cache k sizeof_kmem_cache;
  si_static : spare s w (pgno (cache_cache s));
  si_desc : forall c k, caches s !! c = Some k -> c <> cache_cache s -> used s w (cache_cache s) c;
  si_chain : exists ch, is_list (snodes s) CacheChain (CNext <$> ch) /\ forall c, c ∈ ch -> is_Some (caches s !! c);
}.

(** Operations keep the caches, the objects in use and the pages of others. *)
Record extends (s : slab_st) (w : world) (s' : slab_st) (w' : world) : Prop := {
  ex_caches : forall c k, caches s !! c = Some k -> exists n m,
    caches s' !! c = Some (set_colour_next m (set_free_objects n k));
  ex_used : forall c x, used s w c x -> used s' w' c x;
  ex_spare : forall j, spare s w j -> spare s' w' j;
  ex_cc : cache_cache s' = cache_cache s;
  ex_sizes : cs_cachep s' = cs_cachep s;
  ex_present : present_pages (szone s') = present_pages (szone s);
}.

Lemma extends_refl s w : extends s w s w.
Proof. split; try done. intros c k Hk. exists (free_objects k), (colour_next k). rewrite Hk. by destruct k. Qed.

Lemma extends_trans s1 w1 s2 w2 s3 w3 : extends s1 w1 s2 w2 -> extends s2 w2 s3 w3 -> extends s1 w1 s3 w3.
Proof.
  intros [C1 U1 P1 E1 Z1 N1] [C2 U2 P2 E2 Z2 N2]. split; [|by auto|by auto|congruence..].
  intros c k Hk. destruct (C1 c k Hk) as (n & m & Hk'). destruct (C2 c _ Hk') as (n' & m' & Hk2). exists n', m'. by rewrite Hk2.
Qed.

(** *** Addresses *)

Lemma pgno_base i x n : base i <= x < base i + 4096 * 2 ^ n -> covers i n (pgno x).
Proof.
  unfold base, pgno, covers. intros [H1 H2]. pose proof (Z.div_mod (x - PAGE_OFFSET) 4096 ltac:(lia)).
  pose proof (Z.mod_pos_bound (x - PAGE_OFFSET) 4096 ltac:(lia)). lia.
Qed.

Lemma covers_disj i k j l x : blk_disj i k j l -> covers i k x -> ~ covers j l x.
Proof. unfold blk_disj, covers. lia. Qed.

Section facts.
Context (s : slab_st) (w : world) (Hinv : slab_inv s w).

Lemma owned_desc c k a : caches s !! c = Some k -> owns w c a -> exists b, slab_ok s k a b (w_free w a) /\ slab_place (szone s) w c k a b.
Proof.
  intros Hk Ha. destruct (si_cache _ _ Hinv c k Hk) as (Hc & _ & _). pose proof Ha as (kd & Hkd)%elem_of_all_slabs.
  destruct (ci_slab _ _ _ _ _ Hc kd a Hkd) as (b & Hb). exists b. split; [done|]. eapply si_place; try done. apply Hb.
Qed.

Lemma obj_page c k a b x : caches s !! c = Some k -> owns w c a -> slabs s !! a = Some b -> x ∈ objs k b ->
  covers (w_page w a) (gfporder k) (pgno x).
Proof.
  intros Hk Ha Hb (i & Hi & ->)%elem_of_objs. destruct (si_place _ _ Hinv _ _ _ _ Hk Ha Hb) as [_ _ _ [H1 H2] _].
  destruct (si_cache _ _ Hinv c k Hk) as (_ & _ & Hg). pose proof (ge_obj _ Hg). apply pgno_base. nia.
Qed.

(** An address is an object of at most one slab. *)
Lemma obj_slab c k a b c' k' a' b' x : caches s !! c = Some k -> owns w c a -> slabs s !! a = Some b -> x ∈ objs k b ->
  caches s !! c' = Some k' -> owns w c' a' -> slabs s !! a' = Some b' -> x ∈ objs k' b' -> a = a' /\ c = c'.
Proof.
  intros Hk Ha Hb Hx Hk' Ha' Hb' Hx'. assert (a = a') as ->; [|split; [done|by eapply si_owner] ].
  destruct (decide (a = a')) as [?|Hne]; [done|]. exfalso.
  eapply covers_disj; [by eapply (si_disj _ _ Hinv c k a c' k' a')|by eapply obj_page|by eapply obj_page].
Qed.

(** Slab descriptors are in pages of slabs. *)
Lemma desc_page c k a : caches s !! c = Some k -> owns w c a -> exists c' k' a', caches s !! c' = Some k' /\ owns w c' a' /\
  covers (w_page w a') (gfporder k') (pgno a).
Proof.
  intros Hk Ha. destruct (OFF_SLAB k) eqn:Eoff.
  - destruct (si_off _ _ Hinv c k Hk Eoff) as (sc & ksc & _ & Hsc & _ & Hused).
    destruct (Hused a Ha) as (k1 & a1 & b1 & Hk1 & Ha1 & Hb1 & Hx & _). exists sc, k1, a1. split_and!; try done. by eapply obj_page.
  - exists c, k, a. split_and!; try done. destruct (owned_desc c k a Hk Ha) as (b & Hb & [_ _ _ [H1 H2] H5]).
    destruct (H5 Eoff). destruct (si_cache _ _ Hinv c k Hk) as (Hc & _ & Hg). pose proof (ge_obj _ Hg). pose proof (ci_num _ _ _ _ _ Hc).
    unfold sizeof_slab in *. apply pgno_base. nia.
Qed.

Lemma spare_not_owned c k a : spare s w (pgno a) -> caches s !! c = Some k -> ~ owns w c a.
Proof. intros [_ Hs] Hk Ha. destruct (desc_page c k a Hk Ha) as (c' & k' & a' & H1 & H2 & H3). by apply (Hs c' k' a'). Qed.

(** A free object is neither in use nor a slab descriptor. *)
Lemma free_obj_unused c k a b x : caches s !! c = Some k -> owns w c a -> slabs s !! a = Some b -> x ∈ objs k b -> x ∈ w_free w a ->
  forall c', ~ used s w c' x.
Proof.
  intros Hk Ha Hb Hx Hf c' (k' & a' & b' & Hk' & Ha' & Hb' & Hx' & Hni).
  destruct (obj_slab c k a b c' k' a' b' x) as [-> ->]; done.
Qed.

Lemma free_obj_not_slab c k a b x c' k' : caches s !! c = Some k -> owns w c a -> slabs s !! a = Some b -> x ∈ objs k b ->
  x ∈ w_free w a -> caches s !! c' = Some k' -> ~ owns w c' x.
Proof.
  intros Hk Ha Hb Hx Hf Hk' Ho. destruct (OFF_SLAB k') eqn:Eoff.
  - destruct (si_off _ _ Hinv c' k' Hk' Eoff) as (sc & ksc & _ & Hsc & _ & Hused). eapply (free_obj_unused c k a b x); eauto.
  - destruct (owned_desc c' k' x Hk' Ho) as (b' & Hb' & Hp). pose proof (sp_desc _ _ _ _ _ _ Hp Eoff) as [H1 H2].
    assert (Hcov : covers (w_page w x) (gfporder k') (pgno x)).
    { pose proof (sp_objs _ _ _ _ _ _ Hp) as [_ H3]. destruct (si_cache _ _ Hinv c' k' Hk') as (Hc & _ & Hg).
      pose proof (ge_obj _ Hg). pose proof (ci_num _ _ _ _ _ Hc). unfold sizeof_slab in *. apply pgno_base. nia. }
    destruct (decide (a = x)) as [->|Hne].
    + rewrite (so_desc _ _ _ _ _ Hb') in Hb. injection Hb as <-. apply elem_of_objs in Hx as (i & Hi & Ex).
      destruct (si_cache _ _ Hinv c k Hk) as (_ & _ & Hg). pose proof (ge_obj _ Hg). unfold sizeof_slab in *. nia.
    + eapply covers_disj; [by eapply (si_disj _ _ Hinv c k a c' k' x)|by eapply obj_page|done].
Qed.

Lemma chain_new c : caches s !! c = None -> exists ch, is_list (snodes s) CacheChain (CNext <$> ch) /\ (CNext c ∉ CacheChain :: (CNext <$> ch)) /\
  forall c, c ∈ ch -> is_Some (caches s !! c).
Proof.
  intros Hc. destruct (si_chain _ _ Hinv) as (ch & Hl & Hch). exists ch. split_and!; try done.
  rewrite elem_of_cons, list_elem_of_fmap. intros [?|(c' & [= <-] & Hin)]; [done|]. destruct (Hch _ Hin). congruence.
Qed.
End facts.

(** ** Steps that move no page *)

Definition fupd {A} (f : Z -> A) (c : Z) (v : A) : Z -> A := fun x => if decide (x = c) then v else f x.

Lemma small_cache_shape k n m size : small_cache k size -> small_cache (set_colour_next m (set_free_objects n k)) size.
Proof. intros [H1 H2 H3]. by split. Qed.

Lemma inv_step s w s' w' :
  slab_inv s w -> szone s' = szone s -> w_page w' = w_page w -> w_blocks w' = w_blocks w ->
  (forall c a, owns w' c a <-> owns w c a) ->
  (forall c k, caches s !! c = Some k -> exists n m, caches s' !! c = Some (set_colour_next m (set_free_objects n k))) ->
  (forall c, is_Some (caches s' !! c) -> is_Some (caches s !! c)) ->
  (forall a b, slabs s !! a = Some b -> exists b', slabs s' !! a = Some b' /\ s_mem b' = s_mem b) ->
  (forall c k, caches s' !! c = Some k ->
     cache_inv s' c k (w_lists w' c) (w_free w') /\ kinds_ok k (w_lists w' c) (w_free w') /\ geometry k) ->
  (forall a x, x ∈ w_free w' a -> x ∈ w_free w a) ->
  cache_cache s' = cache_cache s -> cs_cachep s' = cs_cachep s ->
  (forall n, n = CacheChain \/ (exists c, n = CNext c) -> snodes s' !! n = snodes s !! n) ->
  slab_inv s' w' /\ extends s w s' w'.
Proof.
  intros Hinv Ez Ep Eb Ho Hfwd Hdom Hmem Hcs Hfr Ecc Esz Hch.
  assert (Hbwd : forall c k', caches s' !! c = Some k' ->
    exists k n m, caches s !! c = Some k /\ k' = set_colour_next m (set_free_objects n k)).
  { intros c k' Hk'. destruct (Hdom c) as [k Hk]; [eauto|]. destruct (Hfwd c k Hk) as (n & m & E).
    exists k, n, m. split; [done|]. congruence. }
  assert (Hobj : forall k n m b b', s_mem b' = s_mem b -> objs (set_colour_next m (set_free_objects n k)) b' = objs k b)
    by (intros k n m b b' E; unfold objs; cbn; by rewrite E).
  assert (Hused : forall c x, used s w c x -> used s' w' c x).
  { intros c x (k & a & b & Hk & Ha & Hb & Hx & Hni). destruct (Hfwd c k Hk) as (n & m & Hk'). destruct (Hmem a b Hb) as (b' & Hb' & Em).
    exists (set_colour_next m (set_free_objects n k)), a, b'. rewrite (Hobj k n m b b' Em). split_and!; try done; [by apply Ho|].
    intros Hin. by apply Hni, Hfr. }
  assert (Hspare : forall j, spare s w j -> spare s' w' j).
  { intros j [H1 H2]. split; [by rewrite Eb|]. intros c k' a Hk' Ha. destruct (Hbwd c k' Hk') as (k & n & m & Hk & ->).
    rewrite Ep. cbn. by eapply H2; [|apply Ho]. }
  split; [|split; try done; congruence].
  split; rewrite ?Ez, ?Eb, ?Ep, ?Ecc; try apply Hinv; try done.
  - intros c k' a b' Hk' Ha Hb'. destruct (Hbwd c k' Hk') as (k & n & m & Hk & ->). apply Ho in Ha.
    destruct (owned_desc s w Hinv c k a Hk Ha) as (b & [Hb _ _ _ _] & [P1 P2 P3 P4 P5]).
    destruct (Hmem a b Hb) as (b1 & Hb1 & Em). rewrite Hb1 in Hb'. injection Hb' as <-.
    split; rewrite ?Ep, ?Eb, ?Em; done.
  - intros c k c' k' a Hk Hk' Ha Ha'. destruct (Hbwd c k Hk) as (k0 & _ & _ & Hk0 & _), (Hbwd c' k' Hk') as (k1 & _ & _ & Hk1 & _).
    apply Ho in Ha, Ha'. by eapply (si_owner _ _ Hinv).
  - intros c k a c' k' a' Hk Hk' Ha Ha' Hne. destruct (Hbwd c k Hk) as (k0 & n & m & Hk0 & ->), (Hbwd c' k' Hk') as (k1 & n1 & m1 & Hk1 & ->).
    apply Ho in Ha, Ha'. cbn. by eapply (si_disj _ _ Hinv).
  - intros c k Hk Hoff. destruct (Hbwd c k Hk) as (k0 & n & m & Hk0 & ->).
    destruct (si_off _ _ Hinv c k0 Hk0 Hoff) as (sc & ksc & H1 & H2 & H3 & H4). destruct (Hfwd sc ksc H2) as (n1 & m1 & H2').
    exists sc, (set_colour_next m1 (set_free_objects n1 ksc)). split_and!; try done; [by apply small_cache_shape|]. intros a Ha. by apply Hused, H4, Ho.
  - destruct (si_cc _ _ Hinv) as (k & Hk & Hsm). destruct (Hfwd _ k Hk) as (n & m & Hk').
    exists (set_colour_next m (set_free_objects n k)). split; [done|by apply small_cache_shape].
  - apply Hspare, Hinv.
  - intros c k Hk Hne. destruct (Hbwd c k Hk) as (k0 & n & m & Hk0 & ->). by eapply Hused, (si_desc _ _ Hinv).
  - destruct (si_chain _ _ Hinv) as (ch & Hl & Hc). exists ch. split.
    + eapply is_list_agree; [|exact Hl]. intros x. rewrite elem_of_cons, list_elem_of_fmap. intros [->|(c & -> & _)]; apply Hch; eauto.
    + intros c Hin. destruct (Hc c Hin) as [k Hk]. destruct (Hfwd c k Hk) as (n & m & Hk'). eauto.
Qed.

Lemma geometry_count k n : geometry k -> geometry (set_free_objects n k).
Proof. by intros []. Qed.

(** Taking a free object of a cache that has one. *)
Lemma take_inv s w c k s' x a n L' rest : slab_inv s w -> caches s !! c = Some k ->
  alloc_result s c k (w_lists w c) (w_free w) s' x a n L' rest ->
  let w' := mk_world (fupd (w_lists w) c L') (upd_fr (w_free w) a rest) (w_page w) (w_blocks w) in
  slab_inv s' w' /\ extends s w s' w' /\ used s' w' c x /\ (forall c', ~ used s w c' x) /\
  (forall c' k', caches s' !! c' = Some k' -> ~ owns w' c' x).
Proof.
  intros Hinv Hk [Ai Ak As Ao Ap Az Au Af Al] w'.
  assert (Hown : forall c' a', owns w' c' a' <-> owns w c' a').
  { intros c' a'. unfold owns, w', fupd. cbn. case_decide; [subst; by rewrite Ap|done]. }
  assert (Hother : forall c' k' a', c' <> c -> caches s !! c' = Some k' -> owns w c' a' -> ~ owns w c a').
  { intros c' k' a' Hne Hk' Ha Ha'. apply Hne. by eapply (si_owner _ _ Hinv). }
  destruct (inv_step s w s' w') as [Hinv' Hext]; try done.
  - intros c' k' Hk'. destruct (decide (c' = c)) as [->|Hne].
    + rewrite Hk in Hk'. injection Hk' as <-. exists n, (colour_next k). rewrite (ci_cache _ _ _ _ _ Ai). done.
    + exists (free_objects k'), (colour_next k'). rewrite (cf_caches _ _ _ _ Af), Hk' by done. by destruct k'.
  - intros c'. destruct (decide (c' = c)) as [->|Hne]; [eauto|]. by rewrite (cf_caches _ _ _ _ Af).
  - apply Af.
  - intros c' k' Hk'. unfold w', fupd. cbn. destruct (decide (c' = c)) as [->|Hne].
    + rewrite (ci_cache _ _ _ _ _ Ai) in Hk'. injection Hk' as <-. split_and!; [done|done|]. apply geometry_count.
      by apply (si_cache _ _ Hinv c k).
    + rewrite (cf_caches _ _ _ _ Af) in Hk' by done. destruct (si_cache _ _ Hinv c' k' Hk') as (Hc & Hkd & Hg).
      assert (Hsame : forall a', a' ∈ all_slabs (w_lists w c') -> upd_fr (w_free w) a rest a' = w_free w a').
      { intros a' Ha'. apply upd_fr_ne. intros ->. by eapply Hother. }
      split_and!; [|by eapply kinds_ok_ext|done]. eapply cache_inv_ext; [exact Hsame|].
      eapply cache_inv_frame; try done.
      * by rewrite (cf_caches _ _ _ _ Af).
      * intros kd. apply (cf_nodes _ _ _ _ Af); [|by destruct kd]. intros kd' E. destruct kd, kd'; cbn in E; congruence.
      * intros a' Ha'. assert (Hni : ~ owns w c a') by by eapply Hother. split.
        -- apply (cf_nodes _ _ _ _ Af); [by intros []|]. intros a0 Ha0 [= ->]. done.
        -- by apply (cf_slabs _ _ _ _ Af).
      * intros. by rewrite Al.
  - intros a' y. cbn. unfold upd_fr. case_decide as E; [subst|done]. rewrite Ao. by right.
  - apply Af.
  - apply Af.
  - intros nd Hn. apply (cf_nodes _ _ _ _ Af); destruct Hn as [->|(c' & ->)]; try done; intros []; done.
  - destruct (owned_desc s w Hinv c k a Hk As) as (b & [Hb _ _ _ Hob] & _).
    assert (Hx : x ∈ w_free w a) by (rewrite Ao; left).
    assert (Hxo : x ∈ objs k b) by by apply Hob.
    split_and!; try done.
    + destruct Au as (b' & Hb' & Hxo' & Hni). exists (set_free_objects n k), a, b'. split_and!; try done.
      * apply (ci_cache _ _ _ _ _ Ai).
      * by apply Hown.
      * cbn. by rewrite upd_fr_eq.
    + by eapply free_obj_unused.
    + intros c' k' Hk'. rewrite Hown. destruct (decide (c' = c)) as [->|Hne];
        [by apply (free_obj_not_slab s w Hinv c k a b x c k)|].
      rewrite (cf_caches _ _ _ _ Af) in Hk' by done. by apply (free_obj_not_slab s w Hinv c k a b x c' k').
Qed.
