(* ===== verification/SlabGrow.v ===== *)
(** * Growing a cache

    cache_grow keeps the invariant of the whole slab allocator: the pages of
    the new slab come from the buddy system, so no other slab has them; its
    descriptor is in these pages, or is a new object of the descriptor cache.
    With that, kmem_cache_alloc returns a new object as long as pages are
    left, whether the cache has free objects or not. *)

From S2P Require Import Prelude ListHead Zone Buddy BuddyInv BuddyProofs BuddySpec Slab SlabProofs SlabInv.

(** ** The next colour *)

Lemma colour_step_inv s w c k : slab_inv s w -> caches s !! c = Some k ->
  exists m, (s1 ← upd_cache c (fun k => set_colour_next (u32 (colour_next k + 1)) k) s;
     upd_cache c (fun k => if colour k <=? colour_next k then set_colour_next 0 k else k) s1) =
    Ret (set_caches (<[c := set_colour_next m k]> (caches s)) s) /\
    slab_inv (set_caches (<[c := set_colour_next m k]> (caches s)) s) w /\
    extends s w (set_caches (<[c := set_colour_next m k]> (caches s)) s) w.
Proof.
  intros Hinv Hk. destruct (si_cache _ _ Hinv c k Hk) as (Hc & Hkd & Hg).
  destruct (ge_colour _ Hg) as [Hcol _]. pose proof (ge_next _ Hg) as Hnx.
  set (m := if colour k <=? colour_next k + 1 then 0 else colour_next k + 1). exists m. unfold upd_cache. rewrite Hk. cbn -[u32].
  rewrite lookup_insert_eq. cbn -[u32]. rewrite insert_insert_eq, u32_small by lia.
  split.
  { unfold m. by destruct (Z.leb_spec (colour k) (colour_next k + 1)). }
  assert (Hm : m = 0 \/ 0 <= m < colour k) by (unfold m; destruct (Z.leb_spec (colour k) (colour_next k + 1)); lia).
  apply inv_step; try done; cbn.
  - intros c' k' Hk'. rewrite lookup_insert. case_decide as E; [subst|].
    + rewrite Hk in Hk'. injection Hk' as <-. exists (free_objects k), m. by destruct k.
    + exists (free_objects k'), (colour_next k'). rewrite Hk'. by destruct k'.
  - intros c'. rewrite lookup_insert. case_decide; [subst; eauto|done].
  - eauto.
  - intros c' k'. rewrite lookup_insert. case_decide as E.
    + intros [= <-]. subst c'. split_and!; [|done|by destruct Hg; split]. eapply cache_inv_frame; try done. cbn. by rewrite lookup_insert_eq.
    + intros Hk'. destruct (si_cache _ _ Hinv c' k' Hk') as (Hc' & Hkd' & Hg'). split_and!; try done.
      eapply cache_inv_frame; try done. cbn. by rewrite lookup_insert_ne.
Qed.

(** ** Taking pages *)

Lemma page_address_base i : 0 <= i < 0x40000 -> page_address i = base i.
Proof.
  intros Hi. unfold page_address, va_, page_to_pfn, PAGE_SHIFT, base, PAGE_OFFSET. rewrite Z.shiftl_mul_pow2 by lia.
  change (2 ^ 12) with 4096. rewrite !u32_small by (rewrite ?u32_small; lia). lia.
Qed.

Lemma for_pages_spec f n : forall i z, (forall j, i <= j < i + Z.of_nat n -> is_Some (zone_mem_map z !! j)) ->
  exists m, for_pages n i f z = Ret (with_mem_map m z) /\
    (forall j, ~ (i <= j < i + Z.of_nat n) -> m !! j = zone_mem_map z !! j) /\
    (forall j, i <= j < i + Z.of_nat n -> m !! j = f <$> (zone_mem_map z !! j)).
Proof.
  induction n as [|n IH]; intros i z Hz.
  - exists (zone_mem_map z). split_and!; [by destruct z|done|lia].
  - cbn [for_pages]. destruct (Hz i) as [p Hp]; [lia|]. unfold upd_page. rewrite Hp. cbn [deref mbind outcome_bind mret outcome_ret].
    destruct (IH (i + 1) (with_mem_map (<[i := f p]> (zone_mem_map z)) z)) as (m & R & Hout & Hin).
    { intros j Hj. cbn. rewrite lookup_insert_ne by lia. apply Hz. lia. }
    exists m. split_and!; [exact R| |].
    + intros j Hj. rewrite Hout by lia. cbn. rewrite lookup_insert_ne by lia. done.
    + intros j Hj. destruct (decide (j = i)) as [->|].
      * rewrite Hout by lia. cbn. by rewrite lookup_insert_eq, Hp.
      * rewrite Hin by lia. cbn. by rewrite lookup_insert_ne by lia.
Qed.

(** A zone with the same pages for all slabs, and no new free page. *)
Lemma zone_step_inv s w z fl : slab_inv s w -> buddy_inv z fl -> zone_start_pfn z = 0 -> present_pages z = present_pages (szone s) ->
  (forall j, free_page fl j -> free_page (w_blocks w) j) ->
  (forall j, ~ free_page (w_blocks w) j -> zone_mem_map z !! j = zone_mem_map (szone s) !! j /\ nodes z !! Lru j = nodes (szone s) !! Lru j) ->
  let w' := mk_world (w_lists w) (w_free w) (w_page w) fl in
  slab_inv (set_szone z s) w' /\ extends s w (set_szone z s) w'.
Proof.
  intros Hinv Hb Hst Hpr Hsub Hsame w'.
  assert (Hspare : forall j, spare s w j -> spare (set_szone z s) w' j).
  { intros j [H1 H2]. split; [|done]. intros Hf. by apply H1, Hsub. }
  split.
  - split; cbn; rewrite ?Hpr; try apply Hinv; try done.
    + intros c k Hk. destruct (si_cache _ _ Hinv c k Hk) as (Hc & Hkd & Hg). split_and!; try done. by eapply cache_inv_frame.
    + intros c k a b Hk Ha Hsl. destruct (si_place _ _ Hinv c k a b Hk Ha Hsl) as [P1 P2 P3 P4 P5]. split; rewrite ?Hpr; try done.
      * intros j Hj Hf. by apply (P2 j Hj), Hsub.
      * intros j Hj. destruct (Hsame j (P2 j Hj)) as [-> ->]. by apply P3.
    + apply Hspare, Hinv.
  - split; try done. intros c k Hk. exists (free_objects k), (colour_next k). cbn. rewrite Hk. by destruct k.
Qed.

(** kmem_getpages with a block that the buddy system has. *)
Lemma getpages_inv s w c k flags z1 fl' i : slab_inv s w -> caches s !! c = Some k ->
  allocate_block (szone s) (gfporder k) = Ret (z1, Some i) -> alloc_ok (szone s) (w_blocks w) (gfporder k) z1 fl' i ->
  let w' := mk_world (w_lists w) (w_free w) (w_page w) fl' in
  exists z, kmem_getpages c flags s = Ret (set_szone z s, Some (base i)) /\
    slab_inv (set_szone z s) w' /\ extends s w (set_szone z s) w' /\
    (forall j, covers i (gfporder k) j -> spare (set_szone z s) w' j) /\
    0 <= i /\ i + 2 ^ gfporder k <= present_pages z.
Proof.
  intros Hinv Hk Ra [Ai Al Aw Af At Ap As] w'. destruct (si_cache _ _ Hinv c k Hk) as (_ & _ & Hg).
  pose proof (ge_order _ Hg) as Ho. pow2 (gfporder k). destruct (loose_range _ _ _ _ Al) as [Hi1 Hi2].
  pose proof (bs_present _ _ _ As) as Epr. pose proof (si_present _ _ Hinv).
  unfold kmem_getpages. rewrite Hk. cbn [deref mbind outcome_bind]. unfold alloc_pages. rewrite Ra. cbn [mbind outcome_bind].
  rewrite Z.shiftl_1_l. destruct (for_pages_spec SetPageSlab (Z.to_nat (2 ^ gfporder k)) i z1) as (m & -> & Hout & Hin).
  { intros j Hj. apply (bi_mem _ _ Ai). lia. }
  rewrite Z2Nat.id in Hout, Hin by lia. cbn [mbind outcome_bind mret outcome_ret]. exists (with_mem_map m z1).
  rewrite page_address_base by lia. split; [done|].
  assert (Hbud : buddy_inv (with_mem_map m z1) fl').
  { eapply buddy_inv_frame; [exact Ai|done|done| |done|done|done]. intros j. cbn. destruct (decide (i <= j < i + 2 ^ gfporder k)).
    - rewrite Hin by done. destruct (zone_mem_map z1 !! j); [|done]. cbn. by rewrite PagePrivate_SetPageSlab.
    - by rewrite Hout. }
  destruct (zone_step_inv s w (with_mem_map m z1) fl') as [Hinv' Hext]; try done.
  - cbn. rewrite (bs_start _ _ _ As). apply Hinv.
  - intros j Hj. by apply Af.
  - intros j Hj. assert (~ (i <= j < i + 2 ^ gfporder k)) by (intros Hc; by apply Hj, Aw). cbn. rewrite Hout by done.
    by rewrite (bs_pages _ _ _ As), (bs_lru _ _ _ As).
  - split_and!; try done. intros j Hj. split.
    + cbn. intros Hf. apply Af in Hf. tauto.
    + intros c' k' a Hk' Ha Hcov. destruct (owned_desc s w Hinv c' k' a Hk' Ha) as (b & _ & Hp).
      by apply (sp_held _ _ _ _ _ _ Hp j Hcov), Aw.
Qed.

(** ** The new slab *)

Definition with_desc (a : Z) (b : slab_s) (s : slab_st) : slab_st :=
  set_slabs (<[a := b]> (slabs s)) (set_snodes (<[SList a := mk_list_head (Some (SList a)) (Some (SList a))]> (snodes s)) s).

Lemma init_node n s : on_snodes (INIT_LIST_HEAD (Some n)) (new_node n s) =
  Ret (set_snodes (<[n := mk_list_head (Some n) (Some n)]> (snodes s)) s).
Proof.
  unfold on_snodes, new_node. cbn [snodes set_snodes]. rewrite INIT_LIST_HEAD_spec by (rewrite lookup_insert_eq; eauto).
  cbn. by rewrite insert_insert_eq.
Qed.

(** The end of cache_grow, from the state with the descriptor [b] at [a]: what changes. *)
Record installed (s : slab_st) (w : world) (c : Z) (k : kmem_cache) (a : Z) (b : slab_s) (i : Z) (s' : slab_st) : Prop := {
  in_caches : caches s' = <[c := set_free_objects (u32 (free_objects k + num k)) k]> (caches s);
  in_slab : exists b', slab_ok s' k a b' (objs k b) /\ s_mem b' = s_mem b;
  in_count : Z.of_nat (length (objs k b)) = num k;
  in_slabs : forall a', a' <> a -> slabs s' !! a' = slabs s !! a';
  in_lists : lists_ok (snodes s') c (upd_L (w_lists w c) KFree (w_lists w c KFree ++ [a]));
  in_nodes : forall n, n ∉ SList a :: SFree c :: (SList <$> w_lists w c KFree) -> snodes s' !! n = snodes s !! n;
  in_links : forall x, x ∉ objs k b -> links s' !! x = links s !! x;
  in_buddy : buddy_inv (szone s') (w_blocks w);
  in_start : zone_start_pfn (szone s') = zone_start_pfn (szone s);
  in_present : present_pages (szone s') = present_pages (szone s);
  in_map : forall j, covers i (gfporder k) j -> (exists p, zone_mem_map (szone s') !! j = Some p /\ first_page p = Some i) /\
    nodes (szone s') !! Lru j = Some (mk_list_head (Some (Mem c)) (Some (Mem a)));
  in_pages : forall j, ~ covers i (gfporder k) j ->
    zone_mem_map (szone s') !! j = zone_mem_map (szone s) !! j /\ nodes (szone s') !! Lru j = nodes (szone s) !! Lru j;
  in_cc : cache_cache s' = cache_cache s;
  in_sizes : cs_cachep s' = cs_cachep s;
}.

Definition finish_grow (call : Z -> Z -> slab_st -> outcome slab_st) (c a objp : Z) (s : slab_st) : outcome (slab_st * Z) :=
  s ← slab_map_pages c a objp s;
  s ← cache_init_objs call c a s;
  s ← on_snodes (list_add_tail (Some (SFree c)) (Some (SList a))) s;
  s ← upd_cache c (fun k => set_free_objects (u32 (free_objects k + num k)) k) s;
  mret (s, 1).

Lemma map_step s w c k a i : slab_inv s w -> caches s !! c = Some k ->
  0 <= i -> i + 2 ^ gfporder k <= present_pages (szone s) -> (forall j, covers i (gfporder k) j -> spare s w j) ->
  forall b, exists z, slab_map_pages c a (base i) (with_desc a b s) = Ret (set_szone z (with_desc a b s)) /\
    buddy_inv z (w_blocks w) /\ zone_start_pfn z = zone_start_pfn (szone s) /\ present_pages z = present_pages (szone s) /\
    (forall j, covers i (gfporder k) j -> (exists p, zone_mem_map z !! j = Some p /\ first_page p = Some i) /\
       nodes z !! Lru j = Some (mk_list_head (Some (Mem c)) (Some (Mem a)))) /\
    (forall j, ~ covers i (gfporder k) j -> zone_mem_map z !! j = zone_mem_map (szone s) !! j /\ nodes z !! Lru j = nodes (szone s) !! Lru j).
Proof.
  intros Hinv Hk Hi1 Hi2 Hsp b. destruct (si_cache _ _ Hinv c k Hk) as (_ & _ & Hg). pose proof (ge_order _ Hg) as Ho. pow2 (gfporder k).
  pose proof (si_present _ _ Hinv). pose proof (si_buddy _ _ Hinv) as Hb.
  unfold slab_map_pages. cbn [caches with_desc set_slabs set_snodes]. rewrite Hk. cbn [deref mbind outcome_bind]. unfold on_zone.
  cbn [szone with_desc set_slabs set_snodes]. rewrite Z.shiftl_1_l.
  replace (virt_to_page (szone s) (base i)) with i.
  2:{ symmetry. replace (base i) with (PAGE_OFFSET + i * 4096 + 0) by (unfold base; lia). apply virt_to_page_addr; [apply Hinv|lia|lia]. }
  destruct (map_pages_spec (Z.to_nat (2 ^ gfporder k)) i i c a (szone s)) as (z & -> & Est & Epr & Enr & Hfl & Hpp & Hin & Hout).
  { intros j Hj. split; [apply (bi_mem _ _ Hb)|apply (bi_lru _ _ Hb)]; lia. }
  rewrite Z2Nat.id in Hin, Hout by lia. cbn [mbind outcome_bind mret outcome_ret]. exists z. split; [done|]. split_and!; try done.
  eapply buddy_inv_frame; [exact Hb|done|done|done|by intros; apply Hfl| |].
  - intros j (o & Hoo & Hj). apply Hout. intros Hc. destruct (Hsp j Hc) as [Hnf _]. apply Hnf. by apply (free_page_self _ o).
  - intros j [v Hv]. destruct (decide (i <= j < i + 2 ^ gfporder k)) as [Hc|Hc].
    + destruct (Hin j Hc) as [_ ->]. eauto.
    + destruct (Hout j Hc) as [_ ->]. eauto.
Qed.

Lemma finish_grow_run call s w c k a b i : slab_inv s w -> caches s !! c = Some k ->
  0 <= i -> i + 2 ^ gfporder k <= present_pages (szone s) -> (forall j, covers i (gfporder k) j -> spare s w j) ->
  (forall c' k', caches s !! c' = Some k' -> ~ owns w c' a) ->
  inuse b = 0 -> base i <= s_mem b -> s_mem b + num k * objsize k <= base i + 4096 * 2 ^ gfporder k ->
  exists s', finish_grow call c a (base i) (with_desc a b s) = Ret (s', 1) /\ installed s w c k a b i s'.
Proof.
  intros Hinv Hk Hi1 Hi2 Hsp Hfresh Hiu Hm1 Hm2. destruct (si_cache _ _ Hinv c k Hk) as (Hc & _ & Hg).
  pose proof (si_present _ _ Hinv) as Hpres. pose proof (ci_num _ _ _ _ _ Hc) as Hnum.
  destruct (map_step s w c k a i Hinv Hk Hi1 Hi2 Hsp b) as (z & Rz & Zb & Zs & Zp & Zin & Zout). unfold finish_grow. rewrite Rz. cbn [mbind outcome_bind].
  set (s1 := set_szone z (with_desc a b s)).
  destruct (cache_init_objs_correct call c a s1 k b) as (s2 & b' & R2 & Hok & Hlen & Hm & Ez & En & Ec & Ecc & Esz & Hsl & Hln).
  { done. } { cbn. by rewrite lookup_insert_eq. } { apply Hg. } { apply Hg. } { lia. } { unfold base, PAGE_OFFSET in *. lia. }
  { unfold base, PAGE_OFFSET in *. pose proof (pow2_pos (gfporder k)). lia. } { done. }
  rewrite R2. cbn [mbind outcome_bind].
  assert (Hni : forall kd, a ∉ w_lists w c kd) by (intros kd Hin; apply (Hfresh c k Hk); apply elem_of_all_slabs; eauto).
  assert (Hl1 : lists_ok (snodes s2) c (w_lists w c)).
  { rewrite En. cbn. pose proof (ci_lists _ _ _ _ _ Hc) as Hl. split; [|apply Hl]. intros kd.
    eapply is_list_agree; [|apply (lo_list _ _ _ Hl)]. intros n Hn. rewrite lookup_insert_ne; [done|]. intros <-.
    by apply (not_in_khead _ _ _ kd a Hni Hl) in Hn. }
  destruct (lists_add_tail (snodes s2) c (w_lists w c) KFree a Hl1 Hni) as (h & Rh & Hl2 & [_ Hf]).
  { rewrite En. cbn. rewrite lookup_insert_eq. eauto. }
  unfold on_snodes. cbn [khead] in Rh. rewrite Rh. cbn [mbind outcome_bind mret outcome_ret]. unfold upd_cache. cbn [caches set_snodes]. rewrite Ec. cbn [caches s1 set_szone with_desc set_slabs set_snodes].
  rewrite Hk. cbn [deref mbind outcome_bind mret outcome_ret]. eexists. split; [done|].
  split; cbn [caches slabs snodes links szone cache_cache cs_cachep set_caches set_snodes]; try done; try (rewrite Ez; done).
  - exists b'. split; [|done]. by destruct Hok as [O1 O2 O3 O4 O5].
  - intros a' Hne. rewrite Hsl by done. cbn. by rewrite lookup_insert_ne.
  - intros n Hn. rewrite Hf by done. rewrite En. cbn. rewrite lookup_insert_ne; [done|]. intros <-. apply Hn. left.
Qed.

Section install.
Context (s : slab_st) (w : world) (c : Z) (k : kmem_cache) (a : Z) (b : slab_s) (i : Z) (s' : slab_st).
Context (Hinv : slab_inv s w) (Hk : caches s !! c = Some k) (Hin : installed s w c k a b i s').
Context (Hi1 : 0 <= i) (Hi2 : i + 2 ^ gfporder k <= present_pages (szone s)).
Context (Hsp : forall j, covers i (gfporder k) j -> spare s w j) (Hcc : ~ covers i (gfporder k) (pgno (cache_cache s))).
Context (Hfresh : forall c' k', caches s !! c' = Some k' -> ~ owns w c' a).
Context (Hm1 : base i <= s_mem b) (Hm2 : s_mem b + num k * objsize k <= base i + 4096 * 2 ^ gfporder k).
Context (Hon : OFF_SLAB k = false -> base i <= a /\ a + sizeof_slab <= s_mem b).
Context (Hoff : OFF_SLAB k = true -> exists sc, slabp_cache k = Some sc /\ used s w sc a).

Let k' := set_free_objects (u32 (free_objects k + num k)) k.
Let L' := upd_L (w_lists w c) KFree (w_lists w c KFree ++ [a]).
Definition grown : world :=
  mk_world (fupd (w_lists w) c L') (upd_fr (w_free w) a (objs k b)) (fupd (w_page w) a i) (w_blocks w).

Lemma elem_of_grown_list kd x : x ∈ L' kd <-> x ∈ w_lists w c kd \/ (kd = KFree /\ x = a).
Proof.
  unfold L', upd_L. case_decide as E; [subst|naive_solver].
  rewrite elem_of_app, list_elem_of_singleton. naive_solver.
Qed.

Lemma owns_grown c' x : owns grown c' x <-> owns w c' x \/ (c' = c /\ x = a).
Proof.
  unfold owns, grown, fupd. cbn [w_lists]. case_decide as E; [|naive_solver]. subst c'. rewrite !elem_of_all_slabs.
  setoid_rewrite elem_of_grown_list. naive_solver.
Qed.

Lemma grown_old c' k0 x : caches s !! c' = Some k0 -> owns w c' x ->
  x <> a /\ w_page grown x = w_page w x /\ w_free grown x = w_free w x /\ slabs s' !! x = slabs s !! x.
Proof.
  intros H0 Hx. assert (x <> a) by (intros ->; by eapply Hfresh). split; [done|]. unfold grown, fupd, upd_fr. cbn.
  rewrite !decide_False by done. split_and!; try done. by apply (in_slabs _ _ _ _ _ _ _ _ Hin).
Qed.

Lemma grown_caches c' k0 : caches s' !! c' = Some k0 -> (c' = c /\ k0 = k') \/ (c' <> c /\ caches s !! c' = Some k0).
Proof. rewrite (in_caches _ _ _ _ _ _ _ _ Hin), lookup_insert. case_decide; [intros [= <-]; by left|by right]. Qed.

(** Every cache of [s'] is one of [s], up to its counter. *)
Lemma grown_cache_old c' k0 : caches s' !! c' = Some k0 -> exists k1 n, caches s !! c' = Some k1 /\ k0 = set_free_objects n k1.
Proof. intros [[-> ->]|[_ H0]]%grown_caches; [by eexists _, _|]. exists k0, (free_objects k0). split; [done|]. by destruct k0. Qed.

Lemma new_obj_page x : x ∈ objs k b -> covers i (gfporder k) (pgno x).
Proof.
  intros (n & Hn & ->)%elem_of_objs. destruct (si_cache _ _ Hinv c k Hk) as (_ & _ & Hg). pose proof (ge_obj _ Hg). apply pgno_base. nia.
Qed.

Lemma new_obj_fresh c' k1 a' b' x : caches s !! c' = Some k1 -> owns w c' a' -> slabs s !! a' = Some b' -> x ∈ objs k1 b' -> x ∉ objs k b.
Proof.
  intros H1 Ha Hb Hx Hx'. destruct (Hsp _ (new_obj_page x Hx')) as [_ Hno]. eapply (Hno c' k1 a'); [done|done|]. by eapply obj_page.
Qed.

Lemma grown_block c' k1 x : caches s !! c' = Some k1 -> owns w c' x -> blk_disj (w_page w x) (gfporder k1) i (gfporder k).
Proof.
  intros H1 Hx. destruct (si_cache _ _ Hinv c' k1 H1) as (_ & _ & Hg1). destruct (si_cache _ _ Hinv c k Hk) as (_ & _ & Hg).
  pose proof (ge_order _ Hg) as Ho. pose proof (ge_order _ Hg1) as Ho1. pow2 (gfporder k). pow2 (gfporder k1).
  destruct (decide (blk_disj (w_page w x) (gfporder k1) i (gfporder k))) as [?|Hn]; [done|]. exfalso.
  assert (Hj : exists j, covers i (gfporder k) j /\ covers (w_page w x) (gfporder k1) j).
  { exists (Z.max i (w_page w x)). unfold blk_disj, covers in *. lia. }
  destruct Hj as (j & Hj1 & Hj2). destruct (Hsp j Hj1) as [_ Hno]. by apply (Hno c' k1 x).
Qed.

Lemma grown_slab_ok c' k1 x b1 : caches s !! c' = Some k1 -> owns w c' x -> slab_ok s k1 x b1 (w_free w x) -> slab_ok s' k1 x b1 (w_free grown x).
Proof.
  intros H1 Hx [O1 O2 O3 O4 O5]. destruct (grown_old c' k1 x H1 Hx) as (_ & _ & -> & E). split; try done; [by rewrite E|].
  eapply lchain_agree; [|exact O2]. intros y Hy. apply (in_links _ _ _ _ _ _ _ _ Hin). by eapply new_obj_fresh; [..|apply O5].
Qed.

Lemma grown_total : total_free L' (w_free grown) = total_free (w_lists w c) (w_free w) + num k.
Proof.
  destruct (si_cache _ _ Hinv c k Hk) as (Hc & _ & _).
  assert (Hp : all_slabs L' ≡ₚ a :: all_slabs (w_lists w c)).
  { unfold all_slabs, L', upd_L. cbn. solve_Permutation. }
  change (sum_free (w_free grown) (all_slabs L') = total_free (w_lists w c) (w_free w) + num k).
  rewrite (sum_free_perm _ _ _ Hp).
  change (Z.of_nat (length (upd_fr (w_free w) a (objs k b) a)) + total_free (w_lists w c) (w_free grown) =
    total_free (w_lists w c) (w_free w) + num k).
  rewrite upd_fr_eq, (in_count _ _ _ _ _ _ _ _ Hin), (total_free_ext (w_lists w c) (w_free w)); [lia|].
  intros x Hx. by apply (grown_old c k x).
Qed.

Lemma grown_kinds : kinds_ok k' L' (w_free grown).
Proof.
  destruct (si_cache _ _ Hinv c k Hk) as (_ & Hkd & _). intros kd x [Hx|[-> ->] ]%elem_of_grown_list.
  - destruct (grown_old c k x Hk) as (_ & _ & -> & _); [apply elem_of_all_slabs; eauto|]. by apply Hkd.
  - cbn. rewrite upd_fr_eq. apply Hin.
Qed.

Lemma grown_cache_inv : cache_inv s' c k' L' (w_free grown).
Proof.
  destruct (si_cache _ _ Hinv c k Hk) as (Hc & _ & _). destruct (in_slab _ _ _ _ _ _ _ _ Hin) as (bn & Hbn & Hmn).
  assert (Hobn : objs k bn = objs k b) by (unfold objs; by rewrite Hmn).
  assert (Hold : forall kd x, x ∈ w_lists w c kd -> owns w c x) by (intros; apply elem_of_all_slabs; eauto).
  split.
  - by rewrite (in_caches _ _ _ _ _ _ _ _ Hin), lookup_insert_eq.
  - apply Hc.
  - apply Hin.
  - intros kd x [Hx|[-> ->] ]%elem_of_grown_list.
    + destruct (ci_slab _ _ _ _ _ Hc kd x Hx) as (b1 & Hb1). exists b1. eapply grown_slab_ok in Hb1; [|done|by eapply Hold].
      by destruct Hb1 as [O1 O2 O3 O4 O5].
    + exists bn. cbn. rewrite upd_fr_eq. by destruct Hbn as [O1 O2 O3 O4 O5].
  - intros kd1 a1 kd2 a2 b1 b2 x Ha1 Ha2 Hne Hb1 Hb2. change (objs k' b1) with (objs k b1). change (objs k' b2) with (objs k b2).
    apply elem_of_grown_list in Ha1 as [Ha1|[-> ->] ]; apply elem_of_grown_list in Ha2 as [Ha2|[-> ->] ]; try done.
    + destruct (grown_old c k a1 Hk) as (_ & _ & _ & E1); [by eapply Hold|]. destruct (grown_old c k a2 Hk) as (_ & _ & _ & E2); [by eapply Hold|].
      rewrite E1 in Hb1. rewrite E2 in Hb2. by eapply (ci_disj _ _ _ _ _ Hc kd1 a1 kd2 a2).
    + destruct (grown_old c k a1 Hk) as (_ & _ & _ & E1); [by eapply Hold|]. rewrite E1 in Hb1.
      rewrite (so_desc _ _ _ _ _ Hbn) in Hb2. injection Hb2 as <-. rewrite Hobn. intros Hx.
      apply (new_obj_fresh c k a1 b1 x); eauto.
    + destruct (grown_old c k a2 Hk) as (_ & _ & _ & E2); [by eapply Hold|]. rewrite E2 in Hb2.
      rewrite (so_desc _ _ _ _ _ Hbn) in Hb1. injection Hb1 as <-. rewrite Hobn. intros Hx Hx2.
      apply (new_obj_fresh c k a2 b2 x); eauto.
  - cbn [free_objects k' set_free_objects]. rewrite grown_total, (ci_count _ _ _ _ _ Hc). apply u32_add_l.
Qed.

Lemma grown_other c' k1 : c' <> c -> caches s !! c' = Some k1 ->
  cache_inv s' c' k1 (w_lists w c') (w_free grown) /\ kinds_ok k1 (w_lists w c') (w_free grown).
Proof.
  intros Hne H1. destruct (si_cache _ _ Hinv c' k1 H1) as (Hc & Hkd & _).
  assert (He : forall x, x ∈ all_slabs (w_lists w c') -> w_free grown x = w_free w x) by (intros x Hx; by apply (grown_old c' k1 x)).
  split; [|by eapply kinds_ok_ext]. eapply cache_inv_ext; [exact He|]. eapply cache_inv_frame; try done.
  - by rewrite (in_caches _ _ _ _ _ _ _ _ Hin), lookup_insert_ne.
  - intros kd. apply (in_nodes _ _ _ _ _ _ _ _ Hin). rewrite !elem_of_cons, list_elem_of_fmap. destruct kd; naive_solver.
  - intros x Hx. destruct (grown_old c' k1 x H1 Hx) as (Hxa & _ & _ & Es). split; [|done].
    apply (in_nodes _ _ _ _ _ _ _ _ Hin). rewrite !elem_of_cons, list_elem_of_fmap. intros [ [= ?]|[?|(y & [= <-] & Hy)] ]; [done|done|].
    apply Hne. eapply (si_owner _ _ Hinv); [done|exact Hk|done|]. apply elem_of_all_slabs; eauto.
  - intros x y Hx Hy. apply (in_links _ _ _ _ _ _ _ _ Hin). destruct (owned_desc s w Hinv c' k1 x H1 Hx) as (b1 & [O1 O2 O3 O4 O5] & _).
    by eapply new_obj_fresh; [..|apply O5].
Qed.

Lemma grown_used c' x : used s w c' x -> used s' grown c' x.
Proof.
  intros (k1 & a1 & b1 & H1 & Ha & Hb & Hx & Hni). destruct (grown_old c' k1 a1 H1 Ha) as (_ & _ & Ef & Es).
  destruct (decide (c' = c)) as [->|Hne].
  - rewrite Hk in H1. injection H1 as <-. exists k', a1, b1. rewrite Ef, Es, owns_grown. split_and!; try done; [|by left].
    by rewrite (in_caches _ _ _ _ _ _ _ _ Hin), lookup_insert_eq.
  - exists k1, a1, b1. rewrite Ef, Es, owns_grown. split_and!; try done; [|by left].
    by rewrite (in_caches _ _ _ _ _ _ _ _ Hin), lookup_insert_ne.
Qed.

Lemma grown_spare j : spare s w j -> ~ covers i (gfporder k) j -> spare s' grown j.
Proof.
  intros [H1 H2] Hc. split; [done|]. intros c' k0 x H0 Hx. destruct (grown_cache_old c' k0 H0) as (k1 & n & Hk1 & ->). cbn [gfporder set_free_objects].
  apply owns_grown in Hx as [Hx|[-> ->] ].
  - destruct (grown_old c' k1 x Hk1 Hx) as (_ & -> & _). by apply (H2 c' k1 x).
  - rewrite Hk in Hk1. injection Hk1 as <-. unfold grown, fupd. cbn. by rewrite decide_True.
Qed.

Lemma grown_place c' k0 x b0 : caches s' !! c' = Some k0 -> owns grown c' x -> slabs s' !! x = Some b0 -> slab_place (szone s') grown c' k0 x b0.
Proof.
  intros H0 Hx Hb0. destruct (grown_cache_old c' k0 H0) as (k1 & n & Hk1 & ->). rewrite owns_grown in Hx. destruct Hx as [Hx|[-> ->] ].
  - destruct (grown_old c' k1 x Hk1 Hx) as (_ & Ep & _ & Es). rewrite Es in Hb0.
    destruct (si_place _ _ Hinv c' k1 x b0 Hk1 Hx Hb0) as [P1 P2 P3 P4 P5].
    split; rewrite ?Ep, ?(in_present _ _ _ _ _ _ _ _ Hin); cbn [gfporder num objsize set_free_objects]; try done.
    intros j Hj. destruct (in_pages _ _ _ _ _ _ _ _ Hin j) as [-> ->]; [|by apply P3].
    eapply covers_disj; [by apply (grown_block c' k1 x)|done].
  - rewrite Hk in Hk1. injection Hk1 as <-. destruct (in_slab _ _ _ _ _ _ _ _ Hin) as (bn & Hbn & Hmn).
    rewrite (so_desc _ _ _ _ _ Hbn) in Hb0. injection Hb0 as <-. assert (Ep : w_page grown a = i) by (unfold grown, fupd; cbn; by rewrite decide_True).
    split; rewrite ?Ep, ?Hmn, ?(in_present _ _ _ _ _ _ _ _ Hin); cbn [gfporder num objsize set_free_objects]; try done.
    + intros j Hj. by apply (Hsp j Hj).
    + apply Hin.
Qed.

Lemma grown_fwd c' k1 : caches s !! c' = Some k1 -> exists n m, caches s' !! c' = Some (set_colour_next m (set_free_objects n k1)).
Proof.
  intros H1. rewrite (in_caches _ _ _ _ _ _ _ _ Hin), lookup_insert. case_decide as E.
  - subst c'. rewrite Hk in H1. injection H1 as <-. eexists _, (colour_next k). done.
  - exists (free_objects k1), (colour_next k1). rewrite H1. by destruct k1.
Qed.

Lemma install_inv : slab_inv s' grown.
Proof.
  pose proof (in_cc _ _ _ _ _ _ _ _ Hin) as Ecc.
  split; rewrite ?(in_start _ _ _ _ _ _ _ _ Hin), ?(in_present _ _ _ _ _ _ _ _ Hin), ?Ecc; try apply Hinv.
  - apply Hin.
  - intros c' k0 H0. destruct (grown_caches c' k0 H0) as [ [-> ->]|[Hne H1] ].
    + unfold grown at 1 3, fupd. cbn [w_lists]. rewrite decide_True by done.
      split_and!; [apply grown_cache_inv|apply grown_kinds|]. apply geometry_count. by apply (si_cache _ _ Hinv c k).
    + destruct (grown_other c' k0 Hne H1). unfold grown at 1 3, fupd. cbn [w_lists]. rewrite decide_False by done.
      split_and!; try done. by apply (si_cache _ _ Hinv c' k0).
  - apply grown_place.
  - intros c1 k1 c2 k2 x H1 H2 Hx1 Hx2. destruct (grown_cache_old c1 k1 H1) as (k1' & _ & H1' & _), (grown_cache_old c2 k2 H2) as (k2' & _ & H2' & _).
    apply owns_grown in Hx1 as [Hx1|[-> ->] ]; apply owns_grown in Hx2 as [Hx2|[-> ?] ]; subst; try done; [by eapply (si_owner _ _ Hinv)|..].
    + by apply (Hfresh c1 k1') in Hx1.
    + by apply (Hfresh c2 k2') in Hx2.
  - intros c1 k1 x1 c2 k2 x2 H1 H2 Hx1 Hx2 Hne. destruct (grown_cache_old c1 k1 H1) as (k1' & n1 & H1' & ->), (grown_cache_old c2 k2 H2) as (k2' & n2 & H2' & ->).
    cbn [gfporder set_free_objects]. assert (Ep : w_page grown a = i) by (unfold grown, fupd; cbn; by rewrite decide_True).
    apply owns_grown in Hx1 as [Hx1|[-> ->] ]; apply owns_grown in Hx2 as [Hx2|[-> ->] ]; try done.
    + destruct (grown_old c1 k1' x1 H1' Hx1) as (_ & -> & _), (grown_old c2 k2' x2 H2' Hx2) as (_ & -> & _). by eapply (si_disj _ _ Hinv).
    + destruct (grown_old c1 k1' x1 H1' Hx1) as (_ & -> & _). rewrite Ep. rewrite Hk in H2'. injection H2' as <-. by apply (grown_block c1).
    + destruct (grown_old c2 k2' x2 H2' Hx2) as (_ & -> & _). rewrite Ep. rewrite Hk in H1'. injection H1' as <-. apply blk_disj_sym. by apply (grown_block c2).
  - intros c' k0 H0 Eoff. destruct (grown_cache_old c' k0 H0) as (k1 & n & H1 & ->).
    destruct (si_off _ _ Hinv c' k1 H1 Eoff) as (sc & ksc & O1 & O2 & O3 & O4). destruct (grown_fwd sc ksc O2) as (n' & m' & O2').
    exists sc, (set_colour_next m' (set_free_objects n' ksc)). split_and!; try done; [by apply small_cache_shape|].
    intros x [Hx|[-> ->] ]%owns_grown; apply grown_used; [by apply O4|]. rewrite Hk in H1. injection H1 as <-.
    destruct (Hoff Eoff) as (sc' & E & Hu). rewrite O1 in E. by injection E as <-.
  - destruct (si_cc _ _ Hinv) as (kc & Hkc & Hsm). destruct (grown_fwd _ kc Hkc) as (n & m & Hkc'). eexists. split; [exact Hkc'|by apply small_cache_shape].
  - apply grown_spare; [apply Hinv|done].
  - intros c' k0 H0 Hne. destruct (grown_cache_old c' k0 H0) as (k1 & n & H1 & ->). apply grown_used. by eapply (si_desc _ _ Hinv).
  - destruct (si_chain _ _ Hinv) as (ch & Hl & Hch). exists ch. split.
    + eapply is_list_agree; [|exact Hl]. intros n Hn. apply (in_nodes _ _ _ _ _ _ _ _ Hin). rewrite !elem_of_cons, list_elem_of_fmap in *. naive_solver.
    + intros c' Hc'. destruct (Hch c' Hc') as [k1 H1]. destruct (grown_fwd c' k1 H1) as (n & m & H1'). eauto.
Qed.
End install.

(** ** cache_grow *)

(** A grown cache: a slab on its free list, at most [n] pages fewer. *)
Record grow_ok (s : slab_st) (w : world) (c n : Z) (s' : slab_st) (w' : world) : Prop := {
  gr_inv : slab_inv s' w';
  gr_ext : extends s w s' w';
  gr_free : w_lists w' c KFree <> [];
  gr_partial : w_lists w' c KPartial = w_lists w c KPartial;
  gr_other : forall c' k', caches s !! c' = Some k' -> OFF_SLAB k' = true -> c' <> c -> w_lists w' c' = w_lists w c';
  gr_caches : forall c', caches s !! c' = None -> caches s' !! c' = None;
  gr_room : free_total (w_blocks w) - n <= free_total (w_blocks w');
}.

Lemma covered_not_static s w i o : slab_inv s w -> (forall j, covers i o j -> free_page (w_blocks w) j) ->
  ~ covers i o (pgno (cache_cache s)).
Proof. intros Hinv Hf Hc. destruct (si_static _ _ Hinv) as [Hnf _]. by apply Hnf, Hf. Qed.

(** The end of cache_grow; [s0] is the state the block was taken from. *)
Lemma grow_tail call s0 w0 s w c k a b i : slab_inv s0 w0 -> extends s0 w0 s w ->
  (forall j, covers i (gfporder k) j -> free_page (w_blocks w0) j) ->
  slab_inv s w -> caches s !! c = Some k -> w_lists w c KPartial = w_lists w0 c KPartial ->
  (forall c' k', caches s0 !! c' = Some k' -> OFF_SLAB k' = true -> c' <> c -> w_lists w c' = w_lists w0 c') ->
  (forall c', caches s0 !! c' = None -> caches s !! c' = None) ->
  0 <= i -> i + 2 ^ gfporder k <= present_pages (szone s) -> (forall j, covers i (gfporder k) j -> spare s w j) ->
  (forall c' k', caches s !! c' = Some k' -> ~ owns w c' a) ->
  inuse b = 0 -> base i <= s_mem b -> s_mem b + num k * objsize k <= base i + 4096 * 2 ^ gfporder k ->
  (OFF_SLAB k = false -> base i <= a /\ a + sizeof_slab <= s_mem b) ->
  (OFF_SLAB k = true -> exists sc, slabp_cache k = Some sc /\ used s w sc a) ->
  exists s' w', finish_grow call c a (base i) (with_desc a b s) = Ret (s', 1) /\
    grow_ok s0 w0 c (free_total (w_blocks w0) - free_total (w_blocks w)) s' w'.
Proof.
  intros Hinv0 Hext Hwas Hinv Hk Hpart Hoth Hnone Hi1 Hi2 Hsp Hfresh Hiu Hm1 Hm2 Hon Hoff.
  destruct (finish_grow_run call s w c k a b i) as (s' & R & Hin); try done.
  assert (Hcc : ~ covers i (gfporder k) (pgno (cache_cache s))) by (rewrite (ex_cc _ _ _ _ Hext); by eapply covered_not_static).
  exists s', (grown w c k a b i). split; [done|]. split.
  - by eapply install_inv.
  - destruct Hext as [X1 X2 X3 X4 X5 X6]. split.
    + intros c' k' H'. destruct (X1 c' k' H') as (n & m & H1). destruct (grown_fwd s w c k a b i s' Hk Hin c' _ H1) as (n' & m' & H2).
      exists n', m'. by rewrite H2.
    + intros c' x Hu. eapply grown_used; try done. by apply X2.
    + intros j Hj. eapply grown_spare; try done; [by apply X3|]. intros Hc. destruct Hj as [Hnf _]. by apply Hnf, Hwas.
    + by rewrite (in_cc _ _ _ _ _ _ _ _ Hin).
    + by rewrite (in_sizes _ _ _ _ _ _ _ _ Hin).
    + by rewrite (in_present _ _ _ _ _ _ _ _ Hin).
  - cbn. unfold fupd. rewrite decide_True, upd_L_eq by done. by destruct (w_lists w c KFree).
  - cbn. unfold fupd. rewrite decide_True, upd_L_ne by done. done.
  - intros c' k' H' Eo Hne. cbn. unfold fupd. rewrite decide_False by done. by eapply Hoth.
  - intros c' Hc'. rewrite (in_caches _ _ _ _ _ _ _ _ Hin), lookup_insert_ne; [by apply Hnone|]. intros <-. apply Hnone in Hc'. congruence.
  - cbn. lia.
Qed.

Lemma colour_fits k : geometry k -> 0 <= num k ->
  0 <= colour_next k * colour_off k /\ desc_size k + num k * objsize k + colour_next k * colour_off k <= 4096 * 2 ^ gfporder k.
Proof.
  intros Hg Hn. destruct (ge_colour _ Hg) as [Hc1 Hc2]. pose proof (ge_fit _ Hg). destruct (ge_next _ Hg) as [E|E]; [rewrite E; nia|].
  assert (colour_next k * colour_off k <= colour k * colour_off k) by nia. nia.
Qed.

(** The buddy system has a block of this order. *)
Definition can_alloc (s : slab_st) (w : world) (o : Z) : Prop :=
  exists z fl i, allocate_block (szone s) o = Ret (z, Some i) /\ alloc_ok (szone s) (w_blocks w) o z fl i.

Lemma can_alloc_page s w : slab_inv s w -> 0 < free_total (w_blocks w) -> can_alloc s w 0.
Proof.
  intros Hinv Hf. destruct (allocate_block_cases (szone s) (w_blocks w) 0 (si_buddy _ _ Hinv)) as [(z & fl & i & R & Ha)|[_ Hnone] ].
  - done.
  - by exists z, fl, i.
  - exfalso. enough (E : free_total (w_blocks w) = 0) by lia. unfold free_total.
    assert (Hall : forall k, k ∈ seqZ 0 BUDDY_GROUPS -> w_blocks w k = []) by (intros k Hk%elem_of_seqZ; apply Hnone; lia).
    revert Hall. generalize (seqZ 0 BUDDY_GROUPS) as ks. induction ks as [|k ks IH]; intros Hall; [done|].
    cbn. rewrite Hall by left. rewrite IH; [done|]. intros. apply Hall. by right.
Qed.

(** The first half of cache_grow: the state with the pages, and the colour. *)
Lemma grow_pages s w c k flags : slab_inv s w -> caches s !! c = Some k -> can_alloc s w (gfporder k) ->
  exists m i s1 s2 fl, let w2 := mk_world (w_lists w) (w_free w) (w_page w) fl in
    (s1 ← upd_cache c (fun k => set_colour_next (u32 (colour_next k + 1)) k) s;
     upd_cache c (fun k => if colour k <=? colour_next k then set_colour_next 0 k else k) s1) = Ret s1 /\
    kmem_getpages c flags s1 = Ret (s2, Some (base i)) /\ caches s2 !! c = Some (set_colour_next m k) /\
    slab_inv s2 w2 /\ extends s w s2 w2 /\ (forall j, covers i (gfporder k) j -> spare s2 w2 j) /\
    (forall j, covers i (gfporder k) j -> free_page (w_blocks w) j) /\
    (forall c', caches s !! c' = None -> caches s2 !! c' = None) /\
    0 <= i /\ i + 2 ^ gfporder k <= present_pages (szone s2) /\ free_total fl = free_total (w_blocks w) - 2 ^ gfporder k.
Proof.
  intros Hinv Hk (z & fl & i & Ra & Ha). destruct (colour_step_inv s w c k Hinv Hk) as (m & Rc & Hinv1 & Hext1).
  set (s1 := set_caches _ _) in *.
  destruct (getpages_inv s1 w c (set_colour_next m k) flags z fl i Hinv1) as (z2 & Rp & Hinv2 & Hext2 & Hsp & Hi1 & Hi2).
  { cbn. by rewrite lookup_insert_eq. } { exact Ra. } { exact Ha. }
  exists m, i, s1, (set_szone z2 s1), fl. cbv zeta. split_and!; try done.
  - cbn. by rewrite lookup_insert_eq.
  - by eapply extends_trans.
  - apply Ha.
  - intros c' Hc'. cbn. rewrite lookup_insert_ne; [done|]. congruence.
  - apply Ha.
Qed.

Section grow.
Context (call : Z -> Z -> slab_st -> outcome slab_st).

(** A cache that keeps its descriptors on its slabs. *)
Lemma cache_grow_on alloc s w c k flags : slab_inv s w -> caches s !! c = Some k -> OFF_SLAB k = false -> can_alloc s w (gfporder k) ->
  exists s' w', cache_grow call alloc c flags s = Ret (s', 1) /\ grow_ok s w c (2 ^ gfporder k) s' w'.
Proof.
  intros Hinv Hk Eon Hca. destruct (grow_pages s w c k flags Hinv Hk Hca) as (m & i & s1 & s2 & fl & Rc & Rp & Hk2 & Hinv2 & Hext & Hsp & Hwas & Hnone & Hi1 & Hi2 & Eft).
  destruct (si_cache _ _ Hinv c k Hk) as (Hc & _ & Hg). pose proof (ci_num _ _ _ _ _ Hc) as Hn. pose proof (si_present _ _ Hinv2) as Hpr.
  destruct (colour_fits k Hg ltac:(lia)) as [Hf1 Hf2]. unfold desc_size in Hf2. rewrite Eon in Hf2. pose proof (ge_desc _ Hg Eon) as Hds. pose proof (ge_obj _ Hg).
  pose proof (ge_order _ Hg) as Ho. pow2 (gfporder k). unfold sizeof_slab in Hds.
  assert (Hple : 2 ^ gfporder k <= 2 ^ 10) by (apply Z.pow_le_mono_r; unfold in_order, BUDDY_GROUPS in Ho; lia).
  set (off := colour_next k * colour_off k) in *. assert (Hb : base i + 4096 * 2 ^ gfporder k <= 2 ^ 32) by (unfold base, PAGE_OFFSET; lia).
  assert (Hb0 : 0 <= base i) by (unfold base, PAGE_OFFSET; lia). assert (Hno : 4 <= num k * objsize k) by nia.
  destruct (grow_tail call s w s2 (mk_world (w_lists w) (w_free w) (w_page w) fl) c (set_colour_next m k) (base i + off)
    (mk_slab (off + slab_size k) (base i + (off + slab_size k)) 0 0 None) i) as (s' & w' & R & Hok); try done.
  - intros c' k' H' Hown. eapply (spare_not_owned s2 _ Hinv2 c' k'); [|done|exact Hown]. apply Hsp, pgno_base. lia.
  - cbn. lia.
  - cbn. lia.
  - cbn. unfold sizeof_slab. lia.
  - cbn. change (OFF_SLAB (set_colour_next m k)) with (OFF_SLAB k). by rewrite Eon.
  - exists s', w'. split; [|by replace (2 ^ gfporder k) with (free_total (w_blocks w) - free_total fl) by lia].
    unfold cache_grow. rewrite Hk. cbn [deref mbind outcome_bind]. apply bind_Ret_inv in Rc as (t & Rt & Rc).
    rewrite Rt. cbn [mbind outcome_bind]. rewrite Rc. cbn [mbind outcome_bind]. rewrite Rp. cbn [mbind outcome_bind].
    unfold alloc_slabmgmt. rewrite Hk2. cbn [deref mbind outcome_bind]. change (OFF_SLAB (set_colour_next m k)) with (OFF_SLAB k). rewrite Eon.
    cbn [mbind outcome_bind mret outcome_ret slab_size set_colour_next]. fold off. rewrite init_node. cbn [mbind outcome_bind mret outcome_ret].
    rewrite (u32_small off), (u32_small (off + _)), (u32_small (base i + off)), (u32_small (base i + (off + _))) by lia.
    exact R.
Qed.

(** An allocation from a cache without free objects goes on after cache_grow
    like one from a cache with a free slab. *)
Lemma refill_after_grow alloc s w c k flags s' w' k' : slab_inv s w -> caches s !! c = Some k ->
  w_lists w c KPartial = [] -> w_lists w c KFree = [] -> cache_grow call alloc c flags s = Ret (s', 1) ->
  slab_inv s' w' -> caches s' !! c = Some k' -> w_lists w' c KPartial = [] -> w_lists w' c KFree <> [] ->
  cache_alloc_refill call alloc c flags s = cache_alloc_refill call alloc c flags s'.
Proof.
  intros Hinv Hk Ep Ef Rg Hinv' Hk' Ep' Ef'.
  pose proof (si_cache _ _ Hinv c k Hk) as [Hc _]. pose proof (si_cache _ _ Hinv' c k' Hk') as [Hc' _].
  pose proof (is_list_first _ _ _ (lo_list _ _ _ (ci_lists _ _ _ _ _ Hc) KPartial)) as P1. rewrite Ep in P1.
  pose proof (is_list_first _ _ _ (lo_list _ _ _ (ci_lists _ _ _ _ _ Hc) KFree)) as F1. rewrite Ef in F1.
  pose proof (is_list_first _ _ _ (lo_list _ _ _ (ci_lists _ _ _ _ _ Hc') KPartial)) as P2. rewrite Ep' in P2.
  pose proof (is_list_first _ _ _ (lo_list _ _ _ (ci_lists _ _ _ _ _ Hc') KFree)) as F2.
  destruct (w_lists w' c KFree) as [|a l]; [done|]. simpl in P1, F1, P2, F2.
  unfold cache_alloc_refill. rewrite P1, P2. cbn [mbind outcome_bind]. rewrite !bool_decide_eq_true_2 by done.
  rewrite F1, F2. cbn [mbind outcome_bind]. rewrite bool_decide_eq_true_2 by done. rewrite bool_decide_eq_false_2 by done.
  rewrite Rg. cbn [mbind outcome_bind mret outcome_ret]. by rewrite F2.
Qed.

(** A new object of the cache [c]; at most [n] pages are gone. *)
Record got (s : slab_st) (w : world) (c x n : Z) (s' : slab_st) (w' : world) : Prop := {
  go_inv : slab_inv s' w';
  go_ext : extends s w s' w';
  go_used : used s' w' c x;
  go_new : forall c', ~ used s w c' x;
  go_desc : forall c' k', caches s' !! c' = Some k' -> ~ owns w' c' x;
  go_other : forall c' k', caches s !! c' = Some k' -> OFF_SLAB k' = true -> c' <> c -> w_lists w' c' = w_lists w c';
  go_caches : forall c', caches s !! c' = None -> caches s' !! c' = None;
  go_room : free_total (w_blocks w) - n <= free_total (w_blocks w');
}.

Lemma take_got d s w c k flags : slab_inv s w -> caches s !! c = Some k ->
  w_lists w c KPartial <> [] \/ w_lists w c KFree <> [] ->
  exists s' w' x, kmem_cache_alloc call (S d) c flags s = Ret (s', Some x) /\ got s w c x 0 s' w'.
Proof.
  intros Hinv Hk Hav. destruct (si_cache _ _ Hinv c k Hk) as (Hc & Hkd & _).
  destruct (cache_alloc_spec call d s c k _ _ flags Hc Hkd Hav) as (s' & x & a & n & L' & rest & R & Hr).
  destruct (take_inv s w c k s' x a n L' rest Hinv Hk Hr) as (H1 & H2 & H3 & H4 & H5). eexists s', _, x. split; [exact R|].
  split; try done; [| |cbn; lia].
  - intros c' k' _ _ Hne. cbn. unfold fupd. by rewrite decide_False.
  - intros c' Hc'. rewrite (cf_caches _ _ _ _ (ar_frame _ _ _ _ _ _ _ _ _ _ _ Hr)); [done|]. congruence.
Qed.

(** The cache grows when it has to, and the object is one of the new slab. *)
Lemma grow_got d s w c k flags n : slab_inv s w -> caches s !! c = Some k -> 0 <= n ->
  (w_lists w c KPartial = [] -> w_lists w c KFree = [] ->
   exists s1 w1, cache_grow call (kmem_cache_alloc call d) c flags s = Ret (s1, 1) /\ grow_ok s w c n s1 w1) ->
  exists s' w' x, kmem_cache_alloc call (S d) c flags s = Ret (s', Some x) /\ got s w c x n s' w'.
Proof.
  intros Hinv Hk Hn Hgrow. destruct (decide (w_lists w c KPartial = [])) as [Ep|Ep].
  2:{ destruct (take_got d s w c k flags Hinv Hk) as (s' & w' & x & R & [G1 G2 G3 G4 G5 G6 G8 G7]); [by left|].
      exists s', w', x. split; [done|]. split; try done. lia. }
  destruct (decide (w_lists w c KFree = [])) as [Ef|Ef].
  2:{ destruct (take_got d s w c k flags Hinv Hk) as (s' & w' & x & R & [G1 G2 G3 G4 G5 G6 G8 G7]); [by right|].
      exists s', w', x. split; [done|]. split; try done. lia. }
  destruct (Hgrow Ep Ef) as (s1 & w1 & Rg & [I1 X1 F1 P1 O1 M1 N1]). destruct (ex_caches _ _ _ _ X1 c k Hk) as (n1 & m1 & Hk1).
  destruct (take_got d s1 w1 c _ flags I1 Hk1) as (s' & w' & x & R & [G1 G2 G3 G4 G5 G6 G8 G7]); [by right|].
  exists s', w', x. split.
  - cbn [kmem_cache_alloc] in *. rewrite <- R. eapply refill_after_grow; try done. by rewrite P1.
  - split; try done.
    + by eapply extends_trans.
    + intros c' Hu. by apply (G4 c'), (ex_used _ _ _ _ X1).
    + intros c' k' H' Eo Hne. destruct (ex_caches _ _ _ _ X1 c' k' H') as (n' & m' & H1). rewrite (G6 c' _ H1 Eo Hne). by eapply O1.
    + eauto.
    + lia.
Qed.

(** kmem_cache_alloc from a cache with its descriptors on the slabs. *)
Lemma alloc_on d s w c k flags : slab_inv s w -> caches s !! c = Some k -> OFF_SLAB k = false -> can_alloc s w (gfporder k) ->
  exists s' w' x, kmem_cache_alloc call (S d) c flags s = Ret (s', Some x) /\ got s w c x (2 ^ gfporder k) s' w'.
Proof.
  intros Hinv Hk Eon Hca. apply (grow_got d s w c k); try done; [apply Z.pow_nonneg; lia|]. intros _ _. by apply (cache_grow_on _ s w c k).
Qed.

(** A cache whose descriptors are objects of another cache. *)
Lemma cache_grow_off d s w c k flags : slab_inv s w -> caches s !! c = Some k -> OFF_SLAB k = true -> can_alloc s w (gfporder k) ->
  2 ^ gfporder k + 1 <= free_total (w_blocks w) ->
  exists s' w', cache_grow call (kmem_cache_alloc call (S d)) c flags s = Ret (s', 1) /\ grow_ok s w c (2 ^ gfporder k + 1) s' w'.
Proof.
  intros Hinv Hk Eoff Hca Hroom.
  destruct (grow_pages s w c k flags Hinv Hk Hca) as (m & i & s1 & s2 & fl & Rc & Rp & Hk2 & Hinv2 & Hext2 & Hsp & Hwas & Hnone & Hi1 & Hi2 & Eft).
  set (w2 := mk_world _ _ _ _) in *. destruct (si_off _ _ Hinv2 c _ Hk2 Eoff) as (sc & ksc & Esc & Hsc & [S1 S2 S3] & _).
  destruct (alloc_on d s2 w2 sc ksc flags Hinv2 Hsc S1) as (s3 & w3 & x & R3 & [G1 G2 G3 G4 G5 G6 G8 G7]).
  { rewrite S2. apply can_alloc_page; [done|]. cbn. lia. }
  rewrite S2 in G7. change (2 ^ 0) with 1 in G7. cbn [w2 w_blocks] in G7.
  assert (Hne : c <> sc) by (intros ->; rewrite Hk2 in Hsc; injection Hsc as <-; change (OFF_SLAB k = false) in S1; congruence).
  destruct (ex_caches _ _ _ _ G2 c _ Hk2) as (n3 & m3 & Hk3). set (k3 := set_colour_next _ _) in Hk3.
  destruct (si_cache _ _ Hinv c k Hk) as (Hc & _ & Hg). pose proof (ci_num _ _ _ _ _ Hc) as Hn. pose proof (si_present _ _ Hinv2) as Hpr.
  destruct (colour_fits k Hg ltac:(lia)) as [Hf1 Hf2]. unfold desc_size in Hf2. rewrite Eoff in Hf2. pose proof (ge_obj _ Hg).
  pose proof (ge_order _ Hg) as Ho. pow2 (gfporder k).
  assert (Hple : 2 ^ gfporder k <= 2 ^ 10) by (apply Z.pow_le_mono_r; unfold in_order, BUDDY_GROUPS in Ho; lia).
  set (off := colour_next k * colour_off k) in *. assert (Hb : base i + 4096 * 2 ^ gfporder k <= 2 ^ 32) by (unfold base, PAGE_OFFSET; lia).
  assert (Hb0 : 0 <= base i) by (unfold base, PAGE_OFFSET; lia). assert (Hno : 4 <= num k * objsize k) by nia.
  destruct (grow_tail call s w s3 w3 c k3 x (mk_slab off (base i + off) 0 0 None) i) as (s' & w' & R & [I1 X1 F1 P1 O1 M1 N1]); try done.
  - by eapply extends_trans.
  - by rewrite (G6 c _ Hk2 Eoff Hne).
  - intros c' k' H' Eo Hc'. destruct (ex_caches _ _ _ _ Hext2 c' k' H') as (n' & m' & H2). rewrite (G6 c' _ H2 Eo); [done|].
    intros ->. rewrite H2 in Hsc. injection Hsc as <-. change (OFF_SLAB k' = false) in S1. congruence.
  - eauto.
  - by rewrite (ex_present _ _ _ _ G2).
  - intros j Hj. by apply (ex_spare _ _ _ _ G2), Hsp.
  - cbn. lia.
  - cbn. lia.
  - change (OFF_SLAB k3) with (OFF_SLAB k). by rewrite Eoff.
  - intros _. by exists sc.
  - exists s', w'. split; [|split; try done; lia].
    unfold cache_grow. rewrite Hk. cbn [deref mbind outcome_bind]. apply bind_Ret_inv in Rc as (t & Rt & Rc).
    rewrite Rt. cbn [mbind outcome_bind]. rewrite Rc. cbn [mbind outcome_bind]. rewrite Rp. cbn [mbind outcome_bind].
    unfold alloc_slabmgmt. rewrite Hk2. cbn [deref mbind outcome_bind]. change (OFF_SLAB (set_colour_next m k)) with (OFF_SLAB k). rewrite Eoff.
    cbn [slabp_cache set_colour_next] in Esc |- *. rewrite Esc. cbn [deref mbind outcome_bind]. rewrite R3.
    cbn [mbind outcome_bind mret outcome_ret]. rewrite init_node. cbn [mbind outcome_bind mret outcome_ret]. fold off.
    rewrite (u32_small off), (u32_small (base i + off)) by lia. exact R.
Qed.

(** kmem_cache_alloc from any cache with slabs of one page. *)
Lemma alloc_any d s w c k flags : slab_inv s w -> caches s !! c = Some k -> gfporder k = 0 -> 2 <= free_total (w_blocks w) ->
  exists s' w' x, kmem_cache_alloc call (S (S d)) c flags s = Ret (s', Some x) /\ got s w c x 2 s' w'.
Proof.
  intros Hinv Hk Eo Hroom. assert (Hca : can_alloc s w (gfporder k)) by (rewrite Eo; apply can_alloc_page; [done|lia]).
  destruct (OFF_SLAB k) eqn:Eoff.
  - apply (grow_got (S d) s w c k); try done. intros _ _.
    destruct (cache_grow_off d s w c k flags Hinv Hk Eoff Hca) as (s1 & w1 & R & Hok); rewrite Eo in *; [lia|]. by exists s1, w1.
  - destruct (alloc_on (S d) s w c k flags Hinv Hk Eoff Hca) as (s1 & w1 & x & R & [G1 G2 G3 G4 G5 G6 G8 G7]). rewrite Eo in *.
    change (2 ^ 0) with 1 in *. exists s1, w1, x. split; [done|]. split; try done. lia.
Qed.
End grow.
