(* ===== verification/SlabFree.v ===== *)
(** * Releasing an object, and giving a slab back

    kmem_cache_free on its two ways.  A slab that keeps objects in use, or
    that the cache may still hold, goes to the list its number of free objects
    calls for (SlabProofs).  A slab that has become wholly free while the cache
    counts more free objects than [free_limit] is destroyed: slab_destroy takes
    it off the cache and returns its pages to the buddy system.  The field
    [free_limit] is set by kmem_cache_create only to the number of objects of
    a slab, so a cache with two idle slabs takes the second way. *)

From S2P Require Import Prelude ListHead Zone Buddy BuddyInv BuddyProofs BuddySpec Slab SlabProofs SlabInv SlabGrow.

(** ** The pages of a slab go back *)

Lemma PagePrivate_ClearPageSlab p : PagePrivate (ClearPageSlab p) = false.
Proof. rewrite PagePrivate_testbit. simpl. rewrite Z.land_spec, not_flag_testbit by lia. by rewrite andb_false_r. Qed.

(** No page of a block that overlaps no free block heads one. *)
Lemma loose_not_private z fl i k j p : buddy_inv z fl -> loose (present_pages z) fl i k -> 0 <= k ->
  covers i k j -> zone_mem_map z !! j = Some p -> PagePrivate p = false.
Proof.
  intros Hinv Hl Hk Hj Hp. destruct (PagePrivate p) eqn:E; [|done]. exfalso.
  destruct (bi_only _ _ Hinv j p Hp E) as [Ho Hin]. eapply covers_disj; [by eapply (loose_disj _ _ _ _ Hl)|exact Hj|].
  unfold covers. pose proof (pow2_pos (private p)). unfold in_order in Ho. lia.
Qed.

(** The address slab_destroy hands to kmem_freepages. *)
Definition destroy_addr (k : kmem_cache) (b : slab_s) : Z :=
  if OFF_SLAB k then s_mem b else u32 (s_mem b - colouroff b).

(** The slab with the descriptor [b] has the block of pages at [i], which is
    in use; [fl] are the free blocks. *)
Record slab_block (z : zone_t) (fl : Z -> list Z) (k : kmem_cache) (b : slab_s) (i : Z) : Prop := {
  sb_buddy : buddy_inv z fl;
  sb_order : in_order (gfporder k);
  sb_loose : loose (present_pages z) fl i (gfporder k);
  sb_addr : virt_to_page z (destroy_addr k b) = i;
  sb_zone : exists p, zone_mem_map z !! i = Some p /\ pg_zone p = true;
}.

(** The pages of the block [i] are free, the other pages as before. *)
Record pages_returned (z : zone_t) (fl : Z -> list Z) (i k : Z) (z' : zone_t) (fl' : Z -> list Z) : Prop := {
  pr_inv : buddy_inv z' fl';
  pr_free : forall j, free_page fl' j <-> free_page fl j \/ covers i k j;
  pr_total : free_total fl' = free_total fl + 2 ^ k;
  pr_count : free_pages z' = u32 (free_pages z + 2 ^ k);
  pr_held : forall j, ~ free_page fl' j ->
    zone_mem_map z' !! j = zone_mem_map z !! j /\ nodes z' !! Lru j = nodes z !! Lru j;
  pr_present : present_pages z' = present_pages z;
  pr_start : zone_start_pfn z' = zone_start_pfn z;
}.

Lemma kmem_freepages_spec s c k b i fl : caches s !! c = Some k -> slab_block (szone s) fl k b i ->
  exists z' fl', kmem_freepages c (destroy_addr k b) s = Ret (set_szone z' s) /\
    pages_returned (szone s) fl i (gfporder k) z' fl'.
Proof.
  intros Hk [Hb Ho Hl Ha (p & Hp & Hz)]. pow2 (gfporder k). unfold kmem_freepages. rewrite Hk.
  cbn [deref mbind outcome_bind]. rewrite Ha, Z.shiftl_1_l. destruct (loose_range _ _ _ _ Hl) as [Hi1 Hi2].
  destruct (for_pages_spec ClearPageSlab (Z.to_nat (2 ^ gfporder k)) i (szone s)) as (m & -> & Hout & Hin).
  { intros j Hj. apply (bi_mem _ _ Hb). lia. }
  rewrite Z2Nat.id in Hout, Hin by lia. cbn [mbind outcome_bind].
  assert (Hb1 : buddy_inv (with_mem_map m (szone s)) fl).
  { eapply (buddy_inv_frame (szone s)); [exact Hb|done|done| |done|done|done]. intros j. cbn.
    destruct (decide (covers i (gfporder k) j)) as [Hj|Hj]; [|by rewrite Hout].
    rewrite Hin by done. destruct (zone_mem_map (szone s) !! j) as [q|] eqn:Eq; [|done]. cbn.
    rewrite PagePrivate_ClearPageSlab, (loose_not_private _ _ i (gfporder k) j q Hb Hl); [done|unfold in_order in Ho; lia|done|done]. }
  unfold free_pages_. cbn [deref mbind outcome_bind zone_mem_map with_mem_map].
  rewrite Hin, Hp by lia. cbn [fmap option_fmap option_map deref mbind outcome_bind].
  replace (pg_zone (ClearPageSlab p)) with true by (by rewrite <- Hz).
  destruct (free_block_ok _ fl i (gfporder k) Hb1 Ho) as (z' & fl' & R & [F1 F2 F3 F4 F5]); [done|].
  rewrite R. cbn [mbind outcome_bind]. exists z', fl'. split; [done|]. split; try done.
  - intros j Hj. rewrite (bs_pages _ _ _ F5), (bs_lru _ _ _ F5) by done. cbn. rewrite Hout; [done|].
    intros Hc. apply Hj, F2. by right.
  - apply (bs_present _ _ _ F5).
  - apply (bs_start _ _ _ F5).
Qed.

(** ** A slab leaves its cache *)

Lemma all_slabs_drop L kd l1 a l2 : L kd = l1 ++ a :: l2 -> a :: all_slabs (upd_L L kd (l1 ++ l2)) ≡ₚ all_slabs L.
Proof. intros E. unfold all_slabs, upd_L. destruct kd; simpl; rewrite E; solve_Permutation. Qed.

Lemma drop_sub L kd l1 a l2 kd' x : L kd = l1 ++ a :: l2 -> x ∈ upd_L L kd (l1 ++ l2) kd' -> x ∈ L kd'.
Proof. intros E. unfold upd_L. case_decide; [subst|done]. rewrite E, !elem_of_app, elem_of_cons. tauto. Qed.

Lemma cache_inv_drop s c k L fr kd l1 a l2 h : cache_inv s c k L fr -> L kd = l1 ++ a :: l2 ->
  lists_ok h c (upd_L L kd (l1 ++ l2)) -> Z.of_nat (length (fr a)) = num k ->
  let k' := set_free_objects (u32 (free_objects k - num k)) k in
  cache_inv (set_caches (<[c := k']> (caches s)) (set_snodes h s)) c k' (upd_L L kd (l1 ++ l2)) fr.
Proof.
  intros [Hck Hnum Hli Hsl Hdj Hct] E Hl' Hfull k'. pose proof (drop_sub L kd l1 a l2) as Hsub.
  split; cbn; try done.
  - by rewrite lookup_insert_eq.
  - intros kd' a' Ha'. destruct (Hsl kd' a') as [b []]; [by eapply Hsub|]. by exists b.
  - intros kd1 a1 kd2 a2 b1 b2 x Ha1 Ha2. apply (Hdj kd1 a1 kd2 a2); by eapply Hsub.
  - rewrite Hct. unfold u32. rewrite Zminus_mod_idemp_l. f_equal.
    pose proof (sum_free_perm fr _ _ (all_slabs_drop L kd l1 a l2 E)) as Hp. simpl in Hp.
    change (sum_free fr (all_slabs L) - num k = sum_free fr (all_slabs (upd_L L kd (l1 ++ l2)))). lia.
Qed.

Lemma dropped_frame s c k L kd l1 a l2 h k' : caches s !! c = Some k -> L kd = l1 ++ a :: l2 ->
  (forall n, (forall kd, n ∉ khead c kd :: (SList <$> L kd)) -> h !! n = snodes s !! n) ->
  cache_frame s (set_caches (<[c := k']> (caches s)) (set_snodes h s)) c (fun z => z ∈ all_slabs L).
Proof.
  intros Hk E Hf. split; cbn; try done.
  - intros c' Hne. by rewrite lookup_insert_ne.
  - intros z b Hb. eauto.
  - intros n Hh Ho. apply Hf. intros kd0. rewrite elem_of_cons, list_elem_of_fmap.
    intros [->|(x & -> & Hx)]; [by apply (Hh kd0)|]. apply (Ho x); [|done]. apply elem_of_all_slabs. eauto.
Qed.

Lemma call_dtors_none call n : forall i mem k s, dtor k = None -> call_dtors call n i mem k s = Ret s.
Proof. induction n as [|n IH]; intros i mem k s Hd; [done|]. cbn [call_dtors]. rewrite Hd. cbn [call_opt mbind outcome_bind mret outcome_ret]. by apply IH. Qed.

(** ** kmem_cache_free *)

(** The slab [a] stays with its cache when one of its objects is freed. *)
Definition stays (k : kmem_cache) (L : kind -> list Z) (fr : Z -> list Z) (a : Z) : Prop :=
  Z.of_nat (length (fr a)) + 1 < num k \/ u32 (total_free L fr + 1) <= free_limit k.

(** The slab [a], on the pages at [i], is destroyed. *)
Record destroyed (s : slab_st) (fl : Z -> list Z) (c : Z) (k : kmem_cache) (L : kind -> list Z) (fr : Z -> list Z)
    (a x i : Z) (s' : slab_st) (fl' : Z -> list Z) (L' : kind -> list Z) : Prop := {
  ds_inv : cache_inv s' c (set_free_objects (u32 (total_free L fr + 1 - num k)) k) L' fr;
  ds_kinds : kinds_ok k L' fr;
  ds_slabs : a :: all_slabs L' ≡ₚ all_slabs L;
  ds_pages : pages_returned (szone s) fl i (gfporder k) (szone s') fl';
  ds_frame : cache_frame s s' c (fun z => z ∈ all_slabs L);
  ds_links : forall y, y <> x -> links s' !! y = links s !! y;
}.

Section with_call.
Context (call : Z -> Z -> slab_st -> outcome slab_st).

(** What slab_destroy does after the pages: a descriptor kept elsewhere is freed. *)
Definition free_descriptor (d : nat) (k : kmem_cache) (a : Z) (s : slab_st) : outcome slab_st :=
  if OFF_SLAB k then sc ← deref (slabp_cache k); kmem_cache_free call d sc a s else mret s.

Lemma slab_destroy_run d s c k a b i fl : caches s !! c = Some k -> slabs s !! a = Some b -> dtor k = None ->
  slab_block (szone s) fl k b i ->
  exists z' fl', pages_returned (szone s) fl i (gfporder k) z' fl' /\
    slab_destroy call (kmem_cache_free call d) c a s = free_descriptor d k a (set_szone z' s).
Proof.
  intros Hk Hb Hd Hblk. destruct (kmem_freepages_spec s c k b i fl Hk Hblk) as (z' & fl' & R & Hp).
  exists z', fl'. split; [done|]. unfold slab_destroy, free_descriptor. rewrite Hk, Hb. cbn [deref mbind outcome_bind].
  rewrite call_dtors_none by done. cbn [mbind outcome_bind]. unfold destroy_addr in R.
  destruct (OFF_SLAB k); rewrite R; done.
Qed.

Lemma slab_block_step z fl k k' b b' i : slab_block z fl k b i -> OFF_SLAB k' = OFF_SLAB k -> gfporder k' = gfporder k ->
  s_mem b' = s_mem b -> colouroff b' = colouroff b -> slab_block z fl k' b' i.
Proof. intros [H1 H2 H3 H4 H5] Eo Eg Em Ec. unfold destroy_addr in H4. split; unfold destroy_addr; rewrite ?Eo, ?Eg, ?Em, ?Ec; done. Qed.

Lemma cache_destroy_spec d s c k L fr kd a b x i fl :
  cache_inv s c k L fr -> kinds_ok k L fr -> a ∈ L kd -> in_use s k fr a x ->
  virt_to_slab x (szone s) = Ret a -> ~ stays k L fr a ->
  dtor k = None -> slabs s !! a = Some b -> slab_block (szone s) fl k b i ->
  exists s' fl' L', kmem_cache_free call (S d) c x s = free_descriptor d k a s' /\
    destroyed s fl c k L fr a x i s' fl' L'.
Proof.
  intros Hc Hk Ha Hu Hv Hno Hd Hb0 Hblk. pose proof (in_use_length _ _ _ _ _ _ _ _ Hc Ha Hu) as Hlen.
  assert (Hfull : Z.of_nat (length (fr a)) + 1 = num k) by (unfold stays in Hno; lia).
  assert (Hlim : free_limit k < u32 (total_free L fr + 1)) by (unfold stays in Hno; lia).
  destruct (put_and_count _ _ _ _ _ _ _ _ Hc Ha Hu)
    as (s1 & s2 & b' & R1 & R2 & Hc2 & Hb' & Hin' & Hz2 & Hfm2 & Hln2 & Hbb). destruct (Hbb b Hb0) as [Em Eco].
  cbn [kmem_cache_free]. unfold cache_free_body. rewrite Hv. cbn [mbind outcome_bind]. rewrite Hb0, (ci_cache _ _ _ _ _ Hc). cbn [mbind outcome_bind deref].
  rewrite R1. cbn [mbind outcome_bind]. rewrite R2. cbn [mbind outcome_bind].
  rewrite Hb', (ci_cache _ _ _ _ _ Hc2). cbn [mbind outcome_bind deref]. rewrite Hin'.
  replace (num k - Z.of_nat (length (fr a)) - 1) with 0 by lia. cbn [Z.eqb].
  apply list_elem_of_split in Ha as (l1 & l2 & E).
  destruct (lists_del _ _ _ _ _ _ _ (ci_lists _ _ _ _ _ Hc2) E) as (h & Rh & Hl' & _ & Hf).
  unfold on_snodes. rewrite Rh. cbn [mbind outcome_bind mret outcome_ret free_limit set_free_objects free_objects].
  rewrite (proj2 (Z.ltb_lt _ _)) by done. unfold upd_cache. cbn [caches set_snodes].
  rewrite (ci_cache _ _ _ _ _ Hc2). cbn [deref mbind outcome_bind mret outcome_ret].
  set (k2 := set_free_objects (u32 (total_free L fr + 1)) k) in *.
  pose proof (cache_inv_drop s2 c k2 L _ kd l1 a l2 h Hc2 E Hl') as Hc3. cbv zeta in Hc3.
  set (k3 := set_free_objects (u32 (free_objects k2 - num k2)) k2) in *.
  set (s3 := set_caches (<[c := k3]> (caches s2)) (set_snodes h s2)) in *.
  assert (Hgone : a ∉ all_slabs (upd_L L kd (l1 ++ l2))).
  { pose proof (all_slabs_NoDup _ _ _ (ci_lists _ _ _ _ _ Hc)) as Hn. rewrite <- (all_slabs_drop L kd l1 a l2 E) in Hn.
    by apply NoDup_cons in Hn as [? _]. }
  destruct (slab_destroy_run d s3 c k3 a b' i fl) as (z' & fl' & Hp & Rd).
  { cbn. by rewrite lookup_insert_eq. } { done. } { done. }
  { cbn. rewrite Hz2. by eapply slab_block_step. }
  exists (set_szone z' s3), fl', (upd_L L kd (l1 ++ l2)). split.
  { rewrite Rd. unfold free_descriptor. done. }
  assert (Hfr : forall a', a' ∈ all_slabs (upd_L L kd (l1 ++ l2)) -> fr a' = upd_fr fr a (x :: fr a) a').
  { intros a' Ha'. rewrite upd_fr_ne; [done|]. by intros ->. }
  assert (Ek : k3 = set_free_objects (u32 (total_free L fr + 1 - num k)) k).
  { unfold k3, k2. cbn. unfold u32. by rewrite Zminus_mod_idemp_l. }
  split.
  - apply (cache_inv_ext _ _ _ _ _ _ Hfr). rewrite <- Ek. eapply (cache_inv_frame s3); try done.
    + apply Hc3. rewrite upd_fr_eq. simpl. lia.
    + cbn. by rewrite lookup_insert_eq.
  - intros kd' a' Ha'. apply Hk. by eapply drop_sub.
  - by apply all_slabs_drop.
  - cbn. cbn in Hp. by rewrite Hz2 in Hp.
  - apply (cache_frame_trans _ s2 _ _ _ (fun z => z ∈ all_slabs L)); [exact Hfm2| |done].
    destruct (dropped_frame s2 c k2 L kd l1 a l2 h k3 (ci_cache _ _ _ _ _ Hc2) E Hf). by split.
  - done.
Qed.
End with_call.

(** C12. kmem_cache_free of an object in use.  When the slab keeps objects in use
    or the cache may still hold it, exactly this object goes back on the free
    list of its slab, the slab goes to the list its free objects call for and
    the invariant is kept.  Otherwise the slab is wholly free and destroyed: it
    leaves the cache, the counter drops by its objects, the invariant holds
    for the slabs that are left and its block of pages is free again in the
    buddy system; a descriptor kept off the slab is freed into its cache.  No
    other cache, slab or free list changes. *)
Theorem kmem_cache_free_correct call d s c k L fr kd a x :
  cache_inv s c k L fr -> kinds_ok k L fr -> a ∈ L kd -> in_use s k fr a x ->
  virt_to_slab x (szone s) = Ret a ->
  (stays k L fr a ->
   exists s' n L', kmem_cache_free call (S d) c x s = Ret s' /\ free_result s c k L fr s' x a n L') /\
  (~ stays k L fr a -> forall b i fl, dtor k = None -> slabs s !! a = Some b -> slab_block (szone s) fl k b i ->
   exists s' fl' L', kmem_cache_free call (S d) c x s =
      (if OFF_SLAB k then sc ← deref (slabp_cache k); kmem_cache_free call d sc a s' else Ret s') /\
     destroyed s fl c k L fr a x i s' fl' L').
Proof.
  intros Hc Hk Ha Hu Hv. split; [by eapply cache_free_spec|]. intros. by eapply cache_destroy_spec.
Qed.

(** ** Witness: a cache with a slab on the pages 8 to 11 that has one object in
    use, and a second slab that is idle *)

Definition two_cache : kmem_cache := mk_cache 64 0 3 3 5 2 0 0 32 0 None 32 None None.
Definition two_zone : zone_t :=
  with_nodes (<[Lru 8 := mk_list_head (Some (Mem 0x1000)) (Some (Mem 0xC0008000))]> (nodes zone16_alloc2))
    (with_mem_map (alter (with_first_page (Some 8)) 8 (zone_mem_map zone16_alloc2)) zone16_alloc2).
Definition two_slabs : slab_st :=
  mk_sst two_zone 0x500 {[ 0x1000 := two_cache ]}
    {[ 0xC0008000 := mk_slab 32 0xC0008020 1 0 (Some 0xC0008060);
       0xC0001000 := mk_slab 32 0xC0001020 0 0 (Some 0xC0001020) ]}
    (list_to_map
      [(SPartial 0x1000, mk_list_head (Some (SList 0xC0008000)) (Some (SList 0xC0008000)));
       (SFull 0x1000, mk_list_head (Some (SFull 0x1000)) (Some (SFull 0x1000)));
       (SFree 0x1000, mk_list_head (Some (SList 0xC0001000)) (Some (SList 0xC0001000)));
       (SList 0xC0008000, mk_list_head (Some (SPartial 0x1000)) (Some (SPartial 0x1000)));
       (SList 0xC0001000, mk_list_head (Some (SFree 0x1000)) (Some (SFree 0x1000)))])
    {[ 0xC0008060 := Some 0xC00080A0; 0xC00080A0 := None;
       0xC0001020 := Some 0xC0001060; 0xC0001060 := Some 0xC00010A0; 0xC00010A0 := None ]} ∅.
Definition two_L (kd : kind) : list Z := match kd with KFree => [0xC0001000] | KPartial => [0xC0008000] | KFull => [] end.
Definition two_fr (a : Z) : list Z :=
  if a =? 0xC0008000 then [0xC0008060; 0xC00080A0] else [0xC0001020; 0xC0001060; 0xC00010A0].

Lemma two_L_inv kd a : a ∈ two_L kd -> (kd = KPartial /\ a = 0xC0008000) \/ (kd = KFree /\ a = 0xC0001000).
Proof. destruct kd; simpl; [|by intros ?%elem_of_nil|]; intros ->%list_elem_of_singleton; auto. Qed.

(** A chain of links, checked by running through it. *)
Fixpoint lchain_b (w : gmap Z (option Z)) (p : option Z) (l : list Z) : bool :=
  match l with
  | [] => bool_decide (p = None)
  | x :: l => bool_decide (p = Some x) && match w !! x with Some n => lchain_b w n l | None => false end
  end.

Lemma lchain_b_sound w l : forall p, lchain_b w p l = true -> lchain w p l.
Proof.
  induction l as [|x l IH]; intros p; simpl; [by rewrite bool_decide_eq_true|].
  rewrite andb_true_iff, bool_decide_eq_true. intros [-> H]. split; [done|].
  destruct (w !! x) as [n|]; [|done]. eauto.
Qed.

Lemma two_inv : cache_inv two_slabs 0x1000 two_cache two_L two_fr.
Proof.
  split.
  - by vm_compute.
  - simpl. lia.
  - split.
    + intros []; (split; [apply (bool_decide_unpack _); by vm_compute|by vm_compute]).
    + intros kd kd' a [ [-> ->]|[-> ->] ]%two_L_inv [ [-> ?]|[-> ?] ]%two_L_inv; done.
  - intros kd a [ [-> ->]|[-> ->] ]%two_L_inv; eexists; split; try (by vm_compute);
      try (apply lchain_b_sound; by vm_compute); try (apply (bool_decide_unpack _); by vm_compute);
      apply Forall_forall; apply (bool_decide_unpack _); by vm_compute.
  - assert (Hd : forall x, x ∈ objs two_cache (mk_slab 32 0xC0008020 1 0 (Some 0xC0008060)) ->
      x ∉ objs two_cache (mk_slab 32 0xC0001020 0 0 (Some 0xC0001020))).
    { apply Forall_forall. apply (bool_decide_unpack _). by vm_compute. }
    intros kd a kd' a' b b' x [ [-> ->]|[-> ->] ]%two_L_inv [ [-> ->]|[-> ->] ]%two_L_inv Hne;
      vm_compute (slabs _ !! _); intros [= <-] [= <-] Hx Hx'; by (eapply Hd) || done.
  - by vm_compute.
Qed.

Lemma two_kinds : kinds_ok two_cache two_L two_fr.
Proof. intros kd a [ [-> ->]|[-> ->] ]%two_L_inv; by vm_compute. Qed.

Lemma page8_zone : exists p, zone_mem_map zone16_alloc2 !! 8 = Some p /\ pg_zone p = true.
Proof.
  assert (E : (match zone_mem_map zone16_alloc2 !! 8 with Some p => pg_zone p | None => false end) = true) by by vm_compute.
  revert E. generalize (zone_mem_map zone16_alloc2 !! 8). intros [p|] E; [by exists p|discriminate E].
Qed.

Lemma two_block : exists fl, slab_block two_zone fl two_cache (mk_slab 32 0xC0008020 1 0 (Some 0xC0008060)) 8.
Proof.
  destruct zone16_alloc2_inv as (fl & Hinv & Hl). exists fl.
  assert (Hpr : present_pages zone16_alloc2 = 16) by by vm_compute.
  split; [|unfold in_order, BUDDY_GROUPS; simpl; lia| |by vm_compute|].
  - eapply buddy_inv_frame; [exact Hinv|done|done| |done| |]; cbn.
    + intros j. destruct (decide (j = 8)) as [->|]; [|by rewrite lookup_alter_ne].
      rewrite lookup_alter_eq. by destruct (zone_mem_map zone16_alloc2 !! 8).
    + intros j (k & Hk & Hj). rewrite lookup_insert_ne; [done|]. intros [= <-]. pow2 k.
      pose proof (loose_disj _ _ _ _ Hl k 8 Hk Hj) as Hd. unfold blk_disj in Hd. lia.
    + intros j Hj. rewrite lookup_insert. by case_decide.
  - cbn. by rewrite Hpr.
  - cbn. rewrite lookup_alter_eq. destruct page8_zone as (p & -> & Hp). exists (with_first_page (Some 8) p). split; [reflexivity|exact Hp].
Qed.

Definition demo_used : slab_st :=
  match kmem_cache_alloc no_call 1 0x1000 0 demo with Ret (s, _) => s | _ => demo end.

(** An object of a slab with two free objects that may stay; the last object in
    use of a slab that is destroyed. *)
Lemma kmem_cache_free_correct_witness :
  (exists k L fr s' n L', cache_inv demo_used 0x1000 k L fr /\ in_use demo_used k fr 0xC0001000 0xC0001020 /\
    kmem_cache_free no_call 1 0x1000 0xC0001020 demo_used = Ret s' /\
    free_result demo_used 0x1000 k L fr s' 0xC0001020 0xC0001000 n L') /\
  (exists fl s' fl' L', in_use two_slabs two_cache two_fr 0xC0008000 0xC0008020 /\
    kmem_cache_free no_call 1 0x1000 0xC0008020 two_slabs = Ret s' /\
    destroyed two_slabs fl 0x1000 two_cache two_L two_fr 0xC0008000 0xC0008020 8 s' fl' L').
Proof.
  split.
  { destruct (cache_alloc_spec no_call 0 demo 0x1000 demo_cache demo_L demo_fr 0 demo_inv demo_kinds)
    as (s1 & x & a & n & L1 & rest & R & Hr); [by right|].
  assert (demo_used = s1) as -> by (unfold demo_used; by rewrite R).
  assert (Ha : a = 0xC0001000).
  { pose proof (ar_slab _ _ _ _ _ _ _ _ _ _ _ Hr) as Ha. by apply list_elem_of_singleton in Ha. }
  pose proof (ar_obj _ _ _ _ _ _ _ _ _ _ _ Hr) as Ho. unfold demo_fr in Ho. injection Ho as Hx Hrest.
  subst x a rest. destruct Hr as [Hi Hk Hs _ Hp Hz Hu Hfm Hln].
  assert (Hin : exists kd, 0xC0001000 ∈ L1 kd).
  { apply elem_of_all_slabs. rewrite Hp. apply elem_of_all_slabs. exists KFree. left. }
  destruct Hin as [kd Hkd].
  assert (Huse : in_use s1 (set_free_objects n demo_cache)
      (upd_fr demo_fr 0xC0001000 [0xC0001060; 0xC00010A0]) 0xC0001000 0xC0001020).
  { destruct Hu as (b & ? & ? & ?). exists b. by rewrite upd_fr_eq. }
  assert (Hvt : virt_to_slab 0xC0001020 (szone s1) = Ret 0xC0001000) by (rewrite Hz; by vm_compute).
  assert (Hst : stays (set_free_objects n demo_cache) L1 (upd_fr demo_fr 0xC0001000 [0xC0001060; 0xC00010A0]) 0xC0001000).
  { right. pose proof (alloc_total _ _ _ _ _ _ _ _ _ _ _ demo_inv
      (Build_alloc_result _ _ _ _ _ _ _ _ _ _ _ Hi Hk Hs eq_refl Hp Hz Hu Hfm Hln)) as Ht.
    rewrite Ht. by vm_compute. }
  destruct (proj1 (kmem_cache_free_correct no_call 0 s1 0x1000 (set_free_objects n demo_cache) L1
    (upd_fr demo_fr 0xC0001000 [0xC0001060; 0xC00010A0]) kd 0xC0001000 0xC0001020 Hi Hk Hkd Huse Hvt) Hst)
    as (s' & n' & L' & R' & Hf).
  exists (set_free_objects n demo_cache), L1, (upd_fr demo_fr 0xC0001000 [0xC0001060; 0xC00010A0]), s', n', L'.
  split; [exact Hi|]. split; [exact Huse|]. split; [exact R'|exact Hf]. }
  destruct two_block as (fl & Hblk). exists fl.
  assert (Huse : in_use two_slabs two_cache two_fr 0xC0008000 0xC0008020).
  { eexists. split; [by vm_compute|]. split; [apply (bool_decide_unpack _); by vm_compute|].
    apply (bool_decide_unpack _). by vm_compute. }
  assert (Hno : ~ stays two_cache two_L two_fr 0xC0008000) by (intros [H|H]; by vm_compute in H).
  destruct (proj2 (kmem_cache_free_correct no_call 0 two_slabs 0x1000 two_cache two_L two_fr KPartial 0xC0008000 0xC0008020
    two_inv two_kinds ltac:(left) Huse ltac:(by vm_compute)) Hno _ 8 fl eq_refl eq_refl Hblk)
    as (s' & fl' & L' & R & Hd).
  exists s', fl', L'. split; [exact Huse|]. split; [exact R|exact Hd].
Defined.
