(* ===== verification/SlabCreate.v ===== *)
(** * Creating caches

    kmem_cache_create takes the descriptor of the new cache from the cache of
    caches and keeps the invariant of the whole allocator; kmem_cache_init
    establishes that invariant on a zone in the invariant of the buddy system.
    kmem_cache_create does not write the field colour_next of the descriptor,
    so it has the value memory had before: the theorems assume that it was
    zero. *)

From S2P Require Import Prelude ListHead Zone Buddy BuddyInv BuddyProofs BuddySpec Slab SlabProofs SlabInv SlabGrow.

(** ** A new descriptor in the invariant *)

Definition no_slabs (w : world) (c : Z) : world :=
  mk_world (fupd (w_lists w) c (fun _ => [])) (w_free w) (w_page w) (w_blocks w).

Lemma is_list_ring {K} `{Countable K} (h : gmap K (list_head K)) n :
  h !! n = Some (mk_list_head (Some n) (Some n)) -> is_list h n [].
Proof.
  intros Hn. split; [apply NoDup_cons; split; [by apply not_elem_of_nil|constructor]|]. simpl. unfold hnext, hprev. by rewrite Hn.
Qed.

Section add.
Context (s : slab_st) (w : world) (c : Z) (k : kmem_cache) (s' : slab_st).
Context (Hinv : slab_inv s w) (Hnone : caches s !! c = None) (Hused : used s w (cache_cache s) c).
Context (Hg : geometry k) (Hn : 0 < num k < 2 ^ 31) (Hf : free_objects k = 0).
Context (Hoff : OFF_SLAB k = true -> exists sc ksc, slabp_cache k = Some sc /\ caches s !! sc = Some ksc /\ small_cache ksc sizeof_slab).
Context (Ec : caches s' = <[c := k]> (caches s)) (Es : slabs s' = slabs s) (El : links s' = links s) (Ez : szone s' = szone s).
Context (Ecc : cache_cache s' = cache_cache s) (Esz : cs_cachep s' = cs_cachep s).
Context (Hh : forall kd, snodes s' !! khead c kd = Some (mk_list_head (Some (khead c kd)) (Some (khead c kd)))).
Context (Hnodes : forall n, (forall kd, n <> khead c kd) -> n <> CacheChain -> (forall c', n <> CNext c') -> snodes s' !! n = snodes s !! n).
Context (Hchain : exists ch, is_list (snodes s') CacheChain (CNext <$> ch) /\ forall c', c' ∈ ch -> c' = c \/ is_Some (caches s !! c')).

Lemma added_old c' k' : caches s !! c' = Some k' -> c' <> c /\ caches s' !! c' = Some k'.
Proof. intros H'. assert (c' <> c) by congruence. by rewrite Ec, lookup_insert_ne. Qed.

Lemma added_new c' k' : caches s' !! c' = Some k' -> (c' = c /\ k' = k) \/ (c' <> c /\ caches s !! c' = Some k').
Proof. rewrite Ec, lookup_insert. case_decide; [intros [= <-]; by left|by right]. Qed.

Lemma owns_added c' a : owns (no_slabs w c) c' a <-> c' <> c /\ owns w c' a.
Proof.
  unfold owns, no_slabs, fupd. cbn [w_lists]. case_decide as E; [|naive_solver]. split; [|tauto].
  intros (kd & Ha)%elem_of_all_slabs. by apply not_elem_of_nil in Ha.
Qed.

Lemma added_used c' x : used s w c' x -> used s' (no_slabs w c) c' x.
Proof.
  intros (k1 & a & b & H1 & Ha & Hb & Hx & Hni). destruct (added_old c' k1 H1) as [Hne H1'].
  exists k1, a, b. rewrite Es, owns_added. done.
Qed.

Lemma added_spare j : spare s w j -> spare s' (no_slabs w c) j.
Proof.
  intros [H1 H2]. split; [done|]. intros c' k' a H' Ha. apply owns_added in Ha as [Hne Ha].
  destruct (added_new c' k' H') as [ [-> _]|[_ H0] ]; [done|]. by apply (H2 c' k' a).
Qed.

Lemma added_cache_inv : cache_inv s' c k (fun _ => []) (w_free w).
Proof.
  split; try done.
  - by rewrite Ec, lookup_insert_eq.
  - split; [|by intros kd kd' a Ha%not_elem_of_nil]. intros kd. by apply is_list_ring.
  - by intros kd a Ha%not_elem_of_nil.
  - by intros kd a kd' a' b b' x Ha%not_elem_of_nil.
Qed.

Lemma added_other c' k' : c' <> c -> caches s !! c' = Some k' -> cache_inv s' c' k' (w_lists w c') (w_free w).
Proof.
  intros Hne H'. destruct (si_cache _ _ Hinv c' k' H') as (Hc & _ & _). eapply cache_inv_frame; try done.
  - by apply added_old.
  - intros kd. apply Hnodes; [|by destruct kd|by destruct kd]. intros kd' E. destruct kd, kd'; cbn in E; congruence.
  - intros a Ha. split; [|by rewrite Es]. apply Hnodes; [by intros []|done|done].
  - intros. by rewrite El.
Qed.

Lemma add_cache_inv : slab_inv s' (no_slabs w c) /\ extends s w s' (no_slabs w c).
Proof.
  split.
  - split; rewrite ?Ez, ?Ecc; try apply Hinv.
    + intros c' k' H'. destruct (added_new c' k' H') as [ [-> ->]|[Hne H0] ]; unfold no_slabs, fupd; cbn [w_lists w_free].
      * rewrite decide_True by done. split_and!; [apply added_cache_inv|by intros kd a Ha%not_elem_of_nil|done].
      * rewrite decide_False by done. destruct (si_cache _ _ Hinv c' k' H0) as (_ & H2 & H3). split_and!; try done. by apply added_other.
    + intros c' k' a b H' Ha Hb. apply owns_added in Ha as [Hne Ha]. destruct (added_new c' k' H') as [ [-> _]|[_ H0] ]; [done|].
      rewrite Es in Hb. by destruct (si_place _ _ Hinv c' k' a b H0 Ha Hb) as [P1 P2 P3 P4 P5].
    + intros c1 k1 c2 k2 a H1 H2 Ha1 Ha2. apply owns_added in Ha1 as [Hn1 Ha1], Ha2 as [Hn2 Ha2].
      destruct (added_new c1 k1 H1) as [ [-> _]|[_ H1'] ]; [done|]. destruct (added_new c2 k2 H2) as [ [-> _]|[_ H2'] ]; [done|].
      by eapply (si_owner _ _ Hinv).
    + intros c1 k1 a1 c2 k2 a2 H1 H2 Ha1 Ha2 Hne. apply owns_added in Ha1 as [Hn1 Ha1], Ha2 as [Hn2 Ha2].
      destruct (added_new c1 k1 H1) as [ [-> _]|[_ H1'] ]; [done|]. destruct (added_new c2 k2 H2) as [ [-> _]|[_ H2'] ]; [done|].
      by eapply (si_disj _ _ Hinv c1 k1 a1 c2 k2 a2).
    + intros c' k' H' Eo. destruct (added_new c' k' H') as [ [-> ->]|[Hne H0] ].
      * destruct (Hoff Eo) as (sc & ksc & O1 & O2 & O3). exists sc, ksc. split_and!; try done; [by apply added_old|].
        intros a [? _]%owns_added. done.
      * destruct (si_off _ _ Hinv c' k' H0 Eo) as (sc & ksc & O1 & O2 & O3 & O4). exists sc, ksc. split_and!; try done; [by apply added_old|].
        intros a [_ Ha]%owns_added. by apply added_used, O4.
    + destruct (si_cc _ _ Hinv) as (kc & Hkc & Hsm). exists kc. split; [by apply added_old|done].
    + apply added_spare, Hinv.
    + intros c' k' H' Hne. apply added_used. destruct (added_new c' k' H') as [ [-> _]|[_ H0] ]; [done|]. by eapply (si_desc _ _ Hinv).
    + destruct Hchain as (ch & Hl & Hch). exists ch. split; [done|]. intros c' Hc'. rewrite Ec, lookup_insert.
      case_decide; [eauto|]. destruct (Hch c' Hc'); [congruence|done].
  - split; rewrite ?Ez; try done.
    + intros c' k' H'. exists (free_objects k'), (colour_next k'). destruct (added_old c' k' H') as [_ ->]. by destruct k'.
    + apply added_used.
    + apply added_spare.
Qed.
End add.

(** ** Sizes of a new cache *)

Definition create_size (size : Z) : Z :=
  KALIGN (if negb (Z.land size (BYTES_PER_WORD - 1) =? 0) then KALIGN size BYTES_PER_WORD else size) KMALLOC_MINALIGN.

Lemma create_size_bounds size : 1 <= size < 2 ^ 31 -> 8 <= create_size size /\ size <= create_size size < size + 11.
Proof.
  intros Hs. unfold create_size, BYTES_PER_WORD. change KMALLOC_MINALIGN with (2 ^ 3).
  set (s1 := if negb _ then _ else _).
  assert (H1 : 1 <= s1 /\ size <= s1 < size + 4).
  { unfold s1. destruct (negb _); [|lia]. change (KALIGN size 4) with (KALIGN size (2 ^ 2)). pose proof (KALIGN_pow2 size 2). lia. }
  destruct (KALIGN_pow2 s1 3) as [H2 H3]; [lia|lia|]. set (r := KALIGN s1 (2 ^ 3)) in *. clearbody r s1. change (2 ^ 3) with 8 in *.
  apply Z.mod_divide in H3; [|lia]. destruct H3 as [q ->]. lia.
Qed.

Lemma halve_ralign_ret fuel size : forall r, 1 <= size -> 0 <= r < 2 ^ Z.of_nat fuel -> exists r', halve_ralign fuel size r = Ret r'.
Proof.
  induction fuel as [|fuel IH]; intros r Hs Hr.
  - cbn [halve_ralign]. change (2 ^ Z.of_nat 0) with 1 in Hr. assert (r = 0) as -> by lia.
    destruct (Z.leb_spec size (0 / 2)) as [Hle|_]; [change (0 / 2) with 0 in Hle; lia|]. eauto.
  - cbn [halve_ralign]. destruct (size <=? r / 2); [|eauto]. apply IH; [done|]. split; [apply Z.div_pos; lia|].
    apply Z.div_lt_upper_bound; [lia|]. rewrite Nat2Z.inj_succ, Z.pow_succ_r in Hr by lia. lia.
Qed.

(** The descriptor kmem_cache_create writes. *)
Definition new_cache (size flags n order left : Z) (old cc : kmem_cache) (fn : option Z) : kmem_cache :=
  mk_cache (create_size size) flags n n 0 order (gfpflags old) (left / cache_line_size) cache_line_size (colour_next old)
    (slabp_cache cc) (if negb (Z.land flags CFLGS_OFF_SLAB =? 0) then sizeof_slab else KALIGN sizeof_slab KMALLOC_MINALIGN) fn (dtor old).

Lemma new_cache_sizes size flags : 1 <= size -> size <= 131072 ->
  exists n order left, calculate_slab_order (create_size size) KMALLOC_MINALIGN flags = Ret (n, order, left) /\ 1 <= n /\
    (size <= 2048 -> order = 0) /\
    forall old cc, colour_next old = 0 -> geometry (new_cache size flags n order left old cc None) /\ n < 2 ^ 31.
Proof.
  intros Hs1 Hs2. destruct (create_size_bounds size) as [Hc1 Hc2]; [lia|]. unfold calculate_slab_order, KMALLOC_MINALIGN.
  change 8 with (2 ^ 3). assert (Hm : 0 <= mgmt_bytes (2 ^ 3) flags <= 32) by (unfold mgmt_bytes; destruct (off_slab flags); by vm_compute).
  destruct (slab_order_loop_spec (Z.to_nat (KMALLOC_MAX_ORDER + 1)) 0 (create_size size) 3 flags 0 0) as (n & o & left & R & Hn & Ho & Hl & Hfit & Hmin);
    try done; try lia; [change (slab_mgmt_size (2 ^ 3)) with 32; unfold sizeof_slab; lia|].
  exists n, o, left. split; [done|]. split; [done|]. split.
  - intros Hsm. destruct (decide (o = 0)) as [?|Hne]; [done|]. specialize (Hmin 0 ltac:(lia)). change (4096 * 2 ^ 0) with 4096 in Hmin. lia.
  - intros old cc Hcn. assert (Hp : 0 < 2 ^ o <= 2 ^ 10) by (split; [apply pow2_pos; lia|apply Z.pow_le_mono_r; lia]).
    assert (Hnb : n < 2 ^ 31) by nia. split; [|done].
    assert (Hcol : 0 <= left / 32 < 2 ^ 31 /\ left / 32 * 32 <= left).
    { pose proof (Z.div_mod left 32 ltac:(lia)). pose proof (Z.mod_pos_bound left 32 ltac:(lia)).
      split; [split; [apply Z.div_pos; lia|]|lia]. assert (0 <= n * create_size size) by nia. lia. }
    split; unfold new_cache; cbn [gfporder objsize ctor colour_next colour colour_off slab_size num];
      unfold cache_line_size, in_order, BUDDY_GROUPS; try done; try lia.
    + unfold OFF_SLAB. cbn [cflags]. intros E. rewrite E. by vm_compute.
    + unfold desc_size, OFF_SLAB. cbn [cflags slab_size num objsize colour colour_off gfporder]. unfold mgmt_bytes, off_slab in Hfit.
      destruct (negb (Z.land flags CFLGS_OFF_SLAB =? 0)); [lia|]. change (KALIGN sizeof_slab KMALLOC_MINALIGN) with 32. change (slab_mgmt_size (2 ^ 3)) with 32 in Hfit. lia.
Qed.

(** ** kmem_cache_create *)

Lemma list3_init_run c s k : caches s !! c = Some k ->
  exists h, kmem_list3_init c (new_node (SFull c) (new_node (SPartial c) (new_node (SFree c) s))) =
    Ret (set_caches (<[c := set_free_objects 0 k]> (caches s)) (set_snodes h s)) /\
    (forall kd, h !! khead c kd = Some (mk_list_head (Some (khead c kd)) (Some (khead c kd)))) /\
    (forall n, (forall kd, n <> khead c kd) -> h !! n = snodes s !! n).
Proof.
  intros Hk. unfold kmem_list3_init, on_snodes, new_node. cbn [snodes set_snodes].
  do 3 (rewrite INIT_LIST_HEAD_spec by (simplify_map_eq; eauto); cbn [mbind outcome_bind mret outcome_ret snodes set_snodes]).
  unfold upd_cache. cbn [caches set_snodes]. rewrite Hk. cbn. eexists. split; [done|]. split.
  - intros []; cbn; by simplify_map_eq.
  - intros n Hn. pose proof (Hn KPartial). pose proof (Hn KFull). pose proof (Hn KFree). cbn in *. by simplify_map_eq.
Qed.

Section create.
Context (junk : Z -> kmem_cache) (call : Z -> Z -> slab_st -> outcome slab_st).
Hypothesis Hjunk : forall c, colour_next (junk c) = 0.

(** The cache of caches knows where slab descriptors come from. *)
Definition desc_cache (s : slab_st) : Prop :=
  exists cc sc ksc, caches s !! cache_cache s = Some cc /\ slabp_cache cc = Some sc /\ caches s !! sc = Some ksc /\ small_cache ksc sizeof_slab.

(** A new cache [c] without slabs. *)
Record created (s : slab_st) (w : world) (size flags c : Z) (s' : slab_st) (w' : world) : Prop := {
  cr_inv : slab_inv s' w';
  cr_ext : extends s w s' w';
  cr_cache : exists k, caches s' !! c = Some k /\ objsize k = create_size size /\ cflags k = flags /\ (size <= 2048 -> gfporder k = 0);
  cr_new : caches s !! c = None;
  cr_room : free_total (w_blocks w) - 1 <= free_total (w_blocks w');
}.

(** The object given out for a descriptor is not one of a cache. *)
Lemma new_desc s w c n s' w' : slab_inv s w -> got s w (cache_cache s) c n s' w' -> caches s !! c = None /\ caches s' !! c = None.
Proof.
  intros Hinv [G1 G2 G3 G4 G5 G6 G8 G7]. enough (E : caches s !! c = None) by (split; [done|by apply G8]).
  destruct (caches s !! c) as [k|] eqn:E; [|done]. exfalso. destruct (decide (c = cache_cache s)) as [->|Hne].
  - destruct G3 as (kc & a & b & H1 & H2 & H3 & H4 & _). destruct (si_static _ _ G1) as [_ Hs]. rewrite (ex_cc _ _ _ _ G2) in Hs.
    eapply (Hs _ kc a H1 H2). by eapply obj_page.
  - by apply (G4 (cache_cache s)), (si_desc _ _ Hinv c k).
Qed.

(** The descriptor goes on the chain of caches. *)
Lemma register_run s w c h k : slab_inv s w -> caches s !! c = None ->
  (forall n, (forall kd, n <> khead c kd) -> h !! n = snodes s !! n) ->
  exists h', (s1 ← on_snodes (INIT_LIST_HEAD (Some (CNext c))) (new_node (CNext c) (set_caches (<[c := k]> (caches s)) (set_snodes h s)));
     on_snodes (list_add (Some CacheChain) (Some (CNext c))) s1) = Ret (set_caches (<[c := k]> (caches s)) (set_snodes h' s)) /\
    (exists ch, is_list h' CacheChain (CNext <$> ch) /\ forall c', c' ∈ ch -> c' = c \/ is_Some (caches s !! c')) /\
    (forall n, n <> CacheChain -> (forall c', n <> CNext c') -> h' !! n = h !! n).
Proof.
  intros Hinv Hc Hh. destruct (chain_new s w Hinv c Hc) as (ch & Hl & Hni & Hch). rewrite init_node. cbn [mbind outcome_bind].
  unfold on_snodes. cbn [snodes set_snodes set_caches].
  destruct (list_add_spec (<[CNext c := mk_list_head (Some (CNext c)) (Some (CNext c))]> h) CacheChain (CNext <$> ch) (CNext c)) as (h' & -> & Hl' & [_ Hf]).
  - eapply is_list_agree; [|exact Hl]. intros n Hn. rewrite lookup_insert_ne by (intros <-; done).
    apply Hh. intros kd ->. rewrite elem_of_cons, list_elem_of_fmap in Hn. destruct kd; naive_solver.
  - done.
  - rewrite lookup_insert_eq. eauto.
  - cbn. exists h'. split; [done|]. split.
    + exists (c :: ch). split; [done|]. intros c' [->|Hc']%elem_of_cons; [by left|right; by apply Hch].
    + intros n Hn1 Hn2. rewrite Hf; [rewrite lookup_insert_ne; [done|]; intros <-; by apply (Hn2 c)|].
      rewrite !elem_of_cons, list_elem_of_fmap. naive_solver.
Qed.

Lemma create_inv size flags s w : slab_inv s w -> 1 <= size <= 131072 -> 0 < free_total (w_blocks w) ->
  (off_slab flags = true -> desc_cache s) ->
  exists s' w' c, kmem_cache_create junk call size KMALLOC_MINALIGN flags None s = Ret (s', Some c) /\ created s w size flags c s' w'.
Proof.
  intros Hinv Hs Hroom Hoff. destruct (si_cc _ _ Hinv) as (cc & Hcc & [S1 S2 S3]).
  destruct (alloc_on call 1 s w (cache_cache s) cc 0 Hinv Hcc S1) as (s1 & w1 & c & R1 & Hgot); [rewrite S2; by apply can_alloc_page|].
  destruct (new_desc s w c _ s1 w1 Hinv Hgot) as [Hc0 Hc1]. destruct Hgot as [G1 G2 G3 G4 G5 G6 G8 G7]. rewrite S2 in G7. change (2 ^ 0) with 1 in G7.
  destruct (new_cache_sizes size flags) as (n & o & left & Rs & Hn & Ho & Hgeo); [lia|lia|].
  destruct (ex_caches _ _ _ _ G2 _ cc Hcc) as (nc & mc & Hcc1). set (cc1 := set_colour_next _ _) in Hcc1.
  unfold kmem_cache_create. set (sz := if negb (Z.land size _ =? 0) then _ else _).
  assert (Hsz : 1 <= sz).
  { unfold sz. destruct (negb _); [|lia]. change (KALIGN size BYTES_PER_WORD) with (KALIGN size (2 ^ 2)). pose proof (KALIGN_pow2 size 2). lia. }
  assert (Hra : exists r, (if negb (Z.land flags SLAB_HWCACHE_ALIGN =? 0) then halve_ralign 32 sz cache_line_size else mret BYTES_PER_WORD) = Ret r).
  { destruct (negb (Z.land flags SLAB_HWCACHE_ALIGN =? 0)); [|eexists; reflexivity]. apply halve_ralign_ret; [done|]. by vm_compute. }
  destruct Hra as [r ->]. cbn [mbind outcome_bind]. rewrite R1. cbn [mbind outcome_bind]. rewrite Hc1. cbn [default from_option].
  set (s2 := set_caches (<[c := junk c]> (caches s1)) s1).
  destruct (list3_init_run c s2 (junk c)) as (h & Rh & Hh1 & Hh2); [unfold s2; cbn; by rewrite lookup_insert_eq|].
  rewrite Rh. cbn [mbind outcome_bind]. cbv zeta. change (KALIGN sz KMALLOC_MINALIGN) with (create_size size). rewrite Rs. cbn [mbind outcome_bind].
  rewrite (proj2 (Z.eqb_neq n 0)) by lia.
  assert (Hne : c <> cache_cache s) by (intros ->; congruence).
  cbn [caches set_caches set_snodes cache_cache s2]. rewrite (ex_cc _ _ _ _ G2), !lookup_insert_ne, Hcc1 by done. cbn [deref mbind outcome_bind].
  change (if cache_line_size <? KMALLOC_MINALIGN then KMALLOC_MINALIGN else cache_line_size) with cache_line_size.
  fold (new_cache size flags n o left (junk c) cc1 None). set (k := new_cache _ _ _ _ _ _ _ _). rewrite !insert_insert_eq.
  destruct (register_run s1 w1 c h k G1 Hc1 Hh2) as (h' & Rr & Hl & Hh').
  change (set_caches (<[c := k]> (caches s1)) (set_caches (<[c := set_free_objects 0 (junk c)]> (caches s1)) (set_snodes h s2))) with
    (set_caches (<[c := k]> (caches s1)) (set_snodes h s1)).
  apply bind_Ret_inv in Rr as (t & Rt & Rr). rewrite Rt. cbn [mbind outcome_bind]. rewrite Rr. cbn [mbind outcome_bind mret outcome_ret].
  destruct (Hgeo (junk c) cc1 (Hjunk c)) as [Hg Hnb].
  destruct (add_cache_inv s1 w1 c k (set_caches (<[c := k]> (caches s1)) (set_snodes h' s1))) as [Hinv' Hext']; try done.
  - by rewrite (ex_cc _ _ _ _ G2).
  - cbn. lia.
  - intros Eo. destruct (Hoff Eo) as (cc' & sc & ksc & H1 & H2 & H3 & H4). rewrite Hcc in H1. injection H1 as <-.
    destruct (ex_caches _ _ _ _ G2 sc ksc H3) as (ns & ms & H3'). exists sc. eexists. split; [exact H2|]. split; [exact H3'|by apply small_cache_shape].
  - intros kd. cbn. rewrite Hh'; [apply Hh1|by destruct kd|by destruct kd].
  - intros nd Hkd Hcc' Hcn. cbn. rewrite Hh', Hh2 by done. done.
  - eexists _, _, c. split; [reflexivity|]. split; try done.
    + by eapply extends_trans.
    + exists k. split; [cbn; by rewrite lookup_insert_eq|]. done.
Qed.

(** ** The general caches *)

Lemma desc_cache_ext s w s' w' : extends s w s' w' -> desc_cache s -> desc_cache s'.
Proof.
  intros Hext (cc & sc & ksc & H1 & H2 & H3 & H4). destruct (ex_caches _ _ _ _ Hext _ _ H1) as (n & m & H1').
  destruct (ex_caches _ _ _ _ Hext _ _ H3) as (n' & m' & H3').
  eexists _, sc, _. rewrite (ex_cc _ _ _ _ Hext). split; [exact H1'|]. split; [exact H2|]. split; [exact H3'|by apply small_cache_shape].
Qed.

(** The general cache for requests of up to [z] bytes. *)
Definition size_ok (s : slab_st) (z : Z) : Prop :=
  exists c k, cs_cachep s !! z = Some (Some c) /\ caches s !! c = Some k /\ z <= objsize k /\ (z <= 2048 -> gfporder k = 0).

Lemma size_ok_ext s w s' w' z : extends s w s' w' -> size_ok s z -> size_ok s' z.
Proof.
  intros Hext (c & k & H1 & H2 & H3 & H4). destruct (ex_caches _ _ _ _ Hext _ _ H2) as (n & m & H2').
  exists c. eexists. rewrite (ex_sizes _ _ _ _ Hext). split; [done|]. split; [exact H2'|done].
Qed.

Lemma inv_set_sizes s w m : slab_inv s w -> slab_inv (set_sizes m s) w.
Proof.
  intros Hinv. split; try apply Hinv. intros c k Hk. destruct (si_cache _ _ Hinv c k Hk) as (Hc & H2 & H3). split_and!; try done.
  by eapply cache_inv_frame.
Qed.

Lemma create_sizes_inv zs : forall s w, slab_inv s w -> desc_cache s -> NoDup zs -> Forall (fun z => 1 <= z <= 131072) zs ->
  Z.of_nat (length zs) <= free_total (w_blocks w) ->
  exists s' w', create_sizes junk call zs s = Ret s' /\ slab_inv s' w' /\ cache_cache s' = cache_cache s /\
    (forall z, (z ∈ zs \/ size_ok s z) -> size_ok s' z) /\
    free_total (w_blocks w) - Z.of_nat (length zs) <= free_total (w_blocks w').
Proof.
  induction zs as [|z zs IH]; intros s w Hinv Hd Hnd Hall Hroom.
  - exists s, w. split_and!; try done; [|lia]. intros z [Hz%not_elem_of_nil|Hz]; done.
  - apply NoDup_cons in Hnd as [Hz Hnd]. inversion Hall as [|? ? Hz1 Hall']; subst. cbn [length] in Hroom.
    destruct (create_inv z (Z.lor CFLGS_OFF_SLAB KMALLOC_FLAGS) s w Hinv Hz1) as (s1 & w1 & c & R & [C1 C2 C3 C4 C5]); [lia|done|].
    cbn [create_sizes]. rewrite R. cbn [mbind outcome_bind]. set (s2 := set_sizes _ s1).
    destruct (IH s2 w1) as (s' & w' & R' & I' & Ecc & Hok & Hr); [by apply inv_set_sizes|by apply (desc_cache_ext s w s1 w1) in Hd|done|done|lia|].
    exists s', w'. split_and!; [exact R'|done| | |cbn [length]; lia].
    { rewrite Ecc. apply C2. }
    intros y Hy. apply Hok. destruct (decide (y ∈ zs)) as [?|Hny]; [by left|]. right. destruct (decide (y = z)) as [->|Hne].
    + destruct C3 as (k & K1 & K2 & K3 & K4). destruct (create_size_bounds z) as [_ Hb]; [lia|]. exists c, k. cbn. rewrite lookup_insert_eq. split_and!; try done; lia.
    + destruct Hy as [ [?|?]%elem_of_cons|Hy]; [done|done|]. apply (size_ok_ext s w s1 w1 y C2) in Hy as (c' & k' & H1 & H2 & H3 & H4).
      exists c', k'. cbn. rewrite lookup_insert_ne by done. done.
Qed.

(** ** kmem_cache_init *)

Definition set_slabp_cache (sc : option Z) (k : kmem_cache) : kmem_cache :=
  mk_cache (objsize k) (cflags k) (num k) (free_limit k) (free_objects k) (gfporder k) (gfpflags k) (colour k) (colour_off k)
    (colour_next k) sc (slab_size k) (ctor k) (dtor k).

(** The field slabp_cache of a cache with on-slab descriptors is not read. *)
Lemma inv_set_slabp s w c k sc : slab_inv s w -> caches s !! c = Some k -> OFF_SLAB k = false ->
  slab_inv (set_caches (<[c := set_slabp_cache sc k]> (caches s)) s) w.
Proof.
  intros Hinv Hk Eon. set (s' := set_caches _ s).
  assert (Hbwd : forall c' k', caches s' !! c' = Some k' -> exists k0, caches s !! c' = Some k0 /\ (k' = k0 \/ (k0 = k /\ k' = set_slabp_cache sc k))).
  { intros c' k'. cbn. rewrite lookup_insert. case_decide as E; [|eauto]. intros [= <-]. subst c'. eauto. }
  assert (Hfwd : forall c' k0, caches s !! c' = Some k0 -> exists k', caches s' !! c' = Some k' /\ (k' = k0 \/ (k0 = k /\ k' = set_slabp_cache sc k))).
  { intros c' k0 H0. cbn. rewrite lookup_insert. case_decide as E; [|eauto]. subst c'. rewrite Hk in H0. injection H0 as <-. eauto. }
  assert (Hused : forall c' x, used s w c' x -> used s' w c' x).
  { intros c' x (k0 & a & b & H1 & H2 & H3 & H4 & H5). destruct (Hfwd c' k0 H1) as (k' & Hk' & [->|[-> ->] ]).
    - by exists k0, a, b.
    - by exists (set_slabp_cache sc k), a, b. }
  split; try apply Hinv.
  - intros c' k' H'. destruct (Hbwd c' k' H') as (k0 & H0 & Heq). destruct (si_cache _ _ Hinv c' k0 H0) as (Hc & Hkd & Hg).
    split_and!; [|by destruct Heq as [->|[-> ->] ]|destruct Heq as [->|[-> ->] ]; [done|by destruct Hg; split] ].
    destruct Heq as [->|[-> ->] ]; (eapply cache_inv_frame; [exact Hc|exact H'|..]; done).
  - intros c' k' a b H' Ha Hb. destruct (Hbwd c' k' H') as (k0 & H0 & [->|[-> ->] ]);
      by destruct (si_place _ _ Hinv c' _ a b H0 Ha Hb) as [P1 P2 P3 P4 P5].
  - intros c1 k1 c2 k2 a H1 H2. destruct (Hbwd c1 k1 H1) as (k1' & H1' & _), (Hbwd c2 k2 H2) as (k2' & H2' & _). by eapply (si_owner _ _ Hinv).
  - intros c1 k1 a1 c2 k2 a2 H1 H2 Ha1 Ha2 Hne. destruct (Hbwd c1 k1 H1) as (k1' & H1' & E1), (Hbwd c2 k2 H2) as (k2' & H2' & E2).
    pose proof (si_disj _ _ Hinv c1 k1' a1 c2 k2' a2 H1' H2' Ha1 Ha2 Hne). by destruct E1 as [->|[-> ->] ], E2 as [->|[-> ->] ].
  - intros c' k' H' Eo. destruct (Hbwd c' k' H') as (k0 & H0 & [->|[-> ->] ]).
    + destruct (si_off _ _ Hinv c' k0 H0 Eo) as (d & kd & O1 & O2 & O3 & O4). destruct (Hfwd d kd O2) as (kd' & O2' & Ed).
      exists d, kd'. split_and!; try done; [|intros a Ha; by apply Hused, O4]. destruct Ed as [->|[-> ->] ]; [done|by destruct O3; split].
    + change (OFF_SLAB (set_slabp_cache sc k)) with (OFF_SLAB k) in Eo. congruence.
  - destruct (si_cc _ _ Hinv) as (kc & Hkc & Hsm). destruct (Hfwd _ kc Hkc) as (k' & Hk' & Ed). exists k'. split; [done|].
    destruct Ed as [->|[-> ->] ]; [done|by destruct Hsm; split].
  - destruct (si_static _ _ Hinv) as [H1 H2]. split; [done|]. intros c' k' a H' Ha. destruct (Hbwd c' k' H') as (k0 & H0 & Ed).
    pose proof (H2 c' k0 a H0 Ha). by destruct Ed as [->|[-> ->] ].
  - intros c' k' H' Hne. destruct (Hbwd c' k' H') as (k0 & H0 & _). by eapply Hused, (si_desc _ _ Hinv).
  - destruct (si_chain _ _ Hinv) as (ch & Hl & Hch). exists ch. split; [done|]. intros c' Hc'. destruct (Hch c' Hc') as [k0 H0].
    destruct (Hfwd c' k0 H0) as (k' & Hk' & _). eauto.
Qed.

(** Before kmem_cache_init: a zone with free pages, and the static descriptor
    of the cache of caches, which is in no free page. *)
Record slab_start (s : slab_st) (fl : Z -> list Z) (k : kmem_cache) : Prop := {
  st_buddy : buddy_inv (szone s) fl;
  st_pfn : zone_start_pfn (szone s) = 0;
  st_present : present_pages (szone s) <= 0x40000;
  st_caches : caches s = {[ cache_cache s := k ]};
  st_flags : cflags k = 0;
  st_static : ~ free_page fl (pgno (cache_cache s));
}.

Definition empty_world (fl : Z -> list Z) : world := mk_world (fun _ _ => []) (fun _ => []) (fun _ => 0) fl.

Definition cache_cache_desc (k : kmem_cache) : kmem_cache :=
  mk_cache 128 (cflags k) 31 31 0 0 (gfpflags k) 3 32 0 (slabp_cache k) 32 None None.

Lemma owns_empty fl c a : ~ owns (empty_world fl) c a.
Proof. intros (kd & Ha)%elem_of_all_slabs. by apply not_elem_of_nil in Ha. Qed.

(** The cache of caches alone is in the invariant. *)
Lemma first_cache_inv s fl k h : slab_start s fl k ->
  (forall kd, h !! khead (cache_cache s) kd = Some (mk_list_head (Some (khead (cache_cache s) kd)) (Some (khead (cache_cache s) kd)))) ->
  is_list h CacheChain [CNext (cache_cache s)] ->
  slab_inv (set_caches {[ cache_cache s := cache_cache_desc k ]} (set_snodes h s)) (empty_world fl).
Proof.
  intros [B1 B2 B3 B4 B5 B6] Hh Hch. set (cc := cache_cache s) in *.
  assert (Eoff : OFF_SLAB (cache_cache_desc k) = false) by (unfold OFF_SLAB; cbn; by rewrite B5).
  assert (Hone : forall c k', ({[ cc := cache_cache_desc k ]} : gmap Z kmem_cache) !! c = Some k' -> c = cc /\ k' = cache_cache_desc k).
  { by intros c k' [<- <-]%lookup_singleton_Some. }
  split; cbn [szone set_caches set_snodes caches w_blocks empty_world]; try done.
  - intros c k' [-> ->]%Hone. split_and!.
    + split; cbn; try done.
      * by rewrite lookup_singleton_eq.
      * split; [|by intros kd kd' a Ha%not_elem_of_nil]. intros kd. by apply is_list_ring.
      * by intros kd a Ha%not_elem_of_nil.
      * by intros kd a kd' a' b b' x Ha%not_elem_of_nil.
    + by intros kd a Ha%not_elem_of_nil.
    + split; cbn; try done; try lia. unfold desc_size. rewrite Eoff. by vm_compute.
  - intros c k' a b _ Ha. by apply owns_empty in Ha.
  - intros c k1 c' k2 a _ _ Ha. by apply owns_empty in Ha.
  - intros c k1 a c' k2 a' _ _ Ha. by apply owns_empty in Ha.
  - intros c k' [-> ->]%Hone Eo. congruence.
  - exists (cache_cache_desc k). split; [cbn; by rewrite lookup_singleton_eq|]. split; [done|done|by vm_compute].
  - split; [done|]. intros c k' a _ Ha. by apply owns_empty in Ha.
  - intros c k' [-> _]%Hone. done.
  - exists [cc]. split; [done|]. intros c ->%list_elem_of_singleton. cbn. rewrite lookup_singleton_eq. eauto.
Qed.

(** The first part of kmem_cache_init. *)
Lemma first_cache_run s fl k : slab_start s fl k ->
  let c := cache_cache s in
  exists h1 h2 h3, on_snodes (INIT_LIST_HEAD (Some CacheChain)) (new_node CacheChain s) = Ret (set_snodes h1 s) /\
    on_snodes (INIT_LIST_HEAD (Some (CNext c))) (new_node (CNext c) (set_snodes h1 s)) = Ret (set_snodes h2 s) /\
    on_snodes (list_add (Some CacheChain) (Some (CNext c))) (set_snodes h2 s) = Ret (set_snodes h3 s) /\
    is_list h3 CacheChain [CNext c].
Proof.
  intros Hst c. set (h1 := <[CacheChain := mk_list_head (Some CacheChain) (Some CacheChain)]> (snodes s)).
  set (h2 := <[CNext c := mk_list_head (Some (CNext c)) (Some (CNext c))]> h1). assert (Hl : is_list h2 CacheChain []) by (apply is_list_ring; unfold h2, h1; by simplify_map_eq).
  destruct (list_add_spec h2 CacheChain [] (CNext c) Hl) as (h3 & R & Hl3 & _).
  { by intros ?%list_elem_of_singleton. } { unfold h2. rewrite lookup_insert_eq. eauto. }
  exists h1, h2, h3. rewrite !init_node. split_and!; try done. unfold on_snodes. cbn [snodes set_snodes]. by rewrite R.
Qed.

Lemma kmem_cache_init_inv s fl k : slab_start s fl k -> 16 <= free_total fl ->
  exists s' w', kmem_cache_init junk call s = Ret s' /\ slab_inv s' w' /\ (forall z, z ∈ malloc_sizes -> size_ok s' z) /\
    free_total fl - 16 <= free_total (w_blocks w').
Proof.
  intros Hst Hroom. destruct (first_cache_run s fl k Hst) as (h1 & h2 & h3 & R1 & R2 & R3 & Hl3). pose proof Hst as [_ _ _ Ec Efl _].
  unfold kmem_cache_init. rewrite R1. cbn [mbind outcome_bind]. rewrite R2. cbn [mbind outcome_bind]. rewrite R3. cbn [mbind outcome_bind].
  destruct (list3_init_run (cache_cache s) (set_snodes h3 s) k) as (h4 & R4 & Hh1 & Hh2); [cbn; by rewrite Ec, lookup_singleton_eq|].
  cbv zeta. rewrite R4. cbn [mbind outcome_bind].
  replace (init_order_loop 11 0 (KALIGN sizeof_kmem_cache cache_line_size) 0 0) with (Ret (31, 0, 96)) by by vm_compute.
  cbn [mbind outcome_bind caches set_caches set_snodes]. rewrite Ec, insert_singleton_eq, lookup_singleton_eq. cbn [deref mbind outcome_bind].
  rewrite insert_singleton_eq. change (mk_cache _ _ 31 31 0 0 _ _ _ 0 _ _ None None) with (cache_cache_desc k).
  set (s1 := set_caches {[ cache_cache s := cache_cache_desc k ]} (set_snodes h4 s)).
  change (set_caches {[ cache_cache s := cache_cache_desc k ]} _) with s1.
  assert (Hinv1 : slab_inv s1 (empty_world fl)).
  { apply first_cache_inv; [done|done|]. eapply is_list_agree; [|exact Hl3]. intros n Hn. rewrite Hh2; [done|]. intros kd ->.
    rewrite elem_of_cons, list_elem_of_singleton in Hn. destruct kd; naive_solver. }
  destruct (create_inv sizeof_slab SLAB_HWCACHE_ALIGN s1 (empty_world fl) Hinv1) as (s2 & w2 & sc & Rc & [C1 C2 C3 C4 C5]);
    [by vm_compute|cbn; lia|by vm_compute|]. cbn [w_blocks empty_world] in C5.
  rewrite Rc. cbn [mbind outcome_bind]. destruct (ex_caches _ _ _ _ C2 (cache_cache s) (cache_cache_desc k)) as (n & m & Hcc); [cbn; by rewrite lookup_singleton_eq|].
  unfold upd_cache. rewrite Hcc. cbn [deref mbind outcome_bind mret outcome_ret]. set (k2 := set_colour_next _ _) in *.
  change (mk_cache _ _ _ _ _ _ _ _ _ _ (Some sc) _ _ _) with (set_slabp_cache (Some sc) k2). set (s3 := set_caches (<[cache_cache s := set_slabp_cache (Some sc) k2]> (caches s2)) s2).
  assert (Ecc2 : cache_cache s2 = cache_cache s) by exact (ex_cc _ _ _ _ C2).
  assert (Hinv3 : slab_inv s3 w2).
  { apply inv_set_slabp; [done|done|]. unfold OFF_SLAB. cbn. by rewrite Efl. }
  assert (Hd3 : desc_cache s3).
  { destruct C3 as (ks & K1 & K2 & K3 & K4). assert (sc <> cache_cache s) by (intros ->; cbn in C4; by rewrite lookup_singleton_eq in C4).
    exists (set_slabp_cache (Some sc) k2), sc, ks. cbn. rewrite Ecc2, lookup_insert_eq, lookup_insert_ne by done. split_and!; try done.
    split; [unfold OFF_SLAB; by rewrite K3|by apply K4|rewrite K2; by vm_compute]. }
  destruct (create_sizes_inv malloc_sizes s3 w2 Hinv3 Hd3) as (s' & w' & R' & I' & _ & Hok & Hr).
  { apply (bool_decide_unpack _). by vm_compute. } { apply (bool_decide_unpack _). by vm_compute. } { change (Z.of_nat (length malloc_sizes)) with 15. lia. }
  change (Z.of_nat (length malloc_sizes)) with 15 in Hr. exists s', w'. split_and!; try done; [|lia]. intros z Hz. apply Hok. by left.
Qed.
End create.
