(* ===== verification/Ports.v ===== *)
(** * Ports, interrupt flag and console text

    The port instructions of kernel/system.c and include/io_access.h ([in],
    [out], [rep insw], [rep outsw]) and cli/sti are single machine
    instructions: they are the interface [PortIO] all drivers are written
    against.  [print_text] is the console as the disk driver uses it. *)

From Stdlib Require Ascii String.
Export String.StringSyntax.
From S2P Require Import Prelude.

Class PortIO (S : Type) := {
  port_byte_in : Z -> S -> S * Z;
  port_byte_out : Z -> Z -> S -> S;
  port_multiword_in : Z -> Z -> S -> S * list Z;
  port_multiword_out : Z -> list Z -> S -> S;
  asm_cli : S -> S;
  asm_sti : S -> S;
  print_text : list Z -> S -> S;
}.

(** The bytes of a C string literal. *)
Definition chars (text : String.string) : list Z :=
  (fun a => Z.of_nat (Ascii.nat_of_ascii a)) <$> String.list_ascii_of_string text.

#[global] Arguments chars text%_string_scope.

(** What printf's %s shows of a buffer: the bytes before the first NUL. *)
Fixpoint until_nul (l : list Z) : list Z :=
  match l with
  | [] => []
  | c :: l => if c =? 0 then [] else c :: until_nul l
  end.


(** [io_wait] of io_access.h: a write to the unused port 0x80. *)
Definition io_wait {S} `{PortIO S} (s : S) : S := port_byte_out 0x80 0 s.
