(* ===== verification/Str.v ===== *)
(** * The string library (kernel/string.c, memcpy of memory-management/mm.c)

    Memory is a map from addresses to bytes; an access to an address outside
    the map is a fault.  Loops over C strings run with fuel.  [cstr m a l] says
    that the bytes [l], none of them NUL, followed by a NUL are at [a].
    memchr returns [None] where the code falls off its end without a return
    value; [strtok] has its two static variables as a state. *)

From S2P Require Import Prelude.

Abbreviation mem := (gmap Z Z).
Definition load (m : mem) (a : Z) : outcome Z := deref (m !! a).
Definition store (m : mem) (a v : Z) : outcome mem :=
  match m !! a with Some _ => mret (<[a := u8 v]> m) | None => Fault end.

(** ** Memory *)

Fixpoint copy_reverse (n : nat) (dest src : Z) (m : mem) : outcome mem :=
  match n with
  | O => mret m
  | S n =>
      v ← load m (src + Z.of_nat n);
      m ← store m (dest + Z.of_nat n) v;
      copy_reverse n dest src m
  end.
Fixpoint copy_forward (n : nat) (dest src : Z) (m : mem) : outcome mem :=
  match n with
  | O => mret m
  | S n =>
      v ← load m src;
      m ← store m dest v;
      copy_forward n (dest + 1) (src + 1) m
  end.
Definition memmove (dest src n : Z) (m : mem) : outcome mem :=
  if dest <? u32 (src + n) then copy_reverse (Z.to_nat n) dest src m
  else copy_forward (Z.to_nat n) dest src m.

(** memcpy counts up from 0; it returns [dest]. *)
Fixpoint memcpy_loop (n : nat) (iCnt : Z) (dest src : Z) (m : mem) : outcome mem :=
  match n with
  | O => mret m
  | S n =>
      v ← load m (src + iCnt);
      m ← store m (dest + iCnt) v;
      memcpy_loop n (iCnt + 1) dest src m
  end.
Definition memcpy (dest src size : Z) (m : mem) : outcome (mem * Z) :=
  m ← memcpy_loop (Z.to_nat size) 0 dest src m; mret (m, dest).

Fixpoint memchr_loop (n : nat) (s ch : Z) (m : mem) : outcome (option Z) :=
  match n with
  | O => mret None
  | S n => v ← load m s; if v =? ch then mret (Some s) else memchr_loop n (s + 1) ch m
  end.
Definition memchr (s c n : Z) (m : mem) : outcome (option Z) := memchr_loop (Z.to_nat n) s (u8 c) m.

(** memcmp compares with [p2], a pointer that is read before it is set: an
    arbitrary address, not [s2]. *)
Fixpoint memcmp_loop (n : nat) (p1 p2 : Z) (m : mem) : outcome Z :=
  match n with
  | O => mret 0
  | S n =>
      a ← load m p1; b ← load m p2;
      if negb (a =? b) then mret (if a <? b then 1 else 0) else memcmp_loop n (p1 + 1) (p2 + 1) m
  end.
Definition memcmp (uninitialised_p2 : Z) (s1 s2 n : Z) (m : mem) : outcome Z :=
  memcmp_loop (Z.to_nat n) s1 uninitialised_p2 m.

Fixpoint memset_loop (n : nat) (dest ci : Z) (m : mem) : outcome mem :=
  match n with
  | O => mret m
  | S n => m ← store m dest ci; memset_loop n (dest + 1) ci m
  end.
Definition memset (dest c n : Z) (m : mem) : outcome mem := memset_loop (Z.to_nat n) dest (u8 c) m.

(** ** Strings *)

Fixpoint strcmp (fuel : nat) (s1 s2 : Z) (m : mem) : outcome Z :=
  match fuel with
  | O => Spin
  | S fuel =>
      a ← load m s1;
      if a =? 0 then b ← load m s2; mret (a - b)
      else b ← load m s2; if a =? b then strcmp fuel (s1 + 1) (s2 + 1) m else mret (a - b)
  end.

(** The loop of strncmp; [n] is its counter on entry. *)
Fixpoint strncmp_loop (n : nat) (s1 s2 : Z) (m : mem) : outcome Z :=
  match n with
  | O => a ← load m s1; b ← load m s2; mret (a - b)
  | S n =>
      a ← load m s1;
      b ← load m s2;
      if negb (a =? 0) && (a =? b) then
        if (n =? 0)%nat then mret 0 else strncmp_loop n (s1 + 1) (s2 + 1) m
      else mret (a - b)
  end.
Definition strncmp (s1 s2 n : Z) (m : mem) : outcome Z :=
  if n =? 0 then mret 0 else strncmp_loop (Z.to_nat n) s1 s2 m.

Fixpoint strcpy_loop (fuel : nat) (sn ct : Z) (m : mem) : outcome mem :=
  match fuel with
  | O => Spin
  | S fuel =>
      v ← load m ct;
      if v =? 0 then store m sn 0
      else m ← store m sn v; strcpy_loop fuel (sn + 1) (ct + 1) m
  end.
Definition strcpy (fuel : nat) (s ct : Z) (m : mem) : outcome (mem * Z) :=
  m ← strcpy_loop fuel s ct m; mret (m, s).

Fixpoint strlen (fuel : nat) (s : Z) (m : mem) : outcome Z :=
  match fuel with
  | O => Spin
  | S fuel => v ← load m s; if v =? 0 then mret 0 else n ← strlen fuel (s + 1) m; mret (n + 1)
  end.

Fixpoint char_in_set (fuel : nat) (c set : Z) (m : mem) : outcome bool :=
  match fuel with
  | O => Spin
  | S fuel =>
      v ← load m set;
      if v =? 0 then mret false
      else if c =? v then mret true else char_in_set fuel c (set + 1) m
  end.

Record strtok_state := mk_strtok { tok_buf : Z; chars_left : Z }.

(** The scan for the next delimiter; [fuel] bounds the string and the set. *)
Fixpoint strtok_scan (fuel setfuel : nat) (tok_start delim : Z) (st : strtok_state) (m : mem)
  : outcome (mem * strtok_state * option Z) :=
  match fuel with
  | O => Spin
  | S fuel =>
      c ← load m (tok_buf st);
      found ← char_in_set setfuel c delim m;
      if (found : bool) then
        m ← store m (tok_buf st) 0;
        mret (m, mk_strtok (tok_buf st + 1) (chars_left st - 1), Some tok_start)
      else if c =? 0 then mret (m, st, Some tok_start)
      else strtok_scan fuel setfuel tok_start delim (mk_strtok (tok_buf st + 1) (chars_left st - 1)) m
  end.
Definition strtok (fuel : nat) (str : option Z) (delim : Z) (st : strtok_state) (m : mem)
  : outcome (mem * strtok_state * option Z) :=
  st ← (match str with
        | Some s => n ← strlen fuel s m; mret (mk_strtok s (s32 n))
        | None => mret st
        end);
  if chars_left st =? 0 then mret (m, st, None)
  else strtok_scan fuel fuel (tok_buf st) delim st m.

Fixpoint strncpy_pad (n : nat) (dest : Z) (m : mem) : outcome mem :=
  match n with
  | O => mret m
  | S n => m ← store m dest 0; strncpy_pad n (dest + 1) m
  end.
Fixpoint strncpy_loop (n : nat) (dest src : Z) (m : mem) : outcome mem :=
  match n with
  | O => mret m
  | S n' =>
      v ← load m src;
      if v =? 0 then strncpy_pad n dest m
      else m ← store m dest v; strncpy_loop n' (dest + 1) (src + 1) m
  end.
Definition strncpy (dest src n : Z) (m : mem) : outcome mem := strncpy_loop (Z.to_nat n) dest src m.

(** ** Bytes in memory *)

Definition bytes_at (m : mem) (a : Z) (l : list Z) : Prop :=
  forall i c, l !! i = Some c -> m !! (a + Z.of_nat i) = Some c.
Definition writable (m : mem) (a n : Z) : Prop := forall i, 0 <= i < n -> is_Some (m !! (a + i)).
Definition is_byte (c : Z) : Prop := 0 <= c < 2 ^ 8.
Definition same_outside (m m' : mem) (a n : Z) : Prop :=
  forall b, ~ (a <= b < a + n) -> m' !! b = m !! b.
Definition cstr (m : mem) (a : Z) (l : list Z) : Prop :=
  bytes_at m a (l ++ [0]) /\ Forall (fun c => 0 < c < 2 ^ 8) l.

Lemma bytes_at_cons m a c l : bytes_at m a (c :: l) <-> m !! a = Some c /\ bytes_at m (a + 1) l.
Proof.
  split.
  - intros Hb. split; [rewrite <- (Hb 0%nat c eq_refl); f_equal; lia|].
    intros i d Hi. rewrite <- (Hb (S i) d Hi). f_equal. lia.
  - intros [Ha Hb] i d Hi. destruct i as [|i]; [injection Hi as ->; rewrite <- Ha; f_equal; lia|].
    rewrite <- (Hb i d Hi). f_equal. lia.
Qed.
Lemma bytes_at_nil m a : bytes_at m a [].
Proof. intros i c Hi. by rewrite lookup_nil in Hi. Qed.
Lemma bytes_at_app m a l1 l2 :
  bytes_at m a (l1 ++ l2) <-> bytes_at m a l1 /\ bytes_at m (a + Z.of_nat (length l1)) l2.
Proof.
  revert a. induction l1 as [|c l1 IH]; intros a; cbn [app length].
  - rewrite Z.add_0_r. split; [split; [apply bytes_at_nil|done]|by intros []].
  - rewrite !bytes_at_cons, IH. replace (a + Z.of_nat (S (length l1))) with (a + 1 + Z.of_nat (length l1)) by lia. tauto.
Qed.
Lemma bytes_at_agree m m' a l :
  (forall b, a <= b < a + Z.of_nat (length l) -> m' !! b = m !! b) -> bytes_at m a l -> bytes_at m' a l.
Proof.
  intros Hag Hb i c Hi. rewrite Hag; [by apply Hb|]. apply lookup_lt_Some in Hi. lia.
Qed.

Lemma cstr_cons m a c l : cstr m a (c :: l) <-> m !! a = Some c /\ 0 < c < 2 ^ 8 /\ cstr m (a + 1) l.
Proof. unfold cstr. rewrite <- app_comm_cons, bytes_at_cons, Forall_cons. tauto. Qed.
Lemma cstr_nil m a : cstr m a [] <-> m !! a = Some 0.
Proof.
  unfold cstr. cbn [app]. rewrite bytes_at_cons. split; [tauto|]. intros. split; [|constructor].
  split; [done|apply bytes_at_nil].
Qed.
Lemma cstr_agree m m' a l :
  (forall b, a <= b <= a + Z.of_nat (length l) -> m' !! b = m !! b) -> cstr m a l -> cstr m' a l.
Proof.
  intros Hag [Hb Hf]. split; [|done]. eapply bytes_at_agree; [|exact Hb]. intros b. rewrite length_app. cbn. intros.
  apply Hag. lia.
Qed.

Lemma load_ok m a v : m !! a = Some v -> load m a = Ret v.
Proof. unfold load. by intros ->. Qed.
Lemma store_ok m a v : is_Some (m !! a) -> is_byte v -> store m a v = Ret (<[a := v]> m).
Proof. intros [w Hw] Hv. unfold store. rewrite Hw. by rewrite u8_small. Qed.
Lemma writable_insert m a n b v : writable m a n -> writable (<[b := v]> m) a n.
Proof. intros Hw i Hi. rewrite lookup_insert. case_decide; [done|by apply Hw]. Qed.

(** ** memmove *)

Lemma copy_reverse_spec n : forall dest src m l,
  length l = n -> bytes_at m src l -> Forall is_byte l -> writable m dest (Z.of_nat n) ->
  (src <= dest \/ dest + Z.of_nat n <= src) ->
  exists m', copy_reverse n dest src m = Ret m' /\ bytes_at m' dest l /\ same_outside m m' dest (Z.of_nat n).
Proof.
  induction n as [|n IH]; intros dest src m l Hl Hb Hby Hw Hov; cbn [copy_reverse].
  - destruct l; [|done]. exists m. split; [done|]. split; [apply bytes_at_nil|by intros b _].
  - destruct (exists_last (l := l)) as (l0 & c & ->); [by intros ->|].
    rewrite length_app in Hl. cbn in Hl. assert (Hl0 : length l0 = n) by lia.
    apply bytes_at_app in Hb as [Hb0 Hc]. rewrite Hl0 in Hc. apply bytes_at_cons in Hc as [Hc _].
    apply Forall_app in Hby as [Hby0 Hbc]. apply Forall_cons in Hbc as [Hbc _].
    rewrite (load_ok _ _ _ Hc), bind_Ret, store_ok by (try apply Hw; lia || done). rewrite bind_Ret.
    destruct (IH dest src (<[dest + Z.of_nat n := c]> m) l0 Hl0) as (m' & R & Hb' & Hs'); try done.
    + eapply bytes_at_agree; [|exact Hb0]. intros b Hbr. rewrite lookup_insert_ne; [done|lia].
    + apply writable_insert. intros i Hi. apply Hw. lia.
    + lia.
    + exists m'. split; [done|]. split.
      * apply bytes_at_app. split; [done|]. rewrite Hl0. apply bytes_at_cons. split; [|apply bytes_at_nil].
        rewrite Hs' by lia. by rewrite lookup_insert_eq.
      * intros b Hbr. rewrite Hs' by lia. rewrite lookup_insert_ne; [done|lia].
Qed.

Lemma copy_forward_spec n : forall dest src m l,
  length l = n -> bytes_at m src l -> Forall is_byte l -> writable m dest (Z.of_nat n) ->
  (dest <= src \/ src + Z.of_nat n <= dest) ->
  exists m', copy_forward n dest src m = Ret m' /\ bytes_at m' dest l /\ same_outside m m' dest (Z.of_nat n).
Proof.
  induction n as [|n IH]; intros dest src m l Hl Hb Hby Hw Hov; cbn [copy_forward].
  - destruct l; [|done]. exists m. split; [done|]. split; [apply bytes_at_nil|by intros b _].
  - destruct l as [|c l]; [done|]. injection Hl as Hl. apply bytes_at_cons in Hb as [Hc Hb].
    apply Forall_cons in Hby as [Hbc Hby].
    assert (Hd : is_Some (m !! dest)) by (rewrite <- (Z.add_0_r dest); apply Hw; lia).
    rewrite (load_ok _ _ _ Hc), bind_Ret, store_ok, bind_Ret by done.
    destruct (IH (dest + 1) (src + 1) (<[dest := c]> m) l Hl) as (m' & R & Hb' & Hs'); try done.
    + eapply bytes_at_agree; [|exact Hb]. intros b Hbr. rewrite lookup_insert_ne; [done|lia].
    + apply writable_insert. intros i Hi. replace (dest + 1 + i) with (dest + (1 + i)) by lia. apply Hw. lia.
    + lia.
    + exists m'. split; [done|]. split.
      * apply bytes_at_cons. split; [|done]. rewrite Hs' by lia. by rewrite lookup_insert_eq.
      * intros b Hbr. rewrite Hs' by lia. rewrite lookup_insert_ne; [done|lia].
Qed.

(** memmove is correct when the destination does not begin inside the part
    of memory just below the source: the bytes arrive unchanged, overlapping or
    not, and nothing else is written. *)
Theorem memmove_correct dest src l m :
  let n := Z.of_nat (length l) in
  bytes_at m src l -> Forall is_byte l -> writable m dest n -> 0 <= src -> src + n < 2 ^ 32 ->
  (src <= dest \/ dest + n <= src) ->
  exists m', memmove dest src n m = Ret m' /\ bytes_at m' dest l /\ same_outside m m' dest n.
Proof.
  intros n Hb Hby Hw Hs Hr Hov. unfold memmove. rewrite u32_small by lia. unfold n. rewrite Nat2Z.id.
  destruct (Z.ltb_spec dest (src + Z.of_nat (length l))).
  - by apply copy_reverse_spec.
  - apply copy_forward_spec; try done. lia.
Qed.

Lemma memcpy_forward n : forall i dest src m, memcpy_loop n i dest src m = copy_forward n (dest + i) (src + i) m.
Proof.
  induction n as [|n IH]; intros i dest src m; [done|]. cbn [memcpy_loop copy_forward].
  destruct (load m (src + i)) as [v| |]; [|done|done]. rewrite !bind_Ret.
  destruct (store m (dest + i) v) as [m'| |]; [|done|done]. rewrite !bind_Ret, IH. by rewrite !Z.add_assoc.
Qed.
(** memcpy copies the bytes when the areas are apart or the destination is
    the lower one, and writes nothing else. *)
Theorem memcpy_correct dest src l m :
  bytes_at m src l -> Forall is_byte l -> writable m dest (Z.of_nat (length l)) ->
  (dest <= src \/ src + Z.of_nat (length l) <= dest) ->
  exists m', memcpy dest src (Z.of_nat (length l)) m = Ret (m', dest) /\ bytes_at m' dest l /\
    same_outside m m' dest (Z.of_nat (length l)).
Proof.
  intros Hb Hl Hw Hov. unfold memcpy. rewrite Nat2Z.id, memcpy_forward, !Z.add_0_r.
  destruct (copy_forward_spec (length l) dest src m l) as (m' & -> & Hm); [done..|]. rewrite bind_Ret. eauto.
Qed.

Lemma copy_reverse_smear n : forall src m v,
  m !! (src + Z.of_nat n) = Some v -> is_byte v -> writable m src (Z.of_nat n) ->
  exists m', copy_reverse n (src) (src + 1) m = Ret m' /\
    forall b, m' !! b = if decide (src <= b < src + Z.of_nat n) then Some v else m !! b.
Proof.
  induction n as [|n IH]; intros src m v Hv Hby Hw; cbn [copy_reverse].
  - exists m. split; [done|]. intros b. by rewrite decide_False by lia.
  - rewrite (load_ok m (src + 1 + Z.of_nat n) v) by (rewrite <- Hv; f_equal; lia).
    rewrite bind_Ret, store_ok, bind_Ret by (try apply Hw; lia || done).
    destruct (IH src (<[src + Z.of_nat n := v]> m) v) as (m' & R & Hm'); [by rewrite lookup_insert_eq|done| |].
    { apply writable_insert. intros i Hi. apply Hw. lia. }
    exists m'. split; [done|]. intros b. rewrite Hm', lookup_insert. repeat case_decide; done || lia.
Qed.

(** memmove by one byte downwards - source and destination overlap, which its
    interface allows - fills the destination with copies of the last byte of
    the source: the test compares the destination with the end of the source,
    and takes the reverse loop when the forward one is needed. *)
Theorem memmove_down_smears dest l c m :
  let n := Z.of_nat (length (l ++ [c])) in
  bytes_at m (dest + 1) (l ++ [c]) -> is_byte c -> is_Some (m !! dest) -> 0 <= dest -> dest + 1 + n < 2 ^ 32 ->
  exists m', memmove dest (dest + 1) n m = Ret m' /\ bytes_at m' dest (replicate (length (l ++ [c])) c).
Proof.
  intros n Hb Hc Hd H0 Hr. unfold memmove. rewrite u32_small by lia.
  rewrite (proj2 (Z.ltb_lt dest (dest + 1 + n))) by lia. unfold n. rewrite Nat2Z.id.
  destruct (copy_reverse_smear (length (l ++ [c])) dest m c) as (m' & R & Hm').
  - apply bytes_at_app in Hb as [_ Hb]. apply bytes_at_cons in Hb as [Hb _]. rewrite <- Hb. f_equal.
    rewrite length_app. cbn. lia.
  - done.
  - intros i Hi. destruct (decide (i = 0)) as [->|]; [by rewrite Z.add_0_r|].
    destruct (lookup_lt_is_Some_2 (l ++ [c]) (Z.to_nat (i - 1))) as [x Hx]; [lia|].
    apply Hb in Hx. replace (dest + i) with (dest + 1 + Z.of_nat (Z.to_nat (i - 1))) by lia. by rewrite Hx.
  - exists m'. split; [done|]. intros i x [-> Hi]%lookup_replicate. rewrite Hm'. by rewrite decide_True by lia.
Qed.

(** ** memset, memchr *)

Lemma memset_spec n : forall dest c m, is_byte c -> writable m dest (Z.of_nat n) ->
  exists m', memset_loop n dest c m = Ret m' /\ bytes_at m' dest (replicate n c) /\
    same_outside m m' dest (Z.of_nat n).
Proof.
  induction n as [|n IH]; intros dest c m Hc Hw; cbn [memset_loop].
  - exists m. split; [done|]. split; [apply bytes_at_nil|by intros b _].
  - assert (Hd : is_Some (m !! dest)) by (rewrite <- (Z.add_0_r dest); apply Hw; lia).
    rewrite store_ok, bind_Ret by done. destruct (IH (dest + 1) c (<[dest := c]> m) Hc) as (m' & R & Hb & Hs).
    { apply writable_insert. intros i Hi. replace (dest + 1 + i) with (dest + (1 + i)) by lia. apply Hw. lia. }
    exists m'. split; [done|]. split.
    + cbn [replicate]. apply bytes_at_cons. split; [|done]. rewrite Hs by lia. by rewrite lookup_insert_eq.
    + intros b Hbr. rewrite Hs by lia. rewrite lookup_insert_ne; [done|lia].
Qed.

Lemma memchr_spec l : forall s ch m, bytes_at m s l ->
  exists r, memchr_loop (length l) s ch m = Ret r /\
    match r with
    | Some a => exists i, a = s + Z.of_nat i /\ l !! i = Some ch /\ ch ∉ take i l
    | None => ch ∉ l
    end.
Proof.
  induction l as [|c l IH]; intros s ch m Hb; cbn [memchr_loop length].
  - exists None. split; [done|]. apply not_elem_of_nil.
  - apply bytes_at_cons in Hb as [Hc Hb]. rewrite (load_ok _ _ _ Hc), bind_Ret.
    destruct (Z.eqb_spec c ch) as [->|Hne].
    + exists (Some s). split; [done|]. exists 0%nat. split_and!; [lia|done|apply not_elem_of_nil].
    + destruct (IH (s + 1) ch m Hb) as ([a|] & -> & Hr); [exists (Some a)|exists None]; (split; [done|]).
      * destruct Hr as (i & -> & Hi & Hno). exists (S i). split_and!; [lia|done|]. cbn [take].
        rewrite elem_of_cons. intros [?|?]; congruence.
      * rewrite elem_of_cons. intros [?|?]; congruence.
Qed.

(** ** Comparison *)

(** The difference of the first bytes that differ, NUL past the end. *)
Fixpoint str_cmp (l1 l2 : list Z) : Z :=
  match l1, l2 with
  | [], [] => 0
  | [], b :: _ => - b
  | a :: _, [] => a
  | a :: l1, b :: l2 => if a =? b then str_cmp l1 l2 else a - b
  end.
(** Lexicographic order. *)
Fixpoint str_lt (l1 l2 : list Z) : Prop :=
  match l1, l2 with
  | _, [] => False
  | [], _ :: _ => True
  | a :: l1, b :: l2 => a < b \/ a = b /\ str_lt l1 l2
  end.

Lemma str_cmp_sign l1 : forall l2, Forall (fun c => 0 < c < 2 ^ 8) l1 -> Forall (fun c => 0 < c < 2 ^ 8) l2 ->
  (str_cmp l1 l2 = 0 <-> l1 = l2) /\ (str_cmp l1 l2 < 0 <-> str_lt l1 l2).
Proof.
  induction l1 as [|a l1 IH]; intros [|b l2] H1 H2; cbn [str_cmp str_lt]; rewrite ?Forall_cons in *.
  - split; [done|lia].
  - split; [split; [lia|done]|split; [done|lia] ].
  - split; [split; [lia|done]|split; [lia|done] ].
  - destruct (Z.eqb_spec a b) as [->|Hne].
    + destruct (IH l2) as [E L]; [tauto..|]. rewrite E, L. split; [naive_solver|].
      split; [tauto|]. intros [?|[_ ?] ]; [lia|done].
    + split; [split; [lia|congruence]|]. split; [lia|]. intros [?|[? _] ]; [lia|done].
Qed.

Lemma strcmp_spec l1 : forall l2 s1 s2 m fuel, cstr m s1 l1 -> cstr m s2 l2 -> (length l1 < fuel)%nat ->
  strcmp fuel s1 s2 m = Ret (str_cmp l1 l2).
Proof.
  induction l1 as [|a l1 IH]; intros l2 s1 s2 m fuel H1 H2 Hf; (destruct fuel as [|fuel]; [simpl in Hf; lia|]); cbn [strcmp].
  - apply cstr_nil in H1. rewrite (load_ok _ _ _ H1), bind_Ret. cbn [Z.eqb].
    destruct l2 as [|b l2]; [apply cstr_nil in H2|apply cstr_cons in H2 as (H2 & _)];
      rewrite (load_ok _ _ _ H2), bind_Ret; done.
  - apply cstr_cons in H1 as (Ha & Hra & H1). rewrite (load_ok _ _ _ Ha), bind_Ret.
    rewrite (proj2 (Z.eqb_neq a 0)) by lia. destruct l2 as [|b l2].
    + apply cstr_nil in H2. rewrite (load_ok _ _ _ H2), bind_Ret. rewrite (proj2 (Z.eqb_neq a 0)) by lia.
      cbn [str_cmp]. by rewrite Z.sub_0_r.
    + apply cstr_cons in H2 as (Hb & _ & H2). rewrite (load_ok _ _ _ Hb), bind_Ret. cbn [str_cmp].
      destruct (a =? b); [|done]. apply IH; [done|done|simpl in Hf; lia].
Qed.

(** strcmp terminates on two C strings and decides their lexicographic order:
    zero exactly for equal strings, negative exactly when the first is smaller. *)
Theorem strcmp_correct l1 l2 s1 s2 m fuel :
  cstr m s1 l1 -> cstr m s2 l2 -> (length l1 < fuel)%nat ->
  exists r, strcmp fuel s1 s2 m = Ret r /\ (r = 0 <-> l1 = l2) /\ (r < 0 <-> str_lt l1 l2).
Proof.
  intros H1 H2 Hf. exists (str_cmp l1 l2). split; [by apply strcmp_spec|].
  apply str_cmp_sign; [apply H1|apply H2].
Qed.

Lemma strncmp_spec n : forall l1 l2 s1 s2 m, cstr m s1 l1 -> cstr m s2 l2 -> n <> O ->
  strncmp_loop n s1 s2 m = Ret (str_cmp (take n l1) (take n l2)).
Proof.
  induction n as [|n IH]; intros l1 l2 s1 s2 m H1 H2 Hn; [done|]. cbn [strncmp_loop].
  destruct l1 as [|a l1].
  - apply cstr_nil in H1. rewrite (load_ok _ _ _ H1), bind_Ret. cbn [Z.eqb negb andb].
    destruct l2 as [|b l2]; [apply cstr_nil in H2|apply cstr_cons in H2 as (H2 & _)];
      rewrite (load_ok _ _ _ H2), bind_Ret; done.
  - apply cstr_cons in H1 as (Ha & Hra & H1). rewrite (load_ok _ _ _ Ha), bind_Ret.
    rewrite (proj2 (Z.eqb_neq a 0)) by lia. cbn [negb andb]. destruct l2 as [|b l2].
    + apply cstr_nil in H2. rewrite (load_ok _ _ _ H2), bind_Ret. rewrite (proj2 (Z.eqb_neq a 0)) by lia.
      cbn [take str_cmp]. by rewrite Z.sub_0_r.
    + apply cstr_cons in H2 as (Hb & _ & H2). rewrite (load_ok _ _ _ Hb), bind_Ret. cbn [take str_cmp].
      destruct (a =? b); [|done]. destruct (Nat.eqb_spec n 0) as [->|Hn0]; [done|]. by apply IH.
Qed.

(** strncmp is strcmp of the two strings cut after [n] bytes. *)
Theorem strncmp_strcmp_prefix l1 l2 s1 s2 n m :
  cstr m s1 l1 -> cstr m s2 l2 -> 0 <= n ->
  strncmp s1 s2 n m = Ret (str_cmp (take (Z.to_nat n) l1) (take (Z.to_nat n) l2)).
Proof.
  intros H1 H2 Hn. unfold strncmp. destruct (Z.eqb_spec n 0) as [->|H0]; [done|].
  apply strncmp_spec; [done|done|lia].
Qed.

(** ** strlen, strcpy, strncpy *)

Lemma strlen_spec l : forall s m fuel, cstr m s l -> (length l < fuel)%nat ->
  strlen fuel s m = Ret (Z.of_nat (length l)).
Proof.
  induction l as [|c l IH]; intros s m fuel Hc Hf; (destruct fuel as [|fuel]; [simpl in Hf; lia|]); cbn [strlen].
  - apply cstr_nil in Hc. by rewrite (load_ok _ _ _ Hc), bind_Ret.
  - apply cstr_cons in Hc as (Hc & Hr & Hl). rewrite (load_ok _ _ _ Hc), bind_Ret.
    rewrite (proj2 (Z.eqb_neq c 0)) by lia. rewrite (IH _ _ fuel Hl), bind_Ret by (simpl in Hf; lia).
    unfold mret, outcome_ret. f_equal. simpl. lia.
Qed.

Lemma strcpy_spec l : forall sn ct m fuel, cstr m ct l -> writable m sn (Z.of_nat (length l) + 1) ->
  (sn <= ct \/ ct + Z.of_nat (length l) < sn) -> (length l < fuel)%nat ->
  exists m', strcpy_loop fuel sn ct m = Ret m' /\ cstr m' sn l /\ same_outside m m' sn (Z.of_nat (length l) + 1).
Proof.
  induction l as [|c l IH]; intros sn ct m fuel Hc Hw Hov Hf; (destruct fuel as [|fuel]; [simpl in Hf; lia|]);
    cbn [strcpy_loop].
  - apply cstr_nil in Hc. rewrite (load_ok _ _ _ Hc), bind_Ret. cbn [Z.eqb].
    rewrite store_ok; [|rewrite <- (Z.add_0_r sn); apply Hw; simpl; lia|unfold is_byte; lia].
    eexists. split; [done|]. split; [apply cstr_nil; by rewrite lookup_insert_eq|].
    intros b Hb. rewrite lookup_insert_ne; [done|simpl in Hb; lia].
  - apply cstr_cons in Hc as (Hc & Hr & Hl). rewrite (load_ok _ _ _ Hc), bind_Ret.
    rewrite (proj2 (Z.eqb_neq c 0)) by lia. cbn [length] in *.
    rewrite store_ok; [|rewrite <- (Z.add_0_r sn); apply Hw; lia|unfold is_byte; lia]. rewrite bind_Ret.
    destruct (IH (sn + 1) (ct + 1) (<[sn := c]> m) fuel) as (m' & R & Hc' & Hs').
    + eapply cstr_agree; [|exact Hl]. intros b Hb. rewrite lookup_insert_ne; [done|lia].
    + apply writable_insert. intros i Hi. replace (sn + 1 + i) with (sn + (1 + i)) by lia. apply Hw. lia.
    + lia.
    + lia.
    + exists m'. split; [done|]. split.
      * apply cstr_cons. split_and!; [|lia|lia|done]. rewrite Hs' by lia. by rewrite lookup_insert_eq.
      * intros b Hb. rewrite Hs' by lia. rewrite lookup_insert_ne; [done|lia].
Qed.

Lemma strncpy_pad_memset n dest m : strncpy_pad n dest m = memset_loop n dest 0 m.
Proof. revert dest m. induction n as [|n IH]; intros; [done|]. cbn. destruct (store m dest 0); [apply IH|done|done]. Qed.

Lemma strncpy_spec n : forall l dest src m,
  cstr m src l -> writable m dest (Z.of_nat n) ->
  (dest + Z.of_nat n <= src \/ src + Z.of_nat (length l) < dest) ->
  exists m', strncpy_loop n dest src m = Ret m' /\
    bytes_at m' dest (take n (l ++ replicate n 0)) /\ same_outside m m' dest (Z.of_nat n).
Proof.
  induction n as [|n IH]; intros l dest src m Hc Hw Hov; cbn [strncpy_loop].
  - exists m. split; [done|]. rewrite take_0. split; [apply bytes_at_nil|by intros b _].
  - destruct l as [|c l].
    + apply cstr_nil in Hc. rewrite (load_ok _ _ _ Hc), bind_Ret. cbn [Z.eqb app].
      rewrite strncpy_pad_memset. rewrite take_ge by by rewrite length_replicate.
      apply memset_spec; [unfold is_byte; lia|done].
    + apply cstr_cons in Hc as (Hc & Hr & Hl). rewrite (load_ok _ _ _ Hc), bind_Ret.
      rewrite (proj2 (Z.eqb_neq c 0)) by lia. cbn [length] in *.
      rewrite store_ok; [|rewrite <- (Z.add_0_r dest); apply Hw; lia|unfold is_byte; lia]. rewrite bind_Ret.
      destruct (IH l (dest + 1) (src + 1) (<[dest := c]> m)) as (m' & R & Hb' & Hs').
      * eapply cstr_agree; [|exact Hl]. intros b Hb. rewrite lookup_insert_ne; [done|lia].
      * apply writable_insert. intros i Hi. replace (dest + 1 + i) with (dest + (1 + i)) by lia. apply Hw. lia.
      * lia.
      * exists m'. split; [done|]. split.
        -- cbn [app take]. apply bytes_at_cons. split; [rewrite Hs' by lia; by rewrite lookup_insert_eq|].
           replace (take n (l ++ replicate (S n) 0)) with (take n (l ++ replicate n 0)); [done|].
           rewrite <- Nat.add_1_r, replicate_add, app_assoc. symmetry. apply take_app_le.
           rewrite length_app, length_replicate. lia.
        -- intros b Hb. rewrite Hs' by lia. rewrite lookup_insert_ne; [done|lia].
Qed.

(** ** strtok *)

Lemma char_in_set_spec ds : forall c set m fuel, cstr m set ds -> (length ds < fuel)%nat ->
  char_in_set fuel c set m = Ret (bool_decide (c ∈ ds)).
Proof.
  induction ds as [|d ds IH]; intros c set m fuel Hc Hf; (destruct fuel as [|fuel]; [simpl in Hf; lia|]); cbn [char_in_set].
  - apply cstr_nil in Hc. rewrite (load_ok _ _ _ Hc), bind_Ret. rewrite bool_decide_eq_false_2; [done|apply not_elem_of_nil].
  - apply cstr_cons in Hc as (Hd & Hr & Hc). rewrite (load_ok _ _ _ Hd), bind_Ret.
    rewrite (proj2 (Z.eqb_neq d 0)) by lia. destruct (Z.eqb_spec c d) as [->|Hne].
    + rewrite bool_decide_eq_true_2; [done|left].
    + rewrite (IH c _ _ fuel Hc) by (simpl in Hf; lia). f_equal. apply bool_decide_ext. rewrite elem_of_cons. naive_solver.
Qed.

Lemma strtok_scan_delim ds t : forall d r a k start delim m fuel setfuel,
  cstr m delim ds -> (length ds < setfuel)%nat -> (length t < fuel)%nat ->
  cstr m a (t ++ d :: r) -> Forall (fun c => c ∉ ds) t -> d ∈ ds ->
  strtok_scan fuel setfuel start delim (mk_strtok a k) m =
    Ret (<[a + Z.of_nat (length t) := 0]> m,
         mk_strtok (a + Z.of_nat (length t) + 1) (k - Z.of_nat (length t) - 1), Some start).
Proof.
  induction t as [|c t IH]; intros d r a k start delim m fuel setfuel Hds Hsf Hf Hc Ht Hd;
    (destruct fuel as [|fuel]; [simpl in Hf; lia|]); cbn [strtok_scan tok_buf chars_left app] in *.
  - apply cstr_cons in Hc as (Hd' & Hr & _). rewrite (load_ok _ _ _ Hd'), bind_Ret.
    rewrite (char_in_set_spec ds) by done. rewrite bind_Ret, bool_decide_eq_true_2 by done.
    rewrite store_ok, bind_Ret by (rewrite ?Hd'; done || unfold is_byte; lia). simpl.
    by rewrite Z.add_0_r, Z.sub_0_r.
  - apply cstr_cons in Hc as (Hc' & Hr & Hc). apply Forall_cons in Ht as [Hcd Ht].
    rewrite (load_ok _ _ _ Hc'), bind_Ret. rewrite (char_in_set_spec ds) by done.
    rewrite bind_Ret, bool_decide_eq_false_2 by done. rewrite (proj2 (Z.eqb_neq c 0)) by lia.
    rewrite (IH d r) by (done || (simpl in Hf; lia)). cbn [length].
    replace (a + Z.of_nat (S (length t))) with (a + 1 + Z.of_nat (length t)) by lia.
    replace (k - Z.of_nat (S (length t))) with (k - 1 - Z.of_nat (length t)) by lia. done.
Qed.

Lemma strtok_scan_end ds l : forall a k start delim m fuel setfuel,
  cstr m delim ds -> (length ds < setfuel)%nat -> (length l < fuel)%nat ->
  cstr m a l -> Forall (fun c => c ∉ ds) l ->
  strtok_scan fuel setfuel start delim (mk_strtok a k) m =
    Ret (m, mk_strtok (a + Z.of_nat (length l)) (k - Z.of_nat (length l)), Some start).
Proof.
  induction l as [|c l IH]; intros a k start delim m fuel setfuel Hds Hsf Hf Hc Hl;
    (destruct fuel as [|fuel]; [simpl in Hf; lia|]); cbn [strtok_scan tok_buf chars_left] in *.
  - apply cstr_nil in Hc. rewrite (load_ok _ _ _ Hc), bind_Ret. rewrite (char_in_set_spec ds) by done.
    rewrite bind_Ret, bool_decide_eq_false_2.
    + simpl. by rewrite Z.add_0_r, Z.sub_0_r.
    + intros H0. destruct Hds as [_ Hds]. rewrite Forall_forall in Hds. specialize (Hds _ H0). lia.
  - apply cstr_cons in Hc as (Hc' & Hr & Hc). apply Forall_cons in Hl as [Hcd Hl].
    rewrite (load_ok _ _ _ Hc'), bind_Ret. rewrite (char_in_set_spec ds) by done.
    rewrite bind_Ret, bool_decide_eq_false_2 by done. rewrite (proj2 (Z.eqb_neq c 0)) by lia.
    rewrite IH by (done || (simpl in Hf; lia)). cbn [length].
    replace (a + Z.of_nat (S (length l))) with (a + 1 + Z.of_nat (length l)) by lia.
    replace (k - Z.of_nat (S (length l))) with (k - 1 - Z.of_nat (length l)) by lia. done.
Qed.

Lemma cstr_app_cut m a t d r :
  cstr m a (t ++ d :: r) -> let m' := <[a + Z.of_nat (length t) := 0]> m in
  cstr m' a t /\ cstr m' (a + Z.of_nat (length t) + 1) r.
Proof.
  intros [Hb Hf] m'. apply Forall_app in Hf as [Hft Hfr]. apply Forall_cons in Hfr as [_ Hfr].
  rewrite <- app_assoc, <- app_comm_cons in Hb. apply bytes_at_app in Hb as [Ht Hr]. apply bytes_at_cons in Hr as [_ Hr].
  split; (split; [|done]).
  - apply bytes_at_app. split; [eapply bytes_at_agree; [|exact Ht]; intros b Hb; unfold m'; rewrite lookup_insert_ne; [done|lia]|].
    apply bytes_at_cons. split; [unfold m'; by rewrite lookup_insert_eq|apply bytes_at_nil].
  - eapply bytes_at_agree; [|exact Hr]. intros b Hb. unfold m'. rewrite lookup_insert_ne; [done|lia].
Qed.

(** [str] and the static variables make strtok continue with the text [l] at [a]. *)
Definition continues_at (str : option Z) (st : strtok_state) (a : Z) (l : list Z) : Prop :=
  str = Some a \/ str = None /\ st = mk_strtok a (Z.of_nat (length l)).

Section strtok.
Variables (delim : Z) (str : option Z) (st : strtok_state) (m : mem) (fuel : nat) (a : Z).

Lemma strtok_eq l : continues_at str st a l -> cstr m a l -> (length l < fuel)%nat -> Z.of_nat (length l) < 2 ^ 31 ->
  strtok fuel str delim st m =
    let st := mk_strtok a (Z.of_nat (length l)) in
    if chars_left st =? 0 then mret (m, st, None) else strtok_scan fuel fuel (tok_buf st) delim st m.
Proof.
  intros Hst Hl Hfl Hlen. unfold strtok. destruct Hst as [->|[-> ->] ]; [|done].
  rewrite (strlen_spec l), bind_Ret by done. rewrite s32_small by lia. done.
Qed.
Lemma strtok_none : continues_at str st a [] -> cstr m a [] -> (0 < fuel)%nat ->
  strtok fuel str delim st m = Ret (m, mk_strtok a 0, None).
Proof. intros Hst Hl Hf. by rewrite (strtok_eq []). Qed.

Variable ds : list Z.
Hypothesis Hds : cstr m delim ds.
Hypothesis Hfd : (length ds < fuel)%nat.

Lemma strtok_delim t d r : let l := t ++ d :: r in
  continues_at str st a l -> cstr m a l -> (length l < fuel)%nat -> Z.of_nat (length l) < 2 ^ 31 ->
  Forall (fun c => c ∉ ds) t -> d ∈ ds ->
  strtok fuel str delim st m =
    Ret (<[a + Z.of_nat (length t) := 0]> m, mk_strtok (a + Z.of_nat (length t) + 1) (Z.of_nat (length r)), Some a).
Proof.
  intros l Hst Hl Hfl Hlen Ht Hd. rewrite (strtok_eq l) by done. unfold l in *. rewrite length_app in *.
  cbn [length chars_left tok_buf] in *. rewrite (proj2 (Z.eqb_neq _ 0)) by lia.
  rewrite (strtok_scan_delim ds t d r) by (done || lia).
  by replace (Z.of_nat (length t + S (length r)) - Z.of_nat (length t) - 1) with (Z.of_nat (length r)) by lia.
Qed.
Lemma strtok_last l : l <> [] ->
  continues_at str st a l -> cstr m a l -> (length l < fuel)%nat -> Z.of_nat (length l) < 2 ^ 31 ->
  Forall (fun c => c ∉ ds) l ->
  strtok fuel str delim st m = Ret (m, mk_strtok (a + Z.of_nat (length l)) 0, Some a).
Proof.
  intros Hne Hst Hl Hfl Hlen Hno. rewrite (strtok_eq l) by done. cbn [chars_left tok_buf].
  destruct l as [|z l]; [done|]. rewrite (proj2 (Z.eqb_neq _ 0)) by (cbn [length]; lia).
  rewrite (strtok_scan_end ds (z :: l)) by done. by rewrite Z.sub_diag.
Qed.
End strtok.

(** strtok, on its first call and on the following ones: it returns the
    text up to the next delimiter, which it replaces by NUL, and keeps the
    rest for the next call; the last token when no delimiter is left; NULL
    when no text is left.  (An empty token between two delimiters is
    returned, not skipped.) *)
Theorem strtok_correct ds delim l a str st m fuel :
  cstr m delim ds -> cstr m a l -> (length ds < fuel)%nat -> (length l < fuel)%nat ->
  Z.of_nat (length l) < 2 ^ 31 ->
  continues_at str st a l ->
  (l = [] -> exists st', strtok fuel str delim st m = Ret (m, st', None)) /\
  (forall t d r, l = t ++ d :: r -> Forall (fun c => c ∉ ds) t -> d ∈ ds ->
     exists m', strtok fuel str delim st m =
         Ret (m', mk_strtok (a + Z.of_nat (length t) + 1) (Z.of_nat (length r)), Some a) /\
       cstr m' a t /\ cstr m' (a + Z.of_nat (length t) + 1) r) /\
  (l <> [] -> Forall (fun c => c ∉ ds) l ->
     strtok fuel str delim st m = Ret (m, mk_strtok (a + Z.of_nat (length l)) 0, Some a)).
Proof.
  intros Hds Hl Hfd Hfl Hlen Hst. split_and!.
  - intros ->. exists (mk_strtok a 0). apply (strtok_none delim str st m fuel a Hst Hl). lia.
  - intros t d r -> Ht Hd. eexists. rewrite (strtok_delim delim str st m fuel a ds Hds Hfd t d r) by done.
    split; [done|]. by apply (cstr_app_cut _ _ _ d).
  - intros Hne Hno. by apply (strtok_last delim str st m fuel a ds Hds Hfd l).
Qed.

(** ** Concrete instances *)

Definition memory_of (a : Z) (l : list Z) : mem := list_to_map (imap (fun i c => (a + Z.of_nat i, c)) l).
(** "ab,c" at 100, "," at 200, "abd" at 300. *)
Definition some_memory : mem :=
  memory_of 100 [97; 98; 44; 99; 0] ∪ memory_of 200 [44; 0] ∪ memory_of 300 [97; 98; 100; 0].

Lemma bytes_at_dec m a l : bool_decide (Forall (fun ic => m !! (a + Z.of_nat (fst ic)) = Some (snd ic)) (imap pair l)) = true ->
  bytes_at m a l.
Proof.
  intros Hall%bool_decide_eq_true i c Hi. rewrite Forall_forall in Hall. apply (Hall (i, c)).
  apply list_elem_of_lookup. exists i. by rewrite list_lookup_imap, Hi.
Qed.
Lemma some_strings : cstr some_memory 100 [97; 98; 44; 99] /\ cstr some_memory 200 [44] /\ cstr some_memory 300 [97; 98; 100].
Proof.
  split_and!; (split; [apply bytes_at_dec; by vm_compute|apply (bool_decide_unpack _); by vm_compute]).
Qed.

Lemma memmove_correct_witness :
  exists m', memmove 101 100 3 some_memory = Ret m' /\ bytes_at m' 101 [97; 98; 44] /\
    same_outside some_memory m' 101 3.
Proof.
  apply (memmove_correct 101 100 [97; 98; 44] some_memory).
  - apply bytes_at_dec. by vm_compute.
  - apply (bool_decide_unpack _). by vm_compute.
  - unfold writable. apply (forall_seqZ (fun i => is_Some (some_memory !! (101 + i)))). by vm_compute.
  - lia.
  - simpl. lia.
  - lia.
Defined.

Lemma memmove_down_smears_witness :
  exists m', memmove 100 101 3 some_memory = Ret m' /\ bytes_at m' 100 [99; 99; 99].
Proof.
  apply (memmove_down_smears 100 [98; 44] 99 some_memory).
  - apply bytes_at_dec. by vm_compute.
  - unfold is_byte. lia.
  - exists 97. by vm_compute.
  - lia.
  - simpl. lia.
Defined.

Lemma strcmp_correct_witness :
  exists r, strcmp 5 100 300 some_memory = Ret r /\
    (r = 0 <-> [97; 98; 44; 99] = [97; 98; 100]) /\ (r < 0 <-> str_lt [97; 98; 44; 99] [97; 98; 100]).
Proof. apply (strcmp_correct [97; 98; 44; 99] [97; 98; 100]); [apply some_strings|apply some_strings|simpl; lia]. Defined.

Lemma strncmp_strcmp_prefix_witness : strncmp 100 300 2 some_memory = Ret 0.
Proof. apply (strncmp_strcmp_prefix [97; 98; 44; 99] [97; 98; 100]); [apply some_strings|apply some_strings|lia]. Defined.

Lemma strtok_correct_witness :
  exists m', strtok 9 (Some 100) 200 (mk_strtok 0 0) some_memory = Ret (m', mk_strtok 103 1, Some 100) /\
    cstr m' 100 [97; 98] /\ cstr m' 103 [99].
Proof.
  apply (proj1 (proj2 (strtok_correct [44] 200 [97; 98; 44; 99] 100 (Some 100) (mk_strtok 0 0) some_memory 9
    (proj1 (proj2 some_strings)) (proj1 some_strings) ltac:(simpl; lia) ltac:(simpl; lia) ltac:(simpl; lia)
    (or_introl eq_refl))) [97; 98] 44 [99] eq_refl).
  - apply (bool_decide_unpack _). by vm_compute.
  - left.
Defined.
