(* ===== verification/Task.v ===== *)
(** * Process table and task state (kernel/task.c, include/task.h)

    The process table holds pointers to task structures (None is NULL); the
    kernel stack of the task state segment comes from the buddy allocator. *)

From S2P Require Import Prelude ListHead Zone Buddy BuddyInv BuddyProofs BuddySpec.

Definition NR_TASKS : Z := 10.
Definition KERNEL_DATA : Z := 0x10.
Definition KSTACK_ORDER : Z := 1.

Record tss_struct := mk_tss {
  back_link : Z; esp0 : Z; ss0 : Z; esp1 : Z; ss1 : Z; esp2 : Z; ss2 : Z; cr3 : Z; eip : Z; eflags : Z;
  tss_eax : Z; tss_ecx : Z; tss_edx : Z; tss_ebx : Z; tss_esp : Z; tss_ebp : Z; tss_esi : Z; tss_edi : Z;
  tss_es : Z; tss_cs : Z; tss_ss : Z; tss_ds : Z; tss_fs : Z; tss_gs : Z; ldtr : Z; iopb : Z;
  i387 : list Z }.
(** [memset(&tss, 0, sizeof(tss))]. *)
Definition zero_tss : tss_struct :=
  mk_tss 0 0 0 0 0 0 0 0 0 0 0 0 0 0 0 0 0 0 0 0 0 0 0 0 0 0 (replicate 27 0).

Record tasks := mk_tasks {
  process_table : list (option Z); last_pid : Z; tss : tss_struct; task_zone : zone_t;
  current : option Z; last_task_used_math : option Z }.

Fixpoint clear_table (n : nat) (iCnt : Z) (t : list (option Z)) : outcome (list (option Z)) :=
  match n with
  | O => mret t
  | S n =>
      if decide (Z.to_nat iCnt < length t)%nat then clear_table n (iCnt + 1) (<[Z.to_nat iCnt := None]> t) else Fault
  end.
Definition init_process_subsystem (k : tasks) : outcome tasks :=
  t ← clear_table (Z.to_nat NR_TASKS) 0 (process_table k);
  mret (mk_tasks t (last_pid k) (tss k) (task_zone k) (current k) (last_task_used_math k)).

(** The search of find_empty_process with [n] slots left; a negative index is a fault. *)
Fixpoint empty_slot (n : nat) (iCnt : Z) (t : list (option Z)) : outcome Z :=
  match n with
  | O => mret (-1)
  | S n =>
      if iCnt <? 0 then Fault
      else p ← deref (t !! Z.to_nat iCnt);
           match p with None => mret iCnt | Some _ => empty_slot n (iCnt + 1) t end
  end.
Definition find_empty_process (k : tasks) : outcome Z :=
  empty_slot (Z.to_nat (NR_TASKS - last_pid k)) (last_pid k) (process_table k).

(** alloc_kernel_stack: the address just above a block of two pages. *)
Definition alloc_kernel_stack (z : zone_t) : outcome (zone_t * Z) :=
  '(z, p) ← alloc_pages z 0 KSTACK_ORDER;
  match p with
  | None => mret (z, 0)
  | Some p => mret (z, u32 (page_address p + Z.shiftl PAGE_SIZE KSTACK_ORDER))
  end.

Definition math_state_restore (k : tasks) : tasks :=
  mk_tasks (process_table k) (last_pid k) (tss k) (task_zone k) (current k) (current k).

Definition sched_init (k : tasks) : outcome tasks :=
  '(z, stack) ← alloc_kernel_stack (task_zone k);
  let t := zero_tss in
  let t := mk_tss (back_link t) stack KERNEL_DATA (esp1 t) (ss1 t) (esp2 t) (ss2 t) (cr3 t) (eip t) (eflags t)
    (tss_eax t) (tss_ecx t) (tss_edx t) (tss_ebx t) (tss_esp t) (tss_ebp t) (tss_esi t) (tss_edi t)
    (tss_es t) (tss_cs t) (tss_ss t) (tss_ds t) (tss_fs t) (tss_gs t) (ldtr t) 0 (i387 t) in
  mret (mk_tasks (process_table k) (last_pid k) t z (current k) (last_task_used_math k)).

(** ** Correctness *)

Lemma empty_slot_spec n : forall i t, 0 <= i -> (Z.to_nat i + n)%nat = length t ->
  exists r, empty_slot n i t = Ret r /\
    ((r = -1 /\ forall j, i <= j < i + Z.of_nat n -> t !! Z.to_nat j <> Some None) \/
     (i <= r < i + Z.of_nat n /\ t !! Z.to_nat r = Some None /\
      forall j, i <= j < r -> t !! Z.to_nat j <> Some None)).
Proof.
  induction n as [|n IH]; intros i t Hi Hl; cbn [empty_slot].
  - exists (-1). split; [done|]. left. split; [done|]. intros j Hj. lia.
  - rewrite (proj2 (Z.ltb_ge i 0)) by done.
    destruct (lookup_lt_is_Some_2 t (Z.to_nat i)) as [ [p|] Hp]; [lia| |]; rewrite Hp; unfold deref; rewrite bind_Ret.
    + destruct (IH (i + 1) t) as (r & -> & Hr); [lia|lia|]. exists r. split; [done|].
      destruct Hr as [ [-> Hno]|(Hr & Hn & Hno)]; [left|right]; split_and!; try done; try lia.
      * intros j Hj. destruct (decide (j = i)) as [->|]; [by rewrite Hp|apply Hno; lia].
      * intros j Hj. destruct (decide (j = i)) as [->|]; [by rewrite Hp|apply Hno; lia].
    + exists i. split; [done|]. right. split_and!; [lia|lia|done|]. intros j Hj. lia.
Qed.

(** find_empty_process returns the first free slot of the process table from
    last_pid on, and -1 exactly when there is none; it always terminates. *)
Theorem find_empty_process_correct k :
  length (process_table k) = Z.to_nat NR_TASKS -> 0 <= last_pid k <= NR_TASKS ->
  exists r, find_empty_process k = Ret r /\
    ((r = -1 /\ forall j, last_pid k <= j < NR_TASKS -> process_table k !! Z.to_nat j <> Some None) \/
     (last_pid k <= r < NR_TASKS /\ process_table k !! Z.to_nat r = Some None /\
      forall j, last_pid k <= j < r -> process_table k !! Z.to_nat j <> Some None)).
Proof.
  intros Hl Hp. unfold NR_TASKS in *.
  destruct (empty_slot_spec (Z.to_nat (10 - last_pid k)) (last_pid k) (process_table k)) as (r & R & Hr); [lia|lia|].
  rewrite Z2Nat.id in Hr by lia. replace (last_pid k + (10 - last_pid k)) with 10 in Hr by lia.
  exists r. done.
Qed.

(** sched_init over a buddy system in its invariant: the kernel stack pointer
    is the top of two contiguous pages that were free and no longer are - the
    stack never overlaps memory given out later - or 0 when no such block is
    free, which the code does not check; the other fields but ss0 are zero. *)
Theorem sched_init_correct k fl :
  buddy_inv (task_zone k) fl -> present_pages (task_zone k) < 2 ^ 18 ->
  exists k', sched_init k = Ret k' /\ ss0 (tss k') = KERNEL_DATA /\ process_table k' = process_table k /\
    ((esp0 (tss k') = 0 /\ task_zone k' = task_zone k) \/
     exists i fl', buddy_inv (task_zone k') fl' /\ 0 <= i /\
       esp0 (tss k') = PAGE_OFFSET + PAGE_SIZE * (i + 2) /\
       free_page fl i /\ free_page fl (i + 1) /\ ~ free_page fl' i /\ ~ free_page fl' (i + 1)).
Proof.
  intros Hinv Hpages. unfold sched_init, alloc_kernel_stack, alloc_pages.
  assert (Hk : in_order KSTACK_ORDER) by (unfold in_order, KSTACK_ORDER, BUDDY_GROUPS; lia).
  destruct (allocate_block_cases (task_zone k) fl KSTACK_ORDER Hinv Hk) as [(z' & fl' & i & -> & Hok)|[-> _] ].
  2:{ rewrite !bind_Ret. eexists. split; [done|]. split; [done|]. split; [done|]. by left. }
  rewrite !bind_Ret. eexists. split; [done|]. split; [done|]. split; [done|]. right. exists i, fl'.
  assert (Hc0 : covers i KSTACK_ORDER i) by (unfold covers, KSTACK_ORDER; lia).
  assert (Hc1 : covers i KSTACK_ORDER (i + 1)) by (unfold covers, KSTACK_ORDER; lia).
  pose proof (ao_was_free _ _ _ _ _ _ Hok _ Hc0) as Hf0. pose proof (ao_was_free _ _ _ _ _ _ Hok _ Hc1) as Hf1.
  assert (Hi : 0 <= i /\ i + 1 < present_pages (task_zone k)).
  { destruct Hf0 as (k0 & j0 & Hk0 & Hj0 & Hcov0), Hf1 as (k1 & j1 & Hk1 & Hj1 & Hcov1).
    pose proof (bi_range _ _ Hinv _ _ Hk0 Hj0). pose proof (bi_range _ _ Hinv _ _ Hk1 Hj1).
    unfold covers in *. lia. }
  split; [apply (ao_inv _ _ _ _ _ _ Hok)|]. split; [lia|]. split; [|split_and!; try done].
  - cbn [tss esp0]. unfold page_address, va_, page_to_pfn, PAGE_SHIFT, PAGE_OFFSET, PAGE_SIZE, KSTACK_ORDER.
    rewrite Z.shiftl_mul_pow2 by lia. change (2 ^ 12) with 4096. change (Z.shiftl 4096 1) with 8192.
    rewrite (u32_small (i * 4096)) by lia. rewrite (u32_small (i * 4096 + _)) by lia. rewrite u32_small; lia.
  - intros [_ Hno]%(ao_free _ _ _ _ _ _ Hok). done.
  - intros [_ Hno]%(ao_free _ _ _ _ _ _ Hok). done.
Qed.

Definition some_tasks : tasks :=
  mk_tasks (Some 1 :: Some 2 :: replicate 8 None) 1 zero_tss zone16_ready (Some 1) None.

Lemma find_empty_process_correct_witness :
  exists r, find_empty_process some_tasks = Ret r /\
    ((r = -1 /\ forall j, 1 <= j < NR_TASKS -> process_table some_tasks !! Z.to_nat j <> Some None) \/
     (1 <= r < NR_TASKS /\ process_table some_tasks !! Z.to_nat r = Some None /\
      forall j, 1 <= j < r -> process_table some_tasks !! Z.to_nat j <> Some None)).
Proof. apply (find_empty_process_correct some_tasks); [reflexivity|split; vm_compute; congruence]. Defined.

Lemma sched_init_correct_witness :
  exists k', sched_init some_tasks = Ret k' /\ ss0 (tss k') = KERNEL_DATA.
Proof.
  destruct zone16_inv as (fl & Hinv & _).
  destruct (sched_init_correct some_tasks fl Hinv) as (k' & R & Hs & _); [vm_compute; reflexivity|].
  exists k'. split; [exact R|exact Hs].
Defined.
