(* ===== verification/Serial.v ===== *)
(** * The serial console (drivers/serial.c)

    Output goes to COM1 one character at a time, polling the line status
    register.  printk walks its format string; its variable arguments are a
    list of [va] values.  Reading past the end of the format, of the argument
    list or of a digit buffer is a fault.

    [Uart] is what the 16550 promises; [tx] is the text it has sent.  The
    theorems say that every function transmits the text it stands for. *)

From S2P Require Import Prelude Ports.

Definition COM1 : Z := 0x3f8.

Section driver.
Context {S : Type} `{PortIO S}.
Variable patience : nat.

Definition serial_init (s : S) : S :=
  let s := port_byte_out (COM1 + 1) 0x00 s in
  let s := port_byte_out (COM1 + 3) 0x80 s in
  let s := port_byte_out (COM1 + 0) 0x03 s in
  let s := port_byte_out (COM1 + 1) 0x00 s in
  let s := port_byte_out (COM1 + 3) 0x03 s in
  let s := port_byte_out (COM1 + 2) 0xc7 s in
  port_byte_out (COM1 + 4) 0x0b s.

Fixpoint wait_transmit (fuel : nat) (s : S) : outcome S :=
  match fuel with
  | O => Spin
  | Datatypes.S fuel =>
      let '(s, v) := port_byte_in (COM1 + 5) s in
      if Z.land v 0x20 =? 0 then wait_transmit fuel s else mret s
  end.
Definition serial_writechar (c : Z) (s : S) : outcome S :=
  s ← wait_transmit patience s;
  mret (port_byte_out COM1 (u8 c) s).

Fixpoint serial_writestring (str : list Z) (s : S) : outcome S :=
  match str with
  | [] => mret s
  | c :: str => s ← serial_writechar c s; serial_writestring str s
  end.

(** The digits of a positive number, least significant first, in a buffer with
    [room] free bytes. *)
Fixpoint push_digits (room : nat) (num : Z) : outcome (list Z) :=
  if 0 <? num then
    match room with
    | O => Fault
    | Datatypes.S room => l ← push_digits room (Z.quot num 10); mret ((48 + Z.rem num 10) :: l)
    end
  else mret [].

(** get_digits: [size] is the size of the buffer. *)
Definition get_digits (size : nat) (num : Z) : outcome (list Z) :=
  if num =? 0 then mret [48]
  else
    let is_negative := num <? 0 in
    let num := if is_negative then s32 (- num) else num in
    l ← push_digits size num;
    if is_negative then
      if decide (length l < size)%nat then mret (l ++ [45]) else Fault
    else mret l.

Definition serial_writeint (num : Z) (s : S) : outcome S :=
  buf ← get_digits 12 num;
  serial_writestring (rev buf) s.

Definition serial_writedec (num : Z) (s : S) : outcome S :=
  if num =? 0 then serial_writestring (chars "0") s
  else
    s ← (if num <? 0 then serial_writestring (chars "-") s else mret s);
    let num := if num <? 0 then s32 (- num) else num in
    buf ← push_digits 16 num;
    serial_writestring (rev buf) s.

Definition hex_chars : list Z := chars "0123456789ABCDEF".
Definition hex_digit (num i : Z) : Z :=
  default 0 (hex_chars !! Z.to_nat (Z.land (Z.shiftr num i) 0xf)).
Definition serial_writehex (num : Z) (s : S) : outcome S :=
  s ← serial_writestring (chars "0x") s;
  serial_writestring ((fun i => hex_digit num i) <$> [28; 24; 20; 16; 12; 8; 4; 0]) s.

(** ** printk *)

Inductive va := VWord (w : Z) | VStr (str : option (list Z)).
Definition va_word (args : list va) : outcome (Z * list va) :=
  match args with VWord w :: args => mret (w, args) | _ => Fault end.
Definition va_str (args : list va) : outcome (option (list Z) * list va) :=
  match args with VStr str :: args => mret (str, args) | _ => Fault end.

Fixpoint printk (format : list Z) (args : list va) (s : S) : outcome S :=
  match format with
  | [] => mret s
  | c :: format =>
      if negb (c =? 37) then s ← serial_writechar c s; printk format args s
      else match format with
           | [] => Fault
           | d :: format =>
               if d =? 100 (* d *) then
                 '(w, args) ← va_word args; s ← serial_writedec (s32 w) s; printk format args s
               else if d =? 117 (* u *) then
                 '(w, args) ← va_word args; s ← serial_writedec (s32 (u32 w)) s; printk format args s
               else if d =? 120 (* x *) then
                 '(w, args) ← va_word args; s ← serial_writehex (u32 w) s; printk format args s
               else if d =? 112 (* p *) then
                 s ← serial_writestring (chars "0x") s;
                 '(w, args) ← va_word args; s ← serial_writehex (u32 w) s; printk format args s
               else if d =? 99 (* c *) then
                 '(w, args) ← va_word args; s ← serial_writechar w s; printk format args s
               else if d =? 115 (* s *) then
                 '(str, args) ← va_str args;
                 s ← (match str with
                      | Some str => serial_writestring str s
                      | None => serial_writestring (chars "(null)") s
                      end);
                 printk format args s
               else if d =? 108 (* l *) then
                 match format with
                 | [] => Fault
                 | e :: format =>
                     if (e =? 100) || (e =? 117) then
                       '(w, args) ← va_word args; s ← serial_writedec (s32 w) s; printk format args s
                     else s ← serial_writechar 63 s; printk format args s
                 end
               else if d =? 37 then s ← serial_writechar 37 s; printk format args s
               else s ← serial_writechar 37 s; s ← serial_writechar d s; printk format args s
           end
  end.

End driver.

(** ** The UART *)

Class Uart (S : Type) `{PortIO S} := {
  tx : S -> list Z;
  dlab : S -> bool;
  tx_bound : nat;
  uart_in : forall port s, tx (fst (port_byte_in port s)) = tx s /\ dlab (fst (port_byte_in port s)) = dlab s;
  uart_out : forall port v s, tx (port_byte_out port v s) =
    if (port =? COM1) && negb (dlab s) then tx s ++ [v] else tx s;
  uart_lcr : forall port v s, dlab (port_byte_out port v s) =
    if port =? COM1 + 3 then Z.testbit v 7 else dlab s;
  uart_ready : forall s, exists n, (n < tx_bound)%nat /\
    Z.land (snd (port_byte_in (COM1 + 5) (Nat.iter n (fun s => fst (port_byte_in (COM1 + 5) s)) s))) 0x20 <> 0;
}.

(** ** The texts *)

(** The value of a text of decimal digits, most significant first. *)
Definition digits_value (l : list Z) : Z := fold_left (fun acc c => 10 * acc + (c - 48)) l 0.
Definition is_digit (c : Z) : Prop := 48 <= c <= 57.
Definition parse_int (l : list Z) : Z :=
  match l with 45 :: l => - digits_value l | _ => digits_value l end.

Definition hex_value (c : Z) : Z := if c <=? 57 then c - 48 else c - 55.
Definition parse_hex (l : list Z) : Z := fold_left (fun acc c => 16 * acc + hex_value c) l 0.
Definition hex_text (num : Z) : list Z := chars "0x" ++ (hex_digit num <$> [28; 24; 20; 16; 12; 8; 4; 0]).

(** The text of a decimal number: what get_digits leaves in the buffer, reversed. *)
Definition dec_text (num : Z) : list Z :=
  match get_digits 12 num with Ret l => rev l | _ => [] end.

(** The text of a format, or None when the arguments do not fit it or the
    format ends inside a conversion. *)
Definition render_word (f : Z -> list Z) (args : list va) (k : list va -> option (list Z)) : option (list Z) :=
  match args with VWord w :: args => app (f w) <$> k args | _ => None end.
Definition render_str (args : list va) (k : list va -> option (list Z)) : option (list Z) :=
  match args with VStr str :: args => app (default (chars "(null)") str) <$> k args | _ => None end.
Fixpoint render (format : list Z) (args : list va) : option (list Z) :=
  match format with
  | [] => Some []
  | c :: format =>
      if negb (c =? 37) then cons c <$> render format args
      else match format with
           | [] => None
           | d :: format =>
               if (d =? 100) || (d =? 117) then render_word (fun w => dec_text (s32 w)) args (render format)
               else if d =? 120 then render_word (fun w => hex_text (u32 w)) args (render format)
               else if d =? 112 then render_word (fun w => chars "0x" ++ hex_text (u32 w)) args (render format)
               else if d =? 99 then render_word (fun w => [w]) args (render format)
               else if d =? 115 then render_str args (render format)
               else if d =? 108 then
                 match format with
                 | [] => None
                 | e :: format =>
                     if (e =? 100) || (e =? 117) then
                       render_word (fun w => dec_text (s32 w)) args (render format)
                     else cons 63 <$> render format args
                 end
               else if d =? 37 then cons 37 <$> render format args
               else app [37; d] <$> render format args
           end
  end.

Lemma push_digits_spec room : forall num, 0 <= num < 10 ^ Z.of_nat room ->
  exists l, push_digits room num = Ret l /\ (length l <= room)%nat /\ Forall is_digit l /\
    digits_value (rev l) = num.
Proof.
  induction room as [|room IH]; intros num Hn; cbn [push_digits].
  - change (10 ^ Z.of_nat 0) with 1 in Hn. destruct (Z.ltb_spec 0 num); [lia|].
    exists []. split_and!; [done|simpl; lia|constructor|cbn; lia].
  - destruct (Z.ltb_spec 0 num) as [Hp|Hp].
    2:{ exists []. split_and!; [done|simpl; lia|constructor|cbn; lia]. }
    rewrite Z.quot_div_nonneg, Z.rem_mod_nonneg by lia.
    replace (Z.of_nat (Datatypes.S room)) with (Z.of_nat room + 1) in Hn by lia.
    rewrite Z.pow_add_r in Hn by lia.
    assert (Hd : 0 <= num / 10 < 10 ^ Z.of_nat room).
    { split; [apply Z.div_pos; lia|]. apply Z.div_lt_upper_bound; lia. }
    destruct (IH _ Hd) as (l & -> & Hl & Hf & Hv). rewrite bind_Ret.
    pose proof (Z.mod_pos_bound num 10 ltac:(lia)) as Hm.
    eexists. split; [done|]. split_and!; [simpl; lia|constructor; [unfold is_digit; lia|done]|].
    cbn [rev]. unfold digits_value in *. rewrite fold_left_app, Hv. cbn [fold_left].
    pose proof (Z.div_mod num 10). lia.
Qed.

Lemma push_digits_neg room num : num <= 0 -> push_digits room num = Ret [].
Proof. intros. destruct room; cbn [push_digits]; by rewrite (proj2 (Z.ltb_ge 0 num)). Qed.

Lemma push_digits_more room room' num l :
  push_digits room num = Ret l -> (room <= room')%nat -> push_digits room' num = Ret l.
Proof.
  revert num room' l. induction room as [|room IH]; intros num room' l; cbn [push_digits].
  - destruct (Z.ltb_spec 0 num); [done|]. intros [= <-] _. by apply push_digits_neg.
  - destruct (Z.ltb_spec 0 num) as [Hp|Hp]; [|intros [= <-] _; by apply push_digits_neg].
    intros E Hr. destruct room' as [|room']; [lia|]. cbn [push_digits]. rewrite (proj2 (Z.ltb_lt 0 num)) by done.
    apply bind_Ret_inv in E as (l' & E & El). rewrite (IH _ _ _ E) by lia. done.
Qed.

(** The magnitude whose digits are printed: 0 for the smallest integer, whose
    negation overflows. *)
Definition magnitude (num : Z) : Z := if num =? - 2 ^ 31 then 0 else Z.abs num.

Lemma get_digits_spec num :
  - 2 ^ 31 <= num < 2 ^ 31 -> num <> 0 ->
  exists l, push_digits 16 (if num <? 0 then s32 (- num) else num) = Ret l /\
    get_digits 12 num = Ret (if num <? 0 then l ++ [45] else l) /\
    (length l < 12)%nat /\ Forall is_digit l /\ digits_value (rev l) = magnitude num.
Proof.
  intros Hn H0. unfold get_digits. destruct (Z.eqb_spec num 0); [done|]. unfold magnitude.
  set (m := if num <? 0 then s32 (- num) else num).
  assert (exists l, push_digits 11 m = Ret l /\ (length l <= 11)%nat /\ Forall is_digit l /\
    digits_value (rev l) = if num =? - 2 ^ 31 then 0 else Z.abs num) as (l & E & Hl & Hf & Hv).
  { destruct (Z.eqb_spec num (- 2 ^ 31)) as [->|Hmin].
    - exists []. unfold m. rewrite push_digits_neg by (vm_compute; congruence).
      split_and!; [done|simpl; lia|constructor|done].
    - assert (Hm : m = Z.abs num).
      { unfold m. destruct (Z.ltb_spec num 0); [rewrite s32_small by lia|]; lia. }
      rewrite Hm. apply push_digits_spec. change (10 ^ Z.of_nat 11) with 100000000000. lia. }
  exists l. split; [by apply (push_digits_more 11); [|lia]|]. split; [|split_and!; [lia|done|done] ].
  rewrite (push_digits_more 11 12 _ _ E) by lia. rewrite bind_Ret.
  destruct (num <? 0); [rewrite decide_True by lia|]; done.
Qed.

Section text.
Context {S : Type} `{HP : PortIO S}.
Implicit Types s : S.

Lemma writestring_app p a b s :
  serial_writestring p (a ++ b) s = (s ← serial_writestring p a s; serial_writestring p b s).
Proof.
  revert s. induction a as [|c a IH]; intros s; [done|]. cbn [serial_writestring app].
  destruct (serial_writechar p c s) as [s1| |]; [|done|done]. rewrite !bind_Ret. apply IH.
Qed.

Lemma writedec_text p num s :
  - 2 ^ 31 <= num < 2 ^ 31 -> serial_writedec p num s = serial_writestring p (dec_text num) s.
Proof.
  intros Hn. unfold serial_writedec, dec_text. destruct (Z.eqb_spec num 0) as [->|H0]; [done|].
  destruct (get_digits_spec num Hn H0) as (l & El & -> & _ & _ & _).
  destruct (num <? 0) eqn:Hneg.
  - rewrite rev_app_distr. change (rev [45] ++ rev l) with (chars "-" ++ rev l).
    rewrite writestring_app. destruct (serial_writestring p (chars "-") s); [|done|done].
    rewrite !bind_Ret, El. done.
  - unfold mret, outcome_ret. rewrite bind_Ret, El. done.
Qed.

(** serial_writeint and serial_writedec are the same function: they send the
    same bytes in the same order for every 32-bit integer. *)
Theorem writeint_writedec p num s :
  - 2 ^ 31 <= num < 2 ^ 31 -> serial_writeint p num s = serial_writedec p num s.
Proof.
  intros Hn. rewrite writedec_text by done. unfold serial_writeint, dec_text.
  destruct (Z.eqb_spec num 0) as [->|H0]; [done|].
  by destruct (get_digits_spec num Hn H0) as (l & _ & -> & _ & _ & _).
Qed.

Lemma writehex_text p num s : serial_writehex p num s = serial_writestring p (hex_text num) s.
Proof. unfold serial_writehex, hex_text. by rewrite writestring_app. Qed.

End text.

(** ** What printk promises

    The text of a format and its arguments, by rules and without reference to
    the conversion routines: a numeral is any text of digits with the right
    value.  The rules are those of the code where it deviates from C: [%u] and
    [%lu] are signed, the smallest integer is a lone minus sign, [%x] has the
    prefix 0x, which [%p] sends twice. *)

(** The decimal numeral of [n]: digits of that value, without leading zeros. *)
Definition decimal_of (n : Z) (l : list Z) : Prop :=
  Forall is_digit l /\ digits_value l = n /\ l <> [] /\ (head l = Some 48 -> l = [48]).
(** The eight hexadecimal digits of [n], in capitals. *)
Definition hexadecimal_of (n : Z) (l : list Z) : Prop :=
  length l = 8%nat /\ Forall (fun c => 48 <= c <= 57 \/ 65 <= c <= 70) l /\ parse_hex l = n.

Inductive shows_int : Z -> list Z -> Prop :=
  | shows_nonneg n l : 0 <= n -> decimal_of n l -> shows_int n l
  | shows_negative n l : - 2 ^ 31 < n < 0 -> decimal_of (- n) l -> shows_int n (45 :: l)
  | shows_smallest : shows_int (- 2 ^ 31) [45].

Inductive describes : list Z -> list va -> list Z -> Prop :=
  | desc_end args : describes [] args []
  | desc_char c f args t : c <> 37 -> describes f args t -> describes (c :: f) args (c :: t)
  | desc_int d w f args n t : d = 100 \/ d = 117 -> shows_int (s32 w) n -> describes f args t ->
      describes (37 :: d :: f) (VWord w :: args) (n ++ t)
  | desc_long d w f args n t : d = 100 \/ d = 117 -> shows_int (s32 w) n -> describes f args t ->
      describes (37 :: 108 :: d :: f) (VWord w :: args) (n ++ t)
  | desc_hex w f args n t : hexadecimal_of (u32 w) n -> describes f args t ->
      describes (37 :: 120 :: f) (VWord w :: args) (chars "0x" ++ n ++ t)
  | desc_pointer w f args n t : hexadecimal_of (u32 w) n -> describes f args t ->
      describes (37 :: 112 :: f) (VWord w :: args) (chars "0x0x" ++ n ++ t)
  | desc_byte w f args t : describes f args t -> describes (37 :: 99 :: f) (VWord w :: args) (w :: t)
  | desc_string str f args t : describes f args t ->
      describes (37 :: 115 :: f) (VStr (Some str) :: args) (str ++ t)
  | desc_null f args t : describes f args t ->
      describes (37 :: 115 :: f) (VStr None :: args) (chars "(null)" ++ t)
  | desc_long_other e f args t : e <> 100 -> e <> 117 -> describes f args t ->
      describes (37 :: 108 :: e :: f) args (63 :: t)
  | desc_percent f args t : describes f args t -> describes (37 :: 37 :: f) args (37 :: t)
  | desc_other d f args t : d ∉ [100; 117; 120; 112; 99; 115; 108; 37] -> describes f args t ->
      describes (37 :: d :: f) args (37 :: d :: t).

(** *** Numerals are unique *)

Lemma digits_value_snoc l c : digits_value (l ++ [c]) = 10 * digits_value l + (c - 48).
Proof. unfold digits_value. by rewrite fold_left_app. Qed.

Lemma digits_value_pos l : Forall is_digit l -> l <> [] -> head l <> Some 48 -> 0 < digits_value l.
Proof.
  induction l as [|c l IH] using rev_ind; [done|]. intros [Hl Hc]%Forall_app _ Hh. rewrite digits_value_snoc.
  rewrite Forall_singleton in Hc. unfold is_digit in Hc. destruct l as [|d l].
  - change (digits_value []) with 0. assert (c <> 48) by (intros ->; by apply Hh). lia.
  - specialize (IH Hl ltac:(done) Hh). lia.
Qed.

Lemma push_digits_numeral l : Forall is_digit l -> head l <> Some 48 -> push_digits (length l) (digits_value l) = Ret (rev l).
Proof.
  induction l as [|c l IH] using rev_ind; [done|]. intros Hf Hh. pose proof (digits_value_pos (l ++ [c]) Hf ltac:(by destruct l) Hh) as Hpos.
  apply Forall_app in Hf as [Hl Hc]. rewrite Forall_singleton in Hc. unfold is_digit in Hc.
  rewrite length_app, Nat.add_1_r. cbn [push_digits]. rewrite (proj2 (Z.ltb_lt 0 _)) by done. rewrite digits_value_snoc in *.
  assert (Hv : 0 <= digits_value l /\ (l <> [] -> head l <> Some 48)).
  { destruct l as [|d l]; [by cbn|]. split; [|done]. cbn [head] in Hh. pose proof (digits_value_pos (d :: l) Hl ltac:(done) Hh). lia. }
  destruct Hv as [Hv Hh']. rewrite Z.quot_div_nonneg, Z.rem_mod_nonneg by lia.
  replace (10 * digits_value l + (c - 48)) with (c - 48 + digits_value l * 10) by lia.
  rewrite Z.div_add, Z.mod_add, Z.div_small, Z.mod_small, Z.add_0_l by lia. rewrite IH; [|done|destruct l; [done|by apply Hh'] ].
  rewrite bind_Ret, rev_app_distr. cbn [rev app]. unfold mret, outcome_ret. do 2 f_equal. lia.
Qed.

Lemma push_digits_decimal room m t : (0 < room)%nat -> 0 < m < 10 ^ Z.of_nat room -> decimal_of m t -> push_digits room m = Ret (rev t).
Proof.
  intros Hr Hm (Hf & Hv & Hne & Hz). assert (Hh : head t <> Some 48).
  { intros Hh. rewrite (Hz Hh) in Hv. cbn in Hv. lia. }
  destruct (push_digits_spec room m) as (l & E & _); [lia|]. pose proof (push_digits_numeral t Hf Hh) as E'. rewrite Hv in E'.
  pose proof (push_digits_more _ (room + length t) _ _ E ltac:(lia)) as M.
  rewrite (push_digits_more _ (room + length t) _ _ E' ltac:(lia)) in M. by rewrite M.
Qed.

Lemma dec_text_shows n t : - 2 ^ 31 <= n < 2 ^ 31 -> shows_int n t -> dec_text n = t.
Proof.
  intros Hn Hs. unfold dec_text, get_digits. inversion Hs as [m l Hm Hd|m l Hm Hd|]; subst; [..|done].
  - destruct (Z.eqb_spec n 0) as [->|H0].
    + destruct Hd as (Hf & Hv & Hne & Hz). destruct (decide (head t = Some 48)) as [Hh|Hh]; [by rewrite (Hz Hh)|].
      pose proof (digits_value_pos t Hf Hne Hh). lia.
    + rewrite (proj2 (Z.ltb_ge n 0)), (push_digits_decimal 12 n t) by (done || lia). bind_rets. apply rev_involutive.
  - rewrite (proj2 (Z.eqb_neq n 0)), (proj2 (Z.ltb_lt n 0)), s32_small by lia.
    rewrite (push_digits_more 11 12 (- n) (rev l)) by (done || lia || apply push_digits_decimal; done || lia). bind_rets.
    assert (Hlen : (length (rev l) <= 11)%nat).
    { destruct (push_digits_spec 11 (- n)) as (l' & E & Hl & _); [lia|].
      rewrite (push_digits_decimal 11 (- n) l) in E by (done || lia). by injection E as ->. }
    rewrite decide_True by lia. cbn [mret outcome_ret]. by rewrite rev_app_distr, rev_involutive.
Qed.

Lemma parse_hex_snoc l c : parse_hex (l ++ [c]) = 16 * parse_hex l + hex_value c.
Proof. unfold parse_hex. by rewrite fold_left_app. Qed.

(** A hexadecimal digit is determined by its value. *)
Lemma hex_value_inj c d : 48 <= c <= 57 \/ 65 <= c <= 70 -> 48 <= d <= 57 \/ 65 <= d <= 70 ->
  hex_value c mod 16 = hex_value d mod 16 -> c = d.
Proof. unfold hex_value. intros Hc Hd. destruct (Z.leb_spec c 57), (Z.leb_spec d 57); rewrite !Z.mod_small by lia; lia. Qed.

Lemma hexadecimal_unique l : forall m, length l = length m ->
  Forall (fun c => 48 <= c <= 57 \/ 65 <= c <= 70) l -> Forall (fun c => 48 <= c <= 57 \/ 65 <= c <= 70) m ->
  parse_hex l = parse_hex m -> l = m.
Proof.
  induction l as [|c l IH] using rev_ind; intros m; [by destruct m|]. destruct m as [|d m _] using rev_ind; [rewrite length_app; cbn; lia|].
  rewrite !length_app, !Nat.add_1_r. intros [= Hlen] [Hl Hc]%Forall_app [Hm Hd]%Forall_app.
  rewrite Forall_singleton in Hc, Hd. rewrite !parse_hex_snoc. intros E.
  assert (c = d) as ->.
  { apply hex_value_inj; [done..|]. rewrite <-(Z.mod_add (hex_value c) (parse_hex l) 16), <-(Z.mod_add (hex_value d) (parse_hex m) 16) by lia. f_equal. lia. }
  f_equal. apply IH; try done. lia.
Qed.

(** ** Hexadecimal *)

Lemma hex_digit_value num i : hex_value (hex_digit num i) = Z.land (Z.shiftr num i) 0xf.
Proof.
  unfold hex_digit. change 0xf with (Z.ones 4). rewrite Z.land_ones by lia.
  pose proof (Z.mod_pos_bound (Z.shiftr num i) (2 ^ 4) ltac:(lia)) as Hb.
  revert Hb. generalize (Z.shiftr num i mod 2 ^ 4). intros d Hd. change (2 ^ 4) with 16 in Hd. revert d Hd.
  apply (forall_seqZ (fun d => hex_value (default 0 (hex_chars !! Z.to_nat d)) = d)). by vm_compute.
Qed.

Lemma hex_step num i j : 0 <= i -> j = i + 4 -> 16 * (num / 2 ^ j) + hex_value (hex_digit num i) = num / 2 ^ i.
Proof.
  intros Hi ->. rewrite hex_digit_value. change 0xf with (Z.ones 4).
  rewrite Z.land_ones, Z.shiftr_div_pow2, Z.pow_add_r, <- Z.div_div by lia.
  change (2 ^ 4) with 16. pose proof (Z.div_mod (num / 2 ^ i) 16). lia.
Qed.

Lemma hex_text_value num : 0 <= num < 2 ^ 32 -> parse_hex (hex_digit num <$> [28; 24; 20; 16; 12; 8; 4; 0]) = num.
Proof.
  intros Hn. unfold parse_hex. cbn [fmap list_fmap fold_left].
  replace (16 * 0) with (16 * (num / 2 ^ 32)) by (rewrite Z.div_small by lia; lia).
  rewrite (hex_step num 28 32), (hex_step num 24 28), (hex_step num 20 24), (hex_step num 16 20),
    (hex_step num 12 16), (hex_step num 8 12), (hex_step num 4 8), (hex_step num 0 4) by lia.
  apply Z.div_1_r.
Qed.

(** serial_writehex sends "0x" and eight hexadecimal digits; reading them
    gives the 32-bit number back. *)
Theorem hex_text_roundtrip num :
  0 <= num < 2 ^ 32 -> take 2 (hex_text num) = chars "0x" /\ length (hex_text num) = 10%nat /\
    parse_hex (drop 2 (hex_text num)) = num.
Proof.
  intros Hn. split; [done|]. split; [done|]. by apply hex_text_value.
Qed.

Lemma hex_text_shows n t : 0 <= n < 2 ^ 32 -> hexadecimal_of n t -> hex_text n = chars "0x" ++ t.
Proof.
  intros Hn (Hlen & Hf & Hv). pose proof (hex_text_value n Hn) as Hp. unfold hex_text. f_equal.
  apply hexadecimal_unique; [by rewrite Hlen| |done|by rewrite Hv].
  apply Forall_fmap, Forall_forall. intros i _. unfold compose, hex_digit. change 0xf with (Z.ones 4). rewrite Z.land_ones by lia.
  pose proof (Z.mod_pos_bound (Z.shiftr n i) (2 ^ 4) ltac:(lia)) as Hb. revert Hb. generalize (Z.shiftr n i mod 2 ^ 4). intros d Hd.
  change (2 ^ 4) with 16 in Hd. revert d Hd.
  apply (forall_seqZ (fun d => 48 <= default 0 (hex_chars !! Z.to_nat d) <= 57 \/ 65 <= default 0 (hex_chars !! Z.to_nat d) <= 70)). by vm_compute.
Qed.

(** What the rules say is what [render] computes. *)
Lemma describes_render f args t : describes f args t -> render f args = Some t.
Proof.
  induction 1 as [|c f args t Hc _ IH|d w f args n t [-> | ->] Hn _ IH|d w f args n t [-> | ->] Hn _ IH|w f args n t Hn _ IH|w f args n t Hn _ IH|
    w f args t _ IH|str f args t _ IH|f args t _ IH|e f args t H1 H2 _ IH|f args t _ IH|d f args t Hd _ IH]; cbn [render].
  1: done.
  1: rewrite (proj2 (Z.eqb_neq c 37)) by done; cbn [negb]; by rewrite IH.
  1-4: cbn; rewrite IH; cbn; by rewrite (dec_text_shows _ _ (s32_range w) Hn).
  1-2: cbn -[hex_text]; rewrite IH; cbn -[hex_text]; rewrite (hex_text_shows _ n (u32_range w) Hn); cbn; done.
  1-3: cbn; by rewrite IH.
  1: cbn; rewrite (proj2 (Z.eqb_neq e 100)), (proj2 (Z.eqb_neq e 117)) by done; cbn; by rewrite IH.
  1: cbn; by rewrite IH.
  rewrite !not_elem_of_cons in Hd. cbn. rewrite !(proj2 (Z.eqb_neq d _)) by tauto. cbn. by rewrite IH.
Qed.

(** ** Runs of printk

    [I] is what every state has, [R s s' text] what writing [text] does. *)

Section steps.
Context {S : Type} `{HP : PortIO S}.
Implicit Types s : S.

Lemma writechar_string p c s : serial_writechar p c s = serial_writestring p [c] s.
Proof. cbn [serial_writestring]. by destruct (serial_writechar p c s). Qed.

Lemma render_word_inv f args k text :
  render_word f args k = Some text ->
  exists w rest t, args = VWord w :: rest /\ k rest = Some t /\ text = f w ++ t.
Proof.
  destruct args as [|[w|str] rest]; simpl; try done. destruct (k rest) as [t|] eqn:E; simpl; [|done].
  intros [= <-]. eauto 10.
Qed.
Lemma render_str_inv args k text :
  render_str args k = Some text ->
  exists str rest t, args = VStr str :: rest /\ k rest = Some t /\ text = default (chars "(null)") str ++ t.
Proof.
  destruct args as [|[w|str] rest]; simpl; try done. destruct (k rest) as [t|] eqn:E; simpl; [|done].
  intros [= <-]. eauto 10.
Qed.

Context (p : nat) (I : S -> Prop) (R : S -> S -> list Z -> Prop).
Hypothesis R_nil : forall s, R s s [].
Hypothesis R_app : forall s1 s2 s3 a b, R s1 s2 a -> R s2 s3 b -> R s1 s3 (a ++ b).
Hypothesis R_write : forall text s, I s -> exists s', serial_writestring p text s = Ret s' /\ R s s' text /\ I s'.

(** What a step writes is followed by what the rest writes. *)
Lemma step_runs s text text' (m : outcome S) (k : S -> outcome S) :
  I s -> m = serial_writestring p text s -> (forall s1, I s1 -> exists s', k s1 = Ret s' /\ R s1 s' text' /\ I s') ->
  exists s', m ≫= k = Ret s' /\ R s s' (text ++ text') /\ I s'.
Proof.
  intros Hd -> Hk. destruct (R_write text s Hd) as (s1 & -> & Hs1 & Hd1). rewrite bind_Ret.
  destruct (Hk s1 Hd1) as (s' & -> & Hs' & Hd'). exists s'. split; [done|]. split; [by eapply R_app|done].
Qed.

Lemma printk_steps n : forall format args s text,
  (length format <= n)%nat -> I s -> render format args = Some text ->
  exists s', printk p format args s = Ret s' /\ R s s' text /\ I s'.
Proof.
  induction n as [|n IH]; intros format args s text Hlen Hd Hr.
  { destruct format; [|simpl in Hlen; lia]. injection Hr as <-. exists s. auto. }
  destruct format as [|c format]; [injection Hr as <-; exists s; auto|].
  simpl in Hlen. cbn [printk render] in *.
  destruct (negb (c =? 37)).
  { apply fmap_Some in Hr as (t & Ht & ->). apply (step_runs s [c]); [done|apply writechar_string|].
    intros s1 Hd1. apply IH; [lia|done..]. }
  destruct format as [|d format]; [done|]. simpl in Hlen.
  assert (Hw : forall (f : Z -> list Z) (m : Z -> S -> outcome S),
    (forall w s, m w s = serial_writestring p (f w) s) -> render_word f args (render format) = Some text ->
    exists s', ('(w, args) ← va_word args; s ← m w s; printk p format args s) = Ret s' /\ R s s' text /\ I s').
  { intros f m Hm Hw. apply render_word_inv in Hw as (w & rest & t & -> & Ht & ->). unfold va_word, mret, outcome_ret.
    rewrite bind_Ret. apply step_runs; [done|apply Hm|]. intros s1 Hd1. apply IH; [lia|done..]. }
  destruct (d =? 100); cbn [orb] in Hr.
  { apply (Hw _ (fun w s => serial_writedec p (s32 w) s)) in Hr; [done|]. intros. apply writedec_text, s32_range. }
  destruct (d =? 117).
  { apply (Hw _ (fun w s => serial_writedec p (s32 (u32 w)) s)) in Hr; [done|]. intros. rewrite s32_u32. apply writedec_text, s32_range. }
  destruct (d =? 120).
  { apply (Hw _ (fun w s => serial_writehex p (u32 w) s)) in Hr; [done|]. intros. apply writehex_text. }
  destruct (d =? 112).
  { clear Hw. apply render_word_inv in Hr as (w & rest & t & -> & Ht & ->). rewrite <- app_assoc.
    apply step_runs; [done|done|]. intros s1 Hd1. unfold va_word, mret, outcome_ret. rewrite bind_Ret.
    apply step_runs; [done|apply writehex_text|]. intros s2 Hd2. apply IH; [lia|done..]. }
  destruct (d =? 99).
  { apply (Hw _ (fun w s => serial_writechar p w s)) in Hr; [done|]. intros. apply writechar_string. }
  destruct (d =? 115).
  { clear Hw. apply render_str_inv in Hr as (str & rest & t & -> & Ht & ->). unfold va_str, mret, outcome_ret.
    rewrite bind_Ret. apply step_runs; [done|by destruct str|]. intros s1 Hd1. apply IH; [lia|done..]. }
  clear Hw. destruct (d =? 108).
  { destruct format as [|e format]; [done|]. simpl in Hlen. destruct ((e =? 100) || (e =? 117)).
    - apply render_word_inv in Hr as (w & rest & t & -> & Ht & ->). unfold va_word, mret, outcome_ret. rewrite bind_Ret.
      apply step_runs; [done|apply writedec_text, s32_range|]. intros s1 Hd1. apply IH; [lia|done..].
    - apply fmap_Some in Hr as (t & Ht & ->). apply (step_runs s [63]); [done|apply writechar_string|].
      intros s1 Hd1. apply IH; [lia|done..]. }
  destruct (d =? 37).
  { apply fmap_Some in Hr as (t & Ht & ->). apply (step_runs s [37]); [done|apply writechar_string|].
    intros s1 Hd1. apply IH; [lia|done..]. }
  apply fmap_Some in Hr as (t & Ht & ->). rewrite !writechar_string.
  change ([37; d] ++ t) with ([37] ++ ([d] ++ t)). apply (step_runs s [37]); [done|done|]. intros s1 Hd1.
  apply (step_runs s1 [d]); [done|apply writechar_string|]. intros s2 Hd2. apply IH; [lia|done..].
Qed.

End steps.

Section uart.
Context {S : Type} `{HP : PortIO S} `{HU : !Uart S}.
Implicit Types s : S.

(** [s'] is [s] after the UART sent [text]. *)
Definition sends s s' (text : list Z) : Prop := tx s' = tx s ++ (u8 <$> text) /\ dlab s' = dlab s.

Lemma wait_transmit_spec fuel : forall s n, (n < fuel)%nat ->
  Z.land (snd (port_byte_in (COM1 + 5) (Nat.iter n (fun s => fst (port_byte_in (COM1 + 5) s)) s))) 0x20 <> 0 ->
  exists s', wait_transmit fuel s = Ret s' /\ tx s' = tx s /\ dlab s' = dlab s.
Proof.
  induction fuel as [|fuel IH]; intros s n Hn Hs; [lia|]. cbn [wait_transmit].
  pose proof (uart_in (COM1 + 5) s) as [Ht Hd].
  destruct (port_byte_in (COM1 + 5) s) as [s1 v] eqn:E. simpl in Ht, Hd.
  destruct (Z.eqb_spec (Z.land v 0x20) 0) as [Hz|_]; [|by exists s1].
  destruct n as [|n]; [simpl in Hs; rewrite E in Hs; done|].
  rewrite Nat.iter_succ_r, E in Hs. simpl in Hs.
  destruct (IH s1 n) as (s' & R & Ht' & Hd'); [lia|done|].
  exists s'. split_and!; congruence.
Qed.

Lemma writechar_sends p c s :
  (tx_bound <= p)%nat -> dlab s = false -> exists s', serial_writechar p c s = Ret s' /\ sends s s' [c].
Proof.
  intros Hp Hd. destruct (uart_ready s) as (n & Hn & Hs). unfold serial_writechar.
  destruct (wait_transmit_spec p s n) as (s1 & -> & Ht & Hd1); [lia|done|]. rewrite bind_Ret.
  eexists. split; [done|]. unfold sends. rewrite uart_out, uart_lcr, Hd1, Hd, Ht. done.
Qed.

Lemma writestring_sends p text : forall s,
  (tx_bound <= p)%nat -> dlab s = false -> exists s', serial_writestring p text s = Ret s' /\ sends s s' text.
Proof.
  induction text as [|c text IH]; intros s Hp Hd; cbn [serial_writestring].
  - exists s. unfold sends. by rewrite app_nil_r.
  - destruct (writechar_sends p c s Hp Hd) as (s1 & -> & Ht1 & Hd1). rewrite bind_Ret.
    destruct (IH s1 Hp) as (s' & -> & Ht & Hd'); [congruence|]. exists s'. split; [done|].
    unfold sends. rewrite Ht, Ht1, Hd', Hd1, <- app_assoc. done.
Qed.

(** serial_writedec sends a decimal numeral of the number: reading the text
    sent gives the number back, for every 32-bit integer but the smallest, for
    which only the sign is sent; the digits fit their 16-byte buffer. *)
Theorem serial_writedec_correct p num s :
  (tx_bound <= p)%nat -> dlab s = false -> - 2 ^ 31 <= num < 2 ^ 31 ->
  exists s' text, serial_writedec p num s = Ret s' /\ sends s s' text /\
    parse_int text = (if num =? - 2 ^ 31 then 0 else num) /\ (length text <= 12)%nat.
Proof.
  intros Hp Hd Hn. rewrite writedec_text by done.
  destruct (writestring_sends p (dec_text num) s Hp Hd) as (s' & R & Hs). exists s', (dec_text num).
  split; [done|]. split; [done|]. unfold dec_text. destruct (Z.eqb_spec num 0) as [->|H0].
  { split; [done|]. cbn. lia. }
  destruct (get_digits_spec num Hn H0) as (l & _ & -> & Hl & Hf & Hv). unfold magnitude in Hv.
  destruct (Z.ltb_spec num 0).
  - rewrite rev_app_distr. cbn [rev app parse_int]. rewrite Hv. split; [destruct (_ =? _); lia|].
    simpl. rewrite length_rev. lia.
  - rewrite length_rev. split; [|lia]. rewrite (proj2 (Z.eqb_neq _ _)) in * by lia. rewrite Z.abs_eq in Hv by lia.
    rewrite <- Hv. apply Forall_rev in Hf. destruct (rev l) as [|c r]; [done|]. apply Forall_cons in Hf as [Hc _].
    unfold is_digit in Hc. unfold parse_int. repeat case_match; subst; try done; lia.
Qed.

Lemma sends_trans s1 s2 s3 a b : sends s1 s2 a -> sends s2 s3 b -> sends s1 s3 (a ++ b).
Proof. intros [H1 H2] [H3 H4]. unfold sends. rewrite H3, H1, fmap_app, app_assoc. split; [done|congruence]. Qed.

(** What a step of printk sends is followed by what the rest sends. *)
Lemma step_sends p s text text' (m : outcome S) (k : S -> outcome S) :
  (tx_bound <= p)%nat -> dlab s = false -> m = serial_writestring p text s ->
  (forall s1, dlab s1 = false -> exists s', k s1 = Ret s' /\ sends s1 s' text') ->
  exists s', m ≫= k = Ret s' /\ sends s s' (text ++ text').
Proof.
  intros Hp Hd -> Hk. destruct (writestring_sends p text s Hp Hd) as (s1 & -> & Hs1). rewrite bind_Ret.
  destruct (Hk s1) as (s' & -> & Hs'); [destruct Hs1; congruence|].
  exists s'. split; [done|]. by eapply sends_trans.
Qed.

Lemma writestring_two p a b s (k : S -> outcome S) :
  (s ← serial_writestring p a s; s ← serial_writestring p b s; k s) =
  (s ← serial_writestring p (a ++ b) s; k s).
Proof. rewrite writestring_app. by destruct (serial_writestring p a s). Qed.

Lemma sends_nil s : sends s s [].
Proof. unfold sends. by rewrite app_nil_r. Qed.

Lemma printk_text p format args s text :
  (tx_bound <= p)%nat -> dlab s = false -> render format args = Some text ->
  exists s', printk p format args s = Ret s' /\ sends s s' text.
Proof.
  intros Hp Hd Hr. destruct (printk_steps p (fun s => dlab s = false) sends sends_nil sends_trans) with (length format) format args s text
    as (s' & R & Hs & _); try done; [|by exists s'].
  intros tx0 s0 H0. destruct (writestring_sends p tx0 s0 Hp H0) as (s1 & E & H1). exists s1. split; [done|]. split; [done|].
  destruct H1. congruence.
Qed.

(** C38. printk sends exactly the text the rules [describes] give for its format
    and arguments - numerals are digits of the right value, not what the
    conversion routines happen to produce - and every poll of the line status
    ends. *)
Theorem printk_correct p format args s text :
  (tx_bound <= p)%nat -> dlab s = false -> describes format args text ->
  exists s', printk p format args s = Ret s' /\ tx s' = tx s ++ (u8 <$> text) /\ dlab s' = false.
Proof.
  intros Hp Hd Hr%describes_render. destruct (printk_text p format args s text Hp Hd Hr) as (s' & R & Ht & Hd').
  exists s'. split_and!; [done|done|congruence].
Qed.

(** After serial_init the divisor latch is closed: characters reach the line,
    and only the two divisor bytes of the initialisation did not. *)
Lemma serial_init_ready s : dlab (serial_init s) = false /\
  tx (serial_init s) = tx s.
Proof.
  unfold serial_init. rewrite !uart_lcr, !uart_out, !uart_lcr. simpl. done.
Qed.

End uart.

(** ** A UART that is busy on every other poll *)

Record uart_sim := mk_uart { u_tx : list Z; u_dlab : bool; u_idle : bool }.
#[export] Instance uart_ports : PortIO uart_sim := {
  port_byte_in port s := (mk_uart (u_tx s) (u_dlab s) (negb (u_idle s)), if u_idle s then 0x60 else 0);
  port_byte_out port v s :=
    mk_uart (if (port =? COM1) && negb (u_dlab s) then u_tx s ++ [v] else u_tx s)
      (if port =? COM1 + 3 then Z.testbit v 7 else u_dlab s) (u_idle s);
  port_multiword_in port n s := (s, []);
  port_multiword_out port bytes s := s;
  asm_cli s := s;
  asm_sti s := s;
  print_text text s := s;
}.
#[export] Instance uart_instance : Uart uart_sim.
Proof.
  refine {| tx := u_tx; dlab := u_dlab; tx_bound := 2 |}; try done.
  intros s. destruct (u_idle s) eqn:E; [exists 0%nat|exists 1%nat]; simpl; rewrite E;
    (split; [lia|vm_compute; congruence]).
Defined.

Definition uart_start : uart_sim := mk_uart [] false false.

Lemma writeint_writedec_witness : serial_writeint 2 (-120) uart_start = serial_writedec 2 (-120) uart_start.
Proof. apply (writeint_writedec 2 (-120) uart_start). lia. Defined.

Lemma serial_writedec_correct_witness :
  exists s' text, serial_writedec 2 (-120) uart_start = Ret s' /\ sends uart_start s' text /\
    parse_int text = -120 /\ (length text <= 12)%nat.
Proof. apply (serial_writedec_correct 2 (-120) uart_start); [simpl; lia|reflexivity|lia]. Defined.

Lemma decimal_42 : decimal_of 42 (chars "42").
Proof. split_and!; [by repeat constructor|done|done|done]. Qed.

Lemma printk_correct_witness :
  exists s', printk 2 (chars "%s=%d/%x") [VStr (Some [97]); VWord (2 ^ 32 - 42); VWord 0xBEEF] uart_start = Ret s' /\
    tx s' = chars "a=-42/0x0000BEEF" /\ dlab s' = false.
Proof.
  destruct (printk_correct 2 (chars "%s=%d/%x") [VStr (Some [97]); VWord (2 ^ 32 - 42); VWord 0xBEEF] uart_start
    (chars "a=-42/0x0000BEEF")) as (s' & R & Ht & Hd); [simpl; lia|reflexivity| |].
  - apply (desc_string [97]), desc_char; [done|]. apply (desc_int 100 _ _ _ (chars "-42")); [by left| |].
    + apply (shows_negative _ (chars "42")); [done|exact decimal_42].
    + apply desc_char; [done|]. apply (desc_hex _ [] [] (chars "0000BEEF") []); [|constructor].
      split; [done|]. split; [|done]. change (chars "0000BEEF") with [48; 48; 48; 48; 66; 69; 69; 70].
      repeat (apply Forall_cons; split; [lia|]). constructor.
  - exists s'. split; [exact R|]. split; [exact Ht|exact Hd].
Defined.

Lemma hex_text_roundtrip_witness : parse_hex (drop 2 (hex_text 0xdeadbeef)) = 0xdeadbeef.
Proof. apply (hex_text_roundtrip 0xdeadbeef). lia. Defined.
