(* ===== verification/Exceptions.v ===== *)
(** * The exception report (kernel/idt/isr/exceptions.c, include/exceptions.h,
    include/registers.h)

    The handler prints the name of the exception and the registers on the
    serial port and halts the processor for ever.  [exception_handler] gives
    the state in which it halts. *)

From S2P Require Import Prelude Ports Serial.

Record registers_t := mk_registers {
  r_ds : Z; r_es : Z; r_fs : Z; r_gs : Z; r_edi : Z; r_esi : Z; r_ebp : Z; r_esp : Z;
  r_ebx : Z; r_edx : Z; r_ecx : Z; r_eax : Z; int_no : Z; err_code : Z }.

Definition exception_messages : list (list Z) :=
  [chars "Division By Zero"; chars "Debug"; chars "Non Maskable Interrupt"; chars "Breakpoint"; chars "Overflow";
   chars "Bound Range Exceeded"; chars "Invalid Opcode"; chars "Device Not Available"; chars "Double Fault";
   chars "Coprocessor Segment Overrun"; chars "Invalid TSS"; chars "Segment Not Present"; chars "Stack-Segment Fault";
   chars "General Protection Fault"; chars "Page Fault"; chars "Reserved"; chars "x87 Floating-Point Exception";
   chars "Alignment Check"; chars "Machine Check"; chars "SIMD Floating-Point Exception"; chars "Virtualization Exception";
   chars "Control Protection Exception"] ++ replicate 10 (chars "Reserved").

Section handler.
Context {S : Type} `{PortIO S}.
Variable patience : nat.
Local Abbreviation write := (serial_writestring patience).
Local Abbreviation hex := (serial_writehex patience).

(** Reading past the table of messages is a fault. *)
Definition exception_handler (regs : registers_t) (s : S) : outcome S :=
  message ← deref (exception_messages !! Z.to_nat (int_no regs));
  s ← write (chars "Exception: ") s;
  s ← write message s;
  s ← write (10 :: chars "Interrupt Number: ") s;
  s ← serial_writeint patience (s32 (int_no regs)) s;
  s ← write (10 :: chars "EAX: ") s;
  s ← hex (r_eax regs) s;
  s ← write (10 :: chars "EBX: ") s;
  s ← hex (r_ebx regs) s;
  s ← write (10 :: chars "ECX: ") s;
  s ← hex (r_ecx regs) s;
  s ← write (10 :: chars "EDX: ") s;
  s ← hex (r_edx regs) s;
  s ← write (10 :: chars "ESI: ") s;
  s ← hex (r_esi regs) s;
  s ← write (10 :: chars "EDI: ") s;
  s ← hex (r_edi regs) s;
  s ← write (10 :: chars "EBP: ") s;
  s ← hex (r_ebp regs) s;
  s ← write (10 :: chars "DS: ") s;
  hex (r_ds regs) s.
End handler.

(** ** The report *)

(** A line of the report: a label and a register. *)
Definition register_line (label : list Z) (v : Z) : list Z := 10 :: label ++ hex_text v.
Definition exception_text (name : list Z) (regs : registers_t) : list Z :=
  chars "Exception: " ++ name ++ (10 :: chars "Interrupt Number: ") ++ dec_text (int_no regs) ++
  register_line (chars "EAX: ") (r_eax regs) ++ register_line (chars "EBX: ") (r_ebx regs) ++
  register_line (chars "ECX: ") (r_ecx regs) ++ register_line (chars "EDX: ") (r_edx regs) ++
  register_line (chars "ESI: ") (r_esi regs) ++ register_line (chars "EDI: ") (r_edi regs) ++
  register_line (chars "EBP: ") (r_ebp regs) ++ register_line (chars "DS: ") (r_ds regs).

Section report.
Context {S : Type} `{HP : PortIO S} `{HU : !Uart S}.

(** The handler sends the whole report: the name of the exception, its number
    and the eight registers it was called with, each as eight hexadecimal
    digits, in the order of the source; and for the 32 exceptions of the
    processor it always reaches the halt. *)
Theorem exception_handler_correct p regs (s : S) :
  (tx_bound <= p)%nat -> dlab s = false -> 0 <= int_no regs < 32 ->
  exists name, exception_messages !! Z.to_nat (int_no regs) = Some name /\
    exists s', exception_handler p regs s = Ret s' /\ sends s s' (exception_text name regs).
Proof.
  intros Hp Hd Hn.
  destruct (lookup_lt_is_Some_2 exception_messages (Z.to_nat (int_no regs))) as [name Hname];
    [change (length exception_messages) with 32%nat; lia|].
  exists name. split; [done|]. unfold exception_handler, exception_text, register_line. rewrite Hname. cbn [deref]. rewrite bind_Ret.
  rewrite s32_small by lia. rewrite !app_comm_cons, <- !app_assoc.
  revert s Hd. do 19 (intros ? ?; apply step_sends with p; [done|done|
    first [reflexivity | apply writehex_text | by rewrite writeint_writedec, writedec_text by lia]|]).
  intros ? ?. rewrite writehex_text. by apply writestring_sends.
Qed.

(** A number past the table reads memory behind it. *)
Theorem exception_handler_unknown p regs (s : S) : 32 <= int_no regs -> exception_handler p regs s = Fault.
Proof.
  intros Hn. unfold exception_handler. rewrite lookup_ge_None_2; [done|].
  change (length exception_messages) with 32%nat. lia.
Qed.
End report.

(** A page fault (14). *)
Definition page_fault_regs : registers_t := mk_registers 0x10 0x10 0x10 0x10 1 2 3 4 5 6 7 8 14 0.

Lemma exception_handler_correct_witness :
  exists name, exception_messages !! 14%nat = Some name /\
    exists s', exception_handler 2 page_fault_regs uart_start = Ret s' /\ sends uart_start s' (exception_text name page_fault_regs).
Proof. apply (exception_handler_correct 2 page_fault_regs uart_start); [simpl; lia|reflexivity|simpl; lia]. Defined.

(** The text of the report. *)
Example page_fault_report : exception_text (chars "Page Fault") page_fault_regs =
  chars "Exception: Page Fault" ++ (10 :: chars "Interrupt Number: 14") ++ (10 :: chars "EAX: 0x00000008") ++
  (10 :: chars "EBX: 0x00000005") ++ (10 :: chars "ECX: 0x00000007") ++ (10 :: chars "EDX: 0x00000006") ++
  (10 :: chars "ESI: 0x00000002") ++ (10 :: chars "EDI: 0x00000001") ++ (10 :: chars "EBP: 0x00000003") ++
  (10 :: chars "DS: 0x00000010").
Proof. vm_compute. reflexivity. Qed.
