(* ===== verification/Console.v ===== *)
(** * The text screen and the keyboard (kernel/display/vga_display.c,
    drivers/keyboard.c)

    The screen is VGA text memory, 80 x 25 cells of 16 bits, with a cursor that
    wraps to the top.  A write outside the 2000 cells is a fault. *)

From S2P Require Import Prelude Ports.

Definition VGA_WIDTH : Z := 80.
Definition VGA_HEIGHT : Z := 25.
Definition VGA_COLOR_BLACK : Z := 0.
Definition VGA_COLOR_LIGHT_GREY : Z := 7.
Definition KEY_DATA_REG : Z := 0x60.

Record terminal := mk_term {
  terminal_row : Z; terminal_column : Z; terminal_color : Z; terminal_buffer : list Z }.

Definition vga_entry_color (fg bg : Z) : Z := u8 (Z.lor fg (Z.shiftl bg 4)).
Definition vga_entry (uc color : Z) : Z := u16 (Z.lor uc (Z.shiftl color 8)).

Definition terminal_putentryat (c color x y : Z) (t : terminal) : outcome terminal :=
  let index := Z.to_nat (y * VGA_WIDTH + x) in
  if decide (index < length (terminal_buffer t))%nat then
    mret (mk_term (terminal_row t) (terminal_column t) (terminal_color t)
      (<[index := vga_entry (u8 c) color]> (terminal_buffer t)))
  else Fault.

(** The two loops of terminal_initialize: [n] cells left of a row, [m] rows left. *)
Fixpoint clear_row (n : nat) (x y : Z) (t : terminal) : outcome terminal :=
  match n with
  | O => mret t
  | S n => t ← terminal_putentryat 32 (terminal_color t) x y t; clear_row n (x + 1) y t
  end.
Fixpoint clear_rows (m : nat) (y : Z) (t : terminal) : outcome terminal :=
  match m with
  | O => mret t
  | S m => t ← clear_row (Z.to_nat VGA_WIDTH) 0 y t; clear_rows m (y + 1) t
  end.
Definition terminal_initialize (t : terminal) : outcome terminal :=
  clear_rows (Z.to_nat VGA_HEIGHT) 0
    (mk_term 0 0 (vga_entry_color VGA_COLOR_LIGHT_GREY VGA_COLOR_BLACK) (terminal_buffer t)).

Definition terminal_setcolor (color : Z) (t : terminal) : terminal :=
  mk_term (terminal_row t) (terminal_column t) color (terminal_buffer t).

Definition terminal_putchar (c : Z) (t : terminal) : outcome terminal :=
  t ← terminal_putentryat c (terminal_color t) (terminal_column t) (terminal_row t) t;
  let column := u32 (terminal_column t + 1) in
  if column =? VGA_WIDTH then
    let row := u32 (terminal_row t + 1) in
    mret (mk_term (if row =? VGA_HEIGHT then 0 else row) 0 (terminal_color t) (terminal_buffer t))
  else mret (mk_term (terminal_row t) column (terminal_color t) (terminal_buffer t)).

(** terminal_write: the first [size] bytes of [data]. *)
Fixpoint terminal_write (data : list Z) (size : nat) (t : terminal) : outcome terminal :=
  match size with
  | O => mret t
  | S size =>
      match data with
      | [] => Fault
      | c :: data => t ← terminal_putchar c t; terminal_write data size t
      end
  end.
(** terminal_writestring of a C string: [data] are the bytes before its NUL. *)
Definition terminal_writestring (data : list Z) (t : terminal) : outcome terminal :=
  terminal_write data (length data) t.

(** ** The keyboard *)

Definition kbdus : list Z :=
  [0; 27] ++ chars "1234567890-=" ++ [8; 9] ++ chars "qwertyuiop[]" ++ [10; 0] ++ chars "asdfghjkl;'`" ++
  [0] ++ chars "\zxcvbnm,./" ++ [0] ++ chars "*" ++ [0] ++ chars " " ++ replicate 16 0 ++ chars "-" ++
  replicate 3 0 ++ chars "+" ++ replicate 49 0.

(** keyboard_driver.  The table has 128 entries; for larger scan codes the code
    reads [beyond] it, and drops the value. *)
Definition keyboard_driver {S} `{PortIO S} (beyond : Z -> Z) (s : S) (t : terminal) : outcome (S * terminal) :=
  let '(s, scancode) := port_byte_in KEY_DATA_REG s in
  let key := match kbdus !! Z.to_nat scancode with Some k => k | None => beyond scancode end in
  if negb (Z.land scancode 0x80 =? 0) then mret (s, t)
  else
    t ← (if negb (key =? 0) then terminal_putchar key t else terminal_writestring (chars "[UNK]") t);
    mret (s, t).

(** ** Correctness *)

Definition CELLS : Z := VGA_WIDTH * VGA_HEIGHT.
Record term_ok (t : terminal) : Prop := {
  tk_row : 0 <= terminal_row t < VGA_HEIGHT;
  tk_col : 0 <= terminal_column t < VGA_WIDTH;
  tk_len : length (terminal_buffer t) = Z.to_nat CELLS;
}.
(** The cell under the cursor. *)
Definition cursor (t : terminal) : Z := terminal_row t * VGA_WIDTH + terminal_column t.
Definition cell (t : terminal) (i : Z) : option Z := terminal_buffer t !! Z.to_nat i.

Lemma cursor_range t : term_ok t -> 0 <= cursor t < CELLS.
Proof. intros [Hr Hc _]. unfold cursor, CELLS, VGA_WIDTH, VGA_HEIGHT in *. lia. Qed.

Lemma putentryat_spec t c color x y :
  length (terminal_buffer t) = Z.to_nat CELLS -> 0 <= y < VGA_HEIGHT -> 0 <= x < VGA_WIDTH ->
  terminal_putentryat c color x y t = Ret (mk_term (terminal_row t) (terminal_column t) (terminal_color t)
    (<[Z.to_nat (y * VGA_WIDTH + x) := vga_entry (u8 c) color]> (terminal_buffer t))).
Proof.
  intros Hl Hy Hx. unfold terminal_putentryat. rewrite decide_True; [done|].
  rewrite Hl. unfold CELLS, VGA_WIDTH, VGA_HEIGHT in *. lia.
Qed.

Lemma putchar_spec t c :
  term_ok t -> exists t', terminal_putchar c t = Ret t' /\ term_ok t' /\ cursor t' = (cursor t + 1) mod CELLS /\
    terminal_color t' = terminal_color t /\
    terminal_buffer t' = <[Z.to_nat (cursor t) := vga_entry (u8 c) (terminal_color t)]> (terminal_buffer t).
Proof.
  intros [Hr Hc Hl]. unfold terminal_putchar. rewrite putentryat_spec by done. rewrite bind_Ret.
  cbn [terminal_row terminal_column terminal_color terminal_buffer].
  unfold cursor, CELLS, VGA_WIDTH, VGA_HEIGHT in *. rewrite !u32_small by lia.
  destruct (Z.eqb_spec (terminal_column t + 1) 80) as [Ec|Ec].
  - eexists. split; [done|]. cbn [terminal_row terminal_column terminal_color terminal_buffer].
    destruct (Z.eqb_spec (terminal_row t + 1) 25) as [Er|Er].
    + split; [split; cbn; unfold VGA_WIDTH, VGA_HEIGHT; rewrite ?length_insert; [lia|lia|done] |].
      split; [|done]. replace (terminal_row t * 80 + terminal_column t + 1) with (80 * 25) by lia. done.
    + split; [split; cbn; unfold VGA_WIDTH, VGA_HEIGHT; rewrite ?length_insert; [lia|lia|done] |].
      split; [|done]. rewrite Z.mod_small by lia. lia.
  - eexists. split; [done|]. cbn [terminal_row terminal_column terminal_color terminal_buffer].
    split; [split; cbn; unfold VGA_WIDTH, VGA_HEIGHT; rewrite ?length_insert; [lia|lia|done] |].
    split; [|done]. rewrite Z.mod_small by lia. lia.
Qed.

Lemma write_spec data : forall t,
  term_ok t -> Z.of_nat (length data) <= CELLS ->
  exists t', terminal_write data (length data) t = Ret t' /\ term_ok t' /\
    cursor t' = (cursor t + Z.of_nat (length data)) mod CELLS /\ terminal_color t' = terminal_color t /\
    forall i, 0 <= i < CELLS -> cell t' i =
      match data !! Z.to_nat ((i - cursor t) mod CELLS) with
      | Some c => Some (vga_entry (u8 c) (terminal_color t))
      | None => cell t i
      end.
Proof.
  induction data as [|c data IH]; intros t Hok Hlen.
  - exists t. pose proof (cursor_range t Hok). cbn [length]. change (Z.of_nat 0) with 0. rewrite Z.add_0_r, Z.mod_small by done.
    split_and!; try done.
  - cbn [terminal_write length] in *. destruct (putchar_spec t c Hok) as (t1 & -> & Hok1 & Hc1 & Hcol1 & Hb1).
    rewrite bind_Ret. destruct (IH t1 Hok1) as (t' & R & Hok' & Hc' & Hcol' & Hcell'); [lia|].
    pose proof (cursor_range t Hok) as Hr. pose proof (cursor_range t1 Hok1) as Hr1.
    assert (HC : CELLS = 2000) by done. rewrite HC in *.
    exists t'. split_and!; [done|done| |congruence|].
    + rewrite Hc', Hc1, Zplus_mod_idemp_l. f_equal. lia.
    + intros i Hi. rewrite Hcell' by done. rewrite Hcol1.
      assert (Hshift : i <> cursor t -> (i - cursor t) mod 2000 = (i - cursor t1) mod 2000 + 1).
      { intros Hne. rewrite Hc1, Zminus_mod_idemp_r. replace (i - (cursor t + 1)) with (i - cursor t - 1) by lia.
        destruct (decide (cursor t < i)).
        - rewrite (Z.mod_small (i - cursor t)), (Z.mod_small (i - cursor t - 1)) by lia. lia.
        - rewrite <- (Z_mod_plus_full (i - cursor t) 1), <- (Z_mod_plus_full (i - cursor t - 1) 1).
          rewrite !Z.mod_small by lia. lia. }
      destruct (decide (i = cursor t)) as [->|Hne].
      * rewrite Z.sub_diag, Zmod_0_l. cbn [lookup list_lookup Z.to_nat].
        replace ((cursor t - cursor t1) mod 2000) with 1999.
        2:{ rewrite Hc1, Zminus_mod_idemp_r. replace (cursor t - (cursor t + 1)) with (1999 + (-1) * 2000) by lia.
            rewrite Z_mod_plus_full. done. }
        rewrite lookup_ge_None_2 by lia. unfold cell. rewrite Hb1, list_lookup_insert_eq; [done|].
        rewrite (tk_len _ Hok), HC. lia.
      * rewrite (Hshift Hne). pose proof (Z.mod_pos_bound (i - cursor t1) 2000).
        rewrite Z2Nat.inj_add by lia. rewrite Nat.add_1_r. cbn [lookup list_lookup].
        assert (cell t1 i = cell t i) as ->; [|by destruct (data !! Z.to_nat ((i - cursor t1) mod 2000))].
        unfold cell. rewrite Hb1, list_lookup_insert_ne; [done|lia].
Qed.

(** Text goes to the cells from the cursor on, in order, wrapping from the
    last cell to the first; no other cell changes, and the cursor stays inside
    the screen and advances by the length of the text. *)
Theorem terminal_writestring_correct data t :
  term_ok t -> Z.of_nat (length data) <= CELLS ->
  exists t', terminal_writestring data t = Ret t' /\ term_ok t' /\
    cursor t' = (cursor t + Z.of_nat (length data)) mod CELLS /\
    forall i, 0 <= i < CELLS -> cell t' i =
      match data !! Z.to_nat ((i - cursor t) mod CELLS) with
      | Some c => Some (vga_entry (u8 c) (terminal_color t))
      | None => cell t i
      end.
Proof.
  intros Hok Hlen. destruct (write_spec data t Hok Hlen) as (t' & R & Hok' & Hc & _ & Hcell).
  exists t'. done.
Qed.

(** *** terminal_initialize *)

Lemma clear_row_spec n : forall x y t, length (terminal_buffer t) = Z.to_nat CELLS -> 0 <= y < VGA_HEIGHT -> 0 <= x ->
  x + Z.of_nat n <= VGA_WIDTH ->
  exists b, clear_row n x y t = Ret (mk_term (terminal_row t) (terminal_column t) (terminal_color t) b) /\
    length b = length (terminal_buffer t) /\
    forall i, b !! i = if decide (y * VGA_WIDTH + x <= Z.of_nat i < y * VGA_WIDTH + x + Z.of_nat n)
      then Some (vga_entry 32 (terminal_color t)) else terminal_buffer t !! i.
Proof.
  induction n as [|n IH]; intros x y t Hl Hy Hx Hn; cbn [clear_row].
  - exists (terminal_buffer t). split; [by destruct t|]. split; [done|]. intros i. by rewrite decide_False by lia.
  - rewrite putentryat_spec by (unfold VGA_WIDTH in *; (done || lia)). rewrite bind_Ret.
    edestruct (IH (x + 1) y) as (b & -> & Hlb & Hb); [|done|lia|lia|].
    { cbn [terminal_buffer]. by rewrite length_insert. }
    exists b. split; [done|]. cbn [terminal_buffer terminal_color] in *. rewrite length_insert in Hlb. split; [done|].
    intros i. rewrite Hb. unfold CELLS, VGA_WIDTH, VGA_HEIGHT in *.
    destruct (decide (Z.of_nat i = y * 80 + x)) as [E|E].
    + rewrite decide_False, decide_True by lia. replace i with (Z.to_nat (y * 80 + x)) by lia.
      rewrite list_lookup_insert_eq; [done|]. rewrite Hl. lia.
    + rewrite list_lookup_insert_ne by lia. repeat case_decide; try done; lia.
Qed.

Lemma clear_rows_spec m : forall y t, length (terminal_buffer t) = Z.to_nat CELLS -> 0 <= y ->
  y + Z.of_nat m = VGA_HEIGHT ->
  exists b, clear_rows m y t = Ret (mk_term (terminal_row t) (terminal_column t) (terminal_color t) b) /\
    length b = length (terminal_buffer t) /\
    (forall i, Z.of_nat i < y * VGA_WIDTH -> b !! i = terminal_buffer t !! i) /\
    (forall i, (i < Z.to_nat CELLS)%nat -> y * VGA_WIDTH <= Z.of_nat i -> b !! i = Some (vga_entry 32 (terminal_color t))).
Proof.
  induction m as [|m IH]; intros y t Hl Hy Hm; cbn [clear_rows].
  - exists (terminal_buffer t). split; [by destruct t|]. split; [done|]. split; [done|]. intros i Hi Hyi.
    unfold CELLS, VGA_WIDTH, VGA_HEIGHT in *. lia.
  - destruct (clear_row_spec (Z.to_nat VGA_WIDTH) 0 y t Hl) as (b & -> & Hlb & Hb); [lia|lia|done|].
    rewrite bind_Ret. set (t1 := mk_term _ _ _ b).
    destruct (IH (y + 1) t1) as (b' & -> & Hlb' & Hout & Hin); [cbn; congruence|lia|lia|]. cbn in Hlb', Hout, Hin.
    exists b'. split; [done|]. split; [congruence|]. change (Z.of_nat (Z.to_nat VGA_WIDTH)) with VGA_WIDTH in Hb.
    split; intros i Hi.
    + rewrite Hout by (unfold VGA_WIDTH in *; lia). rewrite Hb. by rewrite decide_False by lia.
    + intros Hyi. destruct (decide ((y + 1) * VGA_WIDTH <= Z.of_nat i)); [by apply Hin|].
      rewrite Hout by lia. rewrite Hb. by rewrite decide_True by (unfold VGA_WIDTH in *; lia).
Qed.

(** terminal_initialize blanks all 2000 cells in light grey on black and puts
    the cursor in the first one, whatever the screen and the cursor were. *)
Theorem terminal_initialize_correct t :
  length (terminal_buffer t) = Z.to_nat CELLS ->
  exists t', terminal_initialize t = Ret t' /\ term_ok t' /\ cursor t' = 0 /\ terminal_color t' = 0x07 /\
    forall i, 0 <= i < CELLS -> cell t' i = Some (vga_entry 32 0x07).
Proof.
  intros Hl. unfold terminal_initialize. set (t0 := mk_term _ _ _ _).
  destruct (clear_rows_spec (Z.to_nat VGA_HEIGHT) 0 t0 Hl) as (b & -> & Hlb & _ & Hb); [lia|done|].
  eexists. split; [done|]. split; [split; cbn; [done|done|by rewrite Hlb]|]. split; [done|]. split; [done|].
  intros i Hi. unfold cell. cbn. rewrite Hb; [done|lia|lia].
Qed.

Lemma keyboard_driver_spec {S} `{PortIO S} beyond (s s' : S) sc t :
  port_byte_in KEY_DATA_REG s = (s', sc) -> 0 <= sc < 256 -> term_ok t ->
  exists t', keyboard_driver beyond s t = Ret (s', t') /\ term_ok t' /\
    (128 <= sc -> t' = t) /\
    (sc < 128 -> let k := default 0 (kbdus !! Z.to_nat sc) in
       (k <> 0 -> terminal_buffer t' = <[Z.to_nat (cursor t) := vga_entry (u8 k) (terminal_color t)]> (terminal_buffer t)) /\
       (k = 0 -> terminal_writestring (chars "[UNK]") t = Ret t')).
Proof.
  intros Hin Hsc Hok. unfold keyboard_driver. rewrite Hin.
  assert (Hrel : (Z.land sc 0x80 =? 0) = (sc <? 128)).
  { clear Hin. revert sc Hsc. apply (forall_seqZ (fun sc => (Z.land sc 0x80 =? 0) = (sc <? 128))). by vm_compute. }
  rewrite Hrel. destruct (Z.ltb_spec sc 128) as [Hlt|Hge]; cbn [negb].
  2:{ exists t. split_and!; try done; lia. }
  destruct (lookup_lt_is_Some_2 kbdus (Z.to_nat sc)) as [k Hk]; [change (length kbdus) with 128%nat; lia|].
  rewrite Hk. cbn [default]. destruct (Z.eqb_spec k 0) as [->|Hk0]; cbn [negb].
  - destruct (write_spec (chars "[UNK]") t Hok) as (t' & R & Hok' & _); [vm_compute; congruence|].
    exists t'. unfold terminal_writestring. rewrite R. split_and!; try done; lia.
  - destruct (putchar_spec t k Hok) as (t' & -> & Hok' & _ & _ & Hb). exists t'. split_and!; try done; lia.
Qed.

(** The text [text] is on the screen from the cursor of [t] on, wrapping at the
    last cell, and nothing else changed. *)
Definition screen_shows (text : list Z) (t t' : terminal) : Prop :=
  cursor t' = (cursor t + Z.of_nat (length text)) mod CELLS /\
  forall i, 0 <= i < CELLS -> cell t' i =
    match text !! Z.to_nat ((i - cursor t) mod CELLS) with
    | Some c => Some (vga_entry (u8 c) (terminal_color t))
    | None => cell t i
    end.

(** What a scan code types: the character of a key, "[UNK]" for a key without
    one, nothing for a release. *)
Definition typed (sc : Z) : list Z :=
  if 128 <=? sc then []
  else match kbdus !! Z.to_nat sc with Some 0 | None => chars "[UNK]" | Some key => [key] end.

Lemma writestring_shows data t : term_ok t -> Z.of_nat (length data) <= CELLS ->
  exists t', terminal_writestring data t = Ret t' /\ term_ok t' /\ screen_shows data t t'.
Proof. intros Hok Hl. destruct (write_spec data t Hok Hl) as (t' & R & Hok' & Hc & _ & Hcell). by exists t'. Qed.

Lemma keyboard_types {S} `{PortIO S} beyond (s : S) t : 0 <= snd (port_byte_in KEY_DATA_REG s) < 256 -> term_ok t ->
  exists t', keyboard_driver beyond s t = Ret (fst (port_byte_in KEY_DATA_REG s), t') /\ term_ok t' /\
    screen_shows (typed (snd (port_byte_in KEY_DATA_REG s))) t t'.
Proof.
  unfold keyboard_driver. destruct (port_byte_in KEY_DATA_REG s) as [s' sc]. cbn [fst snd]. intros Hsc Hok.
  assert (Hrel : (Z.land sc 0x80 =? 0) = negb (128 <=? sc)).
  { revert sc Hsc. apply (forall_seqZ (fun sc => (Z.land sc 0x80 =? 0) = negb (128 <=? sc))). by vm_compute. }
  rewrite Hrel, negb_involutive. unfold typed. destruct (Z.leb_spec 128 sc) as [Hge|Hlt].
  { exists t. split; [done|]. split; [done|]. split; [|done]. cbn. pose proof (cursor_range t Hok). rewrite Z.mod_small; lia. }
  destruct (lookup_lt_is_Some_2 kbdus (Z.to_nat sc)) as [k Hk]; [change (length kbdus) with 128%nat; lia|].
  rewrite Hk. destruct (writestring_shows (chars "[UNK]") t Hok) as (t1 & R1 & Hok1 & H1); [vm_compute; congruence|].
  destruct (writestring_shows [k] t Hok) as (t2 & R2 & Hok2 & H2); [vm_compute; congruence|].
  destruct (Z.eqb_spec k 0) as [->|Hk0]; cbn [negb].
  - rewrite R1. by exists t1.
  - exists t2. split; [|by destruct k].
    unfold terminal_writestring in R2. cbn [length terminal_write] in R2. apply bind_Ret_inv in R2 as (t3 & -> & [= ->]). done.
Qed.

(** A key press shows the character of its scan code, or "[UNK]" for the keys
    without one; a key release leaves the screen alone. *)
Theorem keyboard_driver_correct {S} `{PortIO S} beyond (s s' : S) sc t :
  port_byte_in KEY_DATA_REG s = (s', sc) -> 0 <= sc < 256 -> term_ok t ->
  exists t', keyboard_driver beyond s t = Ret (s', t') /\ term_ok t' /\
    (128 <= sc -> t' = t) /\
    (sc < 128 -> let k := default 0 (kbdus !! Z.to_nat sc) in
       (k <> 0 -> terminal_buffer t' = <[Z.to_nat (cursor t) := vga_entry (u8 k) (terminal_color t)]> (terminal_buffer t)) /\
       (k = 0 -> terminal_writestring (chars "[UNK]") t = Ret t')).
Proof. apply keyboard_driver_spec. Qed.

(** ** Concrete instances *)

Definition some_screen : terminal := mk_term 24 79 7 (replicate (Z.to_nat CELLS) 0).
Lemma some_screen_ok : term_ok some_screen.
Proof. split; [done|done|apply length_replicate]. Qed.

(** A keyboard controller that always holds one scan code. *)
Definition key_ports (sc : Z) : PortIO unit := {|
  port_byte_in port s := (s, sc);
  port_byte_out port v s := s;
  port_multiword_in port n s := (s, []);
  port_multiword_out port bytes s := s;
  asm_cli s := s;
  asm_sti s := s;
  print_text text s := s;
|}.

Lemma terminal_writestring_correct_witness :
  exists t', terminal_writestring (chars "hi") some_screen = Ret t' /\ cursor t' = 1 /\
    cell t' 1999 = Some (vga_entry 104 7) /\ cell t' 0 = Some (vga_entry 105 7).
Proof.
  destruct (terminal_writestring_correct (chars "hi") some_screen some_screen_ok) as (t' & R & _ & Hc & Hcell);
    [vm_compute; congruence|].
  exists t'. split; [exact R|]. split; [exact Hc|].
  split; rewrite Hcell by (vm_compute; split; congruence); reflexivity.
Defined.

Lemma terminal_initialize_correct_witness :
  exists t', terminal_initialize some_screen = Ret t' /\ term_ok t' /\ cursor t' = 0 /\ terminal_color t' = 0x07 /\
    forall i, 0 <= i < CELLS -> cell t' i = Some (vga_entry 32 0x07).
Proof. apply (terminal_initialize_correct some_screen). apply length_replicate. Defined.

Lemma keyboard_driver_correct_witness :
  exists t', @keyboard_driver unit (key_ports 0x1e) (fun _ => 0) tt some_screen = Ret (tt, t') /\
    terminal_buffer t' = <[1999%nat := vga_entry 97 7]> (terminal_buffer some_screen).
Proof.
  destruct (@keyboard_driver_correct unit (key_ports 0x1e) (fun _ => 0) tt tt 0x1e some_screen) as (t' & R & _ & _ & H);
    [reflexivity|lia|apply some_screen_ok|].
  exists t'. split; [exact R|]. apply (proj1 (H ltac:(lia))). vm_compute. congruence.
Defined.
