(* ===== verification/Interrupts.v ===== *)
(** * Interrupt controller, timer and IRQ dispatch (kernel/idt/pic/pic.c,
    drivers/pit/pit.c, drivers/timer.c, kernel/idt/irq/irq.c)

    [PicDevice] is the 8259 pair behind the ports 0x20/0x21 and 0xa0/0xa1:
    initialisation words, mask, in-service and request registers.  A shift
    by more than an int has is a fault. *)

From S2P Require Import Prelude Ports Serial Console.

Definition PIC1_COMMAND : Z := 0x20.
Definition PIC1_DATA : Z := PIC1_COMMAND + 1.
Definition PIC2_COMMAND : Z := 0xa0.
Definition PIC2_DATA : Z := PIC2_COMMAND + 1.
Definition PIC_EOI : Z := 0x20.
Definition ICW1_ICW4 : Z := 0x01.
Definition ICW1_INIT : Z := 0x10.
Definition ICW4_8086 : Z := 0x01.
Definition PIC_READ_IRR : Z := 0x0a.
Definition PIC_READ_ISR : Z := 0x0b.
Definition PIT_COMMAND_REG : Z := 0x43.
Definition PIT_CHANNEL_0_DATA_REG : Z := 0x40.
Definition CHANNEL0 : Z := 0.
Definition ACCESS_LSB_MSB : Z := 3.
Definition MODE_SQUARE_WAVE_GENERATOR : Z := 3.
Definition BINARY_MODE : Z := 0.

Section pic.
Context {S : Type} `{PortIO S}.

Definition outb_wait (port v : Z) (s : S) : S := io_wait (port_byte_out port v s).

(** [1 << n] as an int. *)
Definition shift_one (n : Z) : outcome Z := if decide (0 <= n < 31) then mret (2 ^ n) else Fault.

Definition irq_port (IRQline : Z) : Z * Z :=
  if IRQline <? 8 then (PIC1_DATA, IRQline) else (PIC2_DATA, IRQline - 8).

Definition IRQ_set_mask (IRQline : Z) (s : S) : outcome S :=
  let '(port, line) := irq_port IRQline in
  let '(s, v) := port_byte_in port s in
  bit ← shift_one line;
  mret (port_byte_out port (u8 (Z.lor v bit)) s).

Definition IRQ_clear_mask (IRQline : Z) (s : S) : outcome S :=
  let '(port, line) := irq_port IRQline in
  let '(s, v) := port_byte_in port s in
  bit ← shift_one line;
  mret (port_byte_out port (u8 (Z.land v (Z.lnot bit))) s).

Definition remap_pic (offset1 offset2 : Z) (s : S) : outcome S :=
  let s := outb_wait PIC1_COMMAND (Z.lor ICW1_INIT ICW1_ICW4) s in
  let s := outb_wait PIC2_COMMAND (Z.lor ICW1_INIT ICW1_ICW4) s in
  let s := outb_wait PIC1_DATA (u8 offset1) s in
  let s := outb_wait PIC2_DATA (u8 offset2) s in
  let s := outb_wait PIC1_DATA 4 s in
  let s := outb_wait PIC2_DATA 2 s in
  let s := outb_wait PIC1_DATA ICW4_8086 s in
  let s := outb_wait PIC2_DATA ICW4_8086 s in
  let s := port_byte_out PIC1_DATA 0 s in
  let s := port_byte_out PIC2_DATA 0 s in
  s ← IRQ_clear_mask 0 s;
  IRQ_clear_mask 1 s.

Definition send_EOI (irq : Z) (s : S) : S :=
  let s := if 8 <=? irq then port_byte_out PIC2_COMMAND PIC_EOI s else s in
  port_byte_out PIC1_COMMAND PIC_EOI s.

Definition pic_get_irq_reg (ocw3 : Z) (s : S) : S * Z :=
  let s := port_byte_out PIC1_COMMAND ocw3 s in
  let s := port_byte_out PIC2_COMMAND ocw3 s in
  let '(s, high) := port_byte_in PIC2_COMMAND s in
  let '(s, low) := port_byte_in PIC1_COMMAND s in
  (s, u16 (Z.lor (Z.shiftl high 8) low)).
Definition pic_get_irr (s : S) : S * Z := pic_get_irq_reg PIC_READ_IRR s.
Definition pic_get_isr (s : S) : S * Z := pic_get_irq_reg PIC_READ_ISR s.

(** ** The interval timer *)

Definition init_timer (frequency : Z) (s : S) : outcome S :=
  if frequency =? 0 then Fault
  else
    let divisor := u16 (Z.quot 1193180 frequency) in
    let command := Z.lor (Z.lor (Z.lor (Z.shiftl CHANNEL0 6) (Z.shiftl ACCESS_LSB_MSB 4))
                                (Z.shiftl MODE_SQUARE_WAVE_GENERATOR 1)) BINARY_MODE in
    let s := outb_wait PIT_COMMAND_REG command s in
    let s := port_byte_out PIT_CHANNEL_0_DATA_REG (Z.land divisor 0xff) s in
    mret (port_byte_out PIT_CHANNEL_0_DATA_REG (Z.land (Z.shiftr divisor 8) 0xff) s).

(** ** Drivers and dispatch *)

Inductive irq_driver := timer_h | keyboard_h.
Record kstate := mk_kstate {
  ports : S; timer_ticks : Z; screen : terminal; irq_handlers : list (option irq_driver) }.

Definition install_handlers (k : kstate) : kstate :=
  mk_kstate (ports k) (timer_ticks k) (screen k)
    (<[1%nat := Some keyboard_h]> (<[0%nat := Some timer_h]> (irq_handlers k))).

Definition timer_driver (patience : nat) (k : kstate) : outcome kstate :=
  let ticks := s32 (timer_ticks k + 1) in
  s ← (if Z.rem ticks 100 =? 0 then
         s ← serial_writestring patience (chars "Timer tick: ") (ports k);
         s ← serial_writeint patience ticks s;
         serial_writestring patience [10] s
       else mret (ports k));
  mret (mk_kstate s ticks (screen k) (irq_handlers k)).

Definition irq_handler (patience : nat) (beyond : Z -> Z) (int_no : Z) (k : kstate) : outcome kstate :=
  s ← serial_writestring patience (chars "RAW int_no: ") (ports k);
  s ← serial_writeint patience (s32 int_no) s;
  s ← serial_writestring patience [10] s;
  let irq := u8 (int_no - 32) in
  s ← serial_writestring patience (chars "IRQ#: ") s;
  s ← serial_writeint patience irq s;
  s ← serial_writestring patience (chars " hit" ++ [10]) s;
  let k := mk_kstate s (timer_ticks k) (screen k) (irq_handlers k) in
  h ← deref (irq_handlers k !! Z.to_nat irq);
  k ← (match h with
       | Some timer_h => timer_driver patience k
       | Some keyboard_h =>
           '(s, t) ← keyboard_driver beyond (ports k) (screen k);
           mret (mk_kstate s (timer_ticks k) t (irq_handlers k))
       | None => mret k
       end);
  mret (mk_kstate (send_EOI irq (ports k)) (timer_ticks k) (screen k) (irq_handlers k)).

End pic.
Arguments kstate : clear implicits.

(** ** The 8259 *)

Record chip := mk_chip {
  c_imr : Z; c_off : Z; c_step : nat; c_isr : Z; c_irr : Z; c_read_isr : bool }.

(** Command port: initialisation, end of interrupt, choice of the register read. *)
Definition chip_cmd (v : Z) (c : chip) : chip :=
  if Z.testbit v 4 then mk_chip 0 (c_off c) 1 0 0 false
  else if v =? PIC_EOI then
    mk_chip (c_imr c) (c_off c) (c_step c) (Z.land (c_isr c) (c_isr c - 1)) (c_irr c) (c_read_isr c)
  else if v =? PIC_READ_IRR then mk_chip (c_imr c) (c_off c) (c_step c) (c_isr c) (c_irr c) false
  else if v =? PIC_READ_ISR then mk_chip (c_imr c) (c_off c) (c_step c) (c_isr c) (c_irr c) true
  else c.
(** Data port: the initialisation words in turn, then the mask. *)
Definition chip_data (v : Z) (c : chip) : chip :=
  match c_step c with
  | 1%nat => mk_chip (c_imr c) v 2 (c_isr c) (c_irr c) (c_read_isr c)
  | 2%nat => mk_chip (c_imr c) (c_off c) 3 (c_isr c) (c_irr c) (c_read_isr c)
  | 3%nat => mk_chip (c_imr c) (c_off c) 0 (c_isr c) (c_irr c) (c_read_isr c)
  | _ => mk_chip v (c_off c) (c_step c) (c_isr c) (c_irr c) (c_read_isr c)
  end.
Definition pic_out (port v : Z) (p : chip * chip) : chip * chip :=
  if port =? PIC1_COMMAND then (chip_cmd v (fst p), snd p)
  else if port =? PIC1_DATA then (chip_data v (fst p), snd p)
  else if port =? PIC2_COMMAND then (fst p, chip_cmd v (snd p))
  else if port =? PIC2_DATA then (fst p, chip_data v (snd p))
  else p.
Definition chip_reg (c : chip) : Z := if c_read_isr c then c_isr c else c_irr c.

Class PicDevice (S : Type) `{PortIO S} := {
  pics : S -> chip * chip;
  pic_in_same : forall port s, pics (fst (port_byte_in port s)) = pics s;
  pic_in_mask1 : forall s, snd (port_byte_in PIC1_DATA s) = c_imr (fst (pics s));
  pic_in_mask2 : forall s, snd (port_byte_in PIC2_DATA s) = c_imr (snd (pics s));
  pic_in_reg1 : forall s, snd (port_byte_in PIC1_COMMAND s) = chip_reg (fst (pics s));
  pic_in_reg2 : forall s, snd (port_byte_in PIC2_COMMAND s) = chip_reg (snd (pics s));
  pic_out_law : forall port v s, pics (port_byte_out port v s) = pic_out port v (pics s);
}.

(** ** Correctness of the controller code *)

Section pic_proofs.
Context {S : Type} `{HIO : PortIO S} `{HP : !PicDevice S}.
Implicit Types s : S.

Definition ready_chip (c : chip) : Prop := c_step c = 0%nat /\ 0 <= c_imr c < 2 ^ 8.

(** The chip that serves an IRQ line, and the update of the pair on it. *)
Definition chip_of (line : Z) (p : chip * chip) : chip := if line <? 8 then fst p else snd p.
Definition set_imr (v : Z) (c : chip) : chip :=
  mk_chip v (c_off c) (c_step c) (c_isr c) (c_irr c) (c_read_isr c).
Definition on_chip (line : Z) (f : chip -> chip) (p : chip * chip) : chip * chip :=
  if line <? 8 then (f (fst p), snd p) else (fst p, f (snd p)).

Lemma pics_outb_wait port v s : pics (outb_wait port v s) = pic_out port v (pics s).
Proof. unfold outb_wait, io_wait. by rewrite !pic_out_law. Qed.

Lemma irq_port_in line s :
  let '(port, l) := irq_port line in
  pics (fst (port_byte_in port s)) = pics s /\ snd (port_byte_in port s) = c_imr (chip_of line (pics s)).
Proof.
  unfold irq_port, chip_of. destruct (line <? 8); (split; [apply pic_in_same|]); [apply pic_in_mask1|apply pic_in_mask2].
Qed.

Lemma irq_port_out line v s : ready_chip (chip_of line (pics s)) ->
  pics (port_byte_out (fst (irq_port line)) v s) = on_chip line (set_imr v) (pics s).
Proof.
  intros [Hs _]. rewrite pic_out_law. unfold irq_port, on_chip, chip_of in *.
  destruct (pics s) as [ [i1 o1 st1 is1 ir1 r1] [i2 o2 st2 is2 ir2 r2] ].
  destruct (line <? 8); cbn in Hs; subst; reflexivity.
Qed.

(** Both mask functions read, change and write back one mask. *)
Definition update_mask (g : Z -> Z -> Z) (IRQline : Z) s : outcome S :=
  let '(port, line) := irq_port IRQline in
  let '(s, v) := port_byte_in port s in
  bit ← shift_one line;
  mret (port_byte_out port (u8 (g v bit)) s).

Lemma update_mask_spec g line s :
  (forall v n, 0 <= v < 2 ^ 8 -> 0 <= n < 8 -> 0 <= g v (2 ^ n) < 2 ^ 8) ->
  0 <= line < 16 -> ready_chip (chip_of line (pics s)) ->
  exists s', update_mask g line s = Ret s' /\
    pics s' = on_chip line (set_imr (g (c_imr (chip_of line (pics s))) (2 ^ (line mod 8)))) (pics s).
Proof.
  intros Hg Hl Hr. unfold update_mask. pose proof (irq_port_in line s) as Hin. pose proof (irq_port_out line) as Hout.
  destruct (irq_port line) as [port l] eqn:E. destruct Hin as [Hsame Hv].
  assert (El : l = line mod 8).
  { unfold irq_port in E. destruct (Z.ltb_spec line 8); injection E as _ <-; [by rewrite Z.mod_small by lia|].
    rewrite <- (Z_mod_plus_full (line) (-1) 8). rewrite Z.mod_small by lia. lia. }
  destruct (port_byte_in port s) as [s1 v]. simpl in Hsame, Hv, Hout. subst v l.
  pose proof (Z.mod_pos_bound line 8 ltac:(lia)). unfold shift_one. rewrite decide_True by lia.
  unfold mret at 1, outcome_ret. rewrite bind_Ret. eexists. split; [done|].
  rewrite Hout by by rewrite Hsame. rewrite Hsame. do 2 f_equal. apply u8_small, Hg; [apply Hr|lia].
Qed.

Lemma byte_bits v : (forall n, 8 <= n -> Z.testbit v n = false) -> 0 <= v -> 0 <= v < 2 ^ 8.
Proof.
  intros Hb Hv. replace v with (v mod 2 ^ 8); [apply Z.mod_pos_bound; lia|]. apply Z.bits_inj'. intros n Hn.
  destruct (decide (n < 8)); [by rewrite Z.mod_pow2_bits_low by lia|].
  rewrite Z.mod_pow2_bits_high by lia. symmetry. apply Hb. lia.
Qed.
Lemma byte_high v n : 0 <= v < 2 ^ 8 -> 8 <= n -> Z.testbit v n = false.
Proof. intros Hv Hn. rewrite <- (Z.mod_small v (2 ^ 8)) by done. apply Z.mod_pow2_bits_high. lia. Qed.

Lemma set_mask_spec line s :
  0 <= line < 16 -> ready_chip (chip_of line (pics s)) ->
  exists s', IRQ_set_mask line s = Ret s' /\
    pics s' = on_chip line (set_imr (Z.lor (c_imr (chip_of line (pics s))) (2 ^ (line mod 8)))) (pics s).
Proof.
  apply (update_mask_spec Z.lor). intros v n Hv Hn. apply byte_bits; [|apply Z.lor_nonneg; lia].
  intros k Hk. rewrite Z.lor_spec, testbit_pow2, byte_high by lia. by destruct (Z.eqb_spec n k); [lia|].
Qed.

Lemma clear_mask_spec line s :
  0 <= line < 16 -> ready_chip (chip_of line (pics s)) ->
  exists s', IRQ_clear_mask line s = Ret s' /\
    pics s' = on_chip line (set_imr (Z.land (c_imr (chip_of line (pics s))) (Z.lnot (2 ^ (line mod 8))))) (pics s).
Proof.
  apply (update_mask_spec (fun v bit => Z.land v (Z.lnot bit))). intros v n Hv Hn.
  apply byte_bits; [|apply Z.land_nonneg; lia]. intros k Hk. by rewrite Z.land_spec, byte_high.
Qed.

(** IRQ_set_mask and IRQ_clear_mask change exactly the mask bit of their line,
    on the chip that serves it; the mask of the other chip is untouched. *)
Theorem irq_mask_correct line s :
  0 <= line < 16 -> ready_chip (chip_of line (pics s)) ->
  (exists s', IRQ_set_mask line s = Ret s' /\
     pics s' = on_chip line (set_imr (Z.lor (c_imr (chip_of line (pics s))) (2 ^ (line mod 8)))) (pics s)) /\
  (exists s', IRQ_clear_mask line s = Ret s' /\
     pics s' = on_chip line (set_imr (Z.land (c_imr (chip_of line (pics s))) (Z.lnot (2 ^ (line mod 8))))) (pics s)).
Proof. split; [by apply set_mask_spec|by apply clear_mask_spec]. Qed.

(** remap_pic runs the whole initialisation sequence of both chips, from any
    state of theirs: the vector offsets are the arguments, every line is
    unmasked, nothing is in service, and the data ports address the masks. *)
Theorem remap_pic_correct offset1 offset2 s :
  0 <= offset1 < 256 -> 0 <= offset2 < 256 ->
  exists s', remap_pic offset1 offset2 s = Ret s' /\
    pics s' = (mk_chip 0 offset1 0 0 0 false, mk_chip 0 offset2 0 0 0 false).
Proof.
  intros H1 H2. unfold remap_pic. set (s1 := port_byte_out PIC2_DATA 0 _).
  assert (E : pics s1 = (mk_chip 0 offset1 0 0 0 false, mk_chip 0 offset2 0 0 0 false)).
  { unfold s1. rewrite !pic_out_law, !pics_outb_wait. rewrite !u8_small by lia. destruct (pics s) as [m c]. reflexivity. }
  destruct (clear_mask_spec 0 s1) as (s2 & -> & E2); [lia|rewrite E; split; cbn; lia|]. rewrite bind_Ret.
  rewrite E in E2.
  change (pics s2 = (mk_chip 0 offset1 0 0 0 false, mk_chip 0 offset2 0 0 0 false)) in E2.
  destruct (clear_mask_spec 1 s2) as (s3 & -> & E3); [lia|rewrite E2; split; cbn; lia|].
  exists s3. split; [done|]. rewrite E3, E2. reflexivity.
Qed.

Lemma send_EOI_spec irq s :
  0 <= irq < 16 ->
  c_isr (fst (pics s)) = (if irq <? 8 then 2 ^ irq else 2 ^ 2) ->
  c_isr (snd (pics s)) = (if irq <? 8 then 0 else 2 ^ (irq - 8)) ->
  c_isr (fst (pics (send_EOI irq s))) = 0 /\ c_isr (snd (pics (send_EOI irq s))) = 0.
Proof.
  intros Hi Hm Hs. unfold send_EOI.
  assert (Hclear : forall k, 0 <= k -> Z.land (2 ^ k) (2 ^ k - 1) = 0).
  { intros k Hk. replace (2 ^ k - 1) with (Z.ones k) by (rewrite Z.ones_equiv; lia).
    rewrite Z.land_ones by lia. apply Z_mod_same_full. }
  destruct (Z.leb_spec 8 irq), (Z.ltb_spec irq 8); try lia; rewrite !pic_out_law;
    destruct (pics s) as [ [i1 o1 st1 is1 ir1 r1] [i2 o2 st2 is2 ir2 r2] ]; cbn in Hm, Hs; subst.
  - split; [exact (Hclear 2 ltac:(lia))|exact (Hclear (irq - 8) ltac:(lia))].
  - split; [exact (Hclear irq ltac:(lia))|done].
Qed.

(** send_EOI ends the interrupt in service: for an IRQ of the slave both the
    slave and its cascade line on the master. *)
Theorem send_EOI_correct irq s :
  0 <= irq < 16 ->
  c_isr (fst (pics s)) = (if irq <? 8 then 2 ^ irq else 2 ^ 2) ->
  c_isr (snd (pics s)) = (if irq <? 8 then 0 else 2 ^ (irq - 8)) ->
  c_isr (fst (pics (send_EOI irq s))) = 0 /\ c_isr (snd (pics (send_EOI irq s))) = 0.
Proof. apply send_EOI_spec. Qed.

(** init_timer programs the rate it is asked for: the two bytes it sends form
    the divisor [1193180 / frequency], for every frequency from 19 Hz to the
    base rate - below 19 Hz the 16-bit divisor would be cut. *)
Theorem init_timer_correct frequency s :
  19 <= frequency <= 1193180 ->
  exists lo hi, init_timer frequency s =
      Ret (port_byte_out PIT_CHANNEL_0_DATA_REG hi (port_byte_out PIT_CHANNEL_0_DATA_REG lo
             (outb_wait PIT_COMMAND_REG 0x36 s))) /\
    0 <= lo < 256 /\ 0 <= hi < 256 /\ lo + 256 * hi = 1193180 / frequency.
Proof.
  intros Hf. unfold init_timer. rewrite (proj2 (Z.eqb_neq _ _)) by lia.
  rewrite Z.quot_div_nonneg by lia. set (d := 1193180 / frequency).
  assert (Hd : 0 <= d < 2 ^ 16).
  { unfold d. split; [apply Z.div_pos; lia|]. apply Z.div_lt_upper_bound; lia. }
  rewrite u16_small by done. exists (Z.land d 0xff), (Z.land (Z.shiftr d 8) 0xff). split; [done|].
  change 0xff with (Z.ones 8). rewrite !Z.land_ones, Z.shiftr_div_pow2 by lia. change (2 ^ 8) with 256.
  pose proof (Z.mod_pos_bound d 256). pose proof (Z.mod_pos_bound (d / 256) 256).
  split_and!; try lia. rewrite (Z.mod_small (d / 256)); [pose proof (Z.div_mod d 256); lia|].
  split; [apply Z.div_pos; lia|]. apply Z.div_lt_upper_bound; lia.
Qed.

End pic_proofs.

(** ** Dispatch *)

Section dispatch.
Context {S : Type} `{HIO : PortIO S} `{HP : !PicDevice S} `{HU : !Uart S}.
Implicit Types s : S.

(** The serial line and the interrupt controller do not meet. *)
Lemma wait_transmit_pics fuel : forall s s', wait_transmit fuel s = Ret s' -> pics s' = pics s.
Proof.
  induction fuel as [|fuel IH]; intros s s'; cbn [wait_transmit]; [done|].
  pose proof (pic_in_same (COM1 + 5) s) as Hs. destruct (port_byte_in (COM1 + 5) s) as [s1 v].
  destruct (_ =? _); [intros ->%IH; done|intros [= <-]; done].
Qed.
Lemma writestring_pics p text : forall s s', serial_writestring p text s = Ret s' -> pics s' = pics s.
Proof.
  induction text as [|c text IH]; intros s s'; cbn [serial_writestring]; [by intros [= <-]|].
  intros (s1 & E & E')%bind_Ret_inv. apply IH in E'. rewrite E'. unfold serial_writechar in E.
  apply bind_Ret_inv in E as (s2 & E & [= <-]). apply wait_transmit_pics in E. by rewrite pic_out_law.
Qed.

(** Text on the console: the UART stays ready and the controller as it was. *)
Lemma say p text s :
  (tx_bound <= p)%nat -> dlab s = false ->
  exists s', serial_writestring p text s = Ret s' /\ dlab s' = false /\ pics s' = pics s.
Proof.
  intros Hp Hd. destruct (writestring_sends p text s Hp Hd) as (s' & R & _ & Hd').
  exists s'. split_and!; [done|congruence|by eapply writestring_pics].
Qed.
Lemma say_int p n s :
  (tx_bound <= p)%nat -> dlab s = false -> - 2 ^ 31 <= n < 2 ^ 31 ->
  exists s', serial_writeint p n s = Ret s' /\ dlab s' = false /\ pics s' = pics s.
Proof.
  intros Hp Hd Hn. replace (serial_writeint p n s) with (serial_writestring p (dec_text n) s); [by apply say|].
  unfold serial_writeint, dec_text. destruct (Z.eqb_spec n 0) as [->|H0]; [done|].
  by destruct (get_digits_spec n Hn H0) as (l & _ & -> & _).
Qed.

Lemma timer_driver_spec p (k : kstate S) :
  (tx_bound <= p)%nat -> dlab (ports k) = false ->
  exists s', timer_driver p k = Ret (mk_kstate s' (s32 (timer_ticks k + 1)) (screen k) (irq_handlers k)) /\
    dlab s' = false /\ pics s' = pics (ports k).
Proof.
  intros Hp Hd. unfold timer_driver. destruct (_ =? 0); [|by exists (ports k)].
  destruct (say p (chars "Timer tick: ") (ports k) Hp Hd) as (s1 & -> & Hd1 & Hp1). rewrite bind_Ret.
  destruct (say_int p (s32 (timer_ticks k + 1)) s1 Hp Hd1 (s32_range _)) as (s2 & -> & Hd2 & Hp2). rewrite bind_Ret.
  destruct (say p [10] s2 Hp Hd2) as (s3 & -> & Hd3 & Hp3). rewrite bind_Ret.
  exists s3. split_and!; [done|done|congruence].
Qed.

(** The messages irq_handler starts with. *)
Lemma irq_handler_prefix p beyond int_no (k : kstate S) :
  (tx_bound <= p)%nat -> dlab (ports k) = false ->
  exists s, dlab s = false /\ pics s = pics (ports k) /\
    irq_handler p beyond int_no k =
      (let irq := u8 (int_no - 32) in
       let k := mk_kstate s (timer_ticks k) (screen k) (irq_handlers k) in
       h ← deref (irq_handlers k !! Z.to_nat irq);
       k ← (match h with
            | Some timer_h => timer_driver p k
            | Some keyboard_h =>
                '(s, t) ← keyboard_driver beyond (ports k) (screen k);
                mret (mk_kstate s (timer_ticks k) t (irq_handlers k))
            | None => mret k
            end);
       mret (mk_kstate (send_EOI irq (ports k)) (timer_ticks k) (screen k) (irq_handlers k))).
Proof.
  intros Hp Hd. unfold irq_handler.
  destruct (say p (chars "RAW int_no: ") (ports k) Hp Hd) as (s1 & -> & Hd1 & Hp1). rewrite bind_Ret.
  destruct (say_int p (s32 int_no) s1 Hp Hd1 (s32_range _)) as (s2 & -> & Hd2 & Hp2). rewrite bind_Ret.
  destruct (say p [10] s2 Hp Hd2) as (s3 & -> & Hd3 & Hp3). rewrite bind_Ret.
  destruct (say p (chars "IRQ#: ") s3 Hp Hd3) as (s4 & -> & Hd4 & Hp4). rewrite bind_Ret.
  destruct (say_int p (u8 (int_no - 32)) s4 Hp Hd4) as (s5 & -> & Hd5 & Hp5).
  { pose proof (u8_range (int_no - 32)). lia. }
  rewrite bind_Ret. destruct (say p (chars " hit" ++ [10]) s5 Hp Hd5) as (s6 & -> & Hd6 & Hp6). rewrite bind_Ret.
  exists s6. split_and!; [done|congruence|done].
Qed.

(** In-service registers while IRQ [irq] is handled. *)
Definition in_service (irq : Z) s : Prop :=
  c_isr (fst (pics s)) = (if irq <? 8 then 2 ^ irq else 2 ^ 2) /\
  c_isr (snd (pics s)) = (if irq <? 8 then 0 else 2 ^ (irq - 8)).

(** C37. irq_handler, entered for one of the 16 hardware interrupts after
    install_handlers, runs to its end.  For IRQ 0 it advances the tick counter.
    For IRQ 1 it reads the scan code of the keyboard, after its messages, and
    the screen shows what the key types.  For the others neither changes.  In
    every case the interrupt is no longer in service afterwards.  (How it is
    entered is not part of it: trap_init installs no gate for these vectors.) *)
Theorem irq_handler_correct p beyond irq (k : kstate S) :
  (tx_bound <= p)%nat -> dlab (ports k) = false -> term_ok (screen k) -> 0 <= irq < 16 ->
  irq_handlers k = <[1%nat := Some keyboard_h]> (<[0%nat := Some timer_h]> (replicate 16 None)) ->
  (forall s, 0 <= snd (port_byte_in KEY_DATA_REG s) < 256) -> in_service irq (ports k) ->
  exists k', irq_handler p beyond (32 + irq) k = Ret k' /\
    timer_ticks k' = (if irq =? 0 then s32 (timer_ticks k + 1) else timer_ticks k) /\
    (irq = 1 -> exists s, pics s = pics (ports k) /\
       ports k' = send_EOI 1 (fst (port_byte_in KEY_DATA_REG s)) /\
       screen_shows (typed (snd (port_byte_in KEY_DATA_REG s))) (screen k) (screen k')) /\
    (irq <> 1 -> screen k' = screen k) /\ term_ok (screen k') /\ irq_handlers k' = irq_handlers k /\
    c_isr (fst (pics (ports k'))) = 0 /\ c_isr (snd (pics (ports k'))) = 0.
Proof.
  intros Hp Hd Ht Hi Hh Hkey [Hs1 Hs2].
  destruct (irq_handler_prefix p beyond (32 + irq) k Hp Hd) as (s & Hds & Hps & ->).
  replace (u8 (32 + irq - 32)) with irq by (rewrite u8_small; lia). cbn [irq_handlers].
  assert (Heoi : forall s', pics s' = pics s ->
    c_isr (fst (pics (send_EOI irq s'))) = 0 /\ c_isr (snd (pics (send_EOI irq s'))) = 0).
  { intros s' E. apply send_EOI_spec; [done|by rewrite E, Hps..]. }
  destruct (decide (irq = 0)) as [->|H0]; [|destruct (decide (irq = 1)) as [->|H1] ].
  - assert (E : irq_handlers k !! Z.to_nat 0 = Some (Some timer_h)) by by rewrite Hh.
    rewrite E. unfold deref at 1. rewrite bind_Ret.
    destruct (timer_driver_spec p (mk_kstate s (timer_ticks k) (screen k) (irq_handlers k)) Hp Hds) as (s' & -> & _ & Hp').
    rewrite bind_Ret. eexists. split; [done|]. cbn. split_and!; try done; by apply Heoi.
  - assert (E1 : irq_handlers k !! Z.to_nat 1 = Some (Some keyboard_h)) by by rewrite Hh.
    rewrite E1. unfold deref at 1. rewrite bind_Ret. cbn [ports screen].
    destruct (keyboard_types beyond s (screen k) (Hkey s) Ht) as (t' & -> & Ht' & Hshow). rewrite !bind_Ret.
    eexists. split; [done|]. cbn. split_and!; try done; [by exists s|apply Heoi, pic_in_same..].
  - assert (E : irq_handlers k !! Z.to_nat irq = Some None).
    { rewrite Hh, !list_lookup_insert_ne by lia. apply lookup_replicate_2. lia. }
    rewrite E. unfold deref, mret, outcome_ret. rewrite !bind_Ret. eexists. split; [done|]. cbn.
    rewrite (proj2 (Z.eqb_neq irq 0)) by done. split_and!; try done; by apply Heoi.
Qed.

End dispatch.

(** ** A machine with a UART, a keyboard and the two controllers *)

Record pc := mk_pc { pc_uart : uart_sim; pc_pics : chip * chip }.
#[export] Instance pc_ports : PortIO pc := {
  port_byte_in port s :=
    if port =? PIC1_DATA then (s, c_imr (fst (pc_pics s)))
    else if port =? PIC2_DATA then (s, c_imr (snd (pc_pics s)))
    else if port =? PIC1_COMMAND then (s, chip_reg (fst (pc_pics s)))
    else if port =? PIC2_COMMAND then (s, chip_reg (snd (pc_pics s)))
    else if port =? KEY_DATA_REG then (s, 0x1e)
    else let '(u, v) := port_byte_in port (pc_uart s) in (mk_pc u (pc_pics s), v);
  port_byte_out port v s := mk_pc (port_byte_out port v (pc_uart s)) (pic_out port v (pc_pics s));
  port_multiword_in port n s := (s, []);
  port_multiword_out port bytes s := s;
  asm_cli s := s;
  asm_sti s := s;
  print_text text s := s;
}.
#[export] Instance pc_uart_law : Uart pc.
Proof.
  refine {| tx s := u_tx (pc_uart s); dlab s := u_dlab (pc_uart s); tx_bound := 2 |}; try done.
  - intros port [u p]. cbn. repeat (destruct (port =? _); [done|]). done.
  - intros [u p]. destruct (u_idle u) eqn:E; [exists 0%nat|exists 1%nat]; cbn; rewrite E;
      (split; [lia|vm_compute; congruence]).
Defined.
#[export] Instance pc_pic_law : PicDevice pc.
Proof.
  refine {| pics := pc_pics |}; try done.
  intros port [u p]. cbn. repeat (destruct (port =? _); [done|]). done.
Defined.

Definition some_chip (isr : Z) : chip := mk_chip 0xfb 0x20 0 isr 0 true.
Definition some_pc (isr1 isr2 : Z) : pc := mk_pc uart_start (some_chip isr1, some_chip isr2).

Lemma irq_mask_correct_witness :
  (exists s', IRQ_set_mask 10 (some_pc 0 0) = Ret s' /\ pics s' = (some_chip 0, set_imr 0xff (some_chip 0))) /\
  (exists s', IRQ_clear_mask 8 (some_pc 0 0) = Ret s' /\ pics s' = (some_chip 0, set_imr 0xfa (some_chip 0))).
Proof.
  split.
  - apply (proj1 (irq_mask_correct 10 (some_pc 0 0) ltac:(lia) ltac:(split; cbn; lia))).
  - apply (proj2 (irq_mask_correct 8 (some_pc 0 0) ltac:(lia) ltac:(split; cbn; lia))).
Defined.

Lemma remap_pic_correct_witness :
  exists s', remap_pic 0x20 0x28 (some_pc 5 6) = Ret s' /\
    pics s' = (mk_chip 0 0x20 0 0 0 false, mk_chip 0 0x28 0 0 0 false).
Proof. apply (remap_pic_correct 0x20 0x28 (some_pc 5 6)); lia. Defined.

Lemma send_EOI_correct_witness :
  c_isr (fst (pics (send_EOI 10 (some_pc 4 4)))) = 0 /\ c_isr (snd (pics (send_EOI 10 (some_pc 4 4)))) = 0.
Proof. apply (send_EOI_correct 10 (some_pc 4 4)); [lia|reflexivity|reflexivity]. Defined.

Lemma init_timer_correct_witness :
  exists lo hi, init_timer 100 (some_pc 0 0) =
      Ret (port_byte_out PIT_CHANNEL_0_DATA_REG hi (port_byte_out PIT_CHANNEL_0_DATA_REG lo
             (outb_wait PIT_COMMAND_REG 0x36 (some_pc 0 0)))) /\
    0 <= lo < 256 /\ 0 <= hi < 256 /\ lo + 256 * hi = 11931.
Proof. apply (init_timer_correct 100 (some_pc 0 0)). lia. Defined.

(** The key A (scan code 0x1e), pressed with the cursor in the last cell. *)
Lemma irq_handler_correct_witness :
  exists k', irq_handler 2 (fun _ => 0) 33
      (install_handlers (mk_kstate (some_pc 2 0) 99 some_screen (replicate 16 None))) = Ret k' /\
    timer_ticks k' = 99 /\ screen_shows (chars "a") some_screen (screen k') /\ cursor (screen k') = 0 /\
    c_isr (fst (pics (ports k'))) = 0.
Proof.
  destruct (irq_handler_correct 2 (fun _ => 0) 1
    (install_handlers (mk_kstate (some_pc 2 0) 99 some_screen (replicate 16 None))))
    as (k' & R & Ht & Hkey & _ & _ & _ & H1 & _);
    [simpl; lia|reflexivity|apply some_screen_ok|lia|reflexivity| |split; reflexivity|].
  - intros s. change (0 <= 0x1e < 256). lia.
  - exists k'. split; [exact R|]. split; [exact Ht|]. destruct (Hkey eq_refl) as (s & _ & _ & Hs).
    change (screen_shows (chars "a") some_screen (screen k')) in Hs. split; [exact Hs|]. split; [exact (proj1 Hs)|exact H1].
Defined.
