(* ===== verification/Descriptors.v ===== *)
(** * Segment and gate descriptors, and the crash report (kernel/gdt/gdt.c,
    kernel/idt/idt.c)

    The tables are lists of records; lgdt and lidt load the pointer records and
    are not modelled further.  [decode_*] read a descriptor the way the
    processor does. *)

From S2P Require Import Prelude Ports Serial.

(** ** GDT *)

Definition GDT_SIZE : Z := 6.
Definition sizeof_tss : Z := 212.

Record GDTEntry := mk_gdt {
  limit_low : Z; base_low : Z; base_middle : Z; access : Z; granularity : Z; base_high : Z }.
Record GDTPtr := mk_gdt_ptr { g_limit : Z; g_base : Z }.

(** set_gdt_entry; an index outside the table is a fault. *)
Definition set_gdt_entry (index base limit access_ granularity_ : Z) (gdt : list GDTEntry)
  : outcome (list GDTEntry) :=
  if decide (0 <= index < Z.of_nat (length gdt)) then
    mret (<[Z.to_nat index := mk_gdt (u16 (Z.land limit 0xffff)) (u16 (Z.land base 0xffff))
      (u8 (Z.land (Z.shiftr base 16) 0xff)) access_
      (u8 (Z.lor (Z.land (Z.shiftr limit 16) 0x0f) (Z.shiftl granularity_ 4)))
      (u8 (Z.land (Z.shiftr base 24) 0xff))]> gdt)
  else Fault.

Definition fill_gdt (tss : Z) (gdt : list GDTEntry) : outcome (list GDTEntry) :=
  gdt ← set_gdt_entry 0 0 0 0 0 gdt;
  gdt ← set_gdt_entry 1 0 0xfffff 0x9a 0xc gdt;
  gdt ← set_gdt_entry 2 0 0xfffff 0x92 0xc gdt;
  gdt ← set_gdt_entry 3 0 0xfffff 0xfa 0xc gdt;
  gdt ← set_gdt_entry 4 0 0xfffff 0xf2 0xc gdt;
  set_gdt_entry 5 tss (sizeof_tss - 1) 0x89 0x0 gdt.

(** gdt_initialize: the table and the pointer given to lgdt. *)
Definition gdt_initialize (gdt_addr tss : Z) (gdt : list GDTEntry) : outcome (list GDTEntry * GDTPtr) :=
  gdt ← fill_gdt tss gdt;
  mret (gdt, mk_gdt_ptr (u16 (8 * Z.of_nat (length gdt) - 1)) (u32 gdt_addr)).

(** What the processor reads in a segment descriptor. *)
Definition decode_base (e : GDTEntry) : Z := base_low e + 2 ^ 16 * base_middle e + 2 ^ 24 * base_high e.
Definition decode_limit (e : GDTEntry) : Z := limit_low e + 2 ^ 16 * (granularity e mod 16).
Definition decode_flags (e : GDTEntry) : Z := granularity e / 16.

(** ** IDT *)

Definition IDT_MAX_DESCRIPTORS : Z := 256.
Definition KERNEL_CS : Z := 0x08.

Record idt_entry := mk_idt { isr_low : Z; kernel_cs : Z; reserved_byte : Z; attributes : Z; isr_high : Z }.
Record idtr_t := mk_idtr { i_limit : Z; i_base : Z }.

Definition gate (addr type dpl : Z) : idt_entry :=
  mk_idt (u16 (Z.land addr 0xffff)) KERNEL_CS 0 (u8 (Z.lor (Z.lor 0x80 (Z.shiftl dpl 5)) type))
    (u16 (Z.land (Z.shiftr addr 16) 0xffff)).
Definition set_gate (n addr type dpl : Z) (idt : list idt_entry) : outcome (list idt_entry) :=
  if decide (0 <= n < Z.of_nat (length idt)) then mret (<[Z.to_nat n := gate addr type dpl]> idt) else Fault.
Definition set_intr_gate (n addr : Z) := set_gate n addr 0xe 0.
Definition set_trap_gate (n addr : Z) := set_gate n addr 0xf 0.
Definition set_system_gate (n addr : Z) := set_gate n addr 0xf 3.

(** Addresses of the assembly stubs of idt.asm. *)
Inductive stub := divide_error | debug_stub | nmi | int3 | overflow | bounds | invalid_op
  | device_not_available | double_fault | coprocessor_segment_overrun | invalid_TSS
  | segment_not_present | stack_segment | general_protection | reserved_stub | coprocessor_error.

Fixpoint reserved_gates (n : nat) (i : Z) (addr : stub -> Z) (idt : list idt_entry) : outcome (list idt_entry) :=
  match n with
  | O => mret idt
  | S n => idt ← set_trap_gate i (addr reserved_stub) idt; reserved_gates n (i + 1) addr idt
  end.

Definition trap_init (addr : stub -> Z) (idt : list idt_entry) : outcome (list idt_entry) :=
  idt ← set_trap_gate 0 (addr divide_error) idt;
  idt ← set_trap_gate 1 (addr debug_stub) idt;
  idt ← set_trap_gate 2 (addr nmi) idt;
  idt ← set_system_gate 3 (addr int3) idt;
  idt ← set_system_gate 4 (addr overflow) idt;
  idt ← set_system_gate 5 (addr bounds) idt;
  idt ← set_trap_gate 6 (addr invalid_op) idt;
  idt ← set_trap_gate 7 (addr device_not_available) idt;
  idt ← set_trap_gate 8 (addr double_fault) idt;
  idt ← set_trap_gate 9 (addr coprocessor_segment_overrun) idt;
  idt ← set_trap_gate 10 (addr invalid_TSS) idt;
  idt ← set_trap_gate 11 (addr segment_not_present) idt;
  idt ← set_trap_gate 12 (addr stack_segment) idt;
  idt ← set_trap_gate 13 (addr general_protection) idt;
  idt ← set_trap_gate 15 (addr reserved_stub) idt;
  idt ← set_trap_gate 16 (addr coprocessor_error) idt;
  reserved_gates 15 17 addr idt.

Definition initialize_idt (idt_addr : Z) : idtr_t := mk_idtr (u16 (8 * IDT_MAX_DESCRIPTORS - 1)) (u32 idt_addr).

Definition decode_offset (e : idt_entry) : Z := isr_low e + 2 ^ 16 * isr_high e.
Definition decode_present (e : idt_entry) : bool := Z.testbit (attributes e) 7.
Definition decode_dpl (e : idt_entry) : Z := (attributes e / 32) mod 4.
Definition decode_type (e : idt_entry) : Z := attributes e mod 16.

(** ** The crash report *)

Section die.
Context {S : Type} `{PortIO S}.

(** die: [esp] is the frame the processor pushed - EIP, CS, EFLAGS, ESP, SS. *)
Definition die (patience : nat) (str : list Z) (esp : list Z) (nr : Z) (s : S) : outcome S :=
  s ← printk patience (chars "%s: %04x" ++ [10; 13]) [VStr (Some str); VWord (Z.land nr 0xffff)] s;
  e0 ← deref (esp !! 0%nat); e1 ← deref (esp !! 1%nat); e2 ← deref (esp !! 2%nat);
  e3 ← deref (esp !! 3%nat); e4 ← deref (esp !! 4%nat);
  printk patience (chars "EIP:" ++ [9] ++ chars "%04x:%p" ++ [10] ++ chars "EFLAGS:" ++ [9] ++ chars "%p" ++
      [10] ++ chars "ESP:" ++ [9] ++ chars "%04x:%p" ++ [10])
    [VWord e1; VWord e0; VWord e2; VWord e4; VWord e3] s.

Inductive trap := do_double_fault | do_general_protection | do_divide_error | do_nmi | do_debug | do_overflow
  | do_bounds | do_invalid_op | do_device_not_available | do_coprocessor_segment_overrun | do_invalid_TSS
  | do_segment_not_present | do_stack_segment | do_coprocessor_error | do_reserved.
Definition trap_name (t : trap) : list Z :=
  match t with
  | do_double_fault => chars "double fault"
  | do_general_protection => chars "general protection"
  | do_divide_error => chars "divide error"
  | do_nmi => chars "nmi"
  | do_debug => chars "debug"
  | do_overflow => chars "overflow"
  | do_bounds => chars "bounds"
  | do_invalid_op => chars "invalid operand"
  | do_device_not_available => chars "device not available"
  | do_coprocessor_segment_overrun => chars "coprocessor segment overrun"
  | do_invalid_TSS => chars "invalid TSS"
  | do_segment_not_present => chars "segment not present"
  | do_stack_segment => chars "stack segment"
  | do_coprocessor_error => chars "coprocessor error"
  | do_reserved => chars "reserved (15,17-31) error"
  end.
Definition do_trap (patience : nat) (t : trap) (esp : list Z) (error_code : Z) (s : S) : outcome S :=
  die patience (trap_name t) esp error_code s.

(** do_int3: [regs] are eax, ebx, ecx, edx, esi, edi, ebp, esp, ds, es, fs, tr. *)
Definition do_int3 (patience : nat) (esp : list Z) (eax ebx ecx edx esi edi ebp esp_ptr ds es fs tr : Z) (s : S)
  : outcome S :=
  let four (c : Z) := chars "%" ++ [c] ++ chars "x" ++ [9] ++ chars "%" ++ [c] ++ chars "x" ++ [9] ++
                      chars "%" ++ [c] ++ chars "x" ++ [9] ++ chars "%" ++ [c] ++ chars "x" ++ [10; 13] in
  s ← printk patience (chars "eax" ++ [9; 9] ++ chars "ebx" ++ [9; 9] ++ chars "ecx" ++ [9; 9] ++ chars "edx" ++
        [10; 13] ++ four 56) [VWord eax; VWord ebx; VWord ecx; VWord edx] s;
  s ← printk patience (chars "esi" ++ [9; 9] ++ chars "edi" ++ [9; 9] ++ chars "ebp" ++ [9; 9] ++ chars "esp" ++
        [10; 13] ++ four 56) [VWord esi; VWord edi; VWord ebp; VWord esp_ptr] s;
  s ← printk patience ([10; 13] ++ chars "ds" ++ [9] ++ chars "es" ++ [9] ++ chars "fs" ++ [9] ++ chars "tr" ++
        [10; 13] ++ four 52) [VWord ds; VWord es; VWord fs; VWord tr] s;
  e0 ← deref (esp !! 0%nat); e1 ← deref (esp !! 1%nat); e2 ← deref (esp !! 2%nat);
  printk patience (chars "EIP: %8x   CS: %4x  EFLAGS: %8x" ++ [10; 13]) [VWord e0; VWord e1; VWord e2] s.

End die.

(** ** Correctness *)

(** Splits a number into the fields of a descriptor and puts it together again. *)
Lemma split_field x k n : 0 <= k -> 0 <= n -> Z.land (Z.shiftr x k) (Z.ones n) = (x / 2 ^ k) mod 2 ^ n.
Proof. intros. by rewrite Z.land_ones, Z.shiftr_div_pow2. Qed.

Lemma low_field x n : 0 <= n -> Z.land x (Z.ones n) = x mod 2 ^ n.
Proof. intros. by rewrite Z.land_ones. Qed.

Lemma small_div x k n : 0 <= k -> 0 <= n -> 0 <= x < 2 ^ (k + n) -> 0 <= x / 2 ^ k < 2 ^ n.
Proof.
  intros Hk Hn Hx. rewrite Z.pow_add_r in Hx by lia. split; [apply Z.div_pos; lia|].
  apply Z.div_lt_upper_bound; lia.
Qed.

Definition gdt_entry (base limit access_ granularity_ : Z) : GDTEntry :=
  mk_gdt (u16 (Z.land limit 0xffff)) (u16 (Z.land base 0xffff)) (u8 (Z.land (Z.shiftr base 16) 0xff)) access_
    (u8 (Z.lor (Z.land (Z.shiftr limit 16) 0x0f) (Z.shiftl granularity_ 4)))
    (u8 (Z.land (Z.shiftr base 24) 0xff)).

Lemma set_gdt_entry_ok index base limit a g gdt :
  0 <= index < Z.of_nat (length gdt) ->
  set_gdt_entry index base limit a g gdt = Ret (<[Z.to_nat index := gdt_entry base limit a g]> gdt).
Proof. intros. unfold set_gdt_entry. by rewrite decide_True. Qed.

Lemma gdt_entry_decode base limit a g :
  0 <= base < 2 ^ 32 -> 0 <= limit < 2 ^ 20 -> 0 <= g < 16 ->
  let e := gdt_entry base limit a g in
  decode_base e = base /\ decode_limit e = limit /\ decode_flags e = g /\ access e = a.
Proof.
  intros Hb Hl Hg e. unfold e, decode_base, decode_limit, decode_flags, gdt_entry.
  cbn [base_low base_middle base_high limit_low granularity access].
  change 0xffff with (Z.ones 16). change 0xff with (Z.ones 8). change 0x0f with (Z.ones 4).
  rewrite !split_field, !low_field by lia.
  pose proof (Z.mod_pos_bound base (2 ^ 16)). pose proof (Z.mod_pos_bound limit (2 ^ 16)).
  pose proof (Z.mod_pos_bound (base / 2 ^ 16) (2 ^ 8)). pose proof (Z.mod_pos_bound (base / 2 ^ 24) (2 ^ 8)).
  pose proof (small_div limit 16 4 ltac:(lia) ltac:(lia) ltac:(lia)) as Hl16.
  pose proof (small_div base 24 8 ltac:(lia) ltac:(lia) ltac:(lia)) as Hb24.
  rewrite (Z.mod_small (limit / 2 ^ 16)) by done.
  rewrite Z.lor_comm, Z.shiftl_mul_pow2, lor_low by lia. rewrite !u16_small, !u8_small by lia.
  rewrite (Z.mod_small (base / 2 ^ 24)) by done. change (2 ^ 4) with 16 in *. split_and!; try done.
  - pose proof (Z.div_mod base (2 ^ 16)). pose proof (Z.div_mod (base / 2 ^ 16) (2 ^ 8)) as Hd.
    rewrite Z.div_div in Hd by lia. change (2 ^ 16 * 2 ^ 8) with (2 ^ 24) in Hd. lia.
  - rewrite (Z.add_comm (g * 16)), Z_mod_plus_full, (Z.mod_small (limit / 2 ^ 16)) by lia. pose proof (Z.div_mod limit (2 ^ 16)). lia.
  - rewrite (Z.add_comm (g * 16)), Z_div_plus_full by lia. rewrite Z.div_small by lia. lia.
Qed.

(** Every descriptor written by set_gdt_entry decodes to the base, limit,
    flags and access byte it was given, and the other entries stay. *)
Theorem set_gdt_entry_roundtrip index base limit a g gdt :
  0 <= index < Z.of_nat (length gdt) -> 0 <= base < 2 ^ 32 -> 0 <= limit < 2 ^ 20 -> 0 <= g < 16 ->
  exists gdt' e, set_gdt_entry index base limit a g gdt = Ret gdt' /\ gdt' !! Z.to_nat index = Some e /\
    decode_base e = base /\ decode_limit e = limit /\ decode_flags e = g /\ access e = a /\
    (forall i, i <> Z.to_nat index -> gdt' !! i = gdt !! i).
Proof.
  intros Hi Hb Hl Hg. rewrite set_gdt_entry_ok by done. eexists _, _. split; [done|].
  split; [apply list_lookup_insert_eq; lia|].
  destruct (gdt_entry_decode base limit a g Hb Hl Hg) as (-> & -> & -> & ->).
  split_and!; try done. intros i Hne. by rewrite list_lookup_insert_ne.
Qed.

(** gdt_initialize gives a null descriptor, flat 4 GB code and data segments
    for the kernel (ring 0) and for user programs (ring 3), and a task segment
    at the address of the TSS with its exact limit; the pointer covers the table. *)
Theorem gdt_initialize_correct gdt_addr tss gdt :
  length gdt = Z.to_nat GDT_SIZE -> 0 <= tss < 2 ^ 32 ->
  exists gdt' ptr, gdt_initialize gdt_addr tss gdt = Ret (gdt', ptr) /\
    g_limit ptr = 47 /\ g_base ptr = u32 gdt_addr /\
    gdt' !! 0%nat = Some (mk_gdt 0 0 0 0 0 0) /\
    (forall i a, (i, a) ∈ [(1%nat, 0x9a); (2%nat, 0x92); (3%nat, 0xfa); (4%nat, 0xf2)] ->
       exists e, gdt' !! i = Some e /\ decode_base e = 0 /\ decode_limit e = 0xfffff /\ decode_flags e = 0xc /\
         access e = a) /\
    exists e, gdt' !! 5%nat = Some e /\ decode_base e = tss /\ decode_limit e = sizeof_tss - 1 /\ access e = 0x89.
Proof.
  intros Hlen Ht. destruct gdt as [|g0 [|g1 [|g2 [|g3 [|g4 [|g5 [|? ?] ] ] ] ] ] ]; try discriminate Hlen.
  exists [gdt_entry 0 0 0 0; gdt_entry 0 0xfffff 0x9a 0xc; gdt_entry 0 0xfffff 0x92 0xc;
    gdt_entry 0 0xfffff 0xfa 0xc; gdt_entry 0 0xfffff 0xf2 0xc; gdt_entry tss (sizeof_tss - 1) 0x89 0],
    (mk_gdt_ptr 47 (u32 gdt_addr)).
  split; [reflexivity|]. split_and!; try reflexivity.
  - intros i a Hia. rewrite !elem_of_cons in Hia.
    destruct Hia as [ [= -> ->]|[ [= -> ->]|[ [= -> ->]|[ [= -> ->]|[]%not_elem_of_nil] ] ] ];
      eexists; (split; [reflexivity|]); vm_compute; done.
  - eexists. split; [reflexivity|]. destruct (gdt_entry_decode tss (sizeof_tss - 1) 0x89 0) as (-> & -> & _ & ->); done.
Qed.

Lemma gate_decode addr type dpl :
  0 <= addr < 2 ^ 32 -> 0 <= type < 16 -> 0 <= dpl < 4 ->
  let e := gate addr type dpl in
  decode_offset e = addr /\ decode_present e = true /\ decode_dpl e = dpl /\ decode_type e = type.
Proof.
  intros Ha Ht Hd. cbv zeta. unfold gate, decode_offset, decode_present, decode_dpl, decode_type.
  cbn [isr_low isr_high attributes].
  assert (Hattr : let v := u8 (Z.lor (Z.lor 0x80 (Z.shiftl dpl 5)) type) in
    Z.testbit v 7 = true /\ (v / 32) mod 4 = dpl /\ v mod 16 = type).
  { revert type Ht. apply (forall_seqZ (fun type => let v := u8 (Z.lor (Z.lor 0x80 (Z.shiftl dpl 5)) type) in
      Z.testbit v 7 = true /\ (v / 32) mod 4 = dpl /\ v mod 16 = type)).
    assert (dpl = 0 \/ dpl = 1 \/ dpl = 2 \/ dpl = 3) as [-> | [-> | [-> | ->] ] ] by lia; by vm_compute. }
  destruct Hattr as (-> & -> & ->). split_and!; try done.
  change 0xffff with (Z.ones 16). rewrite split_field, low_field by lia.
  pose proof (small_div addr 16 16 ltac:(lia) ltac:(lia) ltac:(lia)). pose proof (Z.mod_pos_bound addr (2 ^ 16)).
  rewrite (Z.mod_small (addr / 2 ^ 16)) by done. rewrite !u16_small by lia.
  pose proof (Z.div_mod addr (2 ^ 16)). lia.
Qed.

Section idt_proofs.
Variable addr : stub -> Z.

(** The gates of trap_init in order: vector, stub, privilege. *)
Definition trap_gates : list (Z * (stub * Z)) :=
  [(0, (divide_error, 0)); (1, (debug_stub, 0)); (2, (nmi, 0)); (3, (int3, 3)); (4, (overflow, 3)); (5, (bounds, 3));
   (6, (invalid_op, 0)); (7, (device_not_available, 0)); (8, (double_fault, 0));
   (9, (coprocessor_segment_overrun, 0)); (10, (invalid_TSS, 0)); (11, (segment_not_present, 0));
   (12, (stack_segment, 0)); (13, (general_protection, 0)); (15, (reserved_stub, 0)); (16, (coprocessor_error, 0))]
  ++ ((fun i => (i, (reserved_stub, 0))) <$> seqZ 17 15).

Definition write_gates (l : list (Z * (stub * Z))) (idt : list idt_entry) : list idt_entry :=
  foldl (fun idt '(v, (st, dpl)) => <[Z.to_nat v := gate (addr st) 0xf dpl]> idt) idt l.

Lemma write_gates_cons v st dpl l idt :
  write_gates ((v, (st, dpl)) :: l) idt = write_gates l (<[Z.to_nat v := gate (addr st) 0xf dpl]> idt).
Proof. done. Qed.

Lemma write_gates_length l : forall idt, length (write_gates l idt) = length idt.
Proof. induction l as [|[v [st dpl]] l IH]; intros idt; [done|]. etrans; [apply IH|apply length_insert]. Qed.

Lemma set_gate_ok n a type dpl idt :
  length idt = Z.to_nat IDT_MAX_DESCRIPTORS -> 0 <= n < IDT_MAX_DESCRIPTORS ->
  set_gate n a type dpl idt = Ret (<[Z.to_nat n := gate a type dpl]> idt).
Proof. intros Hl Hn. unfold set_gate. rewrite decide_True; [done|]. rewrite Hl. unfold IDT_MAX_DESCRIPTORS in *. lia. Qed.

Lemma reserved_gates_write n : forall i idt, length idt = Z.to_nat IDT_MAX_DESCRIPTORS -> 0 <= i ->
  i + Z.of_nat n <= IDT_MAX_DESCRIPTORS ->
  reserved_gates n i addr idt = Ret (write_gates ((fun i => (i, (reserved_stub, 0))) <$> seqZ i (Z.of_nat n)) idt).
Proof.
  induction n as [|n IH]; intros i idt Hl Hi Hn; [done|]. cbn [reserved_gates]. unfold set_trap_gate.
  rewrite set_gate_ok by (done || lia). rewrite bind_Ret, IH by (rewrite ?length_insert; done || lia).
  rewrite (seqZ_cons i (Z.of_nat (S n))) by lia. replace (Z.pred (Z.of_nat (S n))) with (Z.of_nat n) by lia. done.
Qed.

Lemma trap_init_write idt :
  length idt = Z.to_nat IDT_MAX_DESCRIPTORS -> trap_init addr idt = Ret (write_gates trap_gates idt).
Proof.
  intros Hl. unfold trap_init, set_trap_gate, set_system_gate.
  repeat (rewrite set_gate_ok by (rewrite ?length_insert; done); rewrite bind_Ret).
  rewrite reserved_gates_write by (rewrite ?length_insert; done). unfold trap_gates, write_gates.
  rewrite foldl_app. done.
Qed.

Lemma write_gates_other l : forall idt v, (forall g, (v, g) ∉ l) -> 0 <= v -> Forall (fun g => 0 <= fst g) l ->
  write_gates l idt !! Z.to_nat v = idt !! Z.to_nat v.
Proof.
  induction l as [|[w [st dpl]] l IH]; intros idt v Hv Hpos Hl; [done|]. apply Forall_cons in Hl as [Hw Hl].
  rewrite write_gates_cons, IH; [|intros g Hg; apply (Hv g); by right|done|done].
  rewrite list_lookup_insert_ne; [done|]. intros E. cbn in Hw. apply (Hv (st, dpl)).
  replace v with w by lia. left.
Qed.

Lemma write_gates_in l : forall idt v st dpl, (v, (st, dpl)) ∈ l -> NoDup (fst <$> l) ->
  Forall (fun g => 0 <= fst g < Z.of_nat (length idt)) l ->
  write_gates l idt !! Z.to_nat v = Some (gate (addr st) 0xf dpl).
Proof.
  induction l as [|[w [st' dpl']] l IH]; intros idt v st dpl Hin Hnd Hl; [by apply not_elem_of_nil in Hin|].
  cbn in Hnd. apply NoDup_cons in Hnd as [Hw Hnd]. apply Forall_cons in Hl as [Hwl Hl].
  apply elem_of_cons in Hin as [ [= -> -> ->]|Hin].
  - rewrite write_gates_cons, write_gates_other.
    + apply list_lookup_insert_eq. cbn in Hwl. lia.
    + intros g Hg. apply Hw. apply list_elem_of_fmap. by exists (w, g).
    + apply Hwl.
    + eapply Forall_impl; [exact Hl|]. intros g Hg. apply Hg.
  - rewrite write_gates_cons. apply IH; [done|done|]. by rewrite length_insert.
Qed.

(** trap_init installs a present gate at the right handler address for every
    exception vector below 32 but 14, reachable from user mode for 3, 4 and 5
    only; vector 14 (the page fault, commented out) and the vectors from 32 on
    (the hardware interrupts the controller is remapped to) keep what they had. *)
Theorem trap_init_correct idt :
  length idt = Z.to_nat IDT_MAX_DESCRIPTORS -> (forall st, 0 <= addr st < 2 ^ 32) ->
  exists idt', trap_init addr idt = Ret idt' /\ length idt' = length idt /\
    (forall v, 0 <= v < 32 -> v <> 14 -> exists e st, idt' !! Z.to_nat v = Some e /\
       (exists dpl, (v, (st, dpl)) ∈ trap_gates) /\ decode_offset e = addr st /\ decode_present e = true /\
       decode_dpl e = (if decide (3 <= v <= 5) then 3 else 0)) /\
    (forall v, v = 14 \/ 32 <= v -> idt' !! Z.to_nat v = idt !! Z.to_nat v).
Proof.
  intros Hl Ha. rewrite trap_init_write by done. eexists. split; [done|]. split; [apply write_gates_length|].
  assert (Hrange : Forall (fun g => 0 <= fst g < Z.of_nat (length idt)) trap_gates).
  { rewrite Hl. apply (bool_decide_unpack _). by vm_compute. }
  split.
  - intros v Hv H14.
    assert (Hg : exists st dpl, (v, (st, dpl)) ∈ trap_gates /\ dpl = if decide (3 <= v <= 5) then 3 else 0).
    { assert (Hex : v ∈ fst <$> trap_gates /\ Forall (fun g => snd (snd g) = if decide (3 <= fst g <= 5) then 3 else 0) trap_gates).
      { split; [|apply (bool_decide_unpack _); by vm_compute].
        assert (Hall : forall v, 0 <= v < 32 -> v <> 14 -> v ∈ fst <$> trap_gates); [|by apply Hall].
        apply (forall_seqZ (fun v => v <> 14 -> v ∈ fst <$> trap_gates)). by vm_compute. }
      destruct Hex as [ ( [v' [st dpl] ] & -> & Hin)%list_elem_of_fmap Hall].
      exists st, dpl. split; [done|]. rewrite Forall_forall in Hall. apply (Hall _ Hin). }
    destruct Hg as (st & dpl & Hin & Hdpl). exists (gate (addr st) 0xf dpl), st.
    split; [apply write_gates_in; [done|apply (bool_decide_unpack _); by vm_compute|done]|].
    split; [by exists dpl|].
    destruct (gate_decode (addr st) 0xf dpl) as (-> & -> & -> & _); [done|lia|subst dpl; case_decide; lia|done].
  - intros v Hv. apply write_gates_other; [|lia|eapply Forall_impl; [exact Hrange|intros g Hg; apply Hg] ].
    intros g Hg.
    assert (Hno : Forall (fun g => fst g <> 14 /\ fst g < 32) trap_gates) by (apply (bool_decide_unpack _); by vm_compute).
    rewrite Forall_forall in Hno. specialize (Hno _ Hg). cbn in Hno. lia.
Qed.

End idt_proofs.

(** The crash report does not show the registers it names: printk has no
    "%04x", so "%04x" appears literally and takes no argument; the EIP field
    shows CS, the EFLAGS field shows EIP and the ESP field shows EFLAGS. *)
Theorem crash_report_shifted {S} `{Uart S} p t e0 e1 e2 e3 e4 nr (s : S) :
  (tx_bound <= p)%nat -> dlab s = false ->
  exists s', do_trap p t [e0; e1; e2; e3; e4] nr s = Ret s' /\
    tx s' = tx s ++ (u8 <$> trap_name t ++ chars ": %04x" ++ [10; 13]) ++
      (u8 <$> chars "EIP:" ++ [9] ++ chars "%04x:0x" ++ hex_text (u32 e1) ++
        [10] ++ chars "EFLAGS:" ++ [9] ++ chars "0x" ++ hex_text (u32 e0) ++
        [10] ++ chars "ESP:" ++ [9] ++ chars "%04x:0x" ++ hex_text (u32 e2) ++ [10]).
Proof.
  intros Hp Hd. unfold do_trap, die.
  destruct (printk_text p (chars "%s: %04x" ++ [10; 13]) [VStr (Some (trap_name t)); VWord (Z.land nr 0xffff)] s
    (trap_name t ++ chars ": %04x" ++ [10; 13]) Hp Hd) as (s1 & -> & Ht1 & Hd1); [reflexivity|].
  rewrite bind_Ret. cbn [lookup list_lookup deref]. rewrite !bind_Ret.
  edestruct (printk_text p) as (s2 & -> & Ht2 & _); [exact Hp|congruence|reflexivity|].
  exists s2. split; [done|]. rewrite Ht2, Ht1, <- app_assoc. reflexivity.
Qed.

(** ** Concrete instances *)

Definition empty_gdt : list GDTEntry := replicate 6 (mk_gdt 1 1 1 1 1 1).
Definition empty_idt : list idt_entry := replicate (Z.to_nat IDT_MAX_DESCRIPTORS) (mk_idt 0 0 0 0 0).

Lemma set_gdt_entry_roundtrip_witness :
  exists gdt' e, set_gdt_entry 2 0x12345678 0xabcde 0x92 0xc empty_gdt = Ret gdt' /\ gdt' !! 2%nat = Some e /\
    decode_base e = 0x12345678 /\ decode_limit e = 0xabcde.
Proof.
  destruct (set_gdt_entry_roundtrip 2 0x12345678 0xabcde 0x92 0xc empty_gdt) as (gdt' & e & R & E & Hb & Hl & _);
    [simpl; lia|lia|lia|lia|].
  exists gdt', e. split; [exact R|]. split; [exact E|]. split; [exact Hb|exact Hl].
Defined.

Lemma gdt_initialize_correct_witness :
  exists gdt' ptr, gdt_initialize 0xc0100000 0xc0200000 empty_gdt = Ret (gdt', ptr) /\ g_limit ptr = 47.
Proof.
  destruct (gdt_initialize_correct 0xc0100000 0xc0200000 empty_gdt) as (gdt' & ptr & R & Hl & _); [reflexivity|lia|].
  exists gdt', ptr. split; [exact R|exact Hl].
Defined.

Lemma trap_init_correct_witness :
  exists idt', trap_init (fun _ => 0xc0101234) empty_idt = Ret idt' /\
    idt' !! Z.to_nat 14 = Some (mk_idt 0 0 0 0 0) /\ idt' !! Z.to_nat 33 = Some (mk_idt 0 0 0 0 0).
Proof.
  destruct (trap_init_correct (fun _ => 0xc0101234) empty_idt) as (idt' & R & _ & _ & Hno); [reflexivity|intros; lia|].
  exists idt'. split; [exact R|].
  split; [exact (Hno 14 (or_introl eq_refl))|exact (Hno 33 (or_intror (ltac:(lia) : 32 <= 33)))].
Defined.

Lemma crash_report_shifted_witness :
  exists s', do_trap 2 do_overflow [0x1000; 8; 0x202; 0x9000; 16] 0 uart_start = Ret s' /\
    tx s' = chars "overflow: %04x" ++ [10; 13] ++ chars "EIP:" ++ [9] ++ chars "%04x:0x0x00000008" ++
      [10] ++ chars "EFLAGS:" ++ [9] ++ chars "0x0x00001000" ++
      [10] ++ chars "ESP:" ++ [9] ++ chars "%04x:0x0x00000202" ++ [10].
Proof.
  destruct (crash_report_shifted 2 do_overflow 0x1000 8 0x202 0x9000 16 0 uart_start) as (s' & R & Ht);
    [simpl; lia|reflexivity|].
  exists s'. split; [exact R|]. rewrite Ht. vm_compute. reflexivity.
Defined.
