(* ===== verification/Disk.v ===== *)
(** * The ATA disk driver (drivers/disk.c)

    The driver is written against the interface [PortIO] of Ports.v.  [AtaDevice] states what
    the ATA standard promises about the drive behind the ports (register
    file, PIO data phases, status bits that become ready within a bounded
    number of polls); [ata_instance] is a drive that satisfies it. *)

From S2P Require Import Prelude Ports.

Definition ATA_DATA_REGISTER : Z := 0x1f0.
Definition ATA_SECTOR_COUNT_REGISTER : Z := 0x1f2.
Definition ATA_LBA_LOW_REGISTER : Z := 0x1f3.
Definition ATA_LBA_MID_REGISTER : Z := 0x1f4.
Definition ATA_LBA_HIGH_REGISTER : Z := 0x1f5.
Definition ATA_DRIVE_HEAD_REGISTER : Z := 0x1f6.
Definition ATA_STATUS_REGISTER : Z := 0x1f7.
Definition ATA_COMMAND_REGISTER : Z := 0x1f7.
Definition ATA_ALT_STATUS_REGISTER : Z := 0x3f6.
Definition ATA_SECTOR_SIZE : Z := 512.
Definition ATA_STATUS_BUSY : Z := 2 ^ 7.
Definition ATA_STATUS_READY : Z := 2 ^ 6.
Definition ATA_STATUS_DATA_TRANSFER_REQUESTED : Z := 2 ^ 3.
Definition ATA_STATUS_ERR : Z := 2 ^ 0.
Definition ATA_READ_WITH_RETRY : Z := 0x20.
Definition ATA_WRITE_WITH_RETRY : Z := 0x30.
Definition ATA_CACHE_FLUSH : Z := 0xe7.

(** ** The driver *)

Section driver.
Context {S : Type} `{PortIO S}.

(** The polling loops; [patience] bounds the number of polls. *)
Fixpoint ata_wait_until_not_busy (patience : nat) (s : S) : outcome S :=
  match patience with
  | O => Spin
  | Datatypes.S patience =>
      let '(s, status) := port_byte_in ATA_STATUS_REGISTER s in
      if Z.land status ATA_STATUS_BUSY =? 0 then mret s else ata_wait_until_not_busy patience s
  end.
Fixpoint ata_wait_until_status (patience : nat) (desired_status : Z) (s : S) : outcome S :=
  match patience with
  | O => Spin
  | Datatypes.S patience =>
      let '(s, status) := port_byte_in ATA_STATUS_REGISTER s in
      if Z.land status desired_status =? 0 then ata_wait_until_status patience desired_status s
      else mret s
  end.
Definition waste_cycle_time (s : S) : S := fst (port_byte_in ATA_ALT_STATUS_REGISTER s).

(** The error report both transfers end with. *)
Definition check_error (text : list Z) (s : S) : S :=
  let '(s, status) := port_byte_in ATA_STATUS_REGISTER s in
  if Z.land status ATA_STATUS_ERR =? 0 then s else print_text text s.

(** The local buffer of disk_write_sector: [nchar] bytes, padded with zeros.
    Copying more bytes than there are in the buffer is a fault. *)
Definition pad_sector (in_buf : list Z) (nchar : Z) : list Z :=
  take (Z.to_nat nchar) in_buf ++ replicate (Z.to_nat (ATA_SECTOR_SIZE - nchar)) 0.

Definition disk_write_sector (patience : nat) (lba : Z) (in_buf : list Z) (nchar : Z) (s : S)
  : outcome S :=
  if ATA_SECTOR_SIZE <? nchar then mret (print_text (chars "Bad write" ++ [10]) s)
  else if Z.of_nat (length in_buf) <? nchar then Fault
  else
    let buf := pad_sector in_buf nchar in
    let s := asm_cli s in
    s ← ata_wait_until_status patience ATA_STATUS_READY s;
    let s := port_byte_out ATA_DRIVE_HEAD_REGISTER 0xe0 s in
    let s := port_byte_out ATA_SECTOR_COUNT_REGISTER 1 s in
    let s := port_byte_out ATA_LBA_LOW_REGISTER (Z.land (u8 lba) 0xff) s in
    let s := port_byte_out ATA_LBA_MID_REGISTER (Z.land (u8 (Z.shiftr lba 8)) 0xff) s in
    let s := port_byte_out ATA_LBA_HIGH_REGISTER (Z.land (u8 (Z.shiftr lba 16)) 0xff) s in
    let s := port_byte_out ATA_COMMAND_REGISTER ATA_WRITE_WITH_RETRY s in
    let s := waste_cycle_time s in
    s ← ata_wait_until_status patience ATA_STATUS_DATA_TRANSFER_REQUESTED s;
    let s := port_multiword_out ATA_DATA_REGISTER buf s in
    let s := port_byte_out ATA_COMMAND_REGISTER ATA_CACHE_FLUSH s in
    s ← ata_wait_until_not_busy patience s;
    mret (asm_sti (check_error (chars "Error writing disk...") s)).

(** disk_write: [fuel] sectors at most; the buffer pointer advances by a
    sector at a time. *)
Fixpoint disk_write_loop (fuel : nat) (patience : nat) (c_lba : Z) (c_buf : list Z)
    (chars_written nchar : Z) (s : S) : outcome S :=
  if chars_written <? nchar then
    match fuel with
    | O => Spin
    | Datatypes.S fuel =>
        let chars_to_write :=
          if nchar - chars_written <? ATA_SECTOR_SIZE then nchar - chars_written else ATA_SECTOR_SIZE in
        s ← disk_write_sector patience c_lba c_buf chars_to_write s;
        disk_write_loop fuel patience (u32 (c_lba + 1)) (drop (Z.to_nat ATA_SECTOR_SIZE) c_buf)
          (chars_written + chars_to_write) nchar s
    end
  else mret s.
Definition disk_write (patience : nat) (lba : Z) (buf : list Z) (nchar : Z) (s : S) : outcome S :=
  disk_write_loop (Z.to_nat nchar) patience lba buf 0 nchar s.

(** The sector loop of disk_read_internal. *)
Fixpoint read_sectors (n : nat) (patience : nat) (s : S) : outcome (S * list Z) :=
  match n with
  | O => mret (s, [])
  | Datatypes.S n =>
      s ← ata_wait_until_status patience ATA_STATUS_DATA_TRANSFER_REQUESTED s;
      let '(s, bytes) := port_multiword_in ATA_DATA_REGISTER (ATA_SECTOR_SIZE / 2) s in
      '(s, rest) ← read_sectors n patience s;
      mret (s, bytes ++ rest)
  end.

Definition disk_read_internal (patience : nat) (lba nsectors : Z) (s : S) : outcome (S * list Z) :=
  s ← ata_wait_until_status patience ATA_STATUS_READY s;
  s ← ata_wait_until_not_busy patience s;
  let lba_highest := Z.land (Z.shiftr lba 24) 0xff in
  let s := port_byte_out ATA_DRIVE_HEAD_REGISTER (Z.lor 0xe0 lba_highest) s in
  let s := port_byte_out ATA_SECTOR_COUNT_REGISTER nsectors s in
  let s := port_byte_out ATA_LBA_LOW_REGISTER (u8 (Z.land lba 0xff)) s in
  let s := port_byte_out ATA_LBA_MID_REGISTER (u8 (Z.land (Z.shiftr lba 8) 0xff)) s in
  let s := port_byte_out ATA_LBA_HIGH_REGISTER (u8 (Z.land (Z.shiftr lba 16) 0xff)) s in
  let s := port_byte_out ATA_COMMAND_REGISTER ATA_READ_WITH_RETRY s in
  s ← ata_wait_until_not_busy patience s;
  '(s, bytes) ← read_sectors (Z.to_nat nsectors) patience s;
  s ← ata_wait_until_not_busy patience s;
  mret (check_error (chars "Error reading disk... (2)") s, bytes).

Definition disk_read_bootloader (patience : nat) (lba chunk : Z) (s : S) : outcome (S * list Z) :=
  disk_read_internal patience lba chunk s.

Definition disk_read (patience : nat) (lba : Z) (s : S) : outcome (S * list Z) :=
  let s := asm_cli s in
  '(s, rd) ← disk_read_internal patience lba 1 s;
  mret (asm_sti s, rd).

Definition test_disk (patience : nat) (s : S) : outcome S :=
  let wr := chars "A1B2C3D4E5" ++ replicate 502 0 in
  s ← disk_write patience 5 wr 10 s;
  '(s, rd) ← disk_read patience 5 s;
  mret (print_text (chars "disk content : " ++ until_nul rd ++ [10]) s).

End driver.

(** ** The drive: what the ATA standard says about its registers *)

Inductive ata_phase := Idle | Reading (lba remaining : Z) | Writing (lba : Z).
Record ata := mk_ata {
  disk : Z -> list Z;
  r_head : Z; r_count : Z; r_low : Z; r_mid : Z; r_high : Z;
  phase : ata_phase }.

(** The 28-bit address selected by the registers. *)
Definition sel_lba (a : ata) : Z :=
  Z.lor (Z.lor (Z.shiftl (Z.land (r_head a) 0xf) 24) (Z.shiftl (r_high a) 16))
        (Z.lor (Z.shiftl (r_mid a) 8) (r_low a)).

Definition ata_out (port v : Z) (a : ata) : ata :=
  if port =? ATA_DRIVE_HEAD_REGISTER then mk_ata (disk a) v (r_count a) (r_low a) (r_mid a) (r_high a) (phase a)
  else if port =? ATA_SECTOR_COUNT_REGISTER then mk_ata (disk a) (r_head a) v (r_low a) (r_mid a) (r_high a) (phase a)
  else if port =? ATA_LBA_LOW_REGISTER then mk_ata (disk a) (r_head a) (r_count a) v (r_mid a) (r_high a) (phase a)
  else if port =? ATA_LBA_MID_REGISTER then mk_ata (disk a) (r_head a) (r_count a) (r_low a) v (r_high a) (phase a)
  else if port =? ATA_LBA_HIGH_REGISTER then mk_ata (disk a) (r_head a) (r_count a) (r_low a) (r_mid a) v (phase a)
  else if port =? ATA_COMMAND_REGISTER then
    mk_ata (disk a) (r_head a) (r_count a) (r_low a) (r_mid a) (r_high a)
      (if v =? ATA_READ_WITH_RETRY then Reading (sel_lba a) (r_count a)
       else if v =? ATA_WRITE_WITH_RETRY then Writing (sel_lba a) else phase a)
  else a.

Definition ata_data_in (a : ata) : ata * list Z :=
  match phase a with
  | Reading lba rem =>
      (mk_ata (disk a) (r_head a) (r_count a) (r_low a) (r_mid a) (r_high a)
         (if rem =? 1 then Idle else Reading (lba + 1) (rem - 1)), disk a lba)
  | _ => (a, [])
  end.

Definition set_sector (d : Z -> list Z) (lba : Z) (bytes : list Z) : Z -> list Z :=
  fun l => if decide (l = lba) then bytes else d l.

Definition ata_data_out (bytes : list Z) (a : ata) : ata :=
  match phase a with
  | Writing lba => mk_ata (set_sector (disk a) lba bytes) (r_head a) (r_count a) (r_low a) (r_mid a)
                     (r_high a) Idle
  | _ => a
  end.

(** The drive has a sector for every address and completes every command; an
    error bit in its status would only make the driver print.

    State after [n] reads of the status register, and the status they see. *)
Definition poll {S} `{PortIO S} (n : nat) (s : S) : S :=
  Nat.iter n (fun s => fst (port_byte_in ATA_STATUS_REGISTER s)) s.
Definition status_at {S} `{PortIO S} (n : nat) (s : S) : Z :=
  snd (port_byte_in ATA_STATUS_REGISTER (poll n s)).

Definition data_phase (p : ata_phase) : Prop :=
  match p with Idle => False | _ => True end.

Class AtaDevice (S : Type) `{PortIO S} := {
  view : S -> ata;
  patience_bound : nat;
  dev_in : forall port s, view (fst (port_byte_in port s)) = view s;
  dev_out : forall port v s, view (port_byte_out port v s) = ata_out port v (view s);
  dev_data_in : forall s, let '(s', bytes) := port_multiword_in ATA_DATA_REGISTER 256 s in
    (view s', bytes) = ata_data_in (view s);
  dev_data_out : forall bytes s, view (port_multiword_out ATA_DATA_REGISTER bytes s) =
    ata_data_out bytes (view s);
  dev_cli : forall s, view (asm_cli s) = view s;
  dev_sti : forall s, view (asm_sti s) = view s;
  dev_print : forall text s, view (print_text text s) = view s;
  dev_ready : forall s, exists n, (n < patience_bound)%nat /\
    Z.land (status_at n s) ATA_STATUS_READY <> 0;
  dev_not_busy : forall s, exists n, (n < patience_bound)%nat /\
    Z.land (status_at n s) ATA_STATUS_BUSY = 0;
  dev_drq : forall s, data_phase (phase (view s)) -> exists n, (n < patience_bound)%nat /\
    Z.land (status_at n s) ATA_STATUS_DATA_TRANSFER_REQUESTED <> 0;
}.

(** ** Correctness of the driver over any such drive *)

Section correct.
Context {S : Type} `{HIO : PortIO S} `{HD : !AtaDevice S}.
Implicit Types s : S.

Lemma poll_view n s : view (poll n s) = view s.
Proof. induction n as [|n IH]; simpl; [done|]. by rewrite dev_in. Qed.

Lemma poll_shift n s : poll n (fst (port_byte_in ATA_STATUS_REGISTER s)) = poll (Datatypes.S n) s.
Proof.
  exact (eq_sym (Nat.iter_succ_r n (fun s => fst (port_byte_in ATA_STATUS_REGISTER s)) s)).
Qed.

Lemma wait_status_spec p d s n :
  (n < p)%nat -> Z.land (status_at n s) d <> 0 ->
  exists s', ata_wait_until_status p d s = Ret s' /\ view s' = view s.
Proof.
  revert s n. induction p as [|p IH]; intros s n Hn Hs; [lia|]. cbn [ata_wait_until_status].
  destruct (port_byte_in ATA_STATUS_REGISTER s) as [s1 st] eqn:E.
  assert (Hv : view s1 = view s) by (rewrite <- (dev_in ATA_STATUS_REGISTER s); by rewrite E).
  destruct (Z.eqb_spec (Z.land st d) 0) as [Hz|_]; [|by exists s1].
  destruct n as [|n].
  - unfold status_at in Hs. simpl in Hs. rewrite E in Hs. done.
  - destruct (IH s1 n) as (s' & R & Hv'); [lia| |].
    + unfold status_at in *. rewrite <- poll_shift in Hs. rewrite E in Hs. exact Hs.
    + exists s'. split; [done|congruence].
Qed.

Lemma wait_not_busy_spec p s n :
  (n < p)%nat -> Z.land (status_at n s) ATA_STATUS_BUSY = 0 ->
  exists s', ata_wait_until_not_busy p s = Ret s' /\ view s' = view s.
Proof.
  revert s n. induction p as [|p IH]; intros s n Hn Hs; [lia|]. cbn [ata_wait_until_not_busy].
  destruct (port_byte_in ATA_STATUS_REGISTER s) as [s1 st] eqn:E.
  assert (Hv : view s1 = view s) by (rewrite <- (dev_in ATA_STATUS_REGISTER s); by rewrite E).
  destruct (Z.eqb_spec (Z.land st ATA_STATUS_BUSY) 0) as [_|Hz]; [by exists s1|].
  destruct n as [|n].
  - unfold status_at in Hs. simpl in Hs. rewrite E in Hs. done.
  - destruct (IH s1 n) as (s' & R & Hv'); [lia| |].
    + unfold status_at in *. rewrite <- poll_shift in Hs. rewrite E in Hs. exact Hs.
    + exists s'. split; [done|congruence].
Qed.

Lemma wait_ready p s : (patience_bound <= p)%nat ->
  exists s', ata_wait_until_status p ATA_STATUS_READY s = Ret s' /\ view s' = view s.
Proof. intros Hp. destruct (dev_ready s) as (n & Hn & Hs). eapply wait_status_spec; [|exact Hs]. lia. Qed.
Lemma wait_drq p s : (patience_bound <= p)%nat -> data_phase (phase (view s)) ->
  exists s', ata_wait_until_status p ATA_STATUS_DATA_TRANSFER_REQUESTED s = Ret s' /\ view s' = view s.
Proof. intros Hp Hd. destruct (dev_drq s Hd) as (n & Hn & Hs). eapply wait_status_spec; [|exact Hs]. lia. Qed.
Lemma wait_idle p s : (patience_bound <= p)%nat ->
  exists s', ata_wait_until_not_busy p s = Ret s' /\ view s' = view s.
Proof. intros Hp. destruct (dev_not_busy s) as (n & Hn & Hs). eapply wait_not_busy_spec; [|exact Hs]. lia. Qed.

Lemma check_error_view text s : view (check_error text s) = view s.
Proof.
  unfold check_error. pose proof (dev_in ATA_STATUS_REGISTER s) as Hv.
  destruct (port_byte_in _ s) as [s1 st]. simpl in Hv. destruct (_ =? _); [done|]. by rewrite dev_print.
Qed.

(** The address the registers select after the five writes. *)
Ltac bool_cases :=
  repeat match goal with |- context [Z.testbit ?x ?y] => destruct (Z.testbit x y) end; done.

Lemma lba_bytes lba :
  0 <= lba < 2 ^ 28 ->
  Z.lor (Z.lor (Z.shiftl (Z.land (Z.lor 0xe0 (Z.land (Z.shiftr lba 24) 0xff)) 0xf) 24)
               (Z.shiftl (u8 (Z.land (Z.shiftr lba 16) 0xff)) 16))
        (Z.lor (Z.shiftl (u8 (Z.land (Z.shiftr lba 8) 0xff)) 8) (u8 (Z.land lba 0xff))) = lba.
Proof.
  intros Hl. change 0xff with (Z.ones 8). change 0xf with (Z.ones 4).
  unfold u8. rewrite <- !Z.land_ones by lia. rewrite <- !Z.land_assoc, !Z.land_diag.
  apply Z.bits_inj'. intros n Hn.
  rewrite !Z.lor_spec, !Z.shiftl_spec, !Z.land_spec, !Z.lor_spec, !Z.land_spec by lia.
  assert (Hsh : forall k, 0 <= k -> k <= n -> Z.testbit (Z.shiftr lba k) (n - k) = Z.testbit lba n).
  { intros k Hk Hkn. rewrite Z.shiftr_spec by lia. f_equal. lia. }
  assert (Hneg : forall x k, n < k -> Z.testbit x (n - k) = false).
  { intros x k Hk. apply Z.testbit_neg_r. lia. }
  destruct (decide (n < 8)) as [H8|H8].
  { rewrite !Hneg by lia. rewrite Z.ones_spec_low by lia. by rewrite !andb_true_r. }
  rewrite (Z.ones_spec_high 8 n) by lia.
  destruct (decide (n < 16)) as [H16|H16].
  { rewrite !(Hneg _ 24), !(Hneg _ 16) by lia. rewrite (Hsh 8) by lia.
    rewrite (Z.ones_spec_low 8 (n - 8)) by lia. bool_cases. }
  destruct (decide (n < 24)) as [H24|H24].
  { rewrite !(Hneg _ 24) by lia. rewrite (Hsh 16) by lia. rewrite (Z.ones_spec_low 8 (n - 16)) by lia.
    rewrite (Z.ones_spec_high 8 (n - 8)) by lia. bool_cases. }
  rewrite (Hsh 24) by lia. rewrite (Z.ones_spec_high 8 (n - 16)), (Z.ones_spec_high 8 (n - 8)) by lia.
  destruct (decide (n < 28)) as [H28|H28].
  - rewrite (Z.ones_spec_low 4), (Z.ones_spec_low 8) by lia.
    replace (Z.testbit 224 (n - 24)) with false.
    2:{ assert (n = 24 \/ n = 25 \/ n = 26 \/ n = 27) as [-> | [-> | [-> | ->] ] ] by lia; done. }
    bool_cases.
  - rewrite (Z.ones_spec_high 4) by lia. rewrite !andb_false_r. simpl. symmetry.
    replace lba with (lba mod 2 ^ 28) by (apply Z.mod_small; lia). apply Z.mod_pow2_bits_high. lia.
Qed.

(** disk_write_sector leaves the top four bits of the address at 0. *)
Lemma write_lba_bytes lba :
  0 <= lba ->
  Z.lor (Z.lor (Z.shiftl (Z.land 0xe0 0xf) 24) (Z.shiftl (Z.land (u8 (Z.shiftr lba 16)) 0xff) 16))
        (Z.lor (Z.shiftl (Z.land (u8 (Z.shiftr lba 8)) 0xff) 8) (Z.land (u8 lba) 0xff)) = lba mod 2 ^ 24.
Proof.
  intros Hl. rewrite <- (lba_bytes (lba mod 2 ^ 24)) by (pose proof (Z.mod_pos_bound lba (2 ^ 24)); lia).
  assert (Hb : forall k, 0 <= k <= 16 ->
    Z.land (u8 (Z.shiftr lba k)) 0xff = u8 (Z.land (Z.shiftr (lba mod 2 ^ 24) k) 0xff)).
  { intros k Hk. change 0xff with (Z.ones 8). unfold u8. rewrite <- !Z.land_ones by lia.
    rewrite <- !Z.land_assoc, !Z.land_diag. apply Z.bits_inj'. intros n Hn.
    rewrite !Z.land_spec, !Z.shiftr_spec by lia. destruct (decide (n < 8)).
    - rewrite Z.land_ones, Z.mod_pow2_bits_low by lia. done.
    - by rewrite Z.ones_spec_high, !andb_false_r by lia. }
  rewrite !(Hb 16), !(Hb 8) by lia. pose proof (Hb 0 ltac:(lia)) as Hb0. rewrite !Z.shiftr_0_r in Hb0.
  rewrite Hb0. replace (Z.shiftr (lba mod 2 ^ 24) 24) with 0; [done|].
  rewrite Z.shiftr_div_pow2 by lia. symmetry. apply Z.div_small. apply Z.mod_pos_bound. lia.
Qed.

Lemma read_sectors_spec p n : forall s lba,
  (patience_bound <= p)%nat -> phase (view s) = (if (n =? 0)%nat then Idle else Reading lba (Z.of_nat n)) ->
  exists s', read_sectors n p s =
      Ret (s', mjoin ((fun i => disk (view s) (lba + i)) <$> seqZ 0 (Z.of_nat n))) /\
    disk (view s') = disk (view s) /\ phase (view s') = Idle.
Proof.
  induction n as [|n IH]; intros s lba Hp Hph.
  - exists s. done.
  - cbn [read_sectors]. change (phase (view s) = Reading lba (Z.of_nat (Datatypes.S n))) in Hph. destruct (wait_drq p s Hp) as (s1 & -> & Hv1); [by rewrite Hph|].
    cbn [mbind outcome_bind]. change (ATA_SECTOR_SIZE / 2) with 256.
    pose proof (dev_data_in s1) as Hin. destruct (port_multiword_in ATA_DATA_REGISTER 256 s1) as [s2 bytes].
    unfold ata_data_in in Hin. rewrite Hv1, Hph in Hin.
    pose proof (f_equal fst Hin) as Hv2. pose proof (f_equal snd Hin) as Hb.
    clear Hin. cbn [fst snd] in Hv2, Hb. subst bytes.
    assert (Hph2 : phase (view s2) = (if (n =? 0)%nat then Idle else Reading (lba + 1) (Z.of_nat n))).
    { rewrite Hv2. cbn [phase]. destruct (Z.eqb_spec (Z.of_nat (Datatypes.S n)) 1), (Nat.eqb_spec n 0);
        first [done|exfalso; lia|f_equal; lia]. }
    destruct (IH s2 (lba + 1) Hp Hph2) as (s' & -> & Hd & Hi). cbn [mbind outcome_bind].
    exists s'. rewrite Hv2 in Hd. simpl in Hd. split; [|split; [congruence|done]].
    rewrite (seqZ_cons 0 (Z.of_nat (Datatypes.S n))) by lia. replace (Z.pred (Z.of_nat (Datatypes.S n))) with (Z.of_nat n) by lia.
    simpl. rewrite Z.add_0_r. do 3 f_equal. rewrite Hv2. simpl.
    f_equal. change (Z.succ 0) with (1 + 0). rewrite <- (fmap_add_seqZ 1 0), <- list_fmap_compose.
    apply list_fmap_ext. intros i x _. simpl. f_equal. lia.
Qed.

(** disk_read_internal: [n] sectors starting at [lba], in order. *)
Lemma disk_read_internal_spec p lba n s :
  (patience_bound <= p)%nat -> 0 <= lba < 2 ^ 28 -> 1 <= n < 256 ->
  exists s', disk_read_internal p lba n s =
      Ret (s', mjoin ((fun i => disk (view s) (lba + i)) <$> seqZ 0 n)) /\
    disk (view s') = disk (view s) /\ phase (view s') = Idle.
Proof.
  intros Hp Hl Hn. unfold disk_read_internal.
  destruct (wait_ready p s Hp) as (s1 & -> & Hv1). cbn [mbind outcome_bind].
  destruct (wait_idle p s1 Hp) as (s2 & -> & Hv2). cbn [mbind outcome_bind].
  set (s3 := port_byte_out ATA_COMMAND_REGISTER _ _).
  destruct (wait_idle p s3 Hp) as (s4 & -> & Hv4). cbn [mbind outcome_bind].
  assert (Hv3 : disk (view s3) = disk (view s) /\ phase (view s3) = Reading lba n).
  { unfold s3. rewrite !dev_out. unfold ata_out at 1. simpl. split.
    - rewrite Hv2, Hv1. done.
    - f_equal. unfold sel_lba. simpl. by apply lba_bytes. }
  destruct Hv3 as [Hd3 Hp3].
  destruct (read_sectors_spec p (Z.to_nat n) s4 lba Hp) as (s5 & -> & Hd5 & Hp5).
  { rewrite Hv4, Hp3. destruct (Z.to_nat n) eqn:E; [lia|]. simpl. f_equal. lia. }
  cbn [mbind outcome_bind]. destruct (wait_idle p s5 Hp) as (s6 & -> & Hv6). cbn [mbind outcome_bind].
  eexists. rewrite Z2Nat.id by lia. rewrite Hv4, Hd3. split; [done|].
  rewrite check_error_view, Hv6. split; [|done]. congruence.
Qed.

Lemma disk_read_sector p lba s :
  (patience_bound <= p)%nat -> 0 <= lba < 2 ^ 28 ->
  exists s', disk_read p lba s = Ret (s', disk (view s) lba) /\ disk (view s') = disk (view s).
Proof.
  intros Hp Hl. destruct (disk_read_internal_spec p lba 1 (asm_cli s) Hp Hl) as (s' & R & Hd & _); [lia|].
  rewrite dev_cli in R, Hd. exists (asm_sti s'). unfold disk_read. rewrite R, dev_sti.
  split; [|done]. cbn [mbind outcome_bind]. do 2 f_equal.
  change (seqZ 0 1) with [0]. simpl. by rewrite Z.add_0_r, app_nil_r.
Qed.

(** C17. disk_read returns the 512 bytes of the sector it is asked for, for every
    28-bit address, and leaves the disk unchanged; the number of status polls is
    bounded by what the drive promises. *)
Theorem disk_read_correct p lba s :
  (patience_bound <= p)%nat -> 0 <= lba < 2 ^ 28 ->
  exists s', disk_read p lba s = Ret (s', disk (view s) lba) /\ disk (view s') = disk (view s).
Proof. apply disk_read_sector. Qed.

Lemma write_sector_spec p lba buf n s :
  (patience_bound <= p)%nat -> 0 <= lba -> 0 <= n <= 512 -> n <= Z.of_nat (length buf) ->
  exists s', disk_write_sector p lba buf n s = Ret s' /\
    disk (view s') = set_sector (disk (view s)) (lba mod 2 ^ 24) (pad_sector buf n).
Proof.
  intros Hp Hl Hn Hb. unfold disk_write_sector, ATA_SECTOR_SIZE.
  rewrite (proj2 (Z.ltb_ge 512 n)), (proj2 (Z.ltb_ge _ n)) by lia.
  destruct (wait_ready p (asm_cli s) Hp) as (s1 & -> & Hv1). cbn [mbind outcome_bind].
  rewrite dev_cli in Hv1. set (s2 := waste_cycle_time _).
  assert (Hv2 : disk (view s2) = disk (view s) /\ phase (view s2) = Writing (lba mod 2 ^ 24)).
  { unfold s2, waste_cycle_time. rewrite dev_in, !dev_out. unfold ata_out at 1. simpl. split.
    - by rewrite Hv1.
    - f_equal. unfold sel_lba. simpl. by apply write_lba_bytes. }
  destruct Hv2 as [Hd2 Hp2]. destruct (wait_drq p s2 Hp) as (s3 & -> & Hv3); [by rewrite Hp2|].
  cbn [mbind outcome_bind]. set (s4 := port_byte_out _ _ (port_multiword_out _ _ _)).
  destruct (wait_idle p s4 Hp) as (s5 & -> & Hv5). cbn [mbind outcome_bind].
  eexists. split; [done|]. rewrite dev_sti, check_error_view, Hv5. unfold s4. rewrite dev_out, dev_data_out, Hv3.
  unfold ata_data_out. rewrite Hp2. simpl. by rewrite Hd2.
Qed.

(** The disk after [n] bytes of [buf] were written from sector [lba] on. *)
Definition write_span (lba : Z) (buf : list Z) (n : Z) (d : Z -> list Z) : Z -> list Z :=
  fun l => if decide (lba <= l /\ 512 * (l - lba) < n)
           then pad_sector (drop (Z.to_nat (512 * (l - lba))) buf) (Z.min 512 (n - 512 * (l - lba)))
           else d l.

(** Number of sectors that hold [n] bytes. *)
Definition sectors (n : Z) : Z := (n + 511) / 512.

Lemma write_span_step lba buf n d l :
  0 < n ->
  write_span (lba + 1) (drop 512 buf) (n - Z.min 512 n) (set_sector d lba (pad_sector buf (Z.min 512 n))) l
  = write_span lba buf n d l.
Proof.
  intros Hn. unfold write_span, set_sector. destruct (decide (l = lba)) as [->|Hl].
  - rewrite decide_False, decide_True by lia.
    rewrite Z.sub_diag, Z.mul_0_r, Z.sub_0_r. done.
  - destruct (decide (lba <= l /\ 512 * (l - lba) < n)) as [Hin|Hout].
    + rewrite decide_True by lia. rewrite drop_drop. f_equal; [f_equal; lia|lia].
    + rewrite decide_False by lia. done.
Qed.

Lemma write_loop_spec p fuel : forall lba buf cw n s,
  (patience_bound <= p)%nat -> 0 <= cw -> n - cw <= Z.of_nat fuel -> 0 <= lba ->
  n - cw <= Z.of_nat (length buf) -> lba + sectors (n - cw) <= 2 ^ 24 ->
  exists s', disk_write_loop fuel p lba buf cw n s = Ret s' /\
    forall l, disk (view s') l = write_span lba buf (n - cw) (disk (view s)) l.
Proof.
  induction fuel as [|fuel IH]; intros lba buf cw n s Hp Hcw Hf Hl Hb Hs; cbn [disk_write_loop].
  { rewrite (proj2 (Z.ltb_ge cw n)) by lia. exists s. split; [done|].
    intros l. unfold write_span. by rewrite decide_False by lia. }
  destruct (Z.ltb_spec cw n) as [Hc|Hc].
  2:{ exists s. split; [done|]. intros l. unfold write_span. by rewrite decide_False by lia. }
  change ATA_SECTOR_SIZE with 512. set (k := if n - cw <? 512 then n - cw else 512).
  assert (Hk : k = Z.min 512 (n - cw)) by (unfold k; destruct (Z.ltb_spec (n - cw) 512); lia).
  unfold sectors in Hs.
  assert (1 <= (n - cw + 511) / 512) by (apply (Z.div_le_lower_bound _ 512 1); lia).
  destruct (write_sector_spec p lba buf k s Hp) as (s1 & -> & Hd1); [lia..|].
  cbn [mbind outcome_bind]. rewrite Z.mod_small in Hd1 by lia. rewrite u32_small by lia.
  destruct (IH (lba + 1) (drop (Z.to_nat 512) buf) (cw + k) n s1) as (s' & -> & Hd); [done|lia..|rewrite length_drop; lia| |].
  { unfold sectors. replace (n - (cw + k) + 511) with (n - cw - k + 511) by lia.
    destruct (decide (n - cw <= 512)).
    - replace (n - cw - k + 511) with 511 by lia. change (511 / 512) with 0. lia.
    - replace (n - cw - k + 511) with (n - cw + 511 + (-1) * 512) by lia. rewrite Z.div_add by lia. lia. }
  exists s'. split; [done|]. intros l. rewrite Hd, Hd1.
  change (Z.to_nat 512) with 512%nat. rewrite Hk. rewrite <- (write_span_step lba buf (n - cw)) by lia.
  f_equal. lia.
Qed.

Lemma disk_write_sectors p lba buf n s :
  (patience_bound <= p)%nat -> 0 <= lba -> n <= Z.of_nat (length buf) -> lba + sectors n <= 2 ^ 24 ->
  exists s', disk_write p lba buf n s = Ret s' /\
    forall l, disk (view s') l = write_span lba buf n (disk (view s)) l.
Proof.
  intros Hp Hl Hb Hs. destruct (write_loop_spec p (Z.to_nat n) lba buf 0 n s) as (s' & R & Hd); try lia.
  { by rewrite Z.sub_0_r. }
  exists s'. rewrite Z.sub_0_r in Hd. done.
Qed.

(** C16. disk_write stores the buffer sector by sector: of the [n] bytes, sector
    [lba + k] receives bytes [512 k] to [512 k + 511], the last sector padded with
    zeros, and no other sector changes - for the addresses below 2^24. *)
Theorem disk_write_correct p lba buf n s :
  (patience_bound <= p)%nat -> 0 <= lba -> n <= Z.of_nat (length buf) -> lba + sectors n <= 2 ^ 24 ->
  exists s', disk_write p lba buf n s = Ret s' /\
    forall l, disk (view s') l = write_span lba buf n (disk (view s)) l.
Proof. apply disk_write_sectors. Qed.

(** Reading back any sector of a write returns the bytes written to it. *)
Theorem disk_write_read p lba buf n k s :
  (patience_bound <= p)%nat -> 0 <= lba -> n <= Z.of_nat (length buf) -> lba + sectors n <= 2 ^ 24 -> 0 <= k -> 512 * k < n ->
  exists s', (s1 ← disk_write p lba buf n s; disk_read p (lba + k) s1) =
    Ret (s', pad_sector (drop (Z.to_nat (512 * k)) buf) (Z.min 512 (n - 512 * k))).
Proof.
  intros Hp Hl Hb Hs Hk Hkn.
  destruct (write_loop_spec p (Z.to_nat n) lba buf 0 n s) as (s1 & R & Hd); try lia; [by rewrite Z.sub_0_r|].
  unfold disk_write. rewrite R. cbn [mbind outcome_bind].
  assert (k + 1 <= sectors n) by (unfold sectors; apply Z.div_le_lower_bound; lia).
  destruct (disk_read_sector p (lba + k) s1) as (s' & -> & _); [done|lia|].
  exists s'. do 2 f_equal. rewrite Hd. unfold write_span.
  rewrite decide_True by lia. f_equal; [do 2 f_equal; lia|lia].
Qed.

(** The write path programs 24 of the 28 address bits the read path uses: a
    one-sector write at [2^24] or above lands on [lba mod 2^24], and the sector
    asked for keeps its contents. *)
Theorem disk_write_drops_high_bits p lba buf n s :
  (patience_bound <= p)%nat -> 2 ^ 24 <= lba < 2 ^ 28 -> 0 < n <= 512 -> n <= Z.of_nat (length buf) ->
  exists s', disk_write p lba buf n s = Ret s' /\
    disk (view s') (lba mod 2 ^ 24) = pad_sector buf n /\
    exists s'', disk_read p lba s' = Ret (s'', disk (view s) lba).
Proof.
  intros Hp Hl Hn Hb. unfold disk_write. destruct (Z.to_nat n) as [|fuel] eqn:Ef; [lia|].
  cbn [disk_write_loop]. rewrite (proj2 (Z.ltb_lt 0 n)) by lia. change ATA_SECTOR_SIZE with 512.
  set (k := if n - 0 <? 512 then n - 0 else 512).
  assert (Hk : k = n) by (unfold k; destruct (Z.ltb_spec (n - 0) 512); lia).
  destruct (write_sector_spec p lba buf k s Hp) as (s1 & -> & Hd1); [lia..|]. cbn [mbind outcome_bind].
  assert (Hend : forall f l b, disk_write_loop f p l b (0 + k) n s1 = Ret s1).
  { intros f l b. destruct f; cbn [disk_write_loop]; by rewrite (proj2 (Z.ltb_ge (0 + k) n)) by lia. }
  exists s1. rewrite Hend. split; [done|]. pose proof (Z.mod_pos_bound lba (2 ^ 24)).
  rewrite Hd1, Hk. split; [unfold set_sector; by rewrite decide_True|].
  destruct (disk_read_sector p lba s1) as (s2 & -> & _); [done|lia|].
  exists s2. do 2 f_equal. rewrite Hd1. unfold set_sector. by rewrite decide_False by lia.
Qed.

(** The driver's self-test prints the text it wrote. *)
Theorem test_disk_passes p s :
  (patience_bound <= p)%nat ->
  exists s', test_disk p s = Ret (print_text (chars "disk content : A1B2C3D4E5" ++ [10]) s').
Proof.
  intros Hp. unfold test_disk, disk_write.
  set (wr := chars "A1B2C3D4E5" ++ replicate 502 0).
  destruct (write_loop_spec p (Z.to_nat 10) 5 wr 0 10 s) as (s1 & -> & Hd); [done|vm_compute; congruence..|].
  cbn [mbind outcome_bind]. destruct (disk_read_sector p 5 s1) as (s2 & -> & _); [done|lia|].
  cbn [mbind outcome_bind]. exists s2. do 2 f_equal. rewrite Hd. vm_compute. reflexivity.
Qed.

End correct.

(** ** A drive that keeps the promises: busy on every other poll *)

Record sim := mk_sim { sim_ata : ata; sim_tick : bool; sim_irq : bool; sim_text : list Z }.
Definition sim_status (t : bool) : Z :=
  if t then Z.lor ATA_STATUS_READY ATA_STATUS_DATA_TRANSFER_REQUESTED else ATA_STATUS_BUSY.

#[export] Instance sim_ports : PortIO sim := {
  port_byte_in port s :=
    (mk_sim (sim_ata s) (negb (sim_tick s)) (sim_irq s) (sim_text s), sim_status (sim_tick s));
  port_byte_out port v s := mk_sim (ata_out port v (sim_ata s)) (sim_tick s) (sim_irq s) (sim_text s);
  port_multiword_in port n s :=
    let '(a, bytes) := ata_data_in (sim_ata s) in
    (mk_sim a (sim_tick s) (sim_irq s) (sim_text s), bytes);
  port_multiword_out port bytes s :=
    mk_sim (ata_data_out bytes (sim_ata s)) (sim_tick s) (sim_irq s) (sim_text s);
  asm_cli s := mk_sim (sim_ata s) (sim_tick s) false (sim_text s);
  asm_sti s := mk_sim (sim_ata s) (sim_tick s) true (sim_text s);
  print_text text s := mk_sim (sim_ata s) (sim_tick s) (sim_irq s) (sim_text s ++ text);
}.

#[export] Instance ata_instance : AtaDevice sim.
Proof.
  refine {| view := sim_ata; patience_bound := 2 |}; try done.
  - intros s. simpl. destruct (ata_data_in (sim_ata s)) eqn:E. done.
  - intros s. destruct (sim_tick s) eqn:E; [exists 0%nat|exists 1%nat]; unfold status_at; simpl;
      rewrite E; (split; [lia|vm_compute; congruence]).
  - intros s. destruct (sim_tick s) eqn:E; [exists 0%nat|exists 1%nat]; unfold status_at; simpl;
      rewrite E; (split; [lia|vm_compute; congruence]).
  - intros s _. destruct (sim_tick s) eqn:E; [exists 0%nat|exists 1%nat]; unfold status_at; simpl;
      rewrite E; (split; [lia|vm_compute; congruence]).
Defined.

Lemma sim_patient : (patience_bound (S := sim) <= 2)%nat.
Proof. simpl. lia. Qed.
Definition sim_start : sim := mk_sim (mk_ata (fun _ => replicate 512 7) 0 0 0 0 0 Idle) false true [].

Lemma disk_read_correct_witness :
  exists s', disk_read 2 300 sim_start = Ret (s', disk (view sim_start) 300) /\
    disk (view s') = disk (view sim_start).
Proof. apply (disk_read_correct 2 300 sim_start); simpl; lia. Defined.

Lemma disk_write_correct_witness :
  exists s', disk_write 2 300 (replicate 600 9) 600 sim_start = Ret s' /\
    forall l, disk (view s') l = write_span 300 (replicate 600 9) 600 (disk (view sim_start)) l.
Proof. apply (disk_write_correct 2 300 (replicate 600 9) 600 sim_start); vm_compute; lia || congruence. Defined.

Lemma disk_write_read_witness :
  exists s', (s1 ← disk_write 2 300 (replicate 600 9) 600 sim_start; disk_read 2 (300 + 1) s1) =
    Ret (s', pad_sector (drop (Z.to_nat (512 * 1)) (replicate 600 9)) (Z.min 512 (600 - 512 * 1))).
Proof. apply (disk_write_read 2 300 (replicate 600 9) 600 1 sim_start); vm_compute; lia || congruence. Defined.

Lemma disk_write_drops_high_bits_witness :
  exists s', disk_write 2 (2 ^ 24 + 3) [1; 2] 2 sim_start = Ret s' /\
    disk (view s') 3 = pad_sector [1; 2] 2 /\
    exists s'', disk_read 2 (2 ^ 24 + 3) s' = Ret (s'', disk (view sim_start) (2 ^ 24 + 3)).
Proof. apply (disk_write_drops_high_bits 2 (2 ^ 24 + 3) [1; 2] 2 sim_start); simpl; lia. Defined.

Lemma test_disk_passes_witness :
  exists s', test_disk 2 sim_start = Ret (print_text (chars "disk content : A1B2C3D4E5" ++ [10]) s').
Proof. apply (test_disk_passes 2 sim_start). simpl. lia. Defined.
