(* ===== verification/BufferCache.v ===== *)
(** * The buffer cache (fs/buffer.c, include/buffer.h) and the block
    transfers of fs/ext2/fs.c it uses

    [struct buffer_cache] is an array of DEV_NO hash heads followed by the
    head of the free list.  C does not check the index of [b_hash]: slot
    DEV_NO is the address of [b_free] (the next member of the struct), and
    anything further is outside the object.  Each buffer head carries two list
    nodes, [BHash b] and [BFree b]; [list_entry] through the wrong member
    gives a pointer into the middle of a buffer head, which the model treats
    as a fault.

    The busy waits of getblk ("sleep") run with fuel; the memory of buffer
    heads and data comes from the slab allocator through [KAlloc], and holds
    what it held before ([ram]): nothing clears it. *)

From S2P Require Import Prelude ListHead Ports Disk.

Definition DEV_NO : Z := 4.
Definition BUFFERS : Z := 100.
Definition BUFFER_SIZE : Z := 1024.
Definition BH_lock : Z := Z.shiftl 1 0.
Definition BH_dirty : Z := Z.shiftl 1 1.
Definition BH_uptodate : Z := Z.shiftl 1 2.
Definition BH_delay : Z := Z.shiftl 1 3.
Definition BH_old : Z := Z.shiftl 1 5.

Definition sizeof_buffer_head : Z := 36.
Record buffer_head := mk_bh {
  flags : Z; b_count : Z; b_data : option Z; b_dev : Z; b_blocknr : Z }.

Inductive bnode := HashHead (i : Z) | FreeHead | BHash (b : Z) | BFree (b : Z).
#[global] Instance bnode_eq_dec : EqDecision bnode.
Proof. solve_decision. Defined.
#[global] Instance bnode_countable : Countable bnode.
Proof.
  refine (inj_countable'
    (fun n => match n with
              | HashHead i => inl (inl i) | FreeHead => inl (inr tt)
              | BHash b => inr (inl b) | BFree b => inr (inr b) end)
    (fun c => match c with
              | inl (inl i) => HashHead i | inl (inr tt) => FreeHead
              | inr (inl b) => BHash b | inr (inr b) => BFree b end) _).
  by intros [].
Defined.

(** [&buffer_cache.b_hash[i]], by the layout of the struct. *)
Definition hash_slot (i : Z) : option bnode :=
  if decide (0 <= i < DEV_NO) then Some (HashHead i)
  else if decide (i = DEV_NO) then Some FreeHead else None.

Definition hash_fn (bno devno : Z) : outcome Z :=
  if devno =? 0 then Fault else mret (bno mod devno).

(** [list_entry(run, struct buffer_head, b_hash)] and [..., b_free)]. *)
Definition hash_entry (n : bnode) : outcome Z :=
  match n with BHash b => mret b | _ => Fault end.
Definition free_entry (n : bnode) : outcome Z :=
  match n with BFree b => mret b | _ => Fault end.

(** What the cache asks of the slab allocator: kmem_cache_create for objects of
    a size (with the alignment KMALLOC_MINALIGN and the flag SLAB_HWCACHE_ALIGN
    all callers pass), kmem_cache_alloc from a cache, kmalloc of a size. *)
Class KAlloc (A : Type) := {
  ka_cache_create : Z -> A -> outcome (A * option Z);
  ka_cache_alloc : Z -> A -> outcome (A * option Z);
  ka_kmalloc : Z -> A -> outcome (A * option Z);
}.

(** kfree, which the file systems call besides [KAlloc]. *)
Class KFree (A : Type) := { ka_kfree : option Z -> A -> outcome A }.

(** The file-system globals the block transfers read (fs/ext2/fs.c). *)
Record fs_globals := mk_fsg { filesys_start : Z; fs_start_set : bool; s_log_block_size : Z }.
Definition S_BLOCK_SIZE (g : fs_globals) : Z := Z.shiftl 1024 (s_log_block_size g).
Definition SECTORS_PER_BLOCK (g : fs_globals) : Z := S_BLOCK_SIZE g / 512.

Record bcache_st (S A : Type) := mk_bc {
  bufs : gmap Z buffer_head;
  bdata : gmap Z (list Z);
  bnodes : gmap bnode (list_head bnode);
  io : S;
  heap : A;
}.
Arguments mk_bc {S A}.
Arguments bufs {S A}.
Arguments bdata {S A}.
Arguments bnodes {S A}.
Arguments io {S A}.
Arguments heap {S A}.

Section blocks.
Context {S : Type} `{PortIO S}.

Fixpoint read_blk_loop (n : nat) (patience : nat) (lba : Z) (s : S) : outcome (S * list Z) :=
  match n with
  | O => mret (s, [])
  | Datatypes.S n =>
      '(s, bytes) ← disk_read patience lba s;
      '(s, rest) ← read_blk_loop n patience (u32 (lba + 1)) s;
      mret (s, bytes ++ rest)
  end.

(** disk_read_blk: 1 when the file system is not located yet. *)
Definition disk_read_blk (patience : nat) (g : fs_globals) (block_num : Z) (s : S)
  : outcome (S * option (list Z)) :=
  if negb (fs_start_set g) then mret (s, None)
  else
    let lba := u32 (filesys_start g + u32 (block_num * SECTORS_PER_BLOCK g)) in
    '(s, bytes) ← read_blk_loop (Z.to_nat (SECTORS_PER_BLOCK g)) patience lba s;
    mret (s, Some bytes).

(** The sector loop of disk_write_blk; reading past the buffer is a fault. *)
Fixpoint write_blk_loop (n : nat) (patience : nat) (lba : Z) (buf : list Z) (s : S) : outcome S :=
  match n with
  | O => mret s
  | Datatypes.S n =>
      if decide (length buf < 512)%nat then Fault
      else
        s ← disk_write patience lba buf 512 s;
        write_blk_loop n patience (u32 (lba + 1)) (drop 512 buf) s
  end.
Definition disk_write_blk (patience : nat) (g : fs_globals) (block_num : Z) (buf : list Z) (s : S)
  : outcome S :=
  if negb (fs_start_set g) then mret s
  else
    let lba := u32 (filesys_start g + u32 (block_num * SECTORS_PER_BLOCK g)) in
    write_blk_loop (Z.to_nat (SECTORS_PER_BLOCK g)) patience lba buf s.

Definition disk_write_bn (patience : nat) (g : fs_globals) (block_num : Z) (buf : list Z) (len : Z) (s : S)
  : outcome S :=
  if negb (fs_start_set g) then mret s
  else if S_BLOCK_SIZE g <? len then mret s
  else disk_write patience (u32 (filesys_start g + u32 (block_num * SECTORS_PER_BLOCK g))) buf len s.

End blocks.

(** What memory the allocator hands out held before: neither kmem_cache_alloc
    nor kmalloc clears it. *)
Record ram := mk_ram { ram_head : Z -> buffer_head; ram_byte : Z -> Z }.
Definition fresh_bytes (r : ram) (d : Z) : list Z := (fun k => u8 (ram_byte r (d + k))) <$> seqZ 0 BUFFER_SIZE.

Section cache.
Context {S A : Type} `{PortIO S} `{KAlloc A}.
Variable junk : ram.
Implicit Types st : bcache_st S A.

Definition set_bufs m st := mk_bc m (bdata st) (bnodes st) (io st) (heap st).
Definition set_bdata m st := mk_bc (bufs st) m (bnodes st) (io st) (heap st).
Definition set_bnodes m st := mk_bc (bufs st) (bdata st) m (io st) (heap st).
Definition set_io (d : S) st := mk_bc (bufs st) (bdata st) (bnodes st) d (heap st).
Definition set_heap (a : A) st := mk_bc (bufs st) (bdata st) (bnodes st) (io st) a.

Definition upd_buf (b : Z) (f : buffer_head -> buffer_head) st : outcome (bcache_st S A) :=
  bh ← deref (bufs st !! b); mret (set_bufs (<[b := f bh]> (bufs st)) st).
Definition set_flags v bh := mk_bh v (b_count bh) (b_data bh) (b_dev bh) (b_blocknr bh).
Definition set_id dev blk bh := mk_bh (flags bh) (b_count bh) (b_data bh) dev blk.
Definition on_nodes (f : gmap bnode (list_head bnode) -> outcome (gmap bnode (list_head bnode))) st
  : outcome (bcache_st S A) :=
  h ← f (bnodes st); mret (set_bnodes h st).

(** ** Initialisation *)

Definition binit (b dev blk : Z) st : outcome (bcache_st S A) :=
  st ← upd_buf b (set_flags 0) st;
  '(a, p) ← ka_kmalloc BUFFER_SIZE (heap st);
  let st := set_heap a st in
  st ← upd_buf b (fun bh => mk_bh (flags bh) (b_count bh) p (b_dev bh) (b_blocknr bh)) st;
  match p with
  | None => mret st
  | Some d =>
      let st := set_bdata (<[d := fresh_bytes junk d]> (bdata st)) st in
      st ← upd_buf b (fun bh => mk_bh (flags bh) 0 (b_data bh) dev blk) st;
      st ← on_nodes (INIT_LIST_NULL (Some (BHash b))) st;
      on_nodes (INIT_LIST_NULL (Some (BFree b))) st
  end.

(** A fresh buffer head: its two list nodes come with it. *)
Definition new_buffer (b : Z) st : bcache_st S A :=
  mk_bc (<[b := ram_head junk b]> (bufs st)) (bdata st)
    (<[BHash b := mk_list_head None None]> (<[BFree b := mk_list_head None None]> (bnodes st)))
    (io st) (heap st).

Fixpoint create_loop (n : nat) (iCnt : Z) (c : Z) st : outcome (bcache_st S A) :=
  match n with
  | O => mret st
  | Datatypes.S n =>
      '(a, tmp) ← ka_cache_alloc c (heap st);
      let st := set_heap a st in
      match tmp with
      | None => mret st
      | Some b =>
          st ← binit b DEV_NO iCnt (new_buffer b st);
          index ← hash_fn iCnt DEV_NO;
          st ← on_nodes (list_add (hash_slot index) (Some (BHash b))) st;
          st ← on_nodes (list_add (Some FreeHead) (Some (BFree b))) st;
          create_loop n (iCnt + 1) c st
      end
  end.

Fixpoint init_heads (n : nat) (i : Z) st : outcome (bcache_st S A) :=
  match n with
  | O => mret st
  | Datatypes.S n =>
      st ← on_nodes (INIT_LIST_HEAD (hash_slot i)) st;
      init_heads n (i + 1) st
  end.

(** The body of create_buffer_cache once it has its cache of buffer heads. *)
Definition fill_buffer_cache (c : Z) st : outcome (bcache_st S A) :=
  st ← init_heads (Z.to_nat DEV_NO) 0 st;
  st ← on_nodes (INIT_LIST_HEAD (Some FreeHead)) st;
  create_loop (Z.to_nat BUFFERS) 0 c st.

(** create_buffer_cache up to the diagnostics it ends with. *)
Definition create_buffer_cache st : outcome (bcache_st S A) :=
  '(a, c) ← ka_cache_create sizeof_buffer_head (heap st);
  let st := set_heap a st in
  match c with
  | None => mret st
  | Some c => fill_buffer_cache c st
  end.

(** The block numbers display_buffer_cache prints for one hash queue. *)
Definition display_chain (i : Z) st : outcome (list Z) :=
  l ← list_for_each (size (bnodes st)) (hash_slot i) (bnodes st);
  mapM (fun n => b ← hash_entry n; bh ← deref (bufs st !! b); mret (b_blocknr bh)) l.
Definition display_buffer_cache st : outcome (list (list Z)) :=
  mapM (fun i => display_chain i st) [0; 1; 2; 3].

(** ** Lookup.  A walk longer than the number of nodes never ends. *)

Fixpoint search_chain (fuel : nat) (run head : option bnode) (dev_no blocknr : Z) st
  : outcome (option Z) :=
  if bool_decide (run = head) then mret None
  else match fuel with
       | O => Spin
       | Datatypes.S fuel =>
           n ← deref run;
           b ← hash_entry n;
           bh ← deref (bufs st !! b);
           if (b_blocknr bh =? blocknr) && (b_dev bh =? dev_no) then mret (Some b)
           else nx ← get_next run (bnodes st); search_chain fuel nx head dev_no blocknr st
       end.
Definition search_hash (dev_no blocknr : Z) st : outcome (option Z) :=
  index ← hash_fn blocknr dev_no;
  let head := hash_slot index in
  run ← get_next head (bnodes st);
  search_chain (size (bnodes st)) run head dev_no blocknr st.

Definition locked_buffer (b : Z) st : outcome (bcache_st S A) :=
  upd_buf b (fun bh => set_flags (u16 (SET_FLAG (flags bh) BH_lock)) bh) st.
Definition unlocked_buffer (b : Z) st : outcome (bcache_st S A) :=
  upd_buf b (fun bh => set_flags (u16 (CLEAR_FLAG (flags bh) BH_lock)) bh) st.

(** The data area of a buffer head. *)
Definition data_of (b : Z) st : outcome (Z * list Z) :=
  bh ← deref (bufs st !! b);
  d ← deref (b_data bh);
  bytes ← deref (bdata st !! d);
  mret (d, bytes).

(** ** getblk *)

Fixpoint getblk (fuel patience : nat) (g : fs_globals) (dev_no blocknr : Z) st
  : outcome (bcache_st S A * Z) :=
  match fuel with
  | O => Spin
  | Datatypes.S fuel =>
      found ← search_hash dev_no blocknr st;
      match found with
      | Some b =>
          bh ← deref (bufs st !! b);
          if IS_FLAG (flags bh) BH_lock then getblk fuel patience g dev_no blocknr st
          else
            st ← on_nodes (list_del (Some (BFree b))) st;
            st ← locked_buffer b st;
            mret (st, b)
      | None =>
          empty ← list_is_empty (Some FreeHead) (bnodes st);
          if (empty : bool) then getblk fuel patience g dev_no blocknr st
          else
            first ← get_next (Some FreeHead) (bnodes st);
            n ← deref first;
            b ← free_entry n;
            st ← on_nodes (list_del (Some (BFree b))) st;
            bh ← deref (bufs st !! b);
            if IS_FLAG (flags bh) BH_delay then
              '(_, bytes) ← data_of b st;
              d ← disk_write_blk patience g (b_blocknr bh) bytes (io st);
              st ← upd_buf b (fun bh => set_flags (u16 (CLEAR_FLAG (flags bh) BH_delay)) bh) (set_io d st);
              st ← on_nodes (list_add (Some FreeHead) (Some (BFree b))) st;
              getblk fuel patience g dev_no blocknr st
            else
              st ← on_nodes (list_del (Some (BHash b))) st;
              st ← upd_buf b (set_id dev_no blocknr) st;
              index ← hash_fn dev_no blocknr;
              st ← on_nodes (list_add (hash_slot index) (Some (BHash b))) st;
              st ← locked_buffer b st;
              mret (st, b)
      end
  end.

(** ** brelse, bread, bwrite *)

Definition brelse (b : Z) st : outcome (bcache_st S A) :=
  let st := set_io (asm_cli (io st)) st in
  bh ← deref (bufs st !! b);
  st ← on_nodes
    (if negb (IS_FLAG (flags bh) BH_dirty) && negb (IS_FLAG (flags bh) BH_old)
     then list_add_tail (Some FreeHead) (Some (BFree b))
     else list_add (Some FreeHead) (Some (BFree b))) st;
  let st := set_io (asm_sti (io st)) st in
  unlocked_buffer b st.

Definition bread (fuel patience : nat) (g : fs_globals) (dev_no blocknr : Z) st
  : outcome (bcache_st S A * Z) :=
  '(st, b) ← getblk fuel patience g dev_no blocknr st;
  bh ← deref (bufs st !! b);
  if IS_FLAG (flags bh) BH_dirty then mret (st, b)
  else
    '(d, bytes) ← data_of b st;
    '(s, sector) ← disk_read patience (b_blocknr bh) (io st);
    if decide (length sector <= length bytes)%nat then
      mret (set_bdata (<[d := sector ++ drop (length sector) bytes]> (bdata st)) (set_io s st), b)
    else Fault.

Definition bwrite (patience : nat) (b : Z) st : outcome (bcache_st S A) :=
  bh ← deref (bufs st !! b);
  '(_, bytes) ← data_of b st;
  s ← disk_write patience (b_blocknr bh) bytes BUFFER_SIZE (io st);
  brelse b (set_io s st).

(** ** The self-test: fills block 16, writes it, clears the buffer and reads it
    back; [st] and the text printed after "buffer content ". *)

Definition fill_data (b : Z) (bytes : list Z) st : outcome (bcache_st S A) :=
  '(d, old) ← data_of b st;
  if decide (length bytes <= length old)%nat then
    mret (set_bdata (<[d := bytes ++ drop (length bytes) old]> (bdata st)) st)
  else Fault.
Definition test_pattern : list Z := (fun i => i / 256 + 97) <$> seqZ 0 BUFFER_SIZE.

Definition test_bcache (fuel patience : nat) (g : fs_globals) st : outcome (bcache_st S A * list Z) :=
  '(st, bh) ← getblk fuel patience g DEV_NO 16 st;
  st ← fill_data bh test_pattern st;
  st ← bwrite patience bh st;
  st ← fill_data bh (replicate (Z.to_nat BUFFER_SIZE) 0) st;
  '(st, tmp) ← bread fuel patience g DEV_NO 16 st;
  '(_, bytes) ← data_of tmp st;
  st ← brelse tmp st;
  mret (st, until_nul bytes).

(** The whole of create_buffer_cache, with the display and the self test. *)
Definition create_buffer_cache_tested (fuel patience : nat) (g : fs_globals) st : outcome (bcache_st S A) :=
  '(a, c) ← ka_cache_create sizeof_buffer_head (heap st);
  let st := set_heap a st in
  match c with
  | None => mret st
  | Some c =>
      st ← fill_buffer_cache c st;
      _ ← display_buffer_cache st;
      '(st, _) ← test_bcache fuel patience g st;
      mret st
  end.

Definition test_disk_block (patience : nat) (s : S) : outcome (S * list Z) :=
  let buffer := replicate (Z.to_nat BUFFER_SIZE) 0 in
  '(s, sector) ← disk_read patience 16 s;
  mret (s, until_nul (sector ++ drop (length sector) buffer)).

End cache.
