(* ===== verification/BufferProofs.v ===== *)
(** * The buffer cache: invariant and correctness

    [cache_ok st chains frees]: hash queue [i] holds the buffers [chains i],
    the free list holds [frees] in order; every buffer is on the queue of its
    block number, no block is cached twice, and the free buffers are exactly
    the unlocked ones. *)

From S2P Require Import Prelude ListHead Ports Disk BufferCache.

Section proofs.
Context {S A : Type} `{PortIO S} `{KAlloc A}.
Implicit Types (st : bcache_st S A) (chains : Z -> list Z) (frees : list Z).

Definition queue_of (blk : Z) : Z := blk mod DEV_NO.
Definition cached chains (b : Z) : Prop := exists i, 0 <= i < DEV_NO /\ b ∈ chains i.

Record good_buffer st (i b : Z) (bh : buffer_head) : Prop := {
  gb_buf : bufs st !! b = Some bh;
  gb_dev : b_dev bh = DEV_NO;
  gb_queue : queue_of (b_blocknr bh) = i;
  gb_flags : 0 <= flags bh < 2 ^ 16;
  gb_node : is_Some (bnodes st !! BFree b);
  gb_data : exists d bytes, b_data bh = Some d /\ bdata st !! d = Some bytes /\
    length bytes = Z.to_nat BUFFER_SIZE;
}.

Record cache_ok st chains frees : Prop := {
  ok_chain i : 0 <= i < DEV_NO -> is_list (bnodes st) (HashHead i) (BHash <$> chains i);
  ok_free : is_list (bnodes st) FreeHead (BFree <$> frees);
  ok_buf i b : 0 <= i < DEV_NO -> b ∈ chains i -> exists bh, good_buffer st i b bh;
  ok_uniq b b' bh bh' : cached chains b -> cached chains b' ->
    bufs st !! b = Some bh -> bufs st !! b' = Some bh' -> b_blocknr bh = b_blocknr bh' -> b = b';
  ok_data b b' bh bh' : cached chains b -> cached chains b' ->
    bufs st !! b = Some bh -> bufs st !! b' = Some bh' -> b_data bh = b_data bh' -> b = b';
  ok_lock b bh : cached chains b -> bufs st !! b = Some bh ->
    (b ∈ frees <-> IS_FLAG (flags bh) BH_lock = false);
  ok_sub b : b ∈ frees -> cached chains b;
}.

(** [b] is the buffer of block [blk]. *)
Definition holds st chains (blk b : Z) (bh : buffer_head) : Prop :=
  b ∈ chains (queue_of blk) /\ bufs st !! b = Some bh /\ b_blocknr bh = blk.

Lemma queue_of_range blk : 0 <= queue_of blk < DEV_NO.
Proof. apply Z.mod_pos_bound. unfold DEV_NO. lia. Qed.
Lemma holds_cached st chains blk b bh : holds st chains blk b bh -> cached chains b.
Proof. intros [Hin _]. eexists. split; [apply queue_of_range|done]. Qed.
Lemma hash_slot_queue i : 0 <= i < DEV_NO -> hash_slot i = Some (HashHead i).
Proof. intros. unfold hash_slot. by rewrite decide_True. Qed.

(** ** Lookup *)

Fixpoint find_block (m : gmap Z buffer_head) (l : list Z) (blk : Z) : option Z :=
  match l with
  | [] => None
  | b :: l => match m !! b with
              | Some bh => if b_blocknr bh =? blk then Some b else find_block m l blk
              | None => None
              end
  end.

Lemma search_chain_spec st i l blk fuel :
  path (bnodes st) ((BHash <$> l) ++ [HashHead i]) ->
  (forall b, b ∈ l -> exists bh, bufs st !! b = Some bh /\ b_dev bh = DEV_NO) ->
  (length l <= fuel)%nat ->
  search_chain fuel (Some (default (HashHead i) (head (BHash <$> l)))) (Some (HashHead i)) DEV_NO blk st
  = Ret (find_block (bufs st) l blk).
Proof.
  revert fuel. induction l as [|b l IH]; intros fuel Hp Hb Hf.
  - destruct fuel; cbn [search_chain]; by rewrite bool_decide_eq_true_2.
  - destruct fuel as [|fuel]; [simpl in *; lia|]. cbn [search_chain fmap list_fmap head default].
    rewrite bool_decide_eq_false_2 by done. simpl in Hf.
    destruct (Hb b) as (bh & Hbh & Hdev); [left|]. simpl. rewrite Hbh. simpl.
    rewrite Hdev, Z.eqb_refl, andb_true_r. destruct (_ =? _); [done|].
    assert (Hn : hnext (bnodes st) (BHash b) = Some (default (HashHead i) (head (BHash <$> l))) /\
                 path (bnodes st) ((BHash <$> l) ++ [HashHead i])).
    { destruct l; simpl in *; naive_solver. }
    destruct Hn as [Hn Hp']. rewrite (get_next_hnext _ _ _ Hn). simpl.
    apply IH; [done| |lia]. intros b' Hb'. apply Hb. by right.
Qed.

Lemma search_hash_spec st chains frees blk :
  cache_ok st chains frees ->
  search_hash DEV_NO blk st = Ret (find_block (bufs st) (chains (queue_of blk)) blk).
Proof.
  intros Hok. pose proof (queue_of_range blk) as Hr. pose proof (ok_chain _ _ _ Hok _ Hr) as Hl.
  unfold search_hash. change (hash_fn blk DEV_NO) with (Ret (queue_of blk)).
  cbn [mbind outcome_bind]. rewrite hash_slot_queue by done.
  rewrite (is_list_first _ _ _ Hl). cbn [mbind outcome_bind].
  apply search_chain_spec.
  - destruct Hl as [_ Hp]. destruct (chains (queue_of blk)); [done|]. by destruct Hp as (_ & _ & ?).
  - intros b Hb. destruct (ok_buf _ _ _ Hok _ _ Hr Hb) as (bh & Hg). destruct Hg. eauto.
  - pose proof (is_list_size _ _ _ Hl). rewrite length_fmap in *. lia.
Qed.

Lemma find_block_None m l blk :
  (forall b, b ∈ l -> exists bh, m !! b = Some bh /\ b_blocknr bh <> blk) -> find_block m l blk = None.
Proof.
  induction l as [|b l IH]; intros Hb; simpl; [done|].
  destruct (Hb b) as (bh & -> & Hne); [left|]. apply Z.eqb_neq in Hne. rewrite Hne.
  apply IH. intros. apply Hb. by right.
Qed.

Lemma find_block_Some m l blk b bh :
  (forall b', b' ∈ l -> exists bh', m !! b' = Some bh' /\ (b_blocknr bh' = blk -> b' = b)) ->
  b ∈ l -> m !! b = Some bh -> b_blocknr bh = blk -> find_block m l blk = Some b.
Proof.
  induction l as [|b' l IH]; intros Hl Hb Hbh Hblk; simpl; [by apply not_elem_of_nil in Hb|].
  destruct (Hl b') as (bh' & Hm & Hu); [left|]. rewrite Hm.
  destruct (Z.eqb_spec (b_blocknr bh') blk) as [E|E]; [by rewrite (Hu E)|].
  apply elem_of_cons in Hb as [->|Hb]; [congruence|].
  apply IH; try done. intros. apply Hl. by right.
Qed.

(** search_hash finds the buffer of a cached block, and nothing for the others. *)
Lemma search_hash_hit st chains frees blk b bh :
  cache_ok st chains frees -> holds st chains blk b bh -> search_hash DEV_NO blk st = Ret (Some b).
Proof.
  intros Hok Hh. rewrite (search_hash_spec _ _ _ _ Hok). f_equal.
  pose proof (holds_cached _ _ _ _ _ Hh) as Hc. destruct Hh as (Hb & Hbh & Hblk).
  eapply find_block_Some; [|done..]. intros b' Hb'.
  destruct (ok_buf _ _ _ Hok _ _ (queue_of_range blk) Hb') as (bh' & []).
  exists bh'. split; [done|]. intros E.
  eapply (ok_uniq _ _ _ Hok b' b); eauto; [|congruence].
  eexists. split; [apply (queue_of_range blk)|done].
Qed.

Lemma search_hash_miss st chains frees blk :
  cache_ok st chains frees -> (forall b bh, ~ holds st chains blk b bh) -> search_hash DEV_NO blk st = Ret None.
Proof.
  intros Hok Hh. rewrite (search_hash_spec _ _ _ _ Hok). f_equal. apply find_block_None. intros b Hb.
  destruct (ok_buf _ _ _ Hok _ _ (queue_of_range blk) Hb) as (bh & []).
  exists bh. split; [done|]. intros E. by apply (Hh b bh).
Qed.

(** ** Preservation *)

(** Free-list nodes are not nodes of a hash queue. *)
Lemma queue_not_free i (l : list Z) b (l' : list Z) k :
  k ∈ HashHead i :: (BHash <$> l) -> k ∉ BFree b :: FreeHead :: (BFree <$> l').
Proof.
  rewrite !elem_of_cons, !list_elem_of_fmap. intros [->|(x & -> & _)]; intros [?|[?|(y & ? & _)] ]; done.
Qed.

Lemma queues_frame (h h' : gmap bnode (list_head bnode)) chains b l' :
  (forall i, 0 <= i < DEV_NO -> is_list h (HashHead i) (BHash <$> chains i)) ->
  dom_frame h h' (BFree b :: FreeHead :: (BFree <$> l')) ->
  forall i, 0 <= i < DEV_NO -> is_list h' (HashHead i) (BHash <$> chains i).
Proof. intros Hc Hf i Hi. eapply is_list_frame; [exact Hf| |by apply Hc]. intros k. apply queue_not_free. Qed.

(** One buffer's flags and the free list change. *)
Lemma cache_ok_change st st' chains frees frees' b bh v :
  cache_ok st chains frees -> cached chains b -> bufs st !! b = Some bh ->
  bufs st' = <[b := set_flags v bh]> (bufs st) -> bdata st' = bdata st -> dom (bnodes st') = dom (bnodes st) ->
  (forall i, 0 <= i < DEV_NO -> is_list (bnodes st') (HashHead i) (BHash <$> chains i)) ->
  is_list (bnodes st') FreeHead (BFree <$> frees') -> 0 <= v < 2 ^ 16 ->
  (forall b', b' <> b -> b' ∈ frees' <-> b' ∈ frees) -> (b ∈ frees' <-> IS_FLAG v BH_lock = false) ->
  cache_ok st' chains frees'.
Proof.
  intros Hok Hc Hbh Eb Ed En Hq Hf Hv Hfr Hlk.
  assert (Hold : forall x y, bufs st' !! x = Some y -> exists y0, bufs st !! x = Some y0 /\
    b_blocknr y0 = b_blocknr y /\ b_data y0 = b_data y).
  { intros x y. rewrite Eb, lookup_insert. case_decide; [intros [= <-]; subst; eauto|eauto]. }
  split; try done.
  - intros i x Hi Hx. destruct (ok_buf _ _ _ Hok i x Hi Hx) as (y & [G1 G2 G3 G4 G5 G6]).
    exists (if decide (x = b) then set_flags v y else y).
    case_decide as Ex; [subst x; simplify_eq|]; split; try done; try (rewrite Ed; done);
      try (by apply (in_dom_eq (bnodes st))); rewrite Eb; [by rewrite lookup_insert_eq|by rewrite lookup_insert_ne].
  - intros x x' y y' Hx Hx' Hy Hy' E. destruct (Hold _ _ Hy) as (z & ? & ? & _), (Hold _ _ Hy') as (z' & ? & ? & _).
    eapply (ok_uniq _ _ _ Hok x x'); eauto. congruence.
  - intros x x' y y' Hx Hx' Hy Hy' E. destruct (Hold _ _ Hy) as (z & ? & _ & ?), (Hold _ _ Hy') as (z' & ? & _ & ?).
    eapply (ok_data _ _ _ Hok x x'); eauto. congruence.
  - intros x y Hx. rewrite Eb, lookup_insert. case_decide as Ex; [intros [= <-]; subst x; done|].
    intros Hy. rewrite Hfr by done. by apply (ok_lock _ _ _ Hok).
  - intros x Hx. destruct (decide (x = b)) as [->|Ex]; [done|]. apply (ok_sub _ _ _ Hok). by apply Hfr.
Qed.

(** Data areas and the disk change. *)
Lemma cache_ok_data st st' chains frees d bytes :
  cache_ok st chains frees -> bufs st' = bufs st -> bnodes st' = bnodes st ->
  bdata st' = <[d := bytes]> (bdata st) -> length bytes = Z.to_nat BUFFER_SIZE -> cache_ok st' chains frees.
Proof.
  intros Hok Eb En Ed Hl. split; rewrite ?Eb, ?En; try apply Hok.
  intros i b Hi Hb. destruct (ok_buf _ _ _ Hok i b Hi Hb) as (bh & [G1 G2 G3 G4 G5 (d' & by' & D1 & D2 & D3)]).
  exists bh. split; rewrite ?Eb, ?En; try done. exists d'. rewrite Ed, lookup_insert.
  case_decide; subst; eauto.
Qed.

Lemma cache_ok_io st chains frees s : cache_ok st chains frees -> cache_ok (set_io s st) chains frees.
Proof.
  intros Hok. split; try apply Hok. intros i b Hi Hb.
  destruct (ok_buf _ _ _ Hok i b Hi Hb) as (bh & []). exists bh. by split.
Qed.

(** ** Lock bit *)

Lemma lock_set v : 0 <= v < 2 ^ 16 -> let w := u16 (SET_FLAG v BH_lock) in
  0 <= w < 2 ^ 16 /\ IS_FLAG w BH_lock = true /\ (forall k, 1 <= k < 16 -> Z.testbit w k = Z.testbit v k).
Proof.
  intros Hv w. split; [apply u16_range|].
  assert (Hb : forall k, 0 <= k < 16 -> Z.testbit w k = Z.testbit v k || (k =? 0)).
  { intros k Hk. unfold w, u16, SET_FLAG. rewrite Z.mod_pow2_bits_low by lia. rewrite Z.lor_spec.
    change BH_lock with (2 ^ 0). rewrite testbit_pow2 by lia. by rewrite (Z.eqb_sym 0 k). }
  split; [|intros k Hk; rewrite Hb by lia; destruct (Z.eqb_spec k 0); [lia|by rewrite orb_false_r] ].
  unfold IS_FLAG. apply Z.eqb_eq. change BH_lock with (2 ^ 0). bits_eq k Hk.
  destruct (Z.eqb_spec 0 k) as [<-|]; [|by rewrite andb_false_r]. rewrite Hb by lia. by rewrite orb_true_r.
Qed.

Lemma lock_clear v : 0 <= v < 2 ^ 16 -> let w := u16 (CLEAR_FLAG v BH_lock) in
  0 <= w < 2 ^ 16 /\ IS_FLAG w BH_lock = false /\ (forall k, 1 <= k < 16 -> Z.testbit w k = Z.testbit v k).
Proof.
  intros Hv w. split; [apply u16_range|].
  assert (Hb : forall k, 0 <= k < 16 -> Z.testbit w k = Z.testbit v k && negb (k =? 0)).
  { intros k Hk. unfold w, u16, CLEAR_FLAG, u32. rewrite Z.mod_pow2_bits_low by lia. rewrite Z.land_spec.
    rewrite Z.mod_pow2_bits_low, Z.lnot_spec by lia. change BH_lock with (2 ^ 0).
    rewrite testbit_pow2 by lia. by rewrite (Z.eqb_sym 0 k). }
  split; [|intros k Hk; rewrite Hb by lia; destruct (Z.eqb_spec k 0); [lia|by rewrite andb_true_r] ].
  unfold IS_FLAG. apply Z.eqb_neq. intros E. apply (f_equal (fun x => Z.testbit x 0)) in E.
  change BH_lock with (2 ^ 0) in E. rewrite Z.land_spec, testbit_pow2, Hb in E by lia. simpl in E.
  by rewrite andb_false_r in E.
Qed.

(** ** getblk and brelse *)

Lemma elem_of_fmap_BFree b (l : list Z) : BFree b ∈ BFree <$> l <-> b ∈ l.
Proof. rewrite list_elem_of_fmap. naive_solver. Qed.

Lemma free_NoDup st chains frees : cache_ok st chains frees -> NoDup frees.
Proof.
  intros Hok. destruct (ok_free _ _ _ Hok) as [Hnd _]. apply NoDup_cons in Hnd as [_ Hnd].
  by apply NoDup_fmap_1 in Hnd.
Qed.

Lemma getblk_found st chains l1 b l2 blk bh fuel p g :
  cache_ok st chains (l1 ++ b :: l2) -> holds st chains blk b bh ->
  exists st', getblk (Datatypes.S fuel) p g DEV_NO blk st = Ret (st', b) /\
    cache_ok st' chains (l1 ++ l2) /\
    bufs st' = <[b := set_flags (u16 (SET_FLAG (flags bh) BH_lock)) bh]> (bufs st) /\
    bdata st' = bdata st /\ io st' = io st.
Proof.
  intros Hok Hh. pose proof (holds_cached _ _ _ _ _ Hh) as Hc. pose proof Hh as (Hin & Hbh & Hblk).
  assert (Hfree : b ∈ l1 ++ b :: l2) by (apply elem_of_app; right; left).
  cbn [getblk]. rewrite (search_hash_hit _ _ _ _ _ _ Hok Hh). cbn [mbind outcome_bind]. rewrite Hbh. cbn [deref mbind outcome_bind].
  pose proof (proj1 (ok_lock _ _ _ Hok b bh Hc Hbh) Hfree) as Hlk. rewrite Hlk.
  pose proof (ok_free _ _ _ Hok) as Hf. rewrite fmap_app, fmap_cons in Hf.
  destruct (list_del_spec _ _ _ _ _ Hf) as (h & R & _ & Hf' & Hfr).
  unfold on_nodes. rewrite R. cbn [mbind outcome_bind mret outcome_ret].
  unfold locked_buffer, upd_buf. cbn [bufs set_bnodes]. rewrite Hbh. cbn [deref mbind outcome_bind mret outcome_ret].
  eexists. split; [done|]. split; [|done].
  assert (Hv : 0 <= flags bh < 2 ^ 16).
  { destruct (ok_buf _ _ _ Hok _ b (queue_of_range blk) Hin) as (y & []). by simplify_eq. }
  destruct (lock_set _ Hv) as (Hr & Hs & _).
  pose proof (free_NoDup _ _ _ Hok) as Hnd. apply NoDup_app in Hnd as (_ & Hd1 & Hnd2). apply NoDup_cons in Hnd2 as [Hb2 _].
  rewrite <- fmap_app in Hf', Hfr.
  eapply (cache_ok_change st); try done; [apply Hfr|..].
  - eapply queues_frame; [apply Hok|exact Hfr].
  - intros x Hx. rewrite !elem_of_app, elem_of_cons. naive_solver.
  - rewrite Hs. split; [|done]. rewrite elem_of_app. intros [?|?]; [|done]. exfalso. eapply Hd1; [done|left].
Qed.

Definition stale (bh : buffer_head) : bool := IS_FLAG (flags bh) BH_dirty || IS_FLAG (flags bh) BH_old.

Lemma brelse_spec st chains frees b bh :
  cache_ok st chains frees -> cached chains b -> bufs st !! b = Some bh -> b ∉ frees ->
  exists st', brelse b st = Ret st' /\
    cache_ok st' chains (if stale bh then b :: frees else frees ++ [b]) /\
    bufs st' = <[b := set_flags (u16 (CLEAR_FLAG (flags bh) BH_lock)) bh]> (bufs st) /\
    bdata st' = bdata st /\ io st' = asm_sti (asm_cli (io st)).
Proof.
  intros Hok Hc Hbh Hnf. pose proof Hc as (i & Hi & Hin).
  destruct (ok_buf _ _ _ Hok i b Hi Hin) as (y & [G1 G2 G3 G4 G5 G6]). simplify_eq.
  destruct (lock_clear _ G4) as (Hr & Hs & _). pose proof (ok_free _ _ _ Hok) as Hf.
  assert (Hn : BFree b ∉ FreeHead :: (BFree <$> frees)).
  { rewrite elem_of_cons, elem_of_fmap_BFree. intros [?|?]; done. }
  unfold brelse. cbn [bufs set_io]. rewrite Hbh. cbn [deref mbind outcome_bind].
  rewrite <- negb_orb. fold (stale bh).
  assert (exists h, (if negb (stale bh) then list_add_tail (Some FreeHead) (Some (BFree b))
      else list_add (Some FreeHead) (Some (BFree b))) (bnodes st) = Ret h /\
    is_list h FreeHead (BFree <$> (if stale bh then b :: frees else frees ++ [b])) /\
    dom_frame (bnodes st) h (BFree b :: FreeHead :: (BFree <$> frees))) as (h & R & Hf' & Hfr).
  { destruct (stale bh); cbn [negb].
    - apply (list_add_spec _ _ _ _ Hf Hn G5).
    - destruct (list_add_tail_spec _ _ _ _ Hf Hn G5) as (h & R & Hl & Hfr). exists h.
      rewrite fmap_app. done. }
  unfold on_nodes. cbn [bnodes set_io]. rewrite R. cbn [mbind outcome_bind mret outcome_ret].
  unfold unlocked_buffer, upd_buf. cbn [bufs set_io set_bnodes]. rewrite Hbh. cbn [deref mbind outcome_bind mret outcome_ret].
  eexists. split; [done|]. split; [|done].
  eapply (cache_ok_change st); try done; [apply Hfr|..].
  - eapply queues_frame; [apply Hok|exact Hfr].
  - intros x Hx. destruct (stale bh); rewrite ?elem_of_cons, ?elem_of_app, ?list_elem_of_singleton; naive_solver.
  - rewrite Hs. split; [done|]. intros _. destruct (stale bh); [left|]. apply elem_of_app. right. left.
Qed.

(** getblk on a cached, unlocked block: it returns the buffer of that block,
    locked and off the free list; the other buffers, the data and the disk are
    untouched, and the cache invariant holds again. *)
Theorem getblk_hit_correct st chains frees blk b bh fuel p g :
  cache_ok st chains frees -> holds st chains blk b bh -> IS_FLAG (flags bh) BH_lock = false ->
  exists st' frees', getblk (Datatypes.S fuel) p g DEV_NO blk st = Ret (st', b) /\
    cache_ok st' chains frees' /\ frees ≡ₚ b :: frees' /\
    (exists bh', bufs st' !! b = Some bh' /\ IS_FLAG (flags bh') BH_lock = true /\ b_blocknr bh' = blk) /\
    (forall b', b' <> b -> bufs st' !! b' = bufs st !! b') /\ bdata st' = bdata st /\ io st' = io st.
Proof.
  intros Hok Hh Hlk. pose proof Hh as (Hin & Hbh & Hblk).
  assert (Hf : b ∈ frees) by (apply (ok_lock _ _ _ Hok b bh); eauto using holds_cached).
  apply list_elem_of_split in Hf as (l1 & l2 & ->).
  destruct (getblk_found _ _ _ _ _ _ _ fuel p g Hok Hh) as (st' & R & Hok' & Eb & Ed & Ei).
  exists st', (l1 ++ l2). split_and!; try done.
  - by rewrite Permutation_middle.
  - eexists. rewrite Eb, lookup_insert_eq. split; [done|]. split; [|done].
    apply lock_set. destruct (ok_buf _ _ _ Hok _ b (queue_of_range blk) Hin) as (y & []). by simplify_eq.
  - intros b' Hb'. by rewrite Eb, lookup_insert_ne.
Qed.

(** getblk on a locked buffer polls for ever: nothing inside its loop can
    unlock the buffer, so it returns with no amount of fuel. *)
Theorem getblk_locked_spins st chains frees blk b bh fuel p g :
  cache_ok st chains frees -> holds st chains blk b bh -> IS_FLAG (flags bh) BH_lock = true ->
  getblk fuel p g DEV_NO blk st = Spin.
Proof.
  intros Hok Hh Hlk. induction fuel as [|fuel IH]; [done|]. cbn [getblk].
  rewrite (search_hash_hit _ _ _ _ _ _ Hok Hh). destruct Hh as (_ & Hbh & _).
  cbn [mbind outcome_bind]. rewrite Hbh. cbn [deref mbind outcome_bind]. by rewrite Hlk.
Qed.

(** brelse of a held buffer: it becomes the first free buffer when it is
    dirty or old and the last one otherwise, unlocked; the invariant is kept. *)
Theorem brelse_correct st chains frees b bh :
  cache_ok st chains frees -> cached chains b -> bufs st !! b = Some bh -> b ∉ frees ->
  exists st' bh', brelse b st = Ret st' /\
    cache_ok st' chains (if IS_FLAG (flags bh) BH_dirty || IS_FLAG (flags bh) BH_old
                         then b :: frees else frees ++ [b]) /\
    bufs st' = <[b := bh']> (bufs st) /\ IS_FLAG (flags bh') BH_lock = false /\
    b_blocknr bh' = b_blocknr bh /\ b_data bh' = b_data bh /\ bdata st' = bdata st.
Proof.
  intros Hok Hc Hbh Hnf. destruct (brelse_spec _ _ _ _ _ Hok Hc Hbh Hnf) as (st' & R & Hok' & Eb & Ed & _).
  exists st', (set_flags (u16 (CLEAR_FLAG (flags bh) BH_lock)) bh). split_and!; try done.
  apply lock_clear. destruct Hc as (i & Hi & Hin). destruct (ok_buf _ _ _ Hok i b Hi Hin) as (y & []). by simplify_eq.
Qed.

(** ** bread and bwrite, over an ATA drive *)

Context `{!AtaDevice S}.

Lemma dirty_after_lock v :
  0 <= v < 2 ^ 16 -> IS_FLAG (u16 (SET_FLAG v BH_lock)) BH_dirty = IS_FLAG v BH_dirty.
Proof.
  intros Hv. change BH_dirty with (2 ^ 1). rewrite !is_flag_pow2 by lia. apply lock_set; [done|lia].
Qed.

Lemma data_of_good st i b bh :
  good_buffer st i b bh -> exists d bytes, b_data bh = Some d /\ data_of b st = Ret (d, bytes) /\
    bdata st !! d = Some bytes /\ length bytes = Z.to_nat BUFFER_SIZE.
Proof.
  intros [G1 _ _ _ _ (d & bytes & Hd & Hb & Hl)]. exists d, bytes. split_and!; try done.
  unfold data_of. rewrite G1. cbn [deref mbind outcome_bind]. rewrite Hd. cbn [deref mbind outcome_bind].
  by rewrite Hb.
Qed.

Lemma good_of_holds st chains frees b bh :
  cache_ok st chains frees -> cached chains b -> bufs st !! b = Some bh -> exists i, good_buffer st i b bh.
Proof.
  intros Hok (i & Hi & Hin) Hbh. destruct (ok_buf _ _ _ Hok i b Hi Hin) as (y & G).
  pose proof (gb_buf _ _ _ _ G). simplify_eq. eauto.
Qed.

Lemma data_of_ext b st st' bh v :
  bufs st !! b = Some bh -> bufs st' = <[b := set_flags v bh]> (bufs st) -> bdata st' = bdata st ->
  data_of b st' = data_of b st.
Proof. intros Hb E Ed. unfold data_of. by rewrite E, Ed, lookup_insert_eq, Hb. Qed.

Lemma bread_spec st chains l1 b l2 blk bh d bytes fuel p g :
  cache_ok st chains (l1 ++ b :: l2) -> holds st chains blk b bh -> IS_FLAG (flags bh) BH_dirty = false ->
  (patience_bound <= p)%nat -> 0 <= blk < 2 ^ 28 -> length (disk (view (io st)) blk) = 512%nat ->
  data_of b st = Ret (d, bytes) ->
  exists st', bread (Datatypes.S fuel) p g DEV_NO blk st = Ret (st', b) /\ cache_ok st' chains (l1 ++ l2) /\
    data_of b st' = Ret (d, disk (view (io st)) blk ++ drop 512 bytes) /\
    disk (view (io st')) = disk (view (io st)) /\
    bufs st' = <[b := set_flags (u16 (SET_FLAG (flags bh) BH_lock)) bh]> (bufs st) /\
    bdata st' = <[d := disk (view (io st)) blk ++ drop 512 bytes]> (bdata st).
Proof.
  intros Hok Hh Hdirty Hp Hblk Hlen Hdata.
  destruct (good_of_holds _ _ _ b bh Hok (holds_cached _ _ _ _ _ Hh)) as (i & G); [apply Hh|].
  destruct (data_of_good _ _ _ _ G) as (d' & bytes' & Hd & Hdata' & Hb' & Hl'). simplify_eq.
  rewrite Hdata in Hdata'. injection Hdata' as <- <-.
  destruct (getblk_found _ _ _ _ _ _ _ fuel p g Hok Hh) as (st1 & R & Hok1 & Eb & Ed & Ei).
  unfold bread. rewrite R. cbn [mbind outcome_bind]. rewrite Eb, lookup_insert_eq. cbn [deref mbind outcome_bind].
  cbn [flags set_flags]. rewrite dirty_after_lock, Hdirty by apply G.
  rewrite (data_of_ext b st st1 bh _ (gb_buf _ _ _ _ G) Eb Ed), Hdata. cbn [mbind outcome_bind].
  destruct Hh as (Hin & Hbh & Hblk'). cbn [b_blocknr set_flags]. rewrite Hblk', Ei.
  destruct (disk_read_sector p blk (io st) Hp Hblk) as (s' & -> & Hds). cbn [mbind outcome_bind].
  rewrite Hlen, decide_True by (rewrite Hl'; unfold BUFFER_SIZE; lia).
  eexists. split; [done|]. split; [|split; [|split; [done|split; [done|] ] ] ].
  - eapply (cache_ok_data (set_io s' st1)); try done; [by apply cache_ok_io|].
    rewrite length_app, length_drop, Hlen, Hl'. done.
  - unfold data_of. cbn [bufs bdata set_bdata set_io]. rewrite Eb, lookup_insert_eq. cbn [deref mbind outcome_bind b_data set_flags].
    rewrite Hd. cbn [deref mbind outcome_bind]. by rewrite lookup_insert_eq.
  - cbn [bdata set_bdata set_io]. by rewrite Ed.
Qed.

Lemma sectors_block : sectors BUFFER_SIZE = 2.
Proof. reflexivity. Qed.

Lemma bwrite_spec st chains frees b bh d bytes p :
  cache_ok st chains frees -> cached chains b -> bufs st !! b = Some bh -> b ∉ frees ->
  (patience_bound <= p)%nat -> 0 <= b_blocknr bh -> b_blocknr bh + 2 <= 2 ^ 24 ->
  data_of b st = Ret (d, bytes) ->
  exists st', bwrite p b st = Ret st' /\
    cache_ok st' chains (if stale bh then b :: frees else frees ++ [b]) /\
    bufs st' = <[b := set_flags (u16 (CLEAR_FLAG (flags bh) BH_lock)) bh]> (bufs st) /\
    bdata st' = bdata st /\
    (forall l, disk (view (io st')) l = write_span (b_blocknr bh) bytes BUFFER_SIZE (disk (view (io st))) l).
Proof.
  intros Hok Hc Hbh Hnf Hp Hblk Hblk2 Hdata.
  unfold bwrite. rewrite Hbh. unfold deref. rewrite bind_Ret, Hdata, bind_Ret.
  assert (Hlen : length bytes = Z.to_nat BUFFER_SIZE).
  { destruct (good_of_holds _ _ _ _ _ Hok Hc Hbh) as (i & G). destruct (data_of_good _ _ _ _ G) as (d' & bytes' & _ & Hd' & _ & Hl').
    rewrite Hdata in Hd'. injection Hd' as -> ->. exact Hl'. }
  destruct (disk_write_sectors p (b_blocknr bh) bytes BUFFER_SIZE (io st)) as (s & R & Hd);
    [done|lia|rewrite Hlen; done|rewrite sectors_block; lia|].
  rewrite R, bind_Ret.
  destruct (brelse_spec (set_io s st) chains frees b bh) as (st' & -> & Hok' & Eb & Ed & Ei);
    [by apply cache_ok_io|done..|].
  exists st'. split_and!; try done. intros l. rewrite Ei, dev_sti, dev_cli. apply Hd.
Qed.

Lemma data_of_inv b st d bytes :
  data_of b st = Ret (d, bytes) <->
  exists bh, bufs st !! b = Some bh /\ b_data bh = Some d /\ bdata st !! d = Some bytes.
Proof.
  unfold data_of. split.
  - intros E. inv_outcome. simplify_eq. eauto.
  - intros (bh & E1 & E2 & E3). rewrite E1. unfold deref. rewrite bind_Ret, E2, bind_Ret, E3. done.
Qed.

Lemma fill_data_spec st chains frees b d old bytes :
  cache_ok st chains frees -> data_of b st = Ret (d, old) ->
  length old = Z.to_nat BUFFER_SIZE -> length bytes = Z.to_nat BUFFER_SIZE ->
  exists st', fill_data b bytes st = Ret st' /\ cache_ok st' chains frees /\
    bufs st' = bufs st /\ io st' = io st /\ data_of b st' = Ret (d, bytes).
Proof.
  intros Hok Hd Ho Hb. unfold fill_data. rewrite Hd, bind_Ret, decide_True by lia.
  rewrite drop_ge, app_nil_r by lia. eexists. split; [done|]. split; [|split_and!; try done].
  - by eapply cache_ok_data.
  - apply data_of_inv in Hd as (bh & E1 & E2 & E3). apply data_of_inv. exists bh.
    split_and!; try done. cbn [bdata set_bdata]. by rewrite lookup_insert_eq.
Qed.

Lemma pad_sector_full l : length l = 512%nat -> pad_sector l 512 = l.
Proof.
  intros Hl. unfold pad_sector. change (Z.to_nat (ATA_SECTOR_SIZE - 512)) with O.
  rewrite take_ge by (rewrite Hl; lia). by rewrite app_nil_r.
Qed.
Lemma pad_sector_take l : pad_sector l 512 = take 512 l.
Proof. unfold pad_sector. change (Z.to_nat (ATA_SECTOR_SIZE - 512)) with O. by rewrite app_nil_r. Qed.

(** The two sectors of a 1024-byte block. *)
Lemma write_span_block lba bytes (d : Z -> list Z) l :
  length bytes = Z.to_nat BUFFER_SIZE ->
  write_span lba bytes BUFFER_SIZE d l =
    if decide (l = lba) then take 512 bytes
    else if decide (l = lba + 1) then drop 512 bytes else d l.
Proof.
  intros Hl. unfold write_span, BUFFER_SIZE. destruct (decide (l = lba)) as [->|Hne].
  - rewrite decide_True by lia. rewrite Z.sub_diag, Z.mul_0_r, drop_0. apply pad_sector_take.
  - destruct (decide (l = lba + 1)) as [->|Hne2].
    + rewrite decide_True by lia. replace (lba + 1 - lba) with 1 by lia.
      change (Z.to_nat (512 * 1)) with 512%nat. change (Z.min 512 (1024 - 512 * 1)) with 512.
      apply pad_sector_full. rewrite length_drop, Hl. done.
    + by rewrite decide_False by lia.
Qed.

(** bread of a cached, clean, unlocked block: the first 512 bytes of the
    buffer become disk sector [blk], the other 512 keep what the buffer held;
    the disk does not change. *)
Theorem bread_correct st chains frees blk b bh d bytes fuel p g :
  cache_ok st chains frees -> holds st chains blk b bh -> IS_FLAG (flags bh) BH_lock = false ->
  IS_FLAG (flags bh) BH_dirty = false -> data_of b st = Ret (d, bytes) ->
  (patience_bound <= p)%nat -> 0 <= blk < 2 ^ 28 -> length (disk (view (io st)) blk) = 512%nat ->
  exists st' frees', bread (Datatypes.S fuel) p g DEV_NO blk st = Ret (st', b) /\
    cache_ok st' chains frees' /\ frees ≡ₚ b :: frees' /\
    data_of b st' = Ret (d, disk (view (io st)) blk ++ drop 512 bytes) /\
    disk (view (io st')) = disk (view (io st)).
Proof.
  intros Hok Hh Hlk Hdirty Hdata Hp Hblk Hlen. pose proof Hh as (Hin & Hbh & _).
  assert (Hf : b ∈ frees) by (apply (ok_lock _ _ _ Hok b bh); eauto using holds_cached).
  apply list_elem_of_split in Hf as (l1 & l2 & ->).
  destruct (bread_spec _ _ _ _ _ _ _ _ _ fuel p g Hok Hh Hdirty Hp Hblk Hlen Hdata) as (st' & R & Hok' & Hd & Hv & _).
  exists st', (l1 ++ l2). split_and!; try done. by rewrite Permutation_middle.
Qed.

(** C19. bwrite of a held block [n] writes its two halves to disk sectors [n] and
    [n + 1] - block numbers are used as sector numbers, so the second half
    replaces the sector that block [n + 1] is read from - changes no other
    sector, and releases the buffer. *)
Theorem bwrite_correct st chains frees b bh d bytes p :
  cache_ok st chains frees -> cached chains b -> bufs st !! b = Some bh -> b ∉ frees ->
  data_of b st = Ret (d, bytes) ->
  (patience_bound <= p)%nat -> 0 <= b_blocknr bh -> b_blocknr bh + 2 <= 2 ^ 24 ->
  exists st', bwrite p b st = Ret st' /\
    (exists frees', cache_ok st' chains frees' /\ frees' ≡ₚ b :: frees) /\
    disk (view (io st')) (b_blocknr bh) = take 512 bytes /\
    disk (view (io st')) (b_blocknr bh + 1) = drop 512 bytes /\
    (forall l, l <> b_blocknr bh -> l <> b_blocknr bh + 1 ->
       disk (view (io st')) l = disk (view (io st)) l).
Proof.
  intros Hok Hc Hbh Hnf Hdata Hp Hn Hn2.
  destruct (good_of_holds _ _ _ b bh Hok Hc Hbh) as (i & G).
  destruct (data_of_good _ _ _ _ G) as (d' & bytes' & _ & Hdata' & _ & Hl).
  rewrite Hdata in Hdata'. injection Hdata' as <- <-.
  destruct (bwrite_spec _ _ _ _ _ _ _ _ Hok Hc Hbh Hnf Hp Hn Hn2 Hdata) as (st' & R & Hok' & _ & _ & Hd).
  assert (Hd' := fun l => eq_trans (Hd l) (write_span_block (b_blocknr bh) bytes _ l Hl)).
  exists st'. split; [done|]. split; [|split_and!].
  - eexists. split; [exact Hok'|]. destruct (stale bh); [done|]. by rewrite Permutation_app_comm.
  - by rewrite Hd', decide_True.
  - rewrite Hd', decide_False, decide_True by lia. done.
  - intros l H1 H2. by rewrite Hd', !decide_False.
Qed.

Definition zero_block : list Z := replicate (Z.to_nat BUFFER_SIZE) 0.

Lemma write_clear_read st chains frees blk b bh d bytes fuel p g :
  cache_ok st chains frees -> holds st chains blk b bh -> b ∉ frees -> IS_FLAG (flags bh) BH_dirty = false ->
  data_of b st = Ret (d, bytes) -> (patience_bound <= p)%nat -> 0 <= blk -> blk + 2 <= 2 ^ 24 ->
  exists st1 st2 st3 frees', bwrite p b st = Ret st1 /\ fill_data b zero_block st1 = Ret st2 /\
    bread (Datatypes.S fuel) p g DEV_NO blk st2 = Ret (st3, b) /\
    data_of b st3 = Ret (d, take 512 bytes ++ replicate 512 0) /\
    cache_ok st3 chains frees' /\ (b ∉ frees') /\ is_Some (bufs st3 !! b).
Proof.
  intros Hok Hh Hnf Hdirty Hdata Hp Hn Hn2.
  pose proof (holds_cached _ _ _ _ _ Hh) as Hc. pose proof Hh as (Hin & Hbh & Hblk).
  destruct (good_of_holds _ _ _ b bh Hok Hc Hbh) as (i & G).
  destruct (data_of_good _ _ _ _ G) as (d' & bytes' & _ & Hdata' & _ & Hl).
  rewrite Hdata in Hdata'. injection Hdata' as <- <-.
  destruct (bwrite_spec _ _ _ _ _ d bytes p Hok Hc Hbh Hnf Hp) as (st1 & R1 & Hok1 & Eb1 & Ed1 & Hd); [lia..|done|].
  assert (Hdata1 : data_of b st1 = Ret (d, bytes)) by (rewrite (data_of_ext _ _ _ _ _ Hbh Eb1 Ed1); done).
  destruct (fill_data_spec _ _ _ _ _ _ zero_block Hok1 Hdata1 Hl) as (st2 & R2 & Hok2 & Eb2 & Ei2 & Hdata2);
    [apply length_replicate|].
  set (bh1 := set_flags (u16 (CLEAR_FLAG (flags bh) BH_lock)) bh) in *.
  assert (Hh2 : holds st2 chains blk b bh1).
  { split; [done|]. split; [|done]. rewrite Eb2, Eb1. by rewrite lookup_insert_eq. }
  assert (Hsplit : exists l1 l2, (if stale bh then b :: frees else frees ++ [b]) = l1 ++ b :: l2).
  { destruct (stale bh); [by exists [], frees|by exists frees, []]. }
  destruct Hsplit as (l1 & l2 & El). rewrite El in Hok2.
  assert (Hsec : disk (view (io st2)) blk = take 512 bytes).
  { rewrite Ei2, Hd, write_span_block, Hblk by done. by rewrite decide_True. }
  destruct (bread_spec _ _ _ _ _ blk bh1 d zero_block fuel p g Hok2 Hh2) as (st3 & R3 & Hok3 & Hdata3 & _ & Eb3 & _); try done.
  - cbn [flags set_flags bh1]. change BH_dirty with (2 ^ 1) in *. rewrite is_flag_pow2 in * by lia.
    rewrite (proj2 (proj2 (lock_clear _ (gb_flags _ _ _ _ G)))) by lia. done.
  - lia.
  - rewrite Hsec, length_take, Hl. done.
  - exists st1, st2, st3, (l1 ++ l2). split_and!; try done.
    + rewrite Hdata3, Hsec. reflexivity.
    + pose proof (free_NoDup _ _ _ Hok2) as Hnd. rewrite <- Permutation_middle in Hnd.
      by apply NoDup_cons in Hnd as [? _].
    + rewrite Eb3, lookup_insert_eq. done.
Qed.

(** C20. A block written with bwrite, cleared and read again with bread comes
    back with its first 512 bytes only: bread transfers one sector of the two
    that bwrite writes. *)
Theorem block_roundtrip_half st chains frees blk b bh d bytes fuel p g :
  cache_ok st chains frees -> holds st chains blk b bh -> b ∉ frees -> IS_FLAG (flags bh) BH_dirty = false ->
  data_of b st = Ret (d, bytes) -> (patience_bound <= p)%nat -> 0 <= blk -> blk + 2 <= 2 ^ 24 ->
  exists st', (st ← bwrite p b st; st ← fill_data b zero_block st;
               (bread (Datatypes.S fuel) p g DEV_NO blk st)) = Ret (st', b) /\
    data_of b st' = Ret (d, take 512 bytes ++ replicate 512 0).
Proof.
  intros Hok Hh Hnf Hdirty Hdata Hp Hn Hn2.
  destruct (write_clear_read _ _ _ _ _ _ _ _ fuel p g Hok Hh Hnf Hdirty Hdata Hp Hn Hn2)
    as (st1 & st2 & st3 & frees' & R1 & R2 & R3 & Hd & _).
  exists st3. rewrite R1, bind_Ret, R2, bind_Ret, R3. done.
Qed.

Lemma test_text :
  until_nul (take 512 test_pattern ++ replicate 512 0) = replicate 256 97 ++ replicate 256 98.
Proof. vm_compute. reflexivity. Qed.

(** The boot-time self-test of the cache prints 256 'a's and 256 'b's: the
    'c's and 'd's of the second half of its pattern do not survive. *)
Theorem test_bcache_output st chains frees b bh fuel p g :
  cache_ok st chains frees -> holds st chains 16 b bh -> IS_FLAG (flags bh) BH_lock = false ->
  IS_FLAG (flags bh) BH_dirty = false -> (patience_bound <= p)%nat ->
  exists st', test_bcache (Datatypes.S fuel) p g st = Ret (st', replicate 256 97 ++ replicate 256 98).
Proof.
  intros Hok Hh Hlk Hdirty Hp. pose proof Hh as (Hin & Hbh & Hblk).
  pose proof (holds_cached _ _ _ _ _ Hh) as Hc.
  assert (Hf : b ∈ frees) by (by apply (ok_lock _ _ _ Hok b bh)).
  apply list_elem_of_split in Hf as (l1 & l2 & ->).
  destruct (good_of_holds _ _ _ b bh Hok Hc Hbh) as (i & G).
  destruct (data_of_good _ _ _ _ G) as (d & old & _ & Hdata & _ & Hl).
  destruct (getblk_found _ _ _ _ _ _ _ fuel p g Hok Hh) as (st1 & R1 & Hok1 & Eb1 & Ed1 & Ei1).
  assert (Hdata1 := eq_trans (data_of_ext _ _ _ _ _ Hbh Eb1 Ed1) Hdata).
  destruct (fill_data_spec _ _ _ _ _ _ test_pattern Hok1 Hdata1 Hl) as (st2 & R2 & Hok2 & Eb2 & Ei2 & Hdata2);
    [unfold test_pattern; rewrite length_fmap, length_seqZ; done|].
  destruct (write_clear_read st2 chains (l1 ++ l2) 16 b (set_flags (u16 (SET_FLAG (flags bh) BH_lock)) bh)
    d test_pattern fuel p g) as (st3 & st4 & st5 & frees' & R3 & R4 & R5 & Hd5 & Hok5 & Hnf5 & [bh5 Hbh5]); try done.
  - split; [done|]. split; [by rewrite Eb2, Eb1, lookup_insert_eq|done].
  - pose proof (free_NoDup _ _ _ Hok) as Hnd. rewrite <- Permutation_middle in Hnd. by apply NoDup_cons in Hnd as [? _].
  - cbn [flags set_flags]. rewrite dirty_after_lock by apply G. done.
  - destruct (brelse_spec _ _ _ _ _ Hok5 Hc Hbh5 Hnf5) as (st6 & R6 & _).
    exists st6. unfold test_bcache. rewrite R1, bind_Ret, R2, bind_Ret, R3, bind_Ret.
    change (replicate (Z.to_nat BUFFER_SIZE) 0) with zero_block.
    rewrite R4, bind_Ret, R5, bind_Ret, Hd5, bind_Ret, R6, bind_Ret.
    by rewrite test_text.
Qed.

(** ** A miss *)

Lemma search_hash_None st blk l :
  is_list (bnodes st) (HashHead (queue_of blk)) (BHash <$> l) ->
  (forall b, b ∈ l -> exists bh, bufs st !! b = Some bh /\ b_dev bh = DEV_NO /\ b_blocknr bh <> blk) ->
  search_hash DEV_NO blk st = Ret None.
Proof.
  intros Hl Hb. unfold search_hash. change (hash_fn blk DEV_NO) with (Ret (queue_of blk)).
  rewrite bind_Ret, hash_slot_queue by apply queue_of_range. rewrite (is_list_first _ _ _ Hl), bind_Ret.
  rewrite (search_chain_spec _ _ l).
  - f_equal. apply find_block_None. intros b Hin. destruct (Hb b Hin) as (bh & ? & _ & ?). eauto.
  - destruct Hl as [_ Hp]. destruct l; [done|]. by destruct Hp as (_ & _ & ?).
  - intros b Hin. destruct (Hb b Hin) as (bh & ? & ? & _). eauto.
  - pose proof (is_list_size _ _ _ Hl). rewrite length_fmap in *. lia.
Qed.

(** Slot [DEV_NO mod blk] of the hash table for a block number above DEV_NO. *)
Lemma swapped_hash blk : DEV_NO < blk -> hash_fn DEV_NO blk = Ret DEV_NO /\ hash_slot DEV_NO = Some FreeHead.
Proof.
  intros Hb. split; [|done]. unfold hash_fn. destruct (Z.eqb_spec blk 0); [unfold DEV_NO in Hb; lia|].
  rewrite Z.mod_small by (unfold DEV_NO in *; lia). done.
Qed.

Lemma queue_without chains frees st b bh :
  cache_ok st chains frees -> cached chains b -> bufs st !! b = Some bh ->
  exists l1 l2, chains (queue_of (b_blocknr bh)) = l1 ++ b :: l2 /\
    forall i, 0 <= i < DEV_NO -> b ∈ chains i -> i = queue_of (b_blocknr bh).
Proof.
  intros Hok Hc Hbh. pose proof Hc as (i & Hi & Hin).
  destruct (ok_buf _ _ _ Hok i b Hi Hin) as (y & [G1 _ G3 _ _ _]). simplify_eq.
  apply list_elem_of_split in Hin as (l1 & l2 & E). exists l1, l2. split; [done|].
  intros j Hj Hjn. destruct (ok_buf _ _ _ Hok j b Hj Hjn) as (y' & [? _ ? _ _ _]). congruence.
Qed.

(** Every hash queue survives the move, without the recycled buffer. *)
Lemma recycled_queue st chains b frees bh h1 h2 h3 l1 l2 j :
  let i := queue_of (b_blocknr bh) in
  cache_ok st chains (b :: frees) -> cached chains b -> bufs st !! b = Some bh -> chains i = l1 ++ b :: l2 ->
  dom_frame (bnodes st) h1 (BFree b :: FreeHead :: (BFree <$> frees)) ->
  is_list h2 (HashHead i) (BHash <$> (l1 ++ l2)) ->
  dom_frame h1 h2 (BHash b :: HashHead i :: (BHash <$> (l1 ++ l2))) ->
  dom_frame h2 h3 (BHash b :: FreeHead :: (BFree <$> frees)) -> 0 <= j < DEV_NO ->
  exists l, is_list h3 (HashHead j) (BHash <$> l) /\ forall x, x ∈ l -> x ∈ chains j /\ x <> b.
Proof.
  intros i Hok Hc Hbh El F1 Q2 F2 F3 Hj.
  assert (Hfree : forall l k, b ∉ l -> k ∈ HashHead j :: (BHash <$> l) -> k ∉ BHash b :: FreeHead :: (BFree <$> frees)).
  { intros l k Hb. rewrite !elem_of_cons, !list_elem_of_fmap.
    intros [->|(x & -> & Hx)]; intros [?|[?|(y & ? & _)] ]; simplify_eq; done. }
  destruct (queue_without _ _ _ _ _ Hok Hc Hbh) as (k1 & k2 & _ & Hq).
  destruct (decide (j = i)) as [->|Hne].
  - pose proof (ok_chain _ _ _ Hok _ Hj) as [Hnd _]. rewrite El in Hnd. apply NoDup_cons in Hnd as [_ Hnd].
    apply NoDup_fmap_1 in Hnd. rewrite <- Permutation_middle in Hnd. apply NoDup_cons in Hnd as [Hbn _].
    exists (l1 ++ l2). split.
    + eapply is_list_frame; [exact F3|intros k; by apply Hfree|exact Q2].
    + rewrite El. intros x Hx. split; [|by intros ->]. rewrite elem_of_app, elem_of_cons in *. tauto.
  - assert (Hbn : b ∉ chains j) by (intros Hb; by apply Hne, Hq).
    exists (chains j). split; [|intros x Hx; split; [done|by intros ->] ].
    eapply is_list_frame; [exact F3|intros k; by apply Hfree|].
    eapply is_list_frame; [exact F2| |].
    2:{ eapply is_list_frame; [exact F1| |by apply (ok_chain _ _ _ Hok)]. intros k. apply queue_not_free. }
    intros k. rewrite !elem_of_cons, !list_elem_of_fmap. intros [->|(x & -> & Hx)]; intros [?|[?|(y & Ey & Hy)] ];
      simplify_eq; try done. apply Hne.
    assert (Hyi : y ∈ chains i) by (rewrite El; rewrite elem_of_app, elem_of_cons in *; tauto).
    destruct (ok_buf _ _ _ Hok j y Hj Hx) as (z & []), (ok_buf _ _ _ Hok i y (queue_of_range _) Hyi) as (z' & []).
    congruence.
Qed.

Lemma recycle_spec st chains b frees blk bh fuel p g :
  cache_ok st chains (b :: frees) -> (forall x y, ~ holds st chains blk x y) -> DEV_NO < blk ->
  bufs st !! b = Some bh -> IS_FLAG (flags bh) BH_delay = false ->
  exists st', getblk (Datatypes.S fuel) p g DEV_NO blk st = Ret (st', b) /\
    is_list (bnodes st') FreeHead (BHash b :: (BFree <$> frees)) /\
    search_hash DEV_NO blk st' = Ret None.
Proof.
  intros Hok Hmiss Hblk Hbh Hdelay.
  assert (Hc : cached chains b) by (apply (ok_sub _ _ _ Hok); left).
  pose proof (free_NoDup _ _ _ Hok) as Hnd. apply NoDup_cons in Hnd as [Hbf _].
  destruct (queue_without _ _ _ _ _ Hok Hc Hbh) as (l1 & l2 & El & Hq).
  pose proof (queue_of_range (b_blocknr bh)) as Hr. pose proof (ok_free _ _ _ Hok) as Hf.
  destruct (list_del_spec _ _ [] _ _ Hf) as (h1 & R1 & _ & Hf1 & Hfr1).
  assert (Hq1 := ok_chain _ _ _ Hok _ Hr). rewrite El, fmap_app, fmap_cons in Hq1.
  assert (Hq1' : is_list h1 (HashHead (queue_of (b_blocknr bh))) ((BHash <$> l1) ++ BHash b :: (BHash <$> l2))).
  { eapply is_list_frame; [exact Hfr1| |exact Hq1]. intros k. rewrite <- fmap_cons, <- fmap_app. apply queue_not_free. }
  destruct (list_del_spec _ _ _ _ _ Hq1') as (h2 & R2 & Hn2 & Hq2 & Hfr2).
  assert (Hf2 : is_list h2 FreeHead (BFree <$> frees)).
  { eapply is_list_frame; [exact Hfr2| |exact Hf1]. rewrite <- fmap_app. intros k.
    rewrite !elem_of_cons, !list_elem_of_fmap. intros [->|(x & -> & _)]; intros [?|[?|(y & ? & _)] ]; done. }
  destruct (list_add_spec h2 FreeHead (BFree <$> frees) (BHash b) Hf2) as (h3 & R3 & Hf3 & Hfr3).
  { rewrite elem_of_cons, list_elem_of_fmap. intros [?|(y & ? & _)]; done. }
  { by rewrite Hn2. }
  destruct (swapped_hash blk Hblk) as [Eh Es].
  cbn [getblk]. rewrite (search_hash_miss _ _ _ _ Hok Hmiss), bind_Ret, (list_is_empty_spec _ _ _ Hf), bind_Ret.
  rewrite (is_list_first _ _ _ Hf), bind_Ret. cbn [fmap list_fmap head from_option id deref free_entry].
  unfold mret, outcome_ret. rewrite bool_decide_eq_false_2 by done. rewrite !bind_Ret.
  change (free_entry (BFree b)) with (Ret b : outcome Z). rewrite bind_Ret.
  unfold on_nodes. rewrite R1, !bind_Ret. cbn [bufs set_bnodes]. rewrite Hbh. unfold deref at 1. rewrite bind_Ret, Hdelay.
  cbn [bnodes set_bnodes]. rewrite R2, !bind_Ret.
  unfold upd_buf at 1. cbn [bufs set_bnodes]. rewrite Hbh. unfold deref at 1. rewrite !bind_Ret, Eh, bind_Ret, Es.
  cbn [bnodes set_bnodes set_bufs]. rewrite R3, !bind_Ret.
  unfold locked_buffer, upd_buf. cbn [bufs set_bnodes set_bufs]. rewrite lookup_insert_eq. unfold deref. rewrite !bind_Ret.
  eexists. split; [done|]. split; [exact Hf3|].
  destruct (recycled_queue st chains b frees bh h1 h2 h3 l1 l2 (queue_of blk)) as (l & Hl & Hin);
    rewrite ?fmap_app; try done; [apply queue_of_range|].
  eapply search_hash_None; [exact Hl|]. intros x Hx. destruct (Hin x Hx) as [Hxc Hxb].
  destruct (ok_buf _ _ _ Hok _ _ (queue_of_range blk) Hxc) as (z & [Z1 Z2 Z3 _ _ _]).
  exists z. cbn [bufs set_bufs]. rewrite !lookup_insert_ne by done. split_and!; try done.
  intros E. by apply (Hmiss x z).
Qed.

(** getblk on a block that is not cached (above 4) recycles the first free
    buffer, but files it with the arguments of hash_fn swapped: slot
    [4 mod blk = 4] of the table is the free list itself.  The block can not be
    found again, and the next miss takes the hash node of that buffer for a
    free-list node. *)
Theorem getblk_miss_misfiles st chains b frees blk bh fuel p g :
  cache_ok st chains (b :: frees) -> (forall x y, ~ holds st chains blk x y) -> DEV_NO < blk ->
  bufs st !! b = Some bh -> IS_FLAG (flags bh) BH_delay = false ->
  exists st', getblk (Datatypes.S fuel) p g DEV_NO blk st = Ret (st', b) /\
    is_list (bnodes st') FreeHead (BHash b :: (BFree <$> frees)) /\
    search_hash DEV_NO blk st' = Ret None /\
    forall fuel', getblk (Datatypes.S fuel') p g DEV_NO blk st' = Fault.
Proof.
  intros Hok Hmiss Hblk Hbh Hdelay.
  destruct (recycle_spec _ _ _ _ _ _ fuel p g Hok Hmiss Hblk Hbh Hdelay) as (st' & R & Hl & Hs).
  exists st'. split_and!; try done. intros fuel'. cbn [getblk].
  by rewrite Hs, bind_Ret, (list_is_empty_spec _ _ _ Hl), bind_Ret, (is_list_first _ _ _ Hl).
Qed.

End proofs.

(** ** create_buffer_cache, over an allocator that has room *)

(** What the slab allocator promises: addresses handed out are fresh.  [ka_live]
    are the objects handed out, [ka_cache] the caches that were created, and
    [ka_room a n] says that the allocator can serve [n] more requests.  The slab
    allocator keeps these promises (SlabHeap). *)
Definition KA_MAX : Z := 2048.
Class KAllocSpec (A : Type) `{KAlloc A} := {
  ka_live : A -> Z -> Prop;
  ka_cache : A -> Z -> Prop;
  ka_room : A -> nat -> Prop;
  ka_cache_create_ok : forall size a n, 0 < size <= KA_MAX -> ka_room a (S n) ->
    exists a' c, ka_cache_create size a = Ret (a', Some c) /\ ka_cache a' c /\
    (forall q, ka_live a q -> ka_live a' q) /\ (forall d, ka_cache a d -> ka_cache a' d) /\ ka_room a' n;
  ka_cache_alloc_ok : forall c a n, ka_cache a c -> ka_room a (S n) ->
    exists a' p, ka_cache_alloc c a = Ret (a', Some p) /\ ~ ka_live a p /\ ka_live a' p /\
    (forall q, ka_live a q -> ka_live a' q) /\ (forall d, ka_cache a d -> ka_cache a' d) /\ ka_room a' n;
  ka_kmalloc_ok : forall size a n, 0 < size <= KA_MAX -> ka_room a (S n) ->
    exists a' p, ka_kmalloc size a = Ret (a', Some p) /\ ~ ka_live a p /\ ka_live a' p /\
    (forall q, ka_live a q -> ka_live a' q) /\ (forall d, ka_cache a d -> ka_cache a' d) /\ ka_room a' n;
}.

Section create.
Context {S A : Type} `{PortIO S} `{KAllocSpec A}.
Variable junk : ram.
Implicit Types (st : bcache_st S A) (chains : Z -> list Z) (frees : list Z).

Lemma length_fresh d : length (fresh_bytes junk d) = Z.to_nat BUFFER_SIZE.
Proof. unfold fresh_bytes. by rewrite length_fmap, length_seqZ. Qed.

Lemma fresh_bytes_ok d : Forall (fun b => 0 <= b < 256) (fresh_bytes junk d).
Proof. unfold fresh_bytes. apply Forall_fmap, Forall_forall. intros k _. apply u8_range. Qed.

Lemma binit_spec st b dev blk j n :
  bufs st !! b = Some j -> is_Some (bnodes st !! BHash b) -> is_Some (bnodes st !! BFree b) ->
  ka_room (heap st) (Datatypes.S n) ->
  exists st' d, binit junk b dev blk st = Ret st' /\
    bufs st' = <[b := mk_bh 0 0 (Some d) dev blk]> (bufs st) /\
    bdata st' = <[d := fresh_bytes junk d]> (bdata st) /\
    dom (bnodes st') = dom (bnodes st) /\
    (forall k, k <> BHash b -> k <> BFree b -> bnodes st' !! k = bnodes st !! k) /\
    ~ ka_live (heap st) d /\ ka_live (heap st') d /\ (forall q, ka_live (heap st) q -> ka_live (heap st') q) /\
    (forall c, ka_cache (heap st) c -> ka_cache (heap st') c) /\ ka_room (heap st') n /\ io st' = io st.
Proof.
  intros Hb Hn1 Hn2 Hroom. unfold binit, upd_buf. rewrite Hb. unfold deref. rewrite !bind_Ret.
  cbn [heap set_bufs]. destruct (ka_kmalloc_ok BUFFER_SIZE _ _ ltac:(done) Hroom) as (a' & d & -> & Hd1 & Hd2 & Hm & Hmc & Hr).
  rewrite !bind_Ret. cbn [bufs set_bufs set_heap]. rewrite lookup_insert_eq, !bind_Ret.
  cbn [bufs set_bufs set_bdata]. rewrite lookup_insert_eq, !bind_Ret. unfold on_nodes at 2.
  cbn [bnodes set_bufs set_bdata set_heap]. rewrite INIT_LIST_NULL_spec, !bind_Ret by done. unfold on_nodes.
  cbn [bnodes set_bufs set_bdata set_heap set_bnodes]. rewrite INIT_LIST_NULL_spec, !bind_Ret by by rewrite lookup_insert_ne.
  do 2 eexists. split; [done|]. cbn. split_and!; try done.
  - by rewrite !insert_insert_eq.
  - rewrite !dom_insert_lookup_L; [done|done|]. rewrite lookup_insert_ne; done.
  - intros k Hk1 Hk2. by rewrite !lookup_insert_ne.
Qed.

(** Everything the cache owns is live in the allocator. *)
Record owned st : Prop := {
  ow_buf b : is_Some (bufs st !! b) -> ka_live (heap st) b;
  ow_data d : is_Some (bdata st !! d) -> ka_live (heap st) d;
  ow_node b : is_Some (bnodes st !! BHash b) \/ is_Some (bnodes st !! BFree b) -> ka_live (heap st) b;
}.

Definition push_queue chains (i b : Z) : Z -> list Z := fun j => if decide (j = i) then b :: chains j else chains j.

Lemma cached_push chains i b x : 0 <= i < DEV_NO ->
  cached (push_queue chains i b) x <-> x = b \/ cached chains x.
Proof.
  intros Hi. unfold cached, push_queue. split.
  - intros (j & Hj & Hx). case_decide; [apply elem_of_cons in Hx as [?|?]|]; eauto.
  - intros [->|(j & Hj & Hx)].
    + exists i. split; [done|]. rewrite decide_True by done. left.
    + exists j. split; [done|]. case_decide; [by right|done].
Qed.

(** Linking a fresh buffer of block [n] at the head of its queue and of the free list. *)
Lemma cache_ok_add st st' chains frees b n d :
  let i := queue_of n in
  let bh := mk_bh 0 0 (Some d) DEV_NO n in
  cache_ok st chains frees -> ~ cached chains b ->
  (forall x y, cached chains x -> bufs st !! x = Some y -> b_blocknr y <> n /\ b_data y <> Some d) ->
  bufs st' = <[b := bh]> (bufs st) ->
  bdata st' = <[d := fresh_bytes junk d]> (bdata st) ->
  (forall x, is_Some (bnodes st !! BFree x) -> is_Some (bnodes st' !! BFree x)) -> is_Some (bnodes st' !! BFree b) ->
  (forall j, 0 <= j < DEV_NO -> is_list (bnodes st') (HashHead j) (BHash <$> push_queue chains i b j)) ->
  is_list (bnodes st') FreeHead (BFree <$> (b :: frees)) ->
  cache_ok st' (push_queue chains i b) (b :: frees).
Proof.
  intros i bh Hok Hbc Hnew Eb Ed Hnodes Hbn Hq Hf.
  assert (Hi : 0 <= i < DEV_NO) by apply queue_of_range.
  assert (Hold : forall x y, cached chains x -> bufs st' !! x = Some y -> bufs st !! x = Some y).
  { intros x y Hx. rewrite Eb, lookup_insert_ne; [done|]. by intros ->. }
  assert (Hb' : forall y, bufs st' !! b = Some y -> y = bh) by (intros y; rewrite Eb, lookup_insert_eq; congruence).
  split; try done.
  - intros j x Hj Hx. unfold push_queue in Hx. assert (x = b /\ j = i \/ x ∈ chains j) as [ [-> ->]|Hx'].
    { case_decide; [apply elem_of_cons in Hx as [?|?]; auto|auto]. }
    + exists bh. split; try done; [by rewrite Eb, lookup_insert_eq|]. exists d, (fresh_bytes junk d).
      rewrite Ed, lookup_insert_eq, length_fresh. done.
    + destruct (ok_buf _ _ _ Hok j x Hj Hx') as (y & [G1 G2 G3 G4 G5 (d' & by' & D1 & D2 & D3)]).
      exists y. split; auto; [rewrite Eb, lookup_insert_ne; [done|]; intros <-; apply Hbc; by exists j|].
      clear Hx. exists d'. rewrite Ed, lookup_insert. case_decide; [|by exists by'].
      eexists. split; [done|]. split; [done|]. apply length_fresh.
  - intros x x' y y' Hx Hx' Hy Hy' E. apply (cached_push _ _ _ _ Hi) in Hx as [->|Hx], Hx' as [->|Hx']; try done.
    + apply Hb' in Hy as ->. destruct (Hnew x' y' Hx') as [Hne _]; [by apply Hold|]. by destruct Hne.
    + apply Hb' in Hy' as ->. destruct (Hnew x y Hx) as [Hne _]; [by apply Hold|]. by destruct Hne.
    + eapply (ok_uniq _ _ _ Hok x x'); eauto.
  - intros x x' y y' Hx Hx' Hy Hy' E. apply (cached_push _ _ _ _ Hi) in Hx as [->|Hx], Hx' as [->|Hx']; try done.
    + apply Hb' in Hy as ->. destruct (Hnew x' y' Hx') as [_ Hne]; [by apply Hold|]. by destruct Hne.
    + apply Hb' in Hy' as ->. destruct (Hnew x y Hx) as [_ Hne]; [by apply Hold|]. by destruct Hne.
    + eapply (ok_data _ _ _ Hok x x'); eauto.
  - intros x y Hx Hy. rewrite elem_of_cons. apply (cached_push _ _ _ _ Hi) in Hx as [->|Hx].
    + apply Hb' in Hy as ->. split; [done|by left].
    + rewrite <- (ok_lock _ _ _ Hok x y) by auto. split; [intros [->|?]; [done|done]|by right].
  - intros x Hx. apply cached_push; [done|]. apply elem_of_cons in Hx as [?|?]; [by left|right].
    by apply (ok_sub _ _ _ Hok).
Qed.

(** After [n] rounds of the loop: blocks [0 .. n-1] are cached, clean and free. *)
Record created st chains frees (n : Z) : Prop := {
  cr_ok : cache_ok st chains frees;
  cr_owned : owned st;
  cr_below x y : cached chains x -> bufs st !! x = Some y -> b_blocknr y < n /\ flags y = 0;
  cr_all blk : 0 <= blk < n -> exists b bh, holds st chains blk b bh;
  cr_fresh d bytes : bdata st !! d = Some bytes -> bytes = fresh_bytes junk d;
}.

(** The two insertions at the end of a round. *)
Lemma link_buffer (h0 : gmap bnode (list_head bnode)) chains frees b n :
  (forall i, 0 <= i < DEV_NO -> is_list h0 (HashHead i) (BHash <$> chains i)) ->
  is_list h0 FreeHead (BFree <$> frees) ->
  is_Some (h0 !! BHash b) -> is_Some (h0 !! BFree b) -> ~ cached chains b -> (b ∉ frees) ->
  (forall i j x, 0 <= i < DEV_NO -> 0 <= j < DEV_NO -> x ∈ chains i -> x ∈ chains j -> i = j) ->
  exists h1 h2, list_add (hash_slot (queue_of n)) (Some (BHash b)) h0 = Ret h1 /\
    list_add (Some FreeHead) (Some (BFree b)) h1 = Ret h2 /\ dom h2 = dom h0 /\
    (forall j, 0 <= j < DEV_NO -> is_list h2 (HashHead j) (BHash <$> push_queue chains (queue_of n) b j)) /\
    is_list h2 FreeHead (BFree <$> (b :: frees)).
Proof.
  intros Hq Hf Hn1 Hn2 Hc Hnf Hdis. set (i := queue_of n). assert (Hi : 0 <= i < DEV_NO) by apply queue_of_range.
  rewrite hash_slot_queue by done.
  destruct (list_add_spec _ _ _ (BHash b) (Hq i Hi)) as (h1 & R1 & L1 & F1); [|done|].
  { rewrite elem_of_cons, list_elem_of_fmap. intros [?|(y & ? & Hy)]; simplify_eq. apply Hc. by exists i. }
  assert (Hf1 : is_list h1 FreeHead (BFree <$> frees)).
  { eapply is_list_frame; [exact F1| |exact Hf]. intros k. rewrite !elem_of_cons, !list_elem_of_fmap.
    intros [->|(x & -> & _)]; intros [?|[?|(y & ? & _)] ]; done. }
  destruct (list_add_spec _ _ _ (BFree b) Hf1) as (h2 & R2 & L2 & F2).
  { rewrite elem_of_cons, list_elem_of_fmap. intros [?|(y & ? & Hy)]; simplify_eq; done. }
  { destruct F1 as [D1 _]. by apply (in_dom_eq h0). }
  exists h1, h2. split_and!; try done; [destruct F1 as [D1 _], F2 as [D2 _]; congruence|].
  intros j Hj. eapply is_list_frame; [exact F2|intros k; apply queue_not_free|].
  unfold push_queue. case_decide as Ej; [by subst j|].
  eapply is_list_frame; [exact F1| |by apply Hq]. intros k. rewrite !elem_of_cons, !list_elem_of_fmap.
  intros [->|(x & -> & Hx)]; intros [?|[?|(y & Ey & Hy)] ]; simplify_eq; try done; [by apply Hc; exists j|].
  apply Ej. by eapply Hdis.
Qed.

Lemma queues_disjoint st chains frees : cache_ok st chains frees ->
  forall i j x, 0 <= i < DEV_NO -> 0 <= j < DEV_NO -> x ∈ chains i -> x ∈ chains j -> i = j.
Proof.
  intros Hok i j x Hi Hj Hx Hx'.
  destruct (ok_buf _ _ _ Hok i x Hi Hx) as (z & []), (ok_buf _ _ _ Hok j x Hj Hx') as (z' & []). congruence.
Qed.

Lemma holds_kept st st' chains b n blk x y :
  holds st chains blk x y -> ~ cached chains b -> bufs st' = <[b := n]> (bufs st) ->
  forall i, holds st' (push_queue chains i b) blk x y.
Proof.
  intros Hh Hb E i. assert (x <> b) by (intros ->; eauto using holds_cached).
  destruct Hh as (H1' & H2' & H3'). split; [|by rewrite E, lookup_insert_ne].
  unfold push_queue. case_decide; [by right|done].
Qed.

Lemma create_round st chains frees n m c :
  created st chains frees n -> 0 <= n -> ka_cache (heap st) c -> ka_room (heap st) (Datatypes.S (Datatypes.S m)) ->
  exists st' b chains', (forall k, create_loop junk (Datatypes.S k) n c st = create_loop junk k (n + 1) c st') /\
    created st' chains' (b :: frees) (n + 1) /\ ka_cache (heap st') c /\ ka_room (heap st') m /\ io st' = io st.
Proof.
  intros [Hok [Wb Wd Wn] Hbelow Hall Hz] Hn Hcc Hroom.
  destruct (ka_cache_alloc_ok c _ _ Hcc Hroom) as (a1 & b & E1 & Hb0 & Hb1 & Hm1 & Hc1 & Hr1).
  assert (Hbuf : bufs st !! b = None) by (apply eq_None_not_Some; eauto).
  assert (HnH : bnodes st !! BHash b = None) by (apply eq_None_not_Some; eauto).
  assert (HnF : bnodes st !! BFree b = None) by (apply eq_None_not_Some; eauto).
  assert (Hbc : ~ cached chains b).
  { intros (i & Hi & Hb). destruct (ok_buf _ _ _ Hok i b Hi Hb) as (y & []). congruence. }
  set (st1 := new_buffer junk b (set_heap a1 st)).
  destruct (binit_spec st1 b DEV_NO n (ram_head junk b) m) as (st2 & d & E2 & B2 & D2 & Dm2 & N2 & Hd0 & Hd1 & Hm2 & Hc2 & Hr2 & Hio2).
  { cbn. by rewrite lookup_insert_eq. } { cbn. by rewrite lookup_insert_eq. }
  { cbn. rewrite lookup_insert_ne, lookup_insert_eq; done. } { done. }
  assert (Hnk : forall k, k <> BHash b -> k <> BFree b -> bnodes st2 !! k = bnodes st !! k).
  { intros k K1 K2. rewrite N2 by done. cbn. by rewrite !lookup_insert_ne. }
  assert (Hold : forall hd xs, is_list (bnodes st) hd xs -> is_list (bnodes st2) hd xs).
  { intros hd xs Hl. eapply is_list_agree; [|exact Hl]. intros k Hk.
    pose proof (is_list_in_dom _ _ _ _ Hl Hk) as [v Hv]. apply Hnk; intros ->; congruence. }
  assert (Hn1 : is_Some (bnodes st2 !! BHash b)) by (apply (in_dom_eq _ _ _ Dm2); cbn; by rewrite lookup_insert_eq).
  assert (Hn2 : is_Some (bnodes st2 !! BFree b)).
  { apply (in_dom_eq _ _ _ Dm2). cbn. by rewrite lookup_insert_ne, lookup_insert_eq. }
  destruct (link_buffer (bnodes st2) chains frees b n) as (h1 & h2 & R1 & R2 & Dh & Q2 & F2); try done.
  { intros i Hi. by apply Hold, Hok. } { by apply Hold, Hok. }
  { intros Hf. by apply Hbc, (ok_sub _ _ _ Hok). } { by eapply queues_disjoint. }
  assert (Hmono : forall q, ka_live (heap st) q -> ka_live (heap st2) q) by (intros; apply Hm2; by apply Hm1).
  exists (set_bnodes h2 st2), b, (push_queue chains (queue_of n) b).
  assert (Bst : bufs st2 = <[b := mk_bh 0 0 (Some d) DEV_NO n]> (bufs st)) by (rewrite B2; cbn; by rewrite insert_insert_eq).
  split; [|split; [split|split; [by apply Hc2, Hc1|split; [done|exact Hio2] ] ] ].
  - intros k. cbn [create_loop]. rewrite E1, bind_Ret. fold st1. rewrite E2, bind_Ret.
    change (hash_fn n DEV_NO) with (Ret (queue_of n)). rewrite bind_Ret. unfold on_nodes at 2. rewrite R1, !bind_Ret.
    unfold on_nodes. cbn [bnodes set_bnodes]. by rewrite R2.
  - eapply (cache_ok_add st _ chains frees b n d); try done.
    + intros x y Hx Hy. split; [destruct (Hbelow x y Hx Hy); lia|]. intros E.
      destruct (good_of_holds _ _ _ _ _ Hok Hx Hy) as (i & G). destruct (gb_data _ _ _ _ G) as (d' & by' & G1 & G2 & _).
      simplify_eq. apply Hd0. cbn. apply Hm1, Wd. by rewrite G2.
    + intros x [v Hx]. cbn. apply (in_dom_eq _ _ _ Dh). rewrite Hnk; [by rewrite Hx|done|]. congruence.
    + cbn. by apply (in_dom_eq _ _ _ Dh).
  - split; cbn.
    + intros x. rewrite Bst, lookup_insert. case_decide as Ex; [subst x; intros _; by apply Hm2|eauto].
    + intros x. rewrite D2, lookup_insert. case_decide as Ex; [by subst x|]. cbn. eauto.
    + intros x Hx. destruct (decide (x = b)) as [->|Ex]; [by apply Hm2|]. apply Hmono, Wn.
      destruct Hx as [Hx|Hx]; apply (in_dom_eq _ _ _ (eq_sym Dh)) in Hx; rewrite Hnk in Hx by congruence; eauto.
  - intros x y Hx. cbn. rewrite Bst, lookup_insert. apply cached_push in Hx; [|apply queue_of_range].
    case_decide as Ex; [intros [= <-]; split; [cbn; lia|done]|]. intros Hy. destruct Hx as [?|Hx]; [congruence|].
    destruct (Hbelow x y Hx Hy). split; [lia|done].
  - intros blk Hblk. destruct (decide (blk = n)) as [->|Hne].
    + eexists b, _. split; [|cbn; rewrite Bst, lookup_insert_eq; done].
      unfold push_queue. rewrite decide_True by done. left.
    + destruct (Hall blk) as (x & y & Hh); [lia|]. exists x, y.
      by eapply (holds_kept st).
  - intros x y. cbn. rewrite D2, lookup_insert. case_decide; [intros [= <-]; congruence|apply Hz].
Qed.

Lemma create_loop_spec m k : forall n st chains frees c,
  created st chains frees n -> 0 <= n -> ka_cache (heap st) c -> ka_room (heap st) (2 * k + m) ->
  exists st' chains' frees', create_loop junk k n c st = Ret st' /\
    created st' chains' frees' (n + Z.of_nat k) /\ length frees' = (k + length frees)%nat /\ io st' = io st /\ ka_room (heap st') m.
Proof.
  induction k as [|k IH]; intros n st chains frees c Hcr Hn Hcc Hroom.
  - exists st, chains, frees. rewrite Z.add_0_r. done.
  - destruct (create_round st chains frees n (2 * k + m) c Hcr Hn Hcc) as (st1 & b & chains1 & E & Hcr1 & Hc1 & Hr1 & Hio1).
    { by replace (Datatypes.S (Datatypes.S (2 * k + m))) with (2 * Datatypes.S k + m)%nat by lia. }
    destruct (IH (n + 1) st1 chains1 (b :: frees) c Hcr1) as (st' & chains' & frees' & R & Hcr' & Hl & Hio' & Hm'); [lia|done|done|].
    exists st', chains', frees'. rewrite E, R. split; [done|]. split; [|split; [simpl in Hl; lia|split; [congruence|done] ] ].
    by replace (n + Z.of_nat (Datatypes.S k)) with (n + 1 + Z.of_nat k) by lia.
Qed.

(** The static memory of [struct buffer_cache], before anything runs. *)
Definition boot_nodes : gmap bnode (list_head bnode) :=
  list_to_map ((fun k => (k, mk_list_head None None)) <$>
    [HashHead 0; HashHead 1; HashHead 2; HashHead 3; FreeHead]).
Definition boot_state (s : S) (a : A) : bcache_st S A := mk_bc ∅ ∅ boot_nodes s a.

Definition heads_nodes : gmap bnode (list_head bnode) :=
  list_to_map ((fun k => (k, mk_list_head (Some k) (Some k))) <$>
    [FreeHead; HashHead 3; HashHead 2; HashHead 1; HashHead 0]).

Lemma boot_heads s a :
  (st ← init_heads (Z.to_nat DEV_NO) 0 (boot_state s a); on_nodes (INIT_LIST_HEAD (Some FreeHead)) st)
  = Ret (mk_bc ∅ ∅ heads_nodes s a).
Proof. vm_compute. reflexivity. Qed.

Lemma heads_is_list k :
  k ∈ [FreeHead; HashHead 3; HashHead 2; HashHead 1; HashHead 0] -> is_list heads_nodes k [].
Proof.
  intros Hk. split; [apply NoDup_singleton|]. unfold hnext, hprev. simpl.
  rewrite !elem_of_cons in Hk. destruct_or! Hk; subst; try done. by apply not_elem_of_nil in Hk.
Qed.

Lemma created_boot s a : created (mk_bc ∅ ∅ heads_nodes s a) (fun _ => []) [] 0.
Proof.
  assert (Hno : forall b : Z, ~ cached (fun _ => []) b) by (intros b (i & _ & Hb); by apply not_elem_of_nil in Hb).
  split; [split|split|by intros x y ?%Hno|lia|done]; try (by intros ? ? ? ? ?%Hno); try (by intros ? ? ?%Hno).
  - intros i Hi. apply heads_is_list. unfold DEV_NO in Hi.
    assert (i = 0 \/ i = 1 \/ i = 2 \/ i = 3) as [-> | [-> | [-> | ->] ] ] by lia; rewrite !elem_of_cons; tauto.
  - apply heads_is_list. left.
  - intros i b _ Hb. by apply not_elem_of_nil in Hb.
  - intros b Hb. by apply not_elem_of_nil in Hb.
  - cbn. intros b. rewrite lookup_empty. by intros [? ?].
  - cbn. intros b. rewrite lookup_empty. by intros [? ?].
  - intros b [Hx|Hx]; cbn in Hx; vm_compute in Hx; by destruct Hx.
Qed.

Lemma create_buffer_cache_spec m s a :
  ka_room a (201 + m) ->
  exists st chains frees, create_buffer_cache junk (boot_state s a) = Ret st /\
    created st chains frees BUFFERS /\ length frees = 100%nat /\ io st = s /\ ka_room (heap st) m.
Proof.
  intros Hroom. unfold create_buffer_cache, fill_buffer_cache. cbn [heap boot_state].
  destruct (ka_cache_create_ok sizeof_buffer_head a (200 + m) ltac:(done) Hroom) as (a1 & c & -> & Hc1 & _ & _ & Hr1). rewrite bind_Ret.
  change (set_heap a1 (boot_state s a)) with (boot_state s a1).
  pose proof (boot_heads s a1) as Hb. apply bind_Ret_inv in Hb as (st0 & -> & Hb). rewrite bind_Ret, Hb, bind_Ret.
  destruct (create_loop_spec m (Z.to_nat BUFFERS) 0 _ _ _ c (created_boot s a1)) as (st & chains & frees & R & Hcr & Hl & Hio);
    [done|exact Hc1|exact Hr1|].
  exists st, chains, frees. rewrite R, Hl. done.
Qed.

(** C18. create_buffer_cache, with an allocator that has room for its cache and 200 objects:
    the invariant holds, the 100 buffers are free, and blocks 0 to 99 are cached,
    clean and unlocked - so every later getblk of one of them is a hit. *)
Theorem create_buffer_cache_correct s a :
  ka_room a 201 ->
  exists st chains frees, create_buffer_cache junk (boot_state s a) = Ret st /\
    cache_ok st chains frees /\ length frees = 100%nat /\
    forall blk, 0 <= blk < BUFFERS -> exists b bh, holds st chains blk b bh /\ flags bh = 0.
Proof.
  intros Hroom. destruct (create_buffer_cache_spec 0 s a Hroom) as (st & chains & frees & R & [Hok _ Hb Hall _] & Hl & _).
  exists st, chains, frees. split_and!; try done. intros blk Hblk.
  destruct (Hall blk Hblk) as (b & bh & Hh). exists b, bh. split; [done|].
  pose proof (holds_cached _ _ _ _ _ Hh). destruct Hh as (_ & Hbh & _). by destruct (Hb b bh).
Qed.

End create.

(** ** A bump allocator, for the concrete instances *)

#[export] Instance bump : KAlloc Z := {
  ka_cache_create size a := Ret (a + 1, Some a);
  ka_cache_alloc c a := Ret (a + 1, Some a);
  ka_kmalloc size a := Ret (a + 1, Some a);
}.
#[export] Instance bump_free : KFree Z := { ka_kfree := fun _ a => mret a }.
#[export] Instance bump_spec : KAllocSpec Z.
Proof.
  refine {| ka_live a q := q < a; ka_cache a c := True; ka_room a n := True |}.
  - intros size a n _ _. exists (a + 1), a. split_and!; try done; intros; lia.
  - intros c a n _ _. exists (a + 1), a. split_and!; try done; intros; lia.
  - intros size a n _ _. exists (a + 1), a. split_and!; try done; intros; lia.
Defined.

Definition some_junk : ram := mk_ram (fun _ => mk_bh 0xffff 7 None 9 9) (fun x => x).
Definition no_fs : fs_globals := mk_fsg 0 false 0.

Lemma booted16 : exists (st : bcache_st sim Z) chains frees b bh, cache_ok st chains frees /\
  holds st chains 16 b bh /\ flags bh = 0 /\ io st = sim_start.
Proof.
  destruct (create_buffer_cache_spec some_junk 0 sim_start 1) as (st & chains & frees & _ & [Hok _ Hb Hall _] & _ & Hio & _); [exact I|].
  destruct (Hall 16) as (b & bh & Hh); [done|]. exists st, chains, frees, b, bh. split_and!; try done.
  pose proof (holds_cached _ _ _ _ _ Hh). destruct Hh as (_ & Hbh & _). by destruct (Hb b bh).
Qed.

Lemma held16 : exists (st : bcache_st sim Z) chains frees b bh d bytes, cache_ok st chains frees /\
  holds st chains 16 b bh /\ (b ∉ frees) /\ IS_FLAG (flags bh) BH_lock = true /\
  IS_FLAG (flags bh) BH_dirty = false /\ data_of b st = Ret (d, bytes).
Proof.
  destruct booted16 as (st & chains & frees & b & bh & Hok & Hh & Hfl & _). pose proof Hh as (Hin & Hbh & Hblk).
  pose proof (holds_cached _ _ _ _ _ Hh) as Hc.
  assert (Hf : b ∈ frees) by (apply (ok_lock _ _ _ Hok b bh); try done; rewrite Hfl; done).
  apply list_elem_of_split in Hf as (l1 & l2 & ->).
  destruct (getblk_found st chains l1 b l2 16 bh 0 0 no_fs Hok Hh) as (st1 & _ & Hok1 & Eb & Ed & _).
  assert (Hbh1 : exists bh1, bufs st1 !! b = Some bh1 /\ b_blocknr bh1 = 16 /\ flags bh1 = 1).
  { rewrite Eb, lookup_insert_eq. eexists. split; [done|]. split; [done|]. cbn. rewrite Hfl. done. }
  destruct Hbh1 as (bh1 & Hbh1 & Hblk1 & Hfl1).
  destruct (good_of_holds _ _ _ _ _ Hok1 Hc Hbh1) as (i & G). destruct (data_of_good _ _ _ _ G) as (d & bytes & _ & Hd & _).
  exists st1, chains, (l1 ++ l2), b, bh1, d, bytes. rewrite Hfl1. split_and!; try done.
  pose proof (free_NoDup _ _ _ Hok) as Hnd. rewrite <- Permutation_middle in Hnd. by apply NoDup_cons in Hnd as [? _].
Qed.

Lemma booted_first : exists (st : bcache_st sim Z) chains frees b bh, cache_ok st chains (b :: frees) /\
  (forall x y, ~ holds st chains 200 x y) /\ bufs st !! b = Some bh /\ flags bh = 0.
Proof.
  destruct (create_buffer_cache_spec some_junk 0 sim_start 1) as (st & chains & frees & _ & [Hok _ Hb Hall _] & Hl & Hio & _); [exact I|].
  destruct frees as [|b frees]; [done|].
  assert (Hc : cached chains b) by (apply (ok_sub _ _ _ Hok); left).
  pose proof Hc as (i & Hi & Hin). destruct (ok_buf _ _ _ Hok i b Hi Hin) as (bh & G).
  exists st, chains, frees, b, bh. split_and!; try done; [|apply G|].
  - intros x y Hh. pose proof (holds_cached _ _ _ _ _ Hh) as Hx. destruct Hh as (_ & Hx2 & Hx3).
    destruct (Hb x y Hx Hx2). unfold BUFFERS in *. lia.
  - by destruct (Hb b bh Hc (gb_buf _ _ _ _ G)).
Qed.

Lemma create_buffer_cache_correct_witness :
  exists (st : bcache_st sim Z) chains frees, create_buffer_cache some_junk (boot_state sim_start 1) = Ret st /\
    cache_ok st chains frees /\ length frees = 100%nat /\
    forall blk, 0 <= blk < BUFFERS -> exists b bh, holds st chains blk b bh /\ flags bh = 0.
Proof. apply (create_buffer_cache_correct some_junk sim_start 1). exact I. Defined.

Lemma getblk_hit_correct_witness :
  exists (st st' : bcache_st sim Z) chains frees' b, getblk 1 0 no_fs DEV_NO 16 st = Ret (st', b) /\
    cache_ok st' chains frees'.
Proof.
  destruct booted16 as (st & chains & frees & b & bh & Hok & Hh & Hfl & _).
  destruct (getblk_hit_correct st chains frees 16 b bh 0 0 no_fs Hok Hh) as (st' & frees' & R & Hok' & _);
    [rewrite Hfl; reflexivity|].
  exists st, st', chains, frees', b. split; [exact R|exact Hok'].
Defined.

Lemma getblk_locked_spins_witness : exists st : bcache_st sim Z, getblk 1000 0 no_fs DEV_NO 16 st = Spin.
Proof.
  destruct held16 as (st & chains & frees & b & bh & d & bytes & Hok & Hh & _ & Hlk & _). exists st.
  apply (getblk_locked_spins st chains frees 16 b bh 1000 0 no_fs Hok Hh Hlk).
Defined.

Lemma brelse_correct_witness : exists (st st' : bcache_st sim Z) b chains frees, brelse b st = Ret st' /\
  cache_ok st' chains frees.
Proof.
  destruct held16 as (st & chains & frees & b & bh & d & bytes & Hok & Hh & Hnf & _ & _).
  destruct (brelse_correct st chains frees b bh Hok (holds_cached _ _ _ _ _ Hh)) as (st' & bh' & R & Hok' & _);
    [apply Hh|exact Hnf|].
  exists st, st', b, chains. eexists. split; [exact R|exact Hok'].
Defined.

Lemma bread_correct_witness : exists (st st' : bcache_st sim Z) b d bytes, bread 1 2 no_fs DEV_NO 16 st = Ret (st', b) /\
  data_of b st' = Ret (d, disk (view (io st)) 16 ++ drop 512 bytes).
Proof.
  destruct booted16 as (st & chains & frees & b & bh & Hok & Hh & Hfl & Hio).
  destruct (good_of_holds _ _ _ b bh Hok (holds_cached _ _ _ _ _ Hh)) as (i & G); [apply Hh|].
  destruct (data_of_good _ _ _ _ G) as (d & bytes & _ & Hd & _ & _).
  destruct (bread_correct st chains frees 16 b bh d bytes 0 2 no_fs Hok Hh) as (st' & frees' & R & _ & _ & Hd' & _);
    [rewrite Hfl; reflexivity|rewrite Hfl; reflexivity|exact Hd|simpl; lia|lia|rewrite Hio; apply length_replicate|].
  exists st, st', b, d, bytes. split; [exact R|exact Hd'].
Defined.

Lemma bwrite_correct_witness : exists (st st' : bcache_st sim Z) b bytes, bwrite 2 b st = Ret st' /\
  disk (view (io st')) 16 = take 512 bytes /\ disk (view (io st')) 17 = drop 512 bytes.
Proof.
  destruct held16 as (st & chains & frees & b & bh & d & bytes & Hok & Hh & Hnf & _ & _ & Hd).
  destruct (bwrite_correct st chains frees b bh d bytes 2 Hok (holds_cached _ _ _ _ _ Hh)) as (st' & R & _ & H1 & H2 & _);
    [apply Hh|exact Hnf|exact Hd|simpl; lia|destruct Hh as (_ & _ & ->); lia|destruct Hh as (_ & _ & ->); lia|].
  destruct Hh as (_ & _ & Hblk). rewrite Hblk in H1, H2.
  exists st, st', b, bytes. split; [exact R|]. split; [exact H1|exact H2].
Defined.

Lemma block_roundtrip_half_witness : exists (st st' : bcache_st sim Z) b d bytes,
  (st ← bwrite 2 b st; st ← fill_data b zero_block st; (bread 1 2 no_fs DEV_NO 16 st)) = Ret (st', b) /\
  data_of b st' = Ret (d, take 512 bytes ++ replicate 512 0).
Proof.
  destruct held16 as (st & chains & frees & b & bh & d & bytes & Hok & Hh & Hnf & _ & Hdirty & Hd).
  destruct (block_roundtrip_half st chains frees 16 b bh d bytes 0 2 no_fs Hok Hh Hnf Hdirty Hd) as (st' & R & Hd');
    [simpl; lia|lia|lia|].
  exists st, st', b, d, bytes. split; [exact R|exact Hd'].
Defined.

Lemma test_bcache_output_witness : exists st st' : bcache_st sim Z,
  test_bcache 1 2 no_fs st = Ret (st', replicate 256 97 ++ replicate 256 98).
Proof.
  destruct booted16 as (st & chains & frees & b & bh & Hok & Hh & Hfl & _).
  destruct (test_bcache_output st chains frees b bh 0 2 no_fs Hok Hh) as (st' & R);
    [rewrite Hfl; reflexivity|rewrite Hfl; reflexivity|simpl; lia|].
  exists st, st'. exact R.
Defined.

Lemma getblk_miss_misfiles_witness : exists (st st' : bcache_st sim Z) b,
  getblk 1 0 no_fs DEV_NO 200 st = Ret (st', b) /\ search_hash DEV_NO 200 st' = Ret None /\
  forall fuel', getblk (S fuel') 0 no_fs DEV_NO 200 st' = Fault.
Proof.
  destruct booted_first as (st & chains & frees & b & bh & Hok & Hmiss & Hbh & Hfl).
  destruct (getblk_miss_misfiles st chains b frees 200 bh 0 0 no_fs Hok Hmiss) as (st' & R & _ & Hs & Hf);
    [reflexivity|exact Hbh|rewrite Hfl; reflexivity|].
  exists st, st', b. split; [exact R|]. split; [exact Hs|exact Hf].
Defined.
