(* ===== verification/SlabHeap.v ===== *)
(** * The slab allocator as the allocator of its clients

    The buffer cache and the file systems are proved against the interface
    [KAllocSpec]: fresh objects as long as there is room.  Here the slab
    allocator discharges it, over the whole path of a request: slabs with free
    objects, growth, off-slab descriptors, pages from the buddy system.  Every
    request takes at most two pages, one for a slab and one for a slab of
    descriptors, so [2 * n] free pages are room for [n] requests. *)

From S2P Require Import Prelude ListHead Zone Buddy BuddyInv BuddyProofs BuddyInit BuddySpec Slab SlabProofs SlabInv SlabGrow SlabCreate.
From S2P Require Import BufferCache BufferProofs.

(** An object that the allocator has handed out and not taken back. *)
Definition live_object (s : slab_st) (x : Z) : Prop :=
  exists c k L fr a, cache_inv s c k L fr /\ a ∈ all_slabs L /\ in_use s k fr a x.

Lemma live_used s w x : slab_inv s w -> live_object s x <-> exists c, used s w c x.
Proof.
  intros Hinv. split.
  - intros (c & k & L & fr & a & Hc & Ha & b & Hb & Hx & Hni). destruct (si_cache _ _ Hinv c k (ci_cache _ _ _ _ _ Hc)) as (Hc' & _ & _).
    destruct (cache_inv_det _ _ _ _ _ _ _ _ Hc Hc') as (_ & HL & Hfr). exists c, k, a, b. split_and!; try done.
    + apply Hc.
    + unfold owns. apply elem_of_all_slabs in Ha as [kd Ha]. apply elem_of_all_slabs. exists kd. by rewrite HL.
    + by rewrite Hfr.
  - intros (c & k & a & b & Hk & Ha & Hb & Hx & Hni). destruct (si_cache _ _ Hinv c k Hk) as (Hc & _ & _).
    exists c, k, (w_lists w c), (w_free w), a. split_and!; try done. by exists b.
Qed.

Lemma live_ext s w s' w' x : slab_inv s w -> slab_inv s' w' -> extends s w s' w' -> live_object s x -> live_object s' x.
Proof.
  intros Hinv Hinv' Hext. rewrite (live_used s w), (live_used s' w') by done. intros [c Hc]. exists c. by apply (ex_used _ _ _ _ Hext).
Qed.

(** A cache for objects of at most [KA_MAX] bytes. *)
Definition page_cache (s : slab_st) (c : Z) : Prop := exists k, caches s !! c = Some k /\ gfporder k = 0.

Lemma page_cache_ext s w s' w' c : extends s w s' w' -> page_cache s c -> page_cache s' c.
Proof. intros Hext (k & Hk & Ho). destruct (ex_caches _ _ _ _ Hext c k Hk) as (n & m & Hk'). eexists. split; [exact Hk'|done]. Qed.

Definition slab_room (s : slab_st) (n : nat) : Prop :=
  exists w, slab_inv s w /\ (forall z, z ∈ malloc_sizes -> size_ok s z) /\ 2 * Z.of_nat n <= free_total (w_blocks w).

Section slab_alloc.
Context (junk : Z -> kmem_cache) (call : Z -> Z -> slab_st -> outcome slab_st).
Hypothesis Hjunk : forall c, colour_next (junk c) = 0.

(** The calls of the clients: all of them pass KMALLOC_MINALIGN and
    SLAB_HWCACHE_ALIGN to kmem_cache_create, and no constructor. *)
Instance slab_kalloc : KAlloc slab_st := {
  ka_cache_create size s := kmem_cache_create junk call size KMALLOC_MINALIGN SLAB_HWCACHE_ALIGN None s;
  ka_cache_alloc c s := kmem_cache_alloc call 2 c 0 s;
  ka_kmalloc size s := kmalloc call size 0 s;
}.

Lemma got_room s w c x n s' w' : slab_inv s w -> (forall z, z ∈ malloc_sizes -> size_ok s z) ->
  2 * Z.of_nat (S n) <= free_total (w_blocks w) -> got s w c x 2 s' w' ->
  ~ live_object s x /\ live_object s' x /\ (forall q, live_object s q -> live_object s' q) /\
  (forall d, page_cache s d -> page_cache s' d) /\ slab_room s' n.
Proof.
  intros Hinv Hsz Hroom [G1 G2 G3 G4 G5 G6 G8 G7]. split_and!.
  - rewrite (live_used s w) by done. intros [c' Hu]. by apply (G4 c').
  - apply (live_used s' w'); [done|]. by exists c.
  - intros q. by apply (live_ext s w s' w').
  - intros d. by apply (page_cache_ext s w s' w').
  - exists w'. split_and!; [done| |lia]. intros z Hz. by apply (size_ok_ext s w s' w'), Hsz.
Qed.

Lemma kmalloc_cache s size : (forall z, z ∈ malloc_sizes -> size_ok s z) -> size <= KA_MAX ->
  exists z c k, kmalloc_size malloc_sizes size = Some z /\ cs_cachep s !! z = Some (Some c) /\ caches s !! c = Some k /\
    size <= objsize k /\ gfporder k = 0.
Proof.
  intros Hsz Hs. pose proof (kmalloc_size_best_fit size) as Hb. destruct (kmalloc_size malloc_sizes size) as [z|]; [|unfold KA_MAX in Hs; lia].
  destruct Hb as (Hz & Hle & Hmin). destruct (Hsz z Hz) as (c & k & H1 & H2 & H3 & H4). exists z, c, k. split_and!; try done; [lia|].
  apply H4. apply Hmin; [|done]. unfold malloc_sizes. repeat (first [left|right]).
Qed.

(** The slab allocator keeps the promises of the interface. *)
Instance slab_kalloc_spec : KAllocSpec slab_st.
Proof using junk call Hjunk.
  refine {| ka_live := live_object; ka_cache := page_cache; ka_room := slab_room |}.
  - intros size s n Hs (w & Hinv & Hsz & Hroom). cbn [ka_cache_create slab_kalloc].
    destruct (create_inv junk call Hjunk size SLAB_HWCACHE_ALIGN s w Hinv) as (s' & w' & c & -> & [C1 C2 C3 C4 C5]);
      [unfold KA_MAX in Hs; lia|lia|by vm_compute|]. exists s', c. split; [done|]. split_and!.
    + destruct C3 as (k & K1 & K2 & K3 & K4). exists k. split; [done|]. apply K4. unfold KA_MAX in Hs. lia.
    + intros q. by apply (live_ext s w s' w').
    + intros d. by apply (page_cache_ext s w s' w').
    + exists w'. split_and!; [done| |lia]. intros z Hz. by apply (size_ok_ext s w s' w'), Hsz.
  - intros c s n (k & Hk & Ho) (w & Hinv & Hsz & Hroom). cbn [ka_cache_alloc slab_kalloc].
    destruct (alloc_any call 0 s w c k 0 Hinv Hk Ho) as (s' & w' & x & -> & Hgot); [lia|]. exists s', x. split; [done|].
    by apply (got_room s w c x n s' w').
  - intros size s n Hs (w & Hinv & Hsz & Hroom). cbn [ka_kmalloc slab_kalloc]. unfold kmalloc.
    destruct (kmalloc_cache s size Hsz) as (z & c & k & -> & Hz & Hk & _ & Ho); [lia|]. rewrite Hz. cbn [deref mbind outcome_bind].
    destruct (alloc_any call 0 s w c k 0 Hinv Hk Ho) as (s' & w' & x & -> & Hgot); [lia|]. exists s', x. split; [done|].
    by apply (got_room s w c x n s' w').
Defined.

(** After kmem_cache_init there is room for what the pages allow. *)
Lemma init_slab_room s fl k n : slab_start s fl k -> 16 + 2 * Z.of_nat n <= free_total fl ->
  exists s', init_slab junk call s = Ret s' /\ slab_room s' n.
Proof using Hjunk.
  intros Hst Hroom. destruct (kmem_cache_init_inv junk call Hjunk s fl k Hst) as (s' & w' & R & Hinv & Hsz & Hr); [lia|].
  exists s'. split; [done|]. exists w'. split_and!; [done|done|lia].
Qed.
End slab_alloc.

(** ** Objects in use do not overlap *)

Lemma used_disjoint s w c k x c' k' y : slab_inv s w -> caches s !! c = Some k -> caches s !! c' = Some k' ->
  used s w c x -> used s w c' y -> x <> y -> x + objsize k <= y \/ y + objsize k' <= x.
Proof.
  intros Hinv Hk Hk' (k1 & a & b & H1 & Ha & Hb & Hx & _) (k2 & a' & b' & H2 & Ha' & Hb' & Hy & _) Hne.
  rewrite Hk in H1. injection H1 as <-. rewrite Hk' in H2. injection H2 as <-.
  destruct (si_place _ _ Hinv c k a b Hk Ha Hb) as [_ _ _ P _], (si_place _ _ Hinv c' k' a' b' Hk' Ha' Hb') as [_ _ _ P' _].
  apply elem_of_objs in Hx as (i & Hi & ->), Hy as (j & Hj & ->).
  destruct (si_cache _ _ Hinv c k Hk) as (_ & _ & Hg), (si_cache _ _ Hinv c' k' Hk') as (_ & _ & Hg'). pose proof (ge_obj _ Hg). pose proof (ge_obj _ Hg').
  destruct (decide (a = a')) as [<-|Hna].
  - assert (c = c') as <- by by eapply (si_owner _ _ Hinv). rewrite Hk in Hk'. injection Hk' as <-. rewrite Hb in Hb'. injection Hb' as <-.
    destruct (Z.lt_trichotomy i j) as [Hl|[->|Hl] ]; [left; nia|done|right; nia].
  - pose proof (si_disj _ _ Hinv c k a c' k' a' Hk Hk' Ha Ha' Hna) as Hd.
    assert (0 <= i * objsize k /\ i * objsize k + objsize k <= num k * objsize k) by nia.
    assert (0 <= j * objsize k' /\ j * objsize k' + objsize k' <= num k' * objsize k') by nia. unfold blk_disj, base in *. lia.
Qed.

(** ** A concrete heap over 64 free pages

    [heap64] is the allocator after init_slab, with the descriptor of the cache
    of caches in the image at 0x105000. *)

Definition zone64 : zone_t :=
  mk_zone 0 64 10 10 0 (list_to_map ((fun i => (i, page0 false)) <$> seqZ 0 64)) (list_to_map ((fun k => (k, 0)) <$> seqZ 0 11))
    (list_to_map ((empty_ring ∘ FreeList <$> seqZ 0 11) ++ (empty_ring ∘ Lru <$> seqZ 0 64))).
Definition zone64_ready : zone_t := match init_zone_buddy zone64 with Ret z => z | _ => zone64 end.
Definition blank_cache : kmem_cache := mk_cache 0 0 0 0 0 0 0 0 0 0 None 0 None None.
Definition blank (_ : Z) : kmem_cache := blank_cache.
Definition no_call (_ _ : Z) (s : slab_st) : outcome slab_st := Ret s.
Definition start64 : slab_st := mk_sst zone64_ready 0x105000 {[ 0x105000 := blank_cache ]} ∅ ∅ ∅ ∅.
Definition heap64 : slab_st := match init_slab blank no_call start64 with Ret s => s | _ => start64 end.

Lemma free_total_nonneg fl : 0 <= free_total fl.
Proof.
  unfold free_total. assert (H : forall k, k ∈ seqZ 0 BUDDY_GROUPS -> 0 <= k) by (intros k Hk%elem_of_seqZ; lia).
  induction (seqZ 0 BUDDY_GROUPS) as [|k l IH]; [done|]. cbn [foldr]. pose proof (Z.pow_nonneg 2 k).
  assert (0 <= foldr (fun k acc => Z.of_nat (length (fl k)) * 2 ^ k + acc) 0 l) by (apply IH; intros ? ?; apply H; by right). nia.
Qed.

Lemma zone64_blocks : exists fl, buddy_inv zone64_ready fl /\ 64 <= free_total fl.
Proof.
  assert (Hf : fresh_zone zone64) by (apply fresh_zoneb_ok; by vm_compute).
  destruct (init_zone_buddy_ok zone64 Hf) as (z & fl & R & Hinv & _ & _ & Hfree). exists fl. unfold zone64_ready. rewrite R.
  split; [done|]. assert (E : free_pages z = 64).
  { assert (E : (free_pages <$> match init_zone_buddy zone64 with Ret z => Some z | _ => None end) = Some 64) by by vm_compute.
    rewrite R in E. by injection E. }
  change (free_pages zone64) with 0 in Hfree. rewrite E, Z.add_0_l in Hfree. unfold u32 in Hfree. rewrite Hfree. apply Z.mod_le; [|lia].
  apply free_total_nonneg.
Qed.

Lemma start64_ok fl : buddy_inv zone64_ready fl -> slab_start start64 fl blank_cache.
Proof.
  intros Hinv. split; [exact Hinv|by vm_compute|by vm_compute|reflexivity|reflexivity|]. cbn [cache_cache start64].
  intros (k & i & Hk & Hi & Hc). pose proof (bi_range _ _ Hinv k i Hk Hi) as Hr. unfold covers, pgno in Hc. change ((0x105000 - PAGE_OFFSET) / 4096) with (-786171) in Hc. lia.
Qed.

Lemma heap64_run s : init_slab blank no_call start64 = Ret s -> s = heap64.
Proof. intros R. unfold heap64. by rewrite R. Qed.

Lemma heap64_inv : exists w, slab_inv heap64 w /\ (forall z, z ∈ malloc_sizes -> size_ok heap64 z) /\ 48 <= free_total (w_blocks w).
Proof.
  destruct zone64_blocks as (fl & Hinv & Hfl).
  destruct (kmem_cache_init_inv blank no_call ltac:(done) start64 fl blank_cache (start64_ok fl Hinv)) as (s & w & R & Hw & Hsz & Hr); [lia|].
  rewrite <-(heap64_run s) by done. exists w. split_and!; [done|done|lia].
Qed.

#[global] Opaque zone64_ready start64 heap64.

(** C2. kmem_cache_alloc from any cache with slabs of one page, as long as two pages
    are free: the cache grows when it has no free object, with the descriptor
    of the new slab on the slab or in the descriptor cache.  The object is new,
    everything in use stays in use, and no two objects in use overlap,
    whichever caches they are from. *)
Theorem kmem_cache_alloc_never_overlaps call s w c k flags :
  slab_inv s w -> caches s !! c = Some k -> gfporder k = 0 -> 2 <= free_total (w_blocks w) ->
  exists s' w' x, kmem_cache_alloc call 2 c flags s = Ret (s', Some x) /\ slab_inv s' w' /\ used s' w' c x /\
    (forall c' y, used s w c' y -> y <> x /\ used s' w' c' y) /\
    (forall c1 k1 y1 c2 k2 y2, caches s' !! c1 = Some k1 -> caches s' !! c2 = Some k2 -> used s' w' c1 y1 -> used s' w' c2 y2 ->
       y1 <> y2 -> y1 + objsize k1 <= y2 \/ y2 + objsize k2 <= y1).
Proof.
  intros Hinv Hk Ho Hroom. destruct (alloc_any call 0 s w c k flags Hinv Hk Ho Hroom) as (s' & w' & x & R & [G1 G2 G3 G4 G5 G6 G8 G7]).
  exists s', w', x. split_and!; try done.
  - intros c' y Hy. split; [|by apply (ex_used _ _ _ _ G2)]. intros ->. by apply (G4 c').
  - intros. by eapply (used_disjoint s' w').
Qed.

Lemma kmem_cache_alloc_never_overlaps_witness :
  exists w k s' w' x, slab_inv heap64 w /\ caches heap64 !! 0x105000 = Some k /\ kmem_cache_alloc no_call 2 0x105000 0 heap64 = Ret (s', Some x) /\
    used s' w' 0x105000 x.
Proof.
  destruct heap64_inv as (w & Hinv & _ & Hroom). destruct (si_cc _ _ Hinv) as (k & Hk & Hs).
  assert (Ec : cache_cache heap64 = 0x105000) by by vm_compute. rewrite Ec in Hk.
  destruct (kmem_cache_alloc_never_overlaps no_call heap64 w 0x105000 k 0 Hinv Hk (sc_order _ _ Hs) ltac:(lia)) as (s' & w' & x & R & _ & Hu & _).
  exists w, k, s', w', x. split; [exact Hinv|]. split; [exact Hk|]. split; [exact R|exact Hu].
Defined.

(** C9. kmem_cache_init, given a zone in the invariant of the buddy system with 16
    free pages: all general caches exist, the whole allocator is in its
    invariant, and at most 16 pages are gone. *)
Theorem kmem_cache_init_correct junk call s fl k :
  (forall c, colour_next (junk c) = 0) -> slab_start s fl k -> 16 <= free_total fl ->
  exists s' w', init_slab junk call s = Ret s' /\ slab_inv s' w' /\ (forall z, z ∈ malloc_sizes -> size_ok s' z) /\
    free_total fl - 16 <= free_total (w_blocks w').
Proof. intros Hj. exact (kmem_cache_init_inv junk call Hj s fl k). Qed.

Lemma kmem_cache_init_correct_witness :
  exists fl w', slab_start start64 fl blank_cache /\ 64 <= free_total fl /\ init_slab blank no_call start64 = Ret heap64 /\ slab_inv heap64 w'.
Proof.
  destruct zone64_blocks as (fl & Hinv & Hfl).
  destruct (kmem_cache_init_correct blank no_call start64 fl blank_cache ltac:(done) (start64_ok fl Hinv) ltac:(lia)) as (s & w & R & Hw & _).
  rewrite <-(heap64_run s R). exists fl, w. split; [by apply start64_ok|]. split; [exact Hfl|]. split; [exact R|exact Hw].
Defined.

(** C10. kmem_cache_create of a cache for objects of up to 128 KB, as long as a page
    is free: the descriptor is a new object of the cache of caches, all caches
    and all objects in use stay, and the objects of the new cache are large
    enough. *)
Theorem kmem_cache_create_correct junk call size flags s w :
  (forall c, colour_next (junk c) = 0) -> slab_inv s w -> 1 <= size <= 131072 -> 0 < free_total (w_blocks w) ->
  (off_slab flags = true -> desc_cache s) ->
  exists s' w' c k, kmem_cache_create junk call size KMALLOC_MINALIGN flags None s = Ret (s', Some c) /\ slab_inv s' w' /\
    caches s !! c = None /\ caches s' !! c = Some k /\ size <= objsize k < size + 11 /\ used s' w' (cache_cache s') c /\
    (forall c' y, used s w c' y -> used s' w' c' y) /\ (forall c', is_Some (caches s !! c') -> is_Some (caches s' !! c')).
Proof.
  intros Hj Hinv Hs Hroom Hoff. destruct (create_inv junk call Hj size flags s w Hinv Hs Hroom Hoff) as (s' & w' & c & R & [C1 C2 (k & K1 & K2 & K3 & K4) C4 C5]).
  destruct (create_size_bounds size) as [_ Hb]; [lia|]. exists s', w', c, k. split_and!; try done; try lia.
  - apply (si_desc _ _ C1 c k K1). rewrite (ex_cc _ _ _ _ C2). intros ->. destruct (si_cc _ _ Hinv) as (kc & Hkc & _). congruence.
  - apply C2.
  - intros c' [k' Hk']. destruct (ex_caches _ _ _ _ C2 c' k' Hk') as (n & m & E). eauto.
Qed.

Lemma kmem_cache_create_correct_witness :
  exists w s' w' c k, slab_inv heap64 w /\
    kmem_cache_create blank no_call 152 KMALLOC_MINALIGN SLAB_HWCACHE_ALIGN None heap64 = Ret (s', Some c) /\ slab_inv s' w' /\
    caches s' !! c = Some k /\ 152 <= objsize k < 163.
Proof.
  destruct heap64_inv as (w & Hinv & _ & Hroom).
  destruct (kmem_cache_create_correct blank no_call 152 SLAB_HWCACHE_ALIGN heap64 w ltac:(done) Hinv ltac:(lia) ltac:(lia) ltac:(done))
    as (s' & w' & c & k & R & Hi' & _ & Hk & Hs & _).
  exists w, s', w', c, k. split; [exact Hinv|]. split; [exact R|]. split; [exact Hi'|]. split; [exact Hk|lia].
Defined.

(** C11. Every object leads back to its slab and to its cache, so that kfree and
    kmem_cache_free find the right ones. *)
Theorem object_knows_its_slab s w c x : slab_inv s w -> used s w c x ->
  virt_to_cache x (szone s) = Ret c /\ exists a, owns w c a /\ virt_to_slab x (szone s) = Ret a.
Proof.
  intros Hinv (k & a & b & Hk & Ha & Hb & Hx & _). pose proof (obj_page s w Hinv c k a b x Hk Ha Hb Hx) as Hcov.
  destruct (si_place _ _ Hinv c k a b Hk Ha Hb) as [P1 _ P3 P4 _]. pose proof (si_present _ _ Hinv) as Hpr.
  assert (Ev : virt_to_page (szone s) x = pgno x).
  { unfold pgno. set (q := (x - PAGE_OFFSET) / 4096). pose proof (Z.div_mod (x - PAGE_OFFSET) 4096 ltac:(lia)) as Hd.
    pose proof (Z.mod_pos_bound (x - PAGE_OFFSET) 4096 ltac:(lia)). fold q in Hd. unfold covers, pgno in Hcov. fold q in Hcov.
    replace x with (PAGE_OFFSET + q * 4096 + (x - PAGE_OFFSET) mod 4096) by lia. apply virt_to_page_addr; [apply Hinv|lia|lia]. }
  destruct (P3 _ Hcov) as [(p & Hp & Hfp) _]. assert (Hfirst : covers (w_page w a) (gfporder k) (w_page w a)).
  { unfold covers. destruct (si_cache _ _ Hinv c k Hk) as (_ & _ & Hg). pose proof (ge_order _ Hg). pow2 (gfporder k). lia. }
  destruct (P3 _ Hfirst) as [(p0 & Hp0 & Hf0) Hn0].
  unfold virt_to_cache, virt_to_slab, virt_to_head_page, compound_head. rewrite Ev, Hp. cbn [deref mbind outcome_bind]. rewrite Hfp. cbn [deref mbind outcome_bind].
  unfold page_get_cache, page_get_slab, compound_head. rewrite Hp0. cbn [deref mbind outcome_bind]. rewrite Hf0. cbn [deref mbind outcome_bind].
  unfold get_next, get_prev. cbn [deref mbind outcome_bind]. rewrite Hn0. cbn. split; [done|]. by exists a.
Qed.

Lemma object_knows_its_slab_witness :
  exists w c a, slab_inv heap64 w /\ cs_cachep heap64 !! 64 = Some (Some c) /\ used heap64 w 0x105000 c /\
    virt_to_cache c (szone heap64) = Ret 0x105000 /\ virt_to_slab c (szone heap64) = Ret a.
Proof.
  destruct heap64_inv as (w & Hinv & Hsz & _). destruct (Hsz 64) as (c & k & Hc & Hk & _); [unfold malloc_sizes; repeat (first [left|right])|].
  assert (Ec : cache_cache heap64 = 0x105000) by by vm_compute.
  assert (Hu : used heap64 w 0x105000 c).
  { rewrite <-Ec. apply (si_desc _ _ Hinv c k Hk). rewrite Ec. intros ->.
    assert (E : bool_decide (cs_cachep heap64 !! 64 = Some (Some 0x105000)) = false) by by vm_compute.
    exact (proj1 (bool_decide_eq_false _) E Hc). }
  destruct (object_knows_its_slab heap64 w 0x105000 c Hinv Hu) as (Hv & a & _ & Ha). exists w, c, a. split; [exact Hinv|]. split; [exact Hc|]. split; [exact Hu|]. split; [exact Hv|exact Ha].
Defined.
