(* ===== verification/Blocks.v ===== *)
(** * The buffer cache as its clients see it

    A file system uses bread, brelse and bwrite on the blocks the cache was
    created with.  [quiet st buf dat busy mem] is the view of that client: block
    [blk] has buffer [buf blk] with data area [dat blk] holding the bytes
    [mem blk], the blocks of [busy] are held by the client and the others are
    free.  The lemmas are the three operations on this view. *)

From S2P Require Import Prelude ListHead Ports Disk BufferCache BufferProofs.

Section cache_heap.
Context {S A : Type} `{PortIO S} `{KAlloc A}.
Implicit Types st : bcache_st S A.

(** Once created, the cache allocates nothing. *)
Lemma on_nodes_heap f st st' : on_nodes f st = Ret st' -> heap st' = heap st.
Proof. by intros (h & _ & [= <-])%bind_Ret_inv. Qed.
Lemma upd_buf_heap b f st st' : upd_buf b f st = Ret st' -> heap st' = heap st.
Proof. by intros (h & _ & [= <-])%bind_Ret_inv. Qed.

Ltac heap_steps := repeat match goal with
  | H : mbind _ _ = Ret _ |- _ => apply bind_Ret_inv in H as (? & ? & H)
  | H : on_nodes _ _ = Ret _ |- _ => apply on_nodes_heap in H
  | H : upd_buf _ _ _ = Ret _ |- _ => apply upd_buf_heap in H
  | H : locked_buffer _ _ = Ret _ |- _ => apply upd_buf_heap in H
  | H : unlocked_buffer _ _ = Ret _ |- _ => apply upd_buf_heap in H
  | H : mret _ = Ret _ |- _ => injection H as <-
  | H : mret _ = Ret _ |- _ => injection H as <- <-
  | H : Fault = Ret _ |- _ => discriminate H
  | H : (let '(_, _) := ?x in _) = Ret _ |- _ => destruct x
  end.

Lemma getblk_heap fuel p g dev blk : forall st st' b, getblk fuel p g dev blk st = Ret (st', b) -> heap st' = heap st.
Proof.
  induction fuel as [|fuel IH]; intros st st' b; cbn [getblk]; [done|]. intros E. apply bind_Ret_inv in E as (found & _ & E). destruct found as [q|].
  - apply bind_Ret_inv in E as (bh & _ & E). destruct (IS_FLAG _ _); [by eapply IH|]. heap_steps. cbn in *. congruence.
  - apply bind_Ret_inv in E as (e & _ & E). destruct e; [by eapply IH|].
    apply bind_Ret_inv in E as (first & _ & E). apply bind_Ret_inv in E as (n & _ & E). apply bind_Ret_inv in E as (q & _ & E).
    apply bind_Ret_inv in E as (st1 & H1 & E). apply on_nodes_heap in H1. apply bind_Ret_inv in E as (bh & _ & E). destruct (IS_FLAG _ _).
    + heap_steps. apply IH in E. cbn in *. congruence.
    + heap_steps. cbn in *. congruence.
Qed.

Lemma brelse_heap b st st' : brelse b st = Ret st' -> heap st' = heap st.
Proof. unfold brelse. intros E. heap_steps. cbn in *. congruence. Qed.
Lemma fill_data_heap b l st st' : fill_data b l st = Ret st' -> heap st' = heap st.
Proof. unfold fill_data. intros E. heap_steps. case_decide; [|done]. heap_steps. done. Qed.
Lemma bwrite_heap p b st st' : bwrite p b st = Ret st' -> heap st' = heap st.
Proof. unfold bwrite. intros E. heap_steps. apply brelse_heap in E. done. Qed.
Lemma bread_heap fuel p g dev blk st st' b : bread fuel p g dev blk st = Ret (st', b) -> heap st' = heap st.
Proof.
  unfold bread. intros E. apply bind_Ret_inv in E as ([st1 q] & H1 & E). apply getblk_heap in H1.
  apply bind_Ret_inv in E as (bh & _ & E). destruct (IS_FLAG _ _); [by heap_steps|]. heap_steps. case_decide; [|done]. by heap_steps.
Qed.
Lemma test_bcache_heap fuel p g st st' l : test_bcache fuel p g st = Ret (st', l) -> heap st' = heap st.
Proof.
  unfold test_bcache. intros E. apply bind_Ret_inv in E as ([st1 q] & H1 & E). apply getblk_heap in H1.
  apply bind_Ret_inv in E as (st2 & H2 & E). apply fill_data_heap in H2. apply bind_Ret_inv in E as (st3 & H3 & E). apply bwrite_heap in H3.
  apply bind_Ret_inv in E as (st4 & H4 & E). apply fill_data_heap in H4. apply bind_Ret_inv in E as ([st5 t] & H5 & E). apply bread_heap in H5.
  apply bind_Ret_inv in E as ([d l'] & _ & E). apply bind_Ret_inv in E as (st6 & H6 & E). apply brelse_heap in H6. heap_steps. congruence.
Qed.
Lemma cache_ok_heap st chains frees a : cache_ok st chains frees -> cache_ok (set_heap a st) chains frees.
Proof.
  intros Hok. split; try apply Hok. intros i b Hi Hb. destruct (ok_buf _ _ _ Hok i b Hi Hb) as (bh & []). exists bh. by split.
Qed.
End cache_heap.

Section blocks.
Context {S A : Type} `{PortIO S} `{KAlloc A} `{!AtaDevice S}.
Implicit Types (st : bcache_st S A) (buf dat : Z -> Z) (busy : gset Z) (mem : Z -> list Z).

Definition quiet st buf dat busy mem : Prop :=
  exists chains frees, cache_ok st chains frees /\
    forall blk, 0 <= blk < BUFFERS -> exists bh, holds st chains blk (buf blk) bh /\
      flags bh = (if decide (blk ∈ busy) then 1 else 0) /\ b_data bh = Some (dat blk) /\
      bdata st !! dat blk = Some (mem blk).

(** The memory with the bytes of one block replaced. *)
Definition upd (mem : Z -> list Z) (blk : Z) (bytes : list Z) : Z -> list Z :=
  fun n => if decide (n = blk) then bytes else mem n.

Lemma upd_eq mem blk bytes : upd mem blk bytes blk = bytes.
Proof. unfold upd. by rewrite decide_True. Qed.
Lemma upd_ne mem blk bytes n : n <> blk -> upd mem blk bytes n = mem n.
Proof. intros. unfold upd. by rewrite decide_False. Qed.

Lemma quiet_data_of st buf dat busy mem blk :
  quiet st buf dat busy mem -> 0 <= blk < BUFFERS ->
  data_of (buf blk) st = Ret (dat blk, mem blk) /\ bdata st !! dat blk = Some (mem blk) /\
  length (mem blk) = Z.to_nat BUFFER_SIZE.
Proof.
  intros (chains & frees & Hok & Hall) Hblk. destruct (Hall blk Hblk) as (bh & Hh & _ & Hd & Hm).
  assert (Hdata : data_of (buf blk) st = Ret (dat blk, mem blk)).
  { apply data_of_inv. exists bh. split; [apply Hh|done]. }
  split; [done|]. split; [done|].
  destruct (good_of_holds _ _ _ _ bh Hok (holds_cached _ _ _ _ _ Hh)) as (i & G); [apply Hh|].
  destruct (data_of_good _ _ _ _ G) as (d & bytes & _ & Hdata' & _ & Hl). congruence.
Qed.

Lemma quiet_dat_inj st buf dat busy mem b1 b2 :
  quiet st buf dat busy mem -> 0 <= b1 < BUFFERS -> 0 <= b2 < BUFFERS -> dat b1 = dat b2 -> b1 = b2.
Proof.
  intros (chains & frees & Hok & Hall) H1' H2' E.
  destruct (Hall b1 H1') as (h1 & Hh1 & _ & Hd1 & _), (Hall b2 H2') as (h2 & Hh2 & _ & Hd2 & _).
  assert (buf b1 = buf b2) as Eb.
  { apply (ok_data _ _ _ Hok _ _ h1 h2); try (by eapply holds_cached); [apply Hh1|apply Hh2|congruence]. }
  destruct Hh1 as (_ & G1 & <-), Hh2 as (_ & G2 & <-). congruence.
Qed.

Lemma quiet_buf_inj st buf dat busy mem b1 b2 :
  quiet st buf dat busy mem -> 0 <= b1 < BUFFERS -> 0 <= b2 < BUFFERS -> buf b1 = buf b2 -> b1 = b2.
Proof.
  intros (chains & frees & Hok & Hall) H1' H2' E.
  destruct (Hall b1 H1') as (h1 & (_ & G1 & <-) & _), (Hall b2 H2') as (h2 & (_ & G2 & <-) & _). congruence.
Qed.

(** A new view from an old one: one buffer head and the data areas may change. *)
Lemma quiet_change st st' chains frees buf dat busy busy' mem mem' blk bh v :
  cache_ok st' chains frees -> 0 <= blk < BUFFERS -> quiet st buf dat busy mem ->
  (forall n, 0 <= n < BUFFERS -> exists bh, holds st chains n (buf n) bh /\
      flags bh = (if decide (n ∈ busy) then 1 else 0) /\ b_data bh = Some (dat n) /\
      bdata st !! dat n = Some (mem n)) ->
  bufs st !! buf blk = Some bh -> bufs st' = <[buf blk := set_flags v bh]> (bufs st) ->
  v = (if decide (blk ∈ busy') then 1 else 0) ->
  (forall n, n <> blk -> n ∈ busy' <-> n ∈ busy) ->
  (forall n, 0 <= n < BUFFERS -> bdata st' !! dat n = Some (mem' n)) ->
  quiet st' buf dat busy' mem'.
Proof.
  intros Hok Hblk Hq Hall Hbh Eb Hv Hbusy Hmem. exists chains, frees. split; [done|]. intros n Hn.
  destruct (Hall n Hn) as (h & (Hin & Hb & Hnr) & Hf & Hd & _). destruct (decide (n = blk)) as [->|Hne].
  - assert (h = bh) as -> by congruence. exists (set_flags v bh).
    split; [split; [done|split; [by rewrite Eb, lookup_insert_eq|done] ]|]. by split; [|split; [|auto] ].
  - exists h. split; [split; [done|split; [|done] ]|].
    + rewrite Eb, lookup_insert_ne; [done|]. intros E. apply Hne. symmetry. by eapply quiet_buf_inj.
    + split; [|split; [done|auto] ]. rewrite Hf. rewrite (decide_ext _ _ _ _ (Hbusy n Hne)). done.
Qed.

Lemma quiet_getblk st buf dat busy mem blk fuel p g :
  quiet st buf dat busy mem -> 0 <= blk < BUFFERS -> blk ∉ busy ->
  exists st', getblk (Datatypes.S fuel) p g DEV_NO blk st = Ret (st', buf blk) /\
    quiet st' buf dat ({[blk]} ∪ busy) mem /\ io st' = io st.
Proof.
  intros Hq Hblk Hbusy. pose proof Hq as (chains & frees & Hok & Hall).
  destruct (Hall blk Hblk) as (bh & Hh & Hf & Hd & Hm). rewrite decide_False in Hf by done. pose proof Hh as (Hin & Hbh & Hnr).
  assert (Hfree : buf blk ∈ frees) by (apply (ok_lock _ _ _ Hok _ bh); [by eapply holds_cached|done|by rewrite Hf]).
  apply list_elem_of_split in Hfree as (l1 & l2 & ->).
  destruct (getblk_found _ _ _ _ _ _ _ fuel p g Hok Hh) as (st' & R & Hok' & Eb & Ed & Ei).
  exists st'. split; [done|]. split; [|done].
  eapply (quiet_change st st' _ _ buf dat busy _ mem _ blk bh); try done.
  - rewrite Hf, decide_True by set_solver. done.
  - set_solver.
  - intros n Hn. rewrite Ed. by destruct (Hall n Hn) as (? & _ & _ & _ & <-).
Qed.

Lemma quiet_bread st buf dat busy mem blk fuel p g :
  quiet st buf dat busy mem -> 0 <= blk < BUFFERS -> blk ∉ busy ->
  (patience_bound <= p)%nat -> length (disk (view (io st)) blk) = 512%nat ->
  exists st', bread (Datatypes.S fuel) p g DEV_NO blk st = Ret (st', buf blk) /\
    quiet st' buf dat ({[blk]} ∪ busy) (upd mem blk (disk (view (io st)) blk ++ drop 512 (mem blk))) /\
    disk (view (io st')) = disk (view (io st)).
Proof.
  intros Hq Hblk Hbusy Hp Hlen. pose proof Hq as (chains & frees & Hok & Hall).
  destruct (Hall blk Hblk) as (bh & Hh & Hf & Hd & Hm). rewrite decide_False in Hf by done.
  pose proof Hh as (Hin & Hbh & Hnr).
  assert (Hfree : buf blk ∈ frees) by (apply (ok_lock _ _ _ Hok _ bh); [by eapply holds_cached|done|by rewrite Hf]).
  apply list_elem_of_split in Hfree as (l1 & l2 & ->).
  destruct (quiet_data_of _ _ _ _ _ _ Hq Hblk) as (Hdata & _ & _).
  destruct (bread_spec _ _ _ _ _ blk bh (dat blk) (mem blk) fuel p g Hok Hh) as (st' & R & Hok' & Hd' & Hv & Eb & Ed);
    [by rewrite Hf|done|unfold BUFFERS in Hblk; lia|done|exact Hdata|].
  exists st'. split; [done|]. split; [|done].
  eapply (quiet_change st st' _ _ buf dat busy _ mem _ blk bh); try done.
  - rewrite Hf, decide_True by set_solver. done.
  - set_solver.
  - intros n Hn. rewrite Ed. unfold upd. case_decide as E; [subst; by rewrite lookup_insert_eq|].
    destruct (Hall n Hn) as (? & _ & _ & _ & <-). apply lookup_insert_ne. intros E'.
    apply E. symmetry. by eapply (quiet_dat_inj st).
Qed.

(** A block the client holds cannot be taken again: bread waits for ever. *)
Lemma quiet_bread_held st buf dat busy mem blk fuel p g :
  quiet st buf dat busy mem -> 0 <= blk < BUFFERS -> blk ∈ busy -> bread fuel p g DEV_NO blk st = Spin.
Proof.
  intros (chains & frees & Hok & Hall) Hblk Hbusy. destruct (Hall blk Hblk) as (bh & Hh & Hf & _).
  unfold bread. rewrite (getblk_locked_spins st chains frees blk _ bh fuel p g Hok Hh); [done|].
  rewrite Hf. by rewrite decide_True.
Qed.

Lemma quiet_held st buf dat busy mem blk chains frees bh :
  cache_ok st chains frees -> holds st chains blk (buf blk) bh -> flags bh = (if decide (blk ∈ busy) then 1 else 0) ->
  blk ∈ busy -> (buf blk ∉ frees) /\ stale bh = false /\ u16 (CLEAR_FLAG (flags bh) BH_lock) = 0.
Proof.
  intros Hok Hh Hf Hb. rewrite decide_True in Hf by done. unfold stale. rewrite Hf.
  split; [|done]. intros Hfr. apply (ok_lock _ _ _ Hok _ bh) in Hfr; [by rewrite Hf in Hfr|by eapply holds_cached|apply Hh].
Qed.

Lemma quiet_brelse st buf dat busy mem blk :
  quiet st buf dat busy mem -> 0 <= blk < BUFFERS -> blk ∈ busy ->
  exists st', brelse (buf blk) st = Ret st' /\ quiet st' buf dat (busy ∖ {[blk]}) mem /\
    disk (view (io st')) = disk (view (io st)).
Proof.
  intros Hq Hblk Hbusy. pose proof Hq as (chains & frees & Hok & Hall).
  destruct (Hall blk Hblk) as (bh & Hh & Hf & Hd & Hm).
  destruct (quiet_held _ buf dat busy mem _ _ _ _ Hok Hh Hf Hbusy) as (Hnf & Hst & Hcl). pose proof Hh as (Hin & Hbh & Hnr).
  destruct (brelse_spec _ _ _ _ bh Hok (holds_cached _ _ _ _ _ Hh) Hbh Hnf) as (st' & R & Hok' & Eb & Ed & Ei).
  exists st'. split; [done|]. split; [|rewrite Ei, dev_sti, dev_cli; done].
  eapply (quiet_change st st' _ _ buf dat busy _ mem _ blk bh); try done.
  - rewrite Hcl, decide_False by set_solver. done.
  - set_solver.
  - intros n Hn. rewrite Ed. by destruct (Hall n Hn) as (? & _ & _ & _ & <-).
Qed.

(** Taking a block and giving it back. *)
Lemma held_now (blk : Z) busy : blk ∈ ({[blk]} ∪ busy : gset Z).
Proof. set_solver. Qed.
Lemma released (blk : Z) busy : blk ∉ busy -> ({[blk]} ∪ busy) ∖ {[blk]} = busy.
Proof. set_solver. Qed.

(** bwrite: sectors [blk] and [blk + 1] get the two halves. *)
Definition two_sectors (blk : Z) (bytes : list Z) (d : Z -> list Z) (l : Z) : list Z :=
  if decide (l = blk) then take 512 bytes else if decide (l = blk + 1) then drop 512 bytes else d l.

Lemma quiet_bwrite st buf dat busy mem blk p :
  quiet st buf dat busy mem -> 0 <= blk < BUFFERS -> blk ∈ busy -> (patience_bound <= p)%nat ->
  exists st', bwrite p (buf blk) st = Ret st' /\ quiet st' buf dat (busy ∖ {[blk]}) mem /\
    (forall l, disk (view (io st')) l = two_sectors blk (mem blk) (disk (view (io st))) l).
Proof.
  intros Hq Hblk Hbusy Hp. pose proof Hq as (chains & frees & Hok & Hall).
  destruct (Hall blk Hblk) as (bh & Hh & Hf & Hd & Hm).
  destruct (quiet_held _ buf dat busy mem _ _ _ _ Hok Hh Hf Hbusy) as (Hnf & Hst & Hcl). pose proof Hh as (Hin & Hbh & Hnr).
  destruct (quiet_data_of _ _ _ _ _ _ Hq Hblk) as (Hdata & _ & Hl).
  destruct (bwrite_spec _ _ _ _ bh (dat blk) (mem blk) p Hok (holds_cached _ _ _ _ _ Hh) Hbh Hnf Hp) as (st' & R & Hok' & Eb & Ed & Ei);
    [unfold BUFFERS in *; lia..|done|].
  exists st'. split; [done|]. split; [|intros l; rewrite Ei, write_span_block, Hnr by done; done].
  eapply (quiet_change st st' _ _ buf dat busy _ mem _ blk bh); try done.
  - rewrite Hcl, decide_False by set_solver. done.
  - set_solver.
  - intros n Hn. rewrite Ed. by destruct (Hall n Hn) as (? & _ & _ & _ & <-).
Qed.

(** A store through a pointer into the data of a block. *)
Lemma quiet_store st buf dat busy mem blk bytes :
  quiet st buf dat busy mem -> 0 <= blk < BUFFERS -> length bytes = Z.to_nat BUFFER_SIZE ->
  quiet (set_bdata (<[dat blk := bytes]> (bdata st)) st) buf dat busy (upd mem blk bytes).
Proof.
  intros Hq Hblk Hl. pose proof Hq as (chains & frees & Hok & Hall). exists chains, frees.
  split; [by eapply cache_ok_data|]. intros n Hn. destruct (Hall n Hn) as (h & Hh & Hf & Hd & Hm).
  exists h. split; [done|]. split; [done|]. split; [done|]. cbn [bdata set_bdata]. unfold upd.
  destruct (decide (n = blk)) as [->|E]; [by rewrite lookup_insert_eq|]. rewrite lookup_insert_ne; [done|].
  intros E'. apply E. symmetry. by eapply quiet_dat_inj.
Qed.

Lemma quiet_set_io st buf dat busy mem s : quiet st buf dat busy mem -> quiet (set_io s st) buf dat busy mem.
Proof.
  intros (chains & frees & Hok & Hall). exists chains, frees. split; [by apply cache_ok_io|]. apply Hall.
Qed.

Lemma quiet_set_heap st buf dat busy mem a : quiet st buf dat busy mem -> quiet (set_heap a st) buf dat busy mem.
Proof.
  intros (chains & frees & Hok & Hall). exists chains, frees. split; [by apply cache_ok_heap|apply Hall].
Qed.

Lemma quiet_ext st buf dat busy busy' mem mem' :
  quiet st buf dat busy mem -> busy = busy' -> (forall n, 0 <= n < BUFFERS -> mem n = mem' n) ->
  quiet st buf dat busy' mem'.
Proof.
  intros (chains & frees & Hok & Hall) <- Hm. exists chains, frees. split; [done|]. intros n Hn.
  rewrite <- Hm by done. by apply Hall.
Qed.

End blocks.

(** After create_buffer_cache the client holds nothing. *)
Lemma quiet_boot {S A : Type} `{PortIO S} `{KAllocSpec A} `{!AtaDevice S} junk m (s : S) (a : A) :
  ka_room a (201 + m) ->
  exists st buf dat, create_buffer_cache junk (boot_state s a) = Ret st /\ quiet st buf dat ∅ (fun blk => fresh_bytes junk (dat blk)) /\ io st = s /\ ka_room (heap st) m.
Proof.
  intros Hroom. destruct (create_buffer_cache_spec junk m s a Hroom) as (st & chains & frees & R & [Hok _ Hb Hall Hz] & _ & Hio & Hrm).
  assert (forall blk, exists b d, 0 <= blk < BUFFERS -> exists bh, holds st chains blk b bh /\ flags bh = 0 /\
    b_data bh = Some d /\ bdata st !! d = Some (fresh_bytes junk d)) as Hex.
  { intros blk. destruct (decide (0 <= blk < BUFFERS)) as [Hblk|]; [|by exists 0, 0].
    destruct (Hall blk Hblk) as (b & bh & Hh). pose proof (holds_cached _ _ _ _ _ Hh) as Hc.
    destruct (good_of_holds _ _ _ _ bh Hok Hc) as (i & G); [apply Hh|].
    destruct (data_of_good _ _ _ _ G) as (d & bytes & Hd & _ & Hm & _). exists b, d. intros _. exists bh.
    split; [done|]. split; [|split; [done|by rewrite <- (Hz _ _ Hm)] ].
    destruct (Hb b bh) as [_ E]; [done|apply Hh|done]. }
  (* the views of the blocks 0 to 99, collected into functions *)
  assert (forall k, exists buf dat, forall blk, 0 <= blk < Z.of_nat k -> blk < BUFFERS -> exists bh,
    holds st chains blk (buf blk) bh /\ flags bh = 0 /\ b_data bh = Some (dat blk : Z) /\
    bdata st !! dat blk = Some (fresh_bytes junk (dat blk))) as Hfun.
  { induction k as [|k (buf & dat & IH)]; [exists (fun _ => 0), (fun _ => 0); lia|].
    destruct (Hex (Z.of_nat k)) as (b & d & Hk).
    exists (fun n => if decide (n = Z.of_nat k) then b else buf n),
      (fun n => if decide (n = Z.of_nat k) then d else dat n).
    intros blk Hblk Hlt. cbn. case_decide as E; [subst; apply Hk; lia|apply IH; lia]. }
  destruct (Hfun (Z.to_nat BUFFERS)) as (buf & dat & Hv).
  exists st, buf, dat. split; [done|]. split; [|done]. exists chains, frees. split; [done|].
  intros blk Hblk. rewrite decide_False by set_solver. apply Hv; lia.
Qed.

(** On a machine whose memory is clear, for the concrete instances. *)
Definition clear_ram : ram := mk_ram (fun _ => mk_bh 0 0 None 0 0) (fun _ => 0).

Lemma quiet_boot_clear {S A : Type} `{PortIO S} `{KAllocSpec A} `{!AtaDevice S} m (s : S) (a : A) :
  ka_room a (201 + m) ->
  exists st buf dat, create_buffer_cache clear_ram (boot_state s a) = Ret st /\ quiet st buf dat ∅ (fun _ => zero_block) /\ io st = s /\ ka_room (heap st) m.
Proof. exact (quiet_boot clear_ram m s a). Qed.
