(* ===== verification/Layout.v ===== *)
(** * C structs as bytes

    A block of the buffer cache is an array of bytes; the file system casts
    pointers into it to struct types.  [pack] and [unpack] give the bytes of a
    sequence of little-endian fields, by the list of their widths; [d_inode]
    and [ufs_super_block] of include/ufs.h are instances. *)

From S2P Require Import Prelude.

(** ** Little-endian fields *)

Fixpoint le (n : nat) (v : Z) : list Z :=
  match n with
  | O => []
  | S n => v mod 256 :: le n (v / 256)
  end.
Fixpoint of_le (l : list Z) : Z :=
  match l with
  | [] => 0
  | b :: l => b + 256 * of_le l
  end.

Fixpoint pack (ws : list nat) (vs : list Z) : list Z :=
  match ws, vs with
  | w :: ws, v :: vs => le w v ++ pack ws vs
  | _, _ => []
  end.
Fixpoint unpack (ws : list nat) (bytes : list Z) : list Z :=
  match ws with
  | [] => []
  | w :: ws => of_le (take w bytes) :: unpack ws (drop w bytes)
  end.

(** The bytes at [off], and storing there; outside the object it is a fault. *)
Definition read_at (off n : nat) (bytes : list Z) : outcome (list Z) :=
  if decide (off + n <= length bytes)%nat then mret (take n (drop off bytes)) else Fault.
Definition write_at (off : nat) (new bytes : list Z) : outcome (list Z) :=
  if decide (off + length new <= length bytes)%nat
  then mret (take off bytes ++ new ++ drop (off + length new) bytes) else Fault.

(** ** C strings

    A string argument is the list of its characters without the NUL; an array
    of char holds one if it has a NUL.  [c_string] reads the array up to it,
    [name_matches] is [!strcmp] of an array and a string, [str_array] is
    strncpy of a string over the first [n - 1] bytes of an array of [n] bytes
    and a NUL in the last.  Running off the end of an array is a fault. *)

Fixpoint c_string (arr : list Z) : outcome (list Z) :=
  match arr with
  | [] => Fault
  | c :: arr => if c =? 0 then mret [] else s ← c_string arr; mret (c :: s)
  end.
Fixpoint name_matches (nm fname : list Z) : outcome bool :=
  match nm with
  | [] => Fault
  | c :: nm =>
      match fname with
      | [] => mret (c =? 0)
      | x :: fname => if c =? x then name_matches nm fname else mret false
      end
  end.
Definition str_array (n : nat) (s : list Z) : list Z := take (n - 1) (s ++ replicate (n - 1) 0) ++ [0].

(** ** The structs of ufs.h *)

Definition FREE_INODE_LIST : Z := 50.
Definition INODE_MEMBER_BLOCKS : Z := 15.

Record d_inode := mk_dinode {
  i_mode : Z; i_uid : Z; i_size : Z; i_atime : Z; i_ctime : Z; i_mtime : Z; i_dtime : Z;
  i_gid : Z; i_nlinks : Z; i_n_blocks : Z; i_flags : Z; i_dev : Z;
  i_blocks : list Z; i_no : Z; i_blkno : Z; i_dir_acl : Z; i_faddr : Z; i_osd2 : list Z }.

Record s_ufs := mk_ufs_super {
  s_fs_size : Z; s_inode_list_size : Z; s_total_inodes : Z; s_n_free_inodes : Z;
  s_free_inodes : list Z; s_next_free_inode : Z; s_remembered_inode : Z; s_inode_list_lock : Z;
  s_padding : Z; s_flags : Z; s_blk_dilb_start : Z; s_blk_dilb_end : Z }.

Definition dinode_widths : list nat :=
  [2; 2; 4; 4; 4; 4; 4; 2; 2; 4; 4; 4]%nat ++ replicate 15 4%nat ++ [4; 4; 4; 4]%nat ++ replicate 12 1%nat.
Definition dinode_fields (d : d_inode) : list Z :=
  [i_mode d; i_uid d; i_size d; i_atime d; i_ctime d; i_mtime d; i_dtime d; i_gid d; i_nlinks d;
   i_n_blocks d; i_flags d; i_dev d] ++ i_blocks d ++ [i_no d; i_blkno d; i_dir_acl d; i_faddr d] ++ i_osd2 d.
Definition dinode_of_fields (l : list Z) : outcome d_inode :=
  match l with
  | m :: u :: sz :: a :: c :: mt :: dt :: g :: nl :: nb :: fl :: dv :: l =>
      match drop 15 l with
      | no :: bn :: da :: fa :: l' => mret (mk_dinode m u sz a c mt dt g nl nb fl dv (take 15 l) no bn da fa l')
      | _ => Fault
      end
  | _ => Fault
  end.

(** The char lock is followed by three bytes of padding. *)
Definition super_widths : list nat :=
  [4; 4; 4; 4]%nat ++ replicate (Z.to_nat FREE_INODE_LIST) 4%nat ++ [4; 4; 1; 3; 4; 4; 4]%nat.
Definition super_fields (s : s_ufs) : list Z :=
  [u32 (s_fs_size s); s_inode_list_size s; s_total_inodes s; s_n_free_inodes s] ++ s_free_inodes s ++
  [u32 (s_next_free_inode s); s_remembered_inode s; u8 (s_inode_list_lock s); s_padding s; u32 (s_flags s);
   u32 (s_blk_dilb_start s); u32 (s_blk_dilb_end s)].
Definition s8 (x : Z) : Z := (x + 2 ^ 7) mod 2 ^ 8 - 2 ^ 7.
Definition super_of_fields (l : list Z) : outcome s_ufs :=
  match l with
  | fs :: ls :: ti :: fi :: l =>
      match drop (Z.to_nat FREE_INODE_LIST) l with
      | [nf; ri; lk; pd; fl; st; en] =>
          mret (mk_ufs_super (s32 fs) ls ti fi (take (Z.to_nat FREE_INODE_LIST) l) (s32 nf) ri (s8 lk) pd (s32 fl)
                  (s32 st) (s32 en))
      | _ => Fault
      end
  | _ => Fault
  end.

Definition sizeof (ws : list nat) : nat := sum_list ws.
Definition encode_dinode (d : d_inode) : list Z := pack dinode_widths (dinode_fields d).
Definition encode_super (s : s_ufs) : list Z := pack super_widths (super_fields s).

(** [*((struct d_inode * )data + slot)] as a value and as a destination. *)
Definition dinode_at (data : list Z) (slot : Z) : outcome d_inode :=
  bytes ← read_at (Z.to_nat slot * sizeof dinode_widths) (sizeof dinode_widths) data;
  dinode_of_fields (unpack dinode_widths bytes).
Definition set_dinode_at (data : list Z) (slot : Z) (d : d_inode) : outcome (list Z) :=
  write_at (Z.to_nat slot * sizeof dinode_widths) (encode_dinode d) data.
(** [*(s_ufs * )data]. *)
Definition super_at (data : list Z) : outcome s_ufs :=
  bytes ← read_at 0 (sizeof super_widths) data;
  super_of_fields (unpack super_widths bytes).
Definition set_super_at (data : list Z) (s : s_ufs) : outcome (list Z) :=
  write_at 0 (encode_super s) data.

(** ** Laws of the field codec *)

Lemma length_le n : forall v, length (le n v) = n.
Proof. induction n; intros; simpl; auto. Qed.
#[export] Hint Rewrite length_le : yega.

Lemma of_le_le n : forall v, 0 <= v < 256 ^ Z.of_nat n -> of_le (le n v) = v.
Proof.
  induction n as [|n IH]; intros v Hv; cbn [le of_le].
  - change (256 ^ Z.of_nat 0) with 1 in Hv. lia.
  - rewrite Nat2Z.inj_succ, Z.pow_succ_r in Hv by lia. rewrite IH.
    + pose proof (Z_div_mod_eq_full v 256). lia.
    + split; [apply Z.div_pos; lia|apply Z.div_lt_upper_bound; lia].
Qed.

Lemma le_of_le l : Forall (fun b => 0 <= b < 256) l -> le (length l) (of_le l) = l.
Proof.
  induction 1 as [|b l Hb Hl IH]; [done|]. cbn [length le of_le].
  rewrite Z.mul_comm, Z.mod_add, Z.mod_small by lia. rewrite Z.div_add, Z.div_small by lia.
  by rewrite Z.add_0_l, IH.
Qed.

Definition fits (w : nat) (v : Z) : Prop := 0 <= v < 256 ^ Z.of_nat w.

Lemma length_pack ws vs : length ws = length vs -> length (pack ws vs) = sizeof ws.
Proof.
  revert vs. induction ws as [|w ws IH]; intros [|v vs]; simpl; intros; try done.
  rewrite length_app, length_le, IH by lia. done.
Qed.

Lemma unpack_pack ws vs : Forall2 fits ws vs -> unpack ws (pack ws vs) = vs.
Proof.
  induction 1 as [|w v ws vs Hv _ IH]; [done|]. cbn [pack unpack].
  rewrite take_app_length', drop_app_length' by (by rewrite length_le).
  by rewrite of_le_le, IH.
Qed.

Lemma pack_unpack ws : forall bytes,
  length bytes = sizeof ws -> Forall (fun b => 0 <= b < 256) bytes -> pack ws (unpack ws bytes) = bytes.
Proof.
  induction ws as [|w ws IH]; intros bytes Hl Hb; cbn [unpack pack] in *.
  - by destruct bytes.
  - simpl in Hl. unfold sizeof in Hl. cbn [sum_list] in Hl.
    assert (E : le w (of_le (take w bytes)) = take w bytes).
    { rewrite <- (le_of_le (take w bytes)) at 2 by by apply Forall_take. by rewrite length_take_le by lia. }
    rewrite E, IH; [apply take_drop| |by apply Forall_drop]. rewrite length_drop. unfold sizeof. lia.
Qed.

(** ** Reading and writing parts of a block *)

Lemma read_at_ok off n bytes : (off + n <= length bytes)%nat -> read_at off n bytes = Ret (take n (drop off bytes)).
Proof. intros. unfold read_at. by rewrite decide_True. Qed.

Lemma write_at_ok off new bytes : (off + length new <= length bytes)%nat ->
  exists bytes', write_at off new bytes = Ret bytes' /\ length bytes' = length bytes /\
    take (length new) (drop off bytes') = new /\
    (forall o n, (o + n <= off \/ off + length new <= o)%nat -> take n (drop o bytes') = take n (drop o bytes)).
Proof.
  intros Hl. unfold write_at. rewrite decide_True by done. eexists. split; [done|].
  assert (Ht : length (take off bytes) = off) by (rewrite length_take; lia).
  split; [rewrite !length_app, Ht, length_drop; lia|]. split.
  - rewrite drop_app_length' by done. by apply take_app_length.
  - intros o n [Ho|Ho].
    + rewrite drop_app_le by lia. rewrite take_app_le by (rewrite length_drop; lia).
      rewrite !take_drop_commute. by rewrite take_take, Nat.min_l by lia.
    + rewrite drop_app_ge by lia. rewrite Ht, drop_app_ge by lia. rewrite drop_drop. do 2 f_equal. lia.
Qed.

(** ** Laws of the two structs *)

Record dinode_wf (d : d_inode) : Prop := {
  dw_fits : Forall2 fits dinode_widths (dinode_fields d);
  dw_blocks : length (i_blocks d) = 15%nat;
}.

Lemma dinode_fields_inv d : length (i_blocks d) = 15%nat -> dinode_of_fields (dinode_fields d) = Ret d.
Proof.
  intros Hb. destruct d. cbn [i_blocks] in Hb. unfold dinode_fields, dinode_of_fields.
  cbn [i_mode i_uid i_size i_atime i_ctime i_mtime i_dtime i_gid i_nlinks i_n_blocks i_flags i_dev i_blocks i_no
    i_blkno i_dir_acl i_faddr i_osd2 app].
  rewrite drop_app_length', take_app_length' by done. done.
Qed.

Lemma length_encode_dinode d : dinode_wf d -> length (encode_dinode d) = 128%nat.
Proof. intros [Hf _]. unfold encode_dinode. by rewrite length_pack by by apply Forall2_length in Hf. Qed.

Lemma decode_encode_dinode d :
  dinode_wf d -> dinode_of_fields (unpack dinode_widths (encode_dinode d)) = Ret d.
Proof. intros [Hf Hb]. unfold encode_dinode. rewrite unpack_pack by done. by apply dinode_fields_inv. Qed.

Lemma sizeof_dinode : sizeof dinode_widths = 128%nat.
Proof. reflexivity. Qed.

Lemma set_dinode_at_spec data slot d :
  dinode_wf d -> 0 <= slot -> 128 * (slot + 1) <= Z.of_nat (length data) ->
  exists data', set_dinode_at data slot d = Ret data' /\ length data' = length data /\
    dinode_at data' slot = Ret d /\
    (forall slot', 0 <= slot' -> slot' <> slot -> dinode_at data' slot' = dinode_at data slot') /\
    (forall o n, (o + n <= 128 * Z.to_nat slot \/ 128 * Z.to_nat slot + 128 <= o)%nat ->
       take n (drop o data') = take n (drop o data)).
Proof.
  intros Hwf Hs Hl. unfold set_dinode_at, dinode_at. rewrite sizeof_dinode.
  pose proof (length_encode_dinode d Hwf) as He.
  destruct (write_at_ok (Z.to_nat slot * 128) (encode_dinode d) data) as (data' & R & Hl' & Hrd & Hfr); [lia|].
  exists data'. split; [done|]. split; [done|]. rewrite He in Hrd, Hfr. split; [|split].
  - rewrite read_at_ok, bind_Ret, Hrd by lia. by apply decode_encode_dinode.
  - intros slot' Hs' Hne. unfold read_at. rewrite Hl'. case_decide; [|done]. unfold mret, outcome_ret.
    rewrite !bind_Ret, Hfr; [done|lia].
  - intros o n Ho. apply Hfr. lia.
Qed.

Record super_wf (s : s_ufs) : Prop := {
  sw_fits : Forall2 fits super_widths (super_fields s);
  sw_list : length (s_free_inodes s) = Z.to_nat FREE_INODE_LIST;
  sw_ints : Forall (fun v => - 2 ^ 31 <= v < 2 ^ 31)
    [s_fs_size s; s_next_free_inode s; s_flags s; s_blk_dilb_start s; s_blk_dilb_end s];
  sw_lock : - 2 ^ 7 <= s_inode_list_lock s < 2 ^ 7;
}.

Lemma s8_u8 v : - 2 ^ 7 <= v < 2 ^ 7 -> s8 (u8 v) = v.
Proof. intros Hv. unfold s8, u8. rewrite Zplus_mod_idemp_l, Z.mod_small; lia. Qed.

Lemma super_fields_inv s : super_wf s -> super_of_fields (super_fields s) = Ret s.
Proof.
  intros [_ Hl Hi Hk]. destruct s. unfold super_fields, super_of_fields.
  cbn [s_fs_size s_inode_list_size s_total_inodes s_n_free_inodes s_free_inodes s_next_free_inode
    s_remembered_inode s_inode_list_lock s_padding s_flags s_blk_dilb_start s_blk_dilb_end app] in *.
  rewrite drop_app_length', take_app_length' by done.
  repeat (apply Forall_cons in Hi as [? Hi]). by rewrite !s32_u32, !s32_small, s8_u8.
Qed.

Lemma length_encode_super s : super_wf s -> length (encode_super s) = 240%nat.
Proof. intros [Hf _ _ _]. unfold encode_super. by rewrite length_pack by by apply Forall2_length in Hf. Qed.

Lemma set_super_at_spec data s :
  super_wf s -> (240 <= length data)%nat ->
  exists data', set_super_at data s = Ret data' /\ length data' = length data /\ super_at data' = Ret s /\
    drop 240 data' = drop 240 data.
Proof.
  intros Hwf Hl. unfold set_super_at, super_at. pose proof (length_encode_super s Hwf) as He.
  change (sizeof super_widths) with 240%nat.
  destruct (write_at_ok 0 (encode_super s) data) as (data' & R & Hl' & Hrd & Hfr); [lia|].
  exists data'. rewrite He in Hrd, Hfr. split; [done|]. split; [done|]. split.
  - rewrite read_at_ok, bind_Ret, Hrd by lia. unfold encode_super.
    rewrite unpack_pack by apply Hwf. by apply super_fields_inv.
  - specialize (Hfr 240%nat (length data)). rewrite !take_ge in Hfr by (rewrite length_drop; lia). apply Hfr. lia.
Qed.

(** [super_at] reads the first 240 bytes only. *)
Lemma super_at_prefix data data' :
  take 240 data = take 240 data' -> length data = length data' -> super_at data = super_at data'.
Proof.
  intros E El. unfold super_at, read_at. change (sizeof super_widths) with 240%nat. rewrite El, !drop_0, E. done.
Qed.

(** ** Decoding arbitrary bytes *)

Definition bytes_ok (l : list Z) : Prop := Forall (fun b => 0 <= b < 256) l.

Lemma of_le_range l : bytes_ok l -> 0 <= of_le l < 256 ^ Z.of_nat (length l).
Proof.
  induction 1 as [|b l Hb Hl IH]; cbn [of_le length]; [change (256 ^ Z.of_nat 0) with 1; lia|].
  rewrite Nat2Z.inj_succ, Z.pow_succ_r by lia. lia.
Qed.

Lemma unpack_fits ws : forall bytes, bytes_ok bytes -> Forall2 fits ws (unpack ws bytes).
Proof.
  induction ws as [|w ws IH]; intros bytes Hb; cbn [unpack]; constructor.
  - assert (Ht : bytes_ok (take w bytes)) by by apply Forall_take. pose proof (of_le_range _ Ht) as Hr.
    unfold fits. rewrite length_take in Hr. split; [lia|]. eapply Z.lt_le_trans; [apply Hr|].
    apply Z.pow_le_mono_r; lia.
  - apply IH. by apply Forall_drop.
Qed.

Lemma length_unpack ws : forall bytes, length (unpack ws bytes) = length ws.
Proof. induction ws; intros; cbn [unpack length]; auto. Qed.

Lemma bytes_ok_le n : forall v, bytes_ok (le n v).
Proof.
  induction n as [|n IH]; intros v; cbn [le]; constructor; [|apply IH].
  apply Z.mod_pos_bound. lia.
Qed.
Lemma bytes_ok_pack ws : forall vs, bytes_ok (pack ws vs).
Proof.
  induction ws as [|w ws IH]; intros [|v vs]; cbn [pack]; try constructor.
  apply Forall_app. split; [apply bytes_ok_le|apply IH].
Qed.

Lemma write_at_bytes off new bytes bytes' :
  write_at off new bytes = Ret bytes' -> bytes_ok new -> bytes_ok bytes -> bytes_ok bytes'.
Proof.
  unfold write_at. intros E Hn Hb. case_decide; [|done]. inv_outcome.
  repeat (apply Forall_app; split); auto using Forall_take, Forall_drop.
Qed.

(** A list long enough has the elements a pattern asks for. *)
Lemma dinode_of_fields_total l : length l = 43%nat ->
  exists d, dinode_of_fields l = Ret d /\ dinode_fields d = l /\ length (i_blocks d) = 15%nat.
Proof.
  intros Hl. do 12 (destruct l as [|? l]; [done|]). cbn [length] in Hl. cbn [dinode_of_fields].
  assert (Hd : length (drop 15 l) = 16%nat) by (rewrite length_drop; lia).
  destruct (drop 15 l) as [|no [|bn [|da [|fa l'] ] ] ] eqn:E; try done.
  eexists. split; [done|]. split.
  - unfold dinode_fields. cbn [i_mode i_uid i_size i_atime i_ctime i_mtime i_dtime i_gid i_nlinks i_n_blocks i_flags
      i_dev i_blocks i_no i_blkno i_dir_acl i_faddr i_osd2 app]. rewrite <- (take_drop 15 l) at 2. by rewrite E.
  - cbn [i_blocks]. rewrite length_take. lia.
Qed.

Lemma dinode_at_total data slot :
  bytes_ok data -> 0 <= slot -> 128 * (slot + 1) <= Z.of_nat (length data) ->
  exists d, dinode_at data slot = Ret d /\ dinode_wf d.
Proof.
  intros Hb Hs Hl. unfold dinode_at. rewrite sizeof_dinode, read_at_ok, bind_Ret by lia.
  set (b := take 128 (drop (Z.to_nat slot * 128) data)).
  assert (Hbb : bytes_ok b) by (apply Forall_take; by apply Forall_drop).
  destruct (dinode_of_fields_total (unpack dinode_widths b)) as (d & R & Hf & Hbl); [by rewrite length_unpack|].
  exists d. split; [done|]. split; [rewrite Hf; by apply unpack_fits|done].
Qed.

(** [dinode_at] depends on the 128 bytes of its slot. *)
Lemma dinode_at_ext data data' slot slot' :
  128 * (slot + 1) <= Z.of_nat (length data) -> 128 * (slot' + 1) <= Z.of_nat (length data') -> 0 <= slot -> 0 <= slot' ->
  take 128 (drop (Z.to_nat slot * 128) data) = take 128 (drop (Z.to_nat slot' * 128) data') ->
  dinode_at data slot = dinode_at data' slot'.
Proof. intros H1 H2 H3 H4 E. unfold dinode_at. rewrite sizeof_dinode, !read_at_ok, E by lia. done. Qed.

Lemma s8_range v : - 2 ^ 7 <= s8 v < 2 ^ 7.
Proof. unfold s8. pose proof (Z.mod_pos_bound (v + 2 ^ 7) (2 ^ 8)). lia. Qed.

Lemma super_at_total data :
  bytes_ok data -> (240 <= length data)%nat -> exists s, super_at data = Ret s /\ fits 3 (s_padding s).
Proof.
  intros Hb Hl. unfold super_at. change (sizeof super_widths) with 240%nat. rewrite read_at_ok, bind_Ret by lia.
  set (b := take 240 (drop 0 data)).
  assert (Hf : Forall2 fits super_widths (unpack super_widths b)) by (apply unpack_fits, Forall_take; by apply Forall_drop).
  assert (Hlen : length (unpack super_widths b) = 61%nat) by by rewrite length_unpack.
  destruct (unpack super_widths b) as [|fs [|ls [|ti [|fi l] ] ] ]; try done. cbn [super_of_fields].
  assert (Hd : length (drop (Z.to_nat FREE_INODE_LIST) l) = 7%nat) by (rewrite length_drop; cbn [length] in Hlen; change (Z.to_nat FREE_INODE_LIST) with 50%nat; lia).
  do 4 (apply Forall2_cons in Hf as [_ Hf]).
  apply (Forall2_drop _ _ _ (Z.to_nat FREE_INODE_LIST)) in Hf.
  change (drop (Z.to_nat FREE_INODE_LIST) _) with [4; 4; 1; 3; 4; 4; 4]%nat in Hf at 1.
  destruct (drop (Z.to_nat FREE_INODE_LIST) l) as [|nf [|ri [|lk [|pd [|fl [|st [|en [|? ?] ] ] ] ] ] ] ]; try done.
  do 3 (apply Forall2_cons in Hf as [_ Hf]). apply Forall2_cons in Hf as [Hpd _].
  eexists. split; [done|]. done.
Qed.

(** *** The struct by its offsets

    A little-endian word read byte by byte, and the inode that C sees at byte
    [o] of an array: [struct d_inode] of ufs.h with the offset of each member. *)
Definition byte_at (data : list Z) (o : nat) : Z := default 0 (data !! o).
Definition word16 (data : list Z) (o : nat) : Z := byte_at data o + 2 ^ 8 * byte_at data (o + 1).
Definition word32 (data : list Z) (o : nat) : Z :=
  byte_at data o + 2 ^ 8 * byte_at data (o + 1) + 2 ^ 16 * byte_at data (o + 2) + 2 ^ 24 * byte_at data (o + 3).
Definition dinode_view (data : list Z) (o : nat) : d_inode := {|
  i_mode := word16 data o; i_uid := word16 data (o + 2); i_size := word32 data (o + 4);
  i_atime := word32 data (o + 8); i_ctime := word32 data (o + 12); i_mtime := word32 data (o + 16);
  i_dtime := word32 data (o + 20); i_gid := word16 data (o + 24); i_nlinks := word16 data (o + 26);
  i_n_blocks := word32 data (o + 28); i_flags := word32 data (o + 32); i_dev := word32 data (o + 36);
  i_blocks := (fun k => word32 data (o + 40 + 4 * k)) <$> seq 0 15;
  i_no := word32 data (o + 100); i_blkno := word32 data (o + 104); i_dir_acl := word32 data (o + 108);
  i_faddr := word32 data (o + 112); i_osd2 := (fun k => byte_at data (o + 116 + k)) <$> seq 0 12 |}.

Lemma byte_at_drop data o k : byte_at data (o + k) = byte_at (drop o data) k.
Proof. unfold byte_at. by rewrite lookup_drop. Qed.

(** A field of the bytes of a slot. *)
Lemma slot_field (data : list Z) o k w : (k + w <= 128)%nat -> take w (drop k (take 128 (drop o data))) = take w (drop (o + k) data).
Proof. intros. by rewrite take_drop_commute, take_take, Nat.min_l, <-take_drop_commute, drop_drop by lia. Qed.

Lemma le_word16 data o : (o + 2 <= length data)%nat -> of_le (take 2 (drop o data)) = word16 data o.
Proof.
  intros Hl. unfold word16. rewrite <-(Nat.add_0_r o) at 2. rewrite !byte_at_drop.
  assert (H : (2 <= length (drop o data))%nat) by (rewrite length_drop; lia).
  destruct (drop o data) as [|x [|y l] ]; cbn [length] in H; [lia..|]. unfold byte_at. cbn. rewrite take_0. cbn [of_le]. lia.
Qed.
Lemma le_word32 data o : (o + 4 <= length data)%nat -> of_le (take 4 (drop o data)) = word32 data o.
Proof.
  intros Hl. unfold word32. rewrite <-(Nat.add_0_r o) at 2. rewrite !byte_at_drop.
  assert (H : (4 <= length (drop o data))%nat) by (rewrite length_drop; lia).
  destruct (drop o data) as [|x [|y [|z [|t l] ] ] ]; cbn [length] in H; [lia..|]. unfold byte_at. cbn. rewrite take_0. cbn [of_le]. lia.
Qed.
Lemma le_byte data o : (o + 1 <= length data)%nat -> of_le (take 1 (drop o data)) = byte_at data o.
Proof.
  intros Hl. rewrite <-(Nat.add_0_r o) at 2. rewrite byte_at_drop.
  assert (H : (1 <= length (drop o data))%nat) by (rewrite length_drop; lia).
  destruct (drop o data) as [|x l]; cbn [length] in H; [lia|]. unfold byte_at. cbn. rewrite take_0. cbn [of_le]. lia.
Qed.

Lemma dinode_of_slot data o : (o + 128 <= length data)%nat ->
  dinode_of_fields (unpack dinode_widths (take 128 (drop o data))) = Ret (dinode_view data o).
Proof.
  intros Hl. unfold dinode_widths, dinode_view. set (b := take 128 (drop o data)).
  cbn [app replicate unpack dinode_of_fields drop take seq fmap list_fmap]. rewrite !drop_drop. cbn [Nat.add].
  rewrite <-(drop_0 b) at 1. unfold b.
  rewrite !slot_field by lia. rewrite !le_word16, !le_word32, !le_byte by lia.
  rewrite Nat.add_0_r, <-!Nat.add_assoc. cbn [Nat.add Nat.mul]. done.
Qed.

(** C39. The struct d_inode at a slot of a block is what C sees there: each member
    is the little-endian word at its offset from byte [128 * slot], and fits its
    type.  Storing what was read changes nothing; storing any well-typed inode
    makes it the one that is read, and changes no byte outside its slot. *)
Theorem dinode_codec data slot :
  bytes_ok data -> 0 <= slot -> 128 * (slot + 1) <= Z.of_nat (length data) ->
  let o := (Z.to_nat slot * 128)%nat in
  dinode_at data slot = Ret (dinode_view data o) /\ dinode_wf (dinode_view data o) /\
  set_dinode_at data slot (dinode_view data o) = Ret data /\
  (forall d, dinode_wf d -> exists data', set_dinode_at data slot d = Ret data' /\ dinode_at data' slot = Ret d /\
     dinode_view data' o = d /\ length data' = length data /\
     (forall i, (i < o \/ o + 128 <= i)%nat -> data' !! i = data !! i)).
Proof.
  intros Hb Hs Hl o.
  assert (Hat : forall data, 128 * (slot + 1) <= Z.of_nat (length data) -> dinode_at data slot = Ret (dinode_view data o)).
  { intros l Hl'. unfold dinode_at. rewrite sizeof_dinode, read_at_ok, bind_Ret by lia. apply dinode_of_slot. lia. }
  destruct (dinode_at_total data slot Hb Hs Hl) as (d0 & R0 & Hwf). rewrite Hat in R0 by done. injection R0 as <-.
  split; [by apply Hat|]. split; [done|]. split.
  - unfold set_dinode_at, write_at. rewrite length_encode_dinode, sizeof_dinode, decide_True by (done || lia). do 2 f_equal.
    set (b := take 128 (drop (Z.to_nat slot * 128) data)).
    assert (Hlb : length b = 128%nat) by (unfold b; rewrite length_take_le; [done|rewrite length_drop; lia]).
    assert (Eb : encode_dinode (dinode_view data o) = b).
    { destruct (dinode_of_fields_total (unpack dinode_widths b)) as (d & R & Hf & _); [by rewrite length_unpack|].
      unfold b in R. rewrite dinode_of_slot in R by lia. injection R as <-. unfold encode_dinode, o. rewrite Hf.
      apply pack_unpack; [done|]. by apply Forall_take, Forall_drop. }
    rewrite Eb. unfold b. rewrite <-drop_drop, take_drop. apply take_drop.
  - intros d Hd. destruct (set_dinode_at_spec data slot d Hd Hs Hl) as (data' & R & Hl' & Rd & _ & Hfr).
    exists data'. split; [done|]. split; [done|]. split; [rewrite Hat in Rd by lia; by injection Rd|]. split; [done|].
    intros i Hi. specialize (Hfr i 1%nat). rewrite <-(Nat.add_0_r i), <-!lookup_drop.
    assert (E : take 1 (drop i data') = take 1 (drop i data)) by (apply Hfr; lia).
    destruct (drop i data'), (drop i data); cbn in E |- *; congruence.
Qed.

(** Inode 1 of a table of two slots whose bytes count up. *)
Lemma dinode_codec_witness :
  dinode_at (seqZ 0 256) 1 = Ret (dinode_view (seqZ 0 256) 128) /\ i_size (dinode_view (seqZ 0 256) 128) = 0x87868584 /\
  i_nlinks (dinode_view (seqZ 0 256) 128) = 0x9b9a /\ last (i_osd2 (dinode_view (seqZ 0 256) 128)) = Some 255.
Proof.
  split; [|vm_compute; done]. apply (dinode_codec (seqZ 0 256) 1); [|lia|vm_compute; congruence].
  apply Forall_forall. intros b Hb%elem_of_seqZ. lia.
Defined.
