(* ===== verification/Ufs.v ===== *)
(** * The UFS file system (fs/ufs/ufs.c, include/ufs.h)

    This is the file system the kernel is linked with: buffer.c calls the block
    transfers of ufs.c, whose globals are the constants [ufs_globals].  Blocks
    live in the buffer cache; the superblock pointer [super] points into the
    data area of a buffer and every access through it reads or writes that
    buffer.  The in-core inodes are on hash queues and a free list of their own,
    laid out as [struct inode_cache]: [DEV_NO] hash heads, then the free head.

    [fuel] bounds the busy waits (locked inodes and buffers) and the loops that
    need not end, [patience] the polls of the disk.  Progress messages are left
    out; the text of [display_sb] is modelled. *)

From S2P Require Import Prelude ListHead Ports Serial Disk BufferCache Layout.

Definition U_BLK_SIZE : Z := 1024.
Definition DISK_SECTOR_SIZE : Z := 512.
Definition U_SECTORS_PER_BLOCK : Z := U_BLK_SIZE / DISK_SECTOR_SIZE.
Definition U_BYTES_PER_INODE : Z := 4096.
Definition INODES_PER_BLOCK : Z := U_BLK_SIZE / Z.of_nat (sizeof dinode_widths).
Definition INODES : Z := 30.
Definition DIR_ENTRY_BYTES : Z := 20.
Definition DIR_ENTRY_INODE_SIZE : Z := 4.
Definition I_DIRTY : Z := Z.shiftl 1 1.
Definition I_lock : Z := Z.shiftl 1 0.
Definition LOCKED (var : Z) : bool := var =? 1.

(** The initial values of [filesys_start] and [fs_start_set] in ufs.c. *)
Definition ufs_globals : fs_globals := mk_fsg 0 true 0.

(** [struct inode]: the first 128 bytes are those of the disk inode (the field
    [i_blkno] of the disk inode is [i_file_acl] here). *)
Definition sizeof_inode : Z := 152.
Record inode := mk_inode { core : d_inode; i_state : Z; i_count : Z }.

(** [struct inode_cache] has the layout of [struct buffer_cache] - [DEV_NO] hash
    heads, then the free head - so its nodes are those of the buffer cache:
    [BHash p] is the member [i_hash] of the inode at [p] and [BFree p] its
    [i_free]; [hash_slot] is the address of a head. *)

Record ufs_st (S A : Type) := mk_ufs {
  bc : bcache_st S A;
  super : option Z;
  inodes : gmap Z inode;
  inode_nodes : gmap bnode (list_head bnode);
  root : option Z;
  pwd : option Z;
}.
Arguments mk_ufs {S A}.
Arguments bc {S A}.
Arguments super {S A}.
Arguments inodes {S A}.
Arguments inode_nodes {S A}.
Arguments root {S A}.
Arguments pwd {S A}.

(** ** The block transfers of ufs.c *)

Section transfers.
Context {S : Type} `{PortIO S}.

Definition disk_read_blk (patience : nat) (block_num : Z) (s : S) : outcome (S * list Z) :=
  let lba := u32 (0 + u32 (block_num * U_SECTORS_PER_BLOCK)) in
  read_blk_loop (Z.to_nat U_SECTORS_PER_BLOCK) patience lba s.
Definition disk_write_blk (patience : nat) (block_num : Z) (buf : list Z) (s : S) : outcome S :=
  let lba := u32 (0 + u32 (block_num * U_SECTORS_PER_BLOCK)) in
  write_blk_loop (Z.to_nat U_SECTORS_PER_BLOCK) patience lba buf s.

End transfers.

(** ** Byte strings *)

Definition byte_at (str : list Z) (i : Z) : outcome Z := if i <? 0 then Fault else deref (str !! Z.to_nat i).

(** strncmp of string.c on two byte arrays. *)
Fixpoint strncmp_loop (n : nat) (s1 s2 : list Z) : outcome Z :=
  match n with
  | O => a ← byte_at s1 0; b ← byte_at s2 0; mret (a - b)
  | Datatypes.S n =>
      a ← byte_at s1 0;
      b ← byte_at s2 0;
      if negb (a =? 0) && (a =? b) then
        if (n =? 0)%nat then mret 0 else strncmp_loop n (tail s1) (tail s2)
      else mret (a - b)
  end.
Definition strncmp (s1 s2 : list Z) (n : Z) : outcome Z :=
  if n =? 0 then mret 0 else strncmp_loop (Z.to_nat n) s1 s2.

(** The inner loop of search_dir: [offset] and, if an entry matches, its inode number. *)
Fixpoint scan_dir (fuel : nat) (data : list Z) (offset : Z) (entry : list Z) (entry_len : Z)
  : outcome (Z * option Z) :=
  if offset <? U_BLK_SIZE then
    match fuel with
    | O => Spin
    | Datatypes.S fuel =>
        r ← strncmp (drop (Z.to_nat offset) data) entry entry_len;
        if r =? 0 then
          num ← read_at (Z.to_nat (offset - DIR_ENTRY_INODE_SIZE)) 4 data;
          mret (offset, Some (of_le num))
        else scan_dir fuel data (offset + DIR_ENTRY_BYTES) entry entry_len
    end
  else mret (offset, None).

(** [next_token]; [n] bounds the loop by the length. *)
Fixpoint token_end (n : nat) (str : list Z) (end_ len : Z) : outcome Z :=
  if end_ <? len then
    c ← byte_at str end_;
    if c =? 47 then mret end_
    else match n with O => Spin | Datatypes.S n => token_end n str (end_ + 1) len end
  else mret end_.
Definition next_token (str : list Z) (start len : Z) : outcome Z :=
  e ← token_end (Z.to_nat len) str start len; mret (e - 1).

(** ** The superblock and the disk inodes *)

(** The assignments of make_super; [mb] is an int. *)
Definition make_super_fields (mb : Z) (s : s_ufs) : s_ufs :=
  let fs_bytes := u32 (u32 (u32 mb * 1024) * 1024) in
  let total := fs_bytes / U_BYTES_PER_INODE in
  let inode_blocks := u32 (total + INODES_PER_BLOCK - 1) / INODES_PER_BLOCK in
  mk_ufs_super mb FREE_INODE_LIST total total (seqZ 0 FREE_INODE_LIST) (FREE_INODE_LIST - 1) FREE_INODE_LIST 0
    (s_padding s) 0 2 (s32 (2 + inode_blocks - 1)).

(** The assignments of init_inode; [i_osd2] keeps its bytes. *)
Definition init_inode (dev_no inum blkno : Z) (d : d_inode) : d_inode :=
  mk_dinode 0 0 0 0 0 0 0 0 0 0 0 (u32 dev_no) (replicate (Z.to_nat INODE_MEMBER_BLOCKS) 0) (u32 inum) (u32 blkno)
    0 0 (i_osd2 d).

Definition set_core (f : d_inode -> d_inode) (i : inode) : inode := mk_inode (f (core i)) (i_state i) (i_count i).
Definition set_count (c : Z) (i : inode) : inode := mk_inode (core i) (i_state i) c.
Definition with_flags (f : Z -> Z) (d : d_inode) : d_inode :=
  mk_dinode (i_mode d) (i_uid d) (i_size d) (i_atime d) (i_ctime d) (i_mtime d) (i_dtime d) (i_gid d) (i_nlinks d)
    (i_n_blocks d) (f (i_flags d)) (i_dev d) (i_blocks d) (i_no d) (i_blkno d) (i_dir_acl d) (i_faddr d) (i_osd2 d).
Definition with_number (inum : Z) (d : d_inode) : d_inode :=
  mk_dinode (i_mode d) (i_uid d) (i_size d) (i_atime d) (i_ctime d) (i_mtime d) (i_dtime d) (i_gid d) (i_nlinks d)
    (i_n_blocks d) (i_flags d) (i_dev d) (i_blocks d) inum (i_blkno d) (i_dir_acl d) (i_faddr d) (i_osd2 d).
Definition locked_inode : inode -> inode := set_core (with_flags (fun v => u32 (SET_FLAG v I_lock))).
Definition unlocked_inode : inode -> inode := set_core (with_flags (fun v => u32 (CLEAR_FLAG v I_lock))).

(** inode_init on the fields it assigns. *)
Definition init_fields (dev_no inum : Z) (d : d_inode) : d_inode :=
  mk_dinode 0 0 0 0 0 0 (i_dtime d) 0 0 0 0 dev_no (i_blocks d) inum (i_blkno d) (i_dir_acl d) (i_faddr d)
    (i_osd2 d).

Definition bmap (byte_offset : Z) : Z := byte_offset / U_BLK_SIZE.

Section fs.
Context {S A : Type} `{PortIO S} `{KAlloc A} `{KFree A}.
Variables (fuel patience : nat).
(** The contents of an in-core inode the allocator hands out. *)
Variable junk : Z -> inode.
Implicit Types u : ufs_st S A.

Definition set_bc (st : bcache_st S A) u := mk_ufs st (super u) (inodes u) (inode_nodes u) (root u) (pwd u).
Definition set_super p u := mk_ufs (bc u) p (inodes u) (inode_nodes u) (root u) (pwd u).
Definition set_inodes m u := mk_ufs (bc u) (super u) m (inode_nodes u) (root u) (pwd u).
Definition set_nodes m u := mk_ufs (bc u) (super u) (inodes u) m (root u) (pwd u).

Definition upd_inode (p : Z) (f : inode -> inode) u : outcome (ufs_st S A) :=
  i ← deref (inodes u !! p); mret (set_inodes (<[p := f i]> (inodes u)) u).
Definition on_inodes (f : gmap bnode (list_head bnode) -> outcome (gmap bnode (list_head bnode))) u
  : outcome (ufs_st S A) :=
  h ← f (inode_nodes u); mret (set_nodes h u).

Definition fs_bread (blk : Z) u : outcome (ufs_st S A * Z) :=
  '(st, b) ← bread fuel patience ufs_globals DEV_NO blk (bc u); mret (set_bc st u, b).
Definition fs_bwrite (b : Z) u : outcome (ufs_st S A) :=
  st ← bwrite patience b (bc u); mret (set_bc st u).
Definition fs_brelse (b : Z) u : outcome (ufs_st S A) :=
  st ← brelse b (bc u); mret (set_bc st u).
(** Stores through a pointer into a buffer. *)
Definition set_data (d : Z) (bytes : list Z) u : ufs_st S A :=
  set_bc (set_bdata (<[d := bytes]> (bdata (bc u))) (bc u)) u.

(** [*super], read and written. *)
Definition get_super u : outcome s_ufs :=
  d ← deref (super u); bytes ← deref (bdata (bc u) !! d); super_at bytes.
Definition upd_super (f : s_ufs -> s_ufs) u : outcome (ufs_st S A) :=
  d ← deref (super u);
  bytes ← deref (bdata (bc u) !! d);
  s ← super_at bytes;
  bytes ← set_super_at bytes (f s);
  mret (set_data d bytes u).

(** ** Formatting *)

Definition init_sb u : outcome (ufs_st S A) :=
  '(u, bh) ← fs_bread 1 u;
  '(d, _) ← data_of bh (bc u);
  mret (set_super (Some d) u).

Definition make_super (mb : Z) u : outcome (ufs_st S A) := upd_super (make_super_fields mb) u.

(** The loop over the inodes of one block. *)
Fixpoint init_block (n : nat) (jCnt iCnt blkno binode : Z) u : outcome (ufs_st S A) :=
  match n with
  | O => mret u
  | Datatypes.S n =>
      '(d, data) ← data_of binode (bc u);
      old ← dinode_at data jCnt;
      data ← set_dinode_at data jCnt (init_inode DEV_NO (iCnt + jCnt) blkno old);
      init_block n (jCnt + 1) iCnt blkno binode (set_data d data u)
  end.

(** The loop over the inode blocks; [n] bounds the number of blocks. *)
Fixpoint mkufs_loop (n : nat) (iCnt : Z) u : outcome (ufs_st S A) :=
  s ← get_super u;
  if iCnt <? s_total_inodes s then
    match n with
    | O => Spin
    | Datatypes.S n =>
        let inodes_block := u32 (iCnt / INODES_PER_BLOCK + s_blk_dilb_start s) in
        '(u, binode) ← fs_bread inodes_block u;
        u ← init_block (Z.to_nat INODES_PER_BLOCK) 0 iCnt inodes_block binode u;
        u ← fs_bwrite binode u;
        mkufs_loop n (iCnt + INODES_PER_BLOCK) u
    end
  else mret u.

Definition mkufs (mb : Z) u : outcome (ufs_st S A) :=
  '(u, bh) ← fs_bread 1 u;
  '(d, _) ← data_of bh (bc u);
  u ← make_super mb (set_super (Some d) u);
  u ← mkufs_loop fuel 0 u;
  fs_bwrite bh u.

(** ** Disk inodes *)

Definition get_dinode (inum : Z) u : outcome (ufs_st S A * d_inode) :=
  s ← get_super u;
  let i_blk := u32 (inum / INODES_PER_BLOCK + s_blk_dilb_start s) in
  let i_blk_offset := inum mod INODES_PER_BLOCK in
  '(u, bh) ← fs_bread i_blk u;
  '(_, data) ← data_of bh (bc u);
  d ← dinode_at data i_blk_offset;
  u ← fs_brelse bh u;
  mret (u, d).

Definition read_inode (p : Z) u : outcome (ufs_st S A) :=
  i ← deref (inodes u !! p);
  '(u, d) ← get_dinode (i_no (core i)) u;
  upd_inode p (set_core (fun _ => d)) u.

Definition write_inode (p : Z) u : outcome (ufs_st S A) :=
  i ← deref (inodes u !! p);
  s ← get_super u;
  let i_blk := u32 (i_no (core i) / INODES_PER_BLOCK + s_blk_dilb_start s) in
  let i_blk_offset := i_no (core i) mod INODES_PER_BLOCK in
  '(u, bh) ← fs_bread i_blk u;
  '(d, data) ← data_of bh (bc u);
  data ← set_dinode_at data i_blk_offset (core i);
  fs_bwrite bh (set_data d data u).

(** ** The free inode list of the superblock *)

(** One block: [dCnt] inodes from [slot] on; the count found, and whether the list is full. *)
Fixpoint fill_from_block (dCnt : nat) (slot bh i_free_cnt : Z) u : outcome (ufs_st S A * Z * bool) :=
  match dCnt with
  | O => mret (u, i_free_cnt, false)
  | Datatypes.S dCnt =>
      '(_, data) ← data_of bh (bc u);
      dinode ← dinode_at data slot;
      '(u, i_free_cnt) ←
        (if i_mode dinode =? 0 then
           if decide (i_free_cnt < FREE_INODE_LIST) then
             u ← upd_super (fun s => mk_ufs_super (s_fs_size s) (s_inode_list_size s) (s_total_inodes s)
                   (s_n_free_inodes s) (<[Z.to_nat i_free_cnt := i_no dinode]> (s_free_inodes s))
                   (s_next_free_inode s + 1) (s_remembered_inode s) (s_inode_list_lock s) (s_padding s) (s_flags s)
                   (s_blk_dilb_start s) (s_blk_dilb_end s)) u;
             mret (u, i_free_cnt + 1)
           else Fault
         else mret (u, i_free_cnt));
      if i_free_cnt =? FREE_INODE_LIST then
        u ← upd_super (fun s => mk_ufs_super (s_fs_size s) (s_inode_list_size s) (s_total_inodes s)
              (s_n_free_inodes s) (s_free_inodes s) (s_next_free_inode s) (u32 (i_no dinode + 1))
              (s_inode_list_lock s) (s_padding s) (s_flags s) (s_blk_dilb_start s) (s_blk_dilb_end s)) u;
        mret (u, i_free_cnt, true)
      else fill_from_block dCnt (slot + 1) bh i_free_cnt u
  end.
Fixpoint fill_blocks (n : nat) (dilb_start dilb_end i_free_cnt : Z) u : outcome (ufs_st S A) :=
  if dilb_start <=? dilb_end then
    match n with
    | O => Spin
    | Datatypes.S n =>
        '(u, bh) ← fs_bread dilb_start u;
        '(u, i_free_cnt, bFlag) ← fill_from_block (Z.to_nat INODES_PER_BLOCK) 0 bh i_free_cnt u;
        u ← fs_brelse bh u;
        if (bFlag : bool) then mret u else fill_blocks n (dilb_start + 1) dilb_end i_free_cnt u
    end
  else mret u.
Definition fill_free_inode_list u : outcome (ufs_st S A) :=
  s ← get_super u;
  fill_blocks fuel (u32 (s_blk_dilb_start s)) (u32 (s_blk_dilb_end s)) 0 u.

(** ialloc; [n] bounds the rounds. *)
Fixpoint ialloc (n : nat) (dev_no : Z) u : outcome (ufs_st S A * option Z) :=
  match n with
  | O => Spin
  | Datatypes.S n =>
      s ← get_super u;
      if LOCKED (s_inode_list_lock s) then ialloc n dev_no u
      else if s_next_free_inode s =? -1 then
        u ← upd_super (fun s => mk_ufs_super (s_fs_size s) (s_inode_list_size s) (s_total_inodes s)
              (s_n_free_inodes s) (s_free_inodes s) (s_next_free_inode s) (s_remembered_inode s) 1 (s_padding s)
              (s_flags s) (s_blk_dilb_start s) (s_blk_dilb_end s)) u;
        u ← fill_free_inode_list u;
        ialloc n dev_no u
      else ialloc n dev_no u
  end.

(** ** The inode cache *)

Definition display_inode_chain (i : Z) u : outcome (list Z) :=
  l ← list_for_each (size (inode_nodes u)) (hash_slot i) (inode_nodes u);
  mapM (fun n => p ← hash_entry n; i ← deref (inodes u !! p); mret (i_no (core i))) l.
Definition display_inode_cache u : outcome (list (list Z)) :=
  mapM (fun i => display_inode_chain i u) [0; 1; 2; 3].

(** A walk longer than the number of nodes never ends. *)
Fixpoint search_inode_chain (n : nat) (run head : option bnode) (dev_no inum : Z) u : outcome (option Z) :=
  if bool_decide (run = head) then mret None
  else match n with
       | O => Spin
       | Datatypes.S n =>
           k ← deref run;
           p ← hash_entry k;
           i ← deref (inodes u !! p);
           if (i_no (core i) =? inum) && (i_dev (core i) =? dev_no) then mret (Some p)
           else nx ← get_next run (inode_nodes u); search_inode_chain n nx head dev_no inum u
       end.
Definition search_hash (dev_no inum : Z) u : outcome (option Z) :=
  index ← hash_fn inum dev_no;
  let head := hash_slot index in
  run ← get_next head (inode_nodes u);
  search_inode_chain (size (inode_nodes u)) run head dev_no inum u.

Definition inode_init (p dev_no inum : Z) u : outcome (ufs_st S A) :=
  u ← on_inodes (INIT_LIST_NULL (Some (BHash p))) u;
  upd_inode p (fun i => mk_inode (init_fields dev_no inum (core i)) (i_state i) 0) u.

(** iget; [n] bounds the rounds of the wait for a locked inode.  On a miss
    [inode] is NULL and its list node is used. *)
Fixpoint iget (n : nat) (dev_no inum : Z) u : outcome (ufs_st S A * option Z) :=
  match n with
  | O => Spin
  | Datatypes.S n =>
      found ← search_hash dev_no inum u;
      match found with
      | Some p =>
          i ← deref (inodes u !! p);
          if IS_FLAG (i_flags (core i)) I_lock then iget n dev_no inum u
          else
            u ← (if i_count i =? 0 then on_inodes (list_del (Some (BFree p))) u else mret u);
            u ← upd_inode p (set_count (u32 (i_count i + 1))) u;
            u ← upd_inode p locked_inode u;
            mret (u, Some p)
      | None =>
          empty ← list_is_empty (Some FreeHead) (inode_nodes u);
          if (empty : bool) then mret (u, None)
          else
            p ← deref found;
            u ← on_inodes (list_del (Some (BFree p))) u;
            u ← upd_inode p (set_core (with_number inum)) u;
            u ← on_inodes (list_del (Some (BHash p))) u;
            index ← hash_fn dev_no inum;
            u ← on_inodes (list_add (hash_slot index) (Some (BHash p))) u;
            u ← read_inode p u;
            i ← deref (inodes u !! p);
            u ← upd_inode p (set_count (u32 (i_count i + 1))) u;
            u ← upd_inode p locked_inode u;
            mret (u, Some p)
      end
  end.

Definition iput (p : Z) u : outcome (ufs_st S A) :=
  u ← upd_inode p locked_inode u;
  u ← upd_inode p (fun i => set_count (u32 (i_count i - 1)) i) u;
  i ← deref (inodes u !! p);
  u ← (if (i_count i =? 0) && IS_FLAG (i_state i) I_DIRTY then write_inode p u else mret u);
  u ← on_inodes (list_add_tail (Some FreeHead) (Some (BFree p))) u;
  upd_inode p unlocked_inode u.

Definition test_icache u : outcome (ufs_st S A) :=
  '(u, p) ← iget fuel DEV_NO 16 u; mret u.

(** A fresh in-core inode: its two list nodes come with it. *)
Definition new_inode (p : Z) u : ufs_st S A :=
  mk_ufs (bc u) (super u) (<[p := junk p]> (inodes u))
    (<[BHash p := mk_list_head None None]> (<[BFree p := mk_list_head None None]> (inode_nodes u))) (root u) (pwd u).

Fixpoint create_inodes (n : nat) (iCnt c : Z) u : outcome (ufs_st S A) :=
  match n with
  | O => mret u
  | Datatypes.S n =>
      '(a, tmp) ← ka_cache_alloc c (heap (bc u));
      let u := set_bc (set_heap a (bc u)) u in
      match tmp with
      | None => mret u
      | Some p =>
          u ← inode_init p DEV_NO iCnt (new_inode p u);
          index ← hash_fn iCnt DEV_NO;
          u ← on_inodes (list_add (hash_slot index) (Some (BHash p))) u;
          u ← on_inodes (list_add (Some FreeHead) (Some (BFree p))) u;
          create_inodes n (iCnt + 1) c u
      end
  end.
Fixpoint init_inode_heads (n : nat) (i : Z) u : outcome (ufs_st S A) :=
  match n with
  | O => mret u
  | Datatypes.S n => u ← on_inodes (INIT_LIST_HEAD (hash_slot i)) u; init_inode_heads n (i + 1) u
  end.
Definition create_inode_cache u : outcome (ufs_st S A) :=
  '(a, c) ← ka_cache_create sizeof_inode (heap (bc u));
  let u := set_bc (set_heap a (bc u)) u in
  match c with
  | None => mret u
  | Some c =>
      u ← init_inode_heads (Z.to_nat DEV_NO) 0 u;
      u ← on_inodes (INIT_LIST_HEAD (Some FreeHead)) u;
      u ← create_inodes (Z.to_nat INODES) 0 c u;
      _ ← display_inode_cache u;
      test_icache u
  end.

(** ** Directories and paths *)

(** The blocks of a directory; [n] is the number of rounds left, and the result
    (uint32_t)-1 when no entry matches. *)
Fixpoint search_blocks (n : nat) (iCnt : nat) (offset : Z) (dir : Z) (entry : list Z) (entry_len : Z) u
  : outcome (ufs_st S A * Z) :=
  match n with
  | O => mret (u, u32 (-1))
  | Datatypes.S n =>
      i ← deref (inodes u !! dir);
      blk ← deref (i_blocks (core i) !! iCnt);
      '(u, bh) ← fs_bread blk u;
      '(_, data) ← data_of bh (bc u);
      '(offset, found) ← scan_dir (Z.to_nat U_BLK_SIZE) data (offset + DIR_ENTRY_INODE_SIZE) entry entry_len;
      u ← fs_brelse bh u;
      match found with
      | Some inum => mret (u, inum)
      | None => search_blocks n (1 + iCnt) offset dir entry entry_len u
      end
  end.
Definition search_dir (dir : Z) (entry : list Z) (entry_len : Z) u : outcome (ufs_st S A * Z) :=
  i ← deref (inodes u !! dir);
  search_blocks (Z.to_nat (s32 (i_size (core i) / U_BLK_SIZE + 1))) 0 0 dir entry entry_len u.

(** strncpy of a token: [n] bytes of the path, which has no NUL inside. *)
Definition copy_token (dest : option Z) (path : list Z) (index n : Z) : outcome (list Z) :=
  match dest with
  | None => if n =? 0 then mret [] else Fault
  | Some _ => mret (take (Z.to_nat n) (drop (Z.to_nat index) path))
  end.

(** The loop of namei; in the branch without a token [end] is read without
    having been assigned, after the inodes have been exchanged. *)
Fixpoint namei_loop (n : nat) (path : list Z) (index inum : Z) (work : option Z) u
  : outcome (ufs_st S A * option Z) :=
  let len := Z.of_nat (length path) in
  if index <? len then
    match n with
    | O => Spin
    | Datatypes.S n =>
        c ← byte_at path index;
        if c =? 47 then
          end_ ← next_token path index len;
          '(a, curr_token) ← ka_kmalloc (u32 (end_ - index + 1)) (heap (bc u));
          let u := set_bc (set_heap a (bc u)) u in
          token ← copy_token curr_token path index (end_ - index + 1);
          dir ← deref work;
          '(u, inum) ← search_dir dir token (end_ - index + 1) u;
          a ← ka_kfree curr_token (heap (bc u));
          let u := set_bc (set_heap a (bc u)) u in
          if inum =? u32 (-1) then mret (u, None)
          else
            u ← iput dir u;
            '(u, work) ← iget fuel DEV_NO inum u;
            namei_loop n path (end_ + 1) inum work u
        else
          a ← ka_kfree None (heap (bc u));
          let u := set_bc (set_heap a (bc u)) u in
          dir ← deref work;
          u ← iput dir u;
          '(u, work) ← iget fuel DEV_NO inum u;
          Fault
    end
  else mret (u, work).
Definition namei (path : list Z) u : outcome (ufs_st S A * option Z) :=
  match path with
  | [] => mret (u, None)
  | c :: _ => if c =? 47 then namei_loop fuel path 1 0 (root u) u else namei_loop fuel path 0 0 (pwd u) u
  end.

(** ** Reports *)

Definition print_line (text : list Z) (args : list va) s : outcome S := printk patience (text ++ [10]) args s.
Fixpoint print_free (l : list Z) s : outcome S :=
  match l with
  | [] => mret s
  | i :: l => s ← printk patience (chars "%u ") [VWord i] s; print_free l s
  end.
Definition display_sb (sb : s_ufs) s : outcome S :=
  s ← print_line (chars "========== UFS SUPER BLOCK ==========") [] s;
  s ← print_line (chars "Filesystem size        : %d") [VWord (s_fs_size sb)] s;
  s ← print_line (chars "Inode list size        : %u") [VWord (s_inode_list_size sb)] s;
  s ← print_line (chars "Total inodes           : %lu") [VWord (s_total_inodes sb)] s;
  s ← print_line (chars "Free inodes count      : %lu") [VWord (s_n_free_inodes sb)] s;
  s ← print_line (chars "Next free inode index  : %d") [VWord (s_next_free_inode sb)] s;
  s ← print_line (chars "Remembered inode       : %lu") [VWord (s_remembered_inode sb)] s;
  s ← print_line (chars "Inode list lock        : %d") [VWord (s_inode_list_lock sb)] s;
  s ← print_line (chars "Superblock flags       : 0x%x") [VWord (s_flags sb)] s;
  s ← print_line (chars "DILB start block       : %d") [VWord (s_blk_dilb_start sb)] s;
  s ← print_line (chars "DILB end block         : %d") [VWord (s_blk_dilb_end sb)] s;
  s ← printk patience (chars "Free inode list        : ") [] s;
  s ← print_free (s_free_inodes sb) s;
  s ← print_line [] [] s;
  print_line (chars "=====================================") [] s.

Definition test_fs u : outcome (ufs_st S A) :=
  '(u, bh) ← fs_bread 1 u;
  '(_, data) ← data_of bh (bc u);
  sb ← super_at data;
  s ← display_sb sb (io (bc u));
  fs_brelse bh (set_bc (set_io s (bc u)) u).

End fs.
