(* ===== verification/UfsProofs.v ===== *)
(** * The UFS file system: formatting and disk inodes

    [mkfs_block] is a block of fresh inodes.  The proofs run over the view
    [quiet] of the buffer cache: all blocks the file system touches are among
    the 100 the cache was created with. *)

From S2P Require Import Prelude ListHead Ports Disk BufferCache BufferProofs Blocks Layout Ufs.

(** ** Geometry *)

(** The inode table make_super lays out has exactly one slot for every
    inode, starts behind the superblock and ends inside the file system, for
    sizes of 1 to 4095 megabytes; from 4 gigabytes on the size in bytes
    overflows (there: no inodes at all). *)
Theorem make_super_correct mb s :
  0 < mb < 4096 ->
  let s' := make_super_fields mb s in
  s_blk_dilb_start s' = 2 /\
  INODES_PER_BLOCK * (s_blk_dilb_end s' - s_blk_dilb_start s' + 1) = s_total_inodes s' /\
  s_total_inodes s' = 256 * mb /\ s_blk_dilb_end s' < 1024 * mb /\
  s_n_free_inodes s' = s_total_inodes s' /\ length (s_free_inodes s') = 50%nat /\
  s_free_inodes s' !! Z.to_nat (s_next_free_inode s') = Some 49 /\
  s_total_inodes (make_super_fields 4096 s) = 0.
Proof.
  intros Hmb s'. unfold s', make_super_fields.
  cbn [s_blk_dilb_start s_blk_dilb_end s_total_inodes s_n_free_inodes s_free_inodes s_next_free_inode].
  rewrite !(u32_small mb), !(u32_small (mb * 1024)), (u32_small (mb * 1024 * 1024)) by lia.
  change INODES_PER_BLOCK with 8. unfold U_BYTES_PER_INODE.
  replace (mb * 1024 * 1024) with (256 * mb * 4096) by lia. rewrite Z.div_mul, u32_small by lia.
  replace (256 * mb + 8 - 1) with (7 + 32 * mb * 8) by lia. rewrite Z.div_add, Z.div_small, s32_small by lia.
  split_and!; done || lia.
Qed.

Lemma make_super_correct_witness :
  let s' := make_super_fields 3 (mk_ufs_super 0 0 0 0 [] 0 0 0 0 0 0 0) in
  s_blk_dilb_start s' = 2 /\
  INODES_PER_BLOCK * (s_blk_dilb_end s' - s_blk_dilb_start s' + 1) = s_total_inodes s' /\
  s_total_inodes s' = 256 * 3 /\ s_blk_dilb_end s' < 1024 * 3 /\
  s_n_free_inodes s' = s_total_inodes s' /\ length (s_free_inodes s') = 50%nat /\
  s_free_inodes s' !! Z.to_nat (s_next_free_inode s') = Some 49 /\
  s_total_inodes (make_super_fields 4096 (mk_ufs_super 0 0 0 0 [] 0 0 0 0 0 0 0)) = 0.
Proof. apply (make_super_correct 3). lia. Defined.

(** What make_super computes for a small file system. *)
Lemma make_super_small mb s : 0 < mb < 2 ^ 20 / 2 ^ 8 ->
  make_super_fields mb s =
    mk_ufs_super mb 50 (256 * mb) (256 * mb) (seqZ 0 50) 49 50 0 (s_padding s) 0 2 (32 * mb + 1).
Proof.
  intros Hmb. change (2 ^ 20 / 2 ^ 8) with 4096 in Hmb. unfold make_super_fields, FREE_INODE_LIST.
  rewrite !(u32_small mb), !(u32_small (mb * 1024)), (u32_small (mb * 1024 * 1024)) by lia.
  change INODES_PER_BLOCK with 8. unfold U_BYTES_PER_INODE.
  replace (mb * 1024 * 1024) with (256 * mb * 4096) by lia. rewrite Z.div_mul, u32_small by lia.
  replace (256 * mb + 8 - 1) with (7 + 32 * mb * 8) by lia. rewrite Z.div_add, Z.div_small, s32_small by lia.
  f_equal; lia.
Qed.

Lemma make_super_wf mb s : 0 < mb < 4096 -> fits 3 (s_padding s) -> super_wf (make_super_fields mb s).
Proof.
  intros Hmb Hpad. rewrite make_super_small by (change (2 ^ 20 / 2 ^ 8) with 4096; lia).
  split.
  - unfold super_fields. cbn [s_fs_size s_inode_list_size s_total_inodes s_n_free_inodes s_free_inodes
      s_next_free_inode s_remembered_inode s_inode_list_lock s_padding s_flags s_blk_dilb_start s_blk_dilb_end].
    rewrite !u32_small, u8_small by lia. unfold super_widths.
    repeat (apply Forall2_app || apply Forall2_cons_2 || apply Forall2_nil_2); try done;
      try (unfold fits; change (Z.of_nat 4) with 4; change (256 ^ 4) with (2 ^ 32); lia).
  - done.
  - cbn. repeat constructor; lia.
  - cbn. lia.
Qed.

Definition fresh_inode (inum blkno : Z) (osd2 : list Z) : d_inode :=
  mk_dinode 0 0 0 0 0 0 0 0 0 0 0 DEV_NO (replicate 15 0) inum blkno 0 0 osd2.

Lemma init_inode_fresh inum blkno d : 0 <= inum < 2 ^ 32 -> 0 <= blkno < 2 ^ 32 ->
  init_inode DEV_NO inum blkno d = fresh_inode inum blkno (i_osd2 d).
Proof. intros. unfold init_inode, fresh_inode. by rewrite !u32_small by (unfold DEV_NO; lia). Qed.

Lemma fresh_wf inum blkno d : dinode_wf d -> 0 <= inum < 2 ^ 32 -> 0 <= blkno < 2 ^ 32 ->
  dinode_wf (fresh_inode inum blkno (i_osd2 d)).
Proof.
  intros [Hf Hb] Hi Hk. split; [|done]. apply (Forall2_drop _ _ _ 31) in Hf.
  assert (E : drop 31 (dinode_fields d) = i_osd2 d).
  { destruct d as [m u sz a c mt dt g nl nb fl dv bl no bn da fa os]. cbn [i_blocks] in Hb. unfold dinode_fields.
    cbn [i_mode i_uid i_size i_atime i_ctime i_mtime i_dtime i_gid i_nlinks i_n_blocks i_flags i_dev i_blocks i_no
      i_blkno i_dir_acl i_faddr i_osd2]. change 31%nat with (12 + (15 + 4))%nat. rewrite <- !drop_drop.
    rewrite drop_app_length', drop_app_length' by done. done. }
  rewrite E in Hf. unfold fresh_inode, dinode_fields.
  cbn [i_mode i_uid i_size i_atime i_ctime i_mtime i_dtime i_gid i_nlinks i_n_blocks i_flags i_dev i_blocks i_no
      i_blkno i_dir_acl i_faddr i_osd2]. unfold dinode_widths.
  repeat (apply Forall2_app || apply Forall2_cons_2 || apply Forall2_nil_2); try done;
    try (unfold fits; change (Z.of_nat 4) with 4; change (256 ^ 4) with (2 ^ 32); unfold DEV_NO; lia).
Qed.

(** ** The view of the file system *)

Section fs.
Context {S A : Type} `{PIO : PortIO S} `{KAl : KAlloc A} `{KFr : KFree A} `{Ata : !AtaDevice S}.
Implicit Types (u : ufs_st S A) (buf dat : Z -> Z) (busy : gset Z) (mem : Z -> list Z).
Variables (f p : nat).
Hypothesis patient : (patience_bound <= p)%nat.
Abbreviation fuel := (Datatypes.S f).
Abbreviation disk_of u := (disk (view (io (bc u)))).

(** Sectors are 512 bytes, blocks in memory 1024. *)
Record sane (d mem : Z -> list Z) : Prop := {
  sane_disk l : length (d l) = 512%nat /\ bytes_ok (d l);
  sane_mem blk : 0 <= blk < BUFFERS -> length (mem blk) = 1024%nat /\ bytes_ok (mem blk);
}.

Lemma sane_upd d mem blk bytes : sane d mem -> length bytes = 1024%nat -> bytes_ok bytes -> sane d (upd mem blk bytes).
Proof.
  intros [Hd Hm] Hl Hb. split; [done|]. intros n Hn. unfold upd. case_decide; [done|by apply Hm].
Qed.

Lemma sane_read d mem blk : sane d mem -> 0 <= blk < BUFFERS ->
  length (d blk ++ drop 512 (mem blk)) = 1024%nat /\ bytes_ok (d blk ++ drop 512 (mem blk)).
Proof.
  intros [Hd Hm] Hblk. destruct (Hd blk) as [H1 H2], (Hm blk Hblk) as [H3 H4]. split.
  - rewrite length_app, length_drop, H1, H3. done.
  - apply Forall_app. split; [done|by apply Forall_drop].
Qed.

Lemma sane_write d d' mem blk : sane d mem -> 0 <= blk < BUFFERS ->
  (forall l, d' l = two_sectors blk (mem blk) d l) -> sane d' mem.
Proof.
  intros [Hd Hm] Hblk E. split; [|done]. intros l. rewrite E. unfold two_sectors.
  destruct (Hm blk Hblk) as [H1 H2]. repeat case_decide; [| |apply Hd].
  - split; [rewrite length_take, H1; done|by apply Forall_take].
  - split; [rewrite length_drop, H1; done|by apply Forall_drop].
Qed.

Lemma set_bc_twice (st1 st2 : bcache_st S A) u : set_bc st2 (set_bc st1 u) = set_bc st2 u.
Proof. done. Qed.

Lemma fs_bread_spec u buf dat busy mem blk :
  quiet (bc u) buf dat busy mem -> 0 <= blk < BUFFERS -> blk ∉ busy -> sane (disk_of u) mem ->
  exists st, fs_bread fuel p blk u = Ret (set_bc st u, buf blk) /\
    quiet st buf dat ({[blk]} ∪ busy) (upd mem blk (disk_of u blk ++ drop 512 (mem blk))) /\
    disk (view (io st)) = disk_of u /\
    sane (disk_of u) (upd mem blk (disk_of u blk ++ drop 512 (mem blk))).
Proof.
  intros Hq Hblk Hb Hs. destruct (quiet_bread _ _ _ _ _ blk f p ufs_globals Hq Hblk Hb patient) as (st & R & Hq' & Ed);
    [apply Hs|].
  exists st. unfold fs_bread. rewrite R, bind_Ret. split; [done|]. split; [done|]. split; [done|].
  destruct (sane_read _ _ blk Hs Hblk). by apply sane_upd.
Qed.

Lemma fs_brelse_spec u buf dat busy mem blk :
  quiet (bc u) buf dat busy mem -> 0 <= blk < BUFFERS -> blk ∈ busy ->
  exists st, fs_brelse (buf blk) u = Ret (set_bc st u) /\ quiet st buf dat (busy ∖ {[blk]}) mem /\
    disk (view (io st)) = disk_of u.
Proof.
  intros Hq Hblk Hb. destruct (quiet_brelse _ _ _ _ _ blk Hq Hblk Hb) as (st & R & Hq' & Ed).
  exists st. unfold fs_brelse. by rewrite R, bind_Ret.
Qed.

Lemma fs_bwrite_spec u buf dat busy mem blk :
  quiet (bc u) buf dat busy mem -> 0 <= blk < BUFFERS -> blk ∈ busy -> sane (disk_of u) mem ->
  exists st, fs_bwrite p (buf blk) u = Ret (set_bc st u) /\ quiet st buf dat (busy ∖ {[blk]}) mem /\
    (forall l, disk (view (io st)) l = two_sectors blk (mem blk) (disk_of u) l) /\ sane (disk (view (io st))) mem.
Proof.
  intros Hq Hblk Hb Hs. destruct (quiet_bwrite _ _ _ _ _ blk p Hq Hblk Hb patient) as (st & R & Hq' & Ed).
  exists st. unfold fs_bwrite. rewrite R, bind_Ret. do 3 (split; [done|]). by eapply sane_write.
Qed.

Lemma set_data_spec u buf dat busy mem blk bytes :
  quiet (bc u) buf dat busy mem -> 0 <= blk < BUFFERS -> length bytes = 1024%nat ->
  quiet (bc (set_data (dat blk) bytes u)) buf dat busy (upd mem blk bytes).
Proof. intros. by apply quiet_store. Qed.

(** ** The superblock *)

Lemma get_super_spec u buf dat busy mem :
  quiet (bc u) buf dat busy mem -> super u = Some (dat 1) -> get_super u = super_at (mem 1).
Proof.
  intros Hq Hs. unfold get_super. rewrite Hs. unfold deref. rewrite bind_Ret.
  destruct (quiet_data_of _ _ _ _ _ 1 Hq) as (_ & E & _); [done|]. by rewrite E, bind_Ret.
Qed.

Lemma upd_super_spec u buf dat busy mem g s :
  quiet (bc u) buf dat busy mem -> super u = Some (dat 1) -> sane (disk_of u) mem ->
  super_at (mem 1) = Ret s -> super_wf (g s) ->
  exists bytes st, upd_super g u = Ret (set_bc st u) /\ quiet st buf dat busy (upd mem 1 bytes) /\
    disk (view (io st)) = disk_of u /\ sane (disk_of u) (upd mem 1 bytes) /\ super_at bytes = Ret (g s) /\
    drop 240 bytes = drop 240 (mem 1).
Proof.
  intros Hq Hs Hsane Hsb Hwf. destruct (sane_mem _ _ Hsane 1) as [Hl Hb]; [done|].
  destruct (set_super_at_spec (mem 1) (g s) Hwf) as (bytes & R & Hl' & Hrd & Hdrop); [lia|].
  unfold upd_super. rewrite Hs. unfold deref. rewrite bind_Ret.
  destruct (quiet_data_of _ _ _ _ _ 1 Hq) as (_ & E & _); [done|]. rewrite E, bind_Ret, Hsb, bind_Ret, R, bind_Ret.
  exists bytes, (set_bdata (<[dat 1 := bytes]> (bdata (bc u))) (bc u)). split; [done|].
  split; [apply quiet_store; [done|done|by rewrite Hl', Hl]|]. split; [done|].
  split; [|done]. apply sane_upd; [done|by rewrite Hl', Hl|].
  eapply write_at_bytes; [exact R|apply bytes_ok_pack|done].
Qed.

(** ** Formatting *)

Definition fresh_block mem (blk first : Z) : Prop :=
  forall k, 0 <= k < 8 -> exists o, dinode_at (mem blk) k = Ret (fresh_inode (first + k) blk o).

Lemma init_block_spec n : forall j iCnt blk u buf dat busy mem,
  quiet (bc u) buf dat busy mem -> 0 <= blk < BUFFERS -> sane (disk_of u) mem ->
  0 <= j -> j + Z.of_nat n = 8 -> 0 <= iCnt < 2 ^ 31 ->
  (forall k, 0 <= k < j -> exists o, dinode_at (mem blk) k = Ret (fresh_inode (iCnt + k) blk o)) ->
  exists st mem', init_block n j iCnt blk (buf blk) u = Ret (set_bc st u) /\ quiet st buf dat busy mem' /\
    disk (view (io st)) = disk_of u /\ sane (disk_of u) mem' /\ (forall b, b <> blk -> mem' b = mem b) /\
    fresh_block mem' blk iCnt.
Proof.
  induction n as [|n IH]; intros j iCnt blk u buf dat busy mem Hq Hblk Hs Hj Hn Hi Hdone.
  - exists (bc u), mem. split; [by destruct u|]. do 4 (split; [done|]). intros k Hk. apply Hdone. lia.
  - destruct (sane_mem _ _ Hs blk Hblk) as [Hl Hb].
    destruct (quiet_data_of _ _ _ _ _ blk Hq Hblk) as (Hd & _ & _).
    destruct (dinode_at_total (mem blk) j) as (old & Ro & Hwf); [done|lia..|].
    assert (Hwf' : dinode_wf (init_inode DEV_NO (iCnt + j) blk old)).
    { rewrite init_inode_fresh by (unfold BUFFERS in Hblk; lia). apply fresh_wf; [done|unfold BUFFERS in Hblk; lia..]. }
    destruct (set_dinode_at_spec (mem blk) j _ Hwf') as (bytes & R & Hl' & Hrd & Hoth & _); [lia..|].
    cbn [init_block]. rewrite Hd, bind_Ret, Ro, bind_Ret, R, bind_Ret.
    assert (Hs' : sane (disk_of u) (upd mem blk bytes)).
    { apply sane_upd; [done|lia|]. eapply write_at_bytes; [exact R|apply bytes_ok_pack|done]. }
    destruct (IH (j + 1) iCnt blk (set_data (dat blk) bytes u) buf dat busy (upd mem blk bytes))
      as (st & mem' & R' & Hq' & Ed & Hsane & Hag & Hf); try done; try lia.
    + apply set_data_spec; [done|done|lia].
    + intros k Hk. rewrite upd_eq. destruct (decide (k = j)) as [->|Hne].
      * exists (i_osd2 old). rewrite Hrd, init_inode_fresh; [done|unfold BUFFERS in Hblk; lia..].
      * destruct (Hdone k) as (o & E); [lia|]. exists o. rewrite Hoth by lia. done.
    + exists st, mem'. split; [exact R'|]. split; [done|]. split; [exact Ed|]. split; [done|]. split; [|done].
      intros b Hne. rewrite Hag, upd_ne by done. done.
Qed.

(** [k] blocks of the inode table are written, the superblock buffer is held. *)
Record formatted u buf dat mem (s : s_ufs) (k : Z) : Prop := {
  fm_quiet : quiet (bc u) buf dat {[1]} mem;
  fm_super : super u = Some (dat 1);
  fm_sane : sane (disk_of u) mem;
  fm_sb : super_at (mem 1) = Ret s;
  fm_fresh i : 0 <= i < k -> fresh_block mem (2 + i) (8 * i);
  fm_disk i : 0 <= i < k -> disk_of u (2 + i) = take 512 (mem (2 + i));
}.

Lemma mkufs_round u buf dat mem s k :
  formatted u buf dat mem s k -> s_blk_dilb_start s = 2 -> 0 <= k -> 2 + k < BUFFERS ->
  exists st1 st2 st mem', let blk := u32 (8 * k / INODES_PER_BLOCK + s_blk_dilb_start s) in
    fs_bread fuel p blk u = Ret (set_bc st1 u, buf (2 + k)) /\
    init_block (Z.to_nat INODES_PER_BLOCK) 0 (8 * k) blk (buf (2 + k)) (set_bc st1 u) = Ret (set_bc st2 u) /\
    fs_bwrite p (buf (2 + k)) (set_bc st2 u) = Ret (set_bc st u) /\
    formatted (set_bc st u) buf dat mem' s (k + 1) /\ mem' 1 = mem 1.
Proof.
  intros [Hq Hsu Hs Hsb Hf Hd] Hst Hk Hlt.
  assert (Eb : u32 (8 * k / INODES_PER_BLOCK + s_blk_dilb_start s) = 2 + k).
  { change INODES_PER_BLOCK with 8. rewrite Hst, Z.mul_comm, Z.div_mul, u32_small by (unfold BUFFERS in Hlt; lia). lia. }
  rewrite Eb. assert (Hblk : 0 <= 2 + k < BUFFERS) by lia.
  destruct (fs_bread_spec u buf dat {[1]} mem (2 + k) Hq Hblk) as (st1 & R1 & Hq1 & Ed1 & Hs1); [set_solver by lia|done|].
  set (mem1 := upd mem (2 + k) (disk_of u (2 + k) ++ drop 512 (mem (2 + k)))) in *.
  destruct (init_block_spec (Z.to_nat INODES_PER_BLOCK) 0 (8 * k) (2 + k) (set_bc st1 u) buf dat _ mem1 Hq1 Hblk)
    as (st2 & mem2 & R2 & Hq2 & Ed2 & Hs2 & Hag & Hfr); [cbn; by rewrite Ed1|lia|done|unfold BUFFERS in Hlt; lia|lia|].
  cbn [bc set_bc] in Ed2, Hs2. rewrite Ed1 in Ed2, Hs2.
  destruct (fs_bwrite_spec (set_bc st2 u) buf dat _ mem2 (2 + k) Hq2 Hblk) as (st & R3 & Hq3 & Ed3 & Hs3);
    [set_solver|cbn; by rewrite Ed2|].
  exists st1, st2, st, mem2. split; [exact R1|]. split; [exact R2|]. split; [exact R3|].
  assert (Hold : forall b, b <> 2 + k -> mem2 b = mem b) by (intros b Hne; rewrite Hag by done; by apply upd_ne).
  split; [|apply Hold; lia]. cbn [bc set_bc] in Ed3. rewrite Ed2 in Ed3. split; cbn [bc set_bc super]; try done.
  - eapply quiet_ext; [exact Hq3| |done]. apply set_eq. intros x. rewrite elem_of_difference, elem_of_union, !elem_of_singleton. lia.
  - rewrite Hold by lia. done.
  - intros i Hi. destruct (decide (i = k)) as [->|Hne]; [exact Hfr|].
    intros j Hj. rewrite Hold by lia. apply Hf; lia.
  - intros i Hi. rewrite Ed3. unfold two_sectors. destruct (decide (i = k)) as [->|Hne]; [by rewrite decide_True|].
    rewrite !decide_False by lia. rewrite Hold by lia. apply Hd. lia.
Qed.

Lemma mkufs_loop_spec m : forall n k u buf dat mem s,
  formatted u buf dat mem s k -> s_blk_dilb_start s = 2 -> s_total_inodes s = 8 * (k + Z.of_nat m) -> 0 <= k ->
  2 + k + Z.of_nat m <= BUFFERS -> (m <= n)%nat ->
  exists st mem', mkufs_loop fuel p n (8 * k) u = Ret (set_bc st u) /\
    formatted (set_bc st u) buf dat mem' s (k + Z.of_nat m) /\ mem' 1 = mem 1.
Proof.
  induction m as [|m IH]; intros n k u buf dat mem s Hfm Hst Htot Hk Hlt Hn.
  - exists (bc u), mem. rewrite Z.add_0_r. split; [|by destruct u].
    destruct n; cbn [mkufs_loop]; rewrite (get_super_spec _ _ _ _ _ (fm_quiet _ _ _ _ _ _ Hfm) (fm_super _ _ _ _ _ _ Hfm)),
      (fm_sb _ _ _ _ _ _ Hfm), bind_Ret, (proj2 (Z.ltb_ge (8 * k) _)) by lia; by destruct u.
  - destruct n as [|n]; [lia|]. cbn [mkufs_loop].
    rewrite (get_super_spec _ _ _ _ _ (fm_quiet _ _ _ _ _ _ Hfm) (fm_super _ _ _ _ _ _ Hfm)),
      (fm_sb _ _ _ _ _ _ Hfm), bind_Ret, (proj2 (Z.ltb_lt (8 * k) _)) by lia.
    destruct (mkufs_round u buf dat mem s k Hfm Hst Hk) as (st1 & st2 & st & mem1 & R1 & R2 & R3 & Hfm' & E1); [lia|].
    rewrite R1, bind_Ret, R2, bind_Ret, R3, bind_Ret.
    destruct (IH n (k + 1) (set_bc st u) buf dat mem1 s Hfm' Hst) as (st' & mem' & R & Hfm'' & E); [lia..|].
    replace (8 * k + INODES_PER_BLOCK) with (8 * (k + 1)) by (change INODES_PER_BLOCK with 8; lia).
    exists st', mem'. rewrite R. split; [done|]. replace (k + Z.of_nat (Datatypes.S m)) with (k + 1 + Z.of_nat m) by lia.
    split; [exact Hfm''|congruence].
Qed.

Lemma mkufs_spec u buf dat mem mb :
  quiet (bc u) buf dat ∅ mem -> sane (disk_of u) mem -> 1 <= mb <= 3 -> 32 * mb <= Z.of_nat fuel ->
  exists st mem' s, mkufs fuel p mb u = Ret (set_bc st (set_super (Some (dat 1)) u)) /\
    quiet st buf dat ∅ mem' /\ sane (disk (view (io st))) mem' /\ super_at (mem' 1) = Ret s /\
    s_blk_dilb_start s = 2 /\ s_total_inodes s = 256 * mb /\
    (forall i, 0 <= i < 32 * mb -> fresh_block mem' (2 + i) (8 * i)) /\
    (forall blk, 3 <= blk < 2 + 32 * mb -> disk (view (io st)) blk = take 512 (mem' blk)) /\
    disk (view (io st)) 1 = take 512 (mem' 1) /\ disk (view (io st)) 2 = drop 512 (mem 1).
Proof.
  intros Hq Hs Hmb Hfuel. unfold mkufs.
  destruct (fs_bread_spec u buf dat ∅ mem 1 Hq) as (st1 & R1 & Hq1 & Ed1 & Hs1); [done|set_solver|done|].
  rewrite R1, bind_Ret. cbn [bc set_bc].
  destruct (quiet_data_of _ _ _ _ _ 1 Hq1) as (Hd1 & _ & Hl1); [done|]. rewrite Hd1, bind_Ret.
  set (mem1 := upd mem 1 _) in *. set (u1 := set_super (Some (dat 1)) (set_bc st1 u)).
  destruct (sane_mem _ _ Hs1 1) as [_ Hb1]; [done|].
  destruct (super_at_total (mem1 1)) as (s0 & Hs0 & Hpad); [done|rewrite Hl1; unfold BUFFER_SIZE; lia|].
  destruct (upd_super_spec u1 buf dat _ mem1 (make_super_fields mb) s0 Hq1) as (bytes & st2 & R2 & Hq2 & Ed2 & Hs2 & Hsb & Hdrop);
    [done|cbn; by rewrite Ed1|done|apply make_super_wf; [lia|done]|].
  unfold make_super. rewrite R2, bind_Ret. cbn [u1 set_super set_bc bc] in Ed2. rewrite Ed1 in Ed2.
  set (s := make_super_fields mb s0) in *.
  assert (Es : s_blk_dilb_start s = 2 /\ s_total_inodes s = 256 * mb).
  { unfold s. rewrite make_super_small by (change (2 ^ 20 / 2 ^ 8) with 4096; lia). done. }
  destruct Es as [Est Etot].
  assert (Hfm : formatted (set_bc st2 u1) buf dat (upd mem1 1 bytes) s 0).
  { split; try done; cbn [bc set_bc]; try lia.
    rewrite Ed2. cbn [u1 set_super set_bc bc] in Hs2. by rewrite Ed1 in Hs2. }
  destruct (mkufs_loop_spec (Z.to_nat (32 * mb)) fuel 0 (set_bc st2 u1) buf dat _ s Hfm Est) as (st3 & mem3 & R3 & Hfm3 & E1);
    [lia|lia|unfold BUFFERS; lia|lia|].
  change (8 * 0) with 0 in R3. rewrite R3, bind_Ret. replace (0 + Z.of_nat (Z.to_nat (32 * mb))) with (32 * mb) in Hfm3 by lia.
  destruct Hfm3 as [Hq3 _ Hs3 Hsb3 Hfr3 Hd3].
  destruct (fs_bwrite_spec _ buf dat _ mem3 1 Hq3) as (st4 & R4 & Hq4 & Ed4 & Hs4); [done|set_solver|done|].
  rewrite R4. exists st4, mem3, s. split; [done|]. split; [eapply quiet_ext; [exact Hq4|set_solver|done]|].
  split; [done|]. split; [done|]. split; [done|]. split; [done|]. split; [exact Hfr3|].
  unfold two_sectors in Ed4. split; [|split].
  - intros blk Hblk. rewrite Ed4, !decide_False by lia. replace blk with (2 + (blk - 2)) by lia. apply Hd3. lia.
  - by rewrite Ed4.
  - rewrite Ed4. change (2 = 1 + 1) with (2 = 2). rewrite decide_False, decide_True by lia. rewrite E1, upd_eq.
    change 512%nat with (240 + 272)%nat at 1. rewrite <- drop_drop, Hdrop, drop_drop. change (240 + 272)%nat with 512%nat.
    unfold mem1. rewrite upd_eq, drop_app_length'; [done|]. by destruct (sane_disk _ _ Hs 1).
Qed.

Lemma get_dinode_spec u buf dat busy mem s inum :
  quiet (bc u) buf dat busy mem -> super u = Some (dat 1) -> sane (disk_of u) mem -> super_at (mem 1) = Ret s ->
  s_blk_dilb_start s = 2 -> 0 <= inum -> 2 + inum / 8 < BUFFERS -> 2 + inum / 8 ∉ busy ->
  let blk := 2 + inum / 8 in let data := disk_of u blk ++ drop 512 (mem blk) in
  exists st d, get_dinode fuel p inum u = Ret (set_bc st u, d) /\ dinode_at data (inum mod 8) = Ret d /\ dinode_wf d /\
    quiet st buf dat busy (upd mem blk data) /\ disk (view (io st)) = disk_of u /\ sane (disk_of u) (upd mem blk data).
Proof.
  intros Hq Hsu Hs Hsb Hst Hi Hlt Hbusy blk data.
  unfold get_dinode. rewrite (get_super_spec _ _ _ _ _ Hq Hsu), Hsb, bind_Ret. change INODES_PER_BLOCK with 8.
  assert (0 <= inum / 8) by (apply Z.div_pos; lia). assert (Hblk : 0 <= blk < BUFFERS) by lia.
  replace (u32 (inum / 8 + s_blk_dilb_start s)) with blk by (rewrite Hst, u32_small; unfold BUFFERS in *; lia).
  destruct (fs_bread_spec u buf dat busy mem blk Hq Hblk Hbusy Hs) as (st1 & R1 & Hq1 & Ed1 & Hs1). rewrite R1, bind_Ret.
  destruct (quiet_data_of _ _ _ _ _ blk Hq1 Hblk) as (Hd1 & _ & _). cbn [bc set_bc]. rewrite Hd1, bind_Ret, upd_eq.
  destruct (sane_read _ _ blk Hs Hblk) as [Hl Hb]. pose proof (Z.mod_pos_bound inum 8).
  destruct (dinode_at_total data (inum mod 8)) as (d & Rd & Hwf); [done|lia|unfold data; lia|]. fold data.
  rewrite Rd, bind_Ret.
  destruct (fs_brelse_spec (set_bc st1 u) buf dat _ _ blk Hq1 Hblk (held_now _ _)) as (st2 & R2 & Hq2 & Ed2).
  rewrite R2, bind_Ret. exists st2, d. split; [done|]. split; [done|]. split; [done|].
  split; [eapply quiet_ext; [exact Hq2|by apply released|done]|]. split; [by rewrite Ed2|done].
Qed.

(** A fresh inode is read from the sector and the memory of its block. *)
Lemma dinode_at_same data mem_blk k : length data = 1024%nat -> length mem_blk = 1024%nat -> 0 <= k < 8 ->
  (4 <= k \/ take 512 data = take 512 mem_blk) -> drop 512 data = drop 512 mem_blk ->
  dinode_at data k = dinode_at mem_blk k.
Proof.
  intros Hl1 Hl2 Hk Hcase Hd. apply dinode_at_ext; [lia..|]. destruct (decide (4 <= k)).
  - replace (Z.to_nat k * 128)%nat with (512 + (Z.to_nat k * 128 - 512))%nat by lia. by rewrite <- !drop_drop, Hd.
  - destruct Hcase as [?|Ht]; [lia|].
    assert (E : forall l : list Z, take 128 (drop (Z.to_nat k * 128) l) = take 128 (drop (Z.to_nat k * 128) (take 512 l))).
    { intros l. rewrite !take_drop_commute, take_take, Nat.min_l by lia. done. }
    by rewrite (E data), (E mem_blk), Ht.
Qed.

Lemma write_inode_spec u buf dat busy mem s q i :
  quiet (bc u) buf dat busy mem -> super u = Some (dat 1) -> sane (disk_of u) mem -> super_at (mem 1) = Ret s ->
  s_blk_dilb_start s = 2 -> inodes u !! q = Some i -> dinode_wf (core i) -> 0 <= i_no (core i) ->
  let blk := 2 + i_no (core i) / 8 in blk < BUFFERS -> blk ∉ busy ->
  exists st bytes, write_inode fuel p q u = Ret (set_bc st u) /\
    dinode_at bytes (i_no (core i) mod 8) = Ret (core i) /\
    (forall k, 0 <= k -> k <> i_no (core i) mod 8 -> dinode_at bytes k = dinode_at (disk_of u blk ++ drop 512 (mem blk)) k) /\
    quiet st buf dat busy (upd mem blk bytes) /\ sane (disk (view (io st))) (upd mem blk bytes) /\
    (forall l, disk (view (io st)) l = two_sectors blk bytes (disk_of u) l).
Proof.
  intros Hq Hsu Hs Hsb Hst Hq' Hwf Hi blk Hlt Hbusy. set (inum := i_no (core i)) in *.
  unfold write_inode. rewrite Hq'. unfold deref. rewrite bind_Ret.
  rewrite (get_super_spec _ _ _ _ _ Hq Hsu), Hsb, bind_Ret. change INODES_PER_BLOCK with 8. fold inum.
  assert (0 <= inum / 8) by (apply Z.div_pos; lia). assert (Hblk : 0 <= blk < BUFFERS) by lia.
  replace (u32 (inum / 8 + s_blk_dilb_start s)) with blk by (rewrite Hst, u32_small; unfold BUFFERS in *; lia).
  destruct (fs_bread_spec u buf dat busy mem blk Hq Hblk Hbusy Hs) as (st1 & R1 & Hq1 & Ed1 & Hs1). rewrite R1, bind_Ret.
  destruct (quiet_data_of _ _ _ _ _ blk Hq1 Hblk) as (Hd1 & _ & _). cbn [bc set_bc]. rewrite Hd1, bind_Ret, upd_eq.
  destruct (sane_read _ _ blk Hs Hblk) as [Hl Hb]. set (data := disk_of u blk ++ drop 512 (mem blk)) in *.
  pose proof (Z.mod_pos_bound inum 8).
  destruct (set_dinode_at_spec data (inum mod 8) (core i) Hwf) as (bytes & R & Hl' & Hrd & Hoth & _); [lia..|].
  rewrite R, bind_Ret.
  assert (Hs2 : sane (disk_of u) (upd (upd mem blk data) blk bytes)).
  { apply sane_upd; [done|lia|]. eapply write_at_bytes; [exact R|apply bytes_ok_pack|done]. }
  destruct (fs_bwrite_spec (set_data (dat blk) bytes (set_bc st1 u)) buf dat ({[blk]} ∪ busy) (upd (upd mem blk data) blk bytes) blk)
    as (st2 & R2 & Hq2 & Ed2 & Hs3);
    [apply set_data_spec; [done|done|lia]|done|set_solver|cbn; by rewrite Ed1|].
  rewrite R2. exists st2, bytes. split; [done|]. split; [done|]. split; [done|].
  assert (Hext : forall n, upd (upd mem blk data) blk bytes n = upd mem blk bytes n).
  { intros n. unfold upd. by case_decide. }
  split; [eapply quiet_ext; [exact Hq2|by apply released|done]|]. split.
  - destruct Hs3 as [Ha Hc]. split; [done|]. intros n Hn. rewrite <- Hext. by apply Hc.
  - intros l. rewrite Ed2, upd_eq. cbn. by rewrite Ed1.
Qed.

(** C21. mkufs of 1 to 3 megabytes over a cache nobody holds a block of: it
    succeeds; the superblock describes 256 inodes per megabyte from block 2 on;
    in the cache every slot of the table holds its fresh inode.  On the disk,
    however, only one sector per block survives: sectors 3 and up hold the
    first four inodes of their block, and sector 2 - inodes 0 to 3 - holds the
    bytes behind the superblock, which is written last and two sectors long. *)
Theorem mkufs_correct u buf dat mem mb :
  quiet (bc u) buf dat ∅ mem -> sane (disk_of u) mem -> 1 <= mb <= 3 -> 32 * mb <= Z.of_nat fuel ->
  exists u' mem' s, mkufs fuel p mb u = Ret u' /\ quiet (bc u') buf dat ∅ mem' /\
    get_super u' = Ret s /\ s_blk_dilb_start s = 2 /\ s_total_inodes s = 256 * mb /\
    (forall inum, 0 <= inum < 256 * mb ->
       exists o, dinode_at (mem' (2 + inum / 8)) (inum mod 8) = Ret (fresh_inode inum (2 + inum / 8) o)) /\
    (forall blk, 3 <= blk < 2 + 32 * mb -> disk_of u' blk = take 512 (mem' blk)) /\
    disk_of u' 1 = take 512 (mem' 1) /\ disk_of u' 2 = drop 512 (mem 1).
Proof.
  intros Hq Hs Hmb Hfuel. destruct (mkufs_spec u buf dat mem mb Hq Hs Hmb Hfuel)
    as (st & mem' & s & R & Hq' & Hs' & Hsb & Hst & Htot & Hfr & Hd & Hd1 & Hd2).
  exists (set_bc st (set_super (Some (dat 1)) u)), mem', s. split; [exact R|]. split; [exact Hq'|].
  split; [rewrite (get_super_spec _ buf dat ∅ mem'); done|]. do 2 (split; [done|]). split; [|done].
  intros inum Hi. pose proof (Z_div_mod_eq_full inum 8). pose proof (Z.mod_pos_bound inum 8).
  destruct (Hfr (inum / 8)) with (k := inum mod 8) as (o & E); [|lia|].
  - split; [apply Z.div_pos; lia|apply Z.div_lt_upper_bound; lia].
  - exists o. rewrite E. do 2 f_equal. lia.
Qed.

(** After mkufs, get_dinode finds every inode from number 4 on: empty, with
    its own number and block - the first four are lost to the superblock. *)
Theorem mkufs_get_dinode u buf dat mem mb inum :
  quiet (bc u) buf dat ∅ mem -> sane (disk_of u) mem -> 1 <= mb <= 3 -> 32 * mb <= Z.of_nat fuel ->
  4 <= inum < 256 * mb ->
  exists u1 u2 o, mkufs fuel p mb u = Ret u1 /\
    get_dinode fuel p inum u1 = Ret (u2, fresh_inode inum (2 + inum / 8) o).
Proof.
  intros Hq Hs Hmb Hfuel Hi. destruct (mkufs_spec u buf dat mem mb Hq Hs Hmb Hfuel)
    as (st & mem' & s & R & Hq' & Hs' & Hsb & Hst & Htot & Hfr & Hd & Hd1 & Hd2).
  pose proof (Z_div_mod_eq_full inum 8). pose proof (Z.mod_pos_bound inum 8).
  set (u1 := set_bc st (set_super (Some (dat 1)) u)) in *.
  assert (Hdiv : 0 <= inum / 8 < 32 * mb) by (split; [apply Z.div_pos; lia|apply Z.div_lt_upper_bound; lia]).
  destruct (get_dinode_spec u1 buf dat ∅ mem' s inum Hq') as (st2 & d & R2 & Hrd & _); try done;
    [lia|unfold BUFFERS; lia|].
  destruct (Hfr (inum / 8) Hdiv (inum mod 8)) as (o & E); [lia|].
  exists u1, (set_bc st2 u1), o. split; [exact R|]. rewrite R2. do 2 f_equal.
  assert (Hb : 0 <= 2 + inum / 8 < BUFFERS) by (unfold BUFFERS; lia).
  destruct (sane_read _ _ (2 + inum / 8) Hs' Hb) as [Hl _]. destruct (sane_disk _ _ Hs' (2 + inum / 8)) as [Hl2 _].
  change (disk_of u1) with (disk (view (io st))) in Hrd. rewrite (dinode_at_same _ (mem' (2 + inum / 8))) in Hrd.
  - rewrite E in Hrd. injection Hrd as <-. do 2 f_equal. lia.
  - done.
  - by apply (sane_mem _ _ Hs').
  - lia.
  - destruct (decide (inum / 8 = 0)); [lia|]. right. rewrite take_app_length' by done. apply Hd. lia.
  - by rewrite drop_app_length' by done.
Qed.

(** An inode that write_inode stores is the inode get_dinode then returns. *)
Theorem write_inode_get_dinode u buf dat busy mem s q i :
  quiet (bc u) buf dat busy mem -> super u = Some (dat 1) -> sane (disk_of u) mem -> super_at (mem 1) = Ret s ->
  s_blk_dilb_start s = 2 -> inodes u !! q = Some i -> dinode_wf (core i) -> 0 <= i_no (core i) ->
  2 + i_no (core i) / 8 < BUFFERS -> 2 + i_no (core i) / 8 ∉ busy ->
  exists u1 u2, write_inode fuel p q u = Ret u1 /\ get_dinode fuel p (i_no (core i)) u1 = Ret (u2, core i).
Proof.
  intros Hq Hsu Hs Hsb Hst Hqi Hwf Hi Hlt Hbusy.
  assert (H1 : 1 <> 2 + i_no (core i) / 8) by (pose proof (Z.div_pos (i_no (core i)) 8); lia).
  destruct (write_inode_spec u buf dat busy mem s q i Hq Hsu Hs Hsb Hst Hqi Hwf Hi Hlt Hbusy)
    as (st & bytes & R & Hrd & _ & Hq' & Hs' & Hd).
  set (blk := 2 + i_no (core i) / 8) in *.
  destruct (get_dinode_spec (set_bc st u) buf dat busy (upd mem blk bytes) s (i_no (core i)) Hq' Hsu Hs')
    as (st2 & d & R2 & Hrd2 & _); [by rewrite upd_ne|done..|].
  exists (set_bc st u), (set_bc st2 (set_bc st u)). split; [exact R|]. rewrite R2. do 2 f_equal.
  cbn [bc set_bc] in Hrd2. fold blk in Hrd2. rewrite Hd, upd_eq in Hrd2. unfold two_sectors in Hrd2.
  rewrite decide_True, take_drop, Hrd in Hrd2 by done. by injection Hrd2.
Qed.

(** But the write reaches into the next block: write_inode of an inode in
    block n makes the first four inodes of block n + 1 read back as the last
    four of block n. *)
Theorem write_inode_overwrites_next u buf dat busy mem s q i j :
  quiet (bc u) buf dat busy mem -> super u = Some (dat 1) -> sane (disk_of u) mem -> super_at (mem 1) = Ret s ->
  s_blk_dilb_start s = 2 -> inodes u !! q = Some i -> dinode_wf (core i) -> 0 <= i_no (core i) -> 0 <= j < 4 ->
  3 + i_no (core i) / 8 < BUFFERS -> 2 + i_no (core i) / 8 ∉ busy -> 3 + i_no (core i) / 8 ∉ busy ->
  exists u1 u2 u3 d, write_inode fuel p q u = Ret u1 /\
    get_dinode fuel p (8 * (i_no (core i) / 8) + 4 + j) u1 = Ret (u2, d) /\
    get_dinode fuel p (8 * (i_no (core i) / 8 + 1) + j) u2 = Ret (u3, d).
Proof.
  intros Hq Hsu Hs Hsb Hst Hqi Hwf Hi Hj Hlt Hb1 Hb2.
  assert (Hn : 0 <= i_no (core i) / 8) by (apply Z.div_pos; lia).
  destruct (write_inode_spec u buf dat busy mem s q i Hq Hsu Hs Hsb Hst Hqi Hwf Hi) as (st & bytes & R & _ & _ & Hq1 & Hs1 & Hd);
    [lia|done|].
  set (n := i_no (core i) / 8) in *. unfold two_sectors in Hd.
  assert (E4 : (8 * n + 4 + j) / 8 = n) by (replace (8 * n + 4 + j) with (4 + j + n * 8) by lia; rewrite Z.div_add, Z.div_small; lia).
  assert (M4 : (8 * n + 4 + j) mod 8 = 4 + j) by (replace (8 * n + 4 + j) with (4 + j + n * 8) by lia; rewrite Z.mod_add, Z.mod_small; lia).
  assert (E8 : (8 * (n + 1) + j) / 8 = n + 1) by (replace (8 * (n + 1) + j) with (j + (n + 1) * 8) by lia; rewrite Z.div_add, Z.div_small; lia).
  assert (M8 : (8 * (n + 1) + j) mod 8 = j) by (replace (8 * (n + 1) + j) with (j + (n + 1) * 8) by lia; rewrite Z.mod_add, Z.mod_small; lia).
  destruct (get_dinode_spec (set_bc st u) buf dat busy (upd mem (2 + n) bytes) s (8 * n + 4 + j) Hq1 Hsu Hs1)
    as (st2 & d & R2 & Hrd2 & _ & Hq2 & Ed2 & Hs2); [by rewrite upd_ne by lia|done|lia|rewrite E4; lia|by rewrite E4|].
  rewrite E4 in Hq2, Hs2, Hrd2. rewrite M4 in Hrd2. cbn [bc set_bc] in *.
  assert (Hs2' : sane (disk (view (io st2))) _) by (rewrite Ed2; exact Hs2).
  destruct (get_dinode_spec (set_bc st2 u) buf dat busy _ s (8 * (n + 1) + j) Hq2 Hsu Hs2')
    as (st3 & d3 & R3 & Hrd3 & _); [by rewrite !upd_ne by lia|done|lia|rewrite E8; lia|rewrite E8; by replace (2 + (n + 1)) with (3 + n) by lia|].
  rewrite E8, M8 in Hrd3. cbn [bc set_bc] in *.
  exists (set_bc st u), (set_bc st2 u), (set_bc st3 u), d. split; [exact R|]. split; [exact R2|].
  rewrite set_bc_twice in R3. rewrite R3. do 2 f_equal. apply (f_equal (fun o => match o with Ret x => x | _ => d end)) in Hrd3 as <-.
  rewrite upd_eq, Hd, decide_True, take_drop in Hrd2 by done.
  rewrite Ed2, !upd_ne, Hd, decide_False, decide_True by lia.
  destruct (sane_mem _ _ Hs1 (2 + n)) as [Hlb _]; [lia|]. rewrite upd_eq in Hlb.
  destruct (sane_mem _ _ Hs1 (2 + (n + 1))) as [Hlm _]; [lia|]. rewrite upd_ne in Hlm by lia.
  rewrite (dinode_at_ext _ bytes j (4 + j)), Hrd2; [done|rewrite length_app, !length_drop; lia|lia..|].
  rewrite drop_app_le by (rewrite length_drop; lia). rewrite take_app_le by (rewrite !length_drop; lia).
  rewrite drop_drop. do 2 f_equal. lia.
Qed.

End fs.

(** ** Concrete instances *)

Definition ufs_of (st : bcache_st sim Z) : ufs_st sim Z := mk_ufs st None ∅ ∅ None None.


Lemma booted_fs : exists (st : bcache_st sim Z) buf dat,
  quiet st buf dat ∅ (fun _ => zero_block) /\ sane (disk (view (io st))) (fun _ => zero_block) /\ io st = sim_start.
Proof.
  destruct (quiet_boot_clear 0 sim_start 1) as (st & buf & dat & _ & Hq & Hio & _); [exact I|].
  exists st, buf, dat. split; [done|]. split; [|done]. rewrite Hio. split.
  - intros l. split; [reflexivity|]. apply (bool_decide_unpack _). by vm_compute.
  - intros blk _. split; [reflexivity|]. apply (bool_decide_unpack _). by vm_compute.
Qed.

Lemma mkufs_correct_witness : exists (u u' : ufs_st sim Z) s, mkufs 40 2 1 u = Ret u' /\
  get_super u' = Ret s /\ s_total_inodes s = 256.
Proof.
  destruct booted_fs as (st & buf & dat & Hq & Hs & _).
  destruct (mkufs_correct 39 2 sim_patient (ufs_of st) buf dat (fun _ => zero_block) 1 Hq Hs)
    as (u' & mem' & s & R & _ & Hg & _ & Ht & _); [lia|lia|].
  exists (ufs_of st), u', s. split; [exact R|]. split; [exact Hg|exact Ht].
Defined.

Lemma mkufs_get_dinode_witness : exists (u u1 u2 : ufs_st sim Z) o, mkufs 40 2 1 u = Ret u1 /\
  get_dinode 40 2 100 u1 = Ret (u2, fresh_inode 100 14 o).
Proof.
  destruct booted_fs as (st & buf & dat & Hq & Hs & _).
  destruct (mkufs_get_dinode 39 2 sim_patient (ufs_of st) buf dat (fun _ => zero_block) 1 100 Hq Hs)
    as (u1 & u2 & o & R & R2); [lia|lia|lia|].
  exists (ufs_of st), u1, u2, o. split; [exact R|exact R2].
Defined.

(** A formatted file system, with inode 10 in core at address 7. *)
Definition inode_10 : inode := mk_inode (fresh_inode 10 3 (replicate 12 0)) 0 1.
Lemma formatted_fs : exists (u : ufs_st sim Z) buf dat mem s,
  quiet (bc u) buf dat ∅ mem /\ super u = Some (dat 1) /\ sane (disk (view (io (bc u)))) mem /\
  super_at (mem 1) = Ret s /\ s_blk_dilb_start s = 2 /\ inodes u !! 7 = Some inode_10.
Proof.
  destruct booted_fs as (st & buf & dat & Hq & Hs & _).
  destruct (mkufs_spec 39 2 sim_patient (ufs_of st) buf dat (fun _ => zero_block) 1 Hq Hs)
    as (st' & mem' & s & _ & Hq' & Hs' & Hsb & Hst & _); [lia|lia|].
  exists (mk_ufs st' (Some (dat 1)) {[7 := inode_10]} ∅ None None), buf, dat, mem', s. done.
Qed.

Lemma inode_10_wf : dinode_wf (core inode_10).
Proof. split; [|done]. apply (bool_decide_unpack _). by vm_compute. Qed.

Lemma write_inode_get_dinode_witness : exists u u1 u2 : ufs_st sim Z,
  write_inode 1 2 7 u = Ret u1 /\ get_dinode 1 2 10 u1 = Ret (u2, core inode_10).
Proof.
  destruct formatted_fs as (u & buf & dat & mem & s & Hq & Hsu & Hs & Hsb & Hst & Hi).
  destruct (write_inode_get_dinode 0 2 sim_patient u buf dat ∅ mem s 7 inode_10 Hq Hsu Hs Hsb Hst Hi inode_10_wf)
    as (u1 & u2 & R & R2); [simpl; lia|done|set_solver|].
  exists u, u1, u2. split; [exact R|exact R2].
Defined.

Lemma write_inode_overwrites_next_witness : exists (u u1 u2 u3 : ufs_st sim Z) d,
  write_inode 1 2 7 u = Ret u1 /\ get_dinode 1 2 13 u1 = Ret (u2, d) /\ get_dinode 1 2 17 u2 = Ret (u3, d).
Proof.
  destruct formatted_fs as (u & buf & dat & mem & s & Hq & Hsu & Hs & Hsb & Hst & Hi).
  destruct (write_inode_overwrites_next 0 2 sim_patient u buf dat ∅ mem s 7 inode_10 1 Hq Hsu Hs Hsb Hst Hi inode_10_wf)
    as (u1 & u2 & u3 & d & R & R2 & R3); [simpl; lia|lia|done|set_solver|set_solver|].
  exists u, u1, u2, u3, d. split; [exact R|]. split; [exact R2|exact R3].
Defined.
