(* ===== verification/InodeProofs.v ===== *)
(** * The inode cache, directories and paths of the UFS file system

    [icache_ok u chains frees]: hash queue [i] holds the in-core inodes
    [chains i], the free list [frees]; no inode number is cached twice, and an
    inode is either free (unlocked, no reference) or in use (locked, one
    reference). *)

From S2P Require Import Prelude ListHead Ports Disk BufferCache BufferProofs Blocks Layout Ufs UfsProofs.

(** ** The lock bit of [i_flags] *)

Lemma low_bit v : 0 <= v -> IS_FLAG v I_lock = Z.testbit v 0.
Proof. intros. change I_lock with (2 ^ 0). by rewrite is_flag_pow2. Qed.

Lemma ilock_set v : 0 <= v < 2 ^ 32 -> let w := u32 (SET_FLAG v I_lock) in
  0 <= w < 2 ^ 32 /\ IS_FLAG w I_lock = true.
Proof.
  intros Hv w. pose proof (u32_range (SET_FLAG v I_lock)) as Hr. split; [exact Hr|]. rewrite low_bit by apply Hr.
  unfold w, u32, SET_FLAG. rewrite Z.mod_pow2_bits_low, Z.lor_spec by lia. change (Z.testbit I_lock 0) with true.
  apply orb_true_r.
Qed.

Lemma ilock_clear v : 0 <= v < 2 ^ 32 -> let w := u32 (CLEAR_FLAG v I_lock) in
  0 <= w < 2 ^ 32 /\ IS_FLAG w I_lock = false.
Proof.
  intros Hv w. pose proof (u32_range (CLEAR_FLAG v I_lock)) as Hr. split; [exact Hr|]. rewrite low_bit by apply Hr.
  unfold w, u32, CLEAR_FLAG. rewrite Z.mod_pow2_bits_low, Z.land_spec by lia.
  change (Z.testbit (u32 (Z.lnot I_lock)) 0) with false. apply andb_false_r.
Qed.

Lemma ilock_undo v : 0 <= v < 2 ^ 32 -> IS_FLAG v I_lock = false ->
  u32 (CLEAR_FLAG (u32 (SET_FLAG (u32 (SET_FLAG v I_lock)) I_lock)) I_lock) = v.
Proof.
  intros Hv. rewrite low_bit by lia. intros H0. unfold u32, CLEAR_FLAG, SET_FLAG. change I_lock with (2 ^ 0).
  rewrite <- (Z.mod_small v (2 ^ 32)) at 2 by done. apply Z.bits_inj'. intros k Hk.
  destruct (decide (k < 32)); [|by rewrite !Z.mod_pow2_bits_high by lia].
  rewrite !Z.mod_pow2_bits_low, Z.land_spec by lia. unfold u32.
  rewrite !Z.mod_pow2_bits_low, Z.lor_spec, Z.mod_pow2_bits_low, Z.lor_spec, Z.lnot_spec, testbit_pow2 by lia.
  destruct (Z.eqb_spec 0 k) as [<-|]; [by rewrite H0, andb_false_r|]. by rewrite !orb_false_r, andb_true_r.
Qed.

Section icache.
Context {S A : Type} `{PIO : PortIO S} `{KAl : KAlloc A} `{KFr : KFree A}.
Implicit Types (u : ufs_st S A) (chains : Z -> list Z) (frees : list Z) (x : inode).
Variables (fuel patience : nat).

Record good_inode u (i q : Z) x : Prop := {
  gi_inode : inodes u !! q = Some x;
  gi_dev : i_dev (core x) = DEV_NO;
  gi_queue : queue_of (i_no (core x)) = i;
  gi_flags : 0 <= i_flags (core x) < 2 ^ 32;
  gi_count : i_count x = if IS_FLAG (i_flags (core x)) I_lock then 1 else 0;
  gi_node : is_Some (inode_nodes u !! BFree q);
}.

Record icache_ok u chains frees : Prop := {
  ic_chain i : 0 <= i < DEV_NO -> is_list (inode_nodes u) (HashHead i) (BHash <$> chains i);
  ic_free : is_list (inode_nodes u) FreeHead (BFree <$> frees);
  ic_inode i q : 0 <= i < DEV_NO -> q ∈ chains i -> exists x, good_inode u i q x;
  ic_uniq q q' x x' : cached chains q -> cached chains q' ->
    inodes u !! q = Some x -> inodes u !! q' = Some x' -> i_no (core x) = i_no (core x') -> q = q';
  ic_lock q x : cached chains q -> inodes u !! q = Some x ->
    (q ∈ frees <-> IS_FLAG (i_flags (core x)) I_lock = false);
  ic_sub q : q ∈ frees -> cached chains q;
}.

(** [q] is the in-core inode number [inum]. *)
Definition iholds u chains (inum q : Z) x : Prop :=
  q ∈ chains (queue_of inum) /\ inodes u !! q = Some x /\ i_no (core x) = inum.

Lemma iholds_cached u chains inum q x : iholds u chains inum q x -> cached chains q.
Proof. intros [Hin _]. eexists. split; [apply queue_of_range|done]. Qed.

(** ** Lookup *)

Fixpoint find_inode (m : gmap Z inode) (l : list Z) (inum : Z) : option Z :=
  match l with
  | [] => None
  | q :: l => match m !! q with
              | Some x => if i_no (core x) =? inum then Some q else find_inode m l inum
              | None => None
              end
  end.

Lemma search_inode_chain_spec u i l inum n :
  path (inode_nodes u) ((BHash <$> l) ++ [HashHead i]) ->
  (forall q, q ∈ l -> exists x, inodes u !! q = Some x /\ i_dev (core x) = DEV_NO) ->
  (length l <= n)%nat ->
  search_inode_chain n (Some (default (HashHead i) (head (BHash <$> l)))) (Some (HashHead i)) DEV_NO inum u
  = Ret (find_inode (inodes u) l inum).
Proof.
  revert n. induction l as [|q l IH]; intros n Hp Hb Hf.
  - destruct n; cbn [search_inode_chain]; by rewrite bool_decide_eq_true_2.
  - destruct n as [|n]; [simpl in *; lia|]. cbn [search_inode_chain fmap list_fmap head default].
    rewrite bool_decide_eq_false_2 by done. simpl in Hf.
    destruct (Hb q) as (x & Hx & Hdev); [left|]. simpl. rewrite Hx. simpl.
    rewrite Hdev, Z.eqb_refl, andb_true_r. destruct (_ =? _); [done|].
    assert (Hn : hnext (inode_nodes u) (BHash q) = Some (default (HashHead i) (head (BHash <$> l))) /\
                 path (inode_nodes u) ((BHash <$> l) ++ [HashHead i])).
    { destruct l; simpl in *; naive_solver. }
    destruct Hn as [Hn Hp']. rewrite (get_next_hnext _ _ _ Hn). simpl.
    apply IH; [done| |lia]. intros b' Hb'. apply Hb. by right.
Qed.

Lemma isearch_spec u chains frees inum :
  icache_ok u chains frees ->
  search_hash DEV_NO inum u = Ret (find_inode (inodes u) (chains (queue_of inum)) inum).
Proof.
  intros Hok. pose proof (queue_of_range inum) as Hr. pose proof (ic_chain _ _ _ Hok _ Hr) as Hl.
  unfold search_hash. change (hash_fn inum DEV_NO) with (Ret (queue_of inum)).
  rewrite bind_Ret, hash_slot_queue by done. rewrite (is_list_first _ _ _ Hl), bind_Ret.
  apply search_inode_chain_spec.
  - destruct Hl as [_ Hp]. destruct (chains (queue_of inum)); [done|]. by destruct Hp as (_ & _ & ?).
  - intros q Hq. destruct (ic_inode _ _ _ Hok _ _ Hr Hq) as (x & []). eauto.
  - pose proof (is_list_size _ _ _ Hl). rewrite length_fmap in *. lia.
Qed.

Lemma isearch_hit u chains frees inum q x :
  icache_ok u chains frees -> iholds u chains inum q x -> search_hash DEV_NO inum u = Ret (Some q).
Proof.
  intros Hok Hh. rewrite (isearch_spec _ _ _ _ Hok). f_equal.
  pose proof (iholds_cached _ _ _ _ _ Hh) as Hc. destruct Hh as (Hq & Hx & Hn).
  assert (Hall : forall q', q' ∈ chains (queue_of inum) -> exists x', inodes u !! q' = Some x' /\ (i_no (core x') = inum -> q' = q)).
  { intros q' Hq'. destruct (ic_inode _ _ _ Hok _ _ (queue_of_range inum) Hq') as (x' & []). exists x'.
    split; [done|]. intros E. eapply (ic_uniq _ _ _ Hok q' q); eauto; [|congruence].
    eexists. split; [apply (queue_of_range inum)|done]. }
  revert Hq Hall. generalize (chains (queue_of inum)) as l. induction l as [|q' l IH]; intros Hq Hall; simpl;
    [by apply not_elem_of_nil in Hq|].
  destruct (Hall q') as (x' & Hm & Hu); [left|]. rewrite Hm.
  destruct (Z.eqb_spec (i_no (core x')) inum) as [E|E]; [by rewrite (Hu E)|].
  apply elem_of_cons in Hq as [->|Hq]; [congruence|]. apply IH; [done|]. intros. apply Hall. by right.
Qed.

Lemma isearch_miss u chains frees inum :
  icache_ok u chains frees -> (forall q x, ~ iholds u chains inum q x) -> search_hash DEV_NO inum u = Ret None.
Proof.
  intros Hok Hh. rewrite (isearch_spec _ _ _ _ Hok). f_equal.
  assert (Hall : forall q, q ∈ chains (queue_of inum) -> exists x, inodes u !! q = Some x /\ i_no (core x) <> inum).
  { intros q Hq. destruct (ic_inode _ _ _ Hok _ _ (queue_of_range inum) Hq) as (x & []). exists x.
    split; [done|]. intros E. by apply (Hh q x). }
  revert Hall. generalize (chains (queue_of inum)) as l. induction l as [|q l IH]; intros Hall; simpl; [done|].
  destruct (Hall q) as (x & -> & Hne); [left|]. apply Z.eqb_neq in Hne. rewrite Hne.
  apply IH. intros. apply Hall. by right.
Qed.

(** ** Preservation: the state of one inode and the free list change. *)

Lemma icache_change u u' chains frees frees' q x x' :
  icache_ok u chains frees -> cached chains q -> inodes u !! q = Some x ->
  inodes u' = <[q := x']> (inodes u) -> i_no (core x') = i_no (core x) -> i_dev (core x') = i_dev (core x) ->
  0 <= i_flags (core x') < 2 ^ 32 -> i_count x' = (if IS_FLAG (i_flags (core x')) I_lock then 1 else 0) ->
  dom (inode_nodes u') = dom (inode_nodes u) ->
  (forall i, 0 <= i < DEV_NO -> is_list (inode_nodes u') (HashHead i) (BHash <$> chains i)) ->
  is_list (inode_nodes u') FreeHead (BFree <$> frees') ->
  (forall b, b <> q -> b ∈ frees' <-> b ∈ frees) ->
  (q ∈ frees' <-> IS_FLAG (i_flags (core x')) I_lock = false) ->
  icache_ok u' chains frees'.
Proof.
  intros Hok Hc Hx Eb En Ed Hfl Hcnt Edom Hq Hf Hfr Hlk.
  assert (Hold : forall b y, inodes u' !! b = Some y -> exists y0, inodes u !! b = Some y0 /\ i_no (core y0) = i_no (core y)).
  { intros b y. rewrite Eb, lookup_insert. case_decide; [intros [= <-]; subst; eauto|eauto]. }
  split; try done.
  - intros i b Hi Hb. destruct (ic_inode _ _ _ Hok i b Hi Hb) as (y & [G1 G2 G3 G4 G5 G6]).
    destruct (decide (b = q)) as [->|Hne].
    + simplify_eq. exists x'. split; [by rewrite Eb, lookup_insert_eq|congruence|congruence|done|done|].
      by apply (in_dom_eq (inode_nodes u)).
    + exists y. split; try done; [by rewrite Eb, lookup_insert_ne|by apply (in_dom_eq (inode_nodes u))].
  - intros b b' y y' Hb Hb' Hy Hy' E. destruct (Hold _ _ Hy) as (z & ? & ?), (Hold _ _ Hy') as (z' & ? & ?).
    eapply (ic_uniq _ _ _ Hok b b'); eauto. congruence.
  - intros b y Hb. rewrite Eb, lookup_insert. case_decide as Ex; [intros [= <-]; subst b; done|].
    intros Hy. rewrite Hfr by done. by apply (ic_lock _ _ _ Hok).
  - intros b Hb. destruct (decide (b = q)) as [->|Ex]; [done|]. apply (ic_sub _ _ _ Hok). by apply Hfr.
Qed.

Lemma ifree_NoDup u chains frees : icache_ok u chains frees -> NoDup frees.
Proof.
  intros Hok. destruct (ic_free _ _ _ Hok) as [Hnd _]. apply NoDup_cons in Hnd as [_ Hnd].
  by apply NoDup_fmap_1 in Hnd.
Qed.

Definition ilocked x : inode := locked_inode (set_count 1 x).
Definition ireleased x : inode := unlocked_inode (set_count 0 (locked_inode x)).

Lemma ilocked_flags x : i_flags (core (ilocked x)) = u32 (SET_FLAG (i_flags (core x)) I_lock).
Proof. done. Qed.
Lemma ireleased_flags x :
  i_flags (core (ireleased x)) = u32 (CLEAR_FLAG (u32 (SET_FLAG (i_flags (core x)) I_lock)) I_lock).
Proof. done. Qed.

Lemma iget_found u chains l1 q l2 inum x n :
  icache_ok u chains (l1 ++ q :: l2) -> iholds u chains inum q x ->
  exists u', iget fuel patience (Datatypes.S n) DEV_NO inum u = Ret (u', Some q) /\
    icache_ok u' chains (l1 ++ l2) /\ inodes u' = <[q := ilocked x]> (inodes u) /\
    bc u' = bc u /\ super u' = super u /\ root u' = root u /\ pwd u' = pwd u.
Proof.
  intros Hok Hh. pose proof (iholds_cached _ _ _ _ _ Hh) as Hc. pose proof Hh as (Hin & Hx & Hn).
  assert (Hfree : q ∈ l1 ++ q :: l2) by (apply elem_of_app; right; left).
  pose proof (proj1 (ic_lock _ _ _ Hok q x Hc Hx) Hfree) as Hlk.
  destruct (ic_inode _ _ _ Hok _ q (queue_of_range inum) Hin) as (y & [G1 G2 G3 G4 G5 G6]).
  assert (y = x) as -> by congruence. rewrite Hlk in G5.
  cbn [iget]. rewrite (isearch_hit _ _ _ _ _ _ Hok Hh), bind_Ret, Hx. unfold deref at 1. rewrite bind_Ret, Hlk, G5.
  pose proof (ic_free _ _ _ Hok) as Hf. rewrite fmap_app, fmap_cons in Hf.
  destruct (list_del_spec _ _ _ _ _ Hf) as (h & R & _ & Hf' & Hfr).
  change (0 =? 0) with true. unfold on_inodes. rewrite R, !bind_Ret. unfold upd_inode. cbn [inodes set_nodes].
  rewrite Hx. unfold deref. rewrite bind_Ret. rewrite bind_mret.
  cbn [inodes set_inodes set_nodes]. rewrite lookup_insert_eq, bind_Ret, insert_insert_eq.
  eexists. split; [done|]. split; [|done].
  destruct (ilock_set (i_flags (core x)) G4) as [Hr Hs].
  rewrite <- fmap_app in Hf', Hfr.
  eapply (icache_change u _ _ _ _ q x (ilocked x)); try done; [by rewrite ilocked_flags, Hs|apply Hfr| | |].
  - eapply queues_frame; [apply Hok|exact Hfr].
  - intros b Hb. rewrite !elem_of_app, elem_of_cons. naive_solver.
  - rewrite ilocked_flags, Hs. split; [|done].
    pose proof (ifree_NoDup _ _ _ Hok) as Hnd. rewrite <- Permutation_middle in Hnd. apply NoDup_cons in Hnd as [? _]. done.
Qed.

Lemma iput_spec u chains frees q x :
  icache_ok u chains frees -> cached chains q -> inodes u !! q = Some x -> q ∉ frees ->
  IS_FLAG (i_state x) I_DIRTY = false ->
  exists u', iput fuel patience q u = Ret u' /\ icache_ok u' chains (frees ++ [q]) /\
    inodes u' = <[q := ireleased x]> (inodes u) /\
    bc u' = bc u /\ super u' = super u /\ root u' = root u /\ pwd u' = pwd u.
Proof.
  intros Hok Hc Hx Hnf Hd. pose proof Hc as (i & Hi & Hin).
  destruct (ic_inode _ _ _ Hok i q Hi Hin) as (y & [G1 G2 G3 G4 G5 G6]). assert (y = x) as -> by congruence.
  assert (Hlk : IS_FLAG (i_flags (core x)) I_lock = true).
  { apply not_false_iff_true. intros E. by apply Hnf, (ic_lock _ _ _ Hok q x). }
  rewrite Hlk in G5. pose proof (ic_free _ _ _ Hok) as Hf.
  assert (Hn : BFree q ∉ FreeHead :: (BFree <$> frees)).
  { rewrite elem_of_cons, elem_of_fmap_BFree. intros [?|?]; done. }
  destruct (list_add_tail_spec _ _ _ _ Hf Hn G6) as (h & R & Hf' & Hfr).
  unfold iput, upd_inode. rewrite Hx. unfold deref. rewrite bind_Ret. rewrite bind_mret.
  cbn [inodes set_inodes]. rewrite lookup_insert_eq, bind_Ret. rewrite bind_mret.
  cbn [inodes set_inodes]. rewrite lookup_insert_eq, bind_Ret.
  cbn [i_count i_state set_count locked_inode set_core]. rewrite Hd, andb_false_r.
  rewrite bind_mret. unfold on_inodes. cbn [inode_nodes set_inodes]. rewrite R, !bind_Ret.
  cbn [inodes set_inodes set_nodes]. rewrite lookup_insert_eq, bind_Ret, !insert_insert_eq, G5.
  change (u32 (1 - 1)) with 0. eexists. split; [done|]. split; [|done].
  destruct (ilock_set (i_flags (core x)) G4) as [Hr _]. destruct (ilock_clear _ Hr) as [Hr2 Hs2].
  eapply (icache_change u _ _ _ _ q x (ireleased x)); try done; [by rewrite ireleased_flags, Hs2|apply Hfr| | | |].
  - eapply queues_frame; [apply Hok|exact Hfr].
  - by rewrite fmap_app.
  - intros b Hb. rewrite elem_of_app, list_elem_of_singleton. naive_solver.
  - rewrite ireleased_flags, Hs2. split; [done|].
    intros _. apply elem_of_app. right. left.
Qed.

Lemma ireleased_ilocked x :
  0 <= i_flags (core x) < 2 ^ 32 -> IS_FLAG (i_flags (core x)) I_lock = false -> i_count x = 0 ->
  ireleased (ilocked x) = x.
Proof.
  intros Hv Hl Hc. destruct x as [c s n]. cbn in Hc. subst n. unfold ireleased, ilocked, unlocked_inode, locked_inode, set_core, set_count.
  cbn [core i_state i_count]. f_equal. destruct c as [m uu sz a c mt dt g nl nb fl dv bl no bn da fa os]. cbn [core i_flags] in *. unfold with_flags. cbn. f_equal. by apply ilock_undo.
Qed.

(** iget of a cached, unlocked inode takes it off the free list and returns it
    locked with one reference; nothing else of the inode changes - it is not
    read from the disk - and the invariant of the cache is kept. *)
Theorem iget_hit_correct u chains frees inum q x n :
  icache_ok u chains frees -> iholds u chains inum q x -> IS_FLAG (i_flags (core x)) I_lock = false ->
  exists u' frees', iget fuel patience (Datatypes.S n) DEV_NO inum u = Ret (u', Some q) /\
    icache_ok u' chains frees' /\ frees ≡ₚ q :: frees' /\
    inodes u' = <[q := mk_inode (with_flags (fun v => u32 (SET_FLAG v I_lock)) (core x)) (i_state x) 1]> (inodes u) /\
    bc u' = bc u.
Proof.
  intros Hok Hh Hlk. pose proof Hh as (_ & Hx & _).
  assert (Hf : q ∈ frees) by (apply (ic_lock _ _ _ Hok q x); eauto using iholds_cached).
  apply list_elem_of_split in Hf as (l1 & l2 & ->).
  destruct (iget_found _ _ _ _ _ _ _ n Hok Hh) as (u' & R & Hok' & E & Eb & _).
  exists u', (l1 ++ l2). do 2 (split; [done|]). split; [by rewrite Permutation_middle|]. split; [exact E|done].
Qed.

(** C22. iget of an inode that is cached, free and clean, followed by iput, restores
    every in-core inode; the inode goes to the end of the free list, and the
    invariant is kept.  (iget of an inode that is not cached dereferences NULL,
    see [iget_miss_faults].) *)
Theorem iget_iput_roundtrip u chains l1 q l2 inum x n :
  icache_ok u chains (l1 ++ q :: l2) -> iholds u chains inum q x -> IS_FLAG (i_state x) I_DIRTY = false ->
  exists u', ('(u, p) ← iget fuel patience (Datatypes.S n) DEV_NO inum u; p ← deref p; iput fuel patience p u) = Ret u' /\
    icache_ok u' chains (l1 ++ l2 ++ [q]) /\ inodes u' = inodes u /\ bc u' = bc u.
Proof.
  intros Hok Hh Hd. pose proof Hh as (Hin & Hx & _). pose proof (iholds_cached _ _ _ _ _ Hh) as Hc.
  assert (Hlk : IS_FLAG (i_flags (core x)) I_lock = false).
  { apply (ic_lock _ _ _ Hok q x); [done|done|]. apply elem_of_app. right. left. }
  destruct (ic_inode _ _ _ Hok _ q (queue_of_range inum) Hin) as (y & [G1 G2 G3 G4 G5 G6]). assert (y = x) as -> by congruence.
  rewrite Hlk in G5.
  destruct (iget_found _ _ _ _ _ _ _ n Hok Hh) as (u1 & R & Hok1 & E1 & Eb1 & _). rewrite R, bind_Ret.
  unfold deref. rewrite bind_Ret.
  destruct (iput_spec u1 chains (l1 ++ l2) q (ilocked x) Hok1 Hc) as (u' & R2 & Hok2 & E2 & Eb2 & _);
    [by rewrite E1, lookup_insert_eq| |done|].
  { pose proof (ifree_NoDup _ _ _ Hok) as Hnd. rewrite <- Permutation_middle in Hnd. by apply NoDup_cons in Hnd as [? _]. }
  exists u'. split; [done|]. split; [by rewrite app_assoc|]. split; [|congruence].
  rewrite E2, E1, insert_insert_eq, ireleased_ilocked by done. by rewrite insert_id.
Qed.

(** iget of an inode somebody holds polls for ever. *)
Theorem iget_locked_spins u chains frees inum q x n :
  icache_ok u chains frees -> iholds u chains inum q x -> IS_FLAG (i_flags (core x)) I_lock = true ->
  iget fuel patience n DEV_NO inum u = Spin.
Proof.
  intros Hok Hh Hlk. induction n as [|n IH]; [done|]. cbn [iget].
  rewrite (isearch_hit _ _ _ _ _ _ Hok Hh), bind_Ret. destruct Hh as (_ & Hx & _).
  rewrite Hx. unfold deref. by rewrite bind_Ret, Hlk.
Qed.

(** iget of an inode that is not cached never reads it in: with free inodes
    left it uses the NULL pointer of the failed search, without it returns NULL.
    So only the inodes create_inode_cache put there can be used. *)
Theorem iget_miss_faults u chains frees inum n :
  icache_ok u chains frees -> (forall q x, ~ iholds u chains inum q x) ->
  iget fuel patience (Datatypes.S n) DEV_NO inum u = if bool_decide (frees = []) then Ret (u, None) else Fault.
Proof.
  intros Hok Hm. cbn [iget]. rewrite (isearch_miss _ _ _ _ Hok Hm), bind_Ret.
  rewrite (list_is_empty_spec _ _ _ (ic_free _ _ _ Hok)), bind_Ret. by destruct frees.
Qed.

(** iput of a held, clean inode: unlocked, no reference, last on the free list. *)
Theorem iput_correct u chains frees q x :
  icache_ok u chains frees -> cached chains q -> inodes u !! q = Some x -> q ∉ frees ->
  IS_FLAG (i_state x) I_DIRTY = false ->
  exists u' x', iput fuel patience q u = Ret u' /\ icache_ok u' chains (frees ++ [q]) /\
    inodes u' = <[q := x']> (inodes u) /\ i_count x' = 0 /\ IS_FLAG (i_flags (core x')) I_lock = false /\ bc u' = bc u.
Proof.
  intros Hok Hc Hx Hnf Hd. destruct (iput_spec _ _ _ _ _ Hok Hc Hx Hnf Hd) as (u' & R & Hok' & E & Eb & _).
  exists u', (ireleased x). do 3 (split; [done|]). split; [done|]. split; [|done].
  destruct Hc as (i & Hi & Hin). destruct (ic_inode _ _ _ Hok i q Hi Hin) as (y & [G1 G2 G3 G4 G5 G6]).
  assert (y = x) as -> by congruence. rewrite ireleased_flags. apply ilock_clear, ilock_set. done.
Qed.

(** ** Allocation never ends *)

(** ialloc never returns an inode: its loop has no way out. *)
Theorem ialloc_never_returns n dev_no u r : ialloc fuel patience n dev_no u <> Ret r.
Proof.
  revert u. induction n as [|n IH]; intros u; [done|]. cbn [ialloc].
  destruct (get_super u) as [s| |]; [rewrite bind_Ret|done|done].
  destruct (LOCKED _); [apply IH|]. destruct (_ =? _); [|apply IH].
  destruct (upd_super _ u) as [u1| |]; [rewrite bind_Ret|done|done].
  destruct (fill_free_inode_list fuel patience u1) as [u2| |]; [rewrite bind_Ret; apply IH|done|done].
Qed.

(** ** Paths *)

(** A second slash: the empty token is searched and [index] does not advance. *)
Lemma namei_loop_never n : forall path inum work u u' r,
  path !! 1%nat <> None -> namei_loop fuel patience n path 1 inum work u <> Ret (u', Some r).
Proof.
  induction n as [|n IH]; intros path inum work u u' r Hp; cbn [namei_loop].
  - destruct (Z.ltb_spec 1 (Z.of_nat (length path))) as [|Hl]; [done|].
    apply not_eq_None_Some in Hp. apply lookup_lt_is_Some in Hp. lia.
  - destruct (Z.ltb_spec 1 (Z.of_nat (length path))) as [|Hl];
      [|apply not_eq_None_Some, lookup_lt_is_Some in Hp; lia].
    intros E. apply bind_Ret_inv in E as (c & Ec & E). destruct (Z.eqb_spec c 47) as [->|Hc].
    + assert (Ht : next_token path 1 (Z.of_nat (length path)) = Ret 0).
      { unfold next_token. rewrite Nat2Z.id. destruct (length path) as [|m] eqn:El; [lia|]. cbn [token_end].
        rewrite (proj2 (Z.ltb_lt 1 _)) by lia. by rewrite Ec. }
      rewrite Ht, bind_Ret in E. apply bind_Ret_inv in E as ([a t] & _ & E). apply bind_Ret_inv in E as (tok & _ & E).
      apply bind_Ret_inv in E as (dir & _ & E). apply bind_Ret_inv in E as ([u1 i1] & _ & E).
      apply bind_Ret_inv in E as (a2 & _ & E). destruct (i1 =? u32 (-1)); [discriminate|].
      apply bind_Ret_inv in E as (u2 & _ & E). apply bind_Ret_inv in E as ([u3 w] & _ & E).
      exact (IH _ _ _ _ _ _ Hp E).
    + apply bind_Ret_inv in E as (a & _ & E). apply bind_Ret_inv in E as (dir & _ & E).
      apply bind_Ret_inv in E as (u1 & _ & E). by apply bind_Ret_inv in E as ([u2 w] & _ & E).
Qed.

(** namei resolves the path "/" and no other: a path that begins with a name
    reads an unassigned index, and one that continues with a second slash
    searches the empty name for ever. *)
Theorem namei_only_root path u u' r :
  namei fuel patience path u = Ret (u', Some r) -> path = [47] /\ u' = u /\ root u = Some r.
Proof.
  destruct path as [|c path]; [discriminate|]. unfold namei. destruct (Z.eqb_spec c 47) as [->|Hc].
  - destruct path as [|d path]; [|intros E; by apply namei_loop_never in E].
    intros E. assert (E' : Ret (u, root u) = Ret (u', Some r)) by (destruct fuel; exact E). by injection E' as -> ->.
  - intros E. destruct fuel as [|k]; cbn [namei_loop] in E.
    { by destruct (Z.ltb_spec 0 (Z.of_nat (length (c :: path)))) as [|Hl]; [|cbn [length] in Hl; lia]. }
    rewrite (proj2 (Z.ltb_lt 0 _)) in E by (cbn [length]; lia).
    change (byte_at (c :: path) 0) with (Ret c) in E. rewrite bind_Ret, (proj2 (Z.eqb_neq _ _) Hc) in E.
    apply bind_Ret_inv in E as (a & _ & E). apply bind_Ret_inv in E as (dir & _ & E).
    apply bind_Ret_inv in E as (u1 & _ & E). by apply bind_Ret_inv in E as ([u2 w] & _ & E).
Qed.

End icache.

(** ** Directories *)

Lemma strncmp_loop_eq entry : forall s1, entry <> [] -> Forall (fun c => c <> 0) entry ->
  (length entry <= length s1)%nat ->
  exists v, strncmp_loop (length entry) s1 entry = Ret v /\ (v = 0 <-> take (length entry) s1 = entry).
Proof.
  induction entry as [|e entry IH]; intros [|c s1] Hne Hz Hl; try done; [cbn [length] in Hl; lia|].
  apply Forall_cons in Hz as [He Hz]. cbn [length] in *. cbn [strncmp_loop].
  change (byte_at (c :: s1) 0) with (Ret c). change (byte_at (e :: entry) 0) with (Ret e). rewrite !bind_Ret.
  destruct (Z.eqb_spec c e) as [->|Hce].
  - rewrite (proj2 (Z.eqb_neq e 0)) by done. cbn [negb andb].
    destruct entry as [|e' entry]; [exists 0; done|]. cbn [length Nat.eqb tail].
    destruct (IH s1) as (v & R & Hv); [done|done|lia|]. exists v. split; [exact R|].
    rewrite Hv. cbn [take length]. split; [by intros ->|by intros [= ->] ].
  - rewrite andb_false_r. exists (c - e). split; [done|]. cbn [take]. split; [lia|by intros [= ? _] ].
Qed.

(** The specification: the number of the first of the 51 entries from [k] on
    whose name begins with [entry]. *)
Fixpoint lookup_from (n : nat) (k : Z) (data entry : list Z) : option Z :=
  match n with
  | O => None
  | Datatypes.S n =>
      if decide (take (length entry) (drop (Z.to_nat (20 * k + 4)) data) = entry)
      then Some (of_le (take 4 (drop (Z.to_nat (20 * k)) data)))
      else lookup_from n (k + 1) data entry
  end.

Lemma scan_dir_spec data entry n : forall k fuel,
  length data = 1024%nat -> entry <> [] -> Forall (fun c => c <> 0) entry -> (length entry <= 20)%nat ->
  0 <= k -> k + Z.of_nat n = 51 -> (n <= fuel)%nat ->
  exists off, scan_dir fuel data (20 * k + 4) entry (Z.of_nat (length entry)) = Ret (off, lookup_from n k data entry) /\
    (lookup_from n k data entry = None -> U_BLK_SIZE <= off).
Proof.
  induction n as [|n IH]; intros k fuel Hl Hne Hz He Hk Hn Hf.
  - exists 1024. assert (k = 51) as -> by lia. split; [by destruct fuel|done].
  - destruct fuel as [|fuel]; [lia|]. cbn [scan_dir lookup_from]. unfold U_BLK_SIZE at 1.
    rewrite (proj2 (Z.ltb_lt _ _)) by lia. unfold strncmp.
    rewrite (proj2 (Z.eqb_neq _ 0)) by (destruct entry; [done|cbn [length]; lia]). rewrite Nat2Z.id.
    destruct (strncmp_loop_eq entry (drop (Z.to_nat (20 * k + 4)) data) Hne Hz) as (v & R & Hv);
      [rewrite length_drop; lia|].
    rewrite R, bind_Ret. destruct (decide _) as [E|E].
    + rewrite (proj2 (Z.eqb_eq v 0)) by by apply Hv. unfold DIR_ENTRY_INODE_SIZE.
      replace (20 * k + 4 - 4) with (20 * k) by lia. rewrite read_at_ok, bind_Ret by lia. eexists. by split.
    + rewrite (proj2 (Z.eqb_neq v 0)) by (intros ?; by apply E, Hv).
      unfold DIR_ENTRY_BYTES. replace (20 * k + 4 + 20) with (20 * (k + 1) + 4) by lia.
      apply IH; done || lia.
Qed.

Lemma scan_dir_past data entry len off fuel : U_BLK_SIZE <= off -> scan_dir fuel data off entry len = Ret (off, None).
Proof. intros Ho. destruct fuel; cbn [scan_dir]; by rewrite (proj2 (Z.ltb_ge _ _)). Qed.

Section dirs.
Context {S A : Type} `{PIO : PortIO S} `{KAl : KAlloc A} `{KFr : KFree A} `{Ata : !AtaDevice S}.
Implicit Types (u : ufs_st S A) (buf dat : Z -> Z) (busy : gset Z) (mem : Z -> list Z) (x : inode).
Variables (f p : nat).
Hypothesis patient : (patience_bound <= p)%nat.

(** The blocks [n] to [n + k - 1] of a directory can be read. *)
Definition readable x busy (n k : nat) : Prop :=
  forall j, (n <= j < n + k)%nat -> exists blk, i_blocks (core x) !! j = Some blk /\ 0 <= blk < BUFFERS /\ blk ∉ busy.

Lemma search_rest u buf dat busy mem dir x entry len k : forall n offset u0 mem0,
  quiet (bc u0) buf dat busy mem0 -> sane (disk (view (io (bc u0)))) mem0 -> inodes u0 = inodes u ->
  inodes u !! dir = Some x -> readable x busy n k -> U_BLK_SIZE <= offset ->
  exists u', search_blocks (Datatypes.S f) p k n offset dir entry len u0 = Ret (u', u32 (-1)).
Proof.
  induction k as [|k IH]; intros n offset u0 mem0 Hq Hs Hi Hx Hr Ho; [by exists u0|]. cbn [search_blocks].
  rewrite Hi, Hx. unfold deref. rewrite bind_Ret. destruct (Hr n) as (blk & -> & Hblk & Hb); [lia|]. rewrite bind_Ret.
  destruct (fs_bread_spec f p patient u0 buf dat busy mem0 blk Hq Hblk Hb Hs) as (st & R & Hq1 & Ed1 & Hs1).
  rewrite R, bind_Ret. destruct (quiet_data_of _ _ _ _ _ blk Hq1 Hblk) as (Hd & _ & _). cbn [bc set_bc]. rewrite Hd, bind_Ret.
  rewrite scan_dir_past by (unfold DIR_ENTRY_INODE_SIZE; lia). rewrite bind_Ret.
  destruct (fs_brelse_spec (set_bc st u0) buf dat _ _ blk Hq1 Hblk (held_now _ _)) as (st2 & R2 & Hq2 & Ed2).
  rewrite R2, bind_Ret. eapply (IH (1 + n)%nat _ (set_bc st2 u0)); try done.
  - eapply quiet_ext; [exact Hq2|by apply released|done].
  - cbn [bc set_bc] in *. by rewrite Ed2, Ed1.
  - intros j Hj. apply Hr. lia.
  - unfold DIR_ENTRY_INODE_SIZE. lia.
Qed.

(** search_dir looks up [entry] in the first block of the directory only,
    whatever its size: it returns the inode number of the first entry whose
    name begins with [entry] - a prefix is enough - and -1 otherwise, because
    the offset is not reset for the following blocks. *)
Theorem search_dir_correct u buf dat busy mem dir x entry blk :
  quiet (bc u) buf dat busy mem -> sane (disk (view (io (bc u)))) mem -> inodes u !! dir = Some x ->
  0 <= i_size (core x) < 2 ^ 31 -> i_blocks (core x) !! 0%nat = Some blk ->
  readable x busy 0 (Z.to_nat (i_size (core x) / 1024 + 1)) ->
  entry <> [] -> Forall (fun c => c <> 0) entry -> (length entry <= 20)%nat ->
  exists u', search_dir (Datatypes.S f) p dir entry (Z.of_nat (length entry)) u =
    Ret (u', default (u32 (-1)) (lookup_from 51 0 (disk (view (io (bc u))) blk ++ drop 512 (mem blk)) entry)).
Proof.
  intros Hq Hs Hx Hsz H0 Hr Hne Hz Hl. unfold search_dir. rewrite Hx. unfold deref. rewrite bind_Ret.
  unfold U_BLK_SIZE. assert (Hdiv : 0 <= i_size (core x) / 1024 < 2 ^ 31 - 1).
  { split; [apply Z.div_pos; lia|apply Z.div_lt_upper_bound; lia]. }
  rewrite s32_small by lia. replace (Z.to_nat (i_size (core x) / 1024 + 1)) with (Datatypes.S (Z.to_nat (i_size (core x) / 1024))) in * by lia.
  cbn [search_blocks]. rewrite Hx. unfold deref. rewrite bind_Ret, H0, bind_Ret.
  destruct (Hr 0%nat) as (blk' & E & Hblk & Hb); [lia|]. assert (blk' = blk) as -> by congruence.
  destruct (fs_bread_spec f p patient u buf dat busy mem blk Hq Hblk Hb Hs) as (st & R & Hq1 & Ed1 & Hs1).
  rewrite R, bind_Ret. destruct (quiet_data_of _ _ _ _ _ blk Hq1 Hblk) as (Hd & _ & _). cbn [bc set_bc]. rewrite Hd, bind_Ret, upd_eq.
  set (data := disk (view (io (bc u))) blk ++ drop 512 (mem blk)) in *.
  destruct (sane_read _ _ blk Hs Hblk) as [Hlen _].
  destruct (scan_dir_spec data entry 51 0 (Z.to_nat U_BLK_SIZE)) as (off & Rs & Hoff); try done; [vm_compute; lia|].
  change (0 + DIR_ENTRY_INODE_SIZE) with (20 * 0 + 4). rewrite Rs, bind_Ret.
  destruct (fs_brelse_spec (set_bc st u) buf dat _ _ blk Hq1 Hblk (held_now _ _)) as (st2 & R2 & Hq2 & Ed2).
  rewrite R2, bind_Ret. destruct (lookup_from 51 0 data entry) as [inum|]; [by eexists|].
  cbn [default]. eapply (search_rest u buf dat busy (upd mem blk data) dir x _ _ _ 1 off (set_bc st2 u)); try done.
  - eapply quiet_ext; [exact Hq2|by apply released|done].
  - cbn [bc set_bc] in *. by rewrite Ed2, Ed1.
  - intros j Hj. apply Hr. lia.
  - by apply Hoff.
Qed.

End dirs.

(** ** Building the cache *)

Section create.
Context {S A : Type} `{PIO : PortIO S} `{KSpec : KAllocSpec A} `{KFr : KFree A}.
Variable junk : Z -> inode.
Variables (f p : nat).
Implicit Types (u : ufs_st S A) (chains : Z -> list Z) (frees : list Z).

Definition blank_inode (q inum : Z) : inode :=
  mk_inode (init_fields DEV_NO inum (core (junk q))) (i_state (junk q)) 0.

(** After [n] rounds: inodes [0 .. n-1] are cached and free. *)
Record icreated u chains frees (n : Z) : Prop := {
  icr_ok : icache_ok u chains frees;
  icr_inode q : is_Some (inodes u !! q) -> ka_live (heap (bc u)) q;
  icr_node q : is_Some (inode_nodes u !! BHash q) \/ is_Some (inode_nodes u !! BFree q) -> ka_live (heap (bc u)) q;
  icr_below q x : cached chains q -> inodes u !! q = Some x -> exists inum, inum < n /\ x = blank_inode q inum;
  icr_all inum : 0 <= inum < n -> exists q x, iholds u chains inum q x;
}.

Lemma icache_add u u' chains frees q n :
  let i := queue_of n in
  icache_ok u chains frees -> ~ cached chains q ->
  (forall b y, cached chains b -> inodes u !! b = Some y -> i_no (core y) <> n) ->
  inodes u' = <[q := blank_inode q n]> (inodes u) ->
  (forall b, is_Some (inode_nodes u !! BFree b) -> is_Some (inode_nodes u' !! BFree b)) ->
  is_Some (inode_nodes u' !! BFree q) ->
  (forall j, 0 <= j < DEV_NO -> is_list (inode_nodes u') (HashHead j) (BHash <$> push_queue chains i q j)) ->
  is_list (inode_nodes u') FreeHead (BFree <$> (q :: frees)) ->
  icache_ok u' (push_queue chains i q) (q :: frees).
Proof.
  intros i Hok Hbc Hnew Eb Hnodes Hbn Hq Hf. assert (Hi : 0 <= i < DEV_NO) by apply queue_of_range.
  assert (Hold : forall b y, cached chains b -> inodes u' !! b = Some y -> inodes u !! b = Some y).
  { intros b y Hx. rewrite Eb, lookup_insert_ne; [done|]. by intros ->. }
  assert (Hb' : forall y, inodes u' !! q = Some y -> y = blank_inode q n) by (intros y; rewrite Eb, lookup_insert_eq; congruence).
  split; try done.
  - intros j b Hj Hx. unfold push_queue in Hx. assert (b = q /\ j = i \/ b ∈ chains j) as [ [-> ->]|Hx'].
    { case_decide; [apply elem_of_cons in Hx as [?|?]; auto|auto]. }
    + exists (blank_inode q n). split; try done. by rewrite Eb, lookup_insert_eq.
    + destruct (ic_inode _ _ _ Hok j b Hj Hx') as (y & [G1 G2 G3 G4 G5 G6]).
      exists y. split; auto. rewrite Eb, lookup_insert_ne; [done|]. intros <-. apply Hbc. by exists j.
  - intros b b' y y' Hx Hx' Hy Hy' E. apply (cached_push _ _ _ _ Hi) in Hx as [->|Hx], Hx' as [->|Hx']; try done.
    + apply Hb' in Hy as ->. destruct (Hnew b' y' Hx'); [by apply Hold|done].
    + apply Hb' in Hy' as ->. destruct (Hnew b y Hx); [by apply Hold|done].
    + eapply (ic_uniq _ _ _ Hok b b'); eauto.
  - intros b y Hx Hy. rewrite elem_of_cons. apply (cached_push _ _ _ _ Hi) in Hx as [->|Hx].
    + apply Hb' in Hy as ->. split; [done|by left].
    + rewrite <- (ic_lock _ _ _ Hok b y) by auto. split; [intros [->|?]; done|by right].
  - intros b Hb. apply cached_push; [done|]. apply elem_of_cons in Hb as [?|?]; [by left|right].
    by apply (ic_sub _ _ _ Hok).
Qed.

Lemma iqueues_disjoint u chains frees : icache_ok u chains frees ->
  forall i j b, 0 <= i < DEV_NO -> 0 <= j < DEV_NO -> b ∈ chains i -> b ∈ chains j -> i = j.
Proof.
  intros Hok i j b Hi Hj Hb Hb'.
  destruct (ic_inode _ _ _ Hok i b Hi Hb) as (z & []), (ic_inode _ _ _ Hok j b Hj Hb') as (z' & []). congruence.
Qed.

Lemma create_inode_round u chains frees n m c :
  icreated u chains frees n -> 0 <= n -> ka_cache (heap (bc u)) c -> ka_room (heap (bc u)) (Datatypes.S m) ->
  exists u' q chains', (forall k, create_inodes junk (Datatypes.S k) n c u = create_inodes junk k (n + 1) c u') /\
    icreated u' chains' (q :: frees) (n + 1) /\ ka_cache (heap (bc u')) c /\ ka_room (heap (bc u')) m /\
    exists a, bc u' = set_heap a (bc u).
Proof.
  intros [Hok Wi Wn Hbelow Hall] Hn Hcc Hroom.
  destruct (ka_cache_alloc_ok c _ _ Hcc Hroom) as (a1 & q & E1 & Hq0 & Hq1 & Hm1 & Hc1 & Hr1).
  assert (Hino : inodes u !! q = None) by (apply eq_None_not_Some; eauto).
  assert (HnH : inode_nodes u !! BHash q = None) by (apply eq_None_not_Some; eauto).
  assert (HnF : inode_nodes u !! BFree q = None) by (apply eq_None_not_Some; eauto).
  assert (Hqc : ~ cached chains q).
  { intros (i & Hi & Hb). destruct (ic_inode _ _ _ Hok i q Hi Hb) as (y & []). congruence. }
  set (nodes2 := <[BHash q := mk_list_head None None]> (<[BFree q := mk_list_head None None]> (inode_nodes u))).
  assert (Hold : forall hd xs, is_list (inode_nodes u) hd xs -> is_list nodes2 hd xs).
  { intros hd xs Hl. eapply is_list_agree; [|exact Hl]. intros k Hk.
    pose proof (is_list_in_dom _ _ _ _ Hl Hk) as [v Hv]. unfold nodes2. rewrite !lookup_insert_ne; [done|congruence..]. }
  destruct (link_buffer nodes2 chains frees q n) as (h1 & h2 & R1 & R2 & Dh & Q2 & F2); try done.
  { intros i Hi. by apply Hold, Hok. } { by apply Hold, Hok. }
  { unfold nodes2. by rewrite lookup_insert_eq. }
  { unfold nodes2. rewrite lookup_insert_ne, lookup_insert_eq; done. }
  { intros Hf. by apply Hqc, (ic_sub _ _ _ Hok). } { by eapply iqueues_disjoint. }
  set (u' := mk_ufs (set_heap a1 (bc u)) (super u) (<[q := blank_inode q n]> (inodes u)) h2 (root u) (pwd u)).
  assert (Hdom : forall k, is_Some (inode_nodes u' !! k) -> k = BHash q \/ k = BFree q \/ is_Some (inode_nodes u !! k)).
  { intros k Hk. apply (in_dom_eq _ _ _ (eq_sym Dh)) in Hk. unfold nodes2 in Hk.
    destruct (decide (k = BHash q)); [by left|]. destruct (decide (k = BFree q)); [by right; left|].
    rewrite !lookup_insert_ne in Hk by done. auto. }
  assert (Hback : forall k, is_Some (inode_nodes u !! k) -> is_Some (inode_nodes u' !! k)).
  { intros k [v Hv]. apply (in_dom_eq _ _ _ Dh). unfold nodes2. rewrite !lookup_insert_ne by congruence. by rewrite Hv. }
  exists u', q, (push_queue chains (queue_of n) q). split; [|split; [split|split; [by apply Hc1|split; [exact Hr1|by exists a1] ] ] ].
  - intros k. cbn [create_inodes]. rewrite E1, bind_Ret. unfold inode_init, on_inodes.
    cbn [inode_nodes new_inode set_bc]. rewrite INIT_LIST_NULL_spec by by rewrite lookup_insert_eq.
    bind_rets. unfold upd_inode. cbn [inodes set_nodes new_inode set_bc]. rewrite lookup_insert_eq. unfold deref.
    bind_rets. rewrite !insert_insert_eq. change (hash_fn n DEV_NO) with (Ret (queue_of n)). bind_rets.
    cbn [inode_nodes set_inodes set_nodes]. fold nodes2. rewrite R1. bind_rets.
    cbn [inode_nodes set_inodes set_nodes]. rewrite R2. by bind_rets.
  - eapply (icache_add u _ chains frees q n); try done.
    + intros b y Hb Hy. destruct (Hbelow b y Hb Hy) as (i & Hi & ->). cbn. lia.
    + intros b. apply Hback.
    + apply (in_dom_eq _ _ _ Dh). unfold nodes2. rewrite lookup_insert_ne, lookup_insert_eq; done.
  - intros b. cbn [inodes u']. rewrite lookup_insert. case_decide as Ex; [subst b; intros _; done|eauto].
  - intros b [Hb|Hb]; apply Hdom in Hb as [?|[?|Hb] ]; simplify_eq; try done; apply Hm1; eauto.
  - intros b y Hb. cbn [inodes u']. rewrite lookup_insert. apply cached_push in Hb; [|apply queue_of_range].
    case_decide as Ex; [subst; intros [= <-]; exists n; split; [lia|done]|]. intros Hy. destruct Hb as [?|Hb]; [congruence|].
    destruct (Hbelow b y Hb Hy) as (i & Hi & ->). exists i. split; [lia|done].
  - intros inum Hin. destruct (decide (inum = n)) as [->|Hne].
    + eexists q, _. split; [|cbn [inodes u']; rewrite lookup_insert_eq; done].
      unfold push_queue. rewrite decide_True by done. left.
    + destruct (Hall inum) as (b & y & Hb1 & Hb2 & Hb3); [lia|]. exists b, y. split; [|split; [|done] ].
      * unfold push_queue. case_decide; [by right|done].
      * cbn [inodes u']. rewrite lookup_insert_ne; [done|]. congruence.
Qed.

Lemma create_inodes_spec m k : forall n u chains frees c,
  icreated u chains frees n -> 0 <= n -> ka_cache (heap (bc u)) c -> ka_room (heap (bc u)) (k + m) ->
  exists u' chains' frees', create_inodes junk k n c u = Ret u' /\
    icreated u' chains' frees' (n + Z.of_nat k) /\ length frees' = (k + length frees)%nat /\
    (exists a, bc u' = set_heap a (bc u)) /\ ka_room (heap (bc u')) m.
Proof.
  induction k as [|k IH]; intros n u chains frees c Hcr Hn Hcc Hroom.
  - exists u, chains, frees. rewrite Z.add_0_r. split_and!; try done. exists (heap (bc u)). by destruct (bc u).
  - destruct (create_inode_round u chains frees n (k + m) c Hcr Hn Hcc Hroom) as (u1 & q & chains1 & E & Hcr1 & Hc1 & Hr1 & a1 & Ea1).
    destruct (IH (n + 1) u1 chains1 (q :: frees) c Hcr1) as (u' & chains' & frees' & R & Hcr' & Hl & (a2 & Ea2) & Hm); [lia|done|done|].
    exists u', chains', frees'. rewrite E, R. split; [done|]. split; [|split; [simpl in Hl; lia|split; [exists a2; by rewrite Ea2, Ea1|done] ] ].
    by replace (n + Z.of_nat (Datatypes.S k)) with (n + 1 + Z.of_nat k) by lia.
Qed.

Lemma boot_inode_heads u :
  inode_nodes u = boot_nodes ->
  (u ← init_inode_heads (Z.to_nat DEV_NO) 0 u; on_inodes (INIT_LIST_HEAD (Some FreeHead)) u) = Ret (set_nodes heads_nodes u).
Proof. intros E. destruct u as [b s i nodes r w]. cbn [inode_nodes] in E. subst nodes. vm_compute. reflexivity. Qed.

Lemma icreated_boot u : inodes u = ∅ -> icreated (set_nodes heads_nodes u) (fun _ => []) [] 0.
Proof.
  intros E. assert (Hno : forall b : Z, ~ cached (fun _ => []) b) by (intros b (i & _ & Hb); by apply not_elem_of_nil in Hb).
  split; [split| | |by intros q x ?%Hno|lia]; try (by intros ? ? ? ? ?%Hno); try (by intros ? ? ?%Hno).
  - intros i Hi. apply heads_is_list. unfold DEV_NO in Hi.
    assert (i = 0 \/ i = 1 \/ i = 2 \/ i = 3) as [-> | [-> | [-> | ->] ] ] by lia; rewrite !elem_of_cons; tauto.
  - apply heads_is_list. left.
  - intros i b _ Hb. by apply not_elem_of_nil in Hb.
  - intros b Hb. by apply not_elem_of_nil in Hb.
  - cbn. intros b. rewrite E, lookup_empty. by intros [? ?].
  - cbn. intros b [Hx|Hx]; vm_compute in Hx; by destruct Hx.
Qed.

Lemma display_spec u chains frees i :
  icache_ok u chains frees -> 0 <= i < DEV_NO -> exists l, display_inode_chain i u = Ret l.
Proof.
  intros Hok Hi. pose proof (ic_chain _ _ _ Hok i Hi) as Hl. unfold display_inode_chain. rewrite hash_slot_queue by done.
  rewrite (list_for_each_spec _ _ _ _ Hl) by (pose proof (is_list_size _ _ _ Hl); lia). rewrite bind_Ret.
  apply mapM_Ret. intros n (q & -> & Hq)%list_elem_of_fmap.
  destruct (ic_inode _ _ _ Hok i q Hi Hq) as (x & [Hx _ _ _ _ _]). exists (i_no (core x)).
  cbn [hash_entry]. rewrite bind_mret, Hx. unfold deref. by bind_rets.
Qed.

Lemma create_inode_cache_spec m u :
  inodes u = ∅ -> inode_nodes u = boot_nodes -> ka_room (heap (bc u)) (31 + m) ->
  exists u' chains frees, create_inode_cache (Datatypes.S f) p junk u = Ret u' /\ icache_ok u' chains frees /\
    (forall inum, 0 <= inum < INODES -> exists q x, iholds u' chains inum q x /\
      i_mode (core x) = 0 /\ i_size (core x) = 0 /\ (q ∈ frees <-> inum <> 16)) /\
    (exists a, bc u' = set_heap a (bc u)) /\ ka_room (heap (bc u')) m.
Proof.
  intros Ei En Hroom. unfold create_inode_cache.
  destruct (ka_cache_create_ok sizeof_inode (heap (bc u)) (30 + m) ltac:(done) Hroom) as (a1 & c & -> & Hc1 & _ & _ & Hr1). rewrite bind_Ret.
  set (u0 := set_bc (set_heap a1 (bc u)) u).
  pose proof (boot_inode_heads u0 En) as Hb. apply bind_Ret_inv in Hb as (u1 & -> & Hb). rewrite bind_Ret, Hb, bind_Ret.
  destruct (create_inodes_spec m (Z.to_nat INODES) 0 _ _ _ c (icreated_boot u0 Ei)) as (u2 & chains & frees & -> & Hcr & Hl & (a2 & Ea2) & Hrm);
    [done|exact Hc1|exact Hr1|].
  destruct Hcr as [Hok _ _ Hbelow Hall]. rewrite bind_Ret.
  assert (Hd : exists l, display_inode_cache u2 = Ret l).
  { destruct (display_spec u2 chains frees 0 Hok) as (l0 & R0); [done|]. destruct (display_spec u2 chains frees 1 Hok) as (l1 & R1); [done|].
    destruct (display_spec u2 chains frees 2 Hok) as (l2 & R2); [done|]. destruct (display_spec u2 chains frees 3 Hok) as (l3 & R3); [done|].
    exists [l0; l1; l2; l3]. unfold display_inode_cache. cbn [mapM]. by rewrite R0, R1, R2, R3. }
  destruct Hd as (ld & ->). rewrite bind_Ret.
  assert (Hview : forall inum, 0 <= inum < INODES -> exists q x, iholds u2 chains inum q x /\ x = blank_inode q inum /\ q ∈ frees).
  { intros inum Hi. destruct (Hall inum Hi) as (q & x & Hh). exists q, x. split; [done|].
    pose proof (iholds_cached _ _ _ _ _ Hh) as Hc. destruct Hh as (_ & Hx & Hn).
    destruct (Hbelow q x Hc Hx) as (i & _ & ->). cbn in Hn. subst i. split; [done|].
    by apply (ic_lock _ _ _ Hok q (blank_inode q inum)). }
  destruct (Hview 16) as (q & x & Hh & -> & Hf); [done|]. apply list_elem_of_split in Hf as (l1 & l2 & ->).
  destruct (iget_found (Datatypes.S f) p u2 chains l1 q l2 16 _ f Hok Hh) as (u3 & R3 & Hok3 & E3 & Ebc & _).
  unfold test_icache. rewrite R3. bind_rets. exists u3, chains, (l1 ++ l2). split; [done|]. split; [done|].
  split; [|rewrite Ebc; split; [exists a2; by rewrite Ea2|done] ].
  intros inum Hi. destruct (Hview inum Hi) as (q' & x' & (Hin & Hx & Hn) & -> & Hf).
  pose proof (ifree_NoDup _ _ _ Hok) as Hnd. rewrite <- Permutation_middle in Hnd. apply NoDup_cons in Hnd as [Hqn _].
  rewrite elem_of_app, elem_of_cons in Hf. destruct (decide (inum = 16)) as [->|Hne].
  - assert (q' = q) as ->.
    { eapply (ic_uniq _ _ _ Hok q' q); [by exists (queue_of 16)|by eapply iholds_cached|exact Hx|apply Hh|done]. }
    exists q, (ilocked (blank_inode q 16)). split; [split; [done|split; [by rewrite E3, lookup_insert_eq|done] ]|].
    split; [done|]. split; [done|]. split; [intros Hin'; by destruct (Hqn Hin')|done].
  - assert (q' <> q).
    { intros ->. destruct Hh as (_ & Hx' & _). rewrite Hx' in Hx. injection Hx as Hx. congruence. }
    exists q', (blank_inode q' inum). split; [split; [done|split; [by rewrite E3, lookup_insert_ne|done] ]|].
    split; [done|]. split; [done|]. rewrite elem_of_app. split; [done|]. intros _. naive_solver.
Qed.

(** create_inode_cache, with an allocator that has room for its cache and 30 inodes: the
    invariant of the cache holds and the inodes 0 to 29 are cached, empty and
    never read from the disk; the self test it ends with keeps inode 16 locked
    for good, all others are free. *)
Theorem create_inode_cache_correct u :
  inodes u = ∅ -> inode_nodes u = boot_nodes -> ka_room (heap (bc u)) 31 ->
  exists u' chains frees, create_inode_cache (Datatypes.S f) p junk u = Ret u' /\ icache_ok u' chains frees /\
    forall inum, 0 <= inum < INODES -> exists q x, iholds u' chains inum q x /\
      i_mode (core x) = 0 /\ i_size (core x) = 0 /\ (q ∈ frees <-> inum <> 16).
Proof.
  intros Ei En Hroom. destruct (create_inode_cache_spec 0 u Ei En Hroom) as (u' & chains & frees & R & Hok & Hall & _).
  by exists u', chains, frees.
Qed.

End create.

(** ** Concrete instances *)

Definition some_inode (_ : Z) : inode := mk_inode (fresh_inode 99 9 (replicate 12 5)) 0 7.
Definition icache_start : ufs_st sim Z := mk_ufs (boot_state sim_start 1) None ∅ boot_nodes (Some 7) None.

Lemma create_inode_cache_correct_witness : exists (u' : ufs_st sim Z) chains frees,
  create_inode_cache 1 2 some_inode icache_start = Ret u' /\ icache_ok u' chains frees /\
  forall inum, 0 <= inum < INODES -> exists q x, iholds u' chains inum q x /\
      i_mode (core x) = 0 /\ i_size (core x) = 0 /\ (q ∈ frees <-> inum <> 16).
Proof. exact (create_inode_cache_correct some_inode 0 2 icache_start eq_refl eq_refl I). Defined.

(** The 30 inodes right after they are created, and inode 5 among them. *)
Lemma icache_five : exists (u : ufs_st sim Z) chains l1 q l2 x, icache_ok u chains (l1 ++ q :: l2) /\
  iholds u chains 5 q x /\ IS_FLAG (i_flags (core x)) I_lock = false /\ IS_FLAG (i_state x) I_DIRTY = false /\
  (forall b y, ~ iholds u chains 40 b y).
Proof.
  destruct (create_inodes_spec some_inode 0 30 0 _ _ _ 0 (icreated_boot some_inode icache_start eq_refl))
    as (u & chains & frees & _ & [Hok _ _ Hbelow Hall] & _); [done|exact I|exact I|].
  destruct (Hall 5) as (q & x & Hh); [done|]. pose proof (iholds_cached _ _ _ _ _ Hh) as Hc. pose proof Hh as (_ & Hx & Hn).
  destruct (Hbelow q x Hc Hx) as (i & _ & ->). assert (Hf : q ∈ frees) by by apply (ic_lock _ _ _ Hok q (blank_inode some_inode q i)).
  apply list_elem_of_split in Hf as (l1 & l2 & ->). exists u, chains, l1, q, l2, (blank_inode some_inode q i).
  do 4 (split; [done|]). intros b y Hb. pose proof (iholds_cached _ _ _ _ _ Hb) as Hcb. destruct Hb as (_ & Hy & Hny).
  destruct (Hbelow b y Hcb Hy) as (k & Hk & ->). cbn in Hny. lia.
Qed.

Lemma iget_hit_correct_witness : exists (u u' : ufs_st sim Z) q chains frees',
  iget 1 2 1 DEV_NO 5 u = Ret (u', Some q) /\ icache_ok u' chains frees'.
Proof.
  destruct icache_five as (u & chains & l1 & q & l2 & x & Hok & Hh & Hl & _ & _).
  destruct (iget_hit_correct 1 2 u chains _ 5 q x 0 Hok Hh Hl) as (u' & frees' & R & Hok' & _).
  exists u, u', q, chains, frees'. split; [exact R|exact Hok'].
Defined.

Lemma iget_iput_roundtrip_witness : exists u u' : ufs_st sim Z,
  ('(u, p) ← iget 1 2 1 DEV_NO 5 u; p ← deref p; iput 1 2 p u) = Ret u' /\ inodes u' = inodes u.
Proof.
  destruct icache_five as (u & chains & l1 & q & l2 & x & Hok & Hh & _ & Hd & _).
  destruct (iget_iput_roundtrip 1 2 u chains l1 q l2 5 x 0 Hok Hh Hd) as (u' & R & _ & E & _).
  exists u, u'. split; [exact R|exact E].
Defined.

Lemma icache_held : exists (u : ufs_st sim Z) chains frees q x, icache_ok u chains frees /\ iholds u chains 5 q x /\
  (q ∉ frees) /\ IS_FLAG (i_flags (core x)) I_lock = true /\ IS_FLAG (i_state x) I_DIRTY = false.
Proof.
  destruct icache_five as (u & chains & l1 & q & l2 & x & Hok & Hh & Hl & Hd & _).
  destruct (iget_found 1 2 u chains l1 q l2 5 x 0 Hok Hh) as (u' & _ & Hok' & E & _).
  exists u', chains, (l1 ++ l2), q, (ilocked x). split; [done|]. pose proof Hh as (Hin & Hx & Hn).
  split; [split; [done|split; [by rewrite E, lookup_insert_eq|done] ]|].
  pose proof (ifree_NoDup _ _ _ Hok) as Hnd. rewrite <- Permutation_middle in Hnd. apply NoDup_cons in Hnd as [Hqn _].
  split; [done|]. split; [|done]. rewrite ilocked_flags. apply ilock_set.
  destruct (ic_inode _ _ _ Hok _ q (queue_of_range 5) Hin) as (y & [G1 G2 G3 G4 G5 G6]). congruence.
Qed.

Lemma iget_locked_spins_witness : exists u : ufs_st sim Z, iget 1 2 1000 DEV_NO 5 u = Spin.
Proof.
  destruct icache_held as (u & chains & frees & q & x & Hok & Hh & _ & Hl & _). exists u.
  exact (iget_locked_spins 1 2 u chains frees 5 q x 1000 Hok Hh Hl).
Defined.

Lemma iget_miss_faults_witness : exists u : ufs_st sim Z, iget 1 2 1 DEV_NO 40 u = Fault.
Proof.
  destruct icache_five as (u & chains & l1 & q & l2 & x & Hok & _ & _ & _ & Hm). exists u.
  rewrite (iget_miss_faults 1 2 u chains _ 40 0 Hok Hm). by destruct l1.
Defined.

Lemma iput_correct_witness : exists (u u' : ufs_st sim Z) q x', iput 1 2 q u = Ret u' /\ inodes u' !! q = Some x' /\ i_count x' = 0.
Proof.
  destruct icache_held as (u & chains & frees & q & x & Hok & Hh & Hnf & _ & Hd).
  destruct (iput_correct 1 2 u chains frees q x Hok (iholds_cached _ _ _ _ _ Hh) (proj1 (proj2 Hh)) Hnf Hd)
    as (u' & x' & R & _ & E & Hc & _).
  exists u, u', q, x'. split; [exact R|]. split; [rewrite E; apply lookup_insert_eq|exact Hc].
Defined.

Lemma namei_only_root_witness : [47] = [47] /\ icache_start = icache_start /\ root icache_start = Some 7.
Proof. exact (namei_only_root 9 2 [47] icache_start icache_start 7 eq_refl). Defined.

(** A directory of two blocks at address 7, block 3 holding "bin" (9). *)
Definition dir_inode : inode :=
  mk_inode (mk_dinode 0 0 1500 0 0 0 0 0 0 2 0 4 (3 :: 4 :: replicate 13 0) 9 0 0 0 (replicate 12 0)) 0 1.

Lemma search_dir_correct_witness : exists (u u' : ufs_st sim Z) data,
  search_dir 1 2 7 [98; 105; 110] 3 u = Ret (u', default (u32 (-1)) (lookup_from 51 0 data [98; 105; 110])).
Proof.
  destruct booted_fs as (st & buf & dat & Hq & Hs & _).
  destruct (search_dir_correct 0 2 sim_patient (mk_ufs st None {[7 := dir_inode]} ∅ None None) buf dat ∅
    (fun _ => zero_block) 7 dir_inode [98; 105; 110] 3 Hq Hs) as (u' & R);
    [done|simpl; lia|done| |done|by repeat constructor|simpl; lia|].
  - intros j Hj. change (Z.to_nat (i_size (core dir_inode) / 1024 + 1)) with 2%nat in Hj.
    assert (j = 0%nat \/ j = 1%nat) as [->| ->] by lia; [exists 3|exists 4]; (split; [done|]); (split; [done|set_solver]).
  - eexists _, u', _. exact R.
Defined.
