(* ===== verification/Boot.v ===== *)
(** * The boot sequence (kernel/kernel.c)

    [kernel_main] composes the components in the order of the code: serial
    line, memory manager, page frames, buddy system and slab allocator,
    descriptor tables, interrupt controller, task state, timer, disk self test,
    buffer cache and inode cache over the slab allocator, file-system test,
    screen.  Static data starts zeroed; memory that nobody initialised holds
    what [junk_*] say.  The messages kernel_main itself writes are part of the
    model, those of the functions it calls only where their component models
    them.  The model takes no interrupt between two steps.  On the machine one
    can come as soon as disk.c executes sti, and since trap_init installs no
    gates for the vectors of timer and keyboard it ends in a general protection
    (see the reports in outputs/out.txt); runs with an interrupt are not covered. *)

From S2P Require Import Prelude ListHead Zone Buddy Allocator Manager Mm Slab Ports Task Serial Console Interrupts Descriptors Disk.
From S2P Require Import BufferCache BufferProofs SlabHeap Ufs.

Definition MAGIC : Z := 0x2BADB002.
Definition MULTIBOOT_FLAG_MEM : Z := 1.
Definition OFFSET1 : Z := 0x20.
Definition OFFSET2 : Z := 0x28.
Definition FREQUENCY : Z := 100.

(** Addresses the linker gives to the image, its tables and entry points. *)
Record image := mk_image {
  KERNEL_START : Z; KERNEL_END : Z; gdt_at : Z; idt_at : Z; tss_at : Z; init_task_at : Z; cache_cache_at : Z; stub_at : stub -> Z }.

(** Static data before kernel_main runs. *)
Definition zero_zone : zone_t :=
  mk_zone 0 0 0 0 0 ∅ (list_to_map ((fun k => (k, 0)) <$> seqZ 0 BUDDY_GROUPS))
    (list_to_map ((fun k => (FreeList k, mk_list_head None None)) <$> seqZ 0 BUDDY_GROUPS)).
Definition zero_pgdir : gmap Z Z := list_to_map ((fun k => (k, 0)) <$> seqZ 0 1024).
Definition zero_cache : kmem_cache := mk_cache 0 0 0 0 0 0 0 0 0 0 None 0 None None.
Definition zero_heads (c : Z) : gmap snode (list_head snode) :=
  list_to_map ((fun n => (n, mk_list_head None None)) <$> [SPartial c; SFull c; SFree c; CNext c; CacheChain]).
Definition zero_gdt : list GDTEntry := replicate 6 (mk_gdt 0 0 0 0 0 0).
Definition zero_idt : list idt_entry := replicate (Z.to_nat IDT_MAX_DESCRIPTORS) (mk_idt 0 0 0 0 0).
Definition zero_handlers : list (option irq_driver) := replicate 16 None.

(** The state of the idle loop. *)
Record booted (S : Type) := mk_booted {
  b_mm : mm;                          (* page frames and page tables *)
  b_fs : ufs_st S slab_st;            (* file system, buffer cache, slab allocator, devices *)
  b_tasks : tasks;
  b_gdt : list GDTEntry; b_gdt_ptr : GDTPtr;
  b_idt : list idt_entry; b_idt_ptr : idtr_t;
  b_kernel : kstate S;                (* handlers, ticks and screen *)
}.
Arguments mk_booted {S}.
Arguments b_mm {S}.
Arguments b_fs {S}.
Arguments b_tasks {S}.
Arguments b_gdt {S}.
Arguments b_gdt_ptr {S}.
Arguments b_idt {S}.
Arguments b_idt_ptr {S}.
Arguments b_kernel {S}.

(** Where kernel_main ends up: in one of its three loops around hlt. *)
Inductive halted (S : Type) := BadMagic | NoMemory (s : S) | Idle (b : booted S).
Arguments BadMagic {S}.
Arguments NoMemory {S}.
Arguments Idle {S}.

Section boot.
Context {S : Type} `{PortIO S}.
Context (fuel patience : nat) (img : image) (entry_at : Z -> mmap_entry).
Context (junk_cache : Z -> kmem_cache) (junk_buffer : ram) (junk_inode : Z -> inode)
  (call : Z -> Z -> slab_st -> outcome slab_st).

#[local] Instance boot_alloc : KAlloc slab_st := slab_kalloc junk_cache call.
#[local] Instance boot_free : KFree slab_st := { ka_kfree p s := kfree call p s }.

Definition say_line (text : list Z) (s : S) : outcome S := printk patience (text ++ [10]) [] s.

(** The messages up to the memory manager. *)
Definition banner (addr : Z) (mbi : multiboot_info) (s : S) : outcome S :=
  let s := serial_init s in
  s ← serial_writestring patience (chars "Serial initialized. Booting..." ++ [10]) s;
  s ← serial_writestring patience (chars "kernel_start= ") s;
  s ← serial_writehex patience (KERNEL_START img) s;
  s ← serial_writestring patience (10 :: chars "kernel_end= ") s;
  s ← serial_writehex patience (KERNEL_END img) s;
  s ← serial_writestring patience (chars "GRUB passed multiboot info at 0x" ++ [10]) s;
  s ← serial_writehex patience addr s;
  if negb (Z.land (mb_flags mbi) MULTIBOOT_FLAG_MEM =? 0) then
    s ← serial_writestring patience (10 :: chars "Lower memory:  KB" ++ [10]) s;
    s ← serial_writehex patience (mem_lower mbi) s;
    s ← serial_writestring patience (10 :: chars "Upper memory:  KB" ++ [10]) s;
    serial_writehex patience (mem_upper mbi) s
  else mret s.

(** init_mem: the page frames, then the slab allocator unless create_mem_map failed. *)
Definition init_memory (blocks : list memory_block) (layout : phy_layout) (h : Allocator.heap) : outcome (mm * slab_st) :=
  m ← Mm.init_mem fuel blocks (mk_mm layout None zero_zone h zero_pgdir ∅);
  let sl := mk_sst (zone m) (cache_cache_at img) {[ cache_cache_at img := zero_cache ]} ∅ (zero_heads (cache_cache_at img)) ∅ ∅ in
  match mem_map_ptr m with
  | None => mret (m, sl)
  | Some _ => sl ← init_slab junk_cache call sl; _ ← show_buddy (szone sl); mret (m, sl)
  end.

(** The task tables as they are initialised statically; sched_init takes the
    kernel stack from the zone of the slab allocator. *)
Definition start_tasks (sl : slab_st) : outcome (tasks * slab_st) :=
  k ← sched_init (mk_tasks (Some (init_task_at img) :: replicate 9 None) 0 zero_tss (szone sl) (Some (init_task_at img)) None);
  mret (k, set_szone (task_zone k) sl).

(** There is one zone: page frames, tasks and slab allocator share it. *)
Definition with_task_zone (z : zone_t) (k : tasks) : tasks :=
  mk_tasks (process_table k) (last_pid k) (tss k) z (current k) (last_task_used_math k).

(** From test_disk to test_fs. *)
Definition start_storage (sl : slab_st) (s : S) : outcome (ufs_st S slab_st) :=
  s ← say_line (chars "working out hard disk ") s;
  s ← test_disk patience s;
  s ← say_line (chars "initializing buffer cache") s;
  st ← create_buffer_cache_tested junk_buffer fuel patience ufs_globals (boot_state s sl);
  s ← say_line (chars "cooking fs") (io st);
  s ← say_line (chars "initializing inode cache ") s;
  u ← create_inode_cache fuel patience junk_inode (mk_ufs (set_io s st) None ∅ boot_nodes None None);
  s ← say_line (chars "testing fs") (io (bc u));
  test_fs fuel patience (set_bc (set_io s (bc u)) u).

Definition kernel_main (magic addr : Z) (mbi : multiboot_info) (screen : terminal) (s : S) : outcome (halted S) :=
  if negb (magic =? MAGIC) then mret BadMagic
  else
    s ← banner addr mbi s;
    '(memory_status, blocks, layout, h) ← initialize_memeory_manager (KERNEL_END img) entry_at fuel mbi;
    if memory_status <? 0 then mret (NoMemory s)
    else
      layout ← deref layout; h ← deref h;
      '(m, sl) ← init_memory blocks layout h;
      s ← say_line (10 :: chars "GDT init...") s;
      '(gdt, gdt_ptr) ← gdt_initialize (gdt_at img) (tss_at img) zero_gdt;
      s ← say_line (chars "PIC remap...") s;
      s ← remap_pic OFFSET1 OFFSET2 s;
      s ← say_line (chars "loading tss") s;
      '(k, sl) ← start_tasks sl;
      s ← say_line (chars "IDT setup...") s;
      idt ← trap_init (stub_at img) zero_idt;
      s ← say_line (chars "Install timer & keyboard drivers..") s;
      let ks := install_handlers (mk_kstate s 0 screen zero_handlers) in
      s ← say_line (chars "PIT init...") (ports ks);
      s ← init_timer FREQUENCY s;
      s ← say_line (chars "IDT init...") s;
      let idt_ptr := initialize_idt (idt_at img) in
      s ← say_line (chars "Boot complete.") s;
      u ← start_storage sl s;
      t ← terminal_initialize (Interrupts.screen ks);
      t ← terminal_writestring (chars "Hello, Welcome To Yega Kernel!" ++ [10]) t;
      s ← say_line (chars "booted..................") (io (bc u));
      let z := szone (heap (bc u)) in
      mret (Idle (mk_booted (with_zone z m) (set_bc (set_io s (bc u)) u) (with_task_zone z k) gdt gdt_ptr idt idt_ptr
        (mk_kstate s (timer_ticks ks) t (irq_handlers ks)))).
End boot.
