(* ===== verification/BootProofs.v ===== *)
(** * The boot sequence: kernel_main reaches its idle loop

    The devices are any UART, interrupt controllers and ATA drive behind one set
    of ports.  The serial line, the controllers and the timer do not disturb the
    drive; the allocator keeps its invariant from kernel_main's first page to
    the last inode; the caches end up in the states their file systems need. *)

From S2P Require Import Prelude ListHead Zone Buddy BuddyInv BuddyProofs BuddyInit BuddySpec Allocator Manager Mm MmBoot Slab SlabProofs SlabInv SlabGrow SlabCreate.
From S2P Require Import Ports Task Serial Console Interrupts Descriptors Disk BufferCache BufferProofs SlabHeap Blocks Layout Ufs UfsProofs InodeProofs Boot.

(** ** The devices side by side *)

Section devices.
Context {S : Type} `{HIO : PortIO S} `{HD : !AtaDevice S} `{HU : !Uart S}.
Context (p : nat).
Hypothesis talkative : (tx_bound <= p)%nat.
Implicit Types s : S.

Lemma wait_transmit_view fuel : forall s n, (n < fuel)%nat ->
  Z.land (snd (port_byte_in (COM1 + 5) (Nat.iter n (fun s => fst (port_byte_in (COM1 + 5) s)) s))) 0x20 <> 0 ->
  exists s', wait_transmit fuel s = Ret s' /\ view s' = view s.
Proof.
  induction fuel as [|fuel IH]; intros s n Hn Hs; [lia|]. cbn [wait_transmit].
  pose proof (dev_in (COM1 + 5) s) as Hv. destruct (port_byte_in (COM1 + 5) s) as [s1 v] eqn:E. cbn [fst] in Hv.
  destruct (Z.eqb_spec (Z.land v 0x20) 0) as [Hz|_]; [|by exists s1].
  destruct n as [|n]; [simpl in Hs; rewrite E in Hs; done|].
  rewrite Nat.iter_succ_r, E in Hs. simpl in Hs.
  destruct (IH s1 n) as (s' & R & Hv'); [lia|done|]. exists s'. split; congruence.
Qed.

Lemma writestring_view text : forall s, exists s', serial_writestring p text s = Ret s' /\ view s' = view s.
Proof using talkative.
  induction text as [|c text IH]; intros s; [by exists s|]. cbn [serial_writestring]. unfold serial_writechar.
  destruct (uart_ready s) as (n & Hn & Hr). destruct (wait_transmit_view p s n ltac:(lia) Hr) as (s1 & -> & Hv1). bind_rets.
  destruct (IH (port_byte_out COM1 (u8 c) s1)) as (s2 & -> & Hv2). exists s2. split; [done|]. by rewrite Hv2, dev_out.
Qed.

(** printk always returns when the arguments fit the format; the drive does not
    notice. *)
Lemma printk_view format args text s : render format args = Some text ->
  exists s', printk p format args s = Ret s' /\ view s' = view s.
Proof using talkative.
  intros Hr. destruct (printk_steps p (fun _ => True) (fun s s' _ => view s' = view s)) with (n := length format) (format := format) (args := args) (s := s) (text := text)
    as (s' & R & Hv & _); try done; [congruence| |by exists s'].
  intros t s1 _. destruct (writestring_view t s1) as (s2 & R & Hv). by exists s2.
Qed.

Lemma say_line_view text s : Forall (fun c => c <> 37) text -> exists s', say_line p text s = Ret s' /\ view s' = view s.
Proof using talkative.
  intros Ht. apply (printk_view _ _ (text ++ [10])). induction Ht as [|c l Hc Hl IH]; [done|]. cbn [app render].
  rewrite (proj2 (Z.eqb_neq c 37)) by done. cbn [negb]. by rewrite IH.
Qed.

Lemma serial_init_view s : view (serial_init s) = view s.
Proof. unfold serial_init. rewrite !dev_out. reflexivity. Qed.

Lemma writehex_view num s : exists s', serial_writehex p num s = Ret s' /\ view s' = view s.
Proof using talkative. rewrite writehex_text. apply writestring_view. Qed.

(** A step that the drive does not notice, followed by others. *)
Lemma still_step (m : S -> outcome S) (k : S -> outcome S) s0 s1 :
  (forall s, exists s', m s = Ret s' /\ view s' = view s) -> view s1 = view s0 ->
  (forall s2, view s2 = view s0 -> exists s', k s2 = Ret s' /\ view s' = view s0) ->
  exists s', (m s1 ≫= k) = Ret s' /\ view s' = view s0.
Proof. intros Hm E Hk. destruct (Hm s1) as (s2 & -> & E2). bind_rets. apply Hk. congruence. Qed.

Lemma banner_view img addr mbi s : exists s', banner p img addr mbi s = Ret s' /\ view s' = view s.
Proof using talkative.
  unfold banner. rewrite <-(serial_init_view s). generalize (serial_init s). clear s. intros s.
  do 7 (eapply still_step; [first [apply writestring_view|apply writehex_view]|done|]; intros ? ?).
  destruct (negb _); [|eexists; by split].
  do 3 (eapply still_step; [first [apply writestring_view|apply writehex_view]|done|]; intros ? ?).
  match goal with |- exists s', serial_writehex p ?n ?x = _ /\ _ => destruct (writehex_view n x) as (s' & -> & ?) end.
  exists s'. split; congruence.
Qed.

(** The interrupt controllers and the timer. *)
Lemma remap_pic_view `{HP : !PicDevice S} o1 o2 s : 0 <= o1 < 256 -> 0 <= o2 < 256 ->
  exists s', remap_pic o1 o2 s = Ret s' /\ view s' = view s /\
    pics s' = (mk_chip 0 o1 0 0 0 false, mk_chip 0 o2 0 0 0 false).
Proof.
  intros H1 H2. destruct (remap_pic_correct o1 o2 s H1 H2) as (s' & R & Hp). exists s'. split; [done|]. split; [|done].
  revert R. unfold remap_pic. set (s1 := port_byte_out PIC2_DATA 0 _).
  assert (E : view s1 = view s) by (unfold s1, outb_wait, io_wait; rewrite !dev_out; reflexivity). rewrite <-E. clearbody s1.
  assert (Hc : forall line x y, (line = 0 \/ line = 1) -> IRQ_clear_mask line x = Ret y -> view y = view x).
  { intros line x y Hl. unfold IRQ_clear_mask. destruct (irq_port line) as [port l] eqn:Ep. pose proof (dev_in port x) as Hv.
    destruct (port_byte_in port x) as [x1 v]. cbn [fst] in Hv. intros (bit & _ & [= <-])%bind_Ret_inv. rewrite dev_out, <-Hv.
    by destruct Hl as [-> | ->]; injection Ep as <- _. }
  intros (s2 & R2 & R3)%bind_Ret_inv. rewrite (Hc 1 s2 s'), (Hc 0 s1 s2); auto.
Qed.

Lemma init_timer_view s : exists s', init_timer FREQUENCY s = Ret s' /\ view s' = view s.
Proof. eexists. split; [reflexivity|]. unfold outb_wait, io_wait. rewrite !dev_out. reflexivity. Qed.

End devices.

(** ** The disk self test *)

Lemma test_disk_disk {S : Type} `{HIO : PortIO S} `{HD : !AtaDevice S} p (s : S) : (patience_bound <= p)%nat ->
  exists s', test_disk p s = Ret s' /\
    forall l, disk (view s') l = set_sector (disk (view s)) 5 (pad_sector (chars "A1B2C3D4E5") 10) l.
Proof.
  intros Hp. unfold test_disk, disk_write. set (wr := chars "A1B2C3D4E5" ++ replicate 502 0).
  destruct (write_loop_spec p (Z.to_nat 10) 5 wr 0 10 s) as (s1 & -> & Hd); [done|vm_compute; congruence..|]. bind_rets.
  destruct (disk_read_sector p 5 s1) as (s2 & -> & Hd2); [done|lia|]. bind_rets. eexists. split; [reflexivity|].
  intros l. rewrite dev_print, Hd2, Hd. unfold write_span, set_sector. destruct (decide (l = 5)) as [->|Hl].
  - rewrite decide_True by lia. vm_compute. reflexivity.
  - by rewrite decide_False by lia.
Qed.

(** ** The buffer cache *)

Section tested_cache.
Context {S A : Type} `{HIO : PortIO S} `{HA : KAllocSpec A} `{HD : !AtaDevice S}.
Implicit Types st : bcache_st S A.

Lemma display_buffers st chains frees : cache_ok st chains frees -> exists l, display_buffer_cache st = Ret l.
Proof.
  intros Hok. assert (Hi : forall i, 0 <= i < DEV_NO -> exists l, display_chain i st = Ret l).
  { intros i Hi. pose proof (ok_chain _ _ _ Hok i Hi) as Hl. unfold display_chain. rewrite hash_slot_queue by done.
    rewrite (list_for_each_spec _ _ _ _ Hl) by (pose proof (is_list_size _ _ _ Hl); lia). rewrite bind_Ret.
    apply mapM_Ret. intros n (q & -> & Hq)%list_elem_of_fmap. destruct (ok_buf _ _ _ Hok i q Hi Hq) as (bh & [Hx _ _ _ _ _]).
    exists (b_blocknr bh). cbn [hash_entry]. rewrite bind_mret, Hx. unfold deref. by bind_rets. }
  unfold display_buffer_cache. apply mapM_Ret. intros i Hin. apply Hi. unfold DEV_NO.
  rewrite !elem_of_cons, elem_of_nil in Hin. lia.
Qed.

Lemma fill_data_quiet st buf dat busy mem blk bytes : quiet st buf dat busy mem -> 0 <= blk < BUFFERS -> length bytes = Z.to_nat BUFFER_SIZE ->
  exists st', fill_data (buf blk) bytes st = Ret st' /\ quiet st' buf dat busy (upd mem blk bytes) /\ io st' = io st.
Proof.
  intros Hq Hblk Hl. destruct (quiet_data_of _ _ _ _ _ _ Hq Hblk) as (Hd & _ & Hlen). unfold fill_data. rewrite Hd. bind_rets.
  rewrite decide_True by lia. rewrite Hl, drop_ge, app_nil_r by lia. eexists. split; [done|]. split; [by apply quiet_store|done].
Qed.

(** The self test of the cache leaves every buffer free and the pattern in the
    sectors 16 and 17. *)
Lemma test_bcache_quiet f p g st buf dat mem : quiet st buf dat ∅ mem -> (patience_bound <= p)%nat ->
  exists st' l, test_bcache (Datatypes.S f) p g st = Ret (st', l) /\
    quiet st' buf dat ∅ (upd mem 16 (take 512 test_pattern ++ replicate 512 0)) /\
    (forall l, disk (view (io st')) l = two_sectors 16 test_pattern (disk (view (io st))) l).
Proof.
  intros Hq Hp. assert (H16 : 0 <= 16 < BUFFERS) by (unfold BUFFERS; lia). unfold test_bcache.
  destruct (quiet_getblk _ _ _ _ _ 16 f p g Hq H16) as (st1 & -> & Hq1 & Ei1); [set_solver|]. bind_rets.
  destruct (fill_data_quiet _ _ _ _ _ 16 test_pattern Hq1 H16) as (st2 & -> & Hq2 & Ei2); [by vm_compute|]. bind_rets.
  destruct (quiet_bwrite _ _ _ _ _ 16 p Hq2 H16) as (st3 & -> & Hq3 & Ed3); [apply held_now|done|]. bind_rets.
  rewrite released in Hq3 by set_solver.
  destruct (fill_data_quiet _ _ _ _ _ 16 zero_block Hq3 H16) as (st4 & E4 & Hq4 & Ei4); [by vm_compute|]. unfold zero_block in E4. rewrite E4. bind_rets.
  assert (Ed : disk (view (io st4)) 16 = take 512 test_pattern).
  { rewrite Ei4, Ed3. unfold two_sectors. by rewrite decide_True, upd_eq by done. }
  assert (El : length (disk (view (io st4)) 16) = 512%nat) by (rewrite Ed; by vm_compute).
  destruct (quiet_bread _ _ _ _ _ 16 f p g Hq4 H16 ltac:(apply not_elem_of_empty) Hp El) as (st5 & -> & Hq5 & Ed5). bind_rets.
  destruct (quiet_data_of _ _ _ _ _ _ Hq5 H16) as (-> & _ & _). bind_rets.
  destruct (quiet_brelse _ _ _ _ _ 16 Hq5 H16) as (st6 & -> & Hq6 & Ed6); [apply held_now|]. bind_rets.
  eexists _, _. split; [reflexivity|]. split.
  - eapply quiet_ext; [exact Hq6|by apply released|]. intros n Hn. rewrite Ed, upd_eq.
    destruct (decide (n = 16)) as [->|Hne]; [rewrite !upd_eq; reflexivity|by rewrite !upd_ne].
  - intros l. rewrite Ed6, Ed5, Ei4, Ed3, upd_eq, Ei2, Ei1. done.
Qed.

(** create_buffer_cache with everything it ends with. *)
Lemma create_tested_spec junk m f p g s a : ka_room a (201 + m) -> (patience_bound <= p)%nat ->
  exists st buf dat mem, create_buffer_cache_tested junk (Datatypes.S f) p g (boot_state s a) = Ret st /\ quiet st buf dat ∅ mem /\
    (forall blk, length (mem blk) = 1024%nat /\ bytes_ok (mem blk)) /\
    (forall l, disk (view (io st)) l = two_sectors 16 test_pattern (disk (view s)) l) /\ ka_room (heap st) m.
Proof.
  intros Hroom Hp. destruct (quiet_boot junk m s a Hroom) as (st & buf & dat & R & Hq & Eio & Hm).
  unfold create_buffer_cache in R. unfold create_buffer_cache_tested. cbn [heap boot_state] in *.
  destruct (ka_cache_create_ok sizeof_buffer_head a (200 + m) ltac:(done) Hroom) as (a1 & c & Ec & _). rewrite Ec in *. rewrite bind_Ret in R |- *. cbv zeta in *. rewrite R, bind_Ret.
  pose proof Hq as (chains & frees & Hok & _). destruct (display_buffers st chains frees Hok) as (l & ->). rewrite bind_Ret.
  destruct (test_bcache_quiet f p g st buf dat _ Hq Hp) as (st' & l' & R' & Hq' & Hd'). rewrite R', bind_Ret.
  eexists st', buf, dat, _. split; [reflexivity|]. split; [exact Hq'|]. split_and!.
  - intros blk. unfold upd. case_decide; [split; [by vm_compute|apply (bool_decide_unpack _); by vm_compute]|].
    split; [apply length_fresh|apply fresh_bytes_ok].
  - intros k. by rewrite Hd', Eio.
  - by rewrite (test_bcache_heap _ _ _ _ _ _ R').
Qed.
End tested_cache.

(** ** The file-system test *)

Section report.
Context {S : Type} `{HIO : PortIO S} `{HD : !AtaDevice S} `{HU : !Uart S} (p : nat).
Hypothesis talkative : (tx_bound <= p)%nat.
Implicit Types s : S.

Lemma print_free_view l : forall s, exists s', print_free p l s = Ret s' /\ view s' = view s.
Proof using talkative.
  induction l as [|i l IH]; intros s; [by exists s|]. cbn [print_free]. eapply still_step; [|done|].
  - intros s1. eapply printk_view; [done|reflexivity].
  - intros s2 <-. apply IH.
Qed.

Lemma display_sb_view sb s : exists s', display_sb p sb s = Ret s' /\ view s' = view s.
Proof using talkative.
  unfold display_sb, print_line.
  do 12 (eapply still_step; [intros ?; eapply printk_view; [done|reflexivity]|done|]; intros ? ?).
  eapply still_step; [apply print_free_view|done|]; intros ? ?.
  eapply still_step; [intros ?; eapply printk_view; [done|reflexivity]|done|]; intros ? E. rewrite <-E.
  eapply printk_view; [done|reflexivity].
Qed.
End report.

Lemma test_fs_spec {S A : Type} `{HIO : PortIO S} `{HA : KAlloc A} `{HD : !AtaDevice S} `{HU : !Uart S}
    f p (u : ufs_st S A) buf dat mem :
  (tx_bound <= p)%nat -> (patience_bound <= p)%nat -> quiet (bc u) buf dat ∅ mem -> sane (disk (view (io (bc u)))) mem ->
  exists st mem', test_fs (Datatypes.S f) p u = Ret (set_bc st u) /\ quiet st buf dat ∅ mem' /\
    disk (view (io st)) = disk (view (io (bc u))) /\ heap st = heap (bc u).
Proof.
  intros Ht Hp Hq Hs. assert (H1 : 0 <= 1 < BUFFERS) by (unfold BUFFERS; lia). unfold test_fs.
  destruct (fs_bread_spec f p Hp u buf dat ∅ mem 1 Hq H1) as (st1 & R1 & Hq1 & Ed1 & Hs1); [apply not_elem_of_empty|done|].
  assert (Eh : heap st1 = heap (bc u)).
  { unfold fs_bread in R1. apply bind_Ret_inv in R1 as ([st q] & Hr & E1). injection E1 as -> _. by eapply bread_heap. }
  rewrite R1, bind_Ret. cbn [bc set_bc]. set (mem1 := upd mem 1 _) in *. destruct (quiet_data_of _ _ _ _ _ _ Hq1 H1) as (-> & _ & Hl). rewrite bind_Ret.
  destruct (super_at_total (mem1 1)) as (sb & -> & _); [by apply Hs1|rewrite Hl; unfold BUFFER_SIZE; lia|]. rewrite bind_Ret.
  destruct (display_sb_view p Ht sb (io st1)) as (s & -> & Hv). rewrite bind_Ret.
  destruct (fs_brelse_spec (set_bc (set_io s st1) (set_bc st1 u)) buf dat ({[1]} ∪ ∅) mem1 1) as (st2 & R2 & Hq2 & Ed2); [by apply quiet_set_io|done|apply held_now|].
  rewrite R2. exists st2, mem1. split; [done|]. split; [by rewrite released in Hq2 by apply not_elem_of_empty|]. split; [by rewrite Ed2; cbn; rewrite Hv|].
  rewrite <-Eh. unfold fs_brelse in R2. apply bind_Ret_inv in R2 as (st & Hr & E2). injection E2 as ->. by apply brelse_heap in Hr.
Qed.

(** ** The allocator through the boot *)

(** The kernel stack takes two pages from the zone of the slab allocator. *)
Lemma start_tasks_room img sl n : slab_room sl (S n) ->
  exists k sl', start_tasks img sl = Ret (k, sl') /\ slab_room sl' n /\ current k = Some (init_task_at img) /\ ss0 (tss k) = KERNEL_DATA.
Proof.
  intros (w & Hinv & Hsz & Hroom). unfold start_tasks, sched_init, alloc_kernel_stack, alloc_pages. cbn [task_zone].
  assert (Hk : in_order KSTACK_ORDER) by (unfold in_order, KSTACK_ORDER, BUDDY_GROUPS; lia).
  destruct (allocate_block_cases (szone sl) (w_blocks w) KSTACK_ORDER (si_buddy _ _ Hinv) Hk) as [(z' & fl' & i & -> & Hok)|[-> _] ]; bind_rets.
  2:{ eexists _, _. split; [reflexivity|]. split_and!; try done. exists w. destruct sl. split_and!; [done|done|lia]. }
  destruct Hok as [Ai Al Aw Af At Afp As].
  destruct (zone_step_inv sl w z' fl' Hinv Ai) as [Hinv' Hext].
  { rewrite (bs_start _ _ _ As). apply Hinv. }
  { apply As. }
  { intros j Hj. by apply Af. }
  { intros j Hj. by rewrite (bs_pages _ _ _ As), (bs_lru _ _ _ As). }
  eexists _, _. split; [reflexivity|]. split_and!; try done. cbn [task_zone].
  eexists. split; [exact Hinv'|]. split; [intros z Hz; by eapply size_ok_ext, Hsz|]. cbn [w_blocks]. rewrite At. unfold KSTACK_ORDER. lia.
Qed.

Lemma sane_ext d d' mem : (forall l, d' l = d l) -> sane d mem -> sane d' mem.
Proof. intros E [H1 H2]. split; [|done]. intros l. rewrite E. apply H1. Qed.

Lemma icache_set_bc {S A : Type} (u : ufs_st S A) st chains frees : icache_ok u chains frees -> icache_ok (set_bc st u) chains frees.
Proof.
  intros Hok. split; try apply Hok. intros i q Hi Hq. destruct (ic_inode _ _ _ Hok i q Hi Hq) as (x & []). exists x. by split.
Qed.

Ltac decide_forall := apply (bool_decide_unpack _); vm_compute; done.

Section storage.
Context {S : Type} `{HIO : PortIO S} `{HD : !AtaDevice S} `{HU : !Uart S}.
Context (f p : nat) (junk_cache : Z -> kmem_cache) (junk_buffer : ram) (junk_inode : Z -> inode)
  (call : Z -> Z -> slab_st -> outcome slab_st).
Hypothesis talkative : (tx_bound <= p)%nat.
Hypothesis patient : (patience_bound <= p)%nat.
Hypothesis colours : forall c, colour_next (junk_cache c) = 0.

#[local] Instance storage_alloc : KAlloc slab_st := boot_alloc junk_cache call.
#[local] Instance boot_spec : KAllocSpec slab_st := slab_kalloc_spec junk_cache call colours.

(** The disk after the self tests of the driver and of the buffer cache. *)
Definition tested_disk (d : Z -> list Z) : Z -> list Z :=
  two_sectors 16 test_pattern (set_sector d 5 (pad_sector (chars "A1B2C3D4E5") 10)).

Lemma tested_sane d mem : (forall l, length (d l) = 512%nat /\ bytes_ok (d l)) -> (forall blk, length (mem blk) = 1024%nat /\ bytes_ok (mem blk)) ->
  sane (tested_disk d) mem.
Proof.
  intros Hd Hm. split; [|done]. intros l. unfold tested_disk, two_sectors, set_sector.
  repeat case_decide; [| | |apply Hd]; (split; [by vm_compute|apply (bool_decide_unpack _); by vm_compute]).
Qed.

Lemma start_storage_spec sl m s : slab_room sl (232 + m) -> (forall l, length (disk (view s) l) = 512%nat /\ bytes_ok (disk (view s) l)) ->
  exists u buf dat mem chains frees,
    start_storage (Datatypes.S f) p junk_cache junk_buffer junk_inode call sl s = Ret u /\
    quiet (bc u) buf dat ∅ mem /\ icache_ok u chains frees /\
    (forall inum, 0 <= inum < INODES -> exists q x, iholds u chains inum q x /\ (q ∈ frees <-> inum <> 16)) /\
    slab_room (heap (bc u)) m /\ (forall l, disk (view (io (bc u))) l = tested_disk (disk (view s)) l).
Proof using talkative patient colours.
  intros Hroom Hsec. unfold start_storage.
  destruct (say_line_view p talkative (chars "working out hard disk ") s) as (s1 & -> & V1); [by decide_forall|]. bind_rets.
  destruct (test_disk_disk p s1 patient) as (s2 & -> & D2). bind_rets.
  destruct (say_line_view p talkative (chars "initializing buffer cache") s2) as (s3 & -> & V3); [by decide_forall|]. bind_rets.
  destruct (create_tested_spec junk_buffer (31 + m) f p ufs_globals s3 sl) as (st4 & buf & dat & mem & R4 & Q4 & M4 & D4 & H4); [exact Hroom|done|].
  unfold storage_alloc in R4. rewrite R4. bind_rets.
  destruct (say_line_view p talkative (chars "cooking fs") (io st4)) as (s5 & -> & V5); [by decide_forall|]. bind_rets.
  destruct (say_line_view p talkative (chars "initializing inode cache ") s5) as (s6 & -> & V6); [by decide_forall|]. bind_rets.
  destruct (create_inode_cache_spec junk_inode f p m (mk_ufs (set_io s6 st4) None ∅ boot_nodes None None)) as (u7 & chains & frees & R7 & I7 & A7 & (a & E7) & H7); [done|done|exact H4|].
  unfold storage_alloc in R7. rewrite R7. bind_rets. cbn [bc] in E7.
  destruct (say_line_view p talkative (chars "testing fs") (io (bc u7))) as (s8 & -> & V8); [by decide_forall|]. bind_rets.
  assert (Ed : forall l, disk (view s8) l = tested_disk (disk (view s)) l).
  { intros l. rewrite V8, E7. cbn [io set_heap set_io]. rewrite V6, V5, D4. unfold tested_disk, two_sectors. by rewrite V3, D2, V1. }
  destruct (test_fs_spec f p (set_bc (set_io s8 (bc u7)) u7) buf dat mem talkative patient) as (st9 & mem9 & R9 & Q9 & D9 & H9).
  { apply quiet_set_io. rewrite E7. by apply quiet_set_heap, quiet_set_io. }
  { eapply sane_ext; [exact Ed|by apply tested_sane]. }
  unfold storage_alloc in R9. rewrite R9. eexists _, buf, dat, mem9, chains, frees. split; [reflexivity|]. split; [exact Q9|]. split; [by do 2 apply icache_set_bc|]. split_and!.
  - intros inum Hi. destruct (A7 inum Hi) as (q & x & Hh & _ & _ & Hf). exists q, x. by split.
  - cbn [bc set_bc]. rewrite H9. exact H7.
  - intros l. cbn [bc set_bc]. rewrite D9. apply Ed.
Qed.
End storage.

(** ** kernel_main *)

(** What the memory manager and init_mem must have done: page frames in the
    invariant of the buddy system, the static descriptor of the cache of caches
    outside them, and room for the general caches (16 pages), the kernel stack
    and 232 requests of the caches. *)
Record memory_ready (img : image) (entry_at : Z -> mmap_entry) (fuel : nat) (mbi : multiboot_info) (m : mm) (fl : Z -> list Z) (n : nat) : Prop := {
  mr_run : exists status blocks layout h, 0 <= status /\
    initialize_memeory_manager (KERNEL_END img) entry_at fuel mbi = Ret (status, blocks, Some layout, Some h) /\
    Mm.init_mem fuel blocks (mk_mm layout None zero_zone h zero_pgdir ∅) = Ret m;
  mr_map : is_Some (mem_map_ptr m);
  mr_buddy : buddy_inv (zone m) fl;
  mr_pfn : zone_start_pfn (zone m) = 0;
  mr_present : present_pages (zone m) <= 0x40000;
  mr_static : ~ free_page fl (pgno (cache_cache_at img));
  mr_room : 16 + 2 * Z.of_nat (233 + n) <= free_total fl;
}.

Definition hello : list Z := chars "Hello, Welcome To Yega Kernel!" ++ [10].

(** The machine in the idle loop; [d] is the disk it was started with. *)
Record boot_done {S : Type} `{PortIO S} `{!AtaDevice S} (img : image) (d : Z -> list Z) (n : nat) (b : booted S) : Prop := {
  bd_gates : forall v, 0 <= v < 32 -> v <> 14 -> exists e st dpl, b_idt b !! Z.to_nat v = Some e /\
    (v, (st, dpl)) ∈ trap_gates /\ decode_offset e = stub_at img st /\ decode_present e = true;
  bd_no_gate : forall v, v = 14 \/ 32 <= v < IDT_MAX_DESCRIPTORS -> exists e, b_idt b !! Z.to_nat v = Some e /\ decode_present e = false;
  bd_tss : exists e, b_gdt b !! 5%nat = Some e /\ decode_base e = tss_at img /\ decode_limit e = sizeof_tss - 1;
  bd_task : current (b_tasks b) = Some (init_task_at img) /\ ss0 (tss (b_tasks b)) = KERNEL_DATA;
  bd_handlers : irq_handlers (b_kernel b) = <[1%nat := Some keyboard_h]> (<[0%nat := Some timer_h]> (replicate 16 None));
  bd_buffers : exists buf dat mem, quiet (bc (b_fs b)) buf dat ∅ mem;
  bd_inodes : exists chains frees, icache_ok (b_fs b) chains frees /\
    forall inum, 0 <= inum < INODES -> exists q x, iholds (b_fs b) chains inum q x /\ (q ∈ frees <-> inum <> 16);
  bd_heap : slab_room (heap (bc (b_fs b))) n;
  bd_disk : forall l, disk (view (io (bc (b_fs b)))) l = tested_disk d l;
  bd_screen : term_ok (screen (b_kernel b)) /\ forall i c, hello !! Z.to_nat i = Some c -> 0 <= i -> cell (screen (b_kernel b)) i = Some (vga_entry c 7);
}.

Lemma hello_screen t : length (terminal_buffer t) = Z.to_nat CELLS ->
  exists t1 t2, terminal_initialize t = Ret t1 /\ terminal_writestring hello t1 = Ret t2 /\ term_ok t2 /\
    forall i c, hello !! Z.to_nat i = Some c -> 0 <= i -> cell t2 i = Some (vga_entry c 7).
Proof.
  intros Hl. destruct (terminal_initialize_correct t Hl) as (t1 & R1 & Hok & Hc & Hcol & _).
  destruct (terminal_writestring_correct hello t1 Hok) as (t2 & R2 & Hok2 & _ & Hcell); [by vm_compute|].
  exists t1, t2. split_and!; try done. intros i c Hi Hpos. pose proof (lookup_lt_Some _ _ _ Hi) as Hlt.
  change (length hello) with 31%nat in Hlt. rewrite Hcell by (unfold CELLS, VGA_WIDTH, VGA_HEIGHT; lia).
  rewrite Hc, Z.sub_0_r, Z.mod_small by (unfold CELLS, VGA_WIDTH, VGA_HEIGHT; lia). rewrite Hi, Hcol. do 2 f_equal.
  apply u8_small. assert (Hall : Forall (fun c => 0 <= c < 2 ^ 8) hello) by decide_forall. rewrite Forall_forall in Hall.
  apply Hall. by eapply list_elem_of_lookup_2.
Qed.

Section kernel.
Context {S : Type} `{HIO : PortIO S} `{HD : !AtaDevice S} `{HU : !Uart S} `{HP : !PicDevice S}.
Context (f p : nat) (img : image) (entry_at : Z -> mmap_entry) (junk_cache : Z -> kmem_cache) (junk_buffer : ram)
  (junk_inode : Z -> inode) (call : Z -> Z -> slab_st -> outcome slab_st).
Hypothesis talkative : (tx_bound <= p)%nat.
Hypothesis patient : (patience_bound <= p)%nat.
Hypothesis colours : forall c, colour_next (junk_cache c) = 0.
Implicit Types s : S.

(** The run of kernel_main up to the storage: every step returns, no step
    before it touches the drive. *)
Lemma kernel_main_prefix mbi status blocks lay h m sl1 k sl2 addr term s :
  initialize_memeory_manager (KERNEL_END img) entry_at (Datatypes.S f) mbi = Ret (status, blocks, Some lay, Some h) -> 0 <= status ->
  init_memory (Datatypes.S f) img junk_cache call blocks lay h = Ret (m, sl1) -> start_tasks img sl1 = Ret (k, sl2) ->
  0 <= tss_at img < 2 ^ 32 -> (forall st, 0 <= stub_at img st < 2 ^ 32) ->
  exists s' gdt gp idt, view s' = view s /\
    (exists e, gdt !! 5%nat = Some e /\ decode_base e = tss_at img /\ decode_limit e = sizeof_tss - 1) /\
    (forall v, 0 <= v < 32 -> v <> 14 -> exists e st dpl, idt !! Z.to_nat v = Some e /\ (v, (st, dpl)) ∈ trap_gates /\
       decode_offset e = stub_at img st /\ decode_present e = true) /\
    (forall v, v = 14 \/ 32 <= v < IDT_MAX_DESCRIPTORS -> exists e, idt !! Z.to_nat v = Some e /\ decode_present e = false) /\
    kernel_main (Datatypes.S f) p img entry_at junk_cache junk_buffer junk_inode call MAGIC addr mbi term s =
      (u ← start_storage (Datatypes.S f) p junk_cache junk_buffer junk_inode call sl2 s';
       t ← terminal_initialize term;
       t ← terminal_writestring hello t;
       s ← say_line p (chars "booted..................") (io (bc u));
       let z := szone (heap (bc u)) in
       mret (Idle (mk_booted (with_zone z m) (set_bc (set_io s (bc u)) u) (with_task_zone z k) gdt gp idt (initialize_idt (idt_at img))
         (mk_kstate s 0 t (<[1%nat := Some keyboard_h]> (<[0%nat := Some timer_h]> zero_handlers)))))).
Proof using talkative patient HP.
  intros Rm Hst Ri Rt Htss Hstub. unfold kernel_main. rewrite Z.eqb_refl. cbn [negb].
  destruct (banner_view p talkative img addr mbi s) as (s1 & -> & V1). bind_rets. rewrite Rm. bind_rets.
  rewrite (proj2 (Z.ltb_ge status 0)) by done. cbn [deref]. bind_rets. rewrite Ri. bind_rets.
  destruct (say_line_view p talkative (10 :: chars "GDT init...") s1) as (s2 & -> & V2); [by decide_forall|]. bind_rets.
  destruct (gdt_initialize_correct (gdt_at img) (tss_at img) zero_gdt eq_refl Htss) as (gdt & gp & -> & _ & _ & _ & _ & (e & He & Hbase & Hlim & _)). bind_rets.
  destruct (say_line_view p talkative (chars "PIC remap...") s2) as (s3 & -> & V3); [by decide_forall|]. bind_rets.
  destruct (remap_pic_view OFFSET1 OFFSET2 s3 ltac:(done) ltac:(done)) as (s4 & -> & V4 & _). bind_rets.
  destruct (say_line_view p talkative (chars "loading tss") s4) as (s5 & -> & V5); [by decide_forall|]. bind_rets. rewrite Rt. bind_rets.
  destruct (say_line_view p talkative (chars "IDT setup...") s5) as (s6 & -> & V6); [by decide_forall|]. bind_rets.
  destruct (trap_init_correct (stub_at img) zero_idt eq_refl Hstub) as (idt & -> & _ & Hg & Hno). bind_rets.
  destruct (say_line_view p talkative (chars "Install timer & keyboard drivers..") s6) as (s7 & -> & V7); [by decide_forall|]. bind_rets.
  cbn [install_handlers ports irq_handlers screen timer_ticks].
  destruct (say_line_view p talkative (chars "PIT init...") s7) as (s8 & -> & V8); [by decide_forall|]. bind_rets.
  destruct (init_timer_view s8) as (s9 & -> & V9). bind_rets.
  destruct (say_line_view p talkative (chars "IDT init...") s9) as (s10 & -> & V10); [by decide_forall|]. bind_rets.
  destruct (say_line_view p talkative (chars "Boot complete.") s10) as (s11 & -> & V11); [by decide_forall|]. bind_rets.
  exists s11, gdt, gp, idt. split; [congruence|]. split; [by exists e|]. split_and!; [| |reflexivity].
  - intros v Hv H14. destruct (Hg v Hv H14) as (x & st & Hx & (dpl & Hin) & Ho & Hpr' & _). by exists x, st, dpl.
  - intros v Hv. rewrite Hno by lia. unfold zero_idt. exists (mk_idt 0 0 0 0 0). split; [|done].
    apply lookup_replicate_2. unfold IDT_MAX_DESCRIPTORS in *. lia.
Qed.

Lemma kernel_main_idle mbi m fl n addr term s :
  memory_ready img entry_at (Datatypes.S f) mbi m fl n -> 0 <= tss_at img < 2 ^ 32 -> (forall st, 0 <= stub_at img st < 2 ^ 32) ->
  length (terminal_buffer term) = Z.to_nat CELLS -> (forall l, length (disk (view s) l) = 512%nat /\ bytes_ok (disk (view s) l)) ->
  exists b, kernel_main (Datatypes.S f) p img entry_at junk_cache junk_buffer junk_inode call MAGIC addr mbi term s = Ret (Idle b) /\
    boot_done img (disk (view s)) n b.
Proof using talkative patient colours HP.
  intros [(status & blocks & lay & h & Hst & Rm & Ri) Hmap Hb Hpfn Hpr Hstat Hroom] Htss Hstub Hlen Hsec.
  set (sl0 := mk_sst (zone m) (cache_cache_at img) {[ cache_cache_at img := zero_cache ]} ∅ (zero_heads (cache_cache_at img)) ∅ ∅).
  destruct (init_slab_room junk_cache call colours sl0 fl zero_cache (233 + n)) as (sl1 & R1 & Hr1); [by split|lia|].
  assert (Rim : init_memory (Datatypes.S f) img junk_cache call blocks lay h = Ret (m, sl1)).
  { unfold init_memory. rewrite Ri. bind_rets. destruct Hmap as [mp ->]. fold sl0. rewrite R1. bind_rets. destruct Hr1 as (w & Hw & _). by rewrite (shown _ (w_blocks w)) by apply Hw. }
  destruct (start_tasks_room img sl1 (232 + n) Hr1) as (k & sl2 & R2 & Hr2 & Hcur & Hss).
  destruct (kernel_main_prefix mbi status blocks lay h m sl1 k sl2 addr term s Rm Hst Rim R2 Htss Hstub) as (s' & gdt & gp & idt & V & Hg & Hgates & Hno & ->).
  destruct (start_storage_spec f p junk_cache junk_buffer junk_inode call talkative patient colours sl2 n s' Hr2) as (u & buf & dat & mem & chains & frees & -> & Q & I & A & Hr & D);
    [by rewrite V|]. bind_rets.
  destruct (hello_screen term Hlen) as (t1 & t2 & -> & R3 & Ht2 & Hc2). bind_rets. rewrite R3. bind_rets.
  destruct (say_line_view p talkative (chars "booted..................") (io (bc u))) as (s12 & -> & V12); [by decide_forall|]. bind_rets.
  eexists. split; [reflexivity|]. split; cbn [b_idt b_gdt b_tasks b_kernel b_fs irq_handlers screen]; try done.
  - exists buf, dat, mem. by apply quiet_set_io.
  - exists chains, frees. split; [by apply icache_set_bc|exact A].
  - intros l. cbn [bc set_bc io set_io]. by rewrite V12, D, V.
Qed.

(** Without room for mem_map on the boot heap init_mem gives up, the zone keeps
    its zeros, and the boot goes on to the first request for pages, which takes
    the null pointers of the free lists for a block. *)
Lemma kernel_main_no_map mbi status blocks lay h h1 addr term s :
  initialize_memeory_manager (KERNEL_END img) entry_at (Datatypes.S f) mbi = Ret (status, blocks, Some lay, Some h) -> 0 <= status ->
  kalloc (Datatypes.S f) (u32 (totalram_pages lay * sizeof_page)) h = Ret (h1, None) -> 0 <= tss_at img < 2 ^ 32 ->
  (exists m sl, init_memory (Datatypes.S f) img junk_cache call blocks lay h = Ret (m, sl) /\ szone sl = zero_zone) /\
  kernel_main (Datatypes.S f) p img entry_at junk_cache junk_buffer junk_inode call MAGIC addr mbi term s = Fault.
Proof using talkative HP HD.
  intros Rm Hst Hk Htss. assert (Hs : alloc_kernel_stack zero_zone = Fault) by (vm_compute; reflexivity).
  assert (exists m sl, init_memory (Datatypes.S f) img junk_cache call blocks lay h = Ret (m, sl) /\ szone sl = zero_zone) as (m & sl & Ri & Ez).
  { eexists _, _. unfold init_memory, Mm.init_mem, create_mem_map. cbn [boot_heap]. unfold total. cbn [layout]. rewrite Hk. bind_rets. cbn [Z.eqb]. bind_rets. by split. }
  split; [by exists m, sl|]. unfold kernel_main. rewrite Z.eqb_refl. cbn [negb].
  destruct (banner_view p talkative img addr mbi s) as (s1 & -> & _). bind_rets. rewrite Rm. bind_rets.
  rewrite (proj2 (Z.ltb_ge status 0)) by done. cbn [deref]. bind_rets. rewrite Ri. bind_rets.
  destruct (say_line_view p talkative (10 :: chars "GDT init...") s1) as (s2 & -> & _); [by decide_forall|]. bind_rets.
  destruct (gdt_initialize_correct (gdt_at img) (tss_at img) zero_gdt eq_refl Htss) as (gdt & gp & -> & _). bind_rets.
  destruct (say_line_view p talkative (chars "PIC remap...") s2) as (s3 & -> & _); [by decide_forall|]. bind_rets.
  destruct (remap_pic_view OFFSET1 OFFSET2 s3 ltac:(done) ltac:(done)) as (s4 & -> & _). bind_rets.
  destruct (say_line_view p talkative (chars "loading tss") s4) as (s5 & -> & _); [by decide_forall|]. bind_rets.
  unfold start_tasks, sched_init. cbn [task_zone]. by rewrite Ez, Hs.
Qed.
End kernel.

(** ** From the memory map to the idle loop *)

Lemma zero_zone_lists k : in_order k -> is_Some (nodes zero_zone !! FreeList k) /\ nr_free zero_zone !! k = Some 0.
Proof.
  revert k. apply (forall_seqZ (fun k => is_Some (nodes zero_zone !! FreeList k) /\ nr_free zero_zone !! k = Some 0) 11). by vm_compute.
Qed.

(** A machine on which init_mem can work gives the boot what it needs, with 500
    requests of room to spare. *)
Lemma machine_memory img entry_at fuel mbi status blocks lay h k b :
  initialize_memeory_manager (KERNEL_END img) entry_at fuel mbi = Ret (status, blocks, Some lay, Some h) -> 0 <= status ->
  machine_ok fuel blocks lay h k b -> 0 <= cache_cache_at img < PAGE_OFFSET ->
  exists m fl, memory_ready img entry_at fuel mbi m fl 500.
Proof.
  intros R Hst Hm Hcc. set (s0 := mk_mm lay None zero_zone h zero_pgdir ∅).
  destruct (init_mem_spec fuel blocks s0 k b Hm eq_refl) as (m & fl & Ri & Hp & Hb & Hs & Hpr & Hf & Ht).
  { intros i Hi. by apply zero_zone_lists. } { intros i Hi. by apply zero_zone_lists. }
  change (total s0) with (totalram_pages lay) in *. pose proof (mo_span _ _ _ _ _ _ Hm). pose proof (mo_total _ _ _ _ _ _ Hm). pose proof (mo_low _ _ _ _ _ _ Hm).
  exists m, fl. split; try done.
  - by exists status, blocks, lay, h.
  - rewrite Hpr. lia.
  - rewrite Hf. assert (pgno (cache_cache_at img) < 0) by (unfold pgno, PAGE_OFFSET in *; apply Z.div_lt_upper_bound; lia).
    pose proof (block_page_start_nonneg b). assert (0 < copy_frames (totalram_pages lay)).
    { unfold copy_frames, PAGE_SIZE. assert (0 <= u32 (sizeof_page * totalram_pages lay) / 4096) by (apply Z.div_pos; [apply u32_range|lia]). lia. }
    assert (0 <= table_frames (totalram_pages lay)) by (unfold table_frames; apply Z.div_pos; lia). lia.
  - change (Z.of_nat (233 + 500)) with 733. lia.
Qed.

(** ** A whole machine: UART, interrupt controllers and drive behind one bus

    Each device decodes its own ports; the drive answers the status register. *)

Record machine := mk_machine { m_pc : pc; m_disk : sim }.

Definition drive_port (port : Z) : bool := (port =? ATA_STATUS_REGISTER) || (port =? ATA_ALT_STATUS_REGISTER).

#[export] Instance machine_ports : PortIO machine := {
  port_byte_in port s :=
    if drive_port port then let '(d, v) := port_byte_in port (m_disk s) in (mk_machine (m_pc s) d, v)
    else let '(c, v) := port_byte_in port (m_pc s) in (mk_machine c (m_disk s), v);
  port_byte_out port v s := mk_machine (port_byte_out port v (m_pc s)) (port_byte_out port v (m_disk s));
  port_multiword_in port n s := let '(d, l) := port_multiword_in port n (m_disk s) in (mk_machine (m_pc s) d, l);
  port_multiword_out port l s := mk_machine (m_pc s) (port_multiword_out port l (m_disk s));
  asm_cli s := mk_machine (m_pc s) (asm_cli (m_disk s));
  asm_sti s := mk_machine (m_pc s) (asm_sti (m_disk s));
  print_text text s := mk_machine (m_pc s) (print_text text (m_disk s));
}.

#[export] Instance machine_uart : Uart machine.
Proof.
  refine {| tx s := tx (m_pc s); dlab s := dlab (m_pc s); tx_bound := 2 |}; try done.
  - intros port [c d]. cbn [port_byte_in machine_ports m_pc m_disk]. destruct (drive_port port); [done|].
    pose proof (uart_in port c) as Hu. destruct (port_byte_in port c). exact Hu.
  - intros [ [u q] d]. destruct (u_idle u) eqn:E; [exists 0%nat|exists 1%nat]; cbn; rewrite E; (split; [lia|vm_compute; congruence]).
Defined.

#[export] Instance machine_pics : PicDevice machine.
Proof.
  refine {| pics s := pics (m_pc s) |}; try done. intros port [c d]. cbn [port_byte_in machine_ports m_pc m_disk]. destruct (drive_port port); [done|].
  pose proof (pic_in_same port c) as Hu. destruct (port_byte_in port c). exact Hu.
Defined.

#[export] Instance machine_ata : AtaDevice machine.
Proof.
  refine {| view s := view (m_disk s); patience_bound := 2 |}; try done.
  - intros port [c d]. cbn [port_byte_in machine_ports m_pc m_disk]. destruct (drive_port port); [done|]. by destruct (port_byte_in port c).
  - intros [c d]. pose proof (dev_data_in d) as Hd. cbn [port_multiword_in machine_ports m_disk]. destruct (port_multiword_in ATA_DATA_REGISTER 256 d). exact Hd.
  - intros [c d]. destruct (sim_tick d) eqn:E; [exists 0%nat|exists 1%nat]; unfold status_at; cbn; rewrite E; (split; [lia|vm_compute; congruence]).
  - intros [c d]. destruct (sim_tick d) eqn:E; [exists 0%nat|exists 1%nat]; unfold status_at; cbn; rewrite E; (split; [lia|vm_compute; congruence]).
  - intros [c d] _. destruct (sim_tick d) eqn:E; [exists 0%nat|exists 1%nat]; unfold status_at; cbn; rewrite E; (split; [lia|vm_compute; congruence]).
Defined.

(** C1. kernel_main on a machine with the memory it needs ([machine_ok]): the boot
    heap holds mem_map - so the memory is below about 113 MB, see
    [kernel_main_needs_mem_map] -, and the first block of memory that does not
    start at address 0 lies above conventional memory and has room for the copy
    of mem_map and 1535 pages more.  As long as no hardware interrupt is taken
    (disk.c enables them although their vectors have no gates), it runs all
    phases and reaches its idle loop.  Every exception but
    the page fault has its gate, the vectors of the interrupt controllers have
    none, the task descriptor covers the TSS, the handlers of timer and keyboard
    are installed, all 100 buffers are free, the 30 inodes are cached with inode
    16 left locked, the allocator is in its invariant with room for 500 more
    requests, and the greeting is on the screen.  Every boot leaves the
    self-test patterns in the sectors 5, 16 and 17 of the disk, and no other
    sector changes. *)
Theorem kernel_main_boots {S : Type} `{HIO : PortIO S} `{HD : !AtaDevice S} `{HU : !Uart S} `{HP : !PicDevice S}
    f p img entry_at junk_cache junk_buffer junk_inode call mbi status blocks lay h k b addr term (s : S) :
  (tx_bound <= p)%nat -> (patience_bound <= p)%nat -> (forall c, colour_next (junk_cache c) = 0) ->
  initialize_memeory_manager (KERNEL_END img) entry_at (Datatypes.S f) mbi = Ret (status, blocks, Some lay, Some h) -> 0 <= status ->
  machine_ok (Datatypes.S f) blocks lay h k b -> 0 <= cache_cache_at img < PAGE_OFFSET ->
  0 <= tss_at img < 2 ^ 32 -> (forall st, 0 <= stub_at img st < 2 ^ 32) -> length (terminal_buffer term) = Z.to_nat CELLS ->
  (forall l, length (disk (view s) l) = 512%nat /\ bytes_ok (disk (view s) l)) ->
  exists r, kernel_main (Datatypes.S f) p img entry_at junk_cache junk_buffer junk_inode call MAGIC addr mbi term s = Ret (Idle r) /\
    boot_done img (disk (view s)) 500 r.
Proof.
  intros Ht Hp Hj R Hst Hm Hcc Htss Hstub Hlen Hsec. destruct (machine_memory img entry_at (Datatypes.S f) mbi status blocks lay h k b R Hst Hm Hcc) as (m & fl & Hr).
  by apply (kernel_main_idle f p img entry_at junk_cache junk_buffer junk_inode call Ht Hp Hj mbi m fl 500 addr term s).
Qed.

(** A PC with 32 MB: 639 KB of conventional memory, extended memory up to
    0x1fe0000, the image at 2 MB. *)
Definition entry_pc (a : Z) : mmap_entry :=
  if a =? 0x1000 then mk_entry 20 0 0x9fc00 1
  else if a =? 0x1018 then mk_entry 20 0x9fc00 0x400 2
  else mk_entry 20 0x100000 0x1ee0000 1.
Definition mbi_pc : multiboot_info := mk_mbi 0x41 639 0x7b80 72 0x1000.
Definition img_pc : image := mk_image 0x200000 0x280000 0x270000 0x271000 0x272000 0x274000 0x273000 (fun _ => 0x201234).
Definition some_machine : machine := mk_machine (mk_pc uart_start (some_chip 0, some_chip 0)) sim_start.
Definition blank_buffer : ram := clear_ram.

Definition blocks_pc : list memory_block := [mk_mblock 0 0x9fc00; mk_mblock 0x280000 0x1fe0000].
Definition lay_pc : phy_layout := machine_specific_memory_setup mbi_pc.

#[local] Instance memory_block_eq_dec : EqDecision memory_block.
Proof. solve_decision. Defined.
#[local] Instance phy_layout_eq_dec : EqDecision phy_layout.
Proof. solve_decision. Defined.

Definition heap_pc_runs : bool :=
  match initialize_memeory_manager (KERNEL_END img_pc) entry_pc 10 mbi_pc with
  | Ret (status, blocks, Some lay, Some h) =>
      (status =? 0) && bool_decide (blocks = blocks_pc) && bool_decide (lay = lay_pc) &&
      match kalloc 10 (u32 (totalram_pages lay_pc * sizeof_page)) h with
      | Ret (h1, Some q) => match kbfree (Some q) h1 with Ret _ => true | _ => false end
      | _ => false
      end
  | _ => false
  end.

Lemma heap_pc : exists h h1 q h2,
  initialize_memeory_manager (KERNEL_END img_pc) entry_pc 10 mbi_pc = Ret (0, blocks_pc, Some lay_pc, Some h) /\
  kalloc 10 (u32 (totalram_pages lay_pc * sizeof_page)) h = Ret (h1, Some q) /\ kbfree (Some q) h1 = Ret h2.
Proof.
  assert (B : heap_pc_runs = true) by (vm_compute; reflexivity). unfold heap_pc_runs in B.
  destruct (initialize_memeory_manager _ _ _ _) as [ [ [ [status blocks] [lay|] ] [h|] ]| |]; try discriminate B.
  destruct (kalloc _ _ h) as [ [h1 [q|] ]| |] eqn:Ek; try (rewrite andb_false_r in B; discriminate B).
  destruct (kbfree (Some q) h1) as [h2| |] eqn:Eb; try (rewrite andb_false_r in B; discriminate B).
  rewrite !andb_true_iff, Z.eqb_eq, !bool_decide_eq_true in B. destruct B as [ [ [-> ->] ->] _]. by exists h, h1, q, h2.
Qed.

Lemma machine_pc h h1 q h2 : kalloc 10 (u32 (totalram_pages lay_pc * sizeof_page)) h = Ret (h1, Some q) -> kbfree (Some q) h1 = Ret h2 ->
  machine_ok 10 blocks_pc lay_pc h 1 (mk_mblock 0x280000 0x1fe0000).
Proof.
  intros Ek Eb. split.
  - by exists h1, q, h2.
  - clear. split; [lia|]. split; [simpl; lia|]. intros j Hj. assert (j = 0) as -> by lia. by left.
  - clear. done.
  - clear. by vm_compute.
  - clear. by vm_compute.
  - clear. by vm_compute.
Qed.

Lemma kernel_main_boots_witness :
  exists r, kernel_main 10 2 img_pc entry_pc blank blank_buffer some_inode no_call MAGIC 0x9000 mbi_pc some_screen some_machine = Ret (Idle r) /\
    boot_done img_pc (disk (view some_machine)) 500 r.
Proof.
  destruct heap_pc as (h & h1 & q & h2 & E & Ek & Eb). pose proof (machine_pc h h1 q h2 Ek Eb) as Hm. clear Ek Eb.
  apply (kernel_main_boots 9 2 img_pc entry_pc blank blank_buffer some_inode no_call mbi_pc 0 blocks_pc lay_pc h 1 (mk_mblock 0x280000 0x1fe0000));
    [| | |exact E| |exact Hm| | | | |]; clear E Hm.
  - simpl. lia.
  - simpl. lia.
  - done.
  - lia.
  - by vm_compute.
  - by vm_compute.
  - intros st. by vm_compute.
  - apply length_replicate.
  - intros l. split; [by vm_compute|apply (bool_decide_unpack _); by vm_compute].
Defined.

(** C36. When the boot heap has no room for mem_map - from about 113 MB of memory on,
    which is less than what the emulator of the Makefile gives by default -
    init_mem only reports the failure: kernel_main goes on without page frames
    and its next request for pages dereferences a null pointer. *)
Theorem kernel_main_needs_mem_map {S : Type} `{HIO : PortIO S} `{HD : !AtaDevice S} `{HU : !Uart S} `{HP : !PicDevice S}
    f p img entry_at junk_cache junk_buffer junk_inode call mbi status blocks lay h h1 addr term (s : S) :
  (tx_bound <= p)%nat ->
  initialize_memeory_manager (KERNEL_END img) entry_at (Datatypes.S f) mbi = Ret (status, blocks, Some lay, Some h) -> 0 <= status ->
  kalloc (Datatypes.S f) (u32 (totalram_pages lay * sizeof_page)) h = Ret (h1, None) -> 0 <= tss_at img < 2 ^ 32 ->
  (exists m sl, init_memory (Datatypes.S f) img junk_cache call blocks lay h = Ret (m, sl) /\ szone sl = zero_zone) /\
  kernel_main (Datatypes.S f) p img entry_at junk_cache junk_buffer junk_inode call MAGIC addr mbi term s = Fault.
Proof. intros Ht. exact (kernel_main_no_map f p img entry_at junk_cache junk_buffer junk_inode call Ht mbi status blocks lay h h1 addr term s). Qed.

(** The same PC with 128 MB. *)
Definition entry_128 (a : Z) : mmap_entry := if a =? 0x1030 then mk_entry 20 0x100000 0x7ee0000 1 else entry_pc a.
Definition mbi_128 : multiboot_info := mk_mbi 0x41 639 0x1fb80 72 0x1000.

Lemma kernel_main_needs_mem_map_witness :
  kernel_main 10 2 img_pc entry_128 blank blank_buffer some_inode no_call MAGIC 0x9000 mbi_128 some_screen some_machine = Fault.
Proof.
  assert (exists status blocks lay h h1, initialize_memeory_manager (KERNEL_END img_pc) entry_128 10 mbi_128 = Ret (status, blocks, Some lay, Some h) /\
    0 <= status /\ kalloc 10 (u32 (totalram_pages lay * sizeof_page)) h = Ret (h1, None)) as (status & blocks & lay & h & h1 & R & Hst & Hk).
  { destruct (initialize_memeory_manager (KERNEL_END img_pc) entry_128 10 mbi_128) as [ [ [ [status blocks] [lay|] ] [h|] ]| |] eqn:E; try (exfalso; vm_compute in E; discriminate E).
    assert (B : match initialize_memeory_manager (KERNEL_END img_pc) entry_128 10 mbi_128 with
      | Ret (status, _, Some lay, Some h) => (0 <=? status) && match kalloc 10 (u32 (totalram_pages lay * sizeof_page)) h with Ret (_, None) => true | _ => false end
      | _ => false end = true) by (vm_compute; reflexivity).
    rewrite E in B. destruct (kalloc _ _ h) as [ [h1 [q|] ]| |] eqn:Ek; rewrite ?andb_false_r in B; try discriminate B.
    rewrite andb_true_r, Z.leb_le in B. exists status, blocks, lay, h, h1. split; [reflexivity|]. split; [exact B|exact Ek]. }
  apply (kernel_main_needs_mem_map 9 2 img_pc entry_128 blank blank_buffer some_inode no_call mbi_128 status blocks lay h h1 0x9000 some_screen some_machine);
    [simpl; lia|exact R|exact Hst|exact Hk|clear; by vm_compute].
Defined.

(** The two other ways kernel_main can end: a wrong magic number stops it before
    anything is touched, a memory manager without memory stops it with the disk
    untouched. *)
Theorem kernel_main_halts {S : Type} `{HIO : PortIO S} `{HD : !AtaDevice S} `{HU : !Uart S}
    fuel p img entry_at junk_cache junk_buffer junk_inode call magic addr mbi term (s : S) :
  (tx_bound <= p)%nat ->
  (magic <> MAGIC -> kernel_main fuel p img entry_at junk_cache junk_buffer junk_inode call magic addr mbi term s = Ret BadMagic) /\
  (forall status blocks lay h, magic = MAGIC -> status < 0 ->
     initialize_memeory_manager (KERNEL_END img) entry_at fuel mbi = Ret (status, blocks, lay, h) ->
     exists s', kernel_main fuel p img entry_at junk_cache junk_buffer junk_inode call magic addr mbi term s = Ret (NoMemory s') /\ view s' = view s).
Proof.
  intros Ht. split.
  - intros Hm. unfold kernel_main. by rewrite (proj2 (Z.eqb_neq _ _)).
  - intros status blocks lay h -> Hst R. unfold kernel_main. rewrite Z.eqb_refl. cbn [negb].
    destruct (banner_view p Ht img addr mbi s) as (s1 & -> & V). bind_rets. rewrite R. bind_rets. rewrite (proj2 (Z.ltb_lt status 0)) by done. by exists s1.
Qed.

Lemma kernel_main_halts_witness :
  kernel_main 10 2 img_pc entry_pc blank blank_buffer some_inode no_call 0x1BADB002 0x9000 mbi_pc some_screen some_machine = Ret BadMagic /\
  exists s', kernel_main 10 2 img_pc entry_pc blank blank_buffer some_inode no_call MAGIC 0x9000 (mk_mbi 1 639 0x7b80 0 0) some_screen some_machine = Ret (NoMemory s').
Proof.
  split.
  - apply (kernel_main_halts 10 2 img_pc entry_pc blank blank_buffer some_inode no_call 0x1BADB002 0x9000 mbi_pc some_screen some_machine); [simpl; lia|done].
  - assert (Hb : (tx_bound (S := machine) <= 2)%nat) by (simpl; lia).
    destruct (proj2 (kernel_main_halts 10 2 img_pc entry_pc blank blank_buffer some_inode no_call MAGIC 0x9000 (mk_mbi 1 639 0x7b80 0 0) some_screen some_machine Hb)
      (-1) [] None None eq_refl ltac:(lia) ltac:(vm_compute; reflexivity)) as (s' & R & _). by exists s'.
Defined.
