(* ===== verification/Ext2Layout.v ===== *)
(** * The structs of ext2 (include/fs.h)

    [CStruct] is what the file system asks of a packed struct: the members in
    the order of the declaration, each an array of [n] elements of [w] bytes.
    Its laws give the codec between values and bytes.  The instances are the
    superblock, the block group descriptor, the disk inode and the directory
    entry; none of them has padding. *)

From S2P Require Import Prelude Layout.

(** ** Packed structs *)

Class CStruct (T : Type) := {
  shape : list (nat * nat);             (* array length, element width *)
  members : T -> list (list Z);
  of_members : list (list Z) -> T;
  of_members_members t : of_members (members t) = t;
  members_of_members ms : Forall2 (fun s m => length m = s.1) shape ms -> members (of_members ms) = ms;
}.
#[global] Arguments shape T {_}.

Definition widths_of (sh : list (nat * nat)) : list nat := flat_map (fun s => replicate s.1 s.2) sh.
Fixpoint split_members (sh : list (nat * nat)) (l : list Z) : list (list Z) :=
  match sh with
  | [] => []
  | s :: sh => take s.1 l :: split_members sh (drop s.1 l)
  end.

Section codec.
Context {T : Type} `{CStruct T}.

Definition sizeof_struct : nat := sizeof (widths_of (shape T)).
Definition encode (t : T) : list Z := pack (widths_of (shape T)) (concat (members t)).
Definition decode (bytes : list Z) : T :=
  of_members (split_members (shape T) (unpack (widths_of (shape T)) bytes)).

(** [*(T * )(data + off)] as a value and as a destination. *)
Definition struct_at (off : Z) (data : list Z) : outcome T :=
  bytes ← read_at (Z.to_nat off) sizeof_struct data; mret (decode bytes).
Definition set_struct_at (off : Z) (t : T) (data : list Z) : outcome (list Z) :=
  write_at (Z.to_nat off) (encode t) data.

(** A value the struct can hold: arrays of the declared length, elements of
    the declared width. *)
Definition struct_wf (t : T) : Prop :=
  Forall2 (fun s m => length m = s.1 /\ Forall (fits s.2) m) (shape T) (members t).

End codec.
#[global] Arguments sizeof_struct T {_}.

(** ** Laws *)

Lemma split_members_concat sh : forall ms,
  Forall2 (fun s m => length m = s.1) sh ms -> split_members sh (concat ms) = ms.
Proof.
  induction sh as [|s sh IH]; intros ms Hms; inversion Hms as [|? m ? ms' Hm Hr]; subst; [done|].
  cbn [split_members concat]. by rewrite take_app_length', drop_app_length', IH by done.
Qed.
Lemma concat_split_members sh : forall l, length l = length (widths_of sh) -> concat (split_members sh l) = l.
Proof.
  induction sh as [|s sh IH]; intros l Hl; cbn [widths_of flat_map] in *; [by destruct l|].
  rewrite length_app, length_replicate in Hl. cbn [split_members concat].
  rewrite IH; [apply take_drop|]. rewrite length_drop. unfold widths_of. lia.
Qed.
Lemma split_members_shape sh : forall l, length l = length (widths_of sh) ->
  Forall2 (fun s m => length m = s.1) sh (split_members sh l).
Proof.
  induction sh as [|s sh IH]; intros l Hl; cbn [widths_of flat_map split_members] in *; constructor.
  - rewrite length_app, length_replicate in Hl. rewrite length_take. lia.
  - apply IH. rewrite length_app, length_replicate in Hl. rewrite length_drop. unfold widths_of. lia.
Qed.

Lemma fits_members sh ms :
  Forall2 (fun s m => length m = s.1 /\ Forall (fits s.2) m) sh ms -> Forall2 fits (widths_of sh) (concat ms).
Proof.
  induction 1 as [|s m sh ms [Hl Hf] _ IH]; [constructor|]. cbn [widths_of flat_map concat].
  apply Forall2_app; [|done]. rewrite <- Hl. clear -Hf. induction Hf; cbn [length replicate]; by constructor.
Qed.
Lemma members_fit sh : forall l, Forall2 fits (widths_of sh) l ->
  Forall2 (fun s m => length m = s.1 /\ Forall (fits s.2) m) sh (split_members sh l).
Proof.
  induction sh as [|s sh IH]; intros l Hl; cbn [widths_of flat_map split_members] in *; constructor.
  - apply Forall2_app_inv_l in Hl as (l1 & l2 & H1 & H2 & ->).
    pose proof (Forall2_length _ _ _ H1) as El. rewrite length_replicate in El.
    rewrite take_app_length' by done. split; [done|]. clear -H1 El. revert H1 El. generalize (s.1) as n.
    induction l1 as [|x l1 IH]; intros n H1 El; [constructor|]. destruct n; [done|].
    cbn [replicate] in H1. inversion H1; subst. constructor; [done|]. apply (IH n); [done|]. by injection El.
  - apply IH. apply Forall2_app_inv_l in Hl as (l1 & l2 & H1 & H2 & ->).
    apply Forall2_length in H1. rewrite length_replicate in H1. by rewrite drop_app_length'.
Qed.

Section laws.
Context {T : Type} `{CStruct T}.
Implicit Types t : T.

Lemma wf_shape t : struct_wf t -> Forall2 (fun s m => length m = s.1) (shape T) (members t).
Proof. intros Hwf. eapply Forall2_impl; [done|]. by intros s m [Hl _]. Qed.

Lemma length_encode t : struct_wf t -> length (encode t) = sizeof_struct T.
Proof.
  intros Hwf. unfold encode, sizeof_struct. apply length_pack.
  by apply Forall2_length with (P := fits), fits_members.
Qed.

Lemma bytes_ok_encode t : bytes_ok (encode t).
Proof. apply bytes_ok_pack. Qed.

Lemma decode_encode t : struct_wf t -> decode (encode t) = t.
Proof.
  intros Hwf. unfold decode, encode. rewrite unpack_pack by by apply fits_members.
  rewrite split_members_concat by by apply wf_shape. apply of_members_members.
Qed.

Lemma encode_decode bytes : bytes_ok bytes -> length bytes = sizeof_struct T ->
  encode (decode bytes : T) = bytes.
Proof.
  intros Hb Hl. unfold encode, decode. rewrite members_of_members.
  - rewrite concat_split_members by apply length_unpack. by apply pack_unpack.
  - apply split_members_shape, length_unpack.
Qed.

Lemma decode_wf bytes : bytes_ok bytes -> struct_wf (decode bytes : T).
Proof.
  intros Hb. unfold struct_wf, decode. rewrite members_of_members.
  - by apply members_fit, unpack_fits.
  - apply split_members_shape, length_unpack.
Qed.

Lemma struct_at_ok off data :
  (Z.to_nat off + sizeof_struct T <= length data)%nat ->
  struct_at off data = Ret (decode (take (sizeof_struct T) (drop (Z.to_nat off) data)) : T).
Proof. intros Hl. unfold struct_at. by rewrite read_at_ok by done. Qed.

(** Storing a struct: it reads back, and everything outside its bytes stays. *)
Lemma set_struct_at_spec off t data :
  struct_wf t -> (Z.to_nat off + sizeof_struct T <= length data)%nat ->
  exists data', set_struct_at off t data = Ret data' /\ length data' = length data /\
    struct_at off data' = Ret t /\
    (forall o n, (o + n <= Z.to_nat off \/ Z.to_nat off + sizeof_struct T <= o)%nat ->
       take n (drop o data') = take n (drop o data)).
Proof.
  intros Hwf Hl. pose proof (length_encode t Hwf) as El.
  destruct (write_at_ok (Z.to_nat off) (encode t) data) as (data' & E & Hd & Hr & Hf); [lia|].
  exists data'. rewrite El in Hr, Hf. repeat split; [done|done| |done].
  rewrite struct_at_ok by lia. by rewrite Hr, decode_encode.
Qed.

End laws.

(** ** A scalar member by its offset *)

Lemma nth_split_members sh : forall j l, (j < length sh)%nat ->
  nth j (split_members sh l) [] = take (nth j sh (0, 0)%nat).1 (drop (sum_list (fst <$> take j sh)) l).
Proof.
  induction sh as [|s sh IH]; intros j l Hj; cbn [length] in Hj; [lia|].
  destruct j as [|j]; cbn [split_members nth take]; [done|].
  rewrite IH by lia. rewrite drop_drop. done.
Qed.
Lemma drop_unpack j : forall ws bytes, drop j (unpack ws bytes) = unpack (drop j ws) (drop (sum_list (take j ws)) bytes).
Proof.
  induction j as [|j IH]; intros ws bytes; [done|]. destruct ws as [|w ws]; [done|].
  cbn [unpack take]. change (sum_list (w :: take j ws)) with (w + sum_list (take j ws))%nat.
  rewrite <- drop_drop. apply IH.
Qed.

Lemma scalar_member sh j k off w bytes :
  nth_error sh j = Some (1%nat, w) -> sum_list (fst <$> take j sh) = k ->
  nth_error (widths_of sh) k = Some w -> sum_list (take k (widths_of sh)) = off ->
  hd 0 (nth j (split_members sh (unpack (widths_of sh) bytes)) []) = of_le (take w (drop off bytes)).
Proof.
  intros Hj Hk Hw Ho. rewrite nth_split_members by (apply nth_error_Some; by rewrite Hj).
  rewrite (nth_error_nth _ _ _ Hj), Hk, drop_unpack, Ho.
  assert (E : drop k (widths_of sh) = w :: drop (Datatypes.S k) (widths_of sh)).
  { clear -Hw. revert k Hw. induction (widths_of sh) as [|x l IH]; intros [|k] Hw; try done.
    - simpl in Hw. by injection Hw as ->.
    - apply (IH k Hw). }
  by rewrite E.
Qed.

(** The laws of a record are found by computation, one member at a time. *)
Lemma shape_cons s sh ms : Forall2 (fun s m => length m = s.1) (s :: sh) ms ->
  exists m ms', ms = m :: ms' /\ length m = s.1 /\ Forall2 (fun (s : nat * nat) (m : list Z) => length m = s.1) sh ms'.
Proof. intros Hms. inversion Hms; subst. eauto. Qed.
Lemma shape_scalar w sh ms : Forall2 (fun s m => length m = s.1) ((1%nat, w) :: sh) ms ->
  exists x ms', ms = [x] :: ms' /\ Forall2 (fun (s : nat * nat) (m : list Z) => length m = s.1) sh ms'.
Proof. intros (m & ms' & -> & Hl & Hr)%shape_cons. destruct m as [|x [|? ?] ]; try done. eauto. Qed.

Ltac members_of_members_tac :=
  let ms := fresh "ms" in let Hms := fresh "Hms" in
  let Q := fresh "Q" in
  intros ms Hms; pattern ms; match goal with |- ?P ms => set (Q := P) end;
  repeat first
    [ apply shape_scalar in Hms; destruct Hms as (? & ? & -> & Hms)
    | apply shape_cons in Hms; destruct Hms as (? & ? & -> & _ & Hms) ];
  apply Forall2_nil_inv_l in Hms as ->; subst Q; lazy; reflexivity.

Notation "m '!0' i" := (hd 0 (nth i m [])) (at level 9, only parsing).

(** ** The block group descriptor *)

Record bgdesc_t := mk_bgdesc {
  bg_block_bitmap : Z; bg_inode_bitmap : Z; bg_inode_table : Z;
  bg_free_blocks_count : Z; bg_free_inodes_count : Z; bg_used_dirs_count : Z; bg_pad : Z;
  bg_reserved : list Z }.
#[export] Instance bgdesc_struct : CStruct bgdesc_t.
Proof.
  refine {|
    shape := [(1, 4); (1, 4); (1, 4); (1, 2); (1, 2); (1, 2); (1, 2); (12, 1)]%nat;
    members d := [ [bg_block_bitmap d]; [bg_inode_bitmap d]; [bg_inode_table d]; [bg_free_blocks_count d];
      [bg_free_inodes_count d]; [bg_used_dirs_count d]; [bg_pad d]; bg_reserved d ];
    of_members m := mk_bgdesc (m !0 0) (m !0 1) (m !0 2) (m !0 3) (m !0 4) (m !0 5) (m !0 6) (nth 7 m []) |}.
  - by intros [].
  - members_of_members_tac.
Defined.

(** ** The superblock *)

Record ext2_super_block := mk_ext2_super {
  s_inodes_count : Z; s_blocks_count : Z; s_r_blocks_count : Z; s_free_blocks_count : Z;
  s_free_inodes_count : Z; s_first_data_block : Z; s_log_block_size : Z; s_log_frag_size : Z;
  s_blocks_per_group : Z; s_frags_per_group : Z; s_inodes_per_group : Z; s_mtime : Z; s_wtime : Z;
  s_mnt_count : Z; s_max_mnt_count : Z; s_magic : Z; s_state : Z; s_errors : Z; s_minor_rev_level : Z;
  s_lastcheck : Z; s_checkinterval : Z; s_creator_os : Z; s_rev_level : Z; s_def_resuid : Z; s_def_resgid : Z;
  s_first_ino : Z; s_inode_size : Z; s_block_group_nr : Z; s_feature_compat : Z; s_feature_incompat : Z;
  s_feature_ro_compat : Z; s_uuid : list Z; s_volume_name : list Z; s_last_mounted : list Z; s_algo_bitmap : Z;
  s_prealloc_blocks : Z; s_prealloc_dir_blocks : Z; alignment : Z; s_journal_uuid : list Z; s_journal_inum : Z;
  s_journal_dev : Z; s_last_orphan : Z; s_hash_seed : list Z; s_def_hash_version : Z; padding_a : Z;
  padding_b : Z; s_default_mount_options : Z; s_first_meta_bg : Z; reserved_future : list Z }.
#[export] Instance ext2_super_struct : CStruct ext2_super_block.
Proof.
  refine {|
    shape := [
      (1, 4); (1, 4); (1, 4); (1, 4); (1, 4); (1, 4); (1, 4); (1, 4); (1, 4); (1, 4); (1, 4); (1, 4); (1, 4);
      (1, 2); (1, 2); (1, 2); (1, 2); (1, 2); (1, 2); (1, 4); (1, 4); (1, 4); (1, 4); (1, 2); (1, 2); (1, 4);
      (1, 2); (1, 2); (1, 4); (1, 4); (1, 4); (16, 1); (16, 1); (64, 1); (1, 4); (1, 1); (1, 1); (1, 2);
      (16, 1); (1, 4); (1, 4); (1, 4); (4, 4); (1, 1); (1, 1); (1, 2); (1, 4); (1, 4); (760, 1) ]%nat;
    members b := [
      [s_inodes_count b]; [s_blocks_count b]; [s_r_blocks_count b]; [s_free_blocks_count b];
      [s_free_inodes_count b]; [s_first_data_block b]; [s_log_block_size b]; [s_log_frag_size b];
      [s_blocks_per_group b]; [s_frags_per_group b]; [s_inodes_per_group b]; [s_mtime b]; [s_wtime b];
      [s_mnt_count b]; [s_max_mnt_count b]; [s_magic b]; [s_state b]; [s_errors b]; [s_minor_rev_level b];
      [s_lastcheck b]; [s_checkinterval b]; [s_creator_os b]; [s_rev_level b]; [s_def_resuid b];
      [s_def_resgid b]; [s_first_ino b]; [s_inode_size b]; [s_block_group_nr b]; [s_feature_compat b];
      [s_feature_incompat b]; [s_feature_ro_compat b]; s_uuid b; s_volume_name b; s_last_mounted b;
      [s_algo_bitmap b]; [s_prealloc_blocks b]; [s_prealloc_dir_blocks b]; [alignment b]; s_journal_uuid b;
      [s_journal_inum b]; [s_journal_dev b]; [s_last_orphan b]; s_hash_seed b; [s_def_hash_version b];
      [padding_a b]; [padding_b b]; [s_default_mount_options b]; [s_first_meta_bg b]; reserved_future b ];
    of_members m := mk_ext2_super
      (m !0 0) (m !0 1) (m !0 2) (m !0 3) (m !0 4) (m !0 5) (m !0 6) (m !0 7) (m !0 8) (m !0 9) (m !0 10)
      (m !0 11) (m !0 12) (m !0 13) (m !0 14) (m !0 15) (m !0 16) (m !0 17) (m !0 18) (m !0 19) (m !0 20)
      (m !0 21) (m !0 22) (m !0 23) (m !0 24) (m !0 25) (m !0 26) (m !0 27) (m !0 28) (m !0 29) (m !0 30)
      (nth 31 m []) (nth 32 m []) (nth 33 m []) (m !0 34) (m !0 35) (m !0 36) (m !0 37) (nth 38 m []) (m !0 39)
      (m !0 40) (m !0 41) (nth 42 m []) (m !0 43) (m !0 44) (m !0 45) (m !0 46) (m !0 47) (nth 48 m []) |}.
  - by intros [].
  - members_of_members_tac.
Defined.

(** ** Disk inodes and directory entries *)

Record inode_t := mk_inode_t {
  i_mode : Z; i_uid : Z; i_size : Z; i_atime : Z; i_ctime : Z; i_mtime : Z; i_dtime : Z; i_gid : Z;
  i_links_count : Z; i_blocks : Z; i_flags : Z; i_osd1 : Z; i_block : list Z; i_generation : Z; i_file_acl : Z;
  i_dir_acl : Z; i_faddr : Z; i_osd2 : list Z }.
#[export] Instance inode_struct : CStruct inode_t.
Proof.
  refine {|
    shape := [
      (1, 2); (1, 2); (1, 4); (1, 4); (1, 4); (1, 4); (1, 4); (1, 2); (1, 2); (1, 4); (1, 4); (1, 4); (15, 4);
      (1, 4); (1, 4); (1, 4); (1, 4); (12, 1) ]%nat;
    members n := [
      [i_mode n]; [i_uid n]; [i_size n]; [i_atime n]; [i_ctime n]; [i_mtime n]; [i_dtime n]; [i_gid n];
      [i_links_count n]; [i_blocks n]; [i_flags n]; [i_osd1 n]; i_block n; [i_generation n]; [i_file_acl n];
      [i_dir_acl n]; [i_faddr n]; i_osd2 n ];
    of_members m := mk_inode_t
      (m !0 0) (m !0 1) (m !0 2) (m !0 3) (m !0 4) (m !0 5) (m !0 6) (m !0 7) (m !0 8) (m !0 9) (m !0 10)
      (m !0 11) (nth 12 m []) (m !0 13) (m !0 14) (m !0 15) (m !0 16) (nth 17 m []) |}.
  - by intros [].
  - members_of_members_tac.
Defined.

Record dentry_t := mk_dentry_t {
  inode : Z; rec_len : Z; name_len : Z; file_type : Z; name : list Z }.
#[export] Instance dentry_struct : CStruct dentry_t.
Proof.
  refine {|
    shape := [
      (1, 4); (1, 2); (1, 1); (1, 1); (64, 1) ]%nat;
    members d := [
      [inode d]; [rec_len d]; [name_len d]; [file_type d]; name d ];
    of_members m := mk_dentry_t
      (m !0 0) (m !0 1) (m !0 2) (m !0 3) (nth 4 m []) |}.
  - by intros [].
  - members_of_members_tac.
Defined.

Lemma ext2_sizes :
  sizeof_struct bgdesc_t = 32%nat /\ sizeof_struct ext2_super_block = 1024%nat /\
  sizeof_struct inode_t = 128%nat /\ sizeof_struct dentry_t = 72%nat.
Proof. done. Qed.
