(* ===== verification/Mkfs.v ===== *)
(** * Formatting an ext2 file system (fs/ext2/mkfs.c, and finish_fs_init and
    fs_start_to_lba_superblk of fs/ext2/fs.c)

    mkfs writes straight to the disk.  Its three global variables are
    [mkfs_globals]; the table of group descriptors it allocates with kmalloc is
    filled before it is read, so its contents are the list make_bgdt builds.
    sys_exit never returns ([Spin]).  Progress messages are left out. *)

From S2P Require Import Prelude Layout Ports Disk BufferCache Ext2Layout.

Definition EXT2_BLK_SIZE : Z := 1024.
Definition EXT2_BLOCKS_PER_GROUP : Z := 8192.
Definition EXT2_BYTES_PER_INODE : Z := 8192.
Definition EXT2_INODES_PER_GROUP : Z := EXT2_BLOCKS_PER_GROUP * EXT2_BLK_SIZE / EXT2_BYTES_PER_INODE.
Definition EXT2_SUPER_MAGIC : Z := 0xef53.
Definition EXT2_VALID_FS : Z := 1.
Definition EXT2_ERRORS_RO : Z := 2.
Definition EXT2_OS_COW : Z := 0x100.
Definition EXT2_GOOD_OLD_FIRST_INO : Z := 11.
Definition EXT2_GOOD_OLD_INODE_SIZE : Z := 128.
Definition SECTORS_PER_BLOCK : Z := EXT2_BLK_SIZE / 512.
Definition SECTORS_PER_BLOCK_GROUP : Z := SECTORS_PER_BLOCK * EXT2_BLOCKS_PER_GROUP.
Definition mb_to_lba (mb : Z) : Z := u32 (mb * 1024 * 2).

Record mkfs_globals := mk_mkfsg { g_n_block_groups : Z; g_total_blocks : Z; g_blocks_in_last_group : Z }.

(** ** Geometry *)

Definition calculate_block_groups (fs_size_mb : Z) : mkfs_globals :=
  let total := u32 (fs_size_mb * 1024) in
  let last := total mod EXT2_BLOCKS_PER_GROUP in
  mk_mkfsg (u32 (total + EXT2_BLOCKS_PER_GROUP - 1) / EXT2_BLOCKS_PER_GROUP) total
    (if last =? 0 then EXT2_BLOCKS_PER_GROUP else last).

Definition inode_table_blocks : Z :=
  (EXT2_INODES_PER_GROUP * Z.of_nat (sizeof_struct inode_t) + EXT2_BLK_SIZE - 1) / EXT2_BLK_SIZE.
Definition reserved_blocks_per_group : Z := 1 + 1 + inode_table_blocks.

Definition free_blocks_in_group (g : mkfs_globals) (group_idx : Z) (has_super_backup : bool) : Z :=
  let total_blocks_in_group :=
    if group_idx =? u32 (g_n_block_groups g - 1) then g_blocks_in_last_group g else EXT2_BLOCKS_PER_GROUP in
  let reserved := if has_super_backup then reserved_blocks_per_group + 2 else reserved_blocks_per_group in
  u32 (total_blocks_in_group - reserved).

(** ** The superblock *)

Fixpoint total_free_loop (n : nat) (i : Z) (g : mkfs_globals) (total_free : Z) : Z :=
  match n with
  | O => total_free
  | Datatypes.S n => total_free_loop n (i + 1) g (u32 (total_free + free_blocks_in_group g i (i <? 2)))
  end.

Definition make_super (g : mkfs_globals) (block_group_nr : Z) : ext2_super_block :=
  let inodes_count := u32 (EXT2_INODES_PER_GROUP * g_n_block_groups g) in
  {| s_inodes_count := inodes_count;
     s_blocks_count := g_total_blocks g;
     s_r_blocks_count := 0;
     s_free_blocks_count := total_free_loop (Z.to_nat (g_n_block_groups g)) 0 g 0;
     s_free_inodes_count := u32 (inodes_count - 2);
     s_first_data_block := 1; s_log_block_size := 0; s_log_frag_size := 0;
     s_blocks_per_group := EXT2_BLOCKS_PER_GROUP; s_frags_per_group := EXT2_BLOCKS_PER_GROUP;
     s_inodes_per_group := EXT2_INODES_PER_GROUP;
     s_mtime := 0; s_wtime := 0; s_mnt_count := 0; s_max_mnt_count := 0;
     s_magic := EXT2_SUPER_MAGIC; s_state := EXT2_VALID_FS; s_errors := EXT2_ERRORS_RO;
     s_minor_rev_level := 0; s_lastcheck := 0; s_checkinterval := Z.shiftl 1 24;
     s_creator_os := EXT2_OS_COW; s_rev_level := 0; s_def_resuid := 0; s_def_resgid := 0;
     s_first_ino := EXT2_GOOD_OLD_FIRST_INO; s_inode_size := EXT2_GOOD_OLD_INODE_SIZE;
     s_block_group_nr := u16 block_group_nr;
     s_feature_compat := 0; s_feature_incompat := 0; s_feature_ro_compat := 0;
     s_uuid := replicate 16 0; s_volume_name := replicate 16 0; s_last_mounted := replicate 64 0;
     s_algo_bitmap := 0; s_prealloc_blocks := 0; s_prealloc_dir_blocks := 0; alignment := 0;
     s_journal_uuid := replicate 16 0; s_journal_inum := 0; s_journal_dev := 0; s_last_orphan := 0;
     s_hash_seed := replicate 4 0; s_def_hash_version := 0; padding_a := 0; padding_b := 0;
     s_default_mount_options := 0; s_first_meta_bg := 0; reserved_future := replicate 760 0 |}.

(** ** The block group descriptor table *)

Definition group_desc (g : mkfs_globals) (i : Z) : bgdesc_t :=
  let has_backup := i <? 2 in
  let extra_blocks := if has_backup then 2 else 0 in
  let group_base := u32 (i * EXT2_BLOCKS_PER_GROUP) in
  {| bg_block_bitmap := u32 (group_base + extra_blocks + 1);
     bg_inode_bitmap := u32 (group_base + extra_blocks + 2);
     bg_inode_table := u32 (group_base + extra_blocks + 3);
     bg_free_blocks_count := u16 (free_blocks_in_group g i has_backup);
     bg_free_inodes_count := if i =? 0 then EXT2_INODES_PER_GROUP - 2 else EXT2_INODES_PER_GROUP;
     bg_used_dirs_count := if i =? 0 then 1 else 0;
     bg_pad := 0;
     bg_reserved := replicate 12 0 |}.
Definition make_bgdt (g : mkfs_globals) : list bgdesc_t := group_desc g <$> seqZ 0 (g_n_block_groups g).

(** ** Writing the metadata *)

(** [bitmap[byte] |= v] *)
Definition or_byte (byte v : Z) (bitmap : list Z) : outcome (list Z) :=
  b ← deref (bitmap !! Z.to_nat byte); mret (<[Z.to_nat byte := u8 (Z.lor b v)]> bitmap).

Fixpoint mark_reserved (n : nat) (i : Z) (bitmap : list Z) : outcome (list Z) :=
  match n with
  | O => mret bitmap
  | Datatypes.S n =>
      bitmap ← or_byte (i / 8) (Z.shiftl 1 (i mod 8)) bitmap;
      mark_reserved n (i + 1) bitmap
  end.

Section mkfs.
Context {S A : Type} `{PortIO S} `{KAlloc A} `{KFree A}.
Variable patience : nat.

Definition write_superblock (location : Z) (b : ext2_super_block) (s : S) : outcome S :=
  disk_write patience location (encode b) (Z.of_nat (sizeof_struct ext2_super_block)) s.

Definition write_bgdt (g : mkfs_globals) (addr : Z) (table : list bgdesc_t) (s : S) : outcome S :=
  let bgdt_size := u32 (g_n_block_groups g * Z.of_nat (sizeof_struct bgdesc_t)) in
  if EXT2_BLK_SIZE <? bgdt_size then Spin
  else
    let buffer := replicate (Z.to_nat EXT2_BLK_SIZE) 0 in
    let bytes := take (Z.to_nat bgdt_size) (table ≫= encode) in
    disk_write patience addr (bytes ++ drop (length bytes) buffer) EXT2_BLK_SIZE s.

Definition init_bitmaps (fs_lba group_start group_idx : Z) (s : S) : outcome S :=
  let zero := replicate (Z.to_nat EXT2_BLK_SIZE) 0 in
  let reserved := if group_idx <? 2 then reserved_blocks_per_group + 2 else reserved_blocks_per_group in
  bitmap ← mark_reserved (Z.to_nat reserved) 0 zero;
  s ← disk_write patience (u32 (fs_lba + (group_start + 0) * SECTORS_PER_BLOCK)) bitmap EXT2_BLK_SIZE s;
  bitmap ← (if group_idx =? 0 then or_byte 0 3 zero else mret zero);
  disk_write patience (u32 (fs_lba + (group_start + 1) * SECTORS_PER_BLOCK)) bitmap EXT2_BLK_SIZE s.

Fixpoint init_table_loop (n : nat) (fs_lba group_start i : Z) (s : S) : outcome S :=
  match n with
  | O => mret s
  | Datatypes.S n =>
      s ← disk_write patience (u32 (fs_lba + (group_start + 2 + i) * SECTORS_PER_BLOCK))
            (replicate (Z.to_nat EXT2_BLK_SIZE) 0) EXT2_BLK_SIZE s;
      init_table_loop n fs_lba group_start (i + 1) s
  end.
Definition init_inode_table (fs_lba group_start : Z) (s : S) : outcome S :=
  init_table_loop (Z.to_nat inode_table_blocks) fs_lba group_start 0 s.

(** [g0] holds the globals of fs.c: [super] is zero until read_fs sets it. *)
Definition fs_start_to_lba_superblk (g0 : fs_globals) (mb_start : Z) : Z :=
  u32 (mb_to_lba mb_start + BufferCache.SECTORS_PER_BLOCK g0).

(** show_fs reads one sector; [junk] is what the stack held in the rest of the
    buffer. *)
Definition show_fs (g0 : fs_globals) (junk : list Z) (mb_start : Z) (g : mkfs_globals) (s : S)
  : outcome (S * mkfs_globals) :=
  let fs_lba := fs_start_to_lba_superblk g0 mb_start in
  '(s, sector) ← disk_read patience fs_lba s;
  let sb : ext2_super_block := decode (sector ++ drop (length sector) junk) in
  if negb (s_magic sb =? EXT2_SUPER_MAGIC) then mret (s, g)
  else if s_blocks_per_group sb =? 0 then Fault
  else
    let last := s_blocks_count sb mod s_blocks_per_group sb in
    mret (s, mk_mkfsg (u32 (s_blocks_count sb + s_blocks_per_group sb - 1) / s_blocks_per_group sb)
                (s_blocks_count sb) (if last =? 0 then s_blocks_per_group sb else last)).
Definition finish_fs_init := show_fs.

Fixpoint superblocks_loop (n : nat) (fs_lba i : Z) (g : mkfs_globals) (s : S) : outcome S :=
  match n with
  | O => mret s
  | Datatypes.S n =>
      s ← (if i <? 2 then write_superblock (u32 (fs_lba + i * SECTORS_PER_BLOCK_GROUP)) (make_super g i) s
           else mret s);
      superblocks_loop n fs_lba (i + 1) g s
  end.

Fixpoint init_groups (n : nat) (fs_lba i : Z) (s : S) : outcome S :=
  match n with
  | O => mret s
  | Datatypes.S n =>
      let bitmap_start := if i <? 2 then 2 else 0 in
      let block_offset := u32 (i * EXT2_BLOCKS_PER_GROUP + bitmap_start) in
      s ← init_bitmaps fs_lba block_offset i s;
      s ← init_inode_table fs_lba block_offset s;
      init_groups n fs_lba (i + 1) s
  end.

Definition mkfs (g0 : fs_globals) (junk : list Z) (mb_start len : Z) (s : S) (a : A)
  : outcome (S * A * mkfs_globals) :=
  let fs_lba := fs_start_to_lba_superblk g0 mb_start in
  let g := calculate_block_groups len in
  let n_groups := Z.to_nat (g_n_block_groups g) in
  '(a, bgdt) ← ka_kmalloc (u32 (g_n_block_groups g * Z.of_nat (sizeof_struct bgdesc_t))) a;
  match bgdt with
  | None => Spin
  | Some _ =>
      let table := make_bgdt g in
      s ← superblocks_loop n_groups fs_lba 0 g s;
      s ← write_bgdt g (u32 (fs_lba + SECTORS_PER_BLOCK)) table s;
      s ← write_bgdt g (u32 (fs_lba + SECTORS_PER_BLOCK_GROUP + SECTORS_PER_BLOCK)) table s;
      s ← init_groups n_groups fs_lba 0 s;
      a ← ka_kfree bgdt a;
      '(s, g) ← finish_fs_init g0 junk mb_start g s;
      mret (s, a, g)
  end.

End mkfs.
