(* ===== verification/MkfsProofs.v ===== *)
(** * What mkfs leaves on the disk

    Block [b] of the file system is the pair of sectors [fs_block lba0 d b];
    [block_image] says what mkfs puts in each block.  The theorems relate this
    image to the group descriptors and the superblock that describe it. *)

From S2P Require Import Prelude Layout Ports Disk BufferCache Ext2Layout Mkfs.

(** ** The disk by blocks *)

Definition fs_block (lba0 : Z) (d : Z -> list Z) (b : Z) : list Z := d (lba0 + 2 * b) ++ d (lba0 + 2 * b + 1).

Lemma pad_full l : (512 <= length l)%nat -> pad_sector l 512 = take 512 l.
Proof. intros. unfold pad_sector. change (Z.to_nat 512) with 512%nat. by rewrite app_nil_r. Qed.

Lemma write_span_fs_block lba0 b buf d b' : length buf = 1024%nat ->
  fs_block lba0 (write_span (lba0 + 2 * b) buf 1024 d) b' = if decide (b' = b) then buf else fs_block lba0 d b'.
Proof.
  intros Hl. unfold fs_block, write_span. destruct (decide (b' = b)) as [->|Hne].
  - rewrite !decide_True by lia. replace (lba0 + 2 * b - (lba0 + 2 * b)) with 0 by lia.
    replace (lba0 + 2 * b + 1 - (lba0 + 2 * b)) with 1 by lia.
    change (Z.min 512 (1024 - 512 * 0)) with 512. change (Z.min 512 (1024 - 512 * 1)) with 512.
    change (Z.to_nat (512 * 0)) with 0%nat. change (Z.to_nat (512 * 1)) with 512%nat.
    rewrite !pad_full by (rewrite length_drop; lia). rewrite drop_0, (take_ge (drop 512 buf)) by (rewrite length_drop; lia).
    apply take_drop.
  - by rewrite !decide_False by lia.
Qed.

Lemma length_pad l n : (n <= 512)%nat -> (n <= length l)%nat -> length (pad_sector l (Z.of_nat n)) = 512%nat.
Proof.
  intros Hn Hl. unfold pad_sector. rewrite length_app, length_take, length_replicate.
  change ATA_SECTOR_SIZE with 512. lia.
Qed.

Section image.
Context {S : Type} `{HIO : PortIO S} `{HD : !AtaDevice S}.
Variables (p : nat) (lba0 : Z).
Hypothesis Hp : (patience_bound <= p)%nat.
Hypothesis Hlba : 0 <= lba0.
Implicit Types s : S.

Definition block_of s b : list Z := fs_block lba0 (disk (view s)) b.

Definition sized s : Prop := forall l, length (disk (view s) l) = 512%nat.

Lemma block_write b buf s :
  0 <= b -> lba0 + 2 * b + 2 <= 2 ^ 24 -> length buf = 1024%nat ->
  exists s', disk_write p (lba0 + 2 * b) buf 1024 s = Ret s' /\
    (forall b', block_of s' b' = if decide (b' = b) then buf else block_of s b') /\ (sized s -> sized s').
Proof.
  intros Hb Hmax Hl. destruct (disk_write_sectors p (lba0 + 2 * b) buf 1024 s) as (s' & R & Hd); [done|lia|lia| |].
  { change (sectors 1024) with 2. lia. }
  exists s'. split; [done|]. split.
  - intros b'. unfold block_of. rewrite <- write_span_fs_block by done. unfold fs_block. by rewrite !Hd.
  - intros Hs l. rewrite Hd. unfold write_span. case_decide as Hc; [|apply Hs].
    replace (Z.min 512 (1024 - 512 * (l - (lba0 + 2 * b)))) with (Z.of_nat 512) by lia.
    apply length_pad; [lia|]. rewrite length_drop. lia.
Qed.

(** ** One group *)

Definition zero_block : list Z := replicate 1024 0.
Definition bitmap_byte (P : Z -> bool) (k : Z) : Z :=
  foldr (fun j acc => acc + if P (8 * k + j) then 2 ^ j else 0) 0 (seqZ 0 8).
Definition bitmap_of (P : Z -> bool) : list Z := bitmap_byte P <$> seqZ 0 1024.
Definition marked_blocks (i : Z) : Z := if i <? 2 then 132 else 130.
Definition first_meta (i : Z) : Z := if i <? 2 then 3 else 1.

(** Block [k] of the metadata of group [i]: the bitmaps, then the table. *)
Definition meta_image (i k : Z) : option (list Z) :=
  if k =? 0 then Some (bitmap_of (fun j => j <? marked_blocks i))
  else if k =? 1 then Some (bitmap_of (fun j => (i =? 0) && (j <? 2)))
  else if (2 <=? k) && (k <? 130) then Some zero_block else None.
Definition groups_image (lo hi b : Z) : option (list Z) :=
  let i := b / 8192 in
  if (lo <=? i) && (i <? hi) then meta_image i (b mod 8192 - first_meta i) else None.

Lemma mark_reserved_image i : 0 <= i ->
  mark_reserved (Z.to_nat (if i <? 2 then reserved_blocks_per_group + 2 else reserved_blocks_per_group)) 0 zero_block
  = Ret (bitmap_of (fun j => j <? marked_blocks i)).
Proof. intros Hi. unfold marked_blocks. destruct (i <? 2); vm_compute; reflexivity. Qed.

Lemma inode_bitmap_image i :
  (if i =? 0 then or_byte 0 3 zero_block else mret zero_block) = Ret (bitmap_of (fun j => (i =? 0) && (j <? 2))).
Proof. destruct (i =? 0); vm_compute; reflexivity. Qed.

Lemma length_bitmap_of P : length (bitmap_of P) = 1024%nat.
Proof. unfold bitmap_of. by rewrite length_fmap, length_seqZ. Qed.

Lemma in_range_true lo hi x : lo <= x < hi -> (lo <=? x) && (x <? hi) = true.
Proof. intros. apply andb_true_iff. rewrite Z.leb_le, Z.ltb_lt. lia. Qed.
Lemma in_range_false lo hi x : ~ (lo <= x < hi) -> (lo <=? x) && (x <? hi) = false.
Proof. intros. apply andb_false_iff. rewrite Z.leb_gt, Z.ltb_ge. lia. Qed.

Lemma init_table_loop_spec n : forall w i s,
  0 <= w -> 0 <= i -> lba0 + 2 * (w + 3 + i + Z.of_nat n) <= 2 ^ 24 ->
  exists s', init_table_loop p n (lba0 + 2) w i s = Ret s' /\
    (forall b, block_of s' b =
       if decide (w + 3 + i <= b < w + 3 + i + Z.of_nat n) then zero_block else block_of s b) /\
    (sized s -> sized s').
Proof.
  induction n as [|n IH]; intros w i s Hw Hi Hmax; cbn [init_table_loop].
  { exists s. split; [done|]. split; [|done]. intros b. by rewrite decide_False by lia. }
  replace (u32 (lba0 + 2 + (w + 2 + i) * SECTORS_PER_BLOCK)) with (lba0 + 2 * (w + 3 + i)).
  2: { change SECTORS_PER_BLOCK with 2. rewrite u32_small; lia. }
  destruct (block_write (w + 3 + i) zero_block s) as (s1 & R & Hb1 & Hz1); [lia..|done|].
  change EXT2_BLK_SIZE with 1024. change (replicate (Z.to_nat 1024) 0) with zero_block. rewrite R, bind_Ret.
  destruct (IH w (i + 1) s1) as (s2 & R2 & Hb2 & Hz2); [lia..|]. exists s2. split; [done|].
  split; [|auto]. intros b. rewrite Hb2, Hb1. repeat case_decide; solve [done|lia].
Qed.

Lemma init_group_spec i s :
  0 <= i < 32 -> lba0 + 2 * (8192 * i + 133) <= 2 ^ 24 ->
  exists s1, init_bitmaps p (lba0 + 2) (8192 * i + first_meta i - 1) i s = Ret s1 /\
  exists s2, init_inode_table p (lba0 + 2) (8192 * i + first_meta i - 1) s1 = Ret s2 /\
    (forall b, block_of s2 b = default (block_of s b) (groups_image i (i + 1) b)) /\ (sized s -> sized s2).
Proof.
  intros Hi Hmax. set (w := 8192 * i + first_meta i - 1).
  assert (Hw : 8192 * i <= w <= 8192 * i + 2) by (unfold w, first_meta; destruct (i <? 2); lia).
  unfold init_bitmaps. change EXT2_BLK_SIZE with 1024. change (replicate (Z.to_nat 1024) 0) with zero_block.
  rewrite mark_reserved_image, inode_bitmap_image by lia. bind_rets.
  replace (u32 (lba0 + 2 + (w + 0) * SECTORS_PER_BLOCK)) with (lba0 + 2 * (w + 1)).
  2: { change SECTORS_PER_BLOCK with 2. rewrite u32_small; lia. }
  replace (u32 (lba0 + 2 + (w + 1) * SECTORS_PER_BLOCK)) with (lba0 + 2 * (w + 2)).
  2: { change SECTORS_PER_BLOCK with 2. rewrite u32_small; lia. }
  destruct (block_write (w + 1) (bitmap_of (fun j => j <? marked_blocks i)) s) as (sa & Ra & Ha & Hza);
    [lia..|apply length_bitmap_of|]. rewrite Ra, !bind_Ret.
  destruct (block_write (w + 2) (bitmap_of (fun j => (i =? 0) && (j <? 2))) sa) as (sb & Rb & Hb & Hzb);
    [lia..|apply length_bitmap_of|]. rewrite Rb. exists sb. split; [done|].
  unfold init_inode_table. change (Z.to_nat inode_table_blocks) with 128%nat.
  destruct (init_table_loop_spec 128 w 0 sb) as (sc & Rc & Hc & Hzc); [lia..|]. exists sc. split; [done|].
  split; [|auto]. intros b. rewrite Hc, Hb, Ha. unfold groups_image, meta_image.
  pose proof (Z.div_mod b 8192 ltac:(lia)) as Hdm. pose proof (Z.mod_pos_bound b 8192 ltac:(lia)) as Hm0.
  destruct (decide (b / 8192 = i)) as [E|E].
  - rewrite E. rewrite (proj2 (Z.leb_le i i)), (proj2 (Z.ltb_lt i (i + 1))) by lia. cbn [andb].
    assert (Hm : b mod 8192 = b - 8192 * i) by lia.
    rewrite Hm. replace (b - 8192 * i - first_meta i) with (b - (w + 1)) by (unfold w; lia).
    repeat case_decide; repeat match goal with |- context [?x =? ?y] => destruct (Z.eqb_spec x y) end;
      repeat match goal with |- context [?x <=? ?y] => destruct (Z.leb_spec x y) end;
      repeat match goal with |- context [?x <? ?y] => destruct (Z.ltb_spec x y) end; try lia; done.
  - rewrite (in_range_false i (i + 1)) by lia. cbn [default from_option].
    assert (~ (w + 1 <= b < w + 131)) by lia. by rewrite !decide_False by lia.
Qed.

Lemma init_groups_spec n : forall i s,
  0 <= i -> i + Z.of_nat n <= 32 -> lba0 + 2 * (8192 * (i + Z.of_nat n - 1) + 133) <= 2 ^ 24 ->
  exists s', init_groups p n (lba0 + 2) i s = Ret s' /\
    (forall b, block_of s' b = default (block_of s b) (groups_image i (i + Z.of_nat n) b)) /\
    (sized s -> sized s').
Proof.
  induction n as [|n IH]; intros i s Hi Hn Hmax; cbn [init_groups].
  { exists s. split; [done|]. split; [|done]. intros b. unfold groups_image.
    by rewrite in_range_false by lia. }
  replace (u32 (i * EXT2_BLOCKS_PER_GROUP + (if i <? 2 then 2 else 0))) with (8192 * i + first_meta i - 1).
  2: { unfold first_meta, EXT2_BLOCKS_PER_GROUP. destruct (i <? 2); rewrite u32_small; lia. }
  destruct (init_group_spec i s) as (s1 & R1 & s2 & R2 & Hb2 & Hz2); [lia..|]. rewrite R1, bind_Ret, R2, bind_Ret.
  destruct (IH (i + 1) s2) as (s3 & R3 & Hb3 & Hz3); [lia..|]. exists s3. split; [done|]. split; [|auto]. intros b.
  rewrite Hb3, Hb2. unfold groups_image.
  destruct (decide (b / 8192 = i)) as [E|E].
  - rewrite (in_range_false (i + 1) (i + 1 + Z.of_nat n)) by lia.
    rewrite (in_range_true i (i + 1)) by lia.
    by rewrite (in_range_true i (i + Z.of_nat (Datatypes.S n))) by lia.
  - rewrite (in_range_false i (i + 1)) by lia. cbn [default from_option].
    destruct (decide (i + 1 <= b / 8192 < i + 1 + Z.of_nat n)).
    + by rewrite !in_range_true by lia.
    + by rewrite !in_range_false by lia.
Qed.

End image.

(** ** Fields by their offset *)

Lemma super_field_offsets bytes :
  let b : ext2_super_block := decode bytes in
  s_blocks_count b = of_le (take 4 (drop 4 bytes)) /\ s_log_block_size b = of_le (take 4 (drop 24 bytes)) /\
  s_blocks_per_group b = of_le (take 4 (drop 32 bytes)) /\ s_inodes_per_group b = of_le (take 4 (drop 40 bytes)) /\
  s_magic b = of_le (take 2 (drop 56 bytes)).
Proof.
  intros b. split_and!.
  - by apply (scalar_member (shape ext2_super_block) 1 1 4 4).
  - by apply (scalar_member (shape ext2_super_block) 6 6 24 4).
  - by apply (scalar_member (shape ext2_super_block) 8 8 32 4).
  - by apply (scalar_member (shape ext2_super_block) 10 10 40 4).
  - by apply (scalar_member (shape ext2_super_block) 15 15 56 2).
Qed.

(** ** Geometry of a file system of 1 to 256 megabytes *)

Lemma geometry len (g := calculate_block_groups len) : 1 <= len <= 256 ->
  g_total_blocks g = 1024 * len /\ 1 <= g_n_block_groups g <= 32 /\
  8192 * (g_n_block_groups g - 1) + 1024 <= 1024 * len <= 8192 * g_n_block_groups g /\
  g_blocks_in_last_group g = 1024 * len - 8192 * (g_n_block_groups g - 1).
Proof.
  intros Hlen. subst g. unfold calculate_block_groups, EXT2_BLOCKS_PER_GROUP. cbn [g_total_blocks g_n_block_groups g_blocks_in_last_group].
  rewrite !(u32_small (len * 1024)), (u32_small (len * 1024 + 8192 - 1)) by lia.
  pose proof (Z.div_mod (len * 1024) 8192 ltac:(lia)). pose proof (Z.mod_pos_bound (len * 1024) 8192 ltac:(lia)).
  pose proof (Z.div_mod (len * 1024 + 8192 - 1) 8192 ltac:(lia)).
  pose proof (Z.mod_pos_bound (len * 1024 + 8192 - 1) 8192 ltac:(lia)).
  set (q := len * 1024 / 8192) in *. set (r := (len * 1024) mod 8192) in *.
  set (q' := (len * 1024 + 8192 - 1) / 8192) in *. set (r' := (len * 1024 + 8192 - 1) mod 8192) in *.
  destruct (Z.eqb_spec r 0); lia.
Qed.

(** ** Well-formed metadata *)

Lemma free_blocks_value len i (g := calculate_block_groups len) :
  1 <= len <= 256 -> 0 <= i < g_n_block_groups g ->
  free_blocks_in_group g i (i <? 2) =
    (if i =? g_n_block_groups g - 1 then g_blocks_in_last_group g else 8192) - marked_blocks i /\
  892 <= free_blocks_in_group g i (i <? 2) <= 8060 + 2.
Proof.
  intros Hlen Hi. destruct (geometry len Hlen) as (_ & Hn & Hr & Hl). fold g in Hn, Hr, Hl. unfold free_blocks_in_group.
  rewrite (u32_small (g_n_block_groups g - 1)) by lia. rewrite Hl.
  change reserved_blocks_per_group with 130. change EXT2_BLOCKS_PER_GROUP with 8192. unfold marked_blocks.
  destruct (Z.ltb_spec i 2), (Z.eqb_spec i (g_n_block_groups g - 1)); rewrite ?u32_small by lia; lia.
Qed.

Lemma total_free_range n : forall i g acc, 0 <= acc < 2 ^ 32 -> 0 <= total_free_loop n i g acc < 2 ^ 32.
Proof. induction n; intros; cbn [total_free_loop]; [done|]. apply IHn, u32_range. Qed.

(** Goals [struct_wf] by members: each is a constant or has bounds at hand. *)
Ltac struct_wf_tac :=
  unfold struct_wf; cbn [shape members bgdesc_struct ext2_super_struct inode_struct dentry_struct];
  repeat first [apply Forall2_cons; split | apply Forall2_nil; exact I];
  (split; [done|]); repeat first [apply Forall_cons; split | apply Forall_nil; exact I]; cbn [fst snd];
  unfold fits; try (split; [done|reflexivity]).

Lemma group_desc_wf len i (g := calculate_block_groups len) :
  1 <= len <= 256 -> 0 <= i < g_n_block_groups g -> struct_wf (group_desc g i).
Proof.
  intros Hlen Hi. destruct (geometry len Hlen) as (_ & Hn & _). fold g in Hn. unfold group_desc. struct_wf_tac.
  all: cbn [bg_block_bitmap bg_inode_bitmap bg_inode_table bg_free_blocks_count bg_free_inodes_count bg_used_dirs_count].
  1-3: apply u32_range. 1: apply u16_range. all: destruct (i =? 0); vm_compute; by split.
Qed.

Lemma ext2_super_wf len i (g := calculate_block_groups len) :
  1 <= len <= 256 -> struct_wf (make_super g i).
Proof.
  intros Hlen. destruct (geometry len Hlen) as (Ht & Hn & _). fold g in Ht, Hn. unfold make_super. struct_wf_tac.
  all: cbn [s_inodes_count s_blocks_count s_free_blocks_count s_free_inodes_count s_block_group_nr
    s_blocks_per_group s_frags_per_group s_inodes_per_group].
  all: try apply u32_range; try apply u16_range.
  apply total_free_range. lia.
Qed.

Lemma length_bind_const {A B} (f : A -> list B) (k : nat) (l : list A) :
  Forall (fun x => length (f x) = k) l -> length (l ≫= f) = (length l * k)%nat.
Proof. induction 1 as [|x l Hx _ IH]; [done|]. cbn [mbind list_bind]. rewrite length_app, Hx, IH. done. Qed.

Lemma length_make_bgdt len (g := calculate_block_groups len) :
  1 <= len <= 256 ->
  length (make_bgdt g ≫= encode) = (Z.to_nat (g_n_block_groups g) * 32)%nat.
Proof.
  intros Hlen. destruct (geometry len Hlen) as (_ & Hn & _). fold g in Hn. rewrite (length_bind_const _ 32).
  - unfold make_bgdt. by rewrite length_fmap, length_seqZ.
  - unfold make_bgdt. apply Forall_fmap, Forall_forall. intros i Hi%elem_of_seqZ. cbn [compose].
    change 32%nat with (sizeof_struct bgdesc_t). apply length_encode, (group_desc_wf len); [done|]. fold g. lia.
Qed.

(** ** mkfs *)

Definition bgdt_block (g : mkfs_globals) : list Z :=
  let bytes := make_bgdt g ≫= encode in bytes ++ drop (length bytes) zero_block.

(** What mkfs writes to block [b]; [None] for the blocks it leaves alone. *)
Definition block_image (g : mkfs_globals) (b : Z) : option (list Z) :=
  if decide (b = 1) then Some (encode (make_super g 0))
  else if decide (b = 8193 /\ 2 <= g_n_block_groups g) then Some (encode (make_super g 1))
  else if decide (b = 2 \/ b = 8194) then Some (bgdt_block g)
  else groups_image 0 (g_n_block_groups g) b.

Lemma length_super len i : 1 <= len <= 256 -> length (encode (make_super (calculate_block_groups len) i)) = 1024%nat.
Proof. intros. change 1024%nat with (sizeof_struct ext2_super_block). apply length_encode. by apply ext2_super_wf. Qed.

Lemma length_bgdt_block len : 1 <= len <= 256 -> length (bgdt_block (calculate_block_groups len)) = 1024%nat.
Proof.
  intros Hlen. destruct (geometry len Hlen) as (_ & Hn & _). unfold bgdt_block.
  rewrite length_app, length_drop, length_make_bgdt by done. unfold zero_block. rewrite length_replicate. lia.
Qed.

Lemma groups_image_head hi b : b = 1 \/ b = 2 \/ b = 8193 \/ b = 8194 -> groups_image 0 hi b = None.
Proof.
  intros Hb. unfold groups_image.
  destruct Hb as [-> | [-> | [-> | ->] ] ]; destruct ((0 <=? _) && _); vm_compute; reflexivity.
Qed.

Section mkfs.
Context {S A : Type} `{HIO : PortIO S} `{HD : !AtaDevice S} `{HKA : KAlloc A} `{HKF : KFree A}.
Variables (p : nat) (lba0 len : Z).
Hypothesis Hp : (patience_bound <= p)%nat.
Hypothesis Hlba : 0 <= lba0.
Hypothesis Hlen : 1 <= len <= 256.
Hypothesis Hend : lba0 + 2048 * Z.max len 9 <= 2 ^ 24.
Implicit Types s : S.
Abbreviation g := (calculate_block_groups len).

Lemma write_bgdt_spec b s :
  0 <= b -> lba0 + 2 * b + 2 <= 2 ^ 24 ->
  exists s', write_bgdt p g (lba0 + 2 * b) (make_bgdt g) s = Ret s' /\
    (forall b', block_of lba0 s' b' = if decide (b' = b) then bgdt_block g else block_of lba0 s b') /\
    (sized s -> sized s').
Proof.
  intros Hb Hmax. destruct (geometry len Hlen) as (_ & Hn & _). unfold write_bgdt, EXT2_BLK_SIZE.
  change (Z.of_nat (sizeof_struct bgdesc_t)) with 32. rewrite u32_small by lia.
  rewrite (proj2 (Z.ltb_ge 1024 (g_n_block_groups g * 32))) by lia.
  rewrite take_ge by (rewrite length_make_bgdt by done; lia).
  change (replicate (Z.to_nat 1024) 0) with zero_block. fold (bgdt_block g).
  apply block_write; [done|done|done|done|by apply length_bgdt_block].
Qed.

Lemma write_superblock_spec b i s :
  0 <= b -> lba0 + 2 * b + 2 <= 2 ^ 24 ->
  exists s', write_superblock p (lba0 + 2 * b) (make_super g i) s = Ret s' /\
    (forall b', block_of lba0 s' b' = if decide (b' = b) then encode (make_super g i) else block_of lba0 s b') /\
    (sized s -> sized s').
Proof.
  intros Hb Hmax. unfold write_superblock. change (Z.of_nat (sizeof_struct ext2_super_block)) with 1024.
  apply block_write; [done|done|done|done|by apply length_super].
Qed.

Lemma superblocks_rest n fs_lba i gl s : 2 <= i -> superblocks_loop p n fs_lba i gl s = Ret s.
Proof.
  revert i. induction n as [|n IH]; intros i Hi; cbn [superblocks_loop]; [done|].
  rewrite (proj2 (Z.ltb_ge i 2)) by lia. bind_rets. apply IH. lia.
Qed.

Lemma superblocks_spec s :
  exists s', superblocks_loop p (Z.to_nat (g_n_block_groups g)) (lba0 + 2) 0 g s = Ret s' /\
    (forall b, block_of lba0 s' b =
       if decide (b = 1) then encode (make_super g 0)
       else if decide (b = 8193 /\ 2 <= g_n_block_groups g) then encode (make_super g 1) else block_of lba0 s b) /\
    (sized s -> sized s').
Proof.
  destruct (geometry len Hlen) as (_ & Hn & Hr & _).
  destruct (Z.to_nat (g_n_block_groups g)) as [|n] eqn:En; [lia|]. cbn [superblocks_loop].
  change SECTORS_PER_BLOCK_GROUP with 16384. change (0 <? 2) with true. cbv iota.
  replace (u32 (lba0 + 2 + 0 * 16384)) with (lba0 + 2 * 1) by (rewrite u32_small; lia).
  destruct (write_superblock_spec 1 0 s) as (s1 & R1 & Hb1 & Hz1); [lia..|]. rewrite R1, bind_Ret.
  destruct n as [|n]; cbn [superblocks_loop].
  - exists s1. split; [done|]. split; [|auto]. intros b. rewrite Hb1.
    destruct (decide (b = 1)); [done|]. by rewrite decide_False by lia.
  - change (0 + 1 <? 2) with true. cbv iota.
    change SECTORS_PER_BLOCK_GROUP with 16384.
    replace (u32 (lba0 + 2 + (0 + 1) * 16384)) with (lba0 + 2 * 8193) by (rewrite u32_small; lia).
    destruct (write_superblock_spec 8193 1 s1) as (s2 & R2 & Hb2 & Hz2); [lia..|].
    change (0 + 1) with 1. rewrite R2, bind_Ret, superblocks_rest by lia. exists s2. split; [done|].
    split; [|auto]. intros b. rewrite Hb2, Hb1. repeat case_decide; done || lia.
Qed.

Lemma show_fs_spec g0 junk mb_start s :
  BufferCache.s_log_block_size g0 = 0 -> lba0 = 2048 * mb_start -> sized s ->
  block_of lba0 s 1 = encode (make_super g 0) ->
  exists s', show_fs p g0 junk mb_start g s = Ret (s', g) /\ disk (view s') = disk (view s).
Proof.
  intros Hg0 El Hz Hb1. destruct (geometry len Hlen) as (Ht & Hn & Hr & Hl). unfold show_fs, fs_start_to_lba_superblk.
  unfold BufferCache.SECTORS_PER_BLOCK, S_BLOCK_SIZE, mb_to_lba. rewrite Hg0. change (Z.shiftl 1024 0 / 512) with 2.
  rewrite (u32_small (mb_start * 1024 * 2)), u32_small by lia.
  replace (mb_start * 1024 * 2 + 2) with (lba0 + 2) by lia.
  destruct (disk_read_sector p (lba0 + 2) s) as (s' & R & Hd); [done|lia|]. rewrite R, bind_Ret.
  set (sector := disk (view s) (lba0 + 2)). cbv iota beta zeta.
  assert (Hs : sector = take 512 (encode (make_super g 0))).
  { rewrite <- Hb1. unfold block_of, fs_block. change (lba0 + 2 * 1) with (lba0 + 2).
    by rewrite take_app_length' by (by rewrite Hz). }
  assert (Hf : forall w o rest, (o + w <= 512)%nat ->
    take w (drop o (sector ++ rest)) = take w (drop o (encode (make_super g 0)))).
  { intros w o rest Ho. rewrite Hs. pose proof (length_super len 0 Hlen) as Hsz.
    rewrite drop_app_le, take_app_le by (rewrite ?length_drop, ?length_take; lia).
    rewrite !take_drop_commute. rewrite take_take. by rewrite Nat.min_l by lia. }
  destruct (super_field_offsets (sector ++ drop (length sector) junk)) as (E1 & _ & E2 & _ & E3).
  destruct (super_field_offsets (encode (make_super g 0))) as (F1 & _ & F2 & _ & F3).
  rewrite decode_encode in F1, F2, F3 by by apply ext2_super_wf.
  rewrite E1, E2, E3, !Hf, <- F1, <- F2, <- F3 by lia.
  change (s_magic (make_super g 0)) with EXT2_SUPER_MAGIC. rewrite Z.eqb_refl. cbn [negb].
  change (s_blocks_per_group (make_super g 0)) with 8192. change (8192 =? 0) with false. cbv iota.
  change (s_blocks_count (make_super g 0)) with (g_total_blocks g). exists s'. by split.
Qed.

Lemma mkfs_spec g0 junk mb_start s a a1 a2 t :
  BufferCache.s_log_block_size g0 = 0 -> lba0 = 2048 * mb_start -> sized s ->
  ka_kmalloc (32 * g_n_block_groups g) a = Ret (a1, Some t) -> ka_kfree (Some t) a1 = Ret a2 ->
  exists s', mkfs p g0 junk mb_start len s a = Ret (s', a2, g) /\
    (forall b, block_of lba0 s' b = default (block_of lba0 s b) (block_image g b)) /\ sized s'.
Proof.
  intros Hg0 El Hz Hka Hkf. destruct (geometry len Hlen) as (Ht & Hn & Hr & _).
  unfold mkfs. cbv zeta. change (Z.of_nat (sizeof_struct bgdesc_t)) with 32.
  rewrite (u32_small (g_n_block_groups g * 32)), (Z.mul_comm _ 32), Hka, bind_Ret by lia. cbv iota beta.
  assert (E : fs_start_to_lba_superblk g0 mb_start = lba0 + 2).
  { unfold fs_start_to_lba_superblk, BufferCache.SECTORS_PER_BLOCK, S_BLOCK_SIZE, mb_to_lba. rewrite Hg0.
    change (Z.shiftl 1024 0 / 512) with 2. rewrite (u32_small (mb_start * 1024 * 2)), u32_small; lia. }
  rewrite E. destruct (superblocks_spec s) as (s1 & R1 & Hb1 & Hz1). rewrite R1, bind_Ret.
  change SECTORS_PER_BLOCK with 2. change SECTORS_PER_BLOCK_GROUP with 16384.
  replace (u32 (lba0 + 2 + 2)) with (lba0 + 2 * 2) by (rewrite u32_small; lia).
  destruct (write_bgdt_spec 2 s1) as (s2 & R2 & Hb2 & Hz2); [lia..|]. rewrite R2, bind_Ret.
  replace (u32 (lba0 + 2 + 16384 + 2)) with (lba0 + 2 * 8194) by (rewrite u32_small; lia).
  destruct (write_bgdt_spec 8194 s2) as (s3 & R3 & Hb3 & Hz3); [lia..|]. rewrite R3, bind_Ret.
  destruct (init_groups_spec p lba0 Hp Hlba (Z.to_nat (g_n_block_groups g)) 0 s3) as (s4 & R4 & Hb4 & Hz4); [lia..|].
  rewrite R4, bind_Ret, Hkf, bind_Ret. rewrite Z.add_0_l, Z2Nat.id in Hb4 by lia.
  assert (Hb : forall b, block_of lba0 s4 b = default (block_of lba0 s b) (block_image g b)).
  { intros b. rewrite Hb4, Hb3, Hb2, Hb1. unfold block_image.
    repeat case_decide; rewrite ?groups_image_head by lia; done || lia. }
  destruct (show_fs_spec g0 junk mb_start s4) as (s5 & R5 & Hd5); [done|done|auto|by rewrite Hb|].
  unfold finish_fs_init. rewrite R5, bind_Ret. exists s5. split; [done|]. split.
  - intros b. rewrite <- Hb. unfold block_of. by rewrite Hd5.
  - intros l. rewrite Hd5. apply Hz4, Hz3, Hz2, Hz1, Hz.
Qed.

(** C23. mkfs lays out the file system: for 1 to 256 megabytes it returns, block
    by block the disk holds [block_image] - the superblock and its backup, the
    group descriptors, and in every group the two bitmaps and the zeroed inode
    table - and every block that is not part of the image keeps its contents.
    (The backup of the descriptors goes to block 8194 even if there is only
    one group, so a file system of up to 8 megabytes is written beyond its end.
    An inode table has 1024 inodes in 128 blocks; the layout in
    docs/EXT2_LAYOUT.md and in the comment above mkfs has 1712 in 214.) *)
Theorem mkfs_layout g0 junk mb_start s a a1 a2 t :
  BufferCache.s_log_block_size g0 = 0 -> lba0 = 2048 * mb_start -> sized s ->
  ka_kmalloc (32 * g_n_block_groups g) a = Ret (a1, Some t) -> ka_kfree (Some t) a1 = Ret a2 ->
  exists s', mkfs p g0 junk mb_start len s a = Ret (s', a2, g) /\
    forall b, block_of lba0 s' b = default (block_of lba0 s b) (block_image g b).
Proof.
  intros Hg0 El Hz Hka Hkf. destruct (mkfs_spec g0 junk mb_start s a a1 a2 t Hg0 El Hz Hka Hkf) as (s' & R & Hb & _).
  by exists s'.
Qed.

End mkfs.
