(* ===== verification/Ext2Balloc.v ===== *)
(** * Block and inode allocation of ext2 (fs/ext2/ext2_balloc.c)

    [ext2_st] is the state of the ext2 file system: the buffer cache and the
    disk, and the globals of fs.c.  The bitmaps are read into and written from
    arrays of 1024 bytes on the stack; the block transfers move
    [1024 << s_log_block_size] bytes, so a larger block size runs over them.
    Reading a buffer that was never filled is a fault.

    update_block_bg_desc and update_inode_bg_desc change a copy of the group
    descriptor and drop it; here they return that copy. *)

From S2P Require Import Prelude Layout Ports Disk BufferCache Ext2Layout Mkfs.

Definition EXT2_FREE_INO_START : Z := 11.
Definition BGDT_BLK_NO : Z := 2.
Definition MAX_GROUPS : Z := 1024.

Record ext2_st (S A : Type) := mk_ext2 {
  cache : bcache_st S A;
  fs_start : Z;
  start_set : bool;
  n_block_groups : Z;
  bgdt : list bgdesc_t;
  super : ext2_super_block;
  mkfs_vars : mkfs_globals;
}.
Arguments mk_ext2 {S A}.
Arguments cache {S A}.
Arguments fs_start {S A}.
Arguments start_set {S A}.
Arguments n_block_groups {S A}.
Arguments bgdt {S A}.
Arguments super {S A}.
Arguments mkfs_vars {S A}.

(** ** Bits *)

(** [bitmap[byte] ^= v] *)
Definition xor_byte (byte v : Z) (bitmap : list Z) : outcome (list Z) :=
  b ← deref (bitmap !! Z.to_nat byte); mret (<[Z.to_nat byte := u8 (Z.lxor b v)]> bitmap).
Definition set_bit (bitmap : list Z) (i : Z) : outcome (list Z) := or_byte (i / 8) (Z.shiftl 1 (i mod 8)) bitmap.
Definition unset_bit (bitmap : list Z) (i : Z) : outcome (list Z) := xor_byte (i / 8) (Z.shiftl 1 (i mod 8)) bitmap.

(** The inner loop; without a clear bit [match] stays uninitialised. *)
Fixpoint first_zero (n : nat) (k bmj : Z) : outcome Z :=
  match n with
  | O => Fault
  | Datatypes.S n => if Z.land (Z.shiftr bmj k) 1 =? 0 then mret k else first_zero n (k + 1) bmj
  end.
Fixpoint first_free_loop (n : nat) (j : Z) (bitmap : list Z) (allowed_start : Z) : outcome Z :=
  match n with
  | O => mret 0
  | Datatypes.S n =>
      bmj ← deref (bitmap !! Z.to_nat j);
      if bmj =? 255 then first_free_loop n (j + 1) bitmap allowed_start
      else
        k ← first_zero 8 0 bmj;
        let first_free_entry := u16 (j * 8 + k) in
        if first_free_entry <? allowed_start then first_free_loop n (j + 1) bitmap allowed_start
        else mret first_free_entry
  end.
Definition first_free_bm (bitmap : list Z) (allowed_start : Z) : outcome Z :=
  let start_byte := allowed_start / 8 in
  first_free_loop (Z.to_nat (EXT2_BLK_SIZE - start_byte)) start_byte bitmap allowed_start.

Section balloc.
Context {S A : Type} `{PortIO S}.
Variable patience : nat.
Implicit Types st : ext2_st S A.

Definition globals st : fs_globals := mk_fsg (fs_start st) (start_set st) (s_log_block_size (super st)).
Definition dev st : S := io (cache st).
Definition set_dev (s : S) st : ext2_st S A :=
  mk_ext2 (mk_bc (bufs (cache st)) (bdata (cache st)) (bnodes (cache st)) s (heap (cache st)))
    (fs_start st) (start_set st) (n_block_groups st) (bgdt st) (super st) (mkfs_vars st).
Definition set_super sb st : ext2_st S A :=
  mk_ext2 (cache st) (fs_start st) (start_set st) (n_block_groups st) (bgdt st) sb (mkfs_vars st).
Definition with_free_counts (blocks inodes : Z) (b : ext2_super_block) : ext2_super_block :=
  mk_ext2_super (s_inodes_count b) (s_blocks_count b) (s_r_blocks_count b) (u32 blocks) (u32 inodes)
    (s_first_data_block b) (s_log_block_size b) (s_log_frag_size b) (s_blocks_per_group b) (s_frags_per_group b)
    (s_inodes_per_group b) (s_mtime b) (s_wtime b) (s_mnt_count b) (s_max_mnt_count b) (s_magic b) (s_state b)
    (s_errors b) (s_minor_rev_level b) (s_lastcheck b) (s_checkinterval b) (s_creator_os b) (s_rev_level b)
    (s_def_resuid b) (s_def_resgid b) (s_first_ino b) (s_inode_size b) (s_block_group_nr b) (s_feature_compat b)
    (s_feature_incompat b) (s_feature_ro_compat b) (s_uuid b) (s_volume_name b) (s_last_mounted b) (s_algo_bitmap b)
    (s_prealloc_blocks b) (s_prealloc_dir_blocks b) (alignment b) (s_journal_uuid b) (s_journal_inum b)
    (s_journal_dev b) (s_last_orphan b) (s_hash_seed b) (s_def_hash_version b) (padding_a b) (padding_b b)
    (s_default_mount_options b) (s_first_meta_bg b) (reserved_future b).

(** A block into an array of 1024 bytes on the stack. *)
Definition read_stack_blk (block_num : Z) st : outcome (ext2_st S A * list Z) :=
  '(s, r) ← disk_read_blk patience (globals st) block_num (dev st);
  bytes ← deref r;
  if decide (length bytes <= 1024)%nat then mret (set_dev s st, bytes) else Fault.
Definition write_blk (block_num : Z) (buf : list Z) st : outcome (ext2_st S A) :=
  s ← disk_write_blk patience (globals st) block_num buf (dev st); mret (set_dev s st).

Definition first_free_block (d : bgdesc_t) st : outcome (ext2_st S A * Z) :=
  '(st, bitmap) ← read_stack_blk (bg_block_bitmap d) st;
  b ← first_free_bm bitmap 0; mret (st, b).
Definition first_free_inode (d : bgdesc_t) st : outcome (ext2_st S A * Z) :=
  '(st, bitmap) ← read_stack_blk (bg_inode_bitmap d) st;
  b ← first_free_bm bitmap EXT2_FREE_INO_START; mret (st, b).

(** The scan of the groups; [None] is the return value -1. *)
Fixpoint first_group (n : nat) (i : Z) (count : bgdesc_t -> Z)
    (search : bgdesc_t -> ext2_st S A -> outcome (ext2_st S A * Z)) st : outcome (ext2_st S A * option Z) :=
  match n with
  | O => mret (st, None)
  | Datatypes.S n =>
      d ← deref (bgdt st !! Z.to_nat i);
      if count d =? 0 then first_group n (i + 1) count search st
      else '(st, b) ← search d st; mret (st, Some b)
  end.
Definition first_free_block_num st : outcome (ext2_st S A * option Z) :=
  first_group (Z.to_nat (n_block_groups st)) 0 bg_free_blocks_count first_free_block st.
Definition first_free_inode_num st : outcome (ext2_st S A * option Z) :=
  first_group (Z.to_nat (n_block_groups st)) 0 bg_free_inodes_count first_free_inode st.

(** [a / b] and [a % b] on unsigned integers. *)
Definition div_u (a b : Z) : outcome Z := if b =? 0 then Fault else mret (a / b).
Definition mod_u (a b : Z) : outcome Z := if b =? 0 then Fault else mret (a mod b).

Definition mark_bit (block bit val : Z) st : outcome (ext2_st S A) :=
  '(st, bitmap) ← read_stack_blk block st;
  bitmap ← (if val =? 1 then set_bit bitmap bit else unset_bit bitmap bit);
  write_blk block bitmap st.
Definition mark_block (block_num val : Z) st : outcome (ext2_st S A) :=
  q ← div_u block_num (s_blocks_per_group (super st));
  d ← deref (bgdt st !! Z.to_nat (u16 q));
  r ← mod_u block_num (s_inodes_per_group (super st));
  mark_bit (bg_block_bitmap d) (u16 r) val st.
Definition set_block_bitmap (block_num : Z) st := mark_block block_num 1 st.
Definition unset_block_bitmap (block_num : Z) st := mark_block block_num 0 st.

Definition mark_inode (inode_num val : Z) st : outcome (ext2_st S A) :=
  q ← div_u (u32 (inode_num - 1)) (s_inodes_per_group (super st));
  d ← deref (bgdt st !! Z.to_nat (u16 q));
  r ← mod_u (u32 (inode_num - 1)) (s_inodes_per_group (super st));
  mark_bit (bg_inode_bitmap d) (u16 r) val st.
Definition set_inode_bitmap (inode_num : Z) st := mark_inode inode_num 1 st.
Definition unset_inode_bitmap (inode_num : Z) st := mark_inode inode_num 0 st.

Definition update_inode_bg_desc (free_inode_n : Z) st : outcome bgdesc_t :=
  q ← div_u (u32 (free_inode_n - 1)) (s_blocks_per_group (super st));
  d ← deref (bgdt st !! Z.to_nat (u16 q));
  mret (mk_bgdesc (bg_block_bitmap d) (bg_inode_bitmap d) (bg_inode_table d) (bg_free_blocks_count d)
          (u16 (bg_free_inodes_count d - 1)) (u16 (bg_used_dirs_count d + 1)) (bg_pad d) (bg_reserved d)).
Definition update_block_bg_desc (free_block_n : Z) st : outcome bgdesc_t :=
  q ← div_u free_block_n (s_blocks_per_group (super st));
  d ← deref (bgdt st !! Z.to_nat (u16 q));
  mret (mk_bgdesc (bg_block_bitmap d) (bg_inode_bitmap d) (bg_inode_table d) (u16 (bg_free_blocks_count d - 1))
          (bg_free_inodes_count d) (bg_used_dirs_count d) (bg_pad d) (bg_reserved d)).

Definition disk_sync_bgdt st : outcome (ext2_st S A) :=
  let lim := n_block_groups st * Z.of_nat (sizeof_struct bgdesc_t) in
  let bytes := take (Z.to_nat lim) (bgdt st ≫= encode) in
  if decide (Z.of_nat (length bytes) < lim \/ EXT2_BLK_SIZE < lim) then Fault
  else
    let buf := bytes ++ replicate (Z.to_nat (EXT2_BLK_SIZE - lim)) 0 in
    st ← write_blk BGDT_BLK_NO buf st;
    write_blk (u32 (BGDT_BLK_NO + s_blocks_per_group (super st))) buf st.

Definition disk_sync_super st : outcome (ext2_st S A) :=
  st ← write_blk 1 (encode (super st)) st;
  write_blk (u32 (1 + s_blocks_per_group (super st))) (encode (super st)) st.

Definition reserve_free_block st : outcome (ext2_st S A * option Z) :=
  '(st, r) ← first_free_block_num st;
  match r with
  | None => mret (st, None)
  | Some block_n =>
      st ← set_block_bitmap block_n st;
      _ ← update_block_bg_desc block_n st;
      st ← disk_sync_bgdt st;
      let b := super st in
      st ← disk_sync_super (set_super (with_free_counts (s_free_blocks_count b - 1) (s_free_inodes_count b) b) st);
      mret (st, Some block_n)
  end.

Definition reserve_inode (inode_n : Z) st : outcome (ext2_st S A) :=
  st ← set_inode_bitmap inode_n st;
  _ ← update_inode_bg_desc inode_n st;
  st ← disk_sync_bgdt st;
  let b := super st in
  disk_sync_super (set_super (with_free_counts (s_free_blocks_count b) (s_free_inodes_count b - 1) b) st).

Definition reserve_free_inode st : outcome (ext2_st S A * option Z) :=
  '(st, r) ← first_free_inode_num st;
  match r with
  | None => mret (st, None)
  | Some inode_n => st ← reserve_inode inode_n st; mret (st, Some inode_n)
  end.

End balloc.
