(* ===== verification/BallocProofs.v ===== *)
(** * Bitmaps and allocation in ext2

    [bm_bit l j] is bit [j] of a bitmap.  The reservation of a block or an
    inode is described on the disk by blocks ([block_of] of MkfsProofs.v). *)

From S2P Require Import Prelude Layout Ports Disk BufferCache Ext2Layout Mkfs MkfsProofs Ext2Balloc.

(** ** Bits of a bitmap *)

Definition bm_bit (l : list Z) (j : Z) : bool := Z.testbit (nth (Z.to_nat (j / 8)) l 0) (j mod 8).
Definition bitmap_wf (l : list Z) : Prop := length l = 1024%nat /\ bytes_ok l.

Lemma bitmap_byte_bit P k j : 0 <= j < 8 -> Z.testbit (bitmap_byte P k) j = P (8 * k + j).
Proof.
  intros Hj. unfold bitmap_byte. change (seqZ 0 8) with [0; 1; 2; 3; 4; 5; 6; 7]. cbn [foldr].
  assert (j = 0 \/ j = 1 \/ j = 2 \/ j = 3 \/ j = 4 \/ j = 5 \/ j = 6 \/ j = 7) as Hc by lia.
  repeat (destruct Hc as [-> | Hc]); [..|subst j];
    destruct (P (8 * k + 0)), (P (8 * k + 1)), (P (8 * k + 2)), (P (8 * k + 3)), (P (8 * k + 4)),
      (P (8 * k + 5)), (P (8 * k + 6)), (P (8 * k + 7)); reflexivity.
Qed.

Lemma bm_bit_bitmap_of P j : 0 <= j < 8192 -> bm_bit (bitmap_of P) j = P j.
Proof.
  intros Hj. unfold bm_bit, bitmap_of. pose proof (Z.div_mod j 8 ltac:(lia)). pose proof (Z.mod_pos_bound j 8 ltac:(lia)).
  assert (0 <= j / 8 < 1024) by lia.
  rewrite (nth_indep _ 0 (bitmap_byte P 0)) by (rewrite length_fmap, length_seqZ; lia).
  change (bitmap_byte P <$> seqZ 0 1024) with (List.map (bitmap_byte P) (seqZ 0 1024)). rewrite List.map_nth.
  assert (E : nth (Z.to_nat (j / 8)) (seqZ 0 1024) 0 = j / 8).
  { apply nth_lookup_Some with (d := 0). rewrite lookup_seqZ. lia. }
  rewrite E, bitmap_byte_bit by lia. f_equal. lia.
Qed.

Lemma bitmap_wf_of P : bitmap_wf (bitmap_of P).
Proof.
  split; [apply length_bitmap_of|]. apply Forall_fmap, Forall_forall. intros k _. cbn [compose].
  unfold bitmap_byte. change (seqZ 0 8) with [0; 1; 2; 3; 4; 5; 6; 7]. cbn [foldr].
  repeat match goal with |- context [if ?c then _ else _] => destruct c end; vm_compute; split; congruence.
Qed.

Lemma byte_lookup l i : bitmap_wf l -> 0 <= i < 8192 ->
  exists b, l !! Z.to_nat (i / 8) = Some b /\ 0 <= b < 256 /\ nth (Z.to_nat (i / 8)) l 0 = b.
Proof.
  intros [Hl Hb] Hi. pose proof (Z.div_mod i 8 ltac:(lia)). pose proof (Z.mod_pos_bound i 8 ltac:(lia)).
  destruct (lookup_lt_is_Some_2 l (Z.to_nat (i / 8))) as [b Eb]; [lia|]. exists b. split; [done|].
  split; [by apply (Forall_lookup_1 _ _ _ _ Hb Eb)|]. by apply nth_lookup_Some.
Qed.

(** set_bit sets bit [i] and no other; unset_bit flips it. *)
Lemma update_bit_spec f l i (g : bool -> bool -> bool) :
  (forall b v n, 0 <= n -> Z.testbit (f b v) n = g (Z.testbit b n) (Z.testbit v n)) ->
  (forall x, g x false = x) -> bitmap_wf l -> 0 <= i < 8192 ->
  exists l', (b ← deref (l !! Z.to_nat (i / 8)); mret (<[Z.to_nat (i / 8) := u8 (f b (Z.shiftl 1 (i mod 8)))]> l)) = Ret l' /\
    bitmap_wf l' /\ forall j, 0 <= j < 8192 -> bm_bit l' j = if j =? i then g (bm_bit l i) true else bm_bit l j.
Proof.
  intros Hf Hg Hwf Hi. destruct (byte_lookup l i Hwf Hi) as (b & Eb & Hb & Hnb). rewrite Eb. cbn [deref]. bind_rets.
  eexists. split; [done|]. destruct Hwf as [Hl Hbs]. split.
  - split; [by rewrite length_insert|]. apply Forall_insert; [done|]. apply u8_range.
  - intros j Hj. unfold bm_bit.
    pose proof (Z.div_mod i 8 ltac:(lia)). pose proof (Z.mod_pos_bound i 8 ltac:(lia)).
    pose proof (Z.div_mod j 8 ltac:(lia)). pose proof (Z.mod_pos_bound j 8 ltac:(lia)).
    destruct (decide (j / 8 = i / 8)) as [E|E].
    + assert (En : nth (Z.to_nat (j / 8)) (<[Z.to_nat (i / 8) := u8 (f b (Z.shiftl 1 (i mod 8)))]> l) 0
                   = u8 (f b (Z.shiftl 1 (i mod 8)))).
      { apply nth_lookup_Some with (d := 0). rewrite E. apply list_lookup_insert_eq. lia. }
      rewrite En, E, Hnb. unfold u8. rewrite Z.mod_pow2_bits_low, Hf, Z.shiftl_1_l, testbit_pow2 by lia.
      destruct (Z.eqb_spec j i) as [->|]; [by rewrite Z.eqb_refl|].
      destruct (Z.eqb_spec (i mod 8) (j mod 8)); [lia|apply Hg].
    + destruct (Z.eqb_spec j i) as [->|]; [done|]. f_equal.
      rewrite !nth_lookup, list_lookup_insert_ne by lia. done.
Qed.

Lemma set_bit_spec l i : bitmap_wf l -> 0 <= i < 8192 ->
  exists l', set_bit l i = Ret l' /\ bitmap_wf l' /\
    forall j, 0 <= j < 8192 -> bm_bit l' j = if j =? i then true else bm_bit l j.
Proof.
  intros. destruct (update_bit_spec Z.lor l i orb) as (l' & E & Hwf & Hb); [|apply orb_false_r|done..|].
  { intros. by rewrite Z.lor_spec. }
  exists l'. split; [done|]. split; [done|]. intros j Hj. rewrite Hb by done. by rewrite orb_true_r.
Qed.
Lemma unset_bit_spec l i : bitmap_wf l -> 0 <= i < 8192 ->
  exists l', unset_bit l i = Ret l' /\ bitmap_wf l' /\
    forall j, 0 <= j < 8192 -> bm_bit l' j = if j =? i then negb (bm_bit l i) else bm_bit l j.
Proof.
  intros. destruct (update_bit_spec Z.lxor l i xorb) as (l' & E & Hwf & Hb); [|apply xorb_false_r|done..|].
  { intros. by rewrite Z.lxor_spec. }
  exists l'. split; [done|]. split; [done|]. intros j Hj. rewrite Hb by done. by rewrite xorb_true_r.
Qed.

(** Two bitmaps with the same bits are equal. *)
Lemma bitmap_ext l l' : bitmap_wf l -> bitmap_wf l' ->
  (forall j, 0 <= j < 8192 -> bm_bit l j = bm_bit l' j) -> l = l'.
Proof.
  intros [Hl Hb] [Hl' Hb'] He. apply list_eq_same_length with (n := 1024%nat); [done|done|].
  intros k x y Hk Hx Hy. pose proof (Forall_lookup_1 _ _ _ _ Hb Hx) as Hbx. pose proof (Forall_lookup_1 _ _ _ _ Hb' Hy) as Hby. cbn beta in Hbx, Hby.
  apply Z.bits_inj'. intros n Hn. destruct (decide (n < 8)).
  - specialize (He (8 * Z.of_nat k + n) ltac:(lia)). unfold bm_bit in He.
    replace ((8 * Z.of_nat k + n) / 8) with (Z.of_nat k) in He.
    2: { apply (Z.div_unique_pos _ 8 _ n); lia. }
    replace ((8 * Z.of_nat k + n) mod 8) with n in He.
    2: { apply (Z.mod_unique_pos _ 8 (Z.of_nat k)); lia. }
    rewrite Nat2Z.id in He. by rewrite (nth_lookup_Some _ _ _ _ Hx), (nth_lookup_Some _ _ _ _ Hy) in He.
  - replace x with (x mod 2 ^ 8) by (apply Z.mod_small; lia). replace y with (y mod 2 ^ 8) by (apply Z.mod_small; lia).
    by rewrite !Z.mod_pow2_bits_high by lia.
Qed.

(** ** The search for a clear bit *)

(** [r] is the first clear bit from [a] on, or 0 when there is none. *)
Definition first_clear (l : list Z) (a r : Z) : Prop :=
  (a <= r < 8192 /\ bm_bit l r = false /\ forall j, a <= j < r -> bm_bit l j = true) \/
  (r = 0 /\ forall j, a <= j < 8192 -> bm_bit l j = true).

Definition byte_check (b : Z) : bool :=
  match first_zero 8 0 b with
  | Ret k => (0 <=? k) && (k <? 8) && negb (Z.testbit b k) && forallb (Z.testbit b) (seqZ 0 k)
  | _ => false
  end || (b =? 255).
Lemma first_zero_spec b : 0 <= b < 256 -> b <> 255 ->
  exists k, first_zero 8 0 b = Ret k /\ 0 <= k < 8 /\ Z.testbit b k = false /\
    forall k', 0 <= k' < k -> Z.testbit b k' = true.
Proof.
  intros Hb Hne. assert (Hc : byte_check b = true).
  { clear Hne. revert b Hb. apply (forall_seqZ (fun b => byte_check b = true)). vm_compute. reflexivity. }
  unfold byte_check in Hc. destruct (first_zero 8 0 b) as [k| |]; [|simpl in Hc; apply Z.eqb_eq in Hc; lia..].
  rewrite (proj2 (Z.eqb_neq b 255)), orb_false_r in Hc by done.
  apply andb_true_iff in Hc as [Hc Hall]. apply andb_true_iff in Hc as [Hc Hk]. apply andb_true_iff in Hc as [Hk1 Hk2].
  exists k. apply Z.leb_le in Hk1. apply Z.ltb_lt in Hk2. apply negb_true_iff in Hk. repeat split; [lia..|done|].
  intros k' Hk'. rewrite forallb_forall in Hall. apply Hall, list_elem_of_In, elem_of_seqZ. lia.
Qed.

Lemma full_byte b k : b = 255 -> 0 <= k < 8 -> Z.testbit b k = true.
Proof.
  intros -> Hk. change 255 with (Z.ones 8). apply Z.ones_spec_low. lia.
Qed.

Lemma bm_bit_byte l j k b : nth (Z.to_nat j) l 0 = b -> 0 <= j -> 0 <= k < 8 -> bm_bit l (8 * j + k) = Z.testbit b k.
Proof.
  intros Hb Hj Hk. unfold bm_bit. replace ((8 * j + k) / 8) with j by (apply (Z.div_unique_pos _ 8 _ k); lia).
  replace ((8 * j + k) mod 8) with k by (apply (Z.mod_unique_pos _ 8 j); lia). by rewrite Hb.
Qed.

(** Every index of the byte [j] is [8 j + k]. *)
Lemma byte_index j i : 8 * j <= i < 8 * j + 8 -> exists k, 0 <= k < 8 /\ i = 8 * j + k.
Proof. intros. exists (i - 8 * j). lia. Qed.

Lemma first_clear_below l lo hi r : lo <= hi ->
  (forall i, lo <= i < hi -> bm_bit l i = true) -> first_clear l hi r -> first_clear l lo r.
Proof.
  intros Hle Hset [(Hr & Hc & Hall)|(-> & Hall)]; [left|right]; (split; [lia|]); [split; [done|]|];
    intros i Hi; (destruct (decide (i < hi)); [apply Hset|apply Hall]; lia).
Qed.

(** Byte [j] of the bitmap is full, or [first_zero] finds its first clear bit. *)
Lemma byte_search l j : bitmap_wf l -> 0 <= j < 1024 ->
  exists b, l !! Z.to_nat j = Some b /\
    ((b = 255 /\ forall i, 8 * j <= i < 8 * j + 8 -> bm_bit l i = true) \/
     (b <> 255 /\ exists k, first_zero 8 0 b = Ret k /\ 0 <= k < 8 /\ u16 (j * 8 + k) = 8 * j + k /\
        bm_bit l (8 * j + k) = false /\ forall i, 8 * j <= i < 8 * j + k -> bm_bit l i = true)).
Proof.
  intros Hwf Hj. destruct (byte_lookup l (8 * j) Hwf) as (b & Eb & Hb & Hnb); [lia|].
  assert (Ej : 8 * j / 8 = j) by (symmetry; apply (Z.div_unique_pos _ 8 _ 0); lia). rewrite Ej in Eb, Hnb.
  exists b. split; [done|]. destruct (decide (b = 255)) as [E|Hne]; [left|right]; (split; [done|]).
  - intros i (k & Hk & ->)%byte_index. rewrite (bm_bit_byte l j k b) by lia. by apply full_byte.
  - destruct (first_zero_spec b Hb Hne) as (k & Rk & Hk & Hc & Hall). exists k.
    rewrite u16_small, (bm_bit_byte l j k b) by lia. split; [done|]. split; [done|]. split; [lia|]. split; [done|].
    intros i Hi. destruct (byte_index j i) as (k' & Hk' & ->); [lia|].
    rewrite (bm_bit_byte l j k' b) by lia. apply Hall. lia.
Qed.

Lemma first_free_loop_spec l a n : bitmap_wf l -> forall j,
  n = Z.to_nat (1024 - j) -> 0 <= j <= 1024 -> a <= 8 * j ->
  exists r, first_free_loop n j l a = Ret r /\ first_clear l (8 * j) r.
Proof.
  intros Hwf. induction n as [|n IH]; intros j En Hj Ha; cbn [first_free_loop].
  { exists 0. split; [done|]. right. split; [done|]. intros; lia. }
  destruct (byte_search l j Hwf) as (b & Eb & Hb); [lia|]. rewrite Eb. cbn [deref]. rewrite bind_Ret.
  destruct Hb as [(-> & Hset)|(Hne & k & Rk & Hk & Eu & Hc & Hall)].
  - destruct (IH (j + 1)) as (r & Rr & Hr); [lia..|]. replace (8 * (j + 1)) with (8 * j + 8) in Hr by lia.
    exists r. split; [done|]. by apply (first_clear_below _ _ (8 * j + 8)); [lia|..].
  - rewrite (proj2 (Z.eqb_neq b 255)), Rk, bind_Ret by done. cbv zeta. rewrite Eu.
    rewrite (proj2 (Z.ltb_ge (8 * j + k) a)) by lia. exists (8 * j + k). split; [done|]. left. split; [lia|]. by split.
Qed.

(** Where the search starts: a clear bit below [a] in its byte makes it skip
    the whole byte. *)
Definition search_from (l : list Z) (a : Z) : Z :=
  if forallb (bm_bit l) (seqZ (8 * (a / 8)) (a mod 8)) then a else 8 * (a / 8) + 8.

Lemma search_from_0 l : search_from l 0 = 0.
Proof. done. Qed.

Lemma search_from_cases l a (s := a / 8) :
  (search_from l a = a /\ forall i, 8 * s <= i < a -> bm_bit l i = true) \/
  (search_from l a = 8 * s + 8 /\ exists i, 8 * s <= i < a /\ bm_bit l i = false).
Proof.
  pose proof (Z.div_mod a 8 ltac:(lia)) as Hdm. unfold search_from. fold s. fold s in Hdm.
  destruct (forallb _ _) eqn:Ef; [left|right]; (split; [done|]).
  - rewrite forallb_forall in Ef. intros i Hi. apply Ef, list_elem_of_In, elem_of_seqZ. lia.
  - apply not_true_iff_false in Ef. rewrite forallb_forall in Ef.
    destruct (decide (Exists (fun i => bm_bit l i = false) (seqZ (8 * s) (a mod 8)))) as [Hx|Hx].
    + apply Exists_exists in Hx as (i & Hi%elem_of_seqZ & E). exists i. split; [lia|done].
    + exfalso. apply Ef. intros i Hi%list_elem_of_In. destruct (bm_bit l i) eqn:E; [done|].
      exfalso. apply Hx, Exists_exists. eauto.
Qed.

Lemma first_free_bm_spec l a : bitmap_wf l -> 0 <= a < 256 ->
  exists r, first_free_bm l a = Ret r /\ first_clear l (search_from l a) r.
Proof.
  intros Hwf Ha. pose proof (Z.div_mod a 8 ltac:(lia)) as Hdm. pose proof (Z.mod_pos_bound a 8 ltac:(lia)) as Hm.
  pose proof (search_from_cases l a) as Hsf. cbv zeta in Hsf.
  unfold first_free_bm, EXT2_BLK_SIZE. set (s := a / 8) in *.
  assert (En : Z.to_nat (1024 - s) = Datatypes.S (Z.to_nat (1024 - (s + 1)))) by lia.
  rewrite En. cbn [first_free_loop].
  destruct (first_free_loop_spec l a _ Hwf (s + 1) eq_refl) as (r & Rr & Hr); [lia..|].
  replace (8 * (s + 1)) with (8 * s + 8) in Hr by lia.
  destruct (byte_search l s Hwf) as (b & Eb & Hb); [lia|]. rewrite Eb. cbn [deref]. rewrite bind_Ret.
  destruct Hb as [(-> & Hset)|(Hne & k & Rk & Hk & Eu & Hc & Hall)].
  - exists r. split; [done|]. destruct Hsf as [(-> & _)|(_ & i & Hi & E)]; [|rewrite Hset in E by lia; done].
    apply (first_clear_below _ _ (8 * s + 8)); [lia| |done]. intros. apply Hset. lia.
  - rewrite (proj2 (Z.eqb_neq b 255)), Rk, bind_Ret by done. cbv zeta. rewrite Eu.
    destruct Hsf as [(-> & Hlow)|(-> & i & Hi & E)].
    + assert (a <= 8 * s + k).
      { destruct (decide (a <= 8 * s + k)); [done|]. rewrite Hlow in Hc by lia. done. }
      rewrite (proj2 (Z.ltb_ge (8 * s + k) a)) by lia. exists (8 * s + k). split; [done|]. left.
      split; [lia|]. split; [done|]. intros j Hj. apply Hall. lia.
    + assert (8 * s + k <= i).
      { destruct (decide (8 * s + k <= i)); [done|]. rewrite Hall in E by lia. done. }
      rewrite (proj2 (Z.ltb_lt (8 * s + k) a)) by lia. exists r. by split.
Qed.

Lemma first_clear_unique l a r r' : first_clear l a r -> first_clear l a r' -> r = r'.
Proof.
  intros [(Hr & Hc & Hall)|(-> & Hall)] [(Hr' & Hc' & Hall')|(-> & Hall')]; [|..|done].
  - destruct (Z.lt_trichotomy r r') as [Hlt|[Heq|Hlt] ]; [|done|].
    + rewrite Hall' in Hc by lia. done.
    + rewrite Hall in Hc' by lia. done.
  - rewrite Hall' in Hc by lia. done.
  - rewrite Hall in Hc' by lia. done.
Qed.
Lemma first_free_bm_eq l a r : bitmap_wf l -> 0 <= a < 256 ->
  first_clear l (search_from l a) r -> first_free_bm l a = Ret r.
Proof.
  intros Hwf Ha Hr. destruct (first_free_bm_spec l a Hwf Ha) as (r' & -> & Hr').
  by rewrite (first_clear_unique _ _ _ _ Hr Hr').
Qed.
(** Setting the bit below the one found does not change what is found. *)
Lemma first_clear_set_below l l' r : 11 <= r < 8192 ->
  (forall j, 0 <= j < 8192 -> bm_bit l' j = if j =? r - 1 then true else bm_bit l j) ->
  first_clear l (search_from l 11) r -> first_clear l' (search_from l' 11) r.
Proof.
  intros Hr Hbits Hfc.
  assert (Hsf : search_from l' 11 = search_from l 11).
  { assert (Hlow : forall i, 8 <= i < 11 -> bm_bit l' i = bm_bit l i).
    { intros i Hi. rewrite Hbits by lia. destruct (Z.eqb_spec i (r - 1)); [|done].
      destruct (search_from_cases l 11) as [(_ & Hset)|(E & _)].
      - symmetry. apply Hset. change (8 * (11 / 8)) with 8. lia.
      - destruct Hfc as [(Hge & _)|(-> & _)]; [|lia]. rewrite E in Hge. change (8 * (11 / 8) + 8) with 16 in Hge. lia. }
    unfold search_from. change (seqZ (8 * (11 / 8)) (11 mod 8)) with [8; 9; 10]. cbn [forallb].
    by rewrite !Hlow by lia. }
  rewrite Hsf. assert (11 <= search_from l 11).
  { unfold search_from. change (8 * (11 / 8) + 8) with 16. by destruct (forallb _ _). }
  destruct Hfc as [(Hge & Hc & Hall)|(-> & _)]; [left|lia]. split; [done|]. split.
  - rewrite Hbits by lia. by rewrite (proj2 (Z.eqb_neq r (r - 1))) by lia.
  - intros j Hj. rewrite Hbits by lia. destruct (j =? r - 1); [done|]. by apply Hall.
Qed.

Lemma first_clear_bit l a r : first_clear l a r -> r <> 0 -> a <= r < 8192 /\ bm_bit l r = false.
Proof. intros [(Hr & Hc & _)|(-> & _)]; [by split|done]. Qed.

(** The reference: the least index from [a] on whose bit is clear, else 0. *)
Definition reference_search (l : list Z) (a : Z) : Z :=
  default 0 (head (filter (fun j => bm_bit l j = false) (seqZ a (8192 - a)))).

Lemma reference_search_spec l a : 0 <= a -> first_clear l a (reference_search l a).
Proof.
  intros Ha. unfold reference_search.
  assert (Hgen : forall n a, 0 <= a -> Z.of_nat n = 8192 - a ->
    first_clear l a (default 0 (head (filter (fun j => bm_bit l j = false) (seqZ a (8192 - a)))))).
  { clear a Ha. induction n as [|n IH]; intros a Ha Hn.
    - rewrite seqZ_nil by lia. right. split; [done|]. intros; lia.
    - rewrite seqZ_cons, filter_cons by lia. destruct (decide (bm_bit l a = false)) as [E|E].
      + left. split; [cbn; lia|]. split; [done|]. cbn. intros; lia.
      + apply not_false_iff_true in E. apply (first_clear_below _ _ (a + 1)); [lia| |].
        * intros i Hi. by replace i with a by lia.
        * replace (Z.succ a) with (a + 1) by lia. replace (Z.pred (8192 - a)) with (8192 - (a + 1)) by lia.
          apply IH; lia. }
  destruct (decide (a <= 8192)); [apply (Hgen (Z.to_nat (8192 - a))); lia|].
  rewrite seqZ_nil by lia. right. split; [done|]. intros; lia.
Qed.

(** C26. The search by bytes against the bit by bit search.  When the byte of the
    start position has no clear bit below it - so always when the start is a
    multiple of 8, as for blocks - first_free_bm returns what scanning the bits
    one by one from the start finds.  When it has one, the code leaves the whole
    byte, and returns what scanning from the next byte finds: a clear bit
    between the start and the end of the byte is missed. *)
Theorem first_free_bm_reference l a :
  bitmap_wf l -> 0 <= a < 256 ->
  ((forall i, 8 * (a / 8) <= i < a -> bm_bit l i = true) -> first_free_bm l a = Ret (reference_search l a)) /\
  ((exists i, 8 * (a / 8) <= i < a /\ bm_bit l i = false) ->
     first_free_bm l a = Ret (reference_search l (8 * (a / 8) + 8))).
Proof.
  intros Hwf Ha. assert (Hs : first_free_bm l a = Ret (reference_search l (search_from l a))).
  { apply first_free_bm_eq; [done|done|]. apply reference_search_spec.
    destruct (search_from_cases l a) as [[-> _]|[-> _] ]; [lia|]. pose proof (Z.div_pos a 8). lia. }
  split.
  - intros Hall. destruct (search_from_cases l a) as [[E _]|(_ & i & Hi & Hb)]; [by rewrite Hs, E|]. by rewrite Hall in Hb.
  - intros (i & Hi & Hb). destruct (search_from_cases l a) as [[_ Hall]|[E _] ]; [by rewrite Hall in Hb|]. by rewrite Hs, E.
Qed.

(** From 0 the searches agree; from 11, the first inode to hand out, on a bitmap
    where 10 is clear, they do not. *)
Lemma first_free_bm_reference_witness :
  first_free_bm (bitmap_of (fun j => (j <? 10) || (j =? 12))) 0 =
    Ret (reference_search (bitmap_of (fun j => (j <? 10) || (j =? 12))) 0) /\
  first_free_bm (bitmap_of (fun j => (j <? 10) || (j =? 12))) 11 =
    Ret (reference_search (bitmap_of (fun j => (j <? 10) || (j =? 12))) 16) /\
  reference_search (bitmap_of (fun j => (j <? 10) || (j =? 12))) 11 = 11.
Proof.
  split; [|split; [|by vm_compute] ].
  - apply (proj1 (first_free_bm_reference (bitmap_of _) 0 (bitmap_wf_of _) ltac:(lia))). intros i Hi. exfalso. change (8 * (0 / 8)) with 0 in Hi. lia.
  - apply (proj2 (first_free_bm_reference (bitmap_of _) 11 (bitmap_wf_of _) ltac:(lia))). exists 10. change (8 * (11 / 8)) with 8. split; [lia|by vm_compute].
Defined.


(** ** Blocks of a mounted file system *)

Section mounted.
Context {S A : Type} `{HIO : PortIO S} `{HD : !AtaDevice S}.
Variables (p : nat) (lba0 : Z).
Hypothesis Hp : (patience_bound <= p)%nat.
Hypothesis Hlba : 0 <= lba0.
Implicit Types st : ext2_st S A.

(** The state read_fs is meant to establish. *)
Record mounted st : Prop := {
  mt_set : start_set st = true;
  mt_start : fs_start st = lba0;
  mt_log : s_log_block_size (super st) = 0;
  mt_bpg : s_blocks_per_group (super st) = 8192;
  mt_ipg : s_inodes_per_group (super st) = 1024;
  mt_super : struct_wf (super st);
  mt_groups : 1 <= n_block_groups st <= 32;
  mt_bgdt : length (bgdt st) = 1024%nat;
  mt_descs : Forall struct_wf (bgdt st);
  mt_disk : sized (dev st);
  mt_end : lba0 + 2 * 8195 <= 2 ^ 24;
}.
Definition blk st (b : Z) : list Z := block_of lba0 (dev st) b.
Definition in_disk (b : Z) : Prop := 0 <= b /\ lba0 + 2 * b + 2 <= 2 ^ 24.

(** disk_read_blk of a located file system with blocks of 1024 bytes. *)
Lemma disk_read_blk_spec g b (s : S) :
  fs_start_set g = true -> filesys_start g = lba0 -> BufferCache.s_log_block_size g = 0 -> in_disk b ->
  exists s', disk_read_blk p g b s = Ret (s', Some (block_of lba0 s b)) /\ disk (view s') = disk (view s).
Proof.
  intros Eset Es Elog [Hb He]. unfold disk_read_blk, BufferCache.SECTORS_PER_BLOCK, S_BLOCK_SIZE.
  rewrite Eset, Es, Elog. change (Z.shiftl 1024 0 / 512) with 2. cbn [negb]. cbv zeta.
  change (Z.to_nat 2) with 2%nat. cbn [read_blk_loop]. rewrite (u32_small (b * 2)), (u32_small (lba0 + b * 2)) by lia.
  replace (lba0 + b * 2) with (lba0 + 2 * b) by lia.
  destruct (disk_read_sector p (lba0 + 2 * b) s) as (s1 & R1 & Hd1); [done|lia|]. rewrite R1, bind_Ret.
  rewrite u32_small by lia.
  destruct (disk_read_sector p (lba0 + 2 * b + 1) s1) as (s2 & R2 & Hd2); [done|lia|]. rewrite R2.
  bind_rets. rewrite app_nil_r, Hd1. exists s2. split; [done|]. by rewrite Hd2, Hd1.
Qed.

Lemma globals_lba st b : mounted st -> in_disk b ->
  u32 (filesys_start (globals st) + u32 (b * BufferCache.SECTORS_PER_BLOCK (globals st))) = lba0 + 2 * b /\
  BufferCache.SECTORS_PER_BLOCK (globals st) = 2 /\ fs_start_set (globals st) = true.
Proof.
  intros Hm [Hb He]. unfold globals, BufferCache.SECTORS_PER_BLOCK, S_BLOCK_SIZE.
  cbn [filesys_start fs_start_set BufferCache.s_log_block_size].
  rewrite (mt_set st Hm), (mt_start st Hm), (mt_log st Hm). change (Z.shiftl 1024 0 / 512) with 2.
  rewrite (u32_small (b * 2)), u32_small by lia. split; [lia|done].
Qed.

Lemma length_blk st b : mounted st -> length (blk st b) = 1024%nat.
Proof. intros Hm. unfold blk, block_of, fs_block. by rewrite length_app, !(mt_disk st Hm). Qed.

Lemma mounted_set_dev s st : mounted st -> sized s -> mounted (set_dev s st).
Proof. intros [] Hs. by constructor. Qed.

Lemma read_stack_blk_spec st b : mounted st -> in_disk b ->
  exists s', read_stack_blk p b st = Ret (set_dev s' st, blk st b) /\ disk (view s') = disk (view (dev st)).
Proof.
  intros Hm Hb. unfold read_stack_blk.
  destruct (disk_read_blk_spec (globals st) b (dev st)) as (s' & R & Hd); [apply Hm..|done|].
  rewrite R, bind_Ret. cbn [deref]. bind_rets. change (block_of lba0 (dev st) b) with (blk st b).
  rewrite decide_True by (by rewrite length_blk). by exists s'.
Qed.

Lemma write_blk_spec st b buf : mounted st -> in_disk b -> length buf = 1024%nat ->
  exists s', write_blk p b buf st = Ret (set_dev s' st) /\ sized s' /\
    forall b', block_of lba0 s' b' = if decide (b' = b) then buf else blk st b'.
Proof.
  intros Hm Hb Hl. destruct (globals_lba st b Hm Hb) as (El & Es & Eset). destruct Hb as [Hb He].
  unfold write_blk, disk_write_blk. rewrite Eset, El, Es. cbn [negb]. cbv zeta.
  change (Z.to_nat 2) with 2%nat. cbn [write_blk_loop]. rewrite (decide_False (P := (length buf < 512)%nat)) by lia.
  destruct (disk_write_sectors p (lba0 + 2 * b) buf 512 (dev st)) as (s1 & R1 & Hd1);
    [done|lia|lia|change (sectors 512) with 1; lia|]. rewrite R1, bind_Ret, u32_small by lia.
  rewrite decide_False by (rewrite length_drop; lia).
  destruct (disk_write_sectors p (lba0 + 2 * b + 1) (drop 512 buf) 512 s1) as (s2 & R2 & Hd2);
    [done|lia|rewrite length_drop; lia|change (sectors 512) with 1; lia|]. rewrite R2. bind_rets. exists s2. split; [done|].
  assert (Hd : forall l, disk (view s2) l = write_span (lba0 + 2 * b) buf 1024 (disk (view (dev st))) l).
  { intros l. rewrite Hd2. unfold write_span. rewrite Hd1. unfold write_span.
    destruct (decide (l = lba0 + 2 * b)) as [-> |]; [|destruct (decide (l = lba0 + 2 * b + 1)) as [-> |] ].
    - rewrite decide_False, !decide_True by lia. f_equal. lia.
    - rewrite !decide_True by lia. replace (lba0 + 2 * b + 1 - (lba0 + 2 * b + 1)) with 0 by lia.
      replace (lba0 + 2 * b + 1 - (lba0 + 2 * b)) with 1 by lia. done.
    - by rewrite !decide_False by lia. }
  split.
  - intros l. rewrite Hd. unfold write_span. case_decide as Hc; [|apply (mt_disk st Hm)].
    replace (Z.min 512 (1024 - 512 * (l - (lba0 + 2 * b)))) with (Z.of_nat 512) by lia.
    apply length_pad; [lia|]. rewrite length_drop. lia.
  - intros b'. unfold blk, block_of. rewrite <- write_span_fs_block by done. unfold fs_block. by rewrite !Hd.
Qed.

Definition bgdt_bytes st : list Z :=
  take (Z.to_nat (n_block_groups st * 32)) (bgdt st ≫= encode) ++
  replicate (Z.to_nat (1024 - n_block_groups st * 32)) 0.

Lemma length_bgdt_bytes st : mounted st ->
  length (take (Z.to_nat (n_block_groups st * 32)) (bgdt st ≫= encode)) = Z.to_nat (n_block_groups st * 32) /\
  length (bgdt_bytes st) = 1024%nat.
Proof.
  intros Hm. pose proof (mt_groups st Hm). unfold bgdt_bytes. rewrite length_app, length_replicate, length_take.
  rewrite (length_bind_const _ 32), (mt_bgdt st Hm); [lia|]. eapply Forall_impl; [apply (mt_descs st Hm)|].
  intros d Hd. change 32%nat with (sizeof_struct bgdesc_t). by apply length_encode.
Qed.

Lemma disk_sync_bgdt_spec st : mounted st ->
  exists s', disk_sync_bgdt p st = Ret (set_dev s' st) /\ sized s' /\
    forall b, block_of lba0 s' b = if decide (b = 2 \/ b = 8194) then bgdt_bytes st else blk st b.
Proof.
  intros Hm. destruct (length_bgdt_bytes st Hm) as [Hl1 Hl2]. pose proof (mt_groups st Hm). pose proof (mt_end st Hm).
  unfold disk_sync_bgdt. change (Z.of_nat (sizeof_struct bgdesc_t)) with 32. cbv zeta.
  rewrite decide_False by (rewrite Hl1; unfold EXT2_BLK_SIZE; lia).
  change EXT2_BLK_SIZE with 1024. fold (bgdt_bytes st). unfold BGDT_BLK_NO.
  destruct (write_blk_spec st 2 (bgdt_bytes st) Hm) as (s1 & R1 & Hz1 & Hb1); [split; lia|done|]. rewrite R1, bind_Ret.
  destruct (write_blk_spec (set_dev s1 st) 8194 (bgdt_bytes st)) as (s2 & R2 & Hz2 & Hb2);
    [by apply mounted_set_dev|split; lia|done|].
  change (super (set_dev s1 st)) with (super st). rewrite (mt_bpg st Hm). change (u32 (2 + 8192)) with 8194. rewrite R2.
  exists s2. split; [done|]. split; [done|]. intros b. rewrite Hb2. change (blk (set_dev s1 st) b) with (block_of lba0 s1 b).
  rewrite Hb1. repeat case_decide; done || lia.
Qed.

Lemma disk_sync_super_spec st : mounted st ->
  exists s', disk_sync_super p st = Ret (set_dev s' st) /\ sized s' /\
    forall b, block_of lba0 s' b = if decide (b = 1 \/ b = 8193) then encode (super st) else blk st b.
Proof.
  intros Hm. pose proof (length_encode _ (mt_super st Hm)) as Hl. change (sizeof_struct ext2_super_block) with 1024%nat in Hl.
  pose proof (mt_end st Hm). unfold disk_sync_super.
  destruct (write_blk_spec st 1 (encode (super st)) Hm) as (s1 & R1 & Hz1 & Hb1); [split; lia|done|]. rewrite R1, bind_Ret.
  destruct (write_blk_spec (set_dev s1 st) 8193 (encode (super st))) as (s2 & R2 & Hz2 & Hb2);
    [by apply mounted_set_dev|split; lia|done|].
  change (super (set_dev s1 st)) with (super st). rewrite (mt_bpg st Hm). change (u32 (1 + 8192)) with 8193. rewrite R2.
  exists s2. split; [done|]. split; [done|]. intros b. rewrite Hb2. change (blk (set_dev s1 st) b) with (block_of lba0 s1 b).
  rewrite Hb1. repeat case_decide; done || lia.
Qed.

Lemma with_free_counts_wf x y b : struct_wf b -> struct_wf (with_free_counts x y b).
Proof.
  intros Hwf. unfold struct_wf.
  change (members (with_free_counts x y b)) with (<[3%nat := [u32 x] ]> (<[4%nat := [u32 y] ]> (members b))).
  change (shape ext2_super_block) with
    (<[3%nat := (1, 4)%nat]> (<[4%nat := (1, 4)%nat]> (shape ext2_super_block))).
  repeat apply Forall2_insert; [done|..]; (split; [done|]); (apply Forall_cons; split; [apply u32_range|done]).
Qed.

Lemma mounted_counts x y st : mounted st -> mounted (set_super (with_free_counts x y (super st)) st).
Proof. intros []. constructor; try done. by apply with_free_counts_wf. Qed.

(** Descriptors to disk, then the superblock with new counts. *)
Lemma commit_spec x y st : mounted st ->
  let sb := with_free_counts x y (super st) in
  exists s1 s', disk_sync_bgdt p st = Ret (set_dev s1 st) /\
    disk_sync_super p (set_super sb (set_dev s1 st)) = Ret (set_super sb (set_dev s' st)) /\
    sized s' /\
    forall b, block_of lba0 s' b =
      if decide (b = 1 \/ b = 8193) then encode sb
      else if decide (b = 2 \/ b = 8194) then bgdt_bytes st else blk st b.
Proof.
  intros Hm sb. destruct (disk_sync_bgdt_spec st Hm) as (s1 & R1 & Hz1 & Hb1).
  destruct (disk_sync_super_spec (set_super sb (set_dev s1 st))) as (s2 & R2 & Hz2 & Hb2).
  { apply (mounted_counts x y (set_dev s1 st)). by apply mounted_set_dev. }
  exists s1, s2. split; [done|]. split; [done|]. split; [done|]. intros b. rewrite Hb2.
  change (blk (set_super sb (set_dev s1 st)) b) with (block_of lba0 s1 b). by rewrite Hb1.
Qed.

Lemma mark_bit_spec st b bit : mounted st -> in_disk b -> bitmap_wf (blk st b) -> 0 <= bit < 8192 ->
  exists s' l', mark_bit p b bit 1 st = Ret (set_dev s' st) /\ sized s' /\
    bitmap_wf l' /\ (forall j, 0 <= j < 8192 -> bm_bit l' j = if j =? bit then true else bm_bit (blk st b) j) /\
    forall b', block_of lba0 s' b' = if decide (b' = b) then l' else blk st b'.
Proof.
  intros Hm Hb Hwf Hbit. unfold mark_bit. destruct (read_stack_blk_spec st b Hm Hb) as (s1 & R1 & Hd1).
  rewrite R1, bind_Ret. cbv iota beta. change (1 =? 1) with true. cbv iota.
  destruct (set_bit_spec (blk st b) bit Hwf Hbit) as (l' & Es & Hwf' & Hbits). rewrite Es, bind_Ret.
  assert (Hm1 : mounted (set_dev s1 st)).
  { apply mounted_set_dev; [done|]. intros l. rewrite Hd1. apply (mt_disk st Hm). }
  destruct (write_blk_spec (set_dev s1 st) b l' Hm1 Hb) as (s2 & R2 & Hz2 & Hb2); [apply Hwf'|].
  rewrite R2. exists s2, l'. repeat split; [done|apply Hwf'|apply Hwf'|done|]. intros b'. rewrite Hb2.
  unfold blk, block_of. change (dev (set_dev s1 st)) with s1. by rewrite Hd1.
Qed.

(** The disk after the reservation: superblock and descriptors written twice,
    the bitmap [bb] with one more bit. *)
Definition after_reserve st (sb : ext2_super_block) (bb : Z) (bm : list Z) (b : Z) : list Z :=
  if decide (b = 1 \/ b = 8193) then encode sb
  else if decide (b = 2 \/ b = 8194) then bgdt_bytes st
  else if decide (b = bb) then bm else blk st b.

Definition reserved (x y : Z) (s' : S) st : ext2_st S A :=
  set_super (with_free_counts x y (super st)) (set_dev s' st).

Lemma mounted_reserved x y s' st : mounted st -> sized s' -> mounted (reserved x y s' st).
Proof. intros Hm Hs. apply (mounted_counts x y (set_dev s' st)). by apply mounted_set_dev. Qed.

Lemma mark_commit_spec x y st bb bit :
  mounted st -> in_disk bb -> bitmap_wf (blk st bb) -> 0 <= bit < 8192 ->
  exists s1 s2 s' bm, mark_bit p bb bit 1 st = Ret (set_dev s1 st) /\
    disk_sync_bgdt p (set_dev s1 st) = Ret (set_dev s2 st) /\
    disk_sync_super p (set_super (with_free_counts x y (super st)) (set_dev s2 st)) = Ret (reserved x y s' st) /\
    mounted (reserved x y s' st) /\ bitmap_wf bm /\
    (forall j, 0 <= j < 8192 -> bm_bit bm j = if j =? bit then true else bm_bit (blk st bb) j) /\
    forall b, blk (reserved x y s' st) b = after_reserve st (with_free_counts x y (super st)) bb bm b.
Proof.
  intros Hm Hbb Hwf Hbit. destruct (mark_bit_spec st bb bit Hm Hbb Hwf Hbit) as (s1 & bm & R1 & Hz1 & Hwf1 & Hbits & Hb1).
  destruct (commit_spec x y (set_dev s1 st)) as (s2 & s3 & R2 & R3 & Hz3 & Hb3); [by apply mounted_set_dev|].
  exists s1, s2, s3, bm. split; [done|]. split; [done|]. split; [done|]. split; [by apply mounted_reserved|].
  split; [done|]. split; [done|]. intros b. change (blk (reserved x y s3 st) b) with (block_of lba0 s3 b).
  rewrite Hb3. change (blk (set_dev s1 st) b) with (block_of lba0 s1 b). rewrite Hb1. done.
Qed.

Lemma first_group_0 st count search d :
  mounted st -> bgdt st !! 0%nat = Some d -> count d <> 0 ->
  first_group (Z.to_nat (n_block_groups st)) 0 count search st =
    ('(st, b) ← (search d st : outcome (ext2_st S A * Z)); mret (st, Some b)).
Proof.
  intros Hm Hd Hc. pose proof (mt_groups st Hm). destruct (Z.to_nat (n_block_groups st)) as [|n] eqn:En; [lia|].
  cbn [first_group]. change (Z.to_nat 0) with 0%nat. rewrite Hd. cbn [deref]. rewrite bind_Ret.
  by rewrite (proj2 (Z.eqb_neq (count d) 0)).
Qed.

(** Searching a bitmap leaves the blocks as they are. *)
Lemma search_bitmap_spec st b a r :
  mounted st -> in_disk b -> first_free_bm (blk st b) a = Ret r ->
  exists s1, ('(st, bm) ← read_stack_blk p b st; x ← first_free_bm bm a; mret (st, x)) = Ret (set_dev s1 st, r) /\
    mounted (set_dev s1 st) /\ forall b, blk (set_dev s1 st) b = blk st b.
Proof.
  intros Hm Hb Hff. destruct (read_stack_blk_spec st b Hm Hb) as (s1 & R1 & Hd1). exists s1.
  rewrite R1, bind_Ret. cbv iota beta. rewrite Hff. bind_rets. split; [done|]. split.
  - apply mounted_set_dev; [done|]. intros l. rewrite Hd1. apply (mt_disk st Hm).
  - intros b'. unfold blk, block_of. change (dev (set_dev s1 st)) with s1. by rewrite Hd1.
Qed.

Lemma reserve_block_step st d r (bb := bg_block_bitmap d) :
  mounted st -> bgdt st !! 0%nat = Some d -> bg_free_blocks_count d <> 0 ->
  in_disk bb -> bitmap_wf (blk st bb) -> first_free_bm (blk st bb) 0 = Ret r -> 0 <= r < 8192 ->
  exists s' bm,
    let st' := reserved (s_free_blocks_count (super st) - 1) (s_free_inodes_count (super st)) s' st in
    reserve_free_block p st = Ret (st', Some r) /\ mounted st' /\ bitmap_wf bm /\
    (forall j, 0 <= j < 8192 -> bm_bit bm j = if j =? r mod 1024 then true else bm_bit (blk st bb) j) /\
    (forall b, blk st' b = after_reserve st (super st') bb bm b).
Proof.
  intros Hm Hd Hc Hbb Hwf Hff Hr. unfold reserve_free_block, first_free_block_num.
  rewrite (first_group_0 st _ _ d) by done. unfold first_free_block. fold bb.
  destruct (search_bitmap_spec st bb 0 r Hm Hbb Hff) as (s1 & R1 & Hm1 & Hb1). rewrite R1. bind_rets. cbv iota beta.
  bind_rets. cbv iota beta.
  unfold set_block_bitmap, mark_block, update_block_bg_desc, div_u, mod_u.
  change (super (set_dev s1 st)) with (super st). change (bgdt (set_dev s1 st)) with (bgdt st).
  rewrite (mt_bpg st Hm), (mt_ipg st Hm). change (8192 =? 0) with false. change (1024 =? 0) with false. cbv iota.
  bind_rets. rewrite (Z.div_small r 8192) by done. change (Z.to_nat (u16 0)) with 0%nat. rewrite Hd. cbn [deref]. bind_rets.
  pose proof (Z.mod_pos_bound r 1024 ltac:(lia)). rewrite u16_small by lia. fold bb.
  destruct (mark_commit_spec (s_free_blocks_count (super st) - 1) (s_free_inodes_count (super st))
    (set_dev s1 st) bb (r mod 1024) Hm1) as (s2 & s3 & s4 & bm & R2 & R3 & R4 & Hm4 & Hwf4 & Hbits & Hb4);
    [done|by rewrite Hb1|lia|].
  exists s4, bm. cbv zeta. rewrite R2, bind_Ret.
  change (super (set_dev s2 (set_dev s1 st))) with (super st). change (bgdt (set_dev s2 (set_dev s1 st))) with (bgdt st).
  rewrite (mt_bpg st Hm). change (8192 =? 0) with false. cbv iota. bind_rets. rewrite (Z.div_small r 8192) by done.
  change (Z.to_nat (u16 0)) with 0%nat. rewrite Hd. cbn [deref]. bind_rets.
  rewrite R3, bind_Ret. change (super (set_dev s3 (set_dev s1 st))) with (super st).
  change (super (set_dev s1 st)) with (super st) in R4. rewrite R4, bind_Ret. split; [done|]. split; [done|]. split; [done|].
  rewrite Hb1 in Hbits. split; [done|]. intros b. rewrite Hb4. unfold after_reserve. by rewrite Hb1.
Qed.

Lemma reserve_inode_step st d r (ib := bg_inode_bitmap d) :
  mounted st -> bgdt st !! 0%nat = Some d -> in_disk ib -> bitmap_wf (blk st ib) -> 1 <= r <= 1024 ->
  exists s' bm,
    let st' := reserved (s_free_blocks_count (super st)) (s_free_inodes_count (super st) - 1) s' st in
    reserve_inode p r st = Ret st' /\ mounted st' /\ bitmap_wf bm /\
    (forall j, 0 <= j < 8192 -> bm_bit bm j = if j =? r - 1 then true else bm_bit (blk st ib) j) /\
    (forall b, blk st' b = after_reserve st (super st') ib bm b).
Proof.
  intros Hm Hd Hib Hwf Hr. unfold reserve_inode, set_inode_bitmap, mark_inode, update_inode_bg_desc, div_u, mod_u.
  rewrite (u32_small (r - 1)), (mt_ipg st Hm) by lia. change (1024 =? 0) with false. cbv iota. bind_rets.
  rewrite (Z.div_small (r - 1) 1024) by lia. change (Z.to_nat (u16 0)) with 0%nat. rewrite Hd. cbn [deref]. bind_rets.
  rewrite (Z.mod_small (r - 1) 1024), u16_small by lia. fold ib.
  destruct (mark_commit_spec (s_free_blocks_count (super st)) (s_free_inodes_count (super st) - 1)
    st ib (r - 1) Hm) as (s2 & s3 & s4 & bm & R2 & R3 & R4 & Hm4 & Hwf4 & Hbits & Hb4); [done|done|lia|].
  exists s4, bm. cbv zeta. rewrite R2, bind_Ret.
  change (super (set_dev s2 st)) with (super st). change (bgdt (set_dev s2 st)) with (bgdt st).
  rewrite (mt_bpg st Hm). change (8192 =? 0) with false. cbv iota. bind_rets. rewrite (Z.div_small (r - 1) 8192) by lia.
  change (Z.to_nat (u16 0)) with 0%nat. rewrite Hd. cbn [deref]. bind_rets.
  rewrite R3, bind_Ret. change (super (set_dev s3 st)) with (super st). by rewrite R4.
Qed.

Lemma reserve_free_inode_step st d r (ib := bg_inode_bitmap d) :
  mounted st -> bgdt st !! 0%nat = Some d -> bg_free_inodes_count d <> 0 ->
  in_disk ib -> bitmap_wf (blk st ib) -> first_free_bm (blk st ib) 11 = Ret r -> 1 <= r <= 1024 ->
  exists s' bm,
    let st' := reserved (s_free_blocks_count (super st)) (s_free_inodes_count (super st) - 1) s' st in
    reserve_free_inode p st = Ret (st', Some r) /\ mounted st' /\ bitmap_wf bm /\
    (forall j, 0 <= j < 8192 -> bm_bit bm j = if j =? r - 1 then true else bm_bit (blk st ib) j) /\
    (forall b, blk st' b = after_reserve st (super st') ib bm b).
Proof.
  intros Hm Hd Hc Hib Hwf Hff Hr. unfold reserve_free_inode, first_free_inode_num.
  rewrite (first_group_0 st _ _ d) by done. unfold first_free_inode, EXT2_FREE_INO_START. fold ib.
  destruct (search_bitmap_spec st ib 11 r Hm Hib Hff) as (s1 & R1 & Hm1 & Hb1). rewrite R1. bind_rets. cbv iota beta.
  bind_rets. cbv iota beta.
  destruct (reserve_inode_step (set_dev s1 st) d r Hm1) as (s2 & bm & R2 & Hm2 & Hwf2 & Hbits & Hb2);
    [done|done|by fold ib; rewrite Hb1|lia|]. fold ib in Hbits, Hb2. rewrite Hb1 in Hbits. cbv zeta in R2, Hm2, Hb2.
  exists s2, bm. rewrite R2, bind_Ret. split; [done|]. split; [done|]. split; [done|]. split; [done|].
  intros b. rewrite Hb2. unfold after_reserve. by rewrite Hb1.
Qed.

(** *** The contract of the two reservations *)

Definition metadata_block (b : Z) : Prop := b = 1 \/ b = 2 \/ b = 8193 \/ b = 8194.

Lemma after_reserve_bitmap st sb bb bm : ~ metadata_block bb -> after_reserve st sb bb bm bb = bm.
Proof.
  unfold metadata_block, after_reserve. intros Hn. rewrite !decide_False by tauto. by rewrite decide_True.
Qed.

(** C25. reserve_free_block hands out the first block whose bit is clear in the
    first group, as long as that is one of the first 1024: it marks exactly
    this bit, counts one free block less in the superblock, writes the
    superblock and the group descriptors to both copies, and touches no other
    block.  The descriptors themselves keep their counts. *)
Theorem reserve_free_block_correct st d b (bb := bg_block_bitmap d) :
  mounted st -> bgdt st !! 0%nat = Some d -> bg_free_blocks_count d <> 0 ->
  in_disk bb -> ~ metadata_block bb -> bitmap_wf (blk st bb) ->
  0 <= b < 1024 -> bm_bit (blk st bb) b = false -> (forall j, 0 <= j < b -> bm_bit (blk st bb) j = true) ->
  exists st', reserve_free_block p st = Ret (st', Some b) /\ mounted st' /\ bgdt st' = bgdt st /\
    s_free_blocks_count (super st') = u32 (s_free_blocks_count (super st) - 1) /\
    (forall j, 0 <= j < 8192 -> bm_bit (blk st' bb) j = if j =? b then true else bm_bit (blk st bb) j) /\
    blk st' 1 = encode (super st') /\ blk st' 8193 = encode (super st') /\
    blk st' 2 = bgdt_bytes st /\ blk st' 8194 = bgdt_bytes st /\
    (forall x, ~ metadata_block x -> x <> bb -> blk st' x = blk st x).
Proof.
  intros Hm Hd Hc Hbb Hnm Hwf Hb Hclear Hset.
  destruct (reserve_block_step st d b) as (s' & bm & R & Hm' & Hwf' & Hbits & Hblk); try done; [|lia|].
  { apply first_free_bm_eq; [done|lia|]. left. split; [|by split]. rewrite search_from_0. lia. }
  cbv zeta in *. set (st' := reserved _ _ s' st) in *. exists st'. split; [done|]. split; [done|]. split; [done|].
  split; [done|]. fold bb in Hbits, Hblk. rewrite (Z.mod_small b 1024) in Hbits by lia.
  split; [by rewrite Hblk, after_reserve_bitmap|]. rewrite !Hblk. repeat split.
  intros x Hx Hxb. rewrite Hblk. unfold after_reserve, metadata_block in *. by rewrite !decide_False by tauto.
Qed.

(** Beyond the first 1024 blocks the allocator goes round in circles:
    mark_block takes the bit number modulo the inodes per group, so when the
    first clear bit is at 1024 or above it stays clear and the next
    reservation hands out the same block again. *)
Theorem reserve_free_block_repeats st d b (bb := bg_block_bitmap d) :
  mounted st -> bgdt st !! 0%nat = Some d -> bg_free_blocks_count d <> 0 ->
  in_disk bb -> ~ metadata_block bb -> bitmap_wf (blk st bb) ->
  1024 <= b < 8192 -> bm_bit (blk st bb) b = false -> (forall j, 0 <= j < b -> bm_bit (blk st bb) j = true) ->
  exists st1 st2, reserve_free_block p st = Ret (st1, Some b) /\ reserve_free_block p st1 = Ret (st2, Some b) /\
    blk st1 bb = blk st bb.
Proof.
  intros Hm Hd Hc Hbb Hnm Hwf Hb Hclear Hset.
  assert (Hff : first_free_bm (blk st bb) 0 = Ret b).
  { apply first_free_bm_eq; [done|lia|]. left. split; [|by split]. rewrite search_from_0. lia. }
  pose proof (Z.mod_pos_bound b 1024 ltac:(lia)) as Hmod.
  destruct (reserve_block_step st d b Hm Hd Hc Hbb Hwf Hff) as (s' & bm & R & Hm' & Hwf' & Hbits & Hblk); [lia|].
  cbv zeta in *. set (st1 := reserved _ _ s' st) in *. fold bb in Hbits, Hblk.
  assert (Ebm : bm = blk st bb).
  { apply bitmap_ext; [done|done|]. intros j Hj. rewrite Hbits by done.
    destruct (Z.eqb_spec j (b mod 1024)); [|done]. symmetry. apply Hset. lia. }
  assert (E1 : blk st1 bb = blk st bb) by (by rewrite Hblk, after_reserve_bitmap).
  destruct (reserve_block_step st1 d b Hm' Hd Hc Hbb) as (s2 & bm2 & R2 & _);
    [by fold bb; rewrite E1|by fold bb; rewrite E1|lia|].
  exists st1, (reserved (s_free_blocks_count (super st1) - 1) (s_free_inodes_count (super st1)) s2 st1).
  split; [done|]. by split.
Qed.

(** A full group is not noticed: the descriptor's count of free blocks is
    never decremented, so with every bit set reserve_free_block still reports
    success and hands out block 0, the boot block. *)
Theorem reserve_free_block_full st d (bb := bg_block_bitmap d) :
  mounted st -> bgdt st !! 0%nat = Some d -> bg_free_blocks_count d <> 0 ->
  in_disk bb -> bitmap_wf (blk st bb) -> (forall j, 0 <= j < 8192 -> bm_bit (blk st bb) j = true) ->
  exists st', reserve_free_block p st = Ret (st', Some 0) /\ bgdt st' = bgdt st.
Proof.
  intros Hm Hd Hc Hbb Hwf Hset.
  destruct (reserve_block_step st d 0) as (s' & bm & R & _); try done; [|by eauto].
  apply first_free_bm_eq; [done|lia|]. right. by rewrite search_from_0.
Qed.

(** reserve_free_inode hands out the same inode number for ever: it returns
    the index of the clear bit, but reserve_inode marks the bit below it. *)
Theorem reserve_free_inode_repeats st d r (ib := bg_inode_bitmap d) :
  mounted st -> bgdt st !! 0%nat = Some d -> bg_free_inodes_count d <> 0 ->
  in_disk ib -> ~ metadata_block ib -> bitmap_wf (blk st ib) ->
  first_free_bm (blk st ib) 11 = Ret r -> 11 <= r <= 1024 ->
  exists st1 st2, reserve_free_inode p st = Ret (st1, Some r) /\ reserve_free_inode p st1 = Ret (st2, Some r) /\
    bm_bit (blk st1 ib) r = false.
Proof.
  intros Hm Hd Hc Hib Hnm Hwf Hff Hr.
  destruct (reserve_free_inode_step st d r Hm Hd Hc Hib Hwf Hff) as (s' & bm & R & Hm' & Hwf' & Hbits & Hblk); [lia|].
  cbv zeta in *. set (st1 := reserved _ _ s' st) in *. fold ib in Hbits, Hblk.
  assert (E1 : blk st1 ib = bm) by (by rewrite Hblk, after_reserve_bitmap).
  destruct (first_free_bm_spec (blk st ib) 11 Hwf) as (r' & Er & Hfc); [lia|].
  rewrite Hff in Er. injection Er as <-.
  destruct (first_clear_bit _ _ _ Hfc) as [Hsr Hcr]; [lia|].
  assert (Hff1 : first_free_bm bm 11 = Ret r).
  { apply first_free_bm_eq; [done|lia|]. apply (first_clear_set_below (blk st ib)); try done. lia. }
  destruct (reserve_free_inode_step st1 d r Hm' Hd Hc Hib) as (s2 & bm2 & R2 & _);
    [by fold ib; rewrite E1|by fold ib; rewrite E1|lia|].
  eexists st1, _. split; [done|]. split; [done|]. rewrite E1, Hbits by lia.
  by rewrite (proj2 (Z.eqb_neq r (r - 1))) by lia.
Qed.

End mounted.

(** ** Concrete file systems: 8 megabytes, one bitmap that is not empty *)

Definition group8 : mkfs_globals := calculate_block_groups 8.
Definition disk_with (b : Z) (bytes : list Z) (l : Z) : list Z :=
  if l =? 2 * b then take 512 bytes else if l =? 2 * b + 1 then drop 512 bytes else replicate 512 0.
Definition zero_desc : bgdesc_t := mk_bgdesc 0 0 0 0 0 0 0 (replicate 12 0).
Definition fs8_on (s : sim) : ext2_st sim Z :=
  mk_ext2 (mk_bc ∅ ∅ ∅ s 0) 0 true 1 (make_bgdt group8 ++ replicate 1023 zero_desc) (make_super group8 0) group8.
Definition sim_with (d : Z -> list Z) : sim := mk_sim (mk_ata d 0 0 0 0 0 Idle) false true [].
Definition fs8 (b : Z) (P : Z -> bool) : ext2_st sim Z := fs8_on (sim_with (disk_with b (bitmap_of P))).

Lemma fs8_on_mounted s : sized s -> mounted 0 (fs8_on s).
Proof.
  intros Hs. constructor; try reflexivity; try (cbn; lia).
  - apply (ext2_super_wf 8). lia.
  - cbn [bgdt fs8_on]. apply Forall_app. split.
    + unfold make_bgdt. apply Forall_fmap, Forall_forall. intros i Hi%elem_of_seqZ. apply (group_desc_wf 8); [lia|].
      rewrite Z.add_0_l in Hi. exact Hi.
    + apply Forall_replicate. unfold zero_desc. struct_wf_tac.
  - exact Hs.
Qed.
Lemma fs8_mounted b P : mounted 0 (fs8 b P).
Proof.
  apply fs8_on_mounted. intros l. change (length (disk_with b (bitmap_of P) l) = 512%nat). unfold disk_with.
  pose proof (length_bitmap_of P). repeat case_match; rewrite ?length_take, ?length_drop, ?length_replicate; lia.
Qed.

Lemma fs8_blk b P : blk 0 (fs8 b P) b = bitmap_of P.
Proof.
  unfold blk, block_of, fs_block.
  change (disk_with b (bitmap_of P) (0 + 2 * b) ++ disk_with b (bitmap_of P) (0 + 2 * b + 1) = bitmap_of P).
  unfold disk_with. rewrite !Z.add_0_l, Z.eqb_refl. rewrite (proj2 (Z.eqb_neq (2 * b + 1) (2 * b))), Z.eqb_refl by lia.
  apply take_drop.
Qed.
Lemma fs8_bit b P j : 0 <= j < 8192 -> bm_bit (blk 0 (fs8 b P) b) j = P j.
Proof. intros. by rewrite fs8_blk, bm_bit_bitmap_of. Qed.

Definition desc8 : bgdesc_t := group_desc group8 0.

(** Discharges what the reservations ask of [fs8]. *)
Ltac fs8_tac :=
  lazymatch goal with
  | |- (patience_bound <= _)%nat => exact sim_patient
  | |- mounted _ _ => apply fs8_mounted
  | |- in_disk _ _ => vm_compute; split; congruence
  | |- ~ metadata_block _ => unfold metadata_block; vm_compute; intuition congruence
  | |- bitmap_wf _ => change (bg_block_bitmap desc8) with 3; change (bg_inode_bitmap desc8) with 4;
                      rewrite fs8_blk; apply bitmap_wf_of
  | |- bm_bit _ _ = _ => change (bg_block_bitmap desc8) with 3; rewrite fs8_bit by lia; reflexivity
  | |- forall _, _ -> bm_bit _ _ = true =>
      intros; change (bg_block_bitmap desc8) with 3; rewrite fs8_bit by lia; first [reflexivity | apply Z.ltb_lt; lia]
  | |- first_free_bm _ _ = _ => change (bg_inode_bitmap desc8) with 4; rewrite fs8_blk; vm_compute; reflexivity
  | |- bgdt _ !! _ = _ => reflexivity
  | |- _ <> _ => vm_compute; congruence
  | |- _ => lia
  end.

Lemma reserve_free_block_correct_witness :
  exists st', reserve_free_block 2 (fs8 3 (fun j => j <? 132)) = Ret (st', Some 132).
Proof.
  destruct (reserve_free_block_correct 2 0 ltac:(fs8_tac) ltac:(lia) (fs8 3 (fun j => j <? 132)) desc8 132)
    as (st' & R & _); [fs8_tac..|exists st'; assumption].
Defined.

Lemma reserve_free_block_repeats_witness :
  exists st1 st2, reserve_free_block 2 (fs8 3 (fun j => j <? 1024)) = Ret (st1, Some 1024) /\
    reserve_free_block 2 st1 = Ret (st2, Some 1024).
Proof.
  destruct (reserve_free_block_repeats 2 0 ltac:(fs8_tac) ltac:(lia) (fs8 3 (fun j => j <? 1024)) desc8 1024)
    as (st1 & st2 & R1 & R2 & _); [fs8_tac..|exists st1, st2; split; assumption].
Defined.

Lemma reserve_free_block_full_witness :
  exists st', reserve_free_block 2 (fs8 3 (fun _ => true)) = Ret (st', Some 0).
Proof.
  destruct (reserve_free_block_full 2 0 ltac:(fs8_tac) ltac:(lia) (fs8 3 (fun _ => true)) desc8)
    as (st' & R & _); [fs8_tac..|exists st'; assumption].
Defined.

Lemma reserve_free_inode_repeats_witness :
  exists st1 st2, reserve_free_inode 2 (fs8 4 (fun j => j <? 2)) = Ret (st1, Some 16) /\
    reserve_free_inode 2 st1 = Ret (st2, Some 16).
Proof.
  destruct (reserve_free_inode_repeats 2 0 ltac:(fs8_tac) ltac:(lia) (fs8 4 (fun j => j <? 2)) desc8 16)
    as (st1 & st2 & R1 & R2 & _); [fs8_tac..|exists st1, st2; split; assumption].
Defined.
