(* ===== verification/Ext2Fs.v ===== *)
(** * Mounting, inodes and directories of ext2 (fs/ext2/fs.c,
    write_inode_table of fs/ext2/ext2_inode.c)

    Most functions go through the buffer cache with device [DEV_NO]; where the
    code returns a pointer into a buffer, the model returns the address of the
    data area.  A function that reads a buffer and returns without brelse
    leaves it locked.  [b_data + k] is byte arithmetic: [b_data] is a char
    pointer.  Variables the code leaves uninitialised are parameters. *)

From S2P Require Import Prelude Layout Ports Disk BufferCache Ext2Layout Mkfs Ext2Balloc.

Definition EXT2_ROOT_INO : Z := 2.
Definition EXT2_S_IFREG : Z := 0x8000.
Definition EXT2_S_IFDIR : Z := 0x4000.
Definition EXT2_FT_DIR : Z := 2.
Definition DIRECT_BLOCKS : Z := 12.

(** [struct ext2_sb_info]: the members the code uses. *)
Record ext2_sb_info := mk_sb_info {
  si_inodes_per_block : Z; si_blocks_per_group : Z; si_inodes_per_group : Z; si_itb_per_group : Z;
  si_gdb_count : Z; si_desc_per_block : Z; si_groups_count : Z; si_inode_size : Z; si_first_ino : Z;
  si_freeblocks_counter : Z; si_freeinodes_counter : Z }.

Record ext2_file_handle := mk_handle { h_inode : inode_t; inode_n : Z }.

Definition with_blocks (blocks : Z) (iblock : list Z) (n : inode_t) : inode_t :=
  mk_inode_t (i_mode n) (i_uid n) (i_size n) (i_atime n) (i_ctime n) (i_mtime n) (i_dtime n) (i_gid n)
    (i_links_count n) blocks (i_flags n) (i_osd1 n) iblock (i_generation n) (i_file_acl n) (i_dir_acl n)
    (i_faddr n) (i_osd2 n).
Definition with_rec_len (len : Z) (d : dentry_t) : dentry_t :=
  mk_dentry_t (inode d) (u16 len) (name_len d) (file_type d) (name d).

(** [n] is what the stack held before. *)
Definition new_dir_inode (n : inode_t) : inode_t :=
  mk_inode_t EXT2_S_IFDIR (i_uid n) (i_size n) (i_atime n) (i_ctime n) (i_mtime n) (i_dtime n) (i_gid n)
    1 0 (i_flags n) (i_osd1 n) (i_block n) (i_generation n) 0 0 0 (i_osd2 n).

Fixpoint chunks (n w : nat) (l : list Z) : list (list Z) :=
  match n with
  | O => []
  | Datatypes.S n => take w l :: chunks n w (drop w l)
  end.

Definition copy_ext2_sb_to_mem (g : mkfs_globals) (s_es : ext2_super_block) : ext2_sb_info :=
  mk_sb_info (EXT2_BLK_SIZE / Z.of_nat (sizeof_struct inode_t)) (s_blocks_per_group s_es) (s_inodes_per_group s_es) 1
    (u32 (g_n_block_groups g * Z.of_nat (sizeof_struct bgdesc_t)) / EXT2_BLK_SIZE)
    (EXT2_BLK_SIZE / Z.of_nat (sizeof_struct bgdesc_t)) (g_n_block_groups g) (s_inode_size s_es) (s_first_ino s_es)
    (s_free_blocks_count s_es) (s_free_inodes_count s_es).
Definition copy_ext2_sb_from_mem (ext2_sb : ext2_sb_info) (s_es : ext2_super_block) : ext2_super_block :=
  with_free_counts (si_freeblocks_counter ext2_sb) (si_freeinodes_counter ext2_sb) s_es.

Section fs.
Context {S A : Type} `{PortIO S} `{KAlloc A} `{KFree A}.
Variables fuel patience : nat.
Implicit Types st : ext2_st S A.

Definition set_cache (c : bcache_st S A) st : ext2_st S A :=
  mk_ext2 c (fs_start st) (start_set st) (n_block_groups st) (bgdt st) (super st) (mkfs_vars st).
Definition blk_size st : Z := S_BLOCK_SIZE (globals st).

(** ** Mounting *)

Definition set_superblock st : outcome (ext2_st S A) :=
  '(s, r) ← disk_read_blk patience (globals st) 2 (dev st);
  match r with
  | None => Spin
  | Some bytes =>
      if decide (length bytes <= sizeof_struct ext2_super_block)%nat
      then mret (set_super (decode bytes) (set_dev s st)) else Fault
  end.

Definition set_bgdt st : outcome (ext2_st S A) :=
  let bc := s_blocks_count (super st) in
  let bpg := s_blocks_per_group (super st) in
  q ← div_u bc bpg;
  r ← mod_u bc bpg;
  let n := if r =? 0 then u16 q else u16 (u16 q + 1) in
  '(s, buf) ← disk_read_blk patience (globals st) 2 (dev st);
  bytes ← deref buf;
  let size := n * Z.of_nat (sizeof_struct bgdesc_t) in
  if decide (Z.of_nat (length bytes) < size \/ MAX_GROUPS < n) then Fault
  else
    let table := decode <$> chunks (Z.to_nat n) (sizeof_struct bgdesc_t) bytes in
    mret (mk_ext2 (cache (set_dev s st)) (fs_start st) (start_set st) n (table ++ drop (Z.to_nat n) (bgdt st))
            (super st) (mkfs_vars st)).

Definition read_fs (fs_start_in_mb : Z) st : outcome (ext2_st S A) :=
  st ← set_superblock
    (mk_ext2 (cache st) (mb_to_lba fs_start_in_mb) true (n_block_groups st) (bgdt st) (super st) (mkfs_vars st));
  set_bgdt st.

(** ** Buffers *)

Definition bread_blk (n : Z) st : outcome (ext2_st S A * Z) :=
  '(c, bh) ← bread fuel patience (globals st) DEV_NO n (cache st); mret (set_cache c st, bh).
Definition buf_bytes (bh : Z) st : outcome (list Z) :=
  '(_, bytes) ← data_of bh (cache st); mret bytes.
Definition on_buf (f : list Z -> outcome (list Z)) (bh : Z) st : outcome (ext2_st S A) :=
  bytes ← buf_bytes bh st;
  bytes ← f bytes;
  c ← fill_data bh bytes (cache st);
  mret (set_cache c st).
Definition bwrite_blk (bh : Z) st : outcome (ext2_st S A) :=
  c ← bwrite patience bh (cache st); mret (set_cache c st).

(** [*(uint32_t * )(b_data + off)]. *)
Definition word_at (off : Z) (bytes : list Z) : outcome Z :=
  w ← read_at (Z.to_nat off) 4 bytes; mret (of_le w).

(** ** Inodes *)

Definition get_inode (n : Z) st : outcome (ext2_st S A * inode_t) :=
  let index := u32 (n - 1) in
  q ← div_u index (s_inodes_per_group (super st));
  inode_offset ← mod_u index (s_inodes_per_group (super st));
  d ← deref (bgdt st !! Z.to_nat (u16 q));
  let inodes_per_blk := u16 (blk_size st / Z.of_nat (sizeof_struct inode_t)) in
  blk_index ← div_u inode_offset inodes_per_blk;
  blk_offset ← mod_u inode_offset inodes_per_blk;
  '(st, bh) ← bread_blk (u16 (bg_inode_table d + blk_index)) st;
  bytes ← buf_bytes bh st;
  i ← struct_at (u16 blk_offset) bytes;
  mret (st, i).

Definition write_inode_table (n : Z) (new_inode : inode_t) st : outcome (ext2_st S A) :=
  let index := u32 (n - 1) in
  q ← div_u index (s_inodes_per_group (super st));
  r ← mod_u index (s_inodes_per_group (super st));
  let bytes_in := u32 (u16 r * Z.of_nat (sizeof_struct inode_t)) in
  let block_offset := u16 (bytes_in / EXT2_BLK_SIZE) in
  let in_block_offset := u16 (bytes_in mod EXT2_BLK_SIZE) in
  d ← deref (bgdt st !! Z.to_nat (u16 q));
  '(st, bh) ← bread_blk (u32 (bg_inode_table d + block_offset)) st;
  st ← on_buf (set_struct_at in_block_offset new_inode) bh st;
  bwrite_blk bh st.

(** ** Blocks of a file *)

(** [s8]: the index of the second block is read from [b_data], an array of
    char, and widened. *)
Definition indirect_block (file : inode_t) (i : Z) st : outcome (ext2_st S A * Z) :=
  let ind_blk_len := blk_size st / 4 in
  if i <? DIRECT_BLOCKS then b ← deref (i_block file !! Z.to_nat i); mret (st, b)
  else if i <? DIRECT_BLOCKS + ind_blk_len then
    b ← deref (i_block file !! 12%nat);
    '(st, bh) ← bread_blk b st;
    bytes ← buf_bytes bh st;
    v ← word_at (u16 (i - DIRECT_BLOCKS)) bytes;
    mret (st, v)
  else if i <? DIRECT_BLOCKS + ind_blk_len + blk_size st * ind_blk_len then
    b ← deref (i_block file !! 13%nat);
    '(st, bh) ← bread_blk b st;
    bytes ← buf_bytes bh st;
    let j := i - DIRECT_BLOCKS - ind_blk_len in
    c ← deref (bytes !! Z.to_nat (j / ind_blk_len));
    '(st, _) ← bread_blk (u32 (s8 c)) st;
    bytes ← buf_bytes bh st;
    v ← word_at (j mod ind_blk_len) bytes;
    mret (st, v)
  else mret (st, 0).

(** The address of the data area of the buffer, which stays locked; the memory
    it allocates is dropped. *)
Definition get_file_block (file : ext2_file_handle) (i : Z) st : outcome (ext2_st S A * option Z) :=
  '(st, block_n) ← indirect_block (h_inode file) i st;
  '(a, buf) ← ka_kmalloc (blk_size st) (heap (cache st));
  let st := set_cache (BufferCache.set_heap a (cache st)) st in
  match buf with
  | None => mret (st, None)
  | Some _ =>
      '(st, bh) ← bread_blk block_n st;
      b ← deref (bufs (cache st) !! bh);
      mret (st, b_data b)
  end.

Definition set_i_block (file : inode_t) (n i blockn : Z) st : outcome (ext2_st S A * inode_t) :=
  let ind_blk_len := blk_size st / 4 in
  if i <? DIRECT_BLOCKS then
    let file := with_blocks (i_blocks file) (<[Z.to_nat i := blockn]> (i_block file)) file in
    st ← write_inode_table n file st; mret (st, file)
  else if i <? DIRECT_BLOCKS + ind_blk_len then
    b ← deref (i_block file !! 12%nat);
    '(st, bh1) ← bread_blk b st;
    st ← on_buf (write_at (Z.to_nat (u16 (i - DIRECT_BLOCKS))) (le 4 blockn)) bh1 st;
    st ← bwrite_blk bh1 st; mret (st, file)
  else if i <? DIRECT_BLOCKS + ind_blk_len + blk_size st * ind_blk_len then
    b ← deref (i_block file !! 13%nat);
    '(s, r) ← disk_read_blk patience (globals st) b (dev st);
    blocks ← deref r;
    let j := i - DIRECT_BLOCKS - ind_blk_len in
    update_location ← word_at (4 * (j / ind_blk_len)) blocks;
    '(s, r) ← disk_read_blk patience (globals st) update_location s;
    blocks ← deref r;
    blocks ← write_at (Z.to_nat (4 * (j mod ind_blk_len))) (le 4 blockn) blocks;
    st ← write_blk patience update_location blocks (set_dev s st); mret (st, file)
  else mret (st, file).

Definition i_block_len (i : inode_t) st : Z := u16 (i_blocks i / Z.shiftl 2 (s_log_block_size (super st))).

Definition add_block_to_file (file : ext2_file_handle) (new_block : Z) st : outcome (ext2_st S A * ext2_file_handle) :=
  let i := with_blocks (u32 (i_blocks (h_inode file) + 2)) (i_block (h_inode file)) (h_inode file) in
  '(st, i) ← set_i_block i (inode_n file) (u32 (i_block_len i st - 1)) new_block st;
  mret (st, mk_handle i (inode_n file)).

(** [None] is the return value -1. *)
Definition write_block_at (block offset : Z) (chunk : list Z) st : outcome (ext2_st S A * option unit) :=
  if blk_size st <? offset + Z.of_nat (length chunk) then mret (st, None)
  else
    '(st, bh) ← bread_blk block st;
    st ← on_buf (write_at (Z.to_nat offset) chunk) bh st;
    st ← bwrite_blk bh st;
    mret (st, Some tt).

(** ** Directories *)

(** The result of reserve_free_block is not checked; without a free block
    [new_block] is uninitialised. *)
Definition add_dentry_to_new_block (dir : ext2_file_handle) (d : dentry_t) st : outcome (ext2_st S A * option unit) :=
  '(st, r) ← reserve_free_block patience st;
  new_block ← deref r;
  '(st, _) ← add_block_to_file dir new_block st;
  write_block_at new_block 0 (encode (with_rec_len (blk_size st) d)) st.

(** The walk over the entries of the last block: the position of the last one
    and their number. *)
Fixpoint last_dentry (n : nat) (pos lastpos dentries_read : Z) (block : list Z) (size : Z) : outcome (Z * Z) :=
  if size <=? pos then mret (lastpos, dentries_read)
  else match n with
       | O => Spin
       | Datatypes.S n =>
           w ← read_at (Z.to_nat (pos + 4)) 2 block;
           last_dentry n (u16 (pos + of_le w)) pos (u8 (dentries_read + 1)) block size
       end.

Definition add_dentry (dir : ext2_file_handle) (d : dentry_t) st : outcome (ext2_st S A * option unit) :=
  let dsize := Z.of_nat (sizeof_struct dentry_t) in
  let block_len := i_block_len (h_inode dir) st in
  if block_len =? 0 then add_dentry_to_new_block dir d st
  else
    '(st, p) ← get_file_block dir (block_len - 1) st;
    match p with
    | None => mret (st, None)
    | Some block =>
        bytes ← deref (bdata (cache st) !! block);
        '(curr, dentries_read) ← last_dentry fuel 0 0 0 bytes (blk_size st);
        if blk_size st / dsize <=? dentries_read then add_dentry_to_new_block dir d st
        else
          bytes ← (if 0 <? dentries_read then write_at (Z.to_nat (curr + 4)) (le 2 dsize) bytes else mret bytes);
          bytes ← set_struct_at (curr + dsize) (with_rec_len (blk_size st - dentries_read * dsize) d) bytes;
          let st := set_cache (BufferCache.set_bdata (<[block := bytes]> (bdata (cache st))) (cache st)) st in
          '(st, fblock_n) ← indirect_block (h_inode dir) (block_len - 1) st;
          st ← write_blk patience fblock_n bytes st;
          mret (st, Some tt)
    end.

Definition get_root_dir st : outcome (ext2_st S A * ext2_file_handle) :=
  '(st, i) ← get_inode EXT2_ROOT_INO st; mret (st, mk_handle i EXT2_ROOT_INO).

Fixpoint find_dentry (n : nat) (i : Z) (fname : list Z) (bytes : list Z) : outcome (option Z) :=
  match n with
  | O => mret None
  | Datatypes.S n =>
      d ← (struct_at (i * Z.of_nat (sizeof_struct dentry_t)) bytes : outcome dentry_t);
      found ← name_matches (name d) fname;
      if (found : bool) then mret (Some (inode d)) else find_dentry n (i + 1) fname bytes
  end.

(** kfree is given the data area of the buffer. *)
Fixpoint chdir_loop (n : nat) (i : Z) (dir : ext2_file_handle) (fname : list Z) st
  : outcome (ext2_st S A * option ext2_file_handle) :=
  match n with
  | O => mret (st, None)
  | Datatypes.S n =>
      '(st, p) ← get_file_block dir i st;
      match p with
      | None => mret (st, None)
      | Some dentries =>
          bytes ← deref (bdata (cache st) !! dentries);
          found ← find_dentry (Z.to_nat (u16 (blk_size st / Z.of_nat (sizeof_struct dentry_t)))) 0 fname bytes;
          match found with
          | Some ino => '(st, ind) ← get_inode ino st; mret (st, Some (mk_handle ind ino))
          | None =>
              a ← ka_kfree (Some dentries) (heap (cache st));
              chdir_loop n (i + 1) dir fname (set_cache (BufferCache.set_heap a (cache st)) st)
          end
      end
  end.
Definition chdir (current_dir : ext2_file_handle) (fname : list Z) st
  : outcome (ext2_st S A * option ext2_file_handle) :=
  chdir_loop (Z.to_nat (i_block_len (h_inode current_dir) st)) 0 current_dir fname st.

Definition create_root_directory (junk : inode_t) st : outcome (ext2_st S A) :=
  st ← reserve_inode patience EXT2_ROOT_INO st;
  write_inode_table EXT2_ROOT_INO (new_dir_inode junk) st.

(** ** Marking the blocks mkfs has used *)

Fixpoint used_blocks_loop (n : nat) (i : Z) st : outcome (ext2_st S A) :=
  match n with
  | O => mret st
  | Datatypes.S n =>
      let bpg := s_blocks_per_group (super st) in
      st ← set_block_bitmap patience (u32 (3 + i)) st;
      st ← set_block_bitmap patience (u32 (3 + bpg + i)) st;
      st ← set_block_bitmap patience (u32 (1 + 2 * bpg + i)) st;
      used_blocks_loop n (i + 1) st
  end.
Definition set_initial_used_blocks st : outcome (ext2_st S A) :=
  let bpg := s_blocks_per_group (super st) in
  table ← div_u (s_inodes_per_group (super st)) (u16 (blk_size st / Z.of_nat (sizeof_struct inode_t)));
  st ← set_block_bitmap patience 0 st;
  st ← set_block_bitmap patience 1 st;
  st ← set_block_bitmap patience (u32 (1 + bpg)) st;
  st ← set_block_bitmap patience 2 st;
  st ← set_block_bitmap patience (u32 (2 + bpg)) st;
  used_blocks_loop (Z.to_nat (2 + table)) 0 st.

(** ** The test file *)

Definition zero_inode : inode_t := mk_inode_t 0 0 0 0 0 0 0 0 0 0 0 0 (replicate 15 0) 0 0 0 0 (replicate 12 0).
Definition test_inode (block : Z) : inode_t :=
  mk_inode_t EXT2_S_IFREG 0 4 0 0 0 0 0 0 2 0 0 (<[0%nat := block]> (replicate 15 0)) 0 0 0 0 (replicate 12 0).
Definition test_dentry (ino size : Z) : dentry_t :=
  mk_dentry_t ino (u16 size) 9 EXT2_FT_DIR (chars "test.txt" ++ replicate 56 0).

Definition create_test_file st : outcome (ext2_st S A) :=
  '(st, fb) ← first_free_block_num patience st;
  match fb with
  | None => mret st
  | Some free_block_n =>
      '(st, fi) ← first_free_inode_num patience st;
      match fi with
      | None => mret st
      | Some free_inode_n =>
          st ← write_inode_table free_inode_n (test_inode free_block_n) st;
          st ← set_inode_bitmap patience free_inode_n st;
          st ← set_block_bitmap patience free_block_n st;
          '(st, root) ← get_root_dir st;
          data_block_n ← deref (i_block (h_inode root) !! 0%nat);
          s ← disk_write_bn patience (globals st) data_block_n (encode (test_dentry free_inode_n (blk_size st)))
                (Z.of_nat (sizeof_struct dentry_t)) (dev st);
          s ← disk_write_bn patience (globals st) free_block_n (chars "Hi" ++ [10; 0]) 4 s;
          let st := set_dev s st in
          _ ← update_inode_bg_desc free_inode_n st;
          _ ← update_block_bg_desc free_block_n st;
          st ← disk_sync_bgdt patience st;
          let b := super st in
          disk_sync_super patience
            (set_super (with_free_counts (s_free_blocks_count b - 1) (s_free_inodes_count b - 1) b) st)
      end
  end.

(** The bytes print_file hands to printk as the format; [None] when the first
    entry of the root directory has another name. *)
Definition print_file (fname : list Z) st : outcome (ext2_st S A * option (list Z)) :=
  '(st, root) ← get_root_dir st;
  data_block_n ← deref (i_block (h_inode root) !! 0%nat);
  '(s, r) ← disk_read_blk patience (globals st) data_block_n (dev st);
  buf ← deref r;
  let st := set_dev s st in
  d ← (struct_at 0 buf : outcome dentry_t);
  found ← name_matches (name d) fname;
  if negb found then mret (st, None)
  else
    '(st, ind) ← get_inode (inode d) st;
    data_block_n ← deref (i_block ind !! 0%nat);
    '(s, r) ← disk_read_blk patience (globals st) data_block_n (dev st);
    bufb ← deref r;
    fdata ← read_at 0 (Z.to_nat (i_size ind)) bufb;
    mret (set_dev s st, Some fdata).

(** ** The superblock in memory *)

Definition read_sb st : outcome (ext2_st S A * ext2_sb_info) :=
  '(st, bh) ← bread_blk 2 st;
  bytes ← buf_bytes bh st;
  s_es ← struct_at 0 bytes;
  c ← brelse bh (cache st);
  mret (set_cache c st, copy_ext2_sb_to_mem (mkfs_vars st) s_es).

(** bwrite releases the buffer, and brelse releases it once more. *)
Definition write_sb (ext2_sb : ext2_sb_info) st : outcome (ext2_st S A) :=
  '(st, bh) ← bread_blk 2 st;
  st ← on_buf (fun bytes => s_es ← struct_at 0 bytes; set_struct_at 0 (copy_ext2_sb_from_mem ext2_sb s_es) bytes) bh st;
  st ← bwrite_blk bh st;
  c ← brelse bh (cache st);
  mret (set_cache c st).

End fs.
