(* ===== verification/Ext2FsProofs.v ===== *)
(** * Mounting what mkfs wrote, and the inode table of ext2

    The image of mkfs (MkfsProofs.v) seen by the rest of ext2: what the group
    descriptors say, what read_fs loads, which block is allocated first, and
    which inode get_inode returns. *)

From S2P Require Import Prelude Layout Ports Disk BufferCache BufferProofs Blocks Ext2Layout Mkfs MkfsProofs Ext2Balloc.
From S2P Require Import BallocProofs Ext2Fs.

(** ** The descriptors describe the image *)

Lemma block_image_meta g i k : 0 <= i < g_n_block_groups g -> 0 <= k < 130 ->
  block_image g (8192 * i + first_meta i + k) = meta_image i k.
Proof.
  intros Hi Hk. assert (1 <= first_meta i <= 3) by (unfold first_meta; destruct (i <? 2); lia).
  assert (first_meta 0 = 3 /\ first_meta 1 = 3) as [F0 F1] by done.
  assert (i = 0 \/ i = 1 \/ 2 <= i) as Hc by lia.
  unfold block_image. rewrite !decide_False by (destruct Hc as [-> |[-> | ?] ]; lia).
  unfold groups_image. set (b := 8192 * i + first_meta i + k).
  replace (b / 8192) with i by (apply (Z.div_unique_pos _ 8192 _ (first_meta i + k)); unfold b; lia).
  replace (b mod 8192) with (first_meta i + k) by (apply (Z.mod_unique_pos _ 8192 i); unfold b; lia).
  rewrite (proj2 (Z.leb_le 0 i)), (proj2 (Z.ltb_lt i (g_n_block_groups g))) by lia. cbn [andb]. f_equal. lia.
Qed.

Lemma desc_blocks len i (g := calculate_block_groups len) : 1 <= len <= 256 -> 0 <= i < g_n_block_groups g ->
  bg_block_bitmap (group_desc g i) = 8192 * i + first_meta i /\
  bg_inode_bitmap (group_desc g i) = 8192 * i + first_meta i + 1 /\
  bg_inode_table (group_desc g i) = 8192 * i + first_meta i + 2.
Proof.
  intros Hlen Hi. destruct (geometry len Hlen) as (_ & Hn & _). fold g in Hn. unfold group_desc, first_meta, EXT2_BLOCKS_PER_GROUP.
  cbn [bg_block_bitmap bg_inode_bitmap bg_inode_table]. rewrite (u32_small (i * 8192)) by lia.
  destruct (i <? 2); rewrite !u32_small by lia; lia.
Qed.

(** The sum of the free counts of the groups from [i] on. *)
Lemma total_free_sum n : forall i g acc,
  total_free_loop n i g (u32 acc) =
    u32 (acc + foldr (fun j t => free_blocks_in_group g j (j <? 2) + t) 0 (seqZ i (Z.of_nat n))).
Proof.
  induction n as [|n IH]; intros i g acc; cbn [total_free_loop].
  { cbn [seqZ foldr]. change (seqZ i (Z.of_nat 0)) with (@nil Z). cbn [foldr]. by rewrite Z.add_0_r. }
  rewrite seqZ_cons by lia. cbn [foldr]. rewrite u32_add_l, IH. unfold u32. f_equal.
  replace (Z.pred (Z.of_nat (Datatypes.S n))) with (Z.of_nat n) by lia. unfold Z.succ. lia.
Qed.

(** The bits among the first [n] that are clear in the bytes of a bitmap. *)
Definition clear_bits (n : Z) (bytes : list Z) : Z :=
  Z.of_nat (length (filter (fun j => Z.testbit (bytes !!! Z.to_nat (j / 8)) (j mod 8) = false) (seqZ 0 n))).

(** The count of free inodes of a descriptor against the bitmap mkfs writes. *)
Lemma free_inodes_clear g i :
  bg_free_inodes_count (group_desc g i) = clear_bits 1024 (bitmap_of (fun j => (i =? 0) && (j <? 2))).
Proof. cbn [group_desc bg_free_inodes_count]. destruct (i =? 0); by vm_compute. Qed.

Lemma free_inodes_sum len (g := calculate_block_groups len) : 1 <= len <= 256 ->
  s_free_inodes_count (make_super g 0) = foldr (fun d t => bg_free_inodes_count d + t) 0 (make_bgdt g).
Proof.
  intros Hlen. destruct (geometry len Hlen) as (_ & Hn & _). fold g in Hn.
  cbn [make_super s_free_inodes_count]. unfold make_bgdt. rewrite foldr_fmap. unfold compose. cbn [group_desc bg_free_inodes_count].
  assert (Hrest : forall i n, 0 < i -> foldr (fun j t => (if j =? 0 then EXT2_INODES_PER_GROUP - 2 else EXT2_INODES_PER_GROUP) + t)
    0 (seqZ i (Z.of_nat n)) = 1024 * Z.of_nat n).
  { intros i n. revert i. induction n as [|n IH]; intros i Hi; [done|]. rewrite seqZ_cons by lia. cbn [foldr].
    rewrite (proj2 (Z.eqb_neq i 0)) by lia. replace (Z.pred (Z.of_nat (Datatypes.S n))) with (Z.of_nat n) by lia.
    rewrite IH by lia. change EXT2_INODES_PER_GROUP with 1024. lia. }
  rewrite seqZ_cons by lia. cbn [foldr]. change (0 =? 0) with true. cbn iota.
  replace (Z.pred (g_n_block_groups g)) with (Z.of_nat (Z.to_nat (Z.pred (g_n_block_groups g)))) by lia.
  rewrite Hrest by lia. change EXT2_INODES_PER_GROUP with 1024. rewrite !u32_small by (rewrite ?u32_small; lia). lia.
Qed.

(** C24. What mkfs tells about itself is consistent: every group descriptor gives
    the blocks where the image has the block bitmap, the inode bitmap and the
    128 zeroed blocks of the inode table; its count of free blocks is the size
    of the group less the blocks its bitmap marks, its count of free inodes is
    the number of clear bits among the 1024 of its inode bitmap; and the free
    blocks and the free inodes of the superblock are the sums over the
    descriptors.  The table of 128 blocks is what the code makes; the layout
    in docs/EXT2_LAYOUT.md and in the comment above mkfs has 214. *)
Theorem mkfs_self_description len (g := calculate_block_groups len) :
  1 <= len <= 256 ->
  (forall i, 0 <= i < g_n_block_groups g ->
     let d := group_desc g i in
     make_bgdt g !! Z.to_nat i = Some d /\
     block_image g (bg_block_bitmap d) = Some (bitmap_of (fun j => j <? marked_blocks i)) /\
     block_image g (bg_inode_bitmap d) = Some (bitmap_of (fun j => (i =? 0) && (j <? 2))) /\
     (forall k, 0 <= k < 128 -> block_image g (bg_inode_table d + k) = Some zero_block) /\
     bg_free_blocks_count d =
       (if i =? g_n_block_groups g - 1 then g_blocks_in_last_group g else 8192) - marked_blocks i /\
     (forall bytes, block_image g (bg_inode_bitmap d) = Some bytes -> bg_free_inodes_count d = clear_bits 1024 bytes)) /\
  s_free_inodes_count (make_super g 0) = foldr (fun d t => bg_free_inodes_count d + t) 0 (make_bgdt g) /\
  s_free_blocks_count (make_super g 0) = foldr (fun d t => bg_free_blocks_count d + t) 0 (make_bgdt g).
Proof.
  intros Hlen. destruct (geometry len Hlen) as (_ & Hn & _). fold g in Hn.
  assert (Hfree : forall i, 0 <= i < g_n_block_groups g ->
    bg_free_blocks_count (group_desc g i) = free_blocks_in_group g i (i <? 2) /\
    0 <= free_blocks_in_group g i (i <? 2) <= 8062).
  { intros i Hi. destruct (free_blocks_value len i Hlen Hi) as (_ & Hr). fold g in Hr.
    cbn [group_desc bg_free_blocks_count]. rewrite u16_small; lia. }
  split; [|split].
  - intros i Hi d. destruct (desc_blocks len i Hlen Hi) as (Eb & Ei & Et). fold g in Eb, Ei, Et. fold d in Eb, Ei, Et.
    split; [unfold make_bgdt; rewrite list_lookup_fmap, lookup_seqZ_lt by lia; cbn [fmap option_fmap option_map]; do 2 f_equal; lia|].
    rewrite Eb, Ei. replace (8192 * i + first_meta i) with (8192 * i + first_meta i + 0) at 1 by lia.
    rewrite !block_image_meta by lia. split; [done|]. split; [done|]. split_and!.
    + intros k Hk. rewrite Et, <- Z.add_assoc, block_image_meta by lia. unfold meta_image.
      rewrite !(proj2 (Z.eqb_neq _ _)), (proj2 (Z.leb_le 2 (2 + k))), (proj2 (Z.ltb_lt (2 + k) 130)) by lia. done.
    + unfold d. destruct (Hfree i Hi) as [-> _]. by apply free_blocks_value.
    + intros bytes [= <-]. apply free_inodes_clear.
  - by apply free_inodes_sum.
  - cbn [make_super s_free_blocks_count]. change 0 with (u32 0) at 2. rewrite total_free_sum, Z2Nat.id by lia.
    rewrite Z.add_0_l. unfold make_bgdt. rewrite foldr_fmap.
    assert (Hsum : forall l, Forall (fun i => 0 <= i < g_n_block_groups g) l ->
      foldr (fun j t => bg_free_blocks_count (group_desc g j) + t) 0 l =
      foldr (fun j t => free_blocks_in_group g j (j <? 2) + t) 0 l /\
      0 <= foldr (fun j t => free_blocks_in_group g j (j <? 2) + t) 0 l <= 8062 * Z.of_nat (length l)).
    { induction 1 as [|i l Hi _ IH]; cbn [foldr length]; [lia|]. destruct (Hfree i Hi) as [-> Hr]. lia. }
    destruct (Hsum (seqZ 0 (g_n_block_groups g))) as [E Hr].
    { apply Forall_forall. intros i Hi%elem_of_seqZ. lia. }
    rewrite length_seqZ in Hr. unfold compose. rewrite E. apply u32_small. lia.
Qed.

(** ** After mkfs *)

Section formatted.
Context {S A : Type} `{HIO : PortIO S} `{HD : !AtaDevice S}.
Variables (p : nat) (mb_start len : Z).
Hypothesis Hp : (patience_bound <= p)%nat.
Hypothesis Hmb : 0 <= mb_start.
Hypothesis Hlen : 1 <= len <= 256.
Hypothesis Hend : 2048 * mb_start + 2048 * Z.max len 9 <= 2 ^ 24.
Implicit Types st : ext2_st S A.
Abbreviation lba0 := (2048 * mb_start).
Abbreviation g := (calculate_block_groups len).

(** The blocks of the disk are those of the image. *)
Definition formatted st : Prop := forall b bytes, block_image g b = Some bytes -> block_of lba0 (dev st) b = bytes.

(** The first block the allocator hands out after mkfs is the last block of
    the inode table of the first group: the bitmaps mark one block less than
    is in use, because they do not count the boot block. *)
Theorem first_block_is_inode_table st :
  formatted st -> mounted lba0 st -> bgdt st !! 0%nat = Some (group_desc g 0) ->
  exists st', reserve_free_block p st = Ret (st', Some 132) /\
    bg_inode_table (group_desc g 0) + inode_table_blocks - 1 = 132 /\ block_image g 132 = Some zero_block.
Proof.
  intros Hf Hm Hd. destruct (geometry len Hlen) as (_ & Hn & _).
  destruct (desc_blocks len 0 Hlen) as (Eb & _ & Et); [lia|]. change (8192 * 0 + first_meta 0) with 3 in Eb, Et.
  assert (Hbm : blk lba0 st 3 = bitmap_of (fun j => j <? 132)).
  { apply Hf. change 3 with (8192 * 0 + first_meta 0 + 0). by rewrite block_image_meta by lia. }
  assert (Hfree : bg_free_blocks_count (group_desc g 0) <> 0).
  { destruct (free_blocks_value len 0 Hlen) as (_ & Hr); [lia|]. cbn [group_desc bg_free_blocks_count].
    rewrite u16_small by lia. lia. }
  destruct (reserve_block_step p lba0 Hp ltac:(lia) st (group_desc g 0) 132 Hm Hd Hfree) as (s' & bm & R & _).
  - rewrite Eb. split; lia.
  - rewrite Eb, Hbm. apply bitmap_wf_of.
  - rewrite Eb, Hbm. apply first_free_bm_eq; [apply bitmap_wf_of|lia|]. left. rewrite search_from_0. split; [lia|].
    rewrite bm_bit_bitmap_of by lia. split; [done|]. intros j Hj. rewrite bm_bit_bitmap_of by lia. apply Z.ltb_lt. lia.
  - lia.
  - eexists. split; [exact R|]. rewrite Et. split; [done|].
    change 132 with (8192 * 0 + first_meta 0 + 129). by rewrite block_image_meta by lia.
Qed.

(** *** Block 2 read as a superblock *)

Lemma drop_desc i : drop 20 (encode (group_desc g i)) = replicate 12 0.
Proof. reflexivity. Qed.
Lemma take_desc i : take 4 (encode (group_desc g i)) = le 4 (bg_block_bitmap (group_desc g i)).
Proof. reflexivity. Qed.
Lemma length_desc i : 0 <= i < g_n_block_groups g -> length (encode (group_desc g i)) = 32%nat.
Proof. intros. change 32%nat with (sizeof_struct bgdesc_t). by apply length_encode, group_desc_wf. Qed.

(** What follows the first descriptor: the second one, or zeros. *)
Lemma bgdt_block_split :
  exists rest, bgdt_block g = encode (group_desc g 0) ++ rest /\
    (take 4 rest = le 4 (if g_n_block_groups g =? 1 then 0 else 8195) /\ take 2 (drop 24 rest) = [0; 0]) .
Proof.
  destruct (geometry len Hlen) as (_ & Hn & _). unfold bgdt_block, make_bgdt.
  rewrite (seqZ_cons 0) by lia. cbn [fmap list_fmap mbind list_bind]. change (Z.succ 0) with 1.
  destruct (Z.eqb_spec (g_n_block_groups g) 1) as [E|E].
  - rewrite E. change (seqZ 1 (Z.pred 1)) with (@nil Z). cbn [fmap list_fmap mbind list_bind]. rewrite app_nil_r.
    rewrite length_desc by lia. eexists. split; [done|]. by vm_compute.
  - rewrite (seqZ_cons 1) by lia. cbn [fmap list_fmap mbind list_bind]. rewrite <- !app_assoc.
    eexists. split; [reflexivity|].
    split.
    + rewrite take_app_le by (rewrite length_desc; lia). by rewrite take_desc.
    + rewrite drop_app_le, take_app_le by (rewrite ?length_drop, ?length_desc; lia).
      change 24%nat with (20 + 4)%nat. rewrite <- drop_drop, drop_desc. done.
Qed.

Lemma descriptors_as_superblock (sb : ext2_super_block := decode (bgdt_block g)) :
  s_blocks_count sb = 4 /\ s_log_block_size sb = 0 /\ s_magic sb = 0 /\
  s_blocks_per_group sb = (if g_n_block_groups g =? 1 then 0 else 8195).
Proof.
  destruct (geometry len Hlen) as (_ & Hn & _). destruct bgdt_block_split as (rest & Es & Hbpg & Hmagic).
  destruct (super_field_offsets (bgdt_block g)) as (F1 & F2 & F3 & _ & F5). fold sb in F1, F2, F3, F5.
  rewrite Es in F1, F2, F3, F5.
  rewrite (drop_app_le _ _ 4), take_app_le in F1 by (rewrite ?length_drop, length_desc; lia).
  rewrite (drop_app_le _ _ 24), take_app_le in F2 by (rewrite ?length_drop, length_desc; lia).
  rewrite (drop_app_length' _ _ 32) in F3 by (rewrite length_desc; lia).
  change 56%nat with (32 + 24)%nat in F5. rewrite <- drop_drop, (drop_app_length' _ _ 32), Hmagic in F5 by (rewrite length_desc; lia).
  change 24%nat with (20 + 4)%nat in F2. rewrite <- drop_drop, drop_desc in F2.
  split; [|split; [exact F2|split; [exact F5|] ] ].
  - rewrite F1. change (of_le (take 4 (drop 4 (encode (group_desc g 0))))) with
      (of_le (le 4 (bg_inode_bitmap (group_desc g 0)))).
    destruct (desc_blocks len 0 Hlen) as (_ & -> & _); [lia|]. done.
  - rewrite F3, Hbpg. by destruct (g_n_block_groups g =? 1).
Qed.

(** read_fs cannot load what mkfs wrote: it takes block 2, the group
    descriptors, for the superblock.  With one group (up to 8 megabytes) the
    number of blocks per group it finds is 0 and set_bgdt divides by it;
    otherwise it returns with a superblock whose magic number is 0 and which
    claims groups of 8195 blocks. *)
Theorem read_fs_after_mkfs st :
  formatted st -> s_log_block_size (super st) = 0 ->
  if g_n_block_groups g =? 1 then read_fs p mb_start st = Fault
  else exists st', read_fs p mb_start st = Ret st' /\ s_magic (super st') = 0 /\
         s_blocks_per_group (super st') = 8195 /\ n_block_groups st' = 1.
Proof.
  intros Hf Hlog. assert (E2 : block_of lba0 (dev st) 2 = bgdt_block g).
  { apply Hf. unfold block_image. by rewrite !decide_False, decide_True by lia. }
  assert (Elba : mb_to_lba mb_start = lba0) by (unfold mb_to_lba; rewrite u32_small; lia).
  assert (Hin : in_disk lba0 2) by (split; lia).
  unfold read_fs. rewrite Elba. set (st0 := mk_ext2 _ _ _ _ _ _ _). unfold set_superblock.
  destruct (disk_read_blk_spec p lba0 Hp ltac:(lia) (globals st0) 2 (dev st0)) as (s1 & R1 & Hd1); [done..|].
  rewrite R1, bind_Ret. cbv iota beta. change (dev st0) with (dev st). rewrite E2.
  pose proof (length_bgdt_block len Hlen) as Hlb. rewrite decide_True by (by rewrite Hlb). bind_rets.
  destruct descriptors_as_superblock as (Fc & Fl & Fm & Fb). set (sb := decode (bgdt_block g)) in *.
  unfold set_bgdt, div_u, mod_u. change (super (set_super sb (set_dev s1 st0))) with sb. rewrite Fb, Fc.
  destruct (g_n_block_groups g =? 1); [done|]. cbv zeta. change (8195 =? 0) with false. cbv iota. bind_rets.
  change (4 mod 8195 =? 0) with false. cbv iota.
  destruct (disk_read_blk_spec p lba0 Hp ltac:(lia) (globals (set_super sb (set_dev s1 st0))) 2
    (dev (set_super sb (set_dev s1 st0)))) as (s2 & R2 & Hd2); [done..|].
  rewrite R2, bind_Ret. cbn [deref]. bind_rets. change (dev (set_super sb (set_dev s1 st0))) with s1.
  assert (E1 : block_of lba0 s1 2 = bgdt_block g) by (rewrite <- E2; unfold block_of; by rewrite Hd1).
  rewrite E1. change (u16 (u16 (4 / 8195) + 1)) with 1.
  rewrite decide_False by (rewrite Hlb; vm_compute; intuition congruence).
  eexists. split; [reflexivity|]. done.
Qed.

End formatted.

(** ** A disk formatted by mkfs *)

Definition blank : sim := sim_with (fun _ => replicate 512 7).
Definition boot_globals : fs_globals := mk_fsg 0 false 0.

Lemma mkfs_run len (g := calculate_block_groups len) :
  1 <= len <= 256 ->
  exists s', mkfs 2 boot_globals [] 0 len blank 0 = Ret (s', 1, g) /\ sized s' /\
    forall b bytes, block_image g b = Some bytes -> block_of 0 s' b = bytes.
Proof.
  intros Hlen.
  destruct (mkfs_spec 2 0 len sim_patient ltac:(lia) Hlen ltac:(lia) boot_globals [] 0 blank 0 1 1 0) as (s' & R & Hb & Hz);
    [done..|].
  exists s'. split; [exact R|]. split; [done|]. intros b bytes Hi. rewrite Hb. fold g. by rewrite Hi.
Qed.

Lemma mkfs_layout_witness :
  exists s', mkfs 2 boot_globals [] 0 24 blank 0 = Ret (s', 1, calculate_block_groups 24) /\
    block_of 0 s' 16385 = bitmap_of (fun j => j <? 130).
Proof.
  destruct (mkfs_layout 2 0 24 sim_patient ltac:(lia) ltac:(lia) ltac:(lia) boot_globals [] 0 blank 0 1 1 0)
    as (s' & R & Hb); [done..|].
  exists s'. split; [exact R|]. rewrite Hb. reflexivity.
Defined.

Lemma mkfs_self_description_witness :
  block_image (calculate_block_groups 24) (bg_inode_bitmap (group_desc (calculate_block_groups 24) 2)) =
    Some (bitmap_of (fun j => false && (j <? 2))).
Proof.
  destruct (mkfs_self_description 24 ltac:(lia)) as [Hi _]. destruct (Hi 2) as (_ & _ & E & _); [vm_compute; intuition congruence|].
  exact E.
Defined.

Lemma first_block_is_inode_table_witness :
  exists s' (st' : ext2_st sim Z), mkfs 2 boot_globals [] 0 8 blank 0 = Ret (s', 1, group8) /\
    reserve_free_block 2 (fs8_on s') = Ret (st', Some 132).
Proof.
  destruct (mkfs_run 8 ltac:(lia)) as (s' & R & Hz & Hb).
  destruct (first_block_is_inode_table 2 0 8 sim_patient ltac:(lia) ltac:(lia) ltac:(lia) (fs8_on s') Hb (fs8_on_mounted s' Hz) eq_refl)
    as (st' & R' & _).
  exists s', st'. split; [exact R|exact R'].
Defined.

Lemma read_fs_after_mkfs_witness :
  exists s', mkfs 2 boot_globals [] 0 8 blank 0 = Ret (s', 1, group8) /\ read_fs 2 0 (fs8_on s') = Fault.
Proof.
  destruct (mkfs_run 8 ltac:(lia)) as (s' & R & Hz & Hb).
  pose proof (read_fs_after_mkfs 2 0 8 sim_patient ltac:(lia) ltac:(lia) ltac:(lia) (fs8_on s') Hb eq_refl) as E.
  exists s'. split; [exact R|exact E].
Defined.

(** ** The inode table through the buffer cache *)

Section inodes.
Context {S A : Type} `{PIO : PortIO S} `{KAl : KAlloc A} `{HD : !AtaDevice S}.
Variables fuel p : nat.
Hypothesis Hp : (patience_bound <= p)%nat.
Implicit Types (st : ext2_st S A) (buf dat : Z -> Z) (busy : gset Z) (mem : Z -> list Z).
Local Abbreviation read := (get_inode (Datatypes.S fuel) p).
Local Abbreviation write := (write_inode_table (Datatypes.S fuel) p).

(** The state: one group with its table at [table], buffers as in Blocks.v. *)
Record inode_fs st buf dat busy mem (table : Z) : Prop := {
  if_quiet : quiet (cache st) buf dat busy mem;
  if_ipg : s_inodes_per_group (super st) = 1024;
  if_log : s_log_block_size (super st) = 0;
  if_table : bg_inode_table <$> (bgdt st !! 0%nat) = Some table;
  if_disk : sized (dev st);
}.
(** Inode [n] of the first group is in block [inode_blk] at slot [inode_slot]. *)
Definition inode_blk (table n : Z) : Z := table + (n - 1) / 8.
Definition inode_slot (n : Z) : Z := (n - 1) mod 8.

Lemma if_desc st buf dat busy mem table : inode_fs st buf dat busy mem table ->
  exists d, bgdt st !! 0%nat = Some d /\ bg_inode_table d = table.
Proof. intros Hi. destruct (bgdt st !! 0%nat) as [d|] eqn:E; pose proof (if_table _ _ _ _ _ _ Hi) as Ht; rewrite E in Ht; [|done].
  exists d. split; [done|]. by injection Ht. Qed.

Lemma bread_blk_spec st buf dat busy mem table b :
  inode_fs st buf dat busy mem table -> 0 <= b < BUFFERS -> b ∉ busy ->
  exists c, bread_blk (Datatypes.S fuel) p b st = Ret (set_cache c st, buf b) /\
    inode_fs (set_cache c st) buf dat ({[b]} ∪ busy) (upd mem b (disk (view (dev st)) b ++ drop 512 (mem b))) table /\
    disk (view (io c)) = disk (view (dev st)).
Proof.
  intros Hi Hb Hbusy. destruct (quiet_bread (cache st) buf dat busy mem b fuel p (globals st)) as (c & R & Hq & Hd);
    [apply Hi|done|done|done|apply (if_disk _ _ _ _ _ _ Hi)|].
  exists c. unfold bread_blk. rewrite R. bind_rets. split; [done|]. split; [|done]. destruct Hi. split; try done.
  intros l. change (dev (set_cache c st)) with (io c). rewrite Hd. apply if_disk0.
Qed.

Lemma buf_bytes_spec st buf dat busy mem table b :
  inode_fs st buf dat busy mem table -> 0 <= b < BUFFERS ->
  buf_bytes (buf b) st = Ret (mem b) /\ length (mem b) = 1024%nat.
Proof.
  intros Hi Hb. destruct (quiet_data_of _ _ _ _ _ b (if_quiet _ _ _ _ _ _ Hi) Hb) as (E & _ & Hl).
  unfold buf_bytes. by rewrite E.
Qed.

Lemma get_inode_eq f st buf dat busy mem table n :
  inode_fs st buf dat busy mem table -> 1 <= n <= 1024 -> 0 <= inode_blk table n < 2 ^ 16 ->
  get_inode f p n st = ('(st, bh) ← bread_blk f p (inode_blk table n) st;
                        bytes ← buf_bytes bh st; i ← struct_at (inode_slot n) bytes; mret (st, i)).
Proof.
  intros Hi Hn Hb. destruct (if_desc _ _ _ _ _ _ Hi) as (d & Hd & Etab).
  unfold get_inode, div_u, mod_u. rewrite (u32_small (n - 1)), (if_ipg _ _ _ _ _ _ Hi) by lia.
  change (1024 =? 0) with false. cbv iota. bind_rets. rewrite (Z.div_small (n - 1)), (Z.mod_small (n - 1)) by lia.
  change (Z.to_nat (u16 0)) with 0%nat. rewrite Hd. cbn [deref]. bind_rets.
  assert (Es : u16 (blk_size st / Z.of_nat (sizeof_struct inode_t)) = 8).
  { unfold blk_size, S_BLOCK_SIZE. cbn [globals BufferCache.s_log_block_size]. by rewrite (if_log _ _ _ _ _ _ Hi). }
  rewrite Es. change (8 =? 0) with false. cbv iota. bind_rets. rewrite Etab. fold (inode_blk table n). fold (inode_slot n).
  pose proof (Z.mod_pos_bound (n - 1) 8 ltac:(lia)) as Hslot. fold (inode_slot n) in Hslot.
  by rewrite (u16_small (inode_blk table n)), (u16_small (inode_slot n)) by lia.
Qed.

Lemma get_inode_spec st buf dat busy mem table n (b := inode_blk table n) :
  inode_fs st buf dat busy mem table -> 1 <= n <= 1024 -> 0 <= table -> b < BUFFERS -> b ∉ busy ->
  exists c i bytes, read n st = Ret (set_cache c st, i) /\ bytes = disk (view (dev st)) b ++ drop 512 (mem b) /\
    struct_at (inode_slot n) bytes = Ret i /\ inode_fs (set_cache c st) buf dat ({[b]} ∪ busy) (upd mem b bytes) table /\
    disk (view (io c)) = disk (view (dev st)).
Proof.
  intros Hi Hn Ht Hb Hbusy. assert (0 <= (n - 1) / 8) by (apply Z.div_pos; lia). unfold b, inode_blk in Hb. unfold BUFFERS in Hb.
  pose proof (Z.mod_pos_bound (n - 1) 8 ltac:(lia)) as Hslot. fold (inode_slot n) in Hslot.
  assert (Hb0 : 0 <= b < 100) by (unfold b, inode_blk; lia).
  rewrite (get_inode_eq _ _ _ _ _ _ _ _ Hi) by (fold b; lia). fold b.
  destruct (bread_blk_spec st buf dat busy mem table b Hi) as (c & R & Hi' & Ed); [unfold BUFFERS; lia|done|].
  rewrite R, bind_Ret. cbv iota beta. destruct (buf_bytes_spec _ _ _ _ _ _ b Hi') as [Eb Hl]; [unfold BUFFERS; lia|].
  rewrite Eb, bind_Ret, upd_eq. rewrite upd_eq in Hl. set (bytes := _ ++ _) in *.
  rewrite struct_at_ok by (change (sizeof_struct inode_t) with 128%nat; lia). bind_rets.
  eexists c, _, bytes. split; [done|]. split; [done|]. split; [|by split].
  rewrite struct_at_ok by (change (sizeof_struct inode_t) with 128%nat; lia). done.
Qed.

Lemma on_buf_spec st buf dat busy mem table b f bytes :
  inode_fs st buf dat busy mem table -> 0 <= b < BUFFERS -> f (mem b) = Ret bytes -> length bytes = 1024%nat ->
  exists c, on_buf f (buf b) st = Ret (set_cache c st) /\ inode_fs (set_cache c st) buf dat busy (upd mem b bytes) table /\
    io c = dev st.
Proof.
  intros Hi Hb Hf Hl. destruct (quiet_data_of _ _ _ _ _ b (if_quiet _ _ _ _ _ _ Hi) Hb) as (Ed & _ & Hlm).
  unfold on_buf. rewrite (proj1 (buf_bytes_spec _ _ _ _ _ _ b Hi Hb)), bind_Ret, Hf, bind_Ret.
  unfold fill_data. rewrite Ed, bind_Ret. cbv iota beta. change (Z.to_nat BUFFER_SIZE) with 1024%nat in Hlm.
  rewrite decide_True by lia. bind_rets. rewrite drop_ge, app_nil_r by lia. eexists. split; [done|]. split; [|done].
  destruct Hi. split; try done. by apply quiet_store.
Qed.

Lemma write_inode_table_eq f st buf dat busy mem table n i :
  inode_fs st buf dat busy mem table -> 1 <= n <= 1024 -> 0 <= inode_blk table n < 2 ^ 16 ->
  write_inode_table f p n i st = ('(st, bh) ← bread_blk f p (inode_blk table n) st;
                                  st ← on_buf (set_struct_at (128 * inode_slot n) i) bh st; bwrite_blk p bh st).
Proof.
  intros Hi Hn Hb. destruct (if_desc _ _ _ _ _ _ Hi) as (d & Hd & Etab). assert (0 <= (n - 1) / 8) by (apply Z.div_pos; lia).
  pose proof (Z.div_mod (n - 1) 8 ltac:(lia)) as Hdm. pose proof (Z.mod_pos_bound (n - 1) 8 ltac:(lia)) as Hslot.
  fold (inode_slot n) in Hdm, Hslot.
  unfold write_inode_table, div_u, mod_u. rewrite (u32_small (n - 1)), (if_ipg _ _ _ _ _ _ Hi) by lia.
  change (1024 =? 0) with false. cbv iota. bind_rets. rewrite (Z.div_small (n - 1)), (Z.mod_small (n - 1) 1024) by lia.
  change (Z.to_nat (u16 0)) with 0%nat. rewrite Hd. cbn [deref]. bind_rets. rewrite (u16_small (n - 1)) by lia.
  change (Z.of_nat (sizeof_struct inode_t)) with 128. change EXT2_BLK_SIZE with 1024. rewrite (u32_small ((n - 1) * 128)) by lia.
  replace ((n - 1) * 128 / 1024) with ((n - 1) / 8) by (apply (Z.div_unique_pos _ 1024 _ (128 * inode_slot n)); lia).
  replace (((n - 1) * 128) mod 1024) with (128 * inode_slot n) by (apply (Z.mod_unique_pos _ 1024 ((n - 1) / 8)); lia).
  rewrite Etab, (u16_small ((n - 1) / 8)), (u16_small (128 * inode_slot n)) by lia. fold (inode_blk table n).
  by rewrite (u32_small (inode_blk table n)) by lia.
Qed.

(** The bytes of a block after storing an inode at [off]. *)
Definition put_inode (off : Z) (i : inode_t) (block : list Z) : list Z :=
  take (Z.to_nat off) block ++ encode i ++ drop (Z.to_nat off + length (encode i)) block.

Lemma write_inode_table_spec st buf dat busy mem table n i (b := inode_blk table n) :
  inode_fs st buf dat busy mem table -> 1 <= n <= 1024 -> 0 <= table -> b < BUFFERS -> b ∉ busy -> struct_wf i ->
  exists c bytes, write n i st = Ret (set_cache c st) /\ struct_at (128 * inode_slot n) bytes = Ret i /\
    bytes = put_inode (128 * inode_slot n) i (disk (view (dev st)) b ++ drop 512 (mem b)) /\
    (forall o k, (o + k <= 128 * Z.to_nat (inode_slot n) \/ 128 * Z.to_nat (inode_slot n) + 128 <= o)%nat ->
       take k (drop o bytes) = take k (drop o (disk (view (dev st)) b ++ drop 512 (mem b)))) /\
    length bytes = 1024%nat /\ inode_fs (set_cache c st) buf dat busy (upd mem b bytes) table /\
    (forall l, disk (view (io c)) l = two_sectors b bytes (disk (view (dev st))) l).
Proof.
  intros Hi Hn Ht Hb Hbusy Hwf. assert (0 <= (n - 1) / 8) by (apply Z.div_pos; lia).
  pose proof (Z.mod_pos_bound (n - 1) 8 ltac:(lia)) as Hslot. fold (inode_slot n) in Hslot.
  assert (Hb0 : 0 <= b < BUFFERS) by (unfold b, inode_blk, BUFFERS in *; lia). unfold BUFFERS in Hb0.
  rewrite (write_inode_table_eq _ _ _ _ _ _ _ _ _ Hi) by (fold b; lia). fold b.
  destruct (bread_blk_spec st buf dat busy mem table b Hi Hb0 Hbusy) as (c1 & R1 & Hi1 & Ed1).
  rewrite R1, bind_Ret. cbv iota beta.
  destruct (buf_bytes_spec _ _ _ _ _ _ b Hi1 Hb0) as [_ Hl1].
  destruct (set_struct_at_spec (128 * inode_slot n) i (upd mem b (disk (view (dev st)) b ++ drop 512 (mem b)) b) Hwf)
    as (bytes & Ew & Hlb & Hrd & Hfr); [change (sizeof_struct inode_t) with 128%nat; lia|].
  destruct (on_buf_spec _ _ _ _ _ _ b (set_struct_at (128 * inode_slot n) i) bytes Hi1 Hb0 Ew) as (c2 & R2 & Hi2 & Ed2); [lia|].
  rewrite R2, bind_Ret. unfold bwrite_blk. change (cache (set_cache c2 (set_cache c1 st))) with c2.
  destruct (quiet_bwrite c2 buf dat ({[b]} ∪ busy) _ b p (if_quiet _ _ _ _ _ _ Hi2) Hb0 (held_now b busy) Hp) as (c3 & R3 & Hq3 & Hd3).
  rewrite R3. bind_rets. exists c3, bytes. split; [done|]. split; [done|].
  split; [unfold set_struct_at, write_at in Ew; rewrite upd_eq in Ew; case_decide; [by injection Ew as <-|done] |].
  split; [intros o k Hok; rewrite Hfr; [by rewrite upd_eq|change (sizeof_struct inode_t) with 128%nat; lia]|].
  assert (Ed : forall l, disk (view (io c3)) l = two_sectors b bytes (disk (view (dev st))) l).
  { intros l. rewrite Hd3, Ed2, upd_eq. unfold two_sectors. change (dev (set_cache c1 st)) with (io c1). by rewrite Ed1. }
  split; [lia|]. split; [|done]. rewrite released in Hq3 by done. destruct Hi. split; try done.
  - eapply quiet_ext; [exact Hq3|done|]. intros x Hx. unfold upd. by repeat case_decide.
  - intros l. change (dev (set_cache c3 st)) with (io c3). rewrite Ed. unfold two_sectors.
    repeat case_decide; rewrite ?length_take, ?length_drop; [lia..|]. apply if_disk0.
Qed.

(** C27. An inode stored with write_inode_table and read again with get_inode.
    write_inode_table puts the 128 bytes of inode [n] into slot [(n - 1) mod 8]
    of its block - in the cache the whole block, on the disk its two halves in
    two sectors - and changes nothing else.  get_inode then reads the struct at
    byte [(n - 1) mod 8] of that block, not at 128 times the slot: the first
    inode of a block comes back as it was stored, any other comes back as the
    bytes from there on, most of them those of the first inode of the block. *)
Theorem write_get_inode st buf dat busy mem table n i (b := inode_blk table n) :
  inode_fs st buf dat busy mem table -> 1 <= n <= 1024 -> 0 <= table -> b < BUFFERS -> b ∉ busy -> struct_wf i ->
  let block := put_inode (128 * inode_slot n) i (disk (view (dev st)) b ++ drop 512 (mem b)) in
  exists st1 st2 i', write n i st = Ret st1 /\ read n st1 = Ret (st2, i') /\
    (forall l, disk (view (dev st1)) l = two_sectors b block (disk (view (dev st))) l) /\
    disk (view (dev st2)) = disk (view (dev st1)) /\
    struct_at (128 * inode_slot n) block = Ret i /\
    length block = 1024%nat /\ i' = decode (take 128 (drop (Z.to_nat (inode_slot n)) block)) /\
    (inode_slot n = 0 -> i' = i).
Proof.
  intros Hi Hn Ht Hb Hbusy Hwf block.
  destruct (write_inode_table_spec st buf dat busy mem table n i Hi Hn Ht Hb Hbusy Hwf) as (c1 & bytes & R1 & E1 & Eb1 & _ & Hl & Hi1 & Hd1).
  destruct (get_inode_spec _ _ _ _ _ table n Hi1 Hn Ht Hb Hbusy) as (c2 & i' & bytes' & R2 & Eb & E2 & _ & Hd2).
  fold b in Eb, Hd1, Eb1. fold block in Eb1. change (dev (set_cache c1 st)) with (io c1) in Eb. rewrite Hd1, upd_eq in Eb. unfold two_sectors in Eb.
  rewrite decide_True, take_drop in Eb by done. rewrite Eb, Eb1 in *.
  pose proof (Z.mod_pos_bound (n - 1) 8 ltac:(lia)) as Hslot. fold (inode_slot n) in Hslot.
  eexists _, _, i'. split; [exact R1|]. split; [exact R2|]. split; [exact Hd1|]. split; [exact Hd2|]. split; [done|]. split; [done|]. split.
  - rewrite struct_at_ok in E2 by (change (sizeof_struct inode_t) with 128%nat; lia). by injection E2 as <-.
  - intros Es. rewrite Es in E1, E2. change (128 * 0) with 0 in E1. congruence.
Qed.

(** get_inode keeps the buffer it reads: asking for any inode of the same
    block a second time waits for ever, however long. *)
Theorem get_inode_holds_block st buf dat busy mem table n m (b := inode_blk table n) :
  inode_fs st buf dat busy mem table -> 1 <= n <= 1024 -> 1 <= m <= 1024 -> inode_blk table m = b ->
  0 <= table -> b < BUFFERS -> b ∉ busy ->
  exists st1 i, read n st = Ret (st1, i) /\ forall fuel', get_inode fuel' p m st1 = Spin.
Proof.
  intros Hi Hn Hm Em Ht Hb Hbusy.
  destruct (get_inode_spec st buf dat busy mem table n Hi Hn Ht Hb Hbusy) as (c & i & bytes & R & _ & _ & Hi1 & _).
  exists (set_cache c st), i. split; [exact R|]. intros fuel'. fold b in Hi1.
  assert (0 <= b) by (unfold b, inode_blk; pose proof (Z.div_pos (n - 1) 8); lia).
  rewrite (get_inode_eq _ _ _ _ _ _ _ _ Hi1), Em by (unfold BUFFERS in Hb; lia).
  unfold bread_blk. rewrite (quiet_bread_held _ buf dat ({[b]} ∪ busy) _ b fuel' p _ (if_quiet _ _ _ _ _ _ Hi1));
    [done|unfold BUFFERS in *; lia|apply held_now].
Qed.

End inodes.

(** *** A freshly created cache in front of an 8 megabyte file system *)

Lemma inode_fs_boot : exists (st : ext2_st sim Z) buf dat, inode_fs st buf dat ∅ (fun _ => BufferProofs.zero_block) 5 /\ dev st = sim_start.
Proof.
  destruct (quiet_boot_clear 0 sim_start 0) as (c & buf & dat & _ & Hq & Hio & _); [done|].
  exists (set_cache c (fs8_on sim_start)), buf, dat. split; [|exact Hio]. split; [exact Hq|done|done|done|].
  intros l. change (dev (set_cache c (fs8_on sim_start))) with (io c). by rewrite Hio.
Qed.

Definition small_file : inode_t := mk_inode_t 33188 0 5 0 0 0 0 0 1 1 0 0 (replicate 15 0) 0 0 0 0 (replicate 12 0).

(** Inode 9 is the first of its block and comes back; inode 4 is the fourth, and
    what get_inode reads for it are old bytes of the disk, here all 7. *)
Lemma write_get_inode_witness :
  (exists (st st1 st2 : ext2_st sim Z),
    write_inode_table 1 2 9 small_file st = Ret st1 /\ get_inode 1 2 9 st1 = Ret (st2, small_file)) /\
  (exists (st st1 st2 : ext2_st sim Z) i',
    write_inode_table 1 2 4 small_file st = Ret st1 /\ get_inode 1 2 4 st1 = Ret (st2, i') /\ i_size i' = 0x07070707).
Proof.
  destruct inode_fs_boot as (st & buf & dat & Hi & Ed).
  assert (Hwf : struct_wf small_file) by (unfold struct_wf; apply (bool_decide_unpack _); vm_compute; exact I).
  split.
  - destruct (write_get_inode 0 2 sim_patient st buf dat ∅ _ 5 9 small_file Hi) as (st1 & st2 & i' & R1 & R2 & _ & _ & _ & _ & _ & E);
      [lia|lia|done|set_solver|exact Hwf|].
    exists st, st1, st2. split; [exact R1|]. rewrite <- (E eq_refl). exact R2.
  - destruct (write_get_inode 0 2 sim_patient st buf dat ∅ _ 5 4 small_file Hi) as (st1 & st2 & i' & R1 & R2 & _ & _ & _ & _ & E & _);
      [lia|lia|done|set_solver|exact Hwf|].
    exists st, st1, st2, i'. split; [exact R1|]. split; [exact R2|]. rewrite Ed in E. rewrite E. by vm_compute.
Defined.

Lemma get_inode_holds_block_witness : exists (st st1 : ext2_st sim Z) i,
  get_inode 1 2 1 st = Ret (st1, i) /\ get_inode 1000 2 2 st1 = Spin.
Proof.
  destruct inode_fs_boot as (st & buf & dat & Hi & _).
  destruct (get_inode_holds_block 0 2 sim_patient st buf dat ∅ _ 5 1 2 Hi) as (st1 & i & R & Hs); [lia|lia|done|lia|done|set_solver|].
  exists st, st1, i. split; [exact R|apply Hs].
Defined.
