(* ===== verification/Ext2Path.v ===== *)
(** * Paths of ext2 (split_path, ls, mkdir and rmdir of fs/ext2/fs.c)

    These functions work on the strings of kernel/string.c, so memory is the
    byte map of Str.v: it holds the path of the caller and the literal
    [slash_lit] that strtok is given.  An array of a function is added to the
    memory when the function starts and removed when it returns; its bytes are
    [stack_byte] at first.  split_path copies the path with its NUL into an array of
    strlen(path) bytes.  The compiler rounds the array up to the alignment of
    the stack, so it can be followed by bytes nobody uses: [slack] is their
    number.  Without them the copy runs out of the array.

    strtok keeps its two static variables; messages are left out; NULL given
    to a string function is a fault. *)

From S2P Require Import Prelude Layout Ports Disk BufferCache BufferProofs Ext2Layout Mkfs Ext2Balloc Ext2Fs Str Ext2FsProofs.

(** ** Arrays on the stack *)

Section stack.
Variable stack_byte : Z -> Z.

Fixpoint stack_array (n : nat) (a : Z) (m : mem) : mem :=
  match n with
  | O => m
  | Datatypes.S n => <[a := stack_byte a]> (stack_array n (a + 1) m)
  end.
Definition drop_array (n : nat) (a : Z) (m : mem) : mem :=
  filter (fun kv => ~ (a <= fst kv < a + Z.of_nat n)) m.
End stack.

(** The string at an address. *)
Fixpoint string_at (fuel : nat) (a : Z) (m : mem) : outcome (list Z) :=
  match fuel with
  | O => Spin
  | Datatypes.S fuel =>
      c ← load m a;
      if c =? 0 then mret [] else s ← string_at fuel (a + 1) m; mret (c :: s)
  end.

(** ** The functions *)

Section paths.
Context {S A : Type} `{PortIO S} `{KAlloc A} `{KFree A}.
Variables fuel patience : nat.
(** Bound of the strings; the bytes of the stack; the literal; the array of
    split_path and the bytes behind it; the array of its callers. *)
Variable strfuel : nat.
Variable stack_byte : Z -> Z.
Variables slash_lit path_arr : Z.
Variable slack : nat.
Variable leaf_arr : Z.
Implicit Types st : ext2_st S A.

(** The loop over the directories: [Some] is the last directory and the last
    name, [None] a directory that was not found. *)
Fixpoint split_loop (n : nat) (curr_dir : ext2_file_handle) (next_dirname following_dirname : option Z)
    (tok : strtok_state) (m : mem) st
  : outcome (ext2_st S A * mem * strtok_state * option (ext2_file_handle * option Z)) :=
  match following_dirname with
  | None => mret (st, m, tok, Some (curr_dir, next_dirname))
  | Some _ =>
      match n with
      | O => Spin
      | Datatypes.S n =>
          a ← deref next_dirname;
          fname ← string_at strfuel a m;
          '(st, next_dir) ← chdir fuel patience curr_dir fname st;
          match next_dir with
          | None => mret (st, m, tok, None)
          | Some next_dir =>
              '(m, tok, next) ← strtok strfuel None slash_lit tok m;
              split_loop n next_dir following_dirname next tok m st
          end
      end
  end.

(** [None] is the return value -1; [Some] is the directory stored in
    [*parent]. *)
Definition split_path (usr_path leaf : Z) (tok : strtok_state) (m : mem) st
  : outcome (ext2_st S A * mem * strtok_state * option ext2_file_handle) :=
  len ← strlen strfuel usr_path m;
  let size := (Z.to_nat len + slack)%nat in
  let m := stack_array stack_byte size path_arr m in
  '(m, _) ← strcpy strfuel path_arr usr_path m;
  '(m, tok, next_dirname) ← strtok strfuel (Some path_arr) slash_lit tok m;
  a ← deref next_dirname;
  n ← strlen strfuel a m;
  if negb (n =? 0) then mret (st, drop_array size path_arr m, tok, None)
  else
    '(m, tok, next_dirname) ← strtok strfuel None slash_lit tok m;
    '(m, tok, following_dirname) ← strtok strfuel None slash_lit tok m;
    '(st, curr_dir) ← get_root_dir fuel patience st;
    '(st, m, tok, r) ← split_loop strfuel curr_dir next_dirname following_dirname tok m st;
    match r with
    | None => mret (st, drop_array size path_arr m, tok, None)
    | Some (curr_dir, next_dirname) =>
        a ← deref next_dirname;
        '(m, _) ← strcpy strfuel leaf a m;
        mret (st, drop_array size path_arr m, tok, Some curr_dir)
    end.

(** Size of the array of the callers. *)
Definition LEAF_SIZE : nat := 64.

Fixpoint ls_loop (n : nat) (i : Z) (leaf_dir : ext2_file_handle) st : outcome (ext2_st S A) :=
  match n with
  | O => mret st
  | Datatypes.S n =>
      '(st, block) ← get_file_block fuel patience leaf_dir i st;
      a ← ka_kfree block (heap (cache st));
      ls_loop n (i + 1) leaf_dir (set_cache (BufferCache.set_heap a (cache st)) st)
  end.
(** The results of split_path and chdir are not checked: [stack_dir] is what
    the stack held where the two handles are. *)
Definition ls (stack_dir : ext2_file_handle) (path : Z) (tok : strtok_state) (m : mem) st
  : outcome (ext2_st S A * mem * strtok_state) :=
  let m := stack_array stack_byte LEAF_SIZE leaf_arr m in
  '(st, m, tok, parent_dir) ← split_path path leaf_arr tok m st;
  leaf ← string_at strfuel leaf_arr m;
  '(st, leaf_dir) ← chdir fuel patience (default stack_dir parent_dir) leaf st;
  let leaf_dir := default stack_dir leaf_dir in
  st ← ls_loop (Z.to_nat (i_block_len (h_inode leaf_dir) st)) 0 leaf_dir st;
  mret (st, drop_array LEAF_SIZE leaf_arr m, tok).

(** The entry of a new directory: the initialiser clears the name. *)
Definition dir_entry (ino : Z) (dirname : list Z) : dentry_t :=
  mk_dentry_t ino (Z.of_nat (sizeof_struct dentry_t)) (u8 (Z.of_nat (length dirname))) EXT2_FT_DIR
    (take 64 (dirname ++ replicate 64 0)).
(** The inode and the entry are made for the first free inode; the first free
    block is reserved too, and nothing refers to it.  [stack_inode] is what the
    stack held where the inode is; without a free inode the number is
    uninitialised. *)
Definition make_dir (stack_inode : inode_t) (parent_dir : ext2_file_handle) (dirname : list Z) st
  : outcome (ext2_st S A) :=
  '(st, r) ← reserve_free_inode patience st;
  '(st, _) ← reserve_free_block patience st;
  new_inode_n ← deref r;
  st ← write_inode_table fuel patience new_inode_n (new_dir_inode stack_inode) st;
  if decide (length dirname < 64)%nat then
    '(st, _) ← add_dentry fuel patience parent_dir (dir_entry new_inode_n dirname) st;
    mret st
  else Fault.
(** [None] is the return value -1; there is no other return. *)
Definition mkdir (stack_inode : inode_t) (path : Z) (tok : strtok_state) (m : mem) st
  : outcome (ext2_st S A * mem * strtok_state * option unit) :=
  let m := stack_array stack_byte LEAF_SIZE leaf_arr m in
  '(st, m, tok, r) ← split_path path leaf_arr tok m st;
  match r with
  | None => mret (st, drop_array LEAF_SIZE leaf_arr m, tok, None)
  | Some parent_dir =>
      dirname ← string_at strfuel leaf_arr m;
      st ← make_dir stack_inode parent_dir dirname st;
      mret (st, drop_array LEAF_SIZE leaf_arr m, tok, Some tt)
  end.

(** rmdir removes nothing: it only splits the path. *)
Definition rmdir (path : Z) (tok : strtok_state) (m : mem) st
  : outcome (ext2_st S A * mem * strtok_state * option unit) :=
  let m := stack_array stack_byte LEAF_SIZE leaf_arr m in
  '(st, m, tok, r) ← split_path path leaf_arr tok m st;
  mret (st, drop_array LEAF_SIZE leaf_arr m, tok, option_map (fun _ => tt) r).
End paths.

(** ** Stack arrays *)

Lemma stack_array_lookup sb n : forall a m b,
  stack_array sb n a m !! b = if decide (a <= b < a + Z.of_nat n) then Some (sb b) else m !! b.
Proof.
  induction n as [|n IH]; intros a m b; cbn [stack_array]; [by rewrite decide_False by lia|].
  rewrite lookup_insert. destruct (decide (a = b)) as [->|]; [by rewrite decide_True by lia|].
  rewrite IH. apply decide_ext. lia.
Qed.
Lemma drop_array_lookup n a m b :
  drop_array n a m !! b = if decide (a <= b < a + Z.of_nat n) then None else m !! b.
Proof.
  unfold drop_array. case_decide as Hb.
  - apply map_lookup_filter_None_2. right. intros x _ Hn. apply Hn. done.
  - destruct (m !! b) as [x|] eqn:E; [by apply map_lookup_filter_Some_2|].
    apply map_lookup_filter_None_2. by left.
Qed.

(** No byte of the interval is in use. *)
Definition fresh (m : mem) (a n : Z) : Prop := forall b, a <= b < a + n -> m !! b = None.

Lemma fresh_apart m a n b k : fresh m a n -> writable m b k -> 0 < k -> 0 < n -> a + n <= b \/ b + k <= a.
Proof.
  intros Hf Hw Hk Hn. destruct (decide (a + n <= b \/ b + k <= a)) as [|Hx]; [done|].
  destruct (Hw (Z.max a b - b)) as [x Hx']; [lia|].
  rewrite Hf in Hx' by lia. done.
Qed.
Lemma cstr_writable m a l : cstr m a l -> writable m a (Z.of_nat (length l) + 1).
Proof.
  intros [Hb _] i Hi. destruct (lookup_lt_is_Some_2 (l ++ [0]) (Z.to_nat i)) as [c Hc].
  - rewrite length_app. simpl. lia.
  - exists c. rewrite <- (Hb _ _ Hc). f_equal. lia.
Qed.
Lemma cstr_outside m m' x n a l : cstr m a l -> same_outside m m' x n ->
  x + n <= a \/ a + Z.of_nat (length l) < x -> cstr m' a l.
Proof. intros Hc Hs Hx. eapply cstr_agree; [|exact Hc]. intros b Hb. apply Hs. lia. Qed.

(** strcpy into an array without a byte for the NUL. *)
Lemma strcpy_overrun l : forall sn ct m fuel, cstr m ct l -> writable m sn (Z.of_nat (length l)) ->
  m !! (sn + Z.of_nat (length l)) = None -> (sn + Z.of_nat (length l) <= ct \/ ct + Z.of_nat (length l) < sn) ->
  (length l < fuel)%nat -> strcpy_loop fuel sn ct m = Fault.
Proof.
  induction l as [|c l IH]; intros sn ct m fuel Hc Hw He Hap Hf; (destruct fuel as [|fuel]; [simpl in Hf; lia|]);
    cbn [strcpy_loop length] in *.
  - apply cstr_nil in Hc. rewrite (load_ok _ _ _ Hc), bind_Ret. cbn [Z.eqb]. unfold store.
    rewrite Z.add_0_r in He. by rewrite He.
  - apply cstr_cons in Hc as (Hc & Hr & Hl). rewrite (load_ok _ _ _ Hc), bind_Ret.
    rewrite (proj2 (Z.eqb_neq c 0)) by lia.
    rewrite store_ok; [|rewrite <- (Z.add_0_r sn); apply Hw; lia|unfold is_byte; lia]. rewrite bind_Ret.
    apply (IH (sn + 1) (ct + 1)); [|apply writable_insert| |lia|lia].
    + eapply cstr_agree; [|exact Hl]. intros b Hb. rewrite lookup_insert_ne; [done|lia].
    + intros i Hi. replace (sn + 1 + i) with (sn + (1 + i)) by lia. apply Hw. lia.
    + rewrite lookup_insert_ne by lia. rewrite <- He. f_equal. lia.
Qed.

Lemma string_at_spec l : forall fuel a m, cstr m a l -> (length l < fuel)%nat -> string_at fuel a m = Ret l.
Proof.
  induction l as [|c l IH]; intros fuel a m Hc Hf; (destruct fuel as [|fuel]; [simpl in Hf; lia|]); cbn [string_at].
  - apply cstr_nil in Hc. by rewrite (load_ok _ _ _ Hc), bind_Ret.
  - apply cstr_cons in Hc as (Hc & Hr & Hl). rewrite (load_ok _ _ _ Hc), bind_Ret.
    rewrite (proj2 (Z.eqb_neq c 0)) by lia. by rewrite (IH fuel _ _ Hl) by (simpl in Hf; lia).
Qed.

(** Adding an array and removing it leaves the memory as it was, whatever was
    written into the array. *)
Lemma drop_stack_array sb n a m m' :
  fresh m a (Z.of_nat n) -> same_outside (stack_array sb n a m) m' a (Z.of_nat n) -> drop_array n a m' = m.
Proof.
  intros Hf Hs. apply map_eq. intros b. rewrite drop_array_lookup. case_decide as Hb; [by rewrite Hf|].
  rewrite Hs by done. rewrite stack_array_lookup. by rewrite decide_False.
Qed.

(** ** The text of a path *)

(** A name: not empty, no slash, no NUL. *)
Definition path_name (c : list Z) : Prop := c <> [] /\ Forall (fun x => 0 < x < 2 ^ 8 /\ x <> 47) c.
(** "/a/b" for the names "a" and "b", and the same without its first slash. *)
Definition path_text (cs : list (list Z)) : list Z := concat (cons 47 <$> cs).
Definition rest_text (cs : list (list Z)) : list Z := tail (path_text cs).

Lemma rest_text_one c : rest_text [c] = c.
Proof. unfold rest_text, path_text. simpl. apply app_nil_r. Qed.
Lemma rest_text_cons c d cs : rest_text (c :: d :: cs) = c ++ 47 :: rest_text (d :: cs).
Proof. done. Qed.
Lemma path_text_cons c cs : path_text (c :: cs) = 47 :: rest_text (c :: cs).
Proof. done. Qed.
Lemma path_text_length cs : (length cs <= length (path_text cs))%nat.
Proof. induction cs as [|c cs IH]; [done|]. change (path_text (c :: cs)) with (47 :: c ++ path_text cs). simpl. rewrite length_app. lia. Qed.
Lemma last_names (d c : list Z) cs : List.last (d :: cs) c = List.last cs d.
Proof.
  revert d c. induction cs as [|e cs IH]; intros d c; [done|].
  change (List.last (e :: cs) c = List.last (e :: cs) d). by rewrite !IH.
Qed.
Lemma last_length c cs : (length (List.last cs c) <= length (rest_text (c :: cs)))%nat.
Proof.
  revert c. induction cs as [|d cs IH]; intros c; [by rewrite rest_text_one|].
  rewrite last_names, rest_text_cons, length_app. specialize (IH d). simpl in *. lia.
Qed.
Lemma path_name_nosep c : path_name c -> Forall (fun x => x ∉ [47]) c.
Proof. intros [_ Hc]. eapply Forall_impl; [exact Hc|]. intros x [_ Hx]. by rewrite list_elem_of_singleton. Qed.

(** ** Splitting a path *)

Section split.
Context {S A : Type} `{PortIO S} `{KAlloc A} `{KFree A}.
Variables fuel patience strfuel : nat.
Variable stack_byte : Z -> Z.
Variables slash_lit path_arr : Z.
Implicit Types st : ext2_st S A.

(** The reference: the directories are entered one after the other. *)
Fixpoint walk_dirs (dirs : list (list Z)) (dir : ext2_file_handle) st : outcome (ext2_st S A * option ext2_file_handle) :=
  match dirs with
  | [] => mret (st, Some dir)
  | d :: dirs =>
      '(st, r) ← chdir fuel patience dir d st;
      match r with
      | None => mret (st, None)
      | Some dir => walk_dirs dirs dir st
      end
  end.
Definition walk_from_root (dirs : list (list Z)) st : outcome (ext2_st S A * option ext2_file_handle) :=
  '(st, root) ← get_root_dir fuel patience st; walk_dirs dirs root st.

(** The text of the names [cs] that strtok has not seen yet is at [b]. *)
Definition rest_at (cs : list (list Z)) (b : Z) (tok : strtok_state) (m : mem) : Prop :=
  tok = mk_strtok b (Z.of_nat (length (rest_text cs))) /\ cstr m b (rest_text cs) /\ cstr m slash_lit [47] /\
  (slash_lit + 1 < b \/ b + Z.of_nat (length (rest_text cs)) < slash_lit).

Lemma rest_at_none b tok m : rest_at [] b tok m -> (0 < strfuel)%nat ->
  exists tok', strtok strfuel None slash_lit tok m = Ret (m, tok', None).
Proof.
  intros (-> & Hc & _) Hf. exists (mk_strtok b 0). apply strtok_none; [by right|done|done].
Qed.

(** strtok returns the next name and leaves the others. *)
Lemma rest_at_next c cs b tok m :
  rest_at (c :: cs) b tok m -> Forall path_name (c :: cs) ->
  (length (rest_text (c :: cs)) < strfuel)%nat -> (1 < strfuel)%nat -> Z.of_nat (length (rest_text (c :: cs))) < 2 ^ 31 ->
  exists m' tok' b', strtok strfuel None slash_lit tok m = Ret (m', tok', Some b) /\
    cstr m' b c /\ rest_at cs b' tok' m' /\ (cs = [] \/ b + Z.of_nat (length c) < b') /\
    b' + Z.of_nat (length (rest_text cs)) = b + Z.of_nat (length (rest_text (c :: cs))) /\
    same_outside m m' b (Z.of_nat (length (rest_text (c :: cs)))).
Proof.
  intros (-> & Hc & Hs & Hap) Hn Hl Hf Hb. apply Forall_cons in Hn as [Hcn Hn].
  pose proof (path_name_nosep c Hcn) as Hsep. destruct cs as [|d cs].
  - rewrite rest_text_one in *. exists m, (mk_strtok (b + Z.of_nat (length c)) 0), (b + Z.of_nat (length c)).
    split; [apply (strtok_last slash_lit None _ m strfuel b [47] Hs); [simpl; lia|apply Hcn|by right|done..] |].
    split_and!; [done| |by left|simpl; lia|by intros x _].
    split; [done|]. split; [|split; [done|simpl; lia] ].
    apply cstr_nil. destruct Hc as [Hc _]. by apply (Hc (length c)), list_lookup_middle.
  - rewrite rest_text_cons in *. set (r := rest_text (d :: cs)) in *.
    exists (<[b + Z.of_nat (length c) := 0]> m), (mk_strtok (b + Z.of_nat (length c) + 1) (Z.of_nat (length r))),
      (b + Z.of_nat (length c) + 1).
    destruct (cstr_app_cut _ _ _ _ _ Hc) as [Hc1 Hc2].
    split; [apply (strtok_delim slash_lit None _ m strfuel b [47] Hs ltac:(simpl; lia) c 47 r); [by right|done..|by left] |].
    rewrite !length_app in *. cbn [length] in *. split_and!; [done| |right; lia|lia|].
    + split; [done|]. split; [done|]. split; [|fold r; lia].
      eapply cstr_agree; [|exact Hs]. simpl. intros x Hx. rewrite lookup_insert_ne; [done|lia].
    + intros x Hx. rewrite lookup_insert_ne; [done|lia].
Qed.

(** What the loop does, from the call of strtok that gives [following_dirname]:
    [c] is the name at [a], [cs] are the names after it. *)
Definition split_tail (n : nat) (dir : ext2_file_handle) (a : Z) (tok : strtok_state) (m : mem) st :=
  '(m, tok, following) ← strtok strfuel None slash_lit tok m;
  split_loop fuel patience strfuel slash_lit n dir (Some a) following tok m st.

Definition split_result (c : list Z) (cs : list (list Z)) (lo hi : Z) (m : mem)
    (r : outcome (ext2_st S A * option ext2_file_handle))
    (s : outcome (ext2_st S A * mem * strtok_state * option (ext2_file_handle * option Z))) : Prop :=
  match r with
  | Ret (st', Some d) => exists m' tok' a', s = Ret (st', m', tok', Some (d, Some a')) /\
      cstr m' a' (List.last cs c) /\ lo <= a' /\ a' + Z.of_nat (length (List.last cs c)) <= hi /\
      same_outside m m' lo (hi - lo)
  | Ret (st', None) => exists m' tok', s = Ret (st', m', tok', None) /\ same_outside m m' lo (hi - lo)
  | Fault => s = Fault
  | Spin => s = Spin
  end.

Lemma split_result_step c d cs a b hi m m' r s :
  a <= b -> same_outside m m' b (hi - b) -> split_result d cs b hi m' r s -> split_result c (d :: cs) a hi m r s.
Proof.
  intros Hab Hm Hs. assert (Hw : forall m2, same_outside m' m2 b (hi - b) -> same_outside m m2 a (hi - a)).
  { intros m2 H2 x Hx. rewrite H2 by lia. apply Hm. lia. }
  destruct r as [ [st' [dir|] ]| |]; cbn [split_result] in *; [| |done|done].
  - destruct Hs as (m2 & tok' & a' & -> & Hc & Hlo & Hhi & Ho). exists m2, tok', a'. rewrite last_names.
    split_and!; [done|done|lia|lia|by apply Hw].
  - destruct Hs as (m2 & tok' & -> & Ho). exists m2, tok'. split; [done|by apply Hw].
Qed.

Lemma split_tail_correct cs : forall c n dir a b tok m st,
  cstr m a c -> rest_at cs b tok m -> (cs = [] \/ a + Z.of_nat (length c) < b) -> a + Z.of_nat (length c) <= b ->
  Forall path_name cs -> (length c < strfuel)%nat -> (length (rest_text cs) < strfuel)%nat -> (1 < strfuel)%nat ->
  Z.of_nat (length (rest_text cs)) < 2 ^ 31 -> (length cs <= n)%nat ->
  split_result c cs a (b + Z.of_nat (length (rest_text cs))) m (walk_dirs (removelast (c :: cs)) dir st)
    (split_tail n dir a tok m st).
Proof.
  induction cs as [|d cs IH]; intros c n dir a b tok m st Hc Hr Hab Hle Hcs Hlc Hl Hf Hb Hn; unfold split_tail.
  - destruct (rest_at_none _ _ _ Hr) as [tok' ->]; [lia|]. rewrite bind_Ret.
    exists m, tok', a. split; [by destruct n|]. split_and!; [done|lia|simpl; lia|by intros x _].
  - destruct Hab as [?|Hab]; [done|]. destruct n as [|n]; [simpl in Hn; lia|].
    destruct (rest_at_next d cs b tok m Hr Hcs Hl Hf Hb) as (m' & tok' & b' & -> & Hd & Hr' & Hbb & Hend & Hout).
    rewrite bind_Ret. cbn [split_loop deref]. rewrite bind_Ret.
    assert (Hc' : cstr m' a c) by (eapply cstr_outside; [exact Hc|exact Hout|lia]).
    rewrite (string_at_spec c) by done. rewrite bind_Ret.
    change (removelast (c :: d :: cs)) with (c :: removelast (d :: cs)). cbn [walk_dirs].
    destruct (chdir fuel patience dir c st) as [ [st1 [dir1|] ]| |]; rewrite ?bind_Ret; [| |done|done].
    2:{ exists m', tok'. split; [done|]. intros x Hx. apply Hout. lia. }
    apply Forall_cons in Hcs as [_ Hcs'].
    assert (Hlens : (length d <= length (rest_text (d :: cs)) /\ length (rest_text cs) <= length (rest_text (d :: cs)))%nat).
    { destruct cs; [rewrite rest_text_one; simpl; lia|]. rewrite (rest_text_cons d), length_app. simpl. lia. }
    apply (split_result_step c d cs a b _ m m'); [lia|by replace (_ - _) with (Z.of_nat (length (rest_text (d :: cs)))) by lia|].
    rewrite <- Hend. apply IH; [done..| |done|lia|lia|done|lia|simpl in Hn; lia].
    destruct Hbb as [-> | ?]; [|lia]. rewrite rest_text_one in Hend. simpl in Hend. lia.
Qed.
(** The first two calls of strtok: the leading slash gives an empty name, and
    the names follow. *)
Lemma first_token c cs tok m : cstr m path_arr (path_text (c :: cs)) -> cstr m slash_lit [47] ->
  (slash_lit + 1 < path_arr \/ path_arr + Z.of_nat (length (path_text (c :: cs))) < slash_lit) ->
  (length (path_text (c :: cs)) < strfuel)%nat -> (1 < strfuel)%nat -> Z.of_nat (length (path_text (c :: cs))) < 2 ^ 31 ->
  exists m' tok', strtok strfuel (Some path_arr) slash_lit tok m = Ret (m', tok', Some path_arr) /\
    strlen strfuel path_arr m' = Ret 0 /\ rest_at (c :: cs) (path_arr + 1) tok' m' /\ same_outside m m' path_arr 1.
Proof.
  intros Hc Hs Hap Hl Hf Hb. rewrite path_text_cons in *.
  rewrite (strtok_delim slash_lit (Some path_arr) tok m strfuel path_arr [47] Hs Hf [] 47 (rest_text (c :: cs)))
    by (done || by left). cbn [length] in *. rewrite Z.add_0_r. eexists _, _. split; [done|].
  destruct (cstr_app_cut m path_arr [] 47 (rest_text (c :: cs)) Hc) as [Hz Hr]. simpl in Hz, Hr. rewrite Z.add_0_r in Hz, Hr.
  split; [by rewrite (strlen_spec []) by (done || simpl; lia)|]. split.
  - split; [done|]. split; [done|]. split; [|lia].
    eapply cstr_agree; [|exact Hs]. simpl. intros x Hx. rewrite lookup_insert_ne; [done|lia].
  - intros x Hx. rewrite lookup_insert_ne; [done|lia].
Qed.

Lemma rest_at_total cs b tok m : rest_at cs b tok m -> Forall path_name cs ->
  (length (rest_text cs) < strfuel)%nat -> (1 < strfuel)%nat -> Z.of_nat (length (rest_text cs)) < 2 ^ 31 ->
  exists x, strtok strfuel None slash_lit tok m = Ret x.
Proof.
  intros Hr Hcs Hl Hf Hb. destruct cs as [|c cs].
  - destruct (rest_at_none _ _ _ Hr) as [tok' E]; [lia|]. eauto.
  - destruct (rest_at_next _ _ _ _ _ Hr Hcs Hl Hf Hb) as (m' & tok' & b' & E & _). eauto.
Qed.

Variable slack : nat.

Section path.
Variables (c : list Z) (cs : list (list Z)) (usr leaf : Z) (m : mem).
Let text := path_text (c :: cs).
Let size := Z.of_nat (length text + slack).
Hypothesis Hnames : Forall path_name (c :: cs).
Hypothesis Hslash : cstr m slash_lit [47].
Hypothesis Husr : cstr m usr text.
Hypothesis Hfresh : fresh m path_arr size.
Hypothesis Hfuel : (length text + 1 < strfuel)%nat.
Hypothesis Hlen : Z.of_nat (length text) < 2 ^ 31.

(** Up to the loop: the tokens are the names of the path, in the array. *)
Lemma split_path_start tok st : (1 <= slack)%nat ->
  exists m1 tok1 b1, 
    split_path fuel patience strfuel stack_byte slash_lit path_arr slack usr leaf tok m st =
    ('(m, tok, following) ← strtok strfuel None slash_lit tok1 m1;
     '(st, dir) ← get_root_dir fuel patience st;
     '(st, m, tok, r) ← split_loop fuel patience strfuel slash_lit strfuel dir (Some (path_arr + 1)) following tok m st;
     match r with
     | None => mret (st, drop_array (length text + slack) path_arr m, tok, None)
     | Some (dir, next) =>
         a ← deref next;
         '(m, _) ← strcpy strfuel leaf a m;
         mret (st, drop_array (length text + slack) path_arr m, tok, Some dir)
     end) /\
    same_outside (stack_array stack_byte (length text + slack) path_arr m) m1 path_arr size /\
    cstr m1 (path_arr + 1) c /\ rest_at cs b1 tok1 m1 /\
    (cs = [] \/ path_arr + 1 + Z.of_nat (length c) < b1) /\ path_arr + 1 + Z.of_nat (length c) <= b1 /\
    b1 + Z.of_nat (length (rest_text cs)) = path_arr + Z.of_nat (length text).
Proof.
  intros Hslack. unfold split_path. rewrite (strlen_spec text) by (done || lia). rewrite bind_Ret, Nat2Z.id.
  set (arr := stack_array _ _ _ _).
  assert (Hold : same_outside m arr path_arr size).
  { intros x Hx. unfold arr. rewrite stack_array_lookup, decide_False; [done|exact Hx]. }
  unfold size in *.
  pose proof (fresh_apart _ _ _ _ _ Hfresh (cstr_writable _ _ _ Husr) ltac:(lia) ltac:(lia)) as Hap1.
  pose proof (fresh_apart _ _ _ _ _ Hfresh (cstr_writable _ _ _ Hslash) ltac:(lia) ltac:(lia)) as Hap2.
  change (Z.of_nat (length [47])) with 1 in Hap2.
  destruct (strcpy_spec text path_arr usr arr strfuel) as (m1 & R1 & Hc1 & Ho1).
  { eapply cstr_outside; [exact Husr|exact Hold|lia]. }
  { intros i Hi. unfold arr. rewrite stack_array_lookup, decide_True by lia. done. }
  { lia. }
  { lia. }
  unfold strcpy. rewrite R1, !bind_Ret.
  assert (Hs1 : cstr m1 slash_lit [47]).
  { eapply cstr_outside; [eapply cstr_outside; [exact Hslash|exact Hold|] |exact Ho1|];
      change (Z.of_nat (length [47])) with 1; lia. }
  destruct (first_token c cs tok m1) as (m2 & tok2 & -> & R2 & Hr2 & Ho2); [done|done|fold text; lia|fold text; lia|lia|done|].
  rewrite bind_Ret. cbn [deref]. rewrite bind_Ret, R2, bind_Ret. cbn [Z.eqb negb].
  assert (Htext : length text = Datatypes.S (length (rest_text (c :: cs)))) by done.
  destruct (rest_at_next c cs _ _ _ Hr2 Hnames) as (m3 & tok3 & b3 & -> & Hc3 & Hr3 & Hb3 & He3 & Ho3); [lia..|].
  rewrite bind_Ret. exists m3, tok3, b3. split; [done|]. split_and!; [|done..| |lia].
  - intros x Hx. rewrite Ho3, Ho2, Ho1 by lia. done.
  - destruct Hb3 as [-> | ?]; [|lia]. rewrite rest_text_one in *. simpl in *. lia.
Qed.

(** The last step: the name that was found is copied into [leaf] and the array
    is gone. *)
Lemma leaf_copied l a m3 (tok3 : strtok_state) (dir : ext2_file_handle) st :
  writable m leaf (Z.of_nat (length l) + 1) -> (length l < length text)%nat -> (1 <= slack)%nat ->
  cstr m3 a l -> path_arr + 1 <= a -> a + Z.of_nat (length l) <= path_arr + Z.of_nat (length text) ->
  same_outside (stack_array stack_byte (length text + slack) path_arr m) m3 path_arr size ->
  exists m' tok', ('(m, _) ← strcpy strfuel leaf a m3;
     mret (st, drop_array (length text + slack) path_arr m, tok3, Some dir)) = Ret (st, m', tok', Some dir) /\
    cstr m' leaf l /\ same_outside m m' leaf (Z.of_nat (length l) + 1).
Proof.
  intros Hw Hl Hslack Hc Hlo Hhi Ho.
  pose proof (fresh_apart _ _ _ _ _ Hfresh Hw ltac:(lia) ltac:(unfold size; lia)) as Hap. unfold size in *.
  assert (Hm3 : forall x, ~ (path_arr <= x < path_arr + size) -> m3 !! x = m !! x).
  { intros x Hx. rewrite Ho by done. rewrite stack_array_lookup, decide_False; [done|exact Hx]. }
  destruct (strcpy_spec l leaf a m3 strfuel) as (m4 & R & Hc4 & Ho4); [done| |lia|lia|].
  { intros i Hi. rewrite Hm3 by (unfold size; lia). by apply Hw. }
  unfold strcpy. rewrite R, !bind_Ret. eexists _, tok3. split; [done|]. split.
  - eapply cstr_agree; [|exact Hc4]. intros x Hx. rewrite drop_array_lookup, decide_False; [done|lia].
  - intros x Hx. rewrite drop_array_lookup. case_decide as Hin; [symmetry; by apply Hfresh|].
    rewrite Ho4 by done. by apply Hm3.
Qed.

Lemma split_path_spec tok st :
  (1 <= slack)%nat -> writable m leaf (Z.of_nat (length (List.last cs c)) + 1) ->
  let result := split_path fuel patience strfuel stack_byte slash_lit path_arr slack usr leaf tok m st in
  match walk_from_root (removelast (c :: cs)) st with
  | Ret (st', Some dir) => exists m' tok', result = Ret (st', m', tok', Some dir) /\
      cstr m' leaf (List.last cs c) /\ same_outside m m' leaf (Z.of_nat (length (List.last cs c)) + 1)
  | Ret (st', None) => exists tok', result = Ret (st', m, tok', None)
  | Fault => result = Fault
  | Spin => result = Spin
  end.
Proof.
  intros Hslack Hleaf result.
  destruct (split_path_start tok st Hslack) as (m1 & tok1 & b1 & E & Ho & Hc & Hr & Hb & Hle & He).
  unfold result. rewrite E. clear result E.
  pose proof (Forall_inv_tail Hnames) as Hcs0.
  destruct (rest_at_total cs b1 tok1 m1 Hr Hcs0) as [ [ [m2 tok2] foll] Et]; [lia..|]. rewrite Et, bind_Ret.
  unfold walk_from_root. destruct (get_root_dir fuel patience st) as [ [st1 root]| |]; rewrite ?bind_Ret; [|done|done].
  pose proof (split_tail_correct cs c strfuel root (path_arr + 1) b1 tok1 m1 st1 Hc Hr Hb Hle Hcs0) as Ht.
  unfold split_tail in Ht. rewrite Et, bind_Ret, He in Ht.
  pose proof (path_text_length (c :: cs)) as Hcount. fold text in Hcount. cbn [length] in Hcount.
  specialize (Ht ltac:(lia) ltac:(lia) ltac:(lia) ltac:(lia) ltac:(lia)).
  assert (Hdone : forall m3, same_outside m1 m3 (path_arr + 1) (path_arr + Z.of_nat (length text) - (path_arr + 1)) ->
    same_outside (stack_array stack_byte (length text + slack) path_arr m) m3 path_arr size).
  { intros m3 H3 x Hx. rewrite H3; [by apply Ho|]. unfold size in Hx. lia. }
  destruct (walk_dirs _ root st1) as [ [st2 [dir|] ]| |]; cbn [split_result] in Ht.
  - destruct Ht as (m3 & tok3 & a3 & -> & Hc3 & Hlo & Hhi & Ho3). apply Hdone in Ho3. rewrite bind_Ret. cbn [deref].
    rewrite bind_Ret. apply leaf_copied; (done || lia).
  - destruct Ht as (m3 & tok3 & -> & Ho3). apply Hdone in Ho3. rewrite bind_Ret. exists tok3.
    by rewrite (drop_stack_array _ _ _ _ _ Hfresh Ho3).
  - by rewrite Ht.
  - by rewrite Ht.
Qed.

(** C31. split_path with room for the NUL: it enters the directories of the path
    but the last name one by one from the root, stores the directory it
    reaches in [*parent] and the last name in [leaf], and fails exactly when
    a directory is not found; it writes nothing else. *)
Theorem split_path_correct tok st :
  (1 <= slack)%nat -> writable m leaf (Z.of_nat (length (List.last cs c)) + 1) ->
  let result := split_path fuel patience strfuel stack_byte slash_lit path_arr slack usr leaf tok m st in
  match walk_from_root (removelast (c :: cs)) st with
  | Ret (st', Some dir) => exists m' tok', result = Ret (st', m', tok', Some dir) /\
      cstr m' leaf (List.last cs c) /\ same_outside m m' leaf (Z.of_nat (length (List.last cs c)) + 1)
  | Ret (st', None) => exists tok', result = Ret (st', m, tok', None)
  | Fault => result = Fault
  | Spin => result = Spin
  end.
Proof. exact (split_path_spec tok st). Qed.

(** Without a byte behind the array the copy of the path runs out of it:
    split_path never returns when that byte is no part of an object. *)
Theorem split_path_overrun tok st :
  slack = 0%nat -> m !! (path_arr + Z.of_nat (length text)) = None ->
  split_path fuel patience strfuel stack_byte slash_lit path_arr slack usr leaf tok m st = Fault.
Proof.
  intros Hslack Hend. unfold split_path. rewrite (strlen_spec text) by (done || lia).
  rewrite bind_Ret, Nat2Z.id, Hslack, Nat.add_0_r. unfold size in Hfresh. rewrite Hslack, Nat.add_0_r in Hfresh.
  assert (Hpos : (0 < length text)%nat) by (unfold text; rewrite path_text_cons; simpl; lia).
  pose proof (fresh_apart _ _ _ _ _ Hfresh (cstr_writable _ _ _ Husr) ltac:(lia) ltac:(lia)) as Hap.
  unfold strcpy. rewrite (strcpy_overrun text); [done| | | |lia|lia].
  - eapply cstr_agree; [|exact Husr]. intros x Hx. rewrite stack_array_lookup, decide_False; [done|lia].
  - intros i Hi. rewrite stack_array_lookup, decide_True by lia. done.
  - rewrite stack_array_lookup, decide_False by lia. done.
Qed.
End path.
End split.

(** ** mkdir *)

Section mkdir.
Context {S A : Type} `{PortIO S} `{KAlloc A} `{KFree A}.
Variables fuel patience strfuel : nat.
Variable stack_byte : Z -> Z.
Variables slash_lit path_arr : Z.
Variable slack : nat.
Variable leaf_arr : Z.
Implicit Types st : ext2_st S A.

Lemma cstr_stack_array n a m b l : cstr m b l -> fresh m a (Z.of_nat n) -> (0 < n)%nat ->
  cstr (stack_array stack_byte n a m) b l.
Proof.
  intros Hc Hf Hn. pose proof (fresh_apart _ _ _ _ _ Hf (cstr_writable _ _ _ Hc) ltac:(lia) ltac:(lia)).
  eapply cstr_agree; [|exact Hc]. intros x Hx. rewrite stack_array_lookup, decide_False; [done|lia].
Qed.

(** mkdir with room for the NUL of the path: it enters the directories of the
    path but the last name and runs [make_dir] with the last name in the
    directory it reaches; it returns -1, and changes no more than the walk,
    exactly when a directory is not found.  Its memory is as before. *)
Theorem mkdir_correct c cs path tok m st stack_inode :
  let text := path_text (c :: cs) in
  let size := Z.of_nat (length text + slack) in
  let dirname := List.last cs c in
  Forall path_name (c :: cs) -> cstr m slash_lit [47] -> cstr m path text ->
  fresh m path_arr size -> fresh m leaf_arr 64 -> (path_arr + size <= leaf_arr \/ leaf_arr + 64 <= path_arr) ->
  (length text + 1 < strfuel)%nat -> Z.of_nat (length text) < 2 ^ 31 -> (1 <= slack)%nat -> (length dirname < 64)%nat ->
  let result := mkdir fuel patience strfuel stack_byte slash_lit path_arr slack leaf_arr stack_inode path tok m st in
  match walk_from_root fuel patience (removelast (c :: cs)) st with
  | Ret (st', Some dir) =>
      exists tok', result = (st ← make_dir fuel patience stack_inode dir dirname st'; mret (st, m, tok', Some tt))
  | Ret (st', None) => exists tok', result = Ret (st', m, tok', None)
  | Fault => result = Fault
  | Spin => result = Spin
  end.
Proof.
  intros text size dirname Hn Hs Hp Hf1 Hf2 Hap Hfuel Hlen Hslack Hd result. unfold result, mkdir, LEAF_SIZE.
  set (m0 := stack_array stack_byte 64 leaf_arr m).
  assert (Hf : fresh m0 path_arr size).
  { intros x Hx. unfold m0. rewrite stack_array_lookup, decide_False by lia. by apply Hf1. }
  assert (Hw : writable m0 leaf_arr (Z.of_nat (length dirname) + 1)).
  { intros i Hi. unfold m0. rewrite stack_array_lookup, decide_True by lia. done. }
  pose proof (split_path_spec fuel patience strfuel stack_byte slash_lit path_arr slack c cs path leaf_arr m0 Hn
    (cstr_stack_array 64 _ _ _ _ Hs Hf2 ltac:(lia)) (cstr_stack_array 64 _ _ _ _ Hp Hf2 ltac:(lia)) Hf Hfuel Hlen tok st Hslack Hw) as Hsp.
  fold dirname in Hsp.
  cbv zeta in Hsp. pose proof (last_length c cs) as Hlast. fold dirname in Hlast.
  assert (Htext : length text = Datatypes.S (length (rest_text (c :: cs)))) by done.
  destruct (walk_from_root fuel patience (removelast (c :: cs)) st) as [ [st' [dir|] ]| |].
  - destruct Hsp as (m' & tok' & -> & Hc & Ho). exists tok'. rewrite bind_Ret.
    rewrite (string_at_spec dirname), bind_Ret by (done || lia).
    rewrite (drop_stack_array stack_byte 64 leaf_arr m m' Hf2); [done|]. intros x Hx. apply Ho. lia.
  - destruct Hsp as (tok' & ->). exists tok'. rewrite bind_Ret.
    by rewrite (drop_stack_array stack_byte 64 leaf_arr m m0 Hf2) by by intros x _.
  - by rewrite Hsp.
  - by rewrite Hsp.
Qed.
End mkdir.

(** ** Concrete instances *)

(** "/d" at 100 and "/" at 200. *)
Definition path_memory : mem := memory_of 100 [47; 100; 0] ∪ memory_of 200 [47; 0].

Lemma path_memory_fresh a n : bool_decide (Forall (fun i => path_memory !! (a + i) = None) (seqZ 0 n)) = true -> fresh path_memory a n.
Proof.
  intros Hall%bool_decide_eq_true x Hx. rewrite Forall_forall in Hall. replace x with (a + (x - a)) by lia.
  apply Hall, elem_of_seqZ. lia.
Qed.
Lemma path_memory_strings : cstr path_memory 100 (path_text [ [100] ]) /\ cstr path_memory 200 [47].
Proof. split; (split; [apply bytes_at_dec; by vm_compute|apply (bool_decide_unpack _); by vm_compute]). Qed.

(** The root directory of the file system of [inode_fs_boot]. *)
Lemma root_found : exists (st st1 : ext2_st sim Z) i, get_root_dir 1 2 st = Ret (st1, mk_handle i 2).
Proof.
  destruct inode_fs_boot as (st & buf & dat & Hi & _).
  destruct (get_inode_holds_block 0 2 sim_patient st buf dat ∅ _ 5 2 1 Hi) as (st1 & i & R & _); [lia|lia|done|lia|done|set_solver|].
  exists st, st1, i. unfold get_root_dir, EXT2_ROOT_INO. by rewrite R.
Qed.

(** The path "/d", with one byte behind the array and the array [leaf] at 400. *)
Lemma split_path_correct_witness : exists (st st' : ext2_st sim Z) dir m' tok',
  get_root_dir 1 2 st = Ret (st', dir) /\
  split_path 1 2 100 (fun _ => 0) 200 300 1 100 400 (mk_strtok 0 0) (stack_array (fun _ => 0) 64 400 path_memory) st =
    Ret (st', m', tok', Some dir) /\ cstr m' 400 [100].
Proof.
  destruct root_found as (st & st1 & i & R). destruct path_memory_strings as [Hp Hs].
  set (m := stack_array (fun _ => 0) 64 400 path_memory).
  assert (Hf : fresh path_memory 400 64) by exact (path_memory_fresh 400 64 eq_refl).
  assert (Hf3 : fresh m 300 3).
  { intros x Hx. unfold m. rewrite stack_array_lookup, decide_False by lia. by apply (path_memory_fresh 300 3 eq_refl). }
  pose proof (split_path_correct 1 2 100 (fun _ => 0) 200 300 1 [100] [] 100 400 m ltac:(repeat constructor; done)
    (cstr_stack_array _ 64 400 _ _ _ Hs Hf ltac:(lia)) (cstr_stack_array _ 64 400 _ _ _ Hp Hf ltac:(lia)) Hf3
    ltac:(simpl; lia) ltac:(vm_compute; done) (mk_strtok 0 0) st ltac:(lia)) as E.
  cbv zeta in E. unfold walk_from_root in E. rewrite R, bind_Ret in E. cbn [removelast walk_dirs mret outcome_ret] in E.
  destruct E as (m' & tok' & E & Hc & _).
  - intros x Hx. unfold m. rewrite stack_array_lookup, decide_True; [done|cbn in Hx; lia].
  - exists st, st1, (mk_handle i 2), m', tok'. split; [exact R|]. split; [exact E|exact Hc].
Defined.

Lemma mkdir_correct_witness : exists (st st' : ext2_st sim Z) dir tok',
  get_root_dir 1 2 st = Ret (st', dir) /\
  mkdir 1 2 100 (fun _ => 0) 200 300 1 400 zero_inode 100 (mk_strtok 0 0) path_memory st =
    (st ← make_dir 1 2 zero_inode dir [100] st'; mret (st, path_memory, tok', Some tt)).
Proof.
  destruct root_found as (st & st1 & i & R). destruct path_memory_strings as [Hp Hs].
  pose proof (mkdir_correct 1 2 100 (fun _ => 0) 200 300 1 400 [100] [] 100 (mk_strtok 0 0) path_memory st zero_inode) as E.
  cbv zeta in E. specialize (E ltac:(repeat constructor; done) Hs Hp (path_memory_fresh 300 3 eq_refl)
    (path_memory_fresh 400 64 eq_refl) ltac:(left; vm_compute; congruence) ltac:(simpl; lia) ltac:(vm_compute; done)
    ltac:(lia) ltac:(simpl; lia)).
  unfold walk_from_root in E. rewrite R, bind_Ret in E. cbn [removelast walk_dirs] in E.
  destruct E as [tok' E]. exists st, st1, (mk_handle i 2), tok'. split; [exact R|exact E].
Defined.
