(* ===== verification/Vfs.v ===== *)
(** * The objects of the virtual file system (include/vfs.h)

    Dentries, inodes, open files and superblocks live in stores of their own,
    by address; a pointer is an [option Z], [None] being NULL.  Every member of
    type [struct list_head] is a node of [vnodes], and the list of a member is
    a ring of ListHead.  An object that is freed leaves the stores with its
    nodes, so that a later access to it is a fault.

    The slab allocator below is the classes [KAlloc], [KFree] and [KCacheFree]
    on the rest of the kernel, [ext].  The tables of function pointers are the
    classes [InodeOps], [FileOps] and [SuperOps]: a table has an address, and a
    slot is [None] where the table holds NULL. *)

From S2P Require Import Prelude ListHead.
From S2P Require Import BufferCache.

(** ** The structs *)

Definition D_NAME_LEN : Z := 30.
Record dentry := mk_dentry {
  d_count : Z; d_flags : Z; d_inode : option Z; d_parent : option Z; d_name : list Z;
  d_op : option Z; d_sb : option Z }.

Record inode := mk_inode {
  i_dev : Z; i_no : Z; i_count : Z; i_mode : Z; i_nlinks : Z; i_uid : Z; i_gid : Z; i_flags : Z;
  i_size : Z; i_atime : Z; i_mtime : Z; i_ctime : Z; i_state : Z; i_blocks : Z;
  i_op : option Z; i_fop : option Z; i_sb : option Z }.

Record file := mk_file {
  f_dentry : option Z; f_op : option Z; f_count : Z; f_flags : Z; f_mode : Z; f_pos : Z;
  f_uid : Z; f_gid : Z }.

Record super_block := mk_super_block {
  s_dev : Z; s_blocksize : Z; s_dirt : Z; s_op : option Z; s_flags : Z; s_magic : Z;
  s_root : option Z; s_count : Z; s_fs_info : option Z }.

(** [struct file_system_type]; [name] is NULL or a string. *)
Record file_system_type := mk_fstype { fs_name : option (list Z); fs_flags : Z; read_super : option Z }.

(** [struct files_struct] of file.h. *)
Record files_struct := mk_files { fd_array : list (option Z); next_fd : Z; fcount : Z }.

(** Sizes of the objects with a cache of their own. *)
Definition sizeof_dentry : Z := 88.
Definition sizeof_vfs_inode : Z := 96.
Definition sizeof_file : Z := 44.
Definition sizeof_super_block : Z := 68.

(** ** List nodes: the members of the structs and the heads in static memory *)

Inductive vnode :=
| DLru (d : Z) | DChild (d : Z) | DSubdirs (d : Z) | DHash (d : Z) | DHead (i : Z)
| IHash (p : Z) | IFree (p : Z) | ISbList (p : Z) | IDentry (p : Z) | IHead (i : Z) | IFreeHead
| FList (f : Z) | SList (s : Z) | SInodes (s : Z) | SDirty (s : Z) | SFiles (s : Z)
| FsSupers (t : Z) | FsList (t : Z) | FileSystems.
#[global] Instance vnode_eq_dec : EqDecision vnode.
Proof. solve_decision. Defined.
#[global] Instance vnode_countable : Countable vnode.
Proof.
  refine (inj_countable'
    (fun n => match n with
              | DLru d => (0, d) | DChild d => (1, d) | DSubdirs d => (2, d) | DHash d => (3, d) | DHead i => (4, i)
              | IHash p => (5, p) | IFree p => (6, p) | ISbList p => (7, p) | IDentry p => (8, p) | IHead i => (9, i)
              | IFreeHead => (10, 0) | FList f => (11, f) | SList s => (12, s) | SInodes s => (13, s)
              | SDirty s => (14, s) | SFiles s => (15, s) | FsSupers t => (16, t) | FsList t => (17, t)
              | FileSystems => (18, 0) end)
    (fun c => match c.1 with
              | 0 => DLru c.2 | 1 => DChild c.2 | 2 => DSubdirs c.2 | 3 => DHash c.2 | 4 => DHead c.2
              | 5 => IHash c.2 | 6 => IFree c.2 | 7 => ISbList c.2 | 8 => IDentry c.2 | 9 => IHead c.2
              | 10 => IFreeHead | 11 => FList c.2 | 12 => SList c.2 | 13 => SInodes c.2
              | 14 => SDirty c.2 | 15 => SFiles c.2 | 16 => FsSupers c.2 | 17 => FsList c.2
              | _ => FileSystems end) _).
  by intros [].
Defined.

(** [list_entry] through the members [d_hash], [i_hash] and [fs_list]; through
    another member it is a pointer into the middle of an object. *)
Definition dhash_entry (n : vnode) : outcome Z := match n with DHash d => mret d | _ => Fault end.
Definition ihash_entry (n : vnode) : outcome Z := match n with IHash p => mret p | _ => Fault end.
Definition fslist_entry (n : vnode) : outcome Z := match n with FsList t => mret t | _ => Fault end.

(** ** What the VFS asks of the allocators, besides [KAlloc] and [KFree] *)

Class KCacheFree (A : Type) := { ka_cache_free : Z -> Z -> A -> outcome A }.

(** ** The state *)

Record vfs_st (E : Type) := mk_vfs {
  dentries : gmap Z dentry;
  inodes : gmap Z inode;
  files : gmap Z file;
  supers : gmap Z super_block;
  fstypes : gmap Z file_system_type;
  fdtables : gmap Z files_struct;
  vnodes : gmap vnode (list_head vnode);
  dentry_cache : option Z;              (* the kmem_cache_t pointers of dcache.c, *)
  file_cache : option Z;                (* file.c, *)
  super_cache : option Z;               (* super.c, *)
  vfs_inode_cache : option Z;           (* and vfs.c *)
  vfs_file_cache : option Z;
  fs_list_initialized : bool;
  ext : E;
}.
Arguments mk_vfs {E}.
Arguments dentries {E}.
Arguments inodes {E}.
Arguments files {E}.
Arguments supers {E}.
Arguments fstypes {E}.
Arguments fdtables {E}.
Arguments vnodes {E}.
Arguments dentry_cache {E}.
Arguments file_cache {E}.
Arguments super_cache {E}.
Arguments vfs_inode_cache {E}.
Arguments vfs_file_cache {E}.
Arguments fs_list_initialized {E}.
Arguments ext {E}.

Section state.
Context {E : Type}.
Implicit Types st : vfs_st E.

Definition set_dentries m st := mk_vfs m (inodes st) (files st) (supers st) (fstypes st) (fdtables st) (vnodes st)
  (dentry_cache st) (file_cache st) (super_cache st) (vfs_inode_cache st) (vfs_file_cache st) (fs_list_initialized st) (ext st).
Definition set_inodes m st := mk_vfs (dentries st) m (files st) (supers st) (fstypes st) (fdtables st) (vnodes st)
  (dentry_cache st) (file_cache st) (super_cache st) (vfs_inode_cache st) (vfs_file_cache st) (fs_list_initialized st) (ext st).
Definition set_files m st := mk_vfs (dentries st) (inodes st) m (supers st) (fstypes st) (fdtables st) (vnodes st)
  (dentry_cache st) (file_cache st) (super_cache st) (vfs_inode_cache st) (vfs_file_cache st) (fs_list_initialized st) (ext st).
Definition set_supers m st := mk_vfs (dentries st) (inodes st) (files st) m (fstypes st) (fdtables st) (vnodes st)
  (dentry_cache st) (file_cache st) (super_cache st) (vfs_inode_cache st) (vfs_file_cache st) (fs_list_initialized st) (ext st).
Definition set_fdtables m st := mk_vfs (dentries st) (inodes st) (files st) (supers st) (fstypes st) m (vnodes st)
  (dentry_cache st) (file_cache st) (super_cache st) (vfs_inode_cache st) (vfs_file_cache st) (fs_list_initialized st) (ext st).
Definition set_vnodes h st := mk_vfs (dentries st) (inodes st) (files st) (supers st) (fstypes st) (fdtables st) h
  (dentry_cache st) (file_cache st) (super_cache st) (vfs_inode_cache st) (vfs_file_cache st) (fs_list_initialized st) (ext st).
Definition set_ext (e : E) st := mk_vfs (dentries st) (inodes st) (files st) (supers st) (fstypes st) (fdtables st) (vnodes st)
  (dentry_cache st) (file_cache st) (super_cache st) (vfs_inode_cache st) (vfs_file_cache st) (fs_list_initialized st) e.
Definition set_dentry_cache c st := mk_vfs (dentries st) (inodes st) (files st) (supers st) (fstypes st) (fdtables st) (vnodes st)
  c (file_cache st) (super_cache st) (vfs_inode_cache st) (vfs_file_cache st) (fs_list_initialized st) (ext st).
Definition set_file_cache c st := mk_vfs (dentries st) (inodes st) (files st) (supers st) (fstypes st) (fdtables st) (vnodes st)
  (dentry_cache st) c (super_cache st) (vfs_inode_cache st) (vfs_file_cache st) (fs_list_initialized st) (ext st).
Definition set_super_cache c b st := mk_vfs (dentries st) (inodes st) (files st) (supers st) (fstypes st) (fdtables st) (vnodes st)
  (dentry_cache st) (file_cache st) c (vfs_inode_cache st) (vfs_file_cache st) b (ext st).
Definition set_inode_caches c d st := mk_vfs (dentries st) (inodes st) (files st) (supers st) (fstypes st) (fdtables st) (vnodes st)
  (dentry_cache st) (file_cache st) (super_cache st) c d (fs_list_initialized st) (ext st).

Definition upd_dentry (d : Z) (f : dentry -> dentry) st : outcome (vfs_st E) :=
  x ← deref (dentries st !! d); mret (set_dentries (<[d := f x]> (dentries st)) st).
Definition upd_inode (p : Z) (f : inode -> inode) st : outcome (vfs_st E) :=
  x ← deref (inodes st !! p); mret (set_inodes (<[p := f x]> (inodes st)) st).
Definition upd_file (p : Z) (f : file -> file) st : outcome (vfs_st E) :=
  x ← deref (files st !! p); mret (set_files (<[p := f x]> (files st)) st).
Definition upd_super (p : Z) (f : super_block -> super_block) st : outcome (vfs_st E) :=
  x ← deref (supers st !! p); mret (set_supers (<[p := f x]> (supers st)) st).
Definition on_vnodes (f : gmap vnode (list_head vnode) -> outcome (gmap vnode (list_head vnode))) st
  : outcome (vfs_st E) :=
  h ← f (vnodes st); mret (set_vnodes h st).

(** The list nodes of an object come and go with it. *)
Definition new_nodes (ns : list vnode) st : vfs_st E :=
  set_vnodes (foldr (fun n => insert n (mk_list_head None None)) (vnodes st) ns) st.
Definition drop_nodes (ns : list vnode) st : vfs_st E := set_vnodes (foldr delete (vnodes st) ns) st.
Definition dentry_nodes (d : Z) : list vnode := [DLru d; DChild d; DSubdirs d; DHash d].
Definition inode_nodes (p : Z) : list vnode := [IHash p; IFree p; ISbList p; IDentry p].
Definition super_nodes (s : Z) : list vnode := [SList s; SInodes s; SDirty s; SFiles s].

End state.

(** ** Members that are assigned one by one *)

Definition set_d_count v d := mk_dentry v (d_flags d) (d_inode d) (d_parent d) (d_name d) (d_op d) (d_sb d).
Definition set_d_flags v d := mk_dentry (d_count d) v (d_inode d) (d_parent d) (d_name d) (d_op d) (d_sb d).
Definition set_d_inode v d := mk_dentry (d_count d) (d_flags d) v (d_parent d) (d_name d) (d_op d) (d_sb d).
Definition set_d_parent v d := mk_dentry (d_count d) (d_flags d) (d_inode d) v (d_name d) (d_op d) (d_sb d).
Definition set_d_sb v d := mk_dentry (d_count d) (d_flags d) (d_inode d) (d_parent d) (d_name d) (d_op d) v.

Definition set_i_count v i := mk_inode (i_dev i) (i_no i) v (i_mode i) (i_nlinks i) (i_uid i) (i_gid i) (i_flags i)
  (i_size i) (i_atime i) (i_mtime i) (i_ctime i) (i_state i) (i_blocks i) (i_op i) (i_fop i) (i_sb i).
Definition set_i_flags v i := mk_inode (i_dev i) (i_no i) (i_count i) (i_mode i) (i_nlinks i) (i_uid i) (i_gid i) v
  (i_size i) (i_atime i) (i_mtime i) (i_ctime i) (i_state i) (i_blocks i) (i_op i) (i_fop i) (i_sb i).
Definition set_i_size v i := mk_inode (i_dev i) (i_no i) (i_count i) (i_mode i) (i_nlinks i) (i_uid i) (i_gid i) (i_flags i)
  v (i_atime i) (i_mtime i) (i_ctime i) (i_state i) (i_blocks i) (i_op i) (i_fop i) (i_sb i).
Definition set_i_op v i := mk_inode (i_dev i) (i_no i) (i_count i) (i_mode i) (i_nlinks i) (i_uid i) (i_gid i) (i_flags i)
  (i_size i) (i_atime i) (i_mtime i) (i_ctime i) (i_state i) (i_blocks i) v (i_fop i) (i_sb i).
Definition set_i_fop v i := mk_inode (i_dev i) (i_no i) (i_count i) (i_mode i) (i_nlinks i) (i_uid i) (i_gid i) (i_flags i)
  (i_size i) (i_atime i) (i_mtime i) (i_ctime i) (i_state i) (i_blocks i) (i_op i) v (i_sb i).

Definition set_f_count v f := mk_file (f_dentry f) (f_op f) v (f_flags f) (f_mode f) (f_pos f) (f_uid f) (f_gid f).
Definition set_f_op v f := mk_file (f_dentry f) v (f_count f) (f_flags f) (f_mode f) (f_pos f) (f_uid f) (f_gid f).
Definition set_f_pos v f := mk_file (f_dentry f) (f_op f) (f_count f) (f_flags f) (f_mode f) v (f_uid f) (f_gid f).

Definition set_s_count v s := mk_super_block (s_dev s) (s_blocksize s) (s_dirt s) (s_op s) (s_flags s) (s_magic s)
  (s_root s) v (s_fs_info s).

(** ** The tables of function pointers *)

(** [inode_operations]: lookup, create, mkdir, rmdir and rename of the table at
    an address; the result [None] of a lookup is NULL. *)
Class InodeOps (W : Type) := {
  op_lookup : Z -> option (Z -> Z -> W -> outcome (W * option Z));
  op_create : Z -> option (Z -> Z -> Z -> W -> outcome (W * Z));
  op_mkdir : Z -> option (Z -> Z -> Z -> W -> outcome (W * Z));
  op_rmdir : Z -> option (Z -> Z -> W -> outcome (W * Z));
  op_rename : Z -> option (Z -> Z -> Z -> Z -> W -> outcome (W * Z)) }.

(** [file_operations]: read takes the size of the buffer and write its bytes;
    the position is behind a pointer, [None] being NULL.  They give the return
    value, the bytes read and the new position. *)
Class FileOps (W : Type) := {
  fop_read : Z -> option (Z -> Z -> option Z -> W -> outcome (W * Z * list Z * option Z));
  fop_write : Z -> option (Z -> list Z -> option Z -> W -> outcome (W * Z * option Z));
  fop_release : Z -> option (option Z -> Z -> W -> outcome (W * Z)) }.

(** [super_operations]: the two slots iget and iput call, never checked for
    NULL. *)
Class SuperOps (W : Type) := {
  sop_read_inode : Z -> option (Z -> W -> outcome W);
  sop_write_inode : Z -> option (Z -> W -> outcome (W * Z)) }.
