(* ===== verification/Dcache.v ===== *)
(** * The dentry cache (fs/ext2/dcache.c, include/dcache.h)

    A dentry is on the list [d_subdirs] of its parent through [d_child], on one
    of the [DENTRY_HASH_SIZE] hash queues through [d_hash], and - through
    [d_child] again - on the list [i_dentry] of its inode.  A name argument is
    a string (Layout), [d_name] an array of 30 bytes. *)

From S2P Require Import Prelude ListHead.
From S2P Require Import Layout BufferCache Vfs.

Definition DENTRY_HASH_SIZE : Z := 256.
Definition DCACHE_REFERENCED : Z := 1.
Definition DCACHE_UNHASHED : Z := 2.

(** [char] is signed; a pointer to a parent is xor-ed in. *)
Definition d_hash (parent : option Z) (name : list Z) : Z :=
  let hash := fold_left (fun hash c => u32 (hash * 31 + s8 c)) name 0 in
  let hash := match parent with Some p => Z.lxor hash (u32 p) | None => hash end in
  hash mod DENTRY_HASH_SIZE.

Section dcache.
Context {E : Type} `{KAlloc E} `{KCacheFree E}.
(** What the memory of a fresh dentry holds. *)
Variable junk : Z -> dentry.
Implicit Types st : vfs_st E.

Fixpoint init_heads (n : nat) (i : Z) st : outcome (vfs_st E) :=
  match n with
  | O => mret st
  | S n => st ← on_vnodes (INIT_LIST_HEAD (Some (DHead i))) st; init_heads n (i + 1) st
  end.
Definition dcache_init st : outcome (vfs_st E) :=
  '(e, c) ← ka_cache_create sizeof_dentry (ext st);
  let st := set_dentry_cache c (set_ext e st) in
  match c with
  | None => mret st
  | Some _ => init_heads (Z.to_nat DENTRY_HASH_SIZE) 0 st
  end.

Definition d_hash_of (d : Z) st : outcome Z :=
  x ← deref (dentries st !! d);
  nm ← c_string (d_name x);
  mret (d_hash (d_parent x) nm).

Definition fresh_dentry (parent : option Z) (d : Z) (name : option (list Z)) : dentry :=
  mk_dentry 1 0 None (Some (default d parent))
    match name with
    | Some s => str_array (Z.to_nat D_NAME_LEN) s
    | None => 0 :: tail (d_name (junk d))
    end None None.

Definition d_alloc (parent : option Z) (name : option (list Z)) st : outcome (vfs_st E * option Z) :=
  c ← deref (dentry_cache st);
  '(e, p) ← ka_cache_alloc c (ext st);
  let st := set_ext e st in
  match p with
  | None => mret (st, None)
  | Some d =>
      let st := new_nodes (dentry_nodes d) (set_dentries (<[d := fresh_dentry parent d name]> (dentries st)) st) in
      st ← on_vnodes (INIT_LIST_HEAD (Some (DLru d))) st;
      st ← on_vnodes (INIT_LIST_HEAD (Some (DChild d))) st;
      st ← on_vnodes (INIT_LIST_HEAD (Some (DSubdirs d))) st;
      st ← on_vnodes (INIT_LIST_HEAD (Some (DHash d))) st;
      match parent with
      | Some q =>
          if q =? d then mret (st, Some d)
          else st ← on_vnodes (list_add (Some (DSubdirs q)) (Some (DChild d))) st; mret (st, Some d)
      | None => mret (st, Some d)
      end
  end.

Definition d_alloc_root (root_inode : option Z) st : outcome (vfs_st E * option Z) :=
  match root_inode with
  | None => mret (st, None)
  | Some r =>
      '(st, p) ← d_alloc None (Some [47]) st;
      match p with
      | None => mret (st, None)
      | Some d =>
          i ← deref (inodes st !! r);
          st ← upd_dentry d (fun x => set_d_sb (i_sb i) (set_d_inode (Some r) x)) st;
          st ← on_vnodes (list_add (Some (IDentry r)) (Some (DChild d))) st;
          mret (st, Some d)
      end
  end.

Definition d_instantiate (dentry inode : option Z) st : outcome (vfs_st E) :=
  match dentry, inode with
  | Some d, Some i =>
      st ← upd_dentry d (set_d_inode (Some i)) st;
      on_vnodes (list_add (Some (IDentry i)) (Some (DChild d))) st
  | _, _ => mret st
  end.

(** The walk of d_lookup along a hash queue; [n] bounds its length. *)
Fixpoint lookup_chain (n : nat) (tmp head : option vnode) (parent : Z) (name : list Z) st : outcome (option Z) :=
  if bool_decide (tmp = head) then mret None
  else match n with
       | O => Spin
       | S n =>
           k ← deref tmp;
           d ← dhash_entry k;
           x ← deref (dentries st !! d);
           found ← (if bool_decide (d_parent x = Some parent) then name_matches (d_name x) name else mret false);
           if (found : bool) then mret (Some d)
           else nx ← get_next tmp (vnodes st); lookup_chain n nx head parent name st
       end.

Definition d_lookup (parent : option Z) (name : option (list Z)) st : outcome (vfs_st E * option Z) :=
  match parent, name with
  | Some p, Some nm =>
      let head := Some (DHead (d_hash parent nm)) in
      tmp ← get_next head (vnodes st);
      r ← lookup_chain (size (vnodes st)) tmp head p nm st;
      match r with
      | None => mret (st, None)
      | Some d => st ← upd_dentry d (fun x => set_d_count (u32 (d_count x + 1)) x) st; mret (st, Some d)
      end
  | _, _ => mret (st, None)
  end.

(** Insertion into the hash queue of a dentry, as d_add and d_rehash do it. *)
Definition hash_dentry (d : Z) st : outcome (vfs_st E) :=
  hash ← d_hash_of d st;
  st ← on_vnodes (list_add (Some (DHead hash)) (Some (DHash d))) st;
  upd_dentry d (fun x => set_d_flags (CLEAR_FLAG (d_flags x) DCACHE_UNHASHED) x) st.

Definition d_add (dentry inode : option Z) st : outcome (vfs_st E) :=
  match dentry with
  | None => mret st
  | Some d =>
      st ← (match inode with Some _ => d_instantiate dentry inode st | None => mret st end);
      hash_dentry d st
  end.

Definition d_delete (dentry : option Z) st : outcome (vfs_st E) :=
  match dentry with
  | None => mret st
  | Some d =>
      x ← deref (dentries st !! d);
      if Z.land (d_flags x) DCACHE_UNHASHED =? 0 then
        st ← on_vnodes (list_del (Some (DHash d))) st;
        upd_dentry d (fun x => set_d_flags (SET_FLAG (d_flags x) DCACHE_UNHASHED) x) st
      else mret st
  end.

(** kmem_cache_free: the dentry and its nodes are gone. *)
Definition free_dentry (d : Z) st : outcome (vfs_st E) :=
  c ← deref (dentry_cache st);
  e ← ka_cache_free c d (ext st);
  mret (set_ext e (drop_nodes (dentry_nodes d) (set_dentries (delete d (dentries st)) st))).

Definition dput (dentry : option Z) st : outcome (vfs_st E) :=
  match dentry with
  | None => mret st
  | Some d =>
      st ← upd_dentry d (fun x => set_d_count (u32 (d_count x - 1)) x) st;
      x ← deref (dentries st !! d);
      if d_count x =? 0 then
        st ← (if bool_decide (d_parent x = Some d) then mret st else on_vnodes (list_del (Some (DChild d))) st);
        st ← d_delete dentry st;
        free_dentry d st
      else mret st
  end.

Definition dget (dentry : option Z) st : outcome (vfs_st E * option Z) :=
  match dentry with
  | None => mret (st, None)
  | Some d => st ← upd_dentry d (fun x => set_d_count (u32 (d_count x + 1)) x) st; mret (st, Some d)
  end.

Definition d_unhashed (dentry : option Z) st : outcome bool :=
  match dentry with
  | None => mret false
  | Some d => x ← deref (dentries st !! d); mret (negb (Z.land (d_flags x) DCACHE_UNHASHED =? 0))
  end.

Definition d_rehash (dentry : option Z) st : outcome (vfs_st E) :=
  match dentry with
  | None => mret st
  | Some d => u ← d_unhashed dentry st; if (u : bool) then hash_dentry d st else mret st
  end.

Definition d_move (dentry target : option Z) st : outcome (vfs_st E) :=
  match dentry, target with
  | Some d, Some t =>
      st ← d_delete dentry st;
      y ← deref (dentries st !! t);
      st ← upd_dentry d (set_d_parent (d_parent y)) st;
      x ← deref (dentries st !! d);
      d_add dentry (d_inode x) st
  | _, _ => mret st
  end.

End dcache.
