(* ===== verification/DcacheProofs.v ===== *)
(** * The dentry cache is correct, and where it is not

    [dcache_ok st chains]: hash queue [i] holds the dentries [chains i], each
    present, marked as hashed and on the queue of its parent and name; the
    dentries and their list nodes exist together.  d_lookup is then lookup by
    parent and name; d_alloc, d_add, d_delete, dget and dput keep the
    invariant.  A dentry that is instantiated leaves its parent's list without
    being removed from it, which the last theorems follow to its end. *)

From S2P Require Import Prelude ListHead.
From S2P Require Import Layout BufferCache BufferProofs Vfs Dcache.

(** ** Names *)

Definition no_nul (nm : list Z) : Prop := Forall (fun c => c <> 0) nm.

Lemma name_matches_spec arr s nm : c_string arr = Ret s -> no_nul nm -> name_matches arr nm = Ret (bool_decide (s = nm)).
Proof.
  revert s nm. induction arr as [|c arr IH]; intros s nm Hs Hn; [done|]. cbn [c_string name_matches] in *.
  destruct (Z.eqb_spec c 0) as [->|Hc].
  - injection Hs as <-. destruct nm as [|y nm]; [done|]. apply Forall_cons in Hn as [Hy _].
    destruct (Z.eqb_spec 0 y); [congruence|done].
  - inv_outcome. destruct nm as [|y nm].
    + destruct (Z.eqb_spec c 0); [done|]. by rewrite bool_decide_eq_false_2.
    + apply Forall_cons in Hn as [_ Hn]. destruct (Z.eqb_spec c y) as [->|Hne].
      * rewrite (IH _ _ Hstep Hn). f_equal. apply bool_decide_ext. naive_solver.
      * rewrite bool_decide_eq_false_2; [done|congruence].
Qed.

Lemma c_string_no_nul arr s : c_string arr = Ret s -> no_nul s.
Proof.
  revert s. induction arr as [|c arr IH]; intros s Hs; cbn [c_string] in Hs; [done|].
  destruct (Z.eqb_spec c 0); inv_outcome; constructor; [done|]. by apply IH.
Qed.

Lemma c_string_app s rest : no_nul s -> c_string (s ++ 0 :: rest) = Ret s.
Proof.
  induction 1 as [|c s Hc Hs IH]; [done|]. cbn [app c_string]. apply Z.eqb_neq in Hc. by rewrite Hc, IH.
Qed.

(** The name a fresh dentry gets: the first 29 characters. *)
Lemma c_string_str_array n s : no_nul s -> c_string (str_array n s) = Ret (take (n - 1) s).
Proof.
  intros Hs. unfold str_array. rewrite take_app, take_replicate.
  destruct (decide (length s < n - 1)%nat).
  - rewrite (take_ge s) by lia. replace ((n - 1 - length s) `min` (n - 1))%nat with (S (n - 2 - length s)) by lia.
    cbn [replicate]. rewrite <- app_assoc. by apply c_string_app.
  - replace ((n - 1 - length s) `min` (n - 1))%nat with 0%nat by lia. rewrite app_nil_r.
    apply c_string_app. by apply Forall_take.
Qed.

Lemma d_hash_range parent nm : 0 <= d_hash parent nm < DENTRY_HASH_SIZE.
Proof. apply Z.mod_pos_bound. done. Qed.

(** ** The invariant *)

Section inv.
Context {E : Type}.
Implicit Types (st : vfs_st E) (chains : Z -> list Z).

Definition on_queue (i : Z) (x : dentry) : Prop :=
  exists nm, c_string (d_name x) = Ret nm /\ i = d_hash (d_parent x) nm /\ Z.land (d_flags x) DCACHE_UNHASHED = 0.

Record dcache_ok st chains : Prop := {
  dk_ring i : 0 <= i < DENTRY_HASH_SIZE -> is_list (vnodes st) (DHead i) (DHash <$> chains i);
  dk_in i d : 0 <= i < DENTRY_HASH_SIZE -> d ∈ chains i -> exists x, dentries st !! d = Some x /\ on_queue i x;
  dk_nodes d k : k ∈ dentry_nodes d -> is_Some (vnodes st !! k) <-> is_Some (dentries st !! d);
}.

Definition hashed chains (d : Z) : Prop := exists i, 0 <= i < DENTRY_HASH_SIZE /\ d ∈ chains i.

(** [d] is the dentry of [parent] called [nm]. *)
Definition named st (parent : Z) (nm : list Z) (d : Z) : bool :=
  match dentries st !! d with
  | Some x => bool_decide (d_parent x = Some parent) && bool_decide (c_string (d_name x) = Ret nm)
  | None => false
  end.

Definition requeue chains (i : Z) (l : list Z) (j : Z) : list Z := if decide (j = i) then l else chains j.

Lemma dk_uniq st chains i j d : dcache_ok st chains -> 0 <= i < DENTRY_HASH_SIZE -> 0 <= j < DENTRY_HASH_SIZE ->
  d ∈ chains i -> d ∈ chains j -> i = j.
Proof.
  intros Hok Hi Hj Hdi Hdj. destruct (dk_in _ _ Hok i d Hi Hdi) as (x & Hx & nm & E1 & -> & _).
  destruct (dk_in _ _ Hok j d Hj Hdj) as (y & Hy & nm' & E2 & -> & _). congruence.
Qed.

Lemma dk_present st chains d k : dcache_ok st chains -> is_Some (dentries st !! d) -> k ∈ dentry_nodes d ->
  is_Some (vnodes st !! k).
Proof. intros Hok Hd Hk. by apply (dk_nodes _ _ Hok d k). Qed.

(** One queue changes, by one dentry. *)
Lemma dcache_requeue st st' chains i l d x' :
  dcache_ok st chains -> 0 <= i < DENTRY_HASH_SIZE -> is_Some (dentries st !! d) ->
  (forall j, 0 <= j < DENTRY_HASH_SIZE -> j <> i -> d ∉ chains j) ->
  is_list (vnodes st') (DHead i) (DHash <$> l) ->
  dom_frame (vnodes st) (vnodes st') (DHash d :: DHead i :: (DHash <$> chains i)) ->
  dentries st' = <[d := x']> (dentries st) ->
  (forall e, e ∈ l -> e <> d -> e ∈ chains i) -> (d ∈ l -> on_queue i x') ->
  dcache_ok st' (requeue chains i l).
Proof.
  intros Hok Hi Hd Hother Hl [Hdom Hf] Hst Hsub Hdl. unfold requeue. split.
  - intros j Hj. case_decide as Ej; [by subst|]. eapply is_list_agree; [|by apply (dk_ring _ _ Hok)].
    intros k Hk. apply Hf. rewrite !not_elem_of_cons. apply elem_of_cons in Hk as [->|Hk].
    + split_and!; [done|congruence|]. rewrite list_elem_of_fmap. by intros (? & ? & _).
    + apply list_elem_of_fmap in Hk as (e & -> & He). split_and!; [|done|].
      * intros [= ->]. by apply (Hother j).
      * rewrite list_elem_of_fmap. intros (e' & [= <-] & He'). apply Ej. by eapply dk_uniq.
  - intros j e Hj. rewrite Hst. case_decide as Ej; [subst j|]; intros He; (destruct (decide (e = d)) as [->|Hne]).
    + rewrite lookup_insert_eq. eauto.
    + rewrite lookup_insert_ne by done. apply (dk_in _ _ Hok); auto.
    + by destruct (Hother j Hj Ej).
    + rewrite lookup_insert_ne by done. by apply (dk_in _ _ Hok).
  - intros e k Hk. rewrite <- elem_of_dom, Hdom, elem_of_dom, (dk_nodes _ _ Hok e k Hk), Hst, lookup_insert.
    case_decide as Ee; [|done]. subst. split; eauto.
Qed.

(** Changes that leave queues and keys alone. *)
Lemma dcache_update st st' chains d x x' :
  dcache_ok st chains -> vnodes st' = vnodes st -> dentries st !! d = Some x -> dentries st' = <[d := x']> (dentries st) ->
  d_parent x' = d_parent x -> d_name x' = d_name x -> d_flags x' = d_flags x -> dcache_ok st' chains.
Proof.
  intros Hok Hv Hx Hst Ep En Ef. split.
  - rewrite Hv. apply (dk_ring _ _ Hok).
  - intros i e Hi He. destruct (dk_in _ _ Hok i e Hi He) as (y & Hy & Hq). rewrite Hst, lookup_insert.
    case_decide; [subst|eauto]. simplify_eq. exists x'. split; [done|]. unfold on_queue in *. by rewrite Ep, En, Ef.
  - intros e k Hk. rewrite Hv, Hst, lookup_insert, (dk_nodes _ _ Hok e k Hk). case_decide; [|done].
    subst. rewrite Hx. split; eauto.
Qed.

(** ** Lookup *)

Lemma named_spec st p nm d : named st p nm d = true <->
  exists x, dentries st !! d = Some x /\ d_parent x = Some p /\ c_string (d_name x) = Ret nm.
Proof.
  unfold named. destruct (dentries st !! d) as [x|]; [|naive_solver].
  rewrite andb_true_iff, !bool_decide_eq_true. naive_solver.
Qed.

Lemma lookup_chain_spec st i p nm l : no_nul nm -> forall n,
  path (vnodes st) ((DHash <$> l) ++ [DHead i]) ->
  (forall d, d ∈ l -> exists x s, dentries st !! d = Some x /\ c_string (d_name x) = Ret s) ->
  (length l <= n)%nat ->
  lookup_chain n (Some (default (DHead i) (head (DHash <$> l)))) (Some (DHead i)) p nm st
  = Ret (List.find (named st p nm) l).
Proof.
  intros Hnm. induction l as [|d l IH]; intros n Hp Hin Hn.
  - destruct n; cbn [lookup_chain]; by rewrite bool_decide_eq_true_2.
  - destruct n as [|n]; [simpl in *; lia|]. cbn [lookup_chain fmap list_fmap head default].
    rewrite bool_decide_eq_false_2 by done. destruct (Hin d) as (x & s & Hx & Hs); [left|].
    cbn [deref dhash_entry id from_option]. bind_rets. cbn [dhash_entry id]. bind_rets. rewrite Hx. cbn [deref]. rewrite bind_Ret. cbn [List.find].
    assert (Enamed : named st p nm d = bool_decide (d_parent x = Some p) && bool_decide (s = nm)).
    { unfold named. rewrite Hx, Hs. f_equal. apply bool_decide_ext. naive_solver. }
    rewrite Enamed. assert (Hrest : hnext (vnodes st) (DHash d) = Some (default (DHead i) (head (DHash <$> l))) /\
      path (vnodes st) ((DHash <$> l) ++ [DHead i])) by (destruct l; simpl in *; naive_solver).
    destruct Hrest as [Hnx Hp'].
    assert (IHl := IH n Hp' (fun e He => Hin e (list_elem_of_further _ _ _ He)) ltac:(simpl in *; lia)).
    destruct (bool_decide (d_parent x = Some p)).
    + rewrite (name_matches_spec _ _ _ Hs Hnm), bind_Ret. destruct (bool_decide (s = nm)); [done|].
      rewrite (get_next_hnext _ _ _ Hnx), bind_Ret. exact IHl.
    + rewrite bind_mret, (get_next_hnext _ _ _ Hnx), bind_Ret. exact IHl.
Qed.

(** What d_lookup finds: the first match on the queue of the name. *)
Lemma dsearch_spec st chains p nm : dcache_ok st chains -> no_nul nm ->
  let i := d_hash (Some p) nm in
  exists tmp, get_next (Some (DHead i)) (vnodes st) = Ret tmp /\
    lookup_chain (size (vnodes st)) tmp (Some (DHead i)) p nm st = Ret (List.find (named st p nm) (chains i)).
Proof.
  intros Hok Hnm i. pose proof (d_hash_range (Some p) nm) as Hi. pose proof (dk_ring _ _ Hok i Hi) as Hl.
  eexists. split; [by apply is_list_first|]. apply lookup_chain_spec; [done| | |].
  - destruct Hl as [_ Hp]. destruct (chains i); [done|]. by destruct Hp as (_ & _ & ?).
  - intros d Hd. destruct (dk_in _ _ Hok i d Hi Hd) as (x & Hx & s & Hs & _). eauto.
  - pose proof (is_list_size _ _ _ Hl). rewrite length_fmap in *. lia.
Qed.

Definition count_up (x : dentry) : dentry := set_d_count (u32 (d_count x + 1)) x.

Lemma d_lookup_hit st chains p nm d x : dcache_ok st chains -> no_nul nm ->
  List.find (named st p nm) (chains (d_hash (Some p) nm)) = Some d -> dentries st !! d = Some x ->
  d_lookup (Some p) (Some nm) st = Ret (set_dentries (<[d := count_up x]> (dentries st)) st, Some d).
Proof.
  intros Hok Hnm Hfind Hx. destruct (dsearch_spec st chains p nm Hok Hnm) as (tmp & Hn & Hs).
  unfold d_lookup. rewrite Hn, bind_Ret, Hs, bind_Ret, Hfind. unfold upd_dentry. rewrite Hx. cbn [deref]. by bind_rets.
Qed.

Lemma d_lookup_miss st chains p nm : dcache_ok st chains -> no_nul nm ->
  List.find (named st p nm) (chains (d_hash (Some p) nm)) = None ->
  d_lookup (Some p) (Some nm) st = Ret (st, None).
Proof.
  intros Hok Hnm Hfind. destruct (dsearch_spec st chains p nm Hok Hnm) as (tmp & Hn & Hs).
  unfold d_lookup. by rewrite Hn, bind_Ret, Hs, bind_Ret, Hfind.
Qed.

Lemma count_up_ok st chains d x : dcache_ok st chains -> dentries st !! d = Some x ->
  dcache_ok (set_dentries (<[d := count_up x]> (dentries st)) st) chains.
Proof. intros Hok Hx. by eapply dcache_update. Qed.

(** C28. Lookup by parent and name.  With the invariant, d_lookup returns a
    hashed dentry with this parent and this name whenever there is one, counts
    the reference and changes nothing else; it returns NULL and changes nothing
    exactly when no hashed dentry has the parent and the name. *)
Theorem d_lookup_correct st chains p nm : dcache_ok st chains -> no_nul nm ->
  (exists d x, d_lookup (Some p) (Some nm) st = Ret (set_dentries (<[d := count_up x]> (dentries st)) st, Some d) /\
     hashed chains d /\ dentries st !! d = Some x /\ named st p nm d = true /\
     dcache_ok (set_dentries (<[d := count_up x]> (dentries st)) st) chains) \/
  (d_lookup (Some p) (Some nm) st = Ret (st, None) /\ forall d, hashed chains d -> named st p nm d = false).
Proof.
  intros Hok Hnm. destruct (List.find (named st p nm) (chains (d_hash (Some p) nm))) as [d|] eqn:Hf.
  - left. pose proof (List.find_some _ _ Hf) as [Hin Hd]. pose proof Hd as (x & Hx & _)%named_spec.
    exists d, x. split_and!; [by eapply d_lookup_hit| |done|done|by apply count_up_ok].
    eexists. split; [apply d_hash_range|by apply list_elem_of_In].
  - right. split; [by eapply d_lookup_miss|]. intros d (i & Hi & Hd).
    destruct (named st p nm d) eqn:Hn; [|done]. exfalso.
    pose proof Hn as (x & Hx & Hp & Hs)%named_spec. destruct (dk_in _ _ Hok i d Hi Hd) as (y & Hy & s & Es & -> & _).
    simplify_eq. rewrite Hs in Es. injection Es as <-. rewrite Hp in Hd. pose proof (List.find_none _ _ Hf d ltac:(by apply list_elem_of_In)). congruence.
Qed.

End inv.

(** ** Insertion and deletion *)

Section ops.
Context {E : Type}.
Implicit Types (st : vfs_st E) (chains : Z -> list Z).

(** list_del of a node that is only on its own ring. *)
Lemma list_del_alone {K} `{Countable K} (h : gmap K (list_head K)) n :
  is_list h n [] -> list_del (Some n) h = Ret (<[n := mk_list_head None None]> h).
Proof.
  intros Hl. pose proof (is_list_in_dom _ _ _ n Hl ltac:(left)) as [[nx pv] Hn].
  assert (nx = Some n /\ pv = Some n) as [-> ->].
  { destruct Hl as [_ (H1 & H2 & _)]. unfold hnext, hprev in *. rewrite Hn in *. done. }
  unfold list_del, generic_del, get_next, get_prev, set_prev, set_next.
  repeat first [rewrite bind_Ret | rewrite bind_mret | rewrite Hn | rewrite lookup_insert_eq | rewrite insert_insert_eq
               | progress cbn [deref next prev]].
  rewrite INIT_LIST_NULL_spec by by rewrite lookup_insert_eq. by rewrite insert_insert_eq.
Qed.

(** generic_add next to a node whose memory is gone. *)
Lemma generic_add_missing {K} `{Countable K} (h : gmap K (list_head K)) a n b :
  is_Some (h !! a) -> is_Some (h !! n) -> h !! b = None -> generic_add (Some a) (Some n) (Some b) h = Fault.
Proof.
  intros Ha Hn Hb. unfold generic_add.
  destruct (set_next_spec n (Some b) h Hn) as (h1 & -> & D1 & _). rewrite bind_Ret.
  destruct (set_prev_spec n (Some a) h1) as (h2 & -> & D2 & _); [eauto using in_dom_eq|]. rewrite bind_Ret.
  destruct (set_next_spec a (Some n) h2) as (h3 & -> & D3 & _); [eauto using in_dom_eq|]. rewrite bind_Ret.
  unfold set_prev. cbn [deref]. rewrite bind_Ret. replace (h3 !! b) with (@None (list_head K)); [done|].
  symmetry. apply not_elem_of_dom. rewrite D3, D2, D1. by apply not_elem_of_dom.
Qed.

Lemma not_hashed_elsewhere chains d i : ~ hashed chains d ->
  forall j, 0 <= j < DENTRY_HASH_SIZE -> j <> i -> d ∉ chains j.
Proof. intros Hd j Hj _ Hin. apply Hd. by exists j. Qed.

Lemma unflag_land v : Z.land (CLEAR_FLAG v DCACHE_UNHASHED) DCACHE_UNHASHED = 0.
Proof.
  unfold CLEAR_FLAG. rewrite <- Z.land_assoc. replace (Z.land _ DCACHE_UNHASHED) with 0 by reflexivity. apply Z.land_0_r.
Qed.
Lemma flag_land v : Z.land (SET_FLAG v DCACHE_UNHASHED) DCACHE_UNHASHED <> 0.
Proof.
  unfold SET_FLAG, DCACHE_UNHASHED. intros Hz. apply (f_equal (fun z => Z.testbit z 1)) in Hz.
  rewrite Z.land_spec, Z.lor_spec, Z.bits_0 in Hz. change (Z.testbit 2 1) with true in Hz.
  by rewrite orb_true_r in Hz.
Qed.

Definition rehashed (x : dentry) : dentry := set_d_flags (CLEAR_FLAG (d_flags x) DCACHE_UNHASHED) x.
Definition unhashed (x : dentry) : dentry := set_d_flags (SET_FLAG (d_flags x) DCACHE_UNHASHED) x.

Lemma hash_dentry_spec st chains d x nm :
  dcache_ok st chains -> dentries st !! d = Some x -> c_string (d_name x) = Ret nm -> ~ hashed chains d ->
  let i := d_hash (d_parent x) nm in
  exists h, (let st' := set_dentries (<[d := rehashed x]> (dentries st)) (set_vnodes h st) in
    hash_dentry d st = Ret st' /\ dcache_ok st' (requeue chains i (d :: chains i)) /\
    dom_frame (vnodes st) h (DHash d :: DHead i :: (DHash <$> chains i))).
Proof.
  intros Hok Hx Hs Hd i. pose proof (d_hash_range (d_parent x) nm) as Hi. fold i in Hi.
  destruct (list_add_spec (vnodes st) (DHead i) (DHash <$> chains i) (DHash d)) as (h & R & Hl & Hf).
  { by apply (dk_ring _ _ Hok). }
  { rewrite not_elem_of_cons, list_elem_of_fmap. split; [done|]. intros (e & [= <-] & He). apply Hd. by exists i. }
  { eapply dk_present; [done|by rewrite Hx|]. do 3 right. left. }
  exists h. split; [|split; [|done]].
  - unfold hash_dentry, d_hash_of. rewrite Hx. cbn [deref]. rewrite bind_Ret, Hs. bind_rets.
    unfold on_vnodes. fold i. rewrite R. bind_rets. unfold upd_dentry. cbn [dentries set_vnodes].
    rewrite Hx. cbn [deref]. rewrite bind_Ret. done.
  - eapply (dcache_requeue st _ chains i (d :: chains i) d (rehashed x) Hok); try done.
    + by apply not_hashed_elsewhere.
    + intros e He Hne. by apply elem_of_cons in He as [->|He].
    + intros _. exists nm. split_and!; try done. apply unflag_land.
Qed.

(** Taking a hashed dentry off its queue. *)
Lemma d_delete_hashed st chains i d x :
  dcache_ok st chains -> 0 <= i < DENTRY_HASH_SIZE -> d ∈ chains i -> dentries st !! d = Some x ->
  exists h l1 l2, chains i = l1 ++ d :: l2 /\ (d ∉ l1 ++ l2) /\
    (let st' := set_dentries (<[d := unhashed x]> (dentries st)) (set_vnodes h st) in
     d_delete (Some d) st = Ret st' /\ dcache_ok st' (requeue chains i (l1 ++ l2))) /\
    dom_frame (vnodes st) h (DHash d :: DHead i :: (DHash <$> chains i)).
Proof.
  intros Hok Hi Hd Hx. pose proof (dk_ring _ _ Hok i Hi) as Hl.
  destruct (dk_in _ _ Hok i d Hi Hd) as (y & Hy & nm & Hs & -> & Hfl). assert (y = x) as -> by congruence. clear Hy.
  set (i := d_hash (d_parent x) nm) in *. pose proof Hd as (l1 & l2 & Ec)%list_elem_of_split.
  rewrite Ec, fmap_app, fmap_cons in Hl. destruct (list_del_spec _ _ _ _ _ Hl) as (h & R & _ & Hl' & Hf).
  assert (Hnd : NoDup (l1 ++ d :: l2)).
  { destruct Hl as [Hnd _]. apply NoDup_cons in Hnd as [_ Hnd]. rewrite <- fmap_cons, <- fmap_app in Hnd.
    by apply NoDup_fmap_1 in Hnd. }
  assert (Hd' : d ∉ l1 ++ l2).
  { rewrite <- Permutation_middle in Hnd. by apply NoDup_cons in Hnd as [Hnd _]. }
  rewrite <- fmap_app in Hl'.
  assert (Hf' : dom_frame (vnodes st) h (DHash d :: DHead i :: (DHash <$> chains i))).
  { destruct Hf as [Hdom Hf]. split; [done|]. intros k Hk. apply Hf.
    rewrite Ec, fmap_app, fmap_cons, !not_elem_of_cons, not_elem_of_app, not_elem_of_cons in Hk.
    rewrite !not_elem_of_cons, not_elem_of_app. tauto. }
  assert (Hun : forall j, 0 <= j < DENTRY_HASH_SIZE -> j <> i -> d ∉ chains j).
  { intros j Hj Hne Hin. apply Hne. by eapply dk_uniq. }
  exists h, l1, l2. split; [done|]. split; [done|]. split; [split|done].
  - unfold d_delete. rewrite Hx. cbn [deref]. rewrite bind_Ret, Hfl. cbn [Z.eqb]. unfold on_vnodes.
    rewrite R. bind_rets. unfold upd_dentry. cbn [dentries set_vnodes]. rewrite Hx. cbn [deref]. by rewrite bind_Ret.
  - eapply (dcache_requeue st _ chains i (l1 ++ l2) d (unhashed x) Hok); try done.
    intros e He _. rewrite Ec, elem_of_app, elem_of_cons. apply elem_of_app in He. tauto.
Qed.

Lemma d_delete_noop st d x : dentries st !! d = Some x -> Z.land (d_flags x) DCACHE_UNHASHED <> 0 ->
  d_delete (Some d) st = Ret st.
Proof. intros Hx Hf. unfold d_delete. rewrite Hx. cbn [deref]. rewrite bind_Ret. apply Z.eqb_neq in Hf. by rewrite Hf. Qed.

Lemma d_delete_alone st d x : dentries st !! d = Some x -> Z.land (d_flags x) DCACHE_UNHASHED = 0 ->
  is_list (vnodes st) (DHash d) [] ->
  d_delete (Some d) st = Ret (set_dentries (<[d := unhashed x]> (dentries st))
                               (set_vnodes (<[DHash d := mk_list_head None None]> (vnodes st)) st)).
Proof.
  intros Hx Hf Hl. unfold d_delete. rewrite Hx. cbn [deref]. rewrite bind_Ret, Hf. cbn [Z.eqb]. unfold on_vnodes.
  rewrite (list_del_alone _ _ Hl). bind_rets. unfold upd_dentry. cbn [dentries set_vnodes]. rewrite Hx. cbn [deref].
  by rewrite bind_Ret.
Qed.

Lemma find_head st p nm d l : named st p nm d = true -> List.find (named st p nm) (d :: l) = Some d.
Proof. intros Hn. cbn [List.find]. by rewrite Hn. Qed.

(** A dentry that d_add hashes is found: after d_add of a dentry with no
    inode, d_lookup of its parent and name returns this dentry with one more
    reference, even if others have the same parent and name; d_delete takes it
    off again and restores the queues. *)
Theorem d_add_lookup_delete st chains d x p nm :
  dcache_ok st chains -> dentries st !! d = Some x -> d_parent x = Some p -> c_string (d_name x) = Ret nm ->
  ~ hashed chains d ->
  let i := d_hash (Some p) nm in
  exists st1 st2 st3 l, d_add (Some d) None st = Ret st1 /\
    d_lookup (Some p) (Some nm) st1 = Ret (st2, Some d) /\
    dentries st2 !! d = Some (count_up (rehashed x)) /\ dcache_ok st2 (requeue chains i (d :: chains i)) /\
    d_delete (Some d) st2 = Ret st3 /\ dcache_ok st3 (requeue (requeue chains i (d :: chains i)) i l) /\
    l = chains i /\ d_unhashed (Some d) st3 = Ret true.
Proof.
  intros Hok Hx Hp Hs Hd i. pose proof (d_hash_range (Some p) nm) as Hi. fold i in Hi.
  destruct (hash_dentry_spec st chains d x nm Hok Hx Hs Hd) as (h1 & R1 & Hok1 & _).
  set (st1 := set_dentries _ _) in *. rewrite Hp in Hok1. fold i in Hok1.
  assert (Hx1 : dentries st1 !! d = Some (rehashed x)) by apply lookup_insert_eq.
  pose proof (c_string_no_nul _ _ Hs) as Hnm.
  assert (Hf : List.find (named st1 p nm) (requeue chains i (d :: chains i) i) = Some d).
  { unfold requeue. rewrite decide_True by done. apply find_head, named_spec. by exists (rehashed x). }
  pose proof (d_lookup_hit st1 _ p nm d _ Hok1 Hnm Hf Hx1) as R2.
  pose proof (count_up_ok st1 _ d _ Hok1 Hx1) as Hok2.
  destruct (d_delete_hashed _ _ i d (count_up (rehashed x)) Hok2 Hi) as (h3 & l1 & l2 & Ec & _ & [R3 Hok3] & _).
  { unfold requeue. rewrite decide_True by done. left. }
  { apply lookup_insert_eq. }
  exists st1, (set_dentries (<[d := count_up (rehashed x)]> (dentries st1)) st1). eexists. exists (l1 ++ l2).
  split_and!; [by unfold d_add; rewrite bind_mret|done|apply lookup_insert_eq|done|exact R3|exact Hok3| |].
  - unfold requeue in Ec. rewrite decide_True in Ec by done. destruct l1 as [|e l1]; [by injection Ec|].
    injection Ec as <- Ec. exfalso. apply Hd. exists i. split; [done|]. rewrite Ec, elem_of_app. right. left.
  - unfold d_unhashed. cbn [dentries set_dentries]. rewrite lookup_insert_eq. cbn [deref]. rewrite bind_Ret. f_equal.
    pose proof (flag_land (d_flags (count_up (rehashed x)))) as Hb%Z.eqb_neq. unfold unhashed. cbn [d_flags set_d_flags].
    by rewrite Hb.
Qed.

End ops.

(** ** Allocation and release *)

(** What kmem_cache_free promises besides the laws of [KAllocSpec]. *)
Class KCacheFreeSpec (A : Type) `{KAllocSpec A} `{!KCacheFree A} := {
  ka_cache_free_ok : forall c p a n, ka_live a p -> ka_room a n -> exists a', ka_cache_free c p a = Ret a' /\
    (forall q, q <> p -> ka_live a q -> ka_live a' q) /\ (forall d, ka_cache a d -> ka_cache a' d) /\ ka_room a' n }.

(** The allocator knows the cache [c] and can serve [n] more requests. *)
Definition cache_room {E} `{KAllocSpec E} (e : E) (c : Z) (n : nat) : Prop := ka_cache e c /\ ka_room e n.

(** The nodes of the lists of children and of the dentries of an inode. *)
Definition tree_node (k : vnode) : bool :=
  match k with DChild _ | DSubdirs _ | IDentry _ => true | _ => false end.

Lemma lookup_drop (h : gmap vnode (list_head vnode)) ns k : k ∉ ns -> foldr delete h ns !! k = h !! k.
Proof.
  induction ns as [|n ns IH]; intros Hk; [done|]. cbn [foldr]. rewrite not_elem_of_cons in Hk.
  rewrite lookup_delete_ne by naive_solver. naive_solver.
Qed.
Lemma lookup_dropped (h : gmap vnode (list_head vnode)) ns k : k ∈ ns -> foldr delete h ns !! k = None.
Proof.
  induction ns as [|n ns IH]; [by inversion 1|]. intros Hk. cbn [foldr]. rewrite lookup_delete. case_decide; [done|].
  apply IH. by apply elem_of_cons in Hk as [->|Hk].
Qed.

Lemma in_dentry_nodes d k : k ∈ dentry_nodes d <->
  match k with DLru e | DChild e | DSubdirs e | DHash e => e = d | _ => False end.
Proof. unfold dentry_nodes. rewrite !elem_of_cons, elem_of_nil. destruct k; naive_solver. Qed.

Lemma dentry_nodes_disjoint d e k : k ∈ dentry_nodes d -> k ∈ dentry_nodes e -> d = e.
Proof. rewrite !in_dentry_nodes. by destruct k; intros; subst. Qed.

(** Fresh nodes, each initialised to its own ring. *)
Lemma init_nodes (ns : list vnode) : forall h : gmap vnode (list_head vnode), (forall k, k ∈ ns -> is_Some (h !! k)) ->
  let h' := foldl (fun h n => <[n := mk_list_head (Some n) (Some n)]> h) h ns in
  dom h' = dom h /\ (forall k, k ∈ ns -> h' !! k = Some (mk_list_head (Some k) (Some k))) /\
  (forall k, k ∉ ns -> h' !! k = h !! k).
Proof.
  induction ns as [|n ns IH]; intros h Hin; cbn [foldl]; [split_and!; [done|by inversion 1|done]|].
  destruct (IH (<[n := mk_list_head (Some n) (Some n)]> h)) as (Hd & Hi & Ho).
  { intros k Hk. rewrite lookup_insert. case_decide; [done|]. apply Hin. by right. }
  split_and!.
  - rewrite Hd. apply dom_insert_lookup_L. apply Hin. left.
  - intros k Hk. destruct (decide (k ∈ ns)) as [|Hk']; [by apply Hi|]. rewrite Ho by done.
    apply elem_of_cons in Hk as [->|]; [apply lookup_insert_eq|done].
  - intros k Hk. rewrite not_elem_of_cons in Hk. rewrite Ho by naive_solver. by rewrite lookup_insert_ne by naive_solver.
Qed.

Lemma own_ring (h : gmap vnode (list_head vnode)) k : h !! k = Some (mk_list_head (Some k) (Some k)) -> is_list h k [].
Proof.
  intros Hk. split; [apply NoDup_singleton|]. cbn [app path]. unfold hnext, hprev. rewrite Hk. done.
Qed.

Lemma new_nodes_lookup ns (h : gmap vnode (list_head vnode)) k :
  foldr (fun n => insert n (mk_list_head None None)) h ns !! k =
  if decide (k ∈ ns) then Some (mk_list_head None None) else h !! k.
Proof.
  induction ns as [|n ns IH]; cbn [foldr]; [done|]. rewrite lookup_insert.
  destruct (decide (n = k)) as [->|Hne]; [by rewrite decide_True by left|]. rewrite IH.
  destruct (decide (k ∈ ns)); [by rewrite decide_True by by right|]. rewrite decide_False; [done|].
  rewrite not_elem_of_cons. naive_solver.
Qed.

(** The list nodes of a fresh dentry: on their own rings, nothing else touched. *)
Definition fresh_nodes (d : Z) (h : gmap vnode (list_head vnode)) : gmap vnode (list_head vnode) :=
  foldl (fun h n => <[n := mk_list_head (Some n) (Some n)]> h)
    (foldr (fun n => insert n (mk_list_head None None)) h (dentry_nodes d)) (dentry_nodes d).

Lemma fresh_nodes_spec d h :
  (forall k, k ∈ dentry_nodes d -> is_list (fresh_nodes d h) k []) /\
  (forall k, k ∉ dentry_nodes d -> fresh_nodes d h !! k = h !! k) /\
  (forall k, is_Some (fresh_nodes d h !! k) <-> k ∈ dentry_nodes d \/ is_Some (h !! k)).
Proof.
  destruct (init_nodes (dentry_nodes d) (foldr (fun n => insert n (mk_list_head None None)) h (dentry_nodes d)))
    as (Hd & Hi & Ho).
  { intros k Hk. rewrite new_nodes_lookup, decide_True by done. eauto. }
  fold (fresh_nodes d h) in Hd, Hi, Ho.
  assert (Hold : forall k, k ∉ dentry_nodes d -> fresh_nodes d h !! k = h !! k).
  { intros k Hk. rewrite Ho by done. by rewrite new_nodes_lookup, decide_False. }
  split_and!; [intros k Hk; by apply own_ring, Hi|done|].
  intros k. destruct (decide (k ∈ dentry_nodes d)); [rewrite Hi by done|rewrite Hold by done]; naive_solver.
Qed.

Section life.
Context {E : Type} `{KFS : KCacheFreeSpec E}.
Variable junk : Z -> dentry.
Implicit Types (st : vfs_st E) (chains : Z -> list Z).

Definition owned st : Prop := forall d, is_Some (dentries st !! d) -> ka_live (ext st) d.
Definition unqueue chains (d i : Z) : list Z := filter (fun e => e <> d) (chains i).

Lemma dcache_ext st chains chains' : (forall i, 0 <= i < DENTRY_HASH_SIZE -> chains' i = chains i) ->
  dcache_ok st chains -> dcache_ok st chains'.
Proof.
  intros E0 Hok. split.
  - intros i Hi. rewrite E0 by done. by apply (dk_ring _ _ Hok).
  - intros i d Hi. rewrite E0 by done. by apply (dk_in _ _ Hok).
  - apply (dk_nodes _ _ Hok).
Qed.

(** Changes to other lists, and to nothing a queue depends on. *)
Lemma dcache_tree st st' chains ks : dcache_ok st chains -> dentries st' = dentries st ->
  dom_frame (vnodes st) (vnodes st') ks -> (forall k, k ∈ ks -> tree_node k = true) -> dcache_ok st' chains.
Proof.
  intros Hok Hd [Hdom Hf] Hks. split.
  - intros i Hi. eapply is_list_agree; [|by apply (dk_ring _ _ Hok)]. intros k Hk. apply Hf. intros Hin%Hks.
    apply elem_of_cons in Hk as [->|Hk]; [done|]. apply list_elem_of_fmap in Hk as (e & -> & _). done.
  - rewrite Hd. apply (dk_in _ _ Hok).
  - intros d k Hk. by rewrite <- elem_of_dom, Hdom, elem_of_dom, Hd, (dk_nodes _ _ Hok d k Hk).
Qed.

Lemma dentry_node_absent st chains d k : dcache_ok st chains -> dentries st !! d = None -> k ∈ dentry_nodes d ->
  vnodes st !! k = None.
Proof.
  intros Hok Hd Hk. destruct (vnodes st !! k) eqn:Ek; [|done].
  destruct (proj1 (dk_nodes _ _ Hok d k Hk)) as [x Hx]; [by rewrite Ek|congruence].
Qed.

(** A dentry appears, with its nodes on their own rings. *)
Lemma dcache_new st st' chains d x : dcache_ok st chains -> dentries st !! d = None ->
  dentries st' = <[d := x]> (dentries st) -> vnodes st' = fresh_nodes d (vnodes st) -> dcache_ok st' chains.
Proof.
  intros Hok Hd Hst Hv. destruct (fresh_nodes_spec d (vnodes st)) as (_ & Ho & Hdom). split.
  - intros i Hi. pose proof (dk_ring _ _ Hok i Hi) as Hl. eapply is_list_agree; [|exact Hl].
    intros k Hk. rewrite Hv. apply Ho. intros Hin.
    pose proof (is_list_in_dom _ _ _ _ Hl Hk) as [? Hs]. by rewrite (dentry_node_absent st chains d k) in Hs.
  - intros i e Hi He. destruct (dk_in _ _ Hok i e Hi He) as (y & Hy & Hq). exists y. split; [|done].
    rewrite Hst, lookup_insert_ne by congruence. done.
  - intros e k Hk. rewrite Hv, Hdom, Hst, lookup_insert. case_decide as Ee.
    + subst. split; eauto.
    + rewrite (dk_nodes _ _ Hok e k Hk). split; [|by right]. intros [Hin|?]; [|done].
      by destruct Ee; eapply dentry_nodes_disjoint.
Qed.

(** d_alloc before the dentry is linked to its parent. *)
Definition allocated (parent : option Z) (d : Z) (name : option (list Z)) (e : E) st : vfs_st E :=
  set_vnodes (fresh_nodes d (vnodes st))
    (set_dentries (<[d := fresh_dentry junk parent d name]> (dentries st)) (set_ext e st)).

Lemma d_alloc_unlinked st c e d parent name :
  dentry_cache st = Some c -> ka_cache_alloc c (ext st) = Ret (e, Some d) ->
  d_alloc junk parent name st =
  match parent with
  | Some q => if q =? d then Ret (allocated parent d name e st, Some d)
              else st ← on_vnodes (list_add (Some (DSubdirs q)) (Some (DChild d))) (allocated parent d name e st); mret (st, Some d)
  | None => Ret (allocated parent d name e st, Some d)
  end.
Proof.
  intros Hc Ha. unfold d_alloc. rewrite Hc. cbn [deref]. rewrite bind_Ret, Ha, bind_Ret.
  assert (Hinit : forall k (s : vfs_st E), is_Some (vnodes s !! k) -> on_vnodes (INIT_LIST_HEAD (Some k)) s =
    Ret (set_vnodes (<[k := mk_list_head (Some k) (Some k)]> (vnodes s)) s)).
  { intros k s Hk. unfold on_vnodes. by rewrite INIT_LIST_HEAD_spec. }
  assert (Hin : forall k, k ∈ dentry_nodes d -> is_Some (foldr (fun n => insert n (mk_list_head None None)) (vnodes st) (dentry_nodes d) !! k)).
  { intros k Hk. rewrite new_nodes_lookup, decide_True by done. eauto. }
  assert (HL := Hin (DLru d) ltac:(left)). assert (HC := Hin (DChild d) ltac:(right; left)).
  assert (HS := Hin (DSubdirs d) ltac:(do 2 right; left)). assert (HH := Hin (DHash d) ltac:(do 3 right; left)).
  unfold new_nodes. do 4 (rewrite Hinit by (cbn [vnodes set_vnodes set_dentries set_ext]; rewrite ?lookup_insert_is_Some';
    tauto); rewrite bind_Ret).
  by destruct parent.
Qed.

(** What holds after a d_alloc that returned [d] with [n] allocations left. *)
Record d_allocated st st' chains (parent : option Z) (name : option (list Z)) (d c : Z) (n : nat) : Prop := {
  al_new : dentries st !! d = None;
  al_dentries : dentries st' = <[d := fresh_dentry junk parent d name]> (dentries st);
  al_ok : dcache_ok st' chains;
  al_owned : owned st';
  al_room : cache_room (ext st') c n;
  al_cache : dentry_cache st' = Some c;
  al_inodes : inodes st' = inodes st;
  al_hash : is_list (vnodes st') (DHash d) [];
  al_subdirs : is_list (vnodes st') (DSubdirs d) [];
  al_others hd l : is_list (vnodes st) hd l -> (forall q, parent = Some q -> DSubdirs q <> hd) ->
    (forall q xs k, parent = Some q -> is_list (vnodes st) (DSubdirs q) xs -> k ∈ hd :: l -> k ∉ DSubdirs q :: xs) ->
    is_list (vnodes st') hd l;
}.

Lemma d_alloc_spec st chains parent name c n :
  dcache_ok st chains -> owned st -> dentry_cache st = Some c -> cache_room (ext st) c (Datatypes.S n) ->
  (forall q, parent = Some q -> exists subs, is_list (vnodes st) (DSubdirs q) subs /\ Forall tree_node subs) ->
  exists st' d, d_alloc junk parent name st = Ret (st', Some d) /\ d_allocated st st' chains parent name d c n /\
    (forall q subs, parent = Some q -> is_list (vnodes st) (DSubdirs q) subs -> is_list (vnodes st') (DSubdirs q) (DChild d :: subs)).
Proof.
  intros Hok Hown Hc [Hcc Hroom] Hpar.
  destruct (ka_cache_alloc_ok c (ext st) n Hcc Hroom) as (e & d & Ha & Hfresh & Hlive & Hmono & Hkeepc & Hroom').
  assert (Hcr : cache_room e c n) by (split; [by apply Hkeepc, Hcc|done]).
  assert (Hd : dentries st !! d = None).
  { destruct (dentries st !! d) eqn:Ed; [|done]. destruct Hfresh. apply Hown. eauto. }
  rewrite (d_alloc_unlinked st c e d parent name Hc Ha). set (st1 := allocated parent d name e st).
  destruct (fresh_nodes_spec d (vnodes st)) as (Hown1 & Hkeep & _).
  assert (Hok1 : dcache_ok st1 chains) by (by eapply (dcache_new st st1)).
  assert (Hring : forall hd l, is_list (vnodes st) hd l -> is_list (vnodes st1) hd l).
  { intros hd l Hl. eapply is_list_agree; [|exact Hl]. intros k Hk. apply Hkeep. intros Hin.
    pose proof (is_list_in_dom _ _ _ _ Hl Hk) as [? Hs]. by rewrite (dentry_node_absent st chains d k) in Hs. }
  assert (Hown' : forall f, is_Some (dentries st1 !! f) -> ka_live e f).
  { intros f. unfold st1. cbn [dentries allocated set_vnodes set_dentries]. rewrite lookup_insert. case_decide; [by subst|].
    intros Hf. by apply Hmono, Hown. }
  destruct parent as [q|].
  - destruct (Hpar q eq_refl) as (subs & Hsubs & Htree).
    assert (q <> d) as Hqd.
    { intros ->. pose proof (is_list_in_dom _ _ _ (DSubdirs d) Hsubs ltac:(left)) as [? Hs].
      rewrite (dentry_node_absent st chains d) in Hs; [done|done|done|]. do 2 right. left. }
    apply Z.eqb_neq in Hqd as Eqd. rewrite Eqd.
    destruct (list_add_spec (vnodes st1) (DSubdirs q) subs (DChild d)) as (h & R & Hl & Hf).
    { by apply Hring. }
    { intros Hin. pose proof (is_list_in_dom _ _ _ _ Hsubs Hin) as [? Hs].
      rewrite (dentry_node_absent st chains d) in Hs; [done|done|done|]. right. left. }
    { apply (is_list_in_dom _ (DChild d) [] (DChild d)); [|left]. apply Hown1. right. left. }
    unfold on_vnodes. rewrite R. bind_rets. exists (set_vnodes h st1), d. split; [done|]. split.
    + split; try done.
      * eapply (dcache_tree st1); [done|done|exact Hf|]. intros k. rewrite !elem_of_cons. intros [->|[->|Hk]]; [done|done|].
        rewrite Forall_forall in Htree. specialize (Htree k Hk). by destruct (tree_node k).
      * eapply is_list_frame; [exact Hf| |apply Hown1; do 3 right; left]. intros k [->|Hk]%elem_of_cons; [|by inversion Hk].
        rewrite !not_elem_of_cons. split_and!; try done. intros Hk. rewrite Forall_forall in Htree. by apply Htree in Hk.
      * eapply is_list_frame; [exact Hf| |apply Hown1; do 2 right; left]. intros k [->|Hk]%elem_of_cons; [|by inversion Hk].
        rewrite !not_elem_of_cons. split_and!; [done|congruence|]. intros Hk.
        pose proof (is_list_in_dom _ _ _ _ Hsubs (list_elem_of_further _ _ _ Hk)) as [? Hs].
        rewrite (dentry_node_absent st chains d) in Hs; [done|done|done|]. do 2 right. left.
      * intros hd l Hl0 _ Hdisj. eapply is_list_frame; [exact Hf| |by apply Hring]. intros k Hk.
        rewrite not_elem_of_cons. split; [|by eapply Hdisj].
        intros ->. pose proof (is_list_in_dom _ _ _ _ Hl0 Hk) as [? Hs].
        rewrite (dentry_node_absent st chains d) in Hs; [done|done|done|]. right. left.
    + intros q' subs' [= <-] Hl'. assert (subs' = subs) as -> by (by eapply is_list_fun). done.
  - exists st1, d. split; [done|]. split; [|done]. split; try done.
    + apply Hown1. do 3 right. left.
    + apply Hown1. do 2 right. left.
    + intros hd l Hl0 _ _. by apply Hring.
Qed.

(** How [d] is linked to the hash table: on a queue, never hashed, or taken off. *)
Definition hash_link st chains (d : Z) (x : dentry) : Prop :=
  hashed chains d \/ (Z.land (d_flags x) DCACHE_UNHASHED = 0 /\ is_list (vnodes st) (DHash d) [] /\ ~ hashed chains d) \/
  Z.land (d_flags x) DCACHE_UNHASHED <> 0.

Lemma filter_notin (l : list Z) d : d ∉ l -> filter (fun e => e <> d) l = l.
Proof.
  induction l as [|e l IH]; intros Hd; [done|]. rewrite not_elem_of_cons in Hd.
  rewrite filter_cons_True by naive_solver. f_equal. naive_solver.
Qed.

Lemma unqueue_same chains d : ~ hashed chains d -> forall i, 0 <= i < DENTRY_HASH_SIZE -> unqueue chains d i = chains i.
Proof. intros Hd i Hi. apply filter_notin. intros Hin. apply Hd. by exists i. Qed.

Lemma unqueue_off chains d : ~ hashed (unqueue chains d) d.
Proof. intros (i & _ & Hin). apply list_elem_of_filter in Hin as [Hne _]. by apply Hne. Qed.

(** A dentry on no queue may change, and its link too. *)
Lemma dcache_unlinked st st' chains d x' v : dcache_ok st chains -> ~ hashed chains d -> is_Some (dentries st !! d) ->
  dentries st' = <[d := x']> (dentries st) -> vnodes st' = <[DHash d := v]> (vnodes st) -> dcache_ok st' chains.
Proof.
  intros Hok Hd Hx Hst Hv. split.
  - intros i Hi. eapply is_list_agree; [|by apply (dk_ring _ _ Hok)]. intros k Hk. rewrite Hv, lookup_insert_ne; [done|].
    intros <-. apply elem_of_cons in Hk as [Hk|(e & [= <-] & He)%list_elem_of_fmap]; [done|]. apply Hd. by exists i.
  - intros i e Hi He. destruct (dk_in _ _ Hok i e Hi He) as (y & Hy & Hq). exists y. split; [|done].
    rewrite Hst, lookup_insert_ne; [done|]. intros <-. apply Hd. by exists i.
  - intros e k Hk. rewrite Hv, Hst, !lookup_insert_is_Some', (dk_nodes _ _ Hok e k Hk).
    split; [|naive_solver]. intros [<-|?]; [|by right]. left. unfold dentry_nodes in Hk.
    rewrite !elem_of_cons, elem_of_nil in Hk. naive_solver.
Qed.

(** d_delete, whatever the link is: [d] is off the queues, other lists stay. *)
Lemma d_delete_spec st chains d x : dcache_ok st chains -> dentries st !! d = Some x -> hash_link st chains d x ->
  exists h x', let st' := set_dentries (<[d := x']> (dentries st)) (set_vnodes h st) in
    d_delete (Some d) st = Ret st' /\ dcache_ok st' (unqueue chains d) /\
    (forall k, tree_node k = true -> h !! k = vnodes st !! k).
Proof.
  intros Hok Hx [(i & Hi & Hin)|[(Hfl & Hl & Hd)|Hfl]].
  - destruct (d_delete_hashed st chains i d x Hok Hi Hin Hx) as (h & l1 & l2 & Ec & Hd & [R Hok'] & Hf).
    exists h, (unhashed x). split_and!; [done| |].
    + eapply dcache_ext; [|exact Hok']. intros j Hj. unfold unqueue, requeue. case_decide as Ej.
      * subst j. rewrite Ec, filter_app, filter_cons_False by naive_solver. rewrite <- filter_app. by apply filter_notin.
      * apply filter_notin. intros Hin'. apply Ej. by apply (dk_uniq st chains j i d).
    + intros k Ht. apply (proj2 Hf). rewrite !not_elem_of_cons, list_elem_of_fmap. destruct k; naive_solver.
  - exists (<[DHash d := mk_list_head None None]> (vnodes st)), (unhashed x). cbn zeta.
    split_and!; [by apply d_delete_alone| |].
    + eapply dcache_ext; [by apply unqueue_same|]. by eapply (dcache_unlinked st).
    + intros k Ht. rewrite lookup_insert_ne; [done|]. by intros <-.
  - exists (vnodes st), x. cbn zeta. rewrite insert_id by done.
    replace (set_dentries (dentries st) (set_vnodes (vnodes st) st)) with st by (by destruct st).
    split_and!; [by eapply d_delete_noop| |done]. eapply dcache_ext; [|exact Hok]. apply unqueue_same.
    intros (i & Hi & Hin). destruct (dk_in _ _ Hok i d Hi Hin) as (y & Hy & nm & _ & _ & Hz). congruence.
Qed.

(** The dentry and its nodes go. *)
Lemma dcache_drop st st' chains d : dcache_ok st chains -> ~ hashed chains d ->
  dentries st' = delete d (dentries st) -> vnodes st' = foldr delete (vnodes st) (dentry_nodes d) -> dcache_ok st' chains.
Proof.
  intros Hok Hd Hst Hv. split.
  - intros i Hi. eapply is_list_agree; [|by apply (dk_ring _ _ Hok)]. intros k Hk. rewrite Hv. apply lookup_drop.
    unfold dentry_nodes. rewrite !elem_of_cons, elem_of_nil in *. rewrite list_elem_of_fmap in Hk.
    assert (forall e, DHash e = DHash d -> e ∈ chains i -> False) by (intros e [= ->] He; apply Hd; by exists i).
    naive_solver.
  - intros i e Hi He. destruct (dk_in _ _ Hok i e Hi He) as (y & Hy & Hq). exists y. split; [|done].
    rewrite Hst, lookup_delete_ne; [done|]. intros <-. apply Hd. by exists i.
  - intros e k Hk. rewrite Hv, Hst. destruct (decide (e = d)) as [->|Hne].
    + rewrite lookup_dropped, lookup_delete_eq by done. done.
    + rewrite lookup_delete_ne by done. rewrite lookup_drop; [by apply (dk_nodes _ _ Hok)|].
      intros Hk'. apply Hne. by eapply dentry_nodes_disjoint.
Qed.

(** What holds after the last reference to [d] is gone. *)
Record d_released st st' chains (d c : Z) (n : nat) : Prop := {
  re_dentries : dentries st' = delete d (dentries st);
  re_ok : dcache_ok st' (unqueue chains d);
  re_owned : owned st';
  re_room : cache_room (ext st') c n;
  re_cache : dentry_cache st' = Some c;
  re_inodes : inodes st' = inodes st;
}.

(** The end of dput: off the hash queue, and freed. *)
Lemma unhash_free_spec st chains d x c n :
  dcache_ok st chains -> owned st -> dentry_cache st = Some c -> cache_room (ext st) c n ->
  dentries st !! d = Some x -> hash_link st chains d x ->
  exists st', (d_delete (Some d) st ≫= free_dentry d) = Ret st' /\ d_released st st' chains d c n /\
    (forall k, tree_node k = true -> k ∉ dentry_nodes d -> vnodes st' !! k = vnodes st !! k).
Proof.
  intros Hok Hown Hc Hroom Hx Hlink.
  destruct (d_delete_spec st chains d x Hok Hx Hlink) as (h & x' & R & Hok' & Htree). rewrite R, bind_Ret.
  destruct (ka_cache_free_ok c d (ext st) n) as (e & Hfree & Hlive & Hkeepc & Hroom'); [apply Hown; eauto|apply Hroom|].
  assert (Hcr : cache_room e c n) by (split; [by apply Hkeepc, Hroom|done]).
  unfold free_dentry. cbn [dentry_cache set_dentries set_vnodes ext]. rewrite Hc. cbn [deref]. rewrite bind_Ret, Hfree. bind_rets.
  eexists. split; [done|]. split; [split; try done|].
  - cbn [dentries set_ext drop_nodes set_vnodes set_dentries]. by rewrite delete_insert_eq.
  - eapply (dcache_drop _ _ _ d Hok'); [apply unqueue_off|done|done].
  - intros f. cbn [dentries set_ext drop_nodes set_vnodes set_dentries ext]. rewrite delete_insert_eq.
    intros [y [Hne Hy]%lookup_delete_Some]. apply Hlive; [done|]. apply Hown. eauto.
  - intros k Ht Hk. cbn [vnodes set_ext drop_nodes set_vnodes set_dentries]. rewrite lookup_drop by done. by apply Htree.
Qed.

(** A reference that is not the last is only counted. *)
Lemma dput_shared st d x : dentries st !! d = Some x -> u32 (d_count x - 1) <> 0 ->
  dput (Some d) st = Ret (set_dentries (<[d := set_d_count (u32 (d_count x - 1)) x]> (dentries st)) st).
Proof.
  intros Hx Hc. unfold dput, upd_dentry. rewrite Hx. cbn [deref]. bind_rets. cbn [dentries set_dentries].
  rewrite lookup_insert_eq. cbn [deref]. rewrite bind_Ret. cbn [d_count set_d_count]. apply Z.eqb_neq in Hc. by rewrite Hc.
Qed.

(** The last reference to a dentry that is on a list through [d_child]. *)
Lemma dput_last st chains d x c n hd l1 l2 :
  dcache_ok st chains -> owned st -> dentry_cache st = Some c -> cache_room (ext st) c n ->
  dentries st !! d = Some x -> d_count x = 1 -> hash_link st chains d x -> d_parent x <> Some d ->
  is_list (vnodes st) hd (l1 ++ DChild d :: l2) -> Forall tree_node (hd :: l1 ++ l2) ->
  exists st', dput (Some d) st = Ret st' /\ d_released st st' chains d c n /\
    (DSubdirs d ∉ hd :: l1 ++ l2 -> is_list (vnodes st') hd (l1 ++ l2)) /\
    (forall k, tree_node k = true -> k ∉ DChild d :: hd :: l1 ++ l2 -> k ∉ dentry_nodes d -> vnodes st' !! k = vnodes st !! k).
Proof.
  intros Hok Hown Hc Hroom Hx Hcnt Hlink Hpar Hl Ht.
  destruct (list_del_spec _ _ _ _ _ Hl) as (h & R & _ & Hl' & Hf).
  assert (Hnd : DChild d ∉ hd :: l1 ++ l2).
  { destruct Hl as [Hnd _]. rewrite app_comm_cons, <- Permutation_middle in Hnd. by apply NoDup_cons in Hnd as [Hnd _]. }
  assert (Hks : forall k, k ∈ DChild d :: hd :: l1 ++ l2 -> tree_node k = true).
  { rewrite Forall_forall in Ht. intros k [->|Hk]%elem_of_cons; [done|]. by apply Is_true_true, Ht. }
  set (x0 := set_d_count 0 x). set (st0 := set_dentries (<[d := x0]> (dentries st)) st).
  assert (Hok0 : dcache_ok st0 chains) by (by eapply (dcache_update st)).
  set (st1 := set_vnodes h st0).
  assert (Hok1 : dcache_ok st1 chains) by (by eapply (dcache_tree st0)).
  assert (Hlink1 : hash_link st1 chains d x0).
  { destruct Hlink as [?|[(Hz & Hs & ?)|?]]; [by left|right; left|by right; right]. split_and!; [done| |done].
    eapply is_list_frame; [exact Hf| |exact Hs]. intros k [->|Hk]%elem_of_cons Hin; [|by inversion Hk]. by apply Hks in Hin. }
  destruct (unhash_free_spec st1 chains d x0 c n Hok1) as (st' & R' & [] & Hrings); try done.
  { intros f. unfold st1, st0. cbn [dentries set_vnodes set_dentries ext]. rewrite lookup_insert. case_decide; [subst|apply Hown].
    intros _. apply Hown. eauto. }
  { apply lookup_insert_eq. }
  exists st'. split; [|split; [split; try done|split]].
  - unfold dput, upd_dentry. rewrite Hx. cbn [deref]. bind_rets. rewrite Hcnt. change (u32 (1 - 1)) with 0. fold x0 st0.
    assert (Hx0 : dentries st0 !! d = Some x0) by apply lookup_insert_eq. rewrite Hx0. cbn [deref]. rewrite bind_Ret.
    change (d_count x0 =? 0) with true. change (d_parent x0) with (d_parent x). rewrite bool_decide_eq_false_2 by done.
    unfold on_vnodes. change (vnodes st0) with (vnodes st). rewrite R. bind_rets. exact R'.
  - rewrite re_dentries0. unfold st1, st0. cbn [dentries set_vnodes set_dentries]. by rewrite delete_insert_eq.
  - intros Hsub. eapply is_list_agree; [|exact Hl']. intros k Hk. apply Hrings.
    { apply Hks. by right. }
    unfold dentry_nodes. rewrite !elem_of_cons, elem_of_nil.
    assert (Hk' := Hks k (list_elem_of_further _ _ _ Hk)). intros [->|[->|[->|[->|[]]]]]; done.
  - intros k Hk Hout Hown'. rewrite Hrings by done. by apply (proj2 Hf).
Qed.

(** ** Properties of the life of a dentry *)

Lemma d_alloc_dput_spec st chains q subs name c n :
  dcache_ok st chains -> owned st -> dentry_cache st = Some c -> cache_room (ext st) c (Datatypes.S n) ->
  is_list (vnodes st) (DSubdirs q) subs -> Forall tree_node subs ->
  exists st1 st2 d, d_alloc junk (Some q) name st = Ret (st1, Some d) /\
    is_list (vnodes st1) (DSubdirs q) (DChild d :: subs) /\ dput (Some d) st1 = Ret st2 /\
    dentries st2 = dentries st /\ dcache_ok st2 chains /\ owned st2 /\ is_list (vnodes st2) (DSubdirs q) subs.
Proof.
  intros Hok Hown Hc Hroom Hsubs Ht.
  destruct (d_alloc_spec st chains (Some q) name c n Hok Hown Hc Hroom) as (st1 & d & R1 & [] & Hadd).
  { intros q' [= <-]. eauto. }
  specialize (Hadd q subs eq_refl Hsubs).
  assert (Hqd : q <> d).
  { intros ->. pose proof (is_list_in_dom _ _ _ (DSubdirs d) Hsubs ltac:(left)) as [? Hs].
    rewrite (dentry_node_absent st chains d) in Hs; [done|done|done|]. do 2 right. left. }
  assert (Hoff : ~ hashed chains d).
  { intros (i & Hi & Hin). destruct (dk_in _ _ Hok i d Hi Hin) as (y & Hy & _). congruence. }
  destruct (dput_last st1 chains d (fresh_dentry junk (Some q) d name) c n (DSubdirs q) [] subs) as (st2 & R2 & [] & Hring & _); try done.
  { by rewrite al_dentries0, lookup_insert_eq. }
  { right. left. done. }
  { intros [= ?]. done. }
  { by constructor. }
  exists st1, st2, d. split_and!; try done.
  - by rewrite re_dentries0, al_dentries0, delete_insert_id.
  - eapply dcache_ext; [|exact re_ok0]. intros i Hi. symmetry. by apply unqueue_same.
  - apply Hring. rewrite not_elem_of_cons. split; [congruence|]. intros Hin.
    pose proof (is_list_in_dom _ _ _ _ Hsubs (list_elem_of_further _ _ _ Hin)) as [? Hs].
    rewrite (dentry_node_absent st chains d) in Hs; [done|done|done|]. do 2 right. left.
Qed.

(** A d_alloc that is taken back leaves no trace: a dentry that was
    allocated under a parent and not hashed or instantiated is removed from the
    parent's list and freed by the next dput. *)
Theorem d_alloc_dput_roundtrip st chains q subs name c n :
  dcache_ok st chains -> owned st -> dentry_cache st = Some c -> cache_room (ext st) c (Datatypes.S n) ->
  is_list (vnodes st) (DSubdirs q) subs -> Forall tree_node subs ->
  exists st1 st2 d, d_alloc junk (Some q) name st = Ret (st1, Some d) /\
    is_list (vnodes st1) (DSubdirs q) (DChild d :: subs) /\ dput (Some d) st1 = Ret st2 /\
    dentries st2 = dentries st /\ dcache_ok st2 chains /\ owned st2 /\ is_list (vnodes st2) (DSubdirs q) subs.
Proof. apply d_alloc_dput_spec. Qed.

(** dget and dput balance: a reference that is taken and released leaves
    the state as it was. *)
Theorem dget_dput_roundtrip st d x : dentries st !! d = Some x -> 0 < d_count x < 2 ^ 32 - 1 ->
  exists st1, dget (Some d) st = Ret (st1, Some d) /\ dput (Some d) st1 = Ret st.
Proof.
  intros Hx Hc. eexists. split; [unfold dget, upd_dentry; rewrite Hx; cbn [deref]; bind_rets; done|].
  assert (Eu : u32 (u32 (d_count x + 1) - 1) = d_count x) by (rewrite (u32_small (d_count x + 1)), u32_small by lia; lia).
  erewrite dput_shared; [|apply lookup_insert_eq|cbn [d_count set_d_count]; lia].
  cbn [d_count set_d_count dentries set_dentries]. rewrite Eu, insert_insert_eq. f_equal. unfold set_d_count. cbn.
  replace (mk_dentry _ _ _ _ _ _ _) with x by (by destruct x). rewrite insert_id by done. by destruct st.
Qed.

(** An instantiated dentry corrupts its parent's list of children.  After
    d_alloc under a parent and d_instantiate, a walk over the parent's list
    runs into the list of the inode and never ends; the last dput frees the
    dentry and repairs the inode's list only, so that the next d_alloc under
    the same parent that gets another address writes to freed memory. *)
Theorem d_instantiate_dangles st chains q subs i ds name name2 c n :
  dcache_ok st chains -> owned st -> dentry_cache st = Some c -> cache_room (ext st) c (Datatypes.S (Datatypes.S n)) ->
  is_list (vnodes st) (DSubdirs q) subs -> Forall tree_node subs -> is_Some (dentries st !! q) ->
  is_list (vnodes st) (IDentry i) ds -> Forall tree_node ds ->
  (forall k, k ∈ IDentry i :: ds -> k ∉ DSubdirs q :: subs) ->
  exists st1 st2 st3 d, d_alloc junk (Some q) name st = Ret (st1, Some d) /\
    d_instantiate (Some d) (Some i) st1 = Ret st2 /\
    (forall fuel, list_for_each fuel (Some (DSubdirs q)) (vnodes st2) = Spin) /\
    dput (Some d) st2 = Ret st3 /\ dentries st3 = dentries st /\ is_list (vnodes st3) (IDentry i) ds /\
    (forall e d2, ka_cache_alloc c (ext st3) = Ret (e, Some d2) -> d2 <> d -> d_alloc junk (Some q) name2 st3 = Fault).
Proof.
  intros Hok Hown Hc Hroom Hsubs Ht Hq Hds Htd Hdisj.
  destruct (d_alloc_spec st chains (Some q) name c (Datatypes.S n) Hok Hown Hc Hroom) as (st1 & d & R1 & [] & Hadd).
  { intros q' [= <-]. eauto. }
  specialize (Hadd q subs eq_refl Hsubs).
  assert (Hqd : q <> d) by (intros ->; rewrite al_new0 in Hq; by destruct Hq).
  assert (Habs : forall k, k ∈ dentry_nodes d -> k ∈ IDentry i :: ds -> False).
  { intros k Hk Hin. pose proof (is_list_in_dom _ _ _ k Hds Hin) as [? Hs].
    by rewrite (dentry_node_absent st chains d k Hok al_new0 Hk) in Hs. }
  assert (Hds1 : is_list (vnodes st1) (IDentry i) ds).
  { apply al_others0; [done|done|]. intros q' xs k [= <-] Hxs Hk. rewrite (is_list_fun _ _ _ _ Hxs Hsubs). by apply Hdisj. }
  assert (Hx1 : dentries st1 !! d = Some (fresh_dentry junk (Some q) d name)) by (by rewrite al_dentries0, lookup_insert_eq).
  destruct (list_add_spec (vnodes st1) (IDentry i) ds (DChild d) Hds1) as (h & R2 & Hl2 & Hf2).
  { intros Hin. apply (Habs (DChild d)); [right; left|done]. }
  { eapply dk_present; [done|by rewrite Hx1|right; left]. }
  set (x2 := set_d_inode (Some i) (fresh_dentry junk (Some q) d name)).
  set (st2 := set_vnodes h (set_dentries (<[d := x2]> (dentries st1)) st1)).
  assert (HS : DSubdirs q ∉ DChild d :: IDentry i :: ds).
  { rewrite !not_elem_of_cons. split_and!; [done|done|]. intros Hin. apply (Hdisj (DSubdirs q)); [by right|left]. }
  assert (HSn : forall h', h' !! DSubdirs q = vnodes st1 !! DSubdirs q -> get_next (Some (DSubdirs q)) h' = Ret (Some (DChild d))).
  { intros h' E0. pose proof (is_list_first _ _ _ Hadd) as Hn. unfold get_next in *. cbn [deref] in *.
    rewrite !bind_Ret in *. by rewrite E0. }
  assert (Htree : Forall tree_node (IDentry i :: [] ++ ds)) by by constructor.
  assert (Hok2 : dcache_ok st2 chains).
  { eapply (dcache_tree (set_dentries (<[d := x2]> (dentries st1)) st1)); [by eapply (dcache_update st1)|done|exact Hf2|].
    rewrite Forall_forall in Htree. intros k [->|Hk]%elem_of_cons; [done|]. by apply Is_true_true, Htree. }
  destruct (dput_last st2 chains d x2 c (Datatypes.S n) (IDentry i) [] ds) as (st3 & R3 & [] & Hring & Hkeep); try done.
  { intros f. unfold st2. cbn [dentries set_vnodes set_dentries ext]. rewrite lookup_insert. case_decide; [subst|apply al_owned0].
    intros _. apply al_owned0. by rewrite Hx1. }
  { apply lookup_insert_eq. }
  { right. left. split_and!; [done| |].
    - eapply is_list_frame; [exact Hf2| |exact al_hash0]. intros k [->|Hk]%elem_of_cons Hin; [|by inversion Hk].
      rewrite !elem_of_cons in Hin. destruct Hin as [|[|Hin]]; [done|done|]. apply (Habs (DHash d)); [do 3 right; left|by right].
    - intros (j & Hj & Hin). destruct (dk_in _ _ Hok j d Hj Hin) as (y & Hy & _). congruence. }
  { intros [= ?]. done. }
  assert (Hdq : DSubdirs q ∉ dentry_nodes d) by (rewrite in_dentry_nodes; congruence).
  assert (Hst3 : dentries st3 = dentries st).
  { rewrite re_dentries0. unfold st2. cbn [dentries set_vnodes set_dentries]. by rewrite delete_insert_eq, al_dentries0, delete_insert_id. }
  exists st1, st2, st3, d. split_and!; try done.
  - unfold d_instantiate, upd_dentry. rewrite Hx1. cbn [deref]. bind_rets. unfold on_vnodes.
    change (vnodes (set_dentries _ st1)) with (vnodes st1). by rewrite R2.
  - intros fuel. unfold list_for_each. rewrite HSn by (apply (proj2 Hf2); done). rewrite bind_Ret.
    apply (list_for_each_other_ring _ _ (IDentry i) (DChild d :: ds)); [done| |right; left].
    rewrite !not_elem_of_cons in HS |- *. tauto.
  - apply Hring. rewrite not_elem_of_cons. split; [done|]. intros Hin. apply (Habs (DSubdirs d)); [do 2 right; left|by right].
  - intros e d2 Ha Hd2.
    destruct (ka_cache_alloc_ok c (ext st3) n (proj1 re_room0) (proj2 re_room0)) as (e' & d2' & Ha' & Hfresh & _).
    assert (d2' = d2 /\ e' = e) as [-> ->] by (rewrite Ha in Ha'; by injection Ha').
    rewrite (d_alloc_unlinked st3 c e d2 (Some q) name2) by done.
    assert (q <> d2) as Hqd2 by (intros ->; apply Hfresh, re_owned0; by rewrite Hst3).
    apply Z.eqb_neq in Hqd2 as Eq. rewrite Eq. unfold on_vnodes, list_add.
    destruct (fresh_nodes_spec d2 (vnodes st3)) as (_ & Hold & _).
    change (vnodes (allocated _ _ _ _ st3)) with (fresh_nodes d2 (vnodes st3)).
    rewrite HSn.
    2: { rewrite Hold by (rewrite in_dentry_nodes; congruence).
         rewrite Hkeep by done. by apply (proj2 Hf2). }
    rewrite bind_Ret, generic_add_missing; [done|..].
    + rewrite Hold by (rewrite in_dentry_nodes; congruence).
      eapply dk_present; [done|by rewrite Hst3|do 2 right; left].
    + apply (is_list_in_dom _ (DChild d2) [] (DChild d2)); [|left]. apply fresh_nodes_spec. right. left.
    + rewrite Hold by (rewrite in_dentry_nodes; congruence).
      eapply dentry_node_absent; [done|by rewrite re_dentries0, lookup_delete_eq|right; left].
Qed.

(** C29. A new name in the cache.  After d_alloc and d_add of a name that is not
    cached, d_lookup finds the dentry if the name has at most 29 characters;
    a longer name is cut, so that looking it up still gives NULL. *)
Theorem d_alloc_add_lookup st chains q subs nm c n :
  dcache_ok st chains -> owned st -> dentry_cache st = Some c -> cache_room (ext st) c (Datatypes.S n) ->
  is_list (vnodes st) (DSubdirs q) subs -> Forall tree_node subs -> no_nul nm ->
  (forall d, hashed chains d -> named st q nm d = false) ->
  exists st1 st2 d, d_alloc junk (Some q) (Some nm) st = Ret (st1, Some d) /\ d_add (Some d) None st1 = Ret st2 /\
    if decide (length nm < 30)%nat then exists st3, d_lookup (Some q) (Some nm) st2 = Ret (st3, Some d)
    else d_lookup (Some q) (Some nm) st2 = Ret (st2, None).
Proof.
  intros Hok Hown Hc Hroom Hsubs Ht Hnm Hnew.
  destruct (d_alloc_spec st chains (Some q) (Some nm) c n Hok Hown Hc Hroom) as (st1 & d & R1 & [] & _).
  { intros q' [= <-]. eauto. }
  set (x := fresh_dentry junk (Some q) d (Some nm)) in *.
  assert (Hx1 : dentries st1 !! d = Some x) by (by rewrite al_dentries0, lookup_insert_eq).
  assert (Hs : c_string (d_name x) = Ret (take 29 nm)) by (by apply (c_string_str_array 30)).
  assert (Hoff : ~ hashed chains d).
  { intros (i & Hi & Hin). destruct (dk_in _ _ Hok i d Hi Hin) as (y & Hy & _). congruence. }
  destruct (hash_dentry_spec st1 chains d x _ al_ok0 Hx1 Hs Hoff) as (h & R2 & Hok2 & _).
  set (st2 := set_dentries (<[d := rehashed x]> (dentries st1)) (set_vnodes h st1)) in *.
  exists st1, st2, d. split; [done|]. split; [by unfold d_add; rewrite bind_mret|].
  assert (Hx2 : dentries st2 !! d = Some (rehashed x)) by apply lookup_insert_eq.
  change (d_parent x) with (Some q) in Hok2. case_decide as Hlen.
  - rewrite take_ge in Hok2, Hs by lia. eexists.
    apply (d_lookup_hit st2 _ q nm d (rehashed x) Hok2 Hnm); [|exact Hx2]. unfold requeue. rewrite decide_True by done.
    apply find_head, named_spec. by exists (rehashed x).
  - apply (d_lookup_miss _ _ q nm Hok2 Hnm). destruct (List.find _ _) as [e|] eqn:Hf; [|done]. exfalso.
    apply List.find_some in Hf as [Hin He]. apply list_elem_of_In in Hin.
    pose proof He as (y & Hy & Hp & Hsy)%named_spec. destruct (decide (e = d)) as [->|Hne].
    + rewrite Hx2 in Hy. injection Hy as <-. change (d_name (rehashed x)) with (d_name x) in Hsy.
      rewrite Hs in Hsy. injection Hsy as Elen. apply (f_equal length) in Elen. rewrite length_take in Elen. lia.
    + assert (Hold : dentries st !! e = Some y).
      { unfold st2 in Hy. cbn [dentries set_dentries set_vnodes] in Hy. rewrite lookup_insert_ne, al_dentries0, lookup_insert_ne in Hy; done. }
      assert (Hh : hashed chains e).
      { exists (d_hash (Some q) nm). split; [apply d_hash_range|]. unfold requeue in Hin. case_decide as Ei; [rewrite Ei|done].
        by apply elem_of_cons in Hin as [?|Hin]; [congruence|]. }
      specialize (Hnew e Hh). assert (named st q nm e = true) by (apply named_spec; eauto). congruence.
Qed.

End life.

(** ** Initialisation *)

Section boot.
Context {E : Type} `{KAllocSpec E}.
Implicit Types st : vfs_st E.

Lemma init_heads_spec n : forall i st, (forall j, i <= j < i + Z.of_nat n -> is_Some (vnodes st !! DHead j)) ->
  exists h, init_heads n i st = Ret (set_vnodes h st) /\
    (forall j, i <= j < i + Z.of_nat n -> is_list h (DHead j) []) /\
    (forall k, (forall j, i <= j < i + Z.of_nat n -> k <> DHead j) -> h !! k = vnodes st !! k).
Proof.
  induction n as [|n IH]; intros i st Hin.
  - exists (vnodes st). split_and!; [by destruct st|intros; lia|done].
  - cbn [init_heads]. unfold on_vnodes at 1. rewrite INIT_LIST_HEAD_spec by (apply Hin; lia). bind_rets.
    destruct (IH (i + 1) (set_vnodes (<[DHead i := mk_list_head (Some (DHead i)) (Some (DHead i))]> (vnodes st)) st)) as (h & R & Hl & Hk).
    { intros j Hj. cbn [vnodes set_vnodes]. rewrite lookup_insert_is_Some'. right. apply Hin. lia. }
    exists h. split_and!; [exact R| |].
    + intros j Hj. destruct (decide (j = i)) as [->|Hne]; [|apply Hl; lia]. apply own_ring.
      rewrite Hk by (intros j' ? [= ->]; lia). apply lookup_insert_eq.
    + intros k Hne. rewrite Hk by (intros j Hj; apply Hne; lia). cbn [vnodes set_vnodes].
      apply lookup_insert_ne. intros <-. apply (Hne i); [lia|done].
Qed.

(** dcache_init establishes the invariant: 256 empty queues. *)
Lemma dcache_init_spec st n : ka_room (ext st) (S n) ->
  (forall i, 0 <= i < DENTRY_HASH_SIZE -> is_Some (vnodes st !! DHead i)) ->
  dentries st = ∅ -> (forall d k, k ∈ dentry_nodes d -> vnodes st !! k = None) ->
  exists st' c, dcache_init st = Ret st' /\ dentry_cache st' = Some c /\ dcache_ok st' (fun _ => []) /\ owned st' /\
    cache_room (ext st') c n /\ inodes st' = inodes st /\
    (forall k, (forall j, k <> DHead j) -> vnodes st' !! k = vnodes st !! k).
Proof.
  intros Hroom Hheads Hd Hn. destruct (ka_cache_create_ok sizeof_dentry (ext st) n ltac:(done) Hroom) as (e & c & R & Hcc & _ & _ & Hroom').
  assert (Hcr : cache_room e c n) by (split; [by apply Hcc|done]).
  destruct (init_heads_spec (Z.to_nat DENTRY_HASH_SIZE) 0 (set_dentry_cache (Some c) (set_ext e st))) as (h & R' & Hl & Hk);
    rewrite Z2Nat.id in * by (unfold DENTRY_HASH_SIZE; lia); [exact Hheads|].
  exists (set_vnodes h (set_dentry_cache (Some c) (set_ext e st))), c. split_and!; try done.
  - unfold dcache_init. rewrite R, bind_Ret. exact R'.
  - split; [exact Hl|intros i d _ Hin; by inversion Hin|].
    intros d k Hin. cbn [vnodes dentries set_vnodes set_dentry_cache set_ext]. rewrite Hd, lookup_empty, Hk.
    + cbn [vnodes set_dentry_cache set_ext]. by rewrite (Hn d k Hin).
    + by intros j _ ->; rewrite in_dentry_nodes in Hin.
  - intros d. cbn [dentries set_vnodes set_dentry_cache set_ext]. rewrite Hd, lookup_empty. by intros [? [=]].
  - intros k Hne. apply Hk. intros j _. apply Hne.
Qed.

End boot.

(** ** Concrete instances *)

#[export] Instance bump_cache_free : KCacheFree Z := { ka_cache_free _ _ a := mret a }.
#[export] Instance bump_cache_free_spec : KCacheFreeSpec Z.
Proof. split. intros c p a n Hp Hr. by exists a. Defined.

Definition junk_dentry (_ : Z) : dentry := mk_dentry 7 7 None None (replicate 30 65) None None.
(** A kernel before dcache_init, with an inode at 64. *)
Definition vfs_boot : vfs_st Z :=
  mk_vfs ∅ {[64 := mk_inode 4 2 0 0 0 0 0 0 0 0 0 0 0 0 None None None]} ∅ ∅ ∅ ∅
    (<[IDentry 64 := mk_list_head (Some (IDentry 64)) (Some (IDentry 64))]>
       (list_to_map ((fun i => (DHead i, mk_list_head None None)) <$> seqZ 0 256)))
    None None None None None false 4096.

Lemma vfs_boot_no_nodes d k : k ∈ dentry_nodes d -> vnodes vfs_boot !! k = None.
Proof.
  intros Hk. unfold vfs_boot. cbn [vnodes]. rewrite lookup_insert_ne.
  - apply not_elem_of_list_to_map_1. rewrite <- list_fmap_compose, list_elem_of_fmap. intros (i & -> & _).
    by rewrite in_dentry_nodes in Hk.
  - intros <-. by rewrite in_dentry_nodes in Hk.
Qed.

(** A cache with a root dentry at [q] and an inode at 64. *)
Lemma dcache_with_root : exists (st : vfs_st Z) q c, dcache_ok st (fun _ => []) /\ owned st /\ dentry_cache st = Some c /\
  is_list (vnodes st) (DSubdirs q) [] /\ is_list (vnodes st) (IDentry 64) [] /\
  dentries st !! q = Some (fresh_dentry junk_dentry None q (Some [47])).
Proof.
  destruct (dcache_init_spec vfs_boot 1) as (st & c & _ & Hc & Hok & Hown & _ & _ & Hk); [done| |done|apply vfs_boot_no_nodes|].
  { intros i Hi. unfold vfs_boot. cbn [vnodes]. rewrite lookup_insert_ne by done.
    apply elem_of_dom. rewrite dom_list_to_map_L. apply elem_of_list_to_set. rewrite <- list_fmap_compose.
    apply list_elem_of_fmap. exists i. split; [done|]. by apply elem_of_seqZ. }
  destruct (d_alloc_spec junk_dentry st _ None (Some [47]) c 0 Hok Hown Hc) as (st' & q & _ & [] & _); [done|done|].
  exists st', q, c. split_and!; try done.
  - apply al_others0; [|done|done]. apply own_ring. by rewrite Hk.
  - by rewrite al_dentries0, lookup_insert_eq.
Qed.

Lemma root_name q : c_string (d_name (fresh_dentry junk_dentry None q (Some [47]))) = Ret [47].
Proof. by vm_compute. Qed.

Lemma d_lookup_correct_witness : exists (st st' : vfs_st Z) q d, d_lookup (Some q) (Some [47]) st = Ret (st', Some d).
Proof.
  destruct dcache_with_root as (st & q & c & Hok & _ & _ & _ & _ & Hx).
  destruct (hash_dentry_spec st _ q _ [47] Hok Hx (root_name q)) as (h & _ & Hok' & _).
  { intros (i & _ & Hin). by inversion Hin. }
  destruct (d_lookup_correct _ _ q [47] Hok') as [(d & x & R & _)|[_ Hno]]; [by repeat constructor|eauto|].
  exfalso. set (st' := set_dentries _ _) in *. assert (Hn : named st' q [47] q = true).
  { apply named_spec. eexists. split; [apply lookup_insert_eq|]. split; [done|]. apply (root_name q). }
  rewrite Hno in Hn; [done|]. exists (d_hash (Some q) [47]). split; [apply d_hash_range|]. unfold requeue.
  rewrite decide_True by done. left.
Defined.

Lemma d_add_lookup_delete_witness : exists (st st1 st2 : vfs_st Z) q,
  d_add (Some q) None st = Ret st1 /\ d_lookup (Some q) (Some [47]) st1 = Ret (st2, Some q).
Proof.
  destruct dcache_with_root as (st & q & c & Hok & _ & _ & _ & _ & Hx).
  destruct (d_add_lookup_delete st _ q _ q [47] Hok Hx eq_refl (root_name q)) as (st1 & st2 & _ & _ & R1 & R2 & _).
  { intros (i & _ & Hin). by inversion Hin. }
  exists st, st1, st2, q. split; assumption.
Defined.

Lemma d_alloc_dput_roundtrip_witness : exists (st st1 st2 : vfs_st Z) q d,
  d_alloc junk_dentry (Some q) (Some [97]) st = Ret (st1, Some d) /\ dput (Some d) st1 = Ret st2 /\ dentries st2 = dentries st.
Proof.
  destruct dcache_with_root as (st & q & c & Hok & Hown & Hc & Hs & _ & _).
  destruct (d_alloc_dput_roundtrip junk_dentry st _ q [] (Some [97]) c 0 Hok Hown Hc (conj I I) Hs) as (st1 & st2 & d & R1 & _ & R2 & R3 & _);
    [constructor|]. exists st, st1, st2, q, d. split; [assumption|]. split; assumption.
Defined.

Lemma dget_dput_roundtrip_witness : exists (st st1 : vfs_st Z) q, dget (Some q) st = Ret (st1, Some q) /\ dput (Some q) st1 = Ret st.
Proof.
  destruct dcache_with_root as (st & q & c & _ & _ & _ & _ & _ & Hx).
  destruct (dget_dput_roundtrip st q _ Hx) as (st1 & R1 & R2); [done|]. exists st, st1, q. split; assumption.
Defined.

Lemma d_instantiate_dangles_witness : exists (st st1 st2 st3 : vfs_st Z) q d,
  d_alloc junk_dentry (Some q) (Some [97]) st = Ret (st1, Some d) /\ d_instantiate (Some d) (Some 64) st1 = Ret st2 /\
  dput (Some d) st2 = Ret st3.
Proof.
  destruct dcache_with_root as (st & q & c & Hok & Hown & Hc & Hs & Hi & Hx).
  destruct (d_instantiate_dangles junk_dentry st _ q [] 64 [] (Some [97]) (Some [98]) c 0 Hok Hown Hc (conj I I) Hs)
    as (st1 & st2 & st3 & d & R1 & R2 & _ & R3 & _); [constructor|eauto|exact Hi|constructor| |].
  { intros k Hk. apply list_elem_of_singleton in Hk as ->. by rewrite list_elem_of_singleton. }
  exists st, st1, st2, st3, q, d. split; [assumption|]. split; assumption.
Defined.

Lemma d_alloc_add_lookup_witness : exists (st st1 st2 st3 : vfs_st Z) q d,
  d_alloc junk_dentry (Some q) (Some [97]) st = Ret (st1, Some d) /\ d_add (Some d) None st1 = Ret st2 /\
  d_lookup (Some q) (Some [97]) st2 = Ret (st3, Some d).
Proof.
  destruct dcache_with_root as (st & q & c & Hok & Hown & Hc & Hs & _ & _).
  destruct (d_alloc_add_lookup junk_dentry st _ q [] [97] c 0 Hok Hown Hc (conj I I) Hs) as (st1 & st2 & d & R1 & R2 & st3 & R3).
  { constructor. }
  { by repeat constructor. }
  { intros d (i & _ & Hin). by inversion Hin. }
  exists st, st1, st2, st3, q, d. split; [assumption|]. split; assumption.
Defined.
