(* ===== verification/FileTable.v ===== *)
(** * Open files and descriptor tables (fs/ext2/file.c, include/file.h)

    A descriptor table has [MAX_FILES] slots, each NULL or the address of an
    open file; a file is shared by reference counting.  fput calls the release
    operation of the file through [FileOps] and gives up the dentry.  Nothing in
    the kernel stores a dentry in a file: [f_dentry] stays NULL.

    The theorems: the descriptor handed out is the lowest free one, an
    installed file is found and counted, and destroying a table gives up exactly
    one reference per descriptor. *)

From S2P Require Import Prelude ListHead.
From S2P Require Import BufferCache BufferProofs Vfs Dcache DcacheProofs.

Definition MAX_FILES : Z := 256.
Definition sizeof_files_struct : Z := 4 * MAX_FILES + 4 + 4.

(** The first NULL slot from [fd] on; -1 when there is none. *)
Fixpoint find_fd (slots : list (option Z)) (fd : Z) : Z :=
  match slots with
  | [] => -1
  | None :: _ => fd
  | Some _ :: slots => find_fd slots (fd + 1)
  end.

Section files.
Context {E : Type} `{KAlloc E} `{KFree E} `{KCacheFree E} `{FileOps (vfs_st E)}.
Implicit Types st : vfs_st E.

Definition file_cache_init st : outcome (vfs_st E) :=
  '(e, c) ← ka_cache_create sizeof_file (ext st); mret (set_file_cache c (set_ext e st)).
Definition ensure_file_cache st : outcome (vfs_st E) :=
  match file_cache st with None => file_cache_init st | Some _ => mret st end.

Definition init_files st : outcome (vfs_st E * option Z) :=
  st ← ensure_file_cache st;
  '(e, p) ← ka_kmalloc sizeof_files_struct (ext st);
  let st := set_ext e st in
  match p with
  | None => mret (st, None)
  | Some t =>
      let files := mk_files (replicate (Z.to_nat MAX_FILES) None) 0 1 in
      mret (set_fdtables (<[t := files]> (fdtables st)) st, Some t)
  end.

(** kmem_cache_free: the file and its list node are gone. *)
Definition free_file (f : Z) st : outcome (vfs_st E) :=
  c ← deref (file_cache st);
  e ← ka_cache_free c f (ext st);
  mret (set_ext e (drop_nodes [FList f] (set_files (delete f (files st)) st))).

(** The call of release: its result is ignored. *)
Definition call_release (f : Z) (x : file) st : outcome (vfs_st E) :=
  match f_op x with
  | None => mret st
  | Some ops =>
      match fop_release ops, f_dentry x with
      | Some release, Some d =>
          y ← deref (dentries st !! d);
          '(st, _) ← release (d_inode y) f st;
          mret st
      | _, _ => mret st
      end
  end.

Definition fput (file : option Z) st : outcome (vfs_st E) :=
  match file with
  | None => mret st
  | Some f =>
      st ← upd_file f (fun x => set_f_count (u32 (f_count x - 1)) x) st;
      x ← deref (files st !! f);
      if f_count x =? 0 then
        st ← call_release f x st;
        x ← deref (files st !! f);
        st ← (match f_dentry x with Some d => dput (Some d) st | None => mret st end);
        free_file f st
      else mret st
  end.

(** The loop of destroy_files; the slots are read as it goes. *)
Fixpoint fput_all (n : nat) (i : Z) (t : Z) st : outcome (vfs_st E) :=
  match n with
  | O => mret st
  | Datatypes.S n =>
      tab ← deref (fdtables st !! t);
      slot ← deref (fd_array tab !! Z.to_nat i);
      st ← (match slot with Some f => fput (Some f) st | None => mret st end);
      fput_all n (i + 1) t st
  end.
Definition destroy_files (files : option Z) st : outcome (vfs_st E) :=
  match files with
  | None => mret st
  | Some t =>
      tab ← deref (fdtables st !! t);
      let tab := mk_files (fd_array tab) (next_fd tab) (u32 (fcount tab - 1)) in
      let st := set_fdtables (<[t := tab]> (fdtables st)) st in
      if fcount tab =? 0 then
        st ← fput_all (Z.to_nat MAX_FILES) 0 t st;
        e ← ka_kfree (Some t) (ext st);
        mret (set_ext e (set_fdtables (delete t (fdtables st)) st))
      else mret st
  end.

Definition get_unused_fd (files : option Z) st : outcome Z :=
  match files with
  | None => mret (-1)
  | Some t => tab ← deref (fdtables st !! t); mret (find_fd (fd_array tab) 0)
  end.

Definition fd_install (files : option Z) (fd : Z) (file : option Z) st : outcome (vfs_st E) :=
  match files, file with
  | Some t, Some f =>
      if (fd <? 0) || (MAX_FILES <=? fd) then mret st
      else
        tab ← deref (fdtables st !! t);
        mret (set_fdtables (<[t := mk_files (<[Z.to_nat fd := Some f]> (fd_array tab)) (next_fd tab) (fcount tab)]>
                             (fdtables st)) st)
  | _, _ => mret st
  end.

Definition fget (files : option Z) (fd : Z) st : outcome (vfs_st E * option Z) :=
  match files with
  | None => mret (st, None)
  | Some t =>
      if (fd <? 0) || (MAX_FILES <=? fd) then mret (st, None)
      else
        tab ← deref (fdtables st !! t);
        file ← deref (fd_array tab !! Z.to_nat fd);
        match file with
        | None => mret (st, None)
        | Some f => st ← upd_file f (fun x => set_f_count (u32 (f_count x + 1)) x) st; mret (st, Some f)
        end
  end.

Definition empty_file : file := mk_file None None 1 0 0 0 0 0.
Definition get_empty_filp st : outcome (vfs_st E * option Z) :=
  st ← ensure_file_cache st;
  c ← deref (file_cache st);
  '(e, p) ← ka_cache_alloc c (ext st);
  let st := set_ext e st in
  match p with
  | None => mret (st, None)
  | Some f =>
      st ← on_vnodes (INIT_LIST_HEAD (Some (FList f)))
             (new_nodes [FList f] (set_files (<[f := empty_file]> (files st)) st));
      mret (st, Some f)
  end.

Definition generic_file_open (inode filp : option Z) st : outcome (vfs_st E * Z) :=
  match inode, filp with
  | Some i, Some f =>
      x ← deref (inodes st !! i);
      st ← upd_file f (set_f_op (i_fop x)) st;
      mret (st, 0)
  | _, _ => mret (st, -1)
  end.
Definition generic_file_release (inode filp : option Z) st : outcome (vfs_st E * Z) := mret (st, 0).

End files.

(** ** The lowest free descriptor *)

Lemma find_fd_spec slots : forall i, 0 <= i ->
  (find_fd slots i = -1 /\ forall k, (k < length slots)%nat -> exists f, slots !! k = Some (Some f)) \/
  exists k, find_fd slots i = i + Z.of_nat k /\ slots !! k = Some None /\ forall j, (j < k)%nat -> exists f, slots !! j = Some (Some f).
Proof.
  induction slots as [|[f|] slots IH]; intros i Hi; cbn [find_fd].
  - left. split; [done|]. intros k Hk. simpl in Hk. lia.
  - destruct (IH (i + 1)) as [[E Hall]|(k & E & Hk & Hlow)]; [lia| |].
    + left. split; [done|]. intros [|k] Hk; simpl in *; [eauto|]. apply Hall. lia.
    + right. exists (S k). split_and!; [lia|done|]. intros [|j] Hj; [by exists f|]. apply Hlow. lia.
  - right. exists 0%nat. split_and!; [lia|done|lia].
Qed.

Lemma find_fd_lowest slots k : slots !! k = Some None -> (forall j, (j < k)%nat -> exists f, slots !! j = Some (Some f)) ->
  find_fd slots 0 = Z.of_nat k.
Proof.
  intros Hk Hlow. destruct (find_fd_spec slots 0) as [[_ Hall]|(k' & -> & Hk' & Hlow')]; [lia| |].
  - apply lookup_lt_Some in Hk as Hlt. destruct (Hall k Hlt) as [f Hf]. congruence.
  - destruct (decide (k' = k)) as [->|Hne]; [lia|]. destruct (decide (k' < k)%nat) as [Hlt|Hge].
    + destruct (Hlow k' Hlt) as [f Hf]. congruence.
    + destruct (Hlow' k ltac:(lia)) as [f Hf]. congruence.
Qed.

Section proofs.
Context {E : Type} `{KAl : KAlloc E} `{KFr : KFree E} `{KCF : KCacheFree E} `{FO : FileOps (vfs_st E)}.
Implicit Types st : vfs_st E.

(** The descriptor get_unused_fd hands out is the lowest free one, and -1 is
    returned exactly when all are taken. *)
Theorem get_unused_fd_correct st t tab : fdtables st !! t = Some tab ->
  exists fd, get_unused_fd (Some t) st = Ret fd /\
    if decide (Forall is_Some (fd_array tab)) then fd = -1
    else exists k, fd = Z.of_nat k /\ fd_array tab !! k = Some None /\
           forall j, (j < k)%nat -> exists f, fd_array tab !! j = Some (Some f).
Proof.
  intros Ht. exists (find_fd (fd_array tab) 0). split; [unfold get_unused_fd; rewrite Ht; done|].
  destruct (find_fd_spec (fd_array tab) 0) as [[Efd Hall]|(k & Efd & Hk & Hlow)]; [lia| |].
  - rewrite decide_True; [done|]. apply Forall_lookup. intros k [f|] Hk; [done|].
    apply lookup_lt_Some in Hk as Hlt. destruct (Hall k Hlt) as [f Hf]. congruence.
  - rewrite decide_False; [exists k; split_and!; [lia|done|done]|]. intros Hall.
    rewrite Forall_lookup in Hall. by destruct (Hall k None Hk).
Qed.

Lemma fget_spec st t tab f x k : fdtables st !! t = Some tab -> (k < Z.to_nat MAX_FILES)%nat ->
  fd_array tab !! k = Some (Some f) -> files st !! f = Some x ->
  fget (Some t) (Z.of_nat k) st = Ret (set_files (<[f := set_f_count (u32 (f_count x + 1)) x]> (files st)) st, Some f).
Proof.
  intros Ht Hk Hs Hx. unfold fget. unfold MAX_FILES in *.
  replace (Z.of_nat k <? 0) with false by lia. replace (256 <=? Z.of_nat k) with false by lia. cbn [orb].
  rewrite Ht. cbn [deref]. rewrite bind_Ret, Nat2Z.id, Hs. cbn [deref]. rewrite bind_Ret. unfold upd_file.
  rewrite Hx. cbn [deref]. by bind_rets.
Qed.

Lemma fput_shared st f x : files st !! f = Some x -> u32 (f_count x - 1) <> 0 ->
  fput (Some f) st = Ret (set_files (<[f := set_f_count (u32 (f_count x - 1)) x]> (files st)) st).
Proof.
  intros Hx Hc. unfold fput, upd_file. rewrite Hx. cbn [deref]. bind_rets. cbn [files set_files].
  rewrite lookup_insert_eq. cbn [deref]. rewrite bind_Ret. cbn [f_count set_f_count]. apply Z.eqb_neq in Hc. by rewrite Hc.
Qed.

(** C33. A descriptor from allocation to use: the file installed at the unused
    descriptor is what fget returns, with one more reference; fput gives that
    reference up and restores the state; and the descriptor is not handed out
    again while the file is installed. *)
Theorem fd_install_fget_roundtrip st t tab f x fd :
  fdtables st !! t = Some tab -> length (fd_array tab) = Z.to_nat MAX_FILES -> files st !! f = Some x ->
  0 < f_count x < 2 ^ 32 - 1 -> get_unused_fd (Some t) st = Ret fd -> fd <> -1 ->
  exists st1 st2 fd', fd_install (Some t) fd (Some f) st = Ret st1 /\ fget (Some t) fd st1 = Ret (st2, Some f) /\
    files st2 !! f = Some (set_f_count (f_count x + 1) x) /\ fput (Some f) st2 = Ret st1 /\
    get_unused_fd (Some t) st1 = Ret fd' /\ fd' <> fd.
Proof.
  intros Ht Hlen Hx Hc Hfd Hne. unfold get_unused_fd in Hfd. rewrite Ht in Hfd. injection Hfd as <-.
  destruct (find_fd_spec (fd_array tab) 0) as [[Efd _]|(k & Efd & Hk & Hlow)]; [lia|congruence|].
  rewrite Efd in *. rewrite Z.add_0_l in *. apply lookup_lt_Some in Hk as Hlt. rewrite Hlen in Hlt.
  set (tab' := mk_files (<[k := Some f]> (fd_array tab)) (next_fd tab) (fcount tab)).
  set (st1 := set_fdtables (<[t := tab']> (fdtables st)) st).
  assert (Hinst : fd_install (Some t) (Z.of_nat k) (Some f) st = Ret st1).
  { unfold fd_install, MAX_FILES in *. replace (Z.of_nat k <? 0) with false by lia.
    replace (256 <=? Z.of_nat k) with false by lia. cbn [orb]. rewrite Ht. cbn [deref]. by rewrite bind_Ret, Nat2Z.id. }
  assert (Ht1 : fdtables st1 !! t = Some tab') by apply lookup_insert_eq.
  exists st1. eexists. exists (find_fd (fd_array tab') 0). split; [done|].
  split; [apply (fget_spec st1 t tab' f x); [done|done|by apply list_lookup_insert_eq; lia|done]|].
  split; [cbn [files set_files]; by rewrite lookup_insert_eq, u32_small by lia|]. split; [|split].
  - erewrite fput_shared; [|apply lookup_insert_eq|]; cbn [f_count set_f_count]; rewrite (u32_small (f_count x + 1)) by lia.
    + f_equal. cbn [files set_files set_f_count f_dentry f_op f_flags f_mode f_pos f_uid f_gid]. rewrite insert_insert_eq.
      rewrite u32_small by lia. replace (set_f_count _ _) with x by (destruct x; unfold set_f_count; cbn; f_equal; lia).
      rewrite insert_id by done. done.
    + rewrite u32_small by lia. lia.
  - unfold get_unused_fd. rewrite Ht1. done.
  - destruct (find_fd_spec (fd_array tab') 0) as [[-> _]|(k' & -> & Hk' & _)]; [lia|lia|].
    intros Ek. assert (k' = k) as -> by lia. cbn [tab' fd_array] in Hk'. rewrite list_lookup_insert_eq in Hk' by lia. done.
Qed.

End proofs.

(** ** Giving up a table *)

(** What kfree promises besides the laws of [KAllocSpec]. *)
Class KFreeSpec (A : Type) `{KAllocSpec A} `{!KFree A} := {
  ka_kfree_ok : forall p a n, ka_live a p -> ka_room a n -> exists a', ka_kfree (Some p) a = Ret a' /\
    (forall q, q <> p -> ka_live a q -> ka_live a' q) /\ (forall d, ka_cache a d -> ka_cache a' d) /\ ka_room a' n }.

(** Giving up one reference, on the store of open files. *)
Definition drop_ref (m : gmap Z file) (f : Z) : gmap Z file :=
  match m !! f with
  | Some x => if f_count x =? 1 then delete f m else <[f := set_f_count (f_count x - 1) x]> m
  | None => m
  end.
Definition refs (slots : list (option Z)) (f : Z) : Z := Z.of_nat (length (filter (fun s => s = Some f) slots)).

Lemma refs_cons s slots f : refs (s :: slots) f = (if decide (s = Some f) then 1 else 0) + refs slots f.
Proof. unfold refs. rewrite filter_cons. case_decide; simpl; lia. Qed.
Lemma refs_none n f : refs (replicate n None) f = 0.
Proof. induction n as [|n IH]; [done|]. cbn [replicate]. by rewrite refs_cons, IH. Qed.
Lemma refs_nonneg slots f : 0 <= refs slots f.
Proof. unfold refs. lia. Qed.

(** The files after every descriptor in [slots] has given up its reference. *)
Definition left_after (slots : list (option Z)) (m : gmap Z file) (f : Z) : option file :=
  x ← m !! f;
  if decide (refs slots f = 0) then Some x
  else if decide (f_count x = refs slots f) then None else Some (set_f_count (f_count x - refs slots f) x).

Section destroy.
Context {E : Type} `{KFSpec : KFreeSpec E} `{!KCacheFree E} `{KCFSpec : !KCacheFreeSpec E} `{FO : FileOps (vfs_st E)}.
Implicit Types st : vfs_st E.

(** Every reference of [slots] is to a plain open file and counted in it. *)
Definition counted (slots : list (option Z)) st : Prop :=
  forall f, 0 < refs slots f -> exists x, files st !! f = Some x /\ f_dentry x = None /\
    refs slots f <= f_count x < 2 ^ 32 /\ ka_live (ext st) f.

Lemma fput_plain st f x c n :
  files st !! f = Some x -> f_dentry x = None -> 1 <= f_count x < 2 ^ 32 -> file_cache st = Some c ->
  ka_live (ext st) f -> ka_room (ext st) n ->
  exists st', fput (Some f) st = Ret st' /\ files st' = drop_ref (files st) f /\ fdtables st' = fdtables st /\
    file_cache st' = Some c /\ ka_room (ext st') n /\ dentries st' = dentries st /\
    forall g, (is_Some (files st' !! g) \/ g <> f) -> ka_live (ext st) g -> ka_live (ext st') g.
Proof.
  intros Hx Hd Hc Hcache Hlive Hroom. unfold drop_ref. rewrite Hx. destruct (Z.eqb_spec (f_count x) 1) as [E1|E1].
  - destruct (ka_cache_free_ok c f (ext st) n Hlive Hroom) as (e & Hfree & Hl & _ & Hr).
    set (x0 := set_f_count 0 x). set (st0 := set_files (<[f := x0]> (files st)) st).
    assert (Hx0 : files st0 !! f = Some x0) by apply lookup_insert_eq.
    eexists. split.
    { unfold fput, upd_file. rewrite Hx. cbn [deref]. bind_rets. rewrite E1. change (u32 (1 - 1)) with 0. fold x0 st0.
      rewrite Hx0. cbn [deref]. rewrite bind_Ret. change (f_count x0 =? 0) with true. cbn iota.
      unfold call_release. change (f_dentry x0) with (f_dentry x). rewrite Hd.
      assert (Hrel : match f_op x0 with
        | Some ops => match fop_release ops with Some _ | _ => mret st0 end | None => mret st0 end = Ret st0).
      { destruct (f_op x0) as [ops|]; [|done]. by destruct (fop_release ops). }
      rewrite Hrel, bind_Ret, Hx0. cbn [deref]. rewrite bind_Ret. change (f_dentry x0) with (f_dentry x). rewrite Hd, bind_mret.
      unfold free_file. change (file_cache st0) with (file_cache st). rewrite Hcache. cbn [deref]. rewrite bind_Ret.
      change (ext st0) with (ext st). rewrite Hfree. bind_rets. reflexivity. }
    cbn. split_and!; try done; [by rewrite delete_insert_eq|].
    intros g [Hg|Hg] Hlg; apply Hl; try done. intros ->. rewrite delete_insert_eq, lookup_delete_eq in Hg. by destruct Hg.
  - erewrite fput_shared; [|done|rewrite u32_small by lia; lia]. rewrite u32_small by lia.
    eexists. split; [done|]. split_and!; try done.
Qed.

Lemma drop_ref_ne m f g : g <> f -> drop_ref m f !! g = m !! g.
Proof.
  intros Hne. unfold drop_ref. destruct (m !! f) as [x|]; [|done]. destruct (_ =? _); [by rewrite lookup_delete_ne|by rewrite lookup_insert_ne].
Qed.

Lemma left_after_drop slots f m g x : m !! f = Some x -> refs (Some f :: slots) f <= f_count x ->
  left_after slots (drop_ref m f) g = left_after (Some f :: slots) m g.
Proof.
  intros Hx Hle. unfold left_after. rewrite refs_cons in *. rewrite decide_True in Hle by done.
  pose proof (refs_nonneg slots f) as Hnn. destruct (decide (g = f)) as [->|Hne].
  - rewrite decide_True by done. rewrite Hx. unfold drop_ref. rewrite Hx. cbn [mbind option_bind].
    rewrite (decide_False (P := 1 + refs slots f = 0)) by lia. destruct (Z.eqb_spec (f_count x) 1).
    + rewrite lookup_delete_eq. cbn. by rewrite decide_True by lia.
    + rewrite lookup_insert_eq. cbn [mbind option_bind f_count set_f_count]. destruct (decide (refs slots f = 0)) as [E0|E0].
      * rewrite decide_False by lia. repeat f_equal. lia.
      * destruct (decide (f_count x = 1 + refs slots f)); [by rewrite decide_True by lia|].
        rewrite decide_False by lia. unfold set_f_count. cbn. f_equal. f_equal. lia.
  - rewrite drop_ref_ne by done. rewrite (decide_False (P := Some f = Some g)) by congruence. by rewrite Z.add_0_l.
Qed.

Lemma fput_all_spec t tab c n : forall k i st, fdtables st !! t = Some tab -> file_cache st = Some c ->
  ka_room (ext st) n -> ka_live (ext st) t -> ~ is_Some (files st !! t) -> length (fd_array tab) = (i + k)%nat ->
  counted (drop i (fd_array tab)) st ->
  exists st', fput_all k (Z.of_nat i) t st = Ret st' /\ fdtables st' = fdtables st /\
    (forall f, files st' !! f = left_after (drop i (fd_array tab)) (files st) f) /\
    ka_room (ext st') n /\ ka_live (ext st') t /\ dentries st' = dentries st.
Proof.
  induction k as [|k IH]; intros i st Ht Hc Hroom Hlt Hnt Hlen Hcnt; cbn [fput_all].
  - exists st. split_and!; try done. intros f. rewrite drop_ge by lia. unfold left_after. by destruct (files st !! f).
  - destruct (lookup_lt_is_Some_2 (fd_array tab) i) as [slot Hslot]; [lia|].
    rewrite (drop_S _ _ _ Hslot) in Hcnt |- *. rewrite Ht. cbn [deref]. rewrite bind_Ret, Nat2Z.id, Hslot. cbn [deref].
    rewrite bind_Ret. replace (Z.of_nat i + 1) with (Z.of_nat (S i)) by lia. destruct slot as [f|].
    + destruct (Hcnt f) as (x & Hx & Hd & Hb & Hl).
      { rewrite refs_cons, decide_True by done. pose proof (refs_nonneg (drop (S i) (fd_array tab)) f). lia. }
      pose proof (refs_nonneg (drop (S i) (fd_array tab)) f) as Hnn.
      assert (Hb' := Hb). rewrite refs_cons, decide_True in Hb' by done.
      destruct (fput_plain st f x c n Hx Hd ltac:(lia) Hc Hl Hroom) as (st1 & R & Hf1 & Ht1 & Hc1 & Hr1 & Hd1 & Hl1).
      rewrite R, bind_Ret. assert (t <> f) as Hne by (intros ->; apply Hnt; by rewrite Hx).
      destruct (IH (S i) st1) as (st' & R' & Ht' & Hf' & Hr' & Hlt' & Hd'); [congruence|done|done|apply Hl1; [by right|done]| |lia| |].
      { rewrite Hf1, drop_ref_ne by done. done. }
      { intros g Hg. destruct (Hcnt g) as (y & Hy & Hyd & Hyb & Hyl).
        { rewrite refs_cons. pose proof (refs_nonneg (drop (S i) (fd_array tab)) g). case_decide; lia. }
        rewrite refs_cons in Hyb. destruct (decide (g = f)) as [->|Hgf].
        - rewrite decide_True in Hyb by done. exists (set_f_count (f_count x - 1) x). rewrite Hx in Hy. injection Hy as <-.
          assert (Hg1 : files st1 !! f = Some (set_f_count (f_count x - 1) x)).
          { rewrite Hf1. unfold drop_ref. rewrite Hx. destruct (Z.eqb_spec (f_count x) 1); [lia|apply lookup_insert_eq]. }
          split_and!; [done|done|cbn; lia|cbn; lia|]. apply Hl1; [left; eauto|done].
        - rewrite decide_False in Hyb by congruence. exists y.
          split_and!; [by rewrite Hf1, drop_ref_ne|done|lia|lia|]. apply Hl1; [by right|done]. }
      exists st'. split_and!; [done|congruence| |done|done|congruence].
      intros g. rewrite Hf', Hf1. eapply left_after_drop; [done|]. apply Hb.
    + rewrite bind_mret. destruct (IH (S i) st) as (st' & R' & Ht' & Hf' & Hr' & Hlt' & Hd'); [done|done|done|done|done|lia| |].
      { intros g Hg. specialize (Hcnt g). rewrite refs_cons, decide_False, Z.add_0_l in Hcnt by done. by apply Hcnt. }
      by exists st'.
Qed.

(** Destroying the last reference to a descriptor table returns, frees the
    table and takes one reference from an open file for each descriptor it is
    installed at: a file whose references all come from the table is freed,
    any other stays with the rest of its references. *)
Theorem destroy_files_correct st t tab c n :
  fdtables st !! t = Some tab -> length (fd_array tab) = Z.to_nat MAX_FILES -> fcount tab = 1 ->
  file_cache st = Some c -> ka_room (ext st) n -> ka_live (ext st) t -> ~ is_Some (files st !! t) ->
  counted (fd_array tab) st ->
  exists st', destroy_files (Some t) st = Ret st' /\ fdtables st' = delete t (fdtables st) /\ dentries st' = dentries st /\
    forall f, files st' !! f = left_after (fd_array tab) (files st) f.
Proof.
  intros Ht Hlen Hcnt1 Hc Hroom Hlt Hnt Hcnt. set (tab0 := mk_files (fd_array tab) (next_fd tab) 0).
  set (st0 := set_fdtables (<[t := tab0]> (fdtables st)) st).
  destruct (fput_all_spec t tab0 c n (Z.to_nat MAX_FILES) 0 st0) as (st1 & R & Ht1 & Hf1 & Hr1 & Hl1 & Hd1); try done.
  { apply lookup_insert_eq. }
  destruct (ka_kfree_ok t (ext st1) n Hl1 Hr1) as (e & Hfree & _).
  eexists. split; [|split; [|split]].
  - unfold destroy_files. rewrite Ht. cbn [deref]. rewrite bind_Ret, Hcnt1. change (u32 (1 - 1)) with 0. fold tab0 st0.
    change (fcount tab0 =? 0) with true. cbn iota. change 0 with (Z.of_nat 0). rewrite R, bind_Ret, Hfree. bind_rets. done.
  - cbn. rewrite Ht1. cbn. by rewrite delete_insert_eq.
  - done.
  - exact Hf1.
Qed.

End destroy.

(** ** Concrete instances *)

#[export] Instance bump_free_spec : KFreeSpec Z.
Proof. split. intros p a n Hp Hr. by exists a. Defined.
#[export] Instance no_file_ops : FileOps (vfs_st Z) :=
  { fop_read _ := None; fop_write _ := None; fop_release _ := None }.

(** A process with the file 300 at descriptors 0 and 2 and in one more place,
    and the file 400 at descriptor 1; the table is at 200. *)
Definition some_slots : list (option Z) := [Some 300; Some 400; Some 300] ++ replicate 253 None.
Definition vfs_files : vfs_st Z :=
  mk_vfs ∅ ∅ {[300 := set_f_count 3 empty_file; 400 := empty_file]} ∅ ∅ {[200 := mk_files some_slots 0 1]} ∅
    None (Some 100) None None None false 4096.

Lemma get_unused_fd_correct_witness : get_unused_fd (Some 200) vfs_files = Ret 3.
Proof.
  destruct (get_unused_fd_correct vfs_files 200 (mk_files some_slots 0 1) eq_refl) as (fd & R & Hfd).
  rewrite decide_False in Hfd.
  - destruct Hfd as (k & -> & Hk & Hlow). destruct k as [|[|[|[|k]]]]; try discriminate Hk; [exact R|].
    by destruct (Hlow 3%nat) as [f Hf]; [lia|].
  - intros Hall. rewrite Forall_lookup in Hall. by destruct (Hall 3%nat None eq_refl).
Defined.

Lemma fd_install_fget_roundtrip_witness : exists st1 st2,
  fd_install (Some 200) 3 (Some 400) vfs_files = Ret st1 /\ fget (Some 200) 3 st1 = Ret (st2, Some 400) /\ fput (Some 400) st2 = Ret st1.
Proof.
  destruct (fd_install_fget_roundtrip vfs_files 200 (mk_files some_slots 0 1) 400 empty_file 3)
    as (st1 & st2 & _ & R1 & R2 & _ & R3 & _); [done|done|done|done|done|done|].
  exists st1, st2. split; [exact R1|]. split; [exact R2|exact R3].
Defined.

Lemma destroy_files_correct_witness : exists st', destroy_files (Some 200) vfs_files = Ret st' /\
  files st' !! 300 = Some empty_file /\ files st' !! 400 = None.
Proof.
  destruct (destroy_files_correct vfs_files 200 (mk_files some_slots 0 1) 100 0) as (st' & R & _ & _ & Hf);
    [done|done|done|done|done|done|by intros [? ?]| |].
  - intros f Hf. destruct (decide (f = 300)) as [->|H3]; [by exists (set_f_count 3 empty_file)|].
    destruct (decide (f = 400)) as [->|H4]; [by exists empty_file|]. exfalso. revert Hf.
    unfold some_slots. cbn [app fd_array]. rewrite !refs_cons, !decide_False by congruence.
    replace (refs _ f) with 0; [lia|]. symmetry. apply refs_none.
  - exists st'. split; [exact R|]. rewrite !Hf. by vm_compute.
Defined.
