(* ===== verification/Super.v ===== *)
(** * File system types and superblocks (fs/ext2/super.c)

    The registry is a list of [struct file_system_type] objects in static
    memory, linked through [fs_list]; a superblock is a slab object with a
    reference count.  [reg_ok st l]: the registry holds the types [l], each with
    a name, no name twice.  The theorems give registration, lookup and removal
    on that list, and the life of a superblock. *)

From S2P Require Import Prelude ListHead.
From S2P Require Import BufferCache BufferProofs Vfs Dcache DcacheProofs FileTable.

Section super.
Context {E : Type} `{KAlloc E} `{KFree E} `{KCacheFree E}.
Implicit Types st : vfs_st E.

Definition init_fs_registry st : outcome (vfs_st E) :=
  if fs_list_initialized st then mret st
  else
    st ← on_vnodes (INIT_LIST_HEAD (Some FileSystems)) st;
    '(e, c) ← ka_cache_create sizeof_super_block (ext st);
    mret (set_super_cache c true (set_ext e st)).

(** The walk over the registry for a type called [name]. *)
Fixpoint find_type (n : nat) (tmp : option vnode) (name : list Z) st : outcome (option Z) :=
  if bool_decide (tmp = Some FileSystems) then mret None
  else match n with
       | O => Spin
       | Datatypes.S n =>
           k ← deref tmp;
           t ← fslist_entry k;
           x ← deref (fstypes st !! t);
           nm ← deref (fs_name x);
           if bool_decide (nm = name) then mret (Some t)
           else nx ← get_next tmp (vnodes st); find_type n nx name st
       end.
Definition search_types (name : list Z) st : outcome (option Z) :=
  tmp ← get_next (Some FileSystems) (vnodes st); find_type (size (vnodes st)) tmp name st.

Definition register_filesystem (fs : option Z) st : outcome (vfs_st E * Z) :=
  match fs with
  | None => mret (st, -1)
  | Some t =>
      x ← deref (fstypes st !! t);
      match fs_name x with
      | None => mret (st, -1)
      | Some name =>
          st ← init_fs_registry st;
          r ← search_types name st;
          match r with
          | Some _ => mret (st, -1)
          | None =>
              st ← on_vnodes (INIT_LIST_HEAD (Some (FsSupers t))) st;
              st ← on_vnodes (list_add (Some FileSystems) (Some (FsList t))) st;
              mret (st, 0)
          end
      end
  end.

Definition unregister_filesystem (fs : option Z) st : outcome (vfs_st E * Z) :=
  match fs with
  | None => mret (st, -1)
  | Some t => st ← on_vnodes (list_del (Some (FsList t))) st; mret (st, 0)
  end.

Definition get_fs_type (name : option (list Z)) st : outcome (vfs_st E * option Z) :=
  match name with
  | None => mret (st, None)
  | Some nm => st ← init_fs_registry st; r ← search_types nm st; mret (st, r)
  end.

Definition new_super : super_block := mk_super_block 0 0 0 None 0 0 None 1 None.
Definition alloc_super st : outcome (vfs_st E * option Z) :=
  st ← (match super_cache st with None => init_fs_registry st | Some _ => mret st end);
  c ← deref (super_cache st);
  '(e, p) ← ka_cache_alloc c (ext st);
  let st := set_ext e st in
  match p with
  | None => mret (st, None)
  | Some s =>
      let st := new_nodes (super_nodes s) (set_supers (<[s := new_super]> (supers st)) st) in
      st ← on_vnodes (INIT_LIST_HEAD (Some (SList s))) st;
      st ← on_vnodes (INIT_LIST_HEAD (Some (SInodes s))) st;
      st ← on_vnodes (INIT_LIST_HEAD (Some (SDirty s))) st;
      st ← on_vnodes (INIT_LIST_HEAD (Some (SFiles s))) st;
      mret (st, Some s)
  end.

Definition destroy_super (sb : option Z) st : outcome (vfs_st E) :=
  match sb with
  | None => mret st
  | Some s =>
      st ← upd_super s (fun x => set_s_count (u32 (s_count x - 1)) x) st;
      x ← deref (supers st !! s);
      if s_count x =? 0 then
        e ← (match s_fs_info x with Some i => ka_kfree (Some i) (ext st) | None => mret (ext st) end);
        let st := set_ext e st in
        c ← deref (super_cache st);
        e ← ka_cache_free c s (ext st);
        mret (set_ext e (drop_nodes (super_nodes s) (set_supers (delete s (supers st)) st)))
      else mret st
  end.

Definition get_super (dev : Z) st : outcome (option Z) := mret None.

(** ** The registry *)

Definition type_name st (t : Z) : option (list Z) := fstypes st !! t ≫= fs_name.

Record reg_ok st (l : list Z) : Prop := {
  rg_init : fs_list_initialized st = true;
  rg_ring : is_list (vnodes st) FileSystems (FsList <$> l);
  rg_name t : t ∈ l -> is_Some (type_name st t);
  rg_uniq t u : t ∈ l -> u ∈ l -> type_name st t = type_name st u -> t = u;
}.

Definition called st (name : list Z) (t : Z) : bool := bool_decide (type_name st t = Some name).

Lemma find_type_spec st name l : forall n,
  path (vnodes st) ((FsList <$> l) ++ [FileSystems]) -> (forall t, t ∈ l -> is_Some (type_name st t)) -> (length l <= n)%nat ->
  find_type n (Some (default FileSystems (head (FsList <$> l)))) name st = Ret (List.find (called st name) l).
Proof.
  induction l as [|t l IH]; intros n Hp Hin Hn.
  - by destruct n; cbn [find_type]; rewrite bool_decide_eq_true_2.
  - destruct n as [|n]; [simpl in *; lia|]. cbn [find_type fmap list_fmap head default from_option id].
    rewrite bool_decide_eq_false_2 by done. cbn [deref]. rewrite bind_Ret. cbn [fslist_entry]. rewrite bind_mret.
    destruct (Hin t) as [nm Hnm]; [left|]. cbn [List.find]. unfold called at 1. rewrite Hnm.
    unfold type_name in Hnm. destruct (fstypes st !! t) as [x|]; [|done]. cbn [mbind option_bind] in Hnm.
    cbn [deref]. rewrite bind_Ret, Hnm. cbn [deref]. rewrite bind_Ret.
    assert (Hrest : hnext (vnodes st) (FsList t) = Some (default FileSystems (head (FsList <$> l))) /\
      path (vnodes st) ((FsList <$> l) ++ [FileSystems])) by (destruct l; simpl in *; naive_solver).
    destruct Hrest as [Hnx Hp']. rewrite (bool_decide_ext (Some nm = Some name) (nm = name)) by naive_solver.
    case_bool_decide; [done|]. rewrite (get_next_hnext _ _ _ Hnx), bind_Ret.
    apply IH; [done|intros u Hu; apply Hin; by right|simpl in *; lia].
Qed.

Lemma search_types_spec st l name : reg_ok st l -> search_types name st = Ret (List.find (called st name) l).
Proof.
  intros Hok. pose proof (rg_ring _ _ Hok) as Hl. unfold search_types. rewrite (is_list_first _ _ _ Hl), bind_Ret.
  apply find_type_spec.
  - destruct Hl as [_ Hp]. destruct l; [done|]. by destruct Hp as (_ & _ & ?).
  - apply (rg_name _ _ Hok).
  - pose proof (is_list_size _ _ _ Hl). rewrite length_fmap in *. lia.
Qed.

Lemma called_spec st name t : called st name t = true <-> type_name st t = Some name.
Proof. unfold called. apply bool_decide_eq_true. Qed.

(** In the registry a name belongs to at most one type. *)
Lemma find_called st l name t : reg_ok st l -> List.find (called st name) l = Some t <-> t ∈ l /\ type_name st t = Some name.
Proof.
  intros Hok. split.
  - intros [Hin Hc]%List.find_some. split; [by apply list_elem_of_In|by apply called_spec].
  - intros [Hin Hc]. destruct (List.find (called st name) l) as [u|] eqn:Hf.
    + apply List.find_some in Hf as [Hu Hcu]. f_equal. eapply (rg_uniq _ _ Hok); [by apply list_elem_of_In|done|].
      apply called_spec in Hcu. congruence.
    + pose proof (List.find_none _ _ Hf t ltac:(by apply list_elem_of_In)) as Hno. apply called_spec in Hc. congruence.
Qed.

(** Registering a type whose name is new adds it, and get_fs_type then finds
    it under its name; registering a name that is taken fails and changes
    nothing.  unregister_filesystem takes the type out again, and doing so twice
    dereferences NULL. *)
Theorem register_filesystem_correct st l t name :
  reg_ok st l -> type_name st t = Some name -> t ∉ l ->
  is_Some (vnodes st !! FsList t) -> is_Some (vnodes st !! FsSupers t) ->
  if decide (Exists (fun u => type_name st u = Some name) l) then register_filesystem (Some t) st = Ret (st, -1)
  else exists st1 st2, register_filesystem (Some t) st = Ret (st1, 0) /\ reg_ok st1 (t :: l) /\
    get_fs_type (Some name) st1 = Ret (st1, Some t) /\
    unregister_filesystem (Some t) st1 = Ret (st2, 0) /\ reg_ok st2 l /\
    get_fs_type (Some name) st2 = Ret (st2, None) /\ unregister_filesystem (Some t) st2 = Fault.
Proof.
  intros Hok Hname Hnew Hn1 Hn2.
  assert (Hx : exists x, fstypes st !! t = Some x /\ fs_name x = Some name).
  { unfold type_name in Hname. destruct (fstypes st !! t) as [x|]; [eauto|done]. }
  destruct Hx as (x & Hx & Hxn). unfold register_filesystem. rewrite Hx. cbn [deref]. rewrite bind_Ret, Hxn.
  unfold init_fs_registry. rewrite (rg_init _ _ Hok), bind_mret, (search_types_spec _ _ _ Hok), bind_Ret. case_decide as Hex.
  - apply Exists_exists in Hex as (u & Hu & Hun). by rewrite (proj2 (find_called st l name u Hok)).
  - destruct (List.find (called st name) l) as [u|] eqn:Hf.
    { exfalso. apply (find_called st l name u Hok) in Hf as [Hu Hun]. apply Hex, Exists_exists. eauto. }
    unfold on_vnodes. rewrite INIT_LIST_HEAD_spec by done. bind_rets. set (h0 := <[FsSupers t := _]> (vnodes st)).
    assert (Hl0 : is_list h0 FileSystems (FsList <$> l)).
    { eapply is_list_agree; [|apply (rg_ring _ _ Hok)]. intros k Hk. apply lookup_insert_ne. intros <-.
      apply elem_of_cons in Hk as [|(u & ? & _)%list_elem_of_fmap]; done. }
    destruct (list_add_spec h0 FileSystems (FsList <$> l) (FsList t) Hl0) as (h1 & R1 & Hl1 & Hf1).
    { rewrite not_elem_of_cons, list_elem_of_fmap. split; [done|]. by intros (u & [= ->] & Hu). }
    { unfold h0. by rewrite lookup_insert_ne. }
    cbn [vnodes set_vnodes]. rewrite R1. bind_rets. set (st1 := set_vnodes h1 _).
    assert (Hok1 : reg_ok st1 (t :: l)).
    { split; [apply (rg_init _ _ Hok)|exact Hl1| |].
      - intros u [->|Hu]%elem_of_cons; [unfold type_name, st1; cbn; by rewrite Hx|by apply (rg_name _ _ Hok)].
      - intros u v Hu Hv Euv. change (type_name st1) with (type_name st) in Euv.
        apply elem_of_cons in Hu as [->|Hu]; apply elem_of_cons in Hv as [->|Hv]; [done| | |by apply (rg_uniq _ _ Hok)];
          exfalso; apply Hex, Exists_exists; eexists; (split; [eassumption|congruence]). }
    destruct (list_del_spec h1 FileSystems [] (FsList t) (FsList <$> l) Hl1) as (h2 & R2 & Hnull & Hl2 & _).
    exists st1, (set_vnodes h2 st1). split; [done|]. split; [done|]. split; [|split; [|split; [|split]]].
    + unfold get_fs_type, init_fs_registry. rewrite (rg_init _ _ Hok1), bind_mret, (search_types_spec _ _ _ Hok1), bind_Ret.
      by rewrite (proj2 (find_called st1 (t :: l) name t Hok1)); [|split; [left|]].
    + unfold unregister_filesystem, on_vnodes. cbn [vnodes st1 set_vnodes]. by rewrite R2.
    + split; [apply (rg_init _ _ Hok)|exact Hl2|apply (rg_name _ _ Hok)|apply (rg_uniq _ _ Hok)].
    + assert (Hok2 : reg_ok (set_vnodes h2 st1) l).
      { split; [apply (rg_init _ _ Hok)|exact Hl2|apply (rg_name _ _ Hok)|apply (rg_uniq _ _ Hok)]. }
      unfold get_fs_type, init_fs_registry. rewrite (rg_init _ _ Hok2), bind_mret, (search_types_spec _ _ _ Hok2), bind_Ret.
      change (called (set_vnodes h2 st1)) with (called st). by rewrite Hf.
    + unfold unregister_filesystem, on_vnodes. cbn [vnodes set_vnodes]. unfold list_del, generic_del, get_next, get_prev, set_prev.
      by repeat first [rewrite bind_Ret | rewrite bind_mret | rewrite Hnull | progress cbn [deref next prev]].
Qed.

End super.

(** ** Superblocks *)

Section life.
Context {E : Type} `{KFSpec : KFreeSpec E} `{!KCacheFree E} `{KCFSpec : !KCacheFreeSpec E}.
Implicit Types st : vfs_st E.

Lemma upd_super_Ret st s f x : supers st !! s = Some x -> upd_super s f st = Ret (set_supers (<[s := f x]> (supers st)) st).
Proof. intros Hx. unfold upd_super. by rewrite Hx. Qed.

(** A superblock from alloc_super is new, has one reference and four empty
    lists; the matching destroy_super frees it and its private data and leaves
    the other superblocks as they were. *)
Theorem alloc_destroy_super st c n :
  super_cache st = Some c -> cache_room (ext st) c (Datatypes.S n) -> (forall s, is_Some (supers st !! s) -> ka_live (ext st) s) ->
  exists st1 st2 s, alloc_super st = Ret (st1, Some s) /\ supers st !! s = None /\
    supers st1 = <[s := new_super]> (supers st) /\ (forall k, k ∈ super_nodes s -> is_list (vnodes st1) k []) /\
    destroy_super (Some s) st1 = Ret st2 /\ supers st2 = supers st.
Proof.
  intros Hc [Hcc Hroom] Hown. destruct (ka_cache_alloc_ok c (ext st) n Hcc Hroom) as (e & s & Ha & Hnew & Hlive & _ & _ & Hroom').
  assert (Hs : supers st !! s = None) by (destruct (supers st !! s) eqn:Es; [destruct Hnew; apply Hown; eauto|done]).
  destruct (ka_cache_free_ok c s e n Hlive Hroom') as (e' & Hfree & _).
  set (h0 := foldr (fun k => insert k (mk_list_head None None)) (vnodes st) (super_nodes s)).
  destruct (init_nodes (super_nodes s) h0) as (_ & Hself & _).
  { intros k Hk. unfold h0. rewrite new_nodes_lookup, decide_True by done. eauto. }
  set (h1 := foldl _ _ _) in Hself.
  set (st1 := set_vnodes h1 (set_supers (<[s := new_super]> (supers st)) (set_ext e st))).
  assert (R1 : alloc_super st = Ret (st1, Some s)).
  { unfold alloc_super. rewrite Hc, bind_mret, Hc. cbn [deref]. rewrite bind_Ret, Ha, bind_Ret.
    assert (Hin : forall k, k ∈ super_nodes s -> is_Some (h0 !! k)).
    { intros k Hk. unfold h0. rewrite new_nodes_lookup, decide_True by done. eauto. }
    assert (HL := Hin (SList s) ltac:(left)). assert (HI := Hin (SInodes s) ltac:(right; left)).
    assert (HD := Hin (SDirty s) ltac:(do 2 right; left)). assert (HF := Hin (SFiles s) ltac:(do 3 right; left)).
    unfold new_nodes, on_vnodes. cbn [vnodes set_supers set_ext]. fold h0.
    do 4 (cbn [vnodes set_vnodes]; rewrite INIT_LIST_HEAD_spec by (rewrite ?lookup_insert_is_Some'; tauto); bind_rets). done. }
  assert (Hx1 : supers st1 !! s = Some new_super) by apply lookup_insert_eq.
  exists st1. eexists. exists s. split_and!; [done|done|done| | |].
  - intros k Hk. by apply own_ring, Hself.
  - unfold destroy_super. rewrite (upd_super_Ret _ _ _ _ Hx1), bind_Ret. cbn [supers set_supers]. rewrite lookup_insert_eq.
    cbn [deref]. rewrite bind_Ret. change (s_count _ =? 0) with true. cbn iota. change (s_fs_info _) with (@None Z). cbn iota.
    rewrite bind_mret. change (super_cache _) with (super_cache st). rewrite Hc. cbn [deref]. rewrite bind_Ret.
    change (ext _) with e. rewrite Hfree. bind_rets. reflexivity.
  - cbn. by rewrite !delete_insert_eq, delete_id.
Qed.

End life.

(** ** Concrete instances *)

Definition ext2_name : list Z := [101; 120; 116; 50].
Definition vfs_types : vfs_st Z :=
  mk_vfs ∅ ∅ ∅ ∅ {[10 := mk_fstype (Some ext2_name) 0 None]} ∅
    {[FileSystems := mk_list_head (Some FileSystems) (Some FileSystems); FsList 10 := mk_list_head None None;
      FsSupers 10 := mk_list_head None None]}
    None None (Some 50) None None true 4096.

Lemma vfs_types_ok : reg_ok vfs_types [].
Proof. split; [done|by apply own_ring|intros t Ht; by inversion Ht|intros t u Ht; by inversion Ht]. Qed.

Lemma register_filesystem_correct_witness : exists st1 st2,
  register_filesystem (Some 10) vfs_types = Ret (st1, 0) /\ get_fs_type (Some ext2_name) st1 = Ret (st1, Some 10) /\
  unregister_filesystem (Some 10) st1 = Ret (st2, 0).
Proof.
  assert (H := register_filesystem_correct vfs_types [] 10 ext2_name vfs_types_ok eq_refl (not_elem_of_nil _) ltac:(by eexists) ltac:(by eexists)).
  rewrite decide_False in H by (intros Hx; by inversion Hx).
  destruct H as (st1 & st2 & R1 & _ & R2 & R3 & _). exists st1, st2. split; [exact R1|]. split; [exact R2|exact R3].
Defined.

Lemma alloc_destroy_super_witness : exists st1 st2 s, alloc_super vfs_types = Ret (st1, Some s) /\ destroy_super (Some s) st1 = Ret st2.
Proof.
  destruct (alloc_destroy_super vfs_types 50 0) as (st1 & st2 & s & R1 & _ & _ & _ & R2 & _); [done|done|by intros s [x Hx]|].
  exists st1, st2, s. split; [exact R1|exact R2].
Defined.
