(* ===== verification/Namei.v ===== *)
(** * Path lookup (fs/ext2/namei.c, include/namei.h)

    A path is a string (Layout); a walk cuts it into components and looks each
    of them up in the dentry cache and, failing that, with the lookup operation
    of the directory ([InodeOps]).  [fuel] bounds the climb to the root in
    path_lookup; the walk itself recurses on the length of the path. *)

From S2P Require Import Prelude ListHead.
From S2P Require Import Layout BufferCache Vfs Dcache.

Definition LOOKUP_FOLLOW : Z := 1.
Definition LOOKUP_DIRECTORY : Z := 2.
Definition LOOKUP_PARENT : Z := 4.
(** The size of the array [component] in link_path_walk and lookup_one_len. *)
Definition COMPONENT_SIZE : Z := 64.

Record nameidata := mk_nd {
  nd_dentry : option Z; nd_mnt : option Z; nd_flags : Z; nd_last_type : Z; nd_last_name : option Z }.
Definition set_nd_dentry d nd := mk_nd d (nd_mnt nd) (nd_flags nd) (nd_last_type nd) (nd_last_name nd).

Fixpoint skip_slashes (path : list Z) : list Z :=
  match path with
  | c :: rest => if c =? 47 then skip_slashes rest else path
  | [] => []
  end.

(** The copying loop of get_component, with [n] characters of room: the rest of
    the path and the component. *)
Fixpoint copy_component (n : nat) (path : list Z) : list Z * list Z :=
  match n, path with
  | S n, c :: rest =>
      if c =? 47 then (path, [])
      else let '(rest, component) := copy_component n rest in (rest, c :: component)
  | _, _ => (path, [])
  end.
Definition get_component (path : list Z) (max_len : Z) : list Z * list Z :=
  copy_component (Z.to_nat (max_len - 1)) (skip_slashes path).

Section namei.
Context {E : Type} `{KAlloc E} `{KCacheFree E} `{InodeOps (vfs_st E)}.
Variables (junk : Z -> dentry) (fuel : nat).
Implicit Types st : vfs_st E.

(** The slot [lookup] of the operations of an inode. *)
Definition lookup_op (i_op : option Z) : option (Z -> Z -> vfs_st E -> outcome (vfs_st E * option Z)) :=
  match i_op with Some ops => op_lookup ops | None => None end.

Definition do_lookup (parent : option Z) (name : option (list Z)) st : outcome (vfs_st E * option Z) :=
  match parent, name with
  | Some p, Some ((_ :: _) as nm) =>
      x ← deref (dentries st !! p);
      match d_inode x with
      | None => mret (st, None)
      | Some dir =>
          '(st, r) ← d_lookup parent name st;
          match r with
          | Some d => mret (st, Some d)
          | None =>
              '(st, r) ← d_alloc junk parent name st;
              match r with
              | None => mret (st, None)
              | Some d =>
                  i ← deref (inodes st !! dir);
                  match lookup_op (i_op i) with
                  | Some lookup =>
                      '(st, result) ← lookup dir d st;
                      match result with
                      | None => st ← dput (Some d) st; mret (st, None)
                      | Some _ => mret (st, result)
                      end
                  | None => st ← dput (Some d) st; mret (st, None)
                  end
              end
          end
      end
  | _, _ => mret (st, None)
  end.

(** One component: the dentry it leads to (a pointer), or [None] when it is not
    found. *)
Definition walk_component (dentry : option Z) (component : list Z) st : outcome (vfs_st E * option (option Z)) :=
  if bool_decide (component = [46]) then mret (st, Some dentry)
  else if bool_decide (component = [46; 46]) then
    d ← deref dentry;
    x ← deref (dentries st !! d);
    mret (st, Some (if bool_decide (d_parent x = dentry) then dentry else d_parent x))
  else
    '(st, r) ← do_lookup dentry (Some component) st;
    mret (st, match r with Some _ => Some r | None => None end).

(** The loop of link_path_walk: [n] bounds the characters left. *)
Fixpoint walk_loop (n : nat) (path : list Z) (dentry : option Z) st : outcome (vfs_st E * option (option Z)) :=
  match path with
  | [] => mret (st, Some dentry)
  | _ :: _ =>
      let '(path, component) := get_component path COMPONENT_SIZE in
      match component with
      | [] => mret (st, Some dentry)
      | _ :: _ =>
          match n with
          | O => Spin
          | S n =>
              '(st, r) ← walk_component dentry component st;
              match r with
              | None => mret (st, None)
              | Some dentry => walk_loop n path dentry st
              end
          end
      end
  end.

Definition link_path_walk (path : option (list Z)) (nd : option nameidata) st
  : outcome (vfs_st E * option nameidata * Z) :=
  match path, nd with
  | Some p, Some d =>
      match nd_dentry d with
      | None => mret (st, nd, -1)
      | Some _ =>
          let p := skip_slashes p in
          '(st, r) ← walk_loop (length p) p (nd_dentry d) st;
          match r with
          | None => mret (st, nd, -1)
          | Some dentry => mret (st, Some (set_nd_dentry dentry d), 0)
          end
      end
  | _, _ => mret (st, nd, -1)
  end.

(** The loop of path_lookup that walks up to the root. *)
Fixpoint walk_up (n : nat) (d : Z) st : outcome Z :=
  x ← deref (dentries st !! d);
  if bool_decide (d_parent x = Some d) then mret d
  else match n with
       | O => Spin
       | S n => p ← deref (d_parent x); walk_up n p st
       end.

Definition path_lookup (path : option (list Z)) (flags : Z) (nd : option nameidata) st
  : outcome (vfs_st E * option nameidata * Z) :=
  match path, nd with
  | Some p, Some d =>
      let d := mk_nd (nd_dentry d) (nd_mnt d) flags 0 None in
      match nd_dentry d with
      | None => mret (st, Some d, -1)
      | Some dentry =>
          d ← (match p with
               | 47 :: _ => root ← walk_up fuel dentry st; mret (set_nd_dentry (Some root) d)
               | _ => mret d
               end);
          link_path_walk path (Some d) st
      end
  | _, _ => mret (st, nd, -1)
  end.

Definition lookup_one_len (name : option (list Z)) (base : option Z) (len : Z) st : outcome (vfs_st E * option Z) :=
  match name, base with
  | Some nm, Some _ =>
      if (len <=? 0) || (COMPONENT_SIZE <=? len) then mret (st, None)
      else do_lookup base (Some (take (Z.to_nat len) nm)) st
  | _, _ => mret (st, None)
  end.

Definition path_release (nd : option nameidata) st : outcome (vfs_st E * option nameidata) :=
  match nd with
  | None => mret (st, None)
  | Some d =>
      match nd_dentry d with
      | None => mret (st, nd)
      | Some _ => st ← dput (nd_dentry d) st; mret (st, Some (set_nd_dentry None d))
      end
  end.

Definition follow_down (mnt dentry : Z) st : outcome (vfs_st E * Z) := mret (st, 0).
Definition follow_up (mnt dentry : Z) st : outcome (vfs_st E * Z) := mret (st, 0).
Definition path_walk (path : option (list Z)) (nd : option nameidata) st := link_path_walk path nd st.

End namei.
