(* ===== verification/NameiProofs.v ===== *)
(** * Path lookup is correct, and what it leaves behind

    [path_components] is the reference: split the path at slashes and drop the
    empty pieces.  [resolve] follows components through the cached dentries and
    lists the dentries it looks up on the way.  A walk over a cached path ends
    at the resolved dentry and counts one reference for every dentry on the
    way, of which path_release gives up one. *)

From S2P Require Import Prelude ListHead.
From S2P Require Import Layout BufferCache BufferProofs Vfs Dcache DcacheProofs Namei.

(** ** Cutting a path *)

Fixpoint split_slash (path : list Z) : list (list Z) :=
  match path with
  | [] => [[]]
  | c :: path =>
      if c =? 47 then [] :: split_slash path
      else match split_slash path with
           | w :: ws => (c :: w) :: ws
           | [] => [[c]]
           end
  end.
Definition path_components (path : list Z) : list (list Z) := filter (fun w => w <> []) (split_slash path).

(** The components the loop of link_path_walk goes through. *)
Fixpoint cut (n : nat) (path : list Z) : list (list Z) :=
  match path with
  | [] => []
  | _ :: _ =>
      let '(path, component) := get_component path COMPONENT_SIZE in
      match component, n with
      | _ :: _, S n => component :: cut n path
      | _, _ => []
      end
  end.

(** A path is a first word and a rest that is empty or starts with a slash. *)
Definition word (w rest path : list Z) : Prop :=
  path = w ++ rest /\ Forall (fun c => c <> 47) w /\ (rest = [] \/ exists r, rest = 47 :: r).

Lemma word_exists path : exists w rest, word w rest path.
Proof.
  induction path as [|c path (w & rest & -> & Hw & Hr)]; [exists [], []; split_and!; auto|].
  destruct (decide (c = 47)) as [->|Hc].
  - exists [], (47 :: w ++ rest). split_and!; [done|constructor|eauto].
  - exists (c :: w), rest. split_and!; [done|by constructor|done].
Qed.

Lemma split_word w rest path : word w rest path ->
  split_slash path = w :: match rest with [] => [] | _ :: r => split_slash r end.
Proof.
  intros (-> & Hw & Hr). induction Hw as [|c w Hc Hw IH]; cbn [app].
  - by destruct Hr as [->|[r ->]].
  - cbn [split_slash]. apply Z.eqb_neq in Hc. by rewrite Hc, IH.
Qed.

Lemma components_slash r : path_components (47 :: r) = path_components r.
Proof. done. Qed.

Lemma components_word w rest path : word w rest path -> w <> [] ->
  path_components path = w :: path_components rest.
Proof.
  intros Hw Hne. unfold path_components. rewrite (split_word _ _ _ Hw), filter_cons_True by done. f_equal.
  destruct Hw as (_ & _ & [->|[r ->]]); done.
Qed.

Lemma skip_slashes_components path : path_components (skip_slashes path) = path_components path.
Proof.
  induction path as [|c path IH]; [done|]. cbn [skip_slashes]. destruct (Z.eqb_spec c 47) as [->|]; [|done].
  by rewrite IH, components_slash.
Qed.

Lemma skip_slashes_length path : (length (skip_slashes path) <= length path)%nat.
Proof. induction path as [|c path IH]; [done|]. cbn [skip_slashes]. destruct (_ =? _); simpl; lia. Qed.

Lemma skip_slashes_first path : (exists c r, skip_slashes path = c :: r /\ c <> 47) \/ skip_slashes path = [].
Proof.
  induction path as [|c path IH]; [by right|]. cbn [skip_slashes]. destruct (Z.eqb_spec c 47) as [->|]; [done|eauto].
Qed.

Lemma skip_slashes_split (P : list Z -> Prop) path : Forall P (split_slash path) -> Forall P (split_slash (skip_slashes path)).
Proof.
  induction path as [|c path IH]; [done|]. intros HP. cbn [skip_slashes]. destruct (Z.eqb_spec c 47) as [->|]; [|done].
  cbn [split_slash] in HP. apply Forall_cons in HP as [_ HP]. by apply IH.
Qed.

Lemma copy_component_word n : forall w rest path, word w rest path -> (length w <= n)%nat -> copy_component n path = (rest, w).
Proof.
  induction n as [|n IH]; intros w rest path (-> & Hw & Hr) Hlen.
  - by destruct w; [|simpl in *; lia].
  - destruct Hw as [|c w Hc Hw]; cbn [app].
    + by destruct Hr as [->|[r ->]].
    + cbn [copy_component]. apply Z.eqb_neq in Hc. rewrite Hc.
      rewrite (IH w rest (w ++ rest)); [done|by split_and!|simpl in *; lia].
Qed.

Lemma copy_component_length n : forall path rest w, copy_component n path = (rest, w) ->
  path = w ++ rest /\ (length w <= n)%nat.
Proof.
  induction n as [|n IH]; intros path rest w; cbn [copy_component]; [by intros [= <- <-]|].
  destruct path as [|c path]; [intros [= <- <-]; simpl; split; [done|lia]|]. destruct (c =? 47); [intros [= <- <-]; simpl; split; [done|lia]|].
  destruct (copy_component n path) as [rest' w'] eqn:Ec. intros [= <- <-]. destruct (IH _ _ _ Ec) as [-> Hl].
  split; [done|simpl; lia].
Qed.

(** The components a walk goes through are those of the reference, if none
    of them has more than 63 characters: the path is cut at slashes, and empty
    components are dropped. *)
Theorem cut_reference path : Forall (fun w => Z.of_nat (length w) < COMPONENT_SIZE) (split_slash path) ->
  cut (length path) path = path_components path.
Proof.
  assert (Hgen : forall n path, (length path <= n)%nat ->
    Forall (fun w => Z.of_nat (length w) < COMPONENT_SIZE) (split_slash path) -> cut n path = path_components path);
    [|by apply Hgen].
  clear path. induction n as [|n IH]; intros path Hn Hs; [by destruct path; [|simpl in *; lia]|].
  destruct path as [|c0 path0]; [done|]. set (path := c0 :: path0) in *.
  assert (Eu : cut (S n) path = let '(rest, w) := get_component path COMPONENT_SIZE in
    match w with _ :: _ => w :: cut n rest | [] => [] end) by done.
  rewrite Eu. unfold get_component. rewrite <- (skip_slashes_components path).
  pose proof (skip_slashes_length path) as Hsl. apply skip_slashes_split in Hs.
  destruct (word_exists (skip_slashes path)) as (w & rest & Hw).
  assert (Hwl : Z.of_nat (length w) < COMPONENT_SIZE).
  { rewrite (split_word _ _ _ Hw) in Hs. by apply Forall_cons in Hs as [? _]. }
  unfold COMPONENT_SIZE in *. rewrite (copy_component_word _ w rest) by (try done; lia).
  destruct w as [|c w].
  - destruct Hw as (Epath & _ & Hr). rewrite Epath. cbn [app]. destruct Hr as [->|[r ->]]; [done|].
    destruct (skip_slashes_first path) as [(c & r' & Es & Hc)|Es]; rewrite Es in Epath; cbn [app] in Epath; [congruence|done].
  - rewrite (components_word _ _ _ Hw) by done. f_equal. pose proof Hw as (Epath & _ & Hr). apply IH.
    + rewrite Epath in Hsl. rewrite length_app in Hsl. simpl in *. lia.
    + rewrite (split_word _ _ _ Hw) in Hs. apply Forall_cons in Hs as [_ Hs].
      destruct Hr as [->|[r ->]]; [by repeat constructor|]. cbn [split_slash]. by constructor.
Qed.

(** A component of 64 to 126 characters is looked up as two: its first 63
    characters, and the rest in the directory that names. *)
Theorem long_component_cut w : Forall (fun c => c <> 47) w -> (64 <= length w <= 126)%nat ->
  cut (length w) w = [take 63 w; drop 63 w].
Proof.
  intros Hw Hlen. assert (Hcopy : forall k u v, Forall (fun c => c <> 47) u -> length u = k -> copy_component k (u ++ v) = (v, u)).
  { intros k u v Hu <-. clear Hw Hlen. induction Hu as [|c u Hc Hu IH]; [by destruct v|]. cbn [app length copy_component].
    apply Z.eqb_neq in Hc. by rewrite Hc, IH. }
  assert (Hskip : forall u, Forall (fun c => c <> 47) u -> skip_slashes u = u).
  { intros u [|c u' Hc _]; [done|]. cbn [skip_slashes]. apply Z.eqb_neq in Hc. by rewrite Hc. }
  assert (Eu : forall n p, p <> [] -> cut (S n) p = let '(rest, u) := get_component p COMPONENT_SIZE in
    match u with _ :: _ => u :: cut n rest | [] => [] end) by (by intros n []).
  assert (Hlt : length (take 63 w) = 63%nat) by (rewrite length_take; lia). pose proof (length_drop w 63) as Hld.
  destruct (length w) as [|[|n]] eqn:El; [lia|lia|]. rewrite Eu by (intros ->; done).
  unfold get_component. rewrite Hskip by done. change (Z.to_nat (COMPONENT_SIZE - 1)) with 63%nat.
  replace (copy_component 63 w) with (drop 63 w, take 63 w)
    by (rewrite <- (take_drop 63 w) at 3; symmetry; apply Hcopy; [by apply Forall_take|done]).
  destruct (take 63 w) as [|a u]; [done|]. f_equal.
  rewrite Eu by (intros Ez; rewrite Ez in Hld; simpl in Hld; lia). unfold get_component. rewrite Hskip by by apply Forall_drop.
  change (Z.to_nat (COMPONENT_SIZE - 1)) with 63%nat. rewrite (copy_component_word 63 (drop 63 w) []).
  - destruct (drop 63 w) as [|b v]; [simpl in Hld; lia|]. f_equal. by destruct n.
  - split_and!; [by rewrite app_nil_r|by apply Forall_drop|by left].
  - lia.
Qed.

(** ** Walking *)

Section walk.
Context {E : Type} `{KFS : KCacheFreeSpec E} `{IO : InodeOps (vfs_st E)}.
Variables (junk : Z -> dentry) (fuel : nat).
Implicit Types (st : vfs_st E) (chains : Z -> list Z).

Fixpoint walk_list (comps : list (list Z)) (d : option Z) st : outcome (vfs_st E * option (option Z)) :=
  match comps with
  | [] => mret (st, Some d)
  | c :: comps =>
      '(st, r) ← walk_component junk d c st;
      match r with None => mret (st, None) | Some d => walk_list comps d st end
  end.

(** The loop goes through the components of [cut], and never runs out. *)
Lemma walk_loop_cut n : forall path d st, (length path <= n)%nat ->
  walk_loop junk n path d st = walk_list (cut n path) d st.
Proof.
  induction n as [|n IH]; intros path d st Hn; [by destruct path; [|simpl in *; lia]|].
  destruct path as [|c0 path0]; [done|]. set (path := c0 :: path0) in *.
  assert (El : walk_loop junk (S n) path d st = let '(rest, w) := get_component path COMPONENT_SIZE in
    match w with
    | [] => mret (st, Some d)
    | _ :: _ => '(st, r) ← walk_component junk d w st;
                match r with None => mret (st, None) | Some d => walk_loop junk n rest d st end
    end) by done.
  assert (Ec : cut (S n) path = let '(rest, w) := get_component path COMPONENT_SIZE in
    match w with _ :: _ => w :: cut n rest | [] => [] end) by done.
  rewrite El, Ec. destruct (get_component path COMPONENT_SIZE) as [rest w] eqn:Eg. destruct w as [|c w]; [done|].
  cbn [walk_list]. unfold get_component in Eg. apply copy_component_length in Eg as [Es _].
  assert (Hrest : (length rest <= n)%nat).
  { pose proof (skip_slashes_length path) as Hs. rewrite Es, length_app in Hs. simpl in *. lia. }
  destruct (walk_component junk d (c :: w) st) as [[st' [d'|]]| |]; [|done..]. rewrite !bind_Ret. by apply IH.
Qed.

(** Components followed through the cache: the dentry at the end and the
    dentries that were looked up. *)
Fixpoint resolve st chains (d : Z) (comps : list (list Z)) : option (Z * list Z) :=
  match comps with
  | [] => Some (d, [])
  | c :: comps =>
      if decide (c = [46]) then resolve st chains d comps
      else if decide (c = [46; 46]) then
        p ← dentries st !! d ≫= d_parent; resolve st chains p comps
      else
        _ ← dentries st !! d ≫= d_inode;
        e ← List.find (named st d c) (chains (d_hash (Some d) c));
        '(r, vs) ← resolve st chains e comps;
        Some (r, e :: vs)
  end.

Definition count_all (m : gmap Z dentry) (vs : list Z) : gmap Z dentry := foldl (fun m e => alter count_up e m) m vs.

(** What a walk depends on, and what counting a reference keeps. *)
Definition same_keys st st' : Prop :=
  forall e, (fun x => (d_parent x, d_name x, d_inode x)) <$> dentries st' !! e =
            (fun x => (d_parent x, d_name x, d_inode x)) <$> dentries st !! e.

Lemma same_keys_fields st st' e : same_keys st st' ->
  dentries st' !! e ≫= d_parent = dentries st !! e ≫= d_parent /\
  dentries st' !! e ≫= d_inode = dentries st !! e ≫= d_inode /\
  (forall p nm, named st' p nm e = named st p nm e).
Proof.
  intros Hk. specialize (Hk e). unfold named.
  destruct (dentries st' !! e), (dentries st !! e); cbn in Hk; try done. injection Hk as E1 E2 E3.
  cbn. rewrite E1, E2, E3. done.
Qed.

Lemma find_ext {A} (f g : A -> bool) l : (forall x, f x = g x) -> List.find f l = List.find g l.
Proof. intros Hfg. induction l as [|x l IH]; [done|]. cbn [List.find]. by rewrite Hfg, IH. Qed.

Lemma resolve_keys st st' chains comps : same_keys st st' -> forall d,
  resolve st' chains d comps = resolve st chains d comps.
Proof.
  intros Hk. induction comps as [|c comps IH]; intros d; [done|]. cbn [resolve].
  destruct (same_keys_fields st st' d Hk) as (Ep & Ei & _). rewrite Ep, Ei.
  rewrite (find_ext (named st' d c) (named st d c)) by (intros e; by apply (same_keys_fields st st' e Hk)).
  case_decide; [done|]. case_decide; [by destruct (dentries st !! d ≫= d_parent) as [q|]; [apply (IH q)|]|].
  destruct (dentries st !! d ≫= d_inode); [|done]. cbn. destruct (List.find _ _) as [e|]; [|done]. cbn. by rewrite IH.
Qed.

Lemma count_up_keys st d x : dentries st !! d = Some x ->
  same_keys st (set_dentries (<[d := count_up x]> (dentries st)) st).
Proof.
  intros Hx e. cbn [dentries set_dentries]. rewrite lookup_insert. case_decide; [subst|done]. by rewrite Hx.
Qed.

Lemma do_lookup_cached st chains d c x dir e : dcache_ok st chains -> no_nul c -> c <> [] ->
  dentries st !! d = Some x -> d_inode x = Some dir ->
  List.find (named st d c) (chains (d_hash (Some d) c)) = Some e ->
  exists y, dentries st !! e = Some y /\
    do_lookup junk (Some d) (Some c) st = Ret (set_dentries (<[e := count_up y]> (dentries st)) st, Some e).
Proof.
  intros Hok Hn Hne Hx Hi Hf. pose proof Hf as [_ (y & Hy & _)%named_spec]%List.find_some. exists y. split; [done|].
  destruct c as [|c0 c]; [done|]. unfold do_lookup. rewrite Hx. cbn [deref]. rewrite bind_Ret, Hi.
  rewrite (d_lookup_hit st chains d (c0 :: c) e y Hok Hn Hf Hy), bind_Ret. done.
Qed.

Lemma walk_list_resolve chains comps : forall d st r vs,
  dcache_ok st chains -> Forall no_nul comps -> Forall (fun c => c <> []) comps ->
  resolve st chains d comps = Some (r, vs) ->
  exists st', walk_list comps (Some d) st = Ret (st', Some (Some r)) /\ dentries st' = count_all (dentries st) vs /\
    dcache_ok st' chains /\ vnodes st' = vnodes st /\ inodes st' = inodes st.
Proof.
  induction comps as [|c comps IH]; intros d st r vs Hok Hnul Hne Hr; cbn [resolve walk_list] in *.
  - injection Hr as <- <-. by exists st.
  - apply Forall_cons in Hnul as [Hc Hnul]. apply Forall_cons in Hne as [Hc0 Hne]. unfold walk_component.
    case_decide as E1; [rewrite bool_decide_eq_true_2 by done; rewrite bind_mret; by apply IH|].
    rewrite bool_decide_eq_false_2 by done. case_decide as E2.
    + rewrite bool_decide_eq_true_2 by done. cbn [deref]. rewrite bind_Ret.
      destruct (dentries st !! d) as [x|] eqn:Hx; [|done]. cbn [mbind option_bind] in Hr.
      destruct (d_parent x) as [p|] eqn:Hp; [|done]. cbn [mbind option_bind] in Hr. cbn [deref]. bind_rets. rewrite Hp.
      destruct (IH p st r vs) as (st' & R & Hrest); [done..|]. exists st'. split; [|done].
      case_bool_decide as Epd; [injection Epd as ->|]; exact R.
    + rewrite bool_decide_eq_false_2 by done. destruct (dentries st !! d) as [x|] eqn:Hx; [|done].
      cbn [mbind option_bind] in Hr. destruct (d_inode x) as [dir|] eqn:Hdir; [|done]. cbn [mbind option_bind] in Hr.
      destruct (List.find _ _) as [e|] eqn:Hf; [|done]. cbn [mbind option_bind] in Hr.
      destruct (resolve st chains e comps) as [[r' vs']|] eqn:Hres; [|done]. injection Hr as <- <-.
      destruct (do_lookup_cached st chains d c x dir e Hok Hc Hc0 Hx Hdir Hf) as (y & Hy & R1).
      set (st1 := set_dentries _ _) in *. rewrite R1. bind_rets.
      destruct (IH e st1 r' vs') as (st' & R & Hd' & Hrest); [by apply count_up_ok|done|done| |].
      { rewrite <- Hres. apply resolve_keys. by apply count_up_keys. }
      exists st'. split; [exact R|]. split; [|done]. rewrite Hd'. unfold count_all, st1. cbn [foldl dentries set_dentries].
      f_equal. apply map_eq. intros k. rewrite lookup_insert, lookup_alter. repeat case_decide; simplify_eq; [|done]. by rewrite Hy.
Qed.

Lemma split_no_nul path : no_nul path -> Forall no_nul (split_slash path).
Proof.
  induction 1 as [|c path Hc Hp IH]; [by repeat constructor|]. cbn [split_slash]. destruct (c =? 47); [by repeat constructor|].
  destruct (split_slash path) as [|w ws]; [by repeat constructor|]. apply Forall_cons in IH as [Hw Hws]. by repeat constructor.
Qed.

Definition short_path (path : list Z) : Prop := Forall (fun w => Z.of_nat (length w) < COMPONENT_SIZE) (split_slash path).

Lemma link_path_walk_spec st chains path nd d r vs :
  dcache_ok st chains -> no_nul path -> short_path path -> nd_dentry nd = Some d ->
  resolve st chains d (path_components path) = Some (r, vs) ->
  exists st', link_path_walk junk (Some path) (Some nd) st = Ret (st', Some (set_nd_dentry (Some r) nd), 0) /\
    dentries st' = count_all (dentries st) vs /\ dcache_ok st' chains.
Proof.
  intros Hok Hn Hs Hd Hr. unfold link_path_walk. rewrite Hd. rewrite walk_loop_cut by done.
  rewrite cut_reference by (by apply skip_slashes_split). rewrite skip_slashes_components.
  destruct (walk_list_resolve chains (path_components path) d st r vs) as (st' & R & Hd' & Hok' & _); [done| | |done|].
  { apply Forall_forall. intros w [_ Hw]%list_elem_of_filter. by apply (proj1 (Forall_forall _ _) (split_no_nul path Hn)). }
  { apply Forall_forall. by intros w [Hw _]%list_elem_of_filter. }
  exists st'. rewrite R. bind_rets. done.
Qed.

(** The dentry an absolute or relative path starts from. *)
Definition starts_at (path : list Z) (d r : Z) st : Prop :=
  match path with 47 :: _ => walk_up fuel d st = Ret r | _ => r = d end.

Lemma path_lookup_spec st chains path flags nd d s r vs :
  dcache_ok st chains -> no_nul path -> short_path path -> nd_dentry nd = Some d -> starts_at path d s st ->
  resolve st chains s (path_components path) = Some (r, vs) ->
  exists st', path_lookup junk fuel (Some path) flags (Some nd) st
              = Ret (st', Some (mk_nd (Some r) (nd_mnt nd) flags 0 None), 0) /\
    dentries st' = count_all (dentries st) vs /\ dcache_ok st' chains.
Proof.
  intros Hok Hn Hs Hd Hstart Hr. unfold path_lookup. cbn [nd_dentry nd_mnt]. rewrite Hd.
  assert (Hlink := link_path_walk_spec st chains path (mk_nd (Some s) (nd_mnt nd) flags 0 None) s r vs Hok Hn Hs eq_refl Hr).
  assert (Estart : match path with
    | 47 :: _ => root ← walk_up fuel d st; mret (set_nd_dentry (Some root) (mk_nd (Some d) (nd_mnt nd) flags 0 None))
    | _ => mret (mk_nd (Some d) (nd_mnt nd) flags 0 None) end = Ret (mk_nd (Some s) (nd_mnt nd) flags 0 None)).
  { unfold starts_at in Hstart. repeat case_match; subst; try done. by rewrite Hstart. }
  rewrite Estart, bind_Ret. exact Hlink.
Qed.

(** C30. A cached path is found.  path_lookup of a path whose components are
    cached succeeds with the dentry they resolve to - from the root if the path
    starts with a slash, from the given dentry otherwise, a dot staying and two
    dots going to the parent -, counts one reference for every dentry it looked
    up, and keeps the invariant of the cache. *)
Theorem path_lookup_correct st chains path flags nd d s r vs :
  dcache_ok st chains -> no_nul path -> short_path path -> nd_dentry nd = Some d -> starts_at path d s st ->
  resolve st chains s (path_components path) = Some (r, vs) ->
  exists st', path_lookup junk fuel (Some path) flags (Some nd) st
              = Ret (st', Some (mk_nd (Some r) (nd_mnt nd) flags 0 None), 0) /\
    dentries st' = count_all (dentries st) vs /\ dcache_ok st' chains.
Proof. apply path_lookup_spec. Qed.

(** path_release does not balance path_lookup.  If the last dentry looked up
    is where the path ends, releasing it leaves one reference too many on every
    dentry before it; if nothing was looked up (a path of slashes, dots and
    parents), it takes away a reference the lookup never took. *)
Theorem path_release_unbalanced st chains path flags nd d s r vs x :
  dcache_ok st chains -> no_nul path -> short_path path -> nd_dentry nd = Some d -> starts_at path d s st ->
  resolve st chains s (path_components path) = Some (r, vs) ->
  (vs = [] \/ exists vs0, vs = vs0 ++ [r]) -> count_all (dentries st) (removelast vs) !! r = Some x ->
  0 < d_count x < 2 ^ 32 - 1 -> (vs = [] -> 1 < d_count x) ->
  exists st1 st2 nd1 nd2, path_lookup junk fuel (Some path) flags (Some nd) st = Ret (st1, Some nd1, 0) /\
    path_release (Some nd1) st1 = Ret (st2, Some nd2) /\ nd_dentry nd2 = None /\
    dentries st2 = match vs with
                   | [] => <[r := set_d_count (d_count x - 1) x]> (dentries st)
                   | _ => count_all (dentries st) (removelast vs)
                   end.
Proof.
  intros Hok Hn Hs Hd Hstart Hr Hvs Hx Hc Hc1.
  destruct (path_lookup_spec st chains path flags nd d s r vs Hok Hn Hs Hd Hstart Hr) as (st1 & R1 & Hd1 & _).
  destruct Hvs as [->|[vs0 ->]].
  - specialize (Hc1 eq_refl). do 4 eexists. split; [exact R1|]. unfold path_release. cbn [nd_dentry]. cbn in Hx, Hd1.
    rewrite (dput_shared st1 r x) by (rewrite ?Hd1, ?u32_small by lia; try done; lia). bind_rets.
    split; [done|]. split; [done|]. cbn [dentries set_dentries]. by rewrite Hd1, u32_small by lia.
  - rewrite removelast_last in *. assert (Hx1 : dentries st1 !! r = Some (count_up x)).
    { rewrite Hd1. unfold count_all in *. rewrite foldl_app. cbn [foldl]. by rewrite lookup_alter_eq, Hx. }
    assert (Ec : u32 (d_count (count_up x) - 1) = d_count x).
    { unfold count_up. cbn [d_count set_d_count]. rewrite (u32_small (d_count x + 1)), u32_small by lia. lia. }
    do 4 eexists. split; [exact R1|]. unfold path_release. cbn [nd_dentry].
    rewrite (dput_shared st1 r (count_up x) Hx1) by (rewrite Ec; lia). bind_rets. split; [done|]. split; [done|].
    cbn [dentries set_dentries]. rewrite Ec, Hd1.
    replace (set_d_count (d_count x) (count_up x)) with x by (by destruct x).
    assert (Eall : <[r := x]> (count_all (dentries st) (vs0 ++ [r])) = count_all (dentries st) vs0).
    { unfold count_all in *. rewrite foldl_app. cbn [foldl]. apply map_eq. intros k. rewrite lookup_insert.
      case_decide as Ek; [by subst|]. by rewrite lookup_alter_ne. }
    rewrite Eall. by destruct vs0.
Qed.

(** A name that is not cached, in a directory without a lookup operation, is
    not found: the walk returns -1, the position is unchanged and so are the
    cache and the list of children of the directory. *)
Theorem link_path_walk_not_found st chains path nd d x dir i nm rest subs c n :
  dcache_ok st chains -> owned st -> dentry_cache st = Some c -> cache_room (ext st) c (Datatypes.S n) ->
  no_nul path -> short_path path -> path_components path = nm :: rest -> nm <> [46] -> nm <> [46; 46] ->
  nd_dentry nd = Some d -> dentries st !! d = Some x -> d_inode x = Some dir -> inodes st !! dir = Some i ->
  lookup_op (E := E) (i_op i) = None -> (forall e, hashed chains e -> named st d nm e = false) ->
  is_list (vnodes st) (DSubdirs d) subs -> Forall tree_node subs ->
  exists st', link_path_walk junk (Some path) (Some nd) st = Ret (st', Some nd, -1) /\
    dentries st' = dentries st /\ dcache_ok st' chains /\ is_list (vnodes st') (DSubdirs d) subs.
Proof.
  intros Hok Hown Hc Hroom Hn Hs Ecomp Hdot Hdots Hd Hx Hdir Hi Hop Hnew Hsubs Ht.
  assert (Hin : nm ∈ path_components path) by (rewrite Ecomp; left).
  apply list_elem_of_filter in Hin as [Hne Hin].
  assert (Hnm : no_nul nm) by (by apply (proj1 (Forall_forall _ _) (split_no_nul path Hn))).
  assert (Hmiss : d_lookup (Some d) (Some nm) st = Ret (st, None)).
  { apply (d_lookup_miss st chains d nm Hok Hnm). destruct (List.find _ _) as [e|] eqn:Hf; [|done].
    apply List.find_some in Hf as [He Hne']. rewrite Hnew in Hne'; [done|]. eexists. split; [apply d_hash_range|by apply list_elem_of_In]. }
  destruct (d_alloc_spec junk st chains (Some d) (Some nm) c n Hok Hown Hc Hroom) as (st1 & e & R1 & Hal & _).
  { intros q [= <-]. eauto. }
  destruct (d_alloc_dput_spec junk st chains d subs (Some nm) c n Hok Hown Hc Hroom Hsubs Ht) as (st1' & st2 & e' & R1' & _ & R2 & Hd2 & Hok2 & _ & Hl2).
  rewrite R1 in R1'. injection R1' as <- <-.
  assert (R : do_lookup junk (Some d) (Some nm) st = Ret (st2, None)).
  { destruct nm as [|c0 nm]; [done|]. unfold do_lookup. rewrite Hx. cbn [deref]. rewrite bind_Ret, Hdir, Hmiss, bind_Ret, R1, bind_Ret.
    rewrite (al_inodes _ _ _ _ _ _ _ _ _ Hal), Hi. cbn [deref]. by rewrite bind_Ret, Hop, R2, bind_Ret. }
  exists st2. split_and!; try done. unfold link_path_walk. rewrite Hd, walk_loop_cut by done.
  rewrite cut_reference by (by apply skip_slashes_split). rewrite skip_slashes_components, Ecomp. cbn [walk_list].
  unfold walk_component. rewrite !bool_decide_eq_false_2 by done. rewrite R. by bind_rets.
Qed.

End walk.

(** ** Concrete instances *)

#[export] Instance no_inode_ops : InodeOps (vfs_st Z) :=
  { op_lookup _ := None; op_create _ := None; op_mkdir _ := None; op_rmdir _ := None; op_rename _ := None }.

(** A root [q] with an inode at 64, and one cached child called "a". *)
Lemma cached_child : exists (st : vfs_st Z) chains q x a y, dcache_ok st chains /\
  dentries st !! q = Some x /\ d_inode x = Some 64 /\ d_parent x = Some q /\
  List.find (named st q [97]) (chains (d_hash (Some q) [97])) = Some a /\ dentries st !! a = Some y /\ d_count y = 1.
Proof.
  destruct dcache_with_root as (st & q & c & Hok & Hown & Hc & Hs & _ & Hx).
  set (x := set_d_inode (Some 64) (fresh_dentry junk_dentry None q (Some [47]))).
  set (st0 := set_dentries (<[q := x]> (dentries st)) st).
  assert (Hok0 : dcache_ok st0 (fun _ => [])) by (by eapply (dcache_update st)).
  assert (Hown0 : owned st0).
  { intros d. unfold st0. cbn [dentries set_dentries ext]. rewrite lookup_insert. case_decide; [subst; intros _; apply Hown; eauto|apply Hown]. }
  destruct (d_alloc_spec junk_dentry st0 _ (Some q) (Some [97]) c 0 Hok0 Hown0 Hc (conj I I)) as (st1 & a & _ & [Hnew Hden Hok1 _ _ _ _ _ _ _] & _).
  { intros q' [= <-]. exists []. by split. }
  set (y := fresh_dentry junk_dentry (Some q) a (Some [97])) in *.
  assert (Hy : dentries st1 !! a = Some y) by (by rewrite Hden, lookup_insert_eq).
  destruct (hash_dentry_spec st1 _ a y [97] Hok1 Hy eq_refl) as (h & _ & Hok2 & _).
  { intros (i & _ & Hin). by inversion Hin. }
  assert (Hqa : q <> a) by (intros ->; unfold st0 in Hnew; cbn in Hnew; by rewrite lookup_insert_eq in Hnew).
  set (st2 := set_dentries _ _) in Hok2. eexists st2, _, q, x, a, (rehashed y). split_and!; [exact Hok2| |done|done| |apply lookup_insert_eq|done].
  - unfold st2. cbn [dentries set_dentries]. rewrite lookup_insert_ne, Hden, lookup_insert_ne by done. apply lookup_insert_eq.
  - unfold requeue. rewrite decide_True by done. apply find_head, named_spec. exists (rehashed y). split; [apply lookup_insert_eq|done].
Qed.

Lemma path_a_short : no_nul [47; 97] /\ short_path [47; 97].
Proof. split; by repeat constructor. Qed.

Lemma resolve_a (st : vfs_st Z) chains q x a : dentries st !! q = Some x -> d_inode x = Some 64 ->
  List.find (named st q [97]) (chains (d_hash (Some q) [97])) = Some a ->
  resolve st chains q (path_components [47; 97]) = Some (a, [a]).
Proof.
  intros Hx Hi Hf. change (path_components [47; 97]) with [[97]]. cbn [resolve]. rewrite !decide_False by done.
  rewrite Hx. cbn [mbind option_bind]. rewrite Hi. cbn [mbind option_bind]. by rewrite Hf.
Qed.

Lemma cut_reference_witness : cut 9 [47; 97; 47; 47; 98; 99; 47; 46; 46] = [[97]; [98; 99]; [46; 46]].
Proof.
  change 9%nat with (length [47; 97; 47; 47; 98; 99; 47; 46; 46]). rewrite cut_reference; [by vm_compute|by repeat constructor].
Defined.

Lemma long_component_cut_witness : cut 70 (replicate 70 97) = [replicate 63 97; replicate 7 97].
Proof.
  assert (H := long_component_cut (replicate 70 97) ltac:(by apply Forall_replicate) ltac:(simpl; lia)). exact H.
Defined.

Lemma path_lookup_correct_witness : exists (st st' : vfs_st Z) q a nd,
  path_lookup junk_dentry 1 (Some [47; 97]) 0 (Some (mk_nd (Some q) None 0 0 None)) st = Ret (st', Some nd, 0) /\ nd_dentry nd = Some a.
Proof.
  destruct cached_child as (st & chains & q & x & a & y & Hok & Hx & Hi & Hp & Hf & _).
  destruct (path_lookup_correct junk_dentry 1 st chains [47; 97] 0 (mk_nd (Some q) None 0 0 None) q q a [a] Hok
              (proj1 path_a_short) (proj2 path_a_short) eq_refl) as (st' & R & _).
  { cbn [starts_at walk_up]. rewrite Hx. cbn [deref]. rewrite bind_Ret, Hp. by rewrite bool_decide_eq_true_2. }
  { by eapply resolve_a. }
  exists st, st', q, a. eexists. split; [exact R|reflexivity].
Defined.

Lemma path_release_unbalanced_witness : exists (st st1 st2 : vfs_st Z) q nd1 nd2,
  path_lookup junk_dentry 1 (Some [47; 97]) 0 (Some (mk_nd (Some q) None 0 0 None)) st = Ret (st1, Some nd1, 0) /\
  path_release (Some nd1) st1 = Ret (st2, Some nd2).
Proof.
  destruct cached_child as (st & chains & q & x & a & y & Hok & Hx & Hi & Hp & Hf & Hy & Hc).
  destruct (path_release_unbalanced junk_dentry 1 st chains [47; 97] 0 (mk_nd (Some q) None 0 0 None) q q a [a] y Hok
              (proj1 path_a_short) (proj2 path_a_short) eq_refl) as (st1 & st2 & nd1 & nd2 & R1 & R2 & _).
  { cbn [starts_at walk_up]. rewrite Hx. cbn [deref]. rewrite bind_Ret, Hp. by rewrite bool_decide_eq_true_2. }
  { by eapply resolve_a. }
  { right. by exists []. }
  { exact Hy. }
  { lia. }
  { done. }
  exists st, st1, st2, q, nd1, nd2. split; [exact R1|exact R2].
Defined.

Lemma link_path_walk_not_found_witness : exists (st st' : vfs_st Z) nd,
  link_path_walk junk_dentry (Some [97]) (Some nd) st = Ret (st', Some nd, -1).
Proof.
  destruct dcache_with_root as (st & q & c & Hok & Hown & Hc & Hs & _ & Hx).
  set (x := set_d_inode (Some 64) (fresh_dentry junk_dentry None q (Some [47]))).
  set (i := mk_inode 4 2 0 0 0 0 0 0 0 0 0 0 0 0 None None None).
  set (st0 := set_inodes {[64 := i]} (set_dentries (<[q := x]> (dentries st)) st)).
  assert (Hok0 : dcache_ok st0 (fun _ => [])) by (by eapply (dcache_update st)).
  assert (Hown0 : owned st0).
  { intros d. unfold st0. cbn [dentries set_inodes set_dentries ext]. rewrite lookup_insert. case_decide; [subst; intros _; apply Hown; eauto|apply Hown]. }
  destruct (link_path_walk_not_found junk_dentry st0 (fun _ => []) [97] (mk_nd (Some q) None 0 0 None) q x 64 i [97] [] [] c 0
              Hok0 Hown0 Hc (conj I I)) as (st' & R & _); try done.
  { by repeat constructor. }
  { by repeat constructor. }
  { apply lookup_insert_eq. }
  { intros e (k & _ & Hin). by inversion Hin. }
  exists st0, st', (mk_nd (Some q) None 0 0 None). exact R.
Defined.
