(* ===== verification/VfsInode.v ===== *)
(** * The inode cache and the operation wrappers of the VFS (fs/ext2/vfs.c)

    [struct inode_cache] is DEV_NO hash heads followed by the free head; the
    slot DEV_NO of the array is the free head.  An inode reaches its file system
    through the tables of its superblock, [SuperOps], and of its own,
    [InodeOps] and [FileOps]; the wrappers check the table and the slot.
    [fuel] bounds the wait for a locked inode.  Progress messages are left
    out. *)

From S2P Require Import Prelude ListHead.
From S2P Require Import BufferCache Vfs.

Definition INODES : Z := 30.
Definition I_DIRTY : Z := 1.
Definition I_lock : Z := Z.shiftl 1 0.

Definition locked_inode (i : inode) : inode := set_i_flags (SET_FLAG (i_flags i) I_lock) i.
Definition unlocked_inode (i : inode) : inode := set_i_flags (CLEAR_FLAG (i_flags i) I_lock) i.

(** [&i_cache.i_hash[i]], by the layout of the struct. *)
Definition i_hash_slot (i : Z) : option vnode :=
  if decide (0 <= i < DEV_NO) then Some (IHead i)
  else if decide (i = DEV_NO) then Some IFreeHead else None.

(** The assignments of inode_init; [i_state] is left as it was. *)
Definition init_inode_fields (dev_no inum : Z) (i : inode) : inode :=
  mk_inode (u16 dev_no) inum 0 0 0 0 0 0 0 0 0 0 (i_state i) 0 None None None.

Section inodes.
Context {E : Type} `{KAlloc E} `{SuperOps (vfs_st E)}.
(** What the memory of a fresh inode holds. *)
Variables (junk : Z -> inode) (fuel : nat).
Implicit Types st : vfs_st E.

(** The inode numbers display_inode_cache prints, queue by queue. *)
Definition display_inode_cache st : outcome (list (list Z)) :=
  mapM (fun i =>
    l ← list_for_each (size (vnodes st)) (i_hash_slot i) (vnodes st);
    mapM (fun k => p ← ihash_entry k; x ← deref (inodes st !! p); mret (i_no x)) l) [0; 1; 2; 3].

Fixpoint search_chain (n : nat) (run head : option vnode) (dev_no inum : Z) st : outcome (option Z) :=
  if bool_decide (run = head) then mret None
  else match n with
       | O => Spin
       | Datatypes.S n =>
           k ← deref run;
           p ← ihash_entry k;
           x ← deref (inodes st !! p);
           if (i_no x =? inum) && (i_dev x =? dev_no) then mret (Some p)
           else nx ← get_next run (vnodes st); search_chain n nx head dev_no inum st
       end.
Definition search_hash (dev_no inum : Z) st : outcome (option Z) :=
  index ← hash_fn inum dev_no;
  let head := i_hash_slot index in
  run ← get_next head (vnodes st);
  search_chain (size (vnodes st)) run head dev_no inum st.

Definition inode_init (p dev_no inum : Z) st : outcome (vfs_st E) :=
  st ← on_vnodes (INIT_LIST_NULL (Some (IHash p))) st;
  st ← on_vnodes (INIT_LIST_NULL (Some (ISbList p))) st;
  st ← on_vnodes (INIT_LIST_NULL (Some (IDentry p))) st;
  upd_inode p (init_inode_fields dev_no inum) st.

(** The tables of the superblock of an inode; no pointer on the way is checked. *)
Definition super_ops (p : Z) st : outcome Z :=
  x ← deref (inodes st !! p);
  s ← deref (i_sb x);
  sb ← deref (supers st !! s);
  deref (s_op sb).

(** On a miss [inode] is NULL, and its list node is used. *)
Fixpoint iget (n : nat) (dev_no inum : Z) st : outcome (vfs_st E * option Z) :=
  match n with
  | O => Spin
  | Datatypes.S n =>
      found ← search_hash dev_no inum st;
      match found with
      | Some p =>
          x ← deref (inodes st !! p);
          if IS_FLAG (i_flags x) I_lock then iget n dev_no inum st
          else
            st ← (if i_count x =? 0 then on_vnodes (list_del (Some (IFree p))) st else mret st);
            st ← upd_inode p (fun x => set_i_count (u32 (i_count x + 1)) x) st;
            st ← upd_inode p locked_inode st;
            mret (st, Some p)
      | None =>
          empty ← list_is_empty (Some IFreeHead) (vnodes st);
          if (empty : bool) then mret (st, None)
          else
            p ← deref found;
            st ← on_vnodes (list_del (Some (IFree p))) st;
            st ← upd_inode p (fun x => mk_inode (i_dev x) inum (i_count x) (i_mode x) (i_nlinks x) (i_uid x) (i_gid x)
                   (i_flags x) (i_size x) (i_atime x) (i_mtime x) (i_ctime x) (i_state x) (i_blocks x) (i_op x) (i_fop x) (i_sb x)) st;
            st ← on_vnodes (list_del (Some (IHash p))) st;
            index ← hash_fn dev_no inum;
            st ← on_vnodes (list_add (i_hash_slot index) (Some (IHash p))) st;
            ops ← super_ops p st;
            read_inode ← deref (sop_read_inode ops);
            st ← read_inode p st;
            st ← upd_inode p (fun x => set_i_count (u32 (i_count x + 1)) x) st;
            st ← upd_inode p locked_inode st;
            mret (st, Some p)
      end
  end.

Definition iput (p : Z) st : outcome (vfs_st E) :=
  st ← upd_inode p locked_inode st;
  st ← upd_inode p (fun x => set_i_count (u32 (i_count x - 1)) x) st;
  x ← deref (inodes st !! p);
  st ← (if (i_count x =? 0) && IS_FLAG (i_state x) I_DIRTY then
          ops ← super_ops p st;
          write_inode ← deref (sop_write_inode ops);
          '(st, _) ← write_inode p st;
          mret st
        else mret st);
  st ← on_vnodes (list_add_tail (Some IFreeHead) (Some (IFree p))) st;
  upd_inode p unlocked_inode st.

Definition test_icache st : outcome (vfs_st E) :=
  '(st, _) ← iget fuel DEV_NO 16 st; mret st.

Definition create_file_cache st : outcome (vfs_st E) :=
  '(e, c) ← ka_cache_create sizeof_file (ext st); mret (set_inode_caches (vfs_inode_cache st) c (set_ext e st)).

(** A fresh inode: its list nodes come with it. *)
Definition new_inode (p : Z) st : vfs_st E :=
  new_nodes (inode_nodes p) (set_inodes (<[p := junk p]> (inodes st)) st).

Fixpoint create_inodes (n : nat) (iCnt c : Z) st : outcome (vfs_st E) :=
  match n with
  | O => mret st
  | Datatypes.S n =>
      '(e, tmp) ← ka_cache_alloc c (ext st);
      let st := set_ext e st in
      match tmp with
      | None => mret st
      | Some p =>
          st ← inode_init p DEV_NO iCnt (new_inode p st);
          index ← hash_fn iCnt DEV_NO;
          st ← on_vnodes (list_add (i_hash_slot index) (Some (IHash p))) st;
          st ← on_vnodes (list_add (Some IFreeHead) (Some (IFree p))) st;
          create_inodes n (iCnt + 1) c st
      end
  end.
Fixpoint init_inode_heads (n : nat) (i : Z) st : outcome (vfs_st E) :=
  match n with
  | O => mret st
  | Datatypes.S n => st ← on_vnodes (INIT_LIST_HEAD (i_hash_slot i)) st; init_inode_heads n (i + 1) st
  end.
Definition create_inode_cache st : outcome (vfs_st E) :=
  '(e, c) ← ka_cache_create sizeof_vfs_inode (ext st);
  let st := set_inode_caches c (vfs_file_cache st) (set_ext e st) in
  match c with
  | None => mret st
  | Some c =>
      st ← create_file_cache st;
      st ← init_inode_heads (Z.to_nat DEV_NO) 0 st;
      st ← on_vnodes (INIT_LIST_HEAD (Some IFreeHead)) st;
      st ← create_inodes (Z.to_nat INODES) 0 c st;
      _ ← display_inode_cache st;
      test_icache st
  end.

End inodes.

(** ** The wrappers *)

Section wrappers.
Context {E : Type} `{InodeOps (vfs_st E)} `{FileOps (vfs_st E)}.
Implicit Types st : vfs_st E.

(** The operation in a slot of the table of an inode, when both are there. *)
Definition inode_op {F} (slot : Z -> option F) (dir : Z) st : outcome (option F) :=
  x ← deref (inodes st !! dir);
  mret (match i_op x with Some ops => slot ops | None => None end).
Definition file_op {F} (slot : Z -> option F) (f : Z) st : outcome (option F) :=
  x ← deref (files st !! f);
  mret (match f_op x with Some ops => slot ops | None => None end).

Definition vfs_create (dir dentry : option Z) (mode : Z) st : outcome (vfs_st E * Z) :=
  match dir, dentry with
  | Some i, Some d =>
      op ← inode_op op_create i st;
      match op with Some create => create i d mode st | None => mret (st, -1) end
  | _, _ => mret (st, -1)
  end.
Definition vfs_mkdir (dir dentry : option Z) (mode : Z) st : outcome (vfs_st E * Z) :=
  match dir, dentry with
  | Some i, Some d =>
      op ← inode_op op_mkdir i st;
      match op with Some mkdir => mkdir i d mode st | None => mret (st, -1) end
  | _, _ => mret (st, -1)
  end.
Definition vfs_rmdir (dir dentry : option Z) st : outcome (vfs_st E * Z) :=
  match dir, dentry with
  | Some i, Some d =>
      op ← inode_op op_rmdir i st;
      match op with Some rmdir => rmdir i d st | None => mret (st, -1) end
  | _, _ => mret (st, -1)
  end.
(** vfs_unlink calls rmdir. *)
Definition vfs_unlink (dir dentry : option Z) st : outcome (vfs_st E * Z) :=
  match dir, dentry with
  | Some i, Some d =>
      op ← inode_op op_rmdir i st;
      match op with Some rmdir => rmdir i d st | None => mret (st, -1) end
  | _, _ => mret (st, -1)
  end.
Definition vfs_rename (old_dir old_dentry new_dir new_dentry : option Z) st : outcome (vfs_st E * Z) :=
  match old_dir, old_dentry, new_dir, new_dentry with
  | Some i, Some d, Some j, Some e =>
      op ← inode_op op_rename i st;
      match op with Some rename => rename i d j e st | None => mret (st, -1) end
  | _, _, _, _ => mret (st, -1)
  end.
(** The buffer is the bytes read; [buf] says whether the pointer is not NULL. *)
Definition vfs_read (file : option Z) (buf : bool) (count : Z) (pos : option Z) st
  : outcome (vfs_st E * Z * list Z * option Z) :=
  match file, buf with
  | Some f, true =>
      op ← file_op fop_read f st;
      match op with Some read => read f count pos st | None => mret (st, -1, [], pos) end
  | _, _ => mret (st, -1, [], pos)
  end.
Definition vfs_write (file : option Z) (buf : option (list Z)) (pos : option Z) st : outcome (vfs_st E * Z * option Z) :=
  match file, buf with
  | Some f, Some bytes =>
      op ← file_op fop_write f st;
      match op with Some write => write f bytes pos st | None => mret (st, -1, pos) end
  | _, _ => mret (st, -1, pos)
  end.

End wrappers.
