(* ===== verification/Ext2Vfs.v ===== *)
(** * ext2 behind the VFS (fs/ext2/ext2_inode.c, ext2_dir.c, ext2_file.c, the
    mount callbacks of fs.c)

    The rest of the kernel below the VFS is [ext2_world]: the ext2 state of
    Ext2Balloc and the [struct ext2_sb_info] objects the mount code allocates.
    Its allocator is that of the buffer cache.  The operation tables are the
    instances of [SuperOps], [InodeOps] and [FileOps] at the end of each part.

    Where the code reads a [struct inode] through a pointer to [inode_t], the
    model lays the struct out byte by byte as the compiler for i386 does and
    decodes these bytes: [inode_bytes], [as_inode_t].

    [Ext2Env] holds what the source does not fix: the addresses of the tables
    and of list nodes, the bounds of waiting loops, and what padding,
    uninitialised and foreign memory holds. *)

From S2P Require Import Prelude ListHead.
From S2P Require Import Layout Ports Disk BufferCache Ext2Layout Mkfs Ext2Balloc Ext2Fs.
From S2P Require Import Vfs Dcache VfsInode Super Namei.

Definition s64 (x : Z) : Z := (x + 2 ^ 63) mod 2 ^ 64 - 2 ^ 63.
Definition EXT2_FT_REG_FILE : Z := 1.
Definition NR_OPEN : Z := 30.

(** ** The state below the VFS *)

(** A [struct ext2_sb_info] in memory: [s_sbh] is a buffer, [s_es] the address
    of its data area. *)
Record sb_object := mk_sb_object { so_info : ext2_sb_info; s_sbh : option Z; s_es : option Z }.
Definition sizeof_ext2_sb_info : Z := 112.

Class Ext2Env := {
  ext2_dir_inode_operations : Z;
  ext2_file_inode_operations : Z;
  ext2_file_operations : Z;
  ext2_sops : Z;
  ext2_fs_type : Z;
  env_fuel : nat;
  env_patience : nat;
  node_addr : vnode -> Z;
  gap_byte : Z -> Z -> Z;               (* of the object at an address, by offset *)
  stack_inode : inode_t;
  stack_byte : Z;
  stack_nd : nameidata;
  fresh_mem : Z -> dentry;
  fresh_info : sb_object;
}.

Record ext2_world (S A : Type) := mk_world { efs : ext2_st S A; sb_infos : gmap Z sb_object }.
Arguments mk_world {S A}.
Arguments efs {S A}.
Arguments sb_infos {S A}.

Section lift.
Context {S A : Type} `{KAlloc A} `{KFree A} `{KCacheFree A}.

Definition wheap (w : ext2_world S A) : A := heap (cache (efs w)).
Definition set_wheap (a : A) (w : ext2_world S A) : ext2_world S A :=
  mk_world (set_cache (BufferCache.set_heap a (cache (efs w))) (efs w)) (sb_infos w).
Definition on_wheap (f : A -> outcome (A * option Z)) (w : ext2_world S A) : outcome (ext2_world S A * option Z) :=
  '(a, p) ← f (wheap w); mret (set_wheap a w, p).

#[export] Instance world_alloc : KAlloc (ext2_world S A) := {|
  ka_cache_create := fun n => on_wheap (ka_cache_create n);
  ka_cache_alloc := fun c => on_wheap (ka_cache_alloc c);
  ka_kmalloc := fun n => on_wheap (ka_kmalloc n) |}.
#[export] Instance world_free : KFree (ext2_world S A) := {|
  ka_kfree := fun p w => a ← ka_kfree p (wheap w); mret (set_wheap a w) |}.
#[export] Instance world_cache_free : KCacheFree (ext2_world S A) := {|
  ka_cache_free := fun c p w => a ← ka_cache_free c p (wheap w); mret (set_wheap a w) |}.

Implicit Types st : vfs_st (ext2_world S A).

(** A step of the file system, seen from the VFS. *)
Definition set_efs (fs : ext2_st S A) st := set_ext (mk_world fs (sb_infos (ext st))) st.
Definition set_sb_infos m st := set_ext (mk_world (efs (ext st)) m) st.
Definition fs_step {R} (f : ext2_st S A -> outcome (ext2_st S A * R)) st : outcome (vfs_st (ext2_world S A) * R) :=
  '(fs, r) ← f (efs (ext st)); mret (set_efs fs st, r).
Definition fs_do (f : ext2_st S A -> outcome (ext2_st S A)) st : outcome (vfs_st (ext2_world S A)) :=
  fs ← f (efs (ext st)); mret (set_efs fs st).
Definition kfree_obj (p : Z) st : outcome (vfs_st (ext2_world S A)) :=
  e ← ka_kfree (Some p) (ext st); mret (set_ext e st).

End lift.

(** ** The cast from [struct inode] to [inode_t] *)

Section cast.
Context {E : Type} `{Ext2Env}.
Implicit Types st : vfs_st E.

Definition gap (p off n : Z) : list Z := flat_map (fun i => le 1 (gap_byte p i)) (seqZ off n).
Definition ptr_bytes (p : option Z) : list Z := le 4 (default 0 p).
Definition node_bytes (k : vnode) st : outcome (list Z) :=
  n ← deref (vnodes st !! k);
  mret (ptr_bytes (node_addr <$> next n) ++ ptr_bytes (node_addr <$> prev n)).

(** The 96 bytes of the struct and the 32 bytes behind it. *)
Definition inode_bytes (p : Z) st : outcome (list Z) :=
  x ← deref (inodes st !! p);
  n1 ← node_bytes (IHash p) st;
  n2 ← node_bytes (IFree p) st;
  n3 ← node_bytes (ISbList p) st;
  n4 ← node_bytes (IDentry p) st;
  mret (n1 ++ n2 ++ n3 ++ n4 ++
        le 2 (i_dev x) ++ gap p 34 2 ++ le 4 (i_no x) ++ le 4 (i_count x) ++ le 2 (i_mode x) ++ gap p 46 2 ++
        le 4 (i_nlinks x) ++ le 2 (i_uid x) ++ le 2 (i_gid x) ++ le 4 (i_flags x) ++ le 4 (i_size x) ++
        le 4 (i_atime x) ++ le 4 (i_mtime x) ++ le 4 (i_ctime x) ++ le 4 (i_state x) ++ le 4 (i_blocks x) ++
        ptr_bytes (i_op x) ++ ptr_bytes (i_fop x) ++ ptr_bytes (i_sb x) ++ gap p 96 32).
Definition as_inode_t (p : Z) st : outcome inode_t := bytes ← inode_bytes p st; struct_at 0 bytes.
Definition as_handle (p : Z) st : outcome ext2_file_handle :=
  i ← as_inode_t p st; x ← deref (inodes st !! p); mret (mk_handle i (i_no x)).

End cast.

(** ** Inodes (ext2_inode.c) *)

Section inodes.
Context {S A : Type} `{PortIO S} `{KAlloc A} `{KFree A} `{KCacheFree A} `{Ext2Env}.
Abbreviation world := (vfs_st (ext2_world S A)).
Implicit Types st : world.

(** The tables by the type of the file; a directory keeps its [f_op]. *)
Definition with_tables (mode : Z) (x : inode) : inode :=
  if Z.land mode EXT2_S_IFDIR =? 0
  then set_i_fop (Some ext2_file_operations) (set_i_op (Some ext2_file_inode_operations) x)
  else set_i_op (Some ext2_dir_inode_operations) x.

(** [n] as the disk has it. *)
Definition from_disk (n : inode_t) (x : inode) : inode :=
  with_tables (Ext2Layout.i_mode n)
    (mk_inode (i_dev x) (i_no x) (i_count x) (Ext2Layout.i_mode n) (i_links_count n) (Ext2Layout.i_uid n) (Ext2Layout.i_gid n)
       (i_flags x) (Ext2Layout.i_size n) (Ext2Layout.i_atime n) (Ext2Layout.i_mtime n) (Ext2Layout.i_ctime n) (i_state x)
       (Ext2Layout.i_blocks n) (i_op x) (i_fop x) (i_sb x)).
(** The members of [n] that ext2_write_inode assigns; [i_links_count] has 16
    bits. *)
Definition to_disk (x : inode) (n : inode_t) : inode_t :=
  mk_inode_t (i_mode x) (i_uid x) (i_size x) (i_atime x) (i_ctime x) (i_mtime x) (i_dtime n) (i_gid x)
    (u16 (i_nlinks x)) (i_blocks x) (Ext2Layout.i_flags n) (i_osd1 n) (i_block n) (i_generation n) (i_file_acl n)
    (i_dir_acl n) (i_faddr n) (i_osd2 n).

Definition ext2_read_inode (inode : option Z) st : outcome world :=
  match inode with
  | None => mret st
  | Some p =>
      x ← deref (inodes st !! p);
      '(st, disk_inode) ← fs_step (get_inode env_fuel env_patience (i_no x)) st;
      upd_inode p (from_disk disk_inode) st
  end.

Definition ext2_write_inode (inode : option Z) st : outcome (world * Z) :=
  match inode with
  | None => mret (st, -1)
  | Some p =>
      x ← deref (inodes st !! p);
      '(st, disk_inode) ← fs_step (get_inode env_fuel env_patience (i_no x)) st;
      st ← fs_do (write_inode_table env_fuel env_patience (i_no x) (to_disk x disk_inode)) st;
      mret (st, 0)
  end.

Definition ext2_free_inode (inode : option Z) st : outcome world :=
  match inode with
  | None => mret st
  | Some p => x ← deref (inodes st !! p); fs_do (unset_inode_bitmap env_patience (i_no x)) st
  end.

Definition ext2_delete_inode (inode : option Z) st : outcome world :=
  match inode with
  | None => mret st
  | Some _ => ext2_free_inode inode st
  end.

(** [block_num] says whether the pointer is not NULL; the last component is
    what is stored through it. *)
Definition ext2_get_block (inode : option Z) (block_idx : Z) (block_num : bool) st : outcome (world * Z * option Z) :=
  match inode, block_num with
  | Some p, true =>
      x ← deref (inodes st !! p);
      '(st, disk_inode) ← fs_step (get_inode env_fuel env_patience (i_no x)) st;
      '(st, n) ← fs_step (indirect_block env_fuel env_patience disk_inode block_idx) st;
      mret (st, 0, Some n)
  | _, _ => mret (st, -1, None)
  end.

(** The table [ext2_sops]: the two slots iget and iput use. *)
#[export] Instance ext2_super_operations : SuperOps world := {|
  sop_read_inode := fun t => if t =? ext2_sops then Some (fun p => ext2_read_inode (Some p)) else None;
  sop_write_inode := fun t => if t =? ext2_sops then Some (fun p => ext2_write_inode (Some p)) else None |}.

Definition ext2_iget (dev_no inum : Z) st : outcome (world * option Z) := iget env_fuel (u16 dev_no) (u32 inum) st.

(** The inode that was reserved stays reserved when iget fails. *)
Definition ext2_new_inode (dir : option Z) (mode : Z) st : outcome (world * option Z) :=
  '(st, r) ← fs_step (reserve_free_inode env_patience) st;
  match r with
  | None => mret (st, None)
  | Some free_inode_n =>
      dev ← (match dir with Some d => x ← deref (inodes st !! d); mret (i_dev x) | None => mret DEV_NO end);
      '(st, inode) ← ext2_iget dev free_inode_n st;
      match inode with
      | None => mret (st, None)
      | Some p =>
          st ← upd_inode p (fun x =>
                 with_tables mode
                   (mk_inode (i_dev x) (i_no x) (i_count x) (u16 mode) 1 0 0 (i_flags x) 0 (i_atime x) (i_mtime x) (i_ctime x)
                      (i_state x) 0 (i_op x) (i_fop x) (i_sb x))) st;
          mret (st, Some p)
      end
  end.

(** ** Directories (ext2_dir.c) *)

(** What ext2_lookup, ext2_create and ext2_mkdir assign to the VFS inode. *)
Definition fill_inode (mode size blocks ops : Z) (x : inode) : inode :=
  mk_inode (i_dev x) (i_no x) (i_count x) mode (i_nlinks x) (i_uid x) (i_gid x) (i_flags x) size (i_atime x) (i_mtime x)
    (i_ctime x) (i_state x) blocks (Some ops) (i_fop x) (i_sb x).

Definition entry_at (block j : Z) st : outcome dentry_t :=
  bytes ← deref (bdata (cache (efs (ext st))) !! block);
  struct_at (j * Z.of_nat (sizeof_struct dentry_t)) bytes.

(** The first entry of a block that is in use and has the name; [n] entries
    are left. *)
Fixpoint search_entries (n : nat) (j block : Z) (nm : list Z) st : outcome (option Z) :=
  match n with
  | O => mret None
  | Datatypes.S n =>
      entry ← entry_at block j st;
      if Ext2Layout.inode entry =? 0 then search_entries n (j + 1) block nm st
      else
        found ← name_matches (name entry) nm;
        if (found : bool) then mret (Some j) else search_entries n (j + 1) block nm st
  end.

(** The branch of ext2_lookup for a matching entry. *)
Definition lookup_found (dir d block j : Z) st : outcome (world * option Z) :=
  entry ← entry_at block j st;
  '(st, disk_inode) ← fs_step (get_inode env_fuel env_patience (Ext2Layout.inode entry)) st;
  x ← deref (inodes st !! dir);
  entry ← entry_at block j st;
  '(st, r) ← ext2_iget (i_dev x) (Ext2Layout.inode entry) st;
  match r with
  | None => st ← kfree_obj block st; mret (st, None)
  | Some p =>
      let mode := Ext2Layout.i_mode disk_inode in
      st ← upd_inode p (fill_inode mode (Ext2Layout.i_size disk_inode) (Ext2Layout.i_blocks disk_inode)
             (if Z.land mode EXT2_S_IFDIR =? 0 then ext2_file_inode_operations else ext2_dir_inode_operations)) st;
      st ← d_instantiate (Some d) (Some p) st;
      st ← kfree_obj block st;
      mret (st, Some d)
  end.

Fixpoint lookup_loop (n : nat) (i : Z) (dir_file : ext2_file_handle) (dir d : Z) st : outcome (world * option Z) :=
  match n with
  | O => mret (st, None)
  | Datatypes.S n =>
      '(st, block) ← fs_step (get_file_block env_fuel env_patience dir_file i) st;
      match block with
      | None => lookup_loop n (i + 1) dir_file dir d st
      | Some block =>
          y ← deref (dentries st !! d);
          nm ← c_string (d_name y);
          found ← search_entries (Z.to_nat (EXT2_BLK_SIZE / Z.of_nat (sizeof_struct dentry_t))) 0 block nm st;
          match found with
          | Some j => lookup_found dir d block j st
          | None => st ← kfree_obj block st; lookup_loop n (i + 1) dir_file dir d st
          end
      end
  end.

Definition ext2_lookup (dir dentry : option Z) st : outcome (world * option Z) :=
  match dir, dentry with
  | Some p, Some d =>
      dir_file ← as_handle p st;
      lookup_loop (Z.to_nat (i_block_len (h_inode dir_file) (efs (ext st)))) 0 dir_file p d st
  | _, _ => mret (st, None)
  end.

(** The entry of a new file: strncpy leaves the last byte of [name] as it was. *)
Definition new_entry (ino type : Z) (nm : list Z) : dentry_t :=
  mk_dentry_t ino (Z.of_nat (sizeof_struct dentry_t)) (u8 (Z.of_nat (length nm))) type
    (take 63 (nm ++ replicate 63 0) ++ [stack_byte]).

(** ext2_create and ext2_mkdir from the point where inode and block are
    reserved: the inode table, the entry in the directory, the VFS inode. *)
Definition add_file (dir d ino : Z) (new_inode : inode_t) (type ops : Z) st : outcome (world * Z) :=
  st ← fs_do (write_inode_table env_fuel env_patience ino new_inode) st;
  y ← deref (dentries st !! d);
  nm ← c_string (d_name y);
  dir_file ← as_handle dir st;
  '(st, r) ← fs_step (add_dentry env_fuel env_patience dir_file (new_entry ino type nm)) st;
  match r with
  | None => mret (st, -1)
  | Some _ =>
      x ← deref (inodes st !! dir);
      '(st, vfs_inode) ← ext2_iget (i_dev x) ino st;
      match vfs_inode with
      | None => mret (st, 0)
      | Some p =>
          st ← upd_inode p (fill_inode (Ext2Layout.i_mode new_inode) (Ext2Layout.i_size new_inode)
                              (Ext2Layout.i_blocks new_inode) ops) st;
          st ← d_instantiate (Some d) (Some p) st;
          mret (st, 0)
      end
  end.

Definition reserve_both st : outcome (world * option (Z * Z)) :=
  '(st, i) ← fs_step (reserve_free_inode env_patience) st;
  match i with
  | None => mret (st, None)
  | Some free_inode_n =>
      '(st, b) ← fs_step (reserve_free_block env_patience) st;
      mret (st, (fun free_block_n => (free_inode_n, free_block_n)) <$> b)
  end.

Definition file_inode (mode block : Z) : inode_t :=
  mk_inode_t (u16 (Z.lor EXT2_S_IFREG mode)) 0 0 0 0 0 0 0 1 2 0 0 (<[0%nat := block]> (replicate 15 0)) 0 0 0 0 (replicate 12 0).
Definition dir_inode (mode block : Z) : inode_t :=
  let n := new_dir_inode stack_inode in
  mk_inode_t (u16 (Z.lor (Ext2Layout.i_mode n) mode)) (Ext2Layout.i_uid n) (Ext2Layout.i_size n) (Ext2Layout.i_atime n)
    (Ext2Layout.i_ctime n) (Ext2Layout.i_mtime n) (i_dtime n) (Ext2Layout.i_gid n) (i_links_count n) 2
    (Ext2Layout.i_flags n) (i_osd1 n) (<[0%nat := block]> (i_block n)) (i_generation n) (i_file_acl n) (i_dir_acl n)
    (i_faddr n) (i_osd2 n).

Definition ext2_create (dir dentry : option Z) (mode : Z) st : outcome (world * Z) :=
  match dir, dentry with
  | Some p, Some d =>
      '(st, r) ← reserve_both st;
      match r with
      | None => mret (st, -1)
      | Some (ino, block) => add_file p d ino (file_inode mode block) EXT2_FT_REG_FILE ext2_file_inode_operations st
      end
  | _, _ => mret (st, -1)
  end.
Definition ext2_mkdir (dir dentry : option Z) (mode : Z) st : outcome (world * Z) :=
  match dir, dentry with
  | Some p, Some d =>
      '(st, r) ← reserve_both st;
      match r with
      | None => mret (st, -1)
      | Some (ino, block) => add_file p d ino (dir_inode mode block) EXT2_FT_DIR ext2_dir_inode_operations st
      end
  | _, _ => mret (st, -1)
  end.

Definition ext2_rmdir (dir dentry : option Z) st : outcome (world * Z) :=
  match dir, dentry with
  | Some _, Some d =>
      y ← deref (dentries st !! d);
      match d_inode y with
      | None => mret (st, -1)
      | Some p =>
          x ← deref (inodes st !! p);
          st ← fs_do (unset_inode_bitmap env_patience (i_no x)) st;
          mret (st, 0)
      end
  | _, _ => mret (st, -1)
  end.
(** Not implemented in the source: -1 on every path. *)
Definition ext2_rename (old_dir old_dentry new_dir new_dentry : option Z) st : outcome (world * Z) := mret (st, -1).

(** The tables [ext2_dir_inode_operations] and [ext2_file_inode_operations];
    every slot of the second is NULL. *)
Definition dir_slot {F} (f : F) (t : Z) : option F := if t =? ext2_dir_inode_operations then Some f else None.
#[export] Instance ext2_inode_operations : InodeOps world := {|
  op_lookup := dir_slot (fun p d => ext2_lookup (Some p) (Some d));
  op_create := dir_slot (fun p d => ext2_create (Some p) (Some d));
  op_mkdir := dir_slot (fun p d => ext2_mkdir (Some p) (Some d));
  op_rmdir := dir_slot (fun p d => ext2_rmdir (Some p) (Some d));
  op_rename := dir_slot (fun p d q e => ext2_rename (Some p) (Some d) (Some q) (Some e)) |}.

End inodes.

(** ** Files (ext2_file.c) *)

(** The members of [struct task_struct] that open uses. *)
Record task_files := mk_task_files { filp : list (option Z); first_free_filp : Z }.

Section files.
Context {S A : Type} `{PortIO S} `{KAlloc A} `{KFree A} `{KCacheFree A} `{Ext2Env}.
Abbreviation world := (vfs_st (ext2_world S A)).
Implicit Types st : world.

Definition ext2_file_open (inode filp : option Z) st : outcome (world * Z) :=
  match inode, filp with
  | Some _, Some f => st ← upd_file f (set_f_op (Some ext2_file_operations)) st; mret (st, 0)
  | _, _ => mret (st, -1)
  end.
Definition ext2_file_release (inode filp : option Z) st : outcome (world * Z) := mret (st, 0).

(** The position for a [whence]; [None] for an unknown one. *)
Definition seek_pos (x : file) (i : inode) (offset whence : Z) : option Z :=
  if whence =? 0 then Some offset
  else if whence =? 1 then Some (s64 (f_pos x + offset))
  else if whence =? 2 then Some (s64 (i_size i + offset))
  else None.
Definition ext2_llseek (file : option Z) (offset whence : Z) st : outcome (world * Z) :=
  match file with
  | None => mret (st, -1)
  | Some f =>
      x ← deref (files st !! f);
      match f_dentry x with
      | None => mret (st, -1)
      | Some d =>
          y ← deref (dentries st !! d);
          match d_inode y with
          | None => mret (st, -1)
          | Some p =>
              i ← deref (inodes st !! p);
              match seek_pos x i offset whence with
              | None => mret (st, -1)
              | Some new_pos =>
                  if new_pos <? 0 then mret (st, -1)
                  else st ← upd_file f (set_f_pos new_pos) st; mret (st, new_pos)
              end
          end
      end
  end.

(** bread with the device of an inode. *)
Definition bread_dev (dev_no n : Z) (fs : ext2_st S A) : outcome (ext2_st S A * Z) :=
  '(c, bh) ← bread env_fuel env_patience (globals fs) dev_no n (cache fs); mret (set_cache c fs, bh).
Definition brelse_blk (bh : Z) (fs : ext2_st S A) : outcome (ext2_st S A) :=
  c ← brelse bh (cache fs); mret (set_cache c fs).

(** The part of a block the next iteration moves: index, offset and length.
    [/] and [%] of a [long long] truncate towards zero. *)
Definition block_part (pos left : Z) : Z * Z * Z :=
  let block_offset := u32 (Z.rem pos EXT2_BLK_SIZE) in
  let n := u32 (EXT2_BLK_SIZE - block_offset) in
  (u32 (Z.quot pos EXT2_BLK_SIZE), block_offset, if left <? n then left else n).

(** The loop of ext2_file_read: the new position, the bytes read and the
    buffer.  [n] bounds the bytes left; [out] is the outcome when the bound is
    used up before the loop is over. *)
Fixpoint read_loop (out : outcome (world * Z * Z * list Z)) (n : nat) (p pos count read_bytes : Z) (buf : list Z) st : outcome (world * Z * Z * list Z) :=
  if count <=? read_bytes then mret (st, pos, read_bytes, buf)
  else match n with
       | O => out
       | Datatypes.S n =>
           let '(block_idx, block_offset, bytes_to_read) := block_part pos (u32 (count - read_bytes)) in
           file ← as_inode_t p st;
           '(st, block_num) ← fs_step (indirect_block env_fuel env_patience file block_idx) st;
           if block_num =? 0 then mret (st, pos, read_bytes, buf)
           else
             x ← deref (inodes st !! p);
             '(st, bh) ← fs_step (bread_dev (i_dev x) block_num) st;
             bytes ← buf_bytes bh (efs (ext st));
             chunk ← read_at (Z.to_nat block_offset) (Z.to_nat bytes_to_read) bytes;
             st ← fs_do (brelse_blk bh) st;
             read_loop out n p (s64 (pos + bytes_to_read)) count (u32 (read_bytes + bytes_to_read)) (buf ++ chunk) st
       end.

(** [buf] says whether the pointer is not NULL.  [f_dentry] is not checked. *)
Definition ext2_file_read (filp : option Z) (buf : bool) (count : Z) (ppos : option Z) st
  : outcome (world * Z * list Z * option Z) :=
  match filp, buf, ppos with
  | Some f, true, Some pos =>
      x ← deref (files st !! f);
      d ← deref (f_dentry x);
      y ← deref (dentries st !! d);
      match d_inode y with
      | None => mret (st, -1, [], ppos)
      | Some p =>
          i ← deref (inodes st !! p);
          if i_size i <=? pos then mret (st, 0, [], ppos)
          else
            let count := if i_size i <? s64 (pos + count) then u32 (i_size i - pos) else count in
            '(st, pos, read_bytes, bytes) ← read_loop Spin (Z.to_nat count) p pos count 0 [] st;
            mret (st, s32 read_bytes, bytes, Some pos)
      end
  | _, _, _ => mret (st, -1, [], ppos)
  end.

(** The loop of ext2_file_write.  A block that is allocated here is not entered
    into the inode; [None] from reserve_free_block ends the loop. *)
Definition block_for_write (file : inode_t) (block_idx : Z) st : outcome (world * option Z) :=
  '(st, block_num) ← fs_step (indirect_block env_fuel env_patience file block_idx) st;
  if block_num =? 0 then fs_step (reserve_free_block env_patience) st else mret (st, Some block_num).
Fixpoint write_loop (out : outcome (world * Z * Z)) (n : nat) (p pos : Z) (buf : list Z) (written_bytes : Z) st : outcome (world * Z * Z) :=
  let count := Z.of_nat (length buf) in
  if count <=? written_bytes then mret (st, pos, written_bytes)
  else match n with
       | O => out
       | Datatypes.S n =>
           let '(block_idx, block_offset, bytes_to_write) := block_part pos (u32 (count - written_bytes)) in
           file ← as_inode_t p st;
           '(st, r) ← block_for_write file block_idx st;
           match r with
           | None => mret (st, pos, written_bytes)
           | Some block_num =>
               x ← deref (inodes st !! p);
               '(st, bh) ← fs_step (bread_dev (i_dev x) block_num) st;
               chunk ← read_at (Z.to_nat written_bytes) (Z.to_nat bytes_to_write) buf;
               st ← fs_do (on_buf (write_at (Z.to_nat block_offset) chunk) bh) st;
               st ← fs_do (fun fs => c ← upd_buf bh (fun b => BufferCache.set_flags (u16 (SET_FLAG (flags b) BH_dirty)) b) (cache fs);
                                     mret (set_cache c fs)) st;
               st ← fs_do (bwrite_blk env_patience bh) st;
               write_loop out n p (s64 (pos + bytes_to_write)) buf (u32 (written_bytes + bytes_to_write)) st
           end
       end.

(** [buf] is [None] for NULL; its length is the count. *)
Definition ext2_file_write (filp : option Z) (buf : option (list Z)) (ppos : option Z) st : outcome (world * Z * option Z) :=
  match filp, buf, ppos with
  | Some f, Some bytes, Some pos =>
      x ← deref (files st !! f);
      d ← deref (f_dentry x);
      y ← deref (dentries st !! d);
      match d_inode y with
      | None => mret (st, -1, ppos)
      | Some p =>
          '(st, pos, written_bytes) ← write_loop Spin (length bytes) p pos bytes 0 st;
          i ← deref (inodes st !! p);
          st ← (if i_size i <? pos then upd_inode p (set_i_size (u32 pos)) st else mret st);
          mret (st, s32 written_bytes, Some pos)
      end
  | _, _, _ => mret (st, -1, ppos)
  end.

(** The table [ext2_file_operations]. *)
#[export] Instance ext2_fops : FileOps world := {|
  fop_read := fun t => if t =? ext2_file_operations then Some (fun f => ext2_file_read (Some f) true) else None;
  fop_write := fun t => if t =? ext2_file_operations then Some (fun f bytes => ext2_file_write (Some f) (Some bytes)) else None;
  fop_release := fun t => if t =? ext2_file_operations then Some (fun i f => ext2_file_release i (Some f)) else None |}.

Definition init_file_entry (f : Z) st : outcome world :=
  upd_file f (fun x => set_f_pos 0 (set_f_count (u32 (f_count x + 1)) x)) st.

(** kmem_cache_zalloc: a file whose members are all zero. *)
Definition zalloc_file st : outcome (world * option Z) :=
  c ← deref (vfs_file_cache st);
  '(e, p) ← ka_cache_alloc c (ext st);
  let st := set_ext e st in
  match p with
  | None => mret (st, None)
  | Some f => mret (new_nodes [FList f] (set_files (<[f := mk_file None None 0 0 0 0 0 0]> (files st)) st), Some f)
  end.

(** [nd] is not initialised; on success there is no return statement, and the
    last component is [None].  An index past [filp] is a fault. *)
Definition open (pathname : option (list Z)) (flags mode : Z) (current : option task_files) st
  : outcome (world * option task_files * option Z) :=
  '(st, _, iRet) ← path_lookup fresh_mem env_fuel pathname 0 (Some stack_nd) st;
  if iRet =? -1 then mret (st, current, Some iRet)
  else
    '(st, r) ← zalloc_file st;
    match r with
    | None => mret (st, current, Some (-1))
    | Some f =>
        st ← init_file_entry f st;
        t ← deref current;
        if decide (0 <= first_free_filp t < NR_OPEN) then
          mret (st, Some (mk_task_files (<[Z.to_nat (first_free_filp t) := Some f]> (filp t)) (s32 (first_free_filp t + 1))), None)
        else Fault
    end.

End files.

(** ** Mounting (fs.c) *)

Section mount.
Context {S A : Type} `{PortIO S} `{KAlloc A} `{KFree A} `{KCacheFree A} `{Ext2Env}.
Abbreviation world := (vfs_st (ext2_world S A)).
Implicit Types st : world.

Definition EXT2_SB (sb : Z) st : outcome (option Z) := s ← deref (supers st !! sb); mret (s_fs_info s).
Definition sb_info (sb : Z) st : outcome sb_object := p ← EXT2_SB sb st; i ← deref p; deref (sb_infos (ext st) !! i).
Definition ext2_count_free_blocks (sb : Z) st : outcome Z := i ← sb_info sb st; mret (si_freeblocks_counter (so_info i)).
Definition ext2_count_free_inodes (sb : Z) st : outcome Z := i ← sb_info sb st; mret (si_freeinodes_counter (so_info i)).

Definition mark_buffer_dirty (bh : option Z) st : outcome world :=
  match bh with
  | None => mret st
  | Some b =>
      fs_do (fun fs => c ← upd_buf b (fun b => BufferCache.set_flags (u16 (SET_FLAG (flags b) BH_dirty)) b) (cache fs);
                       mret (set_cache c fs)) st
  end.

(** [es] points to the data area of a buffer. *)
Definition store_counts (es blocks inodes : Z) st : outcome world :=
  fs_do (fun fs =>
    bytes ← deref (bdata (cache fs) !! es);
    s ← (struct_at 0 bytes : outcome ext2_super_block);
    bytes ← set_struct_at 0 (with_free_counts blocks inodes s) bytes;
    mret (set_cache (BufferCache.set_bdata (<[es := bytes]> (bdata (cache fs))) (cache fs)) fs)) st.
Definition set_s_dirt v (s : super_block) : super_block :=
  mk_super_block (s_dev s) (s_blocksize s) v (s_op s) (s_flags s) (s_magic s) (s_root s) (s_count s) (s_fs_info s).
Definition ext2_sync_super (sb : Z) (es : option Z) (wait : Z) st : outcome world :=
  nb ← ext2_count_free_blocks sb st;
  ni ← ext2_count_free_inodes sb st;
  es ← deref es;
  st ← store_counts es nb ni st;
  i ← sb_info sb st;
  st ← mark_buffer_dirty (s_sbh i) st;
  upd_super sb (set_s_dirt 0) st.
Definition ext2_sync_fs (sb wait : Z) st : outcome (world * Z) :=
  i ← sb_info sb st;
  st ← ext2_sync_super sb (s_es i) wait st;
  mret (st, 0).
Definition ext2_write_super (sb : Z) st : outcome world := '(st, _) ← ext2_sync_fs sb 1 st; mret st.

Definition set_s_root v (s : super_block) : super_block :=
  mk_super_block (s_dev s) (s_blocksize s) (s_dirt s) (s_op s) (s_flags s) (s_magic s) v (s_count s) (s_fs_info s).
Definition set_s_fs_info v (s : super_block) : super_block :=
  mk_super_block (s_dev s) (s_blocksize s) (s_dirt s) (s_op s) (s_flags s) (s_magic s) (s_root s) (s_count s) v.
(** What ext2_read_super assigns to the superblock before it reads the root. *)
Definition mounted_super (sbi : Z) (s : super_block) : super_block :=
  mk_super_block DEV_NO EXT2_BLK_SIZE (s_dirt s) (Some ext2_sops) (s_flags s) EXT2_SUPER_MAGIC (s_root s) (s_count s) (Some sbi).

(** kfree of a [struct ext2_sb_info]. *)
Definition free_info (sbi : Z) st : outcome world :=
  st ← kfree_obj sbi st; mret (set_sb_infos (delete sbi (sb_infos (ext st))) st).
(** The exits on a failure after the buffer was read; [s_fs_info] keeps its
    value. *)
Definition unmount_failed (bh sbi : Z) st : outcome (world * option Z) :=
  st ← fs_do (brelse_blk bh) st; st ← free_info sbi st; mret (st, None).

Definition kmalloc_info st : outcome (world * option Z) :=
  '(e, p) ← ka_kmalloc sizeof_ext2_sb_info (ext st);
  let st := set_ext e st in
  match p with
  | None => mret (st, None)
  | Some sbi => mret (set_sb_infos (<[sbi := fresh_info]> (sb_infos (ext st))) st, Some sbi)
  end.

(** The root inode, its dentry and [s_root]. *)
Definition mount_root (sb bh sbi : Z) st : outcome (world * option Z) :=
  '(st, root) ← ext2_iget DEV_NO EXT2_ROOT_INO st;
  match root with
  | None => unmount_failed bh sbi st
  | Some _ =>
      st ← ext2_read_inode root st;
      '(st, root_dentry) ← d_alloc_root fresh_mem root st;
      match root_dentry with
      | None => unmount_failed bh sbi st
      | Some d => st ← upd_super sb (set_s_root (Some d)) st; mret (st, Some sb)
      end
  end.
Definition ext2_read_super (sb : option Z) (data silent : Z) st : outcome (world * option Z) :=
  match sb with
  | None => mret (st, None)
  | Some sb =>
      '(st, p) ← kmalloc_info st;
      match p with
      | None => mret (st, None)
      | Some sbi =>
          '(st, bh) ← fs_step (bread_dev DEV_NO 2) st;
          b ← deref (bufs (cache (efs (ext st))) !! bh);
          bytes ← buf_bytes bh (efs (ext st));
          es ← (struct_at 0 bytes : outcome ext2_super_block);
          if negb (Ext2Layout.s_magic es =? EXT2_SUPER_MAGIC) then unmount_failed bh sbi st
          else
            let info := copy_ext2_sb_to_mem (mkfs_vars (efs (ext st))) es in
            st ← upd_super sb (mounted_super sbi) (set_sb_infos (<[sbi := mk_sb_object info (Some bh) (b_data b)]> (sb_infos (ext st))) st);
            mount_root sb bh sbi st
      end
  end.

Definition ext2_put_super (sb : option Z) st : outcome world :=
  match sb with
  | None => mret st
  | Some sb =>
      sbi ← EXT2_SB sb st;
      match sbi with
      | None => mret st
      | Some i =>
          s ← deref (supers st !! sb);
          st ← (if negb (s_dirt s =? 0) then ext2_write_super sb st else mret st);
          o ← deref (sb_infos (ext st) !! i);
          st ← (match s_sbh o with Some bh => fs_do (brelse_blk bh) st | None => mret st end);
          st ← free_info i st;
          upd_super sb (set_s_fs_info None) st
      end
  end.

Definition ext2_register_filesystem st : outcome (world * Z) := register_filesystem (Some ext2_fs_type) st.

(** ** The start-up test of the superblock *)

Definition test_fs (fs : ext2_st S A) : outcome (ext2_st S A) :=
  '(fs, bh) ← bread_dev DEV_NO 2 fs;
  bytes ← buf_bytes bh fs;
  _ ← (struct_at 0 bytes : outcome ext2_super_block);
  brelse_blk bh fs.
Definition ext2_fs_init st : outcome world :=
  '(st, p) ← kmalloc_info st;
  match p with
  | None => mret st
  | Some p =>
      '(st, info) ← fs_step (read_sb env_fuel env_patience) st;
      let st := set_sb_infos (<[p := mk_sb_object info (s_sbh fresh_info) (s_es fresh_info)]> (sb_infos (ext st))) st in
      st ← fs_do (write_sb env_fuel env_patience info) st;
      fs_do test_fs st
  end.

End mount.
