(* ===== verification/VfsInv.v ===== *)
(** * What no run of the VFS ever does

    inode_init leaves the list head [i_dentry] of an inode NULL, and nothing
    else initialises it.  [bare] is the invariant that follows: no list node
    points to an [i_dentry], every [i_dentry] is NULL, and no dentry has an
    inode - because d_instantiate and d_alloc_root dereference the NULL before
    they return.  Every operation of the VFS and of ext2 keeps it; the proofs
    are partial correctness arguments in the style of a weakest precondition,
    [ensures], one lemma per operation, collected in the hint database
    [bare]. *)

From S2P Require Import Prelude ListHead.
From S2P Require Import Layout Ports Disk BufferCache Ext2Layout Mkfs Ext2Balloc Ext2Fs.
From S2P Require Import Vfs Dcache FileTable VfsInode Super Namei Ext2Vfs.

Create HintDb bare.

(** ** Postconditions of what returns *)

Definition ensures {R} (P : R -> Prop) (o : outcome R) : Prop := match o with Ret r => P r | _ => True end.

Lemma ensures_bind {R T} (Q : R -> Prop) (P : T -> Prop) (o : outcome R) (f : R -> outcome T) :
  ensures Q o -> (forall a, Q a -> ensures P (f a)) -> ensures P (o ≫= f).
Proof. destruct o; cbn; auto. Qed.
Lemma ensures_step {R T} (P : T -> Prop) (o : outcome R) (f : R -> outcome T) :
  (forall a, o = Ret a -> ensures P (f a)) -> ensures P (o ≫= f).
Proof. destruct o; cbn; auto. Qed.
Lemma ensures_mret {R} (P : R -> Prop) a : P a -> ensures P (mret a).
Proof. done. Qed.
Lemma ensures_Ret {R} (P : R -> Prop) o a : ensures P o -> o = Ret a -> P a.
Proof. by intros Ho ->. Qed.

Lemma bind_bind {A B C} (m : outcome A) (f : A -> outcome B) (g : B -> outcome C) :
  (m ≫= f) ≫= g = m ≫= (fun a => f a ≫= g).
Proof. by destruct m. Qed.

(** ** Lists that avoid [i_dentry] *)

Definition off_dentry (k : option vnode) : Prop := match k with Some (IDentry _) => False | _ => True end.

Record unlinked (h : gmap vnode (list_head vnode)) : Prop := {
  ul_ptr k n : h !! k = Some n -> off_dentry (next n) /\ off_dentry (prev n);
  ul_null p n : h !! IDentry p = Some n -> n = mk_list_head None None;
}.

Lemma unlinked_insert h k n : unlinked h -> off_dentry (next n) -> off_dentry (prev n) ->
  (off_dentry (Some k) \/ n = mk_list_head None None) -> unlinked (<[k := n]> h).
Proof.
  intros [Hp Hn] H1 H2 Hk. split.
  - intros j m. rewrite lookup_insert. case_decide; [intros [= <-]; auto|apply Hp].
  - intros p m. rewrite lookup_insert. case_decide; [subst; intros [= <-]; destruct Hk; [done|subst; done]|apply Hn].
Qed.
Lemma unlinked_delete h k : unlinked h -> unlinked (delete k h).
Proof. intros [Hp Hn]. split; intros ? ? [_ Hl]%lookup_delete_Some; eauto. Qed.

Section lists.
Implicit Types h : gmap vnode (list_head vnode).

Lemma unlinked_set_next p v h : unlinked h -> off_dentry v -> (off_dentry p \/ v = None) -> ensures unlinked (set_next p v h).
Proof.
  intros Hu Hv Hp. unfold set_next. apply ensures_step. intros a ->%deref_Ret. apply ensures_step. intros n Hn%deref_Ret.
  apply ensures_mret, unlinked_insert; cbn; [done|done|by eapply ul_ptr|].
  destruct Hp as [? | ->]; [by left|]. destruct a; (left; exact I) || right. by rewrite (ul_null _ Hu _ _ Hn).
Qed.
Lemma unlinked_set_prev p v h : unlinked h -> off_dentry v -> (off_dentry p \/ v = None) -> ensures unlinked (set_prev p v h).
Proof.
  intros Hu Hv Hp. unfold set_prev. apply ensures_step. intros a ->%deref_Ret. apply ensures_step. intros n Hn%deref_Ret.
  apply ensures_mret, unlinked_insert; cbn; [done|by eapply ul_ptr|done|].
  destruct Hp as [? | ->]; [by left|]. destruct a; (left; exact I) || right. by rewrite (ul_null _ Hu _ _ Hn).
Qed.
Lemma unlinked_next p h : unlinked h -> ensures off_dentry (get_next p h).
Proof. intros Hu. apply ensures_step. intros a _. apply ensures_step. intros n Hn%deref_Ret. cbn. by eapply ul_ptr. Qed.
Lemma unlinked_prev p h : unlinked h -> ensures off_dentry (get_prev p h).
Proof. intros Hu. apply ensures_step. intros a _. apply ensures_step. intros n Hn%deref_Ret. cbn. by eapply ul_ptr. Qed.

Lemma unlinked_init p h : unlinked h -> off_dentry p -> ensures unlinked (INIT_LIST_HEAD p h).
Proof. intros Hu Hp. eapply ensures_bind; [by apply unlinked_set_next; auto|]. intros h' Hu'. apply unlinked_set_prev; auto. Qed.
Lemma unlinked_init_null p h : unlinked h -> ensures unlinked (INIT_LIST_NULL p h).
Proof. intros Hu. eapply ensures_bind; [by apply unlinked_set_next; auto|]. intros h' Hu'. apply unlinked_set_prev; cbn; auto. Qed.
Lemma unlinked_generic_add a b c h : unlinked h -> off_dentry a -> off_dentry b -> off_dentry c ->
  ensures unlinked (generic_add a b c h).
Proof.
  intros Hu Ha Hb Hc. eapply ensures_bind; [by apply unlinked_set_next; auto|]. intros h1 H1.
  eapply ensures_bind; [by apply unlinked_set_prev; auto|]. intros h2 H2.
  eapply ensures_bind; [by apply unlinked_set_next; auto|]. intros h3 H3. apply unlinked_set_prev; auto.
Qed.

(** The list of an inode cannot be extended. *)
Lemma list_add_dentry i k h : unlinked h -> list_add (Some (IDentry i)) k h = Fault.
Proof.
  intros Hu. unfold list_add, get_next. cbn [deref]. rewrite bind_Ret. destruct (h !! IDentry i) as [n|] eqn:E; [|done].
  cbn [deref]. rewrite (ul_null _ Hu _ _ E), bind_Ret, bind_mret. unfold generic_add.
  assert (Hf : forall (o : outcome (gmap vnode (list_head vnode))) f, (forall h, f h = Fault) -> o <> Spin -> o ≫= f = (Fault : outcome (gmap vnode (list_head vnode))))
    by (intros [] f Hf ?; cbn; [apply Hf|done|done]).
  assert (Hn : forall p v h, set_next p v h <> Spin) by (intros [k0|] w h0; unfold set_next; cbn; [by destruct (h0 !! _)|done]).
  assert (Hp : forall p v h, set_prev p v h <> Spin) by (intros [k0|] w h0; unfold set_prev; cbn; [by destruct (h0 !! _)|done]).
  apply Hf; [|apply Hn]. intros h1. apply Hf; [|apply Hp]. intros h2. by apply Hf; [|apply Hn].
Qed.
Lemma unlinked_add a b h : unlinked h -> off_dentry b -> ensures unlinked (list_add a b h).
Proof.
  intros Hu Hb. destruct a as [k|]; [|done]. destruct k;
    lazymatch goal with
    | |- ensures _ (list_add (Some (IDentry _)) _ _) => by rewrite list_add_dentry
    | |- _ => eapply ensures_bind; [by apply unlinked_next|]; intros nx Hnx; by apply unlinked_generic_add
    end.
Qed.
Lemma unlinked_add_tail a b h : unlinked h -> off_dentry a -> off_dentry b -> ensures unlinked (list_add_tail a b h).
Proof. intros Hu Ha Hb. eapply ensures_bind; [by apply unlinked_prev|]. intros pv Hpv. by apply unlinked_generic_add. Qed.
Lemma unlinked_del a h : unlinked h -> ensures unlinked (list_del a h).
Proof.
  intros Hu. eapply ensures_bind; [|intros h1 H1; by apply unlinked_init_null].
  eapply ensures_bind; [by apply unlinked_next|]. intros nx Hnx. eapply ensures_bind; [by apply unlinked_prev|]. intros pv Hpv.
  eapply ensures_bind; [by apply unlinked_set_prev; auto|]. intros h1 H1.
  eapply ensures_bind; [by apply unlinked_prev|]. intros pv' Hpv'. eapply ensures_bind; [by apply unlinked_next|]. intros nx' Hnx'.
  apply unlinked_set_next; auto.
Qed.

End lists.
#[export] Hint Resolve unlinked_init unlinked_init_null unlinked_add unlinked_add_tail unlinked_del : bare.
#[export] Hint Extern 1 (off_dentry _) => exact I : bare.

(** ** The invariant of the state *)

Section bare.
Context {E : Type}.
Implicit Types st : vfs_st E.

Record bare st : Prop := {
  bare_nodes : unlinked (vnodes st);
  bare_dentry d x : dentries st !! d = Some x -> d_inode x = None;
}.
Definition bare1 {R} (r : vfs_st E * R) : Prop := bare r.1.
Definition bare2 {R T} (r : vfs_st E * R * T) : Prop := bare r.1.1.
Definition bare3 {R T U} (r : vfs_st E * R * T * U) : Prop := bare r.1.1.1.

Lemma bare_same st st' : bare st -> vnodes st' = vnodes st -> dentries st' = dentries st -> bare st'.
Proof. intros [Hn Hd] En Ed. split; [by rewrite En|]. rewrite Ed. exact Hd. Qed.
Lemma bare_on_vnodes f st : bare st -> ensures unlinked (f (vnodes st)) -> ensures bare (on_vnodes f st).
Proof. intros [Hn Hd] Hf. eapply ensures_bind; [exact Hf|]. intros h Hh. by split. Qed.
Lemma bare_set_dentry d x st : bare st -> d_inode x = None -> bare (set_dentries (<[d := x]> (dentries st)) st).
Proof.
  intros [Hn Hd] Hx. split; [done|]. intros e y. cbn. rewrite lookup_insert. case_decide; [by intros [= <-]|apply Hd].
Qed.
Lemma bare_upd_dentry d f st : bare st -> (forall x, d_inode (f x) = d_inode x) -> ensures bare (upd_dentry d f st).
Proof.
  intros Hb Hf. apply ensures_step. intros x Hx%deref_Ret. apply ensures_mret, bare_set_dentry; [done|].
  rewrite Hf. by eapply bare_dentry.
Qed.
Lemma bare_new_nodes ns st : bare st -> bare (new_nodes ns st).
Proof.
  intros [Hn Hd]. split; [|done]. cbn. induction ns as [|k ns IH]; [done|]. cbn. apply unlinked_insert; cbn; auto.
Qed.
Lemma bare_drop_nodes ns st : bare st -> bare (drop_nodes ns st).
Proof. intros [Hn Hd]. split; [|done]. cbn. induction ns as [|k ns IH]; [done|]. cbn. by apply unlinked_delete. Qed.
Lemma bare_delete d st : bare st -> bare (set_dentries (delete d (dentries st)) st).
Proof. intros [Hn Hd]. split; [done|]. intros e y. cbn. intros [_ Hl]%lookup_delete_Some. eauto. Qed.
Lemma bare_upd_inode p f st : bare st -> ensures bare (upd_inode p f st).
Proof. intros Hb. apply ensures_step. intros x _. apply ensures_mret. by eapply bare_same. Qed.
Lemma bare_upd_file p f st : bare st -> ensures bare (upd_file p f st).
Proof. intros Hb. apply ensures_step. intros x _. apply ensures_mret. by eapply bare_same. Qed.
Lemma bare_upd_super p f st : bare st -> ensures bare (upd_super p f st).
Proof. intros Hb. apply ensures_step. intros x _. apply ensures_mret. by eapply bare_same. Qed.

End bare.
#[export] Hint Resolve bare_on_vnodes bare_new_nodes bare_drop_nodes bare_delete bare_upd_inode bare_upd_file bare_upd_super
  bare_nodes : bare.
#[export] Hint Extern 3 (bare (set_dentries (<[_:=_]> _) _)) => apply bare_set_dentry; [|reflexivity] : bare.
#[export] Hint Extern 3 (ensures bare (upd_dentry _ _ _)) => apply bare_upd_dentry; [|done] : bare.

#[export] Hint Extern 4 (bare _) =>
  match goal with Hb : bare _ |- bare _ => eapply bare_same; [exact Hb|reflexivity|reflexivity] end : bare.

#[export] Hint Extern 6 (bare (?f _ ?s)) =>
  lazymatch f with
  | set_ext => idtac | set_inodes => idtac | set_files => idtac | set_supers => idtac | set_fdtables => idtac
  end; apply (bare_same s); [|reflexivity|reflexivity] : bare.

(** The state of a goal is one the invariant is known for, with members changed
    that it does not speak about. *)
Ltac bare_state := solve [ assumption | eauto 8 with bare ].
(** One step of a program under [ensures]. *)
Ltac bare_step :=
  lazymatch goal with
  | |- ensures _ (mret _) => apply ensures_mret; unfold bare1, bare2, bare3; cbn [fst snd]; try bare_state
  | |- ensures _ (Ret _) => apply ensures_mret; unfold bare1, bare2, bare3; cbn [fst snd]; try bare_state
  | |- ensures _ Fault => exact I
  | |- ensures _ Spin => exact I
  | |- ensures _ (match ?o with _ => _ end) => destruct o eqn:?
  | |- ensures _ (mbind _ (match ?o with _ => _ end)) => destruct o eqn:?
  | |- ensures _ (mbind _ (mret _)) => rewrite bind_mret
  | |- ensures _ (mbind _ (mbind _ _)) => rewrite bind_bind
  | |- ensures _ (mbind _ _) =>
      first [ eapply (ensures_bind bare); [solve [eauto 8 with bare]|intros ? ?]
            | eapply (ensures_bind bare1); [solve [eauto 8 with bare]|intros [? ?] ?; unfold bare1 in *; cbn [fst snd] in *]
            | eapply (ensures_bind bare2); [solve [eauto 8 with bare]|intros [[? ?] ?] ?; unfold bare2 in *; cbn [fst snd] in *]
            | eapply (ensures_bind bare3); [solve [eauto 8 with bare]|intros [[[? ?] ?] ?] ?; unfold bare3 in *; cbn [fst snd] in *]
            | apply ensures_step; intros ? ? ]
  | |- ensures _ (let _ := _ in _) => cbv zeta
  | |- ensures _ _ => solve [eauto 8 with bare]
  end.
Ltac bare_run := repeat (cbv zeta; bare_step).

(** ** The dentry cache *)

Section dcache.
Context {E : Type} `{KAlloc E} `{KCacheFree E}.
Variable junk : Z -> dentry.
Implicit Types st : vfs_st E.

Lemma bare_init_heads n : forall i st, bare st -> ensures bare (init_heads n i st).
Proof. induction n; intros i st Hb; cbn [init_heads]; bare_run. Qed.
Hint Resolve bare_init_heads : bare.
Lemma bare_dcache_init st : bare st -> ensures bare (dcache_init st).
Proof. intros Hb. unfold dcache_init. bare_run. Qed.

Lemma bare_d_alloc parent name st : bare st -> ensures bare1 (d_alloc junk parent name st).
Proof.
  intros Hb. unfold d_alloc. bare_run.
Qed.

Lemma d_instantiate_faults d i st : bare st -> is_Some (dentries st !! d) -> d_instantiate (Some d) (Some i) st = Fault.
Proof.
  intros Hb [x Hx]. unfold d_instantiate, upd_dentry, on_vnodes. rewrite Hx. cbn [deref]. bind_rets.
  cbn [vnodes set_dentries]. by rewrite list_add_dentry by apply Hb.
Qed.
Lemma d_instantiate_never {P : vfs_st E -> Prop} d i st : bare st -> ensures P (d_instantiate (Some d) (Some i) st).
Proof.
  intros Hb. destruct (dentries st !! d) as [x|] eqn:Hx; [by rewrite d_instantiate_faults by eauto|].
  unfold d_instantiate, upd_dentry. by rewrite Hx.
Qed.
Lemma bare_d_instantiate d i st : bare st -> ensures bare (d_instantiate d i st).
Proof. intros Hb. destruct d, i; [by apply d_instantiate_never|done..]. Qed.
Hint Resolve bare_d_alloc bare_d_instantiate : bare.

(** d_alloc_root finds no root inode that it could be used with. *)
Lemma d_alloc_root_none root st : bare st -> ensures (fun r => bare r.1 /\ r.2 = None) (d_alloc_root junk root st).
Proof.
  intros Hb. unfold d_alloc_root. destruct root as [r|]; [|by apply ensures_mret].
  eapply (ensures_bind bare1); [by apply bare_d_alloc|]. intros [st1 [d|]] Hb1; [|by apply ensures_mret].
  apply ensures_step. intros i _. apply ensures_step. intros st2 Hu. unfold upd_dentry in Hu. inv_outcome.
  unfold on_vnodes. cbn [vnodes set_dentries]. by rewrite list_add_dentry by apply Hb1.
Qed.
Lemma bare_d_lookup parent name st : bare st -> ensures bare1 (d_lookup parent name st).
Proof. intros Hb. unfold d_lookup. bare_run. Qed.
Lemma bare_hash_dentry d st : bare st -> ensures bare (hash_dentry d st).
Proof. intros Hb. unfold hash_dentry. bare_run. Qed.
Hint Resolve bare_hash_dentry : bare.
Lemma bare_d_add d i st : bare st -> ensures bare (d_add d i st).
Proof. intros Hb. unfold d_add. bare_run. Qed.
Lemma bare_d_delete d st : bare st -> ensures bare (d_delete d st).
Proof. intros Hb. unfold d_delete. bare_run. Qed.
Lemma bare_free_dentry d st : bare st -> ensures bare (free_dentry d st).
Proof. intros Hb. unfold free_dentry. bare_run. Qed.
Hint Resolve bare_d_delete bare_free_dentry : bare.
Lemma bare_dput d st : bare st -> ensures bare (dput d st).
Proof. intros Hb. unfold dput. bare_run. Qed.
Hint Resolve bare_d_add bare_d_lookup bare_dput : bare.
Lemma bare_dget d st : bare st -> ensures bare1 (dget d st).
Proof. intros Hb. unfold dget. bare_run. Qed.
Lemma bare_d_move d t st : bare st -> ensures bare (d_move d t st).
Proof. intros Hb. unfold d_move. bare_run. Qed.
Lemma bare_d_rehash d st : bare st -> ensures bare (d_rehash d st).
Proof. intros Hb. unfold d_rehash. bare_run. Qed.

End dcache.
#[export] Hint Resolve bare_dcache_init bare_d_alloc bare_d_instantiate bare_d_lookup bare_d_add bare_d_delete bare_dput
  bare_dget bare_d_move bare_d_rehash : bare.

(** ** The inode cache; the operations of a superblock have to keep the
    invariant *)

Section inodes.
Context {E : Type} `{KAlloc E} `{SuperOps (vfs_st E)}.
Hypothesis read_bare : forall t f p (st : vfs_st E), sop_read_inode t = Some f -> bare st -> ensures bare (f p st).
Hypothesis write_bare : forall t f p (st : vfs_st E), sop_write_inode t = Some f -> bare st -> ensures bare1 (f p st).
Variables (junk : Z -> inode) (fuel : nat).
Implicit Types st : vfs_st E.
Hint Extern 2 (ensures bare (_ _ _)) => eapply read_bare; [by apply deref_Ret|] : bare.
Hint Extern 2 (ensures bare1 (_ _ _)) => eapply write_bare; [by apply deref_Ret|] : bare.

Lemma bare_iget n : forall dev_no inum st, bare st -> ensures bare1 (iget n dev_no inum st).
Proof. induction n as [|n IH]; intros dev_no inum st Hb; cbn [iget]; bare_run. Qed.
Hint Resolve bare_iget : bare.
Lemma bare_iput p st : bare st -> ensures bare (iput p st).
Proof. intros Hb. unfold iput. bare_run. Qed.
Lemma bare_inode_init p dev_no inum st : bare st -> ensures bare (inode_init p dev_no inum st).
Proof. intros Hb. unfold inode_init. bare_run. Qed.
Hint Resolve bare_inode_init : bare.
Lemma bare_create_inodes n : forall i c st, bare st -> ensures bare (create_inodes junk n i c st).
Proof. induction n as [|n IH]; intros i c st Hb; cbn [create_inodes]; unfold new_inode; bare_run. Qed.
Lemma bare_init_inode_heads n : forall i st, bare st -> ensures bare (init_inode_heads n i st).
Proof.
  induction n as [|n IH]; intros i st Hb; cbn [init_inode_heads]; [bare_run|].
  eapply (ensures_bind bare); [|intros; by apply IH]. apply bare_on_vnodes; [done|]. apply unlinked_init; [apply Hb|].
  unfold i_hash_slot. by repeat case_decide.
Qed.
Hint Resolve bare_create_inodes bare_init_inode_heads : bare.
Lemma bare_create_inode_cache st : bare st -> ensures bare (create_inode_cache junk fuel st).
Proof. intros Hb. unfold create_inode_cache, create_file_cache, test_icache. bare_run. Qed.

End inodes.

(** ** Superblocks and open files *)

Section objects.
Context {E : Type} `{KAlloc E} `{KFree E} `{KCacheFree E} `{FileOps (vfs_st E)}.
Hypothesis release_bare : forall t f i p (st : vfs_st E), fop_release t = Some f -> bare st -> ensures bare1 (f i p st).
Implicit Types st : vfs_st E.
Hint Extern 2 (ensures bare1 (_ _ _ _)) => eapply release_bare; [eassumption|] : bare.

Lemma bare_init_fs_registry st : bare st -> ensures bare (init_fs_registry st).
Proof. intros Hb. unfold init_fs_registry. bare_run. Qed.
Hint Resolve bare_init_fs_registry : bare.
Lemma bare_register_filesystem t st : bare st -> ensures bare1 (register_filesystem t st).
Proof. intros Hb. unfold register_filesystem. bare_run. Qed.
Lemma bare_unregister_filesystem t st : bare st -> ensures bare1 (unregister_filesystem t st).
Proof. intros Hb. unfold unregister_filesystem. bare_run. Qed.
Lemma bare_alloc_super st : bare st -> ensures bare1 (alloc_super st).
Proof. intros Hb. unfold alloc_super. bare_run. Qed.
Lemma bare_destroy_super s st : bare st -> ensures bare (destroy_super s st).
Proof. intros Hb. unfold destroy_super. bare_run. Qed.

Lemma bare_ensure_file_cache st : bare st -> ensures bare (ensure_file_cache st).
Proof. intros Hb. unfold ensure_file_cache, file_cache_init. bare_run. Qed.
Hint Resolve bare_ensure_file_cache : bare.
Lemma bare_init_files st : bare st -> ensures bare1 (init_files st).
Proof. intros Hb. unfold init_files. bare_run. Qed.
Lemma bare_fput f st : bare st -> ensures bare (fput f st).
Proof. intros Hb. unfold fput, call_release, free_file. bare_run. Qed.
Hint Resolve bare_fput : bare.
Lemma bare_fput_all n : forall i t st, bare st -> ensures bare (fput_all n i t st).
Proof. induction n as [|n IH]; intros i t st Hb; cbn [fput_all]; bare_run. Qed.
Hint Resolve bare_fput_all : bare.
Lemma bare_destroy_files t st : bare st -> ensures bare (destroy_files t st).
Proof. intros Hb. unfold destroy_files. bare_run. Qed.
Lemma bare_fd_install t fd f st : bare st -> ensures bare (fd_install t fd f st).
Proof. intros Hb. unfold fd_install. bare_run. Qed.
Lemma bare_fget t fd st : bare st -> ensures bare1 (fget t fd st).
Proof. intros Hb. unfold fget. bare_run. Qed.
Lemma bare_get_empty_filp st : bare st -> ensures bare1 (get_empty_filp st).
Proof. intros Hb. unfold get_empty_filp. bare_run. Qed.

End objects.

(** ** Path lookup: without inodes there is nothing to search *)

Section namei.
Context {E : Type} `{KAlloc E} `{KCacheFree E} `{InodeOps (vfs_st E)}.
Variable (junk : Z -> dentry) (fuel : nat).
Implicit Types st : vfs_st E.

Lemma do_lookup_none parent nm st : bare st -> ensures (fun r => r = (st, None)) (do_lookup junk parent nm st).
Proof.
  intros Hb. unfold do_lookup. destruct parent as [q|]; [|done]. destruct nm as [[|c nm]|]; [done| |done].
  apply ensures_step. intros x Hx%deref_Ret. by rewrite (bare_dentry _ Hb _ _ Hx).
Qed.
Lemma walk_component_same d c st : bare st -> ensures (fun r => r.1 = st) (walk_component junk d c st).
Proof.
  intros Hb. unfold walk_component. case_bool_decide; [done|]. case_bool_decide.
  - apply ensures_step. intros e _. by apply ensures_step.
  - eapply ensures_bind; [by apply do_lookup_none|]. by intros [st1 r] [= -> ->].
Qed.
Lemma walk_loop_same n : forall path d st, bare st -> ensures (fun r => r.1 = st) (walk_loop junk n path d st).
Proof.
  induction n as [|n IH]; intros [|c path] d st Hb; cbn [walk_loop]; try done; destruct (get_component _ _) as [rest [|x comp]]; try done.
  eapply ensures_bind; [by apply walk_component_same|]. intros [st1 [r|]] E1; cbn in E1; subst st1; [by apply IH|done].
Qed.
Lemma path_lookup_same path flags nd st : bare st -> ensures (fun r => r.1.1 = st) (path_lookup junk fuel path flags nd st).
Proof.
  intros Hb. unfold path_lookup. destruct path as [p|], nd as [nd|]; try done. cbv zeta. cbn [nd_dentry].
  destruct (nd_dentry nd) as [d|]; [|done]. apply ensures_step. intros nd' _. unfold link_path_walk.
  destruct (nd_dentry nd'); [|done]. eapply ensures_bind; [by apply walk_loop_same|].
  by intros [st1 [r|]] [= ->].
Qed.
Lemma bare_path_release nd st : bare st -> ensures bare1 (path_release nd st).
Proof. intros Hb. unfold path_release. bare_run. Qed.

End namei.

(** ** ext2 *)

Section ext2.
Context {S A : Type} `{PortIO S} `{KAlloc A} `{KFree A} `{KCacheFree A} `{Ext2Env}.
Abbreviation world := (vfs_st (ext2_world S A)).
Implicit Types st : world.

Lemma bare_fs_step {R} (f : ext2_st S A -> outcome (ext2_st S A * R)) st : bare st -> ensures bare1 (fs_step f st).
Proof. intros Hb. unfold fs_step, set_efs. bare_run. Qed.
Lemma bare_fs_do f st : bare st -> ensures bare (fs_do f st).
Proof. intros Hb. unfold fs_do, set_efs. bare_run. Qed.
Lemma bare_kfree_obj p st : bare st -> ensures bare (kfree_obj p st).
Proof. intros Hb. unfold kfree_obj. bare_run. Qed.
Lemma bare_set_sb_infos m st : bare st -> bare (set_sb_infos m st).
Proof. intros Hb. unfold set_sb_infos. bare_state. Qed.
Hint Resolve bare_fs_step bare_fs_do bare_kfree_obj bare_set_sb_infos : bare.

Lemma bare_ext2_read_inode i st : bare st -> ensures bare (ext2_read_inode i st).
Proof. intros Hb. unfold ext2_read_inode. bare_run. Qed.
Lemma bare_ext2_write_inode i st : bare st -> ensures bare1 (ext2_write_inode i st).
Proof. intros Hb. unfold ext2_write_inode. bare_run. Qed.
Lemma bare_ext2_free_inode i st : bare st -> ensures bare (ext2_free_inode i st).
Proof. intros Hb. unfold ext2_free_inode. bare_run. Qed.
Lemma ext2_read_bare t f p st : sop_read_inode t = Some f -> bare st -> ensures bare (f p st).
Proof. cbn. case_match; [intros [= <-]; apply bare_ext2_read_inode|done]. Qed.
Lemma ext2_write_bare t f p st : sop_write_inode t = Some f -> bare st -> ensures bare1 (f p st).
Proof. cbn. case_match; [intros [= <-]; apply bare_ext2_write_inode|done]. Qed.
Lemma bare_ext2_iget dev_no inum st : bare st -> ensures bare1 (ext2_iget dev_no inum st).
Proof. apply bare_iget, ext2_read_bare. Qed.
Hint Resolve bare_ext2_read_inode bare_ext2_iget : bare.
Lemma bare_ext2_new_inode dir mode st : bare st -> ensures bare1 (ext2_new_inode dir mode st).
Proof. intros Hb. unfold ext2_new_inode. bare_run. Qed.

Lemma bare_lookup_loop n : forall i h dir d st, bare st -> ensures bare1 (lookup_loop n i h dir d st).
Proof. induction n as [|n IH]; intros i h dir d st Hb; cbn [lookup_loop]; unfold lookup_found; bare_run. Qed.
Hint Resolve bare_lookup_loop : bare.
Lemma bare_ext2_lookup dir d st : bare st -> ensures bare1 (ext2_lookup dir d st).
Proof. intros Hb. unfold ext2_lookup. bare_run. Qed.
Lemma bare_add_file dir d ino new type ops st : bare st -> ensures bare1 (add_file dir d ino new type ops st).
Proof. intros Hb. unfold add_file. bare_run. Qed.
Lemma bare_reserve_both st : bare st -> ensures bare1 (reserve_both st).
Proof. intros Hb. unfold reserve_both. bare_run. Qed.
Hint Resolve bare_add_file bare_reserve_both : bare.
Lemma bare_ext2_create dir d mode st : bare st -> ensures bare1 (ext2_create dir d mode st).
Proof. intros Hb. unfold ext2_create. bare_run. Qed.
Lemma bare_ext2_mkdir dir d mode st : bare st -> ensures bare1 (ext2_mkdir dir d mode st).
Proof. intros Hb. unfold ext2_mkdir. bare_run. Qed.
Lemma bare_ext2_rmdir dir d st : bare st -> ensures bare1 (ext2_rmdir dir d st).
Proof. intros Hb. unfold ext2_rmdir. bare_run. Qed.

Lemma bare_ext2_put_super sb st : bare st -> ensures bare (ext2_put_super sb st).
Proof.
  intros Hb. unfold ext2_put_super, ext2_write_super, ext2_sync_fs, ext2_sync_super, mark_buffer_dirty, store_counts, free_info. bare_run.
Qed.
Definition none_bare (r : world * option Z) : Prop := bare r.1 /\ r.2 = None.
Lemma bare_unmount_failed bh sbi st : bare st -> ensures none_bare (unmount_failed bh sbi st).
Proof. intros Hb. unfold unmount_failed, free_info. bare_run. split; [bare_state|done]. Qed.
(** The root directory never gets a dentry. *)
Lemma mount_root_none sb bh sbi st : bare st -> ensures none_bare (mount_root sb bh sbi st).
Proof.
  intros Hb. unfold mount_root. eapply ensures_bind; [by apply bare_ext2_iget|]. intros [st1 [p|]] Hb1; [|by apply bare_unmount_failed].
  eapply ensures_bind; [by apply bare_ext2_read_inode|]. intros st2 Hb2.
  eapply ensures_bind; [by apply d_alloc_root_none|]. intros [st3 r] [Hb3 Hr]. cbn in Hb3, Hr. subst r. by apply bare_unmount_failed.
Qed.
Lemma ext2_read_super_none sb data silent st : bare st -> ensures none_bare (ext2_read_super sb data silent st).
Proof.
  intros Hb. unfold ext2_read_super. destruct sb as [sb|]; [|done].
  assert (Hk : ensures bare1 (kmalloc_info st)) by (unfold kmalloc_info; bare_run).
  eapply ensures_bind; [exact Hk|]. intros [st1 [i|]] Hb1; [|done].
  eapply ensures_bind; [by apply bare_fs_step|]. intros [st2 bh] Hb2. do 3 (apply ensures_step; intros ? _).
  destruct (negb _); [by apply bare_unmount_failed|]. cbv zeta.
  eapply (ensures_bind bare); [apply bare_upd_super, bare_set_sb_infos; exact Hb2|]. intros st3 Hb3. by apply mount_root_none.
Qed.

(** Reading and writing stop before they reach a block: no dentry has an
    inode. *)
Lemma bare_ext2_file_read f buf n pos st : bare st -> ensures bare3 (ext2_file_read f buf n pos st).
Proof.
  intros Hb. unfold ext2_file_read. destruct f as [f|], buf, pos as [pos|]; try done.
  do 2 (apply ensures_step; intros ? _). apply ensures_step. intros y Hy%deref_Ret. by rewrite (bare_dentry _ Hb _ _ Hy).
Qed.
Lemma bare_ext2_file_write f buf pos st : bare st -> ensures bare2 (ext2_file_write f buf pos st).
Proof.
  intros Hb. unfold ext2_file_write. destruct f as [f|], buf as [buf|], pos as [pos|]; try done.
  do 2 (apply ensures_step; intros ? _). apply ensures_step. intros y Hy%deref_Ret. by rewrite (bare_dentry _ Hb _ _ Hy).
Qed.
Lemma bare_ext2_llseek f off whence st : bare st -> ensures bare1 (ext2_llseek f off whence st).
Proof. intros Hb. unfold ext2_llseek. bare_run. Qed.
Lemma bare_open path flags mode cur st : bare st -> ensures bare2 (open path flags mode cur st).
Proof.
  intros Hb. unfold open. eapply ensures_bind; [by apply path_lookup_same|]. intros [[st1 nd] r] [= ->].
  unfold zalloc_file, init_file_entry. bare_run.
Qed.
Hint Resolve bare_ext2_create bare_ext2_mkdir bare_ext2_rmdir bare_ext2_file_read bare_ext2_file_write : bare.

(** A wrapper calls the function of the table, or returns. *)
Lemma ensures_slot {F T} (P : T -> Prop) (g : F) (slot : Z -> option F) (dir : Z) st (k : option F -> outcome T) :
  (forall t, slot t = Some g \/ slot t = None) -> ensures P (k None) -> ensures P (k (Some g)) -> ensures P (inode_op slot dir st ≫= k).
Proof.
  intros Hs Hn Hg. unfold inode_op. rewrite bind_bind. apply ensures_step. intros x _. rewrite bind_mret.
  destruct (i_op x) as [t|]; [|done]. by destruct (Hs t) as [-> | ->].
Qed.
Lemma ensures_file_slot {F T} (P : T -> Prop) (g : F) (slot : Z -> option F) (f : Z) st (k : option F -> outcome T) :
  (forall t, slot t = Some g \/ slot t = None) -> ensures P (k None) -> ensures P (k (Some g)) -> ensures P (file_op slot f st ≫= k).
Proof.
  intros Hs Hn Hg. unfold file_op. rewrite bind_bind. apply ensures_step. intros x _. rewrite bind_mret.
  destruct (f_op x) as [t|]; [|done]. by destruct (Hs t) as [-> | ->].
Qed.
Lemma slot_cases {F} (c : bool) (g : F) : (if c then Some g else None) = Some g \/ (if c then Some g else None) = None.
Proof. destruct c; auto. Qed.

Lemma bare_vfs_create dir d mode st : bare st -> ensures bare1 (vfs_create dir d mode st).
Proof.
  intros Hb. unfold vfs_create. destruct dir as [p|], d as [d|]; try done.
  eapply ensures_slot; [intros t; apply slot_cases|done|]. by apply bare_ext2_create.
Qed.
Lemma bare_vfs_mkdir dir d mode st : bare st -> ensures bare1 (vfs_mkdir dir d mode st).
Proof.
  intros Hb. unfold vfs_mkdir. destruct dir as [p|], d as [d|]; try done.
  eapply ensures_slot; [intros t; apply slot_cases|done|]. by apply bare_ext2_mkdir.
Qed.
Lemma bare_vfs_rmdir dir d st : bare st -> ensures bare1 (vfs_rmdir dir d st).
Proof.
  intros Hb. unfold vfs_rmdir. destruct dir as [p|], d as [d|]; try done.
  eapply ensures_slot; [intros t; apply slot_cases|done|]. by apply bare_ext2_rmdir.
Qed.
Lemma bare_vfs_rename a b c d st : bare st -> ensures bare1 (vfs_rename a b c d st).
Proof.
  intros Hb. unfold vfs_rename. destruct a as [a|], b as [b|], c as [c|], d as [d|]; try done.
  by eapply ensures_slot; [intros t; apply slot_cases|..].
Qed.
Lemma bare_vfs_read f buf n pos st : bare st -> ensures bare3 (vfs_read f buf n pos st).
Proof.
  intros Hb. unfold vfs_read. destruct f as [f|], buf; try done.
  eapply ensures_file_slot; [intros t; apply slot_cases|done|]. by apply bare_ext2_file_read.
Qed.
Lemma bare_vfs_write f buf pos st : bare st -> ensures bare2 (vfs_write f buf pos st).
Proof.
  intros Hb. unfold vfs_write. destruct f as [f|], buf as [buf|]; try done.
  eapply ensures_file_slot; [intros t; apply slot_cases|done|]. by apply bare_ext2_file_write.
Qed.
Lemma ext2_release_bare t f i p st : fop_release t = Some f -> bare st -> ensures bare1 (f i p st).
Proof. cbn. case_match; [by intros [= <-]|done]. Qed.

End ext2.

(** ** Runs *)

(** The entry points of the VFS and of ext2 behind it, as the rest of the
    kernel may call them. *)
Inductive vfs_call :=
| CallDcacheInit | CallCreateInodeCache | CallRegister (t : option Z) | CallUnregister (t : option Z)
| CallAllocSuper | CallDestroySuper (s : option Z) | CallReadSuper (s : option Z) | CallPutSuper (s : option Z)
| CallIget (dev_no inum : Z) | CallIput (p : Z) | CallNewInode (dir : option Z) (mode : Z)
| CallDAlloc (parent : option Z) (name : option (list Z)) | CallDAllocRoot (i : option Z) | CallDInstantiate (d i : option Z)
| CallDLookup (parent : option Z) (name : option (list Z)) | CallDAdd (d i : option Z) | CallDDelete (d : option Z)
| CallDput (d : option Z) | CallDget (d : option Z) | CallDMove (d t : option Z) | CallDRehash (d : option Z)
| CallPathLookup (path : option (list Z)) (flags : Z) (nd : option nameidata) | CallPathRelease (nd : option nameidata)
| CallCreate (dir d : option Z) (mode : Z) | CallMkdir (dir d : option Z) (mode : Z) | CallRmdir (dir d : option Z)
| CallRename (a b c d : option Z)
| CallInitFiles | CallDestroyFiles (t : option Z) | CallFdInstall (t : option Z) (fd : Z) (f : option Z)
| CallFget (t : option Z) (fd : Z) | CallFput (f : option Z) | CallGetEmptyFilp
| CallOpen (path : option (list Z)) (flags mode : Z) (cur : option task_files)
| CallRead (f : option Z) (buf : bool) (n : Z) (pos : option Z) | CallWrite (f : option Z) (buf : option (list Z)) (pos : option Z)
| CallLlseek (f : option Z) (off whence : Z).

Section runs.
Context {S A : Type} `{PortIO S} `{KAlloc A} `{KFree A} `{KCacheFree A} `{Ext2Env}.
Abbreviation world := (vfs_st (ext2_world S A)).
Variable fresh_inode : Z -> inode.
Implicit Types st : world.

Definition st1 {R} (o : outcome (world * R)) : outcome world := '(st, _) ← o; mret st.
Definition st2 {R T} (o : outcome (world * R * T)) : outcome world := '(st, _, _) ← o; mret st.
Definition st3 {R T U} (o : outcome (world * R * T * U)) : outcome world := '(st, _, _, _) ← o; mret st.

Definition run_call (c : vfs_call) st : outcome world :=
  match c with
  | CallDcacheInit => dcache_init st
  | CallCreateInodeCache => create_inode_cache fresh_inode env_fuel st
  | CallRegister t => st1 (register_filesystem t st)
  | CallUnregister t => st1 (unregister_filesystem t st)
  | CallAllocSuper => st1 (alloc_super st)
  | CallDestroySuper s => destroy_super s st
  | CallReadSuper s => st1 (ext2_read_super s 0 0 st)
  | CallPutSuper s => ext2_put_super s st
  | CallIget dev_no inum => st1 (iget env_fuel dev_no inum st)
  | CallIput p => iput p st
  | CallNewInode dir mode => st1 (ext2_new_inode dir mode st)
  | CallDAlloc parent name => st1 (d_alloc fresh_mem parent name st)
  | CallDAllocRoot i => st1 (d_alloc_root fresh_mem i st)
  | CallDInstantiate d i => d_instantiate d i st
  | CallDLookup parent name => st1 (d_lookup parent name st)
  | CallDAdd d i => d_add d i st
  | CallDDelete d => d_delete d st
  | CallDput d => dput d st
  | CallDget d => st1 (dget d st)
  | CallDMove d t => d_move d t st
  | CallDRehash d => d_rehash d st
  | CallPathLookup path flags nd => st2 (path_lookup fresh_mem env_fuel path flags nd st)
  | CallPathRelease nd => st1 (path_release nd st)
  | CallCreate dir d mode => st1 (vfs_create dir d mode st)
  | CallMkdir dir d mode => st1 (vfs_mkdir dir d mode st)
  | CallRmdir dir d => st1 (vfs_rmdir dir d st)
  | CallRename a b c d => st1 (vfs_rename a b c d st)
  | CallInitFiles => st1 (init_files st)
  | CallDestroyFiles t => destroy_files t st
  | CallFdInstall t fd f => fd_install t fd f st
  | CallFget t fd => st1 (fget t fd st)
  | CallFput f => fput f st
  | CallGetEmptyFilp => st1 (get_empty_filp st)
  | CallOpen path flags mode cur => st2 (open path flags mode cur st)
  | CallRead f buf n pos => st3 (vfs_read f buf n pos st)
  | CallWrite f buf pos => st2 (vfs_write f buf pos st)
  | CallLlseek f off whence => st1 (ext2_llseek f off whence st)
  end.
Definition vfs_step st st' : Prop := exists c, run_call c st = Ret st'.

Lemma ensures_st1 {R} (o : outcome (world * R)) : ensures bare1 o -> ensures bare (st1 o).
Proof. intros Ho. eapply ensures_bind; [exact Ho|]. by intros []. Qed.
Lemma ensures_st2 {R T} (o : outcome (world * R * T)) : ensures bare2 o -> ensures bare (st2 o).
Proof. intros Ho. eapply ensures_bind; [exact Ho|]. by intros [[]]. Qed.
Lemma ensures_st3 {R T U} (o : outcome (world * R * T * U)) : ensures bare3 o -> ensures bare (st3 o).
Proof. intros Ho. eapply ensures_bind; [exact Ho|]. by intros [[[]]]. Qed.
Lemma ensures_weaken {R} (P Q : R -> Prop) (o : outcome R) : (forall r, P r -> Q r) -> ensures P o -> ensures Q o.
Proof. destruct o; cbn; auto. Qed.

Lemma run_call_bare c st : bare st -> ensures bare (run_call c st).
Proof.
  intros Hb. destruct c; cbn [run_call]; try apply ensures_st1; try apply ensures_st2; try apply ensures_st3.
  all: eauto using bare_register_filesystem, bare_unregister_filesystem, bare_alloc_super, bare_destroy_super, bare_ext2_put_super,
    bare_ext2_new_inode, bare_path_release, bare_vfs_create, bare_vfs_mkdir, bare_vfs_rmdir, bare_vfs_rename, bare_init_files,
    bare_destroy_files, bare_fd_install, bare_fget, bare_fput, bare_get_empty_filp, bare_open, bare_vfs_read, bare_vfs_write,
    bare_ext2_llseek, bare_iget, bare_iput, bare_create_inode_cache, ext2_read_bare, ext2_write_bare, ext2_release_bare with bare.
  - eapply ensures_weaken; [|by apply ext2_read_super_none]. by intros r [? _].
  - eapply ensures_weaken; [|by apply d_alloc_root_none]. by intros r [? _].
  - eapply ensures_weaken; [|by apply path_lookup_same]. intros r Hr. unfold bare2. by rewrite Hr.
Qed.

Lemma vfs_run_bare st st' : rtc vfs_step st st' -> bare st -> bare st'.
Proof. induction 1 as [|st st' st'' [c Hc] _ IH]; [done|]. intros Hb. apply IH. eapply ensures_Ret; [by apply run_call_bare|exact Hc]. Qed.

End runs.
