(* ===== verification/Ext2VfsProofs.v ===== *)
(** * ext2 behind the VFS: theorems

    What the cast of a VFS inode to a disk inode yields, the loops of the file
    operations, seeking, mounting and unmounting, writing an inode back, and
    what no run of the VFS reaches (VfsInv). *)

From S2P Require Import Prelude ListHead.
From S2P Require Import Layout Ports Disk BufferCache BufferProofs Blocks Ext2Layout Mkfs MkfsProofs Ext2Balloc BallocProofs Ext2Fs Ext2FsProofs.
From S2P Require Import Vfs Dcache DcacheProofs FileTable VfsInode Super Namei Ext2Vfs VfsInv.

(** ** The cast *)

Lemma decode_blocks bytes : Ext2Layout.i_blocks (decode bytes) = of_le (take 4 (drop 28 bytes)).
Proof. unfold decode. cbn. by rewrite !drop_drop. Qed.
Lemma decode_block bytes k : (k < 15)%nat -> i_block (decode bytes) !! k = Some (of_le (take 4 (drop (40 + 4 * k) bytes))).
Proof.
  intros Hk. do 15 (destruct k as [|k]; [unfold decode; cbn; by rewrite !drop_drop|]). lia.
Qed.
Lemma of_le_mod n : forall v, of_le (le n v) = v mod 256 ^ Z.of_nat n.
Proof.
  induction n as [|n IH]; intros v; cbn [le of_le]; [by rewrite Z.mod_1_r|].
  rewrite IH, Nat2Z.inj_succ, Z.pow_succ_r, Z.rem_mul_r by lia. done.
Qed.
Lemma of_le_word v rest : of_le (take 4 (le 4 v ++ rest)) = u32 v.
Proof. rewrite take_app_length' by (by rewrite length_le). by rewrite of_le_mod. Qed.

Section cast.
Context {E : Type} `{Ext2Env}.
Implicit Types st : vfs_st E.

Lemma length_gap p off n : length (gap p off n) = Z.to_nat n.
Proof.
  unfold gap. rewrite <- (length_seqZ off n). induction (seqZ off n) as [|i l IH]; [done|]. cbn [flat_map]. by rewrite length_app, IH, length_le.
Qed.

(** An inode of the cache, with its list nodes. *)
Definition inode_live (p : Z) (x : inode) st : Prop :=
  inodes st !! p = Some x /\ forall k, k ∈ inode_nodes p -> is_Some (vnodes st !! k).

(** The block numbers the cast reads, as far as they are members of the
    struct: number 0 is the reference count, 5 the size, 11 the address of the
    operation table. *)
Definition cast_block (x : inode) (k : nat) : option Z :=
  match k with
  | 0%nat => Some (i_count x) | 2%nat => Some (i_nlinks x) | 4%nat => Some (i_flags x) | 5%nat => Some (i_size x)
  | 6%nat => Some (i_atime x) | 7%nat => Some (i_mtime x) | 8%nat => Some (i_ctime x) | 9%nat => Some (i_state x)
  | 10%nat => Some (i_blocks x) | 11%nat => Some (default 0 (i_op x)) | 12%nat => Some (default 0 (i_fop x))
  | 13%nat => Some (default 0 (i_sb x)) | _ => None
  end.

Ltac skip_bytes := rewrite drop_app_ge by (rewrite ?length_app, ?length_le, ?length_gap; lia);
  rewrite ?length_app, ?length_le, ?length_gap.

Lemma as_inode_t_spec p x st : inode_live p x st -> exists i, as_inode_t p st = Ret i /\
  Ext2Layout.i_blocks i = u32 (default 0 (node_addr <$> hprev (vnodes st) (IDentry p))) /\
  length (i_block i) = 15%nat /\ forall k v, cast_block x k = Some v -> i_block i !! k = Some (u32 v).
Proof.
  intros [Hx Hn]. unfold as_inode_t, inode_bytes, node_bytes. rewrite Hx. cbn [deref]. bind_rets.
  destruct (Hn (IHash p)) as [n1 ->]; [set_solver|]. destruct (Hn (IFree p)) as [n2 ->]; [set_solver|].
  destruct (Hn (ISbList p)) as [n3 ->]; [set_solver|]. destruct (Hn (IDentry p)) as [n4 E4]; [set_solver|]. unfold hprev. rewrite E4.
  cbn [deref]. bind_rets. unfold ptr_bytes. rewrite <- !app_assoc.
  match goal with |- context [struct_at 0 ?b] => remember b as bytes eqn:Eb end.
  assert (Hl : length bytes = 128%nat) by (subst bytes; rewrite !length_app, !length_le, !length_gap; done).
  rewrite struct_at_ok by (change (sizeof_struct inode_t) with 128%nat; rewrite Hl; cbn; lia).
  change (Z.to_nat 0) with 0%nat. rewrite drop_0, take_ge by (change (sizeof_struct inode_t) with 128%nat; lia).
  eexists. split; [done|]. split; [|split; [done|]].
  - rewrite decode_blocks. subst bytes. repeat (skip_bytes; cbn [Nat.sub]). by rewrite drop_0, of_le_word.
  - intros k v Hk. rewrite decode_block by (do 15 (destruct k as [|k]; [lia|]); done). f_equal.
    do 14 (destruct k as [|k]; [cbn in Hk; try discriminate Hk; injection Hk as <-; subst bytes;
      cbn [Nat.add Nat.mul]; repeat (skip_bytes; cbn [Nat.sub Nat.add]); by rewrite drop_0, of_le_word|]). done.
Qed.

End cast.

(** ** Operations *)

Section ops.
Context {S A : Type} `{PIO : PortIO S} `{KAl : KAlloc A} `{KFr : KFree A} `{KCF : KCacheFree A} `{Env : Ext2Env}.
Abbreviation world := (vfs_st (ext2_world S A)).
Implicit Types st : world.

(** Directories are never searched: the number of blocks ext2_lookup takes
    from the cast is the pointer [i_dentry.prev], which inode_init leaves NULL,
    so the lookup returns NULL without reading a block, whatever the directory
    holds. *)
Theorem ext2_lookup_finds_nothing st dir d x n : inode_live dir x st -> vnodes st !! IDentry dir = Some n -> prev n = None ->
  ext2_lookup (Some dir) (Some d) st = Ret (st, None).
Proof.
  intros Hl Hn Hp. destruct (as_inode_t_spec dir x st Hl) as (i & Ei & Eb & _).
  unfold hprev in Eb. rewrite Hn in Eb. cbn in Eb. rewrite Hp in Eb. cbn in Eb.
  unfold ext2_lookup, as_handle. rewrite Ei. bind_rets. rewrite (proj1 Hl). cbn [deref]. bind_rets. cbn [h_inode].
  unfold i_block_len. rewrite Eb. change (u32 0) with 0. by rewrite Zdiv_0_l.
Qed.

(** ** The loops of the file operations *)

Lemma block_part_progress pos left : 1 <= left -> let '(_, _, n) := block_part pos left in 1 <= n <= left.
Proof.
  intros Hl. unfold block_part, EXT2_BLK_SIZE. pose proof (Z.rem_bound_abs pos 1024 ltac:(lia)) as Hr.
  set (r := Z.rem pos 1024) in *. clearbody r.
  assert (1 <= u32 (1024 - u32 r)) by (unfold u32; rewrite Zminus_mod_idemp_r, Z.mod_small; lia).
  destruct (Z.ltb_spec left (u32 (1024 - u32 r))); lia.
Qed.
Lemma bytes_left count done n : 0 <= done < count -> count < 2 ^ 32 -> 1 <= n <= u32 (count - done) ->
  u32 (done + n) = done + n /\ done + n <= count.
Proof. intros Hd Hc Hn. rewrite (u32_small (count - done)) in Hn by lia. rewrite u32_small by lia. lia. Qed.

Lemma bind_ext {R T} (o : outcome R) (f g : R -> outcome T) : (forall a, f a = g a) -> o ≫= f = o ≫= g.
Proof. intros Hfg. destruct o; cbn; [apply Hfg|done|done]. Qed.

Lemma read_loop_fuel out out' n : forall m p pos count k buf st, 0 <= k <= count -> count < 2 ^ 32 ->
  (Z.to_nat (count - k) <= n)%nat -> (Z.to_nat (count - k) <= m)%nat ->
  read_loop out n p pos count k buf st = read_loop out' m p pos count k buf st.
Proof.
  induction n as [|n IH]; intros m p pos count k buf st Hk Hc Hn Hm.
  - assert (E : (count <=? k) = true) by lia. destruct m; cbn [read_loop]; by rewrite E.
  - cbn [read_loop]. destruct (Z.leb_spec count k) as [Hle|Hlt]; [destruct m; cbn [read_loop]; by rewrite (proj2 (Z.leb_le _ _) Hle)|].
    destruct m as [|m]; [lia|]. cbn [read_loop]. rewrite (proj2 (Z.leb_gt _ _) Hlt).
    pose proof (block_part_progress pos (u32 (count - k))) as Hb. destruct (block_part pos _) as [[bi bo] nb].
    rewrite (u32_small (count - k)) in Hb by lia. specialize (Hb ltac:(lia)).
    destruct (bytes_left count k nb) as [Eu Hle]; [lia|lia|by rewrite u32_small by lia|].
    apply bind_ext. intros file. apply bind_ext. intros [st1 b]. destruct (b =? 0); [done|].
    apply bind_ext. intros x. apply bind_ext. intros [st2 bh]. do 2 (apply bind_ext; intros ?). apply bind_ext. intros st3.
    rewrite Eu. apply IH; lia.
Qed.
Lemma write_loop_fuel out out' n : forall m p pos buf k st, 0 <= k <= Z.of_nat (length buf) -> Z.of_nat (length buf) < 2 ^ 32 ->
  (Z.to_nat (Z.of_nat (length buf) - k) <= n)%nat -> (Z.to_nat (Z.of_nat (length buf) - k) <= m)%nat ->
  write_loop out n p pos buf k st = write_loop out' m p pos buf k st.
Proof.
  induction n as [|n IH]; intros m p pos buf k st Hk Hc Hn Hm; set (count := Z.of_nat (length buf)) in *.
  - assert (E : (count <=? k) = true) by lia. destruct m; cbn [write_loop]; fold count; by rewrite E.
  - cbn [write_loop]. fold count. destruct (Z.leb_spec count k) as [Hle|Hlt];
      [destruct m; cbn [write_loop]; fold count; by rewrite (proj2 (Z.leb_le _ _) Hle)|].
    destruct m as [|m]; [lia|]. cbn [write_loop]. fold count. rewrite (proj2 (Z.leb_gt _ _) Hlt).
    pose proof (block_part_progress pos (u32 (count - k))) as Hb. destruct (block_part pos _) as [[bi bo] nb].
    rewrite (u32_small (count - k)) in Hb by lia. specialize (Hb ltac:(lia)).
    destruct (bytes_left count k nb) as [Eu Hle]; [lia|lia|by rewrite u32_small by lia|].
    apply bind_ext. intros file. apply bind_ext. intros [st1 [b|]]; [|done].
    apply bind_ext. intros x. apply bind_ext. intros [st2 bh]. do 3 (apply bind_ext; intros ?). apply bind_ext. intros st3.
    rewrite Eu. apply IH; fold count; lia.
Qed.

(** C35. The loops of ext2_file_read and ext2_file_write end: every iteration
    that goes on has moved at least one byte, whatever the position and the
    block numbers are.  So with a bound of [count] iterations (the length of the
    buffer when writing) the bound is never used up: the outcome is the same
    whatever using it up would give, and the same with any larger bound.  (The
    calls inside an iteration can wait for a buffer.) *)
Theorem file_loops_terminate st p pos count (buf : list Z) n out out' wout wout' : 0 <= count < 2 ^ 32 -> Z.of_nat (length buf) < 2 ^ 32 ->
  ((Z.to_nat count <= n)%nat -> read_loop out n p pos count 0 [] st = read_loop out' (Z.to_nat count) p pos count 0 [] st) /\
  ((length buf <= n)%nat -> write_loop wout n p pos buf 0 st = write_loop wout' (length buf) p pos buf 0 st).
Proof.
  intros Hc Hl. split; intros Hn; [apply read_loop_fuel; lia|]. apply write_loop_fuel; lia.
Qed.

(** Seeking.  On a file with an inode, ext2_llseek moves to the offset from
    the start, the current position or the end, returns the new position and
    changes nothing else; an unknown [whence] or a position below zero is
    refused with -1 and leaves the file as it is. *)
Theorem ext2_llseek_correct st f x d y p i off whence :
  files st !! f = Some x -> f_dentry x = Some d -> dentries st !! d = Some y -> d_inode y = Some p -> inodes st !! p = Some i ->
  - 2 ^ 62 <= off < 2 ^ 62 -> 0 <= f_pos x < 2 ^ 62 -> 0 <= i_size i < 2 ^ 32 ->
  let base := nth (Z.to_nat whence) [0; f_pos x; i_size i] 0 in
  ext2_llseek (Some f) off whence st =
    if decide (0 <= whence <= 2 /\ 0 <= base + off)
    then Ret (set_files (<[f := set_f_pos (base + off) x]> (files st)) st, base + off)
    else Ret (st, -1).
Proof.
  intros Hf Hd Hy Hp Hi Ho Hpos Hs base. unfold ext2_llseek. rewrite Hf. cbn [deref]. bind_rets. rewrite Hd, Hy. cbn [deref]. bind_rets.
  rewrite Hp, Hi. cbn [deref]. bind_rets. unfold seek_pos.
  assert (Es : forall v, - 2 ^ 63 <= v < 2 ^ 63 -> s64 v = v) by (intros v Hv; unfold s64; rewrite Z.mod_small; lia).
  assert (Hcase : whence = 0 \/ whence = 1 \/ whence = 2 \/ ~ 0 <= whence <= 2) by lia.
  destruct Hcase as [-> |[-> |[-> |Hw]]].
  4: { rewrite decide_False by lia. rewrite !(proj2 (Z.eqb_neq _ _)) by lia. done. }
  all: subst base; try change (Z.to_nat 0) with 0%nat; try change (Z.to_nat 1) with 1%nat; try change (Z.to_nat 2) with 2%nat.
  all: cbn [nth Z.eqb Pos.eqb]; rewrite ?Es by lia; rewrite ?Z.add_0_l.
  all: match goal with |- context [?v <? 0] => destruct (Z.ltb_spec v 0) end; [by rewrite decide_False by lia|rewrite decide_True by lia].
  all: unfold upd_file; rewrite Hf; done.
Qed.

End ops.

(** ** Inodes and blocks through the buffer cache *)

Section blocks.
Context {S A : Type} `{PIO : PortIO S} `{KAl : KAlloc A} `{KFr : KFree A} `{KCF : KCacheFree A} `{Env : Ext2Env} `{HD : !AtaDevice S}.
Hypothesis Hp : (patience_bound <= env_patience)%nat.
Abbreviation world := (vfs_st (ext2_world S A)).
Implicit Types (st : world) (buf dat : Z -> Z) (busy : gset Z) (mem : Z -> list Z).

(** get_inode keeps the block that write_inode_table then asks for. *)
Lemma write_inode_spins st p x buf dat busy mem table : inodes st !! p = Some x ->
  inode_fs (efs (ext st)) buf dat busy mem table -> 1 <= i_no x <= 1024 -> 0 <= table ->
  inode_blk table (i_no x) < BUFFERS -> inode_blk table (i_no x) ∉ busy -> ext2_write_inode (Some p) st = Spin.
Proof.
  intros Hx Hi Hn Ht Hb Hbusy. assert (0 <= inode_blk table (i_no x)) by (unfold inode_blk; pose proof (Z.div_pos (i_no x - 1) 8); lia).
  unfold BUFFERS in Hb. unfold ext2_write_inode. rewrite Hx. cbn [deref]. bind_rets. unfold fs_step.
  destruct env_fuel as [|fuel]; [by rewrite (get_inode_eq _ Hp _ _ _ _ _ _ _ _ Hi) by lia|].
  destruct (get_inode_spec fuel env_patience Hp _ buf dat busy mem table (i_no x) Hi Hn Ht Hb Hbusy) as (c & i & bytes & R & _ & _ & Hi1 & _).
  rewrite R. bind_rets. unfold fs_do. cbn [ext efs set_efs set_ext].
  rewrite (write_inode_table_eq _ Hp _ _ _ _ _ _ _ _ _ Hi1) by lia. unfold bread_blk.
  rewrite (quiet_bread_held _ buf dat ({[inode_blk table (i_no x)]} ∪ busy) _ _ _ _ _ (if_quiet _ _ _ _ _ _ Hi1));
    [done|unfold BUFFERS; lia|apply held_now].
Qed.

(** An inode is never written back: ext2_write_inode reads the inode first,
    get_inode keeps its buffer, and write_inode_table waits for that buffer for
    ever, however long.  So giving up the last reference to a dirty inode does
    not return either. *)
Theorem ext2_write_inode_waits st p x s sb buf dat busy mem table : inodes st !! p = Some x ->
  inode_fs (efs (ext st)) buf dat busy mem table -> 1 <= i_no x <= 1024 -> 0 <= table ->
  inode_blk table (i_no x) < BUFFERS -> inode_blk table (i_no x) ∉ busy ->
  i_sb x = Some s -> supers st !! s = Some sb -> s_op sb = Some ext2_sops ->
  ext2_write_inode (Some p) st = Spin /\
  (i_count x = 1 -> IS_FLAG (i_state x) I_DIRTY = true -> iput p st = Spin).
Proof.
  intros Hx Hi Hn Ht Hb Hbusy Hs Hsb Hop. split; [by eapply write_inode_spins|]. intros Hc Hd.
  unfold iput, upd_inode, super_ops. rewrite Hx. cbn [deref]. bind_rets. cbn [inodes set_inodes]. rewrite lookup_insert_eq. cbn [deref]. bind_rets.
  cbn [inodes set_inodes]. rewrite lookup_insert_eq. cbn [deref]. bind_rets.
  cbn [i_count i_state set_i_count set_i_flags locked_inode]. unfold locked_inode. cbn [i_count set_i_flags]. rewrite Hc, Hd.
  change (u32 (1 - 1) =? 0) with true. cbn [andb]. cbv iota. bind_rets. cbn [i_sb set_i_count set_i_flags supers set_inodes]. rewrite Hs. cbn [deref]. bind_rets. rewrite Hsb. cbn [deref]. bind_rets.
  rewrite Hop. cbn [deref]. bind_rets. cbn [sop_write_inode ext2_super_operations]. rewrite Z.eqb_refl. cbn [deref]. bind_rets.
  erewrite write_inode_spins; [done|apply lookup_insert_eq|exact Hi|done..].
Qed.

(** ** Reading a file *)

Lemma s64_small v : - 2 ^ 63 <= v < 2 ^ 63 -> s64 v = v.
Proof. intros. unfold s64. rewrite Z.mod_small; lia. Qed.
(** The bytes of the block [b] that a read gives: the sector on the disk, and
    behind it what the buffer held. *)
Definition half_read st (mem : Z -> list Z) (b : Z) : list Z := disk (view (dev (efs (ext st)))) b ++ drop 512 (mem b).

Lemma block_part_at pos left : 0 <= pos < 2 ^ 32 -> 1 <= left ->
  exists n, block_part pos left = (pos / 1024, pos mod 1024, n) /\ 1 <= n <= left /\ pos mod 1024 + n <= 1024 /\
    (n = left \/ pos mod 1024 + n = 1024).
Proof.
  intros Hpos Hl. unfold block_part, EXT2_BLK_SIZE. rewrite Z.quot_div_nonneg, Z.rem_mod_nonneg by lia.
  pose proof (Z.mod_pos_bound pos 1024 ltac:(lia)). pose proof (Z.div_pos pos 1024). pose proof (Z.div_le_upper_bound pos 1024 (2 ^ 32 - 1)).
  rewrite !u32_small by lia. eexists. split; [done|]. destruct (Z.ltb_spec left (1024 - pos mod 1024)); lia.
Qed.

(** A block of a file whose number the cast yields and the cache can read. *)
Definition readable (i : inode) (busy : gset Z) (bn : Z -> Z) (k : Z) : Prop :=
  k < 12 /\ cast_block i (Z.to_nat k) = Some (bn k) /\ 1 <= bn k < BUFFERS /\ bn k ∉ busy.

(** One iteration: a block through the cache. *)
Lemma read_step out st p i buf dat busy mem bn pos left count k acc n : inode_live p i st ->
  quiet (cache (efs (ext st))) buf dat busy mem -> sized (dev (efs (ext st))) -> i_dev i = DEV_NO -> env_fuel <> O ->
  0 <= pos < 2 ^ 32 -> 0 <= k -> k + left = count -> count < 2 ^ 32 -> 1 <= left -> readable i busy bn (pos / 1024) ->
  let block := half_read st mem (bn (pos / 1024)) in
  exists st' m, read_loop out (Datatypes.S n) p pos count k acc st =
      read_loop out n p (pos + m) count (k + m) (acc ++ take (Z.to_nat m) (drop (Z.to_nat (pos mod 1024)) block)) st' /\
    1 <= m <= left /\ pos mod 1024 + m <= 1024 /\ (m = left \/ pos mod 1024 + m = 1024) /\
    inode_live p i st' /\ quiet (cache (efs (ext st'))) buf dat busy (upd mem (bn (pos / 1024)) block) /\
    disk (view (dev (efs (ext st')))) = disk (view (dev (efs (ext st)))).
Proof.
  intros Hl Hq Hz Hdev Hfuel Hpos Hk Hkl Hc Hleft (Hk12 & Hcb & Hb & Hbusy) block. unfold BUFFERS in Hb.
  set (b := bn (pos / 1024)) in *. cbn [read_loop]. rewrite (proj2 (Z.leb_gt count k)) by lia. rewrite (u32_small (count - k)) by lia.
  destruct (block_part_at pos (count - k)) as (m & -> & Hm & Hm1 & Hm2); [lia|lia|].
  destruct (as_inode_t_spec p i st Hl) as (file & Ef & _ & _ & Hblk). rewrite Ef, bind_Ret.
  unfold fs_step, indirect_block. rewrite (proj2 (Z.ltb_lt (pos / 1024) DIRECT_BLOCKS)) by (unfold DIRECT_BLOCKS; lia).
  rewrite (Hblk _ _ Hcb), (u32_small b) by lia. cbn [deref]. bind_rets. rewrite (proj2 (Z.eqb_neq b 0)) by lia.
  cbn [inodes set_efs set_ext]. rewrite (proj1 Hl). cbn [deref]. bind_rets. rewrite Hdev.
  destruct env_fuel as [|fuel] eqn:Efuel; [done|]. unfold bread_dev. rewrite Efuel. cbn [ext efs set_efs set_ext].
  destruct (quiet_bread (cache (efs (ext st))) buf dat busy mem b fuel env_patience (globals (efs (ext st)))) as (c & R & Hq1 & Hd1);
    [done|unfold BUFFERS; lia|done|done|apply Hz|].
  rewrite R. bind_rets. destruct (quiet_data_of _ _ _ _ _ b Hq1) as (Ed & _ & Hlen); [unfold BUFFERS; lia|].
  unfold buf_bytes. cbn [cache set_cache ext efs set_efs set_ext]. rewrite Ed. bind_rets. rewrite upd_eq in Hlen |- *.
  pose proof (Z.mod_pos_bound pos 1024 ltac:(lia)) as Hmod.
  rewrite read_at_ok by (rewrite Hlen; unfold BUFFER_SIZE; lia). bind_rets. unfold fs_do, brelse_blk. cbn [cache set_cache ext efs set_efs set_ext].
  destruct (quiet_brelse c buf dat ({[b]} ∪ busy) _ b Hq1) as (c' & R' & Hq2 & Hd2); [unfold BUFFERS; lia|apply held_now|].
  rewrite R'. bind_rets. rewrite (u32_small (k + m)), s64_small by lia. rewrite (released b busy) in Hq2 by done.
  eexists _, m. split; [reflexivity|]. split; [lia|]. split; [lia|]. split; [lia|]. split; [exact Hl|]. split; [exact Hq2|].
  change (disk (view (io c')) = disk (view (dev (efs (ext st))))). by rewrite Hd2, Hd1.
Qed.

(** Reading [left] bytes from [pos] on. *)
Lemma read_range out n : forall st p i buf dat busy mem bn pos left count k acc, inode_live p i st ->
  quiet (cache (efs (ext st))) buf dat busy mem -> sized (dev (efs (ext st))) -> i_dev i = DEV_NO -> env_fuel <> O ->
  0 <= pos -> pos + left < 2 ^ 32 -> 0 <= k -> k + left = count -> count < 2 ^ 32 -> 0 <= left -> (Z.to_nat left <= n)%nat ->
  (forall j, 0 <= j < left -> readable i busy bn ((pos + j) / 1024)) ->
  exists st' bytes mem', read_loop out n p pos count k acc st = Ret (st', pos + left, count, acc ++ bytes) /\
    Z.of_nat (length bytes) = left /\
    (forall j, 0 <= j < left -> bytes !! Z.to_nat j = half_read st mem (bn ((pos + j) / 1024)) !! Z.to_nat ((pos + j) mod 1024)) /\
    quiet (cache (efs (ext st'))) buf dat busy mem' /\ (forall b, mem' b = mem b \/ mem' b = half_read st mem b) /\
    disk (view (dev (efs (ext st')))) = disk (view (dev (efs (ext st)))).
Proof.
  induction n as [|n IH]; intros st p i buf dat busy mem bn pos left count k acc Hl Hq Hz Hdev Hfuel Hpos Hend Hk Hkl Hc Hleft Hn Hr.
  { assert (left = 0) as -> by lia. exists st, [], mem. cbn [read_loop]. rewrite (proj2 (Z.leb_le count k)), app_nil_r, Z.add_0_r by lia.
    replace k with count by lia. split_and!; try done; [intros; lia|by left]. }
  destruct (decide (left = 0)) as [-> |Hne].
  { exists st, [], mem. cbn [read_loop]. rewrite (proj2 (Z.leb_le count k)), app_nil_r, Z.add_0_r by lia.
    replace k with count by lia. split_and!; try done; [intros; lia|by left]. }
  destruct (read_step out st p i buf dat busy mem bn pos left count k acc n Hl Hq Hz Hdev Hfuel)
    as (st1 & m & E & Hm & Hm1 & Hm2 & Hl1 & Hq1 & Hd1); [lia|lia|lia|lia|lia|specialize (Hr 0); rewrite Z.add_0_r in Hr; apply Hr; lia|].
  set (b0 := bn (pos / 1024)) in *. set (block := half_read st mem b0) in *.
  assert (Hz1 : sized (dev (efs (ext st1)))) by (intros l; rewrite Hd1; apply Hz).
  destruct (IH st1 p i buf dat busy (upd mem b0 block) bn (pos + m) (left - m) count (k + m)
    (acc ++ take (Z.to_nat m) (drop (Z.to_nat (pos mod 1024)) block)) Hl1 Hq1 Hz1 Hdev Hfuel)
    as (st' & bytes & mem' & E' & Hlen & Hbytes & Hq' & Hmem & Hd'); [lia|lia|lia|lia|lia|lia|lia| |].
  { intros j Hj. replace (pos + m + j) with (pos + (m + j)) by lia. apply Hr. lia. }
  pose proof (Z.mod_pos_bound pos 1024 ltac:(lia)) as Hmod.
  assert (H512 : length (disk (view (dev (efs (ext st)))) b0) = 512%nat) by apply Hz.
  assert (Hsame : forall b, half_read st1 (upd mem b0 block) b = half_read st mem b).
  { intros b. unfold half_read. rewrite Hd1. f_equal. destruct (decide (b = b0)) as [-> |Hb]; [|by rewrite upd_ne].
    rewrite upd_eq. unfold block, half_read. by rewrite drop_app_length' by done. }
  assert (Hb0 : 1 <= b0 < BUFFERS) by (destruct (Hr 0 ltac:(lia)) as (_ & _ & Hb & _); rewrite Z.add_0_r in Hb; exact Hb).
  destruct (quiet_data_of _ _ _ _ _ b0 Hq1) as (_ & _ & Hblen); [lia|].
  rewrite upd_eq in Hblen. unfold BUFFER_SIZE in Hblen. change (Z.to_nat 1024) with 1024%nat in Hblen.
  set (part := take (Z.to_nat m) (drop (Z.to_nat (pos mod 1024)) block)) in *.
  assert (Hpart : length part = Z.to_nat m) by (unfold part; rewrite length_take_le; [done|rewrite length_drop; lia]).
  exists st', (part ++ bytes), mem'. split; [rewrite E, E', <-app_assoc; by replace (pos + m + (left - m)) with (pos + left) by lia|].
  split; [rewrite length_app; lia|]. split.
  - intros j Hj. destruct (decide (j < m)) as [Hjm|Hjm].
    + rewrite lookup_app_l by lia. unfold part. rewrite lookup_take_lt, (list.lookup_drop block) by lia.
      assert (Ej : (pos + j) / 1024 = pos / 1024 /\ (pos + j) mod 1024 = pos mod 1024 + j).
      { pose proof (Z.div_mod pos 1024 ltac:(lia)). split; [symmetry; apply (Z.div_unique_pos _ 1024 _ (pos mod 1024 + j)); lia|].
        symmetry. apply (Z.mod_unique_pos _ 1024 (pos / 1024)); lia. }
      destruct Ej as [-> ->]. fold b0 block. f_equal. lia.
    + rewrite lookup_app_r by lia. rewrite Hpart. replace (Z.to_nat j - Z.to_nat m)%nat with (Z.to_nat (j - m)) by lia.
      rewrite Hbytes, Hsame by lia. by replace (pos + m + (j - m)) with (pos + j) by lia.
  - split; [exact Hq'|]. split; [|by rewrite Hd'].
    intros b. destruct (Hmem b) as [-> | ->]; [|right; apply Hsame]. destruct (decide (b = b0)) as [-> |Hb]; [right; by rewrite upd_eq|left; by rewrite upd_ne].
Qed.

(** C34. What a file holds, read through the VFS.  Take an inode attached to the
    dentry of the file (no run of the VFS attaches one) and a range inside the
    file and its first 12 blocks, whose block numbers, as the cast of the inode
    yields them, are those of buffers nobody holds.  Then reading the range
    returns all its bytes, one by one those of the blocks with these numbers, in
    order, moves the position behind the range and releases every buffer.  The
    block number is the word of the VFS inode at the place of the block pointer:
    for the first block that is the reference count, so that a file opened once
    reads as disk block 1.  The first 512 bytes of a block are those of its
    sector on the disk; the others are what its buffer held before. *)
Theorem ext2_file_read_block st f x d y p i buf dat busy mem bn pos count :
  files st !! f = Some x -> f_dentry x = Some d -> dentries st !! d = Some y -> d_inode y = Some p -> inode_live p i st ->
  quiet (cache (efs (ext st))) buf dat busy mem -> sized (dev (efs (ext st))) -> i_dev i = DEV_NO -> env_fuel <> O ->
  0 <= pos -> 1 <= count < 2 ^ 31 -> pos + count <= i_size i -> i_size i < 2 ^ 32 ->
  (forall j, 0 <= j < count -> readable i busy bn ((pos + j) / 1024)) ->
  exists st' bytes mem', ext2_file_read (Some f) true count (Some pos) st = Ret (st', count, bytes, Some (pos + count)) /\
    Z.of_nat (length bytes) = count /\
    (forall j, 0 <= j < count -> bytes !! Z.to_nat j =
       (disk (view (dev (efs (ext st)))) (bn ((pos + j) / 1024)) ++ drop 512 (mem (bn ((pos + j) / 1024)))) !! Z.to_nat ((pos + j) mod 1024)) /\
    quiet (cache (efs (ext st'))) buf dat busy mem' /\
    disk (view (dev (efs (ext st')))) = disk (view (dev (efs (ext st)))).
Proof.
  intros Hf Hd Hy Hip Hl Hq Hz Hdev Hfuel Hpos Hc Hsz Hmax Hr. unfold ext2_file_read. rewrite Hf. cbn [deref]. bind_rets.
  rewrite Hd. cbn [deref]. bind_rets. rewrite Hy. cbn [deref]. bind_rets. rewrite Hip, (proj1 Hl). cbn [deref]. bind_rets.
  rewrite (proj2 (Z.leb_gt (i_size i) pos)) by lia. cbv zeta. rewrite s64_small by lia.
  rewrite (proj2 (Z.ltb_ge (i_size i) _)) by lia. cbv iota.
  destruct (read_range Spin (Z.to_nat count) st p i buf dat busy mem bn pos count count 0 [] Hl Hq Hz Hdev Hfuel)
    as (st' & bytes & mem' & -> & Hlen & Hb & Hq' & _ & Hd'); try lia; [done|]. bind_rets.
  exists st', bytes, mem'. split; [by rewrite s32_small by lia|]. split; [done|]. split; [exact Hb|]. by split.
Qed.

End blocks.

(** ** Unmounting *)

Lemma dirty_set v : 0 <= v < 2 ^ 16 -> let w := u16 (SET_FLAG v BH_dirty) in
  0 <= w < 2 ^ 16 /\ IS_FLAG w BH_lock = IS_FLAG v BH_lock.
Proof.
  intros Hv w. split; [apply u16_range|]. change BH_lock with (2 ^ 0). rewrite !is_flag_pow2 by lia.
  unfold w, u16, SET_FLAG. rewrite Z.mod_pow2_bits_low, Z.lor_spec by lia. by rewrite orb_false_r.
Qed.

Section unmount.
Context {S A : Type} `{PIO : PortIO S} `{KAS : KAllocSpec A} `{KFr : !KFree A} `{KFS : !KFreeSpec A} `{KCF : KCacheFree A} `{Env : Ext2Env}.
Abbreviation world := (vfs_st (ext2_world S A)).
Abbreviation wcache st := (cache (efs (ext st))).
Implicit Types (st : world).

(** A mounted superblock: its [ext2_sb_info] and the locked buffer of the disk
    superblock. *)
Record mounted_sb st (sb : Z) (s : super_block) (i : Z) (o : sb_object) chains frees (b d : Z) (bh : buffer_head) (bytes : list Z) : Prop := {
  ms_super : supers st !! sb = Some s;
  ms_info : s_fs_info s = Some i;
  ms_object : sb_infos (ext st) !! i = Some o;
  ms_sbh : s_sbh o = Some b;
  ms_es : s_es o = Some d;
  ms_cache : cache_ok (wcache st) chains frees;
  ms_cached : cached chains b;
  ms_buf : bufs (wcache st) !! b = Some bh;
  ms_held : b ∉ frees;
  ms_data : b_data bh = Some d;
  ms_bytes : bdata (wcache st) !! d = Some bytes;
  ms_range : bytes_ok bytes;
}.

(** The superblock with the counts of [o]. *)
Definition counted_super (o : sb_object) (es : ext2_super_block) : ext2_super_block :=
  with_free_counts (si_freeblocks_counter (so_info o)) (si_freeinodes_counter (so_info o)) es.

Lemma mounted_length st sb s i o chains frees b d bh bytes : mounted_sb st sb s i o chains frees b d bh bytes ->
  length bytes = 1024%nat.
Proof.
  intros []. destruct (good_of_holds _ _ _ _ bh ms_cache0 ms_cached0 ms_buf0) as (j & G).
  destruct (data_of_good _ _ _ _ G) as (d' & bs & E1 & _ & E2 & Hl). simplify_eq. done.
Qed.

Lemma struct_at_wf {T} `{CStruct T} off bytes (t : T) : bytes_ok bytes -> struct_at off bytes = Ret t -> struct_wf t.
Proof.
  intros Hb Ht. unfold struct_at, read_at in Ht. case_decide; [|done]. rewrite bind_mret in Ht. injection Ht as <-.
  by apply decode_wf, Forall_take, Forall_drop.
Qed.
Lemma bytes_ok_set {T} `{CStruct T} off (t : T) data data' : bytes_ok data -> set_struct_at off t data = Ret data' -> bytes_ok data'.
Proof.
  intros Hb Hs. unfold set_struct_at, write_at in Hs. case_decide; [|done]. injection Hs as <-.
  unfold bytes_ok. rewrite !Forall_app. split; [by apply Forall_take|]. split; [apply bytes_ok_encode|by apply Forall_drop].
Qed.
Lemma super_fits (bytes : list Z) : length bytes = 1024%nat -> (Z.to_nat 0 + sizeof_struct ext2_super_block <= length bytes)%nat.
Proof. intros ->. by rewrite (proj1 (proj2 ext2_sizes)). Qed.

Lemma write_super_spec st sb s i o chains frees b d bh bytes es :
  mounted_sb st sb s i o chains frees b d bh bytes -> struct_at 0 bytes = Ret es ->
  exists c bytes', ext2_write_super sb st = Ret (set_supers (<[sb := set_s_dirt 0 s]> (supers st)) (set_efs (set_cache c (efs (ext st))) st)) /\
    mounted_sb (set_supers (<[sb := set_s_dirt 0 s]> (supers st)) (set_efs (set_cache c (efs (ext st))) st))
      sb (set_s_dirt 0 s) i o chains frees b d (BufferCache.set_flags (u16 (SET_FLAG (flags bh) BH_dirty)) bh) bytes' /\
    struct_at 0 bytes' = Ret (counted_super o es) /\ io c = io (wcache st) /\ heap c = heap (wcache st) /\ bdata c = <[d := bytes']> (bdata (wcache st)).
Proof.
  intros Hm Hes. pose proof (mounted_length _ _ _ _ _ _ _ _ _ _ _ Hm) as Hlen. destruct Hm.
  destruct (good_of_holds _ _ _ _ bh ms_cache0 ms_cached0 ms_buf0) as (j & G). pose proof (gb_flags _ _ _ _ G) as Hfl.
  destruct (dirty_set _ Hfl) as [Hw Hlk].
  assert (Hwf : struct_wf (counted_super o es)).
  { apply with_free_counts_wf. by apply (struct_at_wf 0 bytes). }
  destruct (set_struct_at_spec 0 _ bytes Hwf) as (bytes' & Hset & Hl' & Hget & _); [by apply super_fits|].
  unfold ext2_write_super, ext2_sync_fs, ext2_sync_super, ext2_count_free_blocks, ext2_count_free_inodes, sb_info, EXT2_SB.
  rewrite ms_super0. cbn [deref]. bind_rets. rewrite ms_info0. cbn [deref]. bind_rets. rewrite ms_object0. cbn [deref]. bind_rets.
  rewrite ms_es0. cbn [deref]. bind_rets. unfold store_counts, fs_do. rewrite ms_bytes0. cbn [deref]. bind_rets. rewrite Hes. bind_rets.
  unfold counted_super in Hset. rewrite Hset. bind_rets. cbn [supers set_efs set_ext ext sb_infos]. rewrite ms_super0. cbn [deref]. bind_rets.
  rewrite ms_info0. cbn [deref]. bind_rets. rewrite ms_object0. cbn [deref]. bind_rets. rewrite ms_sbh0. unfold mark_buffer_dirty, fs_do, upd_buf.
  cbn [efs ext set_efs set_ext cache set_cache bufs BufferCache.set_bdata]. rewrite ms_buf0. cbn [deref]. bind_rets.
  unfold upd_super. cbn [supers set_efs set_ext]. rewrite ms_super0. cbn [deref]. bind_rets.
  set (c0 := BufferCache.set_bdata (<[d := bytes']> (bdata (wcache st))) (wcache st)).
  set (v := u16 (SET_FLAG (flags bh) BH_dirty)) in *.
  exists (set_bufs (<[b := set_flags v bh]> (bufs (wcache st))) c0), bytes'.
  split; [done|]. split; [|done]. split; try done.
  - cbn. apply lookup_insert_eq.
  - eapply (cache_ok_change c0 _ chains frees frees b bh v); try done.
    + by eapply (cache_ok_data (wcache st)); [..|rewrite Hl'].
    + apply (ok_chain _ _ _ ms_cache0).
    + apply (ok_free _ _ _ ms_cache0).
    + rewrite Hlk. by apply (ok_lock _ _ _ ms_cache0).
  - cbn. apply lookup_insert_eq.
  - cbn. apply lookup_insert_eq.
  - eapply (bytes_ok_set (T := ext2_super_block) 0 _ bytes); [done|exact Hset].
Qed.

(** The first half of ext2_put_super. *)
Lemma sync_if_dirty st sb s i o chains frees b d bh bytes es :
  mounted_sb st sb s i o chains frees b d bh bytes -> struct_at 0 bytes = Ret es ->
  exists st1 s1 bh1 bytes1, (if negb (s_dirt s =? 0) then ext2_write_super sb st else mret st) = Ret st1 /\
    mounted_sb st1 sb s1 i o chains frees b d bh1 bytes1 /\ s_dirt s1 = 0 /\
    struct_at 0 bytes1 = Ret (if s_dirt s =? 0 then es else counted_super o es) /\
    supers st1 = <[sb := s1]> (supers st) /\ sb_infos (ext st1) = sb_infos (ext st) /\
    io (wcache st1) = io (wcache st) /\ heap (wcache st1) = heap (wcache st) /\ bdata (wcache st1) = <[d := bytes1]> (bdata (wcache st)).
Proof.
  intros Hm Hes. destruct (Z.eqb_spec (s_dirt s) 0) as [Ed|Ed]; cbn [negb].
  - exists st, s, bh, bytes. split; [done|]. split; [done|]. split; [done|]. split; [done|]. destruct Hm.
    split; [by rewrite insert_id|]. split; [done|]. split; [done|]. split; [done|]. by rewrite insert_id.
  - destruct (write_super_spec _ _ _ _ _ _ _ _ _ _ _ _ Hm Hes) as (c & bytes' & R & Hm' & Hg & Hio & Hh & Hbd).
    rewrite R. do 4 eexists. split; [done|]. split; [exact Hm'|]. split; [done|]. split; [done|].
    split; [done|]. split; [done|]. done.
Qed.

(** Unmounting.  If the file system was changed, ext2_put_super stores the
    free counts in the superblock of the buffer; it releases the buffer,
    frees the ext2 data of the superblock and clears the pointer to it.  The
    disk is not written: the counts are on disk only if the buffer is written
    later. *)
Theorem ext2_put_super_correct st sb s i o chains frees b d bh bytes es n :
  mounted_sb st sb s i o chains frees b d bh bytes -> struct_at 0 bytes = Ret es ->
  ka_live (heap (wcache st)) i -> ka_room (heap (wcache st)) n ->
  exists st' s' bytes', ext2_put_super (Some sb) st = Ret st' /\
    supers st' = <[sb := s']> (supers st) /\ s_fs_info s' = None /\ s_dirt s' = 0 /\
    sb_infos (ext st') = delete i (sb_infos (ext st)) /\
    bdata (wcache st') = <[d := bytes']> (bdata (wcache st)) /\
    struct_at 0 bytes' = Ret (if s_dirt s =? 0 then es else counted_super o es) /\
    (exists frees', cache_ok (wcache st') chains frees' /\ frees' ≡ₚ b :: frees) /\
    io (wcache st') = asm_sti (asm_cli (io (wcache st))).
Proof.
  intros Hm Hes Hlive Hroom. destruct (sync_if_dirty _ _ _ _ _ _ _ _ _ _ _ _ Hm Hes)
    as (st1 & s1 & bh1 & bytes1 & R & Hm1 & Ed & Hg & Hsup & Hinf & Hio & Hh & Hbd).
  unfold ext2_put_super, EXT2_SB. rewrite (ms_super _ _ _ _ _ _ _ _ _ _ _ Hm). cbn [deref]. bind_rets.
  rewrite (ms_info _ _ _ _ _ _ _ _ _ _ _ Hm). cbn [deref]. bind_rets. rewrite R. bind_rets. destruct Hm1.
  rewrite ms_object0. cbn [deref]. bind_rets. rewrite ms_sbh0. unfold fs_do, brelse_blk.
  destruct (brelse_spec _ chains frees b bh1 ms_cache0 ms_cached0 ms_buf0 ms_held0) as (c & Rb & Hok & Hbufs & Hbdc & Hioc).
  rewrite Rb. bind_rets. unfold free_info, kfree_obj.
  cbn [ka_kfree world_free]. unfold wheap. cbn [ext efs set_efs set_ext cache set_cache].
  assert (Hhc : heap c = heap (wcache st)) by (by rewrite (brelse_heap _ _ _ Rb), Hh).
  destruct (ka_kfree_ok i (heap c) n) as (a & Rf & _); [by rewrite Hhc..|].
  rewrite Rf. bind_rets. unfold upd_super. cbn [supers set_sb_infos set_efs set_ext]. rewrite ms_super0. cbn [deref]. bind_rets.
  exists (set_supers (<[sb := set_s_fs_info None s1]> (supers st1))
    (set_ext (mk_world (set_cache (BufferCache.set_heap a c) (efs (ext st1))) (delete i (sb_infos (ext st1)))) st1)),
    (set_s_fs_info None s1), bytes1.
  split; [done|]. cbn [supers set_supers ext set_ext sb_infos efs cache set_cache bdata io BufferCache.set_heap].
  split; [by rewrite Hsup, insert_insert_eq|]. split; [done|]. split; [done|]. split; [by rewrite Hinf|].
  split; [by rewrite Hbdc, Hbd|]. split; [done|]. split; [|by rewrite Hioc, Hio].
  eexists. split; [by apply cache_ok_heap|]. destruct (stale bh1); [done|]. by rewrite Permutation_app_comm.
Qed.

End unmount.

(** ** Whole runs *)

Section runs.
Context {S A : Type} `{PIO : PortIO S} `{KAS : KAllocSpec A} `{KFr : !KFree A} `{KCF : KCacheFree A} `{Env : Ext2Env}.
Abbreviation world := (vfs_st (ext2_world S A)).
Variable fresh_inode : Z -> inode.
Implicit Types (st : world).

(** C32. No run of the VFS attaches an inode to a dentry.  From zeroed static
    memory, after any sequence of calls that returned, no dentry has an inode,
    d_instantiate dereferences NULL, and mounting never yields a superblock:
    nothing initialises the list of dentries of an inode. *)
Theorem vfs_never_mounts st0 st : dentries st0 = ∅ -> (forall k n, vnodes st0 !! k = Some n -> n = mk_list_head None None) ->
  rtc (vfs_step fresh_inode) st0 st ->
  (forall d x, dentries st !! d = Some x -> d_inode x = None) /\
  (forall d i, is_Some (dentries st !! d) -> d_instantiate (Some d) (Some i) st = Fault) /\
  (forall sb data silent st' r, ext2_read_super sb data silent st = Ret (st', r) -> r = None).
Proof.
  intros Hd Hn Hr. assert (Hb : bare st).
  { eapply vfs_run_bare; [exact Hr|]. split; [|by rewrite Hd]. split; [by intros k n Hk; rewrite (Hn _ _ Hk)|by intros p n Hk%Hn]. }
  split; [by apply bare_dentry|]. split; [intros; by apply d_instantiate_faults|].
  intros sb data silent st' r E. by destruct (ensures_Ret _ _ _ (ext2_read_super_none sb data silent st Hb) E).
Qed.

(** What open installs.  When the path is found, open allocates a file with
    one reference, puts it into the first free slot of the task and advances
    the slot; but the file has neither a dentry nor an operation table, so that
    every read and write of it returns -1. *)
Theorem open_unreadable st st1 nd path flags mode t c n :
  path_lookup fresh_mem env_fuel path 0 (Some stack_nd) st = Ret (st1, nd, 0) ->
  vfs_file_cache st1 = Some c -> cache_room (wheap (ext st1)) c (Datatypes.S n) ->
  0 <= first_free_filp t < NR_OPEN -> length (filp t) = Z.to_nat NR_OPEN ->
  exists st2 t2 f, open path flags mode (Some t) st = Ret (st2, Some t2, None) /\
    filp t2 !! Z.to_nat (first_free_filp t) = Some (Some f) /\ first_free_filp t2 = first_free_filp t + 1 /\
    files st2 !! f = Some (mk_file None None 1 0 0 0 0 0) /\
    (forall n pos, vfs_read (Some f) true n pos st2 = Ret (st2, -1, [], pos)) /\
    (forall bytes pos, vfs_write (Some f) (Some bytes) pos st2 = Ret (st2, -1, pos)).
Proof.
  intros Hp Hc Hroom Hff Hlen. unfold NR_OPEN in *. unfold open. rewrite Hp. bind_rets. change (0 =? -1) with false. cbv iota.
  unfold zalloc_file. rewrite Hc. cbn [deref]. bind_rets. cbn [ka_cache_alloc world_alloc]. unfold on_wheap.
  destruct (ka_cache_alloc_ok c _ _ (proj1 Hroom) (proj2 Hroom)) as (a & f & Ra & _). rewrite Ra. bind_rets. unfold init_file_entry, upd_file.
  cbn [files new_nodes set_vnodes set_files]. rewrite lookup_insert_eq. cbn [deref]. bind_rets. rewrite decide_True by done.
  eexists _, _, f. split; [done|]. cbn [filp first_free_filp files set_files].
  assert (Hf : forall m : gmap Z file, <[f := set_f_pos 0 (set_f_count (u32 (0 + 1)) (mk_file None None 0 0 0 0 0 0))]> m !! f
    = Some (mk_file None None 1 0 0 0 0 0)) by (intros m; apply lookup_insert_eq).
  split; [apply list_lookup_insert_eq; rewrite Hlen; lia|]. split; [by rewrite s32_small by lia|]. split; [apply Hf|].
  split; intros; unfold vfs_read, vfs_write, file_op; cbn [files set_files];
    change (u32 (0 + 1)) with (u32 1); cbn [f_count]; rewrite Hf; done.
Qed.

End runs.

(** ** Concrete instances *)

#[local] Instance some_env : Ext2Env := {|
  ext2_dir_inode_operations := 1000; ext2_file_inode_operations := 1100; ext2_file_operations := 1200;
  ext2_sops := 1300; ext2_fs_type := 1400; env_fuel := 4; env_patience := 2; node_addr := fun _ => 0;
  gap_byte := fun _ _ => 0; stack_inode := zero_inode; stack_byte := 0; stack_nd := mk_nd (Some 5) None 0 0 None;
  fresh_mem := junk_dentry; fresh_info := mk_sb_object (mk_sb_info 0 0 0 0 0 0 0 0 0 0 0) None None |}.

Definition null_nodes (ks : list vnode) : gmap vnode (list_head vnode) := list_to_map ((fun k => (k, mk_list_head None None)) <$> ks).
(** A regular file of 2000 bytes, opened once. *)
Definition some_file_inode : inode := mk_inode DEV_NO 9 1 0x81a4 1 0 0 0 2000 0 0 0 I_DIRTY 4 (Some 1100) (Some 1200) (Some 70).
Definition some_super : super_block := mk_super_block DEV_NO 1024 0 (Some 1300) 0 0 None 1 None.
Definition some_world (fs : ext2_st sim Z) : vfs_st (ext2_world sim Z) :=
  mk_vfs {[5 := mk_dentry 1 0 (Some 64) (Some 5) (replicate 30 0) None None]} {[64 := some_file_inode]}
    {[300 := mk_file (Some 5) (Some 1200) 1 0 0 100 0 0]} {[70 := some_super]}
    ∅ ∅ (null_nodes (inode_nodes 64)) None None None None (Some 8) false (mk_world fs ∅).

Lemma some_world_live fs : inode_live 64 some_file_inode (some_world fs).
Proof. split; [done|]. intros k Hk. repeat (apply elem_of_cons in Hk as [-> |Hk]; [by eexists|]). by apply elem_of_nil in Hk. Qed.

Lemma ext2_lookup_finds_nothing_witness :
  ext2_lookup (Some 64) (Some 5) (some_world (fs8_on sim_start)) = Ret (some_world (fs8_on sim_start), None).
Proof. by apply (ext2_lookup_finds_nothing _ _ _ _ (mk_list_head None None) (some_world_live _)). Defined.

(** With a bound of two iterations, or nine, it does not matter what happens
    when the bound is used up. *)
Lemma file_loops_terminate_witness :
  read_loop Fault 9 64 0 2 0 [] (some_world (fs8_on sim_start)) = read_loop Spin 2 64 0 2 0 [] (some_world (fs8_on sim_start)) /\
  write_loop Fault 3 64 0 [1; 2; 3] 0 (some_world (fs8_on sim_start)) = write_loop Spin 3 64 0 [1; 2; 3] 0 (some_world (fs8_on sim_start)).
Proof.
  destruct (file_loops_terminate (some_world (fs8_on sim_start)) 64 0 2 [] 9 Fault Spin Spin Spin) as [H1 _]; [lia|simpl; lia|].
  destruct (file_loops_terminate (some_world (fs8_on sim_start)) 64 0 0 [1; 2; 3] 3 Spin Spin Fault Spin) as [_ H2]; [lia|simpl; lia|].
  split; [apply H1; simpl; lia|apply H2; simpl; lia].
Defined.

Lemma ext2_llseek_correct_witness : exists st', ext2_llseek (Some 300) 50 1 (some_world (fs8_on sim_start)) = Ret (st', 150).
Proof.
  pose proof (ext2_llseek_correct (some_world (fs8_on sim_start)) 300 _ 5 _ 64 some_file_inode 50 1 eq_refl eq_refl eq_refl eq_refl eq_refl
    ltac:(lia) ltac:(simpl; lia) ltac:(simpl; lia)) as E.
  eexists. rewrite E. reflexivity.
Defined.

Lemma ext2_write_inode_waits_witness : exists st : vfs_st (ext2_world sim Z), ext2_write_inode (Some 64) st = Spin /\ iput 64 st = Spin.
Proof.
  destruct inode_fs_boot as (fs & buf & dat & Hi & _). exists (some_world fs).
  destruct (ext2_write_inode_waits (Env := some_env) sim_patient (some_world fs) 64 some_file_inode 70 some_super buf dat ∅ _ 5 eq_refl Hi) as [H1 H2];
    [simpl; lia|lia|done|set_solver|done|done|done|]. split; [exact H1|by apply H2].
Defined.

(** 24 bytes on both sides of the middle of a block: the disk holds 7s, the buffer
    held 0s. *)
Lemma ext2_file_read_block_witness : exists (st st' : vfs_st (ext2_world sim Z)) bytes,
  ext2_file_read (Some 300) true 24 (Some 500) st = Ret (st', 24, bytes, Some 524) /\
  bytes !! 11%nat = Some 7 /\ bytes !! 12%nat = Some 0.
Proof.
  destruct inode_fs_boot as (fs & buf & dat & Hi & Edev). exists (some_world fs).
  destruct (ext2_file_read_block (Env := some_env) sim_patient (some_world fs) 300 _ 5 _ 64 some_file_inode buf dat ∅ _ (fun _ => 1) 500 24
    eq_refl eq_refl eq_refl eq_refl (some_world_live fs) (if_quiet _ _ _ _ _ _ Hi) (if_disk _ _ _ _ _ _ Hi) eq_refl)
    as (st' & bytes & mem' & R & _ & Hb & _); [done|lia|lia|simpl; lia|simpl; lia| |].
  - intros j Hj. rewrite (Z.div_small (500 + j)) by lia. split; [lia|]. split; [done|]. split; [done|set_solver].
  - exists st', bytes. split; [exact R|]. cbn [ext efs some_world] in Hb. rewrite Edev in Hb. split.
    + apply (Hb 11). lia.
    + apply (Hb 12). lia.
Defined.

Lemma open_unreadable_witness : exists (st st2 : vfs_st (ext2_world sim Z)) t2 f,
  open (Some [46]) 0 0 (Some (mk_task_files (replicate 30 None) 0)) st = Ret (st2, Some t2, None) /\
  filp t2 !! 0%nat = Some (Some f) /\ vfs_read (Some f) true 3 (Some 0) st2 = Ret (st2, -1, [], Some 0).
Proof.
  set (st := some_world (fs8_on sim_start)).
  destruct (open_unreadable (Env := some_env) st st (Some (mk_nd (Some 5) None 0 0 None)) (Some [46]) 0 0 (mk_task_files (replicate 30 None) 0) 8 0)
    as (st2 & t2 & f & R & Hf & _ & _ & Hr & _); [reflexivity|done|done|simpl; unfold NR_OPEN; lia|done|].
  exists st, st2, t2, f. split; [exact R|]. split; [exact Hf|apply Hr].
Defined.

(** A file system that was changed, mounted with its superblock buffer held. *)
Definition dirty_super : super_block := mk_super_block DEV_NO 1024 1 (Some 1300) 0 0xef53 None 1 (Some 90).
Definition mounted_world (c : bcache_st sim Z) (b d : Z) : vfs_st (ext2_world sim Z) :=
  mk_vfs ∅ ∅ ∅ {[70 := dirty_super]} ∅ ∅ ∅ None None None None None false
    (mk_world (set_cache (BufferCache.set_heap 91 c) (fs8_on sim_start)) {[90 := mk_sb_object (mk_sb_info 8 8192 1024 1 0 32 1 128 11 55 44) (Some b) (Some d)]}).

Lemma mounted_world_ok : exists c b d chains frees bh bytes,
  mounted_sb (mounted_world c b d) 70 dirty_super 90 (mk_sb_object (mk_sb_info 8 8192 1024 1 0 32 1 128 11 55 44) (Some b) (Some d))
    chains frees b d bh bytes.
Proof.
  destruct inode_fs_boot as (fs & buf & dat & Hi & Edev).
  destruct (quiet_bread (cache fs) buf dat ∅ _ 2 0 2 (globals fs) (if_quiet _ _ _ _ _ _ Hi)) as (c & _ & Hq & _);
    [done|set_solver|apply sim_patient|apply (if_disk _ _ _ _ _ _ Hi)|].
  pose proof Hq as (chains & frees & Hok & Hall). destruct (Hall 2 ltac:(done)) as (bh & Hh & Hf & Hd & Hm).
  rewrite decide_True in Hf by set_solver. rewrite upd_eq in Hm.
  exists c, (buf 2), (dat 2), chains, frees, bh, (disk (view (io (cache fs))) 2 ++ drop 512 BufferProofs.zero_block).
  pose proof (holds_cached _ _ _ _ _ Hh) as Hc. destruct Hh as (_ & Hb & _). split; try done.
  - by apply cache_ok_heap.
  - intros Hin. apply (ok_lock _ _ _ Hok _ bh Hc Hb) in Hin. by rewrite Hf in Hin.
  - change (io (cache fs)) with (dev fs). rewrite Edev. apply (bool_decide_unpack _). vm_compute. exact I.
Qed.

Lemma ext2_put_super_correct_witness : exists (st st' : vfs_st (ext2_world sim Z)) s',
  ext2_put_super (Some 70) st = Ret st' /\ supers st' !! 70 = Some s' /\ s_fs_info s' = None /\ sb_infos (ext st') = ∅.
Proof.
  destruct mounted_world_ok as (c & b & d & chains & frees & bh & bytes & Hm). exists (mounted_world c b d).
  destruct (struct_at 0 bytes : outcome ext2_super_block) as [es| |] eqn:Hes.
  2,3: exfalso; rewrite struct_at_ok in Hes by (apply super_fits, (mounted_length _ _ _ _ _ _ _ _ _ _ _ Hm)); discriminate Hes.
  destruct (ext2_put_super_correct _ _ _ _ _ _ _ _ _ _ _ es 0 Hm Hes) as (st' & s' & bytes' & R & Hs & Hi & _ & Hinf & _); [simpl; lia|done|].
  exists st', s'. split; [exact R|]. split; [rewrite Hs; apply lookup_insert_eq|]. split; [exact Hi|]. rewrite Hinf. apply delete_singleton_eq.
Defined.

(** A boot: the caches are created, ext2 is registered, and a dentry is
    allocated. *)
Definition boot_world : vfs_st (ext2_world sim Z) :=
  mk_vfs ∅ ∅ ∅ ∅ {[1400 := mk_fstype (Some [101; 120; 116; 50]) 0 None]} ∅
    (null_nodes ((DHead <$> seqZ 0 256) ++ (IHead <$> seqZ 0 4) ++ [IFreeHead; FileSystems; FsSupers 1400; FsList 1400]))
    None None None None None false (mk_world (fs8_on sim_start) ∅).
Definition blank_vfs_inode (_ : Z) : inode := mk_inode 0 0 0 0 0 0 0 0 0 0 0 0 0 0 None None None.
Definition boot_calls : list vfs_call :=
  [CallDcacheInit; CallCreateInodeCache; CallRegister (Some 1400); CallDAlloc None (Some [47]); CallIget DEV_NO 2].
Fixpoint run_calls (cs : list vfs_call) (st : vfs_st (ext2_world sim Z)) : outcome (vfs_st (ext2_world sim Z)) :=
  match cs with [] => mret st | c :: cs => st ← run_call blank_vfs_inode c st; run_calls cs st end.
Lemma run_calls_rtc cs : forall st st', run_calls cs st = Ret st' -> rtc (vfs_step blank_vfs_inode) st st'.
Proof.
  induction cs as [|c cs IH]; intros st st' Hr; cbn [run_calls] in Hr; [by injection Hr as <-; apply rtc_refl|].
  apply bind_Ret_inv in Hr as (st1 & H1 & H2). eapply rtc_l; [by exists c|by apply IH].
Qed.

Lemma boot_returns : (match run_calls boot_calls boot_world with Ret _ => true | _ => false end) = true.
Proof. vm_compute. reflexivity. Qed.

Lemma vfs_never_mounts_witness : exists st : vfs_st (ext2_world sim Z), run_calls boot_calls boot_world = Ret st /\
  forall sb data silent st' r, ext2_read_super sb data silent st = Ret (st', r) -> r = None.
Proof.
  pose proof boot_returns as Hb. destruct (run_calls boot_calls boot_world) as [st| |] eqn:Hr; [|discriminate Hb..].
  exists st. split; [reflexivity|]. destruct (vfs_never_mounts blank_vfs_inode boot_world st) as (_ & _ & Hm); [reflexivity| | |exact Hm].
  - intros k n Hk. apply elem_of_list_to_map_2, list_elem_of_fmap in Hk as (k' & [= _ ->] & _). reflexivity.
  - apply (run_calls_rtc boot_calls). exact Hr.
Defined.
